(* ===== verification/_CoqProject ===== *)
-Q . S2P
Prelude.v
Bytes.v
Fields.v
MsgBase.v
MsgConnection.v
MsgChannel.v
MsgExchange.v
MsgQueue.v
MsgBasic.v
MsgTx.v
Methods.v
Frames.v
Auth.v
Pattern.v
Delivery.v
Confirm.v
Wire.v
Errors.v
Broker.v
Decimals.v
Times.v
Numbers.v
Durations.v
Config.v
Upstream.v
Instruments.v
Exporter.v
Health.v
Stats.v
LogBuffers.v
Proxy.v
Transfer.v
Handlers.v
Replies.v
Dispatch.v
Sorting.v
Nodes.v
Server.v
Registry.v
Safety.v
Sse.v
Runes.v
Json.v
Loading.v
Urls.v
Answers.v
LogText.v
ApiClient.v
Api.v
Serving.v
Calls.v
Manage.v
Secrets.v
Layout.v
Tui.v
Session.v
View.v
Connection.v
Fleet.v
Boot.v
