(* ===== verification/Prelude.v ===== *)
(** * trabbits: an AMQP 0-9-1 proxy for one or two RabbitMQ upstreams

    A client connects to trabbits as to a broker. For each client the proxy opens a
    connection to every configured upstream, publishes a message to the upstream its
    routing key chooses, consumes from all upstreams, and makes declarations on all of
    them. The server keeps a registry of its clients, watches the nodes of clustered
    upstreams, serves an HTTP interface, and has a terminal interface that talks to it.
    This library is a model of that program in functions, and the theorems that make its
    parts correct.

    ** How the program is modelled

    - A function with an [error] result is a function into [result]. A function that
      changes state is an element of [stm S E A], which takes a state and gives a
      result and a new state: an error keeps the changes made before it, as in Go.
    - Run-time panics are errors that no [if err != nil] sees ([Panic], [GoPanic]), or
      [None] where nothing else can go wrong, as in the terminal interface, where every
      index and every slice of a list or a text out of range is one; a loop that may not end
      has fuel, and [OutOfFuel] or [Hang] when it runs out. A panic in a handler of the
      API aborts its answer ([Api]), one in a connection is recovered ([Connection]), one in a
      goroutine that nobody guards ends the process ([Boot]). The panics of a reload are
      those of slices of a hash that is empty ([sliceable] in [Server]).
    - Integers are [Z] with their width written out where it matters ([uwrap],
      [swrap]); byte slices and strings are sequences of bytes; a float is its bits in the
      protocol, and the rational number it stands for where it is computed with.
    - Input is a [stream]: bytes and the error that comes after them, end of file or a
      passed read deadline. It is finite, so a client that never pauses is one of which any
      number of bytes is given ([heartbeats_hold] in [Connection]). A write to a client that
      never comes back is an error [OutOfFuel], which the theorems about whole connections
      exclude. Output goes through a model of [bufio.Writer].
    - The client library [rabbitmq/amqp091-go] and the servers behind it are not part
      of the program: they are a [Broker], an argument that answers each call and may
      depend on all calls made before. So are random numbers, the choice Go makes among
      the entries of a map, and what the client's connection does with a write ([Env]);
      dialling ([Surroundings]), the rate limiter ([Limiter]), the sorting of long slices
      ([Pdq], [StableSort]: some permutation, sorted where the comparison is an order),
      the terminal ([Terminal]), the text of floats and of points in time ([Floats],
      [TimeText]), the operating system ([Machine]) and OpenTelemetry ([Sdk]). The classes
      have what is documented of this code as laws, and every class has an instance that
      the witnesses are computed with.
    - What the program uses of Go's standard library (JSON, URLs, the scanner, the matching
      of routes, [os.Expand], durations as text, UTF-8, floats) is defined as the library
      has it, in [Times], [Decimals], [Durations], [Json], [Urls], [Sse], [Runes], [Numbers],
      [Loading] and [Serving]; it is there so that what is shown of the program is shown of
      its bytes.
    - Pointers that are shared are indices into a store: confirm states, the clients of
      the server, subscriptions. Goroutines that share state are steps, and what they
      may do together is every sequence of steps.

    ** Files

    - [Prelude]: results, the state and error monad, loops over lists.
    - [Bytes]: integers of a width, big-endian numbers, [io.ReadFull],
      [io.LimitedReader], [binary.Read] and [binary.Write]; what it means that a reader
      reads what a writer wrote ([rt]), that it ends ([settles]) and that it only takes
      bytes off its input ([lossy]), with hint databases that prove these for composed
      readers.

    The protocol:
    - [Fields] (amqp091/read.go, write.go): strings, timestamps, field values, tables.
    - [MsgBase] and [MsgConnection], [MsgChannel], [MsgExchange], [MsgQueue], [MsgBasic],
      [MsgTx] (amqp091/spec091.go): the 64 messages. The class [Message] is the Go
      interface; [MessageOk] states that what [Write] wrote [Read] reads back, and has an
      instance for every message, on which everything above them relies.
    - [Methods] (spec091.go): the sum of all messages and [ParseMethodFrame]'s choice.
    - [Frames] (read.go, write.go, types.go): the four frame types.
    - [Auth] (amqp091/auth.go), [Pattern] (pattern/match.go).
    - [Delivery] (delivery.go) and [Confirm] (confirm.go): the two number translations.
    - [Wire] (write.go): frames through the buffered writer to the connection.

    A connection:
    - [Errors] (error.go), [Broker] (the client library), [Config] (config/config.go).
    - [Upstream] (upstream.go): channels of an upstream, queue declarations, clean-ups.
    - [Proxy] (proxy.go): the state of a connection ([World]), [send], [recv], the choice
      of channels; [Transfer]: proofs about [send] and [recv].
    - [Handlers] (methods.go, confirm.go, delivery.go): a function per method of the
      client, and the turns of the goroutines [listenConfirm] and [consume]; [Replies]:
      proofs about the handlers.
    - [Dispatch] (proxy.go): handshake, [process], errors, shutdown.
    - [Nodes] (proxy.go, upstream.go): connecting to the upstreams and closing, with the
      gauges that count connections, and the connections that are left open when there is no
      channel for the clean-ups.
    - [Connection] (server.go, [handleConnection]): a connection from its header to what is
      deferred, over any interleaving of the turns of its goroutines.
    - [Fleet] (server.go): all connections of a server and the requests to it as one step
      relation, each connection in a phase of [handleConnection].

    The server:
    - [Times]: clock readings and durations; [Sorting]: the package [sort].
    - [Instruments] (metrics/): counters, gauges, the proxy's metrics; [Exporter]
      (metrics/exporter.go, store.go): the exporter the environment asks for, the store of a
      server.
    - [Health] (health/health.go): the states of the nodes of a cluster and their monitor.
    - [Stats] (stats.go): what is counted for a client.
    - [LogBuffers] (probe.go, log_buffer.go): the retained log of a client and its live
      channel; the server's log and its subscribers with their goroutines.
    - [Server] (server.go): the registry of clients with the cache of those that have
      gone, queries, disconnection, reload; [Registry] and [Safety]: proofs about it, over
      all reachable states and against panics of a connection's turns.

    - [Boot] (server.go, api.go): [run] with its deferred calls on the files, the sockets and
      the metrics of a process, and [boot], its loop and its goroutine, over [Fleet]. It
      comes last.

    The configuration as text:
    - [Decimals] and [Durations]: integers and [time.Duration], written and parsed.
    - [Json]: [encoding/json], from text to values and back, strings and invalid UTF-8
      included.
    - [Loading] (config/config.go): a [codec] for every type of the configuration, by the
      tags of its fields, and what the laws of codecs make of all of them together;
      [os.Expand], [Load], [String].

    The interfaces:
    - [Api] (api.go): the HTTP handlers as functions of request and server; [Sse]
      (apiclient/probe.go): the client's reader of event streams over [bufio.Scanner].
    - [Urls]: what client and server use of [net/url] and [path]; [Answers] (types/client.go)
      and [LogText]: the codecs of what the API answers and of the entries of logs.
    - [ApiClient] (apiclient/): the class [APIClient] is the Go interface that the commands
      are written against, and [HTTPClient] its implementation over a function from
      requests to answers.
    - [Serving] (api.go): that function for a server: routes, the matching of paths, the
      handlers, their JSON. [Calls]: proofs about client and server together.
    - [Manage] (cli.go, manage.go, test.go, util.go): the commands, for any [APIClient], and at
      a server. [Secrets]: where passwords show, over the whole API and the commands.
    - [Layout] and [Runes] (tui/scroll.go, format.go, view.go): scrolling, the choice of
      the log entries to show, UTF-8 and the wrapping of lines; [Numbers] (format.go):
      durations and numbers, with every float operation rounded to 53 bits.
    - [Tui] (tui/model.go, tui.go): the state of the terminal interface, [Update] with all
      messages and keys, its commands; [Session]: the interface with its commands at any
      [APIClient]; [View] (view.go): the texts of its views.

    Names are those of the Go code. A field [F] of a struct [S] is [S_F]; [ReadFrame]
    and the like are the methods of [Reader] and [Writer]; what the files declare under
    the same name is told apart by the file, as [Upstream.GetChannel] and
    [Proxy.GetChannel].

    ** What is proved

    - Codec (C1, C22, C33): reading what was written gives the same frame, table or message up
      to a canonical form, for well-formed data; parsing ends on every input. Further:
      bytes reach the connection in order, what a frame read stood for, exactly which
      values cannot be written, SASL responses.
    - Transfer (C2, C3): a message is split into the right frames in the right order,
      and assembled from them again. Further, the cases where a message is stuck in the
      buffer, cut, or rejected.
    - The conversation (C4, C17): the handshake and its authentication, the turn of the
      loop that serves a message, and what becomes of errors.
    - Life of a connection (C5, C11, C16, C18): every end leaves the registry and the
      gauges as they should be, up to the connections that are left open; a signal ends the
      loop whatever is interleaved, unless the client keeps sending heartbeats; connecting
      and closing balance. Further: upstream nodes are tried in order.
    - All connections (C15): in every interleaving of connections and requests the
      registry takes only steps of its own, the gauges count what there is, and at the
      end nothing is left but what was left open. Further: a connection alone, as the
      function has it, is one such interleaving; one that is cancelled can get to its end.
    - Confirms (C6, C8, C9): the handlers of a channel in confirm mode implement
      the abstract confirm state, for every interleaving of publishes and confirmations;
      in it every publish is answered with its own number, at most once, and exactly
      once when the upstreams confirm all.
    - Delivery tags, routing and handlers (C19, C20, C27): patterns mean
      topic matching; tags are restored and acknowledgements reach the right upstream.
      Further: the calls and the answer of each handler, overridden queue attributes, the
      life of a channel number, clean-ups at close.
    - Registry (C10, C21, C39): the invariant of the registry in all reachable states; what a
      reload does to it, its panics included; what a query lists. Further: the time a
      disconnection is given; logs survive their connection.
    - A process (C35, C38): what a run leaves behind on every way out; accepting,
      stopping, crashing and returning in order, in every interleaving with the connections.
      Further: a signal to reload crashes the process when there is no hash; what a second
      process with the same files does, which exporter is made and for which resource.
    - Configuration (C24, C26, C32): what loads is valid and complete; what is
      printed loads again, with masks for passwords, and neither the API nor the commands
      tell anything of these. Further: JSON and durations that are written are read back;
      what valid means; a text with bad values, negative numbers.
    - Watching (C12, C13, C34): the monitor implements the abstract verdict on each
      node, and its gauges count them; statistics are the counts of the history modulo
      2^64; subscribers of the log get what was logged. Further: the retained log, the
      choice of healthy nodes, a panic of the log's goroutine.
    - The API from end to end (C14, C28, C29, C30, C31, C40): a call of the client has the
      effect on the server that it is for, and gets what the server has, through URL, routes,
      JSON and event stream; what becomes of passwords, and of logs that are too long for
      the reader. Further: refused reloads, identifiers that are no plain names.
    - Terminal and commands (C7, C23, C25, C36, C37): the terminal interface never panics, nor
      does drawing it; at any client of the API the calls that shut clients down are the
      questions that were answered with yes, no more and no fewer; they are only made in
      answer to a yes; what of the logs is shown. Further: the selection follows its client,
      wrapping loses nothing, durations and numbers are rounded as they should be; what the
      commands print.

    ** Fuel

    Readers get the number of bytes in their stream: every turn of their loops and every
    nested value takes at least one byte ([settles] in [Fields] and [Frames], [ReadFrame_total]).
    [recv] gets one more than the bytes of the input ([recv_total] in [Transfer]). The loop of
    [send] gets the length of the body, which is enough when a frame takes at least one byte
    of it, that is, when the frame size exceeds 8 ([send_frames]), and never enough
    otherwise ([send_tiny_frames]). [scan] in [Sse] and [runes] in [Runes] get the length of
    their text, of which every turn takes at least a byte; [chunks] in [View], the
    parsers of [Json] and [Durations] and [Expand] in [Loading] likewise. [matchPath] in
    [Serving] gets the length of the path, and every segment has a slash at least.

    ** What is not modelled

    Interleaving: each handler, and each turn of a goroutine, is one step on the
    [World]; the histories of [Confirm], the [turns] of [Replies] and the events of
    [Connection] are the interleavings within a connection, the steps of [Registry] those
    of connections, queries and reloads on the registry, those of [Fleet] both: there the
    handshake, the dialling of the upstreams, a turn of the loop, and each of the deferred
    calls are steps. A data race inside one step is
    not modelled. Logging has no effect but on the log buffers. Contexts are numbers that
    are cancelled; timers and deadlines are events that may come at any time.

    Parameters for want of code to read, or of tables: Jsonnet, the diff of two
    configurations, [gob] with the hash made from it, the answer of [ServeMux] to a path
    that no route matches or that is not clean, the text of floats and times, the widths
    and styles of characters, Go's quoting of strings, what a command line means. The
    transport of the client is the function of the server; its time limit, redirects and
    addresses over HTTP are left out. A nil slice and an empty one are not told apart in
    JSON.

    Left out: [main], the generator of spec091.go (its output is modelled), socket options,
    the profiler, the set-up of the log's output.

    The plan goes on with the life of the channels of probe logs between a stream and a
    connection, the timers of heartbeats, and the data race of the terminal's command. *)

From stdpp Require Export base list gmap strings.
From Stdlib Require Export ZArith Lia.
From Stdlib Require Import Strings.Byte.

#[export] Set Default Goal Selector "!".
#[export] Set Warnings "-clear-no-such-hyp".

(** ** Results

    A Go function that returns a value and an [error] is a [result]: [Ok v]
    when the error is [nil], [Err e] otherwise. *)

Inductive result (E A : Type) : Type :=
| Ok (a : A)
| Err (e : E).
Arguments Ok {E A} _.
Arguments Err {E A} _.

#[export] Instance result_ret E : MRet (result E) := fun _ a => Ok a.
#[export] Instance result_bind E : MBind (result E) :=
  fun _ _ f r => match r with Ok a => f a | Err e => Err e end.
#[export] Instance result_fmap E : FMap (result E) :=
  fun _ _ f r => match r with Ok a => Ok (f a) | Err e => Err e end.

#[export] Instance result_eq_dec E A `{EqDecision E, EqDecision A} :
  EqDecision (result E A).
Proof. solve_decision. Defined.

Definition is_ok {E A} (r : result E A) : bool :=
  match r with Ok _ => true | Err _ => false end.

Lemma Ok_inj {E A} (a b : A) : @Ok E A a = Ok b -> a = b.
Proof. congruence. Qed.

(** ** Numbers below a bound

    What holds of each of them, one by one. *)

Lemma each_below (P : Z -> Prop) k n : Forall P (seqZ 0 k) -> (0 <= n < k)%Z -> P n.
Proof. intros F Hn. rewrite Forall_forall in F. apply F, elem_of_seqZ. lia. Qed.

Lemma each_below_N (P : N -> Prop) k n : Forall (fun z => P (Z.to_N z)) (seqZ 0 (Z.of_N k)) -> (n < k)%N -> P n.
Proof.
  intros F Hn. rewrite <- (N2Z.id n). apply (each_below (fun z => P (Z.to_N z)) (Z.of_N k)); [done|lia].
Qed.

(** ** Stateful code that can fail

    [stm S E A]: a computation on a state [S] that returns a value or an error; the
    state changes made before an error stay. *)

Definition stm (S E A : Type) : Type := S -> result E A * S.

#[export] Instance stm_ret S E : MRet (stm S E) := fun _ a s => (Ok a, s).
#[export] Instance stm_bind S E : MBind (stm S E) := fun _ _ k m s =>
  match m s with (Ok a, s') => k a s' | (Err e, s') => (Err e, s') end.

Definition throw {S E A} (e : E) : stm S E A := fun s => (Err e, s).
Definition gets {S E A} (f : S -> A) : stm S E A := fun s => (Ok (f s), s).
Definition modify {S E} (f : S -> S) : stm S E () := fun s => (Ok (), f s).

(** [m] with its error wrapped: [fmt.Errorf("...: %w", err)]. *)
Definition wrap {S E E' A} (f : E -> E') (m : stm S E A) : stm S E' A := fun s =>
  match m s with (Ok a, s') => (Ok a, s') | (Err e, s') => (Err (f e), s') end.

(** [for _, x := range l { if err := f(x); err != nil { return err } }]. *)
Fixpoint forM {S E A} (l : list A) (f : A -> stm S E ()) : stm S E () :=
  match l with
  | [] => mret ()
  | x :: l' => _ ← f x; forM l' f
  end.

Lemma stm_bind_ok {S E A B} (m : stm S E A) (k : A -> stm S E B) s a s' :
  m s = (Ok a, s') -> (m ≫= k) s = k a s'.
Proof. unfold mbind, stm_bind. by intros ->. Qed.

Lemma stm_bind_err {S E A B} (m : stm S E A) (k : A -> stm S E B) s e s' :
  m s = (Err e, s') -> (m ≫= k) s = (Err e, s').
Proof. unfold mbind, stm_bind. by intros ->. Qed.

Lemma stm_bind_inv {S E A B} (m : stm S E A) (k : A -> stm S E B) s b s' :
  (m ≫= k) s = (Ok b, s') -> exists a s1, m s = (Ok a, s1) /\ k a s1 = (Ok b, s').
Proof. unfold mbind, stm_bind. destruct (m s) as [[a|e] s1]; [eauto|done]. Qed.

Lemma gets_bind {S E A B} (f : S -> A) (k : A -> stm S E B) s : (gets f ≫= k) s = k (f s) s.
Proof. done. Qed.

Lemma modify_bind {S E B} (f : S -> S) (k : () -> stm S E B) s :
  (modify f ≫= k) s = k () (f s).
Proof. done. Qed.

Lemma wrap_ok {S E E' A} (f : E -> E') (m : stm S E A) s a s' :
  m s = (Ok a, s') -> wrap f m s = (Ok a, s').
Proof. unfold wrap. by intros ->. Qed.

Lemma wrap_err {S E E' A} (f : E -> E') (m : stm S E A) s e s' :
  m s = (Err e, s') -> wrap f m s = (Err (f e), s').
Proof. unfold wrap. by intros ->. Qed.

(** A property of the state that [m] keeps, whatever it returns. *)
Definition keeps {S E A} (P : S -> Prop) (m : stm S E A) : Prop :=
  forall s, P s -> P (m s).2.

Lemma keeps_ret {S E A} (P : S -> Prop) (a : A) : keeps P (mret (M := stm S E) a).
Proof. by intros s H. Qed.

Lemma keeps_throw {S E A} (P : S -> Prop) (e : E) : keeps P (@throw S E A e).
Proof. by intros s H. Qed.

Lemma keeps_gets {S E A} (P : S -> Prop) (f : S -> A) : keeps P (@gets S E A f).
Proof. by intros s H. Qed.

Lemma keeps_modify {S E} (P : S -> Prop) f :
  (forall s, P s -> P (f s)) -> keeps P (@modify S E f).
Proof. intros H s Hs. by apply H. Qed.

Lemma keeps_bind {S E A B} (P : S -> Prop) (m : stm S E A) (k : A -> stm S E B) :
  keeps P m -> (forall a, keeps P (k a)) -> keeps P (m ≫= k).
Proof.
  intros Hm Hk s Hs. unfold mbind, stm_bind. specialize (Hm s Hs).
  destruct (m s) as [[a|e] s']; [|done]. by apply Hk.
Qed.

Lemma keeps_wrap {S E E' A} (P : S -> Prop) (f : E -> E') (m : stm S E A) :
  keeps P m -> keeps P (wrap f m).
Proof.
  intros Hm s Hs. unfold wrap. specialize (Hm s Hs). by destruct (m s) as [[a|e] s'].
Qed.

Lemma keeps_forM {S E A} (P : S -> Prop) (l : list A) (f : A -> stm S E ()) :
  (forall x, keeps P (f x)) -> keeps P (forM l f).
Proof. intros Hf. induction l; [apply keeps_ret|]. by apply keeps_bind. Qed.

Create HintDb keeps discriminated.
#[export] Hint Resolve keeps_ret keeps_throw keeps_gets keeps_modify keeps_bind keeps_wrap
  keeps_forM : keeps.

(** [trav f l] is the Go loop [for _, x := range l { if err := f(x) ... return
    err }]: it stops at the first error. *)
Fixpoint trav {E A B} (f : A -> result E B) (l : list A) : result E (list B) :=
  match l with
  | [] => Ok []
  | x :: l' => y ← f x; ys ← trav f l'; Ok (y :: ys)
  end.

Lemma trav_ok_Forall2 {E A B} (f : A -> result E B) l ys :
  trav f l = Ok ys <-> Forall2 (fun x y => f x = Ok y) l ys.
Proof.
  revert ys; induction l as [|x l IH]; intros ys; simpl.
  - split; [intros [= <-]; constructor | intros H; by inversion H].
  - split.
    + destruct (f x) as [y|e] eqn:Hx; simpl; [|done].
      destruct (trav f l) as [zs|e] eqn:Hl; simpl; [|done].
      intros [= <-]. constructor; [done|]. by apply IH.
    + intros H. inversion H as [|? y ? zs Hx Hl]; subst. rewrite Hx; simpl.
      apply IH in Hl. by rewrite Hl.
Qed.

Lemma trav_length {E A B} (f : A -> result E B) l ys :
  trav f l = Ok ys -> length ys = length l.
Proof. intros H%trav_ok_Forall2. by apply Forall2_length in H. Qed.

(** ** Text *)

Lemma append_assoc (a b c : string) : (a +:+ b) +:+ c = a +:+ (b +:+ c).
Proof. induction a as [|x a IH]; [done|]. exact (f_equal (String x) IH). Qed.

Lemma append_nil (a : string) : a +:+ "" = a.
Proof. induction a as [|x a IH]; [done|]. exact (f_equal (String x) IH). Qed.

Lemma length_append (a b : string) : String.length (a +:+ b) = (String.length a + String.length b)%nat.
Proof. induction a as [|x a IH]; [done|]. exact (f_equal S IH). Qed.
