(* ===== verification/Bytes.v ===== *)
(** * Bytes, machine integers and byte streams

    What [amqp091/read.go] and [amqp091/write.go] use of Go's
    [encoding/binary], [io] and [bytes]: fixed-width integers in network byte
    order, an [io.Reader] as a stream of bytes that ends in an error, and a
    buffer writer that appends bytes or fails. *)

From Stdlib Require Import Strings.Byte.
From S2P Require Import Prelude.

Open Scope Z_scope.

(** ** Bytes and fixed-width integers *)

Abbreviation byte := Byte.byte.

#[export] Instance byte_eq_dec : EqDecision byte := Byte.byte_eq_dec.

Definition Z_of_byte (b : byte) : Z := Z.of_N (Byte.to_N b).

(** The Go conversion [byte(z)]: the low eight bits. *)
Definition byte_of_Z (z : Z) : byte :=
  match Byte.of_N (Z.to_N (z mod 256)) with Some b => b | None => Byte.x00 end.

(** [uwrap w z] is the conversion of an integer to [uintw], [swrap w z] to
    [intw] (two's complement). *)
Definition uwrap (w z : Z) : Z := z mod 2 ^ w.
Definition swrap (w z : Z) : Z := (z + 2 ^ (w - 1)) mod 2 ^ w - 2 ^ (w - 1).

Definition in_uint (w z : Z) : bool := (0 <=? z) && (z <? 2 ^ w).
Definition in_int (w z : Z) : bool := (- 2 ^ (w - 1) <=? z) && (z <? 2 ^ (w - 1)).

Lemma Z_of_byte_range b : 0 <= Z_of_byte b < 256.
Proof. unfold Z_of_byte. pose proof (Byte.to_N_bounded b). lia. Qed.

Lemma Z_of_byte_of_Z z : Z_of_byte (byte_of_Z z) = z mod 256.
Proof.
  unfold byte_of_Z, Z_of_byte.
  pose proof (Z.mod_pos_bound z 256 ltac:(lia)) as Hb.
  destruct (Byte.of_N (Z.to_N (z mod 256))) as [b|] eqn:E.
  - apply Byte.to_of_N in E. rewrite E. lia.
  - apply Byte.of_N_None_iff in E. lia.
Qed.

Lemma byte_of_Z_of_byte b : byte_of_Z (Z_of_byte b) = b.
Proof.
  unfold byte_of_Z. rewrite Z.mod_small by apply Z_of_byte_range.
  unfold Z_of_byte. by rewrite N2Z.id, Byte.of_to_N.
Qed.

Lemma in_uint_spec w z : in_uint w z = true <-> 0 <= z < 2 ^ w.
Proof. unfold in_uint. rewrite andb_true_iff, Z.leb_le, Z.ltb_lt. done. Qed.

Lemma in_int_spec w z : in_int w z = true <-> - 2 ^ (w - 1) <= z < 2 ^ (w - 1).
Proof. unfold in_int. rewrite andb_true_iff, Z.leb_le, Z.ltb_lt. done. Qed.

Lemma uwrap_small w z : in_uint w z = true -> uwrap w z = z.
Proof. intros H%in_uint_spec. by apply Z.mod_small. Qed.

Lemma in_uint_uwrap w z : 0 <= w -> in_uint w (uwrap w z) = true.
Proof.
  intros Hw. apply in_uint_spec. apply Z.mod_pos_bound. by apply Z.pow_pos_nonneg.
Qed.

(** Reading back the [w]-bit pattern of a signed value as signed gives its
    [w]-bit truncation. *)
Lemma swrap_uwrap w z : 0 < w -> swrap w (uwrap w z) = swrap w z.
Proof.
  intros Hw. unfold swrap, uwrap.
  rewrite Z.add_mod_idemp_l; [done|]. pose proof (Z.pow_pos_nonneg 2 w). lia.
Qed.

Lemma swrap_idemp_l a b : swrap 64 (swrap 64 a + b) = swrap 64 (a + b).
Proof.
  unfold swrap. f_equal.
  replace ((a + 2 ^ (64 - 1)) mod 2 ^ 64 - 2 ^ (64 - 1) + b + 2 ^ (64 - 1))
    with ((a + 2 ^ (64 - 1)) mod 2 ^ 64 + b) by lia.
  rewrite Zplus_mod_idemp_l. f_equal. lia.
Qed.

Lemma swrap_idemp_r a b : swrap 64 (a + swrap 64 b) = swrap 64 (a + b).
Proof. rewrite (Z.add_comm a), swrap_idemp_l. f_equal. lia. Qed.

Lemma swrap_small w z : 0 < w -> in_int w z = true -> swrap w z = z.
Proof.
  intros Hw [Hl Hu]%in_int_spec. unfold swrap.
  replace w with (Z.succ (w - 1)) at 2 by lia.
  rewrite Z.pow_succ_r by lia. rewrite Z.mod_small; lia.
Qed.

(** ** Network byte order *)

(** [binary.BigEndian.PutUint16/32/64] and the shifts of [writeFrame]. *)
Fixpoint be_encode (n : nat) (z : Z) : list byte :=
  match n with
  | O => []
  | S n' => byte_of_Z (Z.shiftr z (8 * Z.of_nat n')) :: be_encode n' z
  end.

(** [binary.BigEndian.Uint16/32/64]: the bytes shifted in from the left. *)
Definition be_decode (bs : list byte) : Z :=
  fold_left (fun acc b => Z.lor (Z.shiftl acc 8) (Z_of_byte b)) bs 0.

Lemma shift_in_byte acc b :
  Z.lor (Z.shiftl acc 8) (Z_of_byte b) = acc * 256 + Z_of_byte b.
Proof.
  pose proof (Z_of_byte_range b) as Hb.
  rewrite <- Z.add_nocarry_lor.
  { rewrite Z.shiftl_mul_pow2 by lia. done. }
  apply Z.bits_inj'. intros i Hi. rewrite Z.land_spec, Z.bits_0.
  destruct (Z.lt_ge_cases i 8).
  - by rewrite Z.shiftl_spec_low.
  - rewrite (Z.bits_above_log2 (Z_of_byte b)); [apply andb_false_r|lia|].
    destruct (decide (Z_of_byte b = 0)) as [->|?]; [cbn; lia|].
    apply Z.log2_lt_pow2; [lia|]. apply Z.lt_le_trans with (2 ^ 8); [lia|].
    apply Z.pow_le_mono_r; lia.
Qed.

Lemma be_decode_app_acc n z acc :
  fold_left (fun acc b => Z.lor (Z.shiftl acc 8) (Z_of_byte b)) (be_encode n z) acc
  = acc * 2 ^ (8 * Z.of_nat n) + z mod 2 ^ (8 * Z.of_nat n).
Proof.
  revert acc; induction n as [|n IH]; intros acc.
  - simpl. rewrite Z.mod_1_r. lia.
  - cbn [be_encode fold_left]. rewrite IH, shift_in_byte, Z_of_byte_of_Z.
    rewrite Z.shiftr_div_pow2 by lia.
    assert (E : 2 ^ (8 * Z.of_nat (S n)) = 2 ^ (8 * Z.of_nat n) * 256)
      by (rewrite <- (Z.pow_add_r 2 _ 8) by lia; f_equal; lia).
    rewrite E. clear E.
    rewrite Z.rem_mul_r; [lia| |lia]. apply Z.pow_nonzero; lia.
Qed.

Lemma be_decode_encode n z :
  be_decode (be_encode n z) = z mod 2 ^ (8 * Z.of_nat n).
Proof. unfold be_decode. rewrite be_decode_app_acc. lia. Qed.

Lemma be_encode_length n z : length (be_encode n z) = n.
Proof. induction n; simpl; auto. Qed.

#[global] Arguments be_encode : simpl never.

(** ** Errors *)

(** The error values the codec can return. [Panic] is a Go run-time panic, which
    unwinds through every caller, and [OutOfFuel] is the model's own: it never
    occurs when a loop is run with the fuel its callers give it. *)
Inductive ioerr : Type :=
| EOF
| ErrUnexpectedEOF
| ErrTimeout
| ErrClosed
| ErrSyntax
| ErrFrame
| ErrFieldType
| ErrHeartbeatPayload
| ErrMissingMethod
| ErrBadMethod (class method : Z)
| ErrBadClass (class : Z)
| Panic
| OutOfFuel.

#[export] Instance ioerr_eq_dec : EqDecision ioerr.
Proof. solve_decision. Defined.

(** ** Input streams *)

(** What an [io.Reader] still has to deliver: [data], then the error [fin]
    ([EOF] for a buffer or a closed connection, [ErrTimeout] for a connection
    whose read deadline expires). *)
Record stream : Type := Stream { data : list byte; fin : ioerr }.

Definition reader (A : Type) : Type := stream -> result ioerr A * stream.

#[export] Instance reader_ret : MRet reader := fun _ a s => (Ok a, s).
#[export] Instance reader_bind : MBind reader := fun _ _ k m s =>
  match m s with (Ok a, s') => k a s' | (Err e, s') => (Err e, s') end.

Definition fail {A} (e : ioerr) : reader A := fun s => (Err e, s).

(** [io.ReadFull(r, buf)] with [len(buf) = n]: nothing is read for [n = 0]; a
    short read consumes what there is and turns [EOF] into [ErrUnexpectedEOF]
    when at least one byte was read. *)
Definition ReadFull (n : Z) : reader (list byte) := fun s =>
  if n <=? Z.of_nat (length (data s)) then
    (Ok (take (Z.to_nat n) (data s)), Stream (drop (Z.to_nat n) (data s)) (fin s))
  else
    match data s with
    | [] => (Err (fin s), s)
    | _ => (Err (if decide (fin s = EOF) then ErrUnexpectedEOF else fin s),
            Stream [] (fin s))
    end.

(** [m] run on [&io.LimitedReader{R: r, N: n}]: at most [n] bytes of the
    stream, then [EOF]; what [m] leaves unread stays in the stream. *)
Definition limited {A} (n : Z) (m : reader A) : reader A := fun s =>
  if n <=? Z.of_nat (length (data s)) then
    let (r, s') := m (Stream (take (Z.to_nat n) (data s)) EOF) in
    (r, Stream (data s' ++ drop (Z.to_nat n) (data s)) (fin s))
  else m s.

(** [binary.Read(r, binary.BigEndian, &v)] for [v] of an unsigned or signed
    type of [8 * n] bits. *)
Definition readUint (n : nat) : reader Z :=
  bs ← ReadFull (Z.of_nat n); mret (be_decode bs).

Definition readInt (n : nat) : reader Z :=
  z ← readUint n; mret (swrap (8 * Z.of_nat n) z).

Abbreviation readU8 := (readUint 1).
Abbreviation readU16 := (readUint 2).
Abbreviation readU32 := (readUint 4).
Abbreviation readU64 := (readUint 8).

(** ** Output *)

(** Bytes appended to a [bytes.Buffer], or the error that stopped the write. *)
Definition writer : Type := result ioerr (list byte).

Definition wnil : writer := Ok [].

(** One write after the other; the first error returns. *)
Definition wseq (w1 w2 : writer) : writer :=
  b1 ← w1; b2 ← w2; Ok (b1 ++ b2).

Declare Scope wire_scope.
Delimit Scope wire_scope with wire.
Infix "+>+" := wseq (at level 60, right associativity) : wire_scope.
Open Scope wire_scope.

Definition wconcat (ws : list writer) : writer := foldr wseq wnil ws.

(** [binary.Write(w, binary.BigEndian, v)] for [v] of [8 * n] bits. *)
Definition writeUint (n : nat) (z : Z) : writer := Ok (be_encode n z).

Abbreviation writeU8 := (writeUint 1).
Abbreviation writeU16 := (writeUint 2).
Abbreviation writeU32 := (writeUint 4).
Abbreviation writeU64 := (writeUint 8).

(** ** Reading what was written

    [reads m bs v]: on any stream that starts with [bs], [m] returns [v] and
    leaves exactly the rest. *)
Definition reads {A} (m : reader A) (bs : list byte) (v : A) : Prop :=
  forall rest f, m (Stream (bs ++ rest) f) = (Ok v, Stream rest f).

(** [rt w m v]: whatever [w] writes, [m] reads back as [v]. *)
Definition rt {A} (w : writer) (m : reader A) (v : A) : Prop :=
  forall bs, w = Ok bs -> reads m bs v.

Lemma reads_ret {A} (v : A) : reads (mret v) [] v.
Proof. intros rest f. done. Qed.

Lemma reads_bind {A B} (m : reader A) (k : A -> reader B) b1 b2 v w :
  reads m b1 v -> reads (k v) b2 w -> reads (m ≫= k) (b1 ++ b2) w.
Proof.
  intros H1 H2 rest f. unfold mbind, reader_bind.
  rewrite <- app_assoc, H1. apply H2.
Qed.

Lemma reads_bind_nil {A B} (m : reader A) (k : A -> reader B) b v w :
  reads m b v -> reads (k v) [] w -> reads (m ≫= k) b w.
Proof. intros H1 H2. rewrite <- (app_nil_r b). by eapply reads_bind. Qed.

Lemma wseq_ok w1 w2 bs :
  w1 +>+ w2 = Ok bs <-> exists b1 b2, w1 = Ok b1 /\ w2 = Ok b2 /\ bs = b1 ++ b2.
Proof.
  unfold wseq. split.
  - destruct w1 as [b1|]; simpl; [|done]. destruct w2 as [b2|]; simpl; [|done].
    intros [= <-]. eauto.
  - intros (b1 & b2 & -> & -> & ->). done.
Qed.

Lemma rt_ret {A} (v : A) : rt wnil (mret v) v.
Proof. intros bs [= <-]. apply reads_ret. Qed.

Lemma rt_bind {A B} (w1 w2 : writer) (m : reader A) (k : A -> reader B) v r :
  rt w1 m v -> rt w2 (k v) r -> rt (w1 +>+ w2) (m ≫= k) r.
Proof.
  intros H1 H2 bs (b1 & b2 & E1 & E2 & ->)%wseq_ok.
  eapply reads_bind; eauto.
Qed.

(** The last write of a message needs no trailing [wnil]. *)
Lemma rt_bind_last {A B} (w : writer) (m : reader A) (k : A -> reader B) v r :
  rt w m v -> rt wnil (k v) r -> rt w (m ≫= k) r.
Proof.
  intros H1 H2 bs E. eapply reads_bind_nil; [by apply H1|]. by apply H2.
Qed.

Lemma rt_eq {A} (w : writer) (m : reader A) v v' : rt w m v -> v = v' -> rt w m v'.
Proof. by intros H <-. Qed.

Lemma ReadFull_reads n bs : Z.of_nat (length bs) = n -> reads (ReadFull n) bs bs.
Proof.
  intros <- rest f. unfold ReadFull; simpl.
  rewrite length_app, (proj2 (Z.leb_le _ _)) by lia.
  by rewrite Nat2Z.id, take_app_length, drop_app_length.
Qed.

Lemma readUint_reads n z :
  reads (readUint n) (be_encode n z) (uwrap (8 * Z.of_nat n) z).
Proof.
  eapply reads_bind_nil.
  - apply ReadFull_reads. by rewrite be_encode_length.
  - rewrite be_decode_encode. apply reads_ret.
Qed.

Lemma rt_uint n z :
  in_uint (8 * Z.of_nat n) z = true -> rt (writeUint n z) (readUint n) z.
Proof.
  intros H bs [= <-]. pose proof (readUint_reads n z) as R.
  by rewrite uwrap_small in R.
Qed.

Lemma readInt_reads n z :
  (0 < n)%nat -> reads (readInt n) (be_encode n z) (swrap (8 * Z.of_nat n) z).
Proof.
  intros Hn. eapply reads_bind_nil; [apply readUint_reads|].
  rewrite swrap_uwrap by lia. apply reads_ret.
Qed.

Lemma readInt_reads_in n z :
  (0 < n)%nat -> in_int (8 * Z.of_nat n) z = true ->
  reads (readInt n) (be_encode n z) z.
Proof.
  intros Hn H. pose proof (readInt_reads n z Hn) as R.
  rewrite swrap_small in R by (lia || done). done.
Qed.

(** ** How readers consume a stream

    Every reader of the codec is built from [ReadFull]: it takes bytes off the
    front, never puts any back and never changes how the stream ends. [lossy m]
    says so; [eats m] says in
    addition that a successful read took at least one byte. *)
Definition lossy {A} (m : reader A) : Prop :=
  forall s, data (m s).2 `suffix_of` data s /\ fin (m s).2 = fin s.

Definition eats {A} (m : reader A) : Prop :=
  forall s v, (m s).1 = Ok v -> (length (data (m s).2) < length (data s))%nat.

Lemma lossy_length {A} (m : reader A) s :
  lossy m -> (length (data (m s).2) <= length (data s))%nat.
Proof. intros Hm. by apply suffix_length, Hm. Qed.

Lemma lossy_ret {A} (v : A) : lossy (mret v).
Proof. intros s. done. Qed.

Lemma lossy_fail {A} e : lossy (@fail A e).
Proof. intros s. done. Qed.

Lemma lossy_bind {A B} (m : reader A) (k : A -> reader B) :
  lossy m -> (forall v, lossy (k v)) -> lossy (m ≫= k).
Proof.
  intros Hm Hk s. unfold mbind, reader_bind. specialize (Hm s).
  destruct (m s) as [[v|e] s']; simpl in *; [|done].
  destruct Hm as [H1 H2], (Hk v s') as [H3 H4].
  split; [by transitivity (data s')|congruence].
Qed.

Lemma lossy_ReadFull n : lossy (ReadFull n).
Proof.
  intros s. unfold ReadFull. case_match; simpl.
  - split; [apply suffix_drop|done].
  - destruct (data s) eqn:E; simpl; rewrite ?E; split; auto using suffix_nil.
Qed.

(** What [ReadFull] returns is the part of the stream it took. *)
Lemma ReadFull_length n s bs s' :
  ReadFull n s = (Ok bs, s') ->
  (0 <= n -> Z.of_nat (length bs) = n) /\ data s = bs ++ data s' /\ fin s' = fin s.
Proof.
  unfold ReadFull. case_match eqn:Hn; [|by destruct (data s)].
  intros [= <- <-]. simpl. rewrite length_take, take_drop.
  apply Z.leb_le in Hn. split; [lia|done].
Qed.

Lemma lossy_readUint n : lossy (readUint n).
Proof. apply lossy_bind; [apply lossy_ReadFull|intros; apply lossy_ret]. Qed.

Lemma lossy_readInt n : lossy (readInt n).
Proof. apply lossy_bind; [apply lossy_readUint|intros; apply lossy_ret]. Qed.

Lemma lossy_limited {A} n (m : reader A) : lossy m -> lossy (limited n m).
Proof.
  intros Hm s. unfold limited. case_match; [|apply Hm].
  specialize (Hm (Stream (take (Z.to_nat n) (data s)) EOF)).
  destruct (m _) as [r s']; simpl in *. split; [|done].
  destruct Hm as [[pre E] _]. exists pre.
  by rewrite app_assoc, <- E, take_drop.
Qed.

Lemma eats_ReadFull n : 0 < n -> eats (ReadFull n).
Proof.
  intros Hn s v. unfold ReadFull. case_match; simpl.
  - intros _. rewrite length_drop. lia.
  - by destruct (data s).
Qed.

Lemma eats_bind {A B} (m : reader A) (k : A -> reader B) :
  eats m -> (forall v, lossy (k v)) -> eats (m ≫= k).
Proof.
  intros Hm Hk s w. unfold mbind, reader_bind. specialize (Hm s).
  destruct (m s) as [[v|e] s']; simpl in *; [|done].
  intros Hw. pose proof (lossy_length (k v) s' (Hk v)) as H1.
  specialize (Hm v eq_refl). lia.
Qed.

Lemma eats_readUint n : (0 < n)%nat -> eats (readUint n).
Proof.
  intros Hn. apply eats_bind; [apply eats_ReadFull; lia|]. intros; apply lossy_ret.
Qed.

(** ** Running out of fuel

    [settles n m]: on a stream of fewer than [n] bytes [m] does not run out of
    fuel. *)
Definition settles {A} (n : nat) (m : reader A) : Prop :=
  forall s, (length (data s) < n)%nat -> fin s <> OutOfFuel ->
  (m s).1 <> Err OutOfFuel.

Lemma settles_ret {A} n (v : A) : settles n (mret v).
Proof. intros s _ _. done. Qed.

Lemma settles_fail {A} n e : e <> OutOfFuel -> settles n (@fail A e).
Proof. intros He s _ _ [=]. done. Qed.

Lemma settles_bind {A B} n (m : reader A) (k : A -> reader B) :
  lossy m -> settles n m -> (forall v, settles n (k v)) -> settles n (m ≫= k).
Proof.
  intros Hl Hm Hk s Hs Hf. unfold mbind, reader_bind.
  specialize (Hl s); specialize (Hm s Hs Hf).
  destruct (m s) as [[v|e] s']; simpl in *; [|congruence].
  destruct Hl as [Hl%suffix_length ?]. apply Hk; [lia|congruence].
Qed.

Lemma settles_ReadFull n k : settles n (ReadFull k).
Proof.
  intros s _ Hf. unfold ReadFull. case_match; [done|].
  destruct (data s); simpl; [congruence|]. case_decide; congruence.
Qed.

Lemma settles_readUint n k : settles n (readUint k).
Proof.
  apply settles_bind; [apply lossy_ReadFull|apply settles_ReadFull|].
  intros; apply settles_ret.
Qed.

Lemma settles_readInt n k : settles n (readInt k).
Proof.
  apply settles_bind; [apply lossy_readUint|apply settles_readUint|].
  intros; apply settles_ret.
Qed.

Lemma settles_limited {A} n k (m : reader A) : settles n m -> settles n (limited k m).
Proof.
  intros Hm s Hs Hf. unfold limited. case_match; [|by apply Hm].
  specialize (Hm (Stream (take (Z.to_nat k) (data s)) EOF)).
  destruct (m _) as [r s']; simpl in *. apply Hm; [|done].
  rewrite length_take. lia.
Qed.

Lemma settles_le {A} n k (m : reader A) : (k <= n)%nat -> settles n m -> settles k m.
Proof. intros Hk Hm s Hs Hf. apply Hm; [lia|done]. Qed.

Create HintDb wire discriminated.
#[export] Hint Resolve lossy_ret lossy_fail lossy_bind lossy_ReadFull lossy_readUint
  lossy_readInt lossy_limited eats_ReadFull eats_readUint eats_bind : wire.
#[export] Hint Resolve settles_ret settles_bind settles_ReadFull settles_readUint
  settles_readInt settles_limited : wire.
#[export] Hint Extern 1 (settles _ (fail _)) => apply settles_fail; done : wire.
#[export] Hint Resolve reads_ret rt_ret rt_bind rt_uint : wire.
