(* ===== verification/Fields.v ===== *)
(** * AMQP field values and tables

    [amqp091/read.go] (the [read*] functions on an [io.Reader]) and
    [amqp091/write.go] (the [write*] functions): short and long strings,
    decimals, timestamps, the dynamically typed field values, arrays and tables.

    A Go [string] is a Rocq [string]: a sequence of bytes. *)

From Stdlib Require Import Strings.Byte.
From S2P Require Import Prelude Bytes.

Set Warnings "-register-all".

(** ** Data *)

Abbreviation bytes_of := String.list_byte_of_string.
Abbreviation string_of := String.string_of_list_byte.

(** [len(s)] of a Go string. *)
Definition slen (s : string) : Z := Z.of_nat (length (bytes_of s)).

(** [time.Time]: seconds since the Unix epoch and nanoseconds. The zero [Time]
    is 1 January of year 1. *)
Record Time : Type := { unix : Z; nsec : Z }.

Definition zeroTime : Time := {| unix := -62135596800; nsec := 0 |}.

Definition IsZero (t : Time) : bool :=
  (unix t =? unix zeroTime) && (nsec t =? 0).

(** The dynamic types a Go [any] has in a [Table]: those [writeField] knows, a
    32- or 64-bit float given by its IEEE bits; [VRTable] and [VRDecimal] are the
    [Table] and [Decimal] types of the client library [rabbitmq/amqp091-go], which are
    not the types of the same name of this package, and [VOther] is any other
    Go type. *)
Inductive field : Type :=
| VBool (b : bool)
| VByte (z : Z)
| VInt8 (z : Z)
| VInt16 (z : Z)
| VInt (z : Z)
| VInt32 (z : Z)
| VInt64 (z : Z)
| VFloat32 (bits : Z)
| VFloat64 (bits : Z)
| VDecimal (scale value : Z)
| VString (s : string)
| VArray (l : list field)
| VTime (t : Time)
| VTable (t : list (string * field))
| VBytes (bs : list byte)
| VNil
| VRTable (t : list (string * field))
| VRDecimal (scale value : Z)
| VOther (type_name : string).

(** [type Table map[string]any]: [None] is the nil map. The entries of a map are
    listed in the order in which [range] would visit them, which Go leaves open;
    keys are distinct. *)
Definition entries : Type := list (string * field).
Definition Table : Type := option entries.

(** [table[key] = value]. *)
Fixpoint tset (key : string) (value : field) (t : entries) : entries :=
  match t with
  | [] => [(key, value)]
  | (k, v) :: t' =>
      if decide (k = key) then (key, value) :: t' else (k, v) :: tset key value t'
  end.

(** [table[key]]. *)
Fixpoint tget (key : string) (t : entries) : option field :=
  match t with
  | [] => None
  | (k, v) :: t' => if decide (k = key) then Some v else tget key t'
  end.

(** [delete(table, key)]. *)
Fixpoint tdel (key : string) (t : entries) : entries :=
  match t with
  | [] => []
  | (k, v) :: t' => if decide (k = key) then t' else (k, v) :: tdel key t'
  end.

Definition table_len (t : Table) : nat := length (default [] t).

(** ** Reading *)

Definition readShortstr : reader string :=
  length ← readU8; bs ← ReadFull length; mret (string_of bs).

(** A length above the largest [int32] returns the zero values: the empty
    string and no error. *)
Definition readLongstr : reader string :=
  length ← readU32;
  if 2 ^ 31 - 1 <? length then mret EmptyString
  else bs ← ReadFull length; mret (string_of bs).

Definition readDecimal : reader (Z * Z) :=
  scale ← readU8; value ← readInt 4; mret (scale, value).

Definition readTimestamp : reader Time :=
  sec ← readInt 8; mret {| unix := sec; nsec := 0 |}.

(** The loop of [readTable] over the nested buffer. *)
Fixpoint tableLoop (rf : reader field) (fuel : nat) (table : entries)
  : reader entries := fun s =>
  match data s, fuel with
  | [], _ => (Ok table, s)
  | _, O => (Err OutOfFuel, s)
  | _, S fuel' =>
      (key ← readShortstr; value ← rf;
       tableLoop rf fuel' (tset key value table)) s
  end.

(** [m] run on a [bytes.Buffer] that holds [str], the stream left alone. *)
Definition onBuffer {A} (str : string) (m : reader A) : reader A :=
  fun s => ((m (Stream (bytes_of str) EOF)).1, s).

Definition readTable_with (rf : reader field) (fuel : nat) : reader entries :=
  str ← readLongstr; onBuffer str (tableLoop rf fuel []).

(** The loop of [readArray] over the limited reader: [io.EOF] ends it. *)
Fixpoint arrayLoop (rf : reader field) (fuel : nat) (arr : list field)
  : reader (list field) := fun s =>
  match fuel with
  | O => (Err OutOfFuel, s)
  | S fuel' =>
      match rf s with
      | (Ok field, s') => arrayLoop rf fuel' (arr ++ [field]) s'
      | (Err e, s') => if decide (e = EOF) then (Ok arr, s') else (Err e, s')
      end
  end.

Definition readArray_with (rf : reader field) (fuel : nat) : reader (list field) :=
  size ← readU32; limited size (arrayLoop rf fuel []).

(** The [switch typ] of [readField]; [rf] reads the nested fields. A negative
    length of a byte array makes [make([]byte, len)] panic. *)
Definition readFieldBody (rf : reader field) (fuel : nat) (typ : Z) : reader field :=
  if typ =? Z_of_byte "t" then value ← readU8; mret (VBool (negb (value =? 0)))
  else if typ =? Z_of_byte "B" then value ← readU8; mret (VByte value)
  else if typ =? Z_of_byte "b" then value ← readInt 1; mret (VInt8 value)
  else if typ =? Z_of_byte "s" then value ← readInt 2; mret (VInt16 value)
  else if typ =? Z_of_byte "I" then value ← readInt 4; mret (VInt32 value)
  else if typ =? Z_of_byte "l" then value ← readInt 8; mret (VInt64 value)
  else if typ =? Z_of_byte "f" then value ← readU32; mret (VFloat32 value)
  else if typ =? Z_of_byte "d" then value ← readU64; mret (VFloat64 value)
  else if typ =? Z_of_byte "D" then d ← readDecimal; mret (VDecimal d.1 d.2)
  else if typ =? Z_of_byte "S" then s ← readLongstr; mret (VString s)
  else if typ =? Z_of_byte "A" then arr ← readArray_with rf fuel; mret (VArray arr)
  else if typ =? Z_of_byte "T" then t ← readTimestamp; mret (VTime t)
  else if typ =? Z_of_byte "F" then t ← readTable_with rf fuel; mret (VTable t)
  else if typ =? Z_of_byte "x" then
    len ← readInt 4;
    if len <? 0 then fail Panic
    else value ← ReadFull len; mret (VBytes value)
  else if typ =? Z_of_byte "V" then mret VNil
  else fail ErrSyntax.

Fixpoint readField_fuel (fuel : nat) : reader field :=
  match fuel with
  | O => fail OutOfFuel
  | S fuel' => typ ← readU8; readFieldBody (readField_fuel fuel') fuel' typ
  end.

(** Each nested read happens after at least one byte was consumed: the number of
    bytes left in the stream is enough fuel. *)
Definition readField : reader field :=
  fun s => readField_fuel (S (length (data s))) s.

Definition readTable : reader Table := fun s =>
  let n := S (length (data s)) in
  let (r, s') := readTable_with (readField_fuel n) n s in (Some <$> r, s').

(** ** Writing *)

(** [length := uint8(len(b))], then [b[:length]]. *)
Definition writeShortstr (s : string) : writer :=
  let b := bytes_of s in
  let length := uwrap 8 (Z.of_nat (length b)) in
  writeU8 length +>+ Ok (take (Z.to_nat length) b).

Definition writeLongbytes (b : list byte) : writer :=
  let length := uwrap 32 (Z.of_nat (length b)) in
  writeU32 length +>+ Ok (take (Z.to_nat length) b).

Definition writeLongstr (s : string) : writer := writeLongbytes (bytes_of s).

Definition tag (b : byte) : writer := Ok [b].

Fixpoint writeField (value : field) : writer :=
  match value with
  | VBool v => tag "t" +>+ writeU8 (if v then 1 else 0)
  | VByte v => tag "B" +>+ writeU8 v
  | VInt8 v => tag "b" +>+ writeU8 v
  | VInt16 v => tag "s" +>+ writeU16 v
  | VInt v => tag "I" +>+ writeU32 v
  | VInt32 v => tag "I" +>+ writeU32 v
  | VInt64 v => tag "l" +>+ writeU64 v
  | VFloat32 v => tag "f" +>+ writeU32 v
  | VFloat64 v => tag "d" +>+ writeU64 v
  | VDecimal scale v => tag "D" +>+ writeU8 scale +>+ writeU32 v
  | VString v => tag "S" +>+ writeU32 (slen v) +>+ Ok (bytes_of v)
  | VArray v =>
      sec ← wconcat (map writeField v);
      tag "A" +>+ writeU32 (Z.of_nat (length sec)) +>+ Ok sec
  | VTime v => tag "T" +>+ writeU64 (unix v)
  | VTable v =>
      tag "F" +>+
      (buf ← wconcat (map (fun kv => writeShortstr kv.1 +>+ writeField kv.2) v);
       writeLongbytes buf)
  | VBytes v => tag "x" +>+ writeU32 (Z.of_nat (length v)) +>+ Ok v
  | VNil => tag "V"
  | VRTable _ | VRDecimal _ _ | VOther _ => Err ErrFieldType
  end.

Definition writeEntry (kv : string * field) : writer :=
  writeShortstr kv.1 +>+ writeField kv.2.

Definition writeTable (table : Table) : writer :=
  buf ← wconcat (map writeEntry (default [] table)); writeLongbytes buf.

(** ** Well-formed values and what reading them back gives

    [wf_field] holds of the values that fit their wire type: the integers in
    range, the keys of tables distinct and short enough for their length byte.
    Reading a written value back gives [canonField]: an [int] comes back as an
    [int32], a time without its nanoseconds, everything else as it was. *)

Definition short (s : string) : bool := slen s <? 256.

Fixpoint wf_field (v : field) : bool :=
  match v with
  | VByte z => in_uint 8 z
  | VInt8 z => in_int 8 z
  | VInt16 z => in_int 16 z
  | VInt32 z => in_int 32 z
  | VInt64 z => in_int 64 z
  | VFloat32 z => in_uint 32 z
  | VFloat64 z => in_uint 64 z
  | VDecimal scale z => in_uint 8 scale && in_int 32 z
  | VArray l => forallb wf_field l
  | VTime t => in_int 64 (unix t)
  | VTable t =>
      bool_decide (NoDup (map fst t))
      && forallb (fun kv => short kv.1 && wf_field kv.2) t
  | _ => true
  end.

Fixpoint canonField (v : field) : field :=
  match v with
  | VInt z => VInt32 (swrap 32 z)
  | VTime t => VTime {| unix := unix t; nsec := 0 |}
  | VArray l => VArray (map canonField l)
  | VTable t => VTable (map (fun kv => (kv.1, canonField kv.2)) t)
  | _ => v
  end.

(** The number of bytes a value takes on the wire. *)
Definition sumZ (l : list Z) : Z := foldr Z.add 0 l.

Fixpoint field_size (v : field) : Z :=
  1 + match v with
      | VBool _ | VByte _ | VInt8 _ => 1
      | VInt16 _ => 2
      | VInt _ | VInt32 _ | VFloat32 _ => 4
      | VInt64 _ | VFloat64 _ | VTime _ => 8
      | VDecimal _ _ => 5
      | VString s => 4 + slen s
      | VBytes bs => 4 + Z.of_nat (length bs)
      | VArray l => 4 + sumZ (map field_size l)
      | VTable t => 4 + sumZ (map (fun kv => 1 + slen kv.1 + field_size kv.2) t)
      | _ => 0
      end.

Definition entry_size (kv : string * field) : Z := 1 + slen kv.1 + field_size kv.2.
Definition entries_size (t : entries) : Z := sumZ (map entry_size t).

Definition wf_entry (kv : string * field) : bool := short kv.1 && wf_field kv.2.
Definition canonEntry (kv : string * field) : string * field := (kv.1, canonField kv.2).

Definition wf_entries (t : entries) : bool :=
  bool_decide (NoDup (map fst t)) && forallb wf_entry t.
Definition wf_table (t : Table) : bool :=
  wf_entries (default [] t) && (entries_size (default [] t) <? 2 ^ 31).
Definition canonTable (t : Table) : Table := Some (map canonEntry (default [] t)).

(** Induction on values, with hypotheses for the elements of arrays and tables. *)
Section field_induction.
Variable P : field -> Prop.
Hypothesis Harr : forall l, Forall P l -> P (VArray l).
Hypothesis Htab : forall t, Forall (fun kv => P kv.2) t -> P (VTable t).
Hypothesis Hflat : forall v,
  match v with VArray _ | VTable _ => True | _ => P v end.

Fixpoint field_ind' (v : field) : P v :=
  match v with
  | VArray l => Harr l ((fix go (l : list field) : Forall P l := match l with
      | [] => List.Forall_nil P
      | x :: l' => List.Forall_cons P x l' (field_ind' x) (go l')
      end) l)
  | VTable t => Htab t ((fix go (t : entries) : Forall (fun kv => P kv.2) t := match t with
      | [] => List.Forall_nil (fun kv => P kv.2)
      | kv :: t' => List.Forall_cons (fun kv => P kv.2) kv t' (field_ind' kv.2) (go t')
      end) t)
  | v => Hflat v
  end.
End field_induction.

(** ** Strings *)

Lemma string_of_bytes_of s : string_of (bytes_of s) = s.
Proof. apply String.string_of_list_byte_of_string. Qed.

Lemma bytes_of_string_of bs : bytes_of (string_of bs) = bs.
Proof. apply String.list_byte_of_string_of_list_byte. Qed.

Lemma bytes_of_app s t : bytes_of (s +:+ t) = bytes_of s ++ bytes_of t.
Proof. 
  unfold String.list_byte_of_string. induction s as [|c s IH]; [done|].
  simpl. by rewrite IH.
Qed.

Lemma slen_nonneg s : 0 <= slen s.
Proof. unfold slen. lia. Qed.

Lemma short_writes s :
  short s = true ->
  writeShortstr s = Ok (be_encode 1 (slen s) ++ bytes_of s).
Proof.
  intros Hs%Z.ltb_lt. unfold writeShortstr. fold (slen s).
  rewrite uwrap_small by (apply in_uint_spec; unfold slen in *; lia).
  unfold slen at 2. by rewrite Nat2Z.id, firstn_all.
Qed.

Lemma rt_short s : short s = true -> rt (writeShortstr s) readShortstr s.
Proof.
  intros Hs bs. rewrite short_writes by done. intros <-%Ok_inj.
  apply Z.ltb_lt in Hs. eapply (reads_bind _ _ (be_encode 1 _)).
  - apply (rt_uint 1); [|done]. apply in_uint_spec. pose proof (slen_nonneg s). lia.
  - eapply reads_bind_nil; [by apply ReadFull_reads|].
    rewrite string_of_bytes_of. apply reads_ret.
Qed.

Lemma longbytes_writes buf :
  Z.of_nat (length buf) < 2 ^ 31 ->
  writeLongbytes buf = Ok (be_encode 4 (Z.of_nat (length buf)) ++ buf).
Proof.
  intros Hl. unfold writeLongbytes.
  rewrite uwrap_small by (apply in_uint_spec; lia). by rewrite Nat2Z.id, firstn_all.
Qed.

Lemma readLongstr_reads buf :
  Z.of_nat (length buf) < 2 ^ 31 ->
  reads readLongstr (be_encode 4 (Z.of_nat (length buf)) ++ buf) (string_of buf).
Proof.
  intros Hl. eapply reads_bind.
  - apply (readUint_reads 4).
  - change (8 * Z.of_nat 4) with 32.
    rewrite uwrap_small, (proj2 (Z.ltb_ge _ _)) by (try apply in_uint_spec; lia).
    eapply reads_bind_nil; [by apply ReadFull_reads|]. apply reads_ret.
Qed.

Definition long (s : string) : bool := slen s <? 2 ^ 31.

Lemma rt_long s : long s = true -> rt (writeLongstr s) readLongstr s.
Proof.
  intros Hs%Z.ltb_lt bs. unfold writeLongstr. unfold slen in Hs.
  rewrite longbytes_writes by done. intros <-%Ok_inj.
  pose proof (readLongstr_reads _ Hs) as R. by rewrite string_of_bytes_of in R.
Qed.

(** ** Maps as entry lists *)

Lemma tget_tset k k' v t :
  tget k' (tset k v t) = if decide (k = k') then Some v else tget k' t.
Proof.
  induction t as [|[k0 v0] t IH]; simpl.
  - done.
  - destruct (decide (k0 = k)) as [->|Hne]; simpl.
    + by destruct (decide (k = k')).
    + rewrite IH. destruct (decide (k0 = k')), (decide (k = k')); congruence.
Qed.

Lemma tset_fresh k v t : k ∉ map fst t -> tset k v t = t ++ [(k, v)].
Proof.
  induction t as [|[k0 v0] t IH]; simpl; [done|].
  intros [Hk Ht]%not_elem_of_cons. by rewrite decide_False, IH.
Qed.

(** ** Values: what is written is read back *)

Lemma sumZ_nonneg {A} (f : A -> Z) l : (forall x, 0 <= f x) -> 0 <= sumZ (map f l).
Proof. intros Hf. induction l as [|x l IH]; simpl; [lia|]. specialize (Hf x). lia. Qed.

Lemma field_size_pos v : 1 <= field_size v.
Proof.
  revert v; apply field_ind'; [intros l IH|intros t IH|intros v].
  - cbn [field_size]. enough (0 <= sumZ (map field_size l)) by lia.
    induction IH; simpl; lia.
  - cbn [field_size].
    enough (0 <= sumZ (map (fun kv => 1 + slen kv.1 + field_size kv.2) t)) by lia.
    induction IH as [|kv t H ? IH']; simpl; [lia|]. pose proof (slen_nonneg kv.1). lia.
  - destruct v; try done; simpl; try lia. pose proof (slen_nonneg s). lia.
Qed.

Lemma entry_size_pos kv : 2 <= entry_size kv.
Proof.
  unfold entry_size. pose proof (slen_nonneg kv.1). pose proof (field_size_pos kv.2). lia.
Qed.

Lemma entries_size_cons k v t :
  entries_size ((k, v) :: t) = 1 + slen k + field_size v + entries_size t.
Proof. done. Qed.

Lemma entries_size_nonneg t : 0 <= entries_size t.
Proof. apply sumZ_nonneg. intros kv. pose proof (entry_size_pos kv). lia. Qed.

(** [codec v]: the round trip of one value, at any fuel that covers its bytes. *)
Definition codec (v : field) : Prop :=
  wf_field v = true -> field_size v < 2 ^ 31 ->
  forall bs, writeField v = Ok bs ->
  Z.of_nat (length bs) = field_size v /\
  forall fuel, (length bs <= fuel)%nat -> reads (readField_fuel fuel) bs (canonField v).

(** Reading the tag is the first step of reading a value. *)
Lemma readField_tag fuel b bs v :
  reads (readFieldBody (readField_fuel fuel) fuel (Z_of_byte b)) bs v ->
  reads (readField_fuel (S fuel)) (b :: bs) v.
Proof.
  intros H. change (b :: bs) with ([b] ++ bs). cbn [readField_fuel].
  eapply reads_bind; [|exact H].
  pose proof (readUint_reads 1 (Z_of_byte b)) as R.
  unfold be_encode in R. cbn [Z.of_nat Z.mul] in R.
  rewrite Z.shiftr_0_r, byte_of_Z_of_byte in R.
  rewrite uwrap_small in R; [done|].
  apply in_uint_spec. apply Z_of_byte_range.
Qed.
Lemma codec_split v bs :
  codec v -> wf_field v = true -> field_size v < 2 ^ 31 -> writeField v = Ok bs ->
  Z.of_nat (length bs) = field_size v.
Proof. intros C W S E. by destruct (C W S bs E). Qed.

(** An empty buffer ends the array loop. *)
Lemma readField_empty fuel :
  readField_fuel (S fuel) (Stream [] EOF) = (Err EOF, Stream [] EOF).
Proof. reflexivity. Qed.

Lemma arrayLoop_reads l :
  Forall codec l -> forallb wf_field l = true -> sumZ (map field_size l) < 2 ^ 31 ->
  forall sec, wconcat (map writeField l) = Ok sec ->
  Z.of_nat (length sec) = sumZ (map field_size l) /\
  forall f fuel arr, (length sec < f)%nat -> (length sec < fuel)%nat ->
  arrayLoop (readField_fuel f) fuel arr (Stream sec EOF)
  = (Ok (arr ++ map canonField l), Stream [] EOF).
Proof.
  intros HC. induction HC as [|v l HCv HCl IH]; intros Hwf Hsz sec Hw.
  - injection Hw as <-. split; [done|]. intros [|f] [|fuel] arr; simpl; try lia.
    by rewrite app_nil_r.
  - simpl in Hwf, Hsz. apply andb_true_iff in Hwf as [Hv Hl].
    apply wseq_ok in Hw as (b1 & b2 & E1 & E2 & ->).
    pose proof (field_size_pos v) as Hpos.
    assert (0 <= sumZ (map field_size l)).
    { apply sumZ_nonneg. intros x. pose proof (field_size_pos x). lia. }
    destruct (HCv Hv ltac:(lia) b1 E1) as [L1 R1].
    destruct (IH Hl ltac:(lia) b2 E2) as [L2 R2].
    rewrite length_app. split; [simpl; lia|].
    intros f [|fuel] arr Hf Hfuel; [lia|]. cbn [arrayLoop].
    rewrite (R1 f ltac:(lia) b2 EOF). rewrite R2 by lia.
    by rewrite <- app_assoc.
Qed.

Lemma tableLoop_reads t :
  Forall (fun kv => codec kv.2) t -> forallb wf_entry t = true ->
  entries_size t < 2 ^ 31 ->
  forall buf, wconcat (map writeEntry t) = Ok buf ->
  Z.of_nat (length buf) = entries_size t /\
  forall f fuel table, (length buf <= f)%nat -> (length buf <= fuel)%nat ->
  NoDup (map fst (table ++ t)) ->
  tableLoop (readField_fuel f) fuel table (Stream buf EOF)
  = (Ok (table ++ map canonEntry t), Stream [] EOF).
Proof.
  intros HC. induction HC as [|[k v] t HCv HCt IH]; intros Hwf Hsz buf Hw.
  - injection Hw as <-. split; [done|]. intros f [|fuel] table _ _ _; simpl;
      by rewrite app_nil_r.
  - simpl in Hwf. apply andb_true_iff in Hwf as [[Hk Hv]%andb_true_iff Hl].
    rewrite entries_size_cons in Hsz |- *.
    pose proof (entries_size_nonneg t) as Hpt. simpl in HCv, Hk, Hv.
    apply wseq_ok in Hw as (b12 & b3 & E12 & E3 & ->).
    apply wseq_ok in E12 as (b1 & b2 & E1 & E2 & ->). simpl in E1, E2.
    pose proof (slen_nonneg k) as Hkn. pose proof (field_size_pos v) as Hvp.
    destruct (HCv Hv ltac:(lia) b2 E2) as [L2 R2].
    destruct (IH Hl ltac:(lia) b3 E3) as [L3 R3].
    pose proof E1 as E1'. rewrite short_writes in E1' by done.
    apply Ok_inj in E1' as E1'.
    assert (L1 : Z.of_nat (length b1) = 1 + slen k).
    { rewrite <- E1', length_app, be_encode_length. unfold slen. lia. }
    rewrite !length_app. split; [lia|].
    intros f fuel table Hf Hfuel Hnd.
    destruct b1 as [|b b1']; [simpl in L1; lia|].
    destruct fuel as [|fuel]; [simpl in Hfuel; lia|].
    cbn [app tableLoop data]. unfold mbind, reader_bind.
    change (b :: (b1' ++ b2) ++ b3) with (((b :: b1') ++ b2) ++ b3).
    rewrite <- app_assoc, (rt_short k Hk _ E1 (b2 ++ b3) EOF).
    rewrite (R2 f ltac:(simpl in Hf; lia) b3 EOF).
    rewrite map_app in Hnd. apply NoDup_app in Hnd as (Hnd1 & Hdis & Hnd2).
    rewrite tset_fresh by (intros Hin; apply (Hdis k Hin); left).
    rewrite R3; [by rewrite <- app_assoc| | |]; [simpl in Hf; lia|simpl in Hfuel; lia|].
    rewrite <- app_assoc. simpl. rewrite map_app. simpl.
    by apply NoDup_app.
Qed.

(** The scalar cases: a tag byte, then integers. *)
Ltac codec_scalar :=
  let Hl := fresh in let Hr := fresh in
  split;
  [ cbn -[be_encode length app slen];
    repeat first [rewrite length_app | rewrite be_encode_length | progress cbn [length]];
    unfold slen; lia
  | intros [|fuel] Hl; [simpl in Hl; lia|]; apply readField_tag; cbn -[be_encode] ].

Lemma codec_flat v :
  match v with VArray _ | VTable _ => True | _ => codec v end.
Proof.
  destruct v; try done; intros Hwf Hsz out Hw;
    cbn -[be_encode app in_uint in_int] in Hwf, Hw;
    try (apply Ok_inj in Hw as <-; codec_scalar).
  - eapply reads_bind_nil; [apply (readUint_reads 1)|]. by destruct b.
  - eapply reads_bind_nil; [by apply (rt_uint 1)|]. apply reads_ret.
  - eapply reads_bind_nil; [apply (readInt_reads_in 1); [lia|done]|]. apply reads_ret.
  - eapply reads_bind_nil; [apply (readInt_reads_in 2); [lia|done]|]. apply reads_ret.
  - eapply reads_bind_nil; [apply (readInt_reads 4); lia|]. apply reads_ret.
  - eapply reads_bind_nil; [apply (readInt_reads_in 4); [lia|done]|]. apply reads_ret.
  - eapply reads_bind_nil; [apply (readInt_reads_in 8); [lia|done]|]. apply reads_ret.
  - eapply reads_bind_nil; [by apply (rt_uint 4)|]. apply reads_ret.
  - eapply reads_bind_nil; [by apply (rt_uint 8)|]. apply reads_ret.
  - eapply reads_bind_nil; [|apply (reads_ret (VDecimal (scale, value).1 (scale, value).2))].
    apply andb_true_iff in Hwf as [Hwf1 Hwf2].
    apply (reads_bind _ _ (be_encode 1 scale) (be_encode 4 value) scale);
      [by apply (rt_uint 1)|].
    eapply reads_bind_nil; [apply (readInt_reads_in 4); [lia|done]|]. apply reads_ret.
  - eapply reads_bind_nil; [|apply reads_ret].
    cbn [field_size] in Hsz. unfold slen in Hsz |- *.
    pose proof (readLongstr_reads (bytes_of s) ltac:(lia)) as R.
    by rewrite string_of_bytes_of in R.
  - eapply reads_bind_nil; [|apply reads_ret].
    eapply reads_bind_nil; [apply (readInt_reads_in 8); [lia|done]|]. apply reads_ret.
  - cbn [field_size] in Hsz.
    eapply reads_bind; [apply (readInt_reads_in 4); [lia|apply in_int_spec; lia]|].
    rewrite (proj2 (Z.ltb_ge _ _)) by lia.
    eapply reads_bind_nil; [by apply ReadFull_reads|]. apply reads_ret.
  - apply reads_ret.
Qed.

Lemma codec_array l : Forall codec l -> codec (VArray l).
Proof.
  intros HC Hwf Hsz bs Hw. change (forallb wf_field l = true) in Hwf.
  change (1 + (4 + sumZ (map field_size l)) < 2 ^ 31) in Hsz.
  cbn [writeField] in Hw. destruct (wconcat (map writeField l)) as [sec|] eqn:E; [|done].
  assert (0 <= sumZ (map field_size l)).
  { apply sumZ_nonneg. intros x. pose proof (field_size_pos x). lia. }
  destruct (arrayLoop_reads l HC Hwf ltac:(lia) sec E) as [L R].
  apply Ok_inj in Hw as <-. split.
  { change (field_size (VArray l)) with (1 + (4 + sumZ (map field_size l))).
    rewrite !length_app, be_encode_length. cbn [length]. lia. }
  intros [|fuel] Hf; [simpl in Hf; lia|]. apply readField_tag. cbn -[be_encode app].
  eapply reads_bind_nil; [|apply reads_ret].
  eapply reads_bind.
  { apply (rt_uint 4); [|done]. change (in_uint 32 (Z.of_nat (length sec)) = true).
    apply in_uint_spec. lia. }
  intros rest f. unfold limited. cbn [data fin].
  rewrite !length_app, be_encode_length in Hf. cbn [length] in Hf.
  rewrite length_app, (proj2 (Z.leb_le _ _)), Nat2Z.id by lia.
  rewrite take_app_length, drop_app_length, R by lia. done.
Qed.

Lemma tableBytes_reads t :
  Forall (fun kv => codec kv.2) t -> wf_entries t = true -> entries_size t < 2 ^ 31 ->
  forall buf bs, wconcat (map writeEntry t) = Ok buf -> writeLongbytes buf = Ok bs ->
  Z.of_nat (length bs) = 4 + entries_size t /\
  forall f fuel, (length bs <= f)%nat -> (length bs <= fuel)%nat ->
  reads (readTable_with (readField_fuel f) fuel) bs (map canonEntry t).
Proof.
  intros HC [Hnd%bool_decide_eq_true Hwf]%andb_true_iff Hsz buf bs Hb Hw.
  destruct (tableLoop_reads t HC Hwf Hsz buf Hb) as [L R].
  rewrite longbytes_writes in Hw by lia. apply Ok_inj in Hw as <-.
  rewrite length_app, be_encode_length. split; [lia|]. intros f fuel Hf Hfuel.
  eapply reads_bind_nil; [apply readLongstr_reads; lia|].
  intros rest e. unfold onBuffer. rewrite bytes_of_string_of.
  rewrite R by (done || lia). done.
Qed.

Lemma codec_table t : Forall (fun kv => codec kv.2) t -> codec (VTable t).
Proof.
  intros HC Hwf Hsz bs Hw. change (wf_entries t = true) in Hwf.
  change (1 + (4 + entries_size t) < 2 ^ 31) in Hsz.
  apply wseq_ok in Hw as (b1 & b2 & E1 & E2 & ->). apply Ok_inj in E1 as <-.
  change (wconcat _) with (wconcat (map writeEntry t)) in E2.
  destruct (wconcat (map writeEntry t)) as [buf|] eqn:E; [|done].
  destruct (tableBytes_reads t HC Hwf ltac:(lia) buf b2 E E2) as [L R].
  split.
  { change (field_size (VTable t)) with (1 + (4 + entries_size t)).
    cbn [app length]. lia. }
  intros [|fuel] Hf; [simpl in Hf; lia|]. apply readField_tag. cbn -[be_encode].
  cbn [app length] in Hf. eapply reads_bind_nil; [apply R; lia|]. apply reads_ret.
Qed.

(** Every well-formed value is read back, whatever its nesting. *)
Lemma codec_all v : codec v.
Proof.
  revert v. apply field_ind'; [exact codec_array|exact codec_table|exact codec_flat].
Qed.

Lemma rt_field v :
  wf_field v = true -> field_size v < 2 ^ 31 -> rt (writeField v) readField (canonField v).
Proof.
  intros Hwf Hsz bs Hw. destruct (codec_all v Hwf Hsz bs Hw) as [_ R].
  intros rest f. unfold readField. cbn [data]. apply R. rewrite length_app. lia.
Qed.

Lemma rt_table t : wf_table t = true -> rt (writeTable t) readTable (canonTable t).
Proof.
  intros [Hwf Hsz%Z.ltb_lt]%andb_true_iff bs. unfold writeTable.
  destruct (wconcat (map writeEntry (default [] t))) as [buf|] eqn:E; [|done]. simpl.
  intros Hw. destruct (tableBytes_reads (default [] t)
    ltac:(apply List.Forall_forall; intros; apply codec_all) Hwf Hsz buf bs E Hw) as [_ R].
  intros rest f. unfold readTable. cbn [data].
  rewrite R by (rewrite length_app; lia). done.
Qed.

#[export] Hint Resolve rt_short rt_long rt_table rt_field : wire.

(** ** Termination

    The reading loops end: with as much fuel as there are bytes they never run
    out of it, on any input. *)

Lemma lossy_readShortstr : lossy readShortstr.
Proof. unfold readShortstr. auto with wire. Qed.

Lemma eats_readShortstr : eats readShortstr.
Proof. apply eats_bind; auto with wire. Qed.

Lemma lossy_readLongstr : lossy readLongstr.
Proof.
  apply lossy_bind; [auto with wire|]. intros v. case_match; auto with wire.
Qed.

Lemma lossy_onBuffer {A} str (m : reader A) : lossy (onBuffer str m).
Proof. intros s. done. Qed.

Lemma settles_readShortstr n : settles n readShortstr.
Proof. unfold readShortstr. apply settles_bind; auto with wire. Qed.

Lemma settles_readLongstr n : settles n readLongstr.
Proof.
  unfold readLongstr. apply settles_bind; auto with wire.
  intros v. case_match; auto 8 with wire.
Qed.

Lemma lossy_arrayLoop rf fuel arr : lossy rf -> lossy (arrayLoop rf fuel arr).
Proof.
  intros Hrf. revert arr; induction fuel as [|fuel IH]; intros arr s; [done|].
  cbn [arrayLoop]. pose proof (Hrf s) as [H1 H2].
  destruct (rf s) as [[v|e] s']; simpl in *.
  - destruct (IH (arr ++ [v]) s'). split; [by transitivity (data s')|congruence].
  - by case_decide.
Qed.

#[export] Hint Resolve lossy_readShortstr lossy_readLongstr lossy_onBuffer
  lossy_arrayLoop settles_readShortstr settles_readLongstr : wire.

Lemma lossy_readFieldBody rf fuel typ : lossy rf -> lossy (readFieldBody rf fuel typ).
Proof.
  intros Hrf. unfold readFieldBody, readDecimal, readTimestamp, readTable_with,
    readArray_with.
  repeat case_match; auto 8 with wire.
  apply lossy_bind; [auto with wire|]. intros v. case_match; auto with wire.
Qed.

Lemma lossy_readField_fuel fuel : lossy (readField_fuel fuel).
Proof.
  induction fuel as [|fuel IH]; cbn [readField_fuel]; auto using lossy_readFieldBody with wire.
Qed.

Lemma eats_readField_fuel fuel : eats (readField_fuel fuel).
Proof.
  destruct fuel as [|fuel]; [intros s v; done|]. cbn [readField_fuel].
  apply eats_bind; [auto with wire|]. intros v.
  apply lossy_readFieldBody, lossy_readField_fuel.
Qed.

Lemma arrayLoop_settles rf fuel arr n :
  lossy rf -> eats rf -> settles n rf -> (n <= fuel)%nat ->
  settles n (arrayLoop rf fuel arr).
Proof.
  intros Hl He Hs. revert n arr Hs. induction fuel as [|fuel IH]; intros n arr Hs Hn s Hlen Hf.
  - lia.
  - cbn [arrayLoop]. specialize (Hs s Hlen Hf) as Hs'.
    destruct (Hl s) as [H1%suffix_length H2]. specialize (He s).
    destruct (rf s) as [[v|e] s']; simpl in *.
    + specialize (He v eq_refl). apply (IH (pred n)); [|lia|lia|congruence].
      apply (settles_le n); [lia|done].
    + case_decide; simpl; congruence.
Qed.

Lemma tableLoop_settles rf fuel table n :
  lossy rf -> settles n rf -> (n <= S fuel)%nat -> settles n (tableLoop rf fuel table).
Proof.
  intros Hl. revert n table. induction fuel as [|fuel IH]; intros n table Hs Hn s Hlen Hf.
  - cbn [tableLoop]. destruct (data s) as [|b l]; [done|]. simpl in Hlen. lia.
  - cbn [tableLoop]. destruct (data s) as [|b l] eqn:E; [done|]. rewrite <- E in Hlen.
    unfold mbind, reader_bind.
    destruct (lossy_readShortstr s) as [H1%suffix_length H2]. pose proof (eats_readShortstr s) as He.
    pose proof (settles_readShortstr n s Hlen Hf) as Hk. destruct (readShortstr s) as [[k|e] s1]; simpl in *; [|congruence].
    specialize (He k eq_refl). destruct (Hl s1) as [H3%suffix_length H4].
    specialize (Hs s1 ltac:(lia) ltac:(congruence)) as Hv.
    destruct (rf s1) as [[v|e] s2]; simpl in *; [|congruence].
    apply (IH (pred n)); [|lia|lia|congruence].
    apply (settles_le n); [lia|done].
Qed.

Lemma settles_onBuffer {A} n str (m : reader A) :
  settles (S (length (bytes_of str))) m -> settles n (onBuffer str m).
Proof. intros Hm s _ _. unfold onBuffer. simpl. apply Hm; simpl; [lia|done]. Qed.

(** The string [readLongstr] returns is part of the stream it read. *)
Lemma readLongstr_length s v :
  (readLongstr s).1 = Ok v -> (length (bytes_of v) <= length (data s))%nat.
Proof.
  unfold readLongstr, readUint. unfold mbind, reader_bind, mret, reader_ret.
  destruct (lossy_ReadFull (Z.of_nat 4) s) as [Hl%suffix_length _].
  destruct (ReadFull _ s) as [[bs|e] s1]; [|done].
  cbn [snd] in Hl. destruct (2 ^ 31 - 1 <? be_decode bs); [intros <-%Ok_inj; simpl; lia|].
  destruct (ReadFull (be_decode bs) s1) as [[bs1|e] s2] eqn:E; [|done].
  intros <-%Ok_inj. apply ReadFull_length in E as (_ & E & _).
  rewrite bytes_of_string_of. rewrite E, length_app in Hl. lia.
Qed.

Lemma readTable_with_settles rf fuel n :
  lossy rf -> settles n rf -> (n <= S fuel)%nat -> settles n (readTable_with rf fuel).
Proof.
  intros Hl Hs Hn s Hlen Hf. unfold readTable_with, mbind, reader_bind.
  pose proof (readLongstr_length s) as Hv.
  pose proof (settles_readLongstr n s Hlen Hf) as Hk. destruct (readLongstr s) as [[v|e] s1]; simpl in *; [|congruence].
  specialize (Hv v eq_refl).
  apply (tableLoop_settles rf fuel [] (S (length (bytes_of v)))); simpl; [done| |lia|lia|done].
  apply (settles_le n); [lia|done].
Qed.

Lemma readArray_with_settles rf fuel n :
  lossy rf -> eats rf -> settles n rf -> (n <= fuel)%nat -> settles n (readArray_with rf fuel).
Proof.
  intros Hl He Hs Hn. unfold readArray_with. apply settles_bind; auto with wire.
  intros k. apply settles_limited. by apply arrayLoop_settles.
Qed.

Lemma readFieldBody_settles rf fuel n typ :
  lossy rf -> eats rf -> settles n rf -> (n <= fuel)%nat ->
  settles n (readFieldBody rf fuel typ).
Proof.
  intros Hl He Hs Hn.
  pose proof (readTable_with_settles rf fuel n Hl Hs ltac:(lia)) as Htab.
  pose proof (readArray_with_settles rf fuel n Hl He Hs Hn) as Harr.
  unfold readFieldBody.
  repeat (case_match; [first
    [ solve [unfold readDecimal, readTimestamp; auto 9 with wire]
    | solve [apply settles_bind; auto with wire; unfold readTable_with, readArray_with;
             auto with wire]
    | apply settles_bind; [auto with wire..|]; intros v; case_match; auto 8 with wire
    ]|]).
  auto with wire.
Qed.

Lemma readField_fuel_settles fuel : settles fuel (readField_fuel fuel).
Proof.
  induction fuel as [|fuel IH]; [intros s Hs; lia|]. cbn [readField_fuel].
  intros s Hlen Hf. unfold mbind, reader_bind.
  destruct (lossy_readUint 1 s) as [H1%suffix_length H2].
  pose proof (eats_readUint 1 ltac:(lia) s) as He.
  pose proof (settles_readUint (S fuel) 1 s Hlen Hf) as Hs.
  destruct (readU8 s) as [[typ|e] s']; simpl in *; [|congruence].
  specialize (He typ eq_refl).
  apply (readFieldBody_settles _ fuel fuel); [|apply eats_readField_fuel|done|lia|lia|congruence].
  apply lossy_readField_fuel.
Qed.

(** [readField] and [readTable] end on every input. *)
Lemma readField_settles s :
  fin s <> OutOfFuel -> (readField s).1 <> Err OutOfFuel.
Proof. intros Hf. apply readField_fuel_settles; [lia|done]. Qed.

Lemma readTable_settles n : settles n readTable.
Proof.
  intros s _ Hf. unfold readTable.
  pose proof (readTable_with_settles (readField_fuel (S (length (data s))))
    (S (length (data s))) (S (length (data s))) (lossy_readField_fuel _)
    (readField_fuel_settles _) ltac:(lia) s ltac:(lia) Hf) as H.
  destruct (readTable_with _ _ s) as [[t|e] s']; simpl in *; congruence.
Qed.

Lemma lossy_readTable : lossy readTable.
Proof.
  intros s. unfold readTable.
  assert (H : lossy (readTable_with (readField_fuel (S (length (data s))))
    (S (length (data s))))) by (unfold readTable_with; auto with wire).
  specialize (H s). by destruct (readTable_with _ _ s) as [[t|e] s'].
Qed.

#[export] Hint Resolve lossy_readTable readTable_settles : wire.

(** ** Which values can be written *)

(** The dynamic types [writeField] has a case for, at every depth. *)
Fixpoint supported (v : field) : bool :=
  match v with
  | VRTable _ | VRDecimal _ _ | VOther _ => false
  | VArray l => forallb supported l
  | VTable t => forallb (fun kv => supported kv.2) t
  | _ => true
  end.

Definition supported_table (t : Table) : bool :=
  forallb (fun kv => supported kv.2) (default [] t).

(** [w] succeeds when [b] holds and fails with [ErrFieldType] when it does not. *)
Definition writes_if (b : bool) (w : writer) : Prop :=
  match w with Ok _ => b = true | Err e => b = false /\ e = ErrFieldType end.

Lemma writes_if_ok b w : writes_if b w -> is_ok w = b.
Proof. destruct w as [|e]; [by intros ->|by intros [-> _]]. Qed.

Lemma writes_if_spec b w :
  writes_if b w ->
  (b = true <-> exists bs, w = Ok bs) /\ (b = false <-> w = Err ErrFieldType).
Proof.
  destruct w as [bs|e]; simpl; [intros ->|intros [-> ->]]; split; split; try done.
  - eauto.
  - by intros [bs ?].
Qed.

Lemma writes_if_seq b1 b2 w1 w2 :
  writes_if b1 w1 -> writes_if b2 w2 -> writes_if (b1 && b2) (w1 +>+ w2).
Proof.
  unfold wseq. destruct w1 as [|e1]; simpl; [intros ->|by intros [-> ->]].
  by destruct w2.
Qed.

Lemma writes_if_bind b w k :
  writes_if b w -> (forall x, is_ok (k x) = true) -> writes_if b (x ← w; k x).
Proof.
  intros Hw Hk. destruct w as [x|e]; simpl in *; [|done].
  specialize (Hk x). by destruct (k x).
Qed.

Lemma writes_if_concat {A} (f : A -> bool) (g : A -> writer) l :
  Forall (fun x => writes_if (f x) (g x)) l ->
  writes_if (forallb f l) (wconcat (map g l)).
Proof.
  induction 1 as [|x l Hx Hl IH]; [done|]. by apply writes_if_seq.
Qed.

Lemma writeField_supported v : writes_if (supported v) (writeField v).
Proof.
  revert v. apply field_ind'.
  - intros l Hl. apply writes_if_bind; [by apply writes_if_concat|done].
  - intros t Ht. change (supported (VTable t)) with (supported_table (Some t)).
    apply (writes_if_seq true (supported_table (Some t)) (tag "F")); [done|].
    apply writes_if_bind; [|done].
    apply (writes_if_concat (fun kv => supported kv.2)).
    eapply Forall_impl; [exact Ht|]. intros kv Hkv. by apply (writes_if_seq true).
  - intros v. by destruct v.
Qed.

Lemma writeTable_supported t : writes_if (supported_table t) (writeTable t).
Proof.
  apply writes_if_bind; [|done]. apply writes_if_concat.
  apply Forall_true. intros kv. apply (writes_if_seq true); [done|].
  apply writeField_supported.
Qed.

(** ** What the field codec guarantees *)

(** C33: a well-formed table (distinct short keys, values in the range of their
    wire type, less than 2 GiB) that [writeTable] wrote is read back by
    [readTable] in the same order and at any nesting, [int] values as [int32] and
    times without nanoseconds, and nothing after it is consumed. *)
Theorem table_round_trip t bs rest f :
  wf_table t = true -> writeTable t = Ok bs ->
  readTable (Stream (bs ++ rest) f) = (Ok (canonTable t), Stream rest f).
Proof. intros Ht Hbs. by apply rt_table. Qed.

(** [readField] and [readTable] end on every stream, however its bytes nest
    tables and arrays. *)
Theorem readField_total s :
  fin s <> OutOfFuel ->
  (readField s).1 <> Err OutOfFuel /\ (readTable s).1 <> Err OutOfFuel.
Proof.
  intros Hf. split; [by apply readField_settles|].
  apply (readTable_settles (S (length (data s)))); [lia|done].
Qed.

(** [writeField] and [writeTable] fail on exactly the values that hold, at
    some depth, a type they have no case for, and then with [ErrFieldType]; the
    [Table] and [Decimal] types of the client library are such types. *)
Theorem writeField_errors v t :
  (supported v = true <-> exists bs, writeField v = Ok bs) /\
  (supported v = false <-> writeField v = Err ErrFieldType) /\
  (supported_table t = true <-> exists bs, writeTable t = Ok bs) /\
  (supported_table t = false <-> writeTable t = Err ErrFieldType).
Proof.
  destruct (writes_if_spec _ _ (writeField_supported v)).
  by destruct (writes_if_spec _ _ (writeTable_supported t)).
Qed.

(** [writeShortstr] does not refuse a string longer than its length byte
    can say: what is read back is the prefix of [len(s) mod 256] bytes. *)
Theorem shortstr_truncates s :
  rt (writeShortstr s) readShortstr
     (string_of (take (Z.to_nat (slen s mod 256)) (bytes_of s))).
Proof.
  set (p := take (Z.to_nat (slen s mod 256)) (bytes_of s)).
  pose proof (Z.mod_pos_bound (slen s) 256 ltac:(lia)) as Hb.
  assert (Hp : Z.of_nat (length p) = slen s mod 256).
  { unfold p. rewrite length_take. unfold slen in *.
    pose proof (Z.mod_le (Z.of_nat (length (bytes_of s))) 256). lia. }
  intros bs E. apply (rt_short (string_of p)).
  - apply Z.ltb_lt. unfold slen. rewrite bytes_of_string_of. lia.
  - rewrite short_writes by (apply Z.ltb_lt; unfold slen; rewrite bytes_of_string_of; lia).
    rewrite <- E. unfold writeShortstr, slen. rewrite bytes_of_string_of, Hp. done.
Qed.

(** A long string whose length field is above the largest [int32] is read as
    the empty string, without an error, and its bytes stay in the stream. *)
Theorem readLongstr_oversize n rest f :
  2 ^ 31 <= n < 2 ^ 32 ->
  readLongstr (Stream (be_encode 4 n ++ rest) f) = (Ok EmptyString, Stream rest f).
Proof.
  intros Hn. revert rest f. change (reads readLongstr (be_encode 4 n) EmptyString).
  eapply reads_bind_nil; [apply (readUint_reads 4)|].
  change (8 * Z.of_nat 4) with 32.
  rewrite uwrap_small by (apply in_uint_spec; lia).
  rewrite (proj2 (Z.ltb_lt _ _)) by lia. apply reads_ret.
Qed.

(** ** A concrete table *)

Definition sampleTable : Table := Some [
  ("x-max-length", VInt 1000);
  ("x-dead-letter-exchange", VString "dlx");
  ("nested", VTable [("when", VTime {| unix := 1700000000; nsec := 5 |});
                     ("list", VArray [VBool true; VNil; VInt64 (-7)])])
]%string.

Lemma table_round_trip_witness :
  exists bs, writeTable sampleTable = Ok bs /\
    readTable (Stream (bs ++ bytes_of "rest") EOF)
      = (Ok (canonTable sampleTable), Stream (bytes_of "rest") EOF).
Proof.
  eexists. split; [vm_compute; reflexivity|].
  apply (table_round_trip sampleTable); vm_compute; reflexivity.
Defined.
