(* ===== verification/MsgBase.v ===== *)
(** * Protocol messages: the interface

    [amqp091/types.go]: the [Message] and [MessageWithContent] interfaces and
    the [Properties] of a message with content; the bit fields the generated
    code of [amqp091/spec091.go] packs. Each class of messages is in a file of its
    own ([MsgConnection], [MsgChannel], [MsgExchange], [MsgQueue], [MsgBasic],
    [MsgTx]); [Methods] puts them together. *)

From S2P Require Import Prelude Bytes Fields.

Record Properties : Type := {
  Properties_ContentType : string;
  Properties_ContentEncoding : string;
  Properties_Headers : Table;
  Properties_DeliveryMode : Z;
  Properties_Priority : Z;
  Properties_CorrelationId : string;
  Properties_ReplyTo : string;
  Properties_Expiration : string;
  Properties_MessageId : string;
  Properties_Timestamp : Time;
  Properties_Type : string;
  Properties_UserId : string;
  Properties_AppId : string;
  Properties_reserved1 : string
}.

(** The zero value of the struct. *)
Definition zeroProperties : Properties := {|
  Properties_ContentType := EmptyString;
  Properties_ContentEncoding := EmptyString;
  Properties_Headers := None;
  Properties_DeliveryMode := 0;
  Properties_Priority := 0;
  Properties_CorrelationId := EmptyString;
  Properties_ReplyTo := EmptyString;
  Properties_Expiration := EmptyString;
  Properties_MessageId := EmptyString;
  Properties_Timestamp := zeroTime;
  Properties_Type := EmptyString;
  Properties_UserId := EmptyString;
  Properties_AppId := EmptyString;
  Properties_reserved1 := EmptyString
|}.

(** [type Message interface]. [Read] fills a zero struct from the stream. *)
Class Message (M : Type) : Type := {
  ID : M -> Z * Z;
  Wait : M -> bool;
  Read : reader M;
  Write : M -> writer
}.

(** [type MessageWithContent interface]. *)
Class MessageWithContent (M : Type) `{Message M} : Type := {
  GetContent : M -> Properties * list byte;
  SetContent : M -> Properties -> list byte -> M
}.

(** What the codec of a message promises: a well-formed message is read back as
    its canonical form (tables canonical, content removed, since it travels in
    frames of its own), with the same class and method; reading consumes a stream
    and ends. *)
Class MessageOk (M : Type) `{Message M} : Type := {
  wf : M -> bool;
  canon : M -> M;
  round_trip : forall m, wf m = true -> rt (Write m) Read (canon m);
  canon_ID : forall m, ID (canon m) = ID m;
  Read_lossy : lossy (Read (M := M));
  Read_settles : forall n, settles n (Read (M := M))
}.

(** [if b { bits |= 1 << k }]. *)
Definition set_bit (b : bool) (k bits : Z) : Z :=
  if b then Z.lor bits (Z.shiftl 1 k) else bits.

(** [bits & (1 << k) > 0]. *)
Definition has_bit (bits k : Z) : bool := 0 <? Z.land bits (Z.shiftl 1 k).

(** ** Automation for the generated messages *)

#[export] Instance reader_fmap : FMap reader := fun _ _ f m => x ← m; mret (f x).

Lemma rt_fmap {A B} (f : A -> B) w m v : rt w m v -> rt w (f <$> m) (f v).
Proof. intros H. eapply rt_bind_last; [exact H|]. apply rt_ret. Qed.

Lemma lossy_fmap {A B} (f : A -> B) m : lossy m -> lossy (f <$> m).
Proof. intros H. apply lossy_bind; auto with wire. Qed.

Lemma settles_fmap {A B} n (f : A -> B) m : lossy m -> settles n m -> settles n (f <$> m).
Proof. intros H1 H2. apply settles_bind; auto with wire. Qed.

#[export] Hint Resolve rt_fmap lossy_fmap settles_fmap : wire.

(** One field of a struct: its writer and its reader. *)
Ltac rt_field :=
  lazymatch goal with
  | H : in_uint 8 ?z = true |- rt (writeUint 1 ?z) _ _ => exact (rt_uint 1 z H)
  | H : in_uint 16 ?z = true |- rt (writeUint 2 ?z) _ _ => exact (rt_uint 2 z H)
  | H : in_uint 32 ?z = true |- rt (writeUint 4 ?z) _ _ => exact (rt_uint 4 z H)
  | H : in_uint 64 ?z = true |- rt (writeUint 8 ?z) _ _ => exact (rt_uint 8 z H)
  | |- rt (writeUint 1 ?z) _ _ => exact (rt_uint 1 z eq_refl)
  | H : short ?s = true |- rt (writeShortstr ?s) _ _ => exact (rt_short s H)
  | H : long ?s = true |- rt (writeLongstr ?s) _ _ => exact (rt_long s H)
  | H : wf_table ?t = true |- rt (writeTable ?t) _ _ => exact (rt_table t H)
  end.

(** The round trip of a struct, field by field. Case analysis on the flags
    makes the packed byte a constant. *)
Ltac solve_round_trip :=
  let m := fresh "m" in let H := fresh "H" in
  intros m H; destruct m; cbn -[in_uint short long wf_table] in H;
  repeat match goal with
  | H : _ && _ = true |- _ => apply andb_true_iff in H as [? ?]
  end;
  cbn -[writeUint readUint writeShortstr writeLongstr writeTable readTable canonTable];
  repeat match goal with b : bool |- _ => destruct b end;
  repeat first
  [ eapply rt_ret
  | eapply rt_bind; [rt_field|]
  | eapply rt_bind_last; [rt_field|] ].

Ltac solve_message_ok unfolds :=
  first
  [ solve [unfolds; solve_round_trip]
  | solve [let m := fresh in intros m; by destruct m]
  | solve [unfolds; repeat (apply lossy_bind; [auto with wire|intros ?]); auto with wire]
  | solve [unfolds; let n := fresh in intros n;
           repeat (apply settles_bind; [auto with wire|auto with wire|intros ?]);
           auto with wire] ].
