(* ===== verification/MsgConnection.v ===== *)
(** * Messages of the connection class

    [amqp091/spec091.go]: for every struct of class 10 its fields and its
    [ID], [Wait], [Write] and [Read] methods, and the proof that its codec meets
    [MessageOk]. *)

From S2P Require Import Prelude Bytes Fields MsgBase.

(** ** [ConnectionStart] *)

Record ConnectionStart : Type := mkConnectionStart {
  ConnectionStart_VersionMajor : Z;
  ConnectionStart_VersionMinor : Z;
  ConnectionStart_ServerProperties : Table;
  ConnectionStart_Mechanisms : string;
  ConnectionStart_Locales : string
}.

Definition ConnectionStart_ID (msg : ConnectionStart) : Z * Z := (10, 10).

Definition ConnectionStart_Wait (msg : ConnectionStart) : bool := true.

Definition ConnectionStart_Write (msg : ConnectionStart) : writer :=
  writeU8 (ConnectionStart_VersionMajor msg) +>+
  writeU8 (ConnectionStart_VersionMinor msg) +>+
  writeTable (ConnectionStart_ServerProperties msg) +>+
  writeLongstr (ConnectionStart_Mechanisms msg) +>+
  writeLongstr (ConnectionStart_Locales msg).

Definition ConnectionStart_Read : reader ConnectionStart :=
  v_VersionMajor ← readU8;
  v_VersionMinor ← readU8;
  v_ServerProperties ← readTable;
  v_Mechanisms ← readLongstr;
  v_Locales ← readLongstr;
  mret {|
    ConnectionStart_VersionMajor := v_VersionMajor;
    ConnectionStart_VersionMinor := v_VersionMinor;
    ConnectionStart_ServerProperties := v_ServerProperties;
    ConnectionStart_Mechanisms := v_Mechanisms;
    ConnectionStart_Locales := v_Locales |}.

#[export] Instance ConnectionStart_Message : Message ConnectionStart := {|
  ID := ConnectionStart_ID; Wait := ConnectionStart_Wait; Read := ConnectionStart_Read; Write := ConnectionStart_Write |}.

Definition ConnectionStart_wf (msg : ConnectionStart) : bool :=
  in_uint 8 (ConnectionStart_VersionMajor msg) && in_uint 8 (ConnectionStart_VersionMinor msg) && wf_table (ConnectionStart_ServerProperties msg) && long (ConnectionStart_Mechanisms msg) && long (ConnectionStart_Locales msg).

Definition ConnectionStart_canon (msg : ConnectionStart) : ConnectionStart := {|
    ConnectionStart_VersionMajor := ConnectionStart_VersionMajor msg;
    ConnectionStart_VersionMinor := ConnectionStart_VersionMinor msg;
    ConnectionStart_ServerProperties := canonTable (ConnectionStart_ServerProperties msg);
    ConnectionStart_Mechanisms := ConnectionStart_Mechanisms msg;
    ConnectionStart_Locales := ConnectionStart_Locales msg |}.

#[export] Instance ConnectionStart_ok : MessageOk ConnectionStart.
Proof.
  refine {| wf := ConnectionStart_wf; canon := ConnectionStart_canon |};
    solve_message_ok ltac:(unfold Read, Write, ConnectionStart_Message, ConnectionStart_Read, ConnectionStart_Write, ConnectionStart_wf, ConnectionStart_canon).
Defined.

(** ** [ConnectionStartOk] *)

Record ConnectionStartOk : Type := mkConnectionStartOk {
  ConnectionStartOk_ClientProperties : Table;
  ConnectionStartOk_Mechanism : string;
  ConnectionStartOk_Response : string;
  ConnectionStartOk_Locale : string
}.

Definition ConnectionStartOk_ID (msg : ConnectionStartOk) : Z * Z := (10, 11).

Definition ConnectionStartOk_Wait (msg : ConnectionStartOk) : bool := true.

Definition ConnectionStartOk_Write (msg : ConnectionStartOk) : writer :=
  writeTable (ConnectionStartOk_ClientProperties msg) +>+
  writeShortstr (ConnectionStartOk_Mechanism msg) +>+
  writeLongstr (ConnectionStartOk_Response msg) +>+
  writeShortstr (ConnectionStartOk_Locale msg).

Definition ConnectionStartOk_Read : reader ConnectionStartOk :=
  v_ClientProperties ← readTable;
  v_Mechanism ← readShortstr;
  v_Response ← readLongstr;
  v_Locale ← readShortstr;
  mret {|
    ConnectionStartOk_ClientProperties := v_ClientProperties;
    ConnectionStartOk_Mechanism := v_Mechanism;
    ConnectionStartOk_Response := v_Response;
    ConnectionStartOk_Locale := v_Locale |}.

#[export] Instance ConnectionStartOk_Message : Message ConnectionStartOk := {|
  ID := ConnectionStartOk_ID; Wait := ConnectionStartOk_Wait; Read := ConnectionStartOk_Read; Write := ConnectionStartOk_Write |}.

Definition ConnectionStartOk_wf (msg : ConnectionStartOk) : bool :=
  wf_table (ConnectionStartOk_ClientProperties msg) && short (ConnectionStartOk_Mechanism msg) && long (ConnectionStartOk_Response msg) && short (ConnectionStartOk_Locale msg).

Definition ConnectionStartOk_canon (msg : ConnectionStartOk) : ConnectionStartOk := {|
    ConnectionStartOk_ClientProperties := canonTable (ConnectionStartOk_ClientProperties msg);
    ConnectionStartOk_Mechanism := ConnectionStartOk_Mechanism msg;
    ConnectionStartOk_Response := ConnectionStartOk_Response msg;
    ConnectionStartOk_Locale := ConnectionStartOk_Locale msg |}.

#[export] Instance ConnectionStartOk_ok : MessageOk ConnectionStartOk.
Proof.
  refine {| wf := ConnectionStartOk_wf; canon := ConnectionStartOk_canon |};
    solve_message_ok ltac:(unfold Read, Write, ConnectionStartOk_Message, ConnectionStartOk_Read, ConnectionStartOk_Write, ConnectionStartOk_wf, ConnectionStartOk_canon).
Defined.

(** ** [ConnectionSecure] *)

Record ConnectionSecure : Type := mkConnectionSecure {
  ConnectionSecure_Challenge : string
}.

Definition ConnectionSecure_ID (msg : ConnectionSecure) : Z * Z := (10, 20).

Definition ConnectionSecure_Wait (msg : ConnectionSecure) : bool := true.

Definition ConnectionSecure_Write (msg : ConnectionSecure) : writer :=
  writeLongstr (ConnectionSecure_Challenge msg).

Definition ConnectionSecure_Read : reader ConnectionSecure :=
  v_Challenge ← readLongstr;
  mret {|
    ConnectionSecure_Challenge := v_Challenge |}.

#[export] Instance ConnectionSecure_Message : Message ConnectionSecure := {|
  ID := ConnectionSecure_ID; Wait := ConnectionSecure_Wait; Read := ConnectionSecure_Read; Write := ConnectionSecure_Write |}.

Definition ConnectionSecure_wf (msg : ConnectionSecure) : bool :=
  long (ConnectionSecure_Challenge msg).

Definition ConnectionSecure_canon (msg : ConnectionSecure) : ConnectionSecure := msg.

#[export] Instance ConnectionSecure_ok : MessageOk ConnectionSecure.
Proof.
  refine {| wf := ConnectionSecure_wf; canon := ConnectionSecure_canon |};
    solve_message_ok ltac:(unfold Read, Write, ConnectionSecure_Message, ConnectionSecure_Read, ConnectionSecure_Write, ConnectionSecure_wf, ConnectionSecure_canon).
Defined.

(** ** [ConnectionSecureOk] *)

Record ConnectionSecureOk : Type := mkConnectionSecureOk {
  ConnectionSecureOk_Response : string
}.

Definition ConnectionSecureOk_ID (msg : ConnectionSecureOk) : Z * Z := (10, 21).

Definition ConnectionSecureOk_Wait (msg : ConnectionSecureOk) : bool := true.

Definition ConnectionSecureOk_Write (msg : ConnectionSecureOk) : writer :=
  writeLongstr (ConnectionSecureOk_Response msg).

Definition ConnectionSecureOk_Read : reader ConnectionSecureOk :=
  v_Response ← readLongstr;
  mret {|
    ConnectionSecureOk_Response := v_Response |}.

#[export] Instance ConnectionSecureOk_Message : Message ConnectionSecureOk := {|
  ID := ConnectionSecureOk_ID; Wait := ConnectionSecureOk_Wait; Read := ConnectionSecureOk_Read; Write := ConnectionSecureOk_Write |}.

Definition ConnectionSecureOk_wf (msg : ConnectionSecureOk) : bool :=
  long (ConnectionSecureOk_Response msg).

Definition ConnectionSecureOk_canon (msg : ConnectionSecureOk) : ConnectionSecureOk := msg.

#[export] Instance ConnectionSecureOk_ok : MessageOk ConnectionSecureOk.
Proof.
  refine {| wf := ConnectionSecureOk_wf; canon := ConnectionSecureOk_canon |};
    solve_message_ok ltac:(unfold Read, Write, ConnectionSecureOk_Message, ConnectionSecureOk_Read, ConnectionSecureOk_Write, ConnectionSecureOk_wf, ConnectionSecureOk_canon).
Defined.

(** ** [ConnectionTune] *)

Record ConnectionTune : Type := mkConnectionTune {
  ConnectionTune_ChannelMax : Z;
  ConnectionTune_FrameMax : Z;
  ConnectionTune_Heartbeat : Z
}.

Definition ConnectionTune_ID (msg : ConnectionTune) : Z * Z := (10, 30).

Definition ConnectionTune_Wait (msg : ConnectionTune) : bool := true.

Definition ConnectionTune_Write (msg : ConnectionTune) : writer :=
  writeU16 (ConnectionTune_ChannelMax msg) +>+
  writeU32 (ConnectionTune_FrameMax msg) +>+
  writeU16 (ConnectionTune_Heartbeat msg).

Definition ConnectionTune_Read : reader ConnectionTune :=
  v_ChannelMax ← readU16;
  v_FrameMax ← readU32;
  v_Heartbeat ← readU16;
  mret {|
    ConnectionTune_ChannelMax := v_ChannelMax;
    ConnectionTune_FrameMax := v_FrameMax;
    ConnectionTune_Heartbeat := v_Heartbeat |}.

#[export] Instance ConnectionTune_Message : Message ConnectionTune := {|
  ID := ConnectionTune_ID; Wait := ConnectionTune_Wait; Read := ConnectionTune_Read; Write := ConnectionTune_Write |}.

Definition ConnectionTune_wf (msg : ConnectionTune) : bool :=
  in_uint 16 (ConnectionTune_ChannelMax msg) && in_uint 32 (ConnectionTune_FrameMax msg) && in_uint 16 (ConnectionTune_Heartbeat msg).

Definition ConnectionTune_canon (msg : ConnectionTune) : ConnectionTune := msg.

#[export] Instance ConnectionTune_ok : MessageOk ConnectionTune.
Proof.
  refine {| wf := ConnectionTune_wf; canon := ConnectionTune_canon |};
    solve_message_ok ltac:(unfold Read, Write, ConnectionTune_Message, ConnectionTune_Read, ConnectionTune_Write, ConnectionTune_wf, ConnectionTune_canon).
Defined.

(** ** [ConnectionTuneOk] *)

Record ConnectionTuneOk : Type := mkConnectionTuneOk {
  ConnectionTuneOk_ChannelMax : Z;
  ConnectionTuneOk_FrameMax : Z;
  ConnectionTuneOk_Heartbeat : Z
}.

Definition ConnectionTuneOk_ID (msg : ConnectionTuneOk) : Z * Z := (10, 31).

Definition ConnectionTuneOk_Wait (msg : ConnectionTuneOk) : bool := true.

Definition ConnectionTuneOk_Write (msg : ConnectionTuneOk) : writer :=
  writeU16 (ConnectionTuneOk_ChannelMax msg) +>+
  writeU32 (ConnectionTuneOk_FrameMax msg) +>+
  writeU16 (ConnectionTuneOk_Heartbeat msg).

Definition ConnectionTuneOk_Read : reader ConnectionTuneOk :=
  v_ChannelMax ← readU16;
  v_FrameMax ← readU32;
  v_Heartbeat ← readU16;
  mret {|
    ConnectionTuneOk_ChannelMax := v_ChannelMax;
    ConnectionTuneOk_FrameMax := v_FrameMax;
    ConnectionTuneOk_Heartbeat := v_Heartbeat |}.

#[export] Instance ConnectionTuneOk_Message : Message ConnectionTuneOk := {|
  ID := ConnectionTuneOk_ID; Wait := ConnectionTuneOk_Wait; Read := ConnectionTuneOk_Read; Write := ConnectionTuneOk_Write |}.

Definition ConnectionTuneOk_wf (msg : ConnectionTuneOk) : bool :=
  in_uint 16 (ConnectionTuneOk_ChannelMax msg) && in_uint 32 (ConnectionTuneOk_FrameMax msg) && in_uint 16 (ConnectionTuneOk_Heartbeat msg).

Definition ConnectionTuneOk_canon (msg : ConnectionTuneOk) : ConnectionTuneOk := msg.

#[export] Instance ConnectionTuneOk_ok : MessageOk ConnectionTuneOk.
Proof.
  refine {| wf := ConnectionTuneOk_wf; canon := ConnectionTuneOk_canon |};
    solve_message_ok ltac:(unfold Read, Write, ConnectionTuneOk_Message, ConnectionTuneOk_Read, ConnectionTuneOk_Write, ConnectionTuneOk_wf, ConnectionTuneOk_canon).
Defined.

(** ** [ConnectionOpen] *)

Record ConnectionOpen : Type := mkConnectionOpen {
  ConnectionOpen_VirtualHost : string;
  ConnectionOpen_reserved1 : string;
  ConnectionOpen_reserved2 : bool
}.

Definition ConnectionOpen_ID (msg : ConnectionOpen) : Z * Z := (10, 40).

Definition ConnectionOpen_Wait (msg : ConnectionOpen) : bool := true.

Definition ConnectionOpen_Write (msg : ConnectionOpen) : writer :=
  writeShortstr (ConnectionOpen_VirtualHost msg) +>+
  writeShortstr (ConnectionOpen_reserved1 msg) +>+
  writeU8 (let bits := 0 in
           let bits := set_bit (ConnectionOpen_reserved2 msg) 0 bits in
           bits).

Definition ConnectionOpen_Read : reader ConnectionOpen :=
  v_VirtualHost ← readShortstr;
  v_reserved1 ← readShortstr;
  bits ← readU8;
  mret {|
    ConnectionOpen_VirtualHost := v_VirtualHost;
    ConnectionOpen_reserved1 := v_reserved1;
    ConnectionOpen_reserved2 := has_bit bits 0 |}.

#[export] Instance ConnectionOpen_Message : Message ConnectionOpen := {|
  ID := ConnectionOpen_ID; Wait := ConnectionOpen_Wait; Read := ConnectionOpen_Read; Write := ConnectionOpen_Write |}.

Definition ConnectionOpen_wf (msg : ConnectionOpen) : bool :=
  short (ConnectionOpen_VirtualHost msg) && short (ConnectionOpen_reserved1 msg).

Definition ConnectionOpen_canon (msg : ConnectionOpen) : ConnectionOpen := msg.

#[export] Instance ConnectionOpen_ok : MessageOk ConnectionOpen.
Proof.
  refine {| wf := ConnectionOpen_wf; canon := ConnectionOpen_canon |};
    solve_message_ok ltac:(unfold Read, Write, ConnectionOpen_Message, ConnectionOpen_Read, ConnectionOpen_Write, ConnectionOpen_wf, ConnectionOpen_canon).
Defined.

(** ** [ConnectionOpenOk] *)

Record ConnectionOpenOk : Type := mkConnectionOpenOk {
  ConnectionOpenOk_reserved1 : string
}.

Definition ConnectionOpenOk_ID (msg : ConnectionOpenOk) : Z * Z := (10, 41).

Definition ConnectionOpenOk_Wait (msg : ConnectionOpenOk) : bool := true.

Definition ConnectionOpenOk_Write (msg : ConnectionOpenOk) : writer :=
  writeShortstr (ConnectionOpenOk_reserved1 msg).

Definition ConnectionOpenOk_Read : reader ConnectionOpenOk :=
  v_reserved1 ← readShortstr;
  mret {|
    ConnectionOpenOk_reserved1 := v_reserved1 |}.

#[export] Instance ConnectionOpenOk_Message : Message ConnectionOpenOk := {|
  ID := ConnectionOpenOk_ID; Wait := ConnectionOpenOk_Wait; Read := ConnectionOpenOk_Read; Write := ConnectionOpenOk_Write |}.

Definition ConnectionOpenOk_wf (msg : ConnectionOpenOk) : bool :=
  short (ConnectionOpenOk_reserved1 msg).

Definition ConnectionOpenOk_canon (msg : ConnectionOpenOk) : ConnectionOpenOk := msg.

#[export] Instance ConnectionOpenOk_ok : MessageOk ConnectionOpenOk.
Proof.
  refine {| wf := ConnectionOpenOk_wf; canon := ConnectionOpenOk_canon |};
    solve_message_ok ltac:(unfold Read, Write, ConnectionOpenOk_Message, ConnectionOpenOk_Read, ConnectionOpenOk_Write, ConnectionOpenOk_wf, ConnectionOpenOk_canon).
Defined.

(** ** [ConnectionClose] *)

Record ConnectionClose : Type := mkConnectionClose {
  ConnectionClose_ReplyCode : Z;
  ConnectionClose_ReplyText : string;
  ConnectionClose_ClassId : Z;
  ConnectionClose_MethodId : Z
}.

Definition ConnectionClose_ID (msg : ConnectionClose) : Z * Z := (10, 50).

Definition ConnectionClose_Wait (msg : ConnectionClose) : bool := true.

Definition ConnectionClose_Write (msg : ConnectionClose) : writer :=
  writeU16 (ConnectionClose_ReplyCode msg) +>+
  writeShortstr (ConnectionClose_ReplyText msg) +>+
  writeU16 (ConnectionClose_ClassId msg) +>+
  writeU16 (ConnectionClose_MethodId msg).

Definition ConnectionClose_Read : reader ConnectionClose :=
  v_ReplyCode ← readU16;
  v_ReplyText ← readShortstr;
  v_ClassId ← readU16;
  v_MethodId ← readU16;
  mret {|
    ConnectionClose_ReplyCode := v_ReplyCode;
    ConnectionClose_ReplyText := v_ReplyText;
    ConnectionClose_ClassId := v_ClassId;
    ConnectionClose_MethodId := v_MethodId |}.

#[export] Instance ConnectionClose_Message : Message ConnectionClose := {|
  ID := ConnectionClose_ID; Wait := ConnectionClose_Wait; Read := ConnectionClose_Read; Write := ConnectionClose_Write |}.

Definition ConnectionClose_wf (msg : ConnectionClose) : bool :=
  in_uint 16 (ConnectionClose_ReplyCode msg) && short (ConnectionClose_ReplyText msg) && in_uint 16 (ConnectionClose_ClassId msg) && in_uint 16 (ConnectionClose_MethodId msg).

Definition ConnectionClose_canon (msg : ConnectionClose) : ConnectionClose := msg.

#[export] Instance ConnectionClose_ok : MessageOk ConnectionClose.
Proof.
  refine {| wf := ConnectionClose_wf; canon := ConnectionClose_canon |};
    solve_message_ok ltac:(unfold Read, Write, ConnectionClose_Message, ConnectionClose_Read, ConnectionClose_Write, ConnectionClose_wf, ConnectionClose_canon).
Defined.

(** ** [ConnectionCloseOk] *)

Record ConnectionCloseOk : Type := mkConnectionCloseOk { }.

Definition ConnectionCloseOk_ID (msg : ConnectionCloseOk) : Z * Z := (10, 51).

Definition ConnectionCloseOk_Wait (msg : ConnectionCloseOk) : bool := true.

Definition ConnectionCloseOk_Write (msg : ConnectionCloseOk) : writer :=
  wnil.

Definition ConnectionCloseOk_Read : reader ConnectionCloseOk :=
  mret mkConnectionCloseOk.

#[export] Instance ConnectionCloseOk_Message : Message ConnectionCloseOk := {|
  ID := ConnectionCloseOk_ID; Wait := ConnectionCloseOk_Wait; Read := ConnectionCloseOk_Read; Write := ConnectionCloseOk_Write |}.

Definition ConnectionCloseOk_wf (msg : ConnectionCloseOk) : bool :=
  true.

Definition ConnectionCloseOk_canon (msg : ConnectionCloseOk) : ConnectionCloseOk := msg.

#[export] Instance ConnectionCloseOk_ok : MessageOk ConnectionCloseOk.
Proof.
  refine {| wf := ConnectionCloseOk_wf; canon := ConnectionCloseOk_canon |};
    solve_message_ok ltac:(unfold Read, Write, ConnectionCloseOk_Message, ConnectionCloseOk_Read, ConnectionCloseOk_Write, ConnectionCloseOk_wf, ConnectionCloseOk_canon).
Defined.

(** ** [ConnectionBlocked] *)

Record ConnectionBlocked : Type := mkConnectionBlocked {
  ConnectionBlocked_Reason : string
}.

Definition ConnectionBlocked_ID (msg : ConnectionBlocked) : Z * Z := (10, 60).

Definition ConnectionBlocked_Wait (msg : ConnectionBlocked) : bool := false.

Definition ConnectionBlocked_Write (msg : ConnectionBlocked) : writer :=
  writeShortstr (ConnectionBlocked_Reason msg).

Definition ConnectionBlocked_Read : reader ConnectionBlocked :=
  v_Reason ← readShortstr;
  mret {|
    ConnectionBlocked_Reason := v_Reason |}.

#[export] Instance ConnectionBlocked_Message : Message ConnectionBlocked := {|
  ID := ConnectionBlocked_ID; Wait := ConnectionBlocked_Wait; Read := ConnectionBlocked_Read; Write := ConnectionBlocked_Write |}.

Definition ConnectionBlocked_wf (msg : ConnectionBlocked) : bool :=
  short (ConnectionBlocked_Reason msg).

Definition ConnectionBlocked_canon (msg : ConnectionBlocked) : ConnectionBlocked := msg.

#[export] Instance ConnectionBlocked_ok : MessageOk ConnectionBlocked.
Proof.
  refine {| wf := ConnectionBlocked_wf; canon := ConnectionBlocked_canon |};
    solve_message_ok ltac:(unfold Read, Write, ConnectionBlocked_Message, ConnectionBlocked_Read, ConnectionBlocked_Write, ConnectionBlocked_wf, ConnectionBlocked_canon).
Defined.

(** ** [ConnectionUnblocked] *)

Record ConnectionUnblocked : Type := mkConnectionUnblocked { }.

Definition ConnectionUnblocked_ID (msg : ConnectionUnblocked) : Z * Z := (10, 61).

Definition ConnectionUnblocked_Wait (msg : ConnectionUnblocked) : bool := false.

Definition ConnectionUnblocked_Write (msg : ConnectionUnblocked) : writer :=
  wnil.

Definition ConnectionUnblocked_Read : reader ConnectionUnblocked :=
  mret mkConnectionUnblocked.

#[export] Instance ConnectionUnblocked_Message : Message ConnectionUnblocked := {|
  ID := ConnectionUnblocked_ID; Wait := ConnectionUnblocked_Wait; Read := ConnectionUnblocked_Read; Write := ConnectionUnblocked_Write |}.

Definition ConnectionUnblocked_wf (msg : ConnectionUnblocked) : bool :=
  true.

Definition ConnectionUnblocked_canon (msg : ConnectionUnblocked) : ConnectionUnblocked := msg.

#[export] Instance ConnectionUnblocked_ok : MessageOk ConnectionUnblocked.
Proof.
  refine {| wf := ConnectionUnblocked_wf; canon := ConnectionUnblocked_canon |};
    solve_message_ok ltac:(unfold Read, Write, ConnectionUnblocked_Message, ConnectionUnblocked_Read, ConnectionUnblocked_Write, ConnectionUnblocked_wf, ConnectionUnblocked_canon).
Defined.

(** ** [ConnectionUpdateSecret] *)

Record ConnectionUpdateSecret : Type := mkConnectionUpdateSecret {
  ConnectionUpdateSecret_NewSecret : string;
  ConnectionUpdateSecret_Reason : string
}.

Definition ConnectionUpdateSecret_ID (msg : ConnectionUpdateSecret) : Z * Z := (10, 70).

Definition ConnectionUpdateSecret_Wait (msg : ConnectionUpdateSecret) : bool := true.

Definition ConnectionUpdateSecret_Write (msg : ConnectionUpdateSecret) : writer :=
  writeLongstr (ConnectionUpdateSecret_NewSecret msg) +>+
  writeShortstr (ConnectionUpdateSecret_Reason msg).

Definition ConnectionUpdateSecret_Read : reader ConnectionUpdateSecret :=
  v_NewSecret ← readLongstr;
  v_Reason ← readShortstr;
  mret {|
    ConnectionUpdateSecret_NewSecret := v_NewSecret;
    ConnectionUpdateSecret_Reason := v_Reason |}.

#[export] Instance ConnectionUpdateSecret_Message : Message ConnectionUpdateSecret := {|
  ID := ConnectionUpdateSecret_ID; Wait := ConnectionUpdateSecret_Wait; Read := ConnectionUpdateSecret_Read; Write := ConnectionUpdateSecret_Write |}.

Definition ConnectionUpdateSecret_wf (msg : ConnectionUpdateSecret) : bool :=
  long (ConnectionUpdateSecret_NewSecret msg) && short (ConnectionUpdateSecret_Reason msg).

Definition ConnectionUpdateSecret_canon (msg : ConnectionUpdateSecret) : ConnectionUpdateSecret := msg.

#[export] Instance ConnectionUpdateSecret_ok : MessageOk ConnectionUpdateSecret.
Proof.
  refine {| wf := ConnectionUpdateSecret_wf; canon := ConnectionUpdateSecret_canon |};
    solve_message_ok ltac:(unfold Read, Write, ConnectionUpdateSecret_Message, ConnectionUpdateSecret_Read, ConnectionUpdateSecret_Write, ConnectionUpdateSecret_wf, ConnectionUpdateSecret_canon).
Defined.

(** ** [ConnectionUpdateSecretOk] *)

Record ConnectionUpdateSecretOk : Type := mkConnectionUpdateSecretOk { }.

Definition ConnectionUpdateSecretOk_ID (msg : ConnectionUpdateSecretOk) : Z * Z := (10, 71).

Definition ConnectionUpdateSecretOk_Wait (msg : ConnectionUpdateSecretOk) : bool := true.

Definition ConnectionUpdateSecretOk_Write (msg : ConnectionUpdateSecretOk) : writer :=
  wnil.

Definition ConnectionUpdateSecretOk_Read : reader ConnectionUpdateSecretOk :=
  mret mkConnectionUpdateSecretOk.

#[export] Instance ConnectionUpdateSecretOk_Message : Message ConnectionUpdateSecretOk := {|
  ID := ConnectionUpdateSecretOk_ID; Wait := ConnectionUpdateSecretOk_Wait; Read := ConnectionUpdateSecretOk_Read; Write := ConnectionUpdateSecretOk_Write |}.

Definition ConnectionUpdateSecretOk_wf (msg : ConnectionUpdateSecretOk) : bool :=
  true.

Definition ConnectionUpdateSecretOk_canon (msg : ConnectionUpdateSecretOk) : ConnectionUpdateSecretOk := msg.

#[export] Instance ConnectionUpdateSecretOk_ok : MessageOk ConnectionUpdateSecretOk.
Proof.
  refine {| wf := ConnectionUpdateSecretOk_wf; canon := ConnectionUpdateSecretOk_canon |};
    solve_message_ok ltac:(unfold Read, Write, ConnectionUpdateSecretOk_Message, ConnectionUpdateSecretOk_Read, ConnectionUpdateSecretOk_Write, ConnectionUpdateSecretOk_wf, ConnectionUpdateSecretOk_canon).
Defined.
