(* ===== verification/MsgChannel.v ===== *)
(** * Messages of the channel class

    [amqp091/spec091.go]: for every struct of class 20 its fields and its
    [ID], [Wait], [Write] and [Read] methods, and the proof that its codec meets
    [MessageOk]. *)

From S2P Require Import Prelude Bytes Fields MsgBase.

(** ** [ChannelOpen] *)

Record ChannelOpen : Type := mkChannelOpen {
  ChannelOpen_reserved1 : string
}.

Definition ChannelOpen_ID (msg : ChannelOpen) : Z * Z := (20, 10).

Definition ChannelOpen_Wait (msg : ChannelOpen) : bool := true.

Definition ChannelOpen_Write (msg : ChannelOpen) : writer :=
  writeShortstr (ChannelOpen_reserved1 msg).

Definition ChannelOpen_Read : reader ChannelOpen :=
  v_reserved1 ← readShortstr;
  mret {|
    ChannelOpen_reserved1 := v_reserved1 |}.

#[export] Instance ChannelOpen_Message : Message ChannelOpen := {|
  ID := ChannelOpen_ID; Wait := ChannelOpen_Wait; Read := ChannelOpen_Read; Write := ChannelOpen_Write |}.

Definition ChannelOpen_wf (msg : ChannelOpen) : bool :=
  short (ChannelOpen_reserved1 msg).

Definition ChannelOpen_canon (msg : ChannelOpen) : ChannelOpen := msg.

#[export] Instance ChannelOpen_ok : MessageOk ChannelOpen.
Proof.
  refine {| wf := ChannelOpen_wf; canon := ChannelOpen_canon |};
    solve_message_ok ltac:(unfold Read, Write, ChannelOpen_Message, ChannelOpen_Read, ChannelOpen_Write, ChannelOpen_wf, ChannelOpen_canon).
Defined.

(** ** [ChannelOpenOk] *)

Record ChannelOpenOk : Type := mkChannelOpenOk {
  ChannelOpenOk_reserved1 : string
}.

Definition ChannelOpenOk_ID (msg : ChannelOpenOk) : Z * Z := (20, 11).

Definition ChannelOpenOk_Wait (msg : ChannelOpenOk) : bool := true.

Definition ChannelOpenOk_Write (msg : ChannelOpenOk) : writer :=
  writeLongstr (ChannelOpenOk_reserved1 msg).

Definition ChannelOpenOk_Read : reader ChannelOpenOk :=
  v_reserved1 ← readLongstr;
  mret {|
    ChannelOpenOk_reserved1 := v_reserved1 |}.

#[export] Instance ChannelOpenOk_Message : Message ChannelOpenOk := {|
  ID := ChannelOpenOk_ID; Wait := ChannelOpenOk_Wait; Read := ChannelOpenOk_Read; Write := ChannelOpenOk_Write |}.

Definition ChannelOpenOk_wf (msg : ChannelOpenOk) : bool :=
  long (ChannelOpenOk_reserved1 msg).

Definition ChannelOpenOk_canon (msg : ChannelOpenOk) : ChannelOpenOk := msg.

#[export] Instance ChannelOpenOk_ok : MessageOk ChannelOpenOk.
Proof.
  refine {| wf := ChannelOpenOk_wf; canon := ChannelOpenOk_canon |};
    solve_message_ok ltac:(unfold Read, Write, ChannelOpenOk_Message, ChannelOpenOk_Read, ChannelOpenOk_Write, ChannelOpenOk_wf, ChannelOpenOk_canon).
Defined.

(** ** [ChannelFlow] *)

Record ChannelFlow : Type := mkChannelFlow {
  ChannelFlow_Active : bool
}.

Definition ChannelFlow_ID (msg : ChannelFlow) : Z * Z := (20, 20).

Definition ChannelFlow_Wait (msg : ChannelFlow) : bool := true.

Definition ChannelFlow_Write (msg : ChannelFlow) : writer :=
  writeU8 (let bits := 0 in
           let bits := set_bit (ChannelFlow_Active msg) 0 bits in
           bits).

Definition ChannelFlow_Read : reader ChannelFlow :=
  bits ← readU8;
  mret {|
    ChannelFlow_Active := has_bit bits 0 |}.

#[export] Instance ChannelFlow_Message : Message ChannelFlow := {|
  ID := ChannelFlow_ID; Wait := ChannelFlow_Wait; Read := ChannelFlow_Read; Write := ChannelFlow_Write |}.

Definition ChannelFlow_wf (msg : ChannelFlow) : bool :=
  true.

Definition ChannelFlow_canon (msg : ChannelFlow) : ChannelFlow := msg.

#[export] Instance ChannelFlow_ok : MessageOk ChannelFlow.
Proof.
  refine {| wf := ChannelFlow_wf; canon := ChannelFlow_canon |};
    solve_message_ok ltac:(unfold Read, Write, ChannelFlow_Message, ChannelFlow_Read, ChannelFlow_Write, ChannelFlow_wf, ChannelFlow_canon).
Defined.

(** ** [ChannelFlowOk] *)

Record ChannelFlowOk : Type := mkChannelFlowOk {
  ChannelFlowOk_Active : bool
}.

Definition ChannelFlowOk_ID (msg : ChannelFlowOk) : Z * Z := (20, 21).

Definition ChannelFlowOk_Wait (msg : ChannelFlowOk) : bool := false.

Definition ChannelFlowOk_Write (msg : ChannelFlowOk) : writer :=
  writeU8 (let bits := 0 in
           let bits := set_bit (ChannelFlowOk_Active msg) 0 bits in
           bits).

Definition ChannelFlowOk_Read : reader ChannelFlowOk :=
  bits ← readU8;
  mret {|
    ChannelFlowOk_Active := has_bit bits 0 |}.

#[export] Instance ChannelFlowOk_Message : Message ChannelFlowOk := {|
  ID := ChannelFlowOk_ID; Wait := ChannelFlowOk_Wait; Read := ChannelFlowOk_Read; Write := ChannelFlowOk_Write |}.

Definition ChannelFlowOk_wf (msg : ChannelFlowOk) : bool :=
  true.

Definition ChannelFlowOk_canon (msg : ChannelFlowOk) : ChannelFlowOk := msg.

#[export] Instance ChannelFlowOk_ok : MessageOk ChannelFlowOk.
Proof.
  refine {| wf := ChannelFlowOk_wf; canon := ChannelFlowOk_canon |};
    solve_message_ok ltac:(unfold Read, Write, ChannelFlowOk_Message, ChannelFlowOk_Read, ChannelFlowOk_Write, ChannelFlowOk_wf, ChannelFlowOk_canon).
Defined.

(** ** [ChannelClose] *)

Record ChannelClose : Type := mkChannelClose {
  ChannelClose_ReplyCode : Z;
  ChannelClose_ReplyText : string;
  ChannelClose_ClassId : Z;
  ChannelClose_MethodId : Z
}.

Definition ChannelClose_ID (msg : ChannelClose) : Z * Z := (20, 40).

Definition ChannelClose_Wait (msg : ChannelClose) : bool := true.

Definition ChannelClose_Write (msg : ChannelClose) : writer :=
  writeU16 (ChannelClose_ReplyCode msg) +>+
  writeShortstr (ChannelClose_ReplyText msg) +>+
  writeU16 (ChannelClose_ClassId msg) +>+
  writeU16 (ChannelClose_MethodId msg).

Definition ChannelClose_Read : reader ChannelClose :=
  v_ReplyCode ← readU16;
  v_ReplyText ← readShortstr;
  v_ClassId ← readU16;
  v_MethodId ← readU16;
  mret {|
    ChannelClose_ReplyCode := v_ReplyCode;
    ChannelClose_ReplyText := v_ReplyText;
    ChannelClose_ClassId := v_ClassId;
    ChannelClose_MethodId := v_MethodId |}.

#[export] Instance ChannelClose_Message : Message ChannelClose := {|
  ID := ChannelClose_ID; Wait := ChannelClose_Wait; Read := ChannelClose_Read; Write := ChannelClose_Write |}.

Definition ChannelClose_wf (msg : ChannelClose) : bool :=
  in_uint 16 (ChannelClose_ReplyCode msg) && short (ChannelClose_ReplyText msg) && in_uint 16 (ChannelClose_ClassId msg) && in_uint 16 (ChannelClose_MethodId msg).

Definition ChannelClose_canon (msg : ChannelClose) : ChannelClose := msg.

#[export] Instance ChannelClose_ok : MessageOk ChannelClose.
Proof.
  refine {| wf := ChannelClose_wf; canon := ChannelClose_canon |};
    solve_message_ok ltac:(unfold Read, Write, ChannelClose_Message, ChannelClose_Read, ChannelClose_Write, ChannelClose_wf, ChannelClose_canon).
Defined.

(** ** [ChannelCloseOk] *)

Record ChannelCloseOk : Type := mkChannelCloseOk { }.

Definition ChannelCloseOk_ID (msg : ChannelCloseOk) : Z * Z := (20, 41).

Definition ChannelCloseOk_Wait (msg : ChannelCloseOk) : bool := true.

Definition ChannelCloseOk_Write (msg : ChannelCloseOk) : writer :=
  wnil.

Definition ChannelCloseOk_Read : reader ChannelCloseOk :=
  mret mkChannelCloseOk.

#[export] Instance ChannelCloseOk_Message : Message ChannelCloseOk := {|
  ID := ChannelCloseOk_ID; Wait := ChannelCloseOk_Wait; Read := ChannelCloseOk_Read; Write := ChannelCloseOk_Write |}.

Definition ChannelCloseOk_wf (msg : ChannelCloseOk) : bool :=
  true.

Definition ChannelCloseOk_canon (msg : ChannelCloseOk) : ChannelCloseOk := msg.

#[export] Instance ChannelCloseOk_ok : MessageOk ChannelCloseOk.
Proof.
  refine {| wf := ChannelCloseOk_wf; canon := ChannelCloseOk_canon |};
    solve_message_ok ltac:(unfold Read, Write, ChannelCloseOk_Message, ChannelCloseOk_Read, ChannelCloseOk_Write, ChannelCloseOk_wf, ChannelCloseOk_canon).
Defined.
