(* ===== verification/MsgExchange.v ===== *)
(** * Messages of the exchange class

    [amqp091/spec091.go]: for every struct of class 40 its fields and its
    [ID], [Wait], [Write] and [Read] methods, and the proof that its codec meets
    [MessageOk]. *)

From S2P Require Import Prelude Bytes Fields MsgBase.

(** ** [ExchangeDeclare] *)

Record ExchangeDeclare : Type := mkExchangeDeclare {
  ExchangeDeclare_reserved1 : Z;
  ExchangeDeclare_Exchange : string;
  ExchangeDeclare_Type : string;
  ExchangeDeclare_Passive : bool;
  ExchangeDeclare_Durable : bool;
  ExchangeDeclare_AutoDelete : bool;
  ExchangeDeclare_Internal : bool;
  ExchangeDeclare_NoWait : bool;
  ExchangeDeclare_Arguments : Table
}.

Definition ExchangeDeclare_ID (msg : ExchangeDeclare) : Z * Z := (40, 10).

Definition ExchangeDeclare_Wait (msg : ExchangeDeclare) : bool := true && negb (ExchangeDeclare_NoWait msg).

Definition ExchangeDeclare_Write (msg : ExchangeDeclare) : writer :=
  writeU16 (ExchangeDeclare_reserved1 msg) +>+
  writeShortstr (ExchangeDeclare_Exchange msg) +>+
  writeShortstr (ExchangeDeclare_Type msg) +>+
  writeU8 (let bits := 0 in
           let bits := set_bit (ExchangeDeclare_Passive msg) 0 bits in
           let bits := set_bit (ExchangeDeclare_Durable msg) 1 bits in
           let bits := set_bit (ExchangeDeclare_AutoDelete msg) 2 bits in
           let bits := set_bit (ExchangeDeclare_Internal msg) 3 bits in
           let bits := set_bit (ExchangeDeclare_NoWait msg) 4 bits in
           bits) +>+
  writeTable (ExchangeDeclare_Arguments msg).

Definition ExchangeDeclare_Read : reader ExchangeDeclare :=
  v_reserved1 ← readU16;
  v_Exchange ← readShortstr;
  v_Type ← readShortstr;
  bits ← readU8;
  v_Arguments ← readTable;
  mret {|
    ExchangeDeclare_reserved1 := v_reserved1;
    ExchangeDeclare_Exchange := v_Exchange;
    ExchangeDeclare_Type := v_Type;
    ExchangeDeclare_Passive := has_bit bits 0;
    ExchangeDeclare_Durable := has_bit bits 1;
    ExchangeDeclare_AutoDelete := has_bit bits 2;
    ExchangeDeclare_Internal := has_bit bits 3;
    ExchangeDeclare_NoWait := has_bit bits 4;
    ExchangeDeclare_Arguments := v_Arguments |}.

#[export] Instance ExchangeDeclare_Message : Message ExchangeDeclare := {|
  ID := ExchangeDeclare_ID; Wait := ExchangeDeclare_Wait; Read := ExchangeDeclare_Read; Write := ExchangeDeclare_Write |}.

Definition ExchangeDeclare_wf (msg : ExchangeDeclare) : bool :=
  in_uint 16 (ExchangeDeclare_reserved1 msg) && short (ExchangeDeclare_Exchange msg) && short (ExchangeDeclare_Type msg) && wf_table (ExchangeDeclare_Arguments msg).

Definition ExchangeDeclare_canon (msg : ExchangeDeclare) : ExchangeDeclare := {|
    ExchangeDeclare_reserved1 := ExchangeDeclare_reserved1 msg;
    ExchangeDeclare_Exchange := ExchangeDeclare_Exchange msg;
    ExchangeDeclare_Type := ExchangeDeclare_Type msg;
    ExchangeDeclare_Passive := ExchangeDeclare_Passive msg;
    ExchangeDeclare_Durable := ExchangeDeclare_Durable msg;
    ExchangeDeclare_AutoDelete := ExchangeDeclare_AutoDelete msg;
    ExchangeDeclare_Internal := ExchangeDeclare_Internal msg;
    ExchangeDeclare_NoWait := ExchangeDeclare_NoWait msg;
    ExchangeDeclare_Arguments := canonTable (ExchangeDeclare_Arguments msg) |}.

#[export] Instance ExchangeDeclare_ok : MessageOk ExchangeDeclare.
Proof.
  refine {| wf := ExchangeDeclare_wf; canon := ExchangeDeclare_canon |};
    solve_message_ok ltac:(unfold Read, Write, ExchangeDeclare_Message, ExchangeDeclare_Read, ExchangeDeclare_Write, ExchangeDeclare_wf, ExchangeDeclare_canon).
Defined.

(** ** [ExchangeDeclareOk] *)

Record ExchangeDeclareOk : Type := mkExchangeDeclareOk { }.

Definition ExchangeDeclareOk_ID (msg : ExchangeDeclareOk) : Z * Z := (40, 11).

Definition ExchangeDeclareOk_Wait (msg : ExchangeDeclareOk) : bool := true.

Definition ExchangeDeclareOk_Write (msg : ExchangeDeclareOk) : writer :=
  wnil.

Definition ExchangeDeclareOk_Read : reader ExchangeDeclareOk :=
  mret mkExchangeDeclareOk.

#[export] Instance ExchangeDeclareOk_Message : Message ExchangeDeclareOk := {|
  ID := ExchangeDeclareOk_ID; Wait := ExchangeDeclareOk_Wait; Read := ExchangeDeclareOk_Read; Write := ExchangeDeclareOk_Write |}.

Definition ExchangeDeclareOk_wf (msg : ExchangeDeclareOk) : bool :=
  true.

Definition ExchangeDeclareOk_canon (msg : ExchangeDeclareOk) : ExchangeDeclareOk := msg.

#[export] Instance ExchangeDeclareOk_ok : MessageOk ExchangeDeclareOk.
Proof.
  refine {| wf := ExchangeDeclareOk_wf; canon := ExchangeDeclareOk_canon |};
    solve_message_ok ltac:(unfold Read, Write, ExchangeDeclareOk_Message, ExchangeDeclareOk_Read, ExchangeDeclareOk_Write, ExchangeDeclareOk_wf, ExchangeDeclareOk_canon).
Defined.

(** ** [ExchangeDelete] *)

Record ExchangeDelete : Type := mkExchangeDelete {
  ExchangeDelete_reserved1 : Z;
  ExchangeDelete_Exchange : string;
  ExchangeDelete_IfUnused : bool;
  ExchangeDelete_NoWait : bool
}.

Definition ExchangeDelete_ID (msg : ExchangeDelete) : Z * Z := (40, 20).

Definition ExchangeDelete_Wait (msg : ExchangeDelete) : bool := true && negb (ExchangeDelete_NoWait msg).

Definition ExchangeDelete_Write (msg : ExchangeDelete) : writer :=
  writeU16 (ExchangeDelete_reserved1 msg) +>+
  writeShortstr (ExchangeDelete_Exchange msg) +>+
  writeU8 (let bits := 0 in
           let bits := set_bit (ExchangeDelete_IfUnused msg) 0 bits in
           let bits := set_bit (ExchangeDelete_NoWait msg) 1 bits in
           bits).

Definition ExchangeDelete_Read : reader ExchangeDelete :=
  v_reserved1 ← readU16;
  v_Exchange ← readShortstr;
  bits ← readU8;
  mret {|
    ExchangeDelete_reserved1 := v_reserved1;
    ExchangeDelete_Exchange := v_Exchange;
    ExchangeDelete_IfUnused := has_bit bits 0;
    ExchangeDelete_NoWait := has_bit bits 1 |}.

#[export] Instance ExchangeDelete_Message : Message ExchangeDelete := {|
  ID := ExchangeDelete_ID; Wait := ExchangeDelete_Wait; Read := ExchangeDelete_Read; Write := ExchangeDelete_Write |}.

Definition ExchangeDelete_wf (msg : ExchangeDelete) : bool :=
  in_uint 16 (ExchangeDelete_reserved1 msg) && short (ExchangeDelete_Exchange msg).

Definition ExchangeDelete_canon (msg : ExchangeDelete) : ExchangeDelete := msg.

#[export] Instance ExchangeDelete_ok : MessageOk ExchangeDelete.
Proof.
  refine {| wf := ExchangeDelete_wf; canon := ExchangeDelete_canon |};
    solve_message_ok ltac:(unfold Read, Write, ExchangeDelete_Message, ExchangeDelete_Read, ExchangeDelete_Write, ExchangeDelete_wf, ExchangeDelete_canon).
Defined.

(** ** [ExchangeDeleteOk] *)

Record ExchangeDeleteOk : Type := mkExchangeDeleteOk { }.

Definition ExchangeDeleteOk_ID (msg : ExchangeDeleteOk) : Z * Z := (40, 21).

Definition ExchangeDeleteOk_Wait (msg : ExchangeDeleteOk) : bool := true.

Definition ExchangeDeleteOk_Write (msg : ExchangeDeleteOk) : writer :=
  wnil.

Definition ExchangeDeleteOk_Read : reader ExchangeDeleteOk :=
  mret mkExchangeDeleteOk.

#[export] Instance ExchangeDeleteOk_Message : Message ExchangeDeleteOk := {|
  ID := ExchangeDeleteOk_ID; Wait := ExchangeDeleteOk_Wait; Read := ExchangeDeleteOk_Read; Write := ExchangeDeleteOk_Write |}.

Definition ExchangeDeleteOk_wf (msg : ExchangeDeleteOk) : bool :=
  true.

Definition ExchangeDeleteOk_canon (msg : ExchangeDeleteOk) : ExchangeDeleteOk := msg.

#[export] Instance ExchangeDeleteOk_ok : MessageOk ExchangeDeleteOk.
Proof.
  refine {| wf := ExchangeDeleteOk_wf; canon := ExchangeDeleteOk_canon |};
    solve_message_ok ltac:(unfold Read, Write, ExchangeDeleteOk_Message, ExchangeDeleteOk_Read, ExchangeDeleteOk_Write, ExchangeDeleteOk_wf, ExchangeDeleteOk_canon).
Defined.

(** ** [ExchangeBind] *)

Record ExchangeBind : Type := mkExchangeBind {
  ExchangeBind_reserved1 : Z;
  ExchangeBind_Destination : string;
  ExchangeBind_Source : string;
  ExchangeBind_RoutingKey : string;
  ExchangeBind_NoWait : bool;
  ExchangeBind_Arguments : Table
}.

Definition ExchangeBind_ID (msg : ExchangeBind) : Z * Z := (40, 30).

Definition ExchangeBind_Wait (msg : ExchangeBind) : bool := true && negb (ExchangeBind_NoWait msg).

Definition ExchangeBind_Write (msg : ExchangeBind) : writer :=
  writeU16 (ExchangeBind_reserved1 msg) +>+
  writeShortstr (ExchangeBind_Destination msg) +>+
  writeShortstr (ExchangeBind_Source msg) +>+
  writeShortstr (ExchangeBind_RoutingKey msg) +>+
  writeU8 (let bits := 0 in
           let bits := set_bit (ExchangeBind_NoWait msg) 0 bits in
           bits) +>+
  writeTable (ExchangeBind_Arguments msg).

Definition ExchangeBind_Read : reader ExchangeBind :=
  v_reserved1 ← readU16;
  v_Destination ← readShortstr;
  v_Source ← readShortstr;
  v_RoutingKey ← readShortstr;
  bits ← readU8;
  v_Arguments ← readTable;
  mret {|
    ExchangeBind_reserved1 := v_reserved1;
    ExchangeBind_Destination := v_Destination;
    ExchangeBind_Source := v_Source;
    ExchangeBind_RoutingKey := v_RoutingKey;
    ExchangeBind_NoWait := has_bit bits 0;
    ExchangeBind_Arguments := v_Arguments |}.

#[export] Instance ExchangeBind_Message : Message ExchangeBind := {|
  ID := ExchangeBind_ID; Wait := ExchangeBind_Wait; Read := ExchangeBind_Read; Write := ExchangeBind_Write |}.

Definition ExchangeBind_wf (msg : ExchangeBind) : bool :=
  in_uint 16 (ExchangeBind_reserved1 msg) && short (ExchangeBind_Destination msg) && short (ExchangeBind_Source msg) && short (ExchangeBind_RoutingKey msg) && wf_table (ExchangeBind_Arguments msg).

Definition ExchangeBind_canon (msg : ExchangeBind) : ExchangeBind := {|
    ExchangeBind_reserved1 := ExchangeBind_reserved1 msg;
    ExchangeBind_Destination := ExchangeBind_Destination msg;
    ExchangeBind_Source := ExchangeBind_Source msg;
    ExchangeBind_RoutingKey := ExchangeBind_RoutingKey msg;
    ExchangeBind_NoWait := ExchangeBind_NoWait msg;
    ExchangeBind_Arguments := canonTable (ExchangeBind_Arguments msg) |}.

#[export] Instance ExchangeBind_ok : MessageOk ExchangeBind.
Proof.
  refine {| wf := ExchangeBind_wf; canon := ExchangeBind_canon |};
    solve_message_ok ltac:(unfold Read, Write, ExchangeBind_Message, ExchangeBind_Read, ExchangeBind_Write, ExchangeBind_wf, ExchangeBind_canon).
Defined.

(** ** [ExchangeBindOk] *)

Record ExchangeBindOk : Type := mkExchangeBindOk { }.

Definition ExchangeBindOk_ID (msg : ExchangeBindOk) : Z * Z := (40, 31).

Definition ExchangeBindOk_Wait (msg : ExchangeBindOk) : bool := true.

Definition ExchangeBindOk_Write (msg : ExchangeBindOk) : writer :=
  wnil.

Definition ExchangeBindOk_Read : reader ExchangeBindOk :=
  mret mkExchangeBindOk.

#[export] Instance ExchangeBindOk_Message : Message ExchangeBindOk := {|
  ID := ExchangeBindOk_ID; Wait := ExchangeBindOk_Wait; Read := ExchangeBindOk_Read; Write := ExchangeBindOk_Write |}.

Definition ExchangeBindOk_wf (msg : ExchangeBindOk) : bool :=
  true.

Definition ExchangeBindOk_canon (msg : ExchangeBindOk) : ExchangeBindOk := msg.

#[export] Instance ExchangeBindOk_ok : MessageOk ExchangeBindOk.
Proof.
  refine {| wf := ExchangeBindOk_wf; canon := ExchangeBindOk_canon |};
    solve_message_ok ltac:(unfold Read, Write, ExchangeBindOk_Message, ExchangeBindOk_Read, ExchangeBindOk_Write, ExchangeBindOk_wf, ExchangeBindOk_canon).
Defined.

(** ** [ExchangeUnbind] *)

Record ExchangeUnbind : Type := mkExchangeUnbind {
  ExchangeUnbind_reserved1 : Z;
  ExchangeUnbind_Destination : string;
  ExchangeUnbind_Source : string;
  ExchangeUnbind_RoutingKey : string;
  ExchangeUnbind_NoWait : bool;
  ExchangeUnbind_Arguments : Table
}.

Definition ExchangeUnbind_ID (msg : ExchangeUnbind) : Z * Z := (40, 40).

Definition ExchangeUnbind_Wait (msg : ExchangeUnbind) : bool := true && negb (ExchangeUnbind_NoWait msg).

Definition ExchangeUnbind_Write (msg : ExchangeUnbind) : writer :=
  writeU16 (ExchangeUnbind_reserved1 msg) +>+
  writeShortstr (ExchangeUnbind_Destination msg) +>+
  writeShortstr (ExchangeUnbind_Source msg) +>+
  writeShortstr (ExchangeUnbind_RoutingKey msg) +>+
  writeU8 (let bits := 0 in
           let bits := set_bit (ExchangeUnbind_NoWait msg) 0 bits in
           bits) +>+
  writeTable (ExchangeUnbind_Arguments msg).

Definition ExchangeUnbind_Read : reader ExchangeUnbind :=
  v_reserved1 ← readU16;
  v_Destination ← readShortstr;
  v_Source ← readShortstr;
  v_RoutingKey ← readShortstr;
  bits ← readU8;
  v_Arguments ← readTable;
  mret {|
    ExchangeUnbind_reserved1 := v_reserved1;
    ExchangeUnbind_Destination := v_Destination;
    ExchangeUnbind_Source := v_Source;
    ExchangeUnbind_RoutingKey := v_RoutingKey;
    ExchangeUnbind_NoWait := has_bit bits 0;
    ExchangeUnbind_Arguments := v_Arguments |}.

#[export] Instance ExchangeUnbind_Message : Message ExchangeUnbind := {|
  ID := ExchangeUnbind_ID; Wait := ExchangeUnbind_Wait; Read := ExchangeUnbind_Read; Write := ExchangeUnbind_Write |}.

Definition ExchangeUnbind_wf (msg : ExchangeUnbind) : bool :=
  in_uint 16 (ExchangeUnbind_reserved1 msg) && short (ExchangeUnbind_Destination msg) && short (ExchangeUnbind_Source msg) && short (ExchangeUnbind_RoutingKey msg) && wf_table (ExchangeUnbind_Arguments msg).

Definition ExchangeUnbind_canon (msg : ExchangeUnbind) : ExchangeUnbind := {|
    ExchangeUnbind_reserved1 := ExchangeUnbind_reserved1 msg;
    ExchangeUnbind_Destination := ExchangeUnbind_Destination msg;
    ExchangeUnbind_Source := ExchangeUnbind_Source msg;
    ExchangeUnbind_RoutingKey := ExchangeUnbind_RoutingKey msg;
    ExchangeUnbind_NoWait := ExchangeUnbind_NoWait msg;
    ExchangeUnbind_Arguments := canonTable (ExchangeUnbind_Arguments msg) |}.

#[export] Instance ExchangeUnbind_ok : MessageOk ExchangeUnbind.
Proof.
  refine {| wf := ExchangeUnbind_wf; canon := ExchangeUnbind_canon |};
    solve_message_ok ltac:(unfold Read, Write, ExchangeUnbind_Message, ExchangeUnbind_Read, ExchangeUnbind_Write, ExchangeUnbind_wf, ExchangeUnbind_canon).
Defined.

(** ** [ExchangeUnbindOk] *)

Record ExchangeUnbindOk : Type := mkExchangeUnbindOk { }.

Definition ExchangeUnbindOk_ID (msg : ExchangeUnbindOk) : Z * Z := (40, 51).

Definition ExchangeUnbindOk_Wait (msg : ExchangeUnbindOk) : bool := true.

Definition ExchangeUnbindOk_Write (msg : ExchangeUnbindOk) : writer :=
  wnil.

Definition ExchangeUnbindOk_Read : reader ExchangeUnbindOk :=
  mret mkExchangeUnbindOk.

#[export] Instance ExchangeUnbindOk_Message : Message ExchangeUnbindOk := {|
  ID := ExchangeUnbindOk_ID; Wait := ExchangeUnbindOk_Wait; Read := ExchangeUnbindOk_Read; Write := ExchangeUnbindOk_Write |}.

Definition ExchangeUnbindOk_wf (msg : ExchangeUnbindOk) : bool :=
  true.

Definition ExchangeUnbindOk_canon (msg : ExchangeUnbindOk) : ExchangeUnbindOk := msg.

#[export] Instance ExchangeUnbindOk_ok : MessageOk ExchangeUnbindOk.
Proof.
  refine {| wf := ExchangeUnbindOk_wf; canon := ExchangeUnbindOk_canon |};
    solve_message_ok ltac:(unfold Read, Write, ExchangeUnbindOk_Message, ExchangeUnbindOk_Read, ExchangeUnbindOk_Write, ExchangeUnbindOk_wf, ExchangeUnbindOk_canon).
Defined.
