(* ===== verification/MsgQueue.v ===== *)
(** * Messages of the queue class

    [amqp091/spec091.go]: for every struct of class 50 its fields and its
    [ID], [Wait], [Write] and [Read] methods, and the proof that its codec meets
    [MessageOk]. *)

From S2P Require Import Prelude Bytes Fields MsgBase.

(** ** [QueueDeclare] *)

Record QueueDeclare : Type := mkQueueDeclare {
  QueueDeclare_reserved1 : Z;
  QueueDeclare_Queue : string;
  QueueDeclare_Passive : bool;
  QueueDeclare_Durable : bool;
  QueueDeclare_Exclusive : bool;
  QueueDeclare_AutoDelete : bool;
  QueueDeclare_NoWait : bool;
  QueueDeclare_Arguments : Table
}.

Definition QueueDeclare_ID (msg : QueueDeclare) : Z * Z := (50, 10).

Definition QueueDeclare_Wait (msg : QueueDeclare) : bool := true && negb (QueueDeclare_NoWait msg).

Definition QueueDeclare_Write (msg : QueueDeclare) : writer :=
  writeU16 (QueueDeclare_reserved1 msg) +>+
  writeShortstr (QueueDeclare_Queue msg) +>+
  writeU8 (let bits := 0 in
           let bits := set_bit (QueueDeclare_Passive msg) 0 bits in
           let bits := set_bit (QueueDeclare_Durable msg) 1 bits in
           let bits := set_bit (QueueDeclare_Exclusive msg) 2 bits in
           let bits := set_bit (QueueDeclare_AutoDelete msg) 3 bits in
           let bits := set_bit (QueueDeclare_NoWait msg) 4 bits in
           bits) +>+
  writeTable (QueueDeclare_Arguments msg).

Definition QueueDeclare_Read : reader QueueDeclare :=
  v_reserved1 ← readU16;
  v_Queue ← readShortstr;
  bits ← readU8;
  v_Arguments ← readTable;
  mret {|
    QueueDeclare_reserved1 := v_reserved1;
    QueueDeclare_Queue := v_Queue;
    QueueDeclare_Passive := has_bit bits 0;
    QueueDeclare_Durable := has_bit bits 1;
    QueueDeclare_Exclusive := has_bit bits 2;
    QueueDeclare_AutoDelete := has_bit bits 3;
    QueueDeclare_NoWait := has_bit bits 4;
    QueueDeclare_Arguments := v_Arguments |}.

#[export] Instance QueueDeclare_Message : Message QueueDeclare := {|
  ID := QueueDeclare_ID; Wait := QueueDeclare_Wait; Read := QueueDeclare_Read; Write := QueueDeclare_Write |}.

Definition QueueDeclare_wf (msg : QueueDeclare) : bool :=
  in_uint 16 (QueueDeclare_reserved1 msg) && short (QueueDeclare_Queue msg) && wf_table (QueueDeclare_Arguments msg).

Definition QueueDeclare_canon (msg : QueueDeclare) : QueueDeclare := {|
    QueueDeclare_reserved1 := QueueDeclare_reserved1 msg;
    QueueDeclare_Queue := QueueDeclare_Queue msg;
    QueueDeclare_Passive := QueueDeclare_Passive msg;
    QueueDeclare_Durable := QueueDeclare_Durable msg;
    QueueDeclare_Exclusive := QueueDeclare_Exclusive msg;
    QueueDeclare_AutoDelete := QueueDeclare_AutoDelete msg;
    QueueDeclare_NoWait := QueueDeclare_NoWait msg;
    QueueDeclare_Arguments := canonTable (QueueDeclare_Arguments msg) |}.

#[export] Instance QueueDeclare_ok : MessageOk QueueDeclare.
Proof.
  refine {| wf := QueueDeclare_wf; canon := QueueDeclare_canon |};
    solve_message_ok ltac:(unfold Read, Write, QueueDeclare_Message, QueueDeclare_Read, QueueDeclare_Write, QueueDeclare_wf, QueueDeclare_canon).
Defined.

(** ** [QueueDeclareOk] *)

Record QueueDeclareOk : Type := mkQueueDeclareOk {
  QueueDeclareOk_Queue : string;
  QueueDeclareOk_MessageCount : Z;
  QueueDeclareOk_ConsumerCount : Z
}.

Definition QueueDeclareOk_ID (msg : QueueDeclareOk) : Z * Z := (50, 11).

Definition QueueDeclareOk_Wait (msg : QueueDeclareOk) : bool := true.

Definition QueueDeclareOk_Write (msg : QueueDeclareOk) : writer :=
  writeShortstr (QueueDeclareOk_Queue msg) +>+
  writeU32 (QueueDeclareOk_MessageCount msg) +>+
  writeU32 (QueueDeclareOk_ConsumerCount msg).

Definition QueueDeclareOk_Read : reader QueueDeclareOk :=
  v_Queue ← readShortstr;
  v_MessageCount ← readU32;
  v_ConsumerCount ← readU32;
  mret {|
    QueueDeclareOk_Queue := v_Queue;
    QueueDeclareOk_MessageCount := v_MessageCount;
    QueueDeclareOk_ConsumerCount := v_ConsumerCount |}.

#[export] Instance QueueDeclareOk_Message : Message QueueDeclareOk := {|
  ID := QueueDeclareOk_ID; Wait := QueueDeclareOk_Wait; Read := QueueDeclareOk_Read; Write := QueueDeclareOk_Write |}.

Definition QueueDeclareOk_wf (msg : QueueDeclareOk) : bool :=
  short (QueueDeclareOk_Queue msg) && in_uint 32 (QueueDeclareOk_MessageCount msg) && in_uint 32 (QueueDeclareOk_ConsumerCount msg).

Definition QueueDeclareOk_canon (msg : QueueDeclareOk) : QueueDeclareOk := msg.

#[export] Instance QueueDeclareOk_ok : MessageOk QueueDeclareOk.
Proof.
  refine {| wf := QueueDeclareOk_wf; canon := QueueDeclareOk_canon |};
    solve_message_ok ltac:(unfold Read, Write, QueueDeclareOk_Message, QueueDeclareOk_Read, QueueDeclareOk_Write, QueueDeclareOk_wf, QueueDeclareOk_canon).
Defined.

(** ** [QueueBind] *)

Record QueueBind : Type := mkQueueBind {
  QueueBind_reserved1 : Z;
  QueueBind_Queue : string;
  QueueBind_Exchange : string;
  QueueBind_RoutingKey : string;
  QueueBind_NoWait : bool;
  QueueBind_Arguments : Table
}.

Definition QueueBind_ID (msg : QueueBind) : Z * Z := (50, 20).

Definition QueueBind_Wait (msg : QueueBind) : bool := true && negb (QueueBind_NoWait msg).

Definition QueueBind_Write (msg : QueueBind) : writer :=
  writeU16 (QueueBind_reserved1 msg) +>+
  writeShortstr (QueueBind_Queue msg) +>+
  writeShortstr (QueueBind_Exchange msg) +>+
  writeShortstr (QueueBind_RoutingKey msg) +>+
  writeU8 (let bits := 0 in
           let bits := set_bit (QueueBind_NoWait msg) 0 bits in
           bits) +>+
  writeTable (QueueBind_Arguments msg).

Definition QueueBind_Read : reader QueueBind :=
  v_reserved1 ← readU16;
  v_Queue ← readShortstr;
  v_Exchange ← readShortstr;
  v_RoutingKey ← readShortstr;
  bits ← readU8;
  v_Arguments ← readTable;
  mret {|
    QueueBind_reserved1 := v_reserved1;
    QueueBind_Queue := v_Queue;
    QueueBind_Exchange := v_Exchange;
    QueueBind_RoutingKey := v_RoutingKey;
    QueueBind_NoWait := has_bit bits 0;
    QueueBind_Arguments := v_Arguments |}.

#[export] Instance QueueBind_Message : Message QueueBind := {|
  ID := QueueBind_ID; Wait := QueueBind_Wait; Read := QueueBind_Read; Write := QueueBind_Write |}.

Definition QueueBind_wf (msg : QueueBind) : bool :=
  in_uint 16 (QueueBind_reserved1 msg) && short (QueueBind_Queue msg) && short (QueueBind_Exchange msg) && short (QueueBind_RoutingKey msg) && wf_table (QueueBind_Arguments msg).

Definition QueueBind_canon (msg : QueueBind) : QueueBind := {|
    QueueBind_reserved1 := QueueBind_reserved1 msg;
    QueueBind_Queue := QueueBind_Queue msg;
    QueueBind_Exchange := QueueBind_Exchange msg;
    QueueBind_RoutingKey := QueueBind_RoutingKey msg;
    QueueBind_NoWait := QueueBind_NoWait msg;
    QueueBind_Arguments := canonTable (QueueBind_Arguments msg) |}.

#[export] Instance QueueBind_ok : MessageOk QueueBind.
Proof.
  refine {| wf := QueueBind_wf; canon := QueueBind_canon |};
    solve_message_ok ltac:(unfold Read, Write, QueueBind_Message, QueueBind_Read, QueueBind_Write, QueueBind_wf, QueueBind_canon).
Defined.

(** ** [QueueBindOk] *)

Record QueueBindOk : Type := mkQueueBindOk { }.

Definition QueueBindOk_ID (msg : QueueBindOk) : Z * Z := (50, 21).

Definition QueueBindOk_Wait (msg : QueueBindOk) : bool := true.

Definition QueueBindOk_Write (msg : QueueBindOk) : writer :=
  wnil.

Definition QueueBindOk_Read : reader QueueBindOk :=
  mret mkQueueBindOk.

#[export] Instance QueueBindOk_Message : Message QueueBindOk := {|
  ID := QueueBindOk_ID; Wait := QueueBindOk_Wait; Read := QueueBindOk_Read; Write := QueueBindOk_Write |}.

Definition QueueBindOk_wf (msg : QueueBindOk) : bool :=
  true.

Definition QueueBindOk_canon (msg : QueueBindOk) : QueueBindOk := msg.

#[export] Instance QueueBindOk_ok : MessageOk QueueBindOk.
Proof.
  refine {| wf := QueueBindOk_wf; canon := QueueBindOk_canon |};
    solve_message_ok ltac:(unfold Read, Write, QueueBindOk_Message, QueueBindOk_Read, QueueBindOk_Write, QueueBindOk_wf, QueueBindOk_canon).
Defined.

(** ** [QueueUnbind] *)

Record QueueUnbind : Type := mkQueueUnbind {
  QueueUnbind_reserved1 : Z;
  QueueUnbind_Queue : string;
  QueueUnbind_Exchange : string;
  QueueUnbind_RoutingKey : string;
  QueueUnbind_Arguments : Table
}.

Definition QueueUnbind_ID (msg : QueueUnbind) : Z * Z := (50, 50).

Definition QueueUnbind_Wait (msg : QueueUnbind) : bool := true.

Definition QueueUnbind_Write (msg : QueueUnbind) : writer :=
  writeU16 (QueueUnbind_reserved1 msg) +>+
  writeShortstr (QueueUnbind_Queue msg) +>+
  writeShortstr (QueueUnbind_Exchange msg) +>+
  writeShortstr (QueueUnbind_RoutingKey msg) +>+
  writeTable (QueueUnbind_Arguments msg).

Definition QueueUnbind_Read : reader QueueUnbind :=
  v_reserved1 ← readU16;
  v_Queue ← readShortstr;
  v_Exchange ← readShortstr;
  v_RoutingKey ← readShortstr;
  v_Arguments ← readTable;
  mret {|
    QueueUnbind_reserved1 := v_reserved1;
    QueueUnbind_Queue := v_Queue;
    QueueUnbind_Exchange := v_Exchange;
    QueueUnbind_RoutingKey := v_RoutingKey;
    QueueUnbind_Arguments := v_Arguments |}.

#[export] Instance QueueUnbind_Message : Message QueueUnbind := {|
  ID := QueueUnbind_ID; Wait := QueueUnbind_Wait; Read := QueueUnbind_Read; Write := QueueUnbind_Write |}.

Definition QueueUnbind_wf (msg : QueueUnbind) : bool :=
  in_uint 16 (QueueUnbind_reserved1 msg) && short (QueueUnbind_Queue msg) && short (QueueUnbind_Exchange msg) && short (QueueUnbind_RoutingKey msg) && wf_table (QueueUnbind_Arguments msg).

Definition QueueUnbind_canon (msg : QueueUnbind) : QueueUnbind := {|
    QueueUnbind_reserved1 := QueueUnbind_reserved1 msg;
    QueueUnbind_Queue := QueueUnbind_Queue msg;
    QueueUnbind_Exchange := QueueUnbind_Exchange msg;
    QueueUnbind_RoutingKey := QueueUnbind_RoutingKey msg;
    QueueUnbind_Arguments := canonTable (QueueUnbind_Arguments msg) |}.

#[export] Instance QueueUnbind_ok : MessageOk QueueUnbind.
Proof.
  refine {| wf := QueueUnbind_wf; canon := QueueUnbind_canon |};
    solve_message_ok ltac:(unfold Read, Write, QueueUnbind_Message, QueueUnbind_Read, QueueUnbind_Write, QueueUnbind_wf, QueueUnbind_canon).
Defined.

(** ** [QueueUnbindOk] *)

Record QueueUnbindOk : Type := mkQueueUnbindOk { }.

Definition QueueUnbindOk_ID (msg : QueueUnbindOk) : Z * Z := (50, 51).

Definition QueueUnbindOk_Wait (msg : QueueUnbindOk) : bool := true.

Definition QueueUnbindOk_Write (msg : QueueUnbindOk) : writer :=
  wnil.

Definition QueueUnbindOk_Read : reader QueueUnbindOk :=
  mret mkQueueUnbindOk.

#[export] Instance QueueUnbindOk_Message : Message QueueUnbindOk := {|
  ID := QueueUnbindOk_ID; Wait := QueueUnbindOk_Wait; Read := QueueUnbindOk_Read; Write := QueueUnbindOk_Write |}.

Definition QueueUnbindOk_wf (msg : QueueUnbindOk) : bool :=
  true.

Definition QueueUnbindOk_canon (msg : QueueUnbindOk) : QueueUnbindOk := msg.

#[export] Instance QueueUnbindOk_ok : MessageOk QueueUnbindOk.
Proof.
  refine {| wf := QueueUnbindOk_wf; canon := QueueUnbindOk_canon |};
    solve_message_ok ltac:(unfold Read, Write, QueueUnbindOk_Message, QueueUnbindOk_Read, QueueUnbindOk_Write, QueueUnbindOk_wf, QueueUnbindOk_canon).
Defined.

(** ** [QueuePurge] *)

Record QueuePurge : Type := mkQueuePurge {
  QueuePurge_reserved1 : Z;
  QueuePurge_Queue : string;
  QueuePurge_NoWait : bool
}.

Definition QueuePurge_ID (msg : QueuePurge) : Z * Z := (50, 30).

Definition QueuePurge_Wait (msg : QueuePurge) : bool := true && negb (QueuePurge_NoWait msg).

Definition QueuePurge_Write (msg : QueuePurge) : writer :=
  writeU16 (QueuePurge_reserved1 msg) +>+
  writeShortstr (QueuePurge_Queue msg) +>+
  writeU8 (let bits := 0 in
           let bits := set_bit (QueuePurge_NoWait msg) 0 bits in
           bits).

Definition QueuePurge_Read : reader QueuePurge :=
  v_reserved1 ← readU16;
  v_Queue ← readShortstr;
  bits ← readU8;
  mret {|
    QueuePurge_reserved1 := v_reserved1;
    QueuePurge_Queue := v_Queue;
    QueuePurge_NoWait := has_bit bits 0 |}.

#[export] Instance QueuePurge_Message : Message QueuePurge := {|
  ID := QueuePurge_ID; Wait := QueuePurge_Wait; Read := QueuePurge_Read; Write := QueuePurge_Write |}.

Definition QueuePurge_wf (msg : QueuePurge) : bool :=
  in_uint 16 (QueuePurge_reserved1 msg) && short (QueuePurge_Queue msg).

Definition QueuePurge_canon (msg : QueuePurge) : QueuePurge := msg.

#[export] Instance QueuePurge_ok : MessageOk QueuePurge.
Proof.
  refine {| wf := QueuePurge_wf; canon := QueuePurge_canon |};
    solve_message_ok ltac:(unfold Read, Write, QueuePurge_Message, QueuePurge_Read, QueuePurge_Write, QueuePurge_wf, QueuePurge_canon).
Defined.

(** ** [QueuePurgeOk] *)

Record QueuePurgeOk : Type := mkQueuePurgeOk {
  QueuePurgeOk_MessageCount : Z
}.

Definition QueuePurgeOk_ID (msg : QueuePurgeOk) : Z * Z := (50, 31).

Definition QueuePurgeOk_Wait (msg : QueuePurgeOk) : bool := true.

Definition QueuePurgeOk_Write (msg : QueuePurgeOk) : writer :=
  writeU32 (QueuePurgeOk_MessageCount msg).

Definition QueuePurgeOk_Read : reader QueuePurgeOk :=
  v_MessageCount ← readU32;
  mret {|
    QueuePurgeOk_MessageCount := v_MessageCount |}.

#[export] Instance QueuePurgeOk_Message : Message QueuePurgeOk := {|
  ID := QueuePurgeOk_ID; Wait := QueuePurgeOk_Wait; Read := QueuePurgeOk_Read; Write := QueuePurgeOk_Write |}.

Definition QueuePurgeOk_wf (msg : QueuePurgeOk) : bool :=
  in_uint 32 (QueuePurgeOk_MessageCount msg).

Definition QueuePurgeOk_canon (msg : QueuePurgeOk) : QueuePurgeOk := msg.

#[export] Instance QueuePurgeOk_ok : MessageOk QueuePurgeOk.
Proof.
  refine {| wf := QueuePurgeOk_wf; canon := QueuePurgeOk_canon |};
    solve_message_ok ltac:(unfold Read, Write, QueuePurgeOk_Message, QueuePurgeOk_Read, QueuePurgeOk_Write, QueuePurgeOk_wf, QueuePurgeOk_canon).
Defined.

(** ** [QueueDelete] *)

Record QueueDelete : Type := mkQueueDelete {
  QueueDelete_reserved1 : Z;
  QueueDelete_Queue : string;
  QueueDelete_IfUnused : bool;
  QueueDelete_IfEmpty : bool;
  QueueDelete_NoWait : bool
}.

Definition QueueDelete_ID (msg : QueueDelete) : Z * Z := (50, 40).

Definition QueueDelete_Wait (msg : QueueDelete) : bool := true && negb (QueueDelete_NoWait msg).

Definition QueueDelete_Write (msg : QueueDelete) : writer :=
  writeU16 (QueueDelete_reserved1 msg) +>+
  writeShortstr (QueueDelete_Queue msg) +>+
  writeU8 (let bits := 0 in
           let bits := set_bit (QueueDelete_IfUnused msg) 0 bits in
           let bits := set_bit (QueueDelete_IfEmpty msg) 1 bits in
           let bits := set_bit (QueueDelete_NoWait msg) 2 bits in
           bits).

Definition QueueDelete_Read : reader QueueDelete :=
  v_reserved1 ← readU16;
  v_Queue ← readShortstr;
  bits ← readU8;
  mret {|
    QueueDelete_reserved1 := v_reserved1;
    QueueDelete_Queue := v_Queue;
    QueueDelete_IfUnused := has_bit bits 0;
    QueueDelete_IfEmpty := has_bit bits 1;
    QueueDelete_NoWait := has_bit bits 2 |}.

#[export] Instance QueueDelete_Message : Message QueueDelete := {|
  ID := QueueDelete_ID; Wait := QueueDelete_Wait; Read := QueueDelete_Read; Write := QueueDelete_Write |}.

Definition QueueDelete_wf (msg : QueueDelete) : bool :=
  in_uint 16 (QueueDelete_reserved1 msg) && short (QueueDelete_Queue msg).

Definition QueueDelete_canon (msg : QueueDelete) : QueueDelete := msg.

#[export] Instance QueueDelete_ok : MessageOk QueueDelete.
Proof.
  refine {| wf := QueueDelete_wf; canon := QueueDelete_canon |};
    solve_message_ok ltac:(unfold Read, Write, QueueDelete_Message, QueueDelete_Read, QueueDelete_Write, QueueDelete_wf, QueueDelete_canon).
Defined.

(** ** [QueueDeleteOk] *)

Record QueueDeleteOk : Type := mkQueueDeleteOk {
  QueueDeleteOk_MessageCount : Z
}.

Definition QueueDeleteOk_ID (msg : QueueDeleteOk) : Z * Z := (50, 41).

Definition QueueDeleteOk_Wait (msg : QueueDeleteOk) : bool := true.

Definition QueueDeleteOk_Write (msg : QueueDeleteOk) : writer :=
  writeU32 (QueueDeleteOk_MessageCount msg).

Definition QueueDeleteOk_Read : reader QueueDeleteOk :=
  v_MessageCount ← readU32;
  mret {|
    QueueDeleteOk_MessageCount := v_MessageCount |}.

#[export] Instance QueueDeleteOk_Message : Message QueueDeleteOk := {|
  ID := QueueDeleteOk_ID; Wait := QueueDeleteOk_Wait; Read := QueueDeleteOk_Read; Write := QueueDeleteOk_Write |}.

Definition QueueDeleteOk_wf (msg : QueueDeleteOk) : bool :=
  in_uint 32 (QueueDeleteOk_MessageCount msg).

Definition QueueDeleteOk_canon (msg : QueueDeleteOk) : QueueDeleteOk := msg.

#[export] Instance QueueDeleteOk_ok : MessageOk QueueDeleteOk.
Proof.
  refine {| wf := QueueDeleteOk_wf; canon := QueueDeleteOk_canon |};
    solve_message_ok ltac:(unfold Read, Write, QueueDeleteOk_Message, QueueDeleteOk_Read, QueueDeleteOk_Write, QueueDeleteOk_wf, QueueDeleteOk_canon).
Defined.
