(* ===== verification/MsgBasic.v ===== *)
(** * Messages of the basic class

    [amqp091/spec091.go]: for every struct of class 60 its fields and its
    [ID], [Wait], [Write] and [Read] methods, and the proof that its codec meets
    [MessageOk]. *)

From S2P Require Import Prelude Bytes Fields MsgBase.

(** ** [BasicQos] *)

Record BasicQos : Type := mkBasicQos {
  BasicQos_PrefetchSize : Z;
  BasicQos_PrefetchCount : Z;
  BasicQos_Global : bool
}.

Definition BasicQos_ID (msg : BasicQos) : Z * Z := (60, 10).

Definition BasicQos_Wait (msg : BasicQos) : bool := true.

Definition BasicQos_Write (msg : BasicQos) : writer :=
  writeU32 (BasicQos_PrefetchSize msg) +>+
  writeU16 (BasicQos_PrefetchCount msg) +>+
  writeU8 (let bits := 0 in
           let bits := set_bit (BasicQos_Global msg) 0 bits in
           bits).

Definition BasicQos_Read : reader BasicQos :=
  v_PrefetchSize ← readU32;
  v_PrefetchCount ← readU16;
  bits ← readU8;
  mret {|
    BasicQos_PrefetchSize := v_PrefetchSize;
    BasicQos_PrefetchCount := v_PrefetchCount;
    BasicQos_Global := has_bit bits 0 |}.

#[export] Instance BasicQos_Message : Message BasicQos := {|
  ID := BasicQos_ID; Wait := BasicQos_Wait; Read := BasicQos_Read; Write := BasicQos_Write |}.

Definition BasicQos_wf (msg : BasicQos) : bool :=
  in_uint 32 (BasicQos_PrefetchSize msg) && in_uint 16 (BasicQos_PrefetchCount msg).

Definition BasicQos_canon (msg : BasicQos) : BasicQos := msg.

#[export] Instance BasicQos_ok : MessageOk BasicQos.
Proof.
  refine {| wf := BasicQos_wf; canon := BasicQos_canon |};
    solve_message_ok ltac:(unfold Read, Write, BasicQos_Message, BasicQos_Read, BasicQos_Write, BasicQos_wf, BasicQos_canon).
Defined.

(** ** [BasicQosOk] *)

Record BasicQosOk : Type := mkBasicQosOk { }.

Definition BasicQosOk_ID (msg : BasicQosOk) : Z * Z := (60, 11).

Definition BasicQosOk_Wait (msg : BasicQosOk) : bool := true.

Definition BasicQosOk_Write (msg : BasicQosOk) : writer :=
  wnil.

Definition BasicQosOk_Read : reader BasicQosOk :=
  mret mkBasicQosOk.

#[export] Instance BasicQosOk_Message : Message BasicQosOk := {|
  ID := BasicQosOk_ID; Wait := BasicQosOk_Wait; Read := BasicQosOk_Read; Write := BasicQosOk_Write |}.

Definition BasicQosOk_wf (msg : BasicQosOk) : bool :=
  true.

Definition BasicQosOk_canon (msg : BasicQosOk) : BasicQosOk := msg.

#[export] Instance BasicQosOk_ok : MessageOk BasicQosOk.
Proof.
  refine {| wf := BasicQosOk_wf; canon := BasicQosOk_canon |};
    solve_message_ok ltac:(unfold Read, Write, BasicQosOk_Message, BasicQosOk_Read, BasicQosOk_Write, BasicQosOk_wf, BasicQosOk_canon).
Defined.

(** ** [BasicConsume] *)

Record BasicConsume : Type := mkBasicConsume {
  BasicConsume_reserved1 : Z;
  BasicConsume_Queue : string;
  BasicConsume_ConsumerTag : string;
  BasicConsume_NoLocal : bool;
  BasicConsume_NoAck : bool;
  BasicConsume_Exclusive : bool;
  BasicConsume_NoWait : bool;
  BasicConsume_Arguments : Table
}.

Definition BasicConsume_ID (msg : BasicConsume) : Z * Z := (60, 20).

Definition BasicConsume_Wait (msg : BasicConsume) : bool := true && negb (BasicConsume_NoWait msg).

Definition BasicConsume_Write (msg : BasicConsume) : writer :=
  writeU16 (BasicConsume_reserved1 msg) +>+
  writeShortstr (BasicConsume_Queue msg) +>+
  writeShortstr (BasicConsume_ConsumerTag msg) +>+
  writeU8 (let bits := 0 in
           let bits := set_bit (BasicConsume_NoLocal msg) 0 bits in
           let bits := set_bit (BasicConsume_NoAck msg) 1 bits in
           let bits := set_bit (BasicConsume_Exclusive msg) 2 bits in
           let bits := set_bit (BasicConsume_NoWait msg) 3 bits in
           bits) +>+
  writeTable (BasicConsume_Arguments msg).

Definition BasicConsume_Read : reader BasicConsume :=
  v_reserved1 ← readU16;
  v_Queue ← readShortstr;
  v_ConsumerTag ← readShortstr;
  bits ← readU8;
  v_Arguments ← readTable;
  mret {|
    BasicConsume_reserved1 := v_reserved1;
    BasicConsume_Queue := v_Queue;
    BasicConsume_ConsumerTag := v_ConsumerTag;
    BasicConsume_NoLocal := has_bit bits 0;
    BasicConsume_NoAck := has_bit bits 1;
    BasicConsume_Exclusive := has_bit bits 2;
    BasicConsume_NoWait := has_bit bits 3;
    BasicConsume_Arguments := v_Arguments |}.

#[export] Instance BasicConsume_Message : Message BasicConsume := {|
  ID := BasicConsume_ID; Wait := BasicConsume_Wait; Read := BasicConsume_Read; Write := BasicConsume_Write |}.

Definition BasicConsume_wf (msg : BasicConsume) : bool :=
  in_uint 16 (BasicConsume_reserved1 msg) && short (BasicConsume_Queue msg) && short (BasicConsume_ConsumerTag msg) && wf_table (BasicConsume_Arguments msg).

Definition BasicConsume_canon (msg : BasicConsume) : BasicConsume := {|
    BasicConsume_reserved1 := BasicConsume_reserved1 msg;
    BasicConsume_Queue := BasicConsume_Queue msg;
    BasicConsume_ConsumerTag := BasicConsume_ConsumerTag msg;
    BasicConsume_NoLocal := BasicConsume_NoLocal msg;
    BasicConsume_NoAck := BasicConsume_NoAck msg;
    BasicConsume_Exclusive := BasicConsume_Exclusive msg;
    BasicConsume_NoWait := BasicConsume_NoWait msg;
    BasicConsume_Arguments := canonTable (BasicConsume_Arguments msg) |}.

#[export] Instance BasicConsume_ok : MessageOk BasicConsume.
Proof.
  refine {| wf := BasicConsume_wf; canon := BasicConsume_canon |};
    solve_message_ok ltac:(unfold Read, Write, BasicConsume_Message, BasicConsume_Read, BasicConsume_Write, BasicConsume_wf, BasicConsume_canon).
Defined.

(** ** [BasicConsumeOk] *)

Record BasicConsumeOk : Type := mkBasicConsumeOk {
  BasicConsumeOk_ConsumerTag : string
}.

Definition BasicConsumeOk_ID (msg : BasicConsumeOk) : Z * Z := (60, 21).

Definition BasicConsumeOk_Wait (msg : BasicConsumeOk) : bool := true.

Definition BasicConsumeOk_Write (msg : BasicConsumeOk) : writer :=
  writeShortstr (BasicConsumeOk_ConsumerTag msg).

Definition BasicConsumeOk_Read : reader BasicConsumeOk :=
  v_ConsumerTag ← readShortstr;
  mret {|
    BasicConsumeOk_ConsumerTag := v_ConsumerTag |}.

#[export] Instance BasicConsumeOk_Message : Message BasicConsumeOk := {|
  ID := BasicConsumeOk_ID; Wait := BasicConsumeOk_Wait; Read := BasicConsumeOk_Read; Write := BasicConsumeOk_Write |}.

Definition BasicConsumeOk_wf (msg : BasicConsumeOk) : bool :=
  short (BasicConsumeOk_ConsumerTag msg).

Definition BasicConsumeOk_canon (msg : BasicConsumeOk) : BasicConsumeOk := msg.

#[export] Instance BasicConsumeOk_ok : MessageOk BasicConsumeOk.
Proof.
  refine {| wf := BasicConsumeOk_wf; canon := BasicConsumeOk_canon |};
    solve_message_ok ltac:(unfold Read, Write, BasicConsumeOk_Message, BasicConsumeOk_Read, BasicConsumeOk_Write, BasicConsumeOk_wf, BasicConsumeOk_canon).
Defined.

(** ** [BasicCancel] *)

Record BasicCancel : Type := mkBasicCancel {
  BasicCancel_ConsumerTag : string;
  BasicCancel_NoWait : bool
}.

Definition BasicCancel_ID (msg : BasicCancel) : Z * Z := (60, 30).

Definition BasicCancel_Wait (msg : BasicCancel) : bool := true && negb (BasicCancel_NoWait msg).

Definition BasicCancel_Write (msg : BasicCancel) : writer :=
  writeShortstr (BasicCancel_ConsumerTag msg) +>+
  writeU8 (let bits := 0 in
           let bits := set_bit (BasicCancel_NoWait msg) 0 bits in
           bits).

Definition BasicCancel_Read : reader BasicCancel :=
  v_ConsumerTag ← readShortstr;
  bits ← readU8;
  mret {|
    BasicCancel_ConsumerTag := v_ConsumerTag;
    BasicCancel_NoWait := has_bit bits 0 |}.

#[export] Instance BasicCancel_Message : Message BasicCancel := {|
  ID := BasicCancel_ID; Wait := BasicCancel_Wait; Read := BasicCancel_Read; Write := BasicCancel_Write |}.

Definition BasicCancel_wf (msg : BasicCancel) : bool :=
  short (BasicCancel_ConsumerTag msg).

Definition BasicCancel_canon (msg : BasicCancel) : BasicCancel := msg.

#[export] Instance BasicCancel_ok : MessageOk BasicCancel.
Proof.
  refine {| wf := BasicCancel_wf; canon := BasicCancel_canon |};
    solve_message_ok ltac:(unfold Read, Write, BasicCancel_Message, BasicCancel_Read, BasicCancel_Write, BasicCancel_wf, BasicCancel_canon).
Defined.

(** ** [BasicCancelOk] *)

Record BasicCancelOk : Type := mkBasicCancelOk {
  BasicCancelOk_ConsumerTag : string
}.

Definition BasicCancelOk_ID (msg : BasicCancelOk) : Z * Z := (60, 31).

Definition BasicCancelOk_Wait (msg : BasicCancelOk) : bool := true.

Definition BasicCancelOk_Write (msg : BasicCancelOk) : writer :=
  writeShortstr (BasicCancelOk_ConsumerTag msg).

Definition BasicCancelOk_Read : reader BasicCancelOk :=
  v_ConsumerTag ← readShortstr;
  mret {|
    BasicCancelOk_ConsumerTag := v_ConsumerTag |}.

#[export] Instance BasicCancelOk_Message : Message BasicCancelOk := {|
  ID := BasicCancelOk_ID; Wait := BasicCancelOk_Wait; Read := BasicCancelOk_Read; Write := BasicCancelOk_Write |}.

Definition BasicCancelOk_wf (msg : BasicCancelOk) : bool :=
  short (BasicCancelOk_ConsumerTag msg).

Definition BasicCancelOk_canon (msg : BasicCancelOk) : BasicCancelOk := msg.

#[export] Instance BasicCancelOk_ok : MessageOk BasicCancelOk.
Proof.
  refine {| wf := BasicCancelOk_wf; canon := BasicCancelOk_canon |};
    solve_message_ok ltac:(unfold Read, Write, BasicCancelOk_Message, BasicCancelOk_Read, BasicCancelOk_Write, BasicCancelOk_wf, BasicCancelOk_canon).
Defined.

(** ** [BasicPublish] *)

Record BasicPublish : Type := mkBasicPublish {
  BasicPublish_reserved1 : Z;
  BasicPublish_Exchange : string;
  BasicPublish_RoutingKey : string;
  BasicPublish_Mandatory : bool;
  BasicPublish_Immediate : bool;
  BasicPublish_Properties : Properties;
  BasicPublish_Body : list byte
}.

Definition BasicPublish_ID (msg : BasicPublish) : Z * Z := (60, 40).

Definition BasicPublish_Wait (msg : BasicPublish) : bool := false.

Definition BasicPublish_GetContent (msg : BasicPublish) : Properties * list byte :=
  (BasicPublish_Properties msg, BasicPublish_Body msg).

Definition BasicPublish_SetContent (msg : BasicPublish) (props : Properties) (body : list byte) : BasicPublish :=
  {|
     BasicPublish_reserved1 := BasicPublish_reserved1 msg;
     BasicPublish_Exchange := BasicPublish_Exchange msg;
     BasicPublish_RoutingKey := BasicPublish_RoutingKey msg;
     BasicPublish_Mandatory := BasicPublish_Mandatory msg;
     BasicPublish_Immediate := BasicPublish_Immediate msg;
     BasicPublish_Properties := props;
     BasicPublish_Body := body |}.

Definition BasicPublish_Write (msg : BasicPublish) : writer :=
  writeU16 (BasicPublish_reserved1 msg) +>+
  writeShortstr (BasicPublish_Exchange msg) +>+
  writeShortstr (BasicPublish_RoutingKey msg) +>+
  writeU8 (let bits := 0 in
           let bits := set_bit (BasicPublish_Mandatory msg) 0 bits in
           let bits := set_bit (BasicPublish_Immediate msg) 1 bits in
           bits).

Definition BasicPublish_Read : reader BasicPublish :=
  v_reserved1 ← readU16;
  v_Exchange ← readShortstr;
  v_RoutingKey ← readShortstr;
  bits ← readU8;
  mret {|
    BasicPublish_reserved1 := v_reserved1;
    BasicPublish_Exchange := v_Exchange;
    BasicPublish_RoutingKey := v_RoutingKey;
    BasicPublish_Mandatory := has_bit bits 0;
    BasicPublish_Immediate := has_bit bits 1;
    BasicPublish_Properties := zeroProperties;
    BasicPublish_Body := [] |}.

#[export] Instance BasicPublish_Message : Message BasicPublish := {|
  ID := BasicPublish_ID; Wait := BasicPublish_Wait; Read := BasicPublish_Read; Write := BasicPublish_Write |}.

#[export] Instance BasicPublish_MessageWithContent : MessageWithContent BasicPublish := {|
  GetContent := BasicPublish_GetContent; SetContent := BasicPublish_SetContent |}.

Definition BasicPublish_wf (msg : BasicPublish) : bool :=
  in_uint 16 (BasicPublish_reserved1 msg) && short (BasicPublish_Exchange msg) && short (BasicPublish_RoutingKey msg).

Definition BasicPublish_canon (msg : BasicPublish) : BasicPublish := {|
    BasicPublish_reserved1 := BasicPublish_reserved1 msg;
    BasicPublish_Exchange := BasicPublish_Exchange msg;
    BasicPublish_RoutingKey := BasicPublish_RoutingKey msg;
    BasicPublish_Mandatory := BasicPublish_Mandatory msg;
    BasicPublish_Immediate := BasicPublish_Immediate msg;
    BasicPublish_Properties := zeroProperties;
    BasicPublish_Body := [] |}.

#[export] Instance BasicPublish_ok : MessageOk BasicPublish.
Proof.
  refine {| wf := BasicPublish_wf; canon := BasicPublish_canon |};
    solve_message_ok ltac:(unfold Read, Write, BasicPublish_Message, BasicPublish_Read, BasicPublish_Write, BasicPublish_wf, BasicPublish_canon).
Defined.

(** ** [BasicReturn] *)

Record BasicReturn : Type := mkBasicReturn {
  BasicReturn_ReplyCode : Z;
  BasicReturn_ReplyText : string;
  BasicReturn_Exchange : string;
  BasicReturn_RoutingKey : string;
  BasicReturn_Properties : Properties;
  BasicReturn_Body : list byte
}.

Definition BasicReturn_ID (msg : BasicReturn) : Z * Z := (60, 50).

Definition BasicReturn_Wait (msg : BasicReturn) : bool := false.

Definition BasicReturn_GetContent (msg : BasicReturn) : Properties * list byte :=
  (BasicReturn_Properties msg, BasicReturn_Body msg).

Definition BasicReturn_SetContent (msg : BasicReturn) (props : Properties) (body : list byte) : BasicReturn :=
  {|
     BasicReturn_ReplyCode := BasicReturn_ReplyCode msg;
     BasicReturn_ReplyText := BasicReturn_ReplyText msg;
     BasicReturn_Exchange := BasicReturn_Exchange msg;
     BasicReturn_RoutingKey := BasicReturn_RoutingKey msg;
     BasicReturn_Properties := props;
     BasicReturn_Body := body |}.

Definition BasicReturn_Write (msg : BasicReturn) : writer :=
  writeU16 (BasicReturn_ReplyCode msg) +>+
  writeShortstr (BasicReturn_ReplyText msg) +>+
  writeShortstr (BasicReturn_Exchange msg) +>+
  writeShortstr (BasicReturn_RoutingKey msg).

Definition BasicReturn_Read : reader BasicReturn :=
  v_ReplyCode ← readU16;
  v_ReplyText ← readShortstr;
  v_Exchange ← readShortstr;
  v_RoutingKey ← readShortstr;
  mret {|
    BasicReturn_ReplyCode := v_ReplyCode;
    BasicReturn_ReplyText := v_ReplyText;
    BasicReturn_Exchange := v_Exchange;
    BasicReturn_RoutingKey := v_RoutingKey;
    BasicReturn_Properties := zeroProperties;
    BasicReturn_Body := [] |}.

#[export] Instance BasicReturn_Message : Message BasicReturn := {|
  ID := BasicReturn_ID; Wait := BasicReturn_Wait; Read := BasicReturn_Read; Write := BasicReturn_Write |}.

#[export] Instance BasicReturn_MessageWithContent : MessageWithContent BasicReturn := {|
  GetContent := BasicReturn_GetContent; SetContent := BasicReturn_SetContent |}.

Definition BasicReturn_wf (msg : BasicReturn) : bool :=
  in_uint 16 (BasicReturn_ReplyCode msg) && short (BasicReturn_ReplyText msg) && short (BasicReturn_Exchange msg) && short (BasicReturn_RoutingKey msg).

Definition BasicReturn_canon (msg : BasicReturn) : BasicReturn := {|
    BasicReturn_ReplyCode := BasicReturn_ReplyCode msg;
    BasicReturn_ReplyText := BasicReturn_ReplyText msg;
    BasicReturn_Exchange := BasicReturn_Exchange msg;
    BasicReturn_RoutingKey := BasicReturn_RoutingKey msg;
    BasicReturn_Properties := zeroProperties;
    BasicReturn_Body := [] |}.

#[export] Instance BasicReturn_ok : MessageOk BasicReturn.
Proof.
  refine {| wf := BasicReturn_wf; canon := BasicReturn_canon |};
    solve_message_ok ltac:(unfold Read, Write, BasicReturn_Message, BasicReturn_Read, BasicReturn_Write, BasicReturn_wf, BasicReturn_canon).
Defined.

(** ** [BasicDeliver] *)

Record BasicDeliver : Type := mkBasicDeliver {
  BasicDeliver_ConsumerTag : string;
  BasicDeliver_DeliveryTag : Z;
  BasicDeliver_Redelivered : bool;
  BasicDeliver_Exchange : string;
  BasicDeliver_RoutingKey : string;
  BasicDeliver_Properties : Properties;
  BasicDeliver_Body : list byte
}.

Definition BasicDeliver_ID (msg : BasicDeliver) : Z * Z := (60, 60).

Definition BasicDeliver_Wait (msg : BasicDeliver) : bool := false.

Definition BasicDeliver_GetContent (msg : BasicDeliver) : Properties * list byte :=
  (BasicDeliver_Properties msg, BasicDeliver_Body msg).

Definition BasicDeliver_SetContent (msg : BasicDeliver) (props : Properties) (body : list byte) : BasicDeliver :=
  {|
     BasicDeliver_ConsumerTag := BasicDeliver_ConsumerTag msg;
     BasicDeliver_DeliveryTag := BasicDeliver_DeliveryTag msg;
     BasicDeliver_Redelivered := BasicDeliver_Redelivered msg;
     BasicDeliver_Exchange := BasicDeliver_Exchange msg;
     BasicDeliver_RoutingKey := BasicDeliver_RoutingKey msg;
     BasicDeliver_Properties := props;
     BasicDeliver_Body := body |}.

Definition BasicDeliver_Write (msg : BasicDeliver) : writer :=
  writeShortstr (BasicDeliver_ConsumerTag msg) +>+
  writeU64 (BasicDeliver_DeliveryTag msg) +>+
  writeU8 (let bits := 0 in
           let bits := set_bit (BasicDeliver_Redelivered msg) 0 bits in
           bits) +>+
  writeShortstr (BasicDeliver_Exchange msg) +>+
  writeShortstr (BasicDeliver_RoutingKey msg).

Definition BasicDeliver_Read : reader BasicDeliver :=
  v_ConsumerTag ← readShortstr;
  v_DeliveryTag ← readU64;
  bits ← readU8;
  v_Exchange ← readShortstr;
  v_RoutingKey ← readShortstr;
  mret {|
    BasicDeliver_ConsumerTag := v_ConsumerTag;
    BasicDeliver_DeliveryTag := v_DeliveryTag;
    BasicDeliver_Redelivered := has_bit bits 0;
    BasicDeliver_Exchange := v_Exchange;
    BasicDeliver_RoutingKey := v_RoutingKey;
    BasicDeliver_Properties := zeroProperties;
    BasicDeliver_Body := [] |}.

#[export] Instance BasicDeliver_Message : Message BasicDeliver := {|
  ID := BasicDeliver_ID; Wait := BasicDeliver_Wait; Read := BasicDeliver_Read; Write := BasicDeliver_Write |}.

#[export] Instance BasicDeliver_MessageWithContent : MessageWithContent BasicDeliver := {|
  GetContent := BasicDeliver_GetContent; SetContent := BasicDeliver_SetContent |}.

Definition BasicDeliver_wf (msg : BasicDeliver) : bool :=
  short (BasicDeliver_ConsumerTag msg) && in_uint 64 (BasicDeliver_DeliveryTag msg) && short (BasicDeliver_Exchange msg) && short (BasicDeliver_RoutingKey msg).

Definition BasicDeliver_canon (msg : BasicDeliver) : BasicDeliver := {|
    BasicDeliver_ConsumerTag := BasicDeliver_ConsumerTag msg;
    BasicDeliver_DeliveryTag := BasicDeliver_DeliveryTag msg;
    BasicDeliver_Redelivered := BasicDeliver_Redelivered msg;
    BasicDeliver_Exchange := BasicDeliver_Exchange msg;
    BasicDeliver_RoutingKey := BasicDeliver_RoutingKey msg;
    BasicDeliver_Properties := zeroProperties;
    BasicDeliver_Body := [] |}.

#[export] Instance BasicDeliver_ok : MessageOk BasicDeliver.
Proof.
  refine {| wf := BasicDeliver_wf; canon := BasicDeliver_canon |};
    solve_message_ok ltac:(unfold Read, Write, BasicDeliver_Message, BasicDeliver_Read, BasicDeliver_Write, BasicDeliver_wf, BasicDeliver_canon).
Defined.

(** ** [BasicGet] *)

Record BasicGet : Type := mkBasicGet {
  BasicGet_reserved1 : Z;
  BasicGet_Queue : string;
  BasicGet_NoAck : bool
}.

Definition BasicGet_ID (msg : BasicGet) : Z * Z := (60, 70).

Definition BasicGet_Wait (msg : BasicGet) : bool := true.

Definition BasicGet_Write (msg : BasicGet) : writer :=
  writeU16 (BasicGet_reserved1 msg) +>+
  writeShortstr (BasicGet_Queue msg) +>+
  writeU8 (let bits := 0 in
           let bits := set_bit (BasicGet_NoAck msg) 0 bits in
           bits).

Definition BasicGet_Read : reader BasicGet :=
  v_reserved1 ← readU16;
  v_Queue ← readShortstr;
  bits ← readU8;
  mret {|
    BasicGet_reserved1 := v_reserved1;
    BasicGet_Queue := v_Queue;
    BasicGet_NoAck := has_bit bits 0 |}.

#[export] Instance BasicGet_Message : Message BasicGet := {|
  ID := BasicGet_ID; Wait := BasicGet_Wait; Read := BasicGet_Read; Write := BasicGet_Write |}.

Definition BasicGet_wf (msg : BasicGet) : bool :=
  in_uint 16 (BasicGet_reserved1 msg) && short (BasicGet_Queue msg).

Definition BasicGet_canon (msg : BasicGet) : BasicGet := msg.

#[export] Instance BasicGet_ok : MessageOk BasicGet.
Proof.
  refine {| wf := BasicGet_wf; canon := BasicGet_canon |};
    solve_message_ok ltac:(unfold Read, Write, BasicGet_Message, BasicGet_Read, BasicGet_Write, BasicGet_wf, BasicGet_canon).
Defined.

(** ** [BasicGetOk] *)

Record BasicGetOk : Type := mkBasicGetOk {
  BasicGetOk_DeliveryTag : Z;
  BasicGetOk_Redelivered : bool;
  BasicGetOk_Exchange : string;
  BasicGetOk_RoutingKey : string;
  BasicGetOk_MessageCount : Z;
  BasicGetOk_Properties : Properties;
  BasicGetOk_Body : list byte
}.

Definition BasicGetOk_ID (msg : BasicGetOk) : Z * Z := (60, 71).

Definition BasicGetOk_Wait (msg : BasicGetOk) : bool := true.

Definition BasicGetOk_GetContent (msg : BasicGetOk) : Properties * list byte :=
  (BasicGetOk_Properties msg, BasicGetOk_Body msg).

Definition BasicGetOk_SetContent (msg : BasicGetOk) (props : Properties) (body : list byte) : BasicGetOk :=
  {|
     BasicGetOk_DeliveryTag := BasicGetOk_DeliveryTag msg;
     BasicGetOk_Redelivered := BasicGetOk_Redelivered msg;
     BasicGetOk_Exchange := BasicGetOk_Exchange msg;
     BasicGetOk_RoutingKey := BasicGetOk_RoutingKey msg;
     BasicGetOk_MessageCount := BasicGetOk_MessageCount msg;
     BasicGetOk_Properties := props;
     BasicGetOk_Body := body |}.

Definition BasicGetOk_Write (msg : BasicGetOk) : writer :=
  writeU64 (BasicGetOk_DeliveryTag msg) +>+
  writeU8 (let bits := 0 in
           let bits := set_bit (BasicGetOk_Redelivered msg) 0 bits in
           bits) +>+
  writeShortstr (BasicGetOk_Exchange msg) +>+
  writeShortstr (BasicGetOk_RoutingKey msg) +>+
  writeU32 (BasicGetOk_MessageCount msg).

Definition BasicGetOk_Read : reader BasicGetOk :=
  v_DeliveryTag ← readU64;
  bits ← readU8;
  v_Exchange ← readShortstr;
  v_RoutingKey ← readShortstr;
  v_MessageCount ← readU32;
  mret {|
    BasicGetOk_DeliveryTag := v_DeliveryTag;
    BasicGetOk_Redelivered := has_bit bits 0;
    BasicGetOk_Exchange := v_Exchange;
    BasicGetOk_RoutingKey := v_RoutingKey;
    BasicGetOk_MessageCount := v_MessageCount;
    BasicGetOk_Properties := zeroProperties;
    BasicGetOk_Body := [] |}.

#[export] Instance BasicGetOk_Message : Message BasicGetOk := {|
  ID := BasicGetOk_ID; Wait := BasicGetOk_Wait; Read := BasicGetOk_Read; Write := BasicGetOk_Write |}.

#[export] Instance BasicGetOk_MessageWithContent : MessageWithContent BasicGetOk := {|
  GetContent := BasicGetOk_GetContent; SetContent := BasicGetOk_SetContent |}.

Definition BasicGetOk_wf (msg : BasicGetOk) : bool :=
  in_uint 64 (BasicGetOk_DeliveryTag msg) && short (BasicGetOk_Exchange msg) && short (BasicGetOk_RoutingKey msg) && in_uint 32 (BasicGetOk_MessageCount msg).

Definition BasicGetOk_canon (msg : BasicGetOk) : BasicGetOk := {|
    BasicGetOk_DeliveryTag := BasicGetOk_DeliveryTag msg;
    BasicGetOk_Redelivered := BasicGetOk_Redelivered msg;
    BasicGetOk_Exchange := BasicGetOk_Exchange msg;
    BasicGetOk_RoutingKey := BasicGetOk_RoutingKey msg;
    BasicGetOk_MessageCount := BasicGetOk_MessageCount msg;
    BasicGetOk_Properties := zeroProperties;
    BasicGetOk_Body := [] |}.

#[export] Instance BasicGetOk_ok : MessageOk BasicGetOk.
Proof.
  refine {| wf := BasicGetOk_wf; canon := BasicGetOk_canon |};
    solve_message_ok ltac:(unfold Read, Write, BasicGetOk_Message, BasicGetOk_Read, BasicGetOk_Write, BasicGetOk_wf, BasicGetOk_canon).
Defined.

(** ** [BasicGetEmpty] *)

Record BasicGetEmpty : Type := mkBasicGetEmpty {
  BasicGetEmpty_reserved1 : string
}.

Definition BasicGetEmpty_ID (msg : BasicGetEmpty) : Z * Z := (60, 72).

Definition BasicGetEmpty_Wait (msg : BasicGetEmpty) : bool := true.

Definition BasicGetEmpty_Write (msg : BasicGetEmpty) : writer :=
  writeShortstr (BasicGetEmpty_reserved1 msg).

Definition BasicGetEmpty_Read : reader BasicGetEmpty :=
  v_reserved1 ← readShortstr;
  mret {|
    BasicGetEmpty_reserved1 := v_reserved1 |}.

#[export] Instance BasicGetEmpty_Message : Message BasicGetEmpty := {|
  ID := BasicGetEmpty_ID; Wait := BasicGetEmpty_Wait; Read := BasicGetEmpty_Read; Write := BasicGetEmpty_Write |}.

Definition BasicGetEmpty_wf (msg : BasicGetEmpty) : bool :=
  short (BasicGetEmpty_reserved1 msg).

Definition BasicGetEmpty_canon (msg : BasicGetEmpty) : BasicGetEmpty := msg.

#[export] Instance BasicGetEmpty_ok : MessageOk BasicGetEmpty.
Proof.
  refine {| wf := BasicGetEmpty_wf; canon := BasicGetEmpty_canon |};
    solve_message_ok ltac:(unfold Read, Write, BasicGetEmpty_Message, BasicGetEmpty_Read, BasicGetEmpty_Write, BasicGetEmpty_wf, BasicGetEmpty_canon).
Defined.

(** ** [BasicAck] *)

Record BasicAck : Type := mkBasicAck {
  BasicAck_DeliveryTag : Z;
  BasicAck_Multiple : bool
}.

Definition BasicAck_ID (msg : BasicAck) : Z * Z := (60, 80).

Definition BasicAck_Wait (msg : BasicAck) : bool := false.

Definition BasicAck_Write (msg : BasicAck) : writer :=
  writeU64 (BasicAck_DeliveryTag msg) +>+
  writeU8 (let bits := 0 in
           let bits := set_bit (BasicAck_Multiple msg) 0 bits in
           bits).

Definition BasicAck_Read : reader BasicAck :=
  v_DeliveryTag ← readU64;
  bits ← readU8;
  mret {|
    BasicAck_DeliveryTag := v_DeliveryTag;
    BasicAck_Multiple := has_bit bits 0 |}.

#[export] Instance BasicAck_Message : Message BasicAck := {|
  ID := BasicAck_ID; Wait := BasicAck_Wait; Read := BasicAck_Read; Write := BasicAck_Write |}.

Definition BasicAck_wf (msg : BasicAck) : bool :=
  in_uint 64 (BasicAck_DeliveryTag msg).

Definition BasicAck_canon (msg : BasicAck) : BasicAck := msg.

#[export] Instance BasicAck_ok : MessageOk BasicAck.
Proof.
  refine {| wf := BasicAck_wf; canon := BasicAck_canon |};
    solve_message_ok ltac:(unfold Read, Write, BasicAck_Message, BasicAck_Read, BasicAck_Write, BasicAck_wf, BasicAck_canon).
Defined.

(** ** [BasicReject] *)

Record BasicReject : Type := mkBasicReject {
  BasicReject_DeliveryTag : Z;
  BasicReject_Requeue : bool
}.

Definition BasicReject_ID (msg : BasicReject) : Z * Z := (60, 90).

Definition BasicReject_Wait (msg : BasicReject) : bool := false.

Definition BasicReject_Write (msg : BasicReject) : writer :=
  writeU64 (BasicReject_DeliveryTag msg) +>+
  writeU8 (let bits := 0 in
           let bits := set_bit (BasicReject_Requeue msg) 0 bits in
           bits).

Definition BasicReject_Read : reader BasicReject :=
  v_DeliveryTag ← readU64;
  bits ← readU8;
  mret {|
    BasicReject_DeliveryTag := v_DeliveryTag;
    BasicReject_Requeue := has_bit bits 0 |}.

#[export] Instance BasicReject_Message : Message BasicReject := {|
  ID := BasicReject_ID; Wait := BasicReject_Wait; Read := BasicReject_Read; Write := BasicReject_Write |}.

Definition BasicReject_wf (msg : BasicReject) : bool :=
  in_uint 64 (BasicReject_DeliveryTag msg).

Definition BasicReject_canon (msg : BasicReject) : BasicReject := msg.

#[export] Instance BasicReject_ok : MessageOk BasicReject.
Proof.
  refine {| wf := BasicReject_wf; canon := BasicReject_canon |};
    solve_message_ok ltac:(unfold Read, Write, BasicReject_Message, BasicReject_Read, BasicReject_Write, BasicReject_wf, BasicReject_canon).
Defined.

(** ** [BasicRecoverAsync] *)

Record BasicRecoverAsync : Type := mkBasicRecoverAsync {
  BasicRecoverAsync_Requeue : bool
}.

Definition BasicRecoverAsync_ID (msg : BasicRecoverAsync) : Z * Z := (60, 100).

Definition BasicRecoverAsync_Wait (msg : BasicRecoverAsync) : bool := false.

Definition BasicRecoverAsync_Write (msg : BasicRecoverAsync) : writer :=
  writeU8 (let bits := 0 in
           let bits := set_bit (BasicRecoverAsync_Requeue msg) 0 bits in
           bits).

Definition BasicRecoverAsync_Read : reader BasicRecoverAsync :=
  bits ← readU8;
  mret {|
    BasicRecoverAsync_Requeue := has_bit bits 0 |}.

#[export] Instance BasicRecoverAsync_Message : Message BasicRecoverAsync := {|
  ID := BasicRecoverAsync_ID; Wait := BasicRecoverAsync_Wait; Read := BasicRecoverAsync_Read; Write := BasicRecoverAsync_Write |}.

Definition BasicRecoverAsync_wf (msg : BasicRecoverAsync) : bool :=
  true.

Definition BasicRecoverAsync_canon (msg : BasicRecoverAsync) : BasicRecoverAsync := msg.

#[export] Instance BasicRecoverAsync_ok : MessageOk BasicRecoverAsync.
Proof.
  refine {| wf := BasicRecoverAsync_wf; canon := BasicRecoverAsync_canon |};
    solve_message_ok ltac:(unfold Read, Write, BasicRecoverAsync_Message, BasicRecoverAsync_Read, BasicRecoverAsync_Write, BasicRecoverAsync_wf, BasicRecoverAsync_canon).
Defined.

(** ** [BasicRecover] *)

Record BasicRecover : Type := mkBasicRecover {
  BasicRecover_Requeue : bool
}.

Definition BasicRecover_ID (msg : BasicRecover) : Z * Z := (60, 110).

Definition BasicRecover_Wait (msg : BasicRecover) : bool := true.

Definition BasicRecover_Write (msg : BasicRecover) : writer :=
  writeU8 (let bits := 0 in
           let bits := set_bit (BasicRecover_Requeue msg) 0 bits in
           bits).

Definition BasicRecover_Read : reader BasicRecover :=
  bits ← readU8;
  mret {|
    BasicRecover_Requeue := has_bit bits 0 |}.

#[export] Instance BasicRecover_Message : Message BasicRecover := {|
  ID := BasicRecover_ID; Wait := BasicRecover_Wait; Read := BasicRecover_Read; Write := BasicRecover_Write |}.

Definition BasicRecover_wf (msg : BasicRecover) : bool :=
  true.

Definition BasicRecover_canon (msg : BasicRecover) : BasicRecover := msg.

#[export] Instance BasicRecover_ok : MessageOk BasicRecover.
Proof.
  refine {| wf := BasicRecover_wf; canon := BasicRecover_canon |};
    solve_message_ok ltac:(unfold Read, Write, BasicRecover_Message, BasicRecover_Read, BasicRecover_Write, BasicRecover_wf, BasicRecover_canon).
Defined.

(** ** [BasicRecoverOk] *)

Record BasicRecoverOk : Type := mkBasicRecoverOk { }.

Definition BasicRecoverOk_ID (msg : BasicRecoverOk) : Z * Z := (60, 111).

Definition BasicRecoverOk_Wait (msg : BasicRecoverOk) : bool := true.

Definition BasicRecoverOk_Write (msg : BasicRecoverOk) : writer :=
  wnil.

Definition BasicRecoverOk_Read : reader BasicRecoverOk :=
  mret mkBasicRecoverOk.

#[export] Instance BasicRecoverOk_Message : Message BasicRecoverOk := {|
  ID := BasicRecoverOk_ID; Wait := BasicRecoverOk_Wait; Read := BasicRecoverOk_Read; Write := BasicRecoverOk_Write |}.

Definition BasicRecoverOk_wf (msg : BasicRecoverOk) : bool :=
  true.

Definition BasicRecoverOk_canon (msg : BasicRecoverOk) : BasicRecoverOk := msg.

#[export] Instance BasicRecoverOk_ok : MessageOk BasicRecoverOk.
Proof.
  refine {| wf := BasicRecoverOk_wf; canon := BasicRecoverOk_canon |};
    solve_message_ok ltac:(unfold Read, Write, BasicRecoverOk_Message, BasicRecoverOk_Read, BasicRecoverOk_Write, BasicRecoverOk_wf, BasicRecoverOk_canon).
Defined.

(** ** [BasicNack] *)

Record BasicNack : Type := mkBasicNack {
  BasicNack_DeliveryTag : Z;
  BasicNack_Multiple : bool;
  BasicNack_Requeue : bool
}.

Definition BasicNack_ID (msg : BasicNack) : Z * Z := (60, 120).

Definition BasicNack_Wait (msg : BasicNack) : bool := false.

Definition BasicNack_Write (msg : BasicNack) : writer :=
  writeU64 (BasicNack_DeliveryTag msg) +>+
  writeU8 (let bits := 0 in
           let bits := set_bit (BasicNack_Multiple msg) 0 bits in
           let bits := set_bit (BasicNack_Requeue msg) 1 bits in
           bits).

Definition BasicNack_Read : reader BasicNack :=
  v_DeliveryTag ← readU64;
  bits ← readU8;
  mret {|
    BasicNack_DeliveryTag := v_DeliveryTag;
    BasicNack_Multiple := has_bit bits 0;
    BasicNack_Requeue := has_bit bits 1 |}.

#[export] Instance BasicNack_Message : Message BasicNack := {|
  ID := BasicNack_ID; Wait := BasicNack_Wait; Read := BasicNack_Read; Write := BasicNack_Write |}.

Definition BasicNack_wf (msg : BasicNack) : bool :=
  in_uint 64 (BasicNack_DeliveryTag msg).

Definition BasicNack_canon (msg : BasicNack) : BasicNack := msg.

#[export] Instance BasicNack_ok : MessageOk BasicNack.
Proof.
  refine {| wf := BasicNack_wf; canon := BasicNack_canon |};
    solve_message_ok ltac:(unfold Read, Write, BasicNack_Message, BasicNack_Read, BasicNack_Write, BasicNack_wf, BasicNack_canon).
Defined.
