(* ===== verification/MsgTx.v ===== *)
(** * Messages of the tx and confirm classes

    [amqp091/spec091.go]: for every struct of class 90 and 85 its fields and its
    [ID], [Wait], [Write] and [Read] methods, and the proof that its codec meets
    [MessageOk]. *)

From S2P Require Import Prelude Bytes Fields MsgBase.

(** ** [TxSelect] *)

Record TxSelect : Type := mkTxSelect { }.

Definition TxSelect_ID (msg : TxSelect) : Z * Z := (90, 10).

Definition TxSelect_Wait (msg : TxSelect) : bool := true.

Definition TxSelect_Write (msg : TxSelect) : writer :=
  wnil.

Definition TxSelect_Read : reader TxSelect :=
  mret mkTxSelect.

#[export] Instance TxSelect_Message : Message TxSelect := {|
  ID := TxSelect_ID; Wait := TxSelect_Wait; Read := TxSelect_Read; Write := TxSelect_Write |}.

Definition TxSelect_wf (msg : TxSelect) : bool :=
  true.

Definition TxSelect_canon (msg : TxSelect) : TxSelect := msg.

#[export] Instance TxSelect_ok : MessageOk TxSelect.
Proof.
  refine {| wf := TxSelect_wf; canon := TxSelect_canon |};
    solve_message_ok ltac:(unfold Read, Write, TxSelect_Message, TxSelect_Read, TxSelect_Write, TxSelect_wf, TxSelect_canon).
Defined.

(** ** [TxSelectOk] *)

Record TxSelectOk : Type := mkTxSelectOk { }.

Definition TxSelectOk_ID (msg : TxSelectOk) : Z * Z := (90, 11).

Definition TxSelectOk_Wait (msg : TxSelectOk) : bool := true.

Definition TxSelectOk_Write (msg : TxSelectOk) : writer :=
  wnil.

Definition TxSelectOk_Read : reader TxSelectOk :=
  mret mkTxSelectOk.

#[export] Instance TxSelectOk_Message : Message TxSelectOk := {|
  ID := TxSelectOk_ID; Wait := TxSelectOk_Wait; Read := TxSelectOk_Read; Write := TxSelectOk_Write |}.

Definition TxSelectOk_wf (msg : TxSelectOk) : bool :=
  true.

Definition TxSelectOk_canon (msg : TxSelectOk) : TxSelectOk := msg.

#[export] Instance TxSelectOk_ok : MessageOk TxSelectOk.
Proof.
  refine {| wf := TxSelectOk_wf; canon := TxSelectOk_canon |};
    solve_message_ok ltac:(unfold Read, Write, TxSelectOk_Message, TxSelectOk_Read, TxSelectOk_Write, TxSelectOk_wf, TxSelectOk_canon).
Defined.

(** ** [TxCommit] *)

Record TxCommit : Type := mkTxCommit { }.

Definition TxCommit_ID (msg : TxCommit) : Z * Z := (90, 20).

Definition TxCommit_Wait (msg : TxCommit) : bool := true.

Definition TxCommit_Write (msg : TxCommit) : writer :=
  wnil.

Definition TxCommit_Read : reader TxCommit :=
  mret mkTxCommit.

#[export] Instance TxCommit_Message : Message TxCommit := {|
  ID := TxCommit_ID; Wait := TxCommit_Wait; Read := TxCommit_Read; Write := TxCommit_Write |}.

Definition TxCommit_wf (msg : TxCommit) : bool :=
  true.

Definition TxCommit_canon (msg : TxCommit) : TxCommit := msg.

#[export] Instance TxCommit_ok : MessageOk TxCommit.
Proof.
  refine {| wf := TxCommit_wf; canon := TxCommit_canon |};
    solve_message_ok ltac:(unfold Read, Write, TxCommit_Message, TxCommit_Read, TxCommit_Write, TxCommit_wf, TxCommit_canon).
Defined.

(** ** [TxCommitOk] *)

Record TxCommitOk : Type := mkTxCommitOk { }.

Definition TxCommitOk_ID (msg : TxCommitOk) : Z * Z := (90, 21).

Definition TxCommitOk_Wait (msg : TxCommitOk) : bool := true.

Definition TxCommitOk_Write (msg : TxCommitOk) : writer :=
  wnil.

Definition TxCommitOk_Read : reader TxCommitOk :=
  mret mkTxCommitOk.

#[export] Instance TxCommitOk_Message : Message TxCommitOk := {|
  ID := TxCommitOk_ID; Wait := TxCommitOk_Wait; Read := TxCommitOk_Read; Write := TxCommitOk_Write |}.

Definition TxCommitOk_wf (msg : TxCommitOk) : bool :=
  true.

Definition TxCommitOk_canon (msg : TxCommitOk) : TxCommitOk := msg.

#[export] Instance TxCommitOk_ok : MessageOk TxCommitOk.
Proof.
  refine {| wf := TxCommitOk_wf; canon := TxCommitOk_canon |};
    solve_message_ok ltac:(unfold Read, Write, TxCommitOk_Message, TxCommitOk_Read, TxCommitOk_Write, TxCommitOk_wf, TxCommitOk_canon).
Defined.

(** ** [TxRollback] *)

Record TxRollback : Type := mkTxRollback { }.

Definition TxRollback_ID (msg : TxRollback) : Z * Z := (90, 30).

Definition TxRollback_Wait (msg : TxRollback) : bool := true.

Definition TxRollback_Write (msg : TxRollback) : writer :=
  wnil.

Definition TxRollback_Read : reader TxRollback :=
  mret mkTxRollback.

#[export] Instance TxRollback_Message : Message TxRollback := {|
  ID := TxRollback_ID; Wait := TxRollback_Wait; Read := TxRollback_Read; Write := TxRollback_Write |}.

Definition TxRollback_wf (msg : TxRollback) : bool :=
  true.

Definition TxRollback_canon (msg : TxRollback) : TxRollback := msg.

#[export] Instance TxRollback_ok : MessageOk TxRollback.
Proof.
  refine {| wf := TxRollback_wf; canon := TxRollback_canon |};
    solve_message_ok ltac:(unfold Read, Write, TxRollback_Message, TxRollback_Read, TxRollback_Write, TxRollback_wf, TxRollback_canon).
Defined.

(** ** [TxRollbackOk] *)

Record TxRollbackOk : Type := mkTxRollbackOk { }.

Definition TxRollbackOk_ID (msg : TxRollbackOk) : Z * Z := (90, 31).

Definition TxRollbackOk_Wait (msg : TxRollbackOk) : bool := true.

Definition TxRollbackOk_Write (msg : TxRollbackOk) : writer :=
  wnil.

Definition TxRollbackOk_Read : reader TxRollbackOk :=
  mret mkTxRollbackOk.

#[export] Instance TxRollbackOk_Message : Message TxRollbackOk := {|
  ID := TxRollbackOk_ID; Wait := TxRollbackOk_Wait; Read := TxRollbackOk_Read; Write := TxRollbackOk_Write |}.

Definition TxRollbackOk_wf (msg : TxRollbackOk) : bool :=
  true.

Definition TxRollbackOk_canon (msg : TxRollbackOk) : TxRollbackOk := msg.

#[export] Instance TxRollbackOk_ok : MessageOk TxRollbackOk.
Proof.
  refine {| wf := TxRollbackOk_wf; canon := TxRollbackOk_canon |};
    solve_message_ok ltac:(unfold Read, Write, TxRollbackOk_Message, TxRollbackOk_Read, TxRollbackOk_Write, TxRollbackOk_wf, TxRollbackOk_canon).
Defined.

(** ** [ConfirmSelect] *)

Record ConfirmSelect : Type := mkConfirmSelect {
  ConfirmSelect_Nowait : bool
}.

Definition ConfirmSelect_ID (msg : ConfirmSelect) : Z * Z := (85, 10).

Definition ConfirmSelect_Wait (msg : ConfirmSelect) : bool := true.

Definition ConfirmSelect_Write (msg : ConfirmSelect) : writer :=
  writeU8 (let bits := 0 in
           let bits := set_bit (ConfirmSelect_Nowait msg) 0 bits in
           bits).

Definition ConfirmSelect_Read : reader ConfirmSelect :=
  bits ← readU8;
  mret {|
    ConfirmSelect_Nowait := has_bit bits 0 |}.

#[export] Instance ConfirmSelect_Message : Message ConfirmSelect := {|
  ID := ConfirmSelect_ID; Wait := ConfirmSelect_Wait; Read := ConfirmSelect_Read; Write := ConfirmSelect_Write |}.

Definition ConfirmSelect_wf (msg : ConfirmSelect) : bool :=
  true.

Definition ConfirmSelect_canon (msg : ConfirmSelect) : ConfirmSelect := msg.

#[export] Instance ConfirmSelect_ok : MessageOk ConfirmSelect.
Proof.
  refine {| wf := ConfirmSelect_wf; canon := ConfirmSelect_canon |};
    solve_message_ok ltac:(unfold Read, Write, ConfirmSelect_Message, ConfirmSelect_Read, ConfirmSelect_Write, ConfirmSelect_wf, ConfirmSelect_canon).
Defined.

(** ** [ConfirmSelectOk] *)

Record ConfirmSelectOk : Type := mkConfirmSelectOk { }.

Definition ConfirmSelectOk_ID (msg : ConfirmSelectOk) : Z * Z := (85, 11).

Definition ConfirmSelectOk_Wait (msg : ConfirmSelectOk) : bool := true.

Definition ConfirmSelectOk_Write (msg : ConfirmSelectOk) : writer :=
  wnil.

Definition ConfirmSelectOk_Read : reader ConfirmSelectOk :=
  mret mkConfirmSelectOk.

#[export] Instance ConfirmSelectOk_Message : Message ConfirmSelectOk := {|
  ID := ConfirmSelectOk_ID; Wait := ConfirmSelectOk_Wait; Read := ConfirmSelectOk_Read; Write := ConfirmSelectOk_Write |}.

Definition ConfirmSelectOk_wf (msg : ConfirmSelectOk) : bool :=
  true.

Definition ConfirmSelectOk_canon (msg : ConfirmSelectOk) : ConfirmSelectOk := msg.

#[export] Instance ConfirmSelectOk_ok : MessageOk ConfirmSelectOk.
Proof.
  refine {| wf := ConfirmSelectOk_wf; canon := ConfirmSelectOk_canon |};
    solve_message_ok ltac:(unfold Read, Write, ConfirmSelectOk_Message, ConfirmSelectOk_Read, ConfirmSelectOk_Write, ConfirmSelectOk_wf, ConfirmSelectOk_canon).
Defined.
