(* ===== verification/Methods.v ===== *)
(** * All protocol messages

    A Go value of the interface type [Message] is one of the 64 structs of
    [amqp091/spec091.go]; [ParseMethodFrame] there chooses the struct to read by
    class and method number. [Method] is that union, [dispatch] the dynamic
    dispatch of an interface call. *)

From S2P Require Import Prelude Bytes Fields MsgBase.
From S2P Require Import MsgConnection MsgChannel MsgExchange MsgQueue MsgBasic MsgTx.

Inductive Method : Type :=
| M_ConnectionStart (m : ConnectionStart)
| M_ConnectionStartOk (m : ConnectionStartOk)
| M_ConnectionSecure (m : ConnectionSecure)
| M_ConnectionSecureOk (m : ConnectionSecureOk)
| M_ConnectionTune (m : ConnectionTune)
| M_ConnectionTuneOk (m : ConnectionTuneOk)
| M_ConnectionOpen (m : ConnectionOpen)
| M_ConnectionOpenOk (m : ConnectionOpenOk)
| M_ConnectionClose (m : ConnectionClose)
| M_ConnectionCloseOk (m : ConnectionCloseOk)
| M_ConnectionBlocked (m : ConnectionBlocked)
| M_ConnectionUnblocked (m : ConnectionUnblocked)
| M_ConnectionUpdateSecret (m : ConnectionUpdateSecret)
| M_ConnectionUpdateSecretOk (m : ConnectionUpdateSecretOk)
| M_ChannelOpen (m : ChannelOpen)
| M_ChannelOpenOk (m : ChannelOpenOk)
| M_ChannelFlow (m : ChannelFlow)
| M_ChannelFlowOk (m : ChannelFlowOk)
| M_ChannelClose (m : ChannelClose)
| M_ChannelCloseOk (m : ChannelCloseOk)
| M_ExchangeDeclare (m : ExchangeDeclare)
| M_ExchangeDeclareOk (m : ExchangeDeclareOk)
| M_ExchangeDelete (m : ExchangeDelete)
| M_ExchangeDeleteOk (m : ExchangeDeleteOk)
| M_ExchangeBind (m : ExchangeBind)
| M_ExchangeBindOk (m : ExchangeBindOk)
| M_ExchangeUnbind (m : ExchangeUnbind)
| M_ExchangeUnbindOk (m : ExchangeUnbindOk)
| M_QueueDeclare (m : QueueDeclare)
| M_QueueDeclareOk (m : QueueDeclareOk)
| M_QueueBind (m : QueueBind)
| M_QueueBindOk (m : QueueBindOk)
| M_QueueUnbind (m : QueueUnbind)
| M_QueueUnbindOk (m : QueueUnbindOk)
| M_QueuePurge (m : QueuePurge)
| M_QueuePurgeOk (m : QueuePurgeOk)
| M_QueueDelete (m : QueueDelete)
| M_QueueDeleteOk (m : QueueDeleteOk)
| M_BasicQos (m : BasicQos)
| M_BasicQosOk (m : BasicQosOk)
| M_BasicConsume (m : BasicConsume)
| M_BasicConsumeOk (m : BasicConsumeOk)
| M_BasicCancel (m : BasicCancel)
| M_BasicCancelOk (m : BasicCancelOk)
| M_BasicPublish (m : BasicPublish)
| M_BasicReturn (m : BasicReturn)
| M_BasicDeliver (m : BasicDeliver)
| M_BasicGet (m : BasicGet)
| M_BasicGetOk (m : BasicGetOk)
| M_BasicGetEmpty (m : BasicGetEmpty)
| M_BasicAck (m : BasicAck)
| M_BasicReject (m : BasicReject)
| M_BasicRecoverAsync (m : BasicRecoverAsync)
| M_BasicRecover (m : BasicRecover)
| M_BasicRecoverOk (m : BasicRecoverOk)
| M_BasicNack (m : BasicNack)
| M_TxSelect (m : TxSelect)
| M_TxSelectOk (m : TxSelectOk)
| M_TxCommit (m : TxCommit)
| M_TxCommitOk (m : TxCommitOk)
| M_TxRollback (m : TxRollback)
| M_TxRollbackOk (m : TxRollbackOk)
| M_ConfirmSelect (m : ConfirmSelect)
| M_ConfirmSelectOk (m : ConfirmSelectOk).

(** A call [msg.F(...)] on an interface value. *)
Definition dispatch {R : Type} (F : forall M (HM : Message M) (HO : MessageOk M), M -> R)
  (msg : Method) : R :=
  match msg with
  | M_ConnectionStart m => F ConnectionStart _ _ m
  | M_ConnectionStartOk m => F ConnectionStartOk _ _ m
  | M_ConnectionSecure m => F ConnectionSecure _ _ m
  | M_ConnectionSecureOk m => F ConnectionSecureOk _ _ m
  | M_ConnectionTune m => F ConnectionTune _ _ m
  | M_ConnectionTuneOk m => F ConnectionTuneOk _ _ m
  | M_ConnectionOpen m => F ConnectionOpen _ _ m
  | M_ConnectionOpenOk m => F ConnectionOpenOk _ _ m
  | M_ConnectionClose m => F ConnectionClose _ _ m
  | M_ConnectionCloseOk m => F ConnectionCloseOk _ _ m
  | M_ConnectionBlocked m => F ConnectionBlocked _ _ m
  | M_ConnectionUnblocked m => F ConnectionUnblocked _ _ m
  | M_ConnectionUpdateSecret m => F ConnectionUpdateSecret _ _ m
  | M_ConnectionUpdateSecretOk m => F ConnectionUpdateSecretOk _ _ m
  | M_ChannelOpen m => F ChannelOpen _ _ m
  | M_ChannelOpenOk m => F ChannelOpenOk _ _ m
  | M_ChannelFlow m => F ChannelFlow _ _ m
  | M_ChannelFlowOk m => F ChannelFlowOk _ _ m
  | M_ChannelClose m => F ChannelClose _ _ m
  | M_ChannelCloseOk m => F ChannelCloseOk _ _ m
  | M_ExchangeDeclare m => F ExchangeDeclare _ _ m
  | M_ExchangeDeclareOk m => F ExchangeDeclareOk _ _ m
  | M_ExchangeDelete m => F ExchangeDelete _ _ m
  | M_ExchangeDeleteOk m => F ExchangeDeleteOk _ _ m
  | M_ExchangeBind m => F ExchangeBind _ _ m
  | M_ExchangeBindOk m => F ExchangeBindOk _ _ m
  | M_ExchangeUnbind m => F ExchangeUnbind _ _ m
  | M_ExchangeUnbindOk m => F ExchangeUnbindOk _ _ m
  | M_QueueDeclare m => F QueueDeclare _ _ m
  | M_QueueDeclareOk m => F QueueDeclareOk _ _ m
  | M_QueueBind m => F QueueBind _ _ m
  | M_QueueBindOk m => F QueueBindOk _ _ m
  | M_QueueUnbind m => F QueueUnbind _ _ m
  | M_QueueUnbindOk m => F QueueUnbindOk _ _ m
  | M_QueuePurge m => F QueuePurge _ _ m
  | M_QueuePurgeOk m => F QueuePurgeOk _ _ m
  | M_QueueDelete m => F QueueDelete _ _ m
  | M_QueueDeleteOk m => F QueueDeleteOk _ _ m
  | M_BasicQos m => F BasicQos _ _ m
  | M_BasicQosOk m => F BasicQosOk _ _ m
  | M_BasicConsume m => F BasicConsume _ _ m
  | M_BasicConsumeOk m => F BasicConsumeOk _ _ m
  | M_BasicCancel m => F BasicCancel _ _ m
  | M_BasicCancelOk m => F BasicCancelOk _ _ m
  | M_BasicPublish m => F BasicPublish _ _ m
  | M_BasicReturn m => F BasicReturn _ _ m
  | M_BasicDeliver m => F BasicDeliver _ _ m
  | M_BasicGet m => F BasicGet _ _ m
  | M_BasicGetOk m => F BasicGetOk _ _ m
  | M_BasicGetEmpty m => F BasicGetEmpty _ _ m
  | M_BasicAck m => F BasicAck _ _ m
  | M_BasicReject m => F BasicReject _ _ m
  | M_BasicRecoverAsync m => F BasicRecoverAsync _ _ m
  | M_BasicRecover m => F BasicRecover _ _ m
  | M_BasicRecoverOk m => F BasicRecoverOk _ _ m
  | M_BasicNack m => F BasicNack _ _ m
  | M_TxSelect m => F TxSelect _ _ m
  | M_TxSelectOk m => F TxSelectOk _ _ m
  | M_TxCommit m => F TxCommit _ _ m
  | M_TxCommitOk m => F TxCommitOk _ _ m
  | M_TxRollback m => F TxRollback _ _ m
  | M_TxRollbackOk m => F TxRollbackOk _ _ m
  | M_ConfirmSelect m => F ConfirmSelect _ _ m
  | M_ConfirmSelectOk m => F ConfirmSelectOk _ _ m
  end.

Definition Method_ID : Method -> Z * Z := dispatch (fun M _ _ m => ID m).
Definition Method_Wait : Method -> bool := dispatch (fun M _ _ m => Wait m).
Definition Method_Write : Method -> writer := dispatch (fun M _ _ m => Write m).
Definition Method_wf : Method -> bool := dispatch (fun M _ _ m => wf m).

Definition Method_canon (msg : Method) : Method :=
  match msg with
  | M_ConnectionStart m => M_ConnectionStart (canon m)
  | M_ConnectionStartOk m => M_ConnectionStartOk (canon m)
  | M_ConnectionSecure m => M_ConnectionSecure (canon m)
  | M_ConnectionSecureOk m => M_ConnectionSecureOk (canon m)
  | M_ConnectionTune m => M_ConnectionTune (canon m)
  | M_ConnectionTuneOk m => M_ConnectionTuneOk (canon m)
  | M_ConnectionOpen m => M_ConnectionOpen (canon m)
  | M_ConnectionOpenOk m => M_ConnectionOpenOk (canon m)
  | M_ConnectionClose m => M_ConnectionClose (canon m)
  | M_ConnectionCloseOk m => M_ConnectionCloseOk (canon m)
  | M_ConnectionBlocked m => M_ConnectionBlocked (canon m)
  | M_ConnectionUnblocked m => M_ConnectionUnblocked (canon m)
  | M_ConnectionUpdateSecret m => M_ConnectionUpdateSecret (canon m)
  | M_ConnectionUpdateSecretOk m => M_ConnectionUpdateSecretOk (canon m)
  | M_ChannelOpen m => M_ChannelOpen (canon m)
  | M_ChannelOpenOk m => M_ChannelOpenOk (canon m)
  | M_ChannelFlow m => M_ChannelFlow (canon m)
  | M_ChannelFlowOk m => M_ChannelFlowOk (canon m)
  | M_ChannelClose m => M_ChannelClose (canon m)
  | M_ChannelCloseOk m => M_ChannelCloseOk (canon m)
  | M_ExchangeDeclare m => M_ExchangeDeclare (canon m)
  | M_ExchangeDeclareOk m => M_ExchangeDeclareOk (canon m)
  | M_ExchangeDelete m => M_ExchangeDelete (canon m)
  | M_ExchangeDeleteOk m => M_ExchangeDeleteOk (canon m)
  | M_ExchangeBind m => M_ExchangeBind (canon m)
  | M_ExchangeBindOk m => M_ExchangeBindOk (canon m)
  | M_ExchangeUnbind m => M_ExchangeUnbind (canon m)
  | M_ExchangeUnbindOk m => M_ExchangeUnbindOk (canon m)
  | M_QueueDeclare m => M_QueueDeclare (canon m)
  | M_QueueDeclareOk m => M_QueueDeclareOk (canon m)
  | M_QueueBind m => M_QueueBind (canon m)
  | M_QueueBindOk m => M_QueueBindOk (canon m)
  | M_QueueUnbind m => M_QueueUnbind (canon m)
  | M_QueueUnbindOk m => M_QueueUnbindOk (canon m)
  | M_QueuePurge m => M_QueuePurge (canon m)
  | M_QueuePurgeOk m => M_QueuePurgeOk (canon m)
  | M_QueueDelete m => M_QueueDelete (canon m)
  | M_QueueDeleteOk m => M_QueueDeleteOk (canon m)
  | M_BasicQos m => M_BasicQos (canon m)
  | M_BasicQosOk m => M_BasicQosOk (canon m)
  | M_BasicConsume m => M_BasicConsume (canon m)
  | M_BasicConsumeOk m => M_BasicConsumeOk (canon m)
  | M_BasicCancel m => M_BasicCancel (canon m)
  | M_BasicCancelOk m => M_BasicCancelOk (canon m)
  | M_BasicPublish m => M_BasicPublish (canon m)
  | M_BasicReturn m => M_BasicReturn (canon m)
  | M_BasicDeliver m => M_BasicDeliver (canon m)
  | M_BasicGet m => M_BasicGet (canon m)
  | M_BasicGetOk m => M_BasicGetOk (canon m)
  | M_BasicGetEmpty m => M_BasicGetEmpty (canon m)
  | M_BasicAck m => M_BasicAck (canon m)
  | M_BasicReject m => M_BasicReject (canon m)
  | M_BasicRecoverAsync m => M_BasicRecoverAsync (canon m)
  | M_BasicRecover m => M_BasicRecover (canon m)
  | M_BasicRecoverOk m => M_BasicRecoverOk (canon m)
  | M_BasicNack m => M_BasicNack (canon m)
  | M_TxSelect m => M_TxSelect (canon m)
  | M_TxSelectOk m => M_TxSelectOk (canon m)
  | M_TxCommit m => M_TxCommit (canon m)
  | M_TxCommitOk m => M_TxCommitOk (canon m)
  | M_TxRollback m => M_TxRollback (canon m)
  | M_TxRollbackOk m => M_TxRollbackOk (canon m)
  | M_ConfirmSelect m => M_ConfirmSelect (canon m)
  | M_ConfirmSelectOk m => M_ConfirmSelectOk (canon m)
  end.

(** [m.(MessageWithContent)] and its [GetContent]: [None] when the type
    assertion fails. *)
Definition Method_GetContent (msg : Method) : option (Properties * list byte) :=
  match msg with
  | M_BasicPublish m => Some (GetContent m)
  | M_BasicReturn m => Some (GetContent m)
  | M_BasicDeliver m => Some (GetContent m)
  | M_BasicGetOk m => Some (GetContent m)
  | _ => None
  end.

Definition Method_SetContent (msg : Method) (props : Properties) (body : list byte)
  : option Method :=
  match msg with
  | M_BasicPublish m => Some (M_BasicPublish (SetContent m props body))
  | M_BasicReturn m => Some (M_BasicReturn (SetContent m props body))
  | M_BasicDeliver m => Some (M_BasicDeliver (SetContent m props body))
  | M_BasicGetOk m => Some (M_BasicGetOk (SetContent m props body))
  | _ => None
  end.

(** ** Type names: [amqp091/util.go] *)

(** [reflect.TypeOf(m).Name()], and [reflect.TypeOf(m).String()] of a pointer. *)
Definition struct_name (msg : Method) : string :=
  match msg with
  | M_ConnectionStart _ => "ConnectionStart"
  | M_ConnectionStartOk _ => "ConnectionStartOk"
  | M_ConnectionSecure _ => "ConnectionSecure"
  | M_ConnectionSecureOk _ => "ConnectionSecureOk"
  | M_ConnectionTune _ => "ConnectionTune"
  | M_ConnectionTuneOk _ => "ConnectionTuneOk"
  | M_ConnectionOpen _ => "ConnectionOpen"
  | M_ConnectionOpenOk _ => "ConnectionOpenOk"
  | M_ConnectionClose _ => "ConnectionClose"
  | M_ConnectionCloseOk _ => "ConnectionCloseOk"
  | M_ConnectionBlocked _ => "ConnectionBlocked"
  | M_ConnectionUnblocked _ => "ConnectionUnblocked"
  | M_ConnectionUpdateSecret _ => "ConnectionUpdateSecret"
  | M_ConnectionUpdateSecretOk _ => "ConnectionUpdateSecretOk"
  | M_ChannelOpen _ => "ChannelOpen"
  | M_ChannelOpenOk _ => "ChannelOpenOk"
  | M_ChannelFlow _ => "ChannelFlow"
  | M_ChannelFlowOk _ => "ChannelFlowOk"
  | M_ChannelClose _ => "ChannelClose"
  | M_ChannelCloseOk _ => "ChannelCloseOk"
  | M_ExchangeDeclare _ => "ExchangeDeclare"
  | M_ExchangeDeclareOk _ => "ExchangeDeclareOk"
  | M_ExchangeDelete _ => "ExchangeDelete"
  | M_ExchangeDeleteOk _ => "ExchangeDeleteOk"
  | M_ExchangeBind _ => "ExchangeBind"
  | M_ExchangeBindOk _ => "ExchangeBindOk"
  | M_ExchangeUnbind _ => "ExchangeUnbind"
  | M_ExchangeUnbindOk _ => "ExchangeUnbindOk"
  | M_QueueDeclare _ => "QueueDeclare"
  | M_QueueDeclareOk _ => "QueueDeclareOk"
  | M_QueueBind _ => "QueueBind"
  | M_QueueBindOk _ => "QueueBindOk"
  | M_QueueUnbind _ => "QueueUnbind"
  | M_QueueUnbindOk _ => "QueueUnbindOk"
  | M_QueuePurge _ => "QueuePurge"
  | M_QueuePurgeOk _ => "QueuePurgeOk"
  | M_QueueDelete _ => "QueueDelete"
  | M_QueueDeleteOk _ => "QueueDeleteOk"
  | M_BasicQos _ => "BasicQos"
  | M_BasicQosOk _ => "BasicQosOk"
  | M_BasicConsume _ => "BasicConsume"
  | M_BasicConsumeOk _ => "BasicConsumeOk"
  | M_BasicCancel _ => "BasicCancel"
  | M_BasicCancelOk _ => "BasicCancelOk"
  | M_BasicPublish _ => "BasicPublish"
  | M_BasicReturn _ => "BasicReturn"
  | M_BasicDeliver _ => "BasicDeliver"
  | M_BasicGet _ => "BasicGet"
  | M_BasicGetOk _ => "BasicGetOk"
  | M_BasicGetEmpty _ => "BasicGetEmpty"
  | M_BasicAck _ => "BasicAck"
  | M_BasicReject _ => "BasicReject"
  | M_BasicRecoverAsync _ => "BasicRecoverAsync"
  | M_BasicRecover _ => "BasicRecover"
  | M_BasicRecoverOk _ => "BasicRecoverOk"
  | M_BasicNack _ => "BasicNack"
  | M_TxSelect _ => "TxSelect"
  | M_TxSelectOk _ => "TxSelectOk"
  | M_TxCommit _ => "TxCommit"
  | M_TxCommitOk _ => "TxCommitOk"
  | M_TxRollback _ => "TxRollback"
  | M_TxRollbackOk _ => "TxRollbackOk"
  | M_ConfirmSelect _ => "ConfirmSelect"
  | M_ConfirmSelectOk _ => "ConfirmSelectOk"
  end.

Definition type_string (name : string) : string := "*amqp091." +:+ name.

(** [strings.TrimLeft(s, cutset)] drops the leading characters that are in the
    set [cutset]; it does not look for a prefix. *)
Fixpoint TrimLeft (s cutset : string) : string :=
  match s with
  | EmptyString => EmptyString
  | String c s' => if existsb (Ascii.eqb c) (String.list_ascii_of_string cutset)
                   then TrimLeft s' cutset else s
  end.

Definition TypeName (ty : string) : string := TrimLeft ty "*amqp091.".

Lemma TypeName_struct msg : TypeName (type_string (struct_name msg)) = struct_name msg.
Proof. by destruct msg. Qed.

(** ** The choice of the struct to read *)

Definition ParseMethod_connection (MethodId : Z) : reader Method :=
  match MethodId with
  | 10 => M_ConnectionStart <$> Read
  | 11 => M_ConnectionStartOk <$> Read
  | 20 => M_ConnectionSecure <$> Read
  | 21 => M_ConnectionSecureOk <$> Read
  | 30 => M_ConnectionTune <$> Read
  | 31 => M_ConnectionTuneOk <$> Read
  | 40 => M_ConnectionOpen <$> Read
  | 41 => M_ConnectionOpenOk <$> Read
  | 50 => M_ConnectionClose <$> Read
  | 51 => M_ConnectionCloseOk <$> Read
  | 60 => M_ConnectionBlocked <$> Read
  | 61 => M_ConnectionUnblocked <$> Read
  | 70 => M_ConnectionUpdateSecret <$> Read
  | 71 => M_ConnectionUpdateSecretOk <$> Read
  | _ => fail (ErrBadMethod 10 MethodId)
  end.

Definition ParseMethod_channel (MethodId : Z) : reader Method :=
  match MethodId with
  | 10 => M_ChannelOpen <$> Read
  | 11 => M_ChannelOpenOk <$> Read
  | 20 => M_ChannelFlow <$> Read
  | 21 => M_ChannelFlowOk <$> Read
  | 40 => M_ChannelClose <$> Read
  | 41 => M_ChannelCloseOk <$> Read
  | _ => fail (ErrBadMethod 20 MethodId)
  end.

Definition ParseMethod_exchange (MethodId : Z) : reader Method :=
  match MethodId with
  | 10 => M_ExchangeDeclare <$> Read
  | 11 => M_ExchangeDeclareOk <$> Read
  | 20 => M_ExchangeDelete <$> Read
  | 21 => M_ExchangeDeleteOk <$> Read
  | 30 => M_ExchangeBind <$> Read
  | 31 => M_ExchangeBindOk <$> Read
  | 40 => M_ExchangeUnbind <$> Read
  | 51 => M_ExchangeUnbindOk <$> Read
  | _ => fail (ErrBadMethod 40 MethodId)
  end.

Definition ParseMethod_queue (MethodId : Z) : reader Method :=
  match MethodId with
  | 10 => M_QueueDeclare <$> Read
  | 11 => M_QueueDeclareOk <$> Read
  | 20 => M_QueueBind <$> Read
  | 21 => M_QueueBindOk <$> Read
  | 50 => M_QueueUnbind <$> Read
  | 51 => M_QueueUnbindOk <$> Read
  | 30 => M_QueuePurge <$> Read
  | 31 => M_QueuePurgeOk <$> Read
  | 40 => M_QueueDelete <$> Read
  | 41 => M_QueueDeleteOk <$> Read
  | _ => fail (ErrBadMethod 50 MethodId)
  end.

Definition ParseMethod_basic (MethodId : Z) : reader Method :=
  match MethodId with
  | 10 => M_BasicQos <$> Read
  | 11 => M_BasicQosOk <$> Read
  | 20 => M_BasicConsume <$> Read
  | 21 => M_BasicConsumeOk <$> Read
  | 30 => M_BasicCancel <$> Read
  | 31 => M_BasicCancelOk <$> Read
  | 40 => M_BasicPublish <$> Read
  | 50 => M_BasicReturn <$> Read
  | 60 => M_BasicDeliver <$> Read
  | 70 => M_BasicGet <$> Read
  | 71 => M_BasicGetOk <$> Read
  | 72 => M_BasicGetEmpty <$> Read
  | 80 => M_BasicAck <$> Read
  | 90 => M_BasicReject <$> Read
  | 100 => M_BasicRecoverAsync <$> Read
  | 110 => M_BasicRecover <$> Read
  | 111 => M_BasicRecoverOk <$> Read
  | 120 => M_BasicNack <$> Read
  | _ => fail (ErrBadMethod 60 MethodId)
  end.

Definition ParseMethod_tx (MethodId : Z) : reader Method :=
  match MethodId with
  | 10 => M_TxSelect <$> Read
  | 11 => M_TxSelectOk <$> Read
  | 20 => M_TxCommit <$> Read
  | 21 => M_TxCommitOk <$> Read
  | 30 => M_TxRollback <$> Read
  | 31 => M_TxRollbackOk <$> Read
  | _ => fail (ErrBadMethod 90 MethodId)
  end.

Definition ParseMethod_confirm (MethodId : Z) : reader Method :=
  match MethodId with
  | 10 => M_ConfirmSelect <$> Read
  | 11 => M_ConfirmSelectOk <$> Read
  | _ => fail (ErrBadMethod 85 MethodId)
  end.

Definition ParseMethod (ClassId MethodId : Z) : reader Method :=
  match ClassId with
  | 10 => ParseMethod_connection MethodId
  | 20 => ParseMethod_channel MethodId
  | 40 => ParseMethod_exchange MethodId
  | 50 => ParseMethod_queue MethodId
  | 60 => ParseMethod_basic MethodId
  | 90 => ParseMethod_tx MethodId
  | 85 => ParseMethod_confirm MethodId
  | _ => fail (ErrBadClass ClassId)
  end.

(** ** The codec of the union *)

(** Reading a message back from the bytes its [Write] produced, with the numbers
    its [ID] gives. *)
Lemma Method_round_trip msg :
  Method_wf msg = true ->
  rt (Method_Write msg) (ParseMethod (Method_ID msg).1 (Method_ID msg).2) (Method_canon msg).
Proof. destruct msg; intros H; refine (rt_fmap _ _ _ _ (round_trip _ H)). Qed.

Lemma Method_canon_ID msg : Method_ID (Method_canon msg) = Method_ID msg.
Proof. destruct msg; apply (canon_ID (M := _)). Qed.

Lemma lossy_Read `{MessageOk M} {B} (f : M -> B) : lossy (f <$> Read).
Proof. apply lossy_fmap, Read_lossy. Qed.

Lemma settles_Read `{MessageOk M} {B} n (f : M -> B) : settles n (f <$> Read).
Proof. apply settles_fmap; [apply Read_lossy|apply Read_settles]. Qed.

#[export] Hint Resolve lossy_Read settles_Read : wire.

Ltac parse_cases :=
  intros; unfold ParseMethod, ParseMethod_connection, ParseMethod_channel,
    ParseMethod_exchange, ParseMethod_queue, ParseMethod_basic, ParseMethod_tx,
    ParseMethod_confirm;
  repeat case_match; first
  [ apply lossy_fmap, Read_lossy | apply lossy_fail
  | apply settles_fmap; [apply Read_lossy|apply Read_settles]
  | apply settles_fail; done ].

Lemma lossy_ParseMethod c m : lossy (ParseMethod c m).
Proof. parse_cases. Qed.

Lemma settles_ParseMethod n c m : settles n (ParseMethod c m).
Proof. parse_cases. Qed.

#[export] Hint Resolve lossy_ParseMethod settles_ParseMethod : wire.

(** ** What the message codec guarantees *)

(** [Read] into the struct with constructor [f] can only give an [f _]. *)
Lemma fmap_read_ok {A B} (f : A -> B) (m : reader A) s v s' :
  (f <$> m) s = (Ok v, s') -> exists a, v = f a.
Proof.
  unfold fmap, reader_fmap, mbind, reader_bind.
  destruct (m s) as [[a|e] s1]; [|done]. intros [= <- <-]. eauto.
Qed.

(** Each of the 64 messages of the protocol, written by its [Write], is read
    back in its canonical form by the reader that [ParseMethodFrame] chooses for the
    numbers of its [ID], and nothing after it is consumed. *)
Theorem method_round_trip msg bs rest f :
  Method_wf msg = true -> Method_Write msg = Ok bs ->
  ParseMethod (Method_ID msg).1 (Method_ID msg).2 (Stream (bs ++ rest) f)
  = (Ok (Method_canon msg), Stream rest f).
Proof. intros Hwf Hbs. by apply Method_round_trip. Qed.

(** A message that [ParseMethod] returns has the class and method numbers it
    was asked for, and two messages with the same numbers are of the same
    struct: the numbers on the wire determine the message type. *)
Theorem ParseMethod_sound c m s msg s' :
  ParseMethod c m s = (Ok msg, s') ->
  Method_ID msg = (c, m) /\
  forall msg', Method_ID msg' = (c, m) -> struct_name msg' = struct_name msg.
Proof.
  intros H. assert (E : Method_ID msg = (c, m)).
  { revert H. unfold ParseMethod, ParseMethod_connection, ParseMethod_channel,
      ParseMethod_exchange, ParseMethod_queue, ParseMethod_basic, ParseMethod_tx,
      ParseMethod_confirm.
    repeat case_match; first [by intros [a ->]%fmap_read_ok | done]. }
  split; [done|]. intros msg'. rewrite <- E. clear.
  by destruct msg, msg'.
Qed.
