(* ===== verification/Frames.v ===== *)
(** * Frames

    [amqp091/types.go], [ReadFrame] and the [parse*Frame] functions of
    [amqp091/read.go], [ParseMethodFrame] of [amqp091/spec091.go] and the [Write]
    methods of [amqp091/write.go]. A frame is the unit both sides of the proxy
    exchange: a type, a channel, a size, a payload and an end octet. *)

From Stdlib Require Import Strings.Byte.
From S2P Require Import Prelude Bytes Fields MsgBase Methods.

(** ** Constants *)

Definition frameMethod : Z := 1.
Definition frameHeader : Z := 2.
Definition frameBody : Z := 3.
Definition frameHeartbeat : Z := 8.
Definition frameEnd : Z := 206.

Definition flagContentType : Z := 0x8000.
Definition flagContentEncoding : Z := 0x4000.
Definition flagHeaders : Z := 0x2000.
Definition flagDeliveryMode : Z := 0x1000.
Definition flagPriority : Z := 0x0800.
Definition flagCorrelationId : Z := 0x0400.
Definition flagReplyTo : Z := 0x0200.
Definition flagExpiration : Z := 0x0100.
Definition flagMessageId : Z := 0x0080.
Definition flagTimestamp : Z := 0x0040.
Definition flagType : Z := 0x0020.
Definition flagUserId : Z := 0x0010.
Definition flagAppId : Z := 0x0008.
Definition flagReserved1 : Z := 0x0004.

(** ** Data *)

(** [MethodFrame_Method] is [None] for a nil interface value. *)
Record MethodFrame : Type := {
  MethodFrame_ChannelId : Z;
  MethodFrame_ClassId : Z;
  MethodFrame_MethodId : Z;
  MethodFrame_Method : option Method
}.

Record HeaderFrame : Type := {
  HeaderFrame_ChannelId : Z;
  HeaderFrame_ClassId : Z;
  HeaderFrame_weight : Z;
  HeaderFrame_Size : Z;
  HeaderFrame_Properties : Properties
}.

Record BodyFrame : Type := {
  BodyFrame_ChannelId : Z;
  BodyFrame_Body : list byte
}.

Record HeartbeatFrame : Type := { HeartbeatFrame_ChannelId : Z }.

(** [type Frame interface]. *)
Inductive Frame : Type :=
| F_Method (f : MethodFrame)
| F_Header (f : HeaderFrame)
| F_Body (f : BodyFrame)
| F_Heartbeat (f : HeartbeatFrame).

Definition Channel (frame : Frame) : Z :=
  match frame with
  | F_Method f => MethodFrame_ChannelId f
  | F_Header f => HeaderFrame_ChannelId f
  | F_Body f => BodyFrame_ChannelId f
  | F_Heartbeat f => HeartbeatFrame_ChannelId f
  end.

(** ** Reading *)

Definition hasProperty (mask prop : Z) : bool := 0 <? Z.land mask prop.

(** [if hasProperty(flags, prop) { if x, err = m(r); err != nil { return } }] on
    a field [x] that holds its zero value [d]. *)
Definition ifHas {A} (flags prop : Z) (m : reader A) (d : A) : reader A :=
  if hasProperty flags prop then m else mret d.

(** The property list of a header frame. *)
Definition readProperties (flags : Z) : reader Properties :=
  ContentType ← ifHas flags flagContentType readShortstr EmptyString;
  ContentEncoding ← ifHas flags flagContentEncoding readShortstr EmptyString;
  Headers ← ifHas flags flagHeaders readTable None;
  DeliveryMode ← ifHas flags flagDeliveryMode readU8 0;
  Priority ← ifHas flags flagPriority readU8 0;
  CorrelationId ← ifHas flags flagCorrelationId readShortstr EmptyString;
  ReplyTo ← ifHas flags flagReplyTo readShortstr EmptyString;
  Expiration ← ifHas flags flagExpiration readShortstr EmptyString;
  MessageId ← ifHas flags flagMessageId readShortstr EmptyString;
  Timestamp ← ifHas flags flagTimestamp readTimestamp zeroTime;
  Type_ ← ifHas flags flagType readShortstr EmptyString;
  UserId ← ifHas flags flagUserId readShortstr EmptyString;
  AppId ← ifHas flags flagAppId readShortstr EmptyString;
  reserved1 ← ifHas flags flagReserved1 readShortstr EmptyString;
  mret {|
    Properties_ContentType := ContentType;
    Properties_ContentEncoding := ContentEncoding;
    Properties_Headers := Headers;
    Properties_DeliveryMode := DeliveryMode;
    Properties_Priority := Priority;
    Properties_CorrelationId := CorrelationId;
    Properties_ReplyTo := ReplyTo;
    Properties_Expiration := Expiration;
    Properties_MessageId := MessageId;
    Properties_Timestamp := Timestamp;
    Properties_Type := Type_;
    Properties_UserId := UserId;
    Properties_AppId := AppId;
    Properties_reserved1 := reserved1 |}.

(** The declared [size] of a header or method frame is not looked at. *)
Definition parseHeaderFrame (channel size : Z) : reader Frame :=
  ClassId ← readU16;
  weight ← readU16;
  Size ← readU64;
  flags ← readU16;
  props ← readProperties flags;
  mret (F_Header {|
    HeaderFrame_ChannelId := channel;
    HeaderFrame_ClassId := ClassId;
    HeaderFrame_weight := weight;
    HeaderFrame_Size := Size;
    HeaderFrame_Properties := props |}).

Definition ParseMethodFrame (channel size : Z) : reader Frame :=
  ClassId ← readU16;
  MethodId ← readU16;
  method ← ParseMethod ClassId MethodId;
  mret (F_Method {|
    MethodFrame_ChannelId := channel;
    MethodFrame_ClassId := ClassId;
    MethodFrame_MethodId := MethodId;
    MethodFrame_Method := Some method |}).

Definition parseBodyFrame (channel size : Z) : reader Frame :=
  Body ← ReadFull size;
  mret (F_Body {| BodyFrame_ChannelId := channel; BodyFrame_Body := Body |}).

Definition parseHeartbeatFrame (channel size : Z) : reader Frame :=
  if 0 <? size then fail ErrHeartbeatPayload
  else mret (F_Heartbeat {| HeartbeatFrame_ChannelId := channel |}).

(** The [switch typ] of [ReadFrame]. *)
Definition parsePayload (typ channel size : Z) : reader Frame :=
  if typ =? frameMethod then ParseMethodFrame channel size
  else if typ =? frameHeader then parseHeaderFrame channel size
  else if typ =? frameBody then parseBodyFrame channel size
  else if typ =? frameHeartbeat then parseHeartbeatFrame channel size
  else fail ErrFrame.

Definition ReadFrame : reader Frame :=
  scratch ← ReadFull 7;
  let typ := be_decode (take 1 scratch) in
  let channel := be_decode (take 2 (drop 1 scratch)) in
  let size := be_decode (take 4 (drop 3 scratch)) in
  frame ← parsePayload typ channel size;
  scratch ← ReadFull 1;
  if be_decode scratch =? frameEnd then mret frame else fail ErrFrame.

(** ** Writing *)

(** What [Write] does with its [io.Writer]: the byte strings of the successive
    [w.Write] calls, or the error found before the first of them. *)
Definition frame_writer : Type := result ioerr (list (list byte)).

Definition frame_header (typ channel size : Z) : list byte :=
  [ byte_of_Z typ;
    byte_of_Z (Z.shiftr channel 8); byte_of_Z channel;
    byte_of_Z (Z.shiftr size 24); byte_of_Z (Z.shiftr size 16);
    byte_of_Z (Z.shiftr size 8); byte_of_Z size ].

(** One [w.Write] of header, payload and end octet. *)
Definition writeFrame (typ channel : Z) (payload : list byte) : frame_writer :=
  let size := uwrap 32 (Z.of_nat (length payload)) in
  Ok [frame_header typ channel size ++ payload ++ [byte_of_Z frameEnd]].

(** One [w.Write] for each part, none for an empty payload. *)
Definition writeFrameBuffer (typ channel : Z) (payload : list byte) : frame_writer :=
  let size := uwrap 32 (Z.of_nat (length payload)) in
  Ok ([frame_header typ channel size]
      ++ (if decide (0 < length payload)%nat then [payload] else [])
      ++ [[byte_of_Z frameEnd]]).

(** The payload is built in a buffer of its own: on an error nothing of the
    frame is written. *)
Definition MethodFrame_Write (f : MethodFrame) : frame_writer :=
  match MethodFrame_Method f with
  | None => Err ErrMissingMethod
  | Some msg =>
      let (class, method) := Method_ID msg in
      payload ← writeU16 class +>+ writeU16 method +>+ Method_Write msg;
      writeFrameBuffer frameMethod (MethodFrame_ChannelId f) payload
  end.

Definition HeartbeatFrame_Write (f : HeartbeatFrame) : frame_writer :=
  writeFrame frameHeartbeat (HeartbeatFrame_ChannelId f) [].

(** [if c { mask |= flag }]. *)
Definition addFlag (c : bool) (flag mask : Z) : Z := if c then Z.lor mask flag else mask.

Definition nonempty (s : string) : bool := bool_decide (s <> EmptyString).

(** The first pass: the mask of the properties that are set. *)
Definition propertyMask (p : Properties) : Z :=
  let mask := 0 in
  let mask := addFlag (nonempty (Properties_ContentType p)) flagContentType mask in
  let mask := addFlag (nonempty (Properties_ContentEncoding p)) flagContentEncoding mask in
  let mask := addFlag (0 <? Z.of_nat (table_len (Properties_Headers p))) flagHeaders mask in
  let mask := addFlag (0 <? Properties_DeliveryMode p) flagDeliveryMode mask in
  let mask := addFlag (0 <? Properties_Priority p) flagPriority mask in
  let mask := addFlag (nonempty (Properties_CorrelationId p)) flagCorrelationId mask in
  let mask := addFlag (nonempty (Properties_ReplyTo p)) flagReplyTo mask in
  let mask := addFlag (nonempty (Properties_Expiration p)) flagExpiration mask in
  let mask := addFlag (nonempty (Properties_MessageId p)) flagMessageId mask in
  let mask := addFlag (negb (IsZero (Properties_Timestamp p))) flagTimestamp mask in
  let mask := addFlag (nonempty (Properties_Type p)) flagType mask in
  let mask := addFlag (nonempty (Properties_UserId p)) flagUserId mask in
  let mask := addFlag (nonempty (Properties_AppId p)) flagAppId mask in
  mask.

(** The second pass: the properties of the mask. *)
Definition wIfHas (mask prop : Z) (w : writer) : writer :=
  if hasProperty mask prop then w else wnil.

Definition writeProperties (mask : Z) (p : Properties) : writer :=
  wIfHas mask flagContentType (writeShortstr (Properties_ContentType p)) +>+
  wIfHas mask flagContentEncoding (writeShortstr (Properties_ContentEncoding p)) +>+
  wIfHas mask flagHeaders (writeTable (Properties_Headers p)) +>+
  wIfHas mask flagDeliveryMode (writeU8 (Properties_DeliveryMode p)) +>+
  wIfHas mask flagPriority (writeU8 (Properties_Priority p)) +>+
  wIfHas mask flagCorrelationId (writeShortstr (Properties_CorrelationId p)) +>+
  wIfHas mask flagReplyTo (writeShortstr (Properties_ReplyTo p)) +>+
  wIfHas mask flagExpiration (writeShortstr (Properties_Expiration p)) +>+
  wIfHas mask flagMessageId (writeShortstr (Properties_MessageId p)) +>+
  wIfHas mask flagTimestamp (writeU64 (unix (Properties_Timestamp p))) +>+
  wIfHas mask flagType (writeShortstr (Properties_Type p)) +>+
  wIfHas mask flagUserId (writeShortstr (Properties_UserId p)) +>+
  wIfHas mask flagAppId (writeShortstr (Properties_AppId p)).

Definition HeaderFrame_Write (f : HeaderFrame) : frame_writer :=
  let p := HeaderFrame_Properties f in
  payload ← writeU16 (HeaderFrame_ClassId f) +>+
            writeU16 (HeaderFrame_weight f) +>+
            writeU64 (HeaderFrame_Size f) +>+
            writeU16 (propertyMask p) +>+
            writeProperties (propertyMask p) p;
  writeFrameBuffer frameHeader (HeaderFrame_ChannelId f) payload.

Definition BodyFrame_Write (f : BodyFrame) : frame_writer :=
  writeFrame frameBody (BodyFrame_ChannelId f) (BodyFrame_Body f).

(** [frame.Write(w)], which [WriteFrame] and [WriteFrameNoFlush] call. *)
Definition Frame_Writes (frame : Frame) : frame_writer :=
  match frame with
  | F_Method f => MethodFrame_Write f
  | F_Header f => HeaderFrame_Write f
  | F_Body f => BodyFrame_Write f
  | F_Heartbeat f => HeartbeatFrame_Write f
  end.

(** All the bytes of the calls. *)
Definition flat (fw : frame_writer) : writer := (fun calls => concat calls) <$> fw.
Definition Frame_Write (frame : Frame) : writer := flat (Frame_Writes frame).

(** ** Well-formed frames and what reading them back gives *)

Definition Properties_wf (p : Properties) : bool :=
  short (Properties_ContentType p) && short (Properties_ContentEncoding p)
  && wf_table (Properties_Headers p)
  && in_uint 8 (Properties_DeliveryMode p) && in_uint 8 (Properties_Priority p)
  && short (Properties_CorrelationId p) && short (Properties_ReplyTo p)
  && short (Properties_Expiration p) && short (Properties_MessageId p)
  && in_int 64 (unix (Properties_Timestamp p)) && short (Properties_Type p)
  && short (Properties_UserId p) && short (Properties_AppId p).

(** An empty header table is not sent, nor are nanoseconds, nor [reserved1]. *)
Definition Properties_canon (p : Properties) : Properties := {|
  Properties_ContentType := Properties_ContentType p;
  Properties_ContentEncoding := Properties_ContentEncoding p;
  Properties_Headers := if 0 <? Z.of_nat (table_len (Properties_Headers p))
                        then canonTable (Properties_Headers p) else None;
  Properties_DeliveryMode := Properties_DeliveryMode p;
  Properties_Priority := Properties_Priority p;
  Properties_CorrelationId := Properties_CorrelationId p;
  Properties_ReplyTo := Properties_ReplyTo p;
  Properties_Expiration := Properties_Expiration p;
  Properties_MessageId := Properties_MessageId p;
  Properties_Timestamp := if IsZero (Properties_Timestamp p) then zeroTime
                          else {| unix := unix (Properties_Timestamp p); nsec := 0 |};
  Properties_Type := Properties_Type p;
  Properties_UserId := Properties_UserId p;
  Properties_AppId := Properties_AppId p;
  Properties_reserved1 := EmptyString |}.

Definition Frame_wf (frame : Frame) : bool :=
  in_uint 16 (Channel frame) &&
  match frame with
  | F_Method f => match MethodFrame_Method f with Some m => Method_wf m | None => false end
  | F_Header f => in_uint 16 (HeaderFrame_ClassId f) && in_uint 16 (HeaderFrame_weight f)
                  && in_uint 64 (HeaderFrame_Size f)
                  && Properties_wf (HeaderFrame_Properties f)
  | F_Body f => in_uint 32 (Z.of_nat (length (BodyFrame_Body f)))
  | F_Heartbeat _ => true
  end.

Definition Frame_canon (frame : Frame) : Frame :=
  match frame with
  | F_Method f => F_Method {|
      MethodFrame_ChannelId := MethodFrame_ChannelId f;
      MethodFrame_ClassId := match MethodFrame_Method f with
        | Some m => (Method_ID m).1 | None => MethodFrame_ClassId f end;
      MethodFrame_MethodId := match MethodFrame_Method f with
        | Some m => (Method_ID m).2 | None => MethodFrame_MethodId f end;
      MethodFrame_Method := Method_canon <$> MethodFrame_Method f |}
  | F_Header f => F_Header {|
      HeaderFrame_ChannelId := HeaderFrame_ChannelId f;
      HeaderFrame_ClassId := HeaderFrame_ClassId f;
      HeaderFrame_weight := HeaderFrame_weight f;
      HeaderFrame_Size := HeaderFrame_Size f;
      HeaderFrame_Properties := Properties_canon (HeaderFrame_Properties f) |}
  | _ => frame
  end.

#[local] Arguments wseq : simpl never.

(** ** The property mask *)

Lemma hasProperty_other c flag mask prop :
  Z.land flag prop = 0 -> hasProperty (addFlag c flag mask) prop = hasProperty mask prop.
Proof.
  intros E. unfold hasProperty, addFlag. destruct c; [|done].
  by rewrite Z.land_lor_distr_l, E, Z.lor_0_r.
Qed.

Lemma hasProperty_same c flag mask :
  0 < flag -> hasProperty (addFlag c flag mask) flag = c || hasProperty mask flag.
Proof.
  intros E. unfold hasProperty, addFlag. destruct c; [|done].
  replace (Z.land (Z.lor mask flag) flag) with flag; [by apply Z.ltb_lt|].
  apply Z.bits_inj'. intros i Hi. rewrite Z.land_spec, Z.lor_spec.
  by destruct (Z.testbit mask i), (Z.testbit flag i).
Qed.

Lemma addFlag_uint16 c flag mask :
  in_uint 16 flag = true -> in_uint 16 mask = true -> in_uint 16 (addFlag c flag mask) = true.
Proof.
  rewrite !in_uint_spec. unfold addFlag. destruct c; [|done]. intros Hf Hm.
  split; [apply Z.lor_nonneg; lia|].
  assert (E : Z.lor mask flag = Z.lor mask flag mod 2 ^ 16).
  { rewrite <- Z.land_ones, Z.land_lor_distr_l, !Z.land_ones by done.
    by rewrite !Z.mod_small. }
  rewrite E. by apply Z.mod_pos_bound.
Qed.

Ltac mask_flags :=
  repeat first [ rewrite hasProperty_other by reflexivity
               | rewrite hasProperty_same by reflexivity ].

Lemma propertyMask_uint16 p : in_uint 16 (propertyMask p) = true.
Proof. unfold propertyMask. by repeat apply addFlag_uint16. Qed.

(** A property is in the mask if and only if it is set; [reserved1] never is. *)
Lemma propertyMask_flags p :
  let has := hasProperty (propertyMask p) in
  has flagContentType = nonempty (Properties_ContentType p) /\
  has flagContentEncoding = nonempty (Properties_ContentEncoding p) /\
  has flagHeaders = (0 <? Z.of_nat (table_len (Properties_Headers p))) /\
  has flagDeliveryMode = (0 <? Properties_DeliveryMode p) /\
  has flagPriority = (0 <? Properties_Priority p) /\
  has flagCorrelationId = nonempty (Properties_CorrelationId p) /\
  has flagReplyTo = nonempty (Properties_ReplyTo p) /\
  has flagExpiration = nonempty (Properties_Expiration p) /\
  has flagMessageId = nonempty (Properties_MessageId p) /\
  has flagTimestamp = negb (IsZero (Properties_Timestamp p)) /\
  has flagType = nonempty (Properties_Type p) /\
  has flagUserId = nonempty (Properties_UserId p) /\
  has flagAppId = nonempty (Properties_AppId p) /\
  has flagReserved1 = false.
Proof.
  cbv zeta. unfold propertyMask. repeat split; mask_flags; by rewrite ?orb_false_r.
Qed.

(** ** Round trip *)

Lemma rt_ifHas {A} mask prop w (m : reader A) d v v' :
  (hasProperty mask prop = true -> rt w m v /\ v = v') ->
  (hasProperty mask prop = false -> d = v') ->
  rt (wIfHas mask prop w) (ifHas mask prop m d) v'.
Proof.
  intros H1 H2. unfold wIfHas, ifHas. destruct (hasProperty mask prop).
  - destruct H1 as [? ->]; auto.
  - rewrite H2 by done. apply rt_ret.
Qed.

Lemma rt_short_flag mask prop s :
  short s = true -> hasProperty mask prop = nonempty s ->
  rt (wIfHas mask prop (writeShortstr s)) (ifHas mask prop readShortstr EmptyString) s.
Proof.
  intros Hs E. apply (rt_ifHas _ _ _ _ _ s); rewrite E.
  - split; [by apply rt_short|done].
  - by intros ->%bool_decide_eq_false%dec_stable.
Qed.

Lemma rt_octet_flag mask prop z :
  in_uint 8 z = true -> hasProperty mask prop = (0 <? z) ->
  rt (wIfHas mask prop (writeU8 z)) (ifHas mask prop readU8 0) z.
Proof.
  intros Hz E. apply (rt_ifHas _ _ _ _ _ z); rewrite E.
  - split; [by apply rt_uint|done].
  - intros ?%Z.ltb_ge. apply in_uint_spec in Hz. lia.
Qed.

Lemma rt_readTimestamp t :
  in_int 64 (unix t) = true ->
  rt (writeU64 (unix t)) readTimestamp {| unix := unix t; nsec := 0 |}.
Proof.
  intros Ht bs [= <-]. eapply reads_bind_nil; [|apply reads_ret].
  apply (readInt_reads_in 8); [lia|done].
Qed.

Lemma rt_time_flag mask prop t :
  in_int 64 (unix t) = true -> hasProperty mask prop = negb (IsZero t) ->
  rt (wIfHas mask prop (writeU64 (unix t))) (ifHas mask prop readTimestamp zeroTime)
     (if IsZero t then zeroTime else {| unix := unix t; nsec := 0 |}).
Proof.
  intros Ht E. apply (rt_ifHas _ _ _ _ _ {| unix := unix t; nsec := 0 |});
    rewrite E; destruct (IsZero t); try done.
  intros _. split; [by apply rt_readTimestamp|done].
Qed.

Lemma rt_table_flag mask prop t :
  wf_table t = true -> hasProperty mask prop = (0 <? Z.of_nat (table_len t)) ->
  rt (wIfHas mask prop (writeTable t)) (ifHas mask prop readTable None)
     (if 0 <? Z.of_nat (table_len t) then canonTable t else None).
Proof.
  intros Ht E. apply (rt_ifHas _ _ _ _ _ (canonTable t));
    rewrite E; destruct (0 <? _); try done.
  intros _. split; [by apply rt_table|done].
Qed.

Lemma rt_properties p :
  Properties_wf p = true ->
  rt (writeProperties (propertyMask p) p) (readProperties (propertyMask p))
     (Properties_canon p).
Proof.
  unfold Properties_wf. rewrite !andb_true_iff. intros Hwf. destruct_and! Hwf.
  pose proof (propertyMask_flags p) as Hm. cbv zeta in Hm. destruct_and! Hm.
  unfold writeProperties, readProperties.
  do 12 (eapply rt_bind; [first [by apply rt_short_flag | by apply rt_octet_flag
    | by apply rt_time_flag | by apply rt_table_flag]|]).
  eapply rt_bind_last; [by apply rt_short_flag|].
  unfold ifHas. replace (hasProperty (propertyMask p) flagReserved1) with false by done.
  apply rt_ret.
Qed.

(** ** The envelope *)

Lemma frame_header_bytes typ channel size :
  frame_header typ channel size
  = be_encode 1 typ ++ be_encode 2 channel ++ be_encode 4 size.
Proof. done. Qed.

Lemma frame_header_length typ channel size :
  length (frame_header typ channel size) = 7%nat.
Proof. done. Qed.

Lemma writeFrameBuffer_eq typ channel payload :
  flat (writeFrameBuffer typ channel payload) = flat (writeFrame typ channel payload).
Proof.
  unfold flat. simpl. rewrite app_nil_r. by destruct payload.
Qed.

(** Reading a frame that [writeFrame] wrote comes down to parsing its payload. *)
Lemma rt_frame typ channel payload frame :
  in_uint 8 typ = true -> in_uint 16 channel = true ->
  reads (parsePayload typ channel (uwrap 32 (Z.of_nat (length payload)))) payload frame ->
  rt (flat (writeFrame typ channel payload)) ReadFrame frame.
Proof.
  intros Ht%uwrap_small Hc%uwrap_small Hp bs <-%Ok_inj. unfold ReadFrame.
  cbn [concat]. rewrite app_nil_r.
  eapply reads_bind; [by apply ReadFull_reads|].
  rewrite frame_header_bytes. cbv zeta.
  change (take 1 _) with (be_encode 1 typ).
  change (take 2 (drop 1 _)) with (be_encode 2 channel).
  change (take 4 (drop 3 _)) with
    (be_encode 4 (uwrap 32 (Z.of_nat (length payload)))).
  rewrite !be_decode_encode.
  change (8 * Z.of_nat 1) with 8. change (8 * Z.of_nat 2) with 16.
  change (8 * Z.of_nat 4) with 32. fold (uwrap 8 typ) (uwrap 16 channel).
  rewrite Ht, Hc, (Z.mod_small (uwrap 32 _)) by (apply Z.mod_pos_bound; lia).
  eapply reads_bind; [exact Hp|].
  eapply reads_bind_nil; [by apply ReadFull_reads|]. apply reads_ret.
Qed.

Lemma Method_ID_uint16 msg :
  in_uint 16 (Method_ID msg).1 = true /\ in_uint 16 (Method_ID msg).2 = true.
Proof. by destruct msg. Qed.

Lemma rt_bind_payload (w : writer) typ channel frame :
  in_uint 8 typ = true -> in_uint 16 channel = true ->
  (forall size, rt w (parsePayload typ channel size) frame) ->
  rt (flat (payload ← w; writeFrameBuffer typ channel payload)) ReadFrame frame.
Proof.
  intros Ht Hc Hw bs. destruct w as [payload|] eqn:E; [|done]. cbn [mbind result_bind].
  rewrite writeFrameBuffer_eq. intros Hbs.
  eapply rt_frame; [done..| |exact Hbs]. by apply Hw.
Qed.

Lemma rt_MethodFrame f :
  Frame_wf (F_Method f) = true -> rt (flat (MethodFrame_Write f)) ReadFrame (Frame_canon (F_Method f)).
Proof.
  unfold Frame_wf, MethodFrame_Write. destruct f as [ch c m [msg|]]; simpl;
    [|by rewrite andb_false_r].
  rewrite andb_true_iff. intros [Hch Hmsg].
  destruct (Method_ID_uint16 msg) as [H1 H2], (Method_ID msg) as [c' m'] eqn:E; simpl in *.
  apply rt_bind_payload; [done..|]. intros size.
  change (parsePayload _ _ _) with (ParseMethodFrame ch size). unfold ParseMethodFrame.
  eapply rt_bind; [by apply rt_uint|]. eapply rt_bind; [by apply rt_uint|].
  eapply rt_bind_last; [|apply rt_ret].
  pose proof (Method_round_trip msg Hmsg) as R. by rewrite E in R.
Qed.

Lemma rt_HeaderFrame f :
  Frame_wf (F_Header f) = true -> rt (flat (HeaderFrame_Write f)) ReadFrame (Frame_canon (F_Header f)).
Proof.
  unfold Frame_wf, HeaderFrame_Write. destruct f as [ch c w sz p]; simpl.
  rewrite !andb_true_iff. intros Hwf. destruct_and! Hwf.
  apply rt_bind_payload; [done..|]. intros size.
  change (parsePayload _ _ _) with (parseHeaderFrame ch size). unfold parseHeaderFrame.
  do 3 (eapply rt_bind; [by apply rt_uint|]).
  eapply rt_bind; [apply rt_uint, propertyMask_uint16|].
  eapply rt_bind_last; [by apply rt_properties|apply rt_ret].
Qed.

Lemma rt_BodyFrame f :
  Frame_wf (F_Body f) = true -> rt (flat (BodyFrame_Write f)) ReadFrame (F_Body f).
Proof.
  unfold Frame_wf, BodyFrame_Write. destruct f as [ch body]; simpl.
  rewrite andb_true_iff. intros [Hch Hlen].
  apply (rt_frame frameBody ch body); [done..|]. rewrite uwrap_small by done.
  change (parsePayload _ _ _) with (parseBodyFrame ch (Z.of_nat (length body))).
  eapply reads_bind_nil; [by apply ReadFull_reads|apply reads_ret].
Qed.

Lemma rt_HeartbeatFrame f :
  Frame_wf (F_Heartbeat f) = true -> rt (flat (HeartbeatFrame_Write f)) ReadFrame (F_Heartbeat f).
Proof.
  unfold Frame_wf. destruct f as [ch]; simpl. rewrite andb_true_r. intros Hch.
  apply (rt_frame frameHeartbeat ch []); [done..|].
  change (parsePayload _ _ _)
    with (mret (M := reader) (F_Heartbeat {| HeartbeatFrame_ChannelId := ch |})).
  apply reads_ret.
Qed.

(** ** Every read ends, and takes a prefix of the stream *)

Lemma lossy_ifHas {A} flags prop (m : reader A) d : lossy m -> lossy (ifHas flags prop m d).
Proof. intros. unfold ifHas. case_match; auto with wire. Qed.

Lemma settles_ifHas {A} n flags prop (m : reader A) d :
  settles n m -> settles n (ifHas flags prop m d).
Proof. intros. unfold ifHas. case_match; auto with wire. Qed.

Lemma lossy_readTimestamp : lossy readTimestamp.
Proof. unfold readTimestamp. auto with wire. Qed.

Lemma settles_readTimestamp n : settles n readTimestamp.
Proof. unfold readTimestamp. auto with wire. Qed.

#[export] Hint Resolve lossy_ifHas settles_ifHas lossy_readTimestamp
  settles_readTimestamp : wire.

Lemma lossy_readProperties flags : lossy (readProperties flags).
Proof. unfold readProperties. repeat (apply lossy_bind; [auto with wire|intros ?]). auto with wire. Qed.

Lemma settles_readProperties n flags : settles n (readProperties flags).
Proof.
  unfold readProperties.
  repeat (apply settles_bind; [auto with wire|auto with wire|intros ?]). auto with wire.
Qed.

#[export] Hint Resolve lossy_readProperties settles_readProperties : wire.

Lemma lossy_parsePayload typ channel size : lossy (parsePayload typ channel size).
Proof.
  unfold parsePayload, ParseMethodFrame, parseHeaderFrame, parseBodyFrame, parseHeartbeatFrame.
  repeat case_match; auto 12 with wire.
Qed.

Lemma settles_parsePayload n typ channel size : settles n (parsePayload typ channel size).
Proof.
  unfold parsePayload, ParseMethodFrame, parseHeaderFrame, parseBodyFrame, parseHeartbeatFrame.
  repeat case_match; auto 12 with wire.
Qed.

#[export] Hint Resolve lossy_parsePayload settles_parsePayload : wire.

Lemma lossy_ReadFrame : lossy ReadFrame.
Proof.
  unfold ReadFrame. do 3 (apply lossy_bind; [auto with wire|intros ?]).
  case_match; auto with wire.
Qed.

Lemma settles_ReadFrame n : settles n ReadFrame.
Proof.
  unfold ReadFrame. do 3 (apply settles_bind; [auto with wire..|intros ?]).
  case_match; auto with wire.
Qed.

(** ** What the frame codec guarantees *)

Lemma rt_Frame frame :
  Frame_wf frame = true -> rt (Frame_Write frame) ReadFrame (Frame_canon frame).
Proof.
  destruct frame as [f|f|f|f];
    [apply rt_MethodFrame|apply rt_HeaderFrame|apply rt_BodyFrame|apply rt_HeartbeatFrame].
Qed.

Definition frame_type (frame : Frame) : Z :=
  match frame with
  | F_Method _ => frameMethod
  | F_Header _ => frameHeader
  | F_Body _ => frameBody
  | F_Heartbeat _ => frameHeartbeat
  end.

Lemma bind_ok {A B} (m : reader A) (k : A -> reader B) s v s' :
  (m ≫= k) s = (Ok v, s') -> exists a s1, m s = (Ok a, s1) /\ k a s1 = (Ok v, s').
Proof.
  unfold mbind, reader_bind. destruct (m s) as [[a|e] s1]; [|done]. eauto.
Qed.

Ltac invert_reads :=
  repeat match goal with
  | H : (_ ≫= _) _ = (Ok _, _) |- _ => apply bind_ok in H as (? & ? & ? & H)
  | H : mret _ _ = (Ok _, _) |- _ => unfold mret, reader_ret in H; simplify_eq
  end.

Lemma parsePayload_ok typ channel size s frame s' :
  parsePayload typ channel size s = (Ok frame, s') ->
  frame_type frame = typ /\ Channel frame = channel /\
  match frame with
  | F_Body f => data s = BodyFrame_Body f ++ data s' /\
                (0 <= size -> Z.of_nat (length (BodyFrame_Body f)) = size)
  | F_Heartbeat f => size <= 0 /\ s' = s
  | _ => True
  end.
Proof.
  unfold parsePayload, ParseMethodFrame, parseHeaderFrame, parseBodyFrame, parseHeartbeatFrame.
  repeat (case_match eqn:E; [apply Z.eqb_eq in E as ->|clear E]); [..|done].
  - intros H. by invert_reads.
  - intros H. by invert_reads.
  - intros H. invert_reads. simpl.
    by match goal with
    | H : ReadFull _ _ = _ |- _ => apply ReadFull_length in H as (? & ? & _)
    end.
  - destruct (0 <? size) eqn:Hs; [done|]. intros [= <- <-]. apply Z.ltb_ge in Hs. done.
Qed.

Lemma ReadFrame_split s frame s' :
  ReadFrame s = (Ok frame, s') ->
  exists hd payload s1 s2,
    data s = hd ++ payload ++ byte_of_Z frameEnd :: data s' /\
    length hd = 7%nat /\ data s1 = payload ++ data s2 /\
    data s2 = byte_of_Z frameEnd :: data s' /\
    parsePayload (be_decode (take 1 hd)) (be_decode (take 2 (drop 1 hd)))
      (be_decode (take 4 (drop 3 hd))) s1 = (Ok frame, s2).
Proof.
  intros H. unfold ReadFrame in H. apply bind_ok in H as (hd & s1 & H1 & H). cbv zeta in H.
  apply bind_ok in H as (fr & s2 & H2 & H). apply bind_ok in H as (e & s3 & H3 & H).
  destruct (be_decode e =? frameEnd) eqn:He; [|done]. injection H as [= <- <-].
  apply ReadFull_length in H1 as (L1 & D1 & _), H3 as (L3 & D3 & _).
  destruct (lossy_parsePayload (be_decode (take 1 hd)) (be_decode (take 2 (drop 1 hd)))
    (be_decode (take 4 (drop 3 hd))) s1) as [[pre Hpre] _].
  rewrite H2 in Hpre. simpl in Hpre.
  destruct e as [|b [|? ?]]; [simpl in L3; lia| |simpl in L3; lia].
  apply Z.eqb_eq in He. unfold be_decode in He. cbn [fold_left] in He.
  rewrite shift_in_byte in He.
  assert (Eb : b = byte_of_Z frameEnd)
    by (rewrite <- (byte_of_Z_of_byte b); f_equal; lia).
  subst b. exists hd, pre, s1, s2. split_and!; [by rewrite D1, Hpre, D3|lia|done..].
Qed.

(** C1: reading back what [Frame_Write] wrote for a well-formed frame of any of
    the four types gives its canonical form (class and method numbers from the
    message, content in frames of its own, [int]s as [int32], no [reserved1])
    and leaves the stream exactly after the frame, whatever follows. *)
Theorem frame_round_trip frame bs rest f :
  Frame_wf frame = true -> Frame_Write frame = Ok bs ->
  ReadFrame (Stream (bs ++ rest) f) = (Ok (Frame_canon frame), Stream rest f).
Proof. intros Hwf Hbs. by apply rt_Frame. Qed.

(** C22: [ReadFrame] ends on every stream, and whatever the outcome it has only
    taken bytes off the front of the stream and the stream still ends the same
    way: no input makes the parser loop. *)
Theorem ReadFrame_total s :
  fin s <> OutOfFuel ->
  (ReadFrame s).1 <> Err OutOfFuel /\
  data (ReadFrame s).2 `suffix_of` data s /\ fin (ReadFrame s).2 = fin s.
Proof.
  intros Hf. split.
  - apply (settles_ReadFrame (S (length (data s)))); [lia|done].
  - apply lossy_ReadFrame.
Qed.

(** A frame that [ReadFrame] returns stood in the stream as seven header
    bytes, a payload and the end octet; its type and channel are those of the
    header, a body frame is the payload with the declared size, and a heartbeat
    declared no payload. *)
Theorem ReadFrame_envelope s frame s' :
  ReadFrame s = (Ok frame, s') ->
  exists hd payload,
    data s = hd ++ payload ++ byte_of_Z frameEnd :: data s' /\ length hd = 7%nat /\
    frame_type frame = be_decode (take 1 hd) /\
    Channel frame = be_decode (take 2 (drop 1 hd)) /\
    let size := be_decode (take 4 (drop 3 hd)) in
    match frame with
    | F_Body f => BodyFrame_Body f = payload /\ (0 <= size -> Z.of_nat (length payload) = size)
    | F_Heartbeat _ => payload = [] /\ size <= 0
    | _ => True
    end.
Proof.
  intros (hd & payload & s1 & s2 & D & L & D1 & D2 & P)%ReadFrame_split.
  apply parsePayload_ok in P as (T & C & B). exists hd, payload.
  split_and!; [done..|]. cbv zeta. destruct frame as [f|f|f|f]; [done|done| |].
  - destruct B as [B1 B2]. rewrite D1 in B1. apply app_inv_tail in B1 as ->. done.
  - destruct B as [B1 ->]. split; [|done].
    apply (f_equal length) in D1. rewrite length_app in D1.
    destruct payload; [done|simpl in D1; lia].
Qed.

(** ** Concrete frames *)

Definition sampleHeader : Frame := F_Header {|
  HeaderFrame_ChannelId := 3; HeaderFrame_ClassId := 60; HeaderFrame_weight := 0;
  HeaderFrame_Size := 12;
  HeaderFrame_Properties := {|
    Properties_ContentType := "text/plain"; Properties_ContentEncoding := EmptyString;
    Properties_Headers := sampleTable; Properties_DeliveryMode := 2; Properties_Priority := 9;
    Properties_CorrelationId := "id"; Properties_ReplyTo := EmptyString;
    Properties_Expiration := "1000"; Properties_MessageId := EmptyString;
    Properties_Timestamp := {| unix := 1700000000; nsec := 7 |}; Properties_Type := EmptyString;
    Properties_UserId := EmptyString; Properties_AppId := "app";
    Properties_reserved1 := EmptyString |} |}.

Lemma frame_round_trip_witness :
  exists bs, Frame_Write sampleHeader = Ok bs /\
    ReadFrame (Stream (bs ++ bytes_of "rest") EOF)
      = (Ok (Frame_canon sampleHeader), Stream (bytes_of "rest") EOF).
Proof.
  eexists. split; [vm_compute; reflexivity|].
  apply (frame_round_trip sampleHeader); vm_compute; reflexivity.
Defined.

(** A truncated frame of the client. *)
Lemma ReadFrame_total_witness :
  let s := Stream [x01; x00; x05; x00; x00; x00; x08; x00; x0a] EOF in
  (ReadFrame s).1 <> Err OutOfFuel /\
  data (ReadFrame s).2 `suffix_of` data s /\ fin (ReadFrame s).2 = fin s.
Proof. apply (ReadFrame_total (Stream _ EOF)). discriminate. Defined.

(** A body frame of two bytes on channel 1. *)
Lemma ReadFrame_envelope_witness :
  let s := Stream [x03; x00; x01; x00; x00; x00; x02; x68; x69; xce; x08] EOF in
  exists hd payload,
    data s = hd ++ payload ++ byte_of_Z frameEnd :: [x08] /\ length hd = 7%nat /\
    3 = be_decode (take 1 hd) /\ 1 = be_decode (take 2 (drop 1 hd)) /\
    bytes_of "hi" = payload /\
    (0 <= be_decode (take 4 (drop 3 hd)) ->
     Z.of_nat (length payload) = be_decode (take 4 (drop 3 hd))).
Proof.
  apply (ReadFrame_envelope (Stream _ EOF)
    (F_Body {| BodyFrame_ChannelId := 1; BodyFrame_Body := bytes_of "hi" |})
    (Stream [x08] EOF)).
  vm_compute; reflexivity.
Defined.
