(* ===== verification/Auth.v ===== *)
(** * Authentication responses

    [amqp091/auth.go]: the user and password in the [Response] of a
    [Connection.StartOk], for the mechanisms PLAIN and AMQPLAIN. *)

From Stdlib Require Import Strings.Byte Strings.Ascii.
From S2P Require Import Prelude Bytes Fields.

(** The [error] of both functions; [AuthPanic] is a run-time panic of [readField]. *)
Inductive auth_error : Type := InvalidResponse | AuthPanic.

(** ** PLAIN *)

Definition NUL : ascii := Ascii.ascii_of_nat 0.

(** [strings.Cut] at the first [sep]. *)
Fixpoint cut (sep : ascii) (s : string) : option (string * string) :=
  match s with
  | EmptyString => None
  | String c s' =>
      if Ascii.eqb c sep then Some (EmptyString, s')
      else p ← cut sep s'; Some (String c p.1, p.2)
  end.

(** [strings.SplitN(s, sep, n)] for a separator of one byte and [n > 0]: at most
    [n] parts, the last one is the rest unsplit. *)
Fixpoint SplitN (s : string) (sep : ascii) (n : nat) : list string :=
  match n with
  | O => []
  | S O => [s]
  | S n' =>
      match cut sep s with
      | None => [s]
      | Some (p, s') => p :: SplitN s' sep n'
      end
  end.

Definition ParsePLAINAuthResponse (s : string) : result auth_error (string * string) :=
  match SplitN s NUL 3 with
  | [_; user; password] => Ok (user, password)
  | _ => Err InvalidResponse
  end.

(** ** AMQPLAIN *)

(** One turn of the loop: the assignments to [user] and [password]. *)
Definition amqplain_assign (k : string) (v : field) (up : string * string) : string * string :=
  let user := if decide (k = "LOGIN"%string)
              then match v with VString u => u | _ => up.1 end else up.1 in
  let password := if decide (k = "PASSWORD"%string)
                  then match v with VString p => p | _ => up.2 end else up.2 in
  (user, password).

(** The loop: any error of the two reads breaks it. *)
Fixpoint amqplainLoop (fuel : nat) (up : string * string) (b : stream)
  : result auth_error (string * string) :=
  match fuel with
  | O => Ok up
  | S fuel' =>
      match readShortstr b with
      | (Err _, _) => Ok up
      | (Ok k, b1) =>
          match readField b1 with
          | (Err Panic, _) => Err AuthPanic
          | (Err _, _) => Ok up
          | (Ok v, b2) => amqplainLoop fuel' (amqplain_assign k v up) b2
          end
      end
  end.

(** Each turn takes at least two bytes of the buffer. *)
Definition ParseAMQPLAINAuthResponse (s : string) : result auth_error (string * string) :=
  let b := Stream (bytes_of s) EOF in
  up ← amqplainLoop (S (length (bytes_of s))) (EmptyString, EmptyString) b;
  if decide (up.1 = EmptyString \/ up.2 = EmptyString) then Err InvalidResponse else Ok up.

(** ** Proofs *)

Fixpoint has_char (c : ascii) (s : string) : bool :=
  match s with
  | EmptyString => false
  | String c' s' => Ascii.eqb c' c || has_char c s'
  end.

Lemma cut_spec sep s p s' :
  cut sep s = Some (p, s') <-> s = p +:+ String sep s' /\ has_char sep p = false.
Proof.
  revert p; induction s as [|c s IH]; intros p; simpl.
  - split; [done|]. by intros [H _]; destruct p.
  - destruct (Ascii.eqb_spec c sep) as [->|Hc].
    + split; [by intros [= <- <-]|]. destruct p as [|c' p]; simpl.
      * by intros [[= ->] _].
      * intros [[= <- _] H]. by rewrite Ascii.eqb_refl in H.
    + destruct (cut sep s) as [[q r]|] eqn:E; simpl.
      * destruct (IH q) as [H1 _]. split.
        { intros [= <- <-]. destruct (proj1 (IH q) eq_refl) as [-> Hq]. simpl.
          by rewrite (proj2 (Ascii.eqb_neq c sep) Hc), Hq. }
        { destruct p as [|c' p]; simpl; [by intros [[= -> _] _]|].
          intros [[= <- E'] [_ Hp]%orb_false_iff].
          assert (Some (q, r) = Some (p, s')) as [= -> ->] by (by apply IH). done. }
      * split; [done|]. destruct p as [|c' p]; simpl; [by intros [[= -> _] _]|].
        intros [[= <- E'] [_ Hp]%orb_false_iff].
        assert (None = Some (p, s')) by (by apply IH). done.
Qed.

(** A PLAIN response is accepted if and only if it holds two NULs, and then
    the user is what stands between the first two of them and the password is
    everything after: the first part is ignored and a password may itself hold
    NULs. *)
Theorem ParsePLAIN_iff s user password :
  ParsePLAINAuthResponse s = Ok (user, password) <->
  exists authzid, s = authzid +:+ String NUL (user +:+ String NUL password) /\
                  has_char NUL authzid = false /\ has_char NUL user = false.
Proof.
  unfold ParsePLAINAuthResponse. cbn [SplitN].
  destruct (cut NUL s) as [[z s1]|] eqn:E1.
  - apply cut_spec in E1 as [-> Hz]. destruct (cut NUL s1) as [[u p]|] eqn:E2.
    + pose proof (proj1 (cut_spec _ _ _ _) E2) as [-> Hu]. split; [intros [= <- <-]; eauto|].
      intros (z' & E & Hz' & Hu').
      assert (Some (z, u +:+ String NUL p) = Some (z', user +:+ String NUL password)) as [= -> E'].
      { rewrite <- (proj2 (cut_spec NUL _ z' _) (conj E Hz')). symmetry. by apply cut_spec. }
      assert (Some (u, p) = Some (user, password)) as [= -> ->]; [|done].
      rewrite <- (proj2 (cut_spec NUL _ user _) (conj E' Hu')). symmetry. by apply cut_spec.
    + split; [done|]. intros (z' & E & Hz' & Hu').
      assert (Some (z, s1) = Some (z', user +:+ String NUL password)) as [= -> ->].
      { rewrite <- (proj2 (cut_spec NUL _ z' _) (conj E Hz')). symmetry. by apply cut_spec. }
      by rewrite (proj2 (cut_spec _ _ user password)) in E2.
  - split; [done|]. intros (z & E & Hz & _).
    by rewrite (proj2 (cut_spec _ _ _ _) (conj E Hz)) in E1.
Qed.

(** What the loop makes of a list of entries: the last string under a key. *)
Definition amqplain_fold (t : entries) (up : string * string) : string * string :=
  fold_left (fun up kv => amqplain_assign kv.1 (canonField kv.2) up) t up.

Lemma rt_entry kv :
  wf_entry kv = true -> entry_size kv < 2 ^ 31 ->
  rt (writeEntry kv) (k ← readShortstr; v ← readField; mret (k, v))
     (kv.1, canonField kv.2).
Proof.
  intros [Hk Hv]%andb_true_iff Hs. unfold entry_size in Hs. pose proof (slen_nonneg kv.1).
  eapply rt_bind; [by apply rt_short|].
  eapply rt_bind_last; [apply rt_field; [done|lia]|apply rt_ret].
Qed.

Lemma amqplainLoop_entries t bs fuel up :
  forallb wf_entry t = true -> Forall (fun kv => entry_size kv < 2 ^ 31) t ->
  wconcat (map writeEntry t) = Ok bs -> (length t < fuel)%nat ->
  amqplainLoop fuel up (Stream bs EOF) = Ok (amqplain_fold t up).
Proof.
  revert bs fuel up. induction t as [|kv t IH]; intros bs fuel up Hwf Hs E Hf.
  - injection E as [= <-]. by destruct fuel.
  - destruct fuel as [|fuel]; [lia|]. cbn [forallb] in Hwf. apply andb_true_iff in Hwf as [H1 H2].
    inversion Hs as [|? ? Hs1 Hs2]; subst.
    change (writeEntry kv +>+ wconcat (map writeEntry t) = Ok bs) in E.
    apply wseq_ok in E as (b1 & b2 & E1 & E2 & ->).
    pose proof (rt_entry kv H1 Hs1 b1 E1 b2 EOF) as R.
    unfold mbind, reader_bind, mret, reader_ret in R. cbn [amqplainLoop].
    destruct (readShortstr _) as [[k|e] b']; [|done].
    destruct (readField b') as [[v|e] b'']; [|done]. injection R as -> -> ->.
    rewrite (IH b2) by (done || simpl in Hf; lia). done.
Qed.

Lemma amqplain_fold_get t up :
  NoDup (map fst t) ->
  amqplain_fold t up =
    (match tget "LOGIN" t with Some (VString u) => u | _ => up.1 end,
     match tget "PASSWORD" t with Some (VString p) => p | _ => up.2 end).
Proof.
  revert up. induction t as [|[k v] t IH]; intros up Hd; [by destruct up|].
  inversion Hd as [|? ? Hk Hd']; subst. cbn [amqplain_fold fold_left].
  assert (Hn : forall k', k = k' -> tget k' t = None).
  { intros k' <-. clear -Hk. induction t as [|[k1 v1] t IH]; [done|]. simpl in *.
    apply not_elem_of_cons in Hk as [? Hk]. rewrite decide_False by done. auto. }
  fold (amqplain_fold t (amqplain_assign k (canonField v) up)).
  rewrite IH by done. unfold amqplain_assign. cbn [tget].
  cbn [fst snd]. destruct (decide (k = "LOGIN")) as [->|];
    [rewrite (Hn "LOGIN"%string) by done; by destruct v|].
  destruct (decide (k = "PASSWORD")) as [->|]; [|done].
  rewrite (Hn "PASSWORD"%string) by done. by destruct v.
Qed.

Lemma amqplainLoop_total fuel up b :
  (length (data b) < fuel)%nat -> fin b <> OutOfFuel ->
  forall fuel', (fuel <= fuel')%nat -> amqplainLoop fuel' up b = amqplainLoop fuel up b.
Proof.
  revert up b. induction fuel as [|fuel IH]; intros up b Hb Hf fuel' Hle; [lia|].
  destruct fuel' as [|fuel']; [lia|]. cbn [amqplainLoop].
  pose proof (eats_readShortstr b) as He.
  destruct (lossy_readShortstr b) as [Hl%suffix_length Hl2].
  destruct (readShortstr b) as [[k|e] b1]; [|done]. specialize (He k eq_refl). simpl in *.
  destruct (lossy_readField_fuel (S (length (data b1))) b1) as [Hm%suffix_length Hm2].
  change (readField_fuel (S (length (data b1))) b1) with (readField b1) in *.
  destruct (readField b1) as [[v|e] b2]; [|done]. simpl in *.
  apply IH; [lia|congruence|lia].
Qed.

(** An AMQPLAIN response made of the entries of a table with string values
    for [LOGIN] and [PASSWORD], in any order and among other entries, is parsed to
    these values; it is refused when one of them is missing, empty or not a
    string. *)
Theorem ParseAMQPLAIN_entries t bs :
  wf_entries t = true -> entries_size t < 2 ^ 31 ->
  wconcat (map writeEntry t) = Ok bs ->
  ParseAMQPLAINAuthResponse (string_of bs) =
    match tget "LOGIN" t, tget "PASSWORD" t with
    | Some (VString u), Some (VString p) =>
        if decide (u = EmptyString \/ p = EmptyString) then Err InvalidResponse else Ok (u, p)
    | _, _ => Err InvalidResponse
    end.
Proof.
  intros [Hd%bool_decide_eq_true Hwf]%andb_true_iff Hs E.
  assert (Hl : (length t <= length bs)%nat /\ Forall (fun kv => entry_size kv < 2 ^ 31) t).
  { clear Hd Hwf. revert bs E Hs. induction t as [|[k v] t IH]; intros bs E Hs.
    - injection E as [= <-]. by split; [simpl; lia|].
    - rewrite entries_size_cons in Hs. pose proof (entry_size_pos (k, v)) as Hp.
      pose proof (entries_size_nonneg t). unfold entry_size in *. cbn [fst snd] in *.
      change (writeEntry (k, v) +>+ wconcat (map writeEntry t) = Ok bs) in E.
      apply wseq_ok in E as (b1 & b2 & E1 & E2 & ->).
      destruct (IH b2 E2 ltac:(lia)) as [IH1 IH2].
      apply wseq_ok in E1 as (c1 & c2 & E1 & _ & ->).
      apply wseq_ok in E1 as (d1 & d2 & [= <-] & _ & ->).
      rewrite !length_app, be_encode_length. simpl.
      split; [lia|]. constructor; [unfold entry_size; simpl; lia|done]. }
  unfold ParseAMQPLAINAuthResponse. rewrite bytes_of_string_of.
  rewrite (amqplainLoop_entries t) by (done || lia || apply Hl).
  rewrite amqplain_fold_get by done. simpl.
  destruct (tget "LOGIN" t) as [u|]; [destruct u|]; try (case_decide; [done|tauto]);
  destruct (tget "PASSWORD" t) as [p|]; [destruct p|]; try (case_decide; [done|tauto]);
  done.
Qed.

Lemma ParseAMQPLAIN_entries_witness :
  exists bs, wconcat (map writeEntry [("PASSWORD", VString "secret"); ("LOGIN", VString "guest")]%string)
      = Ok bs /\
    ParseAMQPLAINAuthResponse (string_of bs) = Ok ("guest", "secret")%string.
Proof.
  eexists. split; [vm_compute; reflexivity|].
  apply (ParseAMQPLAIN_entries [("PASSWORD", VString "secret"); ("LOGIN", VString "guest")]%string);
    vm_compute; reflexivity.
Defined.
