(* ===== verification/Pattern.v ===== *)
(** * Routing key patterns

    [pattern/match.go]: does a routing key match a binding pattern with the
    wildcards [*] (one word), [#] (any number of words) and [%] (any characters
    within a word)? Both recursive functions work on indices into their arguments and
    backtrack; [glob] below says without backtracking what they decide. *)

From Stdlib Require Import Strings.Byte.
From S2P Require Import Prelude Bytes Fields.

(** ** Translation *)

Definition dot : byte := "."%byte.
Definition percent : byte := "%"%byte.

(** [strings.Split(s, sep)] for a separator of one byte, on the bytes of [s]:
    there is always at least one part. *)
Fixpoint split_bytes (sep : byte) (bs : list byte) : list byte * list (list byte) :=
  match bs with
  | [] => ([], [])
  | b :: bs' =>
      let (w, ws) := split_bytes sep bs' in
      if decide (b = sep) then ([], w :: ws) else (b :: w, ws)
  end.

Definition Split (s : string) (sep : byte) : list string :=
  let (w, ws) := split_bytes sep (bytes_of s) in string_of w :: map string_of ws.

(** [strings.Contains(s, sub)] for one byte. *)
Definition Contains (s : string) (b : byte) : bool := existsb (fun c => bool_decide (c = b)) (bytes_of s).

(** The loops of lines 37-41 and 99-103: is everything from [i] on a [w]? *)
Definition allFrom {A} `{EqDecision A} (w : A) (i : nat) (l : list A) : bool :=
  forallb (fun x => bool_decide (x = w)) (drop i l).

(** The recursion of [matchPercentPattern]; [None] when the fuel runs out. *)
Fixpoint matchPercentPattern (fuel : nat) (text pattern : string) (textIdx patternIdx : nat)
  : option bool :=
  match fuel with
  | O => None
  | S fuel' =>
      match bytes_of pattern !! patternIdx with
      | None => Some (length (bytes_of text) <=? textIdx)%nat
      | Some pc =>
          match bytes_of text !! textIdx with
          | None => Some (allFrom percent patternIdx (bytes_of pattern))
          | Some tc =>
              if decide (pc = percent) then
                b ← matchPercentPattern fuel' text pattern textIdx (S patternIdx);
                if b : bool then Some true
                else matchPercentPattern fuel' text pattern (S textIdx) patternIdx
              else if decide (pc = tc) then
                matchPercentPattern fuel' text pattern (S textIdx) (S patternIdx)
              else Some false
          end
      end
  end.

Definition matchTokenWithPercent (token pattern : string) : bool :=
  default false (matchPercentPattern
    (S (length (bytes_of token) + length (bytes_of pattern))) token pattern 0 0).

Fixpoint matchTokens (fuel : nat) (routingTokens bindingTokens : list string)
  (rIdx bIdx : nat) : option bool :=
  match fuel with
  | O => None
  | S fuel' =>
      match bindingTokens !! bIdx with
      | None => Some (length routingTokens <=? rIdx)%nat
      | Some bToken =>
          match routingTokens !! rIdx with
          | None => Some (allFrom "#"%string bIdx bindingTokens)
          | Some rToken =>
              if decide (bToken = "#"%string) then
                b ← matchTokens fuel' routingTokens bindingTokens rIdx (S bIdx);
                if b : bool then Some true
                else matchTokens fuel' routingTokens bindingTokens (S rIdx) bIdx
              else if decide (bToken = "*"%string) then
                matchTokens fuel' routingTokens bindingTokens (S rIdx) (S bIdx)
              else if Contains bToken percent then
                if matchTokenWithPercent rToken bToken then
                  matchTokens fuel' routingTokens bindingTokens (S rIdx) (S bIdx)
                else Some false
              else if decide (rToken = bToken) then
                matchTokens fuel' routingTokens bindingTokens (S rIdx) (S bIdx)
              else Some false
          end
      end
  end.

Definition Match (routingKey bindingPattern : string) : bool :=
  let routingTokens := Split routingKey dot in
  let bindingTokens := Split bindingPattern dot in
  if (1 <? length bindingTokens)%nat && (length routingTokens =? 1)%nat
     && negb (Contains routingKey dot)
  then false
  else default false (matchTokens (S (length routingTokens + length bindingTokens))
                        routingTokens bindingTokens 0 0).

(** ** What a pattern means

    A text matches a pattern when it can be cut into as many segments as the
    pattern has items, each segment matching its item: anything for an item that is
    a star, a single fitting element for any other. *)

Section glob.
Context {A P : Type} (star : P -> bool) (one : P -> A -> bool).

Definition fits (seg : list A) (p : P) : Prop :=
  star p = true \/ exists a, seg = [a] /\ star p = false /\ one p a = true.

Definition glob (text : list A) (pattern : list P) : Prop :=
  exists segs, concat segs = text /\ Forall2 fits segs pattern.

Lemma glob_nil text : glob text [] <-> text = [].
Proof.
  split.
  - intros (segs & <- & H). by inversion H.
  - intros ->. exists []. split; [done|constructor].
Qed.

Lemma glob_end pattern : glob [] pattern <-> forallb star pattern = true.
Proof.
  split.
  - intros (segs & E & H). revert E. induction H as [|seg p segs ps Hf H IH]; [done|].
    simpl. intros [-> E]%app_eq_nil. rewrite IH by done.
    by destruct Hf as [->|(a & ? & _)].
  - induction pattern as [|p ps IH]; simpl; intros H.
    + exists []. split; [done|constructor].
    + apply andb_true_iff in H as [Hp H]. destruct (IH H) as (segs & E & Hs).
      exists ([] :: segs). split; [done|]. constructor; [by left|done].
Qed.

Lemma glob_star p a text pattern :
  star p = true ->
  glob (a :: text) (p :: pattern) <-> glob (a :: text) pattern \/ glob text (p :: pattern).
Proof.
  intros Hp. split.
  - intros (segs & E & H). inversion H as [|seg ? segs' ? Hf Hs]; subst.
    destruct seg as [|b seg]; simpl in E.
    + left. by exists segs'.
    + injection E as [= -> E]. right. exists (seg :: segs').
      split; [done|]. constructor; [by left|done].
  - intros [(segs & E & H)|(segs & E & H)].
    + exists ([] :: segs). split; [done|]. constructor; [by left|done].
    + inversion H as [|seg ? segs' ? Hf Hs]; subst. exists ((a :: seg) :: segs').
      split; [done|]. constructor; [by left|done].
Qed.

Lemma glob_one p a text pattern :
  star p = false ->
  glob (a :: text) (p :: pattern) <-> one p a = true /\ glob text pattern.
Proof.
  intros Hp. split.
  - intros (segs & E & H). inversion H as [|seg ? segs' ? Hf Hs]; subst.
    destruct Hf as [?|(b & -> & _ & Hb)]; [congruence|].
    injection E as [= -> E]. split; [done|]. by exists segs'.
  - intros [Ha (segs & E & H)]. exists ([a] :: segs).
    split; [simpl; by f_equal|]. constructor; [right; eauto|done].
Qed.

(** A pattern without stars fixes the length of the text. *)
Lemma glob_no_star text pattern :
  forallb (fun p => negb (star p)) pattern = true ->
  glob text pattern <-> Forall2 (fun a p => one p a = true) text pattern.
Proof.
  revert text. induction pattern as [|p ps IH]; intros text H.
  - rewrite glob_nil. split; [intros ->; constructor|by inversion 1].
  - simpl in H. apply andb_true_iff in H as [Hp%negb_true_iff H].
    destruct text as [|a text].
    + rewrite glob_end. simpl. rewrite Hp. split; [done|by inversion 1].
    + rewrite glob_one, IH by done. split; [by intros []; constructor|by inversion 1].
Qed.
End glob.

(** [%] in a word is any substring, any other character is itself. *)
Definition percent_glob (token pattern : string) : Prop :=
  glob (fun c => bool_decide (c = percent)) (fun c b => bool_decide (c = b))
       (bytes_of token) (bytes_of pattern).

(** What an item of a pattern other than [#] admits as a word. *)
Definition word_match (bToken rToken : string) : bool :=
  if decide (bToken = "*"%string) then true
  else if Contains bToken percent then matchTokenWithPercent rToken bToken
  else bool_decide (rToken = bToken).

Definition is_hash (bToken : string) : bool := bool_decide (bToken = "#"%string).

Definition topic_glob (routingTokens bindingTokens : list string) : Prop :=
  glob is_hash word_match routingTokens bindingTokens.

(** ** The recursions decide [glob] *)

(** [decides r P]: the computation [r] ends, and answers the question [P]. *)
Definition decides (r : option bool) (P : Prop) : Prop :=
  exists b, r = Some b /\ (b = true <-> P).

Lemma decides_some b P : (b = true <-> P) -> decides (Some b) P.
Proof. intros H. by exists b. Qed.

Lemma decides_iff r P Q : (P <-> Q) -> decides r P -> decides r Q.
Proof. intros HPQ (b & -> & Hb). exists b. by rewrite Hb, HPQ. Qed.

#[export] Instance decides_proper : Proper (eq ==> iff ==> iff) decides.
Proof.
  intros r _ <- P Q HPQ. by split; apply decides_iff.
Qed.

Lemma decides_or r1 r2 P Q :
  decides r1 P -> decides r2 Q ->
  decides (b ← r1; if b : bool then Some true else r2) (P \/ Q).
Proof.
  intros (b1 & -> & H1) (b2 & -> & H2). simpl. destruct b1.
  - apply decides_some. tauto.
  - exists b2. split; [done|]. rewrite <- H1, <- H2. split; [auto|by intros [|]].
Qed.

Lemma decides_default r P : decides r P -> default false r = true <-> P.
Proof. by intros (b & -> & Hb). Qed.

Lemma drop_lookup {A} (l : list A) i x : l !! i = Some x -> drop i l = x :: drop (S i) l.
Proof. intros H. by erewrite drop_S. Qed.

Lemma drop_none {A} (l : list A) i : l !! i = None -> drop i l = [].
Proof. intros H%lookup_ge_None_1. by apply drop_ge. Qed.

Lemma drop_nil_iff {A} (l : list A) i : (length l <=? i)%nat = true <-> drop i l = [].
Proof.
  rewrite Nat.leb_le. split; [apply drop_ge|].
  intros H%(f_equal length). rewrite length_drop in H. simpl in H. lia.
Qed.

Lemma lookup_bound {A} (l : list A) i x : l !! i = Some x -> (i < length l)%nat.
Proof. apply lookup_lt_Some. Qed.

Lemma matchPercentPattern_decides fuel text pattern ti pi :
  (length (bytes_of text) - ti + (length (bytes_of pattern) - pi) < fuel)%nat ->
  decides (matchPercentPattern fuel text pattern ti pi)
    (glob (fun c => bool_decide (c = percent)) (fun c b => bool_decide (c = b))
       (drop ti (bytes_of text)) (drop pi (bytes_of pattern))).
Proof.
  revert ti pi. induction fuel as [|fuel IH]; intros ti pi Hf; [lia|].
  cbn [matchPercentPattern].
  destruct (bytes_of pattern !! pi) as [pc|] eqn:Ep.
  2: { apply decides_some. rewrite (drop_none _ pi Ep), glob_nil. apply drop_nil_iff. }
  destruct (bytes_of text !! ti) as [tc|] eqn:Et.
  2: { apply decides_some. by rewrite (drop_none _ ti Et), glob_end. }
  pose proof (lookup_bound _ _ _ Ep). pose proof (lookup_bound _ _ _ Et).
  rewrite (drop_lookup _ _ _ Et), (drop_lookup _ _ _ Ep).
  destruct (decide (pc = percent)) as [->|Hpc].
  - rewrite glob_star by done. apply decides_or.
    + rewrite <- (drop_lookup _ _ _ Et). apply IH. lia.
    + rewrite <- (drop_lookup _ _ _ Ep). apply IH. lia.
  - rewrite glob_one by (by apply bool_decide_eq_false).
    rewrite bool_decide_eq_true. destruct (decide (pc = tc)) as [->|?].
    + eapply decides_iff; [|apply IH; lia]. tauto.
    + apply decides_some. by split; [|intros []].
Qed.

Lemma matchTokenWithPercent_glob token pattern :
  matchTokenWithPercent token pattern = true <-> percent_glob token pattern.
Proof. apply decides_default, (matchPercentPattern_decides _ _ _ 0 0). lia. Qed.

Lemma matchTokens_decides fuel rts bts ri bi :
  (length rts - ri + (length bts - bi) < fuel)%nat ->
  decides (matchTokens fuel rts bts ri bi) (topic_glob (drop ri rts) (drop bi bts)).
Proof.
  unfold topic_glob.
  revert ri bi. induction fuel as [|fuel IH]; intros ri bi Hf; [lia|].
  cbn [matchTokens].
  destruct (bts !! bi) as [bt|] eqn:Eb.
  2: { apply decides_some. rewrite (drop_none _ bi Eb), glob_nil. apply drop_nil_iff. }
  destruct (rts !! ri) as [rt|] eqn:Er.
  2: { apply decides_some. by rewrite (drop_none _ ri Er), glob_end. }
  pose proof (lookup_bound _ _ _ Eb). pose proof (lookup_bound _ _ _ Er).
  rewrite (drop_lookup _ _ _ Er), (drop_lookup _ _ _ Eb).
  destruct (decide (bt = "#"%string)) as [->|Hh].
  - rewrite glob_star by done. apply decides_or.
    + rewrite <- (drop_lookup _ _ _ Er). apply IH. lia.
    + rewrite <- (drop_lookup _ _ _ Eb). apply IH. lia.
  - rewrite glob_one by (by apply bool_decide_eq_false).
    assert (Hnext : forall (c : bool) r, (c = true -> r = matchTokens fuel rts bts (S ri) (S bi)) ->
      (c = false -> r = Some false) ->
      decides r (c = true /\ glob is_hash word_match (drop (S ri) rts) (drop (S bi) bts))).
    { intros c r H1 H2. destruct c.
      - rewrite H1 by done. eapply decides_iff; [|apply IH; lia]. tauto.
      - rewrite H2 by done. apply decides_some. by split; [|intros []]. }
    apply Hnext; unfold word_match; repeat case_decide; repeat case_match; try done;
      rewrite ?bool_decide_eq_true, ?bool_decide_eq_false; done.
Qed.

(** ** Splitting *)

Lemma split_bytes_spec sep bs w ws :
  split_bytes sep bs = (w, ws) ->
  bs = w ++ concat (map (cons sep) ws) /\ Forall (fun w => sep ∉ w) (w :: ws).
Proof.
  revert w ws. induction bs as [|b bs IH]; intros w ws; simpl.
  - intros [= <- <-]. split; [done|]. by repeat constructor; apply not_elem_of_nil.
  - destruct (split_bytes sep bs) as [w' ws'] eqn:E. destruct (IH w' ws' eq_refl) as [-> Hall].
    destruct (decide (b = sep)) as [->|Hb]; intros [= <- <-].
    + split; [done|]. constructor; [apply not_elem_of_nil|done].
    + split; [done|]. inversion Hall; subst. constructor; [|done].
      by apply not_elem_of_cons.
Qed.

(** The parts joined by the separator. *)
Definition join (sep : byte) (l : list string) : list byte :=
  match map bytes_of l with
  | [] => []
  | w :: ws => w ++ concat (map (cons sep) ws)
  end.

Lemma Split_join s sep :
  join sep (Split s sep) = bytes_of s /\ Forall (fun w => sep ∉ bytes_of w) (Split s sep).
Proof.
  unfold Split, join. destruct (split_bytes sep (bytes_of s)) as [w ws] eqn:E.
  apply split_bytes_spec in E as [-> Hall].
  assert (Hm : map bytes_of (map string_of ws) = ws).
  { rewrite map_map. rewrite <- (map_id ws) at 2. apply map_ext, bytes_of_string_of. }
  simpl. rewrite Hm, bytes_of_string_of. split; [done|].
  inversion Hall; subst. constructor; [by rewrite bytes_of_string_of|].
  apply Forall_map. eapply Forall_impl; [done|]. intros x. simpl. by rewrite bytes_of_string_of.
Qed.

Lemma bytes_of_inj s t : bytes_of s = bytes_of t -> s = t.
Proof. intros H. by rewrite <- (string_of_bytes_of s), H, string_of_bytes_of. Qed.

Lemma Split_inj s t sep : Split s sep = Split t sep -> s = t.
Proof.
  intros H. apply bytes_of_inj.
  by rewrite <- (proj1 (Split_join s sep)), H, (proj1 (Split_join t sep)).
Qed.

Lemma Contains_spec s b : Contains s b = true <-> b ∈ bytes_of s.
Proof.
  unfold Contains. rewrite existsb_exists, list_elem_of_In. split.
  - by intros (x & Hx & ->%bool_decide_eq_true).
  - intros H. exists b. by rewrite bool_decide_eq_true.
Qed.

Lemma Split_single s sep : length (Split s sep) = 1%nat <-> Contains s sep = false.
Proof.
  rewrite <- not_true_iff_false, Contains_spec. destruct (Split_join s sep) as [J H].
  unfold Split in *. destruct (split_bytes sep (bytes_of s)) as [w ws].
  unfold join in J. simpl in J, H. rewrite bytes_of_string_of in *.
  destruct ws as [|w' ws]; simpl in *.
  - rewrite app_nil_r in J. rewrite <- J. inversion H. by rewrite bytes_of_string_of in *.
  - split; [done|]. intros Hn. destruct Hn. rewrite <- J. set_solver.
Qed.

Lemma Split_elem w s sep b : w ∈ Split s sep -> b ∈ bytes_of w -> b ∈ bytes_of s.
Proof.
  intros Hw Hb. rewrite <- (proj1 (Split_join s sep)). unfold join.
  assert (Hm : bytes_of w ∈ map bytes_of (Split s sep)) by (by apply list_elem_of_fmap_2).
  destruct (map bytes_of (Split s sep)) as [|v vs]; [by apply elem_of_nil in Hm|].
  apply elem_of_cons in Hm as [<-|Hm]; apply elem_of_app; [by left|right].
  rewrite list_elem_of_In, in_concat. exists (sep :: bytes_of w).
  rewrite <- !list_elem_of_In. split; [by apply list_elem_of_fmap_2|by right].
Qed.

(** ** What [Match] guarantees *)

(** The special case of lines 19-22. *)
Definition dotless (key pattern : string) : bool :=
  Contains pattern dot && negb (Contains key dot).

Lemma Match_guard key pattern :
  (1 <? length (Split pattern dot))%nat && (length (Split key dot) =? 1)%nat
    && negb (Contains key dot) = dotless key pattern.
Proof.
  unfold dotless. pose proof (Split_single key dot) as Hk. pose proof (Split_single pattern dot) as Hp.
  assert (Hn : (0 < length (Split pattern dot))%nat).
  { unfold Split. destruct (split_bytes _ _). simpl. lia. }
  destruct (Contains key dot); simpl; [by rewrite !andb_false_r|].
  rewrite (proj2 Hk eq_refl), !andb_true_r.
  destruct (Contains pattern dot).
  - apply Nat.ltb_lt. destruct (decide (length (Split pattern dot) = 1%nat)) as [E|];
      [by apply Hp in E|lia].
  - by rewrite (proj2 Hp eq_refl).
Qed.

Lemma Match_decides key pattern :
  Match key pattern = true <->
  dotless key pattern = false /\ topic_glob (Split key dot) (Split pattern dot).
Proof.
  unfold Match. rewrite Match_guard. destruct (dotless key pattern); [by split; [|intros []]|].
  rewrite decides_default; [|apply (matchTokens_decides _ _ _ 0 0); lia].
  rewrite !drop_0. tauto.
Qed.

(** C19: [Match] ends, and a key matches a pattern exactly when the words of the
    key can be cut into one segment per item of the pattern, [#] taking any
    segment and every other item a single word that it admits; except that a
    pattern with a dot matches no key without one. *)
Theorem Match_glob key pattern :
  Match key pattern = true <->
  dotless key pattern = false /\ topic_glob (Split key dot) (Split pattern dot).
Proof. apply Match_decides. Qed.

(** Within a word, [%] takes any substring, the empty one included, and
    every other character of the pattern takes itself. *)
Theorem matchTokenWithPercent_spec token pattern :
  matchTokenWithPercent token pattern = true <->
  exists segs, concat segs = bytes_of token /\
    Forall2 (fun seg c => c = percent \/ seg = [c]) segs (bytes_of pattern).
Proof.
  rewrite matchTokenWithPercent_glob. unfold percent_glob, glob.
  assert (Hf : forall seg c, fits (fun c => bool_decide (c = percent))
      (fun c b => bool_decide (c = b)) seg c <-> c = percent \/ seg = [c]).
  { intros seg c. unfold fits. rewrite bool_decide_eq_true. split.
    - intros [?|(a & -> & _ & ->%bool_decide_eq_true)]; auto.
    - intros [?| ->]; [auto|]. destruct (decide (c = percent)); [auto|].
      right. exists c. by rewrite bool_decide_eq_false, bool_decide_eq_true. }
  split; intros (segs & E & H); exists segs; (split; [done|]);
    (eapply Forall2_impl; [exact H|]); intros; by apply Hf.
Qed.

(** A pattern without wildcards matches its own text and nothing else. *)
Theorem Match_literal key pattern :
  Contains pattern percent = false ->
  Forall (fun w => w <> "#"%string /\ w <> "*"%string) (Split pattern dot) ->
  Match key pattern = true <-> key = pattern.
Proof.
  intros Hp Hw.
  assert (Hd : Forall (fun w => is_hash w = false /\ forall r, word_match w r = bool_decide (r = w))
                 (Split pattern dot)).
  { apply Forall_forall. intros w Hin. rewrite Forall_forall in Hw. destruct (Hw w Hin).
    split; [by apply bool_decide_eq_false|]. intros r. unfold word_match.
    rewrite decide_False by done. destruct (Contains w percent) eqn:E; [|done].
    apply Contains_spec in E. apply (Split_elem _ _ _ _ Hin), Contains_spec in E. congruence. }
  rewrite Match_decides. unfold topic_glob. rewrite glob_no_star.
  2: { apply forallb_forall. intros w Hin%list_elem_of_In. rewrite Forall_forall in Hd.
       by rewrite (proj1 (Hd w Hin)). }
  split.
  - intros [_ H]. apply (Split_inj _ _ dot). rewrite Forall_forall in Hd.
    revert H. generalize (Split key dot). revert Hd. generalize (Split pattern dot).
    intros ps Hd ks H. induction H as [|k p ks ps Hkp H IH]; [done|].
    rewrite (proj2 (Hd p ltac:(by left))) in Hkp. apply bool_decide_eq_true in Hkp as ->.
    f_equal. apply IH. intros w Hin. apply Hd. by right.
  - intros ->. unfold dotless. split; [by destruct (Contains pattern dot)|].
    clear -Hd. induction Hd as [|p ps [_ Hp] _ IH]; constructor; [|done].
    by rewrite Hp, bool_decide_eq_true.
Qed.

(** A pattern with a dot never matches a key without one, even when it
    consists of [#] items, which match any number of words, only. *)
Theorem Match_dotless key pattern :
  Contains pattern dot = true -> Contains key dot = false -> Match key pattern = false.
Proof.
  intros Hp Hk. unfold Match. rewrite Match_guard. unfold dotless. by rewrite Hp, Hk.
Qed.
