(* ===== verification/Delivery.v ===== *)
(** * Delivery tags

    [delivery.go]: a client sees the deliveries of all upstreams on one channel, so
    the proxy packs the index of the upstream into the delivery tag it passes on,
    and unpacks it from the tag the client acknowledges. *)

From S2P Require Import Prelude Bytes Fields.

(** ** Translation *)

(** [type delivery]; the channel of incoming deliveries is with the consumer that
    reads it. *)
Record delivery : Type := { delivery_i : Z; delivery_n : Z; delivery_upstreamName : string }.

Definition newDelivery (i n : Z) (upstreamName : string) : delivery :=
  {| delivery_i := i; delivery_n := n; delivery_upstreamName := upstreamName |}.

(** [s*uint64(d.n) + uint64(d.i)] in [uint64]. *)
Definition Tag (d : delivery) (s : Z) : Z :=
  uwrap 64 (uwrap 64 (s * uwrap 64 (delivery_n d)) + uwrap 64 (delivery_i d)).

(** [None] is the run-time panic of a division by zero. *)
Definition restoreDeliveryTag (tag n : Z) : option (Z * Z) :=
  if uwrap 64 n =? 0 then None
  else Some (tag / uwrap 64 n, swrap 64 (tag mod uwrap 64 n)).

(** ** Proofs *)

(** The delivery of upstream [i] of [n]; [n] is the length of a Go slice. *)
Definition wf_delivery (d : delivery) : bool :=
  (0 <=? delivery_i d) && (delivery_i d <? delivery_n d) && (delivery_n d <? 2 ^ 31).

Lemma wf_delivery_spec d :
  wf_delivery d = true <-> 0 <= delivery_i d < delivery_n d /\ delivery_n d < 2 ^ 31.
Proof. unfold wf_delivery. rewrite !andb_true_iff, Z.leb_le, !Z.ltb_lt. lia. Qed.

Lemma Tag_mod d s :
  wf_delivery d = true -> Tag d s = (s * delivery_n d + delivery_i d) mod 2 ^ 64.
Proof.
  intros H%wf_delivery_spec. unfold Tag.
  rewrite (uwrap_small 64 (delivery_n d)), (uwrap_small 64 (delivery_i d))
    by (apply in_uint_spec; lia).
  unfold uwrap. by rewrite Z.add_mod_idemp_l.
Qed.

Lemma restoreDeliveryTag_small tag n :
  0 < n < 2 ^ 31 -> restoreDeliveryTag tag n = Some (tag / n, tag mod n).
Proof.
  intros Hn. unfold restoreDeliveryTag. rewrite uwrap_small by (apply in_uint_spec; lia).
  rewrite (proj2 (Z.eqb_neq n 0)) by lia.
  pose proof (Z.mod_pos_bound tag n ltac:(lia)).
  rewrite swrap_small; [done|lia|apply in_int_spec; lia].
Qed.

Lemma restore_quot_rem s i n :
  0 <= i < n -> (s * n + i) / n = s /\ (s * n + i) mod n = i.
Proof.
  intros Hi. rewrite Z.add_comm, Z.div_add, Z.mod_add by lia.
  rewrite Z.div_small, Z.mod_small by lia. lia.
Qed.

(** ** What delivery tags guarantee *)

(** C27: the tag that reaches the client is restored to the upstream's own tag
    and index if and only if the packed number does not exceed 64 bits. *)
Theorem restore_Tag d s :
  wf_delivery d = true -> in_uint 64 s = true ->
  restoreDeliveryTag (Tag d s) (delivery_n d) = Some (s, delivery_i d) <->
  s * delivery_n d + delivery_i d < 2 ^ 64.
Proof.
  intros Hd Hs%in_uint_spec. rewrite Tag_mod by done. apply wf_delivery_spec in Hd.
  set (p := s * delivery_n d + delivery_i d).
  rewrite restoreDeliveryTag_small by lia. split.
  - intros [= H1 H2]. pose proof (Z.mod_pos_bound p (2 ^ 64) ltac:(lia)).
    pose proof (Z.div_mod (p mod 2 ^ 64) (delivery_n d) ltac:(lia)). unfold p in *. nia.
  - intros Hp. rewrite (Z.mod_small p) by (unfold p in *; nia).
    unfold p. by destruct (restore_quot_rem s (delivery_i d) (delivery_n d) ltac:(lia)) as [-> ->].
Qed.

(** With the same number of upstreams, two deliveries never share a client
    tag unless they are the same delivery of the same upstream, as long as the
    packed numbers do not exceed 64 bits. *)
Theorem Tag_inj d1 d2 s1 s2 :
  wf_delivery d1 = true -> wf_delivery d2 = true -> delivery_n d1 = delivery_n d2 ->
  0 <= s1 -> 0 <= s2 ->
  s1 * delivery_n d1 + delivery_i d1 < 2 ^ 64 -> s2 * delivery_n d2 + delivery_i d2 < 2 ^ 64 ->
  Tag d1 s1 = Tag d2 s2 -> s1 = s2 /\ delivery_i d1 = delivery_i d2.
Proof.
  intros H1 H2 Hn Hs1 Hs2 B1 B2. rewrite !Tag_mod by done.
  apply wf_delivery_spec in H1, H2. rewrite !Z.mod_small by nia. rewrite <- Hn in *.
  intros E.
  destruct (restore_quot_rem s1 (delivery_i d1) (delivery_n d1) ltac:(lia)) as [A1 A2].
  destruct (restore_quot_rem s2 (delivery_i d2) (delivery_n d1) ltac:(lia)) as [A3 A4].
  rewrite E in A1, A2. split; congruence.
Qed.

Lemma restore_Tag_witness :
  let d := newDelivery 1 2 "secondary" in
  restoreDeliveryTag (Tag d 41) (delivery_n d) = Some (41, delivery_i d) <->
  41 * delivery_n d + delivery_i d < 2 ^ 64.
Proof. apply (restore_Tag (newDelivery 1 2 "secondary") 41); vm_compute; reflexivity. Defined.

Lemma Tag_inj_witness :
  let d := newDelivery 1 2 "secondary" in
  Tag d 41 = 83 /\ 41 = 41 /\ delivery_i d = delivery_i d.
Proof.
  split; [vm_compute; reflexivity|].
  apply (Tag_inj (newDelivery 1 2 "secondary") (newDelivery 1 2 "secondary") 41 41);
    first [vm_compute; reflexivity | simpl; lia].
Defined.
