(* ===== verification/Confirm.v ===== *)
(** * Publisher confirms

    [confirm.go]: the client numbers its publishes on a channel 1, 2, 3, ...; each
    upstream numbers those routed to it on its own. A [confirmState] maps the
    upstream's number back to the client's when the upstream confirms. *)

From S2P Require Import Prelude Bytes Fields.

(** ** Translation *)

Record confirmKey : Type := { upstreamIndex : Z; upstreamTag : Z }.

#[export] Instance confirmKey_eq_dec : EqDecision confirmKey.
Proof. solve_decision. Defined.

#[export] Instance confirmKey_countable : Countable confirmKey.
Proof.
  refine (inj_countable' (fun k => (upstreamIndex k, upstreamTag k))
    (fun p => {| upstreamIndex := p.1; upstreamTag := p.2 |}) _).
  by intros [].
Defined.

Record confirmState : Type := { clientTag : Z; tagMap : gmap confirmKey Z }.

Definition newConfirmState : confirmState := {| clientTag := 0; tagMap := ∅ |}.

Definition RecordPublish (cs : confirmState) (ui ut : Z) : Z * confirmState :=
  let tag := uwrap 64 (clientTag cs + 1) in
  (tag, {| clientTag := tag;
           tagMap := <[{| upstreamIndex := ui; upstreamTag := ut |} := tag]> (tagMap cs) |}).

(** The zero tag and [false] when there is no entry. *)
Definition LookupClientTag (cs : confirmState) (ui ut : Z) : (Z * bool) * confirmState :=
  let key := {| upstreamIndex := ui; upstreamTag := ut |} in
  match tagMap cs !! key with
  | Some tag => ((tag, true), {| clientTag := clientTag cs; tagMap := delete key (tagMap cs) |})
  | None => ((0, false), cs)
  end.

(** ** Histories

    What happens to a confirm state: publishes of the client's goroutine and
    confirmations read by the listeners of the upstreams, in the order in which
    they take its mutex. *)

Inductive event : Type :=
| Publish (ui ut : Z)
| Confirmed (ui ut : Z) (ack : bool).

(** What the client is sent: the tag and whether it is an ack or a nack. *)
Definition confirm_step (e : event) (cs : confirmState) : confirmState * list (Z * bool) :=
  match e with
  | Publish ui ut => ((RecordPublish cs ui ut).2, [])
  | Confirmed ui ut ack =>
      match LookupClientTag cs ui ut with
      | ((tag, true), cs') => (cs', [(tag, ack)])
      | (_, cs') => (cs', [])
      end
  end.

Fixpoint confirm_run (es : list event) (cs : confirmState) : confirmState * list (Z * bool) :=
  match es with
  | [] => (cs, [])
  | e :: es' =>
      let (cs1, o1) := confirm_step e cs in
      let (cs2, o2) := confirm_run es' cs1 in
      (cs2, o1 ++ o2)
  end.

Definition published (es : list event) : list confirmKey :=
  omap (fun e => match e with
    | Publish ui ut => Some {| upstreamIndex := ui; upstreamTag := ut |}
    | _ => None end) es.

Definition confirmed (es : list event) : list confirmKey :=
  omap (fun e => match e with
    | Confirmed ui ut _ => Some {| upstreamIndex := ui; upstreamTag := ut |}
    | _ => None end) es.

(** Publish number [t] of the history (from 1). *)
Definition nth_publish (es : list event) (t : Z) : option confirmKey :=
  if 0 <? t then published es !! Z.to_nat (t - 1) else None.

(** ** The invariant *)

(** After the history [es], with the tags [out] sent to the client. *)
Record confirm_inv (es : list event) (cs : confirmState) (out : list Z) : Prop := {
  inv_count : clientTag cs = Z.of_nat (length (published es));
  inv_map : forall k t, tagMap cs !! k = Some t -> nth_publish es t = Some k /\ t ∉ out;
  inv_out : forall t, t ∈ out -> 1 <= t <= Z.of_nat (length (published es));
  inv_nodup : NoDup out
}.

Lemma confirm_run_app es1 es2 cs :
  confirm_run (es1 ++ es2) cs =
  let (cs1, o1) := confirm_run es1 cs in
  let (cs2, o2) := confirm_run es2 cs1 in (cs2, o1 ++ o2).
Proof.
  revert cs; induction es1 as [|e es1 IH]; intros cs; cbn [app confirm_run].
  - by destruct (confirm_run es2 cs).
  - destruct (confirm_step e cs) as [cs1 o1]. rewrite IH.
    destruct (confirm_run es1 cs1) as [cs2 o2], (confirm_run es2 cs2) as [cs3 o3].
    by rewrite app_assoc.
Qed.

Lemma nth_publish_bound es t k :
  nth_publish es t = Some k -> 1 <= t <= Z.of_nat (length (published es)).
Proof.
  unfold nth_publish. destruct (0 <? t) eqn:E; [|done]. apply Z.ltb_lt in E.
  intros H%lookup_lt_Some. lia.
Qed.

Lemma nth_publish_app es es' t k :
  nth_publish es t = Some k -> nth_publish (es ++ es') t = Some k.
Proof.
  unfold nth_publish. destruct (0 <? t); [|done]. unfold published. rewrite omap_app.
  apply lookup_app_l_Some.
Qed.

Lemma published_snoc es ui ut :
  published (es ++ [Publish ui ut])
  = published es ++ [{| upstreamIndex := ui; upstreamTag := ut |}].
Proof. unfold published. by rewrite omap_app. Qed.

Lemma published_snoc_confirmed es ui ut ack :
  published (es ++ [Confirmed ui ut ack]) = published es.
Proof. unfold published. rewrite omap_app. apply app_nil_r. Qed.

Lemma confirm_inv_new : confirm_inv [] newConfirmState [].
Proof. split; [done| |by intros t ?%elem_of_nil|constructor]. intros k t. simpl. by rewrite lookup_empty. Qed.

Lemma confirm_inv_publish es cs out ui ut :
  Z.of_nat (length (published es)) + 1 < 2 ^ 64 ->
  confirm_inv es cs out ->
  confirm_inv (es ++ [Publish ui ut]) (RecordPublish cs ui ut).2 out /\
  (RecordPublish cs ui ut).1 = Z.of_nat (length (published es)) + 1.
Proof.
  intros Hb [Hc Hm Ho Hn]. unfold RecordPublish. rewrite Hc, uwrap_small
    by (apply in_uint_spec; lia).
  split; [|done]. split; cbn [clientTag tagMap snd]; rewrite ?published_snoc, ?length_app; simpl.
  - lia.
  - intros k t. destruct (decide (k = {| upstreamIndex := ui; upstreamTag := ut |})) as [->|Hk].
    + rewrite lookup_insert_eq. intros [= <-]. split.
      * unfold nth_publish. rewrite (proj2 (Z.ltb_lt _ _)) by lia.
        rewrite published_snoc. apply list_lookup_middle. lia.
      * intros H%Ho. lia.
    + rewrite lookup_insert_ne by done. intros [H1 H2]%Hm.
      split; [by apply nth_publish_app|done].
  - intros t H%Ho. lia.
  - done.
Qed.

Lemma confirm_inv_confirmed es cs out ui ut ack cs' o :
  confirm_inv es cs out -> confirm_step (Confirmed ui ut ack) cs = (cs', o) ->
  confirm_inv (es ++ [Confirmed ui ut ack]) cs' (out ++ map fst o).
Proof.
  intros [Hc Hm Ho Hn]. unfold confirm_step, LookupClientTag.
  destruct (tagMap cs !! _) as [tag|] eqn:E; intros [= <- <-]; simpl.
  - destruct (Hm _ _ E) as [Htag Hfresh]. split; cbn [clientTag tagMap];
      rewrite ?published_snoc_confirmed; [done| | |].
    + intros k t H. apply lookup_delete_Some in H as [Hk H]. destruct (Hm _ _ H) as [H1 H2].
      split; [by apply nth_publish_app|]. rewrite not_elem_of_app, list_elem_of_singleton.
      split; [done|]. intros ->. congruence.
    + intros t [H| ->%list_elem_of_singleton]%elem_of_app; [by apply Ho|].
      by eapply nth_publish_bound.
    + apply NoDup_app. split; [done|]. split; [|apply NoDup_singleton].
      intros t H1 ->%list_elem_of_singleton. done.
  - rewrite app_nil_r. split; rewrite ?published_snoc_confirmed; [done| |done|done].
    intros k t H. destruct (Hm _ _ H). split; [by apply nth_publish_app|done].
Qed.

Lemma confirm_run_inv es cs o :
  Z.of_nat (length (published es)) < 2 ^ 64 ->
  confirm_run es newConfirmState = (cs, o) -> confirm_inv es cs (map fst o).
Proof.
  revert cs o. induction es as [|e es IH] using rev_ind; intros cs o Hb.
  - intros [= <- <-]. apply confirm_inv_new.
  - rewrite confirm_run_app. destruct (confirm_run es newConfirmState) as [cs1 o1] eqn:E.
    cbn [confirm_run]. destruct (confirm_step e cs1) as [cs2 o2] eqn:Es.
    intros [= <- <-]. rewrite app_nil_r, map_app.
    destruct e as [ui ut|ui ut ack].
    + rewrite published_snoc, length_app in Hb. simpl in Hb.
      specialize (IH cs1 o1 ltac:(lia) eq_refl). injection Es as [= <- <-].
      rewrite app_nil_r. by apply confirm_inv_publish; [lia|].
    + rewrite published_snoc_confirmed in Hb. eapply confirm_inv_confirmed; [|done].
      by apply IH.
Qed.

(** ** Every publish is confirmed once *)

(** A history the upstreams can produce: each of them numbers its publishes
    apart and confirms a publish at most once, after it was made. *)
Definition well_ordered (es : list event) : Prop :=
  NoDup (published es) /\ NoDup (confirmed es) /\
  forall es1 es2, es = es1 ++ es2 -> confirmed es1 ⊆ published es1.

Lemma confirmed_app es1 es2 : confirmed (es1 ++ es2) = confirmed es1 ++ confirmed es2.
Proof. apply omap_app. Qed.

Lemma published_app es1 es2 : published (es1 ++ es2) = published es1 ++ published es2.
Proof. apply omap_app. Qed.

Lemma well_ordered_prefix es1 es2 : well_ordered (es1 ++ es2) -> well_ordered es1.
Proof.
  intros (H1 & H2 & H3). rewrite published_app in H1. rewrite confirmed_app in H2.
  apply NoDup_app in H1 as [? _], H2 as [? _]. split_and!; [done..|].
  intros a b ->. apply (H3 a (b ++ es2)). by rewrite app_assoc.
Qed.

(** The entries of the map are the publishes not confirmed yet, and one answer was
    sent for every confirmation. *)
Lemma confirm_run_exact es cs o :
  well_ordered es -> confirm_run es newConfirmState = (cs, o) ->
  (forall k, is_Some (tagMap cs !! k) <-> k ∈ published es /\ k ∉ confirmed es) /\
  length o = length (confirmed es).
Proof.
  revert cs o. induction es as [|e es IH] using rev_ind; intros cs o Hw.
  - intros [= <- <-]. split; [|done]. intros k. simpl. rewrite lookup_empty.
    split; [by intros []|by intros [?%elem_of_nil _]].
  - rewrite confirm_run_app. destruct (confirm_run es newConfirmState) as [cs1 o1] eqn:E.
    pose proof (well_ordered_prefix _ _ Hw) as Hw1.
    specialize (IH cs1 o1 Hw1 eq_refl) as [IH1 IH2]. destruct Hw as (W1 & W2 & W3).
    rewrite published_app in W1. rewrite confirmed_app in W2.
    specialize (W3 _ [] (eq_sym (app_nil_r _))).
    cbn [confirm_run]. destruct (confirm_step e cs1) as [cs2 o2] eqn:Es.
    intros [= <- <-]. rewrite app_nil_r, published_app, confirmed_app, !length_app.
    destruct e as [ui ut|ui ut ack]; unfold confirm_step in Es; simpl in Es, W1, W2.
    + injection Es as [= <- <-]. simpl. rewrite app_nil_r. split; [|lia]. intros k.
      apply NoDup_app in W1 as (_ & W1 & _).
      set (k0 := {| upstreamIndex := ui; upstreamTag := ut |}) in *.
      assert (Hk0 : k0 ∉ confirmed es).
      { intros H. apply (W1 k0); [|by left]. destruct Hw1 as (_ & _ & Hw1).
        apply (Hw1 es []); [by rewrite app_nil_r|done]. }
      destruct (decide (k = k0)) as [->|Hk].
      * rewrite lookup_insert_eq. split; [|eauto]. intros _. set_solver.
      * rewrite lookup_insert_ne, IH1 by done. set_solver.
    + set (k0 := {| upstreamIndex := ui; upstreamTag := ut |}) in *.
      apply NoDup_app in W2 as (_ & W2 & _).
      assert (Hin : is_Some (tagMap cs1 !! k0)).
      { apply IH1. split; [|intros H; apply (W2 k0); [done|by left]].
        rewrite published_app, confirmed_app in W3. simpl in W3. rewrite app_nil_r in W3.
        apply W3. set_solver. }
      unfold LookupClientTag in Es. fold k0 in Es. destruct Hin as [t Ht]. rewrite Ht in Es.
      injection Es as [= <- <-]. simpl. rewrite app_nil_r. split; [|lia]. intros k.
      destruct (decide (k = k0)) as [->|Hk].
      * rewrite lookup_delete_eq. split; [by intros []|]. set_solver.
      * rewrite lookup_delete_ne, IH1 by done. set_solver.
Qed.

(** ** What publisher confirms guarantee *)

(** C8: the client is sent the tag of the very publish that was confirmed: after
    any history, an upstream's confirmation is turned into tag [t] with the
    upstream's ack or nack only if publish number [t] was the one the upstream numbers
    so, and no answer with tag [t] was sent before. *)
Theorem confirm_sound es cs o ui ut ack cs' t a :
  Z.of_nat (length (published es)) < 2 ^ 64 ->
  confirm_run es newConfirmState = (cs, o) ->
  confirm_step (Confirmed ui ut ack) cs = (cs', [(t, a)]) ->
  nth_publish es t = Some {| upstreamIndex := ui; upstreamTag := ut |} /\
  a = ack /\ t ∉ map fst o.
Proof.
  intros Hb E. destruct (confirm_run_inv es cs o Hb E) as [_ Hm _ _].
  unfold confirm_step, LookupClientTag. destruct (tagMap cs !! _) as [tag|] eqn:Ht; [|done].
  intros [= <- <- <-]. by destruct (Hm _ _ Ht).
Qed.

(** No tag is answered twice and none that the client did not use is
    answered, whatever the upstreams confirm. *)
Theorem confirm_at_most_once es cs o :
  Z.of_nat (length (published es)) < 2 ^ 64 ->
  confirm_run es newConfirmState = (cs, o) ->
  NoDup (map fst o) /\
  Forall (fun t => 1 <= t <= Z.of_nat (length (published es))) (map fst o).
Proof.
  intros Hb E. destruct (confirm_run_inv es cs o Hb E) as [_ _ Ho Hn].
  split; [done|]. by apply Forall_forall.
Qed.

(** C9: when the upstreams number their publishes apart and confirm each of
    them once, after it was made, in any order, then every tag 1, 2, ..., n is
    answered exactly once and no entry is left in the map. *)
Theorem confirm_complete es cs o :
  Z.of_nat (length (published es)) < 2 ^ 64 -> well_ordered es ->
  confirmed es ≡ₚ published es ->
  confirm_run es newConfirmState = (cs, o) ->
  map fst o ≡ₚ seqZ 1 (Z.of_nat (length (published es))) /\ tagMap cs = ∅.
Proof.
  intros Hb Hw Hp E. destruct (confirm_run_exact es cs o Hw E) as [H1 H2].
  destruct (confirm_run_inv es cs o Hb E) as [_ _ Ho Hn]. split.
  - apply submseteq_length_Permutation.
    + apply NoDup_submseteq; [done|]. intros t Ht. apply elem_of_seqZ. specialize (Ho t Ht). lia.
    + rewrite length_seqZ, length_map, H2, Hp. lia.
  - apply map_empty. intros k. apply eq_None_not_Some. intros Hk%H1.
    destruct Hk as [Hk1 Hk2]. apply Hk2. by rewrite Hp.
Qed.

(** ** A concrete history

    Three publishes, the second one to another upstream, confirmed out of order. *)
Definition sampleHistory : list event := [
  Publish 0 1; Publish 1 1; Confirmed 1 1 true; Publish 0 2; Confirmed 0 2 false;
  Confirmed 0 1 true
].

Lemma sampleHistory_well_ordered : well_ordered sampleHistory.
Proof.
  split_and!; [by apply (bool_decide_unpack _); vm_compute..|].
  intros es1 es2 E. assert (Ht : es1 = take (length es1) sampleHistory)
    by (by rewrite E, take_app_length).
  apply (f_equal length) in E. rewrite length_app in E. simpl in E.
  rewrite Ht. do 7 (destruct es1 as [|? es1]; [simpl; set_solver|]). simpl in E. lia.
Qed.

Lemma confirm_sound_witness :
  exists cs cs' o, confirm_run (take 5 sampleHistory) newConfirmState = (cs, o) /\
    confirm_step (Confirmed 0 1 true) cs = (cs', [(1, true)]) /\
    nth_publish (take 5 sampleHistory) 1 = Some {| upstreamIndex := 0; upstreamTag := 1 |} /\
    true = true /\ 1 ∉ map fst o.
Proof.
  do 3 eexists. split; [reflexivity|]. split; [vm_compute; reflexivity|].
  eapply (confirm_sound (take 5 sampleHistory)); [vm_compute; reflexivity|reflexivity|].
  vm_compute; reflexivity.
Defined.

Lemma confirm_at_most_once_witness :
  exists cs o, confirm_run (sampleHistory ++ [Confirmed 0 1 true]) newConfirmState = (cs, o) /\
    NoDup (map fst o) /\ Forall (fun t => 1 <= t <= 3) (map fst o).
Proof.
  do 2 eexists. split; [reflexivity|].
  eapply (confirm_at_most_once (sampleHistory ++ [Confirmed 0 1 true]));
    [vm_compute; reflexivity|reflexivity].
Defined.

Lemma confirm_complete_witness :
  exists cs o, confirm_run sampleHistory newConfirmState = (cs, o) /\
    map fst o ≡ₚ seqZ 1 3 /\ tagMap cs = ∅.
Proof.
  do 2 eexists. split; [reflexivity|].
  eapply (confirm_complete sampleHistory);
    [vm_compute; reflexivity|exact sampleHistory_well_ordered| |reflexivity].
  by apply (bool_decide_unpack _); vm_compute.
Defined.
