(* ===== verification/Wire.v ===== *)
(** * The writing side of the client connection

    [Writer] of [amqp091/types.go] and [WriteFrame]/[WriteFrameNoFlush] of
    [amqp091/write.go]: frames go through a [bufio.Writer] of 4096 bytes to the
    connection. *)

From S2P Require Import Prelude Bytes Fields MsgBase Methods Frames.

(** ** Translation *)

(** [sent]: the bytes the connection took; [wbuf]: those still in the buffer;
    [werr]: the error of the [bufio.Writer], which stays. *)
Record Wire : Type := { sent : list byte; wbuf : list byte; werr : option ioerr }.

Definition NewWriter : Wire := {| sent := []; wbuf := []; werr := None |}.

Definition bufSize : nat := 4096.

Section Wire.
(** [conn.Write(p)] after the bytes [sent]: [None] when all of [p] is taken,
    [Some (n, e)] when the first [n] bytes are and the error is [e]. *)
Context (conn_Write : list byte -> list byte -> option (nat * ioerr)).

Definition fails (w : Wire) (e : ioerr) : result ioerr () * Wire :=
  (Err e, {| sent := sent w; wbuf := wbuf w; werr := Some e |}).

(** [Flush] of [bufio.Writer]. *)
Definition Flush : stm Wire ioerr () := fun w =>
  match werr w, wbuf w with
  | Some e, _ => (Err e, w)
  | None, [] => (Ok (), w)
  | None, buf =>
      match conn_Write (sent w) buf with
      | None => (Ok (), {| sent := sent w ++ buf; wbuf := []; werr := None |})
      | Some (n, e) =>
          fails {| sent := sent w ++ take n buf; wbuf := drop n buf; werr := None |} e
      end
  end.

(** [p] kept in the buffer, or written around an empty buffer when it is larger
    than that. *)
Definition putRest (p : list byte) : stm Wire ioerr () := fun w =>
  if decide (length p <= bufSize - length (wbuf w))%nat then
    (Ok (), {| sent := sent w; wbuf := wbuf w ++ p; werr := None |})
  else
    match conn_Write (sent w) p with
    | None => (Ok (), {| sent := sent w ++ p; wbuf := wbuf w; werr := None |})
    | Some (n, e) =>
        fails {| sent := sent w ++ take n p; wbuf := wbuf w; werr := None |} e
    end.

(** [Write] of [bufio.Writer]: its loop makes at most one turn that fills and
    flushes the buffer and one that writes the rest directly. *)
Definition bufWrite (p : list byte) : stm Wire ioerr () := fun w =>
  match werr w with
  | Some e => (Err e, w)
  | None =>
      let avail := (bufSize - length (wbuf w))%nat in
      if decide (length p <= avail)%nat then
        (Ok (), {| sent := sent w; wbuf := wbuf w ++ p; werr := None |})
      else
        match wbuf w with
        | [] => putRest p w
        | _ =>
            (_ ← Flush; putRest (drop avail p))
              {| sent := sent w; wbuf := wbuf w ++ take avail p; werr := None |}
        end
  end.

Definition WriteFrameNoFlush (frame : Frame) : stm Wire ioerr () := fun w =>
  match Frame_Writes frame with
  | Err e => (Err e, w)
  | Ok calls => forM calls bufWrite w
  end.

Definition WriteFrame (frame : Frame) : stm Wire ioerr () :=
  _ ← WriteFrameNoFlush frame; Flush.

(** ** Proofs *)

(** [pushes bs m]: [m] appends [bs] to what is on its way to the connection. When
    it succeeds all of it is sent or buffered; when it fails the error stays and
    the connection got a prefix of it; nothing is ever taken back. *)
Definition pushes (bs : list byte) (m : stm Wire ioerr ()) : Prop :=
  forall w, werr w = None ->
  sent w `prefix_of` sent (m w).2 /\
  sent (m w).2 `prefix_of` sent w ++ wbuf w ++ bs /\
  match m w with
  | (Ok _, w') => werr w' = None /\ sent w' ++ wbuf w' = sent w ++ wbuf w ++ bs
  | (Err e, w') => werr w' = Some e
  end.

Lemma pushes_seq b1 b2 (m1 m2 : stm Wire ioerr ()) :
  pushes b1 m1 -> pushes b2 m2 -> pushes (b1 ++ b2) (_ ← m1; m2).
Proof.
  intros H1 H2 w Hw. specialize (H1 w Hw). unfold mbind, stm_bind.
  destruct (m1 w) as [[[]|e] w1]; simpl in *.
  - destruct H1 as (P1 & P2 & He & E). specialize (H2 w1 He) as (Q1 & Q2 & Q3).
    split; [by transitivity (sent w1)|].
    rewrite !app_assoc in Q2. rewrite E in Q2. rewrite <- !app_assoc in Q2.
    split; [by rewrite app_assoc in *|].
    destruct (m2 w1) as [[[]|e] w2]; [|done]. destruct Q3 as [? Q3]. split; [done|].
    rewrite Q3, app_assoc, E. by rewrite <- !app_assoc.
  - destruct H1 as (P1 & P2 & He). split_and!; [done| |done].
    rewrite !app_assoc in *. by apply prefix_app_r.
Qed.

Lemma pushes_ret : pushes [] (mret ()).
Proof.
  intros w Hw. simpl. rewrite app_nil_r.
  split_and!; [done|by apply prefix_app_r|done|done].
Qed.

Lemma pushes_Flush : pushes [] Flush.
Proof.
  intros w Hw. unfold Flush. rewrite Hw, app_nil_r. destruct (wbuf w) as [|b l] eqn:E.
  - rewrite app_nil_r. simpl. rewrite E, app_nil_r. done.
  - destruct (conn_Write (sent w) (b :: l)) as [[n e]|]; simpl.
    + split_and!; [by apply prefix_app_r|apply prefix_app, prefix_take|done].
    + rewrite app_nil_r. split_and!; [by apply prefix_app_r|done..].
Qed.

Lemma Flush_ok w w' : Flush w = (Ok (), w') -> wbuf w' = [].
Proof.
  unfold Flush. destruct (werr w); [done|]. destruct (wbuf w) eqn:E; [by intros [= <-]|].
  destruct (conn_Write _ _) as [[n e]|]; [done|]. by intros [= <-].
Qed.

Lemma putRest_pushes p w :
  werr w = None -> wbuf w = [] ->
  sent w `prefix_of` sent (putRest p w).2 /\
  sent (putRest p w).2 `prefix_of` sent w ++ p /\
  match putRest p w with
  | (Ok _, w') => werr w' = None /\ sent w' ++ wbuf w' = sent w ++ p
  | (Err e, w') => werr w' = Some e
  end.
Proof.
  intros Hw E. unfold putRest. rewrite E. case_decide; simpl.
  - split_and!; [done|by apply prefix_app_r|done..].
  - destruct (conn_Write (sent w) p) as [[n e]|]; simpl.
    + split_and!; [by apply prefix_app_r|apply prefix_app, prefix_take|done].
    + rewrite app_nil_r. split_and!; [by apply prefix_app_r|done..].
Qed.

Lemma pushes_bufWrite p : pushes p (bufWrite p).
Proof.
  intros w Hw. unfold bufWrite. rewrite Hw. case_decide.
  { simpl. split_and!; [done|by apply prefix_app_r|done..]. }
  destruct (wbuf w) as [|b l] eqn:E; [by apply putRest_pushes|]. rewrite <- E.
  set (avail := (bufSize - length (wbuf w))%nat) in *.
  set (w1 := {| sent := sent w; wbuf := wbuf w ++ take avail p; werr := None |}).
  destruct (pushes_Flush w1 eq_refl) as (F1 & F2 & F3).
  unfold mbind, stm_bind. destruct (Flush w1) as [[[]|e] w2] eqn:EF; simpl in *.
  - destruct F3 as [F3 F4]. rewrite (Flush_ok _ _ EF), !app_nil_r in F4.
    destruct (putRest_pushes (drop avail p) w2 F3 (Flush_ok _ _ EF)) as (G1 & G2 & G3).
    split; [by transitivity (sent w2)|].
    rewrite F4, <- !app_assoc, take_drop in G2. split; [done|].
    destruct (putRest _ w2) as [[[]|e] w3]; [|done]. destruct G3 as [? G3]. split; [done|].
    by rewrite G3, F4, <- !app_assoc, take_drop.
  - split_and!; [done| |done]. rewrite app_nil_r in F2.
    transitivity (sent w ++ wbuf w ++ take avail p); [done|].
    apply prefix_app, prefix_app, prefix_take.
Qed.

Lemma pushes_calls calls : pushes (concat calls) (forM calls bufWrite).
Proof.
  induction calls as [|p calls IH]; [apply pushes_ret|].
  apply pushes_seq; [apply pushes_bufWrite|done].
Qed.

Lemma pushes_NoFlush frame bs :
  Frame_Write frame = Ok bs -> pushes bs (WriteFrameNoFlush frame).
Proof.
  unfold Frame_Write, flat, WriteFrameNoFlush.
  destruct (Frame_Writes frame) as [calls|]; [|done]. intros [= <-]. apply pushes_calls.
Qed.

Lemma pushes_WriteFrame frame bs :
  Frame_Write frame = Ok bs -> pushes bs (WriteFrame frame).
Proof.
  intros H. rewrite <- (app_nil_r bs). apply pushes_seq; [by apply pushes_NoFlush|].
  apply pushes_Flush.
Qed.

Lemma WriteFrame_flushes frame w w' : WriteFrame frame w = (Ok (), w') -> wbuf w' = [].
Proof.
  unfold WriteFrame, mbind, stm_bind. destruct (WriteFrameNoFlush frame w) as [[[]|e] w1];
    [apply Flush_ok|done].
Qed.

(** Without a flush, what fits stays in the buffer. *)
Lemma bufWrite_fits p w :
  werr w = None -> (length (wbuf w) + length p <= bufSize)%nat ->
  bufWrite p w = (Ok (), {| sent := sent w; wbuf := wbuf w ++ p; werr := None |}).
Proof.
  intros Hw Hl. unfold bufWrite. rewrite Hw. rewrite decide_True; [done|lia].
Qed.

Lemma NoFlush_fits frame bs w :
  Frame_Write frame = Ok bs -> werr w = None ->
  (length (wbuf w) + length bs <= bufSize)%nat ->
  WriteFrameNoFlush frame w = (Ok (), {| sent := sent w; wbuf := wbuf w ++ bs; werr := None |}).
Proof.
  unfold Frame_Write, flat, WriteFrameNoFlush.
  destruct (Frame_Writes frame) as [calls|]; [|done]. intros [= <-].
  revert w. induction calls as [|p calls IH]; intros w Hw Hl; cbn [forM concat] in *.
  - rewrite app_nil_r. destruct w as [s b e]. simpl in Hw. by subst e.
  - rewrite length_app in Hl. unfold mbind, stm_bind.
    rewrite bufWrite_fits by (done || lia).
    rewrite IH by (simpl; rewrite ?length_app; done || lia). simpl. by rewrite <- app_assoc.
Qed.

(** On a connection that takes everything there are no errors. *)
Lemma accepting_keeps frame :
  (forall s p, conn_Write s p = None) ->
  keeps (fun w => werr w = None) (WriteFrame frame) /\
  keeps (fun w => werr w = None) (WriteFrameNoFlush frame).
Proof.
  intros Ha.
  assert (HF : keeps (fun w => werr w = None) Flush).
  { intros w Hw. unfold Flush. rewrite Hw. destruct (wbuf w); [done|]. by rewrite Ha. }
  assert (HR : forall p, keeps (fun w => werr w = None) (putRest p)).
  { intros p w Hw. unfold putRest. case_decide; [done|]. by rewrite Ha. }
  assert (HB : forall p, keeps (fun w => werr w = None) (bufWrite p)).
  { intros p w Hw. unfold bufWrite. rewrite Hw. case_decide; [done|].
    destruct (wbuf w); [by apply HR|]. by apply keeps_bind. }
  assert (HN : keeps (fun w => werr w = None) (WriteFrameNoFlush frame)).
  { intros w Hw. unfold WriteFrameNoFlush. destruct (Frame_Writes frame); [|done].
    by apply keeps_forM. }
  split; [|done]. by apply keeps_bind.
Qed.

(** An encoding error leaves the connection alone. *)
Lemma WriteFrame_unencodable frame e w :
  Frame_Writes frame = Err e -> WriteFrame frame w = (Err e, w).
Proof. unfold WriteFrame, WriteFrameNoFlush, mbind, stm_bind. by intros ->. Qed.

Lemma WriteFrameNoFlush_unencodable frame e w :
  Frame_Writes frame = Err e -> WriteFrameNoFlush frame w = (Err e, w).
Proof. unfold WriteFrameNoFlush. by intros ->. Qed.

(** ** What the writer guarantees *)

(** [WriteFrame] of an encodable frame hands its bytes to the connection
    in order, after all that was buffered: when it returns nil everything is sent;
    when it fails the connection got a prefix of that and the error stays. *)
Theorem WriteFrame_in_order frame bs w :
  werr w = None -> Frame_Write frame = Ok bs ->
  match WriteFrame frame w with
  | (Ok _, w') => werr w' = None /\ wbuf w' = [] /\ sent w' = sent w ++ wbuf w ++ bs
  | (Err e, w') => werr w' = Some e /\ sent w' `prefix_of` sent w ++ wbuf w ++ bs
  end.
Proof.
  intros Hw Hbs. destruct (pushes_WriteFrame frame bs Hbs w Hw) as (P1 & P2 & P3).
  destruct (WriteFrame frame w) as [[[]|e] w'] eqn:E; [|done].
  destruct P3 as [? P3]. pose proof (WriteFrame_flushes _ _ _ E) as Hb.
  rewrite Hb, app_nil_r in P3. done.
Qed.
End Wire.

Lemma WriteFrame_in_order_witness :
  let frame := F_Body {| BodyFrame_ChannelId := 1; BodyFrame_Body := bytes_of "hi" |} in
  exists bs, Frame_Write frame = Ok bs /\
    match WriteFrame (fun _ _ => None) frame NewWriter with
    | (Ok _, w') => werr w' = None /\ wbuf w' = [] /\ sent w' = bs
    | (Err e, w') => werr w' = Some e /\ sent w' `prefix_of` bs
    end.
Proof.
  eexists. split; [vm_compute; reflexivity|].
  apply (WriteFrame_in_order (fun _ _ => None)
    (F_Body {| BodyFrame_ChannelId := 1; BodyFrame_Body := bytes_of "hi" |}) _ NewWriter);
    vm_compute; reflexivity.
Defined.
