(* ===== verification/Errors.v ===== *)
(** * Errors of the proxy

    [error.go]: the errors that are answered with a [Connection.Close] or a
    [Channel.Close], and the other error values the proxy's functions return. *)

From stdpp Require Import pretty.
From S2P Require Import Prelude Bytes Fields MsgBase MsgConnection MsgChannel Methods.

(** The reply codes of [amqp091/spec091.go] the proxy uses. *)
Definition ConnectionForced : Z := 320.
Definition NotFound : Z := 404.
Definition FrameError : Z := 501.
Definition NotImplemented : Z := 540.
Definition InternalError : Z := 541.

(** An error of the client library: a [*rabbitmq.Error] or any other one. *)
Inductive rerror : Type :=
| RAmqp (code : Z) (text : string)
| ROther (text : string).

Definition rerror_string (e : rerror) : string :=
  match e with RAmqp _ text | ROther text => text end.

(** Go error values. [AMQPErr] is [*Error], or [*ChannelError] when [channel] holds;
    [Errorf] is a [fmt.Errorf] around no other error and [Wrap] one with [%w];
    [GoPanic] is a run-time panic and [Hang] a loop that does not end. *)
Inductive goerror : Type :=
| AMQPErr (channel : bool) (code : Z) (message : string)
| RabbitErr (e : rerror)
| IOErr (e : ioerr)
| Errorf (message : string)
| Wrap (prefix : string) (e : goerror)
| GoPanic
| Hang.

Definition NewError (code : Z) (message : string) : goerror := AMQPErr false code message.
Definition NewChannelError (code : Z) (message : string) : goerror := AMQPErr true code message.

(** The type assertion [err.(AMQPError)], which looks at the value itself and not at
    what it wraps. *)
Definition as_AMQPError (e : goerror) : option (bool * Z * string) :=
  match e with AMQPErr channel code message => Some (channel, code, message) | _ => None end.

(** [AMQPMessage]; the numbers of the failed method stay zero. *)
Definition AMQPMessage (e : bool * Z * string) : Method :=
  let '(channel, code, message) := e in
  if channel then
    M_ChannelClose {| ChannelClose_ReplyCode := code; ChannelClose_ReplyText := message;
                      ChannelClose_ClassId := 0; ChannelClose_MethodId := 0 |}
  else
    M_ConnectionClose {| ConnectionClose_ReplyCode := code; ConnectionClose_ReplyText := message;
                         ConnectionClose_ClassId := 0; ConnectionClose_MethodId := 0 |}.

(** [fmt.Sprintf("%d: %s", e.code, e.message)]. *)
Definition AMQPError_string (code : Z) (message : string) : string :=
  pretty code +:+ ": " +:+ message.

(** [err.Error()]; [io_text] gives the texts of the errors of [io] and [net]. *)
Fixpoint Error_string (io_text : ioerr -> string) (e : goerror) : string :=
  match e with
  | AMQPErr _ code message => AMQPError_string code message
  | RabbitErr e => rerror_string e
  | IOErr e => io_text e
  | Errorf message => message
  | Wrap prefix e => prefix +:+ ": " +:+ Error_string io_text e
  | GoPanic | Hang => EmptyString
  end.

(** A panic is no error value: no [if err != nil] sees it. *)
Definition is_panic (e : goerror) : bool := match e with GoPanic | Hang => true | _ => false end.

Definition onError (f : goerror -> goerror) (e : goerror) : goerror :=
  if is_panic e then e else f e.

(** An error of the codec as an error of the proxy. *)
Definition of_ioerr (e : ioerr) : goerror :=
  match e with Panic => GoPanic | OutOfFuel => Hang | _ => IOErr e end.

(** [fmt.Errorf("text: %w", err)] and [NewError(code, fmt.Sprintf("text: %v", err))]
    for the error of [m]. *)
Definition wrapf {S A} (text : string) (m : stm S goerror A) : stm S goerror A :=
  wrap (onError (Wrap text)) m.

Definition amqpf {S A} (io_text : ioerr -> string) (code : Z) (text : string)
  (m : stm S goerror A) : stm S goerror A :=
  wrap (onError (fun e => NewError code (text +:+ ": " +:+ Error_string io_text e))) m.

(** [errors.Is(err, target)] for a codec error: through the chain of [%w]. *)
Fixpoint errors_Is (e : goerror) (target : ioerr) : bool :=
  match e with
  | IOErr e => bool_decide (e = target)
  | Wrap _ e => errors_Is e target
  | _ => false
  end.

Lemma wrapf_ok {S A} text (m : stm S goerror A) s a s' :
  m s = (Ok a, s') -> wrapf text m s = (Ok a, s').
Proof. apply wrap_ok. Qed.
