(* ===== verification/Broker.v ===== *)
(** * The client library

    The proxy talks to its upstreams through [github.com/rabbitmq/amqp091-go], whose code
    is not part of the repository. Here are the calls it makes, the types of their
    answers, and a [Broker] that answers them: an argument of everything that uses it,
    which may let each answer depend on all the calls made before. *)

From S2P Require Import Prelude Bytes Fields Errors.

(** [rabbitmq.Queue], [rabbitmq.Publishing] and [rabbitmq.Delivery]. A publishing or a
    delivery has the fields of [Properties]; its header table is a [rabbitmq.Table]. *)
Record Queue : Type := { Queue_Name : string; Queue_Messages : Z; Queue_Consumers : Z }.

Record Publishing : Type := {
  Publishing_Headers : Table;
  Publishing_ContentType : string;
  Publishing_ContentEncoding : string;
  Publishing_DeliveryMode : Z;
  Publishing_Priority : Z;
  Publishing_CorrelationId : string;
  Publishing_ReplyTo : string;
  Publishing_Expiration : string;
  Publishing_MessageId : string;
  Publishing_Timestamp : Time;
  Publishing_Type : string;
  Publishing_UserId : string;
  Publishing_AppId : string;
  Publishing_Body : list byte
}.

Record Delivery : Type := {
  Delivery_Headers : Table;
  Delivery_ContentType : string;
  Delivery_ContentEncoding : string;
  Delivery_DeliveryMode : Z;
  Delivery_Priority : Z;
  Delivery_CorrelationId : string;
  Delivery_ReplyTo : string;
  Delivery_Expiration : string;
  Delivery_MessageId : string;
  Delivery_Timestamp : Time;
  Delivery_Type : string;
  Delivery_UserId : string;
  Delivery_AppId : string;
  Delivery_MessageCount : Z;
  Delivery_DeliveryTag : Z;
  Delivery_Redelivered : bool;
  Delivery_Exchange : string;
  Delivery_RoutingKey : string;
  Delivery_Body : list byte
}.

(** A [*rabbitmq.Connection] and a [*rabbitmq.Channel] are numbers the library gives
    out. *)
Abbreviation Conn := Z (only parsing).
Abbreviation Handle := Z (only parsing).

Inductive Call : Type :=
| Conn_Channel (c : Conn)
| Conn_Close (c : Conn)
| Ch_Close (h : Handle)
| Ch_QueueDeclare (h : Handle) (name : string) (durable autoDelete exclusive noWait : bool)
    (args : Table)
| Ch_QueueDelete (h : Handle) (name : string) (ifUnused ifEmpty noWait : bool)
| Ch_QueuePurge (h : Handle) (name : string) (noWait : bool)
| Ch_QueueBind (h : Handle) (name key exchange : string) (noWait : bool) (args : Table)
| Ch_QueueUnbind (h : Handle) (name key exchange : string) (args : Table)
| Ch_ExchangeDeclare (h : Handle) (name kind : string)
    (durable autoDelete internal noWait : bool) (args : Table)
| Ch_Publish (h : Handle) (exchange key : string) (mandatory immediate : bool)
    (msg : Publishing)
| Ch_Confirm (h : Handle) (noWait : bool)
| Ch_NotifyPublish (h : Handle)
| Ch_Consume (h : Handle) (queue consumer : string)
    (autoAck exclusive noLocal noWait : bool) (args : Table)
| Ch_Get (h : Handle) (queue : string) (autoAck : bool)
| Ch_Ack (h : Handle) (tag : Z) (multiple : bool)
| Ch_Nack (h : Handle) (tag : Z) (multiple requeue : bool)
| Ch_Cancel (h : Handle) (consumer : string) (noWait : bool)
| Ch_Qos (h : Handle) (prefetchCount prefetchSize : Z) (global : bool).

(** The values of a call that succeeds. *)
Definition answer (c : Call) : Type :=
  match c with
  | Conn_Channel _ => Handle
  | Ch_QueueDeclare _ _ _ _ _ _ _ => Queue
  | Ch_QueueDelete _ _ _ _ _ | Ch_QueuePurge _ _ _ => Z
  | Ch_Get _ _ _ => option Delivery
  | _ => ()
  end.

(** The library and the servers behind it: the answer to a call after the calls
    [before], and the number [GetNextPublishSeqNo] gives a channel. *)
Class Broker : Type := {
  respond : forall (before : list Call) (c : Call), result rerror (answer c);
  GetNextPublishSeqNo : forall (before : list Call) (h : Handle), Z
}.

Definition is_publish_on (h : Handle) (c : Call) : bool :=
  match c with Ch_Publish h' _ _ _ _ _ => h =? h' | _ => false end.

(** A broker that accepts every call: channels are numbered in the order of the
    calls, queues are empty, publishes are counted per channel. *)
Definition acceptingBroker : Broker := {|
  respond before c :=
    match c as c return result rerror (answer c) with
    | Conn_Channel _ => Ok (Z.of_nat (length before))
    | Ch_QueueDeclare _ name _ _ _ _ _ =>
        Ok {| Queue_Name := name; Queue_Messages := 0; Queue_Consumers := 0 |}
    | Ch_QueueDelete _ _ _ _ _ | Ch_QueuePurge _ _ _ => Ok 0
    | Ch_Get _ _ _ => Ok None
    | _ => Ok ()
    end;
  GetNextPublishSeqNo before h :=
    1 + Z.of_nat (length (List.filter (is_publish_on h) before))
|}.
