(* ===== verification/Decimals.v ===== *)
(** * Decimal numbers in text

    The digits of a number as [strconv] and [time] write and read them. [pretty] of stdpp
    is [strconv.Itoa]; here are the readers, and that they read back what it wrote. *)

From stdpp Require Import pretty.
From Stdlib Require Import Strings.Ascii.
From S2P Require Import Prelude Bytes.

Open Scope Z_scope.

Definition digitOf (c : Ascii.ascii) : option Z :=
  let n := Z.of_N (Ascii.N_of_ascii c) in
  if (48 <=? n) && (n <=? 57) then Some (n - 48) else None.

Definition isDigit (c : Ascii.ascii) : bool := bool_decide (is_Some (digitOf c)).

(** The value of the leading digits, from the value of those before, and what follows. *)
Fixpoint readDigits (x : Z) (s : string) : Z * string :=
  match s with
  | EmptyString => (x, EmptyString)
  | String c s' =>
      match digitOf c with Some d => readDigits (x * 10 + d) s' | None => (x, s) end
  end.

(** The text does not go on with a digit. *)
Definition stops (s : string) : Prop :=
  match s with EmptyString => True | String c _ => digitOf c = None end.

(** [strconv.ParseInt(s, 10, 64)] without its error. *)
Definition parseMagnitude (neg : bool) (s : string) : option Z :=
  match s, readDigits 0 s with
  | String _ _, (v, EmptyString) =>
      let v := if neg then - v else v in if in_int 64 v then Some v else None
  | _, _ => None
  end.

Definition ParseInt (s : string) : option Z :=
  match s with
  | String c s' =>
      if Ascii.eqb c "-"%char then parseMagnitude true s'
      else if Ascii.eqb c "+"%char then parseMagnitude false s'
      else parseMagnitude false s
  | EmptyString => None
  end.

(** ** Reading what was written *)

Lemma digitOf_range c d : digitOf c = Some d -> 0 <= d < 10.
Proof.
  unfold digitOf. set (n := Z.of_N _). destruct (Z.leb_spec 48 n); [|done].
  destruct (Z.leb_spec n 57); [|done]. simpl. intros [= <-]. lia.
Qed.

Lemma digitOf_char n : (n < 10)%N -> digitOf (pretty_N_char n) = Some (Z.of_N n).
Proof.
  apply (each_below_N (fun n => digitOf (pretty_N_char n) = Some (Z.of_N n))). repeat constructor.
Qed.

Lemma readDigits_char x n s : (n < 10)%N ->
  readDigits x (String (pretty_N_char n) s) = readDigits (x * 10 + Z.of_N n) s.
Proof. intros Hn. simpl. by rewrite digitOf_char. Qed.

Lemma readDigits_ge x s : 0 <= x -> x <= (readDigits x s).1.
Proof.
  revert x. induction s as [|c s IH]; intros x Hx; simpl; [lia|].
  destruct (digitOf c) as [d|] eqn:E; [|simpl; lia].
  apply digitOf_range in E. specialize (IH (x * 10 + d) ltac:(lia)). lia.
Qed.

Lemma readDigits_stops x s : stops s -> readDigits x s = (x, s).
Proof. destruct s as [|c s]; [done|]. simpl. by intros ->. Qed.

Lemma readDigits_go n s : readDigits 0 (pretty_N_go n s) = readDigits (Z.of_N n) s.
Proof.
  revert s. induction (N.lt_wf_0 n) as [n _ IH]. intros s.
  destruct (decide (0 < n)%N) as [Hn|Hn]; [|by replace n with 0%N by lia].
  rewrite pretty_N_go_step, IH by (done || by apply N.div_lt).
  rewrite readDigits_char by by apply N.mod_lt. f_equal.
  pose proof (N.div_mod n 10 ltac:(done)). lia.
Qed.

Lemma pretty_N_go_app n s : pretty_N_go n s = (pretty_N_go n "" +:+ s)%string.
Proof.
  enough (G : forall t, pretty_N_go n (t +:+ s)%string = (pretty_N_go n t +:+ s)%string) by apply (G ""%string).
  induction (N.lt_wf_0 n) as [n _ IH]. intros t.
  destruct (decide (0 < n)%N) as [Hn|Hn]; [|by replace n with 0%N by lia].
  rewrite !(pretty_N_go_step n) by done. rewrite <- IH by by apply N.div_lt. done.
Qed.

Lemma pretty_nonneg z : 0 <= z -> pretty z = pretty (Z.to_N z).
Proof. by destruct z. Qed.

Lemma readDigits_pretty z s : 0 <= z -> readDigits 0 (pretty z +:+ s)%string = readDigits z s.
Proof.
  intros Hz. rewrite pretty_nonneg by done. unfold pretty, pretty_N. case_decide as E.
  - replace z with 0 by lia. done.
  - rewrite <- pretty_N_go_app, readDigits_go. f_equal. lia.
Qed.

(** The first character of a number is a digit. *)
Lemma pretty_N_go_head n s : (0 < n)%N ->
  exists c s', pretty_N_go n s = String c s' /\ is_Some (digitOf c).
Proof.
  revert s. induction (N.lt_wf_0 n) as [n _ IH]. intros s Hn. rewrite pretty_N_go_step by done.
  destruct (N.eq_0_gt_0_cases (n / 10)) as [Hq|Hq]; [|by apply IH; [apply N.div_lt|]].
  rewrite Hq, pretty_N_go_0. do 2 eexists. split; [done|].
  rewrite digitOf_char by by apply N.mod_lt. by eexists.
Qed.

Lemma pretty_head z : 0 <= z -> exists c s, pretty z = String c s /\ is_Some (digitOf c).
Proof.
  intros Hz. rewrite pretty_nonneg by done. unfold pretty, pretty_N. case_decide.
  - exists "0"%char, ""%string. by split; [|eexists].
  - apply pretty_N_go_head. lia.
Qed.

Lemma digit_unsigned c : is_Some (digitOf c) -> Ascii.eqb c "-"%char = false /\ Ascii.eqb c "+"%char = false.
Proof.
  intros [d Hd]. split; apply Ascii.eqb_neq; intros ->; done.
Qed.

Lemma pretty_neg z : z < 0 -> pretty z = String "-"%char (pretty (- z)).
Proof. by destruct z. Qed.

Lemma parseMagnitude_pretty (neg : bool) (z : Z) : 0 <= z -> in_int 64 (if neg then - z else z) = true ->
  parseMagnitude neg (pretty z) = Some (if neg then - z else z).
Proof.
  intros Hz Hi. unfold parseMagnitude. pose proof (readDigits_pretty z EmptyString Hz) as E.
  rewrite append_nil in E. destruct (pretty_head z Hz) as (c & s & Es & _).
  rewrite Es in *. rewrite E. simpl. by rewrite Hi.
Qed.

Lemma ParseInt_pretty z : in_int 64 z = true -> ParseInt (pretty z) = Some z.
Proof.
  intros Hz. unfold ParseInt. destruct (Z.ltb_spec z 0) as [Hn|Hn].
  - rewrite pretty_neg by done. cbv iota beta. rewrite Ascii.eqb_refl.
    rewrite parseMagnitude_pretty; [f_equal; lia|lia|by rewrite Z.opp_involutive].
  - pose proof (parseMagnitude_pretty false z Hn Hz) as E. destruct (pretty_head z Hn) as (c & s & Es & Hc).
    rewrite Es in *. by destruct (digit_unsigned c Hc) as [-> ->].
Qed.
