(* ===== verification/Times.v ===== *)
(** * Times and durations

    What the program uses of the package [time]: comparing and subtracting times, and
    the text of a duration. A [Duration] is a number of nanoseconds in an [int64]; a
    clock reading is a [Time], the monotonic reading of which is not told apart. *)

From stdpp Require Import pretty.
From S2P Require Import Prelude Bytes Fields.

Open Scope Z_scope.

Definition minDuration : Z := - 2 ^ 63.
Definition maxDuration : Z := 2 ^ 63 - 1.

Definition Nanosecond : Z := 1.
Definition Microsecond : Z := 1000.
Definition Millisecond : Z := 1000000.
Definition Sec : Z := 1000000000.

(** Nanoseconds since the epoch, unbounded. *)
Definition nanos (t : Time) : Z := unix t * Sec + nsec t.

Definition Before (t u : Time) : bool :=
  (unix t <? unix u) || ((unix t =? unix u) && (nsec t <? nsec u)).
Definition After (t u : Time) : bool := Before u t.

(** [t.Sub(u)] is the nearest duration to the difference. *)
Definition Sub (t u : Time) : Z := Z.max minDuration (Z.min maxDuration (nanos t - nanos u)).

(** [time.Since(t)], when the clock shows [now]. *)
Definition Since (now t : Time) : Z := Sub now t.

(** A time is normal when its nanoseconds are within a second. *)
Definition normal (t : Time) : Prop := 0 <= nsec t < Sec.

Lemma Before_nanos t u : normal t -> normal u -> (Before t u = true <-> nanos t < nanos u).
Proof.
  unfold normal, Before, nanos, Sec. intros Ht Hu.
  rewrite orb_true_iff, andb_true_iff, !Z.ltb_lt, Z.eqb_eq. lia.
Qed.

Lemma Before_trans t u v : Before t u = true -> Before u v = true -> Before t v = true.
Proof.
  unfold Before. rewrite !orb_true_iff, !andb_true_iff, !Z.ltb_lt, !Z.eqb_eq. lia.
Qed.

Lemma Before_irrefl t : Before t t = false.
Proof. unfold Before. by rewrite !Z.ltb_irrefl, andb_false_r. Qed.

Lemma Before_total t u : Before t u = false -> Before u t = false -> t = u.
Proof.
  unfold Before. rewrite !orb_false_iff, !andb_false_iff, !Z.ltb_ge, !Z.eqb_neq.
  destruct t, u; simpl. intros. f_equal; lia.
Qed.

Lemma Sub_exact t u : minDuration <= nanos t - nanos u <= maxDuration ->
  Sub t u = nanos t - nanos u.
Proof. unfold Sub. lia. Qed.

Lemma Sub_int64 t u : in_int 64 (Sub t u) = true.
Proof. apply in_int_spec. unfold Sub, minDuration, maxDuration. lia. Qed.

(** ** [Duration.String] *)

(** [fmtFrac]: the last [prec] digits of [v] after a point, without trailing zeros, and
    the number before them. *)
Fixpoint fmtFrac (prec : nat) (v : Z) (print : bool) (acc : string) : string * Z :=
  match prec with
  | O => (if print then "." +:+ acc else acc, v)
  | S prec' =>
      let digit := v mod 10 in
      let print := print || negb (digit =? 0) in
      fmtFrac prec' (v / 10) print (if print then pretty digit +:+ acc else acc)
  end.

Definition frac (prec : nat) (v : Z) : string * Z := fmtFrac prec v false EmptyString.

Definition micro : string :=
  String (Ascii.ascii_of_nat 194) (String (Ascii.ascii_of_nat 181) EmptyString).

Definition Duration_String (d : Z) : string :=
  let u := Z.abs d in
  let body :=
    if u =? 0 then "0s"
    else if u <? Microsecond then let (f, n) := frac 0 u in pretty n +:+ f +:+ "ns"
    else if u <? Millisecond then let (f, n) := frac 3 u in pretty n +:+ f +:+ micro +:+ "s"
    else if u <? Sec then let (f, n) := frac 6 u in pretty n +:+ f +:+ "ms"
    else
      let (f, s) := frac 9 u in
      let secs := pretty (s mod 60) +:+ f +:+ "s" in
      let m := s / 60 in
      if m =? 0 then secs
      else
        let mins := pretty (m mod 60) +:+ "m" +:+ secs in
        if m / 60 =? 0 then mins else pretty (m / 60) +:+ "h" +:+ mins in
  if d <? 0 then "-" +:+ body else body.

Example Duration_String_0 : Duration_String 0 = "0s".
Proof. reflexivity. Qed.
Example Duration_String_1 : Duration_String 5000000000 = "5s".
Proof. reflexivity. Qed.
Example Duration_String_2 : Duration_String 90061500000000 = "25h1m1.5s".
Proof. reflexivity. Qed.
Example Duration_String_3 : Duration_String (-1020000) = "-1.02ms".
Proof. reflexivity. Qed.
