(* ===== verification/Numbers.v ===== *)
(** * Durations and numbers for the eye

    [tui/format.go]: [formatDuration] and [formatNumber], which go through [float64]. A
    float is the rational number it stands for; every operation rounds its exact result
    to 53 bits, ties to even. The numbers here are far from the least and greatest floats,
    so that the exponent is not limited. *)

From Stdlib Require Import QArith Qround Qabs Qpower Lqa.
From stdpp Require Import pretty.
From S2P Require Import Prelude Times.

Open Scope Q_scope.

Definition Minute : Z := 60 * Sec.
Definition Hour : Z := 60 * Minute.
Definition Day : Z := 24 * Hour.

(** ** Rounding *)

Definition roundHalfEven (q : Q) : Z :=
  let z := Qfloor q in
  match Qcompare (q - inject_Z z) (1 # 2) with
  | Lt => z
  | Gt => (z + 1)%Z
  | Eq => if Z.even z then z else (z + 1)%Z
  end.

(** The exponent of the leading bit of a number other than 0. *)
Definition expo (q : Q) : Z :=
  let e := (Z.log2 (Z.abs (Qnum q)) - Z.log2 (Z.pos (Qden q)))%Z in
  if Qle_bool (Qpower 2 e) (Qabs q) then e else (e - 1)%Z.

Definition ulp (q : Q) : Q := Qpower 2 (expo q - 52).

Definition RN (q : Q) : Q :=
  if Qeq_bool q 0 then 0 else Qred (inject_Z (roundHalfEven (q / ulp q)) * ulp q).

Definition float64 (z : Z) : Q := RN (inject_Z z).

(** [int(x)] drops the fraction. *)
Definition trunc (q : Q) : Z := if Qle_bool 0 q then Qfloor q else (- Qfloor (- q))%Z.

(** [d.Seconds()], [d.Minutes()], [d.Hours()], by the unit. *)
Definition in_unit (u d : Z) : Q :=
  RN (float64 (Z.quot d u) + RN (float64 (Z.rem d u) / inject_Z u)).

Definition formatDuration (d : Z) : string :=
  if (d <? Minute)%Z then pretty (trunc (in_unit Sec d)) +:+ "s ago"
  else if (d <? Hour)%Z then pretty (trunc (in_unit Minute d)) +:+ "m ago"
  else if (d <? Day)%Z then pretty (trunc (in_unit Hour d)) +:+ "h ago"
  else pretty (trunc (RN (in_unit Hour d / inject_Z 24))) +:+ "d ago".

(** [%.1f] of a number that is not negative. *)
Definition tenths (q : Q) : Z := roundHalfEven (q * inject_Z 10).
Definition fixed1 (t : Z) : string := pretty (t / 10)%Z +:+ "." +:+ pretty (t mod 10)%Z.

Definition scaled (n u : Z) : Z := tenths (RN (float64 n / inject_Z u)).

Definition formatNumber (n : Z) : string :=
  if (n <? 1000)%Z then pretty n
  else if (n <? 1000000)%Z then fixed1 (scaled n 1000) +:+ "K"
  else if (n <? 1000000000)%Z then fixed1 (scaled n 1000000) +:+ "M"
  else fixed1 (scaled n 1000000000) +:+ "G".

Example format_samples :
  map formatNumber [0; 999; 1000; 1250; 1350; 999949; 999950; 1234567; 5000000000; 9223372036854775807]%Z
  = ["0"; "999"; "1.0K"; "1.2K"; "1.4K"; "999.9K"; "1000.0K"; "1.2M"; "5.0G"; "9223372036.9G"]%string.
Proof. vm_compute. reflexivity. Qed.

Example duration_samples :
  map formatDuration [0; 59 * Sec + 999999999; 60 * Sec; Hour - 1; Day - 1; Day; maxDuration; - Sec - 1]%Z
  = ["0s ago"; "59s ago"; "1m ago"; "59m ago"; "23h ago"; "1d ago"; "106751d ago"; "-1s ago"]%string.
Proof. vm_compute. reflexivity. Qed.

(** ** How far rounding goes *)

Lemma inject_succ z : inject_Z (z + 1) == inject_Z z + 1.
Proof. by rewrite inject_Z_plus. Qed.

Lemma roundHalfEven_near q : Qabs (inject_Z (roundHalfEven q) - q) <= 1 # 2.
Proof.
  unfold roundHalfEven. pose proof (Qfloor_le q) as H1. pose proof (Qlt_floor q) as H2.
  rewrite inject_succ in H2. set (z := Qfloor q) in *.
  apply Qabs_Qle_condition. destruct (Qcompare _ _) eqn:E.
  - apply Qeq_alt in E. destruct (Z.even z); rewrite ?inject_succ; split; lra.
  - apply Qlt_alt in E. split; lra.
  - apply Qgt_alt in E. rewrite inject_succ. split; lra.
Qed.

Lemma roundHalfEven_ge z q : inject_Z z <= q -> (z <= roundHalfEven q)%Z.
Proof.
  intros Hz. apply Qfloor_resp_le in Hz. rewrite Qfloor_Z in Hz. unfold roundHalfEven.
  destruct (Qcompare _ _); [destruct (Z.even _)|..]; lia.
Qed.

Lemma roundHalfEven_le z q : q <= inject_Z z -> (roundHalfEven q <= z)%Z.
Proof.
  intros Hz. pose proof (Qfloor_le q) as H1. pose proof (Qfloor_resp_le _ _ Hz) as Hf.
  rewrite Qfloor_Z in Hf. unfold roundHalfEven. set (f := Qfloor q) in *.
  destruct (Z.eq_dec f z) as [E|E]; [|destruct (Qcompare _ _); [destruct (Z.even _)|..]; lia].
  subst z. destruct (Qcompare _ _) eqn:C; [|lia|].
  - apply Qeq_alt in C. lra.
  - apply Qgt_alt in C. lra.
Qed.

Lemma two_pos e : 0 < Qpower 2 e.
Proof. apply Qpower_0_lt. lra. Qed.

Lemma two_plus a b : Qpower 2 (a + b) == Qpower 2 a * Qpower 2 b.
Proof. apply Qpower_plus. lra. Qed.

Lemma two_Z n : (0 <= n)%Z -> Qpower 2 n == inject_Z (2 ^ n).
Proof. intros Hn. by rewrite Zpower_Qpower. Qed.

Lemma ulp_pos q : 0 < ulp q.
Proof. apply two_pos. Qed.

(** The number is at least the power of two of its exponent. *)
Lemma expo_le q : ~ q == 0 -> Qpower 2 (expo q) <= Qabs q.
Proof.
  intros Hq. unfold expo. set (e := (_ - _)%Z). destruct (Qle_bool _ _) eqn:E.
  { by apply Qle_bool_iff. }
  destruct q as [n d]. unfold Qeq in Hq. cbn [Qnum Qden] in *. subst e.
  pose proof (Z.log2_spec (Z.abs n) ltac:(lia)) as [H1 _].
  pose proof (Z.log2_spec (Zpos d) ltac:(lia)) as [_ H2].
  set (a := Z.log2 (Z.abs n)) in *. set (b := Z.log2 (Zpos d)) in *.
  assert (Ha : (0 <= a)%Z) by apply Z.log2_nonneg. assert (Hb : (0 <= b)%Z) by apply Z.log2_nonneg.
  apply (Qmult_le_r _ _ (Qpower 2 (b + 1))); [apply two_pos|]. rewrite <- two_plus.
  replace (a - b - 1 + (b + 1))%Z with a by lia. rewrite two_Z by done.
  rewrite two_Z by lia. unfold Qle, Qabs. simpl. rewrite !Z.mul_1_r, Pos.mul_1_r. nia.
Qed.

(** Half a unit in the last of 53 places. *)
Definition eps : Q := 1 # (2 ^ 53).

Lemma RN_zero q : q == 0 -> RN q = 0.
Proof. intros H. unfold RN. by rewrite (proj2 (Qeq_bool_iff q 0) H). Qed.

Lemma RN_def q : ~ q == 0 -> RN q == inject_Z (roundHalfEven (q / ulp q)) * ulp q.
Proof.
  intros H. unfold RN. destruct (Qeq_bool q 0) eqn:E; [by apply Qeq_bool_iff in E|]. apply Qred_correct.
Qed.

Lemma ulp_le q : ~ q == 0 -> ulp q <= Qabs q * (2 * eps).
Proof.
  intros Hq. unfold ulp. replace (expo q - 52)%Z with (expo q + (-52))%Z by lia. rewrite two_plus.
  pose proof (expo_le q Hq). assert (E : Qpower 2 (-52) == 2 * eps) by reflexivity. rewrite E.
  apply Qmult_le_compat_r; [done|]. by vm_compute.
Qed.

Lemma RN_near q : Qabs (RN q - q) <= Qabs q * eps.
Proof.
  destruct (Qeq_dec q 0) as [E|E].
  { rewrite RN_zero by done. rewrite E. by vm_compute. }
  rewrite RN_def by done. pose proof (ulp_pos q) as Hu. pose proof (ulp_le q E) as Hl.
  set (u := ulp q) in *. pose proof (roundHalfEven_near (q / u)) as Hr.
  set (r := inject_Z _) in *. assert (Hd : r * u - q == (r - q / u) * u) by (field; lra).
  rewrite Hd, Qabs_Qmult, (Qabs_pos u) by lra.
  apply Qle_trans with ((1 # 2) * u); [apply Qmult_le_compat_r; lra|lra].
Qed.

(** Rounding does not cross an integer. *)
Lemma over_ulp z q : ~ q == 0 -> Qabs q < inject_Z (2 ^ 53) ->
  exists z', inject_Z z' * ulp q == inject_Z z.
Proof.
  intros Hq Hb. pose proof (expo_le q Hq) as He.
  assert (Hx : (expo q <= 52)%Z).
  { destruct (Z.le_gt_cases (expo q) 52) as [|H]; [done|]. exfalso.
    assert (Qpower 2 53 <= Qpower 2 (expo q)).
    { replace (expo q) with (53 + (expo q - 53))%Z by lia. rewrite two_plus.
      rewrite (two_Z (expo q - 53)) by lia. assert (H1 : 1 <= inject_Z (2 ^ (expo q - 53))).
      { change 1 with (inject_Z 1). rewrite <- Zle_Qle. pose proof (Z.pow_pos_nonneg 2 (expo q - 53)). lia. }
      pose proof (two_pos 53). nra. }
    rewrite two_Z in H0 by done. lra. }
  exists (z * 2 ^ (52 - expo q))%Z. unfold ulp. rewrite inject_Z_mult, <- two_Z by lia.
  rewrite <- Qmult_assoc, <- two_plus. replace (52 - expo q + (expo q - 52))%Z with 0%Z by lia.
  change (Qpower 2 0) with 1. ring.
Qed.

Lemma RN_ge z q : Qabs q < inject_Z (2 ^ 53) -> inject_Z z <= q -> inject_Z z <= RN q.
Proof.
  intros Hb Hz. destruct (Qeq_dec q 0) as [E|E]; [rewrite RN_zero by done; lra|].
  rewrite RN_def by done. destruct (over_ulp z q E Hb) as [z' Hz']. rewrite <- Hz'.
  pose proof (ulp_pos q) as Hu. apply Qmult_le_compat_r; [|lra]. rewrite <- Zle_Qle.
  apply roundHalfEven_ge. apply Qle_shift_div_l; [done|]. by rewrite Hz'.
Qed.

Lemma RN_le z q : Qabs q < inject_Z (2 ^ 53) -> q <= inject_Z z -> RN q <= inject_Z z.
Proof.
  intros Hb Hz. destruct (Qeq_dec q 0) as [E|E]; [rewrite RN_zero by done; lra|].
  rewrite RN_def by done. destruct (over_ulp z q E Hb) as [z' Hz']. rewrite <- Hz'.
  pose proof (ulp_pos q) as Hu. apply Qmult_le_compat_r; [|lra]. rewrite <- Zle_Qle.
  apply roundHalfEven_le. apply Qle_shift_div_r; [done|]. by rewrite Hz'.
Qed.

Lemma float64_exact z : (Z.abs z < 2 ^ 53)%Z -> float64 z == inject_Z z.
Proof.
  intros Hz. assert (Hb : Qabs (inject_Z z) < inject_Z (2 ^ 53)).
  { rewrite Zlt_Qlt in Hz. eapply Qle_lt_trans; [|exact Hz]. apply Qle_refl. }
  apply Qle_antisym; [by apply RN_le; [|lra]|by apply RN_ge; [|lra]].
Qed.

(** The bounds of a rounded number that is not negative. *)
Lemma RN_range q : 0 <= q -> q * (1 - eps) <= RN q <= q * (1 + eps).
Proof.
  intros Hq. pose proof (RN_near q) as H. rewrite (Qabs_pos q) in H by done.
  apply Qabs_Qle_condition in H as [H1 H2]. split; lra.
Qed.

(** ** Durations *)

Lemma in_unit_range u d : (0 < u <= Hour)%Z -> (0 <= d)%Z -> (d / u < 2 ^ 40)%Z ->
  inject_Z (d / u) <= in_unit u d <=
    (inject_Z (d / u) + inject_Z (d mod u) / inject_Z u * (1 + eps)) * (1 + eps).
Proof.
  intros Hu Hd Hh. unfold in_unit. rewrite Z.quot_div_nonneg, Z.rem_mod_nonneg by lia.
  pose proof (Z.mod_pos_bound d u ltac:(lia)) as Hr. pose proof (Z.div_pos d u Hd ltac:(lia)) as Hq.
  unfold Hour, Minute, Sec in Hu. pose proof (float64_exact (d / u) ltac:(lia)) as E1.
  pose proof (float64_exact (d mod u) ltac:(lia)) as E2.
  set (h := (d / u)%Z) in *. set (r := (d mod u)%Z) in *.
  assert (Hu' : 0 < inject_Z u) by (change 0 with (inject_Z 0); rewrite <- Zlt_Qlt; lia).
  assert (Hr1 : 0 <= inject_Z r) by (change 0 with (inject_Z 0); rewrite <- Zle_Qle; lia).
  assert (Hr2 : inject_Z r / inject_Z u <= 1).
  { apply Qle_shift_div_r; [done|]. rewrite Qmult_1_l, <- Zle_Qle. lia. }
  assert (Hr0 : 0 <= inject_Z r / inject_Z u) by (apply Qle_shift_div_l; [done|lra]).
  assert (Hh0 : 0 <= inject_Z h) by (change 0 with (inject_Z 0); rewrite <- Zle_Qle; lia).
  assert (Hh1 : inject_Z h <= inject_Z (2 ^ 40)) by (rewrite <- Zle_Qle; lia).
  set (x := float64 r / inject_Z u). assert (Hx : x == inject_Z r / inject_Z u) by (unfold x; by rewrite E2).
  pose proof (RN_range x ltac:(lra)) as [Hy1 Hy2]. set (y := RN x) in *.
  assert (He : 0 < eps < 1 # 100) by (split; by vm_compute).
  assert (Hy0 : 0 <= y) by nra. assert (Hy3 : y <= 2) by nra.
  pose proof (RN_range (float64 h + y) ltac:(lra)) as [_ Hz]. split.
  - apply RN_ge; [|lra]. rewrite Qabs_pos by lra.
    change (inject_Z (2 ^ 40)) with (1099511627776 # 1) in Hh1.
    change (inject_Z (2 ^ 53)) with (9007199254740992 # 1). lra.
  - eapply Qle_trans; [exact Hz|]. apply Qmult_le_compat_r; [|lra]. rewrite <- Hx. lra.
Qed.

Lemma trunc_floor q : 0 <= q -> trunc q = Qfloor q.
Proof. intros H. unfold trunc. by rewrite (proj2 (Qle_bool_iff 0 q) H). Qed.

Lemma floor_is z q : inject_Z z <= q -> q < inject_Z (z + 1) -> Qfloor q = z.
Proof.
  intros H1 H2. apply Qfloor_resp_le in H1. rewrite Qfloor_Z in H1.
  pose proof (Qfloor_le q) as H3. assert (H4 : inject_Z (Qfloor q) < inject_Z (z + 1)) by lra.
  rewrite <- Zlt_Qlt in H4. lia.
Qed.

(** Seconds, minutes and hours are cut, not rounded up. *)
Lemma in_unit_floor u d : (0 < u <= Hour)%Z -> (0 <= d < 60 * u)%Z ->
  trunc (in_unit u d) = (d / u)%Z.
Proof.
  intros Hu Hd. assert (Hh : (0 <= d / u < 60)%Z).
  { split; [apply Z.div_pos; lia|apply Z.div_lt_upper_bound; lia]. }
  destruct (in_unit_range u d Hu ltac:(lia) ltac:(lia)) as [H1 H2].
  pose proof (Z.mod_pos_bound d u ltac:(lia)) as Hr.
  set (h := (d / u)%Z) in *. set (r := (d mod u)%Z) in *. unfold Hour, Minute, Sec in Hu.
  assert (Hu' : 0 < inject_Z u) by (change 0 with (inject_Z 0); rewrite <- Zlt_Qlt; lia).
  assert (Hh0 : 0 <= inject_Z h) by (change 0 with (inject_Z 0); rewrite <- Zle_Qle; lia).
  assert (Hh1 : inject_Z h <= 60) by (change 60 with (inject_Z 60); rewrite <- Zle_Qle; lia).
  assert (Hx : inject_Z r / inject_Z u <= 1 - (1 # 3600000000000)).
  { apply Qle_shift_div_r; [done|].
    assert (inject_Z u <= 3600000000000) by (change 3600000000000 with (inject_Z 3600000000000); rewrite <- Zle_Qle; lia).
    assert (inject_Z r + 1 <= inject_Z u) by (rewrite <- inject_succ, <- Zle_Qle; lia). lra. }
  set (x := inject_Z r / inject_Z u) in *. rewrite trunc_floor by lra.
  apply floor_is; [done|]. rewrite inject_succ. eapply Qle_lt_trans; [exact H2|]. change eps with (1 # 9007199254740992) in *. lra.
Qed.

(** The unit that is shown, its letter, and how far ahead of time the next number may
    come: days are computed from hours, with fewer than a microsecond's bits left. *)
Definition unit_of (d : Z) : Z * string * Z :=
  if (d <? Minute)%Z then (Sec, "s ago"%string, 0%Z)
  else if (d <? Hour)%Z then (Minute, "m ago"%string, 0%Z)
  else if (d <? Day)%Z then (Hour, "h ago"%string, 0%Z)
  else (Day, "d ago"%string, 4000%Z).

(** A number of days. *)
Lemma days_floor d : (Day <= d <= maxDuration)%Z -> exists k,
  trunc (RN (in_unit Hour d / inject_Z 24)) = k /\ (k * Day - 4000 <= d < (k + 1) * Day)%Z.
Proof.
  unfold Day, maxDuration. intros Hd.
  assert (Hh : (24 <= d / Hour <= 2562047)%Z).
  { split; [apply Z.div_le_lower_bound; unfold Hour, Minute, Sec in *; lia|].
    apply Z.lt_succ_r, Z.div_lt_upper_bound; unfold Hour, Minute, Sec in *; lia. }
  destruct (in_unit_range Hour d ltac:(by split) ltac:(unfold Hour, Minute, Sec in *; lia) ltac:(lia)) as [H1 H2].
  pose proof (Z.mod_pos_bound d Hour ltac:(by vm_compute)) as Hr.
  pose proof (Z.div_mod d Hour ltac:(by vm_compute)) as Hdm.
  set (h := (d / Hour)%Z) in *. set (r := (d mod Hour)%Z) in *.
  change (inject_Z Hour) with 3600000000000 in *. change Hour with 3600000000000%Z in *.
  change eps with (1 # 9007199254740992) in *.
  set (t := inject_Z r / 3600000000000) in *.
  assert (Ht0 : 3600000000000 * t == inject_Z r) by (unfold t; field).
  assert (Hr0 : 0 <= inject_Z r) by (change 0 with (inject_Z 0); rewrite <- Zle_Qle; lia).
  assert (Hr1 : inject_Z r <= 3600000000000) by (change 3600000000000 with (inject_Z 3600000000000); rewrite <- Zle_Qle; lia).
  assert (Hh0 : 24 <= inject_Z h) by (change 24 with (inject_Z 24); rewrite <- Zle_Qle; lia).
  assert (Hh1 : inject_Z h <= 2562047) by (change 2562047 with (inject_Z 2562047); rewrite <- Zle_Qle; lia).
  set (x := in_unit 3600000000000 d) in *. set (y := x / inject_Z 24).
  assert (Hy : inject_Z 24 * y == x) by (unfold y; field). change (inject_Z 24) with 24 in Hy.
  pose proof (RN_range y ltac:(lra)) as [_ Hz]. change eps with (1 # 9007199254740992) in Hz.
  assert (HD : (24 * (h / 24) <= h < 24 * (h / 24) + 24)%Z) by (pose proof (Z.div_mod h 24); pose proof (Z.mod_pos_bound h 24); lia).
  assert (HD' : 24 * inject_Z (h / 24) <= inject_Z h).
  { change 24 with (inject_Z 24). rewrite <- inject_Z_mult, <- Zle_Qle. lia. }
  pose proof (RN_ge (h / 24) y) as Hg. change (inject_Z (2 ^ 53)) with (9007199254740992 # 1) in Hg.
  rewrite Qabs_pos in Hg by lra. specialize (Hg ltac:(lra) ltac:(lra)).
  assert (HD0 : 0 <= inject_Z (h / 24)) by (change 0 with (inject_Z 0); rewrite <- Zle_Qle; lia).
  exists (Qfloor (RN y)). split; [apply trunc_floor; lra|]. pose proof (Qfloor_le (RN y)) as Hf.
  set (k := Qfloor (RN y)) in *. split.
  - rewrite Zle_Qle. unfold Zminus. rewrite inject_Z_plus, Hdm, inject_Z_plus, !inject_Z_mult.
    change (inject_Z 24) with 24. change (inject_Z 3600000000000) with 3600000000000.
    change (inject_Z (- (4000))) with (-4000 # 1). lra.
  - assert (Hk : (h / 24 <= k)%Z) by (unfold k; rewrite <- (Qfloor_Z (h / 24)); by apply Qfloor_resp_le). lia.
Qed.

(** A duration that is not negative is shown in the greatest of seconds, minutes,
    hours and days that fits, by the whole number of them that have passed: exactly, but
    for days, which may come four microseconds early. *)
Theorem formatDuration_floor d : (0 <= d <= maxDuration)%Z ->
  let '(u, letter, early) := unit_of d in exists k,
  formatDuration d = pretty k +:+ letter /\ (k * u - early <= d < (k + 1) * u)%Z.
Proof.
  intros Hd. unfold unit_of, formatDuration.
  assert (G : forall u, (0 < u)%Z -> (d / u * u - 0 <= d < (d / u + 1) * u)%Z).
  { intros u Hu. pose proof (Z.div_mod d u). pose proof (Z.mod_pos_bound d u). lia. }
  assert (U : (Sec = 1000000000 /\ Minute = 60 * Sec /\ Hour = 60 * Minute /\ Day = 24 * Hour)%Z) by done.
  destruct (Z.ltb_spec d Minute); [|destruct (Z.ltb_spec d Hour); [|destruct (Z.ltb_spec d Day)]].
  1-3: eexists; split; [by rewrite in_unit_floor by lia|apply G; lia].
  destruct (days_floor d ltac:(lia)) as (k & <- & Hk). by eexists.
Qed.

Lemma formatDuration_floor_witness :
  let '(u, letter, early) := unit_of (90 * Minute) in exists k,
  formatDuration (90 * Minute) = pretty k +:+ letter /\ (k * u - early <= 90 * Minute < (k + 1) * u)%Z.
Proof. apply (formatDuration_floor (90 * Minute)). by vm_compute. Defined.

(** A nanosecond short of a hundred thousand days. *)
Example days_early : formatDuration (100000 * Day - 1) = "100000d ago".
Proof. vm_compute. reflexivity. Qed.

(** ** Numbers *)

(** A number in tenths of a unit is the nearest one. *)
Lemma scaled_near n u : (0 < u)%Z -> (0 <= n < 10 ^ 14)%Z -> (u <= n)%Z -> (u <= 10 ^ 9)%Z ->
  (2 * Z.abs (10 * n - scaled n u * u) <= u)%Z.
Proof.
  intros Hu Hn Hun Hu9. unfold scaled, tenths. pose proof (float64_exact n ltac:(lia)) as En.
  assert (Hu' : 0 < inject_Z u) by (change 0 with (inject_Z 0); rewrite <- Zlt_Qlt; lia).
  assert (Hn0 : 0 <= inject_Z n) by (change 0 with (inject_Z 0); rewrite <- Zle_Qle; lia).
  assert (Hn1 : inject_Z n <= 100000000000000) by (change 100000000000000 with (inject_Z 100000000000000); rewrite <- Zle_Qle; lia).
  set (x := float64 n / inject_Z u). assert (Hx : x * inject_Z u == inject_Z n) by (unfold x; rewrite En; field; lra).
  assert (Hx0 : 0 <= x) by (apply Qle_shift_div_l; [done|]; rewrite En; lra).
  pose proof (RN_range x Hx0) as [H1 H2]. change eps with (1 # 9007199254740992) in *.
  set (y := RN x) in *. pose proof (roundHalfEven_near (y * inject_Z 10)) as Ht.
  change (inject_Z 10) with 10 in *. set (t := roundHalfEven (y * 10)) in *.
  apply Qabs_Qle_condition in Ht as [Ht1 Ht2].
  assert (A1 : inject_Z t * inject_Z u <= 10 * inject_Z n + (1 # 2) * inject_Z u + (1 # 8)).
  { apply Qle_trans with ((10 * (x * (1 + (1 # 9007199254740992))) + (1 # 2)) * inject_Z u);
      [apply Qmult_le_compat_r; lra|]. lra. }
  assert (A2 : 10 * inject_Z n <= inject_Z t * inject_Z u + (1 # 2) * inject_Z u + (1 # 8)).
  { apply Qle_trans with ((10 * (x * (1 - (1 # 9007199254740992))) * inject_Z u) + (1 # 8)); [lra|].
    assert (10 * (x * (1 - (1 # 9007199254740992))) * inject_Z u
      <= (inject_Z t + (1 # 2)) * inject_Z u) by (apply Qmult_le_compat_r; lra). lra. }
  assert (B1 : (8 * (t * u) <= 80 * n + 4 * u + 1)%Z).
  { rewrite Zle_Qle, !inject_Z_plus, !inject_Z_mult. change (inject_Z 8) with 8. change (inject_Z 80) with 80.
    change (inject_Z 4) with 4. change (inject_Z 1) with 1. lra. }
  assert (B2 : (80 * n <= 8 * (t * u) + 4 * u + 1)%Z).
  { rewrite Zle_Qle, !inject_Z_plus, !inject_Z_mult. change (inject_Z 8) with 8. change (inject_Z 80) with 80.
    change (inject_Z 4) with 4. change (inject_Z 1) with 1. lra. }
  lia.
Qed.

(** Thousands, millions and from there on milliards. *)
Definition scale_of (n : Z) : Z * string :=
  if (n <? 1000000)%Z then (1000%Z, "K"%string)
  else if (n <? 1000000000)%Z then (1000000%Z, "M"%string)
  else (1000000000%Z, "G"%string).

(** A number of a thousand and more, up to 10^14, is shown in thousands, millions or
    milliards to the nearest tenth, never rounded twice; a smaller one as it is. *)
Theorem formatNumber_nearest n : (n < 10 ^ 14)%Z ->
  if (n <? 1000)%Z then formatNumber n = pretty n
  else let (u, letter) := scale_of n in exists t,
    formatNumber n = fixed1 t +:+ letter /\ (2 * Z.abs (10 * n - t * u) <= u)%Z /\
    (10 <= t)%Z /\ (n < 10 ^ 12 -> t <= 10000)%Z.
Proof.
  intros Hn. unfold formatNumber, scale_of. destruct (Z.ltb_spec n 1000); [done|].
  destruct (Z.ltb_spec n 1000000); [|destruct (Z.ltb_spec n 1000000000)].
  - pose proof (scaled_near n 1000 ltac:(lia) ltac:(lia) ltac:(lia) ltac:(lia)). eexists; split_and!; [done|lia..].
  - pose proof (scaled_near n 1000000 ltac:(lia) ltac:(lia) ltac:(lia) ltac:(lia)). eexists; split_and!; [done|lia..].
  - pose proof (scaled_near n 1000000000 ltac:(lia) ltac:(lia) ltac:(lia) ltac:(lia)). eexists; split_and!; [done|lia..].
Qed.

Lemma formatNumber_nearest_witness :
  exists t, formatNumber 1250 = fixed1 t +:+ "K" /\ (2 * Z.abs (10 * 1250 - t * 1000) <= 1000)%Z.
Proof.
  destruct (formatNumber_nearest 1250 ltac:(reflexivity)) as (t & H1 & H2 & _). exists t. split; [exact H1|exact H2].
Defined.

(** The unit is chosen before the number is rounded. *)
Example million_in_thousands : formatNumber 999950 = "1000.0K".
Proof. vm_compute. reflexivity. Qed.
