(* ===== verification/Durations.v ===== *)
(** * The text of durations

    [time.ParseDuration], with which [config/config.go] reads the durations of a
    configuration: [Duration.UnmarshalJSON]. What [Duration.String] of [Times] writes is
    read back; whatever is read is a duration. *)

From Stdlib Require Import Strings.Ascii.
From Stdlib Require Import QArith Qround Qabs Lqa.
From stdpp Require Import pretty.
From S2P Require Import Prelude Bytes Decimals Times Numbers.

Open Scope Z_scope.

(** ** [time.ParseDuration] *)

(** Why a text is no duration; the messages quote it. *)
Inductive durationError : Type :=
| InvalidDuration
| MissingUnit
| UnknownUnit (u : string).

(** Digits of a [uint64] up to [2^63], or an error. *)
Fixpoint leadingInt (x : Z) (s : string) : option (Z * string) :=
  match s with
  | EmptyString => Some (x, EmptyString)
  | String c s' =>
      match digitOf c with
      | None => Some (x, s)
      | Some d =>
          if 2 ^ 63 / 10 <? x then None
          else
            let x := uwrap 64 (x * 10 + d) in
            if 2 ^ 63 <? x then None else leadingInt x s'
      end
  end.

(** Digits after the point: their value, and the power of ten to divide it by, a
    [float64]. Digits after an overflow are dropped. *)
Fixpoint leadingFraction (x : Z) (scale : Q) (overflow : bool) (s : string) : Z * Q * string :=
  match s with
  | EmptyString => (x, scale, EmptyString)
  | String c s' =>
      match digitOf c with
      | None => (x, scale, s)
      | Some d =>
          if overflow then leadingFraction x scale true s'
          else if (2 ^ 63 - 1) / 10 <? x then leadingFraction x scale true s'
          else
            let y := uwrap 64 (x * 10 + d) in
            if 2 ^ 63 <? y then leadingFraction x scale true s'
            else leadingFraction y (RN (scale * inject_Z 10)) false s'
      end
  end.

(** Up to the next digit or point. *)
Fixpoint takeUnit (s : string) : string * string :=
  match s with
  | EmptyString => (EmptyString, EmptyString)
  | String c s' =>
      if Ascii.eqb c "." || isDigit c then (EmptyString, s)
      else let (u, r) := takeUnit s' in (String c u, r)
  end.

(** The other micro sign, U+03BC. *)
Definition mu : string :=
  String (Ascii.ascii_of_nat 206) (String (Ascii.ascii_of_nat 188) EmptyString).

Definition unitMap (u : string) : option Z :=
  if String.eqb u "ns" then Some Nanosecond
  else if String.eqb u "us" || String.eqb u (micro +:+ "s") || String.eqb u (mu +:+ "s") then Some Microsecond
  else if String.eqb u "ms" then Some Millisecond
  else if String.eqb u "s" then Some Sec
  else if String.eqb u "m" then Some Minute
  else if String.eqb u "h" then Some Hour
  else None.

(** [uint64(float64(f) * (float64(unit) / scale))]. *)
Definition fraction (f unit : Z) (scale : Q) : Z :=
  trunc (RN (float64 f * RN (float64 unit / scale))).

(** The digits after a point, if there is one, and whether there are any. *)
Definition optFraction (s : string) : Z * Q * string * bool :=
  match s with
  | String c r =>
      if Ascii.eqb c "." then
        let '(f, scale, s') := leadingFraction 0 1 false r in
        (f, scale, s', negb (String.length r =? String.length s')%nat)
      else (0, 1%Q, s, false)
  | EmptyString => (0, 1%Q, s, false)
  end.

Definition withUnit (v f : Z) (scale : Q) (s : string) : result durationError (Z * string) :=
  match takeUnit s with
  | (EmptyString, _) => Err MissingUnit
  | (u, s') =>
      match unitMap u with
      | None => Err (UnknownUnit u)
      | Some unit =>
          if 2 ^ 63 / unit <? v then Err InvalidDuration
          else if 0 <? f then
            let v := uwrap 64 (v * unit + fraction f unit scale) in
            if 2 ^ 63 <? v then Err InvalidDuration else Ok (v, s')
          else Ok (v * unit, s')
      end
  end.

(** A number with its unit, and what follows. *)
Definition segment (s : string) : result durationError (Z * string) :=
  match s with
  | EmptyString => Err InvalidDuration
  | String c _ =>
      if negb (Ascii.eqb c "." || isDigit c) then Err InvalidDuration
      else
        match leadingInt 0 s with
        | None => Err InvalidDuration
        | Some (v, s1) =>
            let pre := negb (String.length s =? String.length s1)%nat in
            let '(f, scale, s2, post) := optFraction s1 in
            if negb pre && negb post then Err InvalidDuration else withUnit v f scale s2
        end
  end.

(** [d] is the sum so far. A turn takes a byte at least. *)
Fixpoint segments (fuel : nat) (d : Z) (s : string) : result durationError Z :=
  match fuel, s with
  | _, EmptyString => Ok d
  | O, _ => Err InvalidDuration
  | S n, _ =>
      match segment s with
      | Err e => Err e
      | Ok (v, s') =>
          let d := uwrap 64 (d + v) in
          if 2 ^ 63 <? d then Err InvalidDuration else segments n d s'
      end
  end.

Definition parseUnsigned (neg : bool) (s : string) : result durationError Z :=
  if String.eqb s "0" then Ok 0
  else if String.eqb s "" then Err InvalidDuration
  else
    match segments (String.length s) 0 s with
    | Err e => Err e
    | Ok d =>
        if neg then Ok (swrap 64 (- swrap 64 d))
        else if 2 ^ 63 - 1 <? d then Err InvalidDuration else Ok d
    end.

Definition ParseDuration (s : string) : result durationError Z :=
  match s with
  | String c r =>
      if Ascii.eqb c "-" then parseUnsigned true r
      else if Ascii.eqb c "+" then parseUnsigned false r
      else parseUnsigned false s
  | EmptyString => parseUnsigned false s
  end.

Example ParseDuration_samples :
  map ParseDuration ["300ms"; "-1.5h"; "2h45m"; "1us"; ".5s"; "0"; "+0"; "1.000000001s"]%string
  = [Ok 300000000; Ok (-5400000000000); Ok 9900000000000; Ok 1000; Ok 500000000; Ok 0; Ok 0; Ok 1000000001].
Proof. vm_compute. reflexivity. Qed.

Example ParseDuration_errors :
  map ParseDuration [""; "5"; "."; "s"; "1x"; "-"; "9223372036854775808ns"; "1h "]%string
  = [Err InvalidDuration; Err MissingUnit; Err InvalidDuration; Err InvalidDuration; Err (UnknownUnit "x");
     Err InvalidDuration; Err InvalidDuration; Err (UnknownUnit "h ")].
Proof. vm_compute. reflexivity. Qed.

(** The sum is checked after it has wrapped around: twice [2^63] is 0. *)
Example ParseDuration_wraps :
  ParseDuration "9223372036854775808ns9223372036854775808ns" = Ok 0.
Proof. vm_compute. reflexivity. Qed.

(** ** Reading digits *)

Lemma leadingInt_readDigits x s : 0 <= x -> (readDigits x s).1 <= 2 ^ 63 -> leadingInt x s = Some (readDigits x s).
Proof.
  revert x. induction s as [|c s IH]; intros x Hx Hv; [done|]. cbn [leadingInt readDigits] in *.
  destruct (digitOf c) as [d|] eqn:E; [|done]. apply digitOf_range in E.
  pose proof (readDigits_ge (x * 10 + d) s ltac:(lia)) as Hge.
  destruct (Z.ltb_spec (2 ^ 63 / 10) x) as [H|H]; [exfalso; Z.to_euclidean_division_equations; lia|].
  unfold uwrap. rewrite Z.mod_small by lia.
  destruct (Z.ltb_spec (2 ^ 63) (x * 10 + d)); [lia|]. apply IH; lia.
Qed.

Lemma leadingInt_pretty z s : 0 <= z <= 2 ^ 63 -> stops s -> leadingInt 0 (pretty z +:+ s) = Some (z, s).
Proof.
  intros Hz Hs. rewrite leadingInt_readDigits; rewrite ?readDigits_pretty, ?readDigits_stops by (done || lia);
    simpl; by try lia.
Qed.

(** The last [n] digits of a number, before [acc]. *)
Fixpoint digits (n : nat) (v : Z) (acc : string) : string :=
  match n with O => acc | S n' => digits n' (v / 10) (pretty (v mod 10) +:+ acc) end.

Lemma fmtFrac_print n v acc : fmtFrac n v true acc = ("." +:+ digits n v acc, v / 10 ^ Z.of_nat n).
Proof.
  revert v acc. induction n as [|n IH]; intros v acc; [by rewrite Z.div_1_r|].
  cbn [fmtFrac orb digits]. rewrite IH, Z.div_div by lia. do 2 f_equal.
  rewrite Nat2Z.inj_succ, Z.pow_succ_r by lia. lia.
Qed.

(** The fraction is what the first [k] of its [n] digits say, the others being 0. *)
Lemma frac_digits n v : 0 <= v ->
  (v mod 10 ^ Z.of_nat n = 0 /\ frac n v = (EmptyString, v / 10 ^ Z.of_nat n)) \/
  exists k w, (1 <= k <= n)%nat /\ 0 <= w /\ w mod 10 ^ Z.of_nat k <> 0 /\
    v mod 10 ^ Z.of_nat n = (w mod 10 ^ Z.of_nat k) * 10 ^ Z.of_nat (n - k) /\
    frac n v = ("." +:+ digits k w "", v / 10 ^ Z.of_nat n).
Proof.
  unfold frac. revert v. induction n as [|n IH]; intros v Hv.
  { left. by rewrite Z.mod_1_r, Z.div_1_r. }
  assert (Ep : 10 ^ Z.of_nat (S n) = 10 * 10 ^ Z.of_nat n) by (rewrite Nat2Z.inj_succ, Z.pow_succ_r; lia).
  assert (Em : v mod 10 ^ Z.of_nat (S n) = 10 * ((v / 10) mod 10 ^ Z.of_nat n) + v mod 10).
  { rewrite Ep, Z.rem_mul_r by lia. lia. }
  cbn [fmtFrac orb]. destruct (Z.eqb_spec (v mod 10) 0) as [E|E]; cbn [negb].
  - rewrite E, Z.add_0_r in Em. rewrite Em, Ep, <- Z.div_div by lia.
    destruct (IH (v / 10) ltac:(Z.to_euclidean_division_equations; lia)) as [[H1 H2]|(k & w & Hk & Hw & Hn & H1 & H2)].
    + left. split; [lia|exact H2].
    + right. exists k, w. rewrite H1, H2. split_and!; [lia|lia|done|done| |done].
      replace (S n - k)%nat with (S (n - k)) by lia. rewrite Nat2Z.inj_succ, Z.pow_succ_r by lia. lia.
  - right. exists (S n), v. rewrite fmtFrac_print, Nat.sub_diag, Z.mul_1_r.
    pose proof (Z.mod_pos_bound v 10 ltac:(lia)).
    pose proof (Z.mod_pos_bound (v / 10) (10 ^ Z.of_nat n) ltac:(lia)).
    split_and!; [lia|lia|lia|lia|done|]. cbn [digits]. by rewrite Ep, Z.div_div, append_nil by lia.
Qed.

Lemma pretty_digit d : 0 <= d < 10 -> pretty d = String (pretty_N_char (Z.to_N d)) EmptyString.
Proof.
  intros Hd. assert (d = 0 \/ d = 1 \/ d = 2 \/ d = 3 \/ d = 4 \/ d = 5 \/ d = 6 \/ d = 7 \/ d = 8 \/ d = 9)
    by lia. by destruct_or!; subst.
Qed.

(** ** Fractions *)

Lemma RN_int q z : q == inject_Z z -> Z.abs z < 2 ^ 53 -> RN q == inject_Z z.
Proof.
  intros E Hz. assert (Hb : (Qabs q < inject_Z (2 ^ 53))%Q).
  { rewrite E. rewrite Zlt_Qlt in Hz. eapply Qle_lt_trans; [|exact Hz]. apply Qle_refl. }
  apply Qle_antisym; [apply RN_le; [done|by rewrite E; apply Qle_refl]|].
  apply RN_ge; [done|by rewrite E; apply Qle_refl].
Qed.

Lemma trunc_int q z : q == inject_Z z -> 0 <= z -> trunc q = z.
Proof.
  intros E Hz. assert (H0 : (0 <= q)%Q) by (rewrite E; change 0%Q with (inject_Z 0); by rewrite <- Zle_Qle).
  rewrite trunc_floor by done. apply floor_is; rewrite E; [apply Qle_refl|].
  rewrite <- Zlt_Qlt. lia.
Qed.

(** Units in which a fraction is exact. *)
Lemma fraction_exact n k f scale : (k <= n)%nat -> (n <= 9)%nat -> 0 <= f < 10 ^ Z.of_nat k ->
  scale == inject_Z (10 ^ Z.of_nat k) ->
  fraction f (10 ^ Z.of_nat n) scale = f * 10 ^ Z.of_nat (n - k).
Proof.
  intros Hk Hn Hf Hs. assert (Hp : forall j, (j <= 9)%nat -> 0 < 10 ^ Z.of_nat j <= 10 ^ 9).
  { intros j Hj. split; [lia|]. apply Z.pow_le_mono_r; lia. }
  pose proof (Hp n Hn) as Pn. pose proof (Hp k ltac:(lia)) as Pk. pose proof (Hp (n - k)%nat ltac:(lia)) as Pnk.
  assert (En : 10 ^ Z.of_nat n = 10 ^ Z.of_nat (n - k) * 10 ^ Z.of_nat k).
  { rewrite <- Z.pow_add_r by lia. f_equal. lia. }
  unfold fraction. apply trunc_int; [|nia]. apply RN_int; [|nia].
  assert (Er : RN (float64 (10 ^ Z.of_nat n) / scale) == inject_Z (10 ^ Z.of_nat (n - k))).
  { apply RN_int; [|lia]. rewrite (float64_exact (10 ^ Z.of_nat n)), Hs, En, inject_Z_mult by lia.
    field. change 0%Q with (inject_Z 0). rewrite inject_Z_injective. lia. }
  rewrite Er, (float64_exact f), inject_Z_mult by lia. reflexivity.
Qed.

Lemma leadingFraction_digits n v x sc acc j : 0 <= v -> 0 <= x -> (j + n <= 9)%nat ->
  x < 10 ^ Z.of_nat j -> sc == inject_Z (10 ^ Z.of_nat j) ->
  exists sc', (sc' == inject_Z (10 ^ Z.of_nat (j + n)))%Q /\
    leadingFraction x sc false (digits n v acc) =
    leadingFraction (x * 10 ^ Z.of_nat n + v mod 10 ^ Z.of_nat n) sc' false acc.
Proof.
  revert v acc. induction n as [|n IH]; intros v acc Hv Hx Hj Hxj Hsc.
  { exists sc. rewrite Nat.add_0_r, Z.mul_1_r, Z.mod_1_r, Z.add_0_r. done. }
  cbn [digits]. destruct (IH (v / 10) (pretty (v mod 10) +:+ acc)) as (sc1 & Hs1 & ->);
    [Z.to_euclidean_division_equations; lia|lia|lia|done|done|].
  pose proof (Z.mod_pos_bound v 10 ltac:(lia)) as Hd.
  assert (Ep : 10 ^ Z.of_nat (S n) = 10 * 10 ^ Z.of_nat n) by (rewrite Nat2Z.inj_succ, Z.pow_succ_r; lia).
  assert (Em : v mod 10 ^ Z.of_nat (S n) = 10 * ((v / 10) mod 10 ^ Z.of_nat n) + v mod 10).
  { rewrite Ep, Z.rem_mul_r by lia. lia. }
  pose proof (Z.mod_pos_bound (v / 10) (10 ^ Z.of_nat n) ltac:(lia)) as Hr.
  set (y := x * _ + _). assert (Hy : 0 <= y < 10 ^ Z.of_nat (j + n)).
  { unfold y. rewrite Nat2Z.inj_add, Z.pow_add_r by lia. nia. }
  assert (Hb : 10 ^ Z.of_nat (j + n) <= 10 ^ 8) by (apply Z.pow_le_mono_r; lia).
  exists (RN (sc1 * inject_Z 10)). split.
  { rewrite Nat.add_succ_r, Nat2Z.inj_succ, Z.pow_succ_r by lia. apply RN_int; [|lia].
    rewrite Hs1, <- inject_Z_mult. by rewrite Z.mul_comm. }
  rewrite pretty_digit by done. change (String ?c "" +:+ acc) with (String c acc). cbn [leadingFraction].
  rewrite digitOf_char, Z2N.id by lia. change ((2 ^ 63 - 1) / 10) with 922337203685477580.
  destruct (Z.ltb_spec 922337203685477580 y); [lia|].
  unfold uwrap. rewrite Z.mod_small by lia. destruct (Z.ltb_spec (2 ^ 63) (y * 10 + v mod 10)); [lia|].
  replace (x * _ + _) with (y * 10 + v mod 10) by (unfold y; lia). done.
Qed.

(** ** The text of a duration, read *)

(** A unit ends before a digit, or with the text. *)
Definition ends (s : string) : Prop :=
  match s with EmptyString => True | String c _ => isDigit c = true end.

Definition is_unit (u : string) (unit : Z) : Prop :=
  unitMap u = Some unit /\ (forall s, ends s -> takeUnit (u +:+ s) = (u, s)) /\
  match u with EmptyString => False | String c _ => digitOf c = None /\ Ascii.eqb c "." = false end.

Lemma is_units : is_unit "ns" 1 /\ is_unit (micro +:+ "s") 1000 /\ is_unit "ms" (10 ^ 6) /\
  is_unit "s" (10 ^ 9) /\ is_unit "m" Minute /\ is_unit "h" Hour.
Proof.
  assert (E : forall s, ends s -> takeUnit s = (EmptyString, s)).
  { intros [|c s]; [done|]. simpl. intros ->. by rewrite orb_true_r. }
  split_and!; (split; [by vm_compute|split; [|done]]; intros s Hs; simpl; by rewrite E).
Qed.

Lemma unit_stops u unit s : is_unit u unit -> stops (u +:+ s).
Proof. intros (_ & _ & H). destruct u as [|c u]; [done|]. apply H. Qed.

(** Whatever follows the number. *)
Lemma segment_pretty z s : 0 <= z <= 2 ^ 63 -> stops s ->
  segment (pretty z +:+ s) = let '(f, scale, s2, _) := optFraction s in withUnit z f scale s2.
Proof.
  intros Hz Hs. pose proof (leadingInt_pretty z s Hz Hs) as E.
  destruct (pretty_head z ltac:(lia)) as (c & r & Er & Hc). rewrite Er in *.
  change (String c r +:+ s) with (String c (r +:+ s)) in *. unfold segment.
  rewrite (bool_decide_eq_true_2 _ Hc : isDigit c = true), orb_true_r. cbn [negb]. rewrite E.
  replace (String.length _ =? _)%nat with false.
  2: { symmetry. apply Nat.eqb_neq. cbn [String.length]. rewrite length_append. lia. }
  by destruct (optFraction s) as [[[f sc] s2] post].
Qed.

Lemma withUnit_spec v f scale u unit s : is_unit u unit -> ends s -> 0 < unit -> v * unit <= 2 ^ 63 ->
  withUnit v f scale (u +:+ s) =
    if 0 <? f then
      let v := uwrap 64 (v * unit + fraction f unit scale) in
      if 2 ^ 63 <? v then Err InvalidDuration else Ok (v, s)
    else Ok (v * unit, s).
Proof.
  intros (Em & Et & Hh) Hs Hu Hle. unfold withUnit. rewrite Et, Em by done.
  pose proof (Z.div_le_lower_bound (2 ^ 63) unit v Hu ltac:(lia)).
  destruct (Z.ltb_spec (2 ^ 63 / unit) v); [lia|]. by destruct u.
Qed.

Lemma optFraction_unit u unit s : is_unit u unit -> optFraction (u +:+ s) = (0, 1%Q, u +:+ s, false).
Proof.
  intros (_ & _ & H). destruct u as [|c u]; [done|]. destruct H as [_ H].
  change (String c u +:+ s) with (String c (u +:+ s)). unfold optFraction. by rewrite H.
Qed.

Lemma segment_number z u unit s : 0 <= z -> z * unit <= 2 ^ 63 -> 0 < unit -> is_unit u unit -> ends s ->
  segment (pretty z +:+ u +:+ s) = Ok (z * unit, s).
Proof.
  intros Hz Hle Hu Hun Hs. rewrite segment_pretty by (nia || by eapply unit_stops).
  rewrite (optFraction_unit _ unit) by done. by rewrite (withUnit_spec _ _ _ _ unit).
Qed.

Lemma digits_app n v t : digits n v "" +:+ t = digits n v t.
Proof.
  enough (G : forall acc, digits n v acc +:+ t = digits n v (acc +:+ t)) by apply (G EmptyString).
  revert v. induction n as [|n IH]; intros v acc; [done|]. cbn [digits]. by rewrite IH, append_assoc.
Qed.

Lemma leadingFraction_stops x scale s : stops s -> leadingFraction x scale false s = (x, scale, s).
Proof. destruct s as [|c s]; [done|]. simpl. by intros ->. Qed.

Lemma segment_fraction n v u s : (n <= 9)%nat -> 0 <= v <= 2 ^ 63 -> is_unit u (10 ^ Z.of_nat n) -> ends s ->
  segment (pretty (v / 10 ^ Z.of_nat n) +:+ (frac n v).1 +:+ u +:+ s) = Ok (v, s).
Proof.
  intros Hn Hv Hun Hs. pose proof (Z.div_mod v (10 ^ Z.of_nat n) ltac:(lia)) as Ev.
  pose proof (Z.mod_pos_bound v (10 ^ Z.of_nat n) ltac:(lia)) as Hm.
  set (z := v / 10 ^ Z.of_nat n) in *. assert (Hz : 0 <= z) by (apply Z.div_pos; lia).
  destruct (frac_digits n v ltac:(lia)) as [[E0 ->]|(k & w & Hk & Hw & Hn0 & Er & ->)]; cbn [fst].
  { change (EmptyString +:+ ?x) with x. rewrite (segment_number _ _ (10 ^ Z.of_nat n)) by (done || lia).
    do 2 f_equal. lia. }
  set (f := w mod 10 ^ Z.of_nat k) in *. pose proof (Z.mod_pos_bound w (10 ^ Z.of_nat k) ltac:(lia)) as Hf.
  fold f in Hf. rewrite !append_assoc, digits_app. rewrite segment_pretty by (nia || done).
  destruct (leadingFraction_digits k w 0 1 (u +:+ s) 0) as (sc & Hsc & Ef); [lia..|done|].
  rewrite Z.mul_0_l, Z.add_0_l, (leadingFraction_stops _ _ (u +:+ s)) in Ef by by eapply unit_stops. fold f in Ef.
  change ("." +:+ ?x) with (String "."%char x). unfold optFraction. rewrite Ascii.eqb_refl, Ef.
  rewrite (withUnit_spec _ _ _ _ (10 ^ Z.of_nat n)) by (done || lia).
  rewrite (fraction_exact n k) by (done || lia). destruct (Z.ltb_spec 0 f); [|lia].
  rewrite <- Er. replace (z * 10 ^ Z.of_nat n + _) with v by lia. unfold uwrap.
  rewrite Z.mod_small by lia. destruct (Z.ltb_spec (2 ^ 63) v); [lia|done].
Qed.

(** ** Reading back *)

Lemma segments_step fuel d s v s' : s <> EmptyString -> segment s = Ok (v, s') -> 0 <= d -> 0 <= v ->
  d + v <= 2 ^ 63 -> segments (S fuel) d s = segments fuel (d + v) s'.
Proof.
  intros Hs E Hd Hv Hle. destruct s as [|c s]; [done|]. cbn [segments]. rewrite E. cbv zeta. unfold uwrap.
  rewrite Z.mod_small by lia. destruct (Z.ltb_spec (2 ^ 63) (d + v)); [lia|done].
Qed.

Lemma segments_nil fuel d : segments fuel d EmptyString = Ok d.
Proof. by destruct fuel. Qed.

Lemma pretty_app_head z s : 0 <= z -> exists c r, (pretty z +:+ s)%string = String c r /\ isDigit c = true.
Proof.
  intros Hz. destruct (pretty_head z Hz) as (c & r & -> & Hc). exists c, (r +:+ s). split; [done|].
  by apply bool_decide_eq_true.
Qed.

Lemma pretty_app_ends z s : 0 <= z -> (pretty z +:+ s <> EmptyString)%string /\ ends (pretty z +:+ s).
Proof. intros Hz. by destruct (pretty_app_head z s Hz) as (c & r & -> & Hc). Qed.

(** A last segment. *)
Lemma segments_last fuel d n v u : (n <= 9)%nat -> 0 <= v -> 0 <= d -> d + v <= 2 ^ 63 ->
  is_unit u (10 ^ Z.of_nat n) ->
  segments (S fuel) d (pretty (v / 10 ^ Z.of_nat n) +:+ (frac n v).1 +:+ u) = Ok (d + v).
Proof.
  intros Hn Hv Hd Hle Hu. pose proof (segment_fraction n v u EmptyString Hn ltac:(lia) Hu I) as E.
  rewrite append_nil in E. erewrite segments_step; [apply segments_nil| |exact E|done..].
  apply pretty_app_ends, Z.div_pos; lia.
Qed.

Lemma segments_number fuel d z u unit s : 0 <= z -> 0 < unit -> 0 <= d -> d + z * unit <= 2 ^ 63 ->
  is_unit u unit -> ends s ->
  segments (S fuel) d (pretty z +:+ u +:+ s) = segments fuel (d + z * unit) s.
Proof.
  intros Hz Hun Hd Hle Hu Hs. apply segments_step; [by apply pretty_app_ends| |done|nia|done].
  apply segment_number; by (done || nia).
Qed.

(** The text of an unsigned duration that is not 0. *)
Definition body (u : Z) : string :=
  if u <? Microsecond then let (f, n) := frac 0 u in pretty n +:+ f +:+ "ns"
  else if u <? Millisecond then let (f, n) := frac 3 u in pretty n +:+ f +:+ micro +:+ "s"
  else if u <? Sec then let (f, n) := frac 6 u in pretty n +:+ f +:+ "ms"
  else
    let (f, s) := frac 9 u in
    let secs := pretty (s mod 60) +:+ f +:+ "s" in
    let m := s / 60 in
    if m =? 0 then secs
    else
      let mins := pretty (m mod 60) +:+ "m" +:+ secs in
      if m / 60 =? 0 then mins else pretty (m / 60) +:+ "h" +:+ mins.

Lemma Duration_String_body d : d <> 0 ->
  Duration_String d = if d <? 0 then String "-"%char (body (Z.abs d)) else body (Z.abs d).
Proof.
  intros Hd. unfold Duration_String. fold (body (Z.abs d)).
  destruct (Z.eqb_spec (Z.abs d) 0); [lia|done].
Qed.

Lemma frac_snd n v : 0 <= v -> (frac n v).2 = v / 10 ^ Z.of_nat n.
Proof. intros Hv. by destruct (frac_digits n v Hv) as [[_ ->]|(k & w & _ & _ & _ & _ & ->)]. Qed.

Lemma fmtFrac_low n v v' p acc : v mod 10 ^ Z.of_nat n = v' mod 10 ^ Z.of_nat n ->
  (fmtFrac n v p acc).1 = (fmtFrac n v' p acc).1.
Proof.
  revert v v' p acc. induction n as [|n IH]; intros v v' p acc Hv; [done|].
  rewrite Nat2Z.inj_succ, Z.pow_succ_r, !(Z.rem_mul_r _ 10) in Hv by lia.
  pose proof (Z.mod_pos_bound v 10 ltac:(lia)). pose proof (Z.mod_pos_bound v' 10 ltac:(lia)).
  cbn [fmtFrac]. replace (v' mod 10) with (v mod 10) by lia. apply IH. lia.
Qed.

Lemma body_units : forall u, 0 < u < Sec ->
  exists n t, (n <= 9)%nat /\ is_unit t (10 ^ Z.of_nat n) /\
    body u = (pretty (u / 10 ^ Z.of_nat n) +:+ (frac n u).1 +:+ t)%string.
Proof.
  intros u Hu. destruct is_units as (H0 & H3 & H6 & _). unfold body.
  assert (E : forall n t, (let (f, k) := frac n u in (pretty k +:+ f +:+ t)%string) =
    (pretty (u / 10 ^ Z.of_nat n) +:+ (frac n u).1 +:+ t)%string).
  { intros n t. pose proof (frac_snd n u ltac:(lia)) as Es. destruct (frac n u) as [f k]. simpl in *.
    by rewrite Es. }
  destruct (Z.ltb_spec u Microsecond); [exists 0%nat, "ns"%string; split_and!; [lia|done|apply E]|].
  destruct (Z.ltb_spec u Millisecond); [exists 3%nat, (micro +:+ "s")%string; split_and!; [lia|done|apply E]|].
  destruct (Z.ltb_spec u Sec); [|lia]. exists 6%nat, "ms"%string; split_and!; [lia|done|apply E].
Qed.

(** From a second on: hours and minutes that are not 0, and seconds with their fraction. *)
Lemma body_hms u : Sec <= u -> let s := u / Sec in
  let secs := (pretty (s mod 60) +:+ (frac 9 ((s mod 60) * Sec + u mod Sec)).1 +:+ "s")%string in
  body u = if s / 60 =? 0 then secs
           else let mins := (pretty (s / 60 mod 60) +:+ "m" +:+ secs)%string in
                if s / 60 / 60 =? 0 then mins else (pretty (s / 60 / 60) +:+ "h" +:+ mins)%string.
Proof.
  intros Hu. unfold body, Sec, Millisecond, Microsecond in *.
  destruct (Z.ltb_spec u 1000); [lia|]. destruct (Z.ltb_spec u 1000000); [lia|].
  destruct (Z.ltb_spec u 1000000000); [lia|].
  pose proof (frac_snd 9 u ltac:(lia)) as Es. pose proof (fmtFrac_low 9 u
    ((u / 1000000000) mod 60 * 1000000000 + u mod 1000000000) false EmptyString) as El.
  fold (frac 9 u) in El. fold (frac 9 (u / 1000000000 mod 60 * 1000000000 + u mod 1000000000)) in El.
  rewrite <- El.
  2: { change (10 ^ Z.of_nat 9) with 1000000000. rewrite Z.add_comm, Z.mod_add, Z.mod_mod by lia. done. }
  destruct (frac 9 u) as [f k]. simpl in Es. subst k. done.
Qed.

Lemma body_read u fuel : 0 < u <= 2 ^ 63 -> (3 <= fuel)%nat \/ (1 <= fuel)%nat /\ u < Sec \/
    (1 <= fuel)%nat /\ u / Sec / 60 = 0 \/ (2 <= fuel)%nat /\ u / Sec / 60 / 60 = 0 ->
  segments fuel 0 (body u) = Ok u.
Proof.
  intros Hu Hfuel. destruct (Z.ltb_spec u Sec) as [Hs|Hs].
  { destruct (body_units u ltac:(lia)) as (n & t & Hn & Ht & ->). destruct fuel as [|fuel]; [lia|].
    by rewrite segments_last by (done || lia). }
  rewrite body_hms by done. cbv zeta. set (s := u / Sec) in *. destruct is_units as (_ & _ & _ & HS & HM & HH).
  assert (Hlast : forall fuel d, d + (s mod 60 * Sec + u mod Sec) = u -> 0 <= d ->
    segments (S fuel) d (pretty (s mod 60) +:+ (frac 9 (s mod 60 * Sec + u mod Sec)).1 +:+ "s") = Ok u).
  { intros fl d Ed Hd. unfold Sec in *.
    pose proof (Z.mod_pos_bound s 60 ltac:(lia)). pose proof (Z.mod_pos_bound u 1000000000 ltac:(lia)).
    set (v := s mod 60 * 1000000000 + u mod 1000000000) in *.
    replace (s mod 60) with (v / 10 ^ Z.of_nat 9).
    2: { change (10 ^ Z.of_nat 9) with 1000000000. unfold v. Z.to_euclidean_division_equations; lia. }
    rewrite segments_last by (done || lia). f_equal. lia. }
  unfold Sec, Minute, Hour in *.
  assert (Es : u = s * 1000000000 + u mod 1000000000) by (unfold s; Z.to_euclidean_division_equations; lia).
  assert (Em : s = s / 60 * 60 + s mod 60) by (Z.to_euclidean_division_equations; lia).
  assert (Eh : s / 60 = s / 60 / 60 * 60 + s / 60 mod 60) by (Z.to_euclidean_division_equations; lia).
  pose proof (Z.mod_pos_bound u 1000000000 ltac:(lia)). pose proof (Z.mod_pos_bound s 60 ltac:(lia)).
  pose proof (Z.mod_pos_bound (s / 60) 60 ltac:(lia)).
  assert (0 <= s) by (unfold s; apply Z.div_pos; lia).
  assert (0 <= s / 60) by (apply Z.div_pos; lia). assert (0 <= s / 60 / 60) by (apply Z.div_pos; lia).
  destruct (Z.eqb_spec (s / 60) 0) as [E0|E0]; [destruct fuel; [lia|]; apply Hlast; lia|].
  destruct (Z.eqb_spec (s / 60 / 60) 0) as [E1|E1].
  - destruct fuel as [|[|fuel]]; [lia|lia|].
    rewrite (segments_number _ _ _ _ 60000000000) by (done || lia || by apply pretty_app_ends; lia).
    apply Hlast; lia.
  - destruct fuel as [|[|[|fuel]]]; [lia|lia|lia|].
    rewrite (segments_number _ _ _ _ 3600000000000) by (done || lia || by apply pretty_app_ends; lia).
    rewrite (segments_number _ _ _ _ 60000000000) by (done || lia || by apply pretty_app_ends; lia).
    apply Hlast; lia.
Qed.

Lemma pretty_length z : 0 <= z -> (1 <= String.length (pretty z))%nat.
Proof. intros Hz. destruct (pretty_head z Hz) as (c & s & -> & _). simpl. lia. Qed.

(** There are as many segments as the text has room for. *)
Lemma body_shape u : 0 < u -> (exists c s, body u = String c s /\ isDigit c = true) /\
  (2 <= String.length (body u))%nat /\ (u / Sec / 60 / 60 <> 0 -> (3 <= String.length (body u))%nat).
Proof.
  intros Hu. destruct (Z.ltb_spec u Sec) as [Hs|Hs].
  - destruct (body_units u ltac:(lia)) as (n & t & Hn & (_ & _ & Ht) & ->).
    assert (0 <= u / 10 ^ Z.of_nat n) by (apply Z.div_pos; lia).
    split; [by apply pretty_app_head|]. rewrite !length_append.
    pose proof (pretty_length (u / 10 ^ Z.of_nat n) ltac:(done)).
    destruct t; [done|]. cbn [String.length]. split; [lia|]. rewrite (Z.div_small u) by lia. done.
  - rewrite body_hms by done. cbv zeta. set (s := u / Sec). assert (0 <= s) by (apply Z.div_pos; unfold Sec in *; lia).
    pose proof (Z.mod_pos_bound s 60 ltac:(lia)). pose proof (Z.mod_pos_bound (s / 60) 60 ltac:(lia)).
    assert (0 <= s / 60) by (apply Z.div_pos; lia). assert (0 <= s / 60 / 60) by (apply Z.div_pos; lia).
    pose proof (pretty_length (s mod 60) ltac:(lia)). pose proof (pretty_length (s / 60 mod 60) ltac:(lia)).
    destruct (Z.eqb_spec (s / 60) 0) as [E0|E0]; [|destruct (Z.eqb_spec (s / 60 / 60) 0) as [E1|E1]];
      (split; [apply pretty_app_head; lia|]); rewrite !length_append; cbn [String.length]; split; try lia.
    rewrite E0. done.
Qed.

Lemma parseUnsigned_body u neg : 0 < u <= 2 ^ 63 -> (neg = false -> u < 2 ^ 63) ->
  parseUnsigned neg (body u) = Ok (if neg then swrap 64 (- swrap 64 u) else u).
Proof.
  intros Hu Hneg. destruct (body_shape u ltac:(lia)) as (_ & H2 & H3). unfold parseUnsigned.
  destruct (String.eqb_spec (body u) "0") as [E|E]; [rewrite E in H2; simpl in H2; lia|].
  destruct (String.eqb_spec (body u) "") as [E'|E']; [rewrite E' in H2; simpl in H2; lia|].
  rewrite body_read; [|done|destruct (decide (u / Sec / 60 / 60 = 0)); [right; right; right; split; [lia|done]|left; auto]].
  destruct neg; [done|]. specialize (Hneg eq_refl). destruct (Z.ltb_spec (2 ^ 63 - 1) u); [lia|done].
Qed.

(** ** What is read is what was written *)

Lemma ParseDuration_String d : in_int 64 d = true -> ParseDuration (Duration_String d) = Ok d.
Proof.
  intros Hd%in_int_spec. destruct (decide (d = 0)) as [->|Hz]; [by vm_compute|].
  rewrite Duration_String_body by done. destruct (Z.ltb_spec d 0) as [Hn|Hn].
  - unfold ParseDuration. rewrite Ascii.eqb_refl, parseUnsigned_body by (done || lia). f_equal.
    unfold swrap. Z.to_euclidean_division_equations; lia.
  - destruct (body_shape (Z.abs d) ltac:(lia)) as ((c & s & E & Hc) & _).
    assert (Hpos : Z.abs d < 2 ^ 63) by lia.
    pose proof (parseUnsigned_body (Z.abs d) false ltac:(lia) (fun _ => Hpos)) as Hp.
    apply bool_decide_eq_true in Hc. destruct (digit_unsigned c Hc) as [H1 H2].
    rewrite E in *. unfold ParseDuration. rewrite H1, H2, Hp. f_equal. lia.
Qed.

(** The text of a duration is read back as the same duration, for every duration
    that an [int64] holds, the least of all and those with fractions of a unit among them. *)
Theorem duration_round_trip d : in_int 64 d = true -> ParseDuration (Duration_String d) = Ok d.
Proof. apply ParseDuration_String. Qed.

Lemma duration_round_trip_witness :
  ParseDuration (Duration_String (- 2 ^ 63)) = Ok (- 2 ^ 63) /\
  Duration_String (- 2 ^ 63) = "-2562047h47m16.854775808s"%string.
Proof. split; [apply (duration_round_trip (- 2 ^ 63)); reflexivity|vm_compute; reflexivity]. Defined.

Lemma segments_range fuel d s v : 0 <= d <= 2 ^ 63 -> segments fuel d s = Ok v -> 0 <= v <= 2 ^ 63.
Proof.
  revert d s. induction fuel as [|fuel IH]; intros d s Hd; destruct s as [|c s]; cbn [segments].
  - by intros [= <-].
  - done.
  - by intros [= <-].
  - destruct (segment (String c s)) as [[x s']|e]; [|done].
    destruct (Z.ltb_spec (2 ^ 63) (uwrap 64 (d + x))); [done|]. apply IH. split; [|done].
    unfold uwrap. apply Z.mod_pos_bound. lia.
Qed.

(** Whatever the text, what is read fits an [int64]. *)
Theorem ParseDuration_int64 s d : ParseDuration s = Ok d -> in_int 64 d = true.
Proof.
  assert (G : forall neg s, parseUnsigned neg s = Ok d -> in_int 64 d = true).
  { intros neg t. unfold parseUnsigned. destruct (String.eqb t "0"); [by intros [= <-]|].
    destruct (String.eqb t ""); [done|].
    destruct (segments _ 0 t) as [v|e] eqn:E; [|done]. apply segments_range in E; [|lia].
    rewrite in_int_spec. destruct neg; [intros [= <-]; unfold swrap; Z.to_euclidean_division_equations; lia|].
    destruct (Z.ltb_spec (2 ^ 63 - 1) v); [done|]. intros [= <-]. lia. }
  unfold ParseDuration. destruct s as [|c r]; [apply G|].
  destruct (Ascii.eqb c "-"); [apply G|]. destruct (Ascii.eqb c "+"); apply G.
Qed.

Lemma ParseDuration_int64_witness : in_int 64 (-5400000000000) = true.
Proof. apply (ParseDuration_int64 "-1.5h"). vm_compute. reflexivity. Defined.
