(* ===== verification/Config.v ===== *)
(** * Configuration

    [config/config.go]: the configuration's data, its defaults and its validation.
    Its text and loading it are in [Loading]; its hash is an argument of the server. *)

From Stdlib Require Import Strings.Byte.
From S2P Require Import Prelude Bytes Fields Pattern.

(** ** Data *)

(** Nanoseconds in an [int64]. *)
Abbreviation Duration := Z (only parsing).
Definition Second : Duration := 1000000000.

Record GracefulShutdown : Type := {
  ShutdownTimeout : Duration;
  ReloadTimeout : Duration;
  RateLimit : Z;
  BurstSize : Z
}.

Record Cluster : Type := { Cluster_Nodes : list string }.

Record HealthCheck : Type := {
  HealthCheck_Interval : Duration;
  HealthCheck_Timeout : Duration;
  HealthCheck_UnhealthyThreshold : Z;
  HealthCheck_RecoveryInterval : Duration;
  HealthCheck_Username : string;
  HealthCheck_Password : string
}.

Record Routing : Type := { Routing_KeyPatterns : list string }.

(** An optional setting is [None] for a nil pointer. *)
Record QueueAttributes : Type := {
  QueueAttributes_Durable : option bool;
  QueueAttributes_AutoDelete : option bool;
  QueueAttributes_Exclusive : option bool;
  QueueAttributes_Arguments : Table
}.

Record QueueOptions : Type := {
  QueueOptions_TryPassive : bool;
  QueueOptions_EmulateAutoDelete : bool
}.

(** [config.Upstream]. *)
Record UpstreamConfig : Type := {
  UpstreamConfig_Name : string;
  UpstreamConfig_Address : string;
  UpstreamConfig_Cluster : option Cluster;
  UpstreamConfig_Timeout : Duration;
  UpstreamConfig_HealthCheck : option HealthCheck;
  UpstreamConfig_Routing : Routing;
  UpstreamConfig_QueueAttributes : option QueueAttributes;
  UpstreamConfig_QueueOptions : option QueueOptions
}.

(** A [map[string]string] in the order [range] visits it; [None] is the nil map. *)
Record MetricsConfig : Type := { MetricsConfig_Attributes : option (list (string * string)) }.

Record Config : Type := {
  Config_Upstreams : list UpstreamConfig;
  Config_HandshakeTimeout : Duration;
  Config_ConnectionCloseTimeout : Duration;
  Config_GracefulShutdown : GracefulShutdown;
  Config_Metrics : option MetricsConfig
}.

(** ** [net.SplitHostPort] of the Go standard library *)

Definition IndexByte (bs : list byte) (c : byte) : option nat :=
  fst <$> list_find (eq c) bs.

Definition LastIndexByte (bs : list byte) (c : byte) : option nat :=
  (fun i => length bs - S i)%nat <$> IndexByte (rev bs) c.

Definition isSome {A} (o : option A) : bool := match o with Some _ => true | None => false end.

Definition SplitHostPort (hostport : string) : result string (string * string) :=
  let hp := bytes_of hostport in
  match LastIndexByte hp ":" with
  | None => Err "missing port in address"%string
  | Some i =>
      let port := string_of (drop (S i) hp) in
      let tail j k host :=
        if isSome (IndexByte (drop j hp) "[") then Err "unexpected '[' in address"%string
        else if isSome (IndexByte (drop k hp) "]") then Err "unexpected ']' in address"%string
        else Ok (string_of host, port) in
      if decide (hp !! 0%nat = Some "["%byte) then
        match IndexByte hp "]" with
        | None => Err "missing ']' in address"%string
        | Some e =>
            if (S e =? length hp)%nat then Err "missing port in address"%string
            else if (S e =? i)%nat then tail 1%nat (S e) (take (e - 1) (drop 1 hp))
            else if decide (hp !! S e = Some ":"%byte) then Err "too many colons in address"%string
            else Err "missing port in address"%string
        end
      else
        let host := take i hp in
        if isSome (IndexByte host ":") then Err "too many colons in address"%string
        else tail 0%nat 0%nat host
  end.

(** ** Operations *)

Definition orDefault (v d : Z) : Z := if v =? 0 then d else v.

Definition SetDefaults (c : Config) : Config := {|
  Config_Upstreams := Config_Upstreams c;
  Config_HandshakeTimeout := orDefault (Config_HandshakeTimeout c) (5 * Second);
  Config_ConnectionCloseTimeout := orDefault (Config_ConnectionCloseTimeout c) (1 * Second);
  Config_GracefulShutdown :=
    let g := Config_GracefulShutdown c in {|
      ShutdownTimeout := orDefault (ShutdownTimeout g) (10 * Second);
      ReloadTimeout := orDefault (ReloadTimeout g) (30 * Second);
      RateLimit := orDefault (RateLimit g) 100;
      BurstSize := orDefault (BurstSize g) 10 |};
  Config_Metrics := Config_Metrics c |}.

Definition GetAttributes (m : option MetricsConfig) : option (list (string * string)) :=
  match m with None => None | Some m => MetricsConfig_Attributes m end.

Definition Addresses (u : UpstreamConfig) : list string :=
  match UpstreamConfig_Cluster u with
  | Some cluster => Cluster_Nodes cluster
  | None => [UpstreamConfig_Address u]
  end.

Definition Validate_node (addr : string) : result string () :=
  if decide (addr = EmptyString) then Err "address is required for cluster node"%string
  else match SplitHostPort addr with
       | Err e => Err ("invalid address format for cluster node: " +:+ e)%string
       | Ok _ => Ok ()
       end.

Definition Validate_HealthCheck (h : option HealthCheck) : result string () :=
  match h with
  | None => Ok ()
  | Some h =>
      if decide (HealthCheck_Username h = EmptyString)
      then Err "username is required for health check"%string
      else if decide (HealthCheck_Password h = EmptyString)
      then Err "password is required for health check"%string
      else Ok ()
  end.

Definition UpstreamConfig_Validate (u : UpstreamConfig) : result string () :=
  if decide (UpstreamConfig_Name u = EmptyString) then Err "cluster name is required"%string
  else match UpstreamConfig_Cluster u with
  | Some cluster =>
      _ ← trav Validate_node (Cluster_Nodes cluster);
      Validate_HealthCheck (UpstreamConfig_HealthCheck u)
  | None =>
      if decide (UpstreamConfig_Address u = EmptyString) then Err "address is required"%string
      else match SplitHostPort (UpstreamConfig_Address u) with
           | Err e => Err ("invalid address format: " +:+ e)%string
           | Ok _ => Ok ()
           end
  end.

Definition Validate_upstream (u : UpstreamConfig) : result string () :=
  match UpstreamConfig_Validate u with
  | Err e => Err ("invalid upstream " +:+ UpstreamConfig_Name u +:+ ": " +:+ e)%string
  | Ok v => Ok v
  end.

Definition Validate (c : Config) : result string () :=
  let n := length (Config_Upstreams c) in
  if (n =? 0)%nat then Err "no upstreams are defined"%string
  else if (2 <? n)%nat then Err "upstreams must be less or equal than 2 elements"%string
  else _ ← trav Validate_upstream (Config_Upstreams c); Ok ().

(** ** Proofs *)

Lemma IndexByte_none bs c : c ∉ bs -> IndexByte bs c = None.
Proof.
  intros H. unfold IndexByte. rewrite (proj2 (list_find_None (eq c) bs)); [done|].
  apply Forall_forall. by intros x Hx <-.
Qed.

Lemma IndexByte_app l1 l2 c : c ∉ l1 -> IndexByte (l1 ++ c :: l2) c = Some (length l1).
Proof.
  intros H. unfold IndexByte.
  rewrite (proj2 (list_find_Some (eq c) (l1 ++ c :: l2) (length l1) c)); [done|].
  split_and!; [by apply list_lookup_middle|done|].
  intros j y Hj Hlt <-. rewrite lookup_app_l in Hj by done.
  apply H. by eapply list_elem_of_lookup_2.
Qed.

Lemma elem_of_rev {A} (x : A) l : x ∈ rev l <-> x ∈ l.
Proof. by rewrite !list_elem_of_In, <- in_rev. Qed.

Lemma LastIndexByte_app l1 l2 c : c ∉ l2 -> LastIndexByte (l1 ++ c :: l2) c = Some (length l1).
Proof.
  intros H. unfold LastIndexByte. rewrite rev_app_distr. simpl. rewrite <- app_assoc. simpl.
  rewrite IndexByte_app by (by rewrite elem_of_rev).
  simpl. f_equal. rewrite length_app, length_rev. simpl. lia.
Qed.

Lemma LastIndexByte_none bs c : c ∉ bs -> LastIndexByte bs c = None.
Proof.
  intros H. unfold LastIndexByte. rewrite IndexByte_none; [done|].
  by rewrite elem_of_rev.
Qed.

Lemma trav_unit {A} (f : A -> result string ()) l :
  is_ok (trav f l) = true <-> Forall (fun x => is_ok (f x) = true) l.
Proof.
  induction l as [|x l IH]; simpl; [by split; constructor|].
  destruct (f x) as [[]|e] eqn:E; simpl.
  - rewrite Forall_cons, E, <- IH. by destruct (trav f l); simpl; split; try tauto.
  - split; [done|]. intros [H _]%Forall_cons. by rewrite E in H.
Qed.

Lemma is_ok_unit {E} (r : result E ()) : is_ok r = true <-> r = Ok ().
Proof. by destruct r as [[]|]. Qed.

(** An address that is not empty and splits into host and port. *)
Definition valid_address (a : string) : Prop :=
  a <> EmptyString /\ exists host port, SplitHostPort a = Ok (host, port).

Definition valid_upstream (u : UpstreamConfig) : Prop :=
  UpstreamConfig_Name u <> EmptyString /\ Forall valid_address (Addresses u) /\
  match UpstreamConfig_Cluster u, UpstreamConfig_HealthCheck u with
  | Some _, Some h => HealthCheck_Username h <> EmptyString /\
                      HealthCheck_Password h <> EmptyString
  | _, _ => True
  end.

Lemma Validate_node_ok a : is_ok (Validate_node a) = true <-> valid_address a.
Proof.
  unfold Validate_node, valid_address. case_decide as E.
  - split; [done|]. by intros [? _].
  - destruct (SplitHostPort a) as [[h p]|e]; simpl; split; try done.
    + intros _. split; [done|]. eauto.
    + by intros (_ & h & p & ?).
Qed.

Lemma UpstreamConfig_Validate_ok u :
  is_ok (UpstreamConfig_Validate u) = true <-> valid_upstream u.
Proof.
  unfold UpstreamConfig_Validate, valid_upstream, Addresses. case_decide as En.
  { split; [done|]. by intros [? _]. }
  destruct (UpstreamConfig_Cluster u) as [cl|].
  - assert (Hn := trav_unit Validate_node (Cluster_Nodes cl)).
    setoid_rewrite Validate_node_ok in Hn.
    destruct (trav Validate_node (Cluster_Nodes cl)); simpl in *.
    + unfold Validate_HealthCheck. destruct (UpstreamConfig_HealthCheck u) as [h|]; [|tauto].
      repeat case_decide; simpl; naive_solver.
    + split; [done|]. intros (_ & ? & _). by apply Hn.
  - pose proof (Validate_node_ok (UpstreamConfig_Address u)) as Ha. unfold Validate_node in Ha.
    case_decide; simpl.
    + split; [done|]. intros (_ & [[? _] _]%Forall_cons & _). done.
    + destruct (SplitHostPort _) as [?|?]; simpl in *; split; try done.
      * intros _. split_and!; [done| |done]. constructor; [by apply Ha|constructor].
      * intros (_ & [? _]%Forall_cons & _). by apply Ha.
Qed.

(** An address made of a host and a port is split into them again: a host
    without colons and brackets as it is, any host without brackets (such as an IPv6
    address) between brackets. *)
Lemma SplitHostPort_join host port :
  Forall (fun c : byte => (c ∉ bytes_of host) /\ (c ∉ bytes_of port)) ["["%byte; "]"%byte] ->
  ":"%byte ∉ bytes_of port ->
  (":"%byte ∉ bytes_of host -> SplitHostPort (host +:+ ":" +:+ port) = Ok (host, port)) /\
  SplitHostPort ("[" +:+ host +:+ "]:" +:+ port) = Ok (host, port).
Proof.
  intros [[Hh1 Hp1] [[Hh2 Hp2] _]%Forall_cons]%Forall_cons Hp. split.
  - intros Hc. unfold SplitHostPort. rewrite !bytes_of_app. change (bytes_of ":") with [":"%byte].
    cbn [app]. rewrite LastIndexByte_app by done. cbv zeta.
    rewrite decide_False.
    2: { destruct (bytes_of host) as [|b l]; [done|]. intros [= ->]. apply Hh1. by left. }
    rewrite take_app_length. change (drop 0 ?l) with l.
    rewrite !IndexByte_none by set_solver. simpl. f_equal.
    rewrite string_of_bytes_of. f_equal.
    rewrite (drop_app_ge _ _ (S _)) by lia.
    replace (S _ - _)%nat with 1%nat by lia. apply string_of_bytes_of.
  - unfold SplitHostPort. rewrite !bytes_of_app.
    change (bytes_of "[") with ["["%byte]. change (bytes_of "]:") with ["]"; ":"]%byte.
    set (h := bytes_of host) in *. set (q := bytes_of port) in *.
    assert (E1 : ["["%byte] ++ h ++ ["]"; ":"]%byte ++ q = (("["%byte :: h) ++ "]"%byte :: ":"%byte :: q)).
    { done. }
    assert (E2 : ["["%byte] ++ h ++ ["]"; ":"]%byte ++ q
                 = (("["%byte :: h) ++ ["]"%byte]) ++ ":"%byte :: q).
    { by rewrite <- app_assoc. }
    rewrite E2, LastIndexByte_app by done. rewrite <- E2, E1. cbv zeta.
    rewrite decide_True by done. rewrite IndexByte_app by set_solver.
    rewrite !length_app. cbn [length].
    rewrite (proj2 (Nat.eqb_neq _ _)) by lia. rewrite (proj2 (Nat.eqb_eq _ _)) by lia.
    replace (drop (S (S (length h))) _) with (":"%byte :: q).
    2: { rewrite <- E1, E2. symmetry. apply drop_app_length'. rewrite length_app. simpl. lia. }
    replace (drop 1 _) with (h ++ ["]"; ":"]%byte ++ q) by done.
    rewrite !IndexByte_none by set_solver. simpl. f_equal.
    rewrite Nat.sub_0_r, take_app_length. unfold h, q. rewrite string_of_bytes_of. f_equal.
    replace (drop _ _) with (bytes_of port); [apply string_of_bytes_of|].
    symmetry. fold h q. change (h ++ "]"%byte :: ":"%byte :: q) with (h ++ ["]"; ":"]%byte ++ q).
    rewrite app_assoc. apply drop_app_length'. rewrite !length_app. simpl. lia.
Qed.

(** ** What the configuration guarantees *)

(** [Validate] accepts a configuration if and only if it has one or two
    upstreams and each of them has a name, addresses that split into host and port,
    and, for a cluster with a health check, a user name and a password. *)
Theorem Validate_iff c :
  Validate c = Ok () <->
  (1 <= length (Config_Upstreams c) <= 2)%nat /\
  Forall valid_upstream (Config_Upstreams c).
Proof.
  unfold Validate. set (us := Config_Upstreams c).
  assert (Hv : Forall (fun u => is_ok (Validate_upstream u) = true) us <-> Forall valid_upstream us).
  { apply Forall_iff. intros u. rewrite <- UpstreamConfig_Validate_ok. unfold Validate_upstream.
    by destruct (UpstreamConfig_Validate u). }
  rewrite <- Hv, <- trav_unit.
  destruct (length us =? 0)%nat eqn:E0; [apply Nat.eqb_eq in E0; split; [done|lia]|].
  apply Nat.eqb_neq in E0.
  destruct (2 <? length us)%nat eqn:E2; [apply Nat.ltb_lt in E2; split; [done|lia]|].
  apply Nat.ltb_ge in E2.
  destruct (trav Validate_upstream us); simpl; split; try done.
  - intros _. split; [lia|done].
  - by intros [_ ?].
Qed.

(** [host:port], or [[host]:port] for any host without brackets, such as an IPv6
    address. *)
Definition joined (a : string) : Prop :=
  exists host port : string,
    Forall (fun c : byte => (c ∉ bytes_of host) /\ (c ∉ bytes_of port)) ["["%byte; "]"%byte] /\
    (":"%byte ∉ bytes_of port) /\
    (((":"%byte ∉ bytes_of host) /\ a = (host +:+ ":" +:+ port)%string) \/ a = ("[" +:+ host +:+ "]:" +:+ port)%string).

Lemma joined_valid a : joined a -> valid_address a.
Proof.
  intros (host & port & Hb & Hp & Ha). destruct (SplitHostPort_join host port Hb Hp) as [S1 S2].
  destruct Ha as [[Hc ->]| ->].
  - split; [by destruct host|]. exists host, port. by apply S1.
  - split; [done|]. exists host, port. exact S2.
Qed.

(** An upstream with a name and addresses of the form host:port, or [host]:port
    for an IPv6 address, is valid, unless it is a cluster with a health check that lacks
    the user name or the password. *)
Theorem Validate_addresses u :
  UpstreamConfig_Name u <> EmptyString -> Forall joined (Addresses u) ->
  (UpstreamConfig_Cluster u = None \/ Validate_HealthCheck (UpstreamConfig_HealthCheck u) = Ok ()) ->
  UpstreamConfig_Validate u = Ok ().
Proof.
  intros Hn Ha Hh. apply is_ok_unit, UpstreamConfig_Validate_ok.
  split_and!; [done|by eapply Forall_impl; [exact Ha|exact joined_valid]|].
  destruct Hh as [->|Hh]; [done|]. destruct (UpstreamConfig_Cluster u); [|done].
  destruct (UpstreamConfig_HealthCheck u) as [h|]; [|done]. unfold Validate_HealthCheck in Hh.
  by repeat case_decide.
Qed.

Definition sampleConfig : UpstreamConfig := {|
  UpstreamConfig_Name := "primary"; UpstreamConfig_Address := "[::1]:5672";
  UpstreamConfig_Cluster := None; UpstreamConfig_Timeout := 0;
  UpstreamConfig_HealthCheck := None; UpstreamConfig_Routing := {| Routing_KeyPatterns := [] |};
  UpstreamConfig_QueueAttributes := None; UpstreamConfig_QueueOptions := None |}.

Lemma Validate_addresses_witness : UpstreamConfig_Validate sampleConfig = Ok ().
Proof.
  apply (Validate_addresses sampleConfig); [discriminate| |left; reflexivity].
  constructor; [|constructor]. exists "::1"%string, "5672"%string.
  split_and!; [by apply (bool_decide_unpack _); vm_compute..|right; reflexivity].
Defined.
