(* ===== verification/Upstream.v ===== *)
(** * Upstreams

    [upstream.go]: one upstream of a proxy, with the channels opened on it, the
    queue settings that override the client's, and the clean-ups to run when the
    connection closes. *)

From stdpp Require Import pretty.
From S2P Require Import Prelude Bytes Fields MsgBase MsgQueue Methods Errors Broker Config.

(** ** Data *)

(** The functions in [destruct], by what they delete. *)
Inductive cleanup : Type :=
| AutoGenerated (queue : string)
| EmulatedAutoDelete (queue : string).

Definition cleanup_queue (fn : cleanup) : string :=
  match fn with AutoGenerated q | EmulatedAutoDelete q => q end.

Record Upstream : Type := {
  Upstream_name : string;
  Upstream_address : string;
  Upstream_conn : option Conn;
  Upstream_channel : gmap Z Handle;
  Upstream_keyPatterns : list string;
  Upstream_queueAttr : option QueueAttributes;
  Upstream_queueOpts : option QueueOptions;
  Upstream_destruct : list cleanup
}.

(** What stays of an upstream: its address and its connection. *)
Definition link (u : Upstream) : string * option Conn := (Upstream_address u, Upstream_conn u).

Definition NewUpstream (conn : option Conn) (conf : UpstreamConfig) (address : string) : Upstream := {|
  Upstream_name := UpstreamConfig_Name conf;
  Upstream_address := address;
  Upstream_conn := conn;
  Upstream_channel := ∅;
  Upstream_keyPatterns := Routing_KeyPatterns (UpstreamConfig_Routing conf);
  Upstream_queueAttr := UpstreamConfig_QueueAttributes conf;
  Upstream_queueOpts := UpstreamConfig_QueueOptions conf;
  Upstream_destruct := [] |}.

Definition set_channel (f : gmap Z Handle -> gmap Z Handle) (u : Upstream) : Upstream := {|
  Upstream_name := Upstream_name u;
  Upstream_address := Upstream_address u;
  Upstream_conn := Upstream_conn u;
  Upstream_channel := f (Upstream_channel u);
  Upstream_keyPatterns := Upstream_keyPatterns u;
  Upstream_queueAttr := Upstream_queueAttr u;
  Upstream_queueOpts := Upstream_queueOpts u;
  Upstream_destruct := Upstream_destruct u |}.

Definition add_destruct (fn : cleanup) (u : Upstream) : Upstream := {|
  Upstream_name := Upstream_name u;
  Upstream_address := Upstream_address u;
  Upstream_conn := Upstream_conn u;
  Upstream_channel := Upstream_channel u;
  Upstream_keyPatterns := Upstream_keyPatterns u;
  Upstream_queueAttr := Upstream_queueAttr u;
  Upstream_queueOpts := Upstream_queueOpts u;
  Upstream_destruct := Upstream_destruct u ++ [fn] |}.

(** The state of an operation on an upstream: the upstream and all the calls made to
    the client library so far. *)
Record UState : Type := { us : Upstream; calls : list Call }.

Abbreviation upstreamM := (stm UState goerror).

Definition get_us {A} (f : Upstream -> A) : upstreamM A := gets (fun s => f (us s)).

Definition modify_us (f : Upstream -> Upstream) : upstreamM () :=
  modify (fun s => {| us := f (us s); calls := calls s |}).

Definition AutoGenerateQueueNamePrefix : string := "trabbits.gen-".

(** [strings.HasPrefix]. *)
Definition HasPrefix (s prefix : string) : bool := String.prefix prefix s.

(** ** Queue attributes *)

(** [maps.Copy(dst, src)]. *)
Definition maps_Copy (dst src : entries) : entries :=
  fold_left (fun t kv => tset kv.1 kv.2 t) src dst.

(** [for k, v := range attr { if v == nil { delete(arguments, k) } else
    { arguments[k] = v } }]. *)
Definition override (arguments attr : entries) : entries :=
  fold_left (fun t kv => match kv.2 with VNil => tdel kv.1 t | v => tset kv.1 v t end)
    attr arguments.

Record DeclareArgs : Type := {
  args_name : string;
  args_durable : bool;
  args_autoDelete : bool;
  args_exclusive : bool;
  args_noWait : bool;
  args_table : Table
}.

Definition QueueDeclareArgs (u : Upstream) (m : QueueDeclare) : DeclareArgs :=
  if HasPrefix (QueueDeclare_Queue m) AutoGenerateQueueNamePrefix then {|
    args_name := QueueDeclare_Queue m; args_durable := false; args_autoDelete := true;
    args_exclusive := true; args_noWait := false; args_table := QueueDeclare_Arguments m |}
  else match Upstream_queueAttr u with
  | None => {|
      args_name := QueueDeclare_Queue m; args_durable := QueueDeclare_Durable m;
      args_autoDelete := QueueDeclare_AutoDelete m;
      args_exclusive := QueueDeclare_Exclusive m; args_noWait := false;
      args_table := QueueDeclare_Arguments m |}
  | Some attr => {|
      args_name := QueueDeclare_Queue m;
      args_durable := default (QueueDeclare_Durable m) (QueueAttributes_Durable attr);
      args_autoDelete := default (QueueDeclare_AutoDelete m) (QueueAttributes_AutoDelete attr);
      args_exclusive := default (QueueDeclare_Exclusive m) (QueueAttributes_Exclusive attr);
      args_noWait := false;
      args_table :=
        match QueueDeclare_Arguments m, QueueAttributes_Arguments attr with
        | None, None => None
        | margs, aargs =>
            Some (override (maps_Copy [] (default [] margs)) (default [] aargs))
        end |}
  end.

Definition shouldEmulateAutoDelete (u : Upstream) (m : QueueDeclare) : bool :=
  match Upstream_queueOpts u with
  | None => false
  | Some opts =>
      if negb (QueueOptions_EmulateAutoDelete opts) then false
      else if negb (QueueDeclare_AutoDelete m) then false
      else match Upstream_queueAttr u with
           | None => false
           | Some attr =>
               match QueueAttributes_AutoDelete attr with
               | None => false
               | Some autoDelete => negb autoDelete
               end
           end
  end.

(** ** Operations *)

Section Operations.
Context `{Broker}.

(** The channel that [for _, ch := range u.channel { ...; break }] finds: Go does
    not say which. *)
Context (anyChannel : gmap Z Handle -> option Handle).

Definition call (c : Call) : upstreamM (answer c) := fun s =>
  (match respond (calls s) c with Ok a => Ok a | Err e => Err (RabbitErr e) end,
   {| us := us s; calls := calls s ++ [c] |}).

(** A method call on a connection, which panics on a nil one. *)
Definition onConn {A} (k : Conn -> upstreamM A) : upstreamM A :=
  c ← get_us Upstream_conn; match c with Some c => k c | None => throw GoPanic end.

Definition NewChannel (id : Z) : upstreamM Handle :=
  existing ← get_us (fun u => Upstream_channel u !! id);
  match existing with
  | Some _ => throw (Errorf ("channel " +:+ pretty id +:+ " already exists"))
  | None =>
      ch ← wrapf "failed to create upstream channel" (onConn (fun c => call (Conn_Channel c)));
      _ ← modify_us (set_channel <[id := ch]>);
      mret ch
  end.

Definition GetChannel (id : Z) : upstreamM Handle :=
  existing ← get_us (fun u => Upstream_channel u !! id);
  match existing with
  | Some ch => mret ch
  | None => throw (Errorf ("channel " +:+ pretty id +:+ " not found"))
  end.

Definition CloseChannel (id : Z) : upstreamM () :=
  existing ← get_us (fun u => Upstream_channel u !! id);
  _ ← match existing with
      | None => mret ()
      | Some ch => wrapf ("failed to close channel " +:+ pretty id) (call (Ch_Close ch))
      end;
  modify_us (set_channel (delete id)).

Definition CleanupAutoGeneratedQueue (name : string) : upstreamM () :=
  if negb (HasPrefix name AutoGenerateQueueNamePrefix) then mret ()
  else modify_us (add_destruct (AutoGenerated name)).

Definition RegisterEmulatedAutoDeleteQueue (queueName : string) : upstreamM () :=
  modify_us (add_destruct (EmulatedAutoDelete queueName)).

(** Both kinds of clean-up delete the queue and only log an error. *)
Definition run_cleanup (ch : Handle) (fn : cleanup) : upstreamM () := fun s =>
  (Ok (), (call (Ch_QueueDelete ch (cleanup_queue fn) false false false) s).2).

(** [Close] in two parts: the clean-ups, on any open channel or else on a new one, and
    the connection. *)
Definition closeCleanups : upstreamM () :=
  existing ← get_us (fun u => anyChannel (Upstream_channel u));
  ch ← match existing with
       | Some ch => mret ch
       | None => wrapf "failed to create channel" (onConn (fun c => call (Conn_Channel c)))
       end;
  fns ← get_us Upstream_destruct;
  forM fns (run_cleanup ch).

Definition closeConn : upstreamM () :=
  c ← get_us Upstream_conn;
  match c with
  | Some c => wrapf "failed to close connection" (call (Conn_Close c))
  | None => mret ()
  end.

Definition Close : upstreamM () := _ ← closeCleanups; closeConn.

(** [ch.QueueDeclare(...)] with its error as it is, for the type assertion. *)
Definition declare (ch : Handle) (a : DeclareArgs) : upstreamM Queue :=
  call (Ch_QueueDeclare ch (args_name a) (args_durable a) (args_autoDelete a)
          (args_exclusive a) (args_noWait a) (args_table a)).

(** The arguments of the first attempt: it is meant to be a passive declare. *)
Definition tryPassiveArgs (m : QueueDeclare) : DeclareArgs := {|
  args_name := QueueDeclare_Queue m; args_durable := false; args_autoDelete := false;
  args_exclusive := false; args_noWait := true; args_table := None |}.

Definition declareAndRegister (ch : Handle) (m : QueueDeclare) : upstreamM Queue :=
  args ← get_us (fun u => QueueDeclareArgs u m);
  q ← wrapf "failed to declare queue" (declare ch args);
  emulate ← get_us (fun u => shouldEmulateAutoDelete u m);
  _ ← (if emulate : bool then RegisterEmulatedAutoDeleteQueue (Queue_Name q) else mret ());
  mret q.

Definition TryPassive (u : Upstream) : bool :=
  match Upstream_queueOpts u with Some opts => QueueOptions_TryPassive opts | None => false end.

Definition tryPassive (ch : Handle) (m : QueueDeclare) : upstreamM Queue := fun s =>
  match declare ch (tryPassiveArgs m) s with
  | (Ok q, s') => (Ok q, s')
  | (Err (RabbitErr (RAmqp code text)), s') =>
      if code =? NotFound then declareAndRegister ch m s'
      else (Err (Wrap "passive declare failed" (RabbitErr (RAmqp code text))), s')
  | (Err e, s') => (Err (onError (Wrap "passive declare failed") e), s')
  end.

Definition QueueDeclareWithTryPassive (ch : Handle) (m : QueueDeclare) : upstreamM Queue :=
  try ← get_us TryPassive;
  if try : bool then tryPassive ch m else declareAndRegister ch m.
End Operations.

(** ** Proofs: argument tables *)

Definition keys (t : entries) : list string := map fst t.

Lemma tset_keys k v t : k ∈ keys t -> keys (tset k v t) = keys t.
Proof.
  induction t as [|[k' v'] t IH]; simpl; [by intros ?%elem_of_nil|].
  intros Hk. destruct (decide (k' = k)) as [->|]; [done|]. simpl. f_equal. apply IH.
  by apply elem_of_cons in Hk as [->|].
Qed.

Lemma tset_NoDup k v t : NoDup (keys t) -> NoDup (keys (tset k v t)).
Proof.
  intros Ht. destruct (decide (k ∈ keys t)) as [Hk|Hk]; [by rewrite tset_keys|].
  rewrite tset_fresh by done. unfold keys in *. rewrite map_app. apply NoDup_app.
  split_and!; [done| |apply NoDup_singleton]. by intros x Hx ->%list_elem_of_singleton.
Qed.

Lemma tget_None k t : tget k t = None <-> k ∉ keys t.
Proof.
  induction t as [|[k' v'] t IH]; simpl; [by split; [intros _ ?%elem_of_nil|]|].
  rewrite not_elem_of_cons. destruct (decide (k' = k)) as [->|]; [naive_solver|].
  rewrite IH. naive_solver.
Qed.

Lemma tdel_keys k k' t : k' ∈ keys (tdel k t) -> k' ∈ keys t.
Proof.
  induction t as [|[k1 v1] t IH]; simpl; [done|]. destruct (decide (k1 = k)); simpl.
  - by right.
  - rewrite !elem_of_cons. naive_solver.
Qed.

Lemma tdel_NoDup k t : NoDup (keys t) -> NoDup (keys (tdel k t)).
Proof.
  induction t as [|[k' v'] t IH]; simpl; [done|]. intros [Hk Ht]%NoDup_cons.
  destruct (decide (k' = k)); [done|]. apply NoDup_cons. split; [|by apply IH].
  by intros H%tdel_keys.
Qed.

Lemma tget_tdel k k' t :
  NoDup (keys t) -> tget k' (tdel k t) = if decide (k = k') then None else tget k' t.
Proof.
  induction t as [|[k1 v1] t IH]; simpl; [by case_decide|]. intros [Hk Ht]%NoDup_cons.
  destruct (decide (k1 = k)) as [->|]; simpl.
  - destruct (decide (k = k')) as [->|]; [by apply tget_None|done].
  - rewrite IH by done. repeat case_decide; congruence.
Qed.

(** The value an overriding table gives a key: a [nil] removes it. *)
Definition overridden (old new : option field) : option field :=
  match new with Some VNil => None | Some v => Some v | None => old end.

Lemma tget_override k t attr :
  NoDup (keys t) -> NoDup (keys attr) ->
  tget k (override t attr) = overridden (tget k t) (tget k attr).
Proof.
  unfold override. revert t. induction attr as [|[k' v'] attr IH]; intros t Ht; [done|].
  intros [Hk Ha]%NoDup_cons. apply tget_None in Hk. cbn [fold_left fst snd tget].
  assert (Hstep : forall t', NoDup (keys t') ->
    (forall k, tget k t' = if decide (k' = k) then overridden (tget k t) (Some v') else tget k t) ->
    tget k (fold_left (fun t kv => match kv.2 with VNil => tdel kv.1 t | v => tset kv.1 v t end)
      attr t') = overridden (tget k t) (if decide (k' = k) then Some v' else tget k attr)).
  { intros t' Ht' Hget. rewrite IH, Hget by done. case_decide as E; [|done].
    simpl in Hk. subst k'. rewrite Hk. done. }
  apply Hstep.
  - destruct v'; simpl; auto using tset_NoDup, tdel_NoDup.
  - intros k1. destruct v'; simpl; first [apply tget_tset | apply tget_tdel, Ht].
Qed.

Lemma maps_Copy_spec k src dst :
  NoDup (keys src) -> NoDup (keys dst) ->
  NoDup (keys (maps_Copy dst src)) /\
  tget k (maps_Copy dst src) = match tget k src with Some v => Some v | None => tget k dst end.
Proof.
  unfold maps_Copy. revert dst. induction src as [|[k' v'] src IH]; intros dst Hs Hd; [done|].
  apply NoDup_cons in Hs as [Hk Hs]. apply tget_None in Hk. cbn [fold_left fst snd tget].
  destruct (IH (tset k' v' dst) Hs (tset_NoDup _ _ _ Hd)) as [IH1 IH2].
  split; [done|]. rewrite IH2, tget_tset. simpl in Hk.
  case_decide; [subst; by rewrite Hk|done].
Qed.

(** ** What the queue attributes guarantee *)

(** For a queue the client names, the overriding attributes win where they are
    set and the client's stand where they are not: for each flag, and for each key of
    the arguments, where an overriding [nil] removes the client's; the declare always
    waits for the answer. *)
Theorem QueueDeclareArgs_override u m attr k :
  HasPrefix (QueueDeclare_Queue m) AutoGenerateQueueNamePrefix = false ->
  Upstream_queueAttr u = Some attr ->
  NoDup (keys (default [] (QueueDeclare_Arguments m))) ->
  NoDup (keys (default [] (QueueAttributes_Arguments attr))) ->
  let a := QueueDeclareArgs u m in
  args_name a = QueueDeclare_Queue m /\
  args_durable a = default (QueueDeclare_Durable m) (QueueAttributes_Durable attr) /\
  args_autoDelete a = default (QueueDeclare_AutoDelete m) (QueueAttributes_AutoDelete attr) /\
  args_exclusive a = default (QueueDeclare_Exclusive m) (QueueAttributes_Exclusive attr) /\
  args_noWait a = false /\
  tget k (default [] (args_table a)) =
    overridden (tget k (default [] (QueueDeclare_Arguments m)))
               (tget k (default [] (QueueAttributes_Arguments attr))).
Proof.
  intros Hp Ha Hm Hattr. cbv zeta. unfold QueueDeclareArgs. rewrite Hp, Ha.
  cbn [args_name args_durable args_autoDelete args_exclusive args_noWait args_table].
  split_and!; [done..|].
  pose proof (maps_Copy_spec k (default [] (QueueDeclare_Arguments m)) [] Hm
    ltac:(constructor)) as [Hc1 Hc2].
  assert (E : tget k (override (maps_Copy [] (default [] (QueueDeclare_Arguments m)))
                       (default [] (QueueAttributes_Arguments attr)))
    = overridden (tget k (default [] (QueueDeclare_Arguments m)))
               (tget k (default [] (QueueAttributes_Arguments attr)))).
  { rewrite tget_override, Hc2 by done. f_equal.
    by destruct (tget k (default [] (QueueDeclare_Arguments m))). }
  destruct (QueueDeclare_Arguments m), (QueueAttributes_Arguments attr); done.
Qed.

(** The deletion of a queue at close is emulated exactly when the option is
    on, the client asked for an auto-delete queue and the override took that away; for
    such a queue name the broker is not asked to delete it itself. *)
Theorem shouldEmulateAutoDelete_iff u m :
  HasPrefix (QueueDeclare_Queue m) AutoGenerateQueueNamePrefix = false ->
  shouldEmulateAutoDelete u m = true <->
  (exists opts, Upstream_queueOpts u = Some opts /\ QueueOptions_EmulateAutoDelete opts = true) /\
  QueueDeclare_AutoDelete m = true /\ args_autoDelete (QueueDeclareArgs u m) = false.
Proof.
  intros Hp. unfold shouldEmulateAutoDelete, QueueDeclareArgs. rewrite Hp.
  assert (Hno : forall P : Prop, ~ P -> false = true <-> P) by (by intros P HP).
  destruct (Upstream_queueOpts u) as [opts|]; [|apply Hno; by intros ((? & ? & ?) & _)].
  destruct (QueueOptions_EmulateAutoDelete opts) eqn:Eo; simpl;
    [|apply Hno; intros ((? & ? & ?) & _); congruence].
  destruct (QueueDeclare_AutoDelete m) eqn:Em; simpl; [|apply Hno; by intros (_ & ? & _)].
  destruct (Upstream_queueAttr u) as [attr|]; simpl;
    [|apply Hno; intros (_ & _ & ?); congruence].
  destruct (QueueAttributes_AutoDelete attr) as [[]|]; simpl;
    [apply Hno; by intros (_ & _ & ?)|split; eauto|apply Hno; intros (_ & _ & ?); congruence].
Qed.

(** ** Proofs: channels and closing *)

Section Proofs.
Context `{Broker} (anyChannel : gmap Z Handle -> option Handle).

(** A channel number is mapped from a successful [NewChannel] to a successful
    [CloseChannel]: opening a mapped number fails without a call to the library,
    opening another one makes it the channel [GetChannel] returns and changes no
    other number, a successful close unmaps the number and only that. *)
Theorem channel_lifecycle id s :
  (forall ch, Upstream_channel (us s) !! id = Some ch ->
     GetChannel id s = (Ok ch, s) /\ exists e, NewChannel id s = (Err e, s)) /\
  (forall ch s', NewChannel id s = (Ok ch, s') ->
     Upstream_channel (us s) !! id = None /\ GetChannel id s' = (Ok ch, s') /\
     forall id', id' <> id ->
       Upstream_channel (us s') !! id' = Upstream_channel (us s) !! id') /\
  (forall s', CloseChannel id s = (Ok (), s') ->
     (exists e, GetChannel id s' = (Err e, s')) /\
     forall id', id' <> id ->
       Upstream_channel (us s') !! id' = Upstream_channel (us s) !! id').
Proof.
  split_and!.
  - intros ch E. unfold GetChannel, NewChannel, get_us, gets, mbind, stm_bind.
    rewrite E. split; [done|]. by eexists.
  - intros ch s' E.
    unfold NewChannel, onConn, wrapf, wrap, call, modify_us, modify, get_us, gets, throw,
      mbind, stm_bind, mret, stm_ret in E.
    destruct (Upstream_channel (us s) !! id) eqn:El; [done|].
    destruct (Upstream_conn (us s)) as [c|]; [|done].
    destruct (respond (calls s) (Conn_Channel c)); [|done]. injection E as [= -> <-].
    split; [done|]. unfold GetChannel, get_us, gets, mbind, stm_bind. simpl.
    rewrite lookup_insert_eq. split; [done|]. intros id' Hid. by rewrite lookup_insert_ne.
  - intros s' E. unfold CloseChannel, get_us, gets, mbind, stm_bind in E.
    assert (Hs : exists cs, s' = {| us := set_channel (delete id) (us s); calls := cs |}).
    { destruct (Upstream_channel (us s) !! id) as [ch|].
      - unfold wrapf, wrap, call in E. destruct (respond _ _); [|done].
        injection E as [= <-]. eauto.
      - injection E as [= <-]. eauto. }
    destruct Hs as [cs ->]. unfold GetChannel, get_us, gets, mbind, stm_bind. simpl.
    rewrite lookup_delete_eq. split; [by eexists|].
    intros id' Hid. by rewrite lookup_delete_ne.
Qed.

Lemma run_cleanups ch fns s :
  forM fns (run_cleanup ch) s =
  (Ok (), {| us := us s;
             calls := calls s ++ map (fun fn =>
               Ch_QueueDelete ch (cleanup_queue fn) false false false) fns |}).
Proof.
  revert s. induction fns as [|fn fns IH]; intros s; simpl.
  - rewrite app_nil_r. by destruct s.
  - unfold mbind, stm_bind, run_cleanup at 1. rewrite IH. simpl.
    by rewrite <- app_assoc.
Qed.

(** Closing an upstream that has an open channel asks the broker to delete
    each registered queue on that channel, in the order of registration and whatever
    it answers, and closes the connection after that. *)
Theorem Close_deletes s ch c :
  anyChannel (Upstream_channel (us s)) = Some ch -> Upstream_conn (us s) = Some c ->
  (Close anyChannel s).2 = {|
    us := us s;
    calls := calls s
      ++ map (fun fn => Ch_QueueDelete ch (cleanup_queue fn) false false false)
           (Upstream_destruct (us s))
      ++ [Conn_Close c] |}.
Proof.
  intros Hch Hc. unfold Close, closeCleanups, closeConn, get_us, gets, mbind, stm_bind.
  rewrite Hch.
  unfold mret, stm_ret. rewrite run_cleanups. simpl. rewrite Hc.
  unfold wrapf, wrap, call. simpl. rewrite <- app_assoc. by destruct (respond _ _).
Qed.

(** A queue declared without the try-passive option is registered for
    deletion exactly when the deletion is to be emulated, and under the name the
    broker gave it; a failed declare registers nothing. *)
Theorem declare_registers ch m s :
  TryPassive (us s) = false ->
  let a := QueueDeclareArgs (us s) m in
  let c := Ch_QueueDeclare ch (args_name a) (args_durable a) (args_autoDelete a)
             (args_exclusive a) false (args_table a) in
  match QueueDeclareWithTryPassive ch m s with
  | (Ok q, s') =>
      respond (calls s) c = Ok q /\ calls s' = calls s ++ [c] /\
      Upstream_destruct (us s') = Upstream_destruct (us s) ++
        (if shouldEmulateAutoDelete (us s) m then [EmulatedAutoDelete (Queue_Name q)] else [])
  | (Err e, s') => us s' = us s /\ calls s' = calls s ++ [c]
  end.
Proof.
  intros Ht. cbv zeta.
  assert (Hw : args_noWait (QueueDeclareArgs (us s) m) = false).
  { unfold QueueDeclareArgs. repeat case_match; done. }
  unfold QueueDeclareWithTryPassive, get_us, gets, mbind, stm_bind. rewrite Ht.
  unfold declareAndRegister, declare, wrapf, wrap, call, get_us, gets, mbind, stm_bind.
  rewrite Hw. destruct (respond _ _) as [q|e]; [|done]. simpl.
  destruct (shouldEmulateAutoDelete (us s) m); simpl; [done|].
  by rewrite app_nil_r.
Qed.

(** With the try-passive option the first declare is neither passive nor does it
    wait: it asks for a transient queue without arguments, and when the library
    accepts it, that is the whole effect: the client's attributes, the overriding ones
    and the emulation of auto-delete play no part. *)
Theorem tryPassive_first ch m s q :
  TryPassive (us s) = true ->
  respond (calls s) (Ch_QueueDeclare ch (QueueDeclare_Queue m) false false false true None) = Ok q ->
  QueueDeclareWithTryPassive ch m s =
    (Ok q, {| us := us s;
              calls := calls s ++
                [Ch_QueueDeclare ch (QueueDeclare_Queue m) false false false true None] |}).
Proof.
  intros Ht Hq. unfold QueueDeclareWithTryPassive, get_us, gets, mbind, stm_bind. rewrite Ht.
  unfold tryPassive, declare, call. simpl. by rewrite Hq.
Qed.
End Proofs.

(** ** A concrete upstream

    Queues are made durable and lose auto-delete, which is emulated. *)

Definition sampleAttributes : QueueAttributes := {|
  QueueAttributes_Durable := Some true; QueueAttributes_AutoDelete := Some false;
  QueueAttributes_Exclusive := None;
  QueueAttributes_Arguments := Some [("x-queue-type", VString "quorum"); ("x-expires", VNil)]%string |}.

Definition sampleUpstream (name : string) (try_passive emulate : bool) : Upstream := {|
  Upstream_name := name; Upstream_address := "localhost:5672"; Upstream_conn := Some 0;
  Upstream_channel := {[ 1 := 10 ]}; Upstream_keyPatterns := ["test.#"%string];
  Upstream_queueAttr := Some sampleAttributes;
  Upstream_queueOpts := Some {|
    QueueOptions_TryPassive := try_passive; QueueOptions_EmulateAutoDelete := emulate |};
  Upstream_destruct := [AutoGenerated "trabbits.gen-1"; EmulatedAutoDelete "jobs"] |}.

Definition sampleDeclare : QueueDeclare := {|
  QueueDeclare_reserved1 := 0; QueueDeclare_Queue := "test"; QueueDeclare_Passive := false;
  QueueDeclare_Durable := false; QueueDeclare_Exclusive := false;
  QueueDeclare_AutoDelete := true; QueueDeclare_NoWait := false;
  QueueDeclare_Arguments := Some [("x-expires", VInt 60000)]%string |}.

Lemma QueueDeclareArgs_override_witness :
  let a := QueueDeclareArgs (sampleUpstream "u" false true) sampleDeclare in
  args_name a = "test"%string /\ args_durable a = true /\ args_autoDelete a = false /\
  args_exclusive a = false /\ args_noWait a = false /\
  tget "x-expires" (default [] (args_table a)) = None.
Proof.
  apply (QueueDeclareArgs_override (sampleUpstream "u" false true) sampleDeclare sampleAttributes);
    [vm_compute; reflexivity|reflexivity| |];
    apply (bool_decide_unpack _); vm_compute; exact I.
Defined.

Lemma shouldEmulateAutoDelete_iff_witness :
  shouldEmulateAutoDelete (sampleUpstream "u" false true) sampleDeclare = true <->
  (exists opts, Upstream_queueOpts (sampleUpstream "u" false true) = Some opts /\
     QueueOptions_EmulateAutoDelete opts = true) /\
  QueueDeclare_AutoDelete sampleDeclare = true /\
  args_autoDelete (QueueDeclareArgs (sampleUpstream "u" false true) sampleDeclare) = false.
Proof. apply shouldEmulateAutoDelete_iff. vm_compute. reflexivity. Defined.

Lemma Close_deletes_witness :
  let s := {| us := sampleUpstream "u" false true; calls := [] |} in
  (@Close acceptingBroker (fun m => m !! 1) s).2 = {|
    us := us s;
    calls := [Ch_QueueDelete 10 "trabbits.gen-1" false false false;
              Ch_QueueDelete 10 "jobs" false false false; Conn_Close 0] |}.
Proof.
  apply (@Close_deletes acceptingBroker (fun m => m !! 1)
    {| us := sampleUpstream "u" false true; calls := [] |} 10 0); reflexivity.
Defined.

Lemma declare_registers_witness :
  let s := {| us := sampleUpstream "u" false true; calls := [] |} in
  let a := QueueDeclareArgs (us s) sampleDeclare in
  let c := Ch_QueueDeclare 10 (args_name a) (args_durable a) (args_autoDelete a)
             (args_exclusive a) false (args_table a) in
  match @QueueDeclareWithTryPassive acceptingBroker 10 sampleDeclare s with
  | (Ok q, s') =>
      @respond acceptingBroker [] c = Ok q /\ calls s' = [c] /\
      Upstream_destruct (us s') = Upstream_destruct (us s) ++
        (if shouldEmulateAutoDelete (us s) sampleDeclare
         then [EmulatedAutoDelete (Queue_Name q)] else [])
  | (Err e, s') => us s' = us s /\ calls s' = [c]
  end.
Proof.
  apply (@declare_registers acceptingBroker 10 sampleDeclare
    {| us := sampleUpstream "u" false true; calls := [] |}). reflexivity.
Defined.

Lemma tryPassive_first_witness :
  let s := {| us := sampleUpstream "u" true true; calls := [] |} in
  @QueueDeclareWithTryPassive acceptingBroker 10 sampleDeclare s =
    (Ok {| Queue_Name := "test"; Queue_Messages := 0; Queue_Consumers := 0 |},
     {| us := us s; calls := [Ch_QueueDeclare 10 "test" false false false true None] |}).
Proof.
  apply (@tryPassive_first acceptingBroker 10 sampleDeclare
    {| us := sampleUpstream "u" true true; calls := [] |}
    {| Queue_Name := "test"; Queue_Messages := 0; Queue_Consumers := 0 |}); reflexivity.
Defined.
