(* ===== verification/Instruments.v ===== *)
(** * Metrics

    [metrics/instruments.go] and [metrics/metrics.go]: counters and gauges, alone and by
    a label, the set of all of them, and what the exporter observes; [logger.go]: the
    log handler that counts records by level. The update methods run atomically. *)

From stdpp Require Import pretty.
From S2P Require Import Prelude Bytes.

Open Scope Z_scope.

(** ** [instruments.go] *)

(** An [atomic.Int64]. *)
Definition Counter : Type := Z.
Definition Gauge : Type := Z.

Definition newCounter : Counter := 0.
Definition Counter_Add (d : Z) (c : Counter) : Counter := swrap 64 (c + d).
Definition Counter_Inc (c : Counter) : Counter := Counter_Add 1 c.

Definition newGauge : Gauge := 0.
Definition Gauge_Inc (g : Gauge) : Gauge := swrap 64 (g + 1).
Definition Gauge_Dec (g : Gauge) : Gauge := swrap 64 (g - 1).
Definition Gauge_Set (v : Z) (g : Gauge) : Gauge := v.

(** [CounterVec] and [GaugeVec]. *)
Abbreviation Vec := (gmap string Z).
Definition newVec : Vec := ∅.

(** [v.WithLabelValues(lv)] makes the entry; an update of the counter it returns is an
    update of the entry. *)
Definition WithLabelValues (lv : string) (f : Z -> Z) (v : Vec) : Vec :=
  <[lv := f (default newCounter (v !! lv))]> v.
Definition touch (lv : string) (v : Vec) : Vec := WithLabelValues lv (fun c => c) v.
Definition Value (lv : string) (v : Vec) : Z := default newCounter (v !! lv).
Definition Reset (v : Vec) : Vec := ∅.
(** [v.each(f)], as the list of the arguments of [f]. *)
Definition each (v : Vec) : list (string * Z) := map_to_list v.

Lemma Value_With lv f v : Value lv (WithLabelValues lv f v) = f (Value lv v).
Proof. unfold Value, WithLabelValues. by rewrite lookup_insert_eq. Qed.

Lemma Value_With_ne lv lv' f v : lv <> lv' -> Value lv (WithLabelValues lv' f v) = Value lv v.
Proof. intros Hne. unfold Value, WithLabelValues. by rewrite lookup_insert_ne by done. Qed.

Lemma Value_touch lv lv' v : Value lv (touch lv' v) = Value lv v.
Proof.
  destruct (decide (lv = lv')) as [->|Hne]; unfold touch; [by rewrite Value_With|].
  by rewrite Value_With_ne.
Qed.

Lemma Gauge_Dec_Inc g : in_int 64 g = true -> Gauge_Dec (Gauge_Inc g) = g.
Proof.
  intros [Hl Hu]%in_int_spec. unfold Gauge_Dec, Gauge_Inc, swrap in *.
  change (64 - 1) with 63 in *. Z.to_euclidean_division_equations. lia.
Qed.

(** ** [metrics.go] *)

Record Metrics : Type := {
  ClientConnections : Gauge;
  ClientTotalConnections : Counter;
  ClientConnectionErrors : Counter;
  ClientReceivedFrames : Counter;
  ClientSentFrames : Counter;
  UpstreamConnections : Vec;
  UpstreamTotalConnections : Vec;
  UpstreamConnectionErrors : Vec;
  UpstreamHealthyNodes : Vec;
  UpstreamUnhealthyNodes : Vec;
  ProcessedMessages : Vec;
  ErroredMessages : Vec;
  LoggerStats : Vec;
  PanicRecoveries : Vec
}.

Definition NewMetrics : Metrics := {|
  ClientConnections := newGauge; ClientTotalConnections := newCounter;
  ClientConnectionErrors := newCounter; ClientReceivedFrames := newCounter;
  ClientSentFrames := newCounter; UpstreamConnections := newVec;
  UpstreamTotalConnections := newVec; UpstreamConnectionErrors := newVec;
  UpstreamHealthyNodes := newVec; UpstreamUnhealthyNodes := newVec;
  ProcessedMessages := newVec; ErroredMessages := newVec; LoggerStats := newVec;
  PanicRecoveries := newVec |}.

(** An update of one instrument. *)
Definition on_ClientConnections (f : Z -> Z) (m : Metrics) : Metrics := {|
  ClientConnections := f (ClientConnections m); ClientTotalConnections := ClientTotalConnections
  m; ClientConnectionErrors := ClientConnectionErrors m; ClientReceivedFrames :=
  ClientReceivedFrames m; ClientSentFrames := ClientSentFrames m; UpstreamConnections :=
  UpstreamConnections m; UpstreamTotalConnections := UpstreamTotalConnections m;
  UpstreamConnectionErrors := UpstreamConnectionErrors m; UpstreamHealthyNodes :=
  UpstreamHealthyNodes m; UpstreamUnhealthyNodes := UpstreamUnhealthyNodes m; ProcessedMessages
  := ProcessedMessages m; ErroredMessages := ErroredMessages m; LoggerStats := LoggerStats m;
  PanicRecoveries := PanicRecoveries m |}.
Definition on_ClientTotalConnections (f : Z -> Z) (m : Metrics) : Metrics := {|
  ClientConnections := ClientConnections m; ClientTotalConnections := f (ClientTotalConnections
  m); ClientConnectionErrors := ClientConnectionErrors m; ClientReceivedFrames :=
  ClientReceivedFrames m; ClientSentFrames := ClientSentFrames m; UpstreamConnections :=
  UpstreamConnections m; UpstreamTotalConnections := UpstreamTotalConnections m;
  UpstreamConnectionErrors := UpstreamConnectionErrors m; UpstreamHealthyNodes :=
  UpstreamHealthyNodes m; UpstreamUnhealthyNodes := UpstreamUnhealthyNodes m; ProcessedMessages
  := ProcessedMessages m; ErroredMessages := ErroredMessages m; LoggerStats := LoggerStats m;
  PanicRecoveries := PanicRecoveries m |}.
Definition on_ClientConnectionErrors (f : Z -> Z) (m : Metrics) : Metrics := {|
  ClientConnections := ClientConnections m; ClientTotalConnections := ClientTotalConnections m;
  ClientConnectionErrors := f (ClientConnectionErrors m); ClientReceivedFrames :=
  ClientReceivedFrames m; ClientSentFrames := ClientSentFrames m; UpstreamConnections :=
  UpstreamConnections m; UpstreamTotalConnections := UpstreamTotalConnections m;
  UpstreamConnectionErrors := UpstreamConnectionErrors m; UpstreamHealthyNodes :=
  UpstreamHealthyNodes m; UpstreamUnhealthyNodes := UpstreamUnhealthyNodes m; ProcessedMessages
  := ProcessedMessages m; ErroredMessages := ErroredMessages m; LoggerStats := LoggerStats m;
  PanicRecoveries := PanicRecoveries m |}.
Definition on_ClientReceivedFrames (f : Z -> Z) (m : Metrics) : Metrics := {|
  ClientConnections := ClientConnections m; ClientTotalConnections := ClientTotalConnections m;
  ClientConnectionErrors := ClientConnectionErrors m; ClientReceivedFrames := f
  (ClientReceivedFrames m); ClientSentFrames := ClientSentFrames m; UpstreamConnections :=
  UpstreamConnections m; UpstreamTotalConnections := UpstreamTotalConnections m;
  UpstreamConnectionErrors := UpstreamConnectionErrors m; UpstreamHealthyNodes :=
  UpstreamHealthyNodes m; UpstreamUnhealthyNodes := UpstreamUnhealthyNodes m; ProcessedMessages
  := ProcessedMessages m; ErroredMessages := ErroredMessages m; LoggerStats := LoggerStats m;
  PanicRecoveries := PanicRecoveries m |}.
Definition on_ClientSentFrames (f : Z -> Z) (m : Metrics) : Metrics := {|
  ClientConnections := ClientConnections m; ClientTotalConnections := ClientTotalConnections m;
  ClientConnectionErrors := ClientConnectionErrors m; ClientReceivedFrames :=
  ClientReceivedFrames m; ClientSentFrames := f (ClientSentFrames m); UpstreamConnections :=
  UpstreamConnections m; UpstreamTotalConnections := UpstreamTotalConnections m;
  UpstreamConnectionErrors := UpstreamConnectionErrors m; UpstreamHealthyNodes :=
  UpstreamHealthyNodes m; UpstreamUnhealthyNodes := UpstreamUnhealthyNodes m; ProcessedMessages
  := ProcessedMessages m; ErroredMessages := ErroredMessages m; LoggerStats := LoggerStats m;
  PanicRecoveries := PanicRecoveries m |}.
Definition on_UpstreamConnections (f : Vec -> Vec) (m : Metrics) : Metrics := {|
  ClientConnections := ClientConnections m; ClientTotalConnections := ClientTotalConnections m;
  ClientConnectionErrors := ClientConnectionErrors m; ClientReceivedFrames :=
  ClientReceivedFrames m; ClientSentFrames := ClientSentFrames m; UpstreamConnections := f
  (UpstreamConnections m); UpstreamTotalConnections := UpstreamTotalConnections m;
  UpstreamConnectionErrors := UpstreamConnectionErrors m; UpstreamHealthyNodes :=
  UpstreamHealthyNodes m; UpstreamUnhealthyNodes := UpstreamUnhealthyNodes m; ProcessedMessages
  := ProcessedMessages m; ErroredMessages := ErroredMessages m; LoggerStats := LoggerStats m;
  PanicRecoveries := PanicRecoveries m |}.
Definition on_UpstreamTotalConnections (f : Vec -> Vec) (m : Metrics) : Metrics := {|
  ClientConnections := ClientConnections m; ClientTotalConnections := ClientTotalConnections m;
  ClientConnectionErrors := ClientConnectionErrors m; ClientReceivedFrames :=
  ClientReceivedFrames m; ClientSentFrames := ClientSentFrames m; UpstreamConnections :=
  UpstreamConnections m; UpstreamTotalConnections := f (UpstreamTotalConnections m);
  UpstreamConnectionErrors := UpstreamConnectionErrors m; UpstreamHealthyNodes :=
  UpstreamHealthyNodes m; UpstreamUnhealthyNodes := UpstreamUnhealthyNodes m; ProcessedMessages
  := ProcessedMessages m; ErroredMessages := ErroredMessages m; LoggerStats := LoggerStats m;
  PanicRecoveries := PanicRecoveries m |}.
Definition on_UpstreamConnectionErrors (f : Vec -> Vec) (m : Metrics) : Metrics := {|
  ClientConnections := ClientConnections m; ClientTotalConnections := ClientTotalConnections m;
  ClientConnectionErrors := ClientConnectionErrors m; ClientReceivedFrames :=
  ClientReceivedFrames m; ClientSentFrames := ClientSentFrames m; UpstreamConnections :=
  UpstreamConnections m; UpstreamTotalConnections := UpstreamTotalConnections m;
  UpstreamConnectionErrors := f (UpstreamConnectionErrors m); UpstreamHealthyNodes :=
  UpstreamHealthyNodes m; UpstreamUnhealthyNodes := UpstreamUnhealthyNodes m; ProcessedMessages
  := ProcessedMessages m; ErroredMessages := ErroredMessages m; LoggerStats := LoggerStats m;
  PanicRecoveries := PanicRecoveries m |}.
Definition on_UpstreamHealthyNodes (f : Vec -> Vec) (m : Metrics) : Metrics := {|
  ClientConnections := ClientConnections m; ClientTotalConnections := ClientTotalConnections m;
  ClientConnectionErrors := ClientConnectionErrors m; ClientReceivedFrames :=
  ClientReceivedFrames m; ClientSentFrames := ClientSentFrames m; UpstreamConnections :=
  UpstreamConnections m; UpstreamTotalConnections := UpstreamTotalConnections m;
  UpstreamConnectionErrors := UpstreamConnectionErrors m; UpstreamHealthyNodes := f
  (UpstreamHealthyNodes m); UpstreamUnhealthyNodes := UpstreamUnhealthyNodes m;
  ProcessedMessages := ProcessedMessages m; ErroredMessages := ErroredMessages m; LoggerStats :=
  LoggerStats m; PanicRecoveries := PanicRecoveries m |}.
Definition on_UpstreamUnhealthyNodes (f : Vec -> Vec) (m : Metrics) : Metrics := {|
  ClientConnections := ClientConnections m; ClientTotalConnections := ClientTotalConnections m;
  ClientConnectionErrors := ClientConnectionErrors m; ClientReceivedFrames :=
  ClientReceivedFrames m; ClientSentFrames := ClientSentFrames m; UpstreamConnections :=
  UpstreamConnections m; UpstreamTotalConnections := UpstreamTotalConnections m;
  UpstreamConnectionErrors := UpstreamConnectionErrors m; UpstreamHealthyNodes :=
  UpstreamHealthyNodes m; UpstreamUnhealthyNodes := f (UpstreamUnhealthyNodes m);
  ProcessedMessages := ProcessedMessages m; ErroredMessages := ErroredMessages m; LoggerStats :=
  LoggerStats m; PanicRecoveries := PanicRecoveries m |}.
Definition on_ProcessedMessages (f : Vec -> Vec) (m : Metrics) : Metrics := {|
  ClientConnections := ClientConnections m; ClientTotalConnections := ClientTotalConnections m;
  ClientConnectionErrors := ClientConnectionErrors m; ClientReceivedFrames :=
  ClientReceivedFrames m; ClientSentFrames := ClientSentFrames m; UpstreamConnections :=
  UpstreamConnections m; UpstreamTotalConnections := UpstreamTotalConnections m;
  UpstreamConnectionErrors := UpstreamConnectionErrors m; UpstreamHealthyNodes :=
  UpstreamHealthyNodes m; UpstreamUnhealthyNodes := UpstreamUnhealthyNodes m; ProcessedMessages
  := f (ProcessedMessages m); ErroredMessages := ErroredMessages m; LoggerStats := LoggerStats
  m; PanicRecoveries := PanicRecoveries m |}.
Definition on_ErroredMessages (f : Vec -> Vec) (m : Metrics) : Metrics := {|
  ClientConnections := ClientConnections m; ClientTotalConnections := ClientTotalConnections m;
  ClientConnectionErrors := ClientConnectionErrors m; ClientReceivedFrames :=
  ClientReceivedFrames m; ClientSentFrames := ClientSentFrames m; UpstreamConnections :=
  UpstreamConnections m; UpstreamTotalConnections := UpstreamTotalConnections m;
  UpstreamConnectionErrors := UpstreamConnectionErrors m; UpstreamHealthyNodes :=
  UpstreamHealthyNodes m; UpstreamUnhealthyNodes := UpstreamUnhealthyNodes m; ProcessedMessages
  := ProcessedMessages m; ErroredMessages := f (ErroredMessages m); LoggerStats := LoggerStats
  m; PanicRecoveries := PanicRecoveries m |}.
Definition on_LoggerStats (f : Vec -> Vec) (m : Metrics) : Metrics := {|
  ClientConnections := ClientConnections m; ClientTotalConnections := ClientTotalConnections m;
  ClientConnectionErrors := ClientConnectionErrors m; ClientReceivedFrames :=
  ClientReceivedFrames m; ClientSentFrames := ClientSentFrames m; UpstreamConnections :=
  UpstreamConnections m; UpstreamTotalConnections := UpstreamTotalConnections m;
  UpstreamConnectionErrors := UpstreamConnectionErrors m; UpstreamHealthyNodes :=
  UpstreamHealthyNodes m; UpstreamUnhealthyNodes := UpstreamUnhealthyNodes m; ProcessedMessages
  := ProcessedMessages m; ErroredMessages := ErroredMessages m; LoggerStats := f (LoggerStats
  m); PanicRecoveries := PanicRecoveries m |}.
Definition on_PanicRecoveries (f : Vec -> Vec) (m : Metrics) : Metrics := {|
  ClientConnections := ClientConnections m; ClientTotalConnections := ClientTotalConnections m;
  ClientConnectionErrors := ClientConnectionErrors m; ClientReceivedFrames :=
  ClientReceivedFrames m; ClientSentFrames := ClientSentFrames m; UpstreamConnections :=
  UpstreamConnections m; UpstreamTotalConnections := UpstreamTotalConnections m;
  UpstreamConnectionErrors := UpstreamConnectionErrors m; UpstreamHealthyNodes :=
  UpstreamHealthyNodes m; UpstreamUnhealthyNodes := UpstreamUnhealthyNodes m; ProcessedMessages
  := ProcessedMessages m; ErroredMessages := ErroredMessages m; LoggerStats := LoggerStats m;
  PanicRecoveries := f (PanicRecoveries m) |}.

Definition SetHealthyNodes (upstream : string) (count : Z) : Metrics -> Metrics :=
  on_UpstreamHealthyNodes (WithLabelValues upstream (Gauge_Set count)).
Definition SetUnhealthyNodes (upstream : string) (count : Z) : Metrics -> Metrics :=
  on_UpstreamUnhealthyNodes (WithLabelValues upstream (Gauge_Set count)).

(** What the callback of [NewMetrics] observes: instrument, label, value. *)
Definition observation : Type := string * option (string * string) * Z.

Definition observeVec (inst key : string) (v : Vec) : list observation :=
  map (fun lv => (inst, Some (key, lv.1), lv.2)) (each v).

Definition single (m : Metrics) : list (string * Z) := [
  ("trabbits_client_connections", ClientConnections m);
  ("trabbits_client_connections_total", ClientTotalConnections m);
  ("trabbits_client_connection_errors_total", ClientConnectionErrors m);
  ("trabbits_client_received_frames_total", ClientReceivedFrames m);
  ("trabbits_client_sent_frames_total", ClientSentFrames m)].

Definition labelled (m : Metrics) : list (string * string * Vec) := [
  ("trabbits_upstream_connections", "addr", UpstreamConnections m);
  ("trabbits_upstream_connections_total", "addr", UpstreamTotalConnections m);
  ("trabbits_upstream_connection_errors_total", "addr", UpstreamConnectionErrors m);
  ("trabbits_upstream_healthy_nodes", "upstream", UpstreamHealthyNodes m);
  ("trabbits_upstream_unhealthy_nodes", "upstream", UpstreamUnhealthyNodes m);
  ("trabbits_processed_messages_total", "method", ProcessedMessages m);
  ("trabbits_errored_messages_total", "method", ErroredMessages m);
  ("trabbits_logger_stats_total", "level", LoggerStats m);
  ("trabbits_panic_recoveries_total", "function", PanicRecoveries m)].

Definition observe (m : Metrics) : list observation :=
  map (fun iv => (iv.1, None, iv.2)) (single m)
  ++ concat (map (fun ikv => observeVec ikv.1.1 ikv.1.2 ikv.2) (labelled m)).

Lemma observeVec_in inst key v inst' l c :
  (inst', l, c) ∈ observeVec inst key v <->
  inst' = inst /\ exists lv, l = Some (key, lv) /\ v !! lv = Some c.
Proof.
  unfold observeVec, each. rewrite list_elem_of_fmap. split.
  - intros ([lv c'] & [= -> -> ->] & Hin). apply elem_of_map_to_list in Hin. eauto.
  - intros (-> & lv & -> & Hv). exists (lv, c). by rewrite (elem_of_map_to_list v lv c).
Qed.

Lemma observeVec_NoDup inst key v : NoDup (map fst (observeVec inst key v)).
Proof.
  unfold observeVec, each. rewrite map_map. simpl.
  apply (NoDup_fmap_2_strong _ _); [|apply NoDup_map_to_list].
  intros [k1 v1] [k2 v2] H1 H2 [= ->].
  apply elem_of_map_to_list in H1, H2. congruence.
Qed.

Lemma observeVecs_in (l : list (string * string * Vec)) o :
  o ∈ concat (map (fun ikv => observeVec ikv.1.1 ikv.1.2 ikv.2) l) <->
  exists key lv v, o.1.2 = Some (key, lv) /\ (o.1.1, key, v) ∈ l /\ v !! lv = Some o.2.
Proof.
  destruct o as [[inst lab] c]. rewrite list_elem_of_In, in_concat. simpl. split.
  - intros (x & (([i k] & v) & <- & Hin)%in_map_iff & Hx). simpl in *.
    apply list_elem_of_In, observeVec_in in Hx as (-> & lv & -> & Hv).
    apply list_elem_of_In in Hin. eauto 6.
  - intros (key & lv & v & -> & Hin & Hv). exists (observeVec inst key v). split.
    + apply in_map_iff. exists (inst, key, v). by rewrite <- list_elem_of_In.
    + apply list_elem_of_In, observeVec_in. eauto.
Qed.

Lemma observeVecs_NoDup (l : list (string * string * Vec)) :
  NoDup (map (fun ikv => ikv.1.1) l) ->
  NoDup (map fst (concat (map (fun ikv => observeVec ikv.1.1 ikv.1.2 ikv.2) l))).
Proof.
  induction l as [|[[i k] v] l IH]; simpl; [constructor|]. intros [Hni Hl]%NoDup_cons.
  rewrite map_app. apply NoDup_app. split; [apply observeVec_NoDup|]. split; [|by apply IH].
  intros x ([[i1 l1] c1] & -> & (-> & _)%observeVec_in)%list_elem_of_fmap
    ([[i2 l2] c2] & E & H2)%list_elem_of_fmap.
  apply observeVecs_in in H2 as (key & lv & v' & _ & Hin & _). simpl in *.
  injection E as <- _. apply Hni, list_elem_of_fmap. by exists (i, key, v').
Qed.

(** No series is observed twice in one collection. *)
Lemma observe_NoDup m : NoDup (map fst (observe m)).
Proof.
  unfold observe. rewrite map_app, map_map. apply NoDup_app. split; [|split].
  - apply (bool_decide_unpack _). by vm_compute.
  - intros x (? & -> & _)%list_elem_of_fmap (o & E & H)%list_elem_of_fmap.
    apply observeVecs_in in H as (? & ? & ? & E' & _). by rewrite <- E in E'.
  - apply observeVecs_NoDup, (bool_decide_unpack _). by vm_compute.
Qed.

(** ** [logger.go] *)

(** [slog.Level.String]. *)
Definition plusd (v : Z) : string := if v <? 0 then pretty v else "+" +:+ pretty v.
Definition level_str (base : string) (v : Z) : string :=
  if v =? 0 then base else base +:+ plusd v.
Definition Level_String (l : Z) : string :=
  if l <? 0 then level_str "DEBUG" (l + 4)
  else if l <? 4 then level_str "INFO" l
  else if l <? 8 then level_str "WARN" (l - 4)
  else level_str "ERROR" (l - 8).

(** [logCounter] is a vector of [Metrics], or nil. *)
Definition NewMetricSlogHandler (logCounter : option Vec) : option Vec :=
  (fun v => touch "ERROR" (touch "WARN" (touch "INFO" v))) <$> logCounter.

(** [Handle], before it passes the record on. *)
Definition MetricSlogHandler_Handle (level : Z) (logCounter : option Vec) : option Vec :=
  WithLabelValues (Level_String level) Counter_Inc <$> logCounter.

(** What the handler holds after records of the levels [ls]. *)
Definition handleAll (ls : list Z) (logCounter : option Vec) : option Vec :=
  foldl (fun v l => MetricSlogHandler_Handle l v) logCounter ls.

Lemma NewMetricSlogHandler_starts lc lv :
  Value lv (default newVec (NewMetricSlogHandler lc)) = Value lv (default newVec lc).
Proof. destruct lc; simpl; [by rewrite !Value_touch|done]. Qed.

Lemma handleAll_Some ls v :
  handleAll ls (Some v) =
  Some (foldl (fun v l => WithLabelValues (Level_String l) Counter_Inc v) v ls).
Proof. unfold handleAll. revert v. induction ls; simpl; auto. Qed.

(** The counter of a level counts the records of the levels with its text. *)
Lemma handleAll_counts ls v lv : in_int 64 (Value lv v) = true ->
  Value lv (default newVec (handleAll ls (Some v))) =
  Counter_Add (Z.of_nat (length (filter (fun l => Level_String l = lv) ls))) (Value lv v).
Proof.
  intros Hv. rewrite handleAll_Some. unfold Counter_Add. simpl.
  induction ls as [|l ls IH] using rev_ind; [by rewrite Z.add_0_r, swrap_small|].
  rewrite foldl_snoc, filter_app, length_app, filter_cons, filter_nil.
  case_decide as E; simpl.
  - rewrite E, Value_With, IH. unfold Counter_Inc, Counter_Add. rewrite swrap_idemp_l.
    f_equal. lia.
  - by rewrite Value_With_ne, IH, Nat.add_0_r.
Qed.
