(* ===== verification/Exporter.v ===== *)
(** * Exporting the metrics

    [metrics/exporter.go] and [metrics/store.go]: which exporter the environment asks for, and the
    store of a server, with the resource that its metrics are exported for. The exporters, the
    resources and the meter provider are OpenTelemetry's and parameters, with what is documented
    of merging resources as laws. *)

From stdpp Require Import strings gmap.
From S2P Require Import Prelude Config Instruments.

(** ** exporter.go *)

(** The constructors of exporters, and [fmt]'s [%q], which needs Unicode's tables. *)
Class Exporters (Exporter Reader : Type) : Type := {
  stdoutmetric_New : result string Exporter;
  otlpmetricgrpc_New : result string Exporter;
  otlpmetrichttp_New : result string Exporter;
  NewPeriodicReader : Exporter -> Reader;
  Quote : string -> string
}.

(** [cmp.Or]. *)
Fixpoint Or (vals : list string) : string :=
  match vals with [] => EmptyString | v :: vs => if String.eqb v "" then Or vs else v end.

Definition wrapErr {A} (prefix : string) (r : result string A) : result string A :=
  match r with Ok a => Ok a | Err e => Err (prefix +:+ e) end.

Section FromEnv.
Context {Exporter Reader : Type} `{Exporters Exporter Reader} (Getenv : string -> string).

Definition isSet (k : string) : bool := negb (String.eqb (Getenv k) "").

Definition newReaderFromEnv : result string (option Reader) :=
  let asked := Getenv "OTEL_METRICS_EXPORTER" in
  let name :=
    if String.eqb asked "" then
      if isSet "OTEL_EXPORTER_OTLP_ENDPOINT" || isSet "OTEL_EXPORTER_OTLP_METRICS_ENDPOINT" then "otlp"%string else "none"%string
    else asked in
  if String.eqb name "none" then Ok None
  else if String.eqb name "console" then
    (fun e => Some (NewPeriodicReader e)) <$> wrapErr "failed to create console metrics exporter: " stdoutmetric_New
  else if String.eqb name "otlp" then
    let proto := Or [Getenv "OTEL_EXPORTER_OTLP_METRICS_PROTOCOL"; Getenv "OTEL_EXPORTER_OTLP_PROTOCOL"; "http/protobuf"%string] in
    if String.eqb proto "grpc" || String.eqb proto "http/protobuf" then
      (fun e => Some (NewPeriodicReader e)) <$>
        wrapErr "failed to create OTLP metrics exporter: " (if String.eqb proto "grpc" then otlpmetricgrpc_New else otlpmetrichttp_New)
    else Err ("unsupported OTLP protocol: " +:+ Quote proto)
  else Err ("unsupported OTEL_METRICS_EXPORTER: " +:+ Quote name).
End FromEnv.

(** ** store.go *)

Definition meterName : string := "github.com/fujiwara/trabbits".

Definition sdkNames : list string := ["telemetry.sdk.name"; "telemetry.sdk.language"; "telemetry.sdk.version"]%string.

(** [resource.New] with the environment, the SDK and the attributes given, in this order;
    [registered]: what [meter.RegisterCallback] and the instruments answer. *)
Class Sdk (Reader Resource Provider : Type) : Type := {
  resource_New : list (string * string) -> result string Resource;
  NewSchemaless : list (string * string) -> Resource;
  Merge : Resource -> Resource -> result string Resource;
  attr : Resource -> string -> option string;
  env_attr : string -> option string;
  NewMeterProvider : nat -> option Resource -> option Reader -> Provider;
  registered : Provider -> string -> option string;
  flush : Provider -> option string;
  attr_New l r : resource_New l = Ok r -> NoDup (map fst l) -> forall k v, (k, v) ∈ l -> attr r k = Some v;
  attr_env l r : resource_New l = Ok r -> forall k, k ∉ map fst l -> k ∉ sdkNames -> attr r k = env_attr k;
  attr_Schemaless l : NoDup (map fst l) -> forall k v, (k, v) ∈ l <-> attr (NewSchemaless l) k = Some v;
  attr_Merge a b r : Merge a b = Ok r -> forall k, attr r k = match attr b k with Some v => Some v | None => attr a k end
}.

Section Store.
Context {Exporter Reader Resource Provider : Type} `{Exporters Exporter Reader} `{Sdk Reader Resource Provider}
  (Getenv : string -> string).

Record Store : Type := { store_metrics : Metrics; store_provider : Provider }.

Record options : Type := {
  o_reader : option Reader;
  o_attributes : list (string * string);
  o_serviceVersion : string
}.

Definition Option_ : Type := options -> options.
Definition WithReader (r : Reader) : Option_ := fun o => {|
  o_reader := Some r; o_attributes := o_attributes o; o_serviceVersion := o_serviceVersion o |}.
Definition WithAttributes (attrs : list (string * string)) : Option_ := fun o => {|
  o_reader := o_reader o; o_attributes := attrs; o_serviceVersion := o_serviceVersion o |}.
Definition WithServiceVersion (v : string) : Option_ := fun o => {|
  o_reader := o_reader o; o_attributes := o_attributes o; o_serviceVersion := v |}.
Definition noOption : options := {| o_reader := None; o_attributes := []; o_serviceVersion := "" |}.

(** The providers that were made, and those that were shut down, the last first. *)
Record Providers : Type := { made : list Provider; shut : list Provider }.

Definition providing (res : option Resource) (reader : option Reader) : stm Providers string Provider := fun ps =>
  let p := NewMeterProvider (length (made ps)) res reader in (Ok p, {| made := p :: made ps; shut := shut ps |}).

Definition Provider_Shutdown (p : Provider) : stm Providers string () := fun ps =>
  (match flush p with Some e => Err e | None => Ok () end, {| made := made ps; shut := p :: shut ps |}).

Definition lift {A} (r : result string A) : stm Providers string A := fun ps => (r, ps).

(** The defaults of the resource. *)
Definition defaults (version : string) : list (string * string) :=
  ("service.name"%string, "trabbits"%string) ::
  (if String.eqb version "" then [] else [("service.version"%string, version)]).

(** [NewMetrics] on the meter of a provider. *)
Definition metricsOf (p : Provider) : result string Metrics :=
  match registered p meterName with Some e => Err e | None => Ok NewMetrics end.

Definition NewStore (opts : list Option_) : stm Providers string Store :=
  let o := foldl (fun o opt => opt o) noOption opts in
  reader ← lift (match o_reader o with
                 | Some r => Ok (Some r)
                 | None => wrapErr "failed to configure metrics exporter: " (newReaderFromEnv Getenv)
                 end);
  envRes ← lift (wrapErr "failed to create resource: " (resource_New (o_attributes o)));
  res ← lift (wrapErr "failed to merge resources: " (Merge (NewSchemaless (defaults (o_serviceVersion o))) envRes));
  provider ← providing (Some res) reader;
  match metricsOf provider with
  | Err e => fun ps => (Err ("failed to create metrics: " +:+ e), (Provider_Shutdown provider ps).2)
  | Ok m => mret {| store_metrics := m; store_provider := provider |}
  end.

(** [NewTestStore] panics when the instruments cannot be registered. *)
Definition NewTestStore : stm Providers string Store :=
  provider ← providing None None;
  match metricsOf provider with
  | Err e => throw ("failed to create metrics: " +:+ e)
  | Ok m => mret {| store_metrics := m; store_provider := provider |}
  end.

Definition Store_Shutdown (s : Store) : stm Providers string () := Provider_Shutdown (store_provider s).
End Store.

(** ** Which exporter *)

Section ReaderProofs.
Context {Exporter Reader : Type} `{Exporters Exporter Reader} (Getenv : string -> string).

(** The protocol of the exporter for OTLP. *)
Definition protocol : string :=
  Or [Getenv "OTEL_EXPORTER_OTLP_METRICS_PROTOCOL"; Getenv "OTEL_EXPORTER_OTLP_PROTOCOL"; "http/protobuf"%string].

Lemma wrapErr_ok {A} prefix (r : result string A) a : wrapErr prefix r = Ok a <-> r = Ok a.
Proof. destruct r; simpl; [done|by split]. Qed.

Lemma reading (r : result string Exporter) prefix o : (fun e => Some (NewPeriodicReader e)) <$> wrapErr prefix r = Ok o ->
  exists e, r = Ok e /\ o = Some (NewPeriodicReader e).
Proof. destruct r as [e|e]; [|done]. intros [= <-]. by exists e. Qed.

(** Nothing is exported exactly when the environment says so, or says nothing at all of
    exporters and endpoints; an exporter that is made is that of the environment's choice,
    for OTLP with the protocol of its metrics, else the general one, else HTTP. *)
Theorem reader_chosen :
  let asked := Getenv "OTEL_METRICS_EXPORTER" in
  let endpoint := isSet Getenv "OTEL_EXPORTER_OTLP_ENDPOINT" || isSet Getenv "OTEL_EXPORTER_OTLP_METRICS_ENDPOINT" in
  (newReaderFromEnv Getenv = Ok None <-> asked = "none"%string \/ (asked = ""%string /\ endpoint = false)) /\
  (forall r, newReaderFromEnv Getenv = Ok (Some r) -> exists e, r = NewPeriodicReader e /\
     ((asked = "console"%string /\ stdoutmetric_New = Ok e) \/
      ((asked = "otlp"%string \/ (asked = ""%string /\ endpoint = true)) /\
       ((protocol = "grpc"%string /\ otlpmetricgrpc_New = Ok e) \/
        (protocol = "http/protobuf"%string /\ otlpmetrichttp_New = Ok e))))).
Proof.
  intros asked endpoint. unfold newReaderFromEnv. fold asked endpoint protocol. cbv zeta.
  set (name := if String.eqb asked "" then if endpoint then "otlp"%string else "none"%string else asked).
  assert (N : name = "none"%string <-> asked = "none"%string \/ (asked = ""%string /\ endpoint = false)).
  { unfold name. destruct (String.eqb_spec asked "") as [->|Hne]; [|naive_solver].
    destruct endpoint; naive_solver. }
  assert (O : name = "otlp"%string -> asked = "otlp"%string \/ (asked = ""%string /\ endpoint = true)).
  { unfold name. destruct (String.eqb_spec asked "") as [->|Hne]; [|by left]. destruct endpoint; [by right|done]. }
  assert (K : name = "console"%string -> asked = "console"%string).
  { unfold name. destruct (String.eqb_spec asked "") as [->|Hne]; [|done]. by destruct endpoint. }
  destruct (String.eqb_spec name "none") as [En|En]; [split; [naive_solver|done]|].
  destruct (String.eqb_spec name "console") as [Ec|Ec].
  { split; [|intros r (e & ? & [= ->])%reading; exists e; auto].
    split; [by intros (? & _ & ?)%reading|intros Hn; by rewrite <- N in Hn]. }
  destruct (String.eqb_spec name "otlp") as [Eo|Eo]; [|split; [naive_solver|done]].
  destruct (String.eqb_spec protocol "grpc") as [Eg|Eg]; [|destruct (String.eqb_spec protocol "http/protobuf") as [Eh|Eh]]; simpl.
  - split; [|intros r (e & ? & [= ->])%reading; exists e; eauto 10].
    split; [by intros (? & _ & ?)%reading|intros Hn; by rewrite <- N in Hn].
  - split; [|intros r (e & ? & [= ->])%reading; exists e; eauto 10].
    split; [by intros (? & _ & ?)%reading|intros Hn; by rewrite <- N in Hn].
  - split; [|done]. split; [done|intros Hn; by rewrite <- N in Hn].
Qed.
End ReaderProofs.

(** ** What a store is made of *)

Section StoreProofs.
Context {Exporter Reader Resource Provider : Type} `{Exporters Exporter Reader} `{Sdk Reader Resource Provider}
  (Getenv : string -> string).
Implicit Types (ps : Providers (Provider := Provider)).

Lemma defaults_nodup v : NoDup (map fst (defaults v)).
Proof. unfold defaults. case_match; simpl; repeat constructor; set_solver. Qed.

(** The resource of a store: the attributes given, over those of the environment, over the
    defaults. *)
Lemma merged_attr attrs v env res k : NoDup (map fst attrs) -> k ∉ sdkNames ->
  resource_New attrs = Ok env -> Merge (NewSchemaless (defaults v)) env = Ok res ->
  attr res k = match List.find (fun kv => String.eqb kv.1 k) attrs with
               | Some kv => Some kv.2
               | None => match env_attr k with Some e => Some e | None => attr (NewSchemaless (defaults v)) k end
               end.
Proof.
  intros Hnd Hk Hn Hm. rewrite (attr_Merge _ _ _ Hm).
  destruct (List.find _ attrs) as [[k' v']|] eqn:E.
  - apply find_some in E as [Hin Hq]. simpl in *. apply String.eqb_eq in Hq as ->.
    by rewrite (attr_New _ _ Hn Hnd k v') by by apply list_elem_of_In.
  - rewrite (attr_env _ _ Hn k); [by destruct (env_attr k)| |done].
    intros ([k' v'] & -> & Hin)%list_elem_of_fmap. apply list_elem_of_In in Hin.
    pose proof (find_none _ _ E _ Hin) as Hne. simpl in Hne. by rewrite String.eqb_refl in Hne.
Qed.

Lemma default_service v : attr (NewSchemaless (defaults v)) "service.name" = Some "trabbits"%string.
Proof. apply attr_Schemaless; [apply defaults_nodup|]. by left. Qed.

Lemma default_version v : v <> EmptyString -> attr (NewSchemaless (defaults v)) "service.version" = Some v.
Proof.
  intros Hv. apply attr_Schemaless; [apply defaults_nodup|]. unfold defaults. apply String.eqb_neq in Hv. rewrite Hv.
  right. by left.
Qed.

(** How a store comes about; a provider that fails is shut down. *)
Lemma NewStore_spec v attrs ps :
  match NewStore Getenv [WithServiceVersion v; WithAttributes attrs] ps with
  | (Ok s, ps') =>
      made ps' = store_provider s :: made ps /\ shut ps' = shut ps /\ store_metrics s = NewMetrics /\
      exists reader env res, newReaderFromEnv Getenv = Ok reader /\ resource_New attrs = Ok env /\
        Merge (NewSchemaless (defaults v)) env = Ok res /\
        store_provider s = NewMeterProvider (length (made ps)) (Some res) reader
  | (Err _, ps') => exists gone, made ps' = gone ++ made ps /\ shut ps' = gone ++ shut ps
  end.
Proof.
  unfold NewStore. cbn [foldl noOption WithServiceVersion WithAttributes o_reader o_attributes o_serviceVersion].
  unfold mbind, stm_bind, lift, providing.
  destruct (newReaderFromEnv Getenv) as [reader|e] eqn:Er; cbn [wrapErr]; [|by exists []].
  destruct (resource_New attrs) as [env|e] eqn:En; cbn [wrapErr]; [|by exists []].
  destruct (Merge _ env) as [res|e] eqn:Em; cbn [wrapErr]; [|by exists []].
  set (p := NewMeterProvider _ _ _). unfold metricsOf.
  destruct (registered p meterName) as [e|]; [by exists [p]|]. cbn.
  split_and!; [done..|]. by exists reader, env, res.
Qed.

(** When a store is made for a server, its provider is the only new one, its metrics are
    new, and its service is named by the configuration, else by the environment, else
    [trabbits]; when none is made, every provider that was made on the way has been shut
    down. *)
Theorem store_made v attrs ps : NoDup (map fst attrs) ->
  match NewStore Getenv [WithServiceVersion v; WithAttributes attrs] ps with
  | (Ok s, ps') =>
      made ps' = store_provider s :: made ps /\ shut ps' = shut ps /\ store_metrics s = NewMetrics /\
      exists reader res, newReaderFromEnv Getenv = Ok reader /\
        store_provider s = NewMeterProvider (length (made ps)) (Some res) reader /\
        attr res "service.name" = match List.find (fun kv => String.eqb kv.1 "service.name") attrs with
                                  | Some kv => Some kv.2
                                  | None => Some (default "trabbits"%string (env_attr "service.name"))
                                  end
  | (Err _, ps') => exists gone, made ps' = gone ++ made ps /\ shut ps' = gone ++ shut ps
  end.
Proof.
  intros Hnd. pose proof (NewStore_spec v attrs ps) as S. destruct (NewStore _ _ ps) as [[s|e] ps']; [|exact S].
  destruct S as (S1 & S2 & S3 & reader & env & res & Er & En & Em & Ep). split_and!; [done..|].
  exists reader, res. split_and!; [done..|].
  rewrite (merged_attr attrs v env res) by (done || set_solver). rewrite default_service.
  destruct (List.find _ attrs); [done|]. by destruct (env_attr _).
Qed.
End StoreProofs.

(** ** A store, made *)

#[local] Instance textExporters : Exporters string string := {|
  stdoutmetric_New := Ok "console"%string; otlpmetricgrpc_New := Ok "grpc"%string; otlpmetrichttp_New := Ok "http"%string;
  NewPeriodicReader := fun e => ("every minute: " +:+ e)%string; Quote := fun s => ("<" +:+ s +:+ ">")%string |}.

Definition sampleOtel (k : string) : string :=
  if String.eqb k "OTEL_EXPORTER_OTLP_ENDPOINT" then "http://collector:4318"
  else if String.eqb k "OTEL_EXPORTER_OTLP_PROTOCOL" then "grpc" else "".

Lemma reader_chosen_witness :
  newReaderFromEnv sampleOtel = Ok (Some "every minute: grpc"%string) /\
  newReaderFromEnv (fun _ => "none"%string) = Ok None /\
  newReaderFromEnv (fun _ => "prometheus"%string) = Err "unsupported OTEL_METRICS_EXPORTER: <prometheus>"%string.
Proof.
  split; [|split; [|reflexivity]].
  - destruct (newReaderFromEnv sampleOtel) as [[r|]|e] eqn:E; [|vm_compute in E; discriminate E..].
    destruct (proj2 (reader_chosen sampleOtel) r E) as (e & -> & [[F _]|[_ [[_ F]|[F _]]]]);
      [vm_compute in F; discriminate F| |vm_compute in F; discriminate F].
    by injection F as <-.
  - apply (proj2 (proj1 (reader_chosen (fun _ => "none"%string)))). by left.
Defined.

(** Resources as maps of their attributes; the environment names an instance. *)
Definition sdkAttrs : gmap string string := {["telemetry.sdk.name"%string := "opentelemetry"%string]}.

#[local] Program Instance mapSdk : Sdk string (gmap string string) (nat * option (gmap string string) * option string) := {|
  resource_New := fun l => Ok (list_to_map l ∪ sdkAttrs ∪ {["service.instance.id"%string := "i1"%string]});
  NewSchemaless := list_to_map; Merge := fun a b => Ok (b ∪ a); attr := fun r k => r !! k;
  env_attr := fun k => ({["service.instance.id"%string := "i1"%string]} : gmap string string) !! k;
  NewMeterProvider := fun n res reader => (n, res, reader); registered := fun _ _ => None; flush := fun _ => None |}.
Next Obligation.
  intros l r [= <-] Hnd k v Hin. simpl. rewrite <- !map_union_assoc. apply lookup_union_Some_l. by apply elem_of_list_to_map.
Qed.
Next Obligation.
  intros l r [= <-] k Hl Hk. simpl. rewrite <- !map_union_assoc, lookup_union_r by by apply not_elem_of_list_to_map.
  apply lookup_union_r. unfold sdkAttrs. apply lookup_singleton_ne. set_solver.
Qed.
Next Obligation. intros l Hnd k v. simpl. by apply elem_of_list_to_map. Qed.
Next Obligation. intros a b r [= <-] k. simpl. rewrite lookup_union. destruct (b !! k), (a !! k); done. Qed.

Lemma store_made_witness : exists s ps',
  NewStore sampleOtel [WithServiceVersion "v0.0.19"; WithAttributes [("env"%string, "test"%string)]] {| made := []; shut := [] |}
    = (Ok s, ps') /\ made ps' = [store_provider s] /\
  (fun r => r !! "service.name"%string) <$> (store_provider s).1.2 = Some (Some "trabbits"%string).
Proof.
  pose proof (store_made sampleOtel "v0.0.19" [("env"%string, "test"%string)] {| made := []; shut := [] |}) as P.
  destruct (NewStore sampleOtel _ _) as [[s|e] ps'] eqn:E; [|vm_compute in E; discriminate E].
  destruct P as (P1 & _ & _ & reader & res & _ & P2 & P3); [repeat constructor; set_solver|].
  exists s, ps'. split; [done|]. split; [exact P1|]. rewrite P2. cbn [NewMeterProvider mapSdk fst snd fmap option_fmap option_map].
  f_equal. exact P3.
Defined.
