(* ===== verification/Health.v ===== *)
(** * Health checks

    [health/health.go]: the status of the nodes of a cluster upstream. What a dial and the
    clock say are arguments. The checks of one round run concurrently, each on a node
    of its own, so a round is the check of every node; a manager's rounds come one after
    the other. *)

From S2P Require Import Prelude Bytes Fields Config Times Instruments.

Open Scope Z_scope.

(** ** [url.URL], and the URL that is logged ([util.go]) *)

Record URL : Type := {
  Scheme : string;
  URL_User : option (string * string);
  URL_Host : string;
  URL_Path : string
}.

Definition safeURL (u : URL) : URL :=
  match URL_User u with
  | Some (username, _) => {|
      Scheme := Scheme u; URL_User := Some (username, "********"%string);
      URL_Host := URL_Host u; URL_Path := URL_Path u |}
  | None => u
  end.

(** The logged URL does not depend on the password. *)
Lemma safeURL_masks u username p1 p2 :
  URL_User u = Some (username, p1) ->
  safeURL {| Scheme := Scheme u; URL_User := Some (username, p2); URL_Host := URL_Host u;
             URL_Path := URL_Path u |} = safeURL u.
Proof. unfold safeURL. by intros ->. Qed.

(** ** Nodes *)

Inductive Status : Type := StatusUnknown | StatusHealthy | StatusUnhealthy.

#[export] Instance Status_eq_dec : EqDecision Status.
Proof. solve_decision. Defined.

Definition Status_String (s : Status) : string :=
  match s with
  | StatusHealthy => "healthy"
  | StatusUnhealthy => "unhealthy"
  | StatusUnknown => "unknown"
  end.

Record NodeStatus : Type := {
  Address : string;
  NodeStatus_Status : Status;
  LastCheck : Time;
  LastSuccess : Time;
  ConsecutiveFails : Z
}.

Definition GetStatus (n : NodeStatus) : Status := NodeStatus_Status n.

(** The clock is read twice. *)
Definition SetHealthy (t1 t2 : Time) (n : NodeStatus) : NodeStatus := {|
  Address := Address n; NodeStatus_Status := StatusHealthy; LastCheck := t1;
  LastSuccess := t2; ConsecutiveFails := 0 |}.

Definition SetUnhealthy (t : Time) (n : NodeStatus) : NodeStatus := {|
  Address := Address n; NodeStatus_Status := StatusUnhealthy; LastCheck := t;
  LastSuccess := LastSuccess n; ConsecutiveFails := swrap 64 (ConsecutiveFails n + 1) |}.

Definition IncrementFails (t : Time) (n : NodeStatus) : NodeStatus := {|
  Address := Address n; NodeStatus_Status := NodeStatus_Status n; LastCheck := t;
  LastSuccess := LastSuccess n; ConsecutiveFails := swrap 64 (ConsecutiveFails n + 1) |}.

(** ** The manager *)

Record HealthConfig : Type := {
  Interval : Duration;
  Timeout : Duration;
  UnhealthyThreshold : Z;
  RecoveryInterval : Duration
}.

Record Manager : Type := {
  mgr_name : string;
  mgr_nodes : gmap string NodeStatus;
  mgr_config : HealthConfig;
  mgr_username : string;
  mgr_password : string
}.

Definition set_nodes (ns : gmap string NodeStatus) (m : Manager) : Manager := {|
  mgr_name := mgr_name m; mgr_nodes := ns; mgr_config := mgr_config m;
  mgr_username := mgr_username m; mgr_password := mgr_password m |}.

Definition positiveOr (v d : Z) : Z := if 0 <? v then v else d.

Definition newNode (addr : string) : NodeStatus := {|
  Address := addr; NodeStatus_Status := StatusUnknown; LastCheck := zeroTime;
  LastSuccess := zeroTime; ConsecutiveFails := 0 |}.

Definition NewManager (upstream : UpstreamConfig) : option Manager :=
  match UpstreamConfig_Cluster upstream, UpstreamConfig_HealthCheck upstream with
  | Some cluster, Some hc =>
      match Cluster_Nodes cluster with
      | [] => None
      | nodes => Some {|
          mgr_name := UpstreamConfig_Name upstream;
          mgr_nodes := foldl (fun m addr => <[addr := newNode addr]> m) ∅ nodes;
          mgr_config := {|
            Interval := positiveOr (HealthCheck_Interval hc) (30 * Second);
            Timeout := positiveOr (HealthCheck_Timeout hc) (5 * Second);
            UnhealthyThreshold := positiveOr (HealthCheck_UnhealthyThreshold hc) 3;
            RecoveryInterval := positiveOr (HealthCheck_RecoveryInterval hc) (60 * Second) |};
          mgr_username := HealthCheck_Username hc;
          mgr_password := HealthCheck_Password hc |}
      end
  | _, _ => None
  end.

(** ** A check

    [now k] is what the clock shows when the check reads it the [k]th time; [dial] says
    which URLs a connection can be opened to. *)
Record Surroundings : Type := { now : nat -> Time; dial : URL -> bool }.

Definition nodeURL (m : Manager) (addr : string) : URL := {|
  Scheme := "amqp"; URL_User := Some (mgr_username m, mgr_password m); URL_Host := addr;
  URL_Path := "/" |}.

(** Whether a regular check leaves an unhealthy node alone. *)
Definition skips (m : Manager) (failFast : bool) (e : Surroundings) (n : NodeStatus) : bool :=
  negb failFast && bool_decide (GetStatus n = StatusUnhealthy)
  && (Since (now e 0) (LastCheck n) <? RecoveryInterval (mgr_config m)).

Definition checkNode (m : Manager) (failFast : bool) (e : Surroundings) (n : NodeStatus)
  : NodeStatus :=
  let threshold := if failFast then 1 else UnhealthyThreshold (mgr_config m) in
  if skips m failFast e n then n
  else if dial e (nodeURL m (Address n)) then SetHealthy (now e 1) (now e 2) n
  else
    let n1 := IncrementFails (now e 1) n in
    if threshold <=? ConsecutiveFails n1 then SetUnhealthy (now e 2) n1 else n1.

(** ** Rounds *)

Definition is_unhealthy (n : NodeStatus) : bool := bool_decide (GetStatus n = StatusUnhealthy).

Definition getHealthSummary (m : Manager) : Z * Z :=
  foldl (fun hu an =>
    match GetStatus an.2 with
    | StatusHealthy | StatusUnknown => (hu.1 + 1, hu.2)
    | StatusUnhealthy => (hu.1, hu.2 + 1)
    end) (0, 0) (map_to_list (mgr_nodes m)).

(** [e addr] are the surroundings of the check of the node [addr]. *)
Definition checkNodes (failFast : bool) (e : string -> Surroundings) (m : Manager) : Manager :=
  set_nodes (map_imap (fun addr n => Some (checkNode m failFast (e addr) n)) (mgr_nodes m)) m.

Definition report (m : Manager) (ms : Metrics) : Metrics :=
  let (healthy, unhealthy) := getHealthSummary m in
  Instruments.SetUnhealthyNodes (mgr_name m) unhealthy
    (Instruments.SetHealthyNodes (mgr_name m) healthy ms).

Definition checkAll (failFast : bool) (e : string -> Surroundings) (s : Manager * Metrics)
  : Manager * Metrics :=
  let m := checkNodes failFast e s.1 in (m, report m s.2).

Definition checkAllNodes := checkAll false.
Definition checkAllNodesInitial := checkAll true.

(** The events of the goroutine of [StartHealthCheck]: a tick, or the end of its
    context, after which there is no other. *)
Inductive mevent : Type := Tick (e : string -> Surroundings) | Done.

Fixpoint monitor (es : list mevent) (s : Manager * Metrics) : Manager * Metrics :=
  match es with
  | Tick e :: es' => monitor es' (checkAllNodes e s)
  | Done :: _ | [] => s
  end.

(** [StartHealthCheck], and what its goroutine does. *)
Definition StartHealthCheck (e0 : string -> Surroundings) (es : list mevent)
  (s : Manager * Metrics) : Manager * Metrics :=
  monitor es (checkAllNodesInitial e0 s).

(** [GetHealthyNodes]: the addresses in the order of the map, which is any. *)
Definition GetHealthyNodes (m : option Manager) : list string :=
  match m with
  | None => []
  | Some m =>
      let healthy := map fst (filter (fun an => is_unhealthy an.2 = false) (map_to_list (mgr_nodes m))) in
      match healthy with [] => map fst (map_to_list (mgr_nodes m)) | _ => healthy end
  end.

(** ** The selection of nodes *)

Lemma GetHealthyNodes_in m addr :
  addr ∈ GetHealthyNodes (Some m) <->
  exists n, mgr_nodes m !! addr = Some n /\
    (GetStatus n <> StatusUnhealthy \/
     forall a n', mgr_nodes m !! a = Some n' -> GetStatus n' = StatusUnhealthy).
Proof.
  unfold GetHealthyNodes.
  assert (F : forall a, a ∈ map fst (filter (fun an => is_unhealthy an.2 = false)
                (map_to_list (mgr_nodes m))) <->
            exists n, mgr_nodes m !! a = Some n /\ GetStatus n <> StatusUnhealthy).
  { intros a. rewrite list_elem_of_fmap. unfold is_unhealthy. split.
    - intros ([a' n] & -> & [Hs Hin]%list_elem_of_filter). apply elem_of_map_to_list in Hin.
      apply bool_decide_eq_false in Hs. by exists n.
    - intros (n & Hn & Hs). exists (a, n). split; [done|]. apply list_elem_of_filter.
      split; [by apply bool_decide_eq_false|]. by apply elem_of_map_to_list. }
  destruct (map fst _) as [|x l] eqn:E.
  - rewrite list_elem_of_fmap. split.
    + intros ([a n] & -> & Hin%elem_of_map_to_list). exists n. split; [done|]. right.
      intros a' n' Hn'. destruct (decide (GetStatus n' = StatusUnhealthy)); [done|].
      assert (H : a' ∈ @nil string) by (apply F; eauto). by apply not_elem_of_nil in H.
    + intros (n & Hn & _). exists (addr, n). by rewrite elem_of_map_to_list.
  - rewrite F. split; [naive_solver|]. intros (n & Hn & [Hs|Hall]); [eauto|].
    assert (H : x ∈ x :: l) by constructor. apply F in H as (n' & Hn' & Hs').
    by destruct Hs'; eapply Hall.
Qed.

(** The nodes chosen are distinct nodes of the cluster, at least one of them; they are
    those not known to be unhealthy, and all nodes when all are unhealthy. *)
Theorem GetHealthyNodes_spec m : mgr_nodes m <> ∅ ->
  GetHealthyNodes (Some m) <> [] /\ NoDup (GetHealthyNodes (Some m)) /\
  forall addr, addr ∈ GetHealthyNodes (Some m) <->
    exists n, mgr_nodes m !! addr = Some n /\
      (GetStatus n <> StatusUnhealthy \/
       forall a n', mgr_nodes m !! a = Some n' -> GetStatus n' = StatusUnhealthy).
Proof.
  intros Hne. split_and!; [| |apply GetHealthyNodes_in]; unfold GetHealthyNodes.
  - destruct (map fst (filter _ _)) as [|] eqn:E; [|done].
    intros H%map_eq_nil. by apply map_to_list_empty_iff in H.
  - assert (H : NoDup (map fst (filter (fun an => is_unhealthy an.2 = false)
                  (map_to_list (mgr_nodes m))))).
    { eapply sublist_NoDup; [apply (NoDup_fst_map_to_list (mgr_nodes m))|].
      apply fmap_sublist, sublist_filter. }
    destruct (map fst (filter _ _)); [|done]. apply NoDup_fst_map_to_list.
Qed.

(** ** The status of a node *)

(** A check of the node: fail-fast or regular, and its surroundings. *)
Definition check : Type := bool * Surroundings.

Definition runChecks (m : Manager) (cs : list check) (n : NodeStatus) : NodeStatus :=
  foldl (fun n c => checkNode m c.1 c.2 n) n cs.

(** The results of the checks that dial: [true] when the node answered. *)
Fixpoint results (m : Manager) (cs : list check) (n : NodeStatus) : list bool :=
  match cs with
  | [] => []
  | c :: cs' =>
      let rest := results m cs' (checkNode m c.1 c.2 n) in
      if skips m c.1 c.2 n then rest else dial c.2 (nodeURL m (Address n)) :: rest
  end.

(** What the status should be, as a function of the results: the last answer decides, and
    the number of failures since. *)
Definition trailing (rs : list bool) : Z := foldl (fun (k : Z) (r : bool) => if r then 0 else k + 1) 0 rs.
Definition answered (rs : list bool) : bool := existsb (fun r => r) rs.

Definition expected (threshold : Z) (rs : list bool) : Status :=
  match rs with
  | [] => StatusUnknown
  | _ => if answered rs && (trailing rs <? threshold) then StatusHealthy else StatusUnhealthy
  end.

(** The number counted after [k] failures in a row: those at which the threshold is
    reached count twice. *)
Definition counted (threshold k : Z) : Z := k + Z.max 0 (k - threshold + 1).

Lemma trailing_snoc rs r : trailing (rs ++ [r]) = if r then 0 else trailing rs + 1.
Proof. unfold trailing. by rewrite foldl_snoc. Qed.

Lemma answered_snoc rs r : answered (rs ++ [r]) = answered rs || r.
Proof. unfold answered. rewrite existsb_app. simpl. by rewrite orb_false_r. Qed.

Lemma expected_snoc T rs r :
  expected T (rs ++ [r]) =
  if (answered rs || r) && ((if r then 0 else trailing rs + 1) <? T)
  then StatusHealthy else StatusUnhealthy.
Proof.
  rewrite <- answered_snoc, <- trailing_snoc. unfold expected.
  by destruct (rs ++ [r]) as [|? ?] eqn:E; [destruct rs|].
Qed.

Lemma trailing_bounds rs : 0 <= trailing rs <= Z.of_nat (length rs).
Proof.
  induction rs as [|r rs IH] using rev_ind; [done|].
  rewrite trailing_snoc, length_app. simpl. destruct r; lia.
Qed.

(** The node is as its results [rs] say. *)
Definition conforms (m : Manager) (rs : list bool) (n : NodeStatus) : Prop :=
  GetStatus n = expected (UnhealthyThreshold (mgr_config m)) rs /\
  trailing rs <= ConsecutiveFails n <= 2 * trailing rs /\
  (answered rs = true ->
   ConsecutiveFails n = counted (UnhealthyThreshold (mgr_config m)) (trailing rs)).

Lemma expected_unanswered T rs : rs <> [] -> answered rs = false -> expected T rs = StatusUnhealthy.
Proof. destruct rs; [done|]. unfold expected. by intros _ ->. Qed.

Lemma expected_answered T rs : answered rs = true ->
  expected T rs = if trailing rs <? T then StatusHealthy else StatusUnhealthy.
Proof. destruct rs; [done|]. unfold expected. by intros ->. Qed.

(** One more check that fails: [f] are the failures counted before. *)
Lemma failed_conforms m rs n t1 t2 (ff : bool) :
  let T := UnhealthyThreshold (mgr_config m) in
  let n1 := IncrementFails t1 n in
  1 <= T -> Z.of_nat (length rs) < 2 ^ 61 -> ff = bool_decide (rs = []) -> conforms m rs n ->
  conforms m (rs ++ [false])
    (if (if ff then 1 else T) <=? ConsecutiveFails n1 then SetUnhealthy t2 n1 else n1).
Proof.
  intros T n1 HT Hlen Hff (Hst & Hb & Hx). pose proof (trailing_bounds rs) as Htb.
  assert (E1 : ConsecutiveFails n1 = ConsecutiveFails n + 1).
  { simpl. apply swrap_small; [lia|]. apply in_int_spec. lia. }
  assert (E2 : ConsecutiveFails (SetUnhealthy t2 n1) = ConsecutiveFails n + 2).
  { unfold SetUnhealthy. cbn [ConsecutiveFails]. rewrite E1, swrap_small; [lia|lia|].
    apply in_int_spec. lia. }
  unfold conforms. rewrite answered_snoc, trailing_snoc, orb_false_r. fold T.
  destruct (answered rs) eqn:Ea.
  - assert (ff = false) as ->. { rewrite Hff. apply bool_decide_eq_false. by intros ->. }
    specialize (Hx eq_refl). fold T in Hx. unfold counted in *.
    rewrite (expected_answered T (rs ++ [false])), trailing_snoc
      by by rewrite answered_snoc, orb_false_r.
    rewrite expected_answered in Hst by done.
    destruct (Z.leb_spec T (ConsecutiveFails n1)); rewrite ?E2, ?E1 in *.
    + destruct (Z.ltb_spec (trailing rs + 1) T); [lia|]. split; [done|]. lia.
    + unfold n1, GetStatus. cbn [NodeStatus_Status IncrementFails].
      change (NodeStatus_Status n) with (GetStatus n). rewrite Hst. fold T.
      destruct (Z.ltb_spec (trailing rs + 1) T), (Z.ltb_spec (trailing rs) T); try lia.
      split; [done|]. lia.
  - rewrite expected_unanswered; [|by destruct rs|by rewrite answered_snoc, Ea].
    destruct (Z.leb_spec (if ff then 1 else T) (ConsecutiveFails n1)) as [H|H];
      rewrite ?E2, ?E1 in *; [split; [done|]; split; [lia|done]|].
    destruct ff; [lia|]. symmetry in Hff. apply bool_decide_eq_false in Hff.
    rewrite expected_unanswered in Hst by done.
    split; [exact Hst|]. split; [lia|done].
Qed.

(** One more check: the first is fail-fast, the others are regular. *)
Lemma checkNode_conforms m c rs n :
  1 <= UnhealthyThreshold (mgr_config m) -> Z.of_nat (length rs) < 2 ^ 61 ->
  c.1 = bool_decide (rs = []) -> conforms m rs n ->
  conforms m (rs ++ results m [c] n) (checkNode m c.1 c.2 n).
Proof.
  intros HT Hlen Hc Hn. unfold results, checkNode.
  destruct (skips m c.1 c.2 n); [by rewrite app_nil_r|].
  destruct (dial c.2 _); [|by apply failed_conforms].
  unfold conforms. rewrite answered_snoc, trailing_snoc, orb_true_r.
  rewrite expected_answered, trailing_snoc by by rewrite answered_snoc, orb_true_r.
  destruct (Z.ltb_spec 0 (UnhealthyThreshold (mgr_config m))); [|lia].
  split; [done|]. unfold counted. simpl. split; [lia|]. intros _. lia.
Qed.

Lemma results_app m cs c n :
  results m (cs ++ [c]) n = results m cs n ++ results m [c] (runChecks m cs n).
Proof.
  revert n; induction cs as [|c' cs IH]; intros n; simpl; [done|].
  rewrite IH. by destruct (skips m c'.1 c'.2 n).
Qed.

Lemma results_length m cs n : (length (results m cs n) <= length cs)%nat.
Proof.
  revert n; induction cs as [|c cs IH]; intros n; simpl; [lia|].
  specialize (IH (checkNode m c.1 c.2 n)). destruct (skips _ _ _ _); simpl; lia.
Qed.

(** The status of a node is what the results of its checks say. After the first,
    fail-fast check, a node that never answered is unhealthy; one that did is unhealthy
    exactly when it failed as many times in a row as the threshold says, whatever checks
    were skipped in between; the failures counted are at most twice those in a row. *)
Lemma status_expected m addr e0 (es : list Surroundings) :
  1 <= UnhealthyThreshold (mgr_config m) -> Z.of_nat (length es) < 2 ^ 61 ->
  let cs := (true, e0) :: map (pair false) es in
  let rs := results m cs (newNode addr) in
  let n := runChecks m cs (newNode addr) in
  rs <> [] /\
  GetStatus n =
    (if answered rs && (trailing rs <? UnhealthyThreshold (mgr_config m))
     then StatusHealthy else StatusUnhealthy) /\
  trailing rs <= ConsecutiveFails n <= 2 * trailing rs.
Proof.
  intros HT Hlen cs rs n.
  assert (H0 : results m [(true, e0)] (newNode addr) <> []) by done.
  assert (H : rs <> [] /\ conforms m rs n).
  { subst cs rs n. induction es as [|e es IH] using rev_ind.
    - split; [done|].
      apply (checkNode_conforms m (true, e0) [] (newNode addr)); [done|simpl; lia|done|].
      split_and!; done.
    - rewrite length_app in Hlen. simpl in Hlen. destruct IH as [Hne IH]; [lia|].
      rewrite map_app, (app_comm_cons _ _ (true, e0)). simpl map.
      rewrite results_app. unfold runChecks. rewrite foldl_snoc.
      split; [by destruct (results m _ _)|].
      apply (checkNode_conforms m (false, e)); [done| |by rewrite bool_decide_eq_false_2|done].
      pose proof (results_length m ((true, e0) :: map (pair false) es) (newNode addr)) as Hl.
      rewrite length_cons, length_map in Hl. lia. }
  destruct H as [Hne (Hst & Hb & _)]. split; [done|]. split; [|done].
  rewrite Hst. unfold expected. by destruct rs.
Qed.

(** ** The manager *)

Lemma nodes_lookup addrs (ns : gmap string NodeStatus) addr :
  foldl (fun m a => <[a := newNode a]> m) ns addrs !! addr =
  if decide (addr ∈ addrs) then Some (newNode addr) else ns !! addr.
Proof.
  revert ns; induction addrs as [|a addrs IH]; intros ns; cbn [foldl].
  - by rewrite decide_False by apply not_elem_of_nil.
  - rewrite IH. destruct (decide (addr = a)) as [->|Hne].
    + rewrite (decide_True (P := a ∈ a :: addrs)) by set_solver.
      case_decide; [done|]. by rewrite lookup_insert_eq.
    + rewrite lookup_insert_ne by done. repeat case_decide; set_solver.
Qed.

(** A new manager's settings are positive, and it knows nothing of its nodes. *)
Lemma NewManager_some u m : NewManager u = Some m ->
  1 <= UnhealthyThreshold (mgr_config m) /\ 0 < Interval (mgr_config m) /\
  0 < Timeout (mgr_config m) /\ 0 < RecoveryInterval (mgr_config m) /\
  mgr_nodes m <> ∅ /\
  forall addr, mgr_nodes m !! addr =
    if decide (addr ∈ Addresses u) then Some (newNode addr) else None.
Proof.
  unfold NewManager, Addresses. destruct (UpstreamConfig_Cluster u) as [c|]; [|done].
  destruct (UpstreamConfig_HealthCheck u) as [hc|]; [|done].
  destruct (Cluster_Nodes c) as [|a addrs] eqn:Ec; [done|]. intros [= <-]. simpl.
  assert (Hp : forall v d, 0 < d -> 0 < positiveOr v d).
  { intros v d. unfold positiveOr. destruct (Z.ltb_spec 0 v); lia. }
  unfold Second. split_and!; try (apply Hp; lia).
  - pose proof (Hp (HealthCheck_UnhealthyThreshold hc) 3 ltac:(lia)). lia.
  - intros E. pose proof (nodes_lookup (a :: addrs) ∅ a) as H. simpl in H. rewrite E in H.
    by rewrite decide_True in H by set_solver.
  - intros addr. pose proof (nodes_lookup (a :: addrs) ∅ addr) as H. simpl in H. rewrite H.
    by rewrite lookup_empty.
Qed.

Lemma checkNodes_lookup ff e m addr :
  mgr_nodes (checkNodes ff e m) !! addr =
  (fun n => checkNode m ff (e addr) n) <$> (mgr_nodes m !! addr).
Proof. simpl. rewrite map_lookup_imap. by destruct (mgr_nodes m !! addr). Qed.

Lemma checkNode_set_nodes m ns : checkNode (set_nodes ns m) = checkNode m.
Proof. done. Qed.

(** What [monitor] does before its context ends. *)
Fixpoint ticks (es : list mevent) : list (string -> Surroundings) :=
  match es with Tick e :: es' => e :: ticks es' | _ => [] end.

Lemma monitor_lookup es s addr :
  mgr_nodes (monitor es s).1 !! addr =
  runChecks s.1 (map (fun e => (false, e addr)) (ticks es)) <$> (mgr_nodes s.1 !! addr).
Proof.
  revert s; induction es as [|[e|] es IH]; intros [m ms]; simpl.
  - by destruct (mgr_nodes m !! addr).
  - rewrite IH. simpl. rewrite map_lookup_imap. by destruct (mgr_nodes m !! addr).
  - by destruct (mgr_nodes m !! addr).
Qed.

(** Numbers of nodes. *)
Definition count (f : NodeStatus -> bool) (m : Manager) : Z :=
  Z.of_nat (length (filter (fun an => f an.2 = true) (map_to_list (mgr_nodes m)))).

Lemma getHealthSummary_counts m :
  getHealthSummary m = (count (fun n => negb (is_unhealthy n)) m, count is_unhealthy m).
Proof.
  unfold getHealthSummary, count.
  assert (H : forall (l : list (string * NodeStatus)) h u,
    foldl (fun hu an => match GetStatus an.2 with
      | StatusHealthy | StatusUnknown => (hu.1 + 1, hu.2)
      | StatusUnhealthy => (hu.1, hu.2 + 1) end) (h, u) l
    = (h + Z.of_nat (length (filter (fun an => negb (is_unhealthy an.2) = true) l)),
       u + Z.of_nat (length (filter (fun an => is_unhealthy an.2 = true) l)))).
  { induction l as [|[a n] l IH]; intros h u; simpl; [by rewrite !Z.add_0_r|].
    rewrite !filter_cons. simpl.
    assert (is_unhealthy n = match GetStatus n with StatusUnhealthy => true | _ => false end)
      as -> by (unfold is_unhealthy; by destruct (GetStatus n)).
    destruct (GetStatus n); simpl; rewrite IH; f_equal; lia. }
  apply H.
Qed.

Lemma count_total m :
  count (fun n => negb (is_unhealthy n)) m + count is_unhealthy m
  = Z.of_nat (size (mgr_nodes m)).
Proof.
  unfold count. rewrite <- length_map_to_list.
  induction (map_to_list (mgr_nodes m)) as [|[a n] l IH]; [done|].
  rewrite !filter_cons. simpl. destruct (is_unhealthy n); simpl; lia.
Qed.

Lemma report_values m ms :
  let ms' := report m ms in
  Value (mgr_name m) (UpstreamHealthyNodes ms') = count (fun n => negb (is_unhealthy n)) m /\
  Value (mgr_name m) (UpstreamUnhealthyNodes ms') = count is_unhealthy m.
Proof.
  unfold report. rewrite getHealthSummary_counts. simpl. by rewrite !Value_With.
Qed.

Lemma monitor_reports es s :
  mgr_name (monitor es s).1 = mgr_name s.1 /\
  ((exists ms, s.2 = report s.1 ms) -> exists ms, (monitor es s).2 = report (monitor es s).1 ms).
Proof.
  revert s; induction es as [|[e|] es IH]; intros s; simpl; [done| |done].
  destruct (IH (checkAllNodes e s)) as [E H]. rewrite E. split; [done|]. eauto.
Qed.

(** C12: a manager made from a configuration, started and run for any number of ticks: every
    address has a node, the status of which is what the answers to its own checks say
    (never answered: unhealthy; else unhealthy exactly after as many failures in a row as
    the threshold says); and the two gauges hold the numbers of the nodes that are
    unhealthy and that are not, which add up to the number of nodes. *)
Theorem health_reported u m e0 es ms :
  NewManager u = Some m -> Z.of_nat (length (ticks es)) < 2 ^ 61 ->
  let (m', ms') := StartHealthCheck e0 es (m, ms) in
  (forall addr, addr ∈ Addresses u -> exists n,
     mgr_nodes m' !! addr = Some n /\
     let rs := results m ((true, e0 addr) :: map (fun e => (false, e addr)) (ticks es))
                 (newNode addr) in
     GetStatus n = if answered rs && (trailing rs <? UnhealthyThreshold (mgr_config m))
                   then StatusHealthy else StatusUnhealthy) /\
  Value (mgr_name m) (UpstreamHealthyNodes ms') = count (fun n => negb (is_unhealthy n)) m' /\
  Value (mgr_name m) (UpstreamUnhealthyNodes ms') = count is_unhealthy m' /\
  count (fun n => negb (is_unhealthy n)) m' + count is_unhealthy m'
    = Z.of_nat (size (mgr_nodes m')).
Proof.
  intros (HT & _ & _ & _ & _ & Hn)%NewManager_some Hlen.
  unfold StartHealthCheck, checkAllNodesInitial, checkAll. simpl.
  set (s1 := (checkNodes true e0 m, _)).
  destruct (monitor es s1) as [m' ms'] eqn:E.
  pose proof (monitor_reports es s1) as [Hname Hrep]. rewrite E in *. simpl in Hname, Hrep.
  split_and!.
  - intros addr Hin. pose proof (monitor_lookup es s1 addr) as H. rewrite E in H.
    simpl in H. rewrite map_lookup_imap, Hn, decide_True in H by done. simpl in H.
    eexists. split; [exact H|].
    rewrite <- (map_map (fun e => e addr) (pair false)).
    destruct (status_expected m addr (e0 addr) (map (fun e => e addr) (ticks es)))
      as (_ & Hst & _); [done|by rewrite length_map|]. exact Hst.
  - destruct Hrep as [ms1 ->]; [by eexists|]. rewrite <- Hname. apply report_values.
  - destruct Hrep as [ms1 ->]; [by eexists|]. rewrite <- Hname. apply report_values.
  - apply count_total.
Qed.

(** ** A cluster of two nodes *)

Definition sampleCluster : UpstreamConfig := {|
  UpstreamConfig_Name := "cluster"; UpstreamConfig_Address := EmptyString;
  UpstreamConfig_Cluster := Some {| Cluster_Nodes := ["n1:5672"; "n2:5672"] |};
  UpstreamConfig_Timeout := 0;
  UpstreamConfig_HealthCheck := Some {|
    HealthCheck_Interval := 0; HealthCheck_Timeout := 0; HealthCheck_UnhealthyThreshold := 2;
    HealthCheck_RecoveryInterval := 0; HealthCheck_Username := "h"; HealthCheck_Password := "p" |};
  UpstreamConfig_Routing := {| Routing_KeyPatterns := [] |};
  UpstreamConfig_QueueAttributes := None; UpstreamConfig_QueueOptions := None |}%string.

Definition sampleManager : Manager := default {| mgr_name := ""; mgr_nodes := ∅; mgr_config :=
  {| Interval := 0; Timeout := 0; UnhealthyThreshold := 0; RecoveryInterval := 0 |};
  mgr_username := ""; mgr_password := "" |} (NewManager sampleCluster).

(** The first node answers; the second does once. *)
Definition sampleSurroundings (second : bool) (_ : string) : Surroundings := {|
  now _ := zeroTime; dial u := String.eqb (URL_Host u) "n1:5672" || second |}.

Definition sampleTicks : list mevent :=
  [Tick (sampleSurroundings false); Tick (sampleSurroundings false); Done].

Lemma health_reported_witness :
  let (m', ms') := StartHealthCheck (sampleSurroundings true) sampleTicks
                     (sampleManager, NewMetrics) in
  Value "cluster" (UpstreamHealthyNodes ms') = 1 /\
  Value "cluster" (UpstreamUnhealthyNodes ms') = 1.
Proof.
  pose proof (health_reported sampleCluster sampleManager (sampleSurroundings true) sampleTicks
    NewMetrics eq_refl ltac:(done)) as H.
  destruct (StartHealthCheck _ _ _) as [m' ms'] eqn:E.
  destruct H as (_ & H1 & H2 & _). change (mgr_name sampleManager) with "cluster"%string in *.
  rewrite H1, H2. vm_compute in E. injection E as <- <-. split; by vm_compute.
Defined.

Lemma GetHealthyNodes_spec_witness :
  GetHealthyNodes (Some (StartHealthCheck (sampleSurroundings true) sampleTicks
                           (sampleManager, NewMetrics)).1) = ["n1:5672"%string] /\
  GetHealthyNodes (Some sampleManager) <> [].
Proof.
  split; [by vm_compute|]. apply (GetHealthyNodes_spec sampleManager). by vm_compute.
Defined.
