(* ===== verification/Stats.v ===== *)
(** * Statistics of one connection

    [stats.go]: counters of methods and frames, incremented by the goroutines of a
    connection and read by the API; the counters are [int64]s and every method is one
    atomic step. [types/client.go]: the snapshot of them. *)

From S2P Require Import Prelude Bytes Fields Times.

Open Scope Z_scope.

Record ProxyStats : Type := {
  startedAt : Time;
  methodCounts : gmap string Z;
  receivedFrames : Z;
  sentFrames : Z
}.

Definition NewProxyStats (now : Time) : ProxyStats := {|
  startedAt := now; methodCounts := ∅; receivedFrames := 0; sentFrames := 0 |}.

Definition IncrementSentFrames (s : ProxyStats) : ProxyStats := {|
  startedAt := startedAt s; methodCounts := methodCounts s;
  receivedFrames := receivedFrames s; sentFrames := swrap 64 (sentFrames s + 1) |}.
Definition IncrementReceivedFrames (s : ProxyStats) : ProxyStats := {|
  startedAt := startedAt s; methodCounts := methodCounts s;
  receivedFrames := swrap 64 (receivedFrames s + 1); sentFrames := sentFrames s |}.
Definition IncrementMethod (method : string) (s : ProxyStats) : ProxyStats := {|
  startedAt := startedAt s;
  methodCounts := <[method := swrap 64 (default 0 (methodCounts s !! method) + 1)]>
                    (methodCounts s);
  receivedFrames := receivedFrames s; sentFrames := sentFrames s |}.

Definition GetMethodCount (method : string) (s : ProxyStats) : Z :=
  match methodCounts s !! method with Some v => v | None => 0 end.

(** [Range] over the [sync.Map] copies the entries one by one. *)
Definition GetAllMethodCounts (s : ProxyStats) : gmap string Z :=
  foldl (fun result kv => <[kv.1 := kv.2]> result) ∅ (map_to_list (methodCounts s)).

Definition GetReceivedFrames (s : ProxyStats) : Z := receivedFrames s.
Definition GetSentFrames (s : ProxyStats) : Z := sentFrames s.
Definition GetTotalFrames (s : ProxyStats) : Z :=
  swrap 64 (GetReceivedFrames s + GetSentFrames s).

Definition GetTotalMethods (s : ProxyStats) : Z :=
  foldl (fun total kv => swrap 64 (total + kv.2)) 0 (map_to_list (methodCounts s)).

Definition GetStartedAt (s : ProxyStats) : Time := startedAt s.

Record StatsSnapshot : Type := {
  StatsSnapshot_StartedAt : Time;
  StatsSnapshot_Methods : gmap string Z;
  StatsSnapshot_TotalMethods : Z;
  StatsSnapshot_ReceivedFrames : Z;
  StatsSnapshot_SentFrames : Z;
  StatsSnapshot_TotalFrames : Z;
  StatsSnapshot_Duration : string
}.

Definition Snapshot (now : Time) (s : ProxyStats) : StatsSnapshot := {|
  StatsSnapshot_StartedAt := startedAt s;
  StatsSnapshot_Methods := GetAllMethodCounts s;
  StatsSnapshot_TotalMethods := GetTotalMethods s;
  StatsSnapshot_ReceivedFrames := GetReceivedFrames s;
  StatsSnapshot_SentFrames := GetSentFrames s;
  StatsSnapshot_TotalFrames := GetTotalFrames s;
  StatsSnapshot_Duration := Duration_String (Since now (startedAt s)) |}.

(** ** What the counters count *)

Module History.

Inductive event : Type :=
| Received
| Sent
| Processed (method : string).

#[export] Instance event_eq_dec : EqDecision event.
Proof. solve_decision. Defined.

Definition record (s : ProxyStats) (e : event) : ProxyStats :=
  match e with
  | Received => IncrementReceivedFrames s
  | Sent => IncrementSentFrames s
  | Processed m => IncrementMethod m s
  end.

(** The statistics of a connection that started at [t0], after the events [h]. *)
Definition after (t0 : Time) (h : list event) : ProxyStats := foldl record (NewProxyStats t0) h.

Definition occurs (e : event) (h : list event) : Z := Z.of_nat (length (filter (.= e) h)).
Definition is_method (e : event) : bool := match e with Processed _ => true | _ => false end.
Definition methods (h : list event) : Z := Z.of_nat (length (filter (fun e => is_method e = true) h)).

Lemma after_snoc t0 h e : after t0 (h ++ [e]) = record (after t0 h) e.
Proof. unfold after. by rewrite foldl_snoc. Qed.

Lemma occurs_snoc e h e' :
  occurs e (h ++ [e']) = occurs e h + (if decide (e' = e) then 1 else 0).
Proof.
  unfold occurs. rewrite filter_app, length_app, Nat2Z.inj_add. f_equal.
  rewrite filter_cons, filter_nil. by destruct (decide (e' = e)).
Qed.

Lemma occurs_notin e h : e ∉ h -> occurs e h = 0.
Proof.
  intros Hin. induction h as [|e' h IH] using rev_ind; [done|].
  rewrite occurs_snoc, decide_False, IH by set_solver. lia.
Qed.

Lemma methods_snoc h e : methods (h ++ [e]) = methods h + (if is_method e then 1 else 0).
Proof.
  unfold methods. rewrite filter_app, length_app, Nat2Z.inj_add. f_equal.
  rewrite filter_cons, filter_nil. by destruct (is_method e).
Qed.

Lemma counts_lookup t0 h m :
  methodCounts (after t0 h) !! m =
  if decide (Processed m ∈ h) then Some (swrap 64 (occurs (Processed m) h)) else None.
Proof.
  induction h as [|e h IH] using rev_ind.
  - by rewrite decide_False by set_solver.
  - rewrite after_snoc, occurs_snoc. destruct e as [| |m']; simpl.
    + rewrite IH, Z.add_0_r. repeat case_decide; set_solver.
    + rewrite IH, Z.add_0_r. repeat case_decide; set_solver.
    + destruct (decide (m' = m)) as [->|Hne].
      * rewrite lookup_insert_eq, IH, (decide_True (P := Processed m ∈ h ++ _)) by set_solver.
        rewrite (decide_True (P := Processed m = Processed m)) by done.
        case_decide as Hin; simpl; [by rewrite swrap_idemp_l|]. do 3 f_equal.
        by rewrite occurs_notin.
      * rewrite lookup_insert_ne, IH by done.
        rewrite (decide_False (P := Processed m' = Processed m)) by congruence.
        rewrite Z.add_0_r. repeat case_decide; set_solver.
Qed.

Lemma received_after t0 h : receivedFrames (after t0 h) = swrap 64 (occurs Received h).
Proof.
  induction h as [|e h IH] using rev_ind; [done|]. rewrite after_snoc, occurs_snoc.
  destruct e; simpl; rewrite IH; [by rewrite swrap_idemp_l|by rewrite Z.add_0_r..].
Qed.

Lemma sent_after t0 h : sentFrames (after t0 h) = swrap 64 (occurs Sent h).
Proof.
  induction h as [|e h IH] using rev_ind; [done|]. rewrite after_snoc, occurs_snoc.
  destruct e; simpl; rewrite IH; [by rewrite Z.add_0_r|by rewrite swrap_idemp_l|
    by rewrite Z.add_0_r].
Qed.

Lemma startedAt_after t0 h : startedAt (after t0 h) = t0.
Proof. induction h as [|[]] using rev_ind; [done|rewrite after_snoc..]; done. Qed.

(** A sum of [int64]s that wraps at every step wraps once; the order does not matter. *)
Lemma wrapped_sum (l : list (string * Z)) z :
  foldl (fun total kv => swrap 64 (total + kv.2)) (swrap 64 z) l
  = swrap 64 (z + foldr Z.add 0 (map snd l)).
Proof.
  revert z; induction l as [|kv l IH]; intros z; simpl; [by rewrite Z.add_0_r|].
  rewrite swrap_idemp_l, IH. f_equal. lia.
Qed.

(** The sum of the counters, without the wrap of the sum. *)
Definition sum_counts (m : gmap string Z) : Z := map_fold (fun _ v acc => v + acc) 0 m.

Lemma sum_counts_list m : sum_counts m = foldr Z.add 0 (map snd (map_to_list m)).
Proof.
  unfold sum_counts. rewrite map_fold_foldr.
  induction (map_to_list m) as [|[k v] l IH]; simpl; [done|by rewrite IH].
Qed.

Lemma sum_counts_insert_new m k v : m !! k = None -> sum_counts (<[k := v]> m) = v + sum_counts m.
Proof. intros Hm. unfold sum_counts. rewrite map_fold_insert_L; [done|intros; lia|done]. Qed.

Lemma sum_counts_insert m k v :
  sum_counts (<[k := v]> m) = sum_counts m - default 0 (m !! k) + v.
Proof.
  destruct (m !! k) as [w|] eqn:Hk; simpl.
  - rewrite <- insert_delete_eq.
    rewrite <- (insert_id m k w) at 2 by done. rewrite <- (insert_delete_eq m k w).
    rewrite !sum_counts_insert_new by apply lookup_delete_eq. lia.
  - rewrite sum_counts_insert_new by done. lia.
Qed.

Lemma GetTotalMethods_sum s : GetTotalMethods s = swrap 64 (sum_counts (methodCounts s)).
Proof.
  unfold GetTotalMethods. rewrite sum_counts_list. exact (wrapped_sum _ 0).
Qed.

Lemma total_methods_after t0 h : GetTotalMethods (after t0 h) = swrap 64 (methods h).
Proof.
  rewrite GetTotalMethods_sum. induction h as [|e h IH] using rev_ind; [done|].
  rewrite after_snoc, methods_snoc. destruct e as [| |m]; simpl;
    [by rewrite IH, Z.add_0_r|by rewrite IH, Z.add_0_r|].
  rewrite sum_counts_insert, swrap_idemp_r.
  set (d := default 0 _). replace (sum_counts _ - d + (d + 1))
    with (sum_counts (methodCounts (after t0 h)) + 1) by lia.
  by rewrite <- swrap_idemp_l, IH, swrap_idemp_l.
Qed.

Lemma GetAllMethodCounts_eq s : GetAllMethodCounts s = methodCounts s.
Proof.
  unfold GetAllMethodCounts.
  rewrite <- (list_to_map_to_list (methodCounts s)) at 2.
  pose proof (NoDup_fst_map_to_list (methodCounts s)) as Hnd.
  rewrite <- (map_union_empty (list_to_map _)). generalize (∅ : gmap string Z) as acc.
  induction (map_to_list (methodCounts s)) as [|[k v] l IH]; intros acc; simpl.
  - by rewrite map_empty_union.
  - apply NoDup_cons in Hnd as [Hk Hl]. rewrite IH by done.
    rewrite <- insert_union_r by by apply not_elem_of_list_to_map. by rewrite insert_union_l.
Qed.

(** C34: after any history of increments the snapshot holds, for each method that
    occurred, the number of its occurrences, and no other method; the numbers of frames
    each way; and totals that are the numbers of all methods and all frames: as [int64]s,
    so exactly as long as the numbers are below 2^63. *)
Theorem snapshot_counts t0 now h :
  let s := Snapshot now (after t0 h) in
  StatsSnapshot_StartedAt s = t0 /\
  (forall m, StatsSnapshot_Methods s !! m =
     if decide (Processed m ∈ h) then Some (swrap 64 (occurs (Processed m) h)) else None) /\
  StatsSnapshot_TotalMethods s = swrap 64 (methods h) /\
  StatsSnapshot_ReceivedFrames s = swrap 64 (occurs Received h) /\
  StatsSnapshot_SentFrames s = swrap 64 (occurs Sent h) /\
  StatsSnapshot_TotalFrames s = swrap 64 (occurs Received h + occurs Sent h).
Proof.
  simpl. split_and!; [apply startedAt_after| |apply total_methods_after|apply received_after
    |apply sent_after|].
  - intros m. rewrite GetAllMethodCounts_eq. apply counts_lookup.
  - unfold GetTotalFrames, GetReceivedFrames, GetSentFrames.
    by rewrite received_after, sent_after, swrap_idemp_l, swrap_idemp_r.
Qed.

(** One method asked for alone. *)
Theorem GetMethodCount_occurs t0 h m :
  GetMethodCount m (after t0 h) = swrap 64 (occurs (Processed m) h).
Proof.
  unfold GetMethodCount. rewrite counts_lookup. case_decide as H; [done|].
  by rewrite occurs_notin.
Qed.
End History.
