(* ===== verification/LogBuffers.v ===== *)
(** * Log buffers

    [probe.go]: the last log entries of one connection ([ProbeLogBuffer]), and
    [Proxy.probeLog] of [proxy.go], which adds to them and to the channel of the live
    stream. [log_buffer.go]: the server's log ([LogBuffer]), which sends every entry to
    its subscribers. A subscription has two goroutines of its own; the methods of the
    buffer, the selects of the goroutines and the reads of the subscribers interleave
    freely ([exec], [run]). *)

From S2P Require Import Prelude Fields Times.

(** ** A buffer that keeps the last entries *)

(** [l = append(l, e); if len(l) > maxSize { l = l[len(l)-maxSize:] }]. *)
Definition push {A} (maxSize : nat) (l : list A) (e : A) : list A :=
  let l' := l ++ [e] in
  if (maxSize <? length l')%nat then drop (length l' - maxSize) l' else l'.

(** The last [n] entries. *)
Definition lastn {A} (n : nat) (l : list A) : list A := drop (length l - n) l.

Lemma lastn_all {A} n (l : list A) : (length l <= n)%nat -> lastn n l = l.
Proof. intros H. unfold lastn. replace (length l - n)%nat with 0%nat by lia. done. Qed.

Lemma push_lastn {A} n (l : list A) e : push n l e = lastn n (l ++ [e]).
Proof.
  unfold push. destruct (Nat.ltb_spec n (length (l ++ [e]))); [done|].
  by rewrite lastn_all.
Qed.

Lemma lastn_push {A} n (l : list A) e : push n (lastn n l) e = lastn n (l ++ [e]).
Proof.
  rewrite push_lastn. unfold lastn. rewrite !length_app, length_drop. simpl.
  destruct (decide (length l <= n)%nat).
  - replace (length l - n)%nat with 0%nat by lia. by rewrite drop_0, Nat.sub_0_r.
  - rewrite <- (drop_app_le l [e]), drop_drop by lia. f_equal. lia.
Qed.

(** Pushing one entry after the other keeps the last [n] of all. *)
Lemma push_all {A} n (l es : list A) : foldl (push n) (lastn n l) es = lastn n (l ++ es).
Proof.
  revert l; induction es as [|e es IH]; intros l; simpl; [by rewrite app_nil_r|].
  by rewrite lastn_push, IH, <- app_assoc.
Qed.

Lemma lastn_length {A} n (l : list A) : length (lastn n l) = min n (length l).
Proof. unfold lastn. rewrite length_drop. lia. Qed.

(** ** [probe.go] *)

Section Probe.

(** Values of any type; the strings among them. *)
Context {any : Type} (as_string : any -> option string).

Record probeLog : Type := {
  probeLog_Timestamp : Time;
  probeLog_Message : string;
  probeLog_attrs : list any
}.

(** The loop of [AttrsMap]: keys at the even places, values at the odd ones. *)
Fixpoint attrsLoop (attrs : list any) (m : gmap string any) : gmap string any :=
  match attrs with
  | key :: value :: rest =>
      attrsLoop rest (match as_string key with Some k => <[k := value]> m | None => m end)
  | _ => m
  end.

Definition AttrsMap (p : probeLog) : option (gmap string any) :=
  match probeLog_attrs p with [] => None | attrs => Some (attrsLoop attrs ∅) end.

Record ProbeLogBuffer : Type := {
  logs : list probeLog;
  plb_maxSize : nat;
  active : bool;
  disconnectedAt : Time;
  plb_clientAddr : string;
  plb_user : string;
  plb_virtualHost : string;
  plb_clientBanner : string;
  plb_connectedAt : Time
}.

Definition NewProbeLogBuffer (maxSize : nat) : ProbeLogBuffer := {|
  logs := []; plb_maxSize := maxSize; active := true; disconnectedAt := zeroTime;
  plb_clientAddr := EmptyString; plb_user := EmptyString; plb_virtualHost := EmptyString;
  plb_clientBanner := EmptyString; plb_connectedAt := zeroTime |}.

Definition ProbeLogBuffer_Add (log : probeLog) (b : ProbeLogBuffer) : ProbeLogBuffer := {|
  logs := push (plb_maxSize b) (logs b) log; plb_maxSize := plb_maxSize b;
  active := active b; disconnectedAt := disconnectedAt b;
  plb_clientAddr := plb_clientAddr b; plb_user := plb_user b;
  plb_virtualHost := plb_virtualHost b; plb_clientBanner := plb_clientBanner b;
  plb_connectedAt := plb_connectedAt b |}.

Definition GetLogs (b : ProbeLogBuffer) : list probeLog := logs b.

Definition MarkInactive (now : Time) (b : ProbeLogBuffer) : ProbeLogBuffer := {|
  logs := logs b; plb_maxSize := plb_maxSize b; active := false; disconnectedAt := now;
  plb_clientAddr := plb_clientAddr b; plb_user := plb_user b;
  plb_virtualHost := plb_virtualHost b; plb_clientBanner := plb_clientBanner b;
  plb_connectedAt := plb_connectedAt b |}.

Definition GetDisconnectedAt (b : ProbeLogBuffer) : Time := disconnectedAt b.
Definition IsActive (b : ProbeLogBuffer) : bool := active b.

Definition SetProxyInfo (clientAddr user virtualHost clientBanner : string)
  (connectedAt : Time) (b : ProbeLogBuffer) : ProbeLogBuffer := {|
  logs := logs b; plb_maxSize := plb_maxSize b; active := active b;
  disconnectedAt := disconnectedAt b; plb_clientAddr := clientAddr; plb_user := user;
  plb_virtualHost := virtualHost; plb_clientBanner := clientBanner;
  plb_connectedAt := connectedAt |}.

Definition GetProxyInfo (b : ProbeLogBuffer) : string * string * string * string * Time :=
  (plb_clientAddr b, plb_user b, plb_virtualHost b, plb_clientBanner b, plb_connectedAt b).

(** ** [Proxy.probeLog]

    The channel as its buffered entries and its capacity; [None] is a nil channel or
    buffer. No other goroutine comes between the three selects. *)
Definition probeChanSize : nat := 100.

Definition trySend {A} (cap : nat) (x : A) (q : list A) : option (list A) :=
  if (length q <? cap)%nat then Some (q ++ [x]) else None.

Definition tryRecv {A} (q : list A) : option (A * list A) :=
  match q with x :: q' => Some (x, q') | [] => None end.

Definition sendDropOldest {A} (cap : nat) (x : A) (q : list A) : list A :=
  match trySend cap x q with
  | Some q' => q'
  | None =>
      let q1 := match tryRecv q with Some (_, q') => q' | None => q end in
      match trySend cap x q1 with Some q' => q' | None => q1 end
  end.

Record Probe : Type := {
  probeLogBuffer : option ProbeLogBuffer;
  probeChan : option (list probeLog)
}.

Definition newProbe (bufferSize : nat) : Probe := {|
  probeLogBuffer := Some (NewProbeLogBuffer bufferSize); probeChan := Some [] |}.

Definition Proxy_probeLog (now : Time) (message : string) (attrs : list any) (p : Probe)
  : Probe :=
  let log := {| probeLog_Timestamp := now; probeLog_Message := message;
                probeLog_attrs := attrs |} in
  {| probeLogBuffer := ProbeLogBuffer_Add log <$> probeLogBuffer p;
     probeChan := sendDropOldest probeChanSize log <$> probeChan p |}.

Definition logAll (ls : list probeLog) (p : Probe) : Probe :=
  foldl (fun p l => Proxy_probeLog (probeLog_Timestamp l) (probeLog_Message l)
                      (probeLog_attrs l) p) p ls.
End Probe.
Arguments probeLog : clear implicits.
Arguments ProbeLogBuffer : clear implicits.
Arguments Probe : clear implicits.

Lemma sendDropOldest_push {A} cap (x : A) q : (0 < cap)%nat -> (length q <= cap)%nat ->
  sendDropOldest cap x q = push cap q x.
Proof.
  intros Hc Hq. rewrite push_lastn. unfold sendDropOldest, trySend.
  destruct (Nat.ltb_spec (length q) cap).
  - rewrite lastn_all; [done|]. rewrite length_app. simpl. lia.
  - destruct q as [|y q]; simpl in *; [lia|].
    destruct (Nat.ltb_spec (length q) cap); [|lia].
    unfold lastn. simpl. rewrite length_app. simpl.
    by replace (S (length q + 1) - cap)%nat with 1%nat by lia.
Qed.

Lemma logAll_fst {any} (ls : list (probeLog any)) n ls0 (b : ProbeLogBuffer any) :
  logs b = lastn n ls0 -> plb_maxSize b = n ->
  forall q, q = lastn probeChanSize ls0 ->
  exists b', logAll ls {| probeLogBuffer := Some b; probeChan := Some q |}
    = {| probeLogBuffer := Some b'; probeChan := Some (lastn probeChanSize (ls0 ++ ls)) |} /\
    logs b' = lastn n (ls0 ++ ls) /\ plb_maxSize b' = n.
Proof.
  revert ls0 b; induction ls as [|l ls IH]; intros ls0 b Hb Hn q ->; simpl.
  - rewrite app_nil_r. by exists b.
  - unfold Proxy_probeLog at 1. simpl. destruct l as [t m a]. simpl.
    set (l := {| probeLog_Timestamp := t |}).
    rewrite sendDropOldest_push by (unfold probeChanSize; rewrite ?lastn_length; lia).
    rewrite lastn_push.
    destruct (IH (ls0 ++ [l]) (ProbeLogBuffer_Add l b)) with (q := lastn probeChanSize (ls0 ++ [l]))
      as (b' & -> & Hl & Hm); [|done..|].
    + simpl. by rewrite Hb, Hn, lastn_push.
    + exists b'. by rewrite <- app_assoc in *.
Qed.

(** While nobody reads the live stream, the retained logs are the last [n] logs of
    the connection and the channel holds the last hundred, in order: a client that
    opens the stream is sent the retained logs first and then those of the channel,
    every log that is in both twice. *)
Theorem probeLog_retains {any} (n : nat) (ls : list (probeLog any)) :
  exists b, logAll ls (newProbe n) =
      {| probeLogBuffer := Some b; probeChan := Some (lastn probeChanSize ls) |} /\
    GetLogs b = lastn n ls.
Proof.
  destruct (logAll_fst ls n [] (NewProbeLogBuffer n)) with (q := @nil (probeLog any))
    as (b & H & Hl & _); [done..|].
  by exists b.
Qed.

(** The last value among the pairs with the key [k]. *)
Fixpoint attr {any} (as_string : any -> option string) (attrs : list any) (k : string)
  : option any :=
  match attrs with
  | key :: value :: rest =>
      match attr as_string rest k with
      | Some v => Some v
      | None => if decide (as_string key = Some k) then Some value else None
      end
  | _ => None
  end.

Lemma attrsLoop_lookup {any} (as_string : any -> option string) n attrs m k :
  (length attrs <= n)%nat ->
  attrsLoop as_string attrs m !! k =
  match attr as_string attrs k with Some v => Some v | None => m !! k end.
Proof.
  revert attrs m; induction n as [|n IH]; intros [|x [|y r]] m Hl; simpl in *; try done; try lia.
  rewrite IH by lia. destruct (attr as_string r k); [done|].
  destruct (decide (as_string x = Some k)) as [->|Hne]; simpl; [by rewrite lookup_insert_eq|].
  destruct (as_string x); [|done]. rewrite lookup_insert_ne; congruence.
Qed.

(** [AttrsMap] has the last value of every string key, a value without a pair and the
    keys that are no strings are left out, and it is nil without attributes. *)
Theorem AttrsMap_lookup {any} (as_string : any -> option string) (p : probeLog any) k :
  (AttrsMap as_string p ≫= fun m => m !! k) = attr as_string (probeLog_attrs p) k.
Proof.
  unfold AttrsMap. destruct (probeLog_attrs p) as [|x l]; [done|].
  cbn [mbind option_bind]. rewrite (attrsLoop_lookup _ _ _ _ _ (le_n _)).
  by destruct (attr _ _ _).
Qed.

(** ** [log_buffer.go]: the server's log *)

Section LogBuffer.

Context {entry : Type}.

(** A subscription: its channel, the goroutine that sends the recent entries ([pending]
    are those not sent yet) and whether it is blocked in its select. [received] are the
    entries that the subscriber has read. *)
Record subscription : Type := {
  buf : list entry;
  closed : bool;
  ctx : nat;
  listenerID : string;
  pending : list entry;
  blocked : bool;
  received : list entry
}.

Definition set_chan (b : list entry) (c : bool) (s : subscription) : subscription := {|
  buf := b; closed := c; ctx := ctx s; listenerID := listenerID s; pending := pending s;
  blocked := blocked s; received := received s |}.
Definition set_sender (p : list entry) (b : bool) (s : subscription) : subscription := {|
  buf := buf s; closed := closed s; ctx := ctx s; listenerID := listenerID s; pending := p;
  blocked := b; received := received s |}.
Definition set_received (r : list entry) (s : subscription) : subscription := {|
  buf := buf s; closed := closed s; ctx := ctx s; listenerID := listenerID s;
  pending := pending s; blocked := blocked s; received := r |}.

(** [listeners] maps an identifier to the number of its subscription; [finished] are the
    cancelled contexts. *)
Record LogBuffer : Type := {
  lb_entries : list entry;
  lb_maxSize : nat;
  listeners : gmap string nat;
  subs : list subscription;
  finished : list nat
}.

Definition NewLogBuffer (maxSize : nat) : LogBuffer := {|
  lb_entries := []; lb_maxSize := maxSize; listeners := ∅; subs := []; finished := [] |}.

Definition set_lb (es : list entry) (ls : gmap string nat) (ss : list subscription)
  (b : LogBuffer) : LogBuffer := {|
  lb_entries := es; lb_maxSize := lb_maxSize b; listeners := ls; subs := ss; finished := finished b |}.
Definition set_subs (ss : list subscription) (b : LogBuffer) : LogBuffer :=
  set_lb (lb_entries b) (listeners b) ss b.

Definition chanSize : nat := 100.

Definition full (s : subscription) : bool := negb (length (buf s) <? chanSize)%nat.

(** [select { case ch <- entry: default: }]; [None] is the panic of a send on a closed
    channel. *)
Definition offer (e : entry) (s : subscription) : option subscription :=
  if closed s then None
  else Some (if full s then s else set_chan (buf s ++ [e]) false s).

(** The loop of [Add] over the listeners. *)
Fixpoint broadcast (e : entry) (ls : list (string * nat)) (ss : list subscription)
  : option (list subscription) :=
  match ls with
  | [] => Some ss
  | (_, i) :: ls' =>
      s ← ss !! i; s' ← offer e s; broadcast e ls' (<[i := s']> ss)
  end.

Definition Add (e : entry) (b : LogBuffer) : option LogBuffer :=
  ss ← broadcast e (map_to_list (listeners b)) (subs b);
  Some (set_lb (push (lb_maxSize b) (lb_entries b) e) (listeners b) ss b).

Definition newSubscription (recent : list entry) (c : nat) (id : string) : subscription := {|
  buf := []; closed := false; ctx := c; listenerID := id; pending := recent;
  blocked := false; received := [] |}.

Definition Subscribe (c : nat) (id : string) (b : LogBuffer) : LogBuffer :=
  set_lb (lb_entries b) (<[id := length (subs b)]> (listeners b))
    (subs b ++ [newSubscription (lb_entries b) c id]) b.

(** Closing a channel that its sender is blocked on makes the sender panic. *)
Definition Unsubscribe (id : string) (b : LogBuffer) : option LogBuffer :=
  match listeners b !! id with
  | None => Some b
  | Some i =>
      s ← subs b !! i;
      if closed s || blocked s then None
      else Some (set_lb (lb_entries b) (delete id (listeners b))
                   (<[i := set_chan (buf s) true s]> (subs b)) b)
  end.

(** *** Interleavings *)

(** What can happen next: a log record, a new subscriber, the end of a context, and, of
    a subscription, a turn of the goroutine that waits for the context ([OWatch]), the
    three outcomes of the sender's select, and a read by the subscriber. *)
Inductive op : Type :=
| OAdd (e : entry)
| OSubscribe (c : nat) (id : string)
| OCancel (c : nat)
| OWatch (i : nat)
| OSend (i : nat)
| ODone (i : nat)
| OBlock (i : nat)
| ORead (i : nat).

Inductive outcome : Type := Next (b : LogBuffer) | Crash.

Definition orCrash (o : option LogBuffer) : outcome :=
  match o with Some b => Next b | None => Crash end.

(** Subscription [i] changes by [f], which says when it cannot. *)
Definition onSub (i : nat) (f : subscription -> option (option subscription)) (b : LogBuffer)
  : option outcome :=
  s ← subs b !! i; r ← f s;
  Some (orCrash (s' ← r; Some (set_subs (<[i := s']> (subs b)) b))).

Definition cancelled (b : LogBuffer) (s : subscription) : bool := bool_decide (ctx s ∈ finished b).

Definition sendStep (s : subscription) : option (option subscription) :=
  match pending s with
  | e :: rest =>
      if blocked s then None
      else if closed s then Some None
      else if full s then None
      else Some (Some (set_sender rest false (set_chan (buf s ++ [e]) false s)))
  | [] => None
  end.

Definition doneStep (b : LogBuffer) (s : subscription) : option (option subscription) :=
  match pending s with
  | _ :: _ => if blocked s || negb (cancelled b s) then None else Some (Some (set_sender [] false s))
  | [] => None
  end.

Definition blockStep (b : LogBuffer) (s : subscription) : option (option subscription) :=
  match pending s with
  | _ :: _ =>
      if blocked s || closed s || negb (full s) || cancelled b s then None
      else Some (Some (set_sender (pending s) true s))
  | [] => None
  end.

(** A read makes room, in which a blocked sender puts its entry. *)
Definition readStep (s : subscription) : option (option subscription) :=
  match buf s with
  | x :: q =>
      let s := set_received (received s ++ [x]) s in
      Some (Some match blocked s, pending s with
      | true, e :: rest => set_sender rest false (set_chan (q ++ [e]) (closed s) s)
      | _, _ => set_chan q (closed s) s
      end)
  | [] => None
  end.

(** The end of a context wakes the senders blocked on it: they return. *)
Definition wake (c : nat) (s : subscription) : subscription :=
  if blocked s && bool_decide (ctx s = c) then set_sender [] false s else s.

Definition Cancel (c : nat) (b : LogBuffer) : LogBuffer := {|
  lb_entries := lb_entries b; lb_maxSize := lb_maxSize b; listeners := listeners b;
  subs := map (wake c) (subs b); finished := c :: finished b |}.

Definition exec (o : op) (b : LogBuffer) : option outcome :=
  match o with
  | OAdd e => Some (orCrash (Add e b))
  | OSubscribe c id => Some (Next (Subscribe c id b))
  | OCancel c => Some (Next (Cancel c b))
  | OWatch i =>
      s ← subs b !! i;
      if cancelled b s then Some (orCrash (Unsubscribe (listenerID s) b)) else None
  | OSend i => onSub i sendStep b
  | ODone i => onSub i (doneStep b) b
  | OBlock i => onSub i (blockStep b) b
  | ORead i => onSub i readStep b
  end.

(** A history, from the first operation to the last or to a panic. *)
Fixpoint run (os : list op) (b : LogBuffer) : option outcome :=
  match os with
  | [] => Some (Next b)
  | o :: os' => match exec o b with Some (Next b') => run os' b' | r => r end
  end.

(** *** What a history means for its subscribers

    Read off the operations alone: the records that were logged, the subscriptions that
    were made, and for each of these the entries it is meant to get: the [n] newest records
    when it was made, and all that were logged since. *)
Definition records (os : list op) : list entry :=
  omap (fun o => match o with OAdd e => Some e | _ => None end) os.

Definition subscribed (os : list op) : list (nat * string) :=
  omap (fun o => match o with OSubscribe c id => Some (c, id) | _ => None end) os.

Definition noted (n : nat) (ms : list entry * list (list entry)) (o : op) : list entry * list (list entry) :=
  match o with
  | OAdd e => (ms.1 ++ [e], map (fun m => m ++ [e]) ms.2)
  | OSubscribe _ _ => (ms.1, ms.2 ++ [lastn n ms.1])
  | _ => ms
  end.

Definition meant (n : nat) (os : list op) : list entry * list (list entry) := foldl (noted n) ([], []) os.
End LogBuffer.
Arguments subscription : clear implicits.
Arguments LogBuffer : clear implicits.
Arguments op : clear implicits.
Arguments outcome : clear implicits.

(** *** What holds after every history *)

Section LogBufferProofs.
Context {entry : Type}.
Implicit Types (s : subscription entry) (b : LogBuffer entry) (e : entry) (os : list (op entry)).

Lemma meant_snoc n os o : meant n (os ++ [o]) = noted n (meant n os) o.
Proof. unfold meant. by rewrite foldl_app. Qed.

Lemma meant_later n os ms : let r := foldl (noted n) ms os in
  r.1 = ms.1 ++ records os /\ forall i m, ms.2 !! i = Some m -> r.2 !! i = Some (m ++ records os).
Proof.
  revert ms; induction os as [|o os IH]; intros ms; simpl.
  { split; [by rewrite app_nil_r|]. intros i m ->. by rewrite app_nil_r. }
  destruct (IH (noted n ms o)) as [I1 I2]. destruct o; simpl in *; try done.
  - rewrite I1, <- app_assoc. split; [done|]. intros i m Hm.
    rewrite (I2 i (m ++ [e])) by (by rewrite list_lookup_fmap, Hm). by rewrite <- app_assoc.
  - split; [done|]. intros i m Hm. apply I2. by apply lookup_app_l_Some.
Qed.

Lemma meant_length n os : length (meant n os).2 = length (subscribed os).
Proof.
  induction os as [|o os IH] using rev_ind; [done|]. rewrite meant_snoc. unfold subscribed in *.
  rewrite omap_app, length_app, <- IH. destruct o; simpl; rewrite ?length_app, ?length_map; simpl; lia.
Qed.

(** What a subscription is meant to get, as the history reads. *)
Lemma meant_of n os1 c id os2 : (meant n (os1 ++ OSubscribe c id :: os2)).2 !! length (subscribed os1) =
  Some (lastn n (records os1) ++ records os2).
Proof.
  unfold meant. rewrite foldl_app. cbn [foldl]. destruct (meant_later n os1 ([], [])) as [E _].
  fold (meant n os1) in *. apply (meant_later n os2 (noted n (meant n os1) (OSubscribe c id))).
  cbn [noted snd]. rewrite <- (meant_length n os1), E. by rewrite lookup_app_r, Nat.sub_diag by done.
Qed.

(** The entries the subscriber has read, can read, or will be sent. *)
Definition account s : list entry := received s ++ buf s ++ pending s.

Record sub_ok (served : Prop) (m : list entry) (s : subscription entry) : Prop := {
  ok_size : (length (buf s) <= chanSize)%nat;
  ok_once : account s ⊆+ m;
  ok_all : served -> (length m <= chanSize)%nat -> account s ≡ₚ m
}.

(** The subscription [i] is the listener of its name, and its context lives. *)
Definition served b (i : nat) s : Prop := (ctx s ∉ finished b) /\ listeners b !! listenerID s = Some i.

Definition listeners_ok b : Prop := forall id i, listeners b !! id = Some i ->
  exists s, subs b !! i = Some s /\ closed s = false /\ listenerID s = id.

(** A subscription whose context lives and whose name nobody else has is the listener. *)
Definition listens b : Prop := forall i s, subs b !! i = Some s -> ctx s ∉ finished b ->
  (forall j t, subs b !! j = Some t -> listenerID t = listenerID s -> j = i) ->
  listeners b !! listenerID s = Some i.

Definition naming s : nat * string := (ctx s, listenerID s).

Record ok (n : nat) os b : Prop := {
  ok_entries : lb_entries b = lastn n (meant n os).1;
  ok_max : lb_maxSize b = n;
  ok_names : map naming (subs b) = subscribed os;
  ok_subs : forall i s m, subs b !! i = Some s -> (meant n os).2 !! i = Some m -> sub_ok (served b i s) m s;
  ok_listeners : listeners_ok b;
  ok_finished : forall c, c ∈ finished b -> OCancel c ∈ os;
  ok_listens : listens b
}.

Lemma ok_length n os b : ok n os b -> length (subs b) = length (meant n os).2.
Proof. intros Hok. rewrite meant_length, <- (ok_names _ _ _ Hok). by rewrite length_map. Qed.

Lemma subscribed_snoc os o : subscribed (os ++ [o]) = subscribed os ++ subscribed [o].
Proof. apply omap_app. Qed.

Lemma account_snoc e (r q p : list entry) : r ++ (q ++ [e]) ++ p ≡ₚ (r ++ q ++ p) ++ [e].
Proof. solve_Permutation. Qed.

Lemma offer_ok (P Q : Prop) m e s s' : (Q -> P) -> sub_ok P m s -> offer e s = Some s' -> sub_ok Q (m ++ [e]) s'.
Proof.
  intros HQ [Hs Ho Ha]. unfold offer, full. destruct (closed s); [done|]. unfold account in *.
  destruct (Nat.ltb_spec (length (buf s)) chanSize) as [Hl|Hl]; simpl; intros [= <-];
    split; unfold account; simpl.
  - rewrite length_app. simpl. lia.
  - rewrite account_snoc. by apply submseteq_app.
  - rewrite account_snoc, length_app. simpl. intros Hn Hlo. apply Permutation_app; [|done].
    apply Ha; [auto|lia].
  - done.
  - by apply submseteq_inserts_r.
  - intros Hn Hlo. rewrite length_app in Hlo. simpl in Hlo.
    pose proof (Permutation_length (Ha (HQ Hn) ltac:(lia))) as E. rewrite !length_app in E. lia.
Qed.

Lemma offer_same e s s' : offer e s = Some s' -> closed s' = closed s /\ listenerID s' = listenerID s /\ ctx s' = ctx s.
Proof. unfold offer. destruct (closed s) eqn:Hc; [done|]. intros [= <-]. case_match; simpl; auto. Qed.

(** Every listener is offered the entry, and nobody else. *)
Lemma broadcast_ok e (ls : list (string * nat)) (ss : list (subscription entry)) : NoDup ls.*2 ->
  (forall i, i ∈ ls.*2 -> exists s, ss !! i = Some s /\ closed s = false) ->
  exists ss', broadcast e ls ss = Some ss' /\ length ss' = length ss /\
    forall j s, ss !! j = Some s -> exists s', ss' !! j = Some s' /\
      ((j ∈ ls.*2 /\ offer e s = Some s') \/ ((j ∉ ls.*2) /\ s' = s)).
Proof.
  revert ss; induction ls as [|[id i] ls IH]; intros ss Hnd Hls; simpl in *.
  { exists ss. split_and!; try done. intros j s Hj. exists s. split; [done|]. right. by split; [apply not_elem_of_nil|]. }
  apply NoDup_cons in Hnd as [Hi Hnd]. destruct (Hls i) as (s & Hs & Hc); [by left|].
  rewrite Hs. cbn [mbind option_bind].
  assert (exists s', offer e s = Some s') as [s' Hoff] by (unfold offer; rewrite Hc; eauto).
  rewrite Hoff. cbn [mbind option_bind].
  destruct (IH (<[i := s']> ss) Hnd) as (ss' & Hb & Hlen & Hp).
  { intros j Hj. destruct (Hls j) as (t & Ht & ?); [by right|]. exists t.
    rewrite list_lookup_insert_ne; [done|]. by intros ->. }
  exists ss'. split; [done|]. split; [by rewrite Hlen, length_insert|]. intros j t Ht.
  destruct (decide (i = j)) as [<-|Hne].
  - destruct (Hp i s') as (t' & Ht' & [[? _]|[_ ->]]);
      [by rewrite list_lookup_insert_eq by by eapply lookup_lt_Some|done|].
    exists s'. split; [done|]. left. split; [by left|congruence].
  - destruct (Hp j t) as (t' & Ht' & Hor); [by rewrite list_lookup_insert_ne|]. exists t'. split; [done|].
    destruct Hor as [[? ?]|[? ?]]; [left; split; [by right|done]|right; split; [|done]].
    by intros [->|?]%elem_of_cons.
Qed.

Lemma listening b j : j ∈ (map_to_list (listeners b)).*2 <-> exists id, listeners b !! id = Some j.
Proof.
  rewrite list_elem_of_fmap. split.
  - intros ([id i] & -> & Hin%elem_of_map_to_list). by exists id.
  - intros [id Hid%elem_of_map_to_list]. by exists (id, j).
Qed.

(** [Add] never sends on a closed channel. *)
Lemma Add_ok n os e b : ok n os b -> exists b', Add e b = Some b' /\ ok n (os ++ [OAdd e]) b'.
Proof.
  intros Hok. pose proof (ok_length _ _ _ Hok) as Hlen. destruct Hok as [He Hm Hna Hsub Hl Hf Hr].
  destruct (broadcast_ok e (map_to_list (listeners b)) (subs b)) as (ss' & Hb & Hlen' & Hp).
  { apply NoDup_fmap_2_strong; [|apply NoDup_map_to_list].
    intros [id1 i1] [id2 i2] H1%elem_of_map_to_list H2%elem_of_map_to_list E. simpl in E. subst i2.
    destruct (Hl _ _ H1) as (s1 & ? & _ & <-). destruct (Hl _ _ H2) as (s2 & ? & _ & <-). congruence. }
  { intros i [id Hid]%listening. destruct (Hl _ _ Hid) as (s & ? & ? & _). eauto. }
  unfold Add. rewrite Hb. cbn [mbind option_bind]. eexists. split; [done|].
  assert (Inv : forall j s', ss' !! j = Some s' -> exists s, subs b !! j = Some s).
  { intros j s' Hs'. apply lookup_lt_is_Some. rewrite <- Hlen'. by eapply lookup_lt_Some. }
  assert (Same : forall j s s', subs b !! j = Some s -> ss' !! j = Some s' ->
    closed s' = closed s /\ listenerID s' = listenerID s /\ ctx s' = ctx s).
  { intros j s s' Hs Hs'. destruct (Hp j s Hs) as (t & Ht & [[_ Ho]|[_ ->]]); simplify_eq; [|done].
    by eapply offer_same. }
  split; rewrite ?meant_snoc, ?subscribed_snoc; cbn [lb_entries lb_maxSize subs set_lb noted fst snd].
  - by rewrite He, Hm, lastn_push.
  - done.
  - cbn [subscribed omap list_omap]. rewrite app_nil_r, <- Hna. apply list_eq. intros j.
    rewrite !list_lookup_fmap. destruct (subs b !! j) as [s|] eqn:Hs.
    + destruct (Hp j s Hs) as (s' & Hs' & _). rewrite Hs'. destruct (Same j s s' Hs Hs') as (_ & E1 & E2).
      simpl. unfold naming. by rewrite E1, E2.
    + destruct (ss' !! j) as [s'|] eqn:Hs'; [|done]. destruct (Inv j s' Hs') as [s Hs2]. congruence.
  - intros i s' m Hs' Hm'. rewrite list_lookup_fmap in Hm'. apply fmap_Some in Hm' as (m0 & Hm0 & ->).
    destruct (Inv i s' Hs') as [s Hs]. destruct (Same i s s' Hs Hs') as (_ & Ei & Ec).
    pose proof (Hsub i s m0 Hs Hm0) as Hok. unfold served in *. cbn [finished listeners set_lb]. rewrite Ei, Ec.
    destruct (Hp i s Hs) as (t & Ht & [[_ Ho]|[Hn ->]]); simplify_eq.
    + by eapply offer_ok.
    + destruct Hok as [H1 H2 _]. split; [done|by apply submseteq_inserts_r|].
      intros [_ Hreg]. destruct Hn. apply listening. by eexists.
  - intros id i Hi. destruct (Hl id i Hi) as (s & Hs & Hc & Hid).
    destruct (Hp i s Hs) as (s' & Hs' & _). destruct (Same i s s' Hs Hs') as (E1 & E2 & _).
    exists s'. cbn [subs set_lb]. split_and!; congruence.
  - intros c Hc. apply elem_of_app. left. by apply Hf.
  - intros i s' Hs' Hc Hu. cbn [subs set_lb listeners finished] in *. destruct (Inv i s' Hs') as [s Hs].
    destruct (Same i s s' Hs Hs') as (_ & E1 & E2). rewrite E1. rewrite E2 in Hc. apply (Hr i s Hs Hc).
    intros j t Ht E. destruct (Hp j t Ht) as (t' & Ht' & _). destruct (Same j t t' Ht Ht') as (_ & E3 & _).
    apply (Hu j t' Ht'). congruence.
Qed.

Lemma Subscribe_ok n os c id b : ok n os b -> ok n (os ++ [OSubscribe c id]) (Subscribe c id b).
Proof.
  intros Hok. pose proof (ok_length _ _ _ Hok) as Hlen. destruct Hok as [He Hm Hna Hsub Hl Hf Hr].
  split; rewrite ?meant_snoc, ?subscribed_snoc;
    cbn [lb_entries lb_maxSize subs set_lb Subscribe noted fst snd]; [done|done|by rewrite map_app, Hna| | | |].
  - intros i s m Hs Hmi. rewrite lookup_app in Hs. rewrite lookup_app, <- Hlen in Hmi.
    destruct (subs b !! i) as [s0|] eqn:E.
    + injection Hs as <-. destruct ((meant n os).2 !! i) as [m0|] eqn:Em.
      2: { apply lookup_ge_None in Em. apply lookup_lt_Some in E. lia. }
      injection Hmi as <-. destruct (Hsub i s0 m0 E Em) as [H1 H2 H3]. split; [done..|].
      intros [Hfx Hrx]. apply H3. split; [done|]. cbn [listeners set_lb Subscribe] in Hrx.
      apply lookup_insert_Some in Hrx as [[_ Hi]|[_ ?]]; [|done]. apply lookup_lt_Some in E. lia.
    + destruct ((meant n os).2 !! i) as [m0|] eqn:Em.
      { apply lookup_lt_Some in Em. apply lookup_ge_None in E. lia. }
      apply list_lookup_singleton_Some in Hs as [_ <-], Hmi as [_ <-].
      split; unfold account; simpl; [unfold chanSize; lia|by rewrite He|by rewrite He].
  - intros id' i Hi. cbn [listeners set_lb Subscribe] in Hi.
    apply lookup_insert_Some in Hi as [[<- <-]|[_ Hi]].
    + exists (newSubscription (lb_entries b) c id). split; [|done]. simpl.
      by rewrite lookup_app_r, Nat.sub_diag by done.
    + destruct (Hl id' i Hi) as (s & Hs & ?). exists s. split; [|done]. by apply lookup_app_l_Some.
  - intros c' Hc. apply elem_of_app. left. by apply Hf.
  - intros i s Hs Hc Hu. cbn [subs set_lb Subscribe listeners finished] in *.
    apply lookup_app_Some in Hs as [Hs|[Hi Hs]].
    + destruct (decide (id = listenerID s)) as [->|Hne].
      * exfalso. apply lookup_lt_Some in Hs as Hlt.
        assert (length (subs b) = i); [|lia]. apply (Hu _ (newSubscription (lb_entries b) c (listenerID s))); [|done].
        by rewrite lookup_app_r, Nat.sub_diag by done.
      * rewrite lookup_insert_ne by done. apply (Hr i s Hs Hc). intros j t Ht. apply Hu. by apply lookup_app_l_Some.
    + apply list_lookup_singleton_Some in Hs as [Hi0 <-]. simpl. rewrite lookup_insert_eq. f_equal. lia.
Qed.

Lemma sub_ok_mono (P Q : Prop) m s : (Q -> P) -> sub_ok P m s -> sub_ok Q m s.
Proof. intros HQ [H1 H2 H3]. split; auto. Qed.

(** The sender has returned: nothing more is sent, to a subscriber that has gone. *)
Lemma sub_ok_dropped (P Q : Prop) m s : ~ Q -> sub_ok P m s -> sub_ok Q m (set_sender [] false s).
Proof.
  intros HQ [Hs Ho _]. split; unfold account in *; simpl; [done| |done].
  rewrite app_nil_r. etrans; [|exact Ho]. rewrite app_assoc. by apply submseteq_inserts_r.
Qed.

Lemma same_account P m s s' : sub_ok P m s -> account s' = account s -> (length (buf s') <= chanSize)%nat ->
  sub_ok P m s'.
Proof. intros [Hs Ho Ha] E Hl. split; rewrite ?E; done. Qed.

(** Operations that are neither records nor subscriptions change subscriptions one by one:
    [g] says how. *)
Lemma quiet_ok n os o b b' (g : nat -> subscription entry -> subscription entry) : ok n os b ->
  (forall ms, noted n ms o = ms) -> subscribed [o] = [] ->
  lb_entries b' = lb_entries b -> lb_maxSize b' = lb_maxSize b -> subs b' = imap g (subs b) ->
  finished b ⊆ finished b' -> (forall c, c ∈ finished b' -> c ∈ finished b \/ o = OCancel c) ->
  (forall i s, subs b !! i = Some s -> naming (g i s) = naming s /\
    (forall m, sub_ok (served b i s) m s -> sub_ok (served b' i (g i s)) m (g i s))) ->
  (forall id i s, listeners b' !! id = Some i -> subs b !! i = Some s -> closed s = false ->
    listeners b !! id = Some i -> closed (g i s) = false) ->
  listeners b' ⊆ listeners b -> (listens b -> listens (set_subs (subs b) b')) -> ok n (os ++ [o]) b'.
Proof.
  intros [He Hm Hna Hsub Hl Hf Hr] Hno Hso E1 E2 E3 Hf1 Hf2 Hg Hc Hls Hli.
  assert (Hn : map naming (subs b') = map naming (subs b)).
  { rewrite E3. apply list_eq. intros j. rewrite !list_lookup_fmap, list_lookup_imap.
    destruct (subs b !! j) as [s|] eqn:Hs; [|done]. simpl. by rewrite (proj1 (Hg j s Hs)). }
  split; rewrite ?meant_snoc, ?Hno, ?subscribed_snoc, ?Hso, ?app_nil_r, ?E1, ?E2, ?Hn; try done.
  - intros i s' m Hs' Hmi. rewrite E3, list_lookup_imap in Hs'. apply fmap_Some in Hs' as (s & Hs & ->).
    apply Hg; [done|]. by apply Hsub.
  - intros id i Hi. pose proof (lookup_weaken _ _ _ _ Hi Hls) as Hi'.
    destruct (Hl id i Hi') as (s & Hs & Hcl & Hid). exists (g i s). rewrite E3, list_lookup_imap, Hs.
    split; [done|]. split; [by apply (Hc id i s)|]. pose proof (proj1 (Hg i s Hs)) as E. injection E as _ ->. done.
  - intros c Hc'. apply elem_of_app. destruct (Hf2 c Hc') as [?| ->]; [left; by apply Hf|right; by left].
  - intros i s' Hs' Hcx Hu. rewrite E3, list_lookup_imap in Hs'. apply fmap_Some in Hs' as (s & Hs & ->).
    pose proof (proj1 (Hg i s Hs)) as E. injection E as Ec Ei. rewrite Ei in *. rewrite Ec in Hcx.
    apply (Hli Hr i s Hs Hcx). intros j t Ht Et. cbn [subs set_subs set_lb] in Ht.
    apply (Hu j (g j t)); [by rewrite E3, list_lookup_imap, Ht|].
    pose proof (proj1 (Hg j t Ht)) as E. injection E as _ ->. done.
Qed.

Lemma Cancel_ok n os c b : ok n os b -> ok n (os ++ [OCancel c]) (Cancel c b).
Proof.
  intros Hok. apply (quiet_ok n os _ b _ (fun _ => wake c)); try done.
  - exact (eq_sym (imap_const (wake c) (subs b))).
  - intros x Hx. by right.
  - intros x [->|Hx]%elem_of_cons; auto.
  - intros i s Hs. split; [unfold wake; by case_match|]. intros m Hm.
    assert (Hw : served (Cancel c b) i (wake c s) -> served b i s).
    { unfold served. simpl. unfold wake. case_match; simpl; rewrite not_elem_of_cons; intros [[_ ?] ?]; done. }
    revert Hw. unfold wake. destruct (blocked s && _) eqn:E; intros Hw; [|by eapply sub_ok_mono].
    apply andb_true_iff in E as [_ E%bool_decide_eq_true]. eapply sub_ok_dropped; [|done].
    intros [Hf _]. simpl in Hf. rewrite E in Hf. apply Hf. by left.
  - intros id i s _ _ Hcl _. unfold wake. by case_match.
  - intros Hr i s Hs Hc Hu. apply (Hr i s Hs); [|done]. intros Hx. apply Hc. by right.
Qed.

(** A change of one subscription. *)
Lemma insert_imap {A} i (x y : A) l : l !! i = Some x ->
  <[i := y]> l = imap (fun j z => if decide (j = i) then y else z) l.
Proof.
  intros Hx. apply list_eq. intros j. rewrite list_lookup_imap. destruct (decide (j = i)) as [->|Hne].
  - rewrite list_lookup_insert_eq by by eapply lookup_lt_Some. rewrite Hx. done.
  - rewrite list_lookup_insert_ne by done. destruct (l !! j); done.
Qed.

Lemma Unsubscribe_ok n os o w sw b b' : ok n os b -> (forall ms, noted n ms o = ms) -> subscribed [o] = [] ->
  subs b !! w = Some sw -> ctx sw ∈ finished b ->
  Unsubscribe (listenerID sw) b = Some b' -> ok n (os ++ [o]) b'.
Proof.
  intros Hok Hno Hso Hw Hfw. pose proof (ok_listeners _ _ _ Hok) as Hl. unfold Unsubscribe.
  destruct (listeners b !! listenerID sw) as [i|] eqn:Hi.
  2: { intros [= <-]. apply (quiet_ok n os o b b (fun _ s => s)); try done; auto.
    rewrite (imap_const Datatypes.id). by rewrite list_fmap_id. }
  destruct (subs b !! i) as [s|] eqn:Hs; [|done]. cbn [mbind option_bind].
  destruct (closed s || blocked s); [done|]. intros [= <-]. destruct (Hl _ i Hi) as (s0 & Hs0 & _ & Hid).
  simplify_eq.
  eapply (quiet_ok n os o b _ _ Hok Hno Hso); [done|done|exact (insert_imap i s _ _ Hs)|done|auto| | | |].
  - intros j t Ht. simpl. case_decide as Hj; [subst j|]; simplify_eq; (split; [done|]); intros m Hm.
    + apply (same_account _ _ s); [|done|apply Hm]. eapply sub_ok_mono; [|exact Hm].
      intros [_ Hr]. simpl in Hr. by rewrite Hid, lookup_delete_eq in Hr.
    + eapply sub_ok_mono; [|exact Hm]. intros [Hf Hr]. split; [done|]. simpl in Hr.
      by apply lookup_delete_Some in Hr as [_ ?].
  - intros id' j t Hj' Ht Hcl Hj. simpl in Hj'. apply lookup_delete_Some in Hj' as [Hne _].
    case_decide; [|done]. subst j. destruct (Hl _ _ Hj) as (t' & ? & _ & ?). congruence.
  - simpl. apply delete_subseteq.
  - intros Hr j t Ht Hc Hu. cbn [subs set_subs set_lb listeners finished] in *.
    apply lookup_delete_Some. split; [|by apply (Hr j t)]. intros E.
    pose proof (Hu w sw Hw E) as ->. simplify_eq. done.
Qed.

Lemma onSub_ok n os o i f b b' : ok n os b -> (forall ms, noted n ms o = ms) -> subscribed [o] = [] ->
  (forall s s' m, sub_ok (served b i s) m s -> f s = Some (Some s') -> sub_ok (served b i s) m s' /\
    closed s' = closed s /\ naming s' = naming s) ->
  onSub i f b = Some (Next b') -> ok n (os ++ [o]) b'.
Proof.
  intros Hok Hno Hso Hf. unfold onSub. destruct (subs b !! i) as [s|] eqn:Hs; [|done].
  cbn [mbind option_bind]. destruct (f s) as [[s'|]|] eqn:Hfs; simpl; try done. intros [= <-].
  assert (Hm : exists m, (meant n os).2 !! i = Some m).
  { apply lookup_lt_is_Some. rewrite <- (ok_length _ _ _ Hok). by eapply lookup_lt_Some. }
  destruct Hm as [m0 Hm0]. destruct (Hf s s' m0 (ok_subs _ _ _ Hok i s m0 Hs Hm0) Hfs) as (_ & Hc & Hna).
  eapply (quiet_ok n os o b _ _ Hok Hno Hso); [done|done|exact (insert_imap i s _ _ Hs)|done|auto| | |done|done].
  - intros j t Ht. simpl. case_decide as Hj; [subst j|]; simplify_eq; [|by split].
    match goal with E1 : ctx s' = ctx s, E2 : listenerID s' = listenerID s |- _ =>
      split; [unfold naming; by rewrite E1, E2|]; intros m Hm; unfold served; rewrite E1, E2 end.
    exact (proj1 (Hf s s' m Hm Hfs)).
  - intros id j t _ Ht Hcl _. simpl. case_decide; [|done]. subst j. simplify_eq. congruence.
Qed.

Lemma sendStep_ok P m s s' : sub_ok P m s -> sendStep s = Some (Some s') ->
  sub_ok P m s' /\ closed s' = closed s /\ naming s' = naming s.
Proof.
  intros Hok. unfold sendStep, full. destruct (pending s) as [|e rest] eqn:Hp; [done|].
  destruct (blocked s); [done|]. destruct (closed s) eqn:Hc; [done|].
  destruct (Nat.ltb_spec (length (buf s)) chanSize); [|done]. simpl. intros [= <-].
  split; [|done]. eapply same_account; [exact Hok|..].
  - unfold account. simpl. by rewrite Hp, <- (app_assoc (buf s)).
  - simpl. rewrite length_app. simpl. lia.
Qed.

Lemma doneStep_ok b i m s s' : sub_ok (served b i s) m s -> doneStep b s = Some (Some s') ->
  sub_ok (served b i s) m s' /\ closed s' = closed s /\ naming s' = naming s.
Proof.
  intros Hok. unfold doneStep, cancelled. destruct (pending s) as [|e rest]; [done|].
  destruct (blocked s); [done|]. case_bool_decide as Hc; [|done]. simpl. intros [= <-].
  split; [|done]. eapply sub_ok_dropped; [|exact Hok]. by intros [? _].
Qed.

Lemma blockStep_ok b P m s s' : sub_ok P m s -> blockStep b s = Some (Some s') ->
  sub_ok P m s' /\ closed s' = closed s /\ naming s' = naming s.
Proof.
  intros Hok. unfold blockStep. destruct (pending s) as [|e rest] eqn:Hp; [done|].
  case_match; [done|]. intros [= <-]. split; [|done].
  eapply same_account; [exact Hok| |apply Hok]. unfold account. simpl. by rewrite Hp.
Qed.

Lemma readStep_ok P m s s' : sub_ok P m s -> readStep s = Some (Some s') ->
  sub_ok P m s' /\ closed s' = closed s /\ naming s' = naming s.
Proof.
  intros Hok. unfold readStep. destruct (buf s) as [|x q] eqn:Hb; [done|].
  pose proof (ok_size _ _ _ Hok) as Hs. rewrite Hb in Hs. simpl in *.
  destruct (blocked s), (pending s) as [|e rest] eqn:Hp; intros [= <-];
    (split; [|done]); (eapply same_account; [exact Hok|..]);
    unfold account; simpl; rewrite ?Hb, ?Hp, <- ?app_assoc; simpl; try done;
    rewrite ?length_app; simpl; lia.
Qed.

Lemma exec_ok n os o b b' : ok n os b -> exec o b = Some (Next b') -> ok n (os ++ [o]) b'.
Proof.
  intros Hok. destruct o as [e|c id|c|i|i|i|i|i]; cbn [exec].
  - destruct (Add_ok n os e b Hok) as (b1 & -> & ?). by intros [= <-].
  - intros [= <-]. by apply Subscribe_ok.
  - intros [= <-]. by apply Cancel_ok.
  - destruct (subs b !! i) as [s|] eqn:Hs; [|done]. cbn [mbind option_bind]. unfold cancelled.
    case_bool_decide; [|done]. destruct (Unsubscribe (listenerID s) b) eqn:E; [|done]. intros [= <-].
    by eapply Unsubscribe_ok.
  - apply onSub_ok; [done..|]. intros s s' m. apply sendStep_ok.
  - apply onSub_ok; [done..|]. intros s s' m. apply doneStep_ok.
  - apply onSub_ok; [done..|]. intros s s' m. apply blockStep_ok.
  - apply onSub_ok; [done..|]. intros s s' m. apply readStep_ok.
Qed.

Lemma run_snoc os o b : run (os ++ [o]) b =
  match run os b with Some (Next b') => exec o b' | r => r end.
Proof.
  revert b; induction os as [|o1 os IH]; intros b; simpl; [by destruct (exec o b) as [[]|]|].
  destruct (exec o1 b) as [[b1|]|]; [apply IH|done|done].
Qed.

Lemma run_ok n os b : run os (NewLogBuffer n) = Some (Next b) -> ok n os b.
Proof.
  revert b; induction os as [|o os IH] using rev_ind; intros b.
  - intros [= <-]. split; try done. intros c Hc. by apply not_elem_of_nil in Hc.
  - rewrite run_snoc. destruct (run os (NewLogBuffer n)) as [[b0|]|]; [|done|done]. intros E.
    eapply exec_ok; [by apply IH|exact E].
Qed.

(** C13: whatever the history before and after a subscription, log records, subscriptions,
    cancellations, goroutines and readers interleaved in any way: a record never meets a
    closed channel, a channel never holds more than its capacity, and the subscriber gets
    nothing twice and nothing but the recent entries of its time, as many as are kept, and
    the records that the history has after it; as long as its context lives and nobody else
    takes its name, and there are at most a hundred of these, what it has read, can read
    and will be sent is all of them. *)
Theorem subscribers_get_all n os1 c id os2 b :
  run (os1 ++ OSubscribe c id :: os2) (NewLogBuffer n) = Some (Next b) ->
  (forall e, exists b', exec (OAdd e) b = Some (Next b')) /\
  exists s, subs b !! length (subscribed os1) = Some s /\
    let due := lastn n (records os1) ++ records os2 in
    (length (buf s) <= chanSize)%nat /\
    received s ++ buf s ++ pending s ⊆+ due /\
    (OCancel c ∉ os1 ++ os2 -> id ∉ map snd (subscribed (os1 ++ os2)) -> (length due <= chanSize)%nat ->
     received s ++ buf s ++ pending s ≡ₚ due).
Proof.
  intros Hrun%run_ok. split.
  { intros e. destruct (Add_ok n _ e b Hrun) as (b' & E & _). exists b'. simpl. by rewrite E. }
  pose proof (meant_of n os1 c id os2) as Hm. set (os := os1 ++ OSubscribe c id :: os2) in *.
  set (i := length (subscribed os1)) in *. pose proof (ok_names _ _ _ Hrun) as Hna.
  assert (Hos : subscribed os = subscribed os1 ++ (c, id) :: subscribed os2)
    by (unfold os, subscribed; by rewrite omap_app).
  assert (Hs : exists s, subs b !! i = Some s /\ naming s = (c, id)).
  { assert (E : map naming (subs b) !! i = Some (c, id)).
    { rewrite Hna, Hos. unfold i. by rewrite lookup_app_r, Nat.sub_diag by done. }
    rewrite list_lookup_fmap in E. apply fmap_Some in E as (s & ? & ?). eauto. }
  destruct Hs as (s & Hs & En). injection En as Ec Ei. exists s. split; [exact Hs|].
  destruct (ok_subs _ _ _ Hrun i s _ Hs Hm) as [H1 H2 H3]. split; [exact H1|]. split; [exact H2|].
  intros Hc Hid. apply H3. split.
  - intros Hf%(ok_finished _ _ _ Hrun). rewrite Ec in Hf. unfold os in Hf.
    rewrite elem_of_app, elem_of_cons in Hf. rewrite elem_of_app in Hc. naive_solver.
  - apply (ok_listens _ _ _ Hrun i s Hs).
    + intros Hf%(ok_finished _ _ _ Hrun). rewrite Ec in Hf. unfold os in Hf.
      rewrite elem_of_app, elem_of_cons in Hf. rewrite elem_of_app in Hc. naive_solver.
    + intros j t Ht Et. assert (E : subscribed os !! j = Some (ctx t, id)).
      { rewrite <- Hna, list_lookup_fmap, Ht. simpl. unfold naming. by rewrite Et, Ei. }
      rewrite Hos in E. apply lookup_app_Some in E as [E|[Hj E]].
      * destruct Hid. apply list_elem_of_fmap. exists (ctx t, id). split; [done|].
        unfold subscribed. rewrite omap_app. apply elem_of_app. left. by eapply list_elem_of_lookup_2.
      * destruct (j - length (subscribed os1))%nat as [|k] eqn:Ek; [unfold i; lia|]. simpl in E.
        destruct Hid. apply list_elem_of_fmap. exists (ctx t, id). split; [done|].
        unfold subscribed. rewrite omap_app. apply elem_of_app. right. by eapply list_elem_of_lookup_2.
Qed.
End LogBufferProofs.


(** *** A panic

    The sender of the recent entries may find its context finished and its channel
    closed at once; a select between two cases that are ready picks either, and the
    send on the closed channel panics in a goroutine that nothing recovers. *)
(** One entry is logged; a subscriber comes and leaves before it was sent the entry. *)
Theorem sender_can_panic {entry} (e : entry) : exists b,
  run [OAdd e; OSubscribe 0 "api-1"; OCancel 0; OWatch 0] (@NewLogBuffer entry 200) = Some (Next b) /\
  exec (OSend 0) b = Some Crash /\ exists b', exec (ODone 0) b = Some (Next b').
Proof. eexists. split; [by vm_compute|]. split; [done|by eexists]. Qed.

(** A subscriber that reads its recent entry and one that was logged after it came: the
    recent entry came after the newer one. *)
Lemma subscribers_get_all_witness : exists (b : LogBuffer nat) s,
  run ([OAdd 1] ++ OSubscribe 0 "api-1" :: [OAdd 2; OSend 0; ORead 0; ORead 0])%nat (NewLogBuffer 200)
    = Some (Next b) /\
  subs b !! 0%nat = Some s /\ received s = [2; 1]%nat /\ received s ++ buf s ++ pending s ≡ₚ [1; 2]%nat.
Proof.
  destruct (run ([OAdd 1] ++ OSubscribe 0 "api-1" :: [OAdd 2; OSend 0; ORead 0; ORead 0])%nat
    (@NewLogBuffer nat 200)) as [[b|]|] eqn:E; [|vm_compute in E; discriminate..].
  destruct (subscribers_get_all 200 [OAdd 1]%nat 0 "api-1" [OAdd 2; OSend 0; ORead 0; ORead 0]%nat b E)
    as [_ (s & Hs & _ & _ & Hall)].
  exists b, s. split; [reflexivity|]. split; [exact Hs|]. split.
  - vm_compute in E. injection E as <-. vm_compute in Hs. injection Hs as <-. reflexivity.
  - apply Hall.
    + intros H%list_elem_of_In. simpl in H. by destruct H as [H|[H|[H|[H|[H|[]]]]]].
    + vm_compute. intros H. inversion H.
    + apply Nat.leb_le. vm_compute. reflexivity.
Defined.

(** ** [ServerLogHandler]

    It shares the [LogBuffer] with all handlers made from it; [next] is the handler it
    passes the record on to, with what [WithAttrs] and [WithGroup] of that handler do. *)
Section ServerLog.
Context {any handler : Type} (of_string : string -> any)
  (next_WithAttrs : list (string * any) -> handler -> handler)
  (next_WithGroup : string -> handler -> handler)
  (Level_String : Z -> string).

Record ProbeLogEntry : Type := {
  ProbeLogEntry_Timestamp : Time;
  ProbeLogEntry_Message : string;
  ProbeLogEntry_ProxyID : string;
  ProbeLogEntry_Attrs : option (gmap string any)
}.

(** [slog.Record]. *)
Record Record_ : Type := {
  Record_Time : Time;
  Record_Message : string;
  Record_Level : Z;
  Record_Attrs : list (string * any)
}.

Record ServerLogHandler : Type := {
  slh_next : handler;
  slh_attrs : list (string * any);
  slh_groups : list string
}.

Definition NewServerLogHandler (next : handler) : ServerLogHandler := {|
  slh_next := next; slh_attrs := []; slh_groups := [] |}.

Definition setAll (kvs : list (string * any)) (m : gmap string any) : gmap string any :=
  foldl (fun m kv => <[kv.1 := kv.2]> m) m kvs.

(** The entry [Handle] adds. *)
Definition entryOf (h : ServerLogHandler) (r : Record_) : ProbeLogEntry := {|
  ProbeLogEntry_Timestamp := Record_Time r;
  ProbeLogEntry_Message := Record_Message r;
  ProbeLogEntry_ProxyID := EmptyString;
  ProbeLogEntry_Attrs := Some (<["level" := of_string (Level_String (Record_Level r))]>
    (setAll (Record_Attrs r) (setAll (slh_attrs h) ∅))) |}.

Definition Handle (h : ServerLogHandler) (r : Record_) (b : LogBuffer ProbeLogEntry)
  : option (LogBuffer ProbeLogEntry) := Add (entryOf h r) b.

Definition WithAttrs (attrs : list (string * any)) (h : ServerLogHandler)
  : ServerLogHandler := {|
  slh_next := next_WithAttrs attrs (slh_next h); slh_attrs := slh_attrs h ++ attrs;
  slh_groups := slh_groups h |}.

Definition WithGroup (name : string) (h : ServerLogHandler) : ServerLogHandler := {|
  slh_next := next_WithGroup name (slh_next h); slh_attrs := slh_attrs h;
  slh_groups := slh_groups h ++ [name] |}.

Lemma setAll_app kvs1 kvs2 m : setAll (kvs1 ++ kvs2) m = setAll kvs2 (setAll kvs1 m).
Proof. unfold setAll. apply foldl_app. Qed.

(** A logger's own attributes come before those of the record, wherever they were
    added: the entry is the one of a plain handler for a record with all of them; and
    the groups are not in it. *)
Theorem Handle_attrs next r attrs groups :
  let h := foldl (fun h g => WithGroup g h) (foldl (fun h a => WithAttrs a h)
             (NewServerLogHandler next) attrs) groups in
  entryOf h r = entryOf (NewServerLogHandler next) {|
    Record_Time := Record_Time r; Record_Message := Record_Message r;
    Record_Level := Record_Level r; Record_Attrs := concat attrs ++ Record_Attrs r |}.
Proof.
  simpl.
  assert (Hg : forall gs h, slh_attrs (foldl (fun h g => WithGroup g h) h gs) = slh_attrs h).
  { induction gs as [|g gs IH]; intros h; simpl; [done|]. by rewrite IH. }
  assert (Ha : forall l h, slh_attrs (foldl (fun h a => WithAttrs a h) h l) =
                           slh_attrs h ++ concat l).
  { induction l as [|a l IH]; intros h; simpl; [by rewrite app_nil_r|].
    rewrite IH. simpl. by rewrite <- app_assoc. }
  unfold entryOf. rewrite Hg, Ha. simpl. by rewrite setAll_app.
Qed.
End ServerLog.
