(* ===== verification/Proxy.v ===== *)
(** * The proxy: state, sending and receiving

    [proxy.go]: the state of one client connection and what it shares with the
    goroutines that serve it; [send] splits a message into frames, [recv]
    assembles one from frames; choosing the channel of an upstream. *)

From stdpp Require Import pretty.
From S2P Require Import Prelude Bytes Fields MsgBase Methods Frames Wire Errors Broker Config.
From S2P Require Import Pattern Delivery Confirm Upstream.
From S2P Require Import Stats.

(** ** What the proxy runs on *)

(** The client library, the client's connection, the texts of network errors, random
    strings and permutations (numbered by their draws), and Go's choice of a map
    entry. *)
Class Env : Type := {
  env_broker :: Broker;
  conn_Write : list byte -> list byte -> option (nat * ioerr);
  io_text : ioerr -> string;
  generateID : nat -> string;
  rand_Perm : nat -> nat -> list nat;
  anyChannel : gmap Z Handle -> option Handle
}.

(** ** State *)

Record tuned : Type := { channelMax : Z; frameMax : Z; heartbeat : Z }.

(** [confirmStates] holds pointers into the heap of confirm states: the goroutine that
    listens to an upstream has one too. [None] is the nil map. *)
Record Proxy : Type := {
  VirtualHost : string;
  upstreams : list Upstream;
  user : string;
  password : string;
  clientProps : Table;
  confirmStates : option (gmap Z nat);
  shutdownMessage : string;
  p_tuned : tuned
}.

(** The goroutines a handler starts. *)
Inductive goroutine : Type :=
| ListenConfirm (channelID : Z) (upstreamIndex : Z) (cs : nat)
| Consume (channelID : Z) (queue tag : string) (d : delivery).

(** [input] is what the client sends: after a read deadline passed ([ErrTimeout])
    the bytes of [later] arrive. An input that ends with [OutOfFuel] is one that goes on:
    nothing is said of what follows, and a function that gets there is still running
    ([Hang]). A write that does not come back is one that gives this error. *)
Record World : Type := {
  proxy : Proxy;
  wire : Wire;
  input : stream;
  later : list stream;
  w_calls : list Call;
  heap : list confirmState;
  stats : ProxyStats;
  routines : list goroutine;
  draws : nat
}.

Definition set_proxy (f : Proxy -> Proxy) (w : World) : World := {|
  proxy := f (proxy w); wire := wire w; input := input w; later := later w;
  w_calls := w_calls w; heap := heap w; stats := stats w; routines := routines w;
  draws := draws w |}.
Definition set_wire (v : Wire) (w : World) : World := {|
  proxy := proxy w; wire := v; input := input w; later := later w;
  w_calls := w_calls w; heap := heap w; stats := stats w; routines := routines w;
  draws := draws w |}.
Definition set_input (s : stream) (l : list stream) (w : World) : World := {|
  proxy := proxy w; wire := wire w; input := s; later := l;
  w_calls := w_calls w; heap := heap w; stats := stats w; routines := routines w;
  draws := draws w |}.
Definition set_calls (cs : list Call) (w : World) : World := {|
  proxy := proxy w; wire := wire w; input := input w; later := later w;
  w_calls := cs; heap := heap w; stats := stats w; routines := routines w;
  draws := draws w |}.
Definition set_heap (f : list confirmState -> list confirmState) (w : World) : World := {|
  proxy := proxy w; wire := wire w; input := input w; later := later w;
  w_calls := w_calls w; heap := f (heap w); stats := stats w; routines := routines w;
  draws := draws w |}.
Definition set_stats (f : ProxyStats -> ProxyStats) (w : World) : World := {|
  proxy := proxy w; wire := wire w; input := input w; later := later w;
  w_calls := w_calls w; heap := heap w; stats := f (stats w); routines := routines w;
  draws := draws w |}.
Definition spawn (g : goroutine) (w : World) : World := {|
  proxy := proxy w; wire := wire w; input := input w; later := later w;
  w_calls := w_calls w; heap := heap w; stats := stats w; routines := routines w ++ [g];
  draws := draws w |}.
Definition set_draws (n : nat) (w : World) : World := {|
  proxy := proxy w; wire := wire w; input := input w; later := later w;
  w_calls := w_calls w; heap := heap w; stats := stats w; routines := routines w;
  draws := n |}.

Definition set_upstreams (f : list Upstream -> list Upstream) (p : Proxy) : Proxy := {|
  VirtualHost := VirtualHost p; upstreams := f (upstreams p); user := user p;
  password := password p; clientProps := clientProps p; confirmStates := confirmStates p;
  shutdownMessage := shutdownMessage p; p_tuned := p_tuned p |}.
Definition set_confirmStates (m : option (gmap Z nat)) (p : Proxy) : Proxy := {|
  VirtualHost := VirtualHost p; upstreams := upstreams p; user := user p;
  password := password p; clientProps := clientProps p; confirmStates := m;
  shutdownMessage := shutdownMessage p; p_tuned := p_tuned p |}.

Abbreviation M := (stm World goerror).

Section Proxy.
Context `{Env}.

(** An operation of the [Writer] on the client's connection. *)
Definition onWire (m : stm Wire ioerr ()) : M () := fun w =>
  let (r, v) := m (wire w) in
  (match r with Ok a => Ok a | Err e => Err (of_ioerr e) end, set_wire v w).

(** An operation on upstream number [i]. *)
Definition onUpstream {A} (i : nat) (m : upstreamM A) : M A := fun w =>
  match upstreams (proxy w) !! i with
  | None => (Err GoPanic, w)
  | Some u =>
      let (r, s) := m {| us := u; calls := w_calls w |} in
      (r, set_calls (calls s) (set_proxy (set_upstreams <[i := us s]>) w))
  end.

(** A call on a channel of the client library. *)
Definition lib (c : Call) : M (answer c) := fun w =>
  (match respond (w_calls w) c with Ok a => Ok a | Err e => Err (RabbitErr e) end,
   set_calls (w_calls w ++ [c]) w).

(** ** [send] *)

(** A frame written and counted. *)
Definition sendFrame (write : Frame -> stm Wire ioerr ()) (what : string) (frame : Frame)
  : M () :=
  _ ← wrapf ("failed to write " +:+ what) (onWire (write frame));
  modify (set_stats IncrementSentFrames).

(** The loop over the body. A slice whose end lies before its start panics; when
    the fuel runs out the loop has not ended. *)
Fixpoint bodyLoop (fuel : nat) (channel frameMax : Z) (body : list byte) (offset : Z) : M () :=
  if offset <? Z.of_nat (length body) then
    match fuel with
    | O => throw Hang
    | S fuel' =>
        let e := Z.min (offset + frameMax - 8) (Z.of_nat (length body)) in
        if e <? offset then throw GoPanic
        else
          _ ← sendFrame (WriteFrame conn_Write) "BodyFrame" (F_Body {|
                BodyFrame_ChannelId := channel;
                BodyFrame_Body := take (Z.to_nat (e - offset)) (drop (Z.to_nat offset) body) |});
          bodyLoop fuel' channel frameMax body e
    end
  else mret ().

Definition methodFrame (channel : Z) (msg : Method) : Frame := F_Method {|
  MethodFrame_ChannelId := channel; MethodFrame_ClassId := 0; MethodFrame_MethodId := 0;
  MethodFrame_Method := Some msg |}.

Definition headerFrame (channel class : Z) (props : Properties) (body : list byte) : Frame :=
  F_Header {|
    HeaderFrame_ChannelId := channel; HeaderFrame_ClassId := class; HeaderFrame_weight := 0;
    HeaderFrame_Size := Z.of_nat (length body); HeaderFrame_Properties := props |}.

Definition send (channel : Z) (m : Method) : M () :=
  match Method_GetContent m with
  | Some (props, body) =>
      _ ← sendFrame (WriteFrameNoFlush conn_Write) "MethodFrame" (methodFrame channel m);
      _ ← sendFrame (WriteFrameNoFlush conn_Write) "HeaderFrame"
            (headerFrame channel (Method_ID m).1 props body);
      frameMax ← gets (fun w => frameMax (p_tuned (proxy w)));
      bodyLoop (length body) channel frameMax body 0
  | None => sendFrame (WriteFrame conn_Write) "MethodFrame" (methodFrame channel m)
  end.

(** ** [recv] *)

(** [readClientFrame]: a frame before the deadline, or an error. *)
Definition readClientFrame : M Frame := fun w =>
  let (r, s) := ReadFrame (input w) in
  match r with
  | Ok frame => (Ok frame, set_input s (later w) w)
  | Err e =>
      (Err (of_ioerr e),
       match decide (e = ErrTimeout), later w with
       | left _, s' :: l => set_input s' l w
       | _, l => set_input s l w
       end)
  end.

(** [m.(amqp091.MessageWithContent).SetContent(props, body)]. *)
Definition setContent (m : Method) (props : Properties) (body : list byte) : M Method :=
  match Method_SetContent m props body with Some m' => mret m' | None => throw GoPanic end.

(** The loop of [recvWithTimeout]. *)
Fixpoint recvLoop (fuel : nat) (channel : Z) (m : Method) (remaining : Z)
  (header : option HeaderFrame) (body : list byte) : M Method :=
  match fuel with
  | O => throw Hang
  | S fuel' =>
      frame ← wrapf "frame err, read" readClientFrame;
      if negb (Channel frame =? uwrap 16 channel) then
        throw (Errorf ("expected frame on channel " +:+ pretty channel +:+
                       ", got channel " +:+ pretty (Channel frame)))
      else
        match frame with
        | F_Heartbeat _ => recvLoop fuel' channel m remaining header body
        | F_Header f =>
            let remaining := swrap 64 (HeaderFrame_Size f) in
            if remaining =? 0 then setContent m (HeaderFrame_Properties f) []
            else recvLoop fuel' channel m remaining (Some f) body
        | F_Body f =>
            let body := body ++ BodyFrame_Body f in
            let remaining := swrap 64 (remaining - Z.of_nat (length (BodyFrame_Body f))) in
            if remaining <=? 0 then
              match header with
              | Some h => setContent m (HeaderFrame_Properties h) body
              | None => throw GoPanic
              end
            else recvLoop fuel' channel m remaining header body
        | F_Method f =>
            match MethodFrame_Method f with
            | Some have =>
                if String.eqb (struct_name m) (struct_name have) then
                  match Method_GetContent have with
                  | None => mret have
                  | Some _ => recvLoop fuel' channel have remaining header body
                  end
                else throw (Errorf ("expected method type: " +:+ type_string (struct_name m) +:+
                                    ", got: " +:+ type_string (struct_name have)))
            | None => throw GoPanic
            end
        end
  end.

(** Every turn takes bytes off the input: their number is enough fuel. *)
Definition recv (channel : Z) (m : Method) : M Method := fun w =>
  recvLoop (S (length (data (input w)))) channel m 0 None [] w.

(** ** Channels *)

(** [us.String()] of upstream [i], for error messages. *)
Definition us_name (w : World) (i : nat) : string :=
  match upstreams (proxy w) !! i with Some u => Upstream_name u | None => EmptyString end.

Definition wrapUs {A} (text : string) (i : nat) (m : M A) : M A := fun w =>
  wrapf (text +:+ " on upstream " +:+ us_name w i) m w.

Definition indices (w : World) : list nat := seq 0 (length (upstreams (proxy w))).

Fixpoint getChannels (id : Z) (ns : list nat) : M (list Handle) :=
  match ns with
  | [] => mret []
  | i :: ns' =>
      ch ← wrapUs ("failed to get channel " +:+ pretty id) i
             (onUpstream i (Upstream.GetChannel id));
      chs ← getChannels id ns';
      mret (ch :: chs)
  end.

Definition GetChannels (id : Z) : M (list Handle) :=
  ns ← gets indices; getChannels id ns.

Definition matches (routingKey : string) (u : Upstream) : bool :=
  existsb (Match routingKey) (Upstream_keyPatterns u).

(** [GetChannel]: the upstream that matches last, else the first one. *)
Definition GetChannel (id : Z) (routingKey : string) : M Handle :=
  uss ← gets (fun w => upstreams (proxy w));
  let routed := foldl (fun acc iu => if matches routingKey iu.2 then iu.1 else acc) 0%nat
                  (imap pair uss) in
  onUpstream routed (Upstream.GetChannel id).

(** [GetChannelWithIndex]: the first upstream that matches, else the first one. *)
Definition route (routingKey : string) (uss : list Upstream) : nat :=
  match list_find (fun u => matches routingKey u = true) uss with
  | Some (i, _) => i
  | None => 0%nat
  end.

Definition GetChannelWithIndex (id : Z) (routingKey : string) : M (Handle * nat) :=
  i ← gets (fun w => route routingKey (upstreams (proxy w)));
  ch ← onUpstream i (Upstream.GetChannel id);
  mret (ch, i).

Definition NewChannel (id : Z) : M () :=
  ns ← gets indices;
  forM ns (fun i => _ ← wrapUs "failed to create channel" i
    (onUpstream i (Upstream.NewChannel id)); mret ()).

Definition CloseChannel (id : Z) : M () :=
  ns ← gets indices;
  forM ns (fun i => wrapUs "failed to close channel" i
    (onUpstream i (Upstream.CloseChannel id))).

(** Errors are logged; the next upstream is closed all the same. *)
Definition closeOne (i : nat) : M () := fun w =>
  match onUpstream i (Upstream.Close anyChannel) w with
  | (Err e, w') => if is_panic e then (Err e, w') else (Ok (), w')
  | r => r
  end.

Definition Close : M () := ns ← gets indices; forM ns closeOne.
End Proxy.

(** ** A concrete proxy

    Everything is accepted; random choices are constant. *)

Definition acceptingEnv : Env := {|
  env_broker := acceptingBroker;
  conn_Write _ _ := None;
  io_text _ := "i/o error"%string;
  generateID n := pretty n;
  rand_Perm _ n := seq 0 n;
  anyChannel m := snd <$> head (map_to_list m)
|}.

(** Two upstreams that have channel 1, which is in confirm mode. *)
Definition sampleProxy (max : Z) : Proxy := {|
  VirtualHost := "/";
  upstreams := [sampleUpstream "primary" false true; sampleUpstream "secondary" false true];
  user := "guest"; password := "guest"; clientProps := None;
  confirmStates := Some {[ 1 := 0%nat ]}; shutdownMessage := "bye";
  p_tuned := {| channelMax := 1023; frameMax := max; heartbeat := 60 |} |}.

Definition sampleWorld (max : Z) (bs : list byte) (e : ioerr) : World := {|
  proxy := sampleProxy max; wire := NewWriter; input := Stream bs e; later := [Stream [] EOF];
  w_calls := []; heap := [newConfirmState];
  stats := NewProxyStats zeroTime;
  routines := []; draws := 0 |}.
