(* ===== verification/Transfer.v ===== *)
(** * Sending and receiving messages: proofs

    What [send] and [recv] of [Proxy] do, against the list of frames that a message
    is: method, and for a message with content header and body frames. *)

From stdpp Require Import pretty.
From S2P Require Import Prelude Bytes Fields MsgBase MsgBasic Methods Frames Wire Errors Broker.
From S2P Require Import Config Pattern Delivery Confirm Upstream Proxy.
From S2P Require Import Stats.

#[local] Arguments Frame_Write : simpl never.

(** ** The frames of a message *)

(** [body] cut into pieces of [k] bytes, the last one shorter. *)
Fixpoint chunks (fuel k : nat) (body : list byte) : list (list byte) :=
  match fuel, body with
  | O, _ | _, [] => []
  | S fuel', _ => take k body :: chunks fuel' k (drop k body)
  end.

Definition bodyFrame (channel : Z) (piece : list byte) : Frame :=
  F_Body {| BodyFrame_ChannelId := channel; BodyFrame_Body := piece |}.

Definition bodyFrames (channel frameMax : Z) (body : list byte) : list Frame :=
  map (bodyFrame channel) (chunks (length body) (Z.to_nat (frameMax - 8)) body).

Definition messageFrames (channel frameMax : Z) (m : Method) : list Frame :=
  match Method_GetContent m with
  | Some (props, body) =>
      methodFrame channel m :: headerFrame channel (Method_ID m).1 props body
      :: bodyFrames channel frameMax body
  | None => [methodFrame channel m]
  end.

(** The bytes of a list of frames. *)
Definition frames_bytes (frames : list Frame) : result ioerr (list byte) :=
  (fun bss => concat bss) <$> trav Frame_Write frames.

Lemma chunks_concat fuel k body :
  (0 < k)%nat -> (length body <= fuel)%nat -> concat (chunks fuel k body) = body.
Proof.
  intros Hk. revert body. induction fuel as [|fuel IH]; intros body Hl.
  - by destruct body; simpl in *; [|lia].
  - destruct body as [|b body]; [done|]. cbn [chunks concat].
    rewrite IH; [apply take_drop|]. rewrite length_drop. simpl in *. lia.
Qed.

Lemma chunks_sizes fuel k body :
  (0 < k)%nat -> Forall (fun c => 1 <= length c <= k)%nat (chunks fuel k body).
Proof.
  intros Hk. revert body. induction fuel as [|fuel IH]; intros body; [constructor|].
  destruct body as [|b body]; [constructor|]. cbn [chunks]. constructor; [|done].
  rewrite length_take. simpl. lia.
Qed.

Lemma frames_bytes_cons f fs bs :
  frames_bytes (f :: fs) = Ok bs <->
  exists b1 b2, Frame_Write f = Ok b1 /\ frames_bytes fs = Ok b2 /\ bs = b1 ++ b2.
Proof.
  unfold frames_bytes. cbn [trav]. split.
  - destruct (Frame_Write f) as [b1|]; [|done]. simpl. destruct (trav Frame_Write fs); [|done].
    simpl. intros [= <-]. eauto 6.
  - intros (b1 & b2 & -> & E & ->). simpl. destruct (trav Frame_Write fs); [|done].
    simpl in *. by injection E as [= ->].
Qed.

Lemma bodyFrame_bytes channel piece :
  Frame_Write (bodyFrame channel piece) =
  Ok (frame_header frameBody channel (uwrap 32 (Z.of_nat (length piece))) ++ piece
      ++ [byte_of_Z frameEnd]).
Proof. unfold Frame_Write, flat. simpl. by rewrite app_nil_r. Qed.

Lemma bodyFrame_length channel piece bs :
  Frame_Write (bodyFrame channel piece) = Ok bs -> length bs = (8 + length piece)%nat.
Proof. rewrite bodyFrame_bytes. intros [= <-]. simpl. rewrite length_app. simpl. lia. Qed.

Lemma bodyFrames_encodable channel pieces :
  exists bs, frames_bytes (map (bodyFrame channel) pieces) = Ok bs.
Proof.
  induction pieces as [|p ps [bs IH]]; [by exists []|].
  eexists. cbn [map]. apply frames_bytes_cons. do 2 eexists. split; [apply bodyFrame_bytes|done].
Qed.

(** ** [send] writes the frames *)

Section Send.
Context `{Env}.

(** The negotiated frame size. *)
Context (fm : Z).

(** [sends bs n m]: started with a writer without error, [m] only changes the wire
    and the frame counter; if it succeeds it has put the bytes [bs] of [n] frames on
    their way, if it fails the client got a prefix of them and the writer keeps an
    error. *)
Definition sends (bs : list byte) (n : nat) (m : M ()) : Prop :=
  forall w, werr (wire w) = None -> frameMax (p_tuned (proxy w)) = fm ->
  exists r v k,
    m w = (r, set_stats (Nat.iter k IncrementSentFrames) (set_wire v w)) /\
    sent (wire w) `prefix_of` sent v /\
    sent v `prefix_of` sent (wire w) ++ wbuf (wire w) ++ bs /\
    match r with
    | Ok _ => k = n /\ werr v = None /\
              sent v ++ wbuf v = sent (wire w) ++ wbuf (wire w) ++ bs
    | Err _ => werr v <> None
    end.

Lemma set_wire_twice k1 k2 v1 v2 w :
  set_stats (Nat.iter k2 IncrementSentFrames)
    (set_wire v2 (set_stats (Nat.iter k1 IncrementSentFrames) (set_wire v1 w)))
  = set_stats (Nat.iter (k2 + k1) IncrementSentFrames) (set_wire v2 w).
Proof. unfold set_stats, set_wire. simpl. by rewrite Nat.iter_add. Qed.

Lemma set_wire_id w : set_stats (Nat.iter 0 IncrementSentFrames) (set_wire (wire w) w) = w.
Proof. by destruct w. Qed.

Lemma sends_ret : sends [] 0 (mret ()).
Proof.
  intros w Hw _. exists (Ok ()), (wire w), 0%nat. rewrite set_wire_id, app_nil_r.
  split_and!; [done..|by apply prefix_app_r|done|done|done].
Qed.

Lemma sends_seq b1 b2 n1 n2 (m1 m2 : M ()) :
  sends b1 n1 m1 -> sends b2 n2 m2 -> sends (b1 ++ b2) (n1 + n2) (_ ← m1; m2).
Proof.
  intros H1 H2 w Hw Hfm. destruct (H1 w Hw Hfm) as (r1 & v1 & k1 & E1 & P1 & Q1 & R1).
  unfold mbind, stm_bind. rewrite E1. destruct r1 as [[]|e].
  - destruct R1 as (-> & Hv1 & R1).
    destruct (H2 (set_stats (Nat.iter n1 IncrementSentFrames) (set_wire v1 w)) Hv1 Hfm)
      as (r2 & v2 & k2 & E2 & P2 & Q2 & R2). simpl in P2, Q2, R2.
    exists r2, v2, (k2 + n1)%nat. rewrite E2, set_wire_twice.
    rewrite !app_assoc in *. rewrite R1 in Q2, R2.
    split_and!; [done|by transitivity (sent v1)|done|].
    destruct r2; [|done]. destruct R2 as (-> & ? & ?). split_and!; [lia|done..].
  - exists (Err e), v1, k1. split_and!; [done..| |done].
    rewrite !app_assoc in *. by apply prefix_app_r.
Qed.

Lemma sends_frame write what frame bs :
  pushes bs (write frame) -> sends bs 1 (sendFrame write what frame).
Proof.
  intros Hp w Hw _. unfold sendFrame, wrapf, wrap, onWire, mbind, stm_bind.
  specialize (Hp (wire w) Hw) as (P1 & P2 & P3).
  destruct (write frame (wire w)) as [[[]|e] v] eqn:E; simpl in *.
  - exists (Ok ()), v, 1%nat. split_and!; [done..|by destruct P3|by destruct P3].
  - eexists (Err _), v, 0%nat. split_and!; [done..|congruence].
Qed.

Lemma bodyLoop_sends fuel channel body offset bs :
  8 < fm -> 0 <= offset <= Z.of_nat (length body) ->
  Z.of_nat (length body) - offset <= Z.of_nat fuel ->
  let pieces := chunks fuel (Z.to_nat (fm - 8)) (drop (Z.to_nat offset) body) in
  frames_bytes (map (bodyFrame channel) pieces) = Ok bs ->
  sends bs (length pieces) (bodyLoop fuel channel fm body offset).
Proof.
  intros Hfm. revert offset bs. induction fuel as [|fuel IH]; intros offset bs Ho Hf;
    cbv zeta; cbn [bodyLoop].
  - rewrite (proj2 (Z.ltb_ge _ _)) by lia. intros [= <-]. apply sends_ret.
  - destruct (Z.ltb_spec offset (Z.of_nat (length body))) as [Hlt|Hge].
    2: { rewrite drop_ge by lia. intros [= <-]. apply sends_ret. }
    set (e := Z.min (offset + fm - 8) (Z.of_nat (length body))).
    rewrite (proj2 (Z.ltb_ge e offset)) by lia.
    destruct (drop (Z.to_nat offset) body) as [|b rest] eqn:Ed.
    { apply (f_equal length) in Ed. rewrite length_drop in Ed. simpl in Ed. lia. }
    cbn [chunks]. rewrite <- Ed. cbn [map length].
    intros (b1 & b2 & E1 & E2 & ->)%frames_bytes_cons.
    apply (sends_seq b1 b2 1).
    + apply sends_frame, pushes_WriteFrame. rewrite <- E1. unfold bodyFrame.
      enough (Ep : take (Z.to_nat (e - offset)) (drop (Z.to_nat offset) body) =
                   take (Z.to_nat (fm - 8)) (drop (Z.to_nat offset) body)) by (by rewrite Ep).
      destruct (Z.le_gt_cases (offset + fm - 8) (Z.of_nat (length body))).
      * f_equal. lia.
      * rewrite !take_ge; [done|rewrite length_drop; lia..].
    + destruct (Z.le_gt_cases (offset + fm - 8) (Z.of_nat (length body))).
      * replace (drop (Z.to_nat (fm - 8)) (drop (Z.to_nat offset) body))
          with (drop (Z.to_nat e) body) in * by (rewrite drop_drop; f_equal; lia).
        apply IH; [lia..|done].
      * assert (Ee : drop (Z.to_nat (fm - 8)) (drop (Z.to_nat offset) body)
                     = drop (Z.to_nat e) body).
        { rewrite drop_drop, !drop_ge by lia. done. }
        rewrite Ee in *. apply IH; [lia..|done].
Qed.

Lemma send_sends channel m bs :
  8 < fm -> frames_bytes (messageFrames channel fm m) = Ok bs ->
  sends bs (length (messageFrames channel fm m)) (send channel m).
Proof.
  intros Hfm. unfold messageFrames, send.
  destruct (Method_GetContent m) as [[props body]|].
  - intros (b1 & b2 & E1 & E2 & ->)%frames_bytes_cons.
    apply frames_bytes_cons in E2 as (b3 & b4 & E2 & E3 & ->).
    cbn [length]. unfold bodyFrames in E3 |- *. rewrite length_map.
    apply (sends_seq b1 (b3 ++ b4) 1 (S _)); [by apply sends_frame, pushes_NoFlush|].
    apply (sends_seq b3 b4 1); [by apply sends_frame, pushes_NoFlush|].
    intros w Hw E. unfold gets, mbind, stm_bind. rewrite E. revert w Hw E.
    by apply bodyLoop_sends; [|lia|lia|].
  - intros (b1 & b2 & E1 & [= <-] & ->)%frames_bytes_cons. rewrite app_nil_r.
    by apply sends_frame, pushes_WriteFrame.
Qed.

(** A frame written with [WriteFrame] leaves nothing in the buffer. *)
Lemma sendFrame_flushes what frame w w' :
  sendFrame (WriteFrame conn_Write) what frame w = (Ok (), w') -> wbuf (wire w') = [].
Proof.
  unfold sendFrame, wrapf, wrap, onWire, mbind, stm_bind.
  destruct (WriteFrame conn_Write frame (wire w)) as [[[]|e] v] eqn:E; [|done].
  intros [= <-]. by apply WriteFrame_flushes in E.
Qed.

Lemma sendFrame_proxy write what frame w : proxy (sendFrame write what frame w).2 = proxy w.
Proof.
  unfold sendFrame, wrapf, wrap, onWire, mbind, stm_bind.
  by destruct (write frame (wire w)) as [[[]|?] ?].
Qed.

Lemma bodyLoop_flushes fuel channel body offset w w' :
  0 <= offset < Z.of_nat (length body) ->
  bodyLoop fuel channel fm body offset w = (Ok (), w') -> wbuf (wire w') = [].
Proof.
  revert offset w. induction fuel as [|fuel IH]; intros offset w Ho; cbn [bodyLoop];
    rewrite (proj2 (Z.ltb_lt _ _)) by lia; [done|].
  set (e := Z.min (offset + fm - 8) (Z.of_nat (length body))).
  destruct (Z.ltb_spec e offset); [done|].
  unfold mbind at 1, stm_bind at 1.
  destruct (sendFrame _ _ _ w) as [[[]|?] w1] eqn:E; [|done].
  apply sendFrame_flushes in E.
  destruct (decide (e < Z.of_nat (length body))); [apply IH; lia|].
  destruct fuel; cbn [bodyLoop]; rewrite (proj2 (Z.ltb_ge _ _)) by lia;
    by intros [= <-].
Qed.
End Send.

(** A message without content, on a connection that takes everything. *)
Lemma send_plain `{Env} channel m w bs :
  (forall s p, conn_Write s p = None) -> Method_GetContent m = None ->
  werr (wire w) = None -> Frame_Write (methodFrame channel m) = Ok bs ->
  exists v, send channel m w = (Ok (), set_stats IncrementSentFrames (set_wire v w)) /\
    werr v = None /\ wbuf v = [] /\ sent v = sent (wire w) ++ wbuf (wire w) ++ bs.
Proof.
  intros Ha Hc Hw Hbs. unfold send. rewrite Hc.
  pose proof (pushes_WriteFrame conn_Write _ _ Hbs (wire w) Hw) as (_ & _ & P).
  pose proof (proj1 (accepting_keeps conn_Write (methodFrame channel m) Ha) (wire w) Hw) as K.
  unfold sendFrame, wrapf, wrap, onWire, mbind, stm_bind.
  destruct (WriteFrame conn_Write (methodFrame channel m) (wire w)) as [[[]|e] v] eqn:E;
    simpl in K; [|congruence].
  destruct P as [_ P]. pose proof (WriteFrame_flushes _ _ _ _ E) as F.
  rewrite F, app_nil_r in P. exists v. done.
Qed.

(** Sending changes the wire and the counters and nothing else. *)
Definition frame_of (w : World) : Proxy * stream * list stream * list Call * list confirmState
    * list goroutine * nat :=
  (proxy w, input w, later w, w_calls w, heap w, routines w, draws w).

Section SendTheorems.
Context `{Env}.

Lemma keeps_sendFrame fr write what frame :
  keeps (fun w => frame_of w = fr) (sendFrame write what frame).
Proof.
  apply keeps_bind; [|intros []; by apply keeps_modify]. apply keeps_wrap.
  intros w Hw. unfold onWire. by destruct (write frame (wire w)).
Qed.

Lemma send_keeps fr channel m : keeps (fun w => frame_of w = fr) (send channel m).
Proof.
  unfold send. destruct (Method_GetContent m) as [[props body]|]; [|apply keeps_sendFrame].
  do 2 (apply keeps_bind; [apply keeps_sendFrame|intros []]).
  apply keeps_bind; [apply keeps_gets|]. intros fm.
  generalize (length body) as fuel, 0 as offset. intros fuel.
  induction fuel as [|fuel IH]; intros offset; cbn [bodyLoop]; case_match;
    auto with keeps; case_match; auto using keeps_sendFrame with keeps.
Qed.

Lemma send_frame_of channel m w : frame_of (send channel m w).2 = frame_of w.
Proof. by apply (send_keeps (frame_of w)). Qed.

(** C2: with a negotiated frame size above 8, [send] of a message that can be
    encoded puts exactly its frames on their way, in order: the method frame and,
    for a message with content, a header frame with the size of the body and body
    frames of at most the negotiated size that together are the body. On success each
    is counted; on failure the client got a prefix of them; nothing but the wire and the
    frame counter changes. *)
Theorem send_frames channel m w bs :
  let fm := frameMax (p_tuned (proxy w)) in
  8 < fm -> werr (wire w) = None -> frames_bytes (messageFrames channel fm m) = Ok bs ->
  exists r v k,
    send channel m w = (r, set_stats (Nat.iter k IncrementSentFrames) (set_wire v w)) /\
    sent v `prefix_of` sent (wire w) ++ wbuf (wire w) ++ bs /\
    match r with
    | Ok _ => k = length (messageFrames channel fm m) /\ werr v = None /\
              sent v ++ wbuf v = sent (wire w) ++ wbuf (wire w) ++ bs
    | Err _ => werr v <> None
    end /\
    forall props body, Method_GetContent m = Some (props, body) ->
    exists pieces,
      messageFrames channel fm m =
        methodFrame channel m :: headerFrame channel (Method_ID m).1 props body
        :: map (bodyFrame channel) pieces /\
      concat pieces = body /\
      Forall (fun piece => forall b, Frame_Write (bodyFrame channel piece) = Ok b ->
        9 <= Z.of_nat (length b) <= fm) pieces.
Proof.
  cbv zeta. intros Hfm Hw Hbs.
  destruct (send_sends _ channel m bs Hfm Hbs w Hw eq_refl) as (r & v & k & E & _ & Q & R).
  exists r, v, k. split_and!; [done..|]. intros props body Hc.
  unfold messageFrames. rewrite Hc. eexists. split; [reflexivity|]. split.
  - apply chunks_concat; lia.
  - eapply Forall_impl; [apply chunks_sizes; lia|]. cbv beta.
    intros piece Hp b Hb%bodyFrame_length.
    lia.
Qed.

(** When [send] of a message without content, or with a body that is not
    empty, succeeds, nothing is left in the buffer: the client has it all. *)
Theorem send_flushes channel m w w' :
  8 < frameMax (p_tuned (proxy w)) -> werr (wire w) = None ->
  is_ok (frames_bytes (messageFrames channel (frameMax (p_tuned (proxy w))) m)) = true ->
  match Method_GetContent m with Some (_, body) => body <> [] | None => True end ->
  send channel m w = (Ok (), w') -> wbuf (wire w') = [].
Proof.
  intros Hfm Hw Hbs Hc. unfold send, messageFrames in *.
  destruct (Method_GetContent m) as [[props body]|]; [|apply sendFrame_flushes].
  unfold mbind, stm_bind. destruct (sendFrame _ _ _ w) as [[[]|?] w1] eqn:E1; [|done].
  destruct (sendFrame _ _ _ w1) as [[[]|?] w2] eqn:E2; [|done]. simpl.
  apply bodyLoop_flushes. destruct body; [done|]. simpl. lia.
Qed.

(** A message with content and an empty body stays in the buffer: [send]
    reports success and the client receives nothing, until something else is sent. *)
Theorem send_empty_body channel m w props bs :
  Method_GetContent m = Some (props, []) -> werr (wire w) = None ->
  frames_bytes (messageFrames channel (frameMax (p_tuned (proxy w))) m) = Ok bs ->
  (length (wbuf (wire w)) + length bs <= bufSize)%nat ->
  exists w', send channel m w = (Ok (), w') /\
    sent (wire w') = sent (wire w) /\ wbuf (wire w') = wbuf (wire w) ++ bs.
Proof.
  intros Hc Hw. unfold messageFrames, send. rewrite Hc.
  intros (b1 & b2 & E1 & E2 & ->)%frames_bytes_cons Hl.
  apply frames_bytes_cons in E2 as (b3 & b4 & E2 & [= <-] & ->).
  rewrite app_nil_r, length_app in *.
  unfold sendFrame, wrapf, wrap, onWire, mbind, stm_bind.
  erewrite NoFlush_fits by (done || lia). simpl.
  erewrite NoFlush_fits; [|done|done|simpl; rewrite length_app; lia]. simpl.
  eexists. split; [done|]. simpl. by rewrite app_assoc.
Qed.

(** When the properties of a message cannot be encoded, as the header tables of
    the client library that hold a nested table, [send] fails after its method frame
    went to the buffer: the client will see a method frame without its header. *)
Theorem send_unencodable channel m w props body e b1 :
  Method_GetContent m = Some (props, body) -> werr (wire w) = None ->
  Frame_Write (methodFrame channel m) = Ok b1 ->
  (length (wbuf (wire w)) + length b1 <= bufSize)%nat ->
  Frame_Writes (headerFrame channel (Method_ID m).1 props body) = Err e ->
  exists w', (exists e', send channel m w = (Err e', w')) /\
    sent (wire w') ++ wbuf (wire w') = sent (wire w) ++ wbuf (wire w) ++ b1 /\
    werr (wire w') = None.
Proof.
  intros Hc Hw E1 Hl E2. unfold send. rewrite Hc.
  unfold sendFrame, wrapf, wrap, onWire, mbind, stm_bind.
  erewrite NoFlush_fits by (done || lia). simpl.
  rewrite (WriteFrameNoFlush_unencodable _ _ _ _ E2). simpl.
  eexists. split; [by eexists|]. done.
Qed.

(** With a negotiated frame size of at most 8, which the handshake does not
    refuse, [send] of a message with a body never returns success: it panics, or
    writes empty body frames without end. *)
Theorem send_tiny_frames channel m w props body :
  frameMax (p_tuned (proxy w)) <= 8 ->
  Method_GetContent m = Some (props, body) -> body <> [] ->
  (send channel m w).1 <> Ok ().
Proof.
  intros Hfm Hc Hb. unfold send. rewrite Hc.
  assert (Hloop : forall fuel w', (bodyLoop fuel channel (frameMax (p_tuned (proxy w))) body 0 w').1
    <> Ok ()).
  { intros fuel. induction fuel as [|fuel IH]; intros w'; cbn [bodyLoop].
    all: rewrite (proj2 (Z.ltb_lt _ _)) by (destruct body; [done|simpl; lia]).
    { done. }
    case_match eqn:He; [done|]. apply Z.ltb_ge in He.
    unfold mbind, stm_bind. destruct (sendFrame _ _ _ w') as [[[]|?] w1]; [|done].
    replace (Z.min _ _) with 0 by lia. apply IH. }
  unfold mbind, stm_bind.
  destruct (sendFrame _ _ _ w) as [[[]|?] w1] eqn:E1; [|done].
  destruct (sendFrame _ _ _ w1) as [[[]|?] w2] eqn:E2; [|done].
  pose proof (sendFrame_proxy (WriteFrameNoFlush conn_Write) "MethodFrame"
    (methodFrame channel m) w) as P1. rewrite E1 in P1.
  pose proof (sendFrame_proxy (WriteFrameNoFlush conn_Write) "HeaderFrame"
    (headerFrame channel (Method_ID m).1 props body) w1) as P2. rewrite E2 in P2.
  simpl in P1, P2.
  unfold gets. rewrite P2, P1. apply Hloop.
Qed.
End SendTheorems.

(** ** [recv] assembles the message *)

Section Recv.
Context `{Env}.

Definition with_input (rest : list byte) (w : World) : World :=
  set_input (Stream rest (fin (input w))) (later w) w.

Lemma with_input_twice r1 r2 w : with_input r1 (with_input r2 w) = with_input r1 w.
Proof. done. Qed.

Lemma readClientFrame_reads frame bs rest w :
  Frame_wf frame = true -> Frame_Write frame = Ok bs -> data (input w) = bs ++ rest ->
  readClientFrame w = (Ok (Frame_canon frame), with_input rest w).
Proof.
  intros Hwf Hbs Hd. unfold readClientFrame, with_input.
  pose proof (rt_Frame frame Hwf bs Hbs rest (fin (input w))) as R.
  destruct (input w) as [d f]. simpl in *. subst d. by rewrite R.
Qed.

(** One turn of the loop. *)
Lemma recvLoop_step fuel channel m remaining header body frame bs rest w :
  Frame_wf frame = true -> Frame_Write frame = Ok bs -> data (input w) = bs ++ rest ->
  recvLoop (S fuel) channel m remaining header body w =
  (if negb (Channel (Frame_canon frame) =? uwrap 16 channel) then
     throw (Errorf ("expected frame on channel " +:+ pretty channel +:+
                    ", got channel " +:+ pretty (Channel (Frame_canon frame))))
   else
     match Frame_canon frame with
     | F_Heartbeat _ => recvLoop fuel channel m remaining header body
     | F_Header f =>
         let remaining := swrap 64 (HeaderFrame_Size f) in
         if remaining =? 0 then setContent m (HeaderFrame_Properties f) []
         else recvLoop fuel channel m remaining (Some f) body
     | F_Body f =>
         let body := body ++ BodyFrame_Body f in
         let remaining := swrap 64 (remaining - Z.of_nat (length (BodyFrame_Body f))) in
         if remaining <=? 0 then
           match header with
           | Some h => setContent m (HeaderFrame_Properties h) body
           | None => throw GoPanic
           end
         else recvLoop fuel channel m remaining header body
     | F_Method f =>
         match MethodFrame_Method f with
         | Some have =>
             if String.eqb (struct_name m) (struct_name have) then
               match Method_GetContent have with
               | None => mret have
               | Some _ => recvLoop fuel channel have remaining header body
               end
             else throw (Errorf ("expected method type: " +:+ type_string (struct_name m) +:+
                                 ", got: " +:+ type_string (struct_name have)))
         | None => throw GoPanic
         end
     end) (with_input rest w).
Proof.
  intros Hwf Hbs Hd. cbn [recvLoop]. unfold wrapf, wrap, mbind at 1, stm_bind at 1.
  by rewrite (readClientFrame_reads frame bs rest w Hwf Hbs Hd).
Qed.

Lemma setContent_eq m props body w :
  setContent m props body w =
  (match Method_SetContent m props body with Some m' => Ok m' | None => Err GoPanic end, w).
Proof. unfold setContent. by destruct (Method_SetContent m props body). Qed.

Lemma recvLoop_bodies pieces fuel channel m h body bs rest w :
  in_uint 16 channel = true ->
  Forall (fun p => 1 <= Z.of_nat (length p) < 2 ^ 32) pieces -> pieces <> [] ->
  Z.of_nat (length (concat pieces)) < 2 ^ 63 ->
  frames_bytes (map (bodyFrame channel) pieces) = Ok bs ->
  data (input w) = bs ++ rest -> (length pieces <= fuel)%nat ->
  recvLoop fuel channel m (Z.of_nat (length (concat pieces))) (Some h) body w =
  setContent m (HeaderFrame_Properties h) (body ++ concat pieces) (with_input rest w).
Proof.
  intros Hch. revert fuel body bs w.
  induction pieces as [|p ps IH]; intros fuel body bs w Hs Hne Hb E Hd Hf; [done|].
  destruct fuel as [|fuel]; [simpl in Hf; lia|].
  apply Forall_cons in Hs as [Hp Hs]. cbn [map] in E.
  apply frames_bytes_cons in E as (b1 & b2 & E1 & E2 & ->). rewrite <- app_assoc in Hd.
  assert (Hwf : Frame_wf (bodyFrame channel p) = true).
  { unfold Frame_wf. simpl. rewrite Hch. simpl. apply in_uint_spec. lia. }
  rewrite (recvLoop_step _ _ _ _ _ _ _ _ _ _ Hwf E1 Hd).
  cbn [Frame_canon bodyFrame Channel BodyFrame_ChannelId BodyFrame_Body].
  rewrite uwrap_small, Z.eqb_refl by done. cbn [negb concat]. cbv zeta.
  cbn [concat] in Hb. rewrite length_app in *.
  replace (Z.of_nat (length p + length (concat ps)) - Z.of_nat (length p))
    with (Z.of_nat (length (concat ps))) by lia.
  rewrite swrap_small by (lia || (apply in_int_spec; lia)).
  destruct ps as [|p' ps].
  - injection E2 as [= <-]. simpl. by rewrite app_nil_r.
  - rewrite (proj2 (Z.leb_gt _ _)).
    2: { apply Forall_cons in Hs as [Hp' _]. cbn [concat]. rewrite length_app. lia. }
    rewrite (IH fuel _ b2) by (done || lia || (simpl in *; lia)).
    by rewrite app_assoc.
Qed.

(** What the receiver makes of a message. *)
Definition received (m : Method) : option Method :=
  match Method_GetContent m with
  | Some (props, body) => Method_SetContent (Method_canon m) (Properties_canon props) body
  | None => Some (Method_canon m)
  end.

Lemma struct_name_canon m : struct_name (Method_canon m) = struct_name m.
Proof. by destruct m. Qed.

Lemma GetContent_canon m :
  match Method_GetContent (Method_canon m), Method_GetContent m with
  | Some _, Some _ | None, None => True | _, _ => False
  end.
Proof. by destruct m. Qed.

Lemma SetContent_received m props body :
  Method_GetContent m = Some (props, body) ->
  exists m', received m = Some m' /\
    Method_SetContent (Method_canon m) (Properties_canon props) body = Some m'.
Proof. intros E. unfold received. rewrite E. destruct m; try discriminate; simpl; eauto. Qed.

Lemma frames_bytes_length frames bs :
  frames_bytes frames = Ok bs -> Forall (fun f => forall b, Frame_Write f = Ok b -> b <> []) frames ->
  (length frames <= length bs)%nat.
Proof.
  revert bs. induction frames as [|f fs IH]; intros bs; [simpl; lia|].
  intros (b1 & b2 & E1 & E2 & ->)%frames_bytes_cons [Hf Hfs]%Forall_cons.
  specialize (Hf b1 E1). specialize (IH b2 E2 Hfs). rewrite length_app. simpl.
  destruct b1; [done|]. simpl. lia.
Qed.

Lemma Frame_Write_nonempty frame b : Frame_Write frame = Ok b -> b <> [].
Proof.
  unfold Frame_Write, flat. destruct frame as [f|f|f|f]; simpl.
  - unfold MethodFrame_Write. destruct (MethodFrame_Method f); [|done].
    destruct (Method_ID _) as [c' m']. destruct (_ +>+ _) as [x|]; [|done]. by intros [= <-].
  - unfold HeaderFrame_Write. destruct (_ +>+ _) as [x|]; [|done]. by intros [= <-].
  - by intros [= <-].
  - by intros [= <-].
Qed.

(** The header and body frames of a content are received as the content. *)
Lemma recvLoop_content fuel channel fm class m r h props body bs rest w :
  8 < fm < 2 ^ 32 -> in_uint 16 channel = true ->
  Frame_wf (headerFrame channel class props body) = true -> Z.of_nat (length body) < 2 ^ 63 ->
  frames_bytes (headerFrame channel class props body :: bodyFrames channel fm body) = Ok bs ->
  data (input w) = bs ++ rest -> (S (length (bodyFrames channel fm body)) <= fuel)%nat ->
  recvLoop fuel channel m r h [] w =
  setContent m (Properties_canon props) body (with_input rest w).
Proof.
  intros Hfm Hch Hwf Hb (b1 & b2 & E1 & E2 & ->)%frames_bytes_cons Hd Hlen.
  destruct fuel as [|fuel]; [lia|]. rewrite <- app_assoc in Hd.
  rewrite (recvLoop_step _ _ _ _ _ _ _ _ _ _ Hwf E1 Hd).
  cbn [headerFrame Frame_canon Channel HeaderFrame_ChannelId HeaderFrame_Size
    HeaderFrame_Properties]. cbv zeta.
  rewrite uwrap_small, Z.eqb_refl by done. cbn [negb].
  rewrite swrap_small by (lia || (apply in_int_spec; lia)).
  destruct body as [|x body]; [by injection E2 as [= <-]|].
  rewrite (proj2 (Z.eqb_neq _ _)) by (simpl; lia).
  set (bd := x :: body) in *. unfold bodyFrames in *.
  set (pieces := chunks (length bd) (Z.to_nat (fm - 8)) bd) in *.
  assert (Hc : concat pieces = bd) by (apply chunks_concat; lia).
  assert (Hs : Forall (fun p => 1 <= Z.of_nat (length p) < 2 ^ 32) pieces).
  { eapply Forall_impl; [apply chunks_sizes; lia|]. cbv beta. intros piece. lia. }
  rewrite <- Hc at 1.
  rewrite (recvLoop_bodies pieces fuel channel _ _ [] b2 rest); try done.
  - by rewrite app_nil_l, Hc.
  - by rewrite Hc.
  - rewrite length_map in Hlen. lia.
Qed.

(** The method frame of a message of the type that is awaited. *)
Lemma recvLoop_own fuel channel m0 m r h body b1 rest w :
  in_uint 16 channel = true -> struct_name m0 = struct_name m ->
  Frame_wf (methodFrame channel m) = true -> Frame_Write (methodFrame channel m) = Ok b1 ->
  data (input w) = b1 ++ rest ->
  recvLoop (S fuel) channel m0 r h body w =
  match Method_GetContent m with
  | None => (Ok (Method_canon m), with_input rest w)
  | Some _ => recvLoop fuel channel (Method_canon m) r h body (with_input rest w)
  end.
Proof.
  intros Hch Hn W1 E1 Hd. rewrite (recvLoop_step _ _ _ _ _ _ _ _ _ _ W1 E1 Hd).
  cbn [methodFrame Frame_canon Channel MethodFrame_ChannelId MethodFrame_Method fmap option_fmap
    option_map].
  rewrite uwrap_small, Z.eqb_refl by done. cbn [negb].
  rewrite struct_name_canon, Hn, String.eqb_refl. pose proof (GetContent_canon m) as Hg.
  by destruct (Method_GetContent (Method_canon m)), (Method_GetContent m).
Qed.

Lemma messageFrames_fuel channel fm m bs rest :
  frames_bytes (messageFrames channel fm m) = Ok bs ->
  (length (messageFrames channel fm m) <= length (bs ++ rest))%nat.
Proof.
  intros E. rewrite length_app. apply frames_bytes_length in E; [lia|].
  apply Forall_true. intros f b. apply Frame_Write_nonempty.
Qed.

(** C3: the frames of a well-formed message, whatever the frame size the sender
    negotiated, are received as that message again: its canonical method with its
    properties and its whole body, nothing after its last frame being consumed. *)
Theorem recv_send channel fm m0 m bs rest w :
  8 < fm < 2 ^ 32 -> in_uint 16 channel = true ->
  struct_name m0 = struct_name m ->
  Forall (fun f => Frame_wf f = true) (messageFrames channel fm m) ->
  match Method_GetContent m with Some (_, body) => Z.of_nat (length body) < 2 ^ 63 | None => True end ->
  frames_bytes (messageFrames channel fm m) = Ok bs ->
  data (input w) = bs ++ rest ->
  exists m', received m = Some m' /\ recv channel m0 w = (Ok m', with_input rest w).
Proof.
  intros Hfm Hch Hn Hwf Hb E Hd. unfold recv.
  pose proof (messageFrames_fuel channel fm m bs rest E) as Hlen. rewrite <- Hd in Hlen.
  revert Hwf E Hlen. unfold messageFrames.
  destruct (Method_GetContent m) as [[props body]|] eqn:Ec.
  - intros [W1 [W2 _]%Forall_cons]%Forall_cons (b1 & b2 & E1 & E2 & ->)%frames_bytes_cons Hlen.
    destruct (SetContent_received m props body Ec) as (m' & Hm' & Hset).
    exists m'. split; [done|]. rewrite <- app_assoc in Hd.
    rewrite (recvLoop_own _ _ _ m _ _ _ _ _ _ Hch Hn W1 E1 Hd), Ec.
    rewrite (recvLoop_content _ channel fm _ _ _ _ props body b2 rest (with_input _ w)
      Hfm Hch W2 Hb E2 eq_refl) by (cbn [length] in Hlen; lia).
    by rewrite setContent_eq, Hset.
  - intros [W1 _]%Forall_cons (b1 & b2 & E1 & [= <-] & ->)%frames_bytes_cons Hlen.
    exists (Method_canon m). split; [unfold received; by rewrite Ec|].
    rewrite app_nil_r in Hd.
    by rewrite (recvLoop_own _ _ _ m _ _ _ _ _ _ Hch Hn W1 E1 Hd), Ec.
Qed.

(** *** Every receive ends *)

Lemma eats_ReadFrame : eats ReadFrame.
Proof.
  unfold ReadFrame. apply eats_bind; [apply eats_ReadFull; lia|]. intros scratch.
  apply lossy_bind; [auto with wire|intros frame].
  apply lossy_bind; [auto with wire|intros e]. case_match; auto with wire.
Qed.

Lemma readClientFrame_spec w :
  fin (input w) <> OutOfFuel ->
  match readClientFrame w with
  | (Ok _, w') => (length (data (input w')) < length (data (input w)))%nat /\
                  fin (input w') = fin (input w)
  | (Err e, _) => e <> Hang
  end.
Proof.
  intros Hf. unfold readClientFrame.
  pose proof (eats_ReadFrame (input w)) as He.
  destruct (lossy_ReadFrame (input w)) as [_ Hl].
  pose proof (settles_ReadFrame (S (length (data (input w)))) (input w) ltac:(lia) Hf) as Hs.
  destruct (ReadFrame (input w)) as [[f|e] s]; simpl in *.
  - by specialize (He f eq_refl).
  - destruct e; simpl; congruence.
Qed.

Lemma recvLoop_ends fuel channel m remaining header body w :
  fin (input w) <> OutOfFuel -> (length (data (input w)) < fuel)%nat ->
  (recvLoop fuel channel m remaining header body w).1 <> Err Hang.
Proof.
  revert m remaining header body w.
  induction fuel as [|fuel IH]; intros m remaining header body w Hf Hl; [lia|].
  cbn [recvLoop]. unfold wrapf, wrap, mbind, stm_bind.
  pose proof (readClientFrame_spec w Hf) as Hr.
  destruct (readClientFrame w) as [[frame|e] w1]; simpl.
  2: { unfold onError. destruct (is_panic e); congruence. }
  destruct Hr as [Hr1 Hr2].
  assert (IH' : forall m remaining header body,
    (recvLoop fuel channel m remaining header body w1).1 <> Err Hang).
  { intros. apply IH; [congruence|lia]. }
  repeat case_match; try apply IH'; rewrite ?setContent_eq; simpl; try done;
    by destruct (Method_SetContent _ _ _).
Qed.

(** [recv] ends: whatever the client sends, in finitely many frames it has a
    message, an error or a panic. *)
Lemma recv_total channel m w :
  fin (input w) <> OutOfFuel -> (recv channel m w).1 <> Err Hang.
Proof. intros Hf. apply recvLoop_ends; [done|lia]. Qed.

(** A frame of another channel ends a receive with an error, also a heartbeat,
    which always comes on channel 0 and may come between the frames of a message. *)
Theorem recv_other_channel channel m frame bs rest w :
  Frame_wf frame = true -> Frame_Write frame = Ok bs -> data (input w) = bs ++ rest ->
  Channel frame <> uwrap 16 channel ->
  exists msg, recv channel m w = (Err (Errorf msg), with_input rest w).
Proof.
  intros Hwf Hbs Hd Hch. unfold recv.
  rewrite (recvLoop_step _ _ _ _ _ _ _ _ _ _ Hwf Hbs Hd).
  assert (Channel (Frame_canon frame) = Channel frame) as -> by (by destruct frame).
  rewrite (proj2 (Z.eqb_neq _ _)) by done. simpl. eexists. done.
Qed.

(** A first frame that is a body frame, or an empty content header where a
    message without content is awaited, makes the receiver panic. *)
Theorem recv_panics channel m frame bs rest w :
  in_uint 16 channel = true -> Channel frame = channel ->
  match frame with
  | F_Body f => Z.of_nat (length (BodyFrame_Body f)) < 2 ^ 63
  | F_Header f => HeaderFrame_Size f = 0 /\ Method_GetContent m = None
  | _ => False
  end ->
  Frame_wf frame = true -> Frame_Write frame = Ok bs -> data (input w) = bs ++ rest ->
  (recv channel m w).1 = Err GoPanic.
Proof.
  intros Hch Hc Hk Hwf Hbs Hd. unfold recv.
  rewrite (recvLoop_step _ _ _ _ _ _ _ _ _ _ Hwf Hbs Hd).
  assert (Channel (Frame_canon frame) = channel) as -> by (by destruct frame).
  rewrite uwrap_small, Z.eqb_refl by done. cbn [negb].
  destruct frame as [f|f|f|f]; [done| | |done]; cbn [Frame_canon]; cbv zeta.
  - destruct Hk as [Hs Hm]. cbn [HeaderFrame_Size]. rewrite Hs.
    replace (swrap 64 0 =? 0) with true by done. rewrite setContent_eq.
    by destruct m.
  - rewrite swrap_small by (lia || (apply in_int_spec; lia)).
    rewrite (proj2 (Z.leb_le _ _)) by lia. done.
Qed.
End Recv.

(** ** Concrete messages *)

Definition samplePublish (headers : Table) (body : list byte) : Method := M_BasicPublish {|
  BasicPublish_reserved1 := 0; BasicPublish_Exchange := "logs"; BasicPublish_RoutingKey := "a.b";
  BasicPublish_Mandatory := false; BasicPublish_Immediate := false;
  BasicPublish_Properties := {|
    Properties_ContentType := "text/plain"; Properties_ContentEncoding := EmptyString;
    Properties_Headers := headers; Properties_DeliveryMode := 2; Properties_Priority := 0;
    Properties_CorrelationId := EmptyString; Properties_ReplyTo := EmptyString;
    Properties_Expiration := EmptyString; Properties_MessageId := EmptyString;
    Properties_Timestamp := zeroTime; Properties_Type := EmptyString;
    Properties_UserId := EmptyString; Properties_AppId := EmptyString;
    Properties_reserved1 := EmptyString |};
  BasicPublish_Body := body |}.

Lemma send_frames_witness :
  let m := samplePublish sampleTable (bytes_of "hello world") in
  let w := sampleWorld 12 [] EOF in
  exists bs, frames_bytes (messageFrames 1 12 m) = Ok bs /\
  exists r v k,
    @send acceptingEnv 1 m w = (r, set_stats (Nat.iter k IncrementSentFrames) (set_wire v w)) /\
    sent v `prefix_of` bs /\
    match r with
    | Ok _ => k = length (messageFrames 1 12 m) /\ werr v = None /\ sent v ++ wbuf v = bs
    | Err _ => werr v <> None
    end /\
    forall props body, Method_GetContent m = Some (props, body) ->
    exists pieces,
      messageFrames 1 12 m =
        methodFrame 1 m :: headerFrame 1 (Method_ID m).1 props body :: map (bodyFrame 1) pieces /\
      concat pieces = body /\
      Forall (fun piece => forall b, Frame_Write (bodyFrame 1 piece) = Ok b ->
        9 <= Z.of_nat (length b) <= 12) pieces.
Proof.
  eexists. split; [vm_compute; reflexivity|].
  apply (@send_frames acceptingEnv 1 (samplePublish sampleTable (bytes_of "hello world"))
    (sampleWorld 12 [] EOF)); vm_compute; reflexivity.
Defined.

Lemma send_empty_body_witness :
  let m := samplePublish None [] in
  let w := sampleWorld 131072 [] EOF in
  exists bs, frames_bytes (messageFrames 1 131072 m) = Ok bs /\
  exists w', @send acceptingEnv 1 m w = (Ok (), w') /\
    sent (wire w') = [] /\ wbuf (wire w') = bs.
Proof.
  eexists. split; [vm_compute; reflexivity|].
  eapply (@send_empty_body acceptingEnv 1 (samplePublish None []) (sampleWorld 131072 [] EOF));
    [reflexivity|reflexivity|vm_compute; reflexivity|apply (bool_decide_unpack _); vm_compute; exact I].
Defined.

(** A header table as the client library builds it for a dead-lettered message. *)
Definition deadLettered : Table := Some [("x-death", VArray [VRTable [("count", VInt64 1)]])]%string.

Lemma send_unencodable_witness :
  let m := samplePublish deadLettered (bytes_of "hi") in
  let w := sampleWorld 131072 [] EOF in
  exists b1, Frame_Write (methodFrame 1 m) = Ok b1 /\
  exists w', (exists e', @send acceptingEnv 1 m w = (Err e', w')) /\
    sent (wire w') ++ wbuf (wire w') = b1 /\ werr (wire w') = None.
Proof.
  eexists. split; [vm_compute; reflexivity|].
  eapply (@send_unencodable acceptingEnv 1 (samplePublish deadLettered (bytes_of "hi"))
    (sampleWorld 131072 [] EOF));
    [reflexivity|reflexivity|vm_compute; reflexivity
    |apply (bool_decide_unpack _); vm_compute; exact I|vm_compute; reflexivity].
Defined.

Lemma send_tiny_frames_witness :
  (@send acceptingEnv 1 (samplePublish None (bytes_of "hi")) (sampleWorld 8 [] EOF)).1 <> Ok ().
Proof.
  eapply (@send_tiny_frames acceptingEnv 1 (samplePublish None (bytes_of "hi")));
    [vm_compute; discriminate|reflexivity|discriminate].
Defined.

Lemma recv_send_witness :
  let m := samplePublish sampleTable (bytes_of "hello world") in
  exists bs, frames_bytes (messageFrames 1 12 m) = Ok bs /\
  exists m', received m = Some m' /\
    @recv 1 (samplePublish None []) (sampleWorld 12 (bs ++ bytes_of "rest") EOF)
    = (Ok m', with_input (bytes_of "rest") (sampleWorld 12 (bs ++ bytes_of "rest") EOF)).
Proof.
  eexists. split; [vm_compute; reflexivity|].
  eapply (recv_send 1 12 (samplePublish None []) (samplePublish sampleTable (bytes_of "hello world")));
    [lia|reflexivity|reflexivity| |vm_compute; reflexivity|vm_compute; reflexivity|reflexivity].
  apply (bool_decide_unpack _). vm_compute. exact I.
Defined.

Lemma recv_other_channel_witness :
  let frame := F_Heartbeat {| HeartbeatFrame_ChannelId := 0 |} in
  exists bs, Frame_Write frame = Ok bs /\
  exists msg, recv 1 (samplePublish None []) (sampleWorld 131072 bs EOF)
    = (Err (Errorf msg), with_input [] (sampleWorld 131072 bs EOF)).
Proof.
  eexists. split; [vm_compute; reflexivity|].
  eapply (recv_other_channel 1 _ (F_Heartbeat {| HeartbeatFrame_ChannelId := 0 |}));
    [reflexivity|vm_compute; reflexivity|symmetry; apply app_nil_r|discriminate].
Defined.

Lemma recv_panics_witness :
  exists bs, Frame_Write (bodyFrame 1 (bytes_of "hi")) = Ok bs /\
  (recv 1 (samplePublish None []) (sampleWorld 131072 bs EOF)).1 = Err GoPanic.
Proof.
  eexists. split; [vm_compute; reflexivity|].
  eapply (recv_panics 1 _ (bodyFrame 1 (bytes_of "hi")));
    [reflexivity|reflexivity|vm_compute; reflexivity|reflexivity|vm_compute; reflexivity
    |symmetry; apply app_nil_r].
Defined.
