(* ===== verification/Handlers.v ===== *)
(** * Handlers of the client's methods

    [methods.go], and the parts of [confirm.go] and [delivery.go] that work on a
    proxy: what each method makes of the upstreams and what the client is answered. *)

From stdpp Require Import pretty.
From S2P Require Import Prelude Bytes Fields MsgBase MsgChannel MsgConnection MsgExchange MsgQueue.
From S2P Require Import MsgBasic MsgTx Methods Frames Wire Errors Broker Config Pattern Delivery.
From S2P Require Import Confirm Upstream Proxy.

Section Handlers.
Context `{Env}.

(** [NewError(code, fmt.Sprintf("text on upstream %s: %v", us.String(), err))]. *)
Definition amqpUs {A} (text : string) (i : nat) (m : M A) : M A := fun w =>
  amqpf io_text InternalError (text +:+ " on upstream " +:+ us_name w i) m w.

(** [for i, ch := range chs { us := p.Upstream(i); ... }]. *)
Definition eachChannel (chs : list Handle) (f : nat -> Handle -> M ()) : M () :=
  forM (imap pair chs) (fun ic => f ic.1 ic.2).

(** The loop bodies that make one call, answered with an error of code 541. *)
Definition callUs (text : string) (i : nat) (c : Call) : M () :=
  amqpUs text i (_ ← lib c; mret ()).

Definition set_queue (m : QueueDeclare) (name : string) : QueueDeclare := {|
  QueueDeclare_reserved1 := QueueDeclare_reserved1 m;
  QueueDeclare_Queue := name;
  QueueDeclare_Passive := QueueDeclare_Passive m;
  QueueDeclare_Durable := QueueDeclare_Durable m;
  QueueDeclare_Exclusive := QueueDeclare_Exclusive m;
  QueueDeclare_AutoDelete := QueueDeclare_AutoDelete m;
  QueueDeclare_NoWait := QueueDeclare_NoWait m;
  QueueDeclare_Arguments := QueueDeclare_Arguments m |}.

(** ** Confirm states of the channels *)

Definition getConfirmState (p : Proxy) (channelID : Z) : option nat :=
  match confirmStates p with None => None | Some m => m !! channelID end.

Definition setConfirmState (channelID : Z) (cs : nat) (p : Proxy) : Proxy :=
  set_confirmStates (Some (<[channelID := cs]> (default ∅ (confirmStates p)))) p.

Definition deleteConfirmState (channelID : Z) (p : Proxy) : Proxy :=
  set_confirmStates (delete channelID <$> confirmStates p) p.

(** [newConfirmState]: a pointer to a new state. *)
Definition newState : M nat := fun w =>
  (Ok (length (heap w)), set_heap (fun h => h ++ [newConfirmState]) w).

(** ** Channels *)

Definition replyChannelOpen (id : Z) (m : ChannelOpen) : M () :=
  _ ← wrapf "failed to create channel" (Proxy.NewChannel id);
  wrapf "failed to write Channel.Open-Ok"
    (send id (M_ChannelOpenOk {| ChannelOpenOk_reserved1 := EmptyString |})).

Definition replyChannelClose (id : Z) (m : ChannelClose) : M () :=
  _ ← modify (set_proxy (deleteConfirmState id));
  _ ← Proxy.CloseChannel id;
  send id (M_ChannelCloseOk mkChannelCloseOk).

Definition replyConnectionClose : M () := send 0 (M_ConnectionCloseOk mkConnectionCloseOk).

(** ** Queues and exchanges *)

(** The loop of [replyQueueDeclare] from upstream [i] on. *)
Fixpoint declareAll (i : nat) (chs : list Handle) (m : QueueDeclare)
  (messages consumers : Z) (queueName : string) : M (Z * Z * string) :=
  match chs with
  | [] => mret (messages, consumers, queueName)
  | ch :: chs' =>
      q ← wrapUs "failed to declare queue" i
            (onUpstream i (QueueDeclareWithTryPassive ch m));
      let messages := swrap 64 (messages + Queue_Messages q) in
      let consumers := swrap 64 (consumers + Queue_Consumers q) in
      if decide (queueName <> EmptyString /\ queueName <> Queue_Name q) then
        throw (NewError InternalError "queue name mismatch")
      else
        _ ← onUpstream i (CleanupAutoGeneratedQueue (Queue_Name q));
        declareAll (S i) chs' m messages consumers
          (if decide (queueName = EmptyString) then Queue_Name q else queueName)
  end.

Definition autoName (m : QueueDeclare) : M QueueDeclare := fun w =>
  if decide (QueueDeclare_Queue m = EmptyString) then
    (Ok (set_queue m (AutoGenerateQueueNamePrefix +:+ generateID (draws w))),
     set_draws (S (draws w)) w)
  else (Ok m, w).

Definition replyQueueDeclare (id : Z) (m : QueueDeclare) : M () :=
  chs ← GetChannels id;
  m ← autoName m;
  r ← declareAll 0 chs m 0 0 EmptyString;
  let '(messages, consumers, queueName) := r in
  send id (M_QueueDeclareOk {|
    QueueDeclareOk_Queue := queueName;
    QueueDeclareOk_MessageCount := uwrap 32 messages;
    QueueDeclareOk_ConsumerCount := uwrap 32 consumers |}).

Definition replyQueueDelete (id : Z) (m : QueueDelete) : M () :=
  chs ← GetChannels id;
  _ ← eachChannel chs (fun i ch => callUs "failed to delete queue" i
        (Ch_QueueDelete ch (QueueDelete_Queue m) (QueueDelete_IfUnused m)
           (QueueDelete_IfEmpty m) (QueueDelete_NoWait m)));
  send id (M_QueueDeleteOk {| QueueDeleteOk_MessageCount := 0 |}).

Definition replyQueueBind (id : Z) (m : QueueBind) : M () :=
  chs ← GetChannels id;
  _ ← eachChannel chs (fun i ch => callUs "failed to bind queue" i
        (Ch_QueueBind ch (QueueBind_Queue m) (QueueBind_RoutingKey m) (QueueBind_Exchange m)
           (QueueBind_NoWait m) (QueueBind_Arguments m)));
  send id (M_QueueBindOk mkQueueBindOk).

Definition replyQueueUnbind (id : Z) (m : QueueUnbind) : M () :=
  ns ← gets indices;
  _ ← forM ns (fun i =>
        ch ← wrapUs "failed to get channel" i (onUpstream i (Upstream.GetChannel id));
        callUs "failed to unbind queue" i
          (Ch_QueueUnbind ch (QueueUnbind_Queue m) (QueueUnbind_RoutingKey m)
             (QueueUnbind_Exchange m) (QueueUnbind_Arguments m)));
  send id (M_QueueUnbindOk mkQueueUnbindOk).

Definition replyQueuePurge (id : Z) (m : QueuePurge) : M () :=
  chs ← GetChannels id;
  _ ← eachChannel chs (fun i ch => callUs "failed to purge queue" i
        (Ch_QueuePurge ch (QueuePurge_Queue m) true));
  send id (M_QueuePurgeOk {| QueuePurgeOk_MessageCount := 0 |}).

Definition replyExchangeDeclare (id : Z) (m : ExchangeDeclare) : M () :=
  chs ← GetChannels id;
  _ ← eachChannel chs (fun i ch => callUs "failed to declare exchange" i
        (Ch_ExchangeDeclare ch (ExchangeDeclare_Exchange m) (ExchangeDeclare_Type m)
           (ExchangeDeclare_Durable m) (ExchangeDeclare_AutoDelete m) false false
           (ExchangeDeclare_Arguments m)));
  send id (M_ExchangeDeclareOk mkExchangeDeclareOk).

Definition replyBasicQos (id : Z) (m : BasicQos) : M () :=
  chs ← GetChannels id;
  _ ← eachChannel chs (fun i ch => callUs "failed to set QoS" i
        (Ch_Qos ch (BasicQos_PrefetchCount m) (BasicQos_PrefetchSize m) (BasicQos_Global m)));
  send id (M_BasicQosOk mkBasicQosOk).

Definition replyBasicCancel (id : Z) (m : BasicCancel) : M () :=
  chs ← GetChannels id;
  _ ← eachChannel chs (fun i ch => callUs "failed to cancel consumer" i
        (Ch_Cancel ch (BasicCancel_ConsumerTag m) false));
  send id (M_BasicCancelOk {| BasicCancelOk_ConsumerTag := BasicCancel_ConsumerTag m |}).

(** ** Publishing *)

(** The [Publishing] of a publish: [Priority] is not set. *)
Definition publishing (m : BasicPublish) : Publishing :=
  let p := BasicPublish_Properties m in {|
  Publishing_Headers := Properties_Headers p;
  Publishing_ContentType := Properties_ContentType p;
  Publishing_ContentEncoding := Properties_ContentEncoding p;
  Publishing_DeliveryMode := Properties_DeliveryMode p;
  Publishing_Priority := 0;
  Publishing_CorrelationId := Properties_CorrelationId p;
  Publishing_ReplyTo := Properties_ReplyTo p;
  Publishing_Expiration := Properties_Expiration p;
  Publishing_MessageId := Properties_MessageId p;
  Publishing_Timestamp := Properties_Timestamp p;
  Publishing_Type := Properties_Type p;
  Publishing_UserId := Properties_UserId p;
  Publishing_AppId := Properties_AppId p;
  Publishing_Body := BasicPublish_Body m |}.

(** [cs.RecordPublish(upstreamIndex, ch.GetNextPublishSeqNo())] in confirm mode. *)
Definition recordPublish (id : Z) (ch : Handle) (upstreamIndex : nat) : M () := fun w =>
  match getConfirmState (proxy w) id with
  | None => (Ok (), w)
  | Some cs =>
      (Ok (), set_heap (alter (fun s =>
         (RecordPublish s (Z.of_nat upstreamIndex) (GetNextPublishSeqNo (w_calls w) ch)).2) cs) w)
  end.

Definition replyBasicPublish (id : Z) (m : BasicPublish) : M () :=
  r ← GetChannelWithIndex id (BasicPublish_RoutingKey m);
  let '(ch, upstreamIndex) := r in
  _ ← recordPublish id ch upstreamIndex;
  amqpf io_text InternalError "failed to publish message"
    (_ ← lib (Ch_Publish ch (BasicPublish_Exchange m) (BasicPublish_RoutingKey m)
                (BasicPublish_Mandatory m) (BasicPublish_Immediate m) (publishing m));
     mret ()).

Definition replyConfirmSelect (id : Z) (m : ConfirmSelect) : M () :=
  chs ← GetChannels id;
  cs ← newState;
  _ ← eachChannel chs (fun i ch =>
        _ ← amqpUs "failed to enable confirm mode" i (lib (Ch_Confirm ch false));
        _ ← lib (Ch_NotifyPublish ch);
        modify (spawn (ListenConfirm id (Z.of_nat i) cs)));
  _ ← modify (set_proxy (setConfirmState id cs));
  if ConfirmSelect_Nowait m then mret ()
  else send id (M_ConfirmSelectOk mkConfirmSelectOk).

(** A turn of the loop of [listenConfirm]: a confirmation of the upstream. An error of
    [send] ends the goroutine. *)
Definition listenConfirm (channelID ui : Z) (cs : nat) (deliveryTag : Z) (ack : bool) : M () :=
  fun w =>
  match heap w !! cs with
  | None => (Err GoPanic, w)
  | Some s =>
      let '((clientTag, ok), s') := LookupClientTag s ui deliveryTag in
      let w := set_heap <[cs := s']> w in
      if negb ok then (Ok (), w)
      else if ack then
        send channelID (M_BasicAck {| BasicAck_DeliveryTag := clientTag;
                                      BasicAck_Multiple := false |}) w
      else
        send channelID (M_BasicNack {| BasicNack_DeliveryTag := clientTag;
                                       BasicNack_Multiple := false;
                                       BasicNack_Requeue := false |}) w
  end.

(** ** Consuming *)

Definition deliveryToProps (msg : Delivery) : Properties := {|
  Properties_ContentType := Delivery_ContentType msg;
  Properties_ContentEncoding := Delivery_ContentEncoding msg;
  Properties_Headers := Delivery_Headers msg;
  Properties_DeliveryMode := Delivery_DeliveryMode msg;
  Properties_Priority := Delivery_Priority msg;
  Properties_CorrelationId := Delivery_CorrelationId msg;
  Properties_ReplyTo := Delivery_ReplyTo msg;
  Properties_Expiration := Delivery_Expiration msg;
  Properties_MessageId := Delivery_MessageId msg;
  Properties_Timestamp := Delivery_Timestamp msg;
  Properties_Type := Delivery_Type msg;
  Properties_UserId := Delivery_UserId msg;
  Properties_AppId := Delivery_AppId msg;
  Properties_reserved1 := EmptyString |}.

Definition p_newDelivery (w : World) (i : nat) : delivery :=
  newDelivery (Z.of_nat i) (Z.of_nat (length (upstreams (proxy w)))) (us_name w i).

(** The loop that starts the consumers. *)
Fixpoint consumeAll (channelID : Z) (m : BasicConsume) (ns : list nat) : M (list delivery) :=
  match ns with
  | [] => mret []
  | i :: ns' =>
      ch ← wrapUs "failed to get channel" i (onUpstream i (Upstream.GetChannel channelID));
      _ ← amqpUs "failed to consume" i
            (lib (Ch_Consume ch (BasicConsume_Queue m) (BasicConsume_ConsumerTag m)
                    (BasicConsume_NoAck m) (BasicConsume_Exclusive m)
                    (BasicConsume_NoLocal m) (BasicConsume_NoWait m)
                    (BasicConsume_Arguments m)));
      d ← gets (fun w => p_newDelivery w i);
      ds ← consumeAll channelID m ns';
      mret (d :: ds)
  end.

(** Go ranges over a map of the deliveries to start their goroutines; in which order
    makes no difference to goroutines that run side by side. *)
Definition replyBasicConsume (channelID : Z) (m : BasicConsume) : M () :=
  ns ← gets indices;
  deliveries ← consumeAll channelID m ns;
  _ ← amqpf io_text InternalError "failed to send Basic.ConsumeOk"
        (send channelID (M_BasicConsumeOk {|
           BasicConsumeOk_ConsumerTag := BasicConsume_ConsumerTag m |}));
  forM deliveries (fun d => modify (spawn
    (Consume channelID (BasicConsume_Queue m) (BasicConsume_ConsumerTag m) d))).

(** A turn of the loop of [consume]: a delivery of the upstream of [d]. *)
Definition consume (channelID : Z) (tag : string) (d : delivery) (msg : Delivery) : M () :=
  send channelID (M_BasicDeliver {|
    BasicDeliver_ConsumerTag := tag;
    BasicDeliver_DeliveryTag := Tag d (Delivery_DeliveryTag msg);
    BasicDeliver_Redelivered := Delivery_Redelivered msg;
    BasicDeliver_Exchange := Delivery_Exchange msg;
    BasicDeliver_RoutingKey := Delivery_RoutingKey msg;
    BasicDeliver_Properties := deliveryToProps msg;
    BasicDeliver_Body := Delivery_Body msg |}).

(** A call whose error is not looked at. *)
Definition ignoring (m : M ()) : M () := fun w =>
  match m w with
  | (Err e, w') => if is_panic e then (Err e, w') else (Ok (), w')
  | r => r
  end.

(** The loop of [replyBasicGet]: has a message been found? *)
Fixpoint getFrom (id : Z) (m : BasicGet) (ns : list nat) : M bool :=
  match ns with
  | [] => mret false
  | idx :: ns' =>
      ch ← wrapUs "failed to get channel" idx (onUpstream idx (Upstream.GetChannel id));
      r ← amqpUs "failed to get message" idx
            (lib (Ch_Get ch (BasicGet_Queue m) (BasicGet_NoAck m)));
      match r with
      | None => getFrom id m ns'
      | Some msg =>
          d ← gets (fun w => p_newDelivery w idx);
          _ ← ignoring (send id (M_BasicGetOk {|
                BasicGetOk_DeliveryTag := Tag d (Delivery_DeliveryTag msg);
                BasicGetOk_Redelivered := Delivery_Redelivered msg;
                BasicGetOk_Exchange := Delivery_Exchange msg;
                BasicGetOk_RoutingKey := Delivery_RoutingKey msg;
                BasicGetOk_MessageCount := uwrap 32 (Delivery_MessageCount msg);
                BasicGetOk_Properties := deliveryToProps msg;
                BasicGetOk_Body := Delivery_Body msg |}));
          mret true
      end
  end.

Definition randPerm : M (list nat) := fun w =>
  (Ok (rand_Perm (draws w) (length (upstreams (proxy w)))), set_draws (S (draws w)) w).

Definition replyBasicGet (id : Z) (m : BasicGet) : M () :=
  ns ← randPerm;
  got ← getFrom id m ns;
  if got : bool then mret ()
  else amqpf io_text InternalError "failed to send Basic.GetEmpty"
         (send id (M_BasicGetEmpty {| BasicGetEmpty_reserved1 := EmptyString |})).

(** ** Acknowledging *)

Definition restoreTag (tag : Z) : M (Z * Z) := fun w =>
  match restoreDeliveryTag tag (Z.of_nat (length (upstreams (proxy w)))) with
  | Some ti => (Ok ti, w)
  | None => (Err GoPanic, w)
  end.

Definition UpstreamDeliveryTag (tag : Z) : M Z := ti ← restoreTag tag; mret ti.1.

Definition GetChannelByDeliveryTag (channelID tag : Z) : M Handle :=
  chs ← GetChannels channelID;
  ti ← restoreTag tag;
  if Z.of_nat (length chs) <=? ti.2 then
    throw (Errorf ("channel not found: id=" +:+ pretty channelID +:+ ", tag=" +:+ pretty tag))
  else
    match chs !! Z.to_nat ti.2 with Some ch => mret ch | None => throw GoPanic end.

Definition replyBasicAck (id : Z) (m : BasicAck) : M () :=
  ch ← GetChannelByDeliveryTag id (BasicAck_DeliveryTag m);
  tag ← UpstreamDeliveryTag (BasicAck_DeliveryTag m);
  lib (Ch_Ack ch tag (BasicAck_Multiple m)).

Definition replyBasicNack (id : Z) (m : BasicNack) : M () :=
  ch ← GetChannelByDeliveryTag id (BasicNack_DeliveryTag m);
  tag ← UpstreamDeliveryTag (BasicNack_DeliveryTag m);
  lib (Ch_Nack ch tag (BasicNack_Multiple m) (BasicNack_Requeue m)).
End Handlers.
