(* ===== verification/Replies.v ===== *)
(** * What the handlers do: proofs

    The effect of each handler of [Handlers] on the upstreams, on the state of the
    proxy and on the client. *)

From stdpp Require Import pretty.
From S2P Require Import Prelude Bytes Fields MsgBase MsgChannel MsgConnection MsgExchange MsgQueue.
From S2P Require Import MsgBasic MsgTx Methods Frames Wire Errors Broker Config Pattern Delivery.
From S2P Require Import Confirm Upstream Proxy Transfer Handlers.
From S2P Require Import Stats.

Section Replies.
Context `{Env}.

(** ** Channels *)

(** The channels numbered [id] of all upstreams, when each has one. *)
Definition channels_of (w : World) (id : Z) : option (list Handle) :=
  mapM (fun u => Upstream_channel u !! id) (upstreams (proxy w)).

Lemma set_same w i u :
  upstreams (proxy w) !! i = Some u ->
  set_calls (w_calls w) (set_proxy (set_upstreams <[i:=u]>) w) = w.
Proof.
  intros E. destruct w as [[]]. unfold set_calls, set_proxy, set_upstreams. simpl in *.
  by rewrite list_insert_id.
Qed.

Lemma onUpstream_GetChannel i u id w :
  upstreams (proxy w) !! i = Some u ->
  onUpstream i (Upstream.GetChannel id) w =
  (match Upstream_channel u !! id with
   | Some ch => Ok ch
   | None => Err (Errorf ("channel " +:+ pretty id +:+ " not found"))
   end, w).
Proof.
  intros E. unfold onUpstream. rewrite E. unfold Upstream.GetChannel, get_us, gets, throw,
    mbind, stm_bind, mret, stm_ret. simpl.
  destruct (Upstream_channel u !! id); simpl; by rewrite set_same.
Qed.

Lemma getChannels_from i us us0 id w :
  upstreams (proxy w) = us0 ++ us -> i = length us0 ->
  match mapM (fun u => Upstream_channel u !! id) us with
  | Some chs => getChannels id (seq i (length us)) w = (Ok chs, w)
  | None => exists t e, getChannels id (seq i (length us)) w = (Err (Wrap t e), w)
  end.
Proof.
  revert i us0. induction us as [|u us IH]; intros i us0 E Hi; [done|].
  cbn [seq length getChannels mapM].
  assert (Eu : upstreams (proxy w) !! i = Some u)
    by (rewrite E, Hi; by apply list_lookup_middle).
  specialize (IH (S i) (us0 ++ [u])). rewrite <- app_assoc in IH.
  specialize (IH E ltac:(rewrite length_app; simpl; lia)).
  pose proof (onUpstream_GetChannel i u id w Eu) as G.
  destruct (Upstream_channel u !! id) as [ch|]; simpl.
  - rewrite (stm_bind_ok _ _ w ch w) by (by apply wrap_ok).
    destruct (mapM _ us) as [chs|]; simpl.
    + by rewrite (stm_bind_ok _ _ w chs w).
    + destruct IH as (t & e & IH). exists t, e. by apply stm_bind_err.
  - do 2 eexists. erewrite stm_bind_err by (eapply wrap_err, G). reflexivity.
Qed.

Lemma GetChannels_eq id w :
  match channels_of w id with
  | Some chs => GetChannels id w = (Ok chs, w)
  | None => exists t e, GetChannels id w = (Err (Wrap t e), w)
  end.
Proof. apply (getChannels_from 0 _ []); done. Qed.

Lemma GetChannels_ok id w chs :
  channels_of w id = Some chs -> GetChannels id w = (Ok chs, w).
Proof. intros E. pose proof (GetChannels_eq id w) as G. by rewrite E in G. Qed.

Lemma channels_lookup w id chs i u :
  channels_of w id = Some chs -> upstreams (proxy w) !! i = Some u ->
  exists ch, Upstream_channel u !! id = Some ch /\ nth i chs 0 = ch.
Proof.
  unfold channels_of. intros Hc%mapM_Some Hu.
  destruct (Forall2_lookup_l _ _ _ _ _ Hc Hu) as (ch & Hch & E). exists ch.
  split; [done|]. by apply nth_lookup_Some.
Qed.

(** ** Calls on every upstream *)

(** The calls [cs], made one after the other, all succeed. *)
Fixpoint accepted (before : list Call) (cs : list Call) : bool :=
  match cs with
  | [] => true
  | c :: cs' => is_ok (respond before c) && accepted (before ++ [c]) cs'
  end.

Lemma callUs_eq text i c w :
  callUs text i c w =
  (match respond (w_calls w) c with
   | Ok _ => Ok ()
   | Err e => Err (NewError InternalError ((text +:+ " on upstream " +:+ us_name w i) +:+ ": "
                +:+ rerror_string e))
   end, set_calls (w_calls w ++ [c]) w).
Proof.
  unfold callUs, amqpUs, amqpf, wrap, lib, mbind, stm_bind.
  by destruct (respond (w_calls w) c).
Qed.

Lemma set_calls_twice c1 c2 w : set_calls c2 (set_calls c1 w) = set_calls c2 w.
Proof. done. Qed.

Lemma set_calls_same w : set_calls (w_calls w) w = w.
Proof. by destruct w. Qed.

(** The loop of a handler that makes one call on each upstream: when all of them
    are accepted their list is the whole effect, else the calls up to the first
    refused one are, and the error is one that closes the client's connection. *)
Lemma eachCall_from text (mk : Handle -> Call) ics w :
  let cs := map (fun ic => mk ic.2) ics in
  let m := forM ics (fun ic => callUs text ic.1 (mk ic.2)) in
  if accepted (w_calls w) cs then m w = (Ok (), set_calls (w_calls w ++ cs) w)
  else exists msg made rest, cs = made ++ rest /\ made <> [] /\
       m w = (Err (NewError InternalError msg), set_calls (w_calls w ++ made) w).
Proof.
  cbv zeta. revert w. induction ics as [|[i ch] ics IH]; intros w.
  - simpl. rewrite app_nil_r, set_calls_same. done.
  - cbn [map accepted forM fst snd].
    pose proof (callUs_eq text i (mk ch) w) as C.
    destruct (respond (w_calls w) (mk ch)) as [a|e]; cbn [is_ok andb].
    + specialize (IH (set_calls (w_calls w ++ [mk ch]) w)). cbn [w_calls set_calls] in IH.
      rewrite (stm_bind_ok _ _ _ _ _ C).
      destruct (accepted _ _).
      * rewrite IH. by rewrite <- app_assoc.
      * destruct IH as (msg & made & rest & E1 & E2 & IH).
        exists msg, (mk ch :: made), rest. rewrite E1, IH, <- app_assoc. done.
    + exists ((text +:+ " on upstream " +:+ us_name w i) +:+ ": " +:+ rerror_string e), [mk ch], (map (fun ic => mk ic.2) ics).
      split_and!; [done..|]. by erewrite stm_bind_err by exact C.
Qed.

Lemma map_snd_imap {A B} (f : A -> B) l : map (fun ic : nat * A => f ic.2) (imap pair l) = map f l.
Proof.
  change (((fun ic : nat * A => f ic.2) <$> imap pair l) = f <$> l).
  rewrite fmap_imap. apply (imap_const f).
Qed.

Lemma eachCall text (mk : Handle -> Call) chs w :
  let cs := map mk chs in
  let m := eachChannel chs (fun i ch => callUs text i (mk ch)) in
  if accepted (w_calls w) cs then m w = (Ok (), set_calls (w_calls w ++ cs) w)
  else exists msg made rest, cs = made ++ rest /\ made <> [] /\
       m w = (Err (NewError InternalError msg), set_calls (w_calls w ++ made) w).
Proof.
  cbv zeta. pose proof (eachCall_from text mk (imap pair chs) w) as G.
  cbv zeta in G. rewrite map_snd_imap in G. exact G.
Qed.

(** A handler that makes one call on the channel of each upstream and then answers
    the client. *)
Definition broadcasts (id : Z) (mk : Handle -> Call) (answer : Method) (m : M ()) : Prop :=
  forall w,
  match channels_of w id with
  | None => exists t e, m w = (Err (Wrap t e), w)
  | Some chs =>
      if accepted (w_calls w) (map mk chs)
      then m w = send id answer (set_calls (w_calls w ++ map mk chs) w)
      else exists msg made rest, map mk chs = made ++ rest /\ made <> [] /\
           m w = (Err (NewError InternalError msg), set_calls (w_calls w ++ made) w)
  end.

Lemma broadcasts_intro id text mk answer :
  broadcasts id mk answer
    (chs ← GetChannels id;
     _ ← eachChannel chs (fun i ch => callUs text i (mk ch));
     send id answer).
Proof.
  intros w. pose proof (GetChannels_eq id w) as G.
  destruct (channels_of w id) as [chs|].
  - rewrite (stm_bind_ok _ _ _ _ _ G). pose proof (eachCall text mk chs w) as C. cbv zeta in C.
    destruct (accepted _ _).
    + by rewrite (stm_bind_ok _ _ _ _ _ C).
    + destruct C as (msg & made & rest & E1 & E2 & C). exists msg, made, rest.
      split_and!; [done..|]. by erewrite stm_bind_err by exact C.
  - destruct G as (t & e & G). exists t, e. by apply stm_bind_err.
Qed.

(** The handlers of the methods that concern every upstream make one call on
    the channel of each of them, in their order, with the client's arguments. When
    all are accepted the client is sent the answer; a refused call ends the loop with
    an error that closes the client's connection; without a channel on some upstream
    nothing happens. *)
Theorem broadcast_handlers id qd qb qp xd qos cancel :
  broadcasts id
    (fun ch => Ch_QueueDelete ch (QueueDelete_Queue qd) (QueueDelete_IfUnused qd)
                 (QueueDelete_IfEmpty qd) (QueueDelete_NoWait qd))
    (M_QueueDeleteOk {| QueueDeleteOk_MessageCount := 0 |}) (replyQueueDelete id qd) /\
  broadcasts id
    (fun ch => Ch_QueueBind ch (QueueBind_Queue qb) (QueueBind_RoutingKey qb)
                 (QueueBind_Exchange qb) (QueueBind_NoWait qb) (QueueBind_Arguments qb))
    (M_QueueBindOk mkQueueBindOk) (replyQueueBind id qb) /\
  broadcasts id (fun ch => Ch_QueuePurge ch (QueuePurge_Queue qp) true)
    (M_QueuePurgeOk {| QueuePurgeOk_MessageCount := 0 |}) (replyQueuePurge id qp) /\
  broadcasts id
    (fun ch => Ch_ExchangeDeclare ch (ExchangeDeclare_Exchange xd) (ExchangeDeclare_Type xd)
                 (ExchangeDeclare_Durable xd) (ExchangeDeclare_AutoDelete xd) false false
                 (ExchangeDeclare_Arguments xd))
    (M_ExchangeDeclareOk mkExchangeDeclareOk) (replyExchangeDeclare id xd) /\
  broadcasts id
    (fun ch => Ch_Qos ch (BasicQos_PrefetchCount qos) (BasicQos_PrefetchSize qos)
                 (BasicQos_Global qos))
    (M_BasicQosOk mkBasicQosOk) (replyBasicQos id qos) /\
  broadcasts id (fun ch => Ch_Cancel ch (BasicCancel_ConsumerTag cancel) false)
    (M_BasicCancelOk {| BasicCancelOk_ConsumerTag := BasicCancel_ConsumerTag cancel |})
    (replyBasicCancel id cancel).
Proof. split_and!; apply broadcasts_intro. Qed.

(** ** Declaring queues *)

(** [q] is what declaring [m] on [ch] gave for upstream [i] of [w], after the calls
    [cs]. *)
Definition declared_on (w : World) (m : QueueDeclare) (i : nat) (ch : Handle) (q : Queue) : Prop :=
  exists u cs s', upstreams (proxy w) !! i = Some u /\
    QueueDeclareWithTryPassive ch m {| us := u; calls := cs |} = (Ok q, s').

Definition total (f : Queue -> Z) (qs : list Queue) : Z := foldr (fun q n => f q + n) 0 qs.

Lemma onUpstream_ok {A} i (m : upstreamM A) w a w' :
  onUpstream i m w = (Ok a, w') ->
  (exists u s', upstreams (proxy w) !! i = Some u /\
     m {| us := u; calls := w_calls w |} = (Ok a, s')) /\
  forall k, k <> i -> upstreams (proxy w') !! k = upstreams (proxy w) !! k.
Proof.
  unfold onUpstream. destruct (upstreams (proxy w) !! i) as [u|] eqn:E; [|done].
  destruct (m _) as [r s'] eqn:Em. intros [= -> <-]. split; [eauto|].
  intros k Hk. simpl. by apply list_lookup_insert_ne.
Qed.

Lemma wrap_inv {S E E' A} (f : E -> E') (m : stm S E A) s a s' :
  wrap f m s = (Ok a, s') -> m s = (Ok a, s').
Proof. unfold wrap. destruct (m s) as [[?|?] ?]; [by intros [= -> ->]|done]. Qed.

Lemma swrap_mod32 z : swrap 64 z mod 2 ^ 32 = z mod 2 ^ 32.
Proof.
  unfold swrap. rewrite Zminus_mod, Z.mod_mod_divide by (by exists (2 ^ 32)).
  rewrite <- Zminus_mod. f_equal. lia.
Qed.

Lemma declareAll_ok i chs m messages consumers name w messages' consumers' name' w' :
  declareAll i chs m messages consumers name w = (Ok (messages', consumers', name'), w') ->
  exists qs, length qs = length chs /\
    (forall k ch q, chs !! k = Some ch -> qs !! k = Some q -> declared_on w m (i + k) ch q) /\
    messages' mod 2 ^ 32 = (messages + total Queue_Messages qs) mod 2 ^ 32 /\
    consumers' mod 2 ^ 32 = (consumers + total Queue_Consumers qs) mod 2 ^ 32 /\
    Forall (fun q => Queue_Name q = EmptyString \/ Queue_Name q = name') qs /\
    (name <> EmptyString -> name' = name).
Proof.
  revert i messages consumers name w. induction chs as [|ch chs IH];
    intros i messages consumers name w; cbn [declareAll].
  { intros [= -> -> -> <-]. exists []. simpl. by rewrite !Z.add_0_r. }
  intros (q & w1 & (D & K)%wrap_inv%onUpstream_ok & E)%stm_bind_inv.
  cbv zeta in E. case_decide as Hname; [done|].
  apply stm_bind_inv in E as ([] & w2 & (_ & K')%onUpstream_ok & E).
  apply IH in E as (qs & Hl & Hd & Hm & Hc & Hn & Hk). exists (q :: qs).
  split_and!.
  - simpl. by rewrite Hl.
  - intros [|k] ch' q' Hch Hq; simpl in Hch, Hq.
    + injection Hch as [= <-]. injection Hq as [= <-]. rewrite Nat.add_0_r.
      destruct D as (u & s' & Hu & D). by exists u, (w_calls w), s'.
    + destruct (Hd k ch' q' Hch Hq) as (u & cs & s' & Hu & D'). exists u, cs, s'.
      rewrite K', K in Hu by lia. by rewrite Nat.add_succ_r.
  - rewrite Hm. simpl. rewrite <- Z.add_mod_idemp_l, swrap_mod32, Z.add_mod_idemp_l by done.
    f_equal. lia.
  - rewrite Hc. simpl. rewrite <- Z.add_mod_idemp_l, swrap_mod32, Z.add_mod_idemp_l by done.
    f_equal. lia.
  - constructor; [|done]. case_decide as He.
    + destruct (decide (Queue_Name q = EmptyString)); [by left|]. right. symmetry. by apply Hk.
    + right. rewrite (Hk He). destruct (decide (name = Queue_Name q)); [done|]. by destruct Hname.
  - intros Hne. rewrite decide_False in Hk by done. by apply Hk.
Qed.

(** When a Queue.Declare succeeds, the queue was declared on the client's channel of
    every upstream, in the configured order, under the client's name or a generated one;
    all of them named the queue alike, and the client is sent this name with the sums, in
    32 bits, of the messages and of the consumers they reported. *)
Theorem replyQueueDeclare_sums id m w w' :
  replyQueueDeclare id m w = (Ok (), w') ->
  exists chs qs m' name w1,
    channels_of w id = Some chs /\ length qs = length chs /\
    m' = set_queue m (if decide (QueueDeclare_Queue m = EmptyString)
                      then AutoGenerateQueueNamePrefix +:+ generateID (draws w)
                      else QueueDeclare_Queue m) /\
    (forall k ch q, chs !! k = Some ch -> qs !! k = Some q -> declared_on w m' k ch q) /\
    Forall (fun q => Queue_Name q = EmptyString \/ Queue_Name q = name) qs /\
    send id (M_QueueDeclareOk {|
      QueueDeclareOk_Queue := name;
      QueueDeclareOk_MessageCount := total Queue_Messages qs mod 2 ^ 32;
      QueueDeclareOk_ConsumerCount := total Queue_Consumers qs mod 2 ^ 32 |}) w1 = (Ok (), w').
Proof.
  unfold replyQueueDeclare. intros (chs & w0 & G & E)%stm_bind_inv.
  pose proof (GetChannels_eq id w) as Hchs. destruct (channels_of w id) as [chs'|].
  2: { destruct Hchs as (t & e & Hchs). by rewrite Hchs in G. }
  rewrite Hchs in G. injection G as [= <- <-].
  apply stm_bind_inv in E as (m' & w1 & A & E).
  apply stm_bind_inv in E as ([[ms cs] name] & w2 & D & E).
  apply declareAll_ok in D as (qs & Hl & Hd & Hm & Hc & Hn & _).
  exists chs', qs, m', name, w2. unfold autoName in A.
  split_and!; [done|done| | |done|].
  - case_decide; injection A as [= <- <-]; [done|]. by destruct m.
  - intros k ch q Hk Hq. specialize (Hd k ch q Hk Hq).
    case_decide; by injection A as [= <- <-].
  - unfold uwrap in E. rewrite Hm, Hc in E. exact E.
Qed.

(** ** Publishing *)

(** What routing means: the first upstream with a matching pattern, else the
    first one. *)
Definition routed (key : string) (uss : list Upstream) (i : nat) : Prop :=
  (exists u, uss !! i = Some u /\ matches key u = true /\
     forall j u', (j < i)%nat -> uss !! j = Some u' -> matches key u' = false) \/
  (i = 0%nat /\ Forall (fun u => matches key u = false) uss).

Lemma route_routed key uss : routed key uss (route key uss).
Proof.
  unfold route. destruct (list_find (fun u => matches key u = true) uss) as [[i u]|] eqn:E.
  - apply list_find_Some in E as (E1 & E2 & E3). left. exists u. split_and!; [done..|].
    intros j u' Hj Hu'. apply not_true_is_false. by eapply E3.
  - apply list_find_None in E. right. split; [done|]. eapply Forall_impl; [exact E|].
    intros u. apply not_true_is_false.
Qed.

(** The upstream a message is published to is the first one, in the order of the
    configuration, with a pattern that matches the routing key, and the first
    upstream when none has; the same upstream's channel is returned. *)
Theorem GetChannelWithIndex_routes id key w :
  upstreams (proxy w) <> [] ->
  exists i u, routed key (upstreams (proxy w)) i /\ upstreams (proxy w) !! i = Some u /\
  match Upstream_channel u !! id with
  | Some ch => GetChannelWithIndex id key w = (Ok (ch, i), w)
  | None => exists e, GetChannelWithIndex id key w = (Err e, w)
  end.
Proof.
  intros Hne. set (uss := upstreams (proxy w)) in *. set (i := route key uss).
  pose proof (route_routed key uss) as R. fold i in R.
  assert (Hu : exists u, uss !! i = Some u).
  { destruct R as [(u & ? & _)|[-> _]]; [eauto|]. destruct uss as [|u us]; [done|]. by exists u. }
  destruct Hu as [u Hu]. exists i, u. split_and!; [done..|].
  unfold GetChannelWithIndex. rewrite gets_bind. fold uss. fold i.
  pose proof (onUpstream_GetChannel i u id w Hu) as G.
  destruct (Upstream_channel u !! id).
  - by rewrite (stm_bind_ok _ _ _ _ _ G).
  - eexists. by apply stm_bind_err.
Qed.

Lemma publish_at id key w u ch :
  upstreams (proxy w) !! route key (upstreams (proxy w)) = Some u ->
  Upstream_channel u !! id = Some ch ->
  GetChannelWithIndex id key w = (Ok (ch, route key (upstreams (proxy w))), w).
Proof.
  intros Hu Hch. unfold GetChannelWithIndex. rewrite gets_bind.
  pose proof (onUpstream_GetChannel _ u id w Hu) as G. rewrite Hch in G.
  by rewrite (stm_bind_ok _ _ _ _ _ G).
Qed.

(** The history event of a publish on a channel in confirm mode. *)
Definition publish_event (w : World) (i : nat) (ch : Handle) : event :=
  Publish (Z.of_nat i) (GetNextPublishSeqNo (w_calls w) ch).

Lemma replyBasicPublish_eq id m w u ch :
  let i := route (BasicPublish_RoutingKey m) (upstreams (proxy w)) in
  let c := Ch_Publish ch (BasicPublish_Exchange m) (BasicPublish_RoutingKey m)
             (BasicPublish_Mandatory m) (BasicPublish_Immediate m) (publishing m) in
  upstreams (proxy w) !! i = Some u -> Upstream_channel u !! id = Some ch ->
  exists r, replyBasicPublish id m w =
    (r, set_calls (w_calls w ++ [c])
          (match getConfirmState (proxy w) id with
           | Some cs => set_heap (alter (fun s => (confirm_step (publish_event w i ch) s).1) cs) w
           | None => w
           end)) /\
    (r = Ok () <-> is_ok (respond (w_calls w) c) = true).
Proof.
  cbv zeta. intros Hu Hch. pose proof (publish_at id _ w u ch Hu Hch) as G.
  unfold replyBasicPublish. rewrite (stm_bind_ok _ _ _ _ _ G).
  unfold recordPublish, amqpf, wrap, lib, publish_event, mbind, stm_bind. simpl.
  destruct (getConfirmState (proxy w) id) as [cs|]; simpl;
    destruct (respond (w_calls w) _); simpl; eexists; split; try done; by split.
Qed.

(** A publish is one call on the channel of the upstream it is routed to, with the
    client's exchange, key, flags, body and properties except the priority, and it is
    not answered; in confirm mode the number the library will give it is recorded first,
    and nothing else changes. *)
Theorem replyBasicPublish_effect id m w u ch :
  let i := route (BasicPublish_RoutingKey m) (upstreams (proxy w)) in
  let c := Ch_Publish ch (BasicPublish_Exchange m) (BasicPublish_RoutingKey m)
             (BasicPublish_Mandatory m) (BasicPublish_Immediate m) (publishing m) in
  upstreams (proxy w) !! i = Some u -> Upstream_channel u !! id = Some ch ->
  exists r, replyBasicPublish id m w =
    (r, set_calls (w_calls w ++ [c])
          (match getConfirmState (proxy w) id with
           | Some cs => set_heap (alter (fun s => (confirm_step (publish_event w i ch) s).1) cs) w
           | None => w
           end)) /\
    (r = Ok () <-> is_ok (respond (w_calls w) c) = true) /\
    Publishing_Priority (publishing m) = 0.
Proof.
  cbv zeta. intros Hu Hch. destruct (replyBasicPublish_eq id m w u ch Hu Hch) as (r & E & Hr).
  exists r. by split_and!.
Qed.

(** ** Acknowledging *)

Lemma restoreTag_ok d s i w :
  d = p_newDelivery w i -> (i < length (upstreams (proxy w)))%nat ->
  Z.of_nat (length (upstreams (proxy w))) < 2 ^ 31 -> in_uint 64 s = true ->
  s * Z.of_nat (length (upstreams (proxy w))) + Z.of_nat i < 2 ^ 64 ->
  restoreTag (Tag d s) w = (Ok (s, Z.of_nat i), w).
Proof.
  intros -> Hi Hn Hs Hb. unfold restoreTag.
  rewrite Tag_mod by (apply wf_delivery_spec; simpl; lia). cbn [delivery_n delivery_i p_newDelivery newDelivery].
  apply in_uint_spec in Hs.
  rewrite Z.mod_small by nia. rewrite restoreDeliveryTag_small by lia.
  by destruct (restore_quot_rem s (Z.of_nat i) (Z.of_nat (length (upstreams (proxy w)))) ltac:(lia))
    as [-> ->].
Qed.

Lemma GetChannelByDeliveryTag_ok id d s i w chs ch :
  d = p_newDelivery w i -> (i < length (upstreams (proxy w)))%nat ->
  Z.of_nat (length (upstreams (proxy w))) < 2 ^ 31 -> in_uint 64 s = true ->
  s * Z.of_nat (length (upstreams (proxy w))) + Z.of_nat i < 2 ^ 64 ->
  channels_of w id = Some chs -> chs !! i = Some ch ->
  GetChannelByDeliveryTag id (Tag d s) w = (Ok ch, w).
Proof.
  intros Hd Hi Hn Hs Hb Hc Hch. unfold GetChannelByDeliveryTag.
  rewrite (stm_bind_ok _ _ _ _ _ (GetChannels_ok id w chs Hc)).
  rewrite (stm_bind_ok _ _ _ _ _ (restoreTag_ok d s i w Hd Hi Hn Hs Hb)). cbn [snd].
  apply lookup_lt_Some in Hch as Hlt.
  rewrite (proj2 (Z.leb_gt _ _)) by lia. by rewrite Nat2Z.id, Hch.
Qed.

(** C20: when the client acknowledges or rejects a delivery with the tag it was given
    for it, the upstream that made the delivery is told so on the client's channel,
    with its own tag and the client's flags, and no other upstream hears of it. *)
Theorem ack_round_trip id d s i w chs ch multiple requeue :
  d = p_newDelivery w i -> (i < length (upstreams (proxy w)))%nat ->
  Z.of_nat (length (upstreams (proxy w))) < 2 ^ 31 -> in_uint 64 s = true ->
  s * Z.of_nat (length (upstreams (proxy w))) + Z.of_nat i < 2 ^ 64 ->
  channels_of w id = Some chs -> chs !! i = Some ch ->
  replyBasicAck id {| BasicAck_DeliveryTag := Tag d s; BasicAck_Multiple := multiple |} w
    = lib (Ch_Ack ch s multiple) w /\
  replyBasicNack id {| BasicNack_DeliveryTag := Tag d s; BasicNack_Multiple := multiple;
                       BasicNack_Requeue := requeue |} w
    = lib (Ch_Nack ch s multiple requeue) w.
Proof.
  intros Hd Hi Hn Hs Hb Hc Hch.
  pose proof (GetChannelByDeliveryTag_ok id d s i w chs ch Hd Hi Hn Hs Hb Hc Hch) as G.
  pose proof (restoreTag_ok d s i w Hd Hi Hn Hs Hb) as R.
  assert (U : UpstreamDeliveryTag (Tag d s) w = (Ok s, w)).
  { unfold UpstreamDeliveryTag. by rewrite (stm_bind_ok _ _ _ _ _ R). }
  split; unfold replyBasicAck, replyBasicNack; cbn [BasicAck_DeliveryTag BasicNack_DeliveryTag];
    by rewrite (stm_bind_ok _ _ _ _ _ G), (stm_bind_ok _ _ _ _ _ U).
Qed.

(** An acknowledgement of everything so far (tag 0 with the flag [multiple])
    is passed on to the first upstream only. *)
Theorem ack_all_first id w chs ch :
  upstreams (proxy w) <> [] -> Z.of_nat (length (upstreams (proxy w))) < 2 ^ 31 ->
  channels_of w id = Some (ch :: chs) ->
  replyBasicAck id {| BasicAck_DeliveryTag := 0; BasicAck_Multiple := true |} w
    = lib (Ch_Ack ch 0 true) w.
Proof.
  intros Hne Hn Hc.
  assert (Hl : (0 < length (upstreams (proxy w)))%nat)
    by (destruct (upstreams (proxy w)); [done|simpl; lia]).
  assert (E : Tag (p_newDelivery w 0) 0 = 0).
  { rewrite Tag_mod by (apply wf_delivery_spec; simpl; lia). done. }
  pose proof (GetChannelByDeliveryTag_ok id _ 0 0 w _ ch eq_refl Hl Hn eq_refl ltac:(lia) Hc eq_refl) as G.
  pose proof (restoreTag_ok _ 0 0 w eq_refl Hl Hn eq_refl ltac:(lia)) as R.
  rewrite E in G, R. unfold replyBasicAck, UpstreamDeliveryTag. cbn [BasicAck_DeliveryTag].
  rewrite (stm_bind_ok _ _ _ _ _ G). cbn [BasicAck_Multiple].
  rewrite (stm_bind_ok _ _ w 0 w); [done|]. by rewrite (stm_bind_ok _ _ _ _ _ R).
Qed.

(** ** Getting messages *)

Definition get_call (m : BasicGet) (chs : list Handle) (i : nat) : Call :=
  Ch_Get (nth i chs 0) (BasicGet_Queue m) (BasicGet_NoAck m).

(** The upstreams [ns], asked one after the other, have no message. *)
Fixpoint empties (m : BasicGet) (chs : list Handle) (before : list Call) (ns : list nat) : bool :=
  match ns with
  | [] => true
  | i :: ns' =>
      match respond before (Ch_Get (nth i chs 0) (BasicGet_Queue m) (BasicGet_NoAck m)) with
      | Ok None => empties m chs (before ++ [get_call m chs i]) ns'
      | _ => false
      end
  end.

(** The answer with a message of the upstream of [d]. *)
Definition getOk (d : delivery) (msg : Delivery) : Method := M_BasicGetOk {|
  BasicGetOk_DeliveryTag := Tag d (Delivery_DeliveryTag msg);
  BasicGetOk_Redelivered := Delivery_Redelivered msg;
  BasicGetOk_Exchange := Delivery_Exchange msg;
  BasicGetOk_RoutingKey := Delivery_RoutingKey msg;
  BasicGetOk_MessageCount := uwrap 32 (Delivery_MessageCount msg);
  BasicGetOk_Properties := deliveryToProps msg;
  BasicGetOk_Body := Delivery_Body msg |}.

(** Asking upstream [i] for a message. *)
Lemma getFrom_ask id m i ns w chs :
  channels_of w id = Some chs -> (i < length (upstreams (proxy w)))%nat ->
  let w1 := set_calls (w_calls w ++ [get_call m chs i]) w in
  match respond (w_calls w) (Ch_Get (nth i chs 0) (BasicGet_Queue m) (BasicGet_NoAck m)) with
  | Ok None => getFrom id m (i :: ns) w = getFrom id m ns w1
  | Ok (Some msg) =>
      getFrom id m (i :: ns) w =
        (_ ← ignoring (send id (getOk (p_newDelivery w i) msg)); mret true) w1
  | Err e => exists msg, getFrom id m (i :: ns) w = (Err (NewError InternalError msg), w1)
  end.
Proof.
  intros Hc Hi. cbv zeta. destruct (lookup_lt_is_Some_2 _ _ Hi) as [u Hu].
  destruct (channels_lookup w id chs i u Hc Hu) as (ch & Hch & Hn). cbn [getFrom].
  pose proof (onUpstream_GetChannel i u id w Hu) as G. rewrite Hch in G.
  unfold get_call. rewrite Hn.
  rewrite (stm_bind_ok _ _ w ch w) by (by apply wrap_ok).
  destruct (respond (w_calls w) _) as [[msg|]|e] eqn:E.
  - erewrite stm_bind_ok; [|apply wrap_ok; unfold lib; by rewrite E]. done.
  - erewrite stm_bind_ok; [|apply wrap_ok; unfold lib; by rewrite E]. done.
  - eexists. erewrite stm_bind_err; [|eapply wrap_err; unfold lib; by rewrite E]. done.
Qed.

Lemma getFrom_empties id m ns rest w chs :
  channels_of w id = Some chs -> Forall (fun i => i < length (upstreams (proxy w)))%nat ns ->
  empties m chs (w_calls w) ns = true ->
  getFrom id m (ns ++ rest) w =
  getFrom id m rest (set_calls (w_calls w ++ map (get_call m chs) ns) w).
Proof.
  revert w. induction ns as [|i ns IH]; intros w Hc Hns.
  { simpl. by rewrite app_nil_r, set_calls_same. }
  apply Forall_cons in Hns as [Hi Hns]. cbn [empties app].
  pose proof (getFrom_ask id m i (ns ++ rest) w chs Hc Hi) as A. cbv zeta in A.
  destruct (respond _ _) as [[|]|]; [done| |done]. intros He. rewrite A.
  rewrite (IH (set_calls (w_calls w ++ [get_call m chs i]) w)) by done.
  rewrite set_calls_twice. cbn [w_calls set_calls map]. by rewrite <- app_assoc.
Qed.

(** A Basic.Get asks the upstreams one after the other, in the order drawn, on the
    client's channel: the first message found is sent to the client with the tag of its
    upstream and no other upstream is asked; when none has a message all were asked and the
    client is sent Get-Empty. *)
Theorem replyBasicGet_asks id m w chs ns :
  channels_of w id = Some chs ->
  rand_Perm (draws w) (length (upstreams (proxy w))) = ns ->
  ns ≡ₚ seq 0 (length (upstreams (proxy w))) ->
  let after asked :=
    set_calls (w_calls w ++ map (get_call m chs) asked) (set_draws (S (draws w)) w) in
  (empties m chs (w_calls w) ns = true ->
     replyBasicGet id m w =
     amqpf io_text InternalError "failed to send Basic.GetEmpty"
       (send id (M_BasicGetEmpty {| BasicGetEmpty_reserved1 := EmptyString |})) (after ns)) /\
  (forall pre i post msg, ns = pre ++ i :: post ->
     empties m chs (w_calls w) pre = true ->
     respond (w_calls w ++ map (get_call m chs) pre)
       (Ch_Get (nth i chs 0) (BasicGet_Queue m) (BasicGet_NoAck m)) = Ok (Some msg) ->
     replyBasicGet id m w =
     ignoring (send id (getOk (p_newDelivery w i) msg)) (after (pre ++ [i]))).
Proof.
  intros Hc Hr Hp. cbv zeta. set (w0 := set_draws (S (draws w)) w).
  assert (Hns : Forall (fun i => i < length (upstreams (proxy w0)))%nat ns).
  { rewrite Hp. apply Forall_seq. simpl. lia. }
  assert (Hrand : randPerm w = (Ok ns, w0)) by (unfold randPerm; by rewrite Hr).
  unfold replyBasicGet. rewrite (stm_bind_ok _ _ _ _ _ Hrand). split.
  - intros He. pose proof (getFrom_empties id m ns [] w0 chs Hc Hns He) as G.
    rewrite app_nil_r in G. by rewrite (stm_bind_ok _ _ _ _ _ G).
  - intros pre i post msg -> He Hm.
    apply Forall_app in Hns as [Hpre [Hi _]%Forall_cons].
    pose proof (getFrom_empties id m pre (i :: post) w0 chs Hc Hpre He) as G.
    set (w1 := set_calls _ w0) in G.
    pose proof (getFrom_ask id m i post w1 chs Hc Hi) as A. cbv zeta in A.
    change (w_calls w1) with (w_calls w ++ map (get_call m chs) pre) in A. rewrite Hm in A.
    rewrite map_app, app_assoc. rewrite A in G. clear A.
    change (set_calls _ w1) with
      (set_calls ((w_calls w ++ map (get_call m chs) pre) ++ [get_call m chs i]) w0) in G.
    cbn [map]. unfold mbind, stm_bind in G |- *. rewrite G.
    by destruct (ignoring _ _) as [[[]|e] w2].
Qed.

(** ** Confirms *)

(** The message for an answer of [confirm_step]. *)
Definition confirmMessage (ta : Z * bool) : Method :=
  if ta.2 then M_BasicAck {| BasicAck_DeliveryTag := ta.1; BasicAck_Multiple := false |}
  else M_BasicNack {| BasicNack_DeliveryTag := ta.1; BasicNack_Multiple := false;
                      BasicNack_Requeue := false |}.

(** A turn of [listenConfirm] is the step of the confirm state for the upstream's
    confirmation: the state is updated and the client is sent the ack or nack of the
    answer, if there is one. *)
Lemma listenConfirm_step channelID ui cs tag ack w s :
  heap w !! cs = Some s ->
  listenConfirm channelID ui cs tag ack w =
  (let (s', answers) := confirm_step (Confirmed ui tag ack) s in
   forM answers (fun ta => send channelID (confirmMessage ta)) (set_heap <[cs := s']> w)).
Proof.
  intros Hs. unfold listenConfirm. rewrite Hs. unfold confirm_step.
  destruct (LookupClientTag s ui tag) as [[t []] s']; simpl; [|done].
  unfold mbind, stm_bind, confirmMessage. simpl.
  by destruct ack; destruct (send _ _ _) as [[[]|e] w'].
Qed.

Lemma publish_refused id m w :
  upstreams (proxy w) !! route (BasicPublish_RoutingKey m) (upstreams (proxy w))
    ≫= (fun u => Upstream_channel u !! id) = None ->
  (replyBasicPublish id m w).2 = w.
Proof.
  intros E. unfold replyBasicPublish, GetChannelWithIndex.
  destruct (upstreams (proxy w) !! _) as [u|] eqn:Hu; simpl in E.
  - pose proof (onUpstream_GetChannel _ u id w Hu) as G. rewrite E in G.
    unfold mbind, stm_bind, gets. simpl. by rewrite G.
  - unfold mbind, stm_bind, gets, onUpstream. simpl. by rewrite Hu.
Qed.

(** The turns that work on a confirm state: the client publishes, or an upstream's
    confirmation arrives at its listener. *)
Inductive turn : Type :=
| Publishes (m : BasicPublish)
| Confirms (ui tag : Z) (ack : bool).

Definition do_turn (id : Z) (cs : nat) (t : turn) : M () :=
  match t with
  | Publishes m => replyBasicPublish id m
  | Confirms ui tag ack => listenConfirm id ui cs tag ack
  end.

(** The event that a turn is for the confirm state; a publish without a channel is
    refused and is none. *)
Definition turn_event (id : Z) (w : World) (t : turn) : list event :=
  match t with
  | Publishes m =>
      let i := route (BasicPublish_RoutingKey m) (upstreams (proxy w)) in
      match upstreams (proxy w) !! i ≫= (fun u => Upstream_channel u !! id) with
      | Some ch => [publish_event w i ch]
      | None => []
      end
  | Confirms ui tag ack => [Confirmed ui tag ack]
  end.

Fixpoint turns (id : Z) (cs : nat) (ts : list turn) (w : World) : World * list event :=
  match ts with
  | [] => (w, [])
  | t :: ts' =>
      let (w', es) := turns id cs ts' (do_turn id cs t w).2 in (w', turn_event id w t ++ es)
  end.

(** What the turns say to the client. *)
Definition says (id : Z) (answers : list (Z * bool)) (w w' : World) : Prop :=
  exists bs, frames_bytes (map (fun ta => methodFrame id (confirmMessage ta)) answers) = Ok bs /\
    sent (wire w') ++ wbuf (wire w') = sent (wire w) ++ wbuf (wire w) ++ bs.

Lemma says_nil id w w' : wire w' = wire w -> says id [] w w'.
Proof. intros E. exists []. by rewrite E, app_nil_r. Qed.

Lemma says_app id a1 a2 w1 w2 w3 : says id a1 w1 w2 -> says id a2 w2 w3 -> says id (a1 ++ a2) w1 w3.
Proof.
  intros (b1 & E1 & S1) (b2 & E2 & S2). exists (b1 ++ b2). split.
  - rewrite map_app. clear S1. revert b1 E1.
    induction a1 as [|ta a1 IH]; intros b1; [by intros [= <-]|].
    intros (c1 & c2 & F1 & F2 & ->)%frames_bytes_cons. apply frames_bytes_cons.
    exists c1, (c2 ++ b2). rewrite <- app_assoc. split_and!; [done|by apply IH|done].
  - rewrite S2, app_assoc, S1. by rewrite <- !app_assoc.
Qed.

Lemma confirmMessage_encodes id ta : exists b, Frame_Write (methodFrame id (confirmMessage ta)) = Ok b.
Proof. destruct ta as [t []]; by eexists. Qed.

Lemma send_answer id ta w :
  (forall s p, conn_Write s p = None) -> werr (wire w) = None ->
  exists w', send id (confirmMessage ta) w = (Ok (), w') /\ says id [ta] w w' /\
    werr (wire w') = None /\ frame_of w' = frame_of w.
Proof.
  intros Ha Hw. destruct (confirmMessage_encodes id ta) as [b Hb].
  assert (Hc : Method_GetContent (confirmMessage ta) = None) by (by destruct ta as [t []]).
  destruct (send_plain id (confirmMessage ta) w b Ha Hc Hw Hb) as (v & S & V1 & V2 & V3).
  eexists. split_and!; [exact S| |done|].
  - exists b. split; [apply frames_bytes_cons; exists b, []; by rewrite app_nil_r|].
    simpl. by rewrite V2, app_nil_r.
  - done.
Qed.

(** A turn is the step of the confirm state for its event. *)
Lemma do_turn_step id cs t w s :
  (forall s p, conn_Write s p = None) -> werr (wire w) = None ->
  getConfirmState (proxy w) id = Some cs -> heap w !! cs = Some s ->
  let (s', answers) := confirm_run (turn_event id w t) s in
  let w' := (do_turn id cs t w).2 in
  heap w' !! cs = Some s' /\ proxy w' = proxy w /\ werr (wire w') = None /\ says id answers w w'.
Proof.
  intros Ha Hw Hcs Hs. destruct t as [m|ui tag ack]; cbn [turn_event do_turn].
  - destruct (upstreams (proxy w) !! _) as [u|] eqn:Hu; simpl;
      [destruct (Upstream_channel u !! id) as [ch|] eqn:Hch; simpl|].
    + destruct (replyBasicPublish_eq id m w u ch Hu Hch) as (r & -> & _).
      rewrite Hcs. simpl. split_and!; [by rewrite list_lookup_alter_eq, Hs|done|done|by apply says_nil].
    + rewrite (publish_refused id m w) by (by rewrite Hu). by split_and!; [..|apply says_nil].
    + rewrite (publish_refused id m w) by (by rewrite Hu). by split_and!; [..|apply says_nil].
  - cbn [confirm_run]. pose proof (listenConfirm_step id ui cs tag ack w s Hs) as L.
    rewrite L. clear L. destruct (confirm_step _ s) as [s' answers] eqn:E.
    assert (Hl : answers = [] \/ exists ta, answers = [ta]).
    { simpl in E. destruct (LookupClientTag s ui tag) as [[t []] s1];
        injection E as [= _ <-]; eauto. }
    assert (Hi : <[cs := s']> (heap w) !! cs = Some s')
      by (apply list_lookup_insert_eq; by eapply lookup_lt_Some).
    destruct Hl as [->|[ta ->]]; simpl; [by split_and!; [..|apply says_nil]|].
    destruct (send_answer id ta (set_heap <[cs := s']> w) Ha Hw) as (w' & S & V1 & V2 & V3).
    rewrite (stm_bind_ok _ _ _ _ _ S). simpl. unfold frame_of in V3. simpl in V3.
    injection V3 as [= V3 _ _ _ V4 _ _]. rewrite V4. by split_and!.
Qed.

(** C6: a channel in confirm mode implements the confirm state: whatever the order in
    which the client's publishes and the upstreams' confirmations are handled, the state
    the proxy keeps is that of [confirm_run] on their events, and the client is sent the
    acks and nacks of its answers, in their order and nothing else. *)
Theorem confirms_refine id cs ts w s w' es :
  (forall s p, conn_Write s p = None) -> werr (wire w) = None ->
  getConfirmState (proxy w) id = Some cs -> heap w !! cs = Some s ->
  turns id cs ts w = (w', es) ->
  heap w' !! cs = Some (confirm_run es s).1 /\ proxy w' = proxy w /\
  says id (confirm_run es s).2 w w'.
Proof.
  intros Ha. revert w s w' es. induction ts as [|t ts IH]; intros w s w' es Hw Hcs Hs; cbn [turns].
  { intros [= <- <-]. split_and!; [done|done|by apply says_nil]. }
  destruct (turns id cs ts _) as [w2 es2] eqn:E. intros [= <- <-].
  pose proof (do_turn_step id cs t w s Ha Hw Hcs Hs) as D. rewrite confirm_run_app.
  destruct (confirm_run (turn_event id w t) s) as [s1 a1]. destruct D as (D1 & D2 & D3 & D4).
  specialize (IH _ s1 w2 es2 D3 ltac:(by rewrite D2) D1 E) as (I1 & I2 & I3).
  destruct (confirm_run es2 s1) as [s2 a2]. split_and!; [done|by rewrite I2|].
  by eapply says_app.
Qed.

Lemma keeps_callee {A} (P : World -> Prop) text i (m : M A) :
  keeps P m -> keeps P (amqpUs text i m).
Proof. intros Hm w Hw. unfold amqpUs, amqpf. by apply keeps_wrap. Qed.

Lemma keeps_lib (P : World -> Prop) c :
  (forall w cs, P w -> P (set_calls cs w)) -> keeps P (lib c).
Proof. intros HP w Hw. unfold lib. by apply HP. Qed.

(** A second [Confirm.Select] on a channel starts a new numbering: the
    channel's confirm state becomes a fresh one, where the next publish gets tag 1. *)
Theorem replyConfirmSelect_fresh id m w w' :
  replyConfirmSelect id m w = (Ok (), w') ->
  getConfirmState (proxy w') id = Some (length (heap w)) /\
  heap w' !! length (heap w) = Some newConfirmState /\
  forall ui ut, (RecordPublish newConfirmState ui ut).1 = 1.
Proof.
  unfold replyConfirmSelect. intros (chs & w1 & G & E)%stm_bind_inv.
  assert (w1 = w) as ->.
  { pose proof (GetChannels_eq id w) as G'. destruct (channels_of w id).
    - rewrite G' in G. by injection G as [= _ <-].
    - destruct G' as (t & e & G'). by rewrite G' in G. }
  apply stm_bind_inv in E as (cs & w2 & N & E). injection N as [= <- <-].
  apply stm_bind_inv in E as ([] & w3 & L & E).
  assert (K : heap w3 = heap w ++ [newConfirmState]).
  { change w3 with ((@Ok goerror _ (), w3).2). rewrite <- L.
    apply (keeps_forM (fun w0 => heap w0 = heap w ++ [newConfirmState])); [|done].
    intros [i ch]. apply keeps_bind; [by apply keeps_callee, keeps_lib|]. intros [].
    apply keeps_bind; [by apply keeps_lib|]. intros []. by apply keeps_modify. }
  rewrite modify_bind in E.
  assert (F : proxy w' = setConfirmState id (length (heap w)) (proxy w3) /\ heap w' = heap w3).
  { destruct (ConfirmSelect_Nowait m); [by injection E as [= <-]|].
    pose proof (send_frame_of id (M_ConfirmSelectOk mkConfirmSelectOk)
      (set_proxy (setConfirmState id (length (heap w))) w3)) as F.
    rewrite E in F. unfold frame_of in F. simpl in F. by injection F as [= -> _ _ _ -> _ _]. }
  destruct F as [-> ->]. rewrite K. split_and!; [|by apply list_lookup_middle|done].
  unfold getConfirmState, setConfirmState. simpl. apply lookup_insert_eq.
Qed.
End Replies.

(** ** Concrete requests *)

Definition idle : World := sampleWorld 131072 [] EOF.

Lemma GetChannelWithIndex_routes_witness :
  exists i u, routed "test.a" (upstreams (proxy idle)) i /\ upstreams (proxy idle) !! i = Some u /\
  match Upstream_channel u !! 1 with
  | Some ch => GetChannelWithIndex 1 "test.a" idle = (Ok (ch, i), idle)
  | None => exists e, GetChannelWithIndex 1 "test.a" idle = (Err e, idle)
  end.
Proof. apply (GetChannelWithIndex_routes 1 "test.a" idle). discriminate. Defined.

Definition publishToTest : BasicPublish := {|
  BasicPublish_reserved1 := 0; BasicPublish_Exchange := "logs"; BasicPublish_RoutingKey := "test.a";
  BasicPublish_Mandatory := false; BasicPublish_Immediate := false;
  BasicPublish_Properties := HeaderFrame_Properties
    {| HeaderFrame_ChannelId := 0; HeaderFrame_ClassId := 0; HeaderFrame_weight := 0;
       HeaderFrame_Size := 0; HeaderFrame_Properties := deliveryToProps {|
         Delivery_Headers := None; Delivery_ContentType := "text/plain";
         Delivery_ContentEncoding := EmptyString; Delivery_DeliveryMode := 2;
         Delivery_Priority := 5; Delivery_CorrelationId := EmptyString;
         Delivery_ReplyTo := EmptyString; Delivery_Expiration := EmptyString;
         Delivery_MessageId := EmptyString; Delivery_Timestamp := zeroTime;
         Delivery_Type := EmptyString; Delivery_UserId := EmptyString;
         Delivery_AppId := EmptyString; Delivery_MessageCount := 0; Delivery_DeliveryTag := 0;
         Delivery_Redelivered := false; Delivery_Exchange := EmptyString;
         Delivery_RoutingKey := EmptyString; Delivery_Body := [] |} |};
  BasicPublish_Body := bytes_of "hi" |}.

Lemma replyBasicPublish_effect_witness :
  let c := Ch_Publish 10 "logs" "test.a" false false (publishing publishToTest) in
  exists r, @replyBasicPublish acceptingEnv 1 publishToTest idle =
    (r, set_calls [c] (set_heap (alter (fun s =>
          (confirm_step (@publish_event acceptingEnv idle 0 10) s).1) 0%nat) idle)) /\
    (r = Ok () <-> is_ok (@respond acceptingBroker [] c) = true) /\
    Publishing_Priority (publishing publishToTest) = 0.
Proof.
  apply (@replyBasicPublish_effect acceptingEnv 1 publishToTest idle
    (sampleUpstream "primary" false true) 10); reflexivity.
Defined.

Lemma replyQueueDeclare_sums_witness :
  exists w', @replyQueueDeclare acceptingEnv 1 sampleDeclare idle = (Ok (), w') /\
  exists chs qs m' name w1,
    channels_of idle 1 = Some chs /\ length qs = length chs /\
    m' = set_queue sampleDeclare "test" /\
    (forall k ch q, chs !! k = Some ch -> qs !! k = Some q ->
       @declared_on acceptingEnv idle m' k ch q) /\
    Forall (fun q => Queue_Name q = EmptyString \/ Queue_Name q = name) qs /\
    @send acceptingEnv 1 (M_QueueDeclareOk {|
      QueueDeclareOk_Queue := name;
      QueueDeclareOk_MessageCount := total Queue_Messages qs mod 2 ^ 32;
      QueueDeclareOk_ConsumerCount := total Queue_Consumers qs mod 2 ^ 32 |}) w1 = (Ok (), w').
Proof.
  eexists. split; [vm_compute; reflexivity|].
  apply (@replyQueueDeclare_sums acceptingEnv 1 sampleDeclare idle). vm_compute. reflexivity.
Defined.

Lemma ack_round_trip_witness :
  let d := p_newDelivery idle 1 in
  @replyBasicAck acceptingEnv 1 {| BasicAck_DeliveryTag := Tag d 41; BasicAck_Multiple := true |} idle
    = @lib acceptingEnv (Ch_Ack 10 41 true) idle /\
  @replyBasicNack acceptingEnv 1 {| BasicNack_DeliveryTag := Tag d 41; BasicNack_Multiple := true;
                                    BasicNack_Requeue := false |} idle
    = @lib acceptingEnv (Ch_Nack 10 41 true false) idle.
Proof.
  apply (@ack_round_trip acceptingEnv 1 (p_newDelivery idle 1) 41 1 idle [10; 10] 10);
    first [reflexivity | simpl; lia].
Defined.

Lemma ack_all_first_witness :
  @replyBasicAck acceptingEnv 1 {| BasicAck_DeliveryTag := 0; BasicAck_Multiple := true |} idle
    = @lib acceptingEnv (Ch_Ack 10 0 true) idle.
Proof. apply (@ack_all_first acceptingEnv 1 idle [10] 10); [discriminate|simpl; lia|reflexivity]. Defined.

Lemma confirms_refine_witness :
  let ts := [Publishes publishToTest; Publishes publishToTest; Confirms 0 2 true; Confirms 0 1 false] in
  exists w' es, @turns acceptingEnv 1 0 ts idle = (w', es) /\
    heap w' !! 0%nat = Some (confirm_run es newConfirmState).1 /\ proxy w' = proxy idle /\
    says 1 [(2, true); (1, false)] idle w'.
Proof.
  do 2 eexists. split; [vm_compute; reflexivity|].
  eapply (@confirms_refine acceptingEnv 1 0
    [Publishes publishToTest; Publishes publishToTest; Confirms 0 2 true; Confirms 0 1 false] idle);
    [reflexivity|reflexivity|reflexivity|reflexivity|vm_compute; reflexivity].
Defined.

Lemma replyBasicGet_asks_witness :
  let m := mkBasicGet 0 "test" true in
  let after asked := set_calls (map (get_call m [10; 10]) asked) (set_draws 1%nat idle) in
  (@empties acceptingEnv m [10; 10] [] [0; 1]%nat = true ->
     @replyBasicGet acceptingEnv 1 m idle =
     amqpf (@io_text acceptingEnv) InternalError "failed to send Basic.GetEmpty"
       (@send acceptingEnv 1 (M_BasicGetEmpty {| BasicGetEmpty_reserved1 := EmptyString |}))
       (after [0; 1]%nat)) /\
  (forall pre i post msg, [0; 1]%nat = pre ++ i :: post ->
     @empties acceptingEnv m [10; 10] [] pre = true ->
     @respond acceptingBroker (map (get_call m [10; 10]) pre)
       (Ch_Get (nth i [10; 10] 0) "test" true) = Ok (Some msg) ->
     @replyBasicGet acceptingEnv 1 m idle =
     @ignoring (@send acceptingEnv 1 (getOk (p_newDelivery idle i) msg)) (after (pre ++ [i]))).
Proof.
  apply (@replyBasicGet_asks acceptingEnv 1 (mkBasicGet 0 "test" true) idle [10; 10] [0; 1]%nat);
    reflexivity.
Defined.
