(* ===== verification/Dispatch.v ===== *)
(** * The conversation with the client

    [proxy.go]: the handshake, the dispatch of the frames of an open connection to
    the handlers, and the messages that end a connection. *)

From stdpp Require Import pretty.
From S2P Require Import Prelude Bytes Fields MsgBase MsgChannel MsgConnection MsgExchange MsgQueue.
From S2P Require Import MsgBasic MsgTx Methods Frames Auth Wire Errors Broker Config Pattern.
From S2P Require Import Delivery Confirm Upstream Proxy Transfer Handlers Replies.
From S2P Require Import Stats.

(** [server.go], [version.go]. *)
Definition ChannelMax : Z := 1023.
Definition HeartbeatInterval : Z := 60.
Definition FrameMax : Z := 128 * 1024.
Definition Version : string := "v0.0.19".

(** [strings.TrimPrefix]. *)
Definition TrimPrefix (s prefix : string) : string :=
  if String.prefix prefix s
  then String.substring (String.length prefix) (String.length s - String.length prefix) s
  else s.

(** The maps' keys in the order of the literals. *)
Definition serverProperties : Table := Some [
  ("product", VString "trabbits");
  ("version", VString (TrimPrefix Version "v"));
  ("platform", VString "Go");
  ("capabilities", VTable [("publisher_confirms", VBool true); ("basic.nack", VBool true)])
]%string.

Definition newTuned : tuned :=
  {| channelMax := ChannelMax; frameMax := FrameMax; heartbeat := HeartbeatInterval |}.

Section Dispatch.
Context `{Env}.

(** ** Handshake *)

Definition set_client (props : Table) (p : Proxy) : Proxy := {|
  VirtualHost := VirtualHost p; upstreams := upstreams p; user := user p;
  password := password p; clientProps := props; confirmStates := confirmStates p;
  shutdownMessage := shutdownMessage p; p_tuned := p_tuned p |}.

Definition set_user (up : string * string) (p : Proxy) : Proxy := {|
  VirtualHost := VirtualHost p; upstreams := upstreams p; user := up.1;
  password := up.2; clientProps := clientProps p; confirmStates := confirmStates p;
  shutdownMessage := shutdownMessage p; p_tuned := p_tuned p |}.

Definition set_tuned (t : tuned) (p : Proxy) : Proxy := {|
  VirtualHost := VirtualHost p; upstreams := upstreams p; user := user p;
  password := password p; clientProps := clientProps p; confirmStates := confirmStates p;
  shutdownMessage := shutdownMessage p; p_tuned := t |}.

Definition set_vhost (vhost : string) (p : Proxy) : Proxy := {|
  VirtualHost := vhost; upstreams := upstreams p; user := user p;
  password := password p; clientProps := clientProps p; confirmStates := confirmStates p;
  shutdownMessage := shutdownMessage p; p_tuned := p_tuned p |}.

(** [p.user, p.password, err = ...]: a failed parse assigns empty strings; the text
    of its error, which is only logged, also has the response. *)
Definition authenticate (r : result auth_error (string * string)) (mechanism : string) : M () :=
  match r with
  | Ok up => modify (set_proxy (set_user up))
  | Err InvalidResponse =>
      _ ← modify (set_proxy (set_user (EmptyString, EmptyString)));
      throw (Wrap ("failed to parse " +:+ mechanism +:+ " auth response")
               (Errorf "invalid auth response"))
  | Err AuthPanic => throw GoPanic
  end.

Definition auth (m : ConnectionStartOk) : M () :=
  let response := ConnectionStartOk_Response m in
  if decide (ConnectionStartOk_Mechanism m = "PLAIN"%string) then
    authenticate (ParsePLAINAuthResponse response) "PLAIN"
  else if decide (ConnectionStartOk_Mechanism m = "AMQPLAIN"%string) then
    authenticate (ParseAMQPLAINAuthResponse response) "AMQPLAIN"
  else throw (Errorf ("unsupported auth mechanism: " +:+ ConnectionStartOk_Mechanism m)).

(** The client's limits replace the proxy's unless they are zero; its heartbeat
    always does. *)
Definition tune (m : ConnectionTuneOk) (t : tuned) : tuned := {|
  channelMax := if 0 <? ConnectionTuneOk_ChannelMax m
                then ConnectionTuneOk_ChannelMax m else channelMax t;
  frameMax := if 0 <? ConnectionTuneOk_FrameMax m
              then ConnectionTuneOk_FrameMax m else frameMax t;
  heartbeat := ConnectionTuneOk_Heartbeat m |}.

Definition start : Method := M_ConnectionStart {|
  ConnectionStart_VersionMajor := 0; ConnectionStart_VersionMinor := 9;
  ConnectionStart_ServerProperties := serverProperties;
  ConnectionStart_Mechanisms := "PLAIN"; ConnectionStart_Locales := "en_US" |}.

Definition tuneMessage : Method := M_ConnectionTune {|
  ConnectionTune_ChannelMax := ChannelMax; ConnectionTune_FrameMax := FrameMax;
  ConnectionTune_Heartbeat := HeartbeatInterval |}.

Definition zeroStartOk : ConnectionStartOk :=
  mkConnectionStartOk None EmptyString EmptyString EmptyString.
Definition zeroTuneOk : ConnectionTuneOk := mkConnectionTuneOk 0 0 0.
Definition zeroOpen : ConnectionOpen := mkConnectionOpen EmptyString EmptyString false.

(** [recv] gives back a message of the type it was asked for. *)
Definition recvStartOk : M ConnectionStartOk :=
  m ← wrapf "failed to read Connection.Start-Ok" (recv 0 (M_ConnectionStartOk zeroStartOk));
  match m with M_ConnectionStartOk m => mret m | _ => throw GoPanic end.
Definition recvTuneOk : M ConnectionTuneOk :=
  m ← wrapf "failed to read Connection.Tune-Ok" (recv 0 (M_ConnectionTuneOk zeroTuneOk));
  match m with M_ConnectionTuneOk m => mret m | _ => throw GoPanic end.
Definition recvOpen : M ConnectionOpen :=
  m ← wrapf "failed to read Connection.Open" (recv 0 (M_ConnectionOpen zeroOpen));
  match m with M_ConnectionOpen m => mret m | _ => throw GoPanic end.

Definition handshake : M () :=
  _ ← wrapf "failed to write Connection.Start" (send 0 start);
  startOk ← recvStartOk;
  _ ← modify (set_proxy (set_client (ConnectionStartOk_ClientProperties startOk)));
  _ ← auth startOk;
  _ ← wrapf "failed to write Connection.Tune" (send 0 tuneMessage);
  tuneOk ← recvTuneOk;
  _ ← modify (set_proxy (fun p => set_tuned (tune tuneOk (p_tuned p)) p));
  open ← recvOpen;
  _ ← modify (set_proxy (set_vhost (ConnectionOpen_VirtualHost open)));
  wrapf "failed to write Connection.Open-Ok"
    (send 0 (M_ConnectionOpenOk {| ConnectionOpenOk_reserved1 := EmptyString |})).

(** ** Dispatch *)

Definition dispatch0 (frame : Frame) : M () :=
  match frame with
  | F_Method f =>
      match MethodFrame_Method f with
      | Some (M_ConnectionClose _) => replyConnectionClose
      | _ => throw (Errorf "unsupported method")
      end
  | F_Heartbeat _ => mret ()
  | _ => throw (Errorf "unsupported frame")
  end.

(** The header and body frames of a message with content. *)
Definition recvContent (channel : Z) (m : Method) : M Method :=
  match Method_GetContent m with
  | None => mret m
  | Some _ =>
      wrap (onError (fun e => NewError FrameError
              ("failed to read frames: " +:+ Error_string io_text e)))
        (recv channel m)
  end.

Definition handler (id : Z) (m : Method) : M () :=
  match m with
  | M_ChannelOpen m => replyChannelOpen id m
  | M_ChannelClose m => replyChannelClose id m
  | M_QueueDeclare m => replyQueueDeclare id m
  | M_QueueDelete m => replyQueueDelete id m
  | M_QueueBind m => replyQueueBind id m
  | M_QueueUnbind m => replyQueueUnbind id m
  | M_QueuePurge m => replyQueuePurge id m
  | M_ExchangeDeclare m => replyExchangeDeclare id m
  | M_BasicPublish m => replyBasicPublish id m
  | M_BasicConsume m => replyBasicConsume id m
  | M_BasicGet m => replyBasicGet id m
  | M_BasicAck m => replyBasicAck id m
  | M_BasicNack m => replyBasicNack id m
  | M_BasicCancel m => replyBasicCancel id m
  | M_BasicQos m => replyBasicQos id m
  | M_ConfirmSelect m => replyConfirmSelect id m
  | _ => throw (NewError NotImplemented
           ("unsupported method: " +:+ TypeName (type_string (struct_name m))))
  end.

Definition dispatchN (frame : Frame) : M () :=
  match frame with
  | F_Method f =>
      match MethodFrame_Method f with
      | None => throw GoPanic
      | Some m =>
          m ← recvContent (MethodFrame_ChannelId f) m;
          _ ← modify (set_stats (IncrementMethod (TypeName (type_string (struct_name m)))));
          handler (MethodFrame_ChannelId f) m
      end
  | F_Heartbeat _ => mret ()
  | _ => throw (Errorf "unsupported frame")
  end.

(** What [process] does with the error of a dispatch. *)
Definition answerError (channel : Z) (m : M ()) : M () := fun w =>
  match m w with
  | (Ok _, w') => (Ok (), w')
  | (Err e, w') =>
      match as_AMQPError e with
      | Some a => send channel (AMQPMessage a) w'
      | None => (Err e, w')
      end
  end.

Definition dispatch_frame (frame : Frame) : M () :=
  if Channel frame =? 0 then dispatch0 frame else dispatchN frame.

(** One turn of the loop of a connection; a passed read deadline is no error. *)
Definition process : M () := fun w =>
  match readClientFrame w with
  | (Err (IOErr ErrTimeout), w') => (Ok (), w')
  | (Err e, w') => (Err (onError (Wrap "failed to read frame") e), w')
  | (Ok frame, w') =>
      answerError (Channel frame) (dispatch_frame frame)
        (set_stats IncrementReceivedFrames w')
  end.

(** ** The end of a connection *)

(** The answer to a [Connection.Close] is awaited; what comes of it is only
    logged. *)
Definition awaitCloseOk : M () :=
  ignoring (_ ← recv 0 (M_ConnectionCloseOk mkConnectionCloseOk); mret ()).

Definition closeMessage (code : Z) (text : string) : Method := M_ConnectionClose {|
  ConnectionClose_ReplyCode := code; ConnectionClose_ReplyText := text;
  ConnectionClose_ClassId := 0; ConnectionClose_MethodId := 0 |}.

Definition shutdown : M () :=
  text ← gets (fun w => shutdownMessage (proxy w));
  _ ← wrapf "failed to write Connection.Close" (send 0 (closeMessage 200 text));
  awaitCloseOk.

Definition sendConnectionError (code : Z) (message : string) : M () :=
  _ ← send 0 (closeMessage code (AMQPError_string code message));
  awaitCloseOk.

(** A turn of [runHeartbeat] when the timer fires; on an error it shuts the
    connection down, whatever comes of that, and ends. *)
Definition heartbeatTick : M () := fun w =>
  match sendFrame (WriteFrame conn_Write) "HeartbeatFrame"
          (F_Heartbeat {| HeartbeatFrame_ChannelId := 0 |}) w with
  | (Ok _, w') => (Ok (), w')
  | (Err e, w') => if is_panic e then (Err e, w') else ignoring shutdown w'
  end.
End Dispatch.

(** ** Proofs *)

Section Proofs.
Context `{Env}.

(** A message of the client and what the proxy reads. *)
Lemma recv_plain m0 m bs rest w :
  struct_name m0 = struct_name m -> Method_wf m = true -> Method_GetContent m = None ->
  Frame_Write (methodFrame 0 m) = Ok bs -> data (input w) = bs ++ rest ->
  recv 0 m0 w = (Ok (Method_canon m), with_input rest w).
Proof.
  intros Hn Hwf Hc Hbs Hd.
  unfold recv.
  assert (W1 : Frame_wf (methodFrame 0 m) = true) by (unfold Frame_wf, methodFrame; simpl; by rewrite Hwf).
  by rewrite (recvLoop_own _ 0 m0 m _ _ _ bs rest w eq_refl Hn W1 Hbs Hd), Hc.
Qed.

Lemma start_encodes : is_ok (Frame_Write (methodFrame 0 start)) = true.
Proof. by vm_compute. Qed.
Lemma tune_encodes : is_ok (Frame_Write (methodFrame 0 tuneMessage)) = true.
Proof. by vm_compute. Qed.

Definition openOk : Method := M_ConnectionOpenOk {| ConnectionOpenOk_reserved1 := EmptyString |}.

Lemma is_ok_inv {E A} (r : result E A) : is_ok r = true -> exists a, r = Ok a.
Proof. destruct r; [eauto|done]. Qed.

(** What the proxy knows after a handshake with these messages. *)
Definition after_handshake (so : ConnectionStartOk) (up : string * string)
  (tk : ConnectionTuneOk) (op : ConnectionOpen) (p : Proxy) : Proxy :=
  set_vhost (ConnectionOpen_VirtualHost op)
    (set_tuned (tune tk (p_tuned p))
      (set_user up (set_client (canonTable (ConnectionStartOk_ClientProperties so)) p))).

Lemma recvStartOk_reads so bs rest w :
  Method_wf (M_ConnectionStartOk so) = true ->
  Frame_Write (methodFrame 0 (M_ConnectionStartOk so)) = Ok bs -> data (input w) = bs ++ rest ->
  recvStartOk w = (Ok (canon so), with_input rest w).
Proof.
  intros W E Hd. unfold recvStartOk.
  by rewrite (stm_bind_ok _ _ _ _ _ (wrapf_ok _ _ _ _ _ (recv_plain
    (M_ConnectionStartOk zeroStartOk) (M_ConnectionStartOk so) bs rest w eq_refl W eq_refl E Hd))).
Qed.

Lemma recvTuneOk_reads tk bs rest w :
  Method_wf (M_ConnectionTuneOk tk) = true ->
  Frame_Write (methodFrame 0 (M_ConnectionTuneOk tk)) = Ok bs -> data (input w) = bs ++ rest ->
  recvTuneOk w = (Ok (canon tk), with_input rest w).
Proof.
  intros W E Hd. unfold recvTuneOk.
  by rewrite (stm_bind_ok _ _ _ _ _ (wrapf_ok _ _ _ _ _ (recv_plain
    (M_ConnectionTuneOk zeroTuneOk) (M_ConnectionTuneOk tk) bs rest w eq_refl W eq_refl E Hd))).
Qed.

Lemma recvOpen_reads op bs rest w :
  Method_wf (M_ConnectionOpen op) = true ->
  Frame_Write (methodFrame 0 (M_ConnectionOpen op)) = Ok bs -> data (input w) = bs ++ rest ->
  recvOpen w = (Ok (canon op), with_input rest w).
Proof.
  intros W E Hd. unfold recvOpen.
  by rewrite (stm_bind_ok _ _ _ _ _ (wrapf_ok _ _ _ _ _ (recv_plain
    (M_ConnectionOpen zeroOpen) (M_ConnectionOpen op) bs rest w eq_refl W eq_refl E Hd))).
Qed.

(** A response that parses for the mechanism the client chose. *)
Lemma auth_ok so up w :
  (ConnectionStartOk_Mechanism so = "PLAIN"%string /\
     ParsePLAINAuthResponse (ConnectionStartOk_Response so) = Ok up) \/
  (ConnectionStartOk_Mechanism so = "AMQPLAIN"%string /\
     ParseAMQPLAINAuthResponse (ConnectionStartOk_Response so) = Ok up) ->
  auth (canon so) w = (Ok (), set_proxy (set_user up) w).
Proof.
  unfold auth. intros [[Hm Hp]|[Hm Hp]]; cbn [canon ConnectionStartOk_ok
    ConnectionStartOk_canon ConnectionStartOk_Mechanism ConnectionStartOk_Response];
    by rewrite Hm, Hp.
Qed.

(** C17: a client that answers the handshake with well-formed messages and a PLAIN or
    AMQPLAIN response that parses is sent Start, Tune and Open-Ok, complete and in that
    order; the proxy then knows its properties, user, password, virtual host and limits,
    has consumed exactly the three answers and has made no call to an upstream. *)
Theorem handshake_completes w so up tk op b1 b2 b3 rest :
  (forall s p, conn_Write s p = None) -> werr (wire w) = None ->
  Method_wf (M_ConnectionStartOk so) = true -> Method_wf (M_ConnectionTuneOk tk) = true ->
  Method_wf (M_ConnectionOpen op) = true ->
  (ConnectionStartOk_Mechanism so = "PLAIN"%string /\
     ParsePLAINAuthResponse (ConnectionStartOk_Response so) = Ok up) \/
  (ConnectionStartOk_Mechanism so = "AMQPLAIN"%string /\
     ParseAMQPLAINAuthResponse (ConnectionStartOk_Response so) = Ok up) ->
  Frame_Write (methodFrame 0 (M_ConnectionStartOk so)) = Ok b1 ->
  Frame_Write (methodFrame 0 (M_ConnectionTuneOk tk)) = Ok b2 ->
  Frame_Write (methodFrame 0 (M_ConnectionOpen op)) = Ok b3 ->
  data (input w) = b1 ++ b2 ++ b3 ++ rest ->
  exists w' bs, handshake w = (Ok (), w') /\
    proxy w' = after_handshake so up tk op (proxy w) /\
    input w' = Stream rest (fin (input w)) /\ w_calls w' = w_calls w /\
    frames_bytes [methodFrame 0 start; methodFrame 0 tuneMessage; methodFrame 0 openOk] = Ok bs /\
    sent (wire w') = sent (wire w) ++ wbuf (wire w) ++ bs /\ wbuf (wire w') = [].
Proof.
  intros Ha Hw W1 W2 W3 Hauth E1 E2 E3 Hd.
  destruct (is_ok_inv _ start_encodes) as [c1 C1], (is_ok_inv _ tune_encodes) as [c2 C2].
  assert (C3 : exists c3, Frame_Write (methodFrame 0 openOk) = Ok c3) by (by eexists).
  destruct C3 as [c3 C3].
  destruct (send_plain 0 start w c1 Ha eq_refl Hw C1) as (v1 & S1 & V1 & V1' & V1'').
  set (w1 := set_stats IncrementSentFrames (set_wire v1 w)) in *.
  set (w2 := set_proxy (set_user up) (set_proxy (set_client
    (canonTable (ConnectionStartOk_ClientProperties so))) (with_input (b2 ++ b3 ++ rest) w1))).
  destruct (send_plain 0 tuneMessage w2 c2 Ha eq_refl V1 C2) as (v2 & S2 & V2 & V2' & V2'').
  set (w3 := set_stats IncrementSentFrames (set_wire v2 w2)) in *.
  set (w4 := set_proxy (fun p => set_tuned (tune tk (p_tuned p)) p) (with_input (b3 ++ rest) w3)).
  set (w5 := set_proxy (set_vhost (ConnectionOpen_VirtualHost op)) (with_input rest w4)).
  destruct (send_plain 0 openOk w5 c3 Ha eq_refl V2 C3) as (v3 & S3 & V3 & V3' & V3'').
  exists (set_stats IncrementSentFrames (set_wire v3 w5)), (c1 ++ c2 ++ c3). split.
  - unfold handshake. rewrite (stm_bind_ok _ _ _ _ _ (wrapf_ok _ _ _ _ _ S1)).
    rewrite (stm_bind_ok _ _ _ _ _ (recvStartOk_reads so b1 _ w1 W1 E1 Hd)), modify_bind.
    rewrite (stm_bind_ok _ _ _ _ _ (auth_ok so up _ Hauth)).
    rewrite (stm_bind_ok _ _ _ _ _ (wrapf_ok _ _ _ _ _ S2)).
    rewrite (stm_bind_ok _ _ _ _ _ (recvTuneOk_reads tk b2 _ w3 W2 E2 eq_refl)), modify_bind.
    rewrite (stm_bind_ok _ _ _ _ _ (recvOpen_reads op b3 _ w4 W3 E3 eq_refl)), modify_bind.
    exact (wrapf_ok _ _ _ _ _ S3).
  - split_and!; [done..| | |done].
    + apply frames_bytes_cons. exists c1, (c2 ++ c3). split_and!; [done| |done].
      apply frames_bytes_cons. exists c2, c3. split_and!; [done| |done].
      apply frames_bytes_cons. exists c3, []. by rewrite app_nil_r.
    + cbn [wire set_stats set_wire]. rewrite V3''. change (wire w5) with v2.
      rewrite V2', V2''. change (wire w2) with v1. rewrite V1', V1''. simpl.
      by rewrite <- !app_assoc.
Qed.

(** ** The messages of the client *)

Lemma Method_GetContent_canon m :
  Method_GetContent m = None -> Method_GetContent (Method_canon m) = None.
Proof.
  intros E. pose proof (GetContent_canon m) as G. rewrite E in G.
  by destruct (Method_GetContent (Method_canon m)).
Qed.

(** The content frames that follow a method frame. *)
Lemma recvContent_some id fm class m props body bs rest w :
  8 < fm < 2 ^ 32 -> in_uint 16 id = true -> Method_GetContent m = Some (props, body) ->
  Frame_wf (headerFrame id class props body) = true -> Z.of_nat (length body) < 2 ^ 63 ->
  frames_bytes (headerFrame id class props body :: bodyFrames id fm body) = Ok bs ->
  data (input w) = bs ++ rest ->
  exists m', received m = Some m' /\ recvContent id (Method_canon m) w = (Ok m', with_input rest w).
Proof.
  intros Hfm Hid Ec Hwf Hb E Hd. destruct (SetContent_received m props body Ec) as (m' & Hm' & Hset).
  exists m'. split; [done|]. unfold recvContent. pose proof (GetContent_canon m) as Hg. rewrite Ec in Hg.
  destruct (Method_GetContent (Method_canon m)); [|done]. apply wrap_ok. unfold recv.
  rewrite (recvLoop_content _ id fm class _ _ _ props body bs rest w Hfm Hid Hwf Hb E Hd).
  - by rewrite setContent_eq, Hset.
  - rewrite Hd, length_app. apply frames_bytes_length in E; [simpl in E; lia|].
    apply Forall_true. intros f b. apply Frame_Write_nonempty.
Qed.

Lemma recvContent_none id m w :
  Method_GetContent m = None -> recvContent id (Method_canon m) w = (Ok (Method_canon m), w).
Proof. intros Ec. unfold recvContent. by rewrite Method_GetContent_canon. Qed.

Lemma received_name m m' : received m = Some m' -> struct_name m' = struct_name m.
Proof.
  unfold received. destruct (Method_GetContent m) as [[props body]|].
  - destruct m; simpl; try discriminate; by intros [= <-].
  - intros [= <-]. apply struct_name_canon.
Qed.

(** A turn on a method frame of a channel of the client, from what [recvContent] gives. *)
Lemma process_method w id m m' b1 b2 rest :
  in_uint 16 id = true -> id <> 0 -> Frame_wf (methodFrame id m) = true ->
  Frame_Write (methodFrame id m) = Ok b1 -> data (input w) = b1 ++ b2 ++ rest ->
  received m = Some m' ->
  recvContent id (Method_canon m) (set_stats IncrementReceivedFrames (with_input (b2 ++ rest) w))
    = (Ok m', set_stats IncrementReceivedFrames (with_input rest w)) ->
  process w = answerError id (handler id m')
    (set_stats (fun s => IncrementMethod (struct_name m) (IncrementReceivedFrames s))
      (with_input rest w)).
Proof.
  intros Hid Hid0 Hwf Hb1 Hd Hm' R. unfold process.
  rewrite (readClientFrame_reads _ _ _ _ Hwf Hb1 Hd).
  assert (Hch : Frame_canon (methodFrame id m) = F_Method {|
    MethodFrame_ChannelId := id; MethodFrame_ClassId := (Method_ID m).1;
    MethodFrame_MethodId := (Method_ID m).2; MethodFrame_Method := Some (Method_canon m) |})
    by (simpl; by destruct (Method_ID m)).
  rewrite Hch. unfold answerError, dispatch_frame. cbn [Channel MethodFrame_ChannelId].
  rewrite (proj2 (Z.eqb_neq id 0)) by done. unfold dispatchN.
  cbn [MethodFrame_Method MethodFrame_ChannelId].
  rewrite (stm_bind_ok _ _ _ _ _ R), modify_bind, TypeName_struct, (received_name m m' Hm').
  done.
Qed.

(** C4: a well-formed message of the client on a channel of its own, with the header and
    body frames of its content, is one turn of the loop: the bytes of its frames are
    consumed, the method is counted, its handler is run on the message as it was sent, and
    an error of the handler that AMQP knows is sent to the client as a close. *)
Theorem process_message w id fm m bs rest :
  8 < fm < 2 ^ 32 -> in_uint 16 id = true -> id <> 0 ->
  Forall (fun f => Frame_wf f = true) (messageFrames id fm m) ->
  match Method_GetContent m with
  | Some (_, body) => Z.of_nat (length body) < 2 ^ 63 | None => True end ->
  frames_bytes (messageFrames id fm m) = Ok bs -> data (input w) = bs ++ rest ->
  exists m', received m = Some m' /\
    process w = answerError id (handler id m')
      (set_stats (fun s => IncrementMethod (struct_name m) (IncrementReceivedFrames s))
        (with_input rest w)).
Proof.
  intros Hfm Hid Hid0 Hwf Hb E Hd. revert Hwf E. unfold messageFrames.
  destruct (Method_GetContent m) as [[props body]|] eqn:Ec.
  - intros [W1 [W2 _]%Forall_cons]%Forall_cons (b1 & b2 & E1 & E2 & ->)%frames_bytes_cons.
    rewrite <- app_assoc in Hd.
    destruct (recvContent_some id fm _ m props body b2 rest
      (set_stats IncrementReceivedFrames (with_input (b2 ++ rest) w)) Hfm Hid Ec W2 Hb E2 eq_refl)
      as (m' & Hm' & R).
    exists m'. split; [done|]. by apply (process_method w id m m' b1 b2 rest).
  - intros [W1 _]%Forall_cons (b1 & b2 & E1 & [= <-] & ->)%frames_bytes_cons.
    rewrite app_nil_r in Hd. assert (Hm' : received m = Some (Method_canon m))
      by (unfold received; by rewrite Ec).
    exists (Method_canon m). split; [done|].
    apply (process_method w id m _ b1 [] rest); try done. by apply recvContent_none.
Qed.

(** ** Errors of a turn *)

(** The messages of the client that have a handler. *)
Definition handled : list string := [
  "ChannelOpen"; "ChannelClose"; "QueueDeclare"; "QueueDelete"; "QueueBind"; "QueueUnbind";
  "QueuePurge"; "ExchangeDeclare"; "BasicPublish"; "BasicConsume"; "BasicGet"; "BasicAck";
  "BasicNack"; "BasicCancel"; "BasicQos"; "ConfirmSelect"
]%string.

Lemma handler_unsupported id m w :
  struct_name m ∉ handled ->
  handler id m w = (Err (NewError NotImplemented ("unsupported method: " +:+ struct_name m)), w).
Proof.
  destruct m; intros Hn;
    first [exfalso; apply Hn; by apply (bool_decide_unpack _) | done].
Qed.

(** A method without a handler on a channel of the client is answered with a
    [Connection.Close] of code 540 that names it, sent on that channel; the turn returns
    nil, so the loop goes on with what follows the frame, and no upstream is called. *)
Theorem process_unsupported w id m bs rest cl :
  (forall s p, conn_Write s p = None) -> werr (wire w) = None ->
  in_uint 16 id = true -> id <> 0 -> Method_wf m = true -> Method_GetContent m = None ->
  struct_name m ∉ handled ->
  Frame_Write (methodFrame id m) = Ok bs -> data (input w) = bs ++ rest ->
  Frame_Write (methodFrame id (closeMessage 540 ("unsupported method: " +:+ struct_name m)))
    = Ok cl ->
  exists w', process w = (Ok (), w') /\ wbuf (wire w') = [] /\
    sent (wire w') = sent (wire w) ++ wbuf (wire w) ++ cl /\
    data (input w') = rest /\ w_calls w' = w_calls w /\ proxy w' = proxy w.
Proof.
  intros Ha Hw Hid Hid0 Hwf Hc Hn Hbs Hd Hcl.
  assert (Hf : Frame_wf (methodFrame id m) = true)
    by (unfold Frame_wf, methodFrame; simpl; by rewrite Hwf, Hid).
  assert (Hm' : received m = Some (Method_canon m)) by (unfold received; by rewrite Hc).
  rewrite (process_method w id m _ bs [] rest Hid Hid0 Hf Hbs Hd Hm')
    by (by apply recvContent_none).
  rewrite <- struct_name_canon in Hn. unfold answerError.
  rewrite (handler_unsupported _ _ _ Hn), struct_name_canon.
  set (w1 := set_stats _ _).
  destruct (send_plain id (closeMessage 540 ("unsupported method: " +:+ struct_name m)%string) w1 cl
              Ha eq_refl Hw Hcl) as (v & S & _ & V & V').
  exists (set_stats IncrementSentFrames (set_wire v w1)). by split_and!; [exact S|..].
Qed.

(** When the read deadline passes within the first seven bytes of a frame, the turn
    returns nil and these bytes are gone: the next turn starts to parse in the middle of
    the frame. *)
Theorem process_timeout_drops w s l :
  (length (data (input w)) < 7)%nat -> fin (input w) = ErrTimeout -> later w = s :: l ->
  process w = (Ok (), set_input s l w).
Proof.
  intros Hlt Hfin Hl. unfold process, readClientFrame, ReadFrame, ReadFull, mbind, reader_bind.
  rewrite (proj2 (Z.leb_gt _ _)) by lia. rewrite Hfin.
  by destruct (data (input w)); simpl; rewrite Hl.
Qed.
End Proofs.

(** ** Concrete conversations *)

Definition sampleStartOk : ConnectionStartOk :=
  mkConnectionStartOk (Some [("product", VString "client")]%string) "PLAIN"
    (String NUL ("guest" +:+ String NUL "secret")) "en_US".
Definition sampleTuneOk : ConnectionTuneOk := mkConnectionTuneOk 100 4096 30.
Definition sampleOpen : ConnectionOpen := mkConnectionOpen "/" EmptyString false.

Lemma handshake_completes_witness :
  exists b1 b2 b3,
    Frame_Write (methodFrame 0 (M_ConnectionStartOk sampleStartOk)) = Ok b1 /\
    Frame_Write (methodFrame 0 (M_ConnectionTuneOk sampleTuneOk)) = Ok b2 /\
    Frame_Write (methodFrame 0 (M_ConnectionOpen sampleOpen)) = Ok b3 /\
  let w := sampleWorld FrameMax (b1 ++ b2 ++ b3 ++ bytes_of "rest") EOF in
  exists w' bs, @handshake acceptingEnv w = (Ok (), w') /\
    proxy w' = after_handshake sampleStartOk ("guest", "secret")%string sampleTuneOk sampleOpen (proxy w) /\
    input w' = Stream (bytes_of "rest") EOF /\ w_calls w' = w_calls w /\
    frames_bytes [methodFrame 0 start; methodFrame 0 tuneMessage; methodFrame 0 openOk] = Ok bs /\
    sent (wire w') = bs /\ wbuf (wire w') = [].
Proof.
  do 3 eexists. do 3 (split; [vm_compute; reflexivity|]).
  intros w. eapply (@handshake_completes acceptingEnv w sampleStartOk ("guest", "secret")%string
    sampleTuneOk sampleOpen _ _ _ (bytes_of "rest"));
    [reflexivity|reflexivity|reflexivity|reflexivity|reflexivity
    |left; split; [reflexivity|vm_compute; reflexivity]
    |vm_compute; reflexivity|vm_compute; reflexivity|vm_compute; reflexivity|reflexivity].
Defined.

Lemma process_unsupported_witness :
  let m := M_TxSelect mkTxSelect in
  exists bs cl, Frame_Write (methodFrame 1 m) = Ok bs /\
    Frame_Write (methodFrame 1 (closeMessage 540 "unsupported method: TxSelect")) = Ok cl /\
  let w := sampleWorld FrameMax bs EOF in
  exists w', @process acceptingEnv w = (Ok (), w') /\ wbuf (wire w') = [] /\
    sent (wire w') = cl /\ data (input w') = [] /\ w_calls w' = [] /\ proxy w' = proxy w.
Proof.
  do 2 eexists. do 2 (split; [vm_compute; reflexivity|]).
  intros w. eapply (@process_unsupported acceptingEnv w 1 (M_TxSelect mkTxSelect));
    [reflexivity|reflexivity|reflexivity|discriminate|reflexivity|reflexivity| 
    |vm_compute; reflexivity|symmetry; apply app_nil_r|vm_compute; reflexivity].
  apply (bool_decide_unpack _). vm_compute. exact I.
Defined.

Lemma process_message_witness :
  let m := samplePublish sampleTable (bytes_of "hello world") in
  exists bs, frames_bytes (messageFrames 1 12 m) = Ok bs /\
  let w := sampleWorld FrameMax (bs ++ bytes_of "rest") EOF in
  exists m', received m = Some m' /\
    @process acceptingEnv w = @answerError acceptingEnv 1 (@handler acceptingEnv 1 m')
      (set_stats (fun s => IncrementMethod "BasicPublish" (IncrementReceivedFrames s))
        (with_input (bytes_of "rest") w)).
Proof.
  eexists. split; [vm_compute; reflexivity|]. intros w.
  eapply (@process_message acceptingEnv w 1 12 (samplePublish sampleTable (bytes_of "hello world")));
    [lia|reflexivity|discriminate| |vm_compute; reflexivity|vm_compute; reflexivity|reflexivity].
  apply (bool_decide_unpack _). vm_compute. exact I.
Defined.
