(* ===== verification/Sorting.v ===== *)
(** * [sort.Slice] and [sort.SliceStable]

    Go sorts up to twelve elements by insertion, written out here because the program
    calls it with a comparison that tosses coins; what it does with more elements is an
    interface ([Pdq]) with the documented laws. *)

From stdpp Require Import sorting.
From S2P Require Import Prelude.

(** A comparison gets the number of the next coin and says how many it used. *)
Definition comparison A : Type := A -> A -> nat -> bool * nat.

(** One that uses no coin. *)
Definition pure_less {A} (lt : A -> A -> bool) : comparison A := fun x y k => (lt x y, k).

(** The order that [lt] leaves: [y] is not less than [x]. *)
Definition not_after {A} (lt : A -> A -> bool) (x y : A) : Prop := lt y x = false.

(** Elements are only exchanged; for a strict weak order the result is sorted. *)
Class Pdq : Type := {
  pdqsort : forall {A}, comparison A -> list A -> nat -> list A * nat;
  pdqsort_perm : forall A (less : comparison A) l k, (pdqsort less l k).1 ≡ₚ l;
  pdqsort_sorted : forall A (lt : A -> A -> bool) l k,
    Transitive (not_after lt) -> (forall x y, lt x y = true -> lt y x = false) ->
    StronglySorted (not_after lt) (pdqsort (pure_less lt) l k).1
}.

Section Insertion.
Context {A : Type} (less : comparison A).

(** The inner loop of the insertion sort: [x] moves down the sorted part [rp], which is
    given from its end, as long as it is less. *)
Fixpoint sink (x : A) (rp : list A) (k : nat) : list A * nat :=
  match rp with
  | [] => ([x], k)
  | y :: rest =>
      let (b, k') := less x y k in
      if b then let (r, k'') := sink x rest k' in (y :: r, k'') else (x :: y :: rest, k')
  end.

Definition insertionSort (l : list A) (k : nat) : list A * nat :=
  let (rp, k') := foldl (fun s x => sink x s.1 s.2) ([], k) l in (rev rp, k').

Definition maxInsertion : nat := 12.

Definition sortSlice `{Pdq} (l : list A) (k : nat) : list A * nat :=
  if (length l <=? maxInsertion)%nat then insertionSort l k else pdqsort less l k.
End Insertion.

Lemma StronglySorted_rev {A} (R : A -> A -> Prop) l :
  StronglySorted (flip R) l -> StronglySorted R (rev l).
Proof.
  induction 1 as [|x l _ IH Hx]; simpl; [constructor|].
  apply StronglySorted_app_2; [|done|by repeat constructor].
  intros a b Ha Hb. apply list_elem_of_singleton in Hb as ->.
  rewrite Forall_forall in Hx. apply Hx. by rewrite <- (Permutation_rev l) in Ha.
Qed.

Section InsertionProofs.
Context {A : Type} (less : comparison A).

Lemma sink_perm x rp k : (sink less x rp k).1 ≡ₚ x :: rp.
Proof.
  revert k; induction rp as [|y rest IH]; intros k; simpl; [done|].
  destruct (less x y k) as [[|] k']; simpl; [|done].
  specialize (IH k'). destruct (sink less x rest k'). simpl in *. rewrite IH. constructor.
Qed.

Lemma sinks_perm l rp k : (foldl (fun s x => sink less x s.1 s.2) (rp, k) l).1 ≡ₚ rp ++ l.
Proof.
  revert rp k. induction l as [|x l IH]; intros rp k; simpl; [by rewrite app_nil_r|].
  pose proof (sink_perm x rp k) as Hp. destruct (sink less x rp k) as [rp' k'].
  simpl in *. rewrite IH, Hp. exact (Permutation_middle rp l x).
Qed.

Lemma insertionSort_perm l k : (insertionSort less l k).1 ≡ₚ l.
Proof.
  unfold insertionSort. pose proof (sinks_perm l [] k) as Hp.
  destruct (foldl _ _ l). simpl in *. by rewrite <- Permutation_rev.
Qed.

Context (R : A -> A -> Prop) `{!Transitive R}.

(** [less] decides [R], in one direction or the other. *)
Definition decides : Prop := forall x y k,
  if (less x y k).1 then R x y else R y x.

Lemma sink_sorted x rp k : decides ->
  StronglySorted (flip R) rp -> StronglySorted (flip R) (sink less x rp k).1.
Proof.
  intros Hd. revert k; induction rp as [|y rest IH]; intros k; simpl; [by repeat constructor|].
  specialize (Hd x y k) as Hxy. destruct (less x y k) as [[|] k']; simpl in *; intros HS.
  - apply StronglySorted_inv in HS as [Hrest Hy]. specialize (IH k' Hrest).
    pose proof (sink_perm x rest k') as Hp. destruct (sink less x rest k'). simpl in *.
    constructor; [done|]. rewrite Hp. by constructor.
  - constructor; [done|]. constructor; [done|]. apply StronglySorted_inv in HS as [_ Hy].
    eapply Forall_impl; [exact Hy|]. intros z Hz. unfold flip in *. by trans y.
Qed.

Lemma sinks_sorted l rp k : decides -> StronglySorted (flip R) rp ->
  StronglySorted (flip R) (foldl (fun s x => sink less x s.1 s.2) (rp, k) l).1.
Proof.
  intros Hd. revert rp k. induction l as [|x l IH]; intros rp k Hs; simpl; [done|].
  pose proof (sink_sorted x rp k Hd Hs) as Hs'. destruct (sink less x rp k). by apply IH.
Qed.

Lemma insertionSort_sorted l k : decides -> StronglySorted R (insertionSort less l k).1.
Proof.
  intros Hd. unfold insertionSort. pose proof (sinks_sorted l [] k Hd) as Hs.
  destruct (foldl _ _ l). simpl in *. apply StronglySorted_rev, Hs. constructor.
Qed.
End InsertionProofs.

Section SortSlice.
Context `{Pdq} {A : Type}.

Lemma sortSlice_perm (less : comparison A) l k : (sortSlice less l k).1 ≡ₚ l.
Proof. unfold sortSlice. case_match; [apply insertionSort_perm|apply pdqsort_perm]. Qed.

(** A strict weak order is enough for any length. *)
Lemma sortSlice_sorted (lt : A -> A -> bool) l k :
  Transitive (not_after lt) -> (forall x y, lt x y = true -> lt y x = false) ->
  StronglySorted (not_after lt) (sortSlice (pure_less lt) l k).1.
Proof.
  intros Ht Ha. unfold sortSlice. case_match; [|by apply pdqsort_sorted].
  apply insertionSort_sorted; [done|]. intros x y n. unfold pure_less, not_after. simpl.
  destruct (lt x y) eqn:E; [by apply Ha|done].
Qed.
End SortSlice.

(** [sort.SliceStable]: up to twenty elements are sorted by insertion, more by merging
    blocks ([StableSort]). *)
Class StableSort : Type := {
  symMerge : forall {A}, (A -> A -> bool) -> list A -> list A;
  symMerge_perm : forall A (lt : A -> A -> bool) l, symMerge lt l ≡ₚ l;
  symMerge_sorted : forall A (lt : A -> A -> bool) l,
    Transitive (not_after lt) -> (forall x y, lt x y = true -> lt y x = false) ->
    StronglySorted (not_after lt) (symMerge lt l)
}.

Definition blockSize : nat := 20.

Definition sliceStable `{StableSort} {A} (lt : A -> A -> bool) (l : list A) : list A :=
  if (length l <=? blockSize)%nat then (insertionSort (pure_less lt) l 0).1 else symMerge lt l.

Lemma sliceStable_perm `{StableSort} {A} (lt : A -> A -> bool) l : sliceStable lt l ≡ₚ l.
Proof. unfold sliceStable. case_match; [apply insertionSort_perm|apply symMerge_perm]. Qed.

Lemma insertion_pure {A} (lt : A -> A -> bool) l k :
  Transitive (not_after lt) -> (forall x y, lt x y = true -> lt y x = false) ->
  StronglySorted (not_after lt) (insertionSort (pure_less lt) l k).1.
Proof.
  intros Ht Ha. apply insertionSort_sorted; [done|]. intros x y n.
  unfold pure_less, not_after. simpl. destruct (lt x y) eqn:E; [by apply Ha|done].
Qed.

Lemma sliceStable_sorted `{StableSort} {A} (lt : A -> A -> bool) l :
  Transitive (not_after lt) -> (forall x y, lt x y = true -> lt y x = false) ->
  StronglySorted (not_after lt) (sliceStable lt l).
Proof.
  intros Ht Ha. unfold sliceStable. case_match; [by apply insertion_pure|by apply symMerge_sorted].
Qed.

Definition insertionStable : StableSort.
Proof.
  refine {| symMerge A lt l := (insertionSort (pure_less lt) l 0).1 |}.
  - intros. apply insertionSort_perm.
  - intros A lt l Ht Ha. by apply insertion_pure.
Defined.

(** Insertion for any length is an implementation of the interface. *)
Definition insertionPdq : Pdq.
Proof.
  refine {| pdqsort A less l k := insertionSort less l k |}.
  - intros. apply insertionSort_perm.
  - intros A lt l k Ht Ha. by apply insertion_pure.
Defined.

(** ** The order of strings *)

Lemma string_compare_trans s t u : String.compare s t <> Gt -> String.compare t u <> Gt ->
  String.compare s u <> Gt.
Proof.
  revert t u. induction s as [|a s IH]; intros [|b t] [|c u]; simpl; try done.
  unfold Ascii.compare. destruct (N.compare_spec (Ascii.N_of_ascii a) (Ascii.N_of_ascii b)) as [E1|E1|E1];
    destruct (N.compare_spec (Ascii.N_of_ascii b) (Ascii.N_of_ascii c)) as [E2|E2|E2]; try done;
    destruct (N.compare_spec (Ascii.N_of_ascii a) (Ascii.N_of_ascii c)) as [E3|E3|E3]; try done; try lia.
  apply IH.
Qed.

Lemma ltb_compare s t : String.ltb s t = false <-> String.compare t s <> Gt.
Proof.
  unfold String.ltb. rewrite (String.compare_antisym s t).
  by destruct (String.compare t s).
Qed.

Lemma ltb_asym s t : String.ltb s t = true -> String.ltb t s = false.
Proof.
  unfold String.ltb. rewrite (String.compare_antisym t s). by destruct (String.compare s t).
Qed.

Lemma ltb_total s t : String.ltb s t = false -> String.ltb t s = false -> s = t.
Proof.
  unfold String.ltb. rewrite (String.compare_antisym t s).
  destruct (String.compare s t) eqn:E; try done. by apply String.compare_eq_iff in E.
Qed.

#[export] Instance ltb_trans : Transitive (not_after String.ltb).
Proof. intros s t u. unfold not_after. rewrite !ltb_compare. apply string_compare_trans. Qed.
