(* ===== verification/Nodes.v ===== *)
(** * Connecting to the upstreams

    [proxy.go]: the choice of a node of a cluster by its number of connections, the
    connections to all upstreams of the configuration; [upstream.go]: the gauges that
    [NewUpstream] and [Close] keep. What the client library answers to a dial is a
    [Dialer], which also gives the results of [rand.IntN(2)]. *)

From stdpp Require Import sorting.
From S2P Require Import Prelude Bytes Fields Errors Broker Config Upstream Instruments Stats.
From S2P Require Import Proxy Health Dispatch Sorting.

Open Scope Z_scope.

(** ** What a dial gives *)

Record DialArgs : Type := { dial_url : URL; dial_props : entries; dial_timeout : Z }.

Record nodeInfo : Type := { addr : string; connections : Z }.

(** [DialConfig] answers the dial that comes after the given ones. [fmt_other] is the text
    that [%s] gives of a value that is no string. *)
Class Dialer : Type := {
  DialConfig : list DialArgs -> DialArgs -> result rerror Conn;
  coin : nat -> bool;
  fmt_other : field -> string
}.

(** [ConnectErr u e] is [fmt.Errorf("failed to open upstream %s %w", u, err)], with the
    URL as it is; [NoNode] that of [connectToUpstreamServers]. *)
Inductive connectError : Type :=
| ConnectErr (u : URL) (e : rerror)
| NoNode (upstreamName : string) (tried : list string).

(** The part of a [Proxy] and of its surroundings that connecting changes: [n_metrics]
    are shared by all connections. *)
Record Connecting : Type := {
  n_proxy : Proxy;
  n_metrics : Metrics;
  n_coins : nat;
  n_dials : list DialArgs
}.

Definition set_metrics (f : Metrics -> Metrics) (s : Connecting) : Connecting := {|
  n_proxy := n_proxy s; n_metrics := f (n_metrics s); n_coins := n_coins s;
  n_dials := n_dials s |}.
Definition set_coins (k : nat) (s : Connecting) : Connecting := {|
  n_proxy := n_proxy s; n_metrics := n_metrics s; n_coins := k; n_dials := n_dials s |}.
Definition add_dial (d : DialArgs) (s : Connecting) : Connecting := {|
  n_proxy := n_proxy s; n_metrics := n_metrics s; n_coins := n_coins s;
  n_dials := n_dials s ++ [d] |}.
Definition add_upstream (u : Upstream) (s : Connecting) : Connecting := {|
  n_proxy := set_upstreams (fun us => us ++ [u]) (n_proxy s); n_metrics := n_metrics s;
  n_coins := n_coins s; n_dials := n_dials s |}.

Abbreviation C := (stm Connecting connectError).

Section Nodes.
Context `{Dialer} `{Pdq}.

(** ** [sortNodesByLeastConnections] *)

(** The comparison function: a coin decides between equal numbers. *)
Definition less : comparison nodeInfo := fun x y k =>
  if connections x =? connections y then (coin k, S k)
  else (connections x <? connections y, k).

(** [for _, addr := range nodes]: the number of connections, which makes the entry of the
    vector. *)
Definition nodeInfos (nodes : list string) (v : Vec) : list nodeInfo * Vec :=
  foldl (fun s a => (s.1 ++ [{| addr := a; connections := Value a (touch a s.2) |}], touch a s.2))
    ([], v) nodes.

Definition sortNodesByLeastConnections (nodes : list string) : C (list string) := fun s =>
  if (length nodes <=? 1)%nat then (Ok nodes, s)
  else
    let (infos, v) := nodeInfos nodes (UpstreamConnections (n_metrics s)) in
    let (sorted, k) := sortSlice less infos (n_coins s) in
    (Ok (map addr sorted), set_coins k (set_metrics (on_UpstreamConnections (fun _ => v)) s)).

(** ** Connecting *)

(** [fmt.Sprintf("%s", v)] for an entry of a table, absent when it has none. *)
Definition fmt_s (v : option field) : string :=
  match v with
  | Some (VString s) => s
  | Some VNil | None => "%!s(<nil>)"
  | Some v => fmt_other v
  end.

(** [props[k]], of a nil map too. *)
Definition prop (k : string) (props : Table) : option field := props ≫= tget k.

Definition ClientBanner (p : Proxy) : string :=
  match clientProps p with
  | None => EmptyString
  | props => fmt_s (prop "platform" props) +:+ "/" +:+ fmt_s (prop "product" props) +:+ "/"
             +:+ fmt_s (prop "version" props)
  end.

Definition upstreamProps (clientAddr : string) (props : Table) : entries :=
  tset "product" (VString (fmt_s (prop "product" props) +:+ " (" +:+ clientAddr +:+
                           ") via trabbits/" +:+ Version))
    (maps_Copy [] (default [] props)).

Definition upstreamURL (p : Proxy) (a : string) : URL := {|
  Scheme := "amqp"; URL_User := Some (user p, password p); URL_Host := a;
  URL_Path := VirtualHost p |}.

Definition dialArgs (p : Proxy) (clientAddr a : string) (props : Table) (timeout : Z)
  : DialArgs := {|
  dial_url := upstreamURL p a; dial_props := upstreamProps clientAddr props;
  dial_timeout := timeout |}.

Definition connectToUpstreamServer (clientAddr a : string) (props : Table) (timeout : Z)
  : C Conn := fun s =>
  let d := dialArgs (n_proxy s) clientAddr a props timeout in
  match DialConfig (n_dials s) d with
  | Ok conn => (Ok conn, add_dial d s)
  | Err e =>
      (Err (ConnectErr (dial_url d) e),
       set_metrics (on_UpstreamConnectionErrors (WithLabelValues a Counter_Inc)) (add_dial d s))
  end.

(** The loop over the nodes: an error is logged, the next node is tried. *)
Fixpoint tryNodes (name clientAddr : string) (all nodes : list string) (props : Table)
  (timeout : Z) : C (Conn * string) :=
  match nodes with
  | [] => throw (NoNode name all)
  | a :: nodes' => fun s =>
      match connectToUpstreamServer clientAddr a props timeout s with
      | (Ok conn, s') => (Ok (conn, a), s')
      | (Err _, s') => tryNodes name clientAddr all nodes' props timeout s'
      end
  end.

(** [nodesToTry] is always empty before [addrs] is taken. *)
Definition connectToUpstreamServers (name clientAddr : string) (addrs : list string)
  (props : Table) (timeout : Z) : C (Conn * string) :=
  nodesToTry ← sortNodesByLeastConnections addrs;
  tryNodes name clientAddr nodesToTry nodesToTry props timeout.

(** [NewUpstream] and the two gauges it keeps. *)
Definition newUpstream (conn : Conn) (conf : UpstreamConfig) (address : string)
  : C Upstream := fun s =>
  (Ok (NewUpstream (Some conn) conf address),
   set_metrics (fun m => on_UpstreamConnections (WithLabelValues address Gauge_Inc)
                  (on_UpstreamTotalConnections (WithLabelValues address Counter_Inc) m)) s).

Definition UpstreamDefaultTimeout : Z := 5 * Second.

Definition connectOne (clientAddr : string) (props : Table) (conf : UpstreamConfig) : C () :=
  let timeout := orDefault (UpstreamConfig_Timeout conf) UpstreamDefaultTimeout in
  r ← connectToUpstreamServers (UpstreamConfig_Name conf) clientAddr (Addresses conf) props timeout;
  us ← newUpstream r.1 conf r.2;
  modify (add_upstream us).

Definition ConnectToUpstreams (clientAddr : string) (confs : list UpstreamConfig)
  (props : Table) : C () := forM confs (connectOne clientAddr props).
End Nodes.

(** ** Sorting *)

Section NodesProofs.
Context `{Dialer} `{Pdq}.

Definition le_conn (x y : nodeInfo) : Prop := connections x <= connections y.

Lemma less_decides : decides less le_conn.
Proof.
  intros x y k. unfold less, le_conn.
  destruct (Z.eqb_spec (connections x) (connections y)) as [E|E]; simpl.
  - rewrite E. by destruct (coin k).
  - destruct (Z.ltb_spec (connections x) (connections y)); lia.
Qed.

#[export] Instance le_conn_trans : Transitive le_conn.
Proof. intros x y z. unfold le_conn. lia. Qed.

Lemma nodeInfos_spec nodes v :
  map addr (nodeInfos nodes v).1 = nodes /\
  (forall x, x ∈ (nodeInfos nodes v).1 -> connections x = Value (addr x) v) /\
  forall a, Value a (nodeInfos nodes v).2 = Value a v.
Proof.
  unfold nodeInfos. induction nodes as [|a nodes IH] using rev_ind; simpl.
  - split_and!; [done| |done]. intros x Hx. by apply not_elem_of_nil in Hx.
  - rewrite foldl_snoc. destruct (foldl _ _ nodes) as [l v']. simpl in *.
    destruct IH as (E & Hc & Hv). split_and!.
    + rewrite map_app, E. done.
    + intros x [Hx| ->%list_elem_of_singleton]%elem_of_app; [by apply Hc|]. simpl.
      by rewrite Value_touch.
    + intros a'. by rewrite Value_touch.
Qed.

(** The nodes tried are the configured ones, each once; up to twelve of them come in
    the order of their numbers of connections; the numbers stay as they were. *)
Lemma sortNodes_least nodes s :
  exists sorted s', sortNodesByLeastConnections nodes s = (Ok sorted, s') /\
    sorted ≡ₚ nodes /\
    (forall a, Value a (UpstreamConnections (n_metrics s'))
               = Value a (UpstreamConnections (n_metrics s))) /\
    ((length nodes <= maxInsertion)%nat ->
     StronglySorted (fun a b => Value a (UpstreamConnections (n_metrics s))
                                <= Value b (UpstreamConnections (n_metrics s))) sorted).
Proof.
  unfold sortNodesByLeastConnections. destruct (Nat.leb_spec (length nodes) 1) as [H1|H1].
  { exists nodes, s. split_and!; [done..|]. intros _.
    destruct nodes as [|a [|b nodes]]; simpl in *; [constructor|by repeat constructor|lia]. }
  destruct (nodeInfos_spec nodes (UpstreamConnections (n_metrics s))) as (E & Hc & Hv).
  destruct (nodeInfos _ _) as [infos v]. simpl in *.
  assert (Hlen : length infos = length nodes) by by rewrite <- E, length_map.
  destruct (sortSlice less infos (n_coins s)) as [l k] eqn:El. simpl.
  pose proof (sortSlice_perm less infos (n_coins s)) as Hp. rewrite El in Hp. simpl in Hp.
  eexists _, _. split_and!; [done| |done|].
  - by rewrite <- E, Hp.
  - intros Hn. rewrite <- Hlen in Hn. unfold sortSlice in El.
    destruct (Nat.leb_spec (length infos) maxInsertion); [|lia].
    pose proof (insertionSort_sorted less le_conn infos (n_coins s) less_decides) as Hs.
    rewrite El in Hs. simpl in Hs.
    assert (HF : Forall (fun x => connections x
      = Value (addr x) (UpstreamConnections (n_metrics s))) l).
    { rewrite Hp. by apply Forall_forall. }
    clear - Hs HF. induction Hs as [|x l Hl IH Hx]; simpl; [constructor|].
    apply Forall_cons in HF as [Ex HF]. constructor; [by apply IH|].
    apply Forall_fmap, Forall_forall. intros y Hy. rewrite Forall_forall in Hx, HF.
    specialize (Hx y Hy). specialize (HF y Hy). unfold le_conn in Hx. simpl. lia.
Qed.

(** ** Trying the nodes *)

Section Tries.
Context (clientAddr : string) (props : Table) (timeout : Z).

(** Every node of the list is refused, when they are tried one after the other. *)
Fixpoint refused (p : Proxy) (ds : list DialArgs) (nodes : list string) : Prop :=
  match nodes with
  | [] => True
  | a :: nodes' =>
      let d := dialArgs p clientAddr a props timeout in
      is_ok (DialConfig ds d) = false /\ refused p (ds ++ [d]) nodes'
  end.

(** The state after dials to [nodes], the first [length failed] of which failed. *)
Definition dialled (nodes failed : list string) (s : Connecting) : Connecting := {|
  n_proxy := n_proxy s;
  n_metrics := on_UpstreamConnectionErrors
    (fun v => foldl (fun v a => WithLabelValues a Counter_Inc v) v failed) (n_metrics s);
  n_coins := n_coins s;
  n_dials := n_dials s ++ map (fun a => dialArgs (n_proxy s) clientAddr a props timeout) nodes |}.

Lemma dialled_nil s : dialled [] [] s = s.
Proof. destruct s as [? [] ? ?]. unfold dialled. simpl. by rewrite app_nil_r. Qed.

Lemma tryNodes_spec name all nodes s :
  match tryNodes name clientAddr all nodes props timeout s with
  | (Ok (conn, a), s') => exists before after, nodes = before ++ a :: after /\
      refused (n_proxy s) (n_dials s) before /\
      DialConfig (n_dials (dialled before before s)) (dialArgs (n_proxy s) clientAddr a props timeout)
        = Ok conn /\
      s' = dialled (before ++ [a]) before s
  | (Err e, s') => e = NoNode name all /\ refused (n_proxy s) (n_dials s) nodes /\
      s' = dialled nodes nodes s
  end.
Proof.
  revert s; induction nodes as [|a nodes IH]; intros s; simpl.
  { by rewrite dialled_nil. }
  unfold connectToUpstreamServer.
  destruct (DialConfig (n_dials s) _) as [conn|e] eqn:Hd.
  - exists [], nodes. split_and!; [done|done| |].
    + simpl. by rewrite app_nil_r.
    + destruct s as [? [] ? ?]. done.
  - set (s1 := set_metrics _ _). specialize (IH s1).
    assert (E : forall l f, dialled l f s1 = dialled (a :: l) (a :: f) s).
    { intros l f. unfold dialled, s1. simpl. by rewrite <- app_assoc. }
    destruct (tryNodes _ _ _ nodes _ _ s1) as [[[conn a']|e'] s'].
    + destruct IH as (before & after & -> & Hr & Hc & ->). rewrite !E in *.
      exists (a :: before), after. simpl. rewrite Hd. split_and!; done.
    + destruct IH as (-> & Hr & ->). rewrite E. done.
Qed.

(** The errors counted for a node are the failed dials to it. *)
Lemma dialled_errors nodes failed s a : in_int 64 (Value a (UpstreamConnectionErrors (n_metrics s))) = true ->
  Value a (UpstreamConnectionErrors (n_metrics (dialled nodes failed s))) =
  Counter_Add (Z.of_nat (length (filter (.= a) failed))) (Value a (UpstreamConnectionErrors (n_metrics s))).
Proof.
  intros Hv. simpl. unfold Counter_Add.
  induction failed as [|a' failed IH] using rev_ind; [by rewrite Z.add_0_r, swrap_small|].
  rewrite foldl_snoc, filter_app, length_app, filter_cons, filter_nil.
  case_decide as E; simpl.
  - rewrite E, Value_With, IH. unfold Counter_Inc, Counter_Add. rewrite swrap_idemp_l.
    f_equal. lia.
  - by rewrite Value_With_ne, IH, Nat.add_0_r.
Qed.

(** The connection is to the first node that accepts one, in the order of the
    numbers of connections; the nodes before it were all tried and refused; no node is
    tried after it, so every node not tried has at least as many connections; without
    an answer, all nodes were tried, once each. *)
Theorem connect_first name addrs s : exists sorted s1,
  sorted ≡ₚ addrs /\ n_proxy s1 = n_proxy s /\ n_dials s1 = n_dials s /\
  match connectToUpstreamServers name clientAddr addrs props timeout s with
  | (Ok (conn, a), s') => exists before after, sorted = before ++ a :: after /\
      refused (n_proxy s) (n_dials s) before /\
      s' = dialled (before ++ [a]) before s1 /\
      ((length addrs <= maxInsertion)%nat -> forall b, b ∈ after ->
         Value a (UpstreamConnections (n_metrics s)) <= Value b (UpstreamConnections (n_metrics s)))
  | (Err e, s') => e = NoNode name sorted /\ refused (n_proxy s) (n_dials s) sorted /\
      s' = dialled sorted sorted s1
  end.
Proof.
  destruct (sortNodes_least addrs s) as (sorted & s1 & E & Hp & _ & Hs).
  assert (E1 : n_proxy s1 = n_proxy s /\ n_dials s1 = n_dials s).
  { unfold sortNodesByLeastConnections in E. destruct (length addrs <=? 1)%nat;
      [by injection E as _ <-|]. destruct (nodeInfos _ _), (sortSlice _ _).
    by injection E as _ <-. }
  destruct E1 as [Ep Ed]. exists sorted, s1. split_and!; [done..|].
  unfold connectToUpstreamServers. rewrite (stm_bind_ok _ _ _ _ _ E).
  pose proof (tryNodes_spec name sorted sorted s1) as T. rewrite Ep, Ed in T.
  destruct (tryNodes _ _ _ _ _ _ s1) as [[[conn a]|e] s']; [|done].
  destruct T as (before & after & -> & Hr & _ & ->). exists before, after.
  split_and!; [done..|]. intros Hl b Hb. specialize (Hs Hl).
  apply StronglySorted_app_1_r, StronglySorted_inv in Hs as [_ HF].
  by eapply Forall_forall in HF.
Qed.
End Tries.
End NodesProofs.

(** ** Closing, with the gauge *)

Section Closing.
Context `{Env}.

(** [us.Close()] for upstream [i] of the proxy, as [Proxy.closeOne], with the gauge of the
    connections to its address, which goes down just before the connection is closed. *)
Definition closeCounted (i : nat) : stm (World * Metrics) goerror () := fun s =>
  let logged (e : goerror) : result goerror () := if is_panic e then Err e else Ok () in
  match onUpstream i (closeCleanups anyChannel) s.1 with
  | (Err e, w) => (logged e, (w, s.2))
  | (Ok _, w) =>
      let ms := match upstreams (proxy w) !! i with
                | Some u =>
                    match Upstream_conn u with
                    | Some _ =>
                        on_UpstreamConnections (WithLabelValues (Upstream_address u) Gauge_Dec) s.2
                    | None => s.2
                    end
                | None => s.2
                end in
      match onUpstream i closeConn w with
      | (Err e, w) => (logged e, (w, ms))
      | (Ok _, w) => (Ok (), (w, ms))
      end
  end.

Definition CloseCounted : stm (World * Metrics) goerror () := fun s =>
  forM (indices s.1) closeCounted s.

Lemma onUpstream_bind {A B} i (m : upstreamM A) (k : A -> upstreamM B) w :
  onUpstream i (m ≫= k) w = (onUpstream i m ≫= fun a => onUpstream i (k a)) w.
Proof.
  unfold onUpstream, mbind, stm_bind.
  destruct (upstreams (proxy w) !! i) as [u|] eqn:Hu; [|done].
  destruct (m _) as [[a|e] [u1 cs]]; simpl; [|done].
  rewrite list_lookup_insert_eq by by eapply lookup_lt_Some.
  destruct (k a _) as [r [u2 cs2]]. simpl. f_equal. unfold set_calls, set_proxy, set_upstreams.
  simpl. by rewrite list_insert_insert_eq.
Qed.

(** Apart from the gauge it is the [closeOne] of [Proxy]. *)
Lemma closeCounted_closeOne i w ms :
  let (r, s) := closeCounted i (w, ms) in closeOne i w = (r, s.1).
Proof.
  unfold closeCounted, closeOne, Upstream.Close. rewrite onUpstream_bind.
  unfold mbind, stm_bind. simpl.
  destruct (onUpstream i (closeCleanups anyChannel) w) as [[[]|e] w1]; simpl.
  - destruct (onUpstream i closeConn w1) as [[[]|e] w2]; simpl; [done|].
    by destruct (is_panic e).
  - by destruct (is_panic e).
Qed.

Lemma CloseCounted_Close w ms : let (r, s) := CloseCounted (w, ms) in Proxy.Close w = (r, s.1).
Proof.
  unfold CloseCounted, Proxy.Close. rewrite gets_bind. simpl.
  generalize (indices w) as l. intros l. revert w ms.
  induction l as [|i l IH]; intros w ms; simpl; [done|].
  unfold mbind, stm_bind. pose proof (closeCounted_closeOne i w ms) as H1.
  destruct (closeCounted i (w, ms)) as [r [w1 ms1]]. simpl in *. rewrite H1.
  destruct r as [[]|e]; [|done]. apply IH.
Qed.

Lemma closeCleanups_run s c : Upstream_conn (us s) = Some c ->
  exists cs, closeCleanups anyChannel s =
    ((match anyChannel (Upstream_channel (us s)), respond (calls s) (Conn_Channel c) with
      | Some _, _ | None, Ok _ => Ok ()
      | None, Err e => Err (Wrap "failed to create channel" (RabbitErr e))
      end), {| us := us s; calls := calls s ++ cs |}).
Proof.
  intros Hc. unfold closeCleanups, get_us, gets, mbind, stm_bind.
  destruct (anyChannel _) as [ch|]; simpl.
  - rewrite run_cleanups. by eexists.
  - unfold onConn, get_us, gets, wrapf, wrap, mbind, stm_bind, call. rewrite Hc. simpl.
    destruct (respond _ _) as [ch|e]; simpl; [|by eexists].
    rewrite run_cleanups. simpl. rewrite <- app_assoc. by eexists.
Qed.

(** Closing an upstream that has a connection: no error gets out, the upstream stays as
    it is, and the gauge goes down exactly when a channel for the clean-ups was found. *)
Lemma closeCounted_run i w ms u c :
  upstreams (proxy w) !! i = Some u -> Upstream_conn u = Some c ->
  exists w', upstreams (proxy w') = upstreams (proxy w) /\
    closeCounted i (w, ms) = (Ok (), (w',
      match anyChannel (Upstream_channel u), respond (w_calls w) (Conn_Channel c) with
      | Some _, _ | None, Ok _ =>
          on_UpstreamConnections (WithLabelValues (Upstream_address u) Gauge_Dec) ms
      | None, Err _ => ms
      end)).
Proof.
  intros Hu Hc. unfold closeCounted, onUpstream at 1. simpl. rewrite Hu.
  destruct (closeCleanups_run {| us := u; calls := w_calls w |} c Hc) as [cs ->].
  set (w1 := set_calls _ _).
  assert (E1 : upstreams (proxy w1) = upstreams (proxy w)) by (simpl; by apply list_insert_id).
  assert (E2 : exists r w2, onUpstream i closeConn w1 = (r, w2) /\
    upstreams (proxy w2) = upstreams (proxy w) /\
    match r with Ok _ => True | Err e => is_panic e = false end).
  { unfold onUpstream. rewrite E1, Hu. unfold closeConn, get_us, gets, wrapf, wrap, call,
      mbind, stm_bind. simpl. rewrite Hc.
    destruct (respond _ _); eexists _, _; (split; [done|]); simpl; (split; [|done]);
      by rewrite !(list_insert_id (upstreams (proxy w)) i u Hu). }
  destruct E2 as (r & w2 & E2 & E3 & Hr). clearbody w1. simpl.
  destruct (anyChannel _), (respond (w_calls w) (Conn_Channel c)); simpl; try (by exists w1);
    rewrite E1, Hu, Hc, E2; exists w2; (split; [done|]);
    (destruct r as [[]|?]; [done|by rewrite Hr]).
Qed.

Definition decs (addrs : list string) (ms : Metrics) : Metrics :=
  foldl (fun ms a => on_UpstreamConnections (WithLabelValues a Gauge_Dec) ms) ms addrs.

(** Upstream [i] keeps its connection: it has no channel, and its broker gives none. *)
Definition uncleaned (i : nat) (w : World) : bool :=
  match upstreams (proxy w) !! i with
  | Some u =>
      match Upstream_conn u, anyChannel (Upstream_channel u) with
      | Some c, None => negb (is_ok (respond (w_calls w) (Conn_Channel c)))
      | _, _ => false
      end
  | None => false
  end.

(** The upstreams [l], closed one after the other: the address of each, and whether it keeps
    its connection when it is its turn. *)
Fixpoint closings (l : list nat) (w : World) : list (bool * string) :=
  match l with
  | [] => []
  | i :: l' =>
      (uncleaned i w, from_option Upstream_address EmptyString (upstreams (proxy w) !! i))
      :: closings l' (closeOne i w).2
  end.

Definition leftBy (b : bool) (cs : list (bool * string)) : list string :=
  map snd (filter (fun x => x.1 = b) cs).

(** The addresses that [CloseCounted] leaves connected, and those it does not. *)
Definition leftOpen (w : World) : list string := leftBy true (closings (indices w) w).
Definition closedDown (w : World) : list string := leftBy false (closings (indices w) w).

Lemma leftBy_cons b x cs : leftBy b (x :: cs) = (if bool_decide (x.1 = b) then [x.2] else []) ++ leftBy b cs.
Proof. unfold leftBy. rewrite filter_cons. by case_bool_decide; [rewrite decide_True|rewrite decide_False]. Qed.

(** An upstream of a proxy that has a connection. *)
Definition linked (i : nat) (w : World) : Prop :=
  exists u, upstreams (proxy w) !! i = Some u /\ is_Some (Upstream_conn u).

(** One upstream: it stays as it is, and the gauge goes down unless it keeps its connection. *)
Lemma closeCounted_linked i w ms : linked i w ->
  exists w', closeOne i w = (Ok (), w') /\ upstreams (proxy w') = upstreams (proxy w) /\
    closeCounted i (w, ms) = (Ok (), (w', decs (leftBy false (closings [i] w)) ms)).
Proof.
  intros (u & Hu & c & Hc). destruct (closeCounted_run i w ms u c Hu Hc) as (w' & E1 & E).
  pose proof (closeCounted_closeOne i w ms) as Ho. rewrite E in Ho. exists w'. split; [done|]. split; [done|].
  rewrite E. do 2 f_equal. simpl. unfold uncleaned. rewrite Hu, Hc. simpl.
  destruct (anyChannel _); [done|]. by destruct (respond _ _).
Qed.

(** All of them, as many as there are. *)
Lemma closeAll l w ms : Forall (fun i => linked i w) l ->
  exists w', forM l closeCounted (w, ms) = (Ok (), (w', decs (leftBy false (closings l w)) ms)) /\
    upstreams (proxy w') = upstreams (proxy w).
Proof.
  revert w ms. induction l as [|i l IH]; intros w ms HF; simpl; [by exists w|].
  apply Forall_cons in HF as [Hi HF].
  destruct (closeCounted_linked i w ms Hi) as (w1 & Eo & E1 & E). rewrite (stm_bind_ok _ _ _ _ _ E), Eo. simpl.
  set (ms1 := decs _ ms). destruct (IH w1 ms1) as (w' & -> & E').
  { eapply Forall_impl; [exact HF|]. intros j (u & Hu & Hc). exists u. by rewrite E1. }
  exists w'. split; [|congruence]. unfold ms1, decs. simpl. rewrite (leftBy_cons _ _ (closings l w1)), leftBy_cons.
  unfold leftBy at 2. simpl. by rewrite app_nil_r, foldl_app.
Qed.

(** Every upstream is either closed or left. *)
Lemma closings_addrs l w : Forall (fun i => linked i w) l ->
  map snd (closings l w) = map (fun i => from_option Upstream_address EmptyString (upstreams (proxy w) !! i)) l.
Proof.
  revert w. induction l as [|i l IH]; intros w HF; [done|]. apply Forall_cons in HF as [Hi HF].
  destruct (closeCounted_linked i w NewMetrics Hi) as (w1 & Eo & E1 & _). simpl. rewrite Eo. simpl. f_equal.
  rewrite IH, E1; [done|]. eapply Forall_impl; [exact HF|]. intros j (u & Hu & Hc). exists u. by rewrite E1.
Qed.

(** Nothing is left open by upstreams that have a channel, or are given one. *)
Lemma closings_closed l w : Forall (fun i => linked i w) l ->
  (forall u c, u ∈ upstreams (proxy w) -> Upstream_conn u = Some c ->
     is_Some (anyChannel (Upstream_channel u)) \/ forall cs, is_ok (respond cs (Conn_Channel c)) = true) ->
  leftBy true (closings l w) = [].
Proof.
  revert w. induction l as [|i l IH]; intros w HF Hg; [done|]. apply Forall_cons in HF as [Hi HF].
  destruct (closeCounted_linked i w NewMetrics Hi) as (w1 & Eo & E1 & _). simpl. rewrite Eo, leftBy_cons, IH; simpl.
  - destruct Hi as (u & Hu & c & Hc). unfold uncleaned. rewrite Hu, Hc.
    destruct (Hg u c) as [[ch ->]|Hr]; [by eapply list_elem_of_lookup_2|done|done|].
    destruct (anyChannel _); [done|]. by rewrite Hr.
  - eapply Forall_impl; [exact HF|]. intros j (u & Hu & Hc). exists u. by rewrite E1.
  - rewrite E1. exact Hg.
Qed.

(** Everything is left open by upstreams that have no channel and are refused one. *)
Lemma closings_left l w : Forall (fun i => linked i w) l ->
  (forall u c, u ∈ upstreams (proxy w) -> Upstream_conn u = Some c ->
     anyChannel (Upstream_channel u) = None /\ forall cs, is_ok (respond cs (Conn_Channel c)) = false) ->
  leftBy false (closings l w) = [].
Proof.
  revert w. induction l as [|i l IH]; intros w HF Hg; [done|]. apply Forall_cons in HF as [Hi HF].
  destruct (closeCounted_linked i w NewMetrics Hi) as (w1 & Eo & E1 & _). simpl. rewrite Eo, leftBy_cons, IH; simpl.
  - destruct Hi as (u & Hu & c & Hc). unfold uncleaned. rewrite Hu, Hc.
    destruct (Hg u c) as [-> Hr]; [by eapply list_elem_of_lookup_2|done|]. by rewrite Hr.
  - eapply Forall_impl; [exact HF|]. intros j (u & Hu & Hc). exists u. by rewrite E1.
  - rewrite E1. exact Hg.
Qed.

Lemma indices_linked w : Forall (fun u => is_Some (Upstream_conn u)) (upstreams (proxy w)) ->
  Forall (fun i => linked i w) (indices w).
Proof.
  intros HF. apply Forall_forall. intros i Hi%elem_of_seq. simpl in Hi.
  destruct (lookup_lt_is_Some_2 (upstreams (proxy w)) i) as [u Hu]; [lia|]. exists u. split; [done|].
  by eapply Forall_lookup_1 in HF.
Qed.

(** Closing the upstreams of a proxy, all of which are connected. *)
Lemma CloseCounted_run w ms : Forall (fun u => is_Some (Upstream_conn u)) (upstreams (proxy w)) ->
  exists w', CloseCounted (w, ms) = (Ok (), (w', decs (closedDown w) ms)) /\
    upstreams (proxy w') = upstreams (proxy w).
Proof. intros HF. exact (closeAll (indices w) w ms (indices_linked w HF)). Qed.
End Closing.

Definition uconns (a : string) (ms : Metrics) : Z := Value a (UpstreamConnections ms).
Definition at_addr (a : string) (addrs : list string) : nat := length (filter (.= a) addrs).

Lemma at_addr_parts a cs :
  at_addr a (map snd cs) = (at_addr a (leftBy false cs) + at_addr a (leftBy true cs))%nat.
Proof.
  induction cs as [|[[] b] cs IH]; [done|..]; rewrite !leftBy_cons; unfold at_addr in *; simpl;
    rewrite !filter_cons; case_decide; simpl; rewrite IH; lia.
Qed.

Lemma leftOpen_closed `{Env} a w : Forall (fun u => is_Some (Upstream_conn u)) (upstreams (proxy w)) ->
  at_addr a (map Upstream_address (upstreams (proxy w))) = (at_addr a (closedDown w) + at_addr a (leftOpen w))%nat.
Proof.
  intros HF. unfold closedDown, leftOpen. rewrite <- at_addr_parts. f_equal.
  rewrite closings_addrs by by apply indices_linked. unfold indices. apply list_eq. intros i.
  rewrite !list_lookup_fmap. destruct (upstreams (proxy w) !! i) as [u|] eqn:Hu; simpl.
  - rewrite lookup_seq_lt by by eapply lookup_lt_Some. simpl. by rewrite Hu.
  - rewrite lookup_seq_ge; [done|]. by apply lookup_ge_None.
Qed.

Lemma decs_value a addrs ms : uconns a (decs addrs ms) = Nat.iter (at_addr a addrs) Gauge_Dec (uconns a ms).
Proof.
  unfold decs, at_addr. induction addrs as [|b addrs IH] using rev_ind; [done|].
  rewrite foldl_snoc, filter_app, length_app, filter_cons, filter_nil. unfold uconns in *. simpl.
  case_decide as E; simpl.
  - rewrite E, Value_With, IH, Nat.add_1_r. done.
  - rewrite Value_With_ne by done. by rewrite IH, Nat.add_0_r.
Qed.

Lemma Gauge_Inc_int64 g : in_int 64 (Gauge_Inc g) = true.
Proof.
  apply in_int_spec. unfold Gauge_Inc, swrap.
  pose proof (Z.mod_pos_bound (g + 1 + 2 ^ (64 - 1)) (2 ^ 64)). lia.
Qed.

Lemma iter_Dec_Inc k g : in_int 64 g = true -> Nat.iter k Gauge_Dec (Nat.iter k Gauge_Inc g) = g.
Proof.
  revert g. induction k as [|k IH]; intros g Hg; [done|].
  rewrite Nat.iter_succ_r, Nat.iter_succ. rewrite Gauge_Dec_Inc; [by apply IH|].
  destruct k; [done|apply Gauge_Inc_int64].
Qed.

Lemma iter_Inc k g : in_int 64 g = true -> Nat.iter k Gauge_Inc g = swrap 64 (g + Z.of_nat k).
Proof.
  intros Hg. induction k as [|k IH]; [by rewrite Z.add_0_r, swrap_small|].
  rewrite Nat.iter_succ, IH. unfold Gauge_Inc. rewrite swrap_idemp_l. f_equal. lia.
Qed.

Lemma iter_Dec k g : in_int 64 g = true -> Nat.iter k Gauge_Dec g = swrap 64 (g - Z.of_nat k).
Proof.
  intros Hg. induction k as [|k IH]; [by rewrite Z.sub_0_r, swrap_small|].
  rewrite Nat.iter_succ, IH. unfold Gauge_Dec, Z.sub. rewrite swrap_idemp_l. f_equal. lia.
Qed.

(** As many taken off as were added, but for [l]. *)
Lemma iter_Dec_most k l g : in_int 64 g = true ->
  Nat.iter k Gauge_Dec (Nat.iter (k + l) Gauge_Inc g) = swrap 64 (g + Z.of_nat l).
Proof.
  intros Hg. rewrite iter_Inc by done. rewrite <- iter_Inc by done.
  rewrite Nat.iter_add, iter_Dec_Inc; [by apply iter_Inc|]. destruct l; [done|apply Gauge_Inc_int64].
Qed.

Lemma link_addrs (us us' : list Upstream) : map link us = map link us' ->
  map Upstream_address us = map Upstream_address us'.
Proof. intros E. apply (f_equal (map fst)) in E. by rewrite !map_map in E. Qed.

Lemma linked_all (us us' : list Upstream) : map link us' = map link us ->
  Forall (fun u => is_Some (Upstream_conn u)) us -> Forall (fun u => is_Some (Upstream_conn u)) us'.
Proof.
  intros E HF. apply Forall_forall. intros u Hu. rewrite Forall_forall in HF.
  assert (Hl : link u ∈ map link us) by (rewrite <- E; by apply list_elem_of_fmap_2).
  apply list_elem_of_fmap in Hl as (v & [= _ ->] & Hv). by apply HF.
Qed.

Section Balance.
Context `{Dialer} `{Pdq}.

(** One upstream connected, or none. *)
Lemma connectOne_spec clientAddr props conf s :
  match connectOne clientAddr props conf s with
  | (Ok _, s') => exists conn a, a ∈ Addresses conf /\
      upstreams (n_proxy s') = upstreams (n_proxy s) ++ [NewUpstream (Some conn) conf a] /\
      forall b, uconns b (n_metrics s') =
        if decide (b = a) then Gauge_Inc (uconns b (n_metrics s)) else uconns b (n_metrics s)
  | (Err _, s') => upstreams (n_proxy s') = upstreams (n_proxy s) /\
      forall b, uconns b (n_metrics s') = uconns b (n_metrics s)
  end.
Proof.
  unfold connectOne. set (timeout := orDefault _ _).
  destruct (sortNodes_least (Addresses conf) s) as (sorted & s1 & E & Hp & Hv & _).
  assert (E1 : n_proxy s1 = n_proxy s).
  { unfold sortNodesByLeastConnections in E. destruct (length _ <=? 1)%nat;
      [by injection E as _ <-|]. destruct (nodeInfos _ _), (sortSlice _ _).
    by injection E as _ <-. }
  pose proof (tryNodes_spec clientAddr props timeout (UpstreamConfig_Name conf) sorted sorted s1)
    as T.
  unfold connectToUpstreamServers, mbind, stm_bind. rewrite E.
  destruct (tryNodes _ _ _ _ _ _ s1) as [[[conn a]|e] s2].
  - destruct T as (before & after & Hs & _ & _ & ->). exists conn, a. simpl. split_and!.
    + rewrite <- Hp, Hs. set_solver.
    + by rewrite E1.
    + intros b. unfold uconns. simpl. rewrite <- Hv.
      destruct (decide (b = a)) as [->|Hne]; [by rewrite Value_With|].
      by rewrite Value_With_ne by done.
  - destruct T as (-> & _ & ->). simpl. rewrite E1. split; [done|]. apply Hv.
Qed.

(** Connecting counts the upstreams it added, also when it stopped at an error. *)
Lemma connect_counts clientAddr confs props s :
  let (r, s') := ConnectToUpstreams clientAddr confs props s in
  exists us, upstreams (n_proxy s') = upstreams (n_proxy s) ++ us /\
    (forall b, uconns b (n_metrics s') =
       Nat.iter (at_addr b (map Upstream_address us)) Gauge_Inc (uconns b (n_metrics s))) /\
    Forall (fun u => is_Some (Upstream_conn u)) us /\
    match r with
    | Ok _ => Forall2 (fun conf u => exists conn a, a ∈ Addresses conf /\
                u = NewUpstream (Some conn) conf a) confs us
    | Err _ => (length us < length confs)%nat
    end.
Proof.
  revert s; induction confs as [|conf confs IH]; intros s; simpl.
  { exists []. by rewrite app_nil_r. }
  change (ConnectToUpstreams clientAddr (conf :: confs) props) with
    (connectOne clientAddr props conf ≫= fun _ => ConnectToUpstreams clientAddr confs props).
  unfold mbind, stm_bind. pose proof (connectOne_spec clientAddr props conf s) as H1.
  destruct (connectOne clientAddr props conf s) as [[[]|e] s1].
  - destruct H1 as (conn & a & Hin & E1 & Hv1). specialize (IH s1).
    destruct (ConnectToUpstreams clientAddr confs props s1) as [r s']. destruct IH as (us & E & Hv & HF & Hr).
    exists (NewUpstream (Some conn) conf a :: us). split_and!.
    + by rewrite E, E1, <- app_assoc.
    + intros b. rewrite Hv, Hv1. unfold at_addr. simpl. rewrite filter_cons.
      destruct (decide (b = a)) as [->|Hne].
      * rewrite decide_True by done. simpl length. by rewrite Nat.iter_succ_r.
      * by rewrite decide_False.
    + by constructor.
    + destruct r; simpl in *; [|lia]. constructor; eauto.
  - destruct H1 as [E1 Hv]. exists []. rewrite app_nil_r. split_and!; [done..|simpl; lia].
Qed.

(** Connecting leaves what is counted of clients alone. *)
Definition clientCounts (ms : Metrics) : Z * Z * Z :=
  (ClientConnections ms, ClientTotalConnections ms, ClientConnectionErrors ms).

Lemma connect_clientCounts clientAddr confs props s :
  clientCounts (n_metrics (ConnectToUpstreams clientAddr confs props s).2)
  = clientCounts (n_metrics s).
Proof.
  set (P := fun s' : Connecting => clientCounts (n_metrics s') = clientCounts (n_metrics s)).
  assert (K : keeps P (ConnectToUpstreams clientAddr confs props)); [|by apply K].
  apply keeps_forM. intros conf. unfold connectOne, connectToUpstreamServers.
  assert (Ks : forall nodes, keeps P (sortNodesByLeastConnections nodes)).
  { intros nodes s' Hs'. unfold sortNodesByLeastConnections.
    destruct (_ <=? 1)%nat; [done|]. by destruct (nodeInfos _ _), (sortSlice _ _ _). }
  assert (Kt : forall name all nodes t, keeps P (tryNodes name clientAddr all nodes props t)).
  { intros name all nodes t. induction nodes as [|a nodes IH]; [apply keeps_throw|].
    intros s' Hs'. cbn [tryNodes]. unfold connectToUpstreamServer.
    destruct (DialConfig _ _); [done|]. by apply IH. }
  apply keeps_bind; [by apply keeps_bind|]. intros r. apply keeps_bind; [by intros s' Hs'|].
  intros u. by apply keeps_modify.
Qed.

(** C18: connecting and closing balance. Whether all upstreams were connected or an error
    came in between, and whatever became of their channels since: when the connection ends
    with these upstreams, no error gets out, and every address counts as many connections as
    before, and those that are left open because there was no channel for the clean-ups and
    the broker gave none. There are none of these when every upstream has a channel or is
    given one. *)
Theorem connect_close_balanced `{Env} clientAddr confs props s w :
  upstreams (n_proxy s) = [] ->
  let s' := (ConnectToUpstreams clientAddr confs props s).2 in
  map link (upstreams (proxy w)) = map link (upstreams (n_proxy s')) ->
  exists w' ms', CloseCounted (w, n_metrics s') = (Ok (), (w', ms')) /\
    (forall b, in_int 64 (uconns b (n_metrics s)) = true ->
      uconns b ms' = swrap 64 (uconns b (n_metrics s) + Z.of_nat (at_addr b (leftOpen w)))) /\
    ((forall u c, u ∈ upstreams (proxy w) -> Upstream_conn u = Some c ->
        is_Some (anyChannel (Upstream_channel u)) \/ forall cs, is_ok (respond cs (Conn_Channel c)) = true) ->
     forall b, in_int 64 (uconns b (n_metrics s)) = true -> uconns b ms' = uconns b (n_metrics s)).
Proof.
  intros Hnil s' HL. pose proof (connect_counts clientAddr confs props s) as Hc.
  subst s'. destruct (ConnectToUpstreams _ _ _ s) as [r s']. simpl in *.
  destruct Hc as (us & E & Hv & HF & _). rewrite Hnil in E. simpl in E. subst us.
  apply (linked_all _ (upstreams (proxy w))) in HF; [|done].
  assert (Ha : map Upstream_address (upstreams (proxy w)) = map Upstream_address (upstreams (n_proxy s')))
    by by apply link_addrs.
  destruct (CloseCounted_run w (n_metrics s') HF) as (w' & Hw' & _).
  exists w', (decs (closedDown w) (n_metrics s')). split; [done|].
  assert (B : forall b, in_int 64 (uconns b (n_metrics s)) = true ->
    uconns b (decs (closedDown w) (n_metrics s'))
    = swrap 64 (uconns b (n_metrics s) + Z.of_nat (at_addr b (leftOpen w)))).
  { intros b Hb. rewrite decs_value, Hv, <- Ha, (leftOpen_closed b w HF). by apply iter_Dec_most. }
  split; [exact B|]. intros Hg b Hb. rewrite B by done. unfold leftOpen.
  rewrite closings_closed by (try done; by apply indices_linked). by rewrite Z.add_0_r, swrap_small.
Qed.

(** When the upstreams are lost before any channel was opened, closing leaves the
    gauges up for ever, closes no connection and drops no error either. *)
Theorem close_leaks `{Env} w ms :
  (forall u, u ∈ upstreams (proxy w) -> anyChannel (Upstream_channel u) = None /\
     exists c, Upstream_conn u = Some c /\ forall cs, is_ok (respond cs (Conn_Channel c)) = false) ->
  exists w', CloseCounted (w, ms) = (Ok (), (w', ms)).
Proof.
  intros Hus. assert (HF : Forall (fun u => is_Some (Upstream_conn u)) (upstreams (proxy w))).
  { apply Forall_forall. intros u Hu. destruct (Hus u Hu) as [_ (c & -> & _)]. by eexists. }
  destruct (CloseCounted_run w ms HF) as (w' & Hw' & _). exists w'. rewrite Hw'. unfold closedDown.
  rewrite closings_left; [done|by apply indices_linked|].
  intros u c Hu Hc. destruct (Hus u Hu) as [Hn (c' & Hc' & Hr)]. split; [done|]. by simplify_eq.
Qed.
End Balance.

(** ** A concrete dialer

    It refuses the first node of the sample cluster; coins are tails. *)

Definition refusingDialer : Dialer := {|
  DialConfig ds d := if String.eqb (URL_Host (dial_url d)) "n1:5672"
                     then Err (ROther "connection refused")
                     else Ok (Z.of_nat (length ds) + 1);
  coin _ := false; fmt_other _ := "?"%string |}.

Definition sampleConnecting : Connecting := {|
  n_proxy := set_upstreams (fun _ => []) (sampleProxy 4096); n_metrics := NewMetrics;
  n_coins := 0; n_dials := [] |}.

Definition connected : Connecting :=
  (@ConnectToUpstreams refusingDialer insertionPdq "client:1" [sampleCluster; sampleConfig] None
     sampleConnecting).2.

(** The world in which the connected proxy has opened channel 1. *)
Definition connectedWorld : World := set_proxy (fun _ =>
  set_upstreams (map (Upstream.set_channel <[1 := 1]>)) (n_proxy connected))
  (sampleWorld 4096 [] EOF).

Example connected_gauges :
  (uconns "n2:5672" (n_metrics connected), uconns "[::1]:5672" (n_metrics connected),
   Value "n1:5672" (UpstreamConnectionErrors (n_metrics connected))) = (1, 1, 1).
Proof. by vm_compute. Qed.

Lemma connect_close_balanced_witness : exists w' ms',
  @CloseCounted acceptingEnv (connectedWorld, n_metrics connected) = (Ok (), (w', ms')) /\
  uconns "n2:5672" ms' = 0.
Proof.
  destruct (@connect_close_balanced refusingDialer insertionPdq acceptingEnv "client:1"
    [sampleCluster; sampleConfig] None sampleConnecting connectedWorld) as (w' & ms' & E & _ & H).
  - reflexivity.
  - by vm_compute.
  - exists w', ms'. split; [exact E|]. apply (H (fun u c _ _ => or_intror (fun cs => eq_refl)) "n2:5672"%string).
    reflexivity.
Defined.

(** A broker that gives no channel. *)
Definition lostEnv : Env := {|
  env_broker := {|
    respond cs c :=
      match c as c return result rerror (answer c) with
      | Conn_Channel _ => Err (RAmqp 504 "channel/connection is not open"%string)
      | c => @respond acceptingBroker cs c
      end;
    GetNextPublishSeqNo := @GetNextPublishSeqNo acceptingBroker |};
  conn_Write _ _ := None; io_text _ := EmptyString; generateID _ := EmptyString;
  rand_Perm _ n := seq 0 n; anyChannel m := snd <$> head (map_to_list m) |}.

Lemma close_leaks_witness : exists w',
  @CloseCounted lostEnv (set_proxy (fun _ => n_proxy connected) (sampleWorld 4096 [] EOF),
    n_metrics connected) = (Ok (), (w', n_metrics connected)) /\
  uconns "n2:5672" (n_metrics connected) = 1.
Proof.
  destruct (@close_leaks lostEnv
    (set_proxy (fun _ => n_proxy connected) (sampleWorld 4096 [] EOF)) (n_metrics connected))
    as [w' E].
  - intros u Hu. vm_compute in Hu. apply elem_of_cons in Hu as [->|Hu].
    + split; [by vm_compute|]. by exists 2.
    + apply list_elem_of_singleton in Hu as ->. split; [by vm_compute|]. by exists 3.
  - exists w'. split; [exact E|by vm_compute].
Defined.
