(* ===== verification/Server.v ===== *)
(** * The server's registry

    [server.go]: the proxies that are connected, the logs kept of those that were, the
    configuration and its reload, the shutdown of proxies. Proxies and log buffers are
    shared by pointer, so they live in a heap ([clients]) that the registry and the
    cache of old logs point into. *)

From stdpp Require Import sorting.
From S2P Require Import Prelude Bytes Fields Config Stats Instruments Health Times.
From S2P Require Import LogBuffers Proxy Sorting Nodes Dispatch.

Open Scope Z_scope.

(** ** The cache of [hashicorp/golang-lru]

    [lru_list] is its content from the oldest to the newest entry. Adding makes an entry
    the newest and evicts the oldest beyond the size; looking one up makes it the newest. *)

Definition without {V} (k : string) (l : list (string * V)) : list (string * V) :=
  filter (fun kv => kv.1 <> k) l.

Definition find {V} (k : string) (l : list (string * V)) : option V :=
  snd <$> (snd <$> list_find (fun kv => kv.1 = k) l).

Class Lru (V : Type) : Type := {
  cache : Type;
  lru_New : nat -> cache;
  lru_Add : string -> V -> cache -> cache;
  lru_Get : string -> cache -> option V * cache;
  lru_Keys : cache -> list string;
  lru_size : cache -> nat;
  lru_list : cache -> list (string * V);
  lru_New_list n : lru_list (lru_New n) = [] /\ lru_size (lru_New n) = n;
  lru_Add_list k v c :
    lru_list (lru_Add k v c) = lastn (lru_size c) (without k (lru_list c) ++ [(k, v)]) /\
    lru_size (lru_Add k v c) = lru_size c;
  lru_Get_list k c :
    (lru_Get k c).1 = find k (lru_list c) /\
    lru_list (lru_Get k c).2 = match find k (lru_list c) with
                               | Some v => without k (lru_list c) ++ [(k, v)]
                               | None => lru_list c
                               end /\
    lru_size (lru_Get k c).2 = lru_size c;
  lru_Keys_list c : lru_Keys c = map fst (lru_list c)
}.

(** The cache as its list. *)
Definition listLru V : Lru V.
Proof.
  refine {|
    cache := nat * list (string * V);
    lru_New n := (n, []);
    lru_Add k v c := (c.1, lastn c.1 (without k c.2 ++ [(k, v)]));
    lru_Get k c := match find k c.2 with
                   | Some v => (Some v, (c.1, without k c.2 ++ [(k, v)]))
                   | None => (None, c)
                   end;
    lru_Keys c := map fst c.2;
    lru_size := fst;
    lru_list := snd |}; try done.
  intros k [n l]. simpl. by destruct (find k l).
Defined.

(** The workers of [disconnectProxies] wait for [golang.org/x/time/rate]: [admitted r b l]
    are the ones of the queue [l] that are let through, at the rate [r] with bursts of
    [b]: all of them when both are positive, none when no burst is allowed. *)
Class Limiter : Type := {
  admitted : Z -> Z -> list nat -> list nat;
  admitted_sub r b l : admitted r b l ⊆ l;
  admitted_all r b l : 0 < r -> 1 <= b -> admitted r b l = l;
  admitted_none r b l : b < 1 -> admitted r b l = []
}.

Definition simpleLimiter : Limiter.
Proof.
  refine {| admitted r b l := if 1 <=? b then l else [] |}.
  - intros r b l. destruct (1 <=? b); [done|apply list_subseteq_nil].
  - intros r b l _ Hb. by destruct (Z.leb_spec 1 b); [|lia].
  - intros r b l Hb. by destruct (Z.leb_spec 1 b); [lia|].
Defined.

Definition ShutdownMsgServerShutdown : string := "Server shutting down".
Definition ShutdownMsgConfigUpdate : string := "Configuration updated, please reconnect".
Definition ShutdownMsgDefault : string := "Connection closed".
Definition ProbeLogBufferSize : nat := 100.
Definition ProbeLogRetentionSize : nat := 1000.

Definition ClientStatusActive : string := "active".
Definition ClientStatusShuttingDown : string := "shutting_down".
Definition ClientStatusDisconnected : string := "disconnected".

Section Server.
Context {any : Type} `{Lru nat} (Hash : Config -> string).

(** What the server knows of a proxy; [cl_cancelled] tells whether its context has been
    cancelled. *)
Record Client : Type := {
  cl_id : string;
  cl_addr : string;
  cl_proxy : Proxy;
  cl_configHash : string;
  cl_connectedAt : Time;
  cl_stats : option ProxyStats;
  cl_buffer : option (ProbeLogBuffer any);
  cl_cancelled : bool
}.

Definition set_cl_proxy (f : Proxy -> Proxy) (c : Client) : Client := {|
  cl_id := cl_id c; cl_addr := cl_addr c; cl_proxy := f (cl_proxy c);
  cl_configHash := cl_configHash c; cl_connectedAt := cl_connectedAt c; cl_stats := cl_stats c;
  cl_buffer := cl_buffer c; cl_cancelled := cl_cancelled c |}.
Definition set_cl_buffer (b : option (ProbeLogBuffer any)) (c : Client) : Client := {|
  cl_id := cl_id c; cl_addr := cl_addr c; cl_proxy := cl_proxy c;
  cl_configHash := cl_configHash c; cl_connectedAt := cl_connectedAt c; cl_stats := cl_stats c;
  cl_buffer := b; cl_cancelled := cl_cancelled c |}.
Definition cancel (c : Client) : Client := {|
  cl_id := cl_id c; cl_addr := cl_addr c; cl_proxy := cl_proxy c;
  cl_configHash := cl_configHash c; cl_connectedAt := cl_connectedAt c; cl_stats := cl_stats c;
  cl_buffer := cl_buffer c; cl_cancelled := true |}.

(** [setShutdownMessage]. *)
Definition setShutdownMessage (msg : string) (p : Proxy) : Proxy := {|
  VirtualHost := VirtualHost p; upstreams := upstreams p; user := user p;
  password := password p; clientProps := clientProps p; confirmStates := confirmStates p;
  shutdownMessage := msg; p_tuned := p_tuned p |}.

(** A health manager and the context its goroutine runs in. *)
Record Monitored : Type := { hm_manager : Manager; hm_ctx : nat }.

Record Server : Type := {
  config : Config;
  configHash : string;
  clients : list Client;
  activeProxies : gmap string nat;
  retainedProbeLogs : cache;
  healthManagers : gmap string Monitored;
  sv_metrics : Metrics
}.

Definition set_config (c : Config) (s : Server) : Server := {|
  config := c; configHash := Hash c; clients := clients s; activeProxies := activeProxies s;
  retainedProbeLogs := retainedProbeLogs s; healthManagers := healthManagers s;
  sv_metrics := sv_metrics s |}.
Definition set_clients (cs : list Client) (s : Server) : Server := {|
  config := config s; configHash := configHash s; clients := cs;
  activeProxies := activeProxies s; retainedProbeLogs := retainedProbeLogs s;
  healthManagers := healthManagers s; sv_metrics := sv_metrics s |}.
Definition set_active (m : gmap string nat) (s : Server) : Server := {|
  config := config s; configHash := configHash s; clients := clients s; activeProxies := m;
  retainedProbeLogs := retainedProbeLogs s; healthManagers := healthManagers s;
  sv_metrics := sv_metrics s |}.
Definition set_retained (c : cache) (s : Server) : Server := {|
  config := config s; configHash := configHash s; clients := clients s;
  activeProxies := activeProxies s; retainedProbeLogs := c;
  healthManagers := healthManagers s; sv_metrics := sv_metrics s |}.
Definition set_managers (ms : gmap string Monitored) (m : Metrics) (s : Server) : Server := {|
  config := config s; configHash := configHash s; clients := clients s;
  activeProxies := activeProxies s; retainedProbeLogs := retainedProbeLogs s;
  healthManagers := ms; sv_metrics := m |}.

Definition NewServer (c : Config) : Server := {|
  config := c; configHash := Hash c; clients := []; activeProxies := ∅;
  retainedProbeLogs := lru_New ProbeLogRetentionSize; healthManagers := ∅;
  sv_metrics := NewMetrics |}.

Definition UpdateConfig (c : Config) (s : Server) : Server := set_config c s.

(** ** Proxies *)

(** The proxy before its handshake. *)
Definition newClient (s : Server) (id clientAddr : string) (now : Time) : Client := {|
  cl_id := id; cl_addr := clientAddr;
  cl_proxy := {|
    VirtualHost := EmptyString; upstreams := []; user := EmptyString; password := EmptyString;
    clientProps := None; confirmStates := None; shutdownMessage := ShutdownMsgDefault;
    p_tuned := newTuned |};
  cl_configHash := configHash s; cl_connectedAt := now; cl_stats := Some (NewProxyStats now);
  cl_buffer := Some (NewProbeLogBuffer ProbeLogBufferSize); cl_cancelled := false |}.

(** [NewProxy] gives the number of the new proxy. *)
Definition NewProxy (id clientAddr : string) (now : Time) (s : Server) : nat * Server :=
  (length (clients s), set_clients (clients s ++ [newClient s id clientAddr now]) s).

(** An update of proxy [i]. *)
Definition onClient (i : nat) (f : Client -> Client) (s : Server) : Server :=
  set_clients (alter f i (clients s)) s.

Context (ClientBanner : Proxy -> string).

Definition RegisterProxy (i : nat) (s : Server) : Server :=
  match clients s !! i with
  | None => s
  | Some c =>
      let s := set_active (<[cl_id c := i]> (activeProxies s)) s in
      onClient i (fun c => set_cl_buffer (SetProxyInfo (cl_addr c) (user (cl_proxy c))
        (VirtualHost (cl_proxy c)) (ClientBanner (cl_proxy c)) (cl_connectedAt c) <$> cl_buffer c) c) s
  end.

Definition UnregisterProxy (i : nat) (now : Time) (s : Server) : Server :=
  match clients s !! i with
  | None => s
  | Some c =>
      let s := set_active (delete (cl_id c) (activeProxies s)) s in
      match cl_buffer c with
      | None => s
      | Some b =>
          set_retained (lru_Add (cl_id c) i (retainedProbeLogs s))
            (onClient i (set_cl_buffer (Some (MarkInactive now b))) s)
      end
  end.

(** [GetProbeLogBuffer]: the second component is [ok]; the buffer may be nil. *)
Definition bufferOf (s : Server) (i : nat) : option (ProbeLogBuffer any) :=
  clients s !! i ≫= cl_buffer.

Definition GetProbeLogBuffer (id : string) (s : Server) : (option (ProbeLogBuffer any) * bool) * Server :=
  match activeProxies s !! id with
  | Some i => ((bufferOf s i, true), s)
  | None =>
      let (r, c) := lru_Get id (retainedProbeLogs s) in
      ((match r with Some i => (bufferOf s i, true) | None => (None, false) end),
       set_retained c s)
  end.

Definition GetProxy (id : string) (s : Server) : option nat := activeProxies s !! id.

(** [Range] with a counter. *)
Definition CountActiveProxies (s : Server) : Z :=
  foldl (fun count _ => count + 1) 0 (map_to_list (activeProxies s)).

(** ** Information on clients *)

Record StatsSummary : Type := {
  StatsSummary_TotalMethods : Z;
  StatsSummary_ReceivedFrames : Z;
  StatsSummary_SentFrames : Z;
  StatsSummary_TotalFrames : Z;
  StatsSummary_Duration : string
}.

(** [ClientInfo] and [FullClientInfo], which differ in the statistics and in the
    properties being left out. *)
Record Info (St : Type) : Type := {
  Info_ID : string;
  Info_ClientAddress : string;
  Info_User : string;
  Info_VirtualHost : string;
  Info_ClientBanner : string;
  Info_ClientProperties : Table;
  Info_ConnectedAt : Time;
  Info_DisconnectedAt : Time;
  Info_Status : string;
  Info_ShutdownReason : string;
  Info_Stats : option St
}.
Definition ClientInfo : Type := Info StatsSummary.
Definition FullClientInfo : Type := Info StatsSnapshot.

Definition summary (s : StatsSnapshot) : StatsSummary := {|
  StatsSummary_TotalMethods := StatsSnapshot_TotalMethods s;
  StatsSummary_ReceivedFrames := StatsSnapshot_ReceivedFrames s;
  StatsSummary_SentFrames := StatsSnapshot_SentFrames s;
  StatsSummary_TotalFrames := StatsSnapshot_TotalFrames s;
  StatsSummary_Duration := StatsSnapshot_Duration s |}.

Definition activeInfo {St} (props : Proxy -> Table) (stats : StatsSnapshot -> St) (now : Time)
  (c : Client) : Info St :=
  let p := cl_proxy c in
  let shutting := negb (String.eqb (shutdownMessage p) ShutdownMsgDefault) in
  {| Info_ID := cl_id c; Info_ClientAddress := cl_addr c; Info_User := user p;
     Info_VirtualHost := VirtualHost p; Info_ClientBanner := ClientBanner p;
     Info_ClientProperties := props p; Info_ConnectedAt := cl_connectedAt c;
     Info_DisconnectedAt := zeroTime;
     Info_Status := if shutting then ClientStatusShuttingDown else ClientStatusActive;
     Info_ShutdownReason := if shutting then shutdownMessage p else EmptyString;
     Info_Stats := (fun s => stats (Snapshot now s)) <$> cl_stats c |}.

Definition retainedInfo {St} (id : string) (b : ProbeLogBuffer any) : Info St :=
  let '(clientAddr, user, virtualHost, clientBanner, connectedAt) := GetProxyInfo b in
  {| Info_ID := id; Info_ClientAddress := clientAddr; Info_User := user;
     Info_VirtualHost := virtualHost; Info_ClientBanner := clientBanner;
     Info_ClientProperties := None; Info_ConnectedAt := connectedAt;
     Info_DisconnectedAt := GetDisconnectedAt b; Info_Status := ClientStatusDisconnected;
     Info_ShutdownReason := EmptyString; Info_Stats := None |}.

(** The loop over the keys of the cache; every [Get] makes its entry the newest. *)
Fixpoint retainedLoop (keys : list string) (s : Server) : list ClientInfo * Server :=
  match keys with
  | [] => ([], s)
  | id :: keys' =>
      if bool_decide (is_Some (activeProxies s !! id)) then retainedLoop keys' s
      else
        let (r, c) := lru_Get id (retainedProbeLogs s) in
        let s := set_retained c s in
        let (l, s') := retainedLoop keys' s in
        (match r ≫= bufferOf s with
         | Some b => if IsActive b then l else retainedInfo id b :: l
         | None => l
         end, s')
  end.

Definition activeInfos (now : Time) (s : Server) : list ClientInfo :=
  omap (fun ki => activeInfo (fun _ => None) summary now <$> clients s !! ki.2)
    (map_to_list (activeProxies s)).

Definition earlier (x y : ClientInfo) : bool := Before (Info_ConnectedAt _ x) (Info_ConnectedAt _ y).

Definition GetClientsInfo `{Pdq} (now : Time) (s : Server) : list ClientInfo * Server :=
  let (retained, s') := retainedLoop (lru_Keys (retainedProbeLogs s)) s in
  ((sortSlice (pure_less earlier) (activeInfos now s ++ retained) 0).1, s').

Definition GetClientInfo (id : string) (now : Time) (s : Server) : option FullClientInfo * Server :=
  match activeProxies s !! id ≫= fun i => clients s !! i with
  | Some c => (Some (activeInfo clientProps (fun x => x) now c), s)
  | None =>
      let (r, c) := lru_Get id (retainedProbeLogs s) in
      let s := set_retained c s in
      (match r ≫= bufferOf s with
       | Some b => if IsActive b then None else Some (retainedInfo id b)
       | None => None
       end, s)
  end.

(** ** Disconnecting *)

Definition ShutdownProxy (id reason : string) (s : Server) : bool * Server :=
  let reason := if String.eqb reason EmptyString then "API shutdown request"%string else reason in
  match activeProxies s !! id with
  | None => (false, s)
  | Some i => (true, onClient i (fun c => cancel (set_cl_proxy (setShutdownMessage reason) c)) s)
  end.

(** The proxies that [filter] selects, in the order of the map. *)
Definition targets (f : Client -> bool) (s : Server) : list nat :=
  filter (fun i => match clients s !! i with Some c => f c | None => false end = true)
    (map snd (map_to_list (activeProxies s))).

(** The time [disconnectProxies] waits for its workers; [count/rate + 1] seconds, whole
    ones, is computed with [float64]s. *)
Definition disconnectTimeout (count rateLimit maxTimeout : Z) : Z :=
  let rate := if count <=? 10 then 1000 else rateLimit in
  Z.min (Z.max ((count / rate + 1) * Second) (2 * Second)) maxTimeout.

(** The count that is reported, and the state once the workers are done. *)
Definition disconnectProxies `{Limiter} (msg : string) (rateLimit burst : Z)
  (f : Client -> bool) (s : Server) : Z * Server :=
  let ts := targets f s in
  let count := Z.of_nat (length ts) in
  let few := count <=? 10 in
  let s := foldl (fun s i => onClient i (set_cl_proxy (setShutdownMessage msg)) s) s ts in
  let go := admitted (if few then 1000 else rateLimit) (if few then 100 else burst) ts in
  (count, foldl (fun s i => onClient i cancel s) s go).

(** [h[:8]] of a hash: [Hash] gives none of a configuration that it cannot encode, and a
    slice beyond the end of a string panics. *)
Definition sliceable (h : string) : bool := (8 <=? String.length h)%nat.

(** How [disconnectOutdatedProxies] goes: it panics at the hash it is given; the goroutine
    that it starts panics at the hash of a proxy, which nothing recovers, so that the process
    ends; or so many proxies are told. *)
Inductive outdating : Type := CallerPanics | GoroutinePanics | Told (count : Z).

Definition outdated (currentConfigHash : string) (c : Client) : bool :=
  negb (String.eqb (cl_configHash c) currentConfigHash).

Definition disconnectOutdatedProxies `{Limiter} (currentConfigHash : string) (s : Server)
  : outdating * Server :=
  if negb (sliceable currentConfigHash) then (CallerPanics, s)
  else if existsb (fun i => from_option (fun c => negb (sliceable (cl_configHash c))) false (clients s !! i))
            (targets (outdated currentConfigHash) s)
  then (GoroutinePanics, s)
  else
    let g := Config_GracefulShutdown (config s) in
    let (count, s) := disconnectProxies ShutdownMsgConfigUpdate (RateLimit g) (BurstSize g)
                        (outdated currentConfigHash) s in
    (Told count, s).

Definition disconnectAllProxies `{Limiter} (s : Server) : Z * Server :=
  let g := Config_GracefulShutdown (config s) in
  disconnectProxies ShutdownMsgServerShutdown (RateLimit g) (BurstSize g) (fun _ => true) s.

(** ** Reloading *)

(** [initHealthManagers]: all managers are stopped, and those of the current configuration
    are started; [e u] are the surroundings of the first checks of the upstream [u]. *)
Definition startManager (ctx : nat) (e : string -> string -> Surroundings)
  (u : UpstreamConfig) (s : Server) : Server :=
  match NewManager u with
  | None => s
  | Some m =>
      let (m', ms) := checkAllNodesInitial (e (UpstreamConfig_Name u)) (m, sv_metrics s) in
      set_managers (<[UpstreamConfig_Name u := {| hm_manager := m'; hm_ctx := ctx |}]>
        (healthManagers s)) ms s
  end.

Definition initHealthManagers (ctx : nat) (e : string -> string -> Surroundings) (s : Server)
  : Server :=
  foldl (fun s u => startManager ctx e u s) (set_managers ∅ (sv_metrics s) s)
    (Config_Upstreams (config s)).

(** [reloadConfigFromFile] returns an error or the new configuration, or panics; a goroutine
    logs how many proxies were told. [loaded] is what [config.Load] gives. *)
Inductive reloading : Type :=
| NotLoaded (err : string)
| ReloadPanics
| Reloaded (cfg : Config) (o : outdating).

Definition reloadConfigFromFile `{Limiter} (ctx : nat) (e : string -> string -> Surroundings)
  (loaded : result string Config) (s : Server) : reloading * Server :=
  match loaded with
  | Err err => (NotLoaded ("failed to reload configuration: " +:+ err), s)
  | Ok cfg =>
      let s := UpdateConfig cfg (initHealthManagers ctx e s) in
      match disconnectOutdatedProxies (Hash cfg) s with
      | (CallerPanics, s) => (ReloadPanics, s)
      | (o, s) => (Reloaded cfg o, s)
      end
  end.
End Server.
Arguments Client : clear implicits.
Arguments Server any {_}.

(** ** Time limits *)

(** The time allowed for a disconnection is at most the configured one, and when that
    is no limit, it is long enough for the limiter to let everyone through. *)
Theorem disconnectTimeout_enough count rateLimit maxTimeout :
  0 <= count -> 0 < rateLimit ->
  disconnectTimeout count rateLimit maxTimeout <= maxTimeout /\
  (disconnectTimeout count rateLimit maxTimeout < maxTimeout ->
   count * Second <= (if count <=? 10 then 1000 else rateLimit)
                     * disconnectTimeout count rateLimit maxTimeout).
Proof.
  intros Hc Hr. unfold disconnectTimeout.
  set (r := if count <=? 10 then 1000 else rateLimit).
  assert (0 < r) by (unfold r; case_match; lia).
  split; [lia|]. intros Hlt.
  rewrite Z.min_l by lia.
  pose proof (Z.mul_succ_div_gt count r ltac:(lia)). unfold Second in *. nia.
Qed.

Lemma disconnectTimeout_enough_witness :
  disconnectTimeout 250 100 (30 * Second) = 3 * Second /\
  250 * Second <= 100 * disconnectTimeout 250 100 (30 * Second).
Proof.
  split; [by vm_compute|]. apply (disconnectTimeout_enough 250 100 (30 * Second)); by vm_compute.
Defined.
