(* ===== verification/Registry.v ===== *)
(** * Proofs about the server's registry

    The invariant of the registry over all reachable states, the lists that queries make, and
    what disconnections and reloads do to it, with the panics of configurations that have no
    hash. *)

From stdpp Require Import sorting.
From S2P Require Import Prelude Bytes Fields Config Stats Instruments Health Times.
From S2P Require Import LogBuffers Proxy Sorting Nodes Dispatch Server.

Open Scope Z_scope.

(** ** The cache *)

Section Cache.
Context {V : Type}.
Implicit Types (l : list (string * V)).

Lemma find_app k l1 l2 : find k (l1 ++ l2) = match find k l1 with Some v => Some v | None => find k l2 end.
Proof.
  induction l1 as [|[k' v] l1 IH]; [done|]. unfold find in *. simpl.
  destruct (decide (k' = k)); [done|].
  destruct (list_find _ (l1 ++ l2)) as [[? []]|], (list_find _ l1) as [[? []]|]; simpl in *;
    naive_solver.
Qed.

Lemma find_cons k k' (v : V) l : find k ((k', v) :: l) = if decide (k' = k) then Some v else find k l.
Proof.
  change ((k', v) :: l) with ([(k', v)] ++ l). rewrite find_app. unfold find at 1. simpl.
  by destruct (decide (k' = k)).
Qed.

Lemma find_Some k v l : find k l = Some v -> (k, v) ∈ l.
Proof.
  induction l as [|[k' v'] l IH]; [done|]. rewrite find_cons.
  destruct (decide (k' = k)) as [->|]; [intros [= ->]; by constructor|].
  intros H. constructor. auto.
Qed.

Lemma find_None k l : find k l = None <-> k ∉ map fst l.
Proof.
  induction l as [|[k' v] l IH]; simpl; [split; [set_solver|done]|]. rewrite find_cons.
  destruct (decide (k' = k)); [split; [done|set_solver]|]. rewrite IH. set_solver.
Qed.

Lemma find_NoDup k v l : NoDup (map fst l) -> (k, v) ∈ l -> find k l = Some v.
Proof.
  induction l as [|[k' v'] l IH]; simpl; [by intros _ H%not_elem_of_nil|].
  intros [Hni Hnd]%NoDup_cons Hin. rewrite find_cons.
  apply elem_of_cons in Hin as [[= -> ->]|Hin]; [by rewrite decide_True|].
  rewrite decide_False; [by apply IH|]. intros ->. apply Hni.
  apply list_elem_of_fmap. by exists (k, v).
Qed.

Lemma without_notin k l : k ∉ map fst (without k l).
Proof.
  intros ([k' v] & -> & [Hne _]%list_elem_of_filter)%list_elem_of_fmap. by apply Hne.
Qed.

Lemma find_without k k' l : k <> k' -> find k' (without k l) = find k' l.
Proof.
  intros Hne. induction l as [|[k2 v] l IH]; [done|]. unfold without in *.
  rewrite filter_cons, find_cons. simpl. destruct (decide (k2 <> k)) as [H|H].
  - rewrite find_cons. by rewrite IH.
  - rewrite IH, decide_False; [done|]. intros ->. apply H. congruence.
Qed.

(** Making an entry the newest changes no lookup. *)
Lemma find_promoted k v k' l :
  find k l = Some v -> find k' (without k l ++ [(k, v)]) = find k' l.
Proof.
  intros Hk. rewrite find_app, find_cons. destruct (decide (k = k')) as [<-|Hne].
  - by rewrite (proj2 (find_None k (without k l)) (without_notin k l)).
  - rewrite find_without by done. by destruct (find k' l).
Qed.

Lemma lastn_snoc {A} n (l : list A) x : (0 < n)%nat -> lastn n (l ++ [x]) = lastn (n - 1) l ++ [x].
Proof.
  intros Hn. unfold lastn. rewrite length_app. simpl.
  replace (length l + 1 - n)%nat with (length l - (n - 1))%nat by lia.
  by rewrite drop_app_le by lia.
Qed.

(** The entry just added is found. *)
Lemma find_added k v n l : (0 < n)%nat -> find k (lastn n (without k l ++ [(k, v)])) = Some v.
Proof.
  intros Hn. rewrite lastn_snoc by done. rewrite find_app, find_cons, decide_True by done.
  assert (find k (lastn (n - 1) (without k l)) = None) as ->; [|done].
  apply find_None. intros ([k' v'] & -> & Hin)%list_elem_of_fmap.
  apply (without_notin k' l). apply list_elem_of_fmap. exists (k', v'). split; [done|].
  eapply elem_of_sublist; [exact Hin|apply sublist_drop].
Qed.

(** Distinct keys stay distinct. *)
Lemma NoDup_promoted k v l : NoDup (map fst l) -> NoDup (map fst (without k l ++ [(k, v)])).
Proof.
  intros Hnd. rewrite map_app. apply NoDup_app. split_and!.
  - eapply sublist_NoDup; [exact Hnd|]. apply fmap_sublist, sublist_filter.
  - intros x Hx Hk. apply list_elem_of_singleton in Hk as ->. by apply without_notin in Hx.
  - by repeat constructor; set_solver.
Qed.

Lemma NoDup_lastn n l : NoDup (map fst l) -> NoDup (map fst (lastn n l)).
Proof.
  intros Hnd. eapply sublist_NoDup; [exact Hnd|]. apply fmap_sublist. apply sublist_drop.
Qed.

Lemma without_id k l : k ∉ map fst l -> without k l = l.
Proof.
  induction l as [|[k' v] l IH]; [done|]. simpl. intros [Hne Hk]%not_elem_of_cons.
  unfold without in *. rewrite filter_cons_True; [by rewrite IH|]. simpl. congruence.
Qed.

Lemma promoted_perm k v l : NoDup (map fst l) -> (k, v) ∈ l -> without k l ++ [(k, v)] ≡ₚ l.
Proof.
  induction l as [|[k' w] l IH]; simpl; [by intros _ ?%not_elem_of_nil|].
  intros [Hk Hnd]%NoDup_cons [[= <- <-]|Hin]%elem_of_cons.
  - unfold without. rewrite filter_cons_False by (simpl; by intros []).
    fold (without k l). rewrite without_id by done. by rewrite Permutation_app_comm.
  - unfold without. rewrite filter_cons_True.
    + simpl. constructor. by apply IH.
    + simpl. intros ->. apply Hk, list_elem_of_fmap. by exists (k, v).
Qed.
End Cache.

Section Registry.
Context {any : Type} `{Lru nat} (Hash : Config -> string) (ClientBanner : Proxy -> string).
Implicit Types (s : Server any) (c : Client any).

(** ** Updates of the heap *)

Lemma onClient_same i f s : 
  let s' := onClient i f s in
  config s' = config s /\ configHash s' = configHash s /\ activeProxies s' = activeProxies s /\
  retainedProbeLogs s' = retainedProbeLogs s /\ healthManagers s' = healthManagers s /\
  sv_metrics s' = sv_metrics s.
Proof. done. Qed.

(** An update that may be repeated, of several proxies. *)
Lemma onClients_lookup (f : Client any -> Client any) ts s j : (forall c, f (f c) = f c) ->
  clients (foldl (fun s i => onClient i f s) s ts) !! j =
  (if decide (j ∈ ts) then f else fun c => c) <$> (clients s !! j).
Proof.
  intros Hf. revert s; induction ts as [|i ts IH]; intros s; simpl.
  - by destruct (clients s !! j).
  - rewrite IH. simpl. destruct (decide (i = j)) as [->|Hne].
    + rewrite list_lookup_alter_eq. destruct (clients s !! j) as [c|]; simpl; [|done].
      destruct (decide (j ∈ ts)), (decide (j ∈ j :: ts)); try done.
      * by rewrite Hf.
      * by destruct n; constructor.
      * by destruct n0; constructor.
    + rewrite list_lookup_alter_ne by done. destruct (clients s !! j); simpl; [|done].
      destruct (decide (j ∈ ts)), (decide (j ∈ i :: ts)); set_solver.
Qed.

Lemma onClients_rest (f : Client any -> Client any) ts s :
  let s' := foldl (fun s i => onClient i f s) s ts in
  config s' = config s /\ configHash s' = configHash s /\ activeProxies s' = activeProxies s /\
  retainedProbeLogs s' = retainedProbeLogs s /\ healthManagers s' = healthManagers s /\
  sv_metrics s' = sv_metrics s.
Proof. revert s; induction ts as [|i ts IH]; intros s; [done|]. apply (IH (onClient i f s)). Qed.

Lemma targets_in f s j : j ∈ targets f s <->
  exists id c, activeProxies s !! id = Some j /\ clients s !! j = Some c /\ f c = true.
Proof.
  unfold targets. rewrite list_elem_of_filter, list_elem_of_fmap. split.
  - intros [Hf ([id i] & -> & Hin%elem_of_map_to_list)]. simpl in *.
    destruct (clients s !! i) as [c|]; [|done]. eauto.
  - intros (id & c & Ha & -> & Hf). split; [done|]. exists (id, j). split; [done|].
    by apply elem_of_map_to_list.
Qed.

Definition told (msg : string) (c : Client any) : Client any :=
  set_cl_proxy (setShutdownMessage msg) c.

(** With a positive rate and burst every target is told and cancelled, nobody else. *)
Lemma disconnect_effect `{Limiter} msg rateLimit burst f s :
  0 < rateLimit -> 1 <= burst ->
  let (count, s') := disconnectProxies msg rateLimit burst f s in
  count = Z.of_nat (length (targets f s)) /\
  (forall j, clients s' !! j =
     (if decide (j ∈ targets f s) then fun c => cancel (told msg c) else fun c => c)
       <$> (clients s !! j)) /\
  config s' = config s /\ configHash s' = configHash s /\ activeProxies s' = activeProxies s /\
  retainedProbeLogs s' = retainedProbeLogs s /\ healthManagers s' = healthManagers s /\
  sv_metrics s' = sv_metrics s.
Proof.
  intros Hr Hb. unfold disconnectProxies. set (ts := targets f s).
  rewrite admitted_all by (case_match; lia).
  set (s1 := foldl _ s ts). split; [done|].
  pose proof (onClients_rest cancel ts s1) as Hrest.
  pose proof (onClients_rest (set_cl_proxy (setShutdownMessage msg)) ts s) as Hrest1.
  fold s1 in Hrest1. simpl in *. split.
  - intros j. rewrite onClients_lookup by done. unfold s1.
    rewrite onClients_lookup by done. rewrite <- option_fmap_compose. unfold told.
    by destruct (decide (j ∈ ts)).
  - destruct Hrest as (-> & -> & -> & -> & -> & ->). exact Hrest1.
Qed.

(** [m] is the manager that was started for the upstream [u], under its name. *)
Definition started ctx (e : string -> string -> Surroundings) (u : UpstreamConfig) (id : string)
  (m : Monitored) : Prop :=
  id = UpstreamConfig_Name u /\ hm_ctx m = ctx /\
  exists m0, NewManager u = Some m0 /\ hm_manager m = checkNodes true (e id) m0.

(** [initHealthManagers] leaves everything else alone. *)
Lemma startManager_rest ctx e u s :
  let s' := startManager ctx e u s in
  config s' = config s /\ configHash s' = configHash s /\ clients s' = clients s /\
  activeProxies s' = activeProxies s /\ retainedProbeLogs s' = retainedProbeLogs s /\
  forall id m, healthManagers s' !! id = Some m ->
    healthManagers s !! id = Some m \/ started ctx e u id m.
Proof.
  unfold startManager, started. destruct (NewManager u) as [m|]; [|by split_and!; auto].
  simpl. split_and!; try done.
  intros id m'. destruct (decide (UpstreamConfig_Name u = id)) as [<-|Hne].
  - rewrite lookup_insert_eq. intros [= <-]. right. simpl. eauto.
  - rewrite lookup_insert_ne by done. by left.
Qed.

Lemma initHealthManagers_rest ctx e s :
  let s' := initHealthManagers ctx e s in
  config s' = config s /\ configHash s' = configHash s /\ clients s' = clients s /\
  activeProxies s' = activeProxies s /\ retainedProbeLogs s' = retainedProbeLogs s /\
  forall id m, healthManagers s' !! id = Some m ->
    exists u, u ∈ Config_Upstreams (config s) /\ started ctx e u id m.
Proof.
  unfold initHealthManagers. generalize (Config_Upstreams (config s)) as us. intros us.
  induction us as [|u us IH] using rev_ind; simpl in *; [by split_and!|].
  rewrite foldl_snoc. destruct IH as (E1 & E2 & E3 & E4 & E5 & E6).
  set (s1 := foldl _ _ us) in *.
  destruct (startManager_rest ctx e u s1) as (F1 & F2 & F3 & F4 & F5 & F6).
  rewrite F1, F2, F3, F4, F5. split_and!; [done..|].
  intros id m [(u' & Hu & Hs)%E6|Hs]%F6; [exists u'|exists u]; set_solver.
Qed.

(** How [disconnectOutdatedProxies] goes is decided by the hashes. *)
Lemma outdating_panics `{Limiter} h (s : Server any) :
  match (disconnectOutdatedProxies h s).1 with
  | CallerPanics => sliceable h = false
  | _ => sliceable h = true
  end.
Proof.
  unfold disconnectOutdatedProxies. destruct (sliceable h) eqn:E; [|done]. cbn [negb].
  destruct (existsb _ _); [done|]. by destruct (disconnectProxies _ _ _ _ _).
Qed.

(** The targets, by their identifiers. *)
Lemma targets_count f s : exists ids, length (targets f s) = length ids /\ NoDup ids /\
  forall id, id ∈ ids <-> exists j, activeProxies s !! id = Some j /\ exists c, clients s !! j = Some c /\ f c = true.
Proof.
  set (P := fun i => match clients s !! i with Some c => f c | None => false end = true).
  assert (L : forall l : list (string * nat), length (filter P (map snd l)) = length (map fst (filter (fun x => P x.2) l))).
  { induction l as [|x l IH]; [done|]. simpl. rewrite !filter_cons. case_decide; simpl; by rewrite IH. }
  exists (map fst (filter (fun x => P x.2) (map_to_list (activeProxies s)))). split; [apply L|]. split.
  - pose proof (NoDup_fst_map_to_list (activeProxies s)) as Hn. induction (map_to_list (activeProxies s)) as [|x l IH]; [done|].
    apply NoDup_cons in Hn as [Hx Hn]. rewrite filter_cons. case_decide; [|by apply IH]. apply NoDup_cons. split; [|by apply IH].
    intros (y & Ey & Hy)%list_elem_of_fmap. apply Hx. rewrite Ey. apply list_elem_of_fmap_2. by apply list_elem_of_filter in Hy as [_ Hy].
  - intros id. rewrite list_elem_of_fmap. setoid_rewrite list_elem_of_filter. unfold P. split.
    + intros ([k j] & -> & Hf & Hin%elem_of_map_to_list). simpl in *. exists j. split; [done|].
      destruct (clients s !! j) as [c|]; [|done]. by exists c.
    + intros (j & Hj & c & Hc & Hf). exists (id, j). split; [done|]. simpl. rewrite Hc. split; [done|].
      by apply elem_of_map_to_list.
Qed.

(** Proxy [j] was made with another configuration than that of the hash [h]. *)
Definition outdatedAt (s : Server any) (h : string) (j : nat) : Prop :=
  exists c, clients s !! j = Some c /\ cl_configHash c <> h.

(** A proxy that would be told, but has no hash to be shown. *)
Definition unshowable (h : string) (s : Server any) : Prop :=
  exists id j c, activeProxies s !! id = Some j /\ clients s !! j = Some c /\
    cl_configHash c <> h /\ sliceable (cl_configHash c) = false.

Lemma unshowable_exists h s :
  existsb (fun i => from_option (fun c => negb (sliceable (cl_configHash c))) false (clients s !! i))
    (targets (outdated h) s) = true <-> unshowable h s.
Proof.
  rewrite existsb_exists. unfold unshowable, outdated. split.
  - intros (j & Hj%list_elem_of_In & Hs). apply targets_in in Hj as (id & c & Ha & Hc & Hd). exists id, j, c.
    rewrite Hc in Hs. simpl in Hs. apply negb_true_iff in Hs. apply negb_true_iff, String.eqb_neq in Hd. done.
  - intros (id & j & c & Ha & Hc & Hd & Hs). exists j. split.
    + apply list_elem_of_In, targets_in. exists id, c. split_and!; [done|done|]. by apply negb_true_iff, String.eqb_neq.
    + rewrite Hc. simpl. by rewrite Hs.
Qed.

(** C21: a configuration that loads replaces the old one, and the health managers afterwards
    are those of upstreams of the OLD one, with checks that live as long as the context of
    the reload. When it has no hash, the reload panics there and tells nobody; when a proxy
    of a configuration without a hash is registered, a goroutine panics; otherwise exactly
    the registered proxies made with another configuration are told to reconnect and
    cancelled, and counted, if the limiter has a positive rate and lets one through, and the
    others are left alone. A configuration that does not load changes nothing. *)
Theorem reload_effect `{Limiter} ctx e loaded s :
  (forall cfg, loaded = Ok cfg -> 0 < RateLimit (Config_GracefulShutdown cfg) /\
                                  1 <= BurstSize (Config_GracefulShutdown cfg)) ->
  let (r, s') := reloadConfigFromFile Hash ctx e loaded s in
  match loaded with
  | Err err => r = NotLoaded ("failed to reload configuration: " +:+ err) /\ s' = s
  | Ok cfg =>
      let outdated j := (exists id, activeProxies s !! id = Some j) /\ outdatedAt s (Hash cfg) j in
      config s' = cfg /\ configHash s' = Hash cfg /\ activeProxies s' = activeProxies s /\
      (forall id m, healthManagers s' !! id = Some m ->
         exists u, u ∈ Config_Upstreams (config s) /\ started ctx e u id m) /\
      match r with
      | NotLoaded _ => False
      | ReloadPanics | Reloaded _ CallerPanics =>
          r = ReloadPanics /\ (String.length (Hash cfg) < 8)%nat /\ clients s' = clients s
      | Reloaded c GoroutinePanics => c = cfg /\ (8 <= String.length (Hash cfg))%nat /\ unshowable (Hash cfg) s
      | Reloaded c (Told n) => c = cfg /\ (8 <= String.length (Hash cfg))%nat /\ ~ unshowable (Hash cfg) s /\
          (exists ids, n = Z.of_nat (length ids) /\ NoDup ids /\
             forall id, id ∈ ids <-> exists j, activeProxies s !! id = Some j /\ outdatedAt s (Hash cfg) j) /\
          (forall j c, clients s !! j = Some c -> outdated j ->
             clients s' !! j = Some (cancel (told ShutdownMsgConfigUpdate c))) /\
          (forall j, ~ outdated j -> clients s' !! j = clients s !! j)
      end
  end.
Proof.
  intros Hg. destruct loaded as [cfg|err]; [|done].
  destruct (Hg cfg eq_refl) as [Hr Hb]. unfold reloadConfigFromFile, disconnectOutdatedProxies.
  destruct (initHealthManagers_rest ctx e s) as (_ & _ & E3 & E4 & _ & E6).
  set (s1 := UpdateConfig Hash cfg (initHealthManagers ctx e s)).
  destruct (sliceable (Hash cfg)) eqn:Es; cbn [negb].
  2: { apply Nat.leb_gt in Es. by split_and!. }
  apply Nat.leb_le in Es. pose proof (unshowable_exists (Hash cfg) s1) as Hu.
  assert (Eu : unshowable (Hash cfg) s1 <-> unshowable (Hash cfg) s) by (unfold unshowable; simpl; by rewrite E3, E4).
  destruct (existsb _ _); [apply proj1 in Hu; specialize (Hu eq_refl); rewrite Eu in Hu; by split_and!|].
  pose proof (disconnect_effect ShutdownMsgConfigUpdate _ _ (outdated (Hash cfg)) s1 Hr Hb) as D.
  change (config s1) with cfg. cbv zeta.
  destruct (disconnectProxies _ _ _ _ s1) as [n s'].
  destruct D as (-> & Hcl & Hc & Hh & Ha & _ & Hm & _).
  assert (Ho : forall j, j ∈ targets (outdated (Hash cfg)) s1 <->
    (exists id, activeProxies s !! id = Some j) /\ outdatedAt s (Hash cfg) j).
  { intros j. rewrite targets_in. simpl. rewrite E3, E4. unfold outdated, outdatedAt.
    setoid_rewrite negb_true_iff. setoid_rewrite String.eqb_neq. naive_solver. }
  simpl in Hcl. rewrite E3 in Hcl. split_and!; [done|done|rewrite Ha; exact E4|rewrite Hm; exact E6|done|exact Es| | | |].
  - intros Hu'%Eu%Hu. done.
  - destruct (targets_count (outdated (Hash cfg)) s1) as (ids & En & Hnd & Hids). exists ids. rewrite En.
    split_and!; [done|done|]. intros id. rewrite Hids. simpl. unfold outdatedAt. rewrite E3, E4. unfold outdated.
    setoid_rewrite negb_true_iff. by setoid_rewrite String.eqb_neq.
  - intros j c Hj Hout. apply Ho in Hout. by rewrite Hcl, Hj, decide_True.
  - intros j Hout. rewrite Hcl, decide_False by by rewrite Ho.
    by destruct (clients s !! j).
Qed.
(** Shutting down tells and cancels every registered proxy. *)
Theorem shutdown_all `{Limiter} s :
  0 < RateLimit (Config_GracefulShutdown (config s)) ->
  1 <= BurstSize (Config_GracefulShutdown (config s)) ->
  forall id j c, activeProxies s !! id = Some j -> clients s !! j = Some c ->
  clients (disconnectAllProxies s).2 !! j = Some (cancel (told ShutdownMsgServerShutdown c)).
Proof.
  intros Hr Hb id j c Ha Hj. unfold disconnectAllProxies.
  pose proof (disconnect_effect ShutdownMsgServerShutdown _ _ (fun _ => true) s Hr Hb) as D.
  destruct (disconnectProxies _ _ _ _ s) as [n s']. destruct D as (_ & D & _). simpl.
  rewrite D, Hj, decide_True; [done|]. apply targets_in. eauto.
Qed.

(** ** What the registry holds *)

Definition is_active (s : Server any) (i : nat) (act : bool) : Prop :=
  exists b, bufferOf s i = Some b /\ IsActive b = act.

Record Inv (s : Server any) : Prop := {
  inv_ids : NoDup (map cl_id (clients s));
  inv_active : forall id i, activeProxies s !! id = Some i ->
    cl_id <$> (clients s !! i) = Some id /\ is_active s i true;
  inv_retained : forall id i, (id, i) ∈ lru_list (retainedProbeLogs s) ->
    cl_id <$> (clients s !! i) = Some id /\ is_active s i false;
  inv_keys : NoDup (map fst (lru_list (retainedProbeLogs s)));
  inv_bound : (length (lru_list (retainedProbeLogs s)) <= ProbeLogRetentionSize)%nat;
  inv_size : lru_size (retainedProbeLogs s) = ProbeLogRetentionSize
}.

(** An update of what a connection itself changes of its proxy. *)
Definition own (f : Client any -> Client any) : Prop := forall c,
  cl_id (f c) = cl_id c /\ cl_addr (f c) = cl_addr c /\ cl_configHash (f c) = cl_configHash c /\
  cl_connectedAt (f c) = cl_connectedAt c /\ cl_buffer (f c) = cl_buffer c /\
  cl_cancelled (f c) = cl_cancelled c.

(** What may happen to the registry. A new proxy has an identifier of its own; a proxy is
    registered before it is unregistered; its handshake, its counters and its log go on
    whenever they like, and so do the metrics. *)
Inductive sstep : Server any -> Server any -> Prop :=
| S_New s id a t : id ∉ map cl_id (clients s) -> sstep s (NewProxy id a t s).2
| S_Register s i : is_active s i true -> sstep s (RegisterProxy ClientBanner i s)
| S_Unregister s i t : sstep s (UnregisterProxy i t s)
| S_Proxy s i f : own f -> sstep s (onClient i f s)
| S_Metrics s f : sstep s (set_managers (healthManagers s) (f (sv_metrics s)) s)
| S_Cancel s i : sstep s (onClient i cancel s)
| S_Log s i l : sstep s (onClient i (fun c =>
    set_cl_buffer (ProbeLogBuffer_Add l <$> cl_buffer c) c) s)
| S_GetBuffer s id : sstep s (GetProbeLogBuffer id s).2
| S_GetInfo s id t : sstep s (GetClientInfo ClientBanner id t s).2
| S_GetInfos `{Pdq} s t : sstep s (GetClientsInfo ClientBanner t s).2
| S_Shutdown s id r : sstep s (ShutdownProxy id r s).2
| S_Reload `{Limiter} s ctx e l : sstep s (reloadConfigFromFile Hash ctx e l s).2
| S_DisconnectAll `{Limiter} s : sstep s (disconnectAllProxies s).2
| S_Init s ctx e : sstep s (initHealthManagers ctx e s).

Inductive sreach (c : Config) : Server any -> Prop :=
| sreach_new : sreach c (NewServer Hash c)
| sreach_step s s' : sreach c s -> sstep s s' -> sreach c s'.

(** The hashes of a server are those of configurations. *)
Definition hashed (s : Server any) : Prop :=
  (exists cfg, configHash s = Hash cfg) /\ forall j cl, clients s !! j = Some cl -> exists cfg, cl_configHash cl = Hash cfg.

(** Clients that an update may have changed, but not the configurations they are of. *)
Definition same_origins (s s' : Server any) : Prop :=
  forall j cl, clients s' !! j = Some cl -> exists cl0, clients s !! j = Some cl0 /\ cl_configHash cl = cl_configHash cl0.

Lemma hashed_origins s s' : hashed s -> same_origins s s' -> configHash s' = configHash s \/ (exists cfg, configHash s' = Hash cfg) ->
  hashed s'.
Proof.
  intros [Hc Hh] Ho Hn. split; [destruct Hn as [->|]; done|]. intros j cl (cl0 & H0 & ->)%Ho. by eapply Hh.
Qed.

Lemma origins_refl s s' : clients s' = clients s -> same_origins s s'.
Proof. intros E j cl. rewrite E. eauto. Qed.

Lemma origins_trans s s1 s2 : same_origins s s1 -> same_origins s1 s2 -> same_origins s s2.
Proof. intros H1 H2 j cl (c1 & Hc1 & E1)%H2. apply H1 in Hc1 as (c0 & Hc0 & E0). exists c0. split; [done|congruence]. Qed.

Lemma origins_onClient i g s : (forall c, cl_configHash (g c) = cl_configHash c) -> same_origins s (onClient i g s).
Proof.
  intros Hg j cl. simpl. destruct (decide (i = j)) as [<-|Hne].
  - rewrite list_lookup_alter_eq. intros (c & Hc & ->)%fmap_Some. eauto.
  - rewrite list_lookup_alter_ne by done. eauto.
Qed.

Lemma origins_onClients g ts s : (forall c, cl_configHash (g c) = cl_configHash c) ->
  same_origins s (foldl (fun s i => onClient i g s) s ts).
Proof.
  intros Hg. revert s. induction ts as [|i ts IH]; intros s; [by apply origins_refl|].
  eapply origins_trans; [by apply (origins_onClient i g)|apply IH].
Qed.

Lemma disconnect_origins `{Limiter} msg r b f s : same_origins s (disconnectProxies msg r b f s).2 /\
  configHash (disconnectProxies msg r b f s).2 = configHash s.
Proof.
  unfold disconnectProxies. simpl. set (g := set_cl_proxy (setShutdownMessage msg)).
  set (s1 := foldl _ s (targets f s)). set (ts := admitted _ _ _).
  pose proof (onClients_rest cancel ts s1) as R2. pose proof (onClients_rest g (targets f s) s) as R1. split.
  - eapply origins_trans; [by apply (origins_onClients g (targets f s))|]. by apply (origins_onClients cancel).
  - destruct R2 as (_ & -> & _). exact (proj1 (proj2 R1)).
Qed.

Lemma retainedLoop_rest keys s : clients (retainedLoop keys s).2 = clients s /\
  configHash (retainedLoop keys s).2 = configHash s.
Proof.
  revert s. induction keys as [|id keys IH]; intros s; [done|]. cbn [retainedLoop].
  case_bool_decide; [apply IH|]. destruct (lru_Get id (retainedProbeLogs s)) as [r c].
  pose proof (IH (set_retained c s)) as E. by destruct (retainedLoop keys (set_retained c s)).
Qed.

Lemma reload_hashed `{Limiter} ctx e l s : hashed s -> hashed (reloadConfigFromFile Hash ctx e l s).2.
Proof.
  intros Hs. destruct l as [cfg|]; [|done]. unfold reloadConfigFromFile, disconnectOutdatedProxies.
  set (s1 := UpdateConfig _ _ _).
  assert (H1 : hashed s1).
  { eapply hashed_origins; [exact Hs| |right; by exists cfg]. apply origins_refl. apply (initHealthManagers_rest ctx e s). }
  destruct (negb _); [done|]. destruct (existsb _ _); [done|].
  pose proof (disconnect_origins ShutdownMsgConfigUpdate
    (RateLimit (Config_GracefulShutdown (config s1))) (BurstSize (Config_GracefulShutdown (config s1)))
    (outdated (Hash cfg)) s1) as [D1 D2].
  destruct (disconnectProxies _ _ _ _ s1) as [n s2]. eapply hashed_origins; [exact H1|exact D1|left; exact D2].
Qed.

Lemma sstep_hashed s s' : sstep s s' -> hashed s -> hashed s'.
Proof.
  intros Hst Hs. destruct Hst as [s id a t _|s i _|s i t|s i f Hf|s f|s i|s i l|s id|s id t|P s t|s id r|L s ctx e l|L s|s ctx e].
  { destruct Hs as [Hc Hh]. split; [done|]. intros j cl. simpl.
    intros [Hj|[_ Hj]]%lookup_app_Some; [by eapply Hh|]. apply list_lookup_singleton_Some in Hj as [_ <-]. exact Hc. }
  all: try (eapply hashed_origins; [exact Hs| |by left]).
  - unfold RegisterProxy. destruct (clients s !! i) as [c|]; [|done]. eapply hashed_origins; [exact Hs| |by left].
    by apply (origins_onClient i _ (set_active _ s)).
  - unfold UnregisterProxy. destruct (clients s !! i) as [c|]; [|done].
    destruct (cl_buffer c); (eapply hashed_origins; [exact Hs| |by left]); [|by apply origins_refl].
    by apply (origins_onClient i (set_cl_buffer _) (set_active _ s)).
  - apply origins_onClient. intros c. apply Hf.
  - by apply origins_refl.
  - by apply origins_onClient.
  - by apply origins_onClient.
  - unfold GetProbeLogBuffer. case_match; [done|]. by destruct (lru_Get id _).
  - unfold GetClientInfo. case_match; [done|]. by destruct (lru_Get id _).
  - unfold GetClientsInfo. pose proof (retainedLoop_rest (lru_Keys (retainedProbeLogs s)) s) as [E1 E2].
    destruct (retainedLoop _ s) as [x s1]. eapply hashed_origins; [exact Hs|by apply origins_refl|by left].
  - unfold ShutdownProxy. case_match; [|done]. eapply hashed_origins; [exact Hs|by apply origins_onClient|by left].
  - by apply reload_hashed.
  - eapply hashed_origins; [exact Hs|apply disconnect_origins|left; apply disconnect_origins].
  - eapply hashed_origins; [exact Hs|apply origins_refl, initHealthManagers_rest|left; apply initHealthManagers_rest].
Qed.

Lemma sreach_hashed cfg s : sreach cfg s -> hashed s.
Proof.
  induction 1 as [|s s' _ IH Hs]; [|by eapply sstep_hashed]. split; [by exists cfg|]. intros [] cl Hj; discriminate Hj.
Qed.

(** An update of a proxy that keeps its identifier and whether its buffer is active. *)
Definition harmless (f : Client any -> Client any) : Prop := forall c,
  cl_id (f c) = cl_id c /\ (IsActive <$> cl_buffer (f c)) = (IsActive <$> cl_buffer c).

(** Two states that differ in such updates and in the order of the cache. *)
Definition similar (s s' : Server any) : Prop :=
  (forall i, cl_id <$> (clients s' !! i) = cl_id <$> (clients s !! i)) /\
  (forall i, (IsActive <$> bufferOf s' i) = (IsActive <$> bufferOf s i)) /\
  activeProxies s' = activeProxies s /\
  lru_list (retainedProbeLogs s') ≡ₚ lru_list (retainedProbeLogs s) /\
  lru_size (retainedProbeLogs s') = lru_size (retainedProbeLogs s).

Lemma is_active_fmap s i act : is_active s i act <-> IsActive <$> bufferOf s i = Some act.
Proof.
  unfold is_active. split.
  - by intros (b & -> & <-).
  - intros (b & Hb & ->)%fmap_Some. eauto.
Qed.

Lemma similar_refl s : similar s s.
Proof. done. Qed.

Lemma similar_trans s1 s2 s3 : similar s1 s2 -> similar s2 s3 -> similar s1 s3.
Proof.
  intros (A1 & B1 & C1 & D1 & E1) (A2 & B2 & C2 & D2 & E2). split_and!.
  - intros i. by rewrite A2.
  - intros i. by rewrite B2.
  - by rewrite C2.
  - by rewrite D2.
  - by rewrite E2.
Qed.

Lemma ids_lookup (l l' : list (Client any)) :
  (forall i, cl_id <$> (l' !! i) = cl_id <$> (l !! i)) -> map cl_id l' = map cl_id l.
Proof.
  intros Hl. apply list_eq. intros i. specialize (Hl i).
  by rewrite !list_lookup_fmap.
Qed.

Lemma Inv_similar s s' : similar s s' -> Inv s -> Inv s'.
Proof.
  intros (A & B & C & D & E) [I1 I2 I3 I4 I5 I6]. split.
  - by rewrite (ids_lookup _ _ A).
  - intros id i. rewrite C. intros [H1 H2]%I2. rewrite A. split; [done|].
    rewrite is_active_fmap in *. by rewrite B.
  - intros id i. rewrite D. intros [H1 H2]%I3. rewrite A. split; [done|].
    rewrite is_active_fmap in *. by rewrite B.
  - by rewrite D.
  - by rewrite D.
  - by rewrite E.
Qed.

Lemma onClient_similar i f s : harmless f -> similar s (onClient i f s).
Proof.
  intros Hf. split_and!; try done.
  - intros j. simpl. destruct (decide (i = j)) as [<-|Hne].
    + rewrite list_lookup_alter_eq. destruct (clients s !! i) as [c|]; simpl; [|done].
      by rewrite (proj1 (Hf c)).
    + by rewrite list_lookup_alter_ne.
  - intros j. unfold bufferOf. simpl. destruct (decide (i = j)) as [<-|Hne].
    + rewrite list_lookup_alter_eq. destruct (clients s !! i) as [c|]; simpl; [|done].
      apply (proj2 (Hf c)).
    + by rewrite list_lookup_alter_ne.
Qed.

Lemma onClients_similar f ts s : harmless f -> similar s (foldl (fun s i => onClient i f s) s ts).
Proof.
  intros Hf. revert s; induction ts as [|i ts IH]; intros s; simpl; [done|].
  eapply similar_trans; [by apply (onClient_similar i f)|apply IH].
Qed.

Lemma told_harmless msg : harmless (told msg).
Proof. done. Qed.
Lemma cancel_harmless : harmless cancel.
Proof. done. Qed.

Lemma disconnect_similar `{Limiter} msg r b f s : similar s (disconnectProxies msg r b f s).2.
Proof.
  unfold disconnectProxies. simpl. eapply similar_trans; [|by apply onClients_similar].
  by apply (onClients_similar (told msg)).
Qed.

Lemma init_similar ctx e s : similar s (initHealthManagers ctx e s).
Proof.
  destruct (initHealthManagers_rest ctx e s) as (_ & _ & E1 & E2 & E3 & _).
  unfold similar, bufferOf. by rewrite E1, E2, E3.
Qed.

Lemma reload_similar `{Limiter} ctx e l s : similar s (reloadConfigFromFile Hash ctx e l s).2.
Proof.
  destruct l as [cfg|]; [|done]. unfold reloadConfigFromFile, disconnectOutdatedProxies.
  set (s1 := UpdateConfig _ _ _).
  assert (H1 : similar s s1) by apply init_similar.
  destruct (negb _); [done|]. destruct (existsb _ _); [done|].
  pose proof (disconnect_similar ShutdownMsgConfigUpdate
    (RateLimit (Config_GracefulShutdown (config s1))) (BurstSize (Config_GracefulShutdown (config s1)))
    (outdated (Hash cfg)) s1) as H2.
  destruct (disconnectProxies _ _ _ _ s1) as [n s2]. by eapply similar_trans.
Qed.

(** Looking an entry up changes the order of the cache. *)
Lemma Get_similar id s : NoDup (map fst (lru_list (retainedProbeLogs s))) ->
  similar s (set_retained (lru_Get id (retainedProbeLogs s)).2 s).
Proof.
  intros Hnd. destruct (lru_Get_list id (retainedProbeLogs s)) as (_ & E & Es).
  split_and!; try done. simpl. rewrite E. destruct (find id _) as [v|] eqn:Ef; [|done].
  apply promoted_perm; [done|by apply find_Some].
Qed.

Lemma retainedLoop_similar keys s : NoDup (map fst (lru_list (retainedProbeLogs s))) ->
  similar s (retainedLoop keys s).2.
Proof.
  revert s; induction keys as [|id keys IH]; intros s Hnd; [done|]. cbn [retainedLoop].
  case_bool_decide; [by apply IH|].
  pose proof (Get_similar id s Hnd) as H1.
  destruct (lru_Get id (retainedProbeLogs s)) as [r c] eqn:E. simpl in H1.
  assert (Hnd1 : NoDup (map fst (lru_list (retainedProbeLogs (set_retained c s))))).
  { destruct H1 as (_ & _ & _ & D & _). by rewrite D. }
  specialize (IH (set_retained c s) Hnd1).
  destruct (retainedLoop keys (set_retained c s)) as [l s']. simpl in *.
  by eapply similar_trans.
Qed.

Lemma bufferOf_client s i b : bufferOf s i = Some b ->
  exists c, clients s !! i = Some c /\ cl_buffer c = Some b.
Proof. unfold bufferOf. destruct (clients s !! i) as [c|]; [|done]. simpl. eauto. Qed.

Lemma Inv_New id a t s : id ∉ map cl_id (clients s) -> Inv s -> Inv (NewProxy id a t s).2.
Proof.
  intros Hid [I1 I2 I3 I4 I5 I6].
  assert (L : forall i id', cl_id <$> (clients s !! i) = Some id' ->
    (clients s ++ [newClient s id a t]) !! i = clients s !! i).
  { intros i id' (c & Hc & _)%fmap_Some. rewrite Hc. by apply lookup_app_l_Some. }
  assert (B : forall i act, is_active s i act -> is_active (NewProxy id a t s).2 i act).
  { intros i act (b & Hb & Ha). exists b. split; [|done].
    apply bufferOf_client in Hb as (c & Hc & Hb). unfold bufferOf. simpl.
    by rewrite (L i (cl_id c)), Hc by by rewrite Hc. }
  split; simpl; try done.
  - rewrite map_app. apply NoDup_app. split_and!; [done| |by repeat constructor; set_solver].
    set_solver.
  - intros id' i [H1 H2]%I2. rewrite (L i id') by done. auto.
  - intros id' i [H1 H2]%I3. rewrite (L i id') by done. auto.
Qed.

Lemma Inv_Register i s : is_active s i true -> Inv s -> Inv (RegisterProxy ClientBanner i s).
Proof.
  intros Ha [I1 I2 I3 I4 I5 I6]. unfold RegisterProxy.
  destruct (clients s !! i) as [c|] eqn:Hc; [|done].
  match goal with |- Inv (onClient i ?f ?s1) => eapply (Inv_similar s1);
    [apply (onClient_similar i f)|] end.
  - intros c'. simpl. split; [done|]. by destruct (cl_buffer c').
  - split; simpl; try done. intros id j. destruct (decide (cl_id c = id)) as [<-|Hne].
    + rewrite lookup_insert_eq. intros [= <-]. by rewrite Hc.
    + rewrite lookup_insert_ne by done. apply I2.
Qed.

Lemma Inv_Unregister i t s : Inv s -> Inv (UnregisterProxy i t s).
Proof.
  intros HI. unfold UnregisterProxy. destruct (clients s !! i) as [c|] eqn:Hc; [|done].
  assert (HI1 : Inv (set_active (delete (cl_id c) (activeProxies s)) s)).
  { destruct HI. split; simpl; try done. intros id j [_ Hj]%lookup_delete_Some. auto. }
  destruct (cl_buffer c) as [b|] eqn:Hb; [|done].
  set (s1 := set_active _ s) in *.
  set (s2 := onClient i (set_cl_buffer (Some (MarkInactive t b))) s1).
  assert (Eid : forall j, cl_id <$> (clients s2 !! j) = cl_id <$> (clients s !! j)).
  { intros j. simpl. destruct (decide (i = j)) as [<-|Hne];
      [by rewrite list_lookup_alter_eq, Hc|by rewrite list_lookup_alter_ne]. }
  assert (Bi : is_active s2 i false).
  { exists (MarkInactive t b). split; [|done]. unfold bufferOf. simpl.
    by rewrite list_lookup_alter_eq, Hc. }
  assert (Bj : forall j act, j <> i -> is_active s1 j act -> is_active s2 j act).
  { intros j act Hne. unfold is_active, bufferOf. simpl. by rewrite list_lookup_alter_ne. }
  destruct HI1 as [I1 I2 I3 I4 I5 I6].
  destruct (lru_Add_list (cl_id c) i (retainedProbeLogs s)) as [El Es].
  assert (Ea : activeProxies s2 = delete (cl_id c) (activeProxies s)) by done.
  change (retainedProbeLogs s1) with (retainedProbeLogs s) in *. clearbody s2.
  split; simpl.
  - rewrite (ids_lookup (clients s) _); [exact I1|]. apply Eid.
  - intros id j. rewrite Ea. intros Hj. destruct (I2 id j Hj) as [H1 H2]. rewrite (Eid j).
    split; [done|]. apply Bj; [|done]. intros ->. simpl in H1. rewrite Hc in H1.
    injection H1 as <-. by rewrite lookup_delete_eq in Hj.
  - rewrite El. intros id j Hin. rewrite (Eid j).
    assert (Hin' : (id, j) ∈ without (cl_id c) (lru_list (retainedProbeLogs s)) ++ [(cl_id c, i)])
      by (eapply elem_of_sublist; [exact Hin|apply sublist_drop]).
    apply elem_of_app in Hin' as [[_ Hin']%list_elem_of_filter|[= -> ->]%list_elem_of_singleton].
    + destruct (I3 id j Hin') as [H1 H2]. split; [done|].
      destruct (decide (j = i)) as [->|Hne]; [done|by apply Bj].
    + rewrite Hc. done.
  - rewrite El. apply NoDup_lastn, NoDup_promoted. exact I4.
  - rewrite El, lastn_length. simpl in I6. rewrite I6. lia.
  - rewrite Es. exact I6.
Qed.

Lemma sstep_Inv s s' : sstep s s' -> Inv s -> Inv s'.
Proof.
  intros Hs HI. pose proof (inv_keys _ HI) as Hnd.
  destruct Hs as [s id a t Hid|s i Ha|s i t|s i f Hf|s f|s i|s i l|s id|s id t|? s t|s id r|? s ctx e l|? s|s ctx e].
  - by apply Inv_New.
  - by apply Inv_Register.
  - by apply Inv_Unregister.
  - eapply Inv_similar; [|exact HI]. apply onClient_similar. intros c.
    destruct (Hf c) as (E & _ & _ & _ & Eb & _). by rewrite E, Eb.
  - by eapply Inv_similar; [|exact HI].
  - by eapply Inv_similar; [apply (onClient_similar i cancel)|].
  - eapply Inv_similar; [|exact HI].
    apply (onClient_similar i (fun c => set_cl_buffer (ProbeLogBuffer_Add l <$> cl_buffer c) c)).
    intros c. simpl. split; [done|]. by destruct (cl_buffer c).
  - eapply Inv_similar; [|exact HI]. unfold GetProbeLogBuffer.
    pose proof (Get_similar id s Hnd) as H1.
    destruct (activeProxies s !! id); [done|]. by destruct (lru_Get id _).
  - eapply Inv_similar; [|exact HI]. unfold GetClientInfo.
    pose proof (Get_similar id s Hnd) as H1.
    destruct (activeProxies s !! id ≫= _); [done|]. by destruct (lru_Get id _).
  - eapply Inv_similar; [|exact HI]. unfold GetClientsInfo.
    pose proof (retainedLoop_similar (lru_Keys (retainedProbeLogs s)) s Hnd) as H1.
    by destruct (retainedLoop _ s).
  - eapply Inv_similar; [|exact HI]. unfold ShutdownProxy.
    destruct (activeProxies s !! id); [|done]. simpl.
    by apply (onClient_similar _ (fun c => cancel (told _ c))).
  - eapply Inv_similar; [|exact HI]. apply reload_similar.
  - eapply Inv_similar; [|exact HI]. apply disconnect_similar.
  - eapply Inv_similar; [|exact HI]. apply init_similar.
Qed.

Lemma sreach_Inv cfg s : sreach cfg s -> Inv s.
Proof.
  induction 1 as [|s s' _ IH Hs]; [|by eapply sstep_Inv].
  destruct (lru_New_list ProbeLogRetentionSize) as [E1 E2].
  split; simpl; rewrite ?E1, ?E2.
  - constructor.
  - intros id i Hi. by apply lookup_empty_Some in Hi.
  - intros id i Hi. by apply not_elem_of_nil in Hi.
  - constructor.
  - simpl. lia.
  - done.
Qed.

(** C10: in every reachable state of the registry: a registered identifier belongs to a
    proxy of that identifier whose log is active; a retained one to a proxy of that
    identifier that is gone; no identifier is both, none is retained twice, and at most a
    thousand are retained. *)
Theorem registry_ok cfg s : sreach cfg s ->
  (forall id i, activeProxies s !! id = Some i ->
     cl_id <$> (clients s !! i) = Some id /\ is_active s i true /\
     id ∉ map fst (lru_list (retainedProbeLogs s))) /\
  (forall id i, (id, i) ∈ lru_list (retainedProbeLogs s) ->
     cl_id <$> (clients s !! i) = Some id /\ is_active s i false) /\
  NoDup (map fst (lru_list (retainedProbeLogs s))) /\
  (length (lru_list (retainedProbeLogs s)) <= 1000)%nat.
Proof.
  intros [I1 I2 I3 I4 I5 I6]%sreach_Inv. split_and!; [|done..].
  intros id i Ha. destruct (I2 id i Ha) as [H1 H2]. split_and!; [done..|].
  intros ([id' j] & -> & Hin)%list_elem_of_fmap. simpl in *.
  destruct (I3 id' j Hin) as [H3 H4].
  assert (i = j) as ->.
  { eapply NoDup_lookup; [exact I1|..]; rewrite list_lookup_fmap; [exact H1|exact H3]. }
  destruct H2 as (b & Hb & Ht), H4 as (b' & Hb' & Hf). congruence.
Qed.

(** ** What the queries answer *)

Lemma Inv_disjoint s id i j : Inv s -> activeProxies s !! id = Some i ->
  (id, j) ∉ lru_list (retainedProbeLogs s).
Proof.
  intros [I1 I2 I3 _ _ _] Ha Hin. destruct (I2 id i Ha) as [H1 H2], (I3 id j Hin) as [H3 H4].
  assert (i = j) as ->.
  { eapply NoDup_lookup; [exact I1|..]; rewrite list_lookup_fmap; [exact H1|exact H3]. }
  destruct H2 as (b & Hb & Ht), H4 as (b' & Hb' & Hf). congruence.
Qed.

(** The loop over the cache, without the order it leaves behind. *)
Lemma retainedLoop_list keys s : Inv s -> keys ⊆ map fst (lru_list (retainedProbeLogs s)) ->
  exists bs, Forall2 (fun id b => exists i, (id, i) ∈ lru_list (retainedProbeLogs s) /\
                       bufferOf s i = Some b) keys bs /\
  (retainedLoop keys s).1 = zip_with retainedInfo keys bs.
Proof.
  revert s; induction keys as [|id keys IH]; intros s HI Hk; [by exists []|].
  cbn [retainedLoop].
  assert (Hid : id ∈ map fst (lru_list (retainedProbeLogs s))) by (apply Hk; constructor).
  apply list_elem_of_fmap in Hid as ([id' i] & -> & Hin). simpl in *.
  rewrite bool_decide_eq_false_2.
  2: { intros [j Hj]. by apply (Inv_disjoint s id' j i HI Hj). }
  pose proof (Get_similar id' s (inv_keys _ HI)) as Hsim.
  destruct (lru_Get_list id' (retainedProbeLogs s)) as (Ef & _).
  rewrite (find_NoDup id' i) in Ef by (done || apply HI).
  destruct (lru_Get id' (retainedProbeLogs s)) as [r cc]. simpl in *. subst r.
  set (s1 := set_retained cc s) in *.
  assert (HI1 : Inv s1) by by eapply Inv_similar.
  destruct Hsim as (_ & _ & _ & Hp & _). simpl in Hp.
  destruct (IH s1 HI1) as (bs & HF & E).
  { simpl. rewrite Hp. intros x Hx. apply Hk. by constructor. }
  destruct (inv_retained _ HI id' i Hin) as [_ (b & Hb & Hact)].
  exists (b :: bs). destruct (retainedLoop keys s1) as [l s2]. simpl in *. split.
  - constructor; [by exists i|]. eapply Forall2_impl; [exact HF|].
    intros x y (j & Hj & Hy). exists j. by rewrite <- Hp.
  - change (bufferOf s1 i) with (bufferOf s i). rewrite Hb. simpl. by rewrite Hact, E.
Qed.


(** The log of a registered proxy can be asked for by its identifier, and after its
    connection has ended too: the same entries, marked inactive. *)
Theorem logs_survive cfg s id i t : sreach cfg s -> activeProxies s !! id = Some i ->
  exists b, (GetProbeLogBuffer id s).1 = (Some b, true) /\ IsActive b = true /\
    (GetProbeLogBuffer id (UnregisterProxy i t s)).1 = (Some (MarkInactive t b), true) /\
    GetProxy id (UnregisterProxy i t s) = None /\
    GetLogs (MarkInactive t b) = GetLogs b.
Proof.
  intros HI%sreach_Inv Ha. destruct (inv_active _ HI id i Ha) as [Hid (b & Hb & Hact)].
  exists b. unfold GetProbeLogBuffer, GetProxy. rewrite Ha. simpl. rewrite Hb.
  split; [done|]. split; [done|].
  apply bufferOf_client in Hb as (c & Hc & Hcb). rewrite Hc in Hid. injection Hid as <-.
  unfold UnregisterProxy. rewrite Hc, Hcb. simpl. rewrite lookup_delete_eq.
  destruct (lru_Add_list (cl_id c) i (retainedProbeLogs s)) as [El Es].
  set (c2 := lru_Add _ _ _) in *. destruct (lru_Get_list (cl_id c) c2) as (Eg & _).
  destruct (lru_Get (cl_id c) c2) as [r c3]. simpl in *. subst r.
  rewrite El, find_added by (rewrite (inv_size _ HI); unfold ProbeLogRetentionSize; lia).
  unfold bufferOf. simpl. by rewrite list_lookup_alter_eq, Hc.
Qed.

(** A client whose handshake fails, which is never registered, is listed afterwards
    as a disconnected one, without address and with the zero time as the time of its
    connection. *)
Theorem failed_handshake_listed cfg s id a t1 t2 t3 : sreach cfg s ->
  id ∉ map cl_id (clients s) -> activeProxies s !! id = None ->
  let (i, s1) := NewProxy id a t1 s in
  exists info, (GetClientInfo ClientBanner id t3 (UnregisterProxy i t2 s1)).1 = Some info /\
    Info_Status _ info = ClientStatusDisconnected /\ Info_ClientAddress _ info = EmptyString /\
    Info_ConnectedAt _ info = zeroTime /\ Info_DisconnectedAt _ info = t2.
Proof.
  intros HI%sreach_Inv Hid Ha. unfold NewProxy, UnregisterProxy. simpl.
  assert (Hn : (clients s ++ [newClient s id a t1]) !! length (clients s)
               = Some (newClient s id a t1)) by by rewrite lookup_app_r, Nat.sub_diag by done.
  rewrite Hn. simpl. unfold GetClientInfo. simpl. rewrite lookup_delete_eq. simpl.
  destruct (lru_Add_list id (length (clients s)) (retainedProbeLogs s)) as [El Es].
  set (c2 := lru_Add _ _ _) in *. destruct (lru_Get_list id c2) as (Eg & _).
  destruct (lru_Get id c2) as [r c3]. simpl in *. subst r.
  rewrite El, find_added by (rewrite (inv_size _ HI); unfold ProbeLogRetentionSize; lia).
  unfold bufferOf. simpl. rewrite list_lookup_alter_eq, Hn. simpl. by eexists.
Qed.

End Registry.

(** ** A concrete server

    Two proxies of the first configuration are registered; a third is in its handshake. *)

Definition sampleGraceful : GracefulShutdown := {|
  ShutdownTimeout := 10 * Second; ReloadTimeout := 30 * Second; RateLimit := 100;
  BurstSize := 10 |}.

Definition sampleCfg (handshake : Z) : Config := {|
  Config_Upstreams := [sampleCluster]; Config_HandshakeTimeout := handshake;
  Config_ConnectionCloseTimeout := Second; Config_GracefulShutdown := sampleGraceful;
  Config_Metrics := None |}.

(** A configuration has no hash when an argument of a queue is null, a list or a table, which
    are not known to [gob]. *)
Definition encodable (v : field) : bool :=
  match v with VNil | VArray _ | VTable _ => false | _ => true end.
Definition hashable (u : UpstreamConfig) : bool :=
  forallb (fun kv => encodable kv.2) (default [] (UpstreamConfig_QueueAttributes u ≫= QueueAttributes_Arguments)).
Definition sampleHash (c : Config) : string :=
  if negb (forallb hashable (Config_Upstreams c)) then ""
  else if Config_HandshakeTimeout c =? 5 then "0123456789" else "abcdefghij".

Definition sampleBanner (p : Proxy) : string := "Go/client/1.0".

#[local] Existing Instance listLru.
#[local] Existing Instance simpleLimiter.
#[local] Existing Instance insertionPdq.

Definition at_sec (z : Z) : Time := {| unix := z; nsec := 0 |}.

Definition sampleServer : Server nat :=
  let s := NewServer sampleHash (sampleCfg 5) in
  let s := RegisterProxy sampleBanner 0 (NewProxy "p1" "c:1" (at_sec 20) s).2 in
  let s := RegisterProxy sampleBanner 1 (NewProxy "p2" "c:2" (at_sec 10) s).2 in
  (NewProxy "p3" "c:3" (at_sec 30) s).2.

Lemma sampleServer_reach : sreach sampleHash sampleBanner (sampleCfg 5) sampleServer.
Proof.
  unfold sampleServer.
  eapply sreach_step; [|apply S_New; apply (bool_decide_unpack _); by vm_compute].
  eapply sreach_step; [|apply S_Register; eexists; split; [by vm_compute|by vm_compute]].
  eapply sreach_step; [|apply S_New; apply (bool_decide_unpack _); by vm_compute].
  eapply sreach_step; [|apply S_Register; eexists; split; [by vm_compute|by vm_compute]].
  eapply sreach_step; [|apply S_New; apply (bool_decide_unpack _); by vm_compute].
  constructor.
Qed.

Definition sampleReload : reloading * Server nat :=
  reloadConfigFromFile sampleHash 7 (fun _ => sampleSurroundings true) (Ok (sampleCfg 6))
    sampleServer.

(** Two are disconnected; the third keeps the old configuration's hash. *)
Lemma reload_effect_witness :
  config sampleReload.2 = sampleCfg 6 /\
  map (fun c => (cl_cancelled c, cl_configHash c)) (clients sampleReload.2) =
    [(true, "0123456789"); (true, "0123456789"); (false, "0123456789")]%string.
Proof.
  pose proof (reload_effect sampleHash 7 (fun _ => sampleSurroundings true) (Ok (sampleCfg 6))
    sampleServer ltac:(intros cfg [= <-]; done)) as R.
  fold sampleReload in R. split; [|by vm_compute]. by destruct sampleReload as [r s'], R as (R & _).
Defined.

Lemma registry_ok_witness :
  (length (lru_list (retainedProbeLogs sampleServer)) <= 1000)%nat /\
  activeProxies sampleServer !! "p2"%string = Some 1%nat.
Proof.
  split; [|by vm_compute].
  apply (registry_ok sampleHash sampleBanner (sampleCfg 5) sampleServer sampleServer_reach).
Defined.


Lemma logs_survive_witness : exists b,
  (GetProbeLogBuffer "p1" (UnregisterProxy 0 (at_sec 50) sampleServer)).1 = (Some b, true).
Proof.
  destruct (logs_survive sampleHash sampleBanner (sampleCfg 5) sampleServer "p1" 0 (at_sec 50)
    sampleServer_reach) as (b & _ & _ & E & _); [by vm_compute|by eexists].
Defined.

Lemma failed_handshake_listed_witness : exists info,
  (GetClientInfo sampleBanner "p4" (at_sec 60) (UnregisterProxy 3 (at_sec 50)
     (NewProxy "p4" "c:4" (at_sec 45) sampleServer).2)).1 = Some info /\
  Info_ConnectedAt _ info = zeroTime.
Proof.
  destruct (failed_handshake_listed sampleHash sampleBanner (sampleCfg 5) sampleServer "p4" "c:4"
    (at_sec 45) (at_sec 50) (at_sec 60) sampleServer_reach) as (info & E & _ & _ & Ez & _).
  - apply (bool_decide_unpack _). by vm_compute.
  - by vm_compute.
  - by exists info.
Defined.

Lemma shutdown_all_witness :
  option_map cl_cancelled (clients (disconnectAllProxies sampleServer).2 !! 1%nat) = Some true.
Proof.
  destruct (clients sampleServer !! 1%nat) as [c|] eqn:E; [|by vm_compute in E].
  by rewrite (shutdown_all sampleServer ltac:(done) ltac:(done) "p2" 1 c ltac:(by vm_compute) E).
Defined.
