(* ===== verification/Safety.v ===== *)
(** * What every turn of a connection keeps

    Whatever a client sends, a turn of its connection leaves the addresses and the
    connections of the upstreams as they are, and, once frames carry at least one byte,
    comes to an end. [calm] is the triple that says so, proved for each operation and
    composed along the code by the hints of [calm]. *)

From S2P Require Import Prelude Bytes Fields MsgBase MsgChannel MsgConnection MsgExchange MsgQueue.
From S2P Require Import MsgBasic MsgTx Methods Frames Wire Errors Broker Config Pattern Delivery.
From S2P Require Import Confirm Upstream Stats Proxy Transfer Handlers Replies Dispatch.

Open Scope Z_scope.

(** ** Encoding ends *)

(** A writer that gives bytes or an error of the program. *)
Definition sane {A} (r : result ioerr A) : Prop := r <> Err OutOfFuel.

Create HintDb sane discriminated.

Lemma sane_Ok {A} (a : A) : sane (Ok a).
Proof. done. Qed.

Lemma sane_Err {A} e : e <> OutOfFuel -> sane (@Err ioerr A e).
Proof. unfold sane. congruence. Qed.

Lemma sane_bind {A B} (r : result ioerr A) (k : A -> result ioerr B) :
  sane r -> (forall a, sane (k a)) -> sane (r ≫= k).
Proof. unfold sane. destruct r as [a|e]; simpl; [auto|congruence]. Qed.

Lemma sane_wseq w1 w2 : sane w1 -> sane w2 -> sane (w1 +>+ w2).
Proof. intros H1 H2. apply sane_bind; [done|]. intros b. by apply sane_bind. Qed.

Lemma sane_wconcat ws : Forall sane ws -> sane (wconcat ws).
Proof. induction 1; [done|]. by apply sane_wseq. Qed.

#[export] Hint Resolve sane_Ok sane_Err sane_bind sane_wseq sane_wconcat : sane.

Lemma sane_writeTable t : sane (writeTable t).
Proof.
  pose proof (writeTable_supported t) as Hw. unfold sane.
  destruct (writeTable t) as [bs|e]; [done|]. simpl in Hw. by destruct Hw as [_ ->].
Qed.

Lemma sane_writeUint n z : sane (writeUint n z).
Proof. done. Qed.
Lemma sane_writeLongbytes b : sane (writeLongbytes b).
Proof. done. Qed.
Lemma sane_writeShortstr t : sane (writeShortstr t).
Proof. done. Qed.
#[export] Hint Resolve sane_writeTable sane_writeUint sane_writeLongbytes sane_writeShortstr : sane.

Lemma sane_wIfHas mask flag w : sane w -> sane (wIfHas mask flag w).
Proof. unfold wIfHas. by case_match. Qed.
#[export] Hint Resolve sane_wIfHas : sane.

Lemma sane_Method_Write m : sane (Method_Write m).
Proof. destruct m; cbv [Method_Write dispatch]; repeat apply sane_wseq; auto with sane; done. Qed.

Lemma sane_Frame_Writes f : sane (Frame_Writes f).
Proof.
  destruct f as [f|f|f|f]; simpl; try done.
  - unfold MethodFrame_Write. destruct (MethodFrame_Method f) as [m|]; [|done].
    destruct (Method_ID m). apply sane_bind; [|done].
    repeat apply sane_wseq; auto using sane_Method_Write with sane.
  - unfold HeaderFrame_Write. apply sane_bind; [|done].
    repeat apply sane_wseq; auto with sane.
Qed.

(** ** Triples

    [triple P bad m]: from a state with [P] the computation [m] gives no error that is
    [bad], and leaves a state with [P], whatever it returns. *)
Definition triple {S E A} (P : S -> Prop) (bad : E -> Prop) (m : stm S E A) : Prop :=
  forall s, P s -> (forall e, (m s).1 = Err e -> ~ bad e) /\ P (m s).2.

Section Triples.
Context {S E : Type} (P : S -> Prop) (bad : E -> Prop).

Lemma triple_ret {A} (a : A) : triple P bad (mret (M := stm S E) a).
Proof. by intros s Hs. Qed.

Lemma triple_throw {A} e : ~ bad e -> triple P bad (@throw S E A e).
Proof. intros He s Hs. split; [|done]. by intros e' [= <-]. Qed.

Lemma triple_gets {A} (f : S -> A) : triple P bad (@gets S E A f).
Proof. by intros s Hs. Qed.

Lemma triple_modify f : (forall s, P s -> P (f s)) -> triple P bad (@modify S E f).
Proof. intros Hf s Hs. split; [done|]. by apply Hf. Qed.

Lemma triple_bind {A B} (m : stm S E A) (k : A -> stm S E B) :
  triple P bad m -> (forall a, triple P bad (k a)) -> triple P bad (m ≫= k).
Proof.
  intros Hm Hk s Hs. unfold mbind, stm_bind. destruct (Hm s Hs) as [He HP].
  destruct (m s) as [[a|e] s']; [by apply Hk|]. split; [|done]. intros e' [= <-]. by apply He.
Qed.

Lemma triple_forM {A} (l : list A) (f : A -> stm S E ()) :
  (forall x, triple P bad (f x)) -> triple P bad (forM l f).
Proof. intros Hf. induction l; [apply triple_ret|]. by apply triple_bind. Qed.

Lemma triple_wrap {A} (f : E -> E) (m : stm S E A) :
  (forall e, bad (f e) -> bad e) -> triple P bad m -> triple P bad (wrap f m).
Proof.
  intros Hf Hm s Hs. unfold wrap. destruct (Hm s Hs) as [He HP].
  destruct (m s) as [[a|e] s']; [done|]. split; [|done]. intros e' [= <-] Hb.
  by apply (He e), Hf.
Qed.

(** Reading the state: the rest may rely on what [P] says of the value. *)
Lemma triple_gets_bind {A B} (f : S -> A) (k : A -> stm S E B) :
  (forall s, P s -> triple P bad (k (f s))) -> triple P bad (gets f ≫= k).
Proof. intros Hk s Hs. by apply (Hk s). Qed.
End Triples.

Create HintDb calm discriminated.
#[export] Hint Resolve triple_ret triple_throw triple_gets triple_modify triple_bind
  triple_forM : calm.

(** ** Writing *)

Section Calm.
Context `{Env}.

(** The connection fails with errors of the program. *)
Context (sane_conn : forall before p n e, conn_Write before p = Some (n, e) -> e <> OutOfFuel).

Abbreviation wcalm := (triple (fun v : Wire => werr v <> Some OutOfFuel) (fun e => e = OutOfFuel)).

Lemma wcalm_Flush : wcalm (Flush conn_Write).
Proof.
  intros v Hv. unfold Flush. destruct (werr v) as [e|] eqn:E.
  - simpl. rewrite E. split; [|done]. intros e' [= <-] ->. done.
  - destruct (wbuf v); [simpl; by rewrite E|].
    destruct (conn_Write _ _) as [[n e]|] eqn:Ec; simpl; [|done].
    apply sane_conn in Ec. split; [intros e' [= <-]|]; congruence.
Qed.

Lemma wcalm_putRest p : wcalm (putRest conn_Write p).
Proof.
  intros v Hv. unfold putRest. case_decide; [done|].
  destruct (conn_Write _ _) as [[n e]|] eqn:Ec; simpl; [|done].
  apply sane_conn in Ec. split; [intros e' [= <-]|]; congruence.
Qed.

Lemma wcalm_bufWrite p : wcalm (bufWrite conn_Write p).
Proof.
  intros v Hv. unfold bufWrite. destruct (werr v) as [e|] eqn:E.
  - simpl. rewrite E. split; [|done]. intros e' [= <-] ->. done.
  - case_decide; [done|]. destruct (wbuf v); [by apply wcalm_putRest; rewrite E|].
    assert (T : forall q, wcalm (_ ← Flush conn_Write; putRest conn_Write q))
      by (intros q; apply triple_bind; [apply wcalm_Flush|intros; apply wcalm_putRest]).
    by apply T.
Qed.

Lemma wcalm_WriteFrameNoFlush f : wcalm (WriteFrameNoFlush conn_Write f).
Proof.
  intros v Hv. unfold WriteFrameNoFlush. pose proof (sane_Frame_Writes f) as Hs.
  destruct (Frame_Writes f) as [calls|e].
  - exact (triple_forM _ _ calls _ wcalm_bufWrite v Hv).
  - split; [|done]. intros e' [= <-] ->. by apply Hs.
Qed.

Lemma wcalm_WriteFrame f : wcalm (WriteFrame conn_Write f).
Proof. apply triple_bind; [apply wcalm_WriteFrameNoFlush|]. intros _. apply wcalm_Flush. Qed.

(** ** Upstreams *)

Abbreviation ucalm x := (triple (fun s : UState => link (us s) = x) (fun e => e = Hang)).

Lemma ucalm_call x c : ucalm x (Upstream.call c).
Proof.
  intros s Hs. unfold Upstream.call. simpl. split; [|done].
  destruct (respond (calls s) c); [done|]. by intros e' [= <-].
Qed.

Lemma onError_Hang f e : (forall e, f e <> Hang) -> onError f e = Hang -> e = Hang.
Proof. unfold onError. intros Hf. destruct (is_panic e); [done|]. intros Hh. by apply Hf in Hh. Qed.

Lemma ucalm_wrapf {A} x text (m : upstreamM A) : ucalm x m -> ucalm x (wrapf text m).
Proof. apply triple_wrap. intros e. by apply onError_Hang. Qed.

Lemma ucalm_modify x f : (forall u, link (f u) = link u) -> ucalm x (modify_us f).
Proof. intros Hf. apply triple_modify. intros s Hs. simpl. by rewrite Hf. Qed.

Lemma ucalm_get x {A} (f : Upstream -> A) : ucalm x (get_us f).
Proof. apply triple_gets. Qed.

Lemma ucalm_onConn {A} x (k : Conn -> upstreamM A) : (forall c, ucalm x (k c)) -> ucalm x (onConn k).
Proof. intros Hk. apply triple_bind; [apply ucalm_get|]. intros [c|]; [done|]. by apply triple_throw. Qed.

(** One step along the code: a known operation, or the rule of its outermost form. *)
Ltac calm_step :=
  first
    [ apply triple_ret | apply triple_gets | (apply triple_throw; discriminate)
    | apply ucalm_get | apply ucalm_wrapf
    | match goal with |- triple _ _ (Upstream.call ?c) => exact (ucalm_call _ c) end
    | (apply ucalm_modify; intros ?; reflexivity)
    | (apply ucalm_onConn; intros ?)
    | solve [auto with calm]
    | (apply triple_bind; [|intros ?]) | apply triple_forM; intros ?
    | match goal with |- triple _ _ (match ?x with _ => _ end) => destruct x end ].
Ltac calm := repeat calm_step.

Lemma ucalm_NewChannel x id : ucalm x (Upstream.NewChannel id).
Proof. unfold Upstream.NewChannel. calm. Qed.

Lemma ucalm_GetChannel x id : ucalm x (Upstream.GetChannel id).
Proof. unfold Upstream.GetChannel. calm. Qed.

Lemma ucalm_CloseChannel x id : ucalm x (Upstream.CloseChannel id).
Proof. unfold Upstream.CloseChannel. calm. Qed.

Lemma ucalm_Cleanup x name : ucalm x (CleanupAutoGeneratedQueue name).
Proof. unfold CleanupAutoGeneratedQueue. calm. Qed.

Lemma ucalm_declareAndRegister x ch m : ucalm x (declareAndRegister ch m).
Proof. unfold declareAndRegister, declare, RegisterEmulatedAutoDeleteQueue. calm. Qed.

Lemma ucalm_tryPassive x ch m : ucalm x (tryPassive ch m).
Proof.
  intros s Hs. unfold tryPassive, declare.
  destruct (ucalm_call x (Ch_QueueDeclare ch (args_name (tryPassiveArgs m))
    (args_durable (tryPassiveArgs m)) (args_autoDelete (tryPassiveArgs m))
    (args_exclusive (tryPassiveArgs m)) (args_noWait (tryPassiveArgs m))
    (args_table (tryPassiveArgs m))) s Hs) as [He HP].
  destruct (Upstream.call _ s) as [[q|e] s']; [done|]. simpl in *.
  assert (Hh : e <> Hang) by (intros ->; by apply (He Hang)).
  assert (Ho : onError (Wrap "passive declare failed") e <> Hang)
    by (intros E; apply onError_Hang in E; [done|]; intros ?; discriminate).
  destruct e as [| [code text|text] | | | | |]; simpl in *;
    try (split; [intros e' [= <-]|]; done).
  destruct (code =? NotFound); [by apply ucalm_declareAndRegister|].
  split; [intros e' [= <-]|]; done.
Qed.

Lemma ucalm_QueueDeclare x ch m : ucalm x (QueueDeclareWithTryPassive ch m).
Proof.
  unfold QueueDeclareWithTryPassive. apply triple_bind; [apply ucalm_get|].
  intros []; [apply ucalm_tryPassive|apply ucalm_declareAndRegister].
Qed.

Lemma ucalm_closeCleanups x : ucalm x (closeCleanups anyChannel).
Proof. unfold closeCleanups. calm. Qed.

Lemma ucalm_closeConn x : ucalm x closeConn.
Proof. unfold closeConn. calm. Qed.

(** ** The proxy *)

Context (L : list (string * option Conn)) (b : bool).

Definition links (w : World) : list (string * option Conn) := map link (upstreams (proxy w)).

(** Frames carry at least a byte of a body, and input and output fail with errors of the
    program only. *)
Record fine (w : World) : Prop := {
  fine_frame : 8 < frameMax (p_tuned (proxy w));
  fine_input : Forall (fun s => fin s <> OutOfFuel) (input w :: later w);
  fine_wire : werr (wire w) <> Some OutOfFuel
}.

(** Without [b] only the links are kept track of. *)
Definition kept (w : World) : Prop := links w = L /\ (b = true -> fine w).

Abbreviation calmly := (triple kept (fun e => b = true /\ e = Hang)).

Lemma calmly_ret {A} (a : A) : calmly (mret a).
Proof. apply triple_ret. Qed.

Lemma calmly_throw {A} e : e <> Hang -> calmly (@throw World goerror A e).
Proof. intros He. apply triple_throw. by intros [_ ->]. Qed.

Lemma kept_fields w w' : kept w -> links w' = links w ->
  frameMax (p_tuned (proxy w')) = frameMax (p_tuned (proxy w)) ->
  input w' = input w -> later w' = later w -> wire w' = wire w -> kept w'.
Proof.
  intros [HL Hf] E1 E2 E3 E4 E5. split; [by rewrite E1|]. intros Hb.
  destruct (Hf Hb) as [F1 F2 F3]. split; rewrite ?E2, ?E3, ?E4, ?E5; done.
Qed.

Lemma calmly_modify f : (forall w, links (f w) = links w /\
  frameMax (p_tuned (proxy (f w))) = frameMax (p_tuned (proxy w)) /\
  input (f w) = input w /\ later (f w) = later w /\ wire (f w) = wire w) ->
  calmly (modify f).
Proof.
  intros Hf. apply triple_modify. intros w Hw. destruct (Hf w) as (E1 & E2 & E3 & E4 & E5).
  by eapply kept_fields.
Qed.

Lemma calmly_wrap {A} (f : goerror -> goerror) (m : M A) :
  (forall e, f e <> Hang) -> calmly m -> calmly (wrap (onError f) m).
Proof.
  intros Hf. apply triple_wrap. intros e [Hb Hh]. split; [done|]. by apply onError_Hang in Hh.
Qed.

Lemma calmly_wrapf {A} text (m : M A) : calmly m -> calmly (wrapf text m).
Proof. by apply calmly_wrap. Qed.

Lemma calmly_amqpf {A} code text (m : M A) : calmly m -> calmly (amqpf io_text code text m).
Proof. by apply calmly_wrap. Qed.

Lemma calmly_wrapUs {A} text i (m : M A) : calmly m -> calmly (wrapUs text i m).
Proof. intros Hm w Hw. by apply calmly_wrapf. Qed.

Lemma calmly_amqpUs {A} text i (m : M A) : calmly m -> calmly (amqpUs text i m).
Proof. intros Hm w Hw. by apply calmly_amqpf. Qed.

Lemma calmly_lib c : calmly (lib c).
Proof.
  intros w Hw. unfold lib. simpl. split; [|by eapply kept_fields].
  destruct (respond _ c); [done|]. intros e' [= <-]. by intros [_ ?].
Qed.

Lemma calmly_onUpstream {A} i (m : upstreamM A) : (forall x, ucalm x m) -> calmly (onUpstream i m).
Proof.
  intros Hm w Hw. unfold onUpstream. destruct (upstreams (proxy w) !! i) as [u|] eqn:Hu.
  2: { split; [|done]. intros e [= <-]. by intros [_ ?]. }
  destruct (Hm (link u) {| us := u; calls := w_calls w |} eq_refl) as [He HP].
  destruct (m _) as [r [u' cs]]. simpl in *. split.
  - intros e -> [_ ->]. by apply (He Hang).
  - eapply kept_fields; [exact Hw|..]; try done. unfold links. simpl.
    rewrite list_fmap_insert. rewrite HP. apply list_insert_id.
    by rewrite list_lookup_fmap, Hu.
Qed.

Lemma calmly_onWire m : wcalm m -> calmly (onWire m).
Proof.
  intros Hm w Hw. unfold onWire. destruct (m (wire w)) as [r v] eqn:E. simpl. split.
  - intros e He [Hb ->]. destruct Hw as [_ Hf]. destruct (Hm (wire w) (fine_wire _ (Hf Hb))) as [He' _].
    rewrite E in He'. simpl in *. destruct r as [a|e]; [done|]. injection He as He.
    destruct e; try discriminate. by apply (He' OutOfFuel).
  - destruct Hw as [HL Hf]. split; [done|]. intros Hb. destruct (Hf Hb) as [F1 F2 F3].
    split; [done..|]. simpl. destruct (Hm (wire w) F3) as [_ HP]. by rewrite E in HP.
Qed.

(** ** Sending and receiving *)

Lemma calmly_stats f : calmly (modify (set_stats f)).
Proof. by apply calmly_modify. Qed.

Lemma calmly_sendFrame write what frame :
  (forall f, wcalm (write f)) -> calmly (sendFrame write what frame).
Proof.
  intros Hw. unfold sendFrame. apply triple_bind; [|intros _; apply calmly_stats].
  by apply calmly_wrapf, calmly_onWire.
Qed.

Lemma calmly_bodyLoop fuel channel fm body offset :
  (b = true -> 8 < fm /\ 0 <= offset /\ Z.of_nat (length body) - offset <= Z.of_nat fuel) ->
  calmly (bodyLoop fuel channel fm body offset).
Proof.
  revert offset. induction fuel as [|fuel IH]; intros offset Hb; simpl;
    (destruct (Z.ltb_spec offset (Z.of_nat (length body))) as [Hl|Hl]; [|apply triple_ret]).
  - apply triple_throw. intros [Hbt _]. specialize (Hb Hbt). lia.
  - case_match; [by apply calmly_throw|].
    apply triple_bind; [apply calmly_sendFrame, wcalm_WriteFrame|]. intros _. apply IH.
    intros Hbt. specialize (Hb Hbt). lia.
Qed.

Lemma calmly_send channel m : calmly (send channel m).
Proof.
  unfold send. destruct (Method_GetContent m) as [[props body]|];
    [|apply calmly_sendFrame, wcalm_WriteFrame].
  do 2 (apply triple_bind; [apply calmly_sendFrame, wcalm_WriteFrameNoFlush|intros _]).
  apply triple_gets_bind. intros w [_ Hw]. apply calmly_bodyLoop. intros Hb.
  destruct (Hw Hb). split; [done|]. lia.
Qed.

Lemma kept_input w s : kept w -> fin s = fin (input w) ->
  kept (set_input s (later w) w).
Proof.
  intros [HL Hf] Hs. split; [done|]. intros Hb. destruct (Hf Hb) as [F1 F2 F3].
  split; [done| |done]. simpl. apply Forall_cons in F2 as [F2 F4]. constructor; congruence.
Qed.

Lemma calmly_readClientFrame : calmly readClientFrame.
Proof.
  intros w Hw. split.
  - intros e He [Hb ->]. destruct Hw as [_ Hf]. destruct (Hf Hb) as [_ F2 _].
    apply Forall_cons in F2 as [F2 _]. pose proof (readClientFrame_spec w F2) as Hr.
    destruct (readClientFrame w) as [[f|e'] w']; simpl in *; congruence.
  - unfold readClientFrame. destruct (lossy_ReadFrame (input w)) as [_ Hl].
    destruct (ReadFrame (input w)) as [[f|e] s]; simpl in *; [by apply kept_input|].
    destruct (decide (e = ErrTimeout)); [|by apply kept_input].
    destruct (later w) as [|s' l] eqn:El; [rewrite <- El; by apply kept_input|].
    destruct Hw as [HL Hf]. split; [done|]. intros Hb. destruct (Hf Hb) as [F1 F2 F3].
    split; [done| |done]. simpl. rewrite El in F2. by apply Forall_cons in F2 as [_ F2].
Qed.

Lemma calmly_setContent m props body : calmly (setContent m props body).
Proof. unfold setContent. case_match; [apply triple_ret|by apply calmly_throw]. Qed.

(** Apart from the fuel, which [recv_total] takes care of. *)
Lemma recvLoop_kept fuel channel m remaining header body w :
  kept w -> kept (recvLoop fuel channel m remaining header body w).2.
Proof.
  revert m remaining header body w. induction fuel as [|fuel IH];
    intros m remaining header body w Hw; [done|].
  cbn [recvLoop]. unfold wrapf, wrap, mbind, stm_bind.
  destruct (calmly_readClientFrame w Hw) as [_ Hk].
  destruct (readClientFrame w) as [[frame|e] w1]; simpl in *; [|done].
  repeat case_match; try apply IH; try done; by apply calmly_setContent.
Qed.

Lemma calmly_recv channel m : calmly (recv channel m).
Proof.
  intros w Hw. split; [|by apply recvLoop_kept]. intros e He [Hb ->].
  destruct Hw as [_ Hf]. destruct (Hf Hb) as [_ F2 _]. apply Forall_cons in F2 as [F2 _].
  by apply (recv_total channel m w F2).
Qed.

(** ** Handlers *)

Lemma calmly_indices : calmly (gets indices).
Proof. apply triple_gets. Qed.

Lemma calmly_ignoring (m : M ()) : calmly m -> calmly (ignoring m).
Proof.
  intros Hm w Hw. unfold ignoring. destruct (Hm w Hw) as [He HP].
  destruct (m w) as [[a|e] w']; [done|]. destruct (is_panic e); done.
Qed.

Lemma calmly_callUs text i c : calmly (callUs text i c).
Proof.
  apply calmly_amqpUs. apply triple_bind; [apply calmly_lib|]. intros _. apply triple_ret.
Qed.

Lemma calmly_eachChannel chs f : (forall i ch, calmly (f i ch)) -> calmly (eachChannel chs f).
Proof. intros Hf. apply triple_forM. intros [i ch]. apply Hf. Qed.

Lemma calmly_draw {A} (f : World -> A) g :
  (forall w, links (g w) = links w /\
     frameMax (p_tuned (proxy (g w))) = frameMax (p_tuned (proxy w)) /\
     input (g w) = input w /\ later (g w) = later w /\ wire (g w) = wire w) ->
  calmly (fun w => (Ok (f w), g w)).
Proof.
  intros Hg w Hw. split; [done|]. destruct (Hg w) as (E1 & E2 & E3 & E4 & E5).
  by eapply kept_fields.
Qed.

Ltac turn_step :=
  first
    [ apply triple_ret | apply triple_gets | (apply calmly_throw; discriminate)
    | apply calmly_send | apply calmly_recv | apply calmly_indices
    | apply calmly_wrapf | apply calmly_amqpf | apply calmly_wrapUs | apply calmly_amqpUs
    | match goal with |- triple _ _ (lib ?c) => exact (calmly_lib c) end
    | apply calmly_callUs | (apply calmly_eachChannel; intros ? ?)
    | (apply calmly_ignoring)
    | (apply calmly_modify; intros ?; split_and!; reflexivity)
    | (apply triple_forM; intros ?)
    | (apply calmly_onUpstream; intros ?; solve [auto using ucalm_NewChannel, ucalm_GetChannel,
         ucalm_CloseChannel, ucalm_Cleanup, ucalm_QueueDeclare])
    | (apply triple_bind; [|intros ?])
    | match goal with |- triple _ _ (match ?x with _ => _ end) => destruct x end ].
Ltac turn := repeat turn_step.

Lemma calmly_NewChannel id : calmly (Proxy.NewChannel id).
Proof. unfold Proxy.NewChannel. turn. Qed.

Lemma calmly_CloseChannel id : calmly (Proxy.CloseChannel id).
Proof. unfold Proxy.CloseChannel. turn. Qed.

Lemma calmly_getChannels id ns : calmly (getChannels id ns).
Proof. induction ns as [|n ns IH]; simpl; turn; apply IH. Qed.

Lemma calmly_GetChannels id : calmly (GetChannels id).
Proof. unfold GetChannels. apply triple_bind; [apply calmly_indices|]. apply calmly_getChannels. Qed.

Lemma calmly_GetChannelWithIndex id key : calmly (GetChannelWithIndex id key).
Proof. unfold GetChannelWithIndex. turn. Qed.

Lemma calmly_declareAll i chs m ms cs name : calmly (declareAll i chs m ms cs name).
Proof.
  revert i ms cs name. induction chs as [|ch chs IH]; intros; simpl; turn; try apply IH.
Qed.

Lemma calmly_autoName m : calmly (autoName m).
Proof.
  intros w Hw. unfold autoName. case_decide; [|done]. simpl. split; [done|].
  by eapply kept_fields.
Qed.

Lemma calmly_newState : calmly newState.
Proof. by apply calmly_draw. Qed.

Lemma calmly_randPerm : calmly randPerm.
Proof. by apply calmly_draw. Qed.

Lemma calmly_recordPublish id ch i : calmly (recordPublish id ch i).
Proof.
  intros w Hw. unfold recordPublish. case_match; [|done]. simpl. split; [done|].
  by eapply kept_fields.
Qed.

Lemma calmly_consumeAll id m ns : calmly (consumeAll id m ns).
Proof. induction ns as [|n ns IH]; simpl; turn; apply IH. Qed.

Lemma calmly_getFrom id m ns : calmly (getFrom id m ns).
Proof. induction ns as [|n ns IH]; simpl; turn; apply IH. Qed.

Lemma calmly_restoreTag tag : calmly (restoreTag tag).
Proof.
  intros w Hw. unfold restoreTag. case_match; [done|]. split; [|done].
  by intros e [= <-] [_ ?].
Qed.

Lemma calmly_GetChannelByDeliveryTag id tag : calmly (GetChannelByDeliveryTag id tag).
Proof.
  unfold GetChannelByDeliveryTag. apply triple_bind; [apply calmly_GetChannels|]. intros chs.
  apply triple_bind; [apply calmly_restoreTag|]. intros ti. turn.
Qed.

Lemma calmly_UpstreamDeliveryTag tag : calmly (UpstreamDeliveryTag tag).
Proof. unfold UpstreamDeliveryTag. apply triple_bind; [apply calmly_restoreTag|]. intros. turn. Qed.

(** Every method of the client. *)
Lemma calmly_handler id m : calmly (handler id m).
Proof.
  pose proof calmly_GetChannels as HG.
  destruct m; cbn [handler]; try (by apply calmly_throw);
    unfold replyChannelOpen, replyChannelClose, replyQueueDeclare, replyQueueDelete,
      replyQueueBind, replyQueueUnbind, replyQueuePurge, replyExchangeDeclare,
      replyBasicPublish, replyBasicConsume, replyBasicGet, replyBasicAck, replyBasicNack,
      replyBasicCancel, replyBasicQos, replyConfirmSelect;
    repeat first
      [ apply HG | apply calmly_NewChannel | apply calmly_CloseChannel
      | apply calmly_GetChannelWithIndex | apply calmly_declareAll | apply calmly_autoName
      | apply calmly_newState | apply calmly_randPerm | apply calmly_recordPublish
      | apply calmly_consumeAll | apply calmly_getFrom | apply calmly_GetChannelByDeliveryTag
      | apply calmly_UpstreamDeliveryTag | turn_step ].
Qed.

(** ** Turns of a connection *)

Lemma calmly_recvContent channel m : calmly (recvContent channel m).
Proof.
  unfold recvContent. destruct (Method_GetContent m); [|turn].
  apply calmly_wrap; [done|apply calmly_recv].
Qed.

Lemma calmly_dispatch frame : calmly (dispatch_frame frame).
Proof.
  unfold dispatch_frame, dispatch0, dispatchN, replyConnectionClose. case_match.
  - repeat (case_match; try by (turn)); turn.
  - destruct frame as [f|f|f|f]; try by turn.
    destruct (MethodFrame_Method f); [|by turn].
    apply triple_bind; [apply calmly_recvContent|]. intros m'.
    apply triple_bind; [apply calmly_stats|]. intros _. apply calmly_handler.
Qed.

Lemma calmly_answerError channel (m : M ()) : calmly m -> calmly (answerError channel m).
Proof.
  intros Hm w Hw. unfold answerError. destruct (Hm w Hw) as [He HP].
  destruct (m w) as [[a|e] w']; [done|]. simpl in *.
  destruct (as_AMQPError e); [by apply calmly_send|]. split; [|done].
  intros e' [= <-]. by apply He.
Qed.

Lemma calmly_process : calmly process.
Proof.
  intros w Hw. unfold process. destruct (calmly_readClientFrame w Hw) as [He HP].
  destruct (readClientFrame w) as [[frame|e] w']; simpl in *.
  - apply calmly_answerError; [apply calmly_dispatch|]. by eapply kept_fields.
  - assert (Ho : b = true -> onError (Wrap "failed to read frame") e <> Hang).
    { intros Hb E. apply onError_Hang in E; [|by intros ?]. by apply (He e). }
    destruct e as [| | [] | | | |]; simpl in *; try done;
      (split; [|done]); intros e' [= <-] [Hb Hh]; try done; by apply Ho in Hb.
Qed.

Lemma calmly_awaitCloseOk : calmly awaitCloseOk.
Proof. unfold awaitCloseOk. turn. Qed.

Lemma calmly_shutdown : calmly shutdown.
Proof.
  unfold shutdown. apply triple_bind; [turn|]. intros text.
  apply triple_bind; [turn|]. intros _. apply calmly_awaitCloseOk.
Qed.

Lemma calmly_sendConnectionError code message : calmly (sendConnectionError code message).
Proof.
  unfold sendConnectionError. apply triple_bind; [turn|]. intros _. apply calmly_awaitCloseOk.
Qed.

Lemma calmly_heartbeatTick : calmly heartbeatTick.
Proof.
  intros w Hw. unfold heartbeatTick.
  assert (T : calmly (sendFrame (WriteFrame conn_Write) "HeartbeatFrame"
          (F_Heartbeat {| HeartbeatFrame_ChannelId := 0 |})))
    by apply calmly_sendFrame, wcalm_WriteFrame.
  destruct (T w Hw) as [He HP]. destruct (sendFrame _ _ _ w) as [[a|e] w']; [done|].
  destruct (is_panic e); [split; [|done]; intros e' [= <-]; by apply He|].
  by apply calmly_ignoring; [apply calmly_shutdown|].
Qed.

Lemma calmly_listenConfirm ch ui cs tag ack : calmly (listenConfirm ch ui cs tag ack).
Proof.
  intros w Hw. unfold listenConfirm. destruct (heap w !! cs) as [st|].
  2: { split; [|done]. by intros e [= <-] [_ ?]. }
  destruct (LookupClientTag st ui tag) as [[clientTag ok] st']. cbn beta iota.
  set (w1 := set_heap _ w).
  assert (Hw1 : kept w1) by by eapply kept_fields.
  destruct (negb ok); [done|]. destruct ack; by apply calmly_send.
Qed.

Lemma calmly_consume ch tag d msg : calmly (consume ch tag d msg).
Proof. unfold consume. turn. Qed.
End Calm.
