(* ===== verification/Sse.v ===== *)
(** * Event streams

    The text of the streams that the API sends ([api.go]) and the reader of the client
    ([apiclient/probe.go]), which splits them with a [bufio.Scanner]. JSON is an argument:
    [Marshal] of the three fields of a log and [Unmarshal] of a [ProbeLogEntry]. *)

From S2P Require Import Prelude Fields Times LogBuffers.

Open Scope Z_scope.

(** ** Text *)

Definition lf : Ascii.ascii := Ascii.ascii_of_nat 10.
Definition cr : Ascii.ascii := Ascii.ascii_of_nat 13.
Definition newline : string := String lf EmptyString.

(** A string between double quotes. *)
Definition dq (s : string) : string := String (Ascii.ascii_of_nat 34) (s +:+ String (Ascii.ascii_of_nat 34) EmptyString).

Fixpoint has_lf (s : string) : bool :=
  match s with
  | EmptyString => false
  | String c s' => bool_decide (c = lf) || has_lf s'
  end.

(** The text before the first newline, and the text after it. *)
Fixpoint splitLine (s : string) : option (string * string) :=
  match s with
  | EmptyString => None
  | String c s' =>
      if decide (c = lf) then Some (EmptyString, s')
      else match splitLine s' with Some (l, r) => Some (String c l, r) | None => None end
  end.

(** [dropCR]. *)
Fixpoint dropCR (s : string) : string :=
  match s with
  | EmptyString => EmptyString
  | String c EmptyString => if decide (c = cr) then EmptyString else s
  | String c s' => String c (dropCR s')
  end.

(** [bufio.Scanner] with [ScanLines]: the lines, and [true] when one was too long for its
    buffer. *)
Definition MaxScanTokenSize : nat := N.to_nat 65536.

Fixpoint scan (fuel : nat) (s : string) : list string * bool :=
  match fuel with
  | O => ([], false)
  | S fuel' =>
      match splitLine s with
      | Some (l, r) =>
          if (String.length l <? MaxScanTokenSize)%nat then
            let (ls, e) := scan fuel' r in (dropCR l :: ls, e)
          else ([], true)
      | None =>
          match s with
          | EmptyString => ([], false)
          | _ => if (String.length s <? MaxScanTokenSize)%nat then ([dropCR s], false) else ([], true)
          end
      end
  end.

(** A line takes a byte at least. *)
Definition Scan (s : string) : list string * bool := scan (S (String.length s)) s.

Fixpoint CutPrefix (p s : string) : option string :=
  match p, s with
  | EmptyString, _ => Some s
  | String a p', String b s' => if decide (a = b) then CutPrefix p' s' else None
  | String _ _, EmptyString => None
  end.

Section Sse.
Context {any : Type} (Unmarshal : string -> option (ProbeLogEntry (any := any))).

(** ** The reader *)

(** An event: one that does not parse is logged, control messages are skipped. *)
Definition entryOfEvent (data : string) : list (ProbeLogEntry (any := any)) :=
  match Unmarshal data with
  | None => []
  | Some entry =>
      if IsZero (ProbeLogEntry_Timestamp entry) && String.eqb (ProbeLogEntry_Message entry) ""
      then [] else [entry]
  end.

(** The loop over the lines: [dataBuffer] has the data of the event so far. *)
Fixpoint readLoop (lines : list string) (dataBuffer : string)
  : list (ProbeLogEntry (any := any)) :=
  match lines with
  | [] => []
  | line :: rest =>
      match CutPrefix "data: " line with
      | Some after => readLoop rest (dataBuffer +:+ after)
      | None =>
          if String.eqb line "" then
            if String.eqb dataBuffer "" then readLoop rest dataBuffer
            else entryOfEvent dataBuffer ++ readLoop rest ""
          else readLoop rest dataBuffer
      end
  end.

(** [readProbeLogSSE] and [readServerLogSSE] on the body of a response with status 200
    while the context lives: the entries handled, and whether the scanner failed. *)
Definition readSSE (body : string) : list (ProbeLogEntry (any := any)) * bool :=
  let (ls, e) := Scan body in (readLoop ls "", e).

(** ** The writer *)

(** [data: %s], and an empty line. *)
Definition event (data : string) : string := "data: " +:+ data +:+ newline +:+ newline.

Definition stream_of (ds : list string) : string := foldr (fun d s => event d +:+ s) "" ds.

(** ** Reading back *)

Lemma splitLine_lf l r : has_lf l = false -> splitLine (l +:+ String lf r) = Some (l, r).
Proof.
  induction l as [|c l IH]; [done|]. intros H. change (bool_decide (c = lf) || has_lf l = false) in H.
  apply orb_false_iff in H as [Hc%bool_decide_eq_false Hl].
  change (String c l +:+ String lf r) with (String c (l +:+ String lf r)). cbn [splitLine].
  rewrite decide_False by done. by rewrite IH.
Qed.

Lemma splitLine_shrinks s l r : splitLine s = Some (l, r) -> (String.length r < String.length s)%nat.
Proof.
  revert l; induction s as [|c s IH]; intros l; cbn [splitLine]; [done|].
  destruct (decide (c = lf)); [intros [= _ ->]; simpl; lia|].
  destruct (splitLine s) as [[l' r']|]; [|done]. intros [= <- ->]. specialize (IH l' eq_refl).
  simpl. lia.
Qed.

(** More fuel than bytes is enough. *)
Lemma scan_fuel n m s : (String.length s < n)%nat -> (String.length s < m)%nat ->
  scan n s = scan m s.
Proof.
  revert m s; induction n as [|n IH]; intros m s Hn Hm; [lia|]. destruct m as [|m]; [lia|].
  cbn [scan]. destruct (splitLine s) as [[l r]|] eqn:E; [|done].
  apply splitLine_shrinks in E. by rewrite (IH m r) by lia.
Qed.

Lemma Scan_line l r : has_lf l = false -> (String.length l < MaxScanTokenSize)%nat ->
  Scan (l +:+ String lf r) = (dropCR l :: (Scan r).1, (Scan r).2).
Proof.
  intros Hl Hs. unfold Scan at 1. cbn [scan]. rewrite (splitLine_lf l r Hl).
  apply Nat.ltb_lt in Hs as ->. unfold Scan. rewrite length_append. cbn [String.length].
  rewrite (scan_fuel _ (S (String.length r)) r) by lia. by destruct (scan _ r).
Qed.

Lemma Scan_long l r : has_lf l = false -> (MaxScanTokenSize <= String.length l)%nat ->
  Scan (l +:+ String lf r) = ([], true).
Proof.
  intros Hl Hs. unfold Scan. cbn [scan]. rewrite (splitLine_lf l r Hl).
  apply Nat.ltb_ge in Hs as ->. done.
Qed.

Lemma has_lf_append a b : has_lf (a +:+ b) = has_lf a || has_lf b.
Proof.
  induction a as [|c a IH]; [done|].
  change (bool_decide (c = lf) || has_lf (a +:+ b) = (bool_decide (c = lf) || has_lf a) || has_lf b).
  by rewrite IH, orb_assoc.
Qed.

(** Data of one event, as [json.Marshal] gives them: without line breaks, not empty. *)
Definition event_data (d : string) : Prop := has_lf d = false /\ dropCR d = d /\ d <> "".

Definition fits (d : string) : Prop := (6 + String.length d < MaxScanTokenSize)%nat.

Lemma dropCR_prefix d : d <> "" -> dropCR d = d -> dropCR ("data: " +:+ d) = "data: " +:+ d.
Proof.
  intros Hne Hd. destruct d as [|c d]; [done|]. exact (f_equal (String.append "data: ") Hd).
Qed.

Lemma event_eq d s : event d +:+ s = ("data: " +:+ d) +:+ String lf (String lf s).
Proof. unfold event, newline. by rewrite !append_assoc. Qed.

Lemma Scan_event d s : event_data d -> fits d ->
  Scan (event d +:+ s) = (("data: " +:+ d) :: "" :: (Scan s).1, (Scan s).2).
Proof.
  intros (Hl & Hc & Hne) Hf. rewrite event_eq, Scan_line.
  - rewrite dropCR_prefix by done. change (String lf s) with ("" +:+ String lf s).
    rewrite Scan_line; [done|done|]. unfold MaxScanTokenSize. cbn [String.length]. lia.
  - rewrite has_lf_append, Hl. done.
  - rewrite length_append. exact Hf.
Qed.

Lemma readLoop_event d ls : d <> "" ->
  readLoop (("data: " +:+ d) :: "" :: ls) "" = entryOfEvent d ++ readLoop ls "".
Proof.
  intros Hne. cbn [readLoop]. change (CutPrefix "data: " ("data: " +:+ d)) with (Some d).
  cbv iota. change ("" +:+ d) with d. apply String.eqb_neq in Hne. by rewrite Hne.
Qed.

Lemma readSSE_event d s : event_data d -> fits d ->
  readSSE (event d +:+ s) = (entryOfEvent d ++ (readSSE s).1, (readSSE s).2).
Proof.
  intros Hd Hf. unfold readSSE. rewrite Scan_event by done. destruct (Scan s) as [ls e].
  cbn [fst snd]. rewrite readLoop_event; [done|apply Hd].
Qed.

Lemma stream_of_app ds1 ds2 : stream_of (ds1 ++ ds2) = stream_of ds1 +:+ stream_of ds2.
Proof.
  induction ds1 as [|d ds1 IH]; [done|].
  change (event d +:+ stream_of (ds1 ++ ds2) = (event d +:+ stream_of ds1) +:+ stream_of ds2).
  by rewrite IH, append_assoc.
Qed.

(** Events that fit are read back, one after the other. *)
Lemma readSSE_events ds s : Forall event_data ds -> Forall fits ds ->
  readSSE (stream_of ds +:+ s) = (flat_map entryOfEvent ds ++ (readSSE s).1, (readSSE s).2).
Proof.
  intros H1 H2. induction H1 as [|d ds Hd _ IH].
  { change (stream_of [] +:+ s) with s. by destruct (readSSE s). }
  apply Forall_cons in H2 as [Hf H2]. change (stream_of (d :: ds)) with (event d +:+ stream_of ds).
  rewrite append_assoc, readSSE_event, IH by done. cbn [flat_map fst snd].
  by rewrite <- app_assoc.
Qed.

(** An event that does not fit ends the reading: it and all that follow are lost. *)
Lemma readSSE_long d s : event_data d -> ~ fits d -> readSSE (event d +:+ s) = ([], true).
Proof.
  intros (Hl & _) Hf. unfold readSSE. rewrite event_eq, Scan_long; [done| |].
  - rewrite has_lf_append, Hl. done.
  - rewrite length_append. unfold fits in Hf. simpl. lia.
Qed.
End Sse.
