(* ===== verification/Runes.v ===== *)
(** * Runes

    What the views use of Go's strings beyond bytes: the conversions between a string and
    its runes, where a byte that is no UTF-8 becomes U+FFFD, and [wrapText] of
    [tui/view.go], which breaks lines by the width of the characters. *)

From S2P Require Import Prelude Sse.

Open Scope Z_scope.

Definition RuneError : Z := 65533.

Definition byteZ (c : Ascii.ascii) : Z := Z.of_N (Ascii.N_of_ascii c).
Definition chr (b : Z) : Ascii.ascii := Ascii.ascii_of_N (Z.to_N b).

(** [string(r)]. *)
Definition valid_rune (r : Z) : bool :=
  ((0 <=? r) && (r <? 55296)) || ((57344 <=? r) && (r <=? 1114111)).

Definition encodeValid (r : Z) : string :=
  if r <? 128 then String (chr r) EmptyString
  else if r <? 2048 then
    String (chr (192 + r / 64)) (String (chr (128 + r mod 64)) EmptyString)
  else if r <? 65536 then
    String (chr (224 + r / 4096)) (String (chr (128 + r / 64 mod 64))
      (String (chr (128 + r mod 64)) EmptyString))
  else
    String (chr (240 + r / 262144)) (String (chr (128 + r / 4096 mod 64))
      (String (chr (128 + r / 64 mod 64)) (String (chr (128 + r mod 64)) EmptyString))).

Definition encodeRune (r : Z) : string := encodeValid (if valid_rune r then r else RuneError).

(** [utf8.DecodeRuneInString]: the first byte, how many follow, and the range of the second. *)
Inductive first : Type := Ascii1 | Lead (n : nat) (lo hi : Z) | Invalid.

Definition classify (b0 : Z) : first :=
  if b0 <? 128 then Ascii1
  else if b0 <? 194 then Invalid
  else if b0 <? 224 then Lead 1 128 191
  else if b0 =? 224 then Lead 2 160 191
  else if b0 =? 237 then Lead 2 128 159
  else if b0 <? 240 then Lead 2 128 191
  else if b0 =? 240 then Lead 3 144 191
  else if b0 <? 244 then Lead 3 128 191
  else if b0 =? 244 then Lead 3 128 143
  else Invalid.

Definition inRange (lo hi : Z) (c : Ascii.ascii) : bool := (lo <=? byteZ c) && (byteZ c <=? hi).
Definition low6 (c : Ascii.ascii) : Z := byteZ c - 128.

Definition decodeRune (c0 : Ascii.ascii) (s : string) : Z * string :=
  let b0 := byteZ c0 in
  match classify b0, s with
  | Ascii1, _ => (b0, s)
  | Lead 1 lo hi, String c1 s1 =>
      if inRange lo hi c1 then ((b0 - 192) * 64 + low6 c1, s1) else (RuneError, s)
  | Lead 2 lo hi, String c1 (String c2 s2) =>
      if inRange lo hi c1 && inRange 128 191 c2
      then ((b0 - 224) * 4096 + low6 c1 * 64 + low6 c2, s2) else (RuneError, s)
  | Lead 3 lo hi, String c1 (String c2 (String c3 s3)) =>
      if inRange lo hi c1 && inRange 128 191 c2 && inRange 128 191 c3
      then ((b0 - 240) * 262144 + low6 c1 * 4096 + low6 c2 * 64 + low6 c3, s3) else (RuneError, s)
  | _, _ => (RuneError, s)
  end.

(** [[]rune(s)]: a rune takes a byte at least. *)
Fixpoint runes_fuel (n : nat) (s : string) : list Z :=
  match n, s with
  | S n', String c s' => let (r, rest) := decodeRune c s' in r :: runes_fuel n' rest
  | _, _ => []
  end.
Definition runes (s : string) : list Z := runes_fuel (String.length s) s.

(** [string(rs)]. *)
Definition string_of (rs : list Z) : string := foldr (fun r s => encodeRune r +:+ s) "" rs.

(** ** Decoding what was encoded *)

Lemma byteZ_chr b : 0 <= b < 256 -> byteZ (chr b) = b.
Proof.
  intros H. unfold byteZ, chr. rewrite Ascii.N_ascii_embedding by lia. lia.
Qed.

Lemma byteZ_range c : 0 <= byteZ c < 256.
Proof. unfold byteZ. pose proof (Ascii.N_ascii_bounded c). lia. Qed.

Lemma decodeRune_rest c s : (String.length (decodeRune c s).2 <= String.length s)%nat.
Proof.
  unfold decodeRune. destruct (classify (byteZ c)) as [|n lo hi|]; [done| |by destruct s].
  destruct n as [|[|[|[|n]]]]; destruct s as [|c1 [|c2 [|c3 s]]]; simpl; try done;
    case_match; simpl; lia.
Qed.

Lemma runes_fuel_enough n s : (String.length s <= n)%nat -> runes_fuel n s = runes s.
Proof.
  unfold runes. enough (G : forall k n s, (String.length s <= k)%nat -> (String.length s <= n)%nat ->
    runes_fuel n s = runes_fuel k s) by by intros H; apply G.
  clear. intros k; induction k as [|k IH]; intros n s Hk Hn; [by destruct s, n; simpl in *; try lia|].
  destruct s as [|c s]; [by destruct n|]. destruct n as [|n]; [simpl in Hn; lia|].
  cbn [runes_fuel]. pose proof (decodeRune_rest c s) as Hr. destruct (decodeRune c s) as [r rest].
  simpl in *. f_equal. apply IH; lia.
Qed.

Lemma runes_length s : (length (runes s) <= String.length s)%nat.
Proof.
  unfold runes. generalize (String.length s) at 1 2 as n. intros n. revert s.
  induction n as [|n IH]; intros s; [done|]. destruct s as [|c s]; [simpl; lia|].
  cbn [runes_fuel]. destruct (decodeRune c s) as [r rest]. simpl. specialize (IH rest). lia.
Qed.

Lemma runes_cons c s : runes (String c s) = (decodeRune c s).1 :: runes (decodeRune c s).2.
Proof.
  unfold runes at 1. cbn [String.length runes_fuel]. pose proof (decodeRune_rest c s) as Hr.
  destruct (decodeRune c s) as [r rest]. simpl in *. f_equal. by apply runes_fuel_enough.
Qed.

Lemma valid_runes r : valid_rune r = true <-> 0 <= r < 55296 \/ 57344 <= r <= 1114111.
Proof.
  unfold valid_rune. rewrite orb_true_iff, !andb_true_iff, !Z.leb_le, !Z.ltb_lt. lia.
Qed.

Ltac decide_ifs := repeat match goal with
  | |- context [Z.ltb ?a ?b] => destruct (Z.ltb_spec a b); try lia
  | |- context [Z.leb ?a ?b] => destruct (Z.leb_spec a b); try lia
  | |- context [Z.eqb ?a ?b] => destruct (Z.eqb_spec a b); try lia
  end.

(** The bytes of a valid rune are read as that rune. *)
Lemma decodeRune_encodeValid r s : valid_rune r = true -> exists c0 s0,
  encodeValid r +:+ s = String c0 s0 /\ decodeRune c0 s0 = (r, s) /\ (128 <= r -> 128 <= byteZ c0).
Proof.
  intros Hr%valid_runes. unfold encodeValid.
  destruct (Z.ltb_spec r 128); [|destruct (Z.ltb_spec r 2048); [|destruct (Z.ltb_spec r 65536)]];
    (do 2 eexists; split; [reflexivity|]; unfold decodeRune, inRange, low6).
  - rewrite byteZ_chr by lia. unfold classify. destruct (Z.ltb_spec r 128); [|lia]. split; [done|lia].
  - assert (A1 : 2 <= r / 64 < 32) by (Z.to_euclidean_division_equations; lia).
    assert (A2 : 0 <= r mod 64 < 64) by (apply Z.mod_pos_bound; lia).
    pose proof (Z_div_mod_eq_full r 64). cbn [String.append]. rewrite !byteZ_chr by lia.
    unfold classify. decide_ifs. cbn [andb]. split; [f_equal; lia|lia].
  - assert (A1 : 0 <= r / 4096 < 16) by (Z.to_euclidean_division_equations; lia).
    assert (A2 : 0 <= r mod 64 < 64) by (apply Z.mod_pos_bound; lia).
    assert (A3 : 0 <= r / 64 mod 64 < 64) by (apply Z.mod_pos_bound; lia).
    assert (E : r = r / 4096 * 4096 + r / 64 mod 64 * 64 + r mod 64)
      by (Z.to_euclidean_division_equations; lia).
    cbn [String.append]. rewrite !byteZ_chr by lia. unfold classify.
    decide_ifs; cbn [andb]; (split; [f_equal; lia|lia]).
  - assert (A1 : 0 <= r / 262144 < 5) by (Z.to_euclidean_division_equations; lia).
    assert (A2 : 0 <= r mod 64 < 64) by (apply Z.mod_pos_bound; lia).
    assert (A3 : 0 <= r / 64 mod 64 < 64) by (apply Z.mod_pos_bound; lia).
    assert (A4 : 0 <= r / 4096 mod 64 < 64) by (apply Z.mod_pos_bound; lia).
    assert (E : r = r / 262144 * 262144 + r / 4096 mod 64 * 4096 + r / 64 mod 64 * 64 + r mod 64)
      by (Z.to_euclidean_division_equations; lia).
    cbn [String.append]. rewrite !byteZ_chr by lia. unfold classify.
    decide_ifs; cbn [andb]; (split; [f_equal; lia|lia]).
Qed.

Lemma runes_encodeValid r s : valid_rune r = true -> runes (encodeValid r +:+ s) = r :: runes s.
Proof.
  intros Hr. destruct (decodeRune_encodeValid r s Hr) as (c0 & s0 & -> & E & _). by rewrite runes_cons, E.
Qed.

(** A byte that is no ASCII begins no ASCII rune. *)
Lemma decodeRune_high c s : 128 <= byteZ c -> 128 <= (decodeRune c s).1.
Proof.
  intros Hc. unfold decodeRune, classify, RuneError.
  repeat match goal with |- context [Z.ltb (byteZ c) ?b] => destruct (Z.ltb_spec (byteZ c) b)
    | |- context [Z.eqb (byteZ c) ?b] => destruct (Z.eqb_spec (byteZ c) b) end; cbn [fst]; try lia;
  destruct s as [|c1 [|c2 [|c3 s]]]; cbn [fst]; try lia;
  unfold inRange, low6; repeat match goal with
    | |- context [Z.leb ?a ?b] => destruct (Z.leb_spec a b) end; cbn [andb fst]; lia.
Qed.

(** Whatever the bytes, the runes are valid. *)
Lemma decodeRune_valid c s : valid_rune (decodeRune c s).1 = true.
Proof.
  apply valid_runes. pose proof (byteZ_range c) as Hc. unfold decodeRune, classify, RuneError.
  repeat match goal with |- context [Z.ltb (byteZ c) ?b] => destruct (Z.ltb_spec (byteZ c) b)
    | |- context [Z.eqb (byteZ c) ?b] => destruct (Z.eqb_spec (byteZ c) b) end; cbn [fst]; try lia;
  destruct s as [|c1 [|c2 [|c3 s]]]; cbn [fst]; try lia;
  unfold inRange, low6; repeat match goal with
    | |- context [Z.leb ?a ?b] => destruct (Z.leb_spec a b) end; cbn [andb fst]; lia.
Qed.

Lemma runes_valid s : Forall (fun r => valid_rune r = true) (runes s).
Proof.
  unfold runes. generalize (String.length s) as n. intros n. revert s.
  induction n as [|n IH]; intros s; [constructor|]. destruct s as [|c s]; [constructor|].
  cbn [runes_fuel]. pose proof (decodeRune_valid c s) as Hv. destruct (decodeRune c s).
  by constructor.
Qed.

Lemma runes_string_of rs : Forall (fun r => valid_rune r = true) rs -> runes (string_of rs) = rs.
Proof.
  induction 1 as [|r rs Hr _ IH]; [done|].
  change (string_of (r :: rs)) with (encodeRune r +:+ string_of rs).
  unfold encodeRune. rewrite Hr, runes_encodeValid by done. by rewrite IH.
Qed.

(** ** [wrapText] *)

(** [strings.Split(s, "\n")]. *)
Fixpoint SplitLines (s : string) : list string :=
  match s with
  | EmptyString => [EmptyString]
  | String c s' =>
      match SplitLines s' with
      | l :: ls => if decide (c = lf) then EmptyString :: l :: ls else String c l :: ls
      | [] => []
      end
  end.

Section Wrap.
Context (RuneWidth : Z -> Z) (width : Z).

(** The loop over the runes of a segment: [cur] are those since [start]. *)
Fixpoint wrapRunes (cur : list Z) (lineWidth : Z) (rs : list Z) : list (list Z) :=
  match rs with
  | [] => match cur with [] => [] | _ => [cur] end
  | ch :: rs' =>
      let rw := RuneWidth ch in
      if width <? lineWidth + rw then cur :: wrapRunes [ch] rw rs'
      else wrapRunes (cur ++ [ch]) (lineWidth + rw) rs'
  end.

Definition wrapSegment (seg : string) : list string :=
  if String.eqb seg "" then [EmptyString] else map string_of (wrapRunes [] 0 (runes seg)).

Definition wrapText (text : string) : list string :=
  if width <=? 0 then [text] else flat_map wrapSegment (SplitLines text).

Definition widthOf (rs : list Z) : Z := foldr (fun r w => RuneWidth r + w) 0 rs.

Lemma widthOf_snoc rs r : widthOf (rs ++ [r]) = widthOf rs + RuneWidth r.
Proof. induction rs as [|x rs IH]; simpl; [lia|]. rewrite IH. lia. Qed.

Lemma wrapRunes_concat cur w rs : concat (wrapRunes cur w rs) = cur ++ rs.
Proof.
  revert cur w; induction rs as [|ch rs IH]; intros cur w; cbn [wrapRunes].
  - destruct cur; simpl; by rewrite ?app_nil_r.
  - case_match; cbn [concat]; rewrite IH; [done|]. by rewrite <- app_assoc.
Qed.

(** A line is within the width, or it is a single rune that is wider. *)
Definition narrow (rs : list Z) : Prop := widthOf rs <= width \/ exists r, rs = [r].

Lemma wrapRunes_narrow cur w rs : (forall r, 0 <= RuneWidth r) -> w = widthOf cur -> narrow cur ->
  Forall narrow (wrapRunes cur w rs).
Proof.
  intros H0. revert cur w; induction rs as [|ch rs IH]; intros cur w Hw Hc; cbn [wrapRunes].
  - destruct cur; [constructor|]. constructor; [done|constructor].
  - specialize (H0 ch). destruct (Z.ltb_spec width (w + RuneWidth ch)).
    + constructor; [done|]. apply IH; [simpl; lia|]. right. by exists ch.
    + apply IH; [rewrite widthOf_snoc; lia|]. left. rewrite widthOf_snoc. lia.
Qed.

Lemma SplitLines_one s : has_lf s = false -> SplitLines s = [s].
Proof.
  induction s as [|c s IH]; [done|]. intros H. change (bool_decide (c = lf) || has_lf s = false) in H.
  apply orb_false_iff in H as [Hc%bool_decide_eq_false Hs]. cbn [SplitLines]. rewrite IH by done.
  by rewrite decide_False.
Qed.

(** Wrapping a line loses no character and changes none but bytes that are not UTF-8;
    every line it makes is within the width or a single character that is wider. *)
Theorem wrapText_keeps text : (forall r, 0 <= RuneWidth r) -> 0 < width ->
  has_lf text = false ->
  concat (map runes (wrapText text)) = runes text /\
  Forall (fun l => narrow (runes l)) (wrapText text).
Proof.
  intros H0 Hw Hl. unfold wrapText. destruct (Z.leb_spec width 0); [lia|].
  rewrite SplitLines_one by done. simpl. rewrite app_nil_r. unfold wrapSegment.
  destruct (String.eqb_spec text "") as [->|Hne].
  { split; [done|]. constructor; [left; simpl; lia|constructor]. }
  pose proof (wrapRunes_concat [] 0 (runes text)) as Hc. simpl in Hc.
  pose proof (runes_valid text) as Hv. rewrite <- Hc in Hv.
  pose proof (wrapRunes_narrow [] 0 (runes text) H0 eq_refl ltac:(left; simpl; lia)) as Hn.
  assert (E : map runes (map string_of (wrapRunes [] 0 (runes text))) = wrapRunes [] 0 (runes text)).
  { rewrite map_map. clear Hc Hn. induction (wrapRunes [] 0 (runes text)) as [|l ls IH]; [done|].
    simpl in *. apply Forall_app in Hv as [Hv1 Hv2]. by rewrite runes_string_of, IH. }
  split; [by rewrite E|]. rewrite <- E in Hn. exact (proj1 (List.Forall_map _ _ _) Hn).
Qed.
End Wrap.

(** Characters of one column. *)
Lemma wrapText_keeps_witness :
  wrapText (fun _ => 1) 4 "abcdefghij" = ["abcd"; "efgh"; "ij"]%string /\
  concat (map runes (wrapText (fun _ => 1) 4 "abcdefghij")) = runes "abcdefghij".
Proof. split; [by vm_compute|]. by apply wrapText_keeps. Defined.

(** A first character that is wider than the line leaves an empty line before it. *)
Example wrap_wide : wrapText (fun _ => 2) 1 "ab" = [""; "a"; "b"]%string.
Proof. by vm_compute. Qed.
