(* ===== verification/Json.v ===== *)
(** * JSON

    What the program uses of [encoding/json]: the values, the text that [Marshal] and
    [MarshalIndent] write, and the syntax that [Unmarshal] reads, with strings escaped and
    unescaped as the package does and at most 10000 nested values. Numbers are kept as they
    are written. How values of Go types are encoded is with the types ([Loading]). *)

From Stdlib Require Import Strings.Ascii.
From stdpp Require Import pretty.
From S2P Require Import Prelude Bytes Decimals Sse Runes.

Open Scope Z_scope.

(** The members of an object in the order of the text. *)
Inductive json : Type :=
| JNull
| JBool (b : bool)
| JNum (lit : string)
| JStr (s : string)
| JArr (l : list json)
| JObj (l : list (string * json)).

Section json_induction.
Variable P : json -> Prop.
Hypothesis Harr : forall l, Forall P l -> P (JArr l).
Hypothesis Hobj : forall l, Forall (fun kv => P kv.2) l -> P (JObj l).
Hypothesis Hflat : forall j, match j with JArr _ | JObj _ => True | _ => P j end.

Fixpoint json_ind' (j : json) : P j :=
  match j with
  | JArr l => Harr l ((fix go (l : list json) : Forall P l := match l with
      | [] => List.Forall_nil P
      | x :: l' => List.Forall_cons P x l' (json_ind' x) (go l')
      end) l)
  | JObj l => Hobj l ((fix go (l : list (string * json)) : Forall (fun kv => P kv.2) l := match l with
      | [] => List.Forall_nil (fun kv => P kv.2)
      | kv :: l' => List.Forall_cons (fun kv => P kv.2) kv l' (json_ind' kv.2) (go l')
      end) l)
  | JNull => Hflat JNull
  | JBool b => Hflat (JBool b)
  | JNum n => Hflat (JNum n)
  | JStr s => Hflat (JStr s)
  end.
End json_induction.

(** ** Writing *)

Definition quote : ascii := Ascii.ascii_of_nat 34.
Definition backslash : ascii := "\"%char.

Definition hexDigit (n : Z) : ascii := chr (if n <? 10 then 48 + n else 87 + n).

(** [\u] and four hexadecimal digits. *)
Definition unicode (r : Z) : string :=
  String backslash (String "u" (String (hexDigit (r / 4096 mod 16)) (String (hexDigit (r / 256 mod 16))
    (String (hexDigit (r / 16 mod 16)) (String (hexDigit (r mod 16)) EmptyString))))).

(** The characters that have an escape of their own, with the letter of the escape. *)
Definition escapes : list (Z * ascii) :=
  [(34, quote); (92, backslash); (8, "b"%char); (12, "f"%char); (10, "n"%char); (13, "r"%char); (9, "t"%char)].

Definition assoc {A} (b : Z) (l : list (Z * A)) : option A := snd <$> (list_find (fun x => b = x.1) l ≫= (fun x => Some x.2)).

(** [htmlSafeSet]. *)
Definition htmlSafe (b : Z) : bool :=
  (32 <=? b) && negb (b =? 34) && negb (b =? 92) && negb (b =? 60) && negb (b =? 62) && negb (b =? 38).

Definition escapeByte (b : Z) : string :=
  if htmlSafe b then String (chr b) EmptyString
  else match assoc b escapes with
       | Some l => String backslash (String l EmptyString)
       | None => unicode b
       end.

(** A rune of more than one byte; a byte that begins none is written as U+FFFD. *)
Definition escapeRune (r : Z) (broken : bool) : string :=
  if broken then unicode RuneError
  else if (r =? 8232) || (r =? 8233) then unicode r
  else encodeValid r.

Fixpoint escape_fuel (n : nat) (s : string) : string :=
  match n, s with
  | S n', String c s' =>
      if byteZ c <? 128 then escapeByte (byteZ c) +:+ escape_fuel n' s'
      else
        let (r, rest) := decodeRune c s' in
        escapeRune r ((r =? RuneError) && (String.length rest =? String.length s')%nat) +:+ escape_fuel n' rest
  | _, _ => EmptyString
  end.
Definition escape (s : string) : string := escape_fuel (String.length s) s.

Definition quoted (s : string) : string := String quote (escape s +:+ String quote EmptyString).

(** Items with commas between them. *)
Definition items {A} (sp : string) (f : A -> string) : list A -> string :=
  fix go l := match l with
  | [] => EmptyString
  | [x] => f x
  | x :: l' => f x +:+ "," +:+ sp +:+ go l'
  end.

Definition break (ind : option nat) : string :=
  match ind with None => EmptyString | Some d => newline +:+ Nat.iter d (String.append "  ") EmptyString end.

Definition colon (ind : option nat) : string := match ind with None => ":" | Some _ => ": " end.

(** [ind] is the depth when the text is indented. *)
Fixpoint write (ind : option nat) (j : json) : string :=
  let deeper := S <$> ind in
  match j with
  | JNull => "null"
  | JBool b => if b then "true" else "false"
  | JNum lit => lit
  | JStr s => quoted s
  | JArr [] => "[]"
  | JArr l => "[" +:+ break deeper +:+ items (break deeper) (write deeper) l +:+ break ind +:+ "]"
  | JObj [] => "{}"
  | JObj l => "{" +:+ break deeper
      +:+ items (break deeper) (fun kv => quoted kv.1 +:+ colon ind +:+ write deeper kv.2) l
      +:+ break ind +:+ "}"
  end.

Definition Marshal (j : json) : string := write None j.
Definition MarshalIndent (j : json) : string := write (Some 0%nat) j.

(** ** Reading *)

Definition isSpace (c : ascii) : bool :=
  let b := byteZ c in (b =? 32) || (b =? 9) || (b =? 10) || (b =? 13).

Fixpoint skip (s : string) : string :=
  match s with
  | String c s' => if isSpace c then skip s' else s
  | EmptyString => s
  end.

(** The value of a hexadecimal digit. *)
Definition hexValue (c : ascii) : option Z :=
  let b := byteZ c in
  if (48 <=? b) && (b <=? 57) then Some (b - 48)
  else if (97 <=? b) && (b <=? 102) then Some (b - 87)
  else if (65 <=? b) && (b <=? 70) then Some (b - 55)
  else None.

Definition hex4 (s : string) : option (Z * string) :=
  match s with
  | String a (String b (String c (String d s'))) =>
      x ← hexValue a; y ← hexValue b; z ← hexValue c; t ← hexValue d;
      Some (x * 4096 + y * 256 + z * 16 + t, s')
  | _ => None
  end.

(** [getu4]. *)
Definition getu4 (s : string) : option (Z * string) :=
  match s with
  | String b (String u s') =>
      if Ascii.eqb b backslash && Ascii.eqb u "u" then hex4 s' else None
  | _ => None
  end.

(** The rune of an escape [\u] of value [r], and what follows: a surrogate takes its
    other half, if it comes. *)
Definition surrogates (r : Z) (s : string) : Z * string :=
  if (55296 <=? r) && (r <? 57344) then
    match getu4 s with
    | Some (r2, s') =>
        if (r <? 56320) && (56320 <=? r2) && (r2 <? 57344)
        then ((r - 55296) * 1024 + (r2 - 56320) + 65536, s') else (RuneError, s)
    | None => (RuneError, s)
    end
  else (r, s).

Definition unescapes : list (Z * ascii) :=
  [(34, quote); (92, backslash); (47, "/"%char); (98, chr 8); (102, chr 12); (110, chr 10); (114, chr 13); (116, chr 9)].

(** A string after its opening quote: what it stands for, and what follows it. *)
Fixpoint string_fuel (n : nat) (s : string) : option (string * string) :=
  match n, s with
  | S n', String c s' =>
      let b := byteZ c in
      let goes (t : string) (s : string) := '(u, r) ← string_fuel n' s; Some (t +:+ u, r) in
      if b =? 34 then Some (EmptyString, s')
      else if b =? 92 then
        match s' with
        | EmptyString => None
        | String e s2 =>
            match assoc (byteZ e) unescapes with
            | Some x => goes (String x EmptyString) s2
            | None =>
                if Ascii.eqb e "u" then
                  '(r, s3) ← hex4 s2;
                  let (r, s4) := surrogates r s3 in goes (encodeRune r) s4
                else None
            end
        end
      else if b <? 32 then None
      else if b <? 128 then goes (String c EmptyString) s'
      else let (r, rest) := decodeRune c s' in goes (encodeRune r) rest
  | _, _ => None
  end.
Definition stringLiteral (s : string) : option (string * string) := string_fuel (String.length s) s.

Fixpoint spanDigits (s : string) : string * string :=
  match s with
  | String c s' => if isDigit c then let (d, r) := spanDigits s' in (String c d, r) else (EmptyString, s)
  | EmptyString => (EmptyString, EmptyString)
  end.

(** [int frac? exp?] of the grammar, each with what follows. *)
Definition digits1 (s : string) : option (string * string) :=
  match spanDigits s with (EmptyString, _) => None | r => Some r end.

Definition intPart (s : string) : option (string * string) :=
  match s with
  | String c s' =>
      if Ascii.eqb c "0" then Some ("0"%string, s') else digits1 s
  | EmptyString => None
  end.

Definition fracPart (s : string) : option (string * string) :=
  match s with
  | String c s' =>
      if Ascii.eqb c "." then '(d, r) ← digits1 s'; Some (String c d, r) else Some (EmptyString, s)
  | EmptyString => Some (EmptyString, s)
  end.

Definition expPart (s : string) : option (string * string) :=
  match s with
  | String c s' =>
      if Ascii.eqb c "e" || Ascii.eqb c "E" then
        match s' with
        | String g s2 =>
            if Ascii.eqb g "+" || Ascii.eqb g "-"
            then '(d, r) ← digits1 s2; Some (String c (String g d), r)
            else '(d, r) ← digits1 s'; Some (String c d, r)
        | EmptyString => None
        end
      else Some (EmptyString, s)
  | EmptyString => Some (EmptyString, s)
  end.

Definition number (s : string) : option (string * string) :=
  let (sign, s1) := match s with
    | String c s' => if Ascii.eqb c "-" then (String c EmptyString, s') else (EmptyString, s)
    | EmptyString => (EmptyString, s)
    end in
  '(i, s2) ← intPart s1;
  '(f, s3) ← fracPart s2;
  '(e, s4) ← expPart s3;
  Some (sign +:+ i +:+ f +:+ e, s4).

(** Items with commas between them up to [close]; [n] is fuel, of which each takes one. *)
Definition sequence {A} (close : ascii) (item : string -> option (A * string))
  : nat -> string -> option (list A * string) :=
  fix go n s := match n with
  | O => None
  | S n' =>
      '(v, r) ← item s;
      match skip r with
      | String c r' =>
          if Ascii.eqb c "," then '(l, r2) ← go n' r'; Some (v :: l, r2)
          else if Ascii.eqb c close then Some ([v], r') else None
      | EmptyString => None
      end
  end.

Definition member (val : string -> option (json * string)) (s : string) : option ((string * json) * string) :=
  match skip s with
  | String q r =>
      if Ascii.eqb q quote then
        '(k, r1) ← stringLiteral r;
        match skip r1 with
        | String c r2 => if Ascii.eqb c ":" then '(v, r3) ← val r2; Some ((k, v), r3) else None
        | EmptyString => None
        end
      else None
  | EmptyString => None
  end.

Definition maxNestingDepth : Z := 10000.

(** A value and what follows; [depth] is how many arrays and objects may still be opened,
    [n] is fuel. *)
Fixpoint value (n : nat) (depth : Z) (s : string) : option (json * string) :=
  match n, skip s with
  | S n', String c r =>
      if Ascii.eqb c "[" then
        if depth <=? 0 then None
        else
          match skip r with
          | String e r' =>
              if Ascii.eqb e "]" then Some (JArr [], r')
              else '(l, r2) ← sequence "]" (value n' (depth - 1)) n' r; Some (JArr l, r2)
          | EmptyString => None
          end
      else if Ascii.eqb c "{" then
        if depth <=? 0 then None
        else
          match skip r with
          | String e r' =>
              if Ascii.eqb e "}" then Some (JObj [], r')
              else '(l, r2) ← sequence "}" (member (value n' (depth - 1))) n' r; Some (JObj l, r2)
          | EmptyString => None
          end
      else if Ascii.eqb c quote then '(t, r2) ← stringLiteral r; Some (JStr t, r2)
      else if Ascii.eqb c "n" then r2 ← CutPrefix "ull" r; Some (JNull, r2)
      else if Ascii.eqb c "t" then r2 ← CutPrefix "rue" r; Some (JBool true, r2)
      else if Ascii.eqb c "f" then r2 ← CutPrefix "alse" r; Some (JBool false, r2)
      else '(lit, r2) ← number (String c r); Some (JNum lit, r2)
  | _, _ => None
  end.

(** The first value of a text, as [json.Decoder] reads it. *)
Definition Decode (s : string) : option json := fst <$> value (S (String.length s)) maxNestingDepth s.

(** The value of a whole text, as [json.Unmarshal] reads it. *)
Definition Parse (s : string) : option json :=
  match value (S (String.length s)) maxNestingDepth s with
  | Some (j, r) => match skip r with EmptyString => Some j | _ => None end
  | None => None
  end.

Example Marshal_sample :
  Marshal (JObj [("a", JArr [JNum "1"; JNull; JStr "x<y"]); ("b", JObj [])])%string
  = ("{" +:+ dq "a" +:+ ":[1,null," +:+ dq "x\u003cy" +:+ "]," +:+ dq "b" +:+ ":{}}")%string.
Proof. vm_compute. reflexivity. Qed.

Example Parse_samples :
  map Parse ["[1, -2.5e3 ,true]"; "[1 2]"; "01"; "[1,]"; " null "; dq "\ud83d\ude00\u0041\ud800\/";
             dq "\x"; "[}"; ""; "nul"; "1.e3"; "-"]%string
  = [Some (JArr [JNum "1"; JNum "-2.5e3"; JBool true]); None; None; None; Some JNull;
     Some (JStr (encodeRune 128512 +:+ "A" +:+ encodeRune RuneError +:+ "/")); None; None; None; None; None; None]%string.
Proof. vm_compute. reflexivity. Qed.

(** ** Strings, read back *)

(** What becomes of a string: bytes that are no UTF-8 become U+FFFD. *)
Definition valid (s : string) : string := Runes.string_of (runes s).

Lemma append_cons (c : ascii) (a b : string) : (String c a +:+ b)%string = String c (a +:+ b).
Proof. done. Qed.

Lemma string_fuel_enough k n s : (k <= n)%nat -> is_Some (string_fuel k s) -> string_fuel n s = string_fuel k s.
Proof.
  revert n s. induction k as [|k IH]; intros n s Hn Hs; [by apply is_Some_None in Hs|].
  destruct n as [|n]; [lia|]. destruct s as [|c s]; [by apply is_Some_None in Hs|].
  cbn [string_fuel] in *. cbv zeta in *.
  assert (G : forall (t : string) r, is_Some ('(u, q) ← string_fuel k r; Some ((t +:+ u)%string, q)) ->
    ('(u, q) ← string_fuel n r; Some ((t +:+ u)%string, q)) = ('(u, q) ← string_fuel k r; Some ((t +:+ u)%string, q))).
  { intros t r Hr. rewrite (IH n r); [done|lia|]. destruct (string_fuel k r); [by eexists|]. by apply is_Some_None in Hr. }
  repeat match goal with
  | |- context [if ?b then _ else _] => destruct b; [try (by auto)|]
  end; try (by auto).
  - destruct s as [|e s]; [done|]. destruct (assoc (byteZ e) unescapes); [by auto|].
    destruct (Ascii.eqb e "u"); [|done]. destruct (hex4 s) as [[r s3]|]; [|done]. simpl in *.
    destruct (surrogates r s3). by auto.
  - destruct (decodeRune c s). by auto.
Qed.

(** The text of a string, closed by its quote, is read as [valid s]. *)
Definition reads_string (text s rest : string) : Prop :=
  exists k, string_fuel k (text +:+ String quote rest) = Some (s, rest).

Lemma hexDigit_value n : 0 <= n < 16 -> hexValue (hexDigit n) = Some n.
Proof.
  apply (each_below (fun n => hexValue (hexDigit n) = Some n)). repeat constructor.
Qed.

Lemma hex4_unicode r s : 0 <= r < 65536 ->
  exists t, unicode r = String backslash (String "u"%char t) /\ hex4 (t +:+ s) = Some (r, s).
Proof.
  intros Hr. eexists. split; [done|]. rewrite !append_cons. cbn [hex4].
  rewrite !hexDigit_value by (apply Z.mod_pos_bound; lia). simpl. do 2 f_equal.
  Z.to_euclidean_division_equations; lia.
Qed.

Lemma unicode_read k r text rest s : 0 <= r < 65536 -> (55296 <=? r) && (r <? 57344) = false ->
  string_fuel k (text +:+ String quote rest) = Some (s, rest) ->
  string_fuel (S k) ((unicode r +:+ text) +:+ String quote rest) = Some ((encodeRune r +:+ s)%string, rest).
Proof.
  intros Hr Hs Hk. rewrite append_assoc. destruct (hex4_unicode r (text +:+ String quote rest) Hr) as (t & -> & Ht).
  rewrite !append_cons. cbn [string_fuel]. cbv zeta.
  change (byteZ backslash) with 92. cbv iota beta. rewrite Z.eqb_refl.
  change (92 =? 34) with false. cbv iota.
  change (assoc (byteZ "u") unescapes) with (@None ascii). cbv iota. rewrite Ascii.eqb_refl, Ht.
  simpl. unfold surrogates. rewrite Hs. by rewrite Hk.
Qed.

Lemma string_fuel_length n m s : (String.length s <= n)%nat -> (String.length s <= m)%nat ->
  string_fuel n s = string_fuel m s.
Proof.
  revert m s. induction n as [|n IH]; intros m s Hn Hm.
  { destruct s; [by destruct m|simpl in Hn; lia]. }
  destruct s as [|c s]; [by destruct m|]. destruct m as [|m]; [simpl in Hm; lia|].
  cbn [String.length] in *. cbn [string_fuel]. cbv zeta.
  assert (G : forall r, (String.length r <= String.length s)%nat -> string_fuel n r = string_fuel m r)
    by (intros r Hr; apply IH; lia).
  rewrite (G s) by done. pose proof (decodeRune_rest c s) as Hd.
  repeat match goal with
  | |- context [if ?b then _ else _] => destruct b; [try done|]
  end; try done.
  - destruct s as [|e s]; [done|]. cbn [String.length] in G. rewrite (G s) by lia.
    destruct (assoc (byteZ e) unescapes); [done|]. destruct (Ascii.eqb e "u"); [|done].
    destruct (hex4 s) as [[r s3]|] eqn:E; [|done]. simpl.
    assert (H3 : (String.length (surrogates r s3).2 <= String.length s)%nat).
    { assert (H4 : forall t x y, hex4 t = Some (x, y) -> (String.length y <= String.length t)%nat).
      { intros t x y Ht. destruct t as [|a [|b [|c1 [|d t]]]]; [done..|]. cbn [hex4] in Ht.
        repeat match type of Ht with context [hexValue ?q] => destruct (hexValue q); [simpl in Ht|done] end.
        injection Ht as <- <-. simpl. lia. }
      apply H4 in E. unfold surrogates, getu4. destruct (_ && _); [|simpl; lia].
      destruct s3 as [|b [|u s3]]; simpl in *; [lia..|]. destruct (_ && _); [|simpl; lia].
      destruct (hex4 s3) as [[r2 s4]|] eqn:E2; [|simpl; lia]. apply H4 in E2.
      destruct (_ && _); simpl; lia. }
    destruct (surrogates r s3) as [r' s4]. simpl in H3. rewrite (G s4); [done|]. simpl. lia.
  - destruct (decodeRune c s) as [r rest]. simpl in Hd. by rewrite (G rest).
Qed.

Lemma stringLiteral_fuel k s x : string_fuel k s = Some x -> stringLiteral s = Some x.
Proof.
  intros Hk. unfold stringLiteral. set (n := (k + String.length s)%nat).
  rewrite (string_fuel_length _ n) by (unfold n; lia).
  rewrite (string_fuel_enough k n s); [done|unfold n; lia|by rewrite Hk; eexists].
Qed.

Lemma escapes_unescape b l : assoc b escapes = Some l ->
  assoc (byteZ l) unescapes = Some (chr b) /\ byteZ l <> 117.
Proof.
  unfold escapes, assoc. simpl. repeat case_decide; subst; intros [= <-]; by vm_compute.
Qed.

Lemma chr_byteZ c : chr (byteZ c) = c.
Proof. unfold chr, byteZ. by rewrite N2Z.id, Ascii.ascii_N_embedding. Qed.

Lemma htmlSafe_spec b : htmlSafe b = true -> 32 <= b /\ b <> 34 /\ b <> 92.
Proof.
  unfold htmlSafe. rewrite !andb_true_iff, !negb_true_iff, !Z.eqb_neq, Z.leb_le. tauto.
Qed.

Lemma escapeByte_read k c text rest s : byteZ c < 128 ->
  string_fuel k (text +:+ String quote rest) = Some (s, rest) ->
  string_fuel (S k) ((escapeByte (byteZ c) +:+ text) +:+ String quote rest) = Some (String c s, rest).
Proof.
  intros Hc Hk. pose proof (byteZ_range c) as Hr. unfold escapeByte.
  destruct (htmlSafe (byteZ c)) eqn:Es.
  - apply htmlSafe_spec in Es as (H1 & H2 & H3). rewrite chr_byteZ, !append_cons.
    change (EmptyString +:+ ?x)%string with x. cbn [string_fuel]. cbv zeta.
    destruct (Z.eqb_spec (byteZ c) 34); [lia|]. destruct (Z.eqb_spec (byteZ c) 92); [lia|].
    destruct (Z.ltb_spec (byteZ c) 32); [lia|]. destruct (Z.ltb_spec (byteZ c) 128); [|lia].
    by rewrite Hk.
  - destruct (assoc (byteZ c) escapes) as [l|] eqn:El.
    + apply escapes_unescape in El as [El _]. rewrite !append_cons. cbn [string_fuel]. cbv zeta.
      change (byteZ backslash) with 92. change (92 =? 34) with false. cbv iota. rewrite Z.eqb_refl, El.
      change (EmptyString +:+ ?x)%string with x. rewrite Hk, chr_byteZ. done.
    + rewrite (unicode_read k _ text rest s); [|lia| |done].
      2: { destruct (Z.leb_spec 55296 (byteZ c)); [lia|done]. }
      unfold encodeRune. replace (valid_rune (byteZ c)) with true.
      2: { symmetry. apply valid_runes. lia. }
      unfold encodeValid. destruct (Z.ltb_spec (byteZ c) 128); [|lia]. by rewrite chr_byteZ.
Qed.

(** A rune as its bytes. *)
Lemma rune_read k r text rest s : valid_rune r = true -> 128 <= r ->
  string_fuel k (text +:+ String quote rest) = Some (s, rest) ->
  string_fuel (S k) ((encodeValid r +:+ text) +:+ String quote rest) = Some ((encodeRune r +:+ s)%string, rest).
Proof.
  intros Hv Hr Hk. rewrite append_assoc.
  destruct (decodeRune_encodeValid r (text +:+ String quote rest) Hv) as (c0 & s0 & -> & Ed & Hc).
  specialize (Hc Hr). cbn [string_fuel]. cbv zeta. rewrite Ed.
  destruct (Z.eqb_spec (byteZ c0) 34); [lia|]. destruct (Z.eqb_spec (byteZ c0) 92); [lia|].
  destruct (Z.ltb_spec (byteZ c0) 32); [lia|]. destruct (Z.ltb_spec (byteZ c0) 128); [lia|].
  by rewrite Hk.
Qed.

Lemma escapeRune_read k r broken text rest s : valid_rune r = true -> 128 <= r -> (broken = true -> r = RuneError) ->
  string_fuel k (text +:+ String quote rest) = Some (s, rest) ->
  string_fuel (S k) ((escapeRune r broken +:+ text) +:+ String quote rest) = Some ((encodeRune r +:+ s)%string, rest).
Proof.
  intros Hv Hr Hb Hk. unfold escapeRune. destruct broken.
  { rewrite Hb by done. by apply unicode_read. }
  destruct (Z.eqb_spec r 8232) as [->|H1]; [by apply unicode_read|].
  destruct (Z.eqb_spec r 8233) as [->|H2]; [by apply unicode_read|]. by apply rune_read.
Qed.

Lemma escape_read n s rest : (String.length s <= n)%nat ->
  exists k, string_fuel k (escape_fuel n s +:+ String quote rest) = Some (valid s, rest).
Proof.
  revert s. induction n as [|n IH]; intros s Hn.
  { destruct s; [|simpl in Hn; lia]. exists 1%nat. done. }
  destruct s as [|c s]; [by exists 1%nat|]. cbn [String.length] in Hn. cbn [escape_fuel].
  unfold valid. rewrite runes_cons. pose proof (decodeRune_rest c s) as Hd.
  pose proof (decodeRune_valid c s) as Hv. pose proof (decodeRune_high c s) as Hh.
  destruct (Z.ltb_spec (byteZ c) 128) as [Hc|Hc].
  - destruct (IH s ltac:(lia)) as [k Hk]. exists (S k). rewrite (escapeByte_read k c _ rest (valid s)) by done.
    do 2 f_equal. unfold decodeRune, classify. destruct (Z.ltb_spec (byteZ c) 128); [|lia]. cbn [fst snd].
    pose proof (byteZ_range c).
    assert (Hcv : valid_rune (byteZ c) = true) by (apply valid_runes; lia).
    unfold valid, Runes.string_of. cbn [foldr]. unfold encodeRune. rewrite Hcv. unfold encodeValid.
    destruct (Z.ltb_spec (byteZ c) 128); [|lia]. by rewrite chr_byteZ.
  - destruct (decodeRune c s) as [r r1]. cbn [fst snd] in *. destruct (IH r1 ltac:(lia)) as [k Hk].
    exists (S k). apply (escapeRune_read k r _ _ rest (valid r1)); [done|by apply Hh| |done].
    intros [Hr _]%andb_true_iff. by apply Z.eqb_eq.
Qed.

Lemma stringLiteral_escape s rest : stringLiteral (escape s +:+ String quote rest) = Some (valid s, rest).
Proof.
  destruct (escape_read (String.length s) s rest ltac:(done)) as [k Hk]. by eapply stringLiteral_fuel.
Qed.

(** ** Numbers, read back *)

(** What may follow a number: nothing that goes on with it. *)
Definition delim (s : string) : Prop :=
  match s with
  | EmptyString => True
  | String c _ => isDigit c = false /\ Ascii.eqb c "." = false /\ Ascii.eqb c "e" = false /\ Ascii.eqb c "E" = false
  end.

Definition is_number (s : string) : Prop := number s = Some (s, EmptyString).

Lemma spanDigits_app s rest d r : delim rest -> spanDigits s = (d, r) ->
  spanDigits (s +:+ rest) = (d, (r +:+ rest)%string).
Proof.
  intros Hd. revert d r. induction s as [|c s IH]; intros d r.
  - intros [= <- <-]. destruct rest as [|c rest]; [done|]. destruct Hd as [Hc _]. simpl. by rewrite Hc.
  - rewrite append_cons. cbn [spanDigits]. destruct (isDigit c); [|by intros [= <- <-]].
    destruct (spanDigits s) as [d1 r1]. intros [= <- <-]. by rewrite (IH d1 r1).
Qed.

Section Append.
Context (rest : string) (Hrest : delim rest).

(** [f] reads the same with [rest] behind. *)
Definition appends (f : string -> option (string * string)) : Prop :=
  forall s d r, f s = Some (d, r) -> f (s +:+ rest) = Some (d, (r +:+ rest)%string).

Lemma digits1_appends : appends digits1.
Proof.
  intros s d r. unfold digits1. destruct (spanDigits s) as [d1 r1] eqn:E.
  rewrite (spanDigits_app s rest d1 r1) by done. destruct d1; [done|]. by intros [= <- <-].
Qed.

Lemma intPart_appends : appends intPart.
Proof.
  intros s d r. destruct s as [|c s]; [done|]. rewrite append_cons. cbn [intPart].
  destruct (Ascii.eqb c "0"); [by intros [= <- <-]|]. rewrite <- append_cons. apply digits1_appends.
Qed.

Lemma fracPart_appends : appends fracPart.
Proof.
  intros s d r. destruct s as [|c s].
  - intros [= <- <-]. destruct rest as [|c rest']; [done|]. destruct Hrest as (_ & Hc & _).
    change (EmptyString +:+ ?x)%string with x. cbn [fracPart]. by rewrite Hc.
  - rewrite append_cons. cbn [fracPart]. destruct (Ascii.eqb c "."); [|by intros [= <- <-]].
    destruct (digits1 s) as [[d1 r1]|] eqn:E; [|done]. apply digits1_appends in E. rewrite E.
    by intros [= <- <-].
Qed.

Lemma expPart_appends : appends expPart.
Proof.
  intros s d r. destruct s as [|c s].
  - intros [= <- <-]. destruct rest as [|c rest']; [done|]. destruct Hrest as (_ & _ & H1 & H2).
    change (EmptyString +:+ ?x)%string with x. cbn [expPart]. by rewrite H1, H2.
  - rewrite append_cons. cbn [expPart]. destruct (_ || _); [|by intros [= <- <-]].
    destruct s as [|g s]; [done|]. rewrite append_cons. destruct (_ || _).
    + destruct (digits1 s) as [[d1 r1]|] eqn:E; [|done]. apply digits1_appends in E. rewrite E.
      by intros [= <- <-].
    + destruct (digits1 (String g s)) as [[d1 r1]|] eqn:E; [|done]. apply digits1_appends in E.
      rewrite append_cons in E. rewrite E. by intros [= <- <-].
Qed.

Lemma number_appends : appends number.
Proof.
  intros s d r. unfold number.
  assert (G : forall sign t, ('(i, s2) ← intPart t; '(f, s3) ← fracPart s2; '(e, s4) ← expPart s3;
      Some ((sign +:+ i +:+ f +:+ e)%string, s4)) = Some (d, r) ->
    ('(i, s2) ← intPart (t +:+ rest); '(f, s3) ← fracPart s2; '(e, s4) ← expPart s3;
      Some ((sign +:+ i +:+ f +:+ e)%string, s4)) = Some (d, (r +:+ rest)%string)).
  { intros sign t. destruct (intPart t) as [[i s2]|] eqn:E1; [|done]. rewrite (intPart_appends _ _ _ E1). simpl.
    destruct (fracPart s2) as [[f s3]|] eqn:E2; [|done]. rewrite (fracPart_appends _ _ _ E2). simpl.
    destruct (expPart s3) as [[e s4]|] eqn:E3; [|done]. rewrite (expPart_appends _ _ _ E3). simpl.
    by intros [= <- <-]. }
  destruct s as [|c s]; [done|]. rewrite append_cons. destruct (Ascii.eqb c "-"); [apply G|].
  rewrite <- append_cons. apply G.
Qed.
End Append.

Lemma number_read lit rest : is_number lit -> delim rest -> number (lit +:+ rest) = Some (lit, rest).
Proof. intros Hl Hr. by apply (number_appends rest Hr) in Hl. Qed.

(** A number begins with a digit or a sign. *)
Lemma number_head lit : is_number lit -> exists c s, lit = String c s /\ (isDigit c = true \/ c = "-"%char).
Proof.
  unfold is_number, number. destruct lit as [|c s]; [done|]. intros H. exists c, s. split; [done|].
  destruct (Ascii.eqb_spec c "-") as [->|Hc]; [by right|]. left. cbn [intPart] in H.
  destruct (Ascii.eqb_spec c "0") as [->|H0]; [done|]. unfold digits1 in H. cbn [spanDigits] in H.
  by destruct (isDigit c).
Qed.

(** Integers as [strconv] writes them are numbers. *)
Lemma spanDigits_go n s : spanDigits s = (s, EmptyString) ->
  spanDigits (pretty_N_go n s) = (pretty_N_go n s, EmptyString).
Proof.
  revert s. induction (N.lt_wf_0 n) as [n _ IH]. intros s Hs.
  destruct (decide (0 < n)%N) as [Hn|Hn]; [|by replace n with 0%N by lia].
  rewrite pretty_N_go_step by done. apply IH; [by apply N.div_lt|]. cbn [spanDigits].
  replace (isDigit (pretty_N_char (n mod 10))) with true; [by rewrite Hs|].
  unfold isDigit. rewrite digitOf_char by by apply N.mod_lt. done.
Qed.

(** The leading digit is not 0. *)
Lemma pretty_N_go_lead n s : (0 < n)%N -> exists c t, pretty_N_go n s = String c t /\ Ascii.eqb c "0" = false.
Proof.
  revert s. induction (N.lt_wf_0 n) as [n _ IH]. intros s Hn. rewrite pretty_N_go_step by done.
  destruct (N.eq_0_gt_0_cases (n / 10)) as [Hq|Hq]; [|by apply IH; [apply N.div_lt|]].
  rewrite Hq, pretty_N_go_0. do 2 eexists. split; [done|].
  assert (Hm : (n mod 10 = n)%N) by (apply N.mod_small; pose proof (N.div_small_iff n 10 ltac:(done)); tauto).
  pose proof (N.mod_lt n 10 ltac:(done)) as Hlt. rewrite Hm in *. revert Hn.
  apply (each_below_N (fun n => (0 < n)%N -> Ascii.eqb (pretty_N_char n) "0" = false) 10); [|done]. by repeat constructor.
Qed.

Lemma intPart_pretty z : 0 <= z -> intPart (pretty z) = Some (pretty z, EmptyString).
Proof.
  intros Hz. rewrite pretty_nonneg by done. unfold pretty, pretty_N. case_decide; [done|].
  pose proof (spanDigits_go (Z.to_N z) EmptyString eq_refl) as E.
  destruct (pretty_N_go_lead (Z.to_N z) EmptyString) as (c & t & Et & Hc); [lia|]. rewrite Et in *.
  cbn [intPart]. rewrite Hc. unfold digits1. by rewrite E.
Qed.

Lemma is_number_pretty (z : Z) : is_number (pretty z).
Proof.
  unfold is_number, number. destruct (Z.ltb_spec z 0) as [Hz|Hz].
  - rewrite pretty_neg by done. cbv iota beta. rewrite Ascii.eqb_refl, intPart_pretty by lia. simpl.
    by rewrite append_nil.
  - destruct (pretty_head z Hz) as (c & t & Et & Hc). pose proof (intPart_pretty z Hz) as E. rewrite Et in *.
    destruct (digit_unsigned c Hc) as [Hm _]. rewrite Hm, E. simpl. by rewrite append_nil.
Qed.

(** ** Values, read back *)

Fixpoint depth (j : json) : Z :=
  match j with
  | JArr l => 1 + foldr Z.max 0 (map depth l)
  | JObj l => 1 + foldr Z.max 0 (map (fun kv => depth kv.2) l)
  | _ => 0
  end.

(** Numbers are numbers. *)
Fixpoint well_formed (j : json) : Prop :=
  match j with
  | JNum lit => is_number lit
  | JArr l => foldr and True (map well_formed l)
  | JObj l => foldr and True (map (fun kv => well_formed kv.2) l)
  | _ => True
  end.

(** What is read of a value that was written: strings become valid UTF-8. *)
Fixpoint validated (j : json) : json :=
  match j with
  | JStr s => JStr (valid s)
  | JArr l => JArr (map validated l)
  | JObj l => JObj (map (fun kv => (valid kv.1, validated kv.2)) l)
  | _ => j
  end.

Lemma foldr_and {A} (P : A -> Prop) l : foldr and True (map P l) <-> Forall P l.
Proof. induction l as [|x l IH]; simpl; [done|]. by rewrite Forall_cons, IH. Qed.

Lemma foldr_max {A} (f : A -> Z) l b : 0 <= b -> foldr Z.max 0 (map f l) <= b <-> Forall (fun x => f x <= b) l.
Proof.
  intros Hb. induction l as [|x l IH]; simpl; [done|]. rewrite Forall_cons, <- IH. lia.
Qed.

Fixpoint blank (s : string) : bool :=
  match s with EmptyString => true | String c s' => isSpace c && blank s' end.

Lemma skip_blank b s : blank b = true -> skip (b +:+ s) = skip s.
Proof.
  induction b as [|c b IH]; [done|]. rewrite append_cons. cbn [blank skip].
  intros [-> Hb]%andb_true_iff. by apply IH.
Qed.

Lemma break_blank ind : blank (break ind) = true.
Proof. destruct ind as [d|]; [|done]. unfold break. simpl. by induction d as [|d IH]. Qed.

(** The first character of a value, and what it is not. *)
Definition opens (s : string) : Prop :=
  match s with
  | EmptyString => False
  | String c _ => isSpace c = false /\ Ascii.eqb c "]" = false /\ Ascii.eqb c "}" = false
  end.

Lemma skip_opens s : opens s -> skip s = s.
Proof. destruct s as [|c s]; [done|]. intros [Hc _]. cbn [skip]. by rewrite Hc. Qed.

Lemma opens_app s t : opens s -> opens (s +:+ t).
Proof. by destruct s. Qed.

Lemma head_chars c : isDigit c = true \/ c = "-"%char ->
  isSpace c = false /\ Ascii.eqb c "]" = false /\ Ascii.eqb c "}" = false /\ Ascii.eqb c "[" = false /\
  Ascii.eqb c "{" = false /\ Ascii.eqb c quote = false /\ Ascii.eqb c "n" = false /\ Ascii.eqb c "t" = false /\
  Ascii.eqb c "f" = false.
Proof.
  destruct c as [b0 b1 b2 b3 b4 b5 b6 b7].
  destruct b0, b1, b2, b3, b4, b5, b6, b7; intros [H|H]; by try done; vm_compute in H.
Qed.

Lemma write_opens ind j : well_formed j -> opens (write ind j).
Proof.
  destruct j as [|b|lit|s|l|l]; simpl; try done.
  - by destruct b.
  - intros (c & s & -> & Hc)%number_head. simpl. by destruct (head_chars c Hc) as (? & ? & ? & _).
  - by destruct l.
  - by destruct l.
Qed.

Lemma sequence_read {A B} (close : ascii) (item : string -> option (B * string)) (f : A -> string) (g : A -> B)
    sp cl x l rest n :
  blank sp = true -> blank cl = true -> Ascii.eqb close "," = false -> isSpace close = false ->
  delim (cl +:+ String close rest) -> (length l < n)%nat ->
  Forall (fun y => forall b r, blank b = true -> delim r -> item (b +:+ f y +:+ r) = Some (g y, r)) (x :: l) ->
  sequence close item n (sp +:+ items sp f (x :: l) +:+ cl +:+ String close rest) = Some (map g (x :: l), rest).
Proof.
  intros Hsp Hcl Hc Hs Hd. revert x n. induction l as [|y l IH]; intros x n Hn [Hx Hl]%Forall_cons;
    (destruct n as [|n]; [simpl in Hn; lia|]); cbn [sequence items map].
  - rewrite (Hx sp) by done. simpl. rewrite skip_blank by done. cbn [skip]. by rewrite Hs, Hc, Ascii.eqb_refl.
  - change (items sp f (y :: l)) with (items sp f (y :: l)). rewrite !append_assoc.
    rewrite (Hx sp) by done. simpl. change (EmptyString +:+ ?x)%string with x.
    specialize (IH y n ltac:(simpl in Hn; lia) Hl). cbn [items] in IH. fold (@items A sp f) in IH |- *.
    rewrite IH. done.
Qed.

Lemma value_blank n d b s : blank b = true -> value n d (b +:+ s) = value n d s.
Proof. intros Hb. destruct n; [done|]. cbn [value]. by rewrite skip_blank. Qed.

Lemma space_delim c : isSpace c = true ->
  isDigit c = false /\ Ascii.eqb c "." = false /\ Ascii.eqb c "e" = false /\ Ascii.eqb c "E" = false.
Proof.
  destruct c as [b0 b1 b2 b3 b4 b5 b6 b7].
  destruct b0, b1, b2, b3, b4, b5, b6, b7; intros H; by try done; vm_compute in H.
Qed.

Lemma delim_blank b s : blank b = true -> delim s -> delim (b +:+ s).
Proof.
  destruct b as [|c b]; [done|]. cbn [blank]. intros [Hc _]%andb_true_iff _. by apply space_delim.
Qed.

Lemma items_length {A} sp (f : A -> string) l : (length l <= S (String.length (items sp f l)))%nat.
Proof.
  induction l as [|x l IH]; [simpl; lia|]. destruct l as [|y l]; [simpl; lia|].
  change (items sp f (x :: y :: l)) with (f x +:+ "," +:+ sp +:+ items sp f (y :: l))%string.
  rewrite !length_append. cbn [length String.length] in *. lia.
Qed.

Lemma items_item {A} sp (f : A -> string) l x : x ∈ l -> (String.length (f x) <= String.length (items sp f l))%nat.
Proof.
  induction l as [|y l IH]; intros Hx; [by apply elem_of_nil in Hx|].
  destruct l as [|z l].
  - apply list_elem_of_singleton in Hx as ->. simpl. lia.
  - change (items sp f (y :: z :: l)) with (f y +:+ "," +:+ sp +:+ items sp f (z :: l))%string.
    rewrite !length_append. apply elem_of_cons in Hx as [->|Hx]; [lia|].
    apply IH in Hx. lia.
Qed.

Lemma member_read val k v w ind b r : blank b = true ->
  (forall b, blank b = true -> val (b +:+ w +:+ r) = Some (v, r)) ->
  member val (b +:+ (quoted k +:+ colon ind +:+ w) +:+ r) = Some ((valid k, v), r).
Proof.
  intros Hb Hv. unfold member. rewrite skip_blank by done. unfold quoted.
  rewrite !append_assoc, append_cons. cbn [skip]. change (isSpace quote) with false. cbv iota.
  rewrite Ascii.eqb_refl, append_assoc. rewrite (append_cons quote EmptyString).
  change (EmptyString +:+ ?x)%string with x. rewrite stringLiteral_escape. simpl.
  destruct ind as [d|]; unfold colon.
  - rewrite (append_cons ":" " "). cbn [skip]. change (isSpace ":") with false. cbv iota.
    rewrite Ascii.eqb_refl. rewrite (append_cons " " EmptyString).
    pose proof (Hv " "%string eq_refl) as E. rewrite (append_cons " " EmptyString) in E. by rewrite E.
  - rewrite (append_cons ":" EmptyString). cbn [skip]. change (isSpace ":") with false. cbv iota.
    rewrite Ascii.eqb_refl. rewrite (Hv EmptyString eq_refl). done.
Qed.

(** A value that is written, read by [value] with fuel [n], up to what is no UTF-8 in its
    strings; what follows is left. *)
Definition read_back (j : json) : Prop := forall ind n d rest, well_formed j -> depth j <= d ->
  (String.length (write ind j) < n)%nat -> delim rest ->
  value n d (write ind j +:+ rest) = Some (validated j, rest).

Lemma depth_items {A} (f : A -> Z) l d : 1 + foldr Z.max 0 (map f l) <= d ->
  0 < d /\ Forall (fun x => f x <= d - 1) l.
Proof.
  intros Hf. assert (H : 0 <= foldr Z.max 0 (map f l)) by (clear; induction l; simpl; lia).
  split; [lia|]. apply foldr_max; lia.
Qed.

(** Between the brackets, behind the first line break. *)
Lemma bracketed {A B} (close : ascii) (item : string -> option (B * string)) (f : A -> string) (g : A -> B)
    ind x l rest n :
  Ascii.eqb close "," = false -> isSpace close = false -> delim (String close rest) -> (length l < n)%nat ->
  opens (f x) ->
  Forall (fun y => forall b r, blank b = true -> delim r -> item (b +:+ f y +:+ r) = Some (g y, r)) (x :: l) ->
  let op := break (S <$> ind) in
  let t := (op +:+ items op f (x :: l) +:+ break ind +:+ String close rest)%string in
  opens (skip t) /\ sequence close item n t = Some (map g (x :: l), rest).
Proof.
  intros H1 H2 H3 Hn Ho Hall op t. split.
  - unfold t. rewrite skip_blank by apply break_blank. rewrite skip_opens; destruct l; by repeat apply opens_app.
  - apply sequence_read; try done; try apply break_blank. apply delim_blank; [apply break_blank|done].
Qed.

Lemma read_back_array l : Forall read_back l -> read_back (JArr l).
Proof.
  intros IH ind n d rest Hw Hd Hn Hr. destruct n as [|n]; [lia|]. cbn [well_formed depth validated] in *.
  rewrite foldr_and in Hw. apply depth_items in Hd as [H0 Hd].
  destruct l as [|x l]; [cbn; destruct (Z.leb_spec d 0); [lia|done]|].
  set (op := break (S <$> ind)). set (f := write (S <$> ind)).
  assert (E : write ind (JArr (x :: l)) = ("[" +:+ op +:+ items op f (x :: l) +:+ break ind +:+ "]")%string) by done.
  rewrite E in Hn |- *. clear E. rewrite !length_append in Hn. cbn [String.length] in Hn.
  pose proof (items_length op f (x :: l)) as Hlen. cbn [length] in Hlen.
  rewrite Forall_forall in IH, Hw, Hd.
  destruct (bracketed "]" (value n (d - 1)) f validated ind x l rest n) as [Ho Es]; try done; [lia| | |].
  { apply write_opens, Hw. by left. }
  { apply Forall_forall. intros y Hy b r Hb Hdr. rewrite value_blank by done. apply IH; auto.
    pose proof (items_item op f (x :: l) y Hy). unfold f in *. lia. }
  cbv zeta in *. rewrite !append_assoc, append_cons. change (EmptyString +:+ ?x)%string with x.
  cbn [value skip]. change (isSpace "[") with false. cbv iota. rewrite Ascii.eqb_refl.
  destruct (Z.leb_spec d 0); [lia|]. rewrite append_cons. change (EmptyString +:+ ?x)%string with x.
  fold op f in Ho, Es. destruct (skip _) as [|e t]; [done|]. destruct Ho as (_ & He & _). rewrite He.
  by rewrite Es.
Qed.

Lemma read_back_object l : Forall (fun kv => read_back kv.2) l -> read_back (JObj l).
Proof.
  intros IH ind n d rest Hw Hd Hn Hr. destruct n as [|n]; [lia|]. cbn [well_formed depth validated] in *.
  rewrite foldr_and in Hw. apply depth_items in Hd as [H0 Hd].
  destruct l as [|x l]; [cbn; destruct (Z.leb_spec d 0); [lia|done]|].
  set (op := break (S <$> ind)). set (f := fun kv => (quoted kv.1 +:+ colon ind +:+ write (S <$> ind) kv.2)%string).
  assert (E : write ind (JObj (x :: l)) = ("{" +:+ op +:+ items op f (x :: l) +:+ break ind +:+ "}")%string) by done.
  rewrite E in Hn |- *. clear E. rewrite !length_append in Hn. cbn [String.length] in Hn.
  pose proof (items_length op f (x :: l)) as Hlen. cbn [length] in Hlen.
  rewrite Forall_forall in IH, Hw, Hd.
  destruct (bracketed "}" (member (value n (d - 1))) f (fun kv => (valid kv.1, validated kv.2)) ind x l rest n)
    as [Ho Es]; try done; [lia| |].
  { apply Forall_forall. intros y Hy b r Hb Hdr. apply member_read; [done|].
    intros b' Hb'. rewrite value_blank by done. apply IH; auto.
    pose proof (items_item op f (x :: l) y Hy) as Hi.
    assert (Hy' : (String.length (write (S <$> ind) y.2) <= String.length (f y))%nat)
      by (unfold f; rewrite !length_append; lia). lia. }
  cbv zeta in *. rewrite !append_assoc, append_cons. change (EmptyString +:+ ?x)%string with x.
  cbn [value skip]. change (isSpace "{") with false. cbv iota.
  change (Ascii.eqb "{" "[") with false. cbv iota. rewrite Ascii.eqb_refl.
  destruct (Z.leb_spec d 0); [lia|]. rewrite append_cons. change (EmptyString +:+ ?x)%string with x.
  fold op f in Ho, Es. destruct (skip _) as [|e t]; [done|]. destruct Ho as (_ & _ & He). rewrite He.
  by rewrite Es.
Qed.

Lemma read_back_all j : read_back j.
Proof.
  revert j. apply json_ind'; [apply read_back_array|apply read_back_object|].
  intros j. destruct j as [|b|lit|s|l|l]; try done; intros ind n d rest Hw _ Hn Hr;
    (destruct n as [|n]; [lia|]).
  - done.
  - by destruct b.
  - cbn [write validated]. destruct (number_head lit Hw) as (c & s & Es & Hc).
    pose proof (number_read lit rest Hw Hr) as E. rewrite Es in *. rewrite append_cons in *.
    destruct (head_chars c Hc) as (H1 & _ & _ & H2 & H3 & H4 & H5 & H6 & H7). cbn [value skip].
    by rewrite H1, H2, H3, H4, H5, H6, H7, E.
  - cbn [write validated]. unfold quoted. rewrite append_cons, append_assoc, append_cons.
    change (EmptyString +:+ ?x)%string with x. cbn [value skip]. change (isSpace quote) with false. cbv iota.
    change (Ascii.eqb quote "[") with false. change (Ascii.eqb quote "{") with false. cbv iota.
    by rewrite Ascii.eqb_refl, stringLiteral_escape.
Qed.

Lemma Parse_write ind j : well_formed j -> depth j <= maxNestingDepth -> Parse (write ind j) = Some (validated j).
Proof.
  intros Hw Hd. unfold Parse. pose proof (read_back_all j ind (S (String.length (write ind j)))
    maxNestingDepth EmptyString Hw Hd ltac:(lia) I) as E. rewrite append_nil in E. by rewrite E.
Qed.

(** [json.Decoder] stops behind the value. *)
Lemma Decode_write ind j rest : well_formed j -> depth j <= maxNestingDepth -> delim rest ->
  Decode (write ind j +:+ rest) = Some (validated j).
Proof.
  intros Hw Hd Hr. unfold Decode. rewrite (read_back_all j ind _ maxNestingDepth rest Hw Hd); [done| |done].
  rewrite length_append. lia.
Qed.

(** What [Marshal] or [MarshalIndent] wrote of a value that is nested at most 10000 deep is
    parsed as that value: objects with their members in order, numbers as they stand,
    strings with all their characters, where bytes that are no UTF-8 have become U+FFFD. *)
Theorem parse_marshal ind j : well_formed j -> depth j <= maxNestingDepth ->
  Parse (write ind j) = Some (validated j).
Proof. apply Parse_write. Qed.

Definition sampleJson : json :=
  JObj [("key", JArr [JNum "-12.5e+3"; JStr (String (chr 255) "\<"); JBool true]); ("", JObj [])]%string.

Lemma parse_marshal_witness : Parse (MarshalIndent sampleJson) =
  Some (JObj [("key", JArr [JNum "-12.5e+3"; JStr (encodeRune RuneError +:+ "\<"); JBool true]); ("", JObj [])])%string.
Proof.
  apply (parse_marshal (Some 0%nat) sampleJson); [|by vm_compute].
  cbn. split_and!; [by vm_compute|done..].
Defined.
