(* ===== verification/Loading.v ===== *)
(** * The text of a configuration

    [config/config.go]: how a [Config] is written as JSON, where passwords are masked, and
    read, and [Load], which reads a file, expands environment variables, or runs Jsonnet,
    and validates what it has read. A Go type is a [codec]: how [encoding/json] writes
    its values and how it decodes a value into one that is there. An error of the decoder is
    [None]; its text is an argument of [Load]. *)

From Stdlib Require Import Strings.Ascii.
From stdpp Require Import pretty sorting.
From S2P Require Import Prelude Bytes Fields Decimals Times Numbers Durations Config Sse Runes Json.

Open Scope Z_scope.

(** ** Go types *)

Record codec (A : Type) : Type := {
  enc : A -> json;
  dec : json -> A -> option A;
  zero : A
}.
Arguments enc {A} _ _.
Arguments dec {A} _ _ _.
Arguments zero {A} _.

Definition boolC : codec bool := {|
  enc := JBool; zero := false;
  dec := fun j b => match j with JNull => Some b | JBool b => Some b | _ => None end |}.

Definition stringC : codec string := {|
  enc := JStr; zero := EmptyString;
  dec := fun j s => match j with JNull => Some s | JStr s => Some s | _ => None end |}.

Definition intC : codec Z := {|
  enc := fun z => JNum (pretty z); zero := 0;
  dec := fun j z => match j with JNull => Some z | JNum lit => ParseInt lit | _ => None end |}.

Definition okOf {E A} (r : result E A) : option A := match r with Ok a => Some a | Err _ => None end.

(** [Duration.MarshalJSON] and [UnmarshalJSON], which [null] leaves with an empty string. *)
Definition durationC : codec Duration := {|
  enc := fun d => JStr (Duration_String d); zero := 0;
  dec := fun j _ => s ← dec stringC j EmptyString; okOf (ParseDuration s) |}.

(** [Password.MarshalJSON] and [UnmarshalJSON]. *)
Definition mask (p : string) : string := if String.eqb p EmptyString then EmptyString else "********".

Definition passwordC : codec string := {|
  enc := fun p => JStr (mask p); zero := EmptyString;
  dec := fun j _ => dec stringC j EmptyString |}.

(** [*T]. *)
Definition ptrC {A} (c : codec A) : codec (option A) := {|
  enc := fun o => match o with None => JNull | Some a => enc c a end; zero := None;
  dec := fun j o => match j with JNull => Some None | _ => Some <$> dec c j (default (zero c) o) end |}.

(** [[]T]: elements that are there are decoded into. A slice is a list, which does not
    tell an empty one from a nil one, written as [null], and has nothing beyond its length. *)
Fixpoint decList {A} (c : codec A) (js : list json) (old : list A) : option (list A) :=
  match js with
  | [] => Some []
  | j :: js' => a ← dec c j (hd (zero c) old); l ← decList c js' (tl old); Some (a :: l)
  end.

Definition sliceC {A} (c : codec A) : codec (list A) := {|
  enc := fun l => JArr (map (enc c) l); zero := [];
  dec := fun j old => match j with JNull => Some [] | JArr js => decList c js old | _ => None end |}.

(** [map[string]T]: written by key, read into the map that is there. *)
Fixpoint mapSet {A} (key : string) (v : A) (t : list (string * A)) : list (string * A) :=
  match t with
  | [] => [(key, v)]
  | (k, x) :: t' => if String.eqb k key then (key, v) :: t' else (k, x) :: mapSet key v t'
  end.

Definition keyLe {A} (x y : string * A) : Prop := String.leb x.1 y.1 = true.
#[export] Instance keyLe_dec {A} : RelDecision (@keyLe A).
Proof. intros x y. unfold keyLe. apply _. Defined.

Definition byKey {A} (t : list (string * A)) : list (string * A) := merge_sort keyLe t.

Fixpoint decMap {A} (c : codec A) (ms : list (string * json)) (t : list (string * A)) : option (list (string * A)) :=
  match ms with
  | [] => Some t
  | (k, j) :: ms' => v ← dec c j (zero c); decMap c ms' (mapSet k v t)
  end.

Definition mapC {A} (c : codec A) : codec (option (list (string * A))) := {|
  enc := fun t => match t with
    | None => JNull
    | Some t => JObj (map (fun kv => (kv.1, enc c kv.2)) (byKey t))
    end;
  zero := None;
  dec := fun j t => match j with
    | JNull => Some None
    | JObj ms => Some <$> decMap c ms (default [] t)
    | _ => None
    end |}.

(** ** Structs *)

(** A field of [R] with its tag; [omit] is [omitempty]. *)
Record fieldOf (R A : Type) : Type := {
  f_name : string;
  f_omit : A -> bool;
  f_codec : codec A;
  f_get : R -> A;
  f_set : A -> R -> R
}.
Arguments f_name {R A} _.
Arguments f_omit {R A} _ _.
Arguments f_codec {R A} _.
Arguments f_get {R A} _ _.
Arguments f_set {R A} _ _ _.

Definition memberOf {R A} (f : fieldOf R A) (r : R) : list (string * json) :=
  if f_omit f (f_get f r) then [] else [(f_name f, enc (f_codec f) (f_get f r))].

Definition decoder (R : Type) : Type := string * (json -> R -> option R).

Definition decoderOf {R A} (f : fieldOf R A) : decoder R :=
  (f_name f, fun j r => a ← dec (f_codec f) j (f_get f r); Some (f_set f a r)).

(** [foldName], for names of ASCII letters: the runes of other characters are only equal
    to these when they are the long s or the Kelvin sign. *)
Definition foldRune (r : Z) : Z :=
  if (97 <=? r) && (r <=? 122) then r - 32
  else if r =? 383 then 83
  else if r =? 8490 then 75
  else r.
Definition foldName (s : string) : list Z := map foldRune (runes s).

(** The field of a key: that of this name, or the first but for the case of letters. *)
Definition fieldFor {R} (fs : list (decoder R)) (key : string) : option (decoder R) :=
  match List.find (fun f => String.eqb f.1 key) fs with
  | Some f => Some f
  | None => List.find (fun f => bool_decide (foldName f.1 = foldName key)) fs
  end.

Fixpoint decMembers {R} (fs : list (decoder R)) (ms : list (string * json)) (r : R) : option R :=
  match ms with
  | [] => Some r
  | (k, j) :: ms' =>
      match fieldFor fs k with
      | Some f => r' ← f.2 j r; decMembers fs ms' r'
      | None => decMembers fs ms' r
      end
  end.

Definition structC {R} (members : list (R -> list (string * json))) (fs : list (decoder R)) (zero : R) : codec R := {|
  enc := fun r => JObj (concat (map (fun f => f r) members)); zero := zero;
  dec := fun j r => match j with
    | JNull => Some r
    | JObj ms => decMembers fs ms r
    | _ => None
    end |}.

Definition never {A} (_ : A) : bool := false.
Definition isZ0 (z : Z) : bool := z =? 0.
Definition isEmpty (s : string) : bool := String.eqb s EmptyString.
Definition isNil {A} (o : option A) : bool := match o with None => true | Some _ => false end.
Definition noItems {A} (l : list A) : bool := match l with [] => true | _ => false end.
Definition noEntries {A} (o : option (list A)) : bool := match o with Some (_ :: _) => false | _ => true end.

(** ** The values of queue arguments *)

(** [strconv.FormatFloat] as the encoder calls it and [ParseFloat], on the bits of a
    [float64]. *)
Class Floats : Type := {
  FormatFloat : Z -> string;
  ParseFloat : string -> option Z
}.

Section Values.
Context `{Floats} (OtherJson : field -> json).

(** [OtherJson]: the types that no decoder of JSON makes. *)
Fixpoint anyJson (v : field) : json :=
  match v with
  | VNil => JNull
  | VBool b => JBool b
  | VFloat64 bits => JNum (FormatFloat bits)
  | VString s => JStr s
  | VArray l => JArr (map anyJson l)
  | _ => OtherJson v
  end.

(** [interface{}]: an object becomes a [map[string]any], which is no [Table]. *)
Fixpoint anyValue (j : json) : option field :=
  match j with
  | JNull => Some VNil
  | JBool b => Some (VBool b)
  | JNum lit => VFloat64 <$> ParseFloat lit
  | JStr s => Some (VString s)
  | JArr l => VArray <$> (fix go l := match l with
      | [] => Some []
      | x :: l' => v ← anyValue x; vs ← go l'; Some (v :: vs)
      end) l
  | JObj l => (fix go l := match l with
      | [] => Some (VOther "map[string]interface {}")
      | (_, x) :: l' => _ ← anyValue x; go l'
      end) l
  end.

Definition anyC : codec field := {| enc := anyJson; zero := VNil; dec := fun j _ => anyValue j |}.
End Values.

(** ** The configuration *)

(** [GracefulShutdown]. *)
Definition gs_shutdown_timeout : fieldOf GracefulShutdown Duration := {|
  f_name := "shutdown_timeout"; f_omit := isZ0; f_codec := durationC; f_get := ShutdownTimeout;
  f_set := fun v '(Build_GracefulShutdown _ b c d) => Build_GracefulShutdown v b c d |}.
Definition gs_reload_timeout : fieldOf GracefulShutdown Duration := {|
  f_name := "reload_timeout"; f_omit := isZ0; f_codec := durationC; f_get := ReloadTimeout;
  f_set := fun v '(Build_GracefulShutdown a _ c d) => Build_GracefulShutdown a v c d |}.
Definition gs_rate_limit : fieldOf GracefulShutdown Z := {|
  f_name := "rate_limit"; f_omit := isZ0; f_codec := intC; f_get := RateLimit;
  f_set := fun v '(Build_GracefulShutdown a b _ d) => Build_GracefulShutdown a b v d |}.
Definition gs_burst_size : fieldOf GracefulShutdown Z := {|
  f_name := "burst_size"; f_omit := isZ0; f_codec := intC; f_get := BurstSize;
  f_set := fun v '(Build_GracefulShutdown a b c _) => Build_GracefulShutdown a b c v |}.
Definition gracefulShutdownC : codec GracefulShutdown := structC
  [memberOf gs_shutdown_timeout; memberOf gs_reload_timeout; memberOf gs_rate_limit; memberOf gs_burst_size]
  [decoderOf gs_shutdown_timeout; decoderOf gs_reload_timeout; decoderOf gs_rate_limit; decoderOf gs_burst_size]
  (Build_GracefulShutdown 0 0 0 0).

(** [Metrics]. *)
Definition mc_attributes : fieldOf MetricsConfig (option (list (string * string))) := {|
  f_name := "attributes"; f_omit := noEntries; f_codec := (mapC stringC); f_get := MetricsConfig_Attributes;
  f_set := fun v '(Build_MetricsConfig _) => Build_MetricsConfig v |}.
Definition metricsC : codec MetricsConfig := structC
  [memberOf mc_attributes]
  [decoderOf mc_attributes]
  (Build_MetricsConfig None).

(** [Cluster]. *)
Definition cl_nodes : fieldOf Cluster (list string) := {|
  f_name := "nodes"; f_omit := never; f_codec := (sliceC stringC); f_get := Cluster_Nodes;
  f_set := fun v '(Build_Cluster _) => Build_Cluster v |}.
Definition clusterC : codec Cluster := structC
  [memberOf cl_nodes]
  [decoderOf cl_nodes]
  (Build_Cluster []).

(** [HealthCheck]. *)
Definition hc_interval : fieldOf HealthCheck Duration := {|
  f_name := "interval"; f_omit := isZ0; f_codec := durationC; f_get := HealthCheck_Interval;
  f_set := fun v '(Build_HealthCheck _ b c d e f) => Build_HealthCheck v b c d e f |}.
Definition hc_timeout : fieldOf HealthCheck Duration := {|
  f_name := "timeout"; f_omit := isZ0; f_codec := durationC; f_get := HealthCheck_Timeout;
  f_set := fun v '(Build_HealthCheck a _ c d e f) => Build_HealthCheck a v c d e f |}.
Definition hc_unhealthy_threshold : fieldOf HealthCheck Z := {|
  f_name := "unhealthy_threshold"; f_omit := isZ0; f_codec := intC; f_get := HealthCheck_UnhealthyThreshold;
  f_set := fun v '(Build_HealthCheck a b _ d e f) => Build_HealthCheck a b v d e f |}.
Definition hc_recovery_interval : fieldOf HealthCheck Duration := {|
  f_name := "recovery_interval"; f_omit := isZ0; f_codec := durationC; f_get := HealthCheck_RecoveryInterval;
  f_set := fun v '(Build_HealthCheck a b c _ e f) => Build_HealthCheck a b c v e f |}.
Definition hc_username : fieldOf HealthCheck string := {|
  f_name := "username"; f_omit := isEmpty; f_codec := stringC; f_get := HealthCheck_Username;
  f_set := fun v '(Build_HealthCheck a b c d _ f) => Build_HealthCheck a b c d v f |}.
Definition hc_password : fieldOf HealthCheck string := {|
  f_name := "password"; f_omit := isEmpty; f_codec := passwordC; f_get := HealthCheck_Password;
  f_set := fun v '(Build_HealthCheck a b c d e _) => Build_HealthCheck a b c d e v |}.
Definition healthCheckC : codec HealthCheck := structC
  [memberOf hc_interval; memberOf hc_timeout; memberOf hc_unhealthy_threshold; memberOf hc_recovery_interval; memberOf hc_username; memberOf hc_password]
  [decoderOf hc_interval; decoderOf hc_timeout; decoderOf hc_unhealthy_threshold; decoderOf hc_recovery_interval; decoderOf hc_username; decoderOf hc_password]
  (Build_HealthCheck 0 0 0 0 EmptyString EmptyString).

(** [Routing]. *)
Definition rt_key_patterns : fieldOf Routing (list string) := {|
  f_name := "key_patterns"; f_omit := noItems; f_codec := (sliceC stringC); f_get := Routing_KeyPatterns;
  f_set := fun v '(Build_Routing _) => Build_Routing v |}.
Definition routingC : codec Routing := structC
  [memberOf rt_key_patterns]
  [decoderOf rt_key_patterns]
  (Build_Routing []).

(** [QueueOptions]. *)
Definition qo_try_passive : fieldOf QueueOptions bool := {|
  f_name := "try_passive"; f_omit := negb; f_codec := boolC; f_get := QueueOptions_TryPassive;
  f_set := fun v '(Build_QueueOptions _ b) => Build_QueueOptions v b |}.
Definition qo_emulate_auto_delete : fieldOf QueueOptions bool := {|
  f_name := "emulate_auto_delete"; f_omit := negb; f_codec := boolC; f_get := QueueOptions_EmulateAutoDelete;
  f_set := fun v '(Build_QueueOptions a _) => Build_QueueOptions a v |}.
Definition queueOptionsC : codec QueueOptions := structC
  [memberOf qo_try_passive; memberOf qo_emulate_auto_delete]
  [decoderOf qo_try_passive; decoderOf qo_emulate_auto_delete]
  (Build_QueueOptions false false).

Section Structs.
Context `{Floats} (OtherJson : field -> json).

(** [QueueAttributes]. *)
Definition qa_durable : fieldOf QueueAttributes (option bool) := {|
  f_name := "durable"; f_omit := isNil; f_codec := (ptrC boolC); f_get := QueueAttributes_Durable;
  f_set := fun v '(Build_QueueAttributes _ b c d) => Build_QueueAttributes v b c d |}.
Definition qa_auto_delete : fieldOf QueueAttributes (option bool) := {|
  f_name := "auto_delete"; f_omit := isNil; f_codec := (ptrC boolC); f_get := QueueAttributes_AutoDelete;
  f_set := fun v '(Build_QueueAttributes a _ c d) => Build_QueueAttributes a v c d |}.
Definition qa_exclusive : fieldOf QueueAttributes (option bool) := {|
  f_name := "exclusive"; f_omit := isNil; f_codec := (ptrC boolC); f_get := QueueAttributes_Exclusive;
  f_set := fun v '(Build_QueueAttributes a b _ d) => Build_QueueAttributes a b v d |}.
Definition qa_arguments : fieldOf QueueAttributes Table := {|
  f_name := "arguments"; f_omit := noEntries; f_codec := (mapC (anyC OtherJson)); f_get := QueueAttributes_Arguments;
  f_set := fun v '(Build_QueueAttributes a b c _) => Build_QueueAttributes a b c v |}.
Definition queueAttributesC : codec QueueAttributes := structC
  [memberOf qa_durable; memberOf qa_auto_delete; memberOf qa_exclusive; memberOf qa_arguments]
  [decoderOf qa_durable; decoderOf qa_auto_delete; decoderOf qa_exclusive; decoderOf qa_arguments]
  (Build_QueueAttributes None None None None).

(** [Upstream]. *)
Definition up_name : fieldOf UpstreamConfig string := {|
  f_name := "name"; f_omit := never; f_codec := stringC; f_get := UpstreamConfig_Name;
  f_set := fun v '(Build_UpstreamConfig _ b c d e f g h) => Build_UpstreamConfig v b c d e f g h |}.
Definition up_address : fieldOf UpstreamConfig string := {|
  f_name := "address"; f_omit := isEmpty; f_codec := stringC; f_get := UpstreamConfig_Address;
  f_set := fun v '(Build_UpstreamConfig a _ c d e f g h) => Build_UpstreamConfig a v c d e f g h |}.
Definition up_cluster : fieldOf UpstreamConfig (option Cluster) := {|
  f_name := "cluster"; f_omit := isNil; f_codec := (ptrC clusterC); f_get := UpstreamConfig_Cluster;
  f_set := fun v '(Build_UpstreamConfig a b _ d e f g h) => Build_UpstreamConfig a b v d e f g h |}.
Definition up_timeout : fieldOf UpstreamConfig Duration := {|
  f_name := "timeout"; f_omit := isZ0; f_codec := durationC; f_get := UpstreamConfig_Timeout;
  f_set := fun v '(Build_UpstreamConfig a b c _ e f g h) => Build_UpstreamConfig a b c v e f g h |}.
Definition up_health_check : fieldOf UpstreamConfig (option HealthCheck) := {|
  f_name := "health_check"; f_omit := isNil; f_codec := (ptrC healthCheckC); f_get := UpstreamConfig_HealthCheck;
  f_set := fun v '(Build_UpstreamConfig a b c d _ f g h) => Build_UpstreamConfig a b c d v f g h |}.
Definition up_routing : fieldOf UpstreamConfig Routing := {|
  f_name := "routing"; f_omit := never; f_codec := routingC; f_get := UpstreamConfig_Routing;
  f_set := fun v '(Build_UpstreamConfig a b c d e _ g h) => Build_UpstreamConfig a b c d e v g h |}.
Definition up_queue_attributes : fieldOf UpstreamConfig (option QueueAttributes) := {|
  f_name := "queue_attributes"; f_omit := isNil; f_codec := (ptrC queueAttributesC); f_get := UpstreamConfig_QueueAttributes;
  f_set := fun v '(Build_UpstreamConfig a b c d e f _ h) => Build_UpstreamConfig a b c d e f v h |}.
Definition up_queue_options : fieldOf UpstreamConfig (option QueueOptions) := {|
  f_name := "queue_options"; f_omit := isNil; f_codec := (ptrC queueOptionsC); f_get := UpstreamConfig_QueueOptions;
  f_set := fun v '(Build_UpstreamConfig a b c d e f g _) => Build_UpstreamConfig a b c d e f g v |}.
Definition upstreamC : codec UpstreamConfig := structC
  [memberOf up_name; memberOf up_address; memberOf up_cluster; memberOf up_timeout; memberOf up_health_check; memberOf up_routing; memberOf up_queue_attributes; memberOf up_queue_options]
  [decoderOf up_name; decoderOf up_address; decoderOf up_cluster; decoderOf up_timeout; decoderOf up_health_check; decoderOf up_routing; decoderOf up_queue_attributes; decoderOf up_queue_options]
  (Build_UpstreamConfig EmptyString EmptyString None 0 None (Build_Routing []) None None).

(** [Config]. *)
Definition cfg_upstreams : fieldOf Config (list UpstreamConfig) := {|
  f_name := "upstreams"; f_omit := never; f_codec := (sliceC upstreamC); f_get := Config_Upstreams;
  f_set := fun v '(Build_Config _ b c d e) => Build_Config v b c d e |}.
Definition cfg_handshake_timeout : fieldOf Config Duration := {|
  f_name := "handshake_timeout"; f_omit := isZ0; f_codec := durationC; f_get := Config_HandshakeTimeout;
  f_set := fun v '(Build_Config a _ c d e) => Build_Config a v c d e |}.
Definition cfg_connection_close_timeout : fieldOf Config Duration := {|
  f_name := "connection_close_timeout"; f_omit := isZ0; f_codec := durationC; f_get := Config_ConnectionCloseTimeout;
  f_set := fun v '(Build_Config a b _ d e) => Build_Config a b v d e |}.
Definition cfg_graceful_shutdown : fieldOf Config GracefulShutdown := {|
  f_name := "graceful_shutdown"; f_omit := never; f_codec := gracefulShutdownC; f_get := Config_GracefulShutdown;
  f_set := fun v '(Build_Config a b c _ e) => Build_Config a b c v e |}.
Definition cfg_metrics : fieldOf Config (option MetricsConfig) := {|
  f_name := "metrics"; f_omit := isNil; f_codec := (ptrC metricsC); f_get := Config_Metrics;
  f_set := fun v '(Build_Config a b c d _) => Build_Config a b c d v |}.
Definition configC : codec Config := structC
  [memberOf cfg_upstreams; memberOf cfg_handshake_timeout; memberOf cfg_connection_close_timeout; memberOf cfg_graceful_shutdown; memberOf cfg_metrics]
  [decoderOf cfg_upstreams; decoderOf cfg_handshake_timeout; decoderOf cfg_connection_close_timeout; decoderOf cfg_graceful_shutdown; decoderOf cfg_metrics]
  (Build_Config [] 0 0 (Build_GracefulShutdown 0 0 0 0) None).
End Structs.

(** ** [os.ExpandEnv] *)

Definition isSpecial (c : ascii) : bool :=
  isDigit c || bool_decide (c ∈ ["*"; "#"; "$"; "@"; "!"; "?"; "-"]%char).

Definition isAlphaNum (c : ascii) : bool :=
  let b := byteZ c in
  isDigit c || (b =? 95) || ((97 <=? b) && (b <=? 122)) || ((65 <=? b) && (b <=? 90)).

Fixpoint spanAlphaNum (s : string) : string :=
  match s with
  | String c s' => if isAlphaNum c then String c (spanAlphaNum s') else EmptyString
  | EmptyString => EmptyString
  end.

(** Up to the closing brace, if there is one. *)
Fixpoint toBrace (s : string) : option string :=
  match s with
  | EmptyString => None
  | String c s' => if Ascii.eqb c "}" then Some EmptyString else String c <$> toBrace s'
  end.

(** [getShellName]: the name after a dollar sign and how many bytes it takes. *)
Definition getShellName (s : string) : string * nat :=
  match s with
  | EmptyString => (EmptyString, 0%nat)
  | String c s' =>
      if Ascii.eqb c "{" then
        match s' with
        | String x (String e _) =>
            if isSpecial x && Ascii.eqb e "}" then (String x EmptyString, 3%nat)
            else match toBrace s' with
                 | Some EmptyString => (EmptyString, 2%nat)
                 | Some name => (name, (String.length name + 2)%nat)
                 | None => (EmptyString, 1%nat)
                 end
        | _ =>
            match toBrace s' with
            | Some EmptyString => (EmptyString, 2%nat)
            | Some name => (name, (String.length name + 2)%nat)
            | None => (EmptyString, 1%nat)
            end
        end
      else if isSpecial c then (String c EmptyString, 1%nat)
      else let name := spanAlphaNum s in (name, String.length name)
  end.

Fixpoint dropBytes (n : nat) (s : string) : string :=
  match n, s with
  | S n', String _ s' => dropBytes n' s'
  | _, _ => s
  end.

(** [os.Expand]; every turn takes a byte of the text. *)
Fixpoint Expand_fuel (n : nat) (mapping : string -> string) (s : string) : string :=
  match n, s with
  | S n', String c s' =>
      if Ascii.eqb c "$" then
        match s', getShellName s' with
        | EmptyString, _ => s
        | _, (EmptyString, O) => String c (Expand_fuel n' mapping s')
        | _, (EmptyString, w) => Expand_fuel n' mapping (dropBytes w s')
        | _, (name, w) => mapping name +:+ Expand_fuel n' mapping (dropBytes w s')
        end
      else String c (Expand_fuel n' mapping s')
  | _, _ => s
  end.
Definition Expand (mapping : string -> string) (s : string) : string := Expand_fuel (String.length s) mapping s.

Example Expand_samples :
  let env v := if String.eqb v "USER" then "bob" else if String.eqb v "A_1" then "x" else EmptyString in
  map (Expand env) ["${USER}@$A_1-$B."; "$$x $"; "${}${"; "${*}a$ b"; "$1USER"; "{$USER}"]%string
  = ["bob@x-."; "x $"; ""; "a$ b"; "USER"; "{bob}"]%string.
Proof. vm_compute. reflexivity. Qed.

(** ** [Load] *)

Definition Unmarshal {A} (c : codec A) (text : string) (old : A) : option A :=
  j ← Parse text; dec c j old.

Fixpoint hasSuffix (s p : string) : bool :=
  String.eqb s p || match s with EmptyString => false | String _ s' => hasSuffix s' p end.

Section Load.
Context `{Floats} (OtherJson : field -> json).

(** [Config.String]. *)
Definition Config_String (c : Config) : string := MarshalIndent (enc (configC OtherJson) c).

(** The files, the environment, what Jsonnet makes of a file, and the text of the
    decoder's error. *)
Context (ReadFile : string -> result string string) (Getenv : string -> string)
  (Jsonnet : string -> result string string) (unmarshalError : string -> string).

Definition Load (f : string) : result string Config :=
  match
    if hasSuffix f ".jsonnet" then
      match Jsonnet f with
      | Err e => Err ("failed to run load config: " +:+ e)
      | Ok text => Ok text
      end
    else
      match ReadFile f with
      | Err e => Err ("failed to read file: " +:+ e)
      | Ok data => Ok (Expand Getenv data)
      end
  with
  | Err e => Err e
  | Ok text =>
      match Unmarshal (configC OtherJson) text (zero (configC OtherJson)) with
      | None => Err ("failed to unmarshal JSON: " +:+ unmarshalError text)
      | Some c =>
          match Validate c with
          | Err e => Err ("invalid configuration: " +:+ e)
          | Ok _ => Ok (SetDefaults c)
          end
      end
  end%string.
End Load.

(** ** Reading back *)

(** What [dec] makes of what [enc] wrote, starting from the zero value. *)
Definition lawful {A} (c : codec A) (P : A -> Prop) (canon : A -> A) : Prop :=
  forall a, P a -> dec c (enc c a) (zero c) = Some (canon a).

Definition any_value {A} (_ : A) : Prop := True.

Lemma bool_lawful : lawful boolC any_value (fun b => b).
Proof. done. Qed.
Lemma string_lawful : lawful stringC any_value (fun s => s).
Proof. done. Qed.
Lemma int_lawful : lawful intC (fun z => in_int 64 z = true) (fun z => z).
Proof. intros z Hz. by apply ParseInt_pretty. Qed.
Lemma duration_lawful : lawful durationC (fun d => in_int 64 d = true) (fun d => d).
Proof. intros d Hd. cbn. by rewrite ParseDuration_String. Qed.
Lemma password_lawful : lawful passwordC any_value mask.
Proof. done. Qed.

Lemma slice_lawful {A} (c : codec A) P canon : lawful c P canon -> lawful (sliceC c) (Forall P) (map canon).
Proof.
  intros Hc l Hl. cbn. induction Hl as [|a l Ha _ IH]; [done|]. cbn.
  rewrite (Hc a Ha). cbn. by rewrite IH.
Qed.

(** A pointer that is not nil. *)
Lemma ptr_lawful {A} (c : codec A) P canon a : lawful c P canon -> P a -> enc c a <> JNull ->
  dec (ptrC c) (enc (ptrC c) (Some a)) None = Some (Some (canon a)).
Proof. intros Hc Ha Hn. pose proof (Hc a Ha) as E. cbn. destruct (enc c a); try done; by rewrite E. Qed.

Lemma mapSet_new {A} k (v : A) t : k ∉ map fst t -> mapSet k v t = t ++ [(k, v)].
Proof.
  induction t as [|[k' x] t IH]; [done|]. cbn. intros [Hk Ht]%not_elem_of_cons.
  destruct (String.eqb_spec k' k) as [->|_]; [done|]. by rewrite IH.
Qed.

Lemma decMap_enc {A} (c : codec A) P canon t old : lawful c P canon -> Forall (fun kv => P kv.2) t ->
  NoDup (map fst old ++ map fst t) ->
  decMap c (map (fun kv => (kv.1, enc c kv.2)) t) old = Some (old ++ map (fun kv => (kv.1, canon kv.2)) t).
Proof.
  intros Hc Ht. revert old. induction Ht as [|[k v] t Hv _ IH]; intros old Hn; [by rewrite app_nil_r|].
  cbn in *. rewrite (Hc v Hv). cbn.
  rewrite mapSet_new by (apply NoDup_app in Hn as (_ & Hn & _); intros Hk; apply (Hn k Hk); by left).
  rewrite IH; [by rewrite <- app_assoc|]. rewrite map_app, <- app_assoc. done.
Qed.

Lemma byKey_perm {A} (t : list (string * A)) : byKey t ≡ₚ t.
Proof. apply merge_sort_Permutation. Qed.

(** The order of distinct keys is one. *)
Lemma byKey_unique {A} (t u : list (string * A)) : NoDup (map fst t) -> t ≡ₚ u -> byKey t = byKey u.
Proof.
  intros Hn Hp. assert (T : Transitive (@keyLe A)).
  { intros x y z. unfold keyLe. rewrite <- !Is_true_true. apply (transitivity (R := String.le)). }
  assert (O : Total (@keyLe A)) by (intros x y; apply String.leb_total).
  eapply (StronglySorted_unique_strong keyLe); [|by apply StronglySorted_merge_sort..|by rewrite !byKey_perm].
  intros [k x] [k' y] Hx Hy Hxy Hyx. assert (k = k') as -> by by apply String.leb_antisym.
  rewrite byKey_perm, <- ?Hp in Hx. rewrite byKey_perm, <- Hp in Hy.
  clear -Hn Hx Hy. induction t as [|[a z] t IH]; [by apply elem_of_nil in Hx|].
  cbn in Hn. apply NoDup_cons in Hn as [Ha Hn]. apply elem_of_cons in Hx, Hy.
  assert (N : forall v, (a, v) ∈ t -> False) by (intros v Hv; apply Ha; by apply (list_elem_of_fmap_2 fst t (a, v))).
  destruct Hx as [[= <- <-]|Hx], Hy as [Hy|Hy]; [congruence|by destruct (N y)| |by apply IH].
  injection Hy as -> ->. by destruct (N x).
Qed.

Lemma byKey_idem {A} (t : list (string * A)) : NoDup (map fst t) -> byKey (byKey t) = byKey t.
Proof. intros Hn. apply byKey_unique; by rewrite byKey_perm. Qed.

Lemma map_lawful {A} (c : codec A) P canon t : lawful c P canon -> Forall (fun kv => P kv.2) t ->
  NoDup (map fst t) ->
  dec (mapC c) (enc (mapC c) (Some t)) None = Some (Some (map (fun kv => (kv.1, canon kv.2)) (byKey t))).
Proof.
  intros Hc Ht Hn. cbn. rewrite (decMap_enc c P canon); [done|done|by rewrite byKey_perm|].
  cbn. by rewrite byKey_perm.
Qed.

(** *** Structs *)

(** What becomes of a field of value [v]. *)
Definition field_law {R A} (f : fieldOf R A) (v cv : A) : Prop :=
  if f_omit f v then cv = zero (f_codec f) else dec (f_codec f) (enc (f_codec f) v) (zero (f_codec f)) = Some cv.

Lemma decMembers_field {R A} (fs : list (decoder R)) (f : fieldOf R A) src rest r cv :
  fieldFor fs (f_name f) = Some (decoderOf f) -> f_get f r = zero (f_codec f) ->
  f_set f (zero (f_codec f)) r = r -> field_law f (f_get f src) cv ->
  decMembers fs (memberOf f src ++ rest) r = decMembers fs rest (f_set f cv r).
Proof.
  intros Hf Hg Hs Hl. unfold memberOf, field_law in *. destruct (f_omit f (f_get f src)).
  - subst cv. by rewrite Hs.
  - cbn. rewrite Hf. cbn. by rewrite Hg, Hl.
Qed.

Lemma field_any {R A} (f : fieldOf R A) P canon v : lawful (f_codec f) P canon -> P v ->
  (f_omit f v = true -> canon v = zero (f_codec f)) -> field_law f v (canon v).
Proof.
  intros Hc Hv Hz. unfold field_law. destruct (f_omit f v); [by apply Hz|]. by apply Hc.
Qed.

Lemma field_ptr {R A} (f : fieldOf R (option A)) (c : codec A) P canon v : f_codec f = ptrC c -> f_omit f = isNil ->
  lawful c P canon -> (forall a, enc c a <> JNull) -> from_option P True v -> field_law f v (canon <$> v).
Proof.
  intros Hc Ho Hl Hn Hv. unfold field_law. rewrite Hc, Ho. destruct v as [a|]; [|done]. by eapply ptr_lawful.
Qed.

Definition canonMap {A} (t : option (list (string * A))) : option (list (string * A)) :=
  match t with Some ((_ :: _) as t) => Some (byKey t) | _ => None end.

Definition carriedMap {A} (P : A -> Prop) (t : option (list (string * A))) : Prop :=
  from_option (fun t => NoDup (map fst t) /\ Forall (fun kv => P kv.2) t) True t.

Lemma canonMap_idem {A} (P : A -> Prop) (t : option (list (string * A))) : carriedMap P t -> canonMap (canonMap t) = canonMap t.
Proof.
  destruct t as [[|kv t]|]; [done| |done]. intros [Hn _]. cbn [canonMap].
  assert (E : byKey (kv :: t) <> []) by (intros E; pose proof (byKey_perm (kv :: t)) as Hp; rewrite E in Hp; by apply Permutation_nil_cons in Hp).
  destruct (byKey (kv :: t)) eqn:Eb; [done|]. rewrite <- Eb. by rewrite byKey_idem.
Qed.

Lemma carriedMap_canon {A} (P : A -> Prop) (t : option (list (string * A))) : carriedMap P t -> carriedMap P (canonMap t).
Proof. destruct t as [[|kv t]|]; [done| |done]. intros [Hn Ht]. split; by rewrite byKey_perm. Qed.

Lemma field_map {R A} (f : fieldOf R (option (list (string * A)))) (c : codec A) P v : f_codec f = mapC c ->
  f_omit f = noEntries -> lawful c P (fun x => x) -> carriedMap P v -> field_law f v (canonMap v).
Proof.
  intros Hc Ho Hl Hv. unfold field_law. rewrite Hc, Ho. destruct v as [[|kv t]|]; [done| |done].
  destruct Hv as [Hn Ht]. cbn [noEntries canonMap]. rewrite (map_lawful c P (fun x => x)) by done.
  do 2 f_equal. etransitivity; [|apply map_id]. by apply map_ext; intros [].
Qed.

Lemma field_string {R} (f : fieldOf R string) v : f_codec f = stringC -> (f_omit f v = true -> v = EmptyString) ->
  field_law f v v.
Proof. intros Hc Ho. unfold field_law. rewrite Hc. destruct (f_omit f v); [by apply Ho|done]. Qed.

Lemma field_duration {R} (f : fieldOf R Z) v : f_codec f = durationC -> f_omit f = isZ0 -> in_int 64 v = true ->
  field_law f v v.
Proof.
  intros Hc Ho Hv. unfold field_law. rewrite Hc, Ho. unfold isZ0. destruct (Z.eqb_spec v 0); [done|].
  by apply duration_lawful.
Qed.

Lemma field_int {R} (f : fieldOf R Z) v : f_codec f = intC -> f_omit f = isZ0 -> in_int 64 v = true ->
  field_law f v v.
Proof.
  intros Hc Ho Hv. unfold field_law. rewrite Hc, Ho. unfold isZ0. destruct (Z.eqb_spec v 0); [done|].
  by apply int_lawful.
Qed.

Definition int64 (z : Z) : Prop := in_int 64 z = true.

Definition carriedGraceful (g : GracefulShutdown) : Prop :=
  int64 (ShutdownTimeout g) /\ int64 (ReloadTimeout g) /\ int64 (RateLimit g) /\ int64 (BurstSize g).

Lemma field_password {R} (f : fieldOf R string) v : f_codec f = passwordC -> f_omit f = isEmpty ->
  field_law f v (mask v).
Proof. intros Hc Ho. unfold field_law. rewrite Hc, Ho. by destruct v. Qed.

Lemma field_bool {R} (f : fieldOf R bool) v : f_codec f = boolC -> f_omit f = negb -> field_law f v v.
Proof. intros Hc Ho. unfold field_law. rewrite Hc, Ho. by destruct v. Qed.

Lemma field_list {R A} (f : fieldOf R (list A)) (c : codec A) P canon v : f_codec f = sliceC c ->
  (f_omit f v = true -> v = []) -> lawful c P canon -> Forall P v -> field_law f v (map canon v).
Proof.
  intros Hc Ho Hl Hv. unfold field_law. rewrite Hc. destruct (f_omit f v); [by rewrite Ho|].
  by apply (slice_lawful c P).
Qed.

Lemma field_strings {R} (f : fieldOf R (list string)) v : f_codec f = sliceC stringC ->
  (f_omit f v = true -> v = []) -> field_law f v v.
Proof.
  intros Hc Ho. rewrite <- (map_id v) at 2. eapply field_list; [done|done|exact string_lawful|].
  by apply Forall_forall.
Qed.

Lemma field_struct {R A} (f : fieldOf R A) P canon v : f_omit f v = false -> lawful (f_codec f) P canon -> P v ->
  field_law f v (canon v).
Proof. intros Ho Hc Hv. unfold field_law. rewrite Ho. by apply Hc. Qed.

Lemma field_boolptr {R} (f : fieldOf R (option bool)) v : f_codec f = ptrC boolC -> f_omit f = isNil -> field_law f v v.
Proof. intros Hc Ho. unfold field_law. rewrite Hc, Ho. by destruct v. Qed.

Lemma empty_string s : isEmpty s = true -> s = EmptyString.
Proof. apply String.eqb_eq. Qed.
Lemma empty_list {A} (l : list A) : noItems l = true -> l = [].
Proof. by destruct l. Qed.
Lemma never_true {A} (a b : A) : never a = true -> a = b.
Proof. done. Qed.

(** The next field of a struct, whose law is one of the hints. *)
Create HintDb fields discriminated.
#[export] Hint Resolve field_string field_duration field_int field_map field_password field_bool field_strings
  field_boolptr empty_string empty_list never_true : fields.
#[export] Hint Resolve bool_lawful string_lawful int_lawful duration_lawful password_lawful slice_lawful : fields.

Ltac next_field := erewrite decMembers_field; [|reflexivity..|by eauto with fields].

Lemma graceful_lawful : lawful gracefulShutdownC carriedGraceful (fun g => g).
Proof.
  intros [a b c d] (H1 & H2 & H3 & H4). cbn [gracefulShutdownC structC enc dec zero map concat].
  do 4 next_field. reflexivity.
Qed.

Lemma cluster_lawful : lawful clusterC any_value (fun c => c).
Proof. intros [a] _. cbn [clusterC structC enc dec zero map concat]. next_field. reflexivity. Qed.

Lemma routing_lawful : lawful routingC any_value (fun r => r).
Proof. intros [a] _. cbn [routingC structC enc dec zero map concat]. next_field. reflexivity. Qed.

Lemma queueOptions_lawful : lawful queueOptionsC any_value (fun o => o).
Proof. intros [a b] _. cbn [queueOptionsC structC enc dec zero map concat]. do 2 next_field. reflexivity. Qed.

Definition carriedMetrics (m : MetricsConfig) : Prop := carriedMap any_value (MetricsConfig_Attributes m).
Definition canonMetrics (m : MetricsConfig) : MetricsConfig :=
  {| MetricsConfig_Attributes := canonMap (MetricsConfig_Attributes m) |}.

Lemma metrics_lawful : lawful metricsC carriedMetrics canonMetrics.
Proof. intros [a] H. cbn [metricsC structC enc dec zero map concat]. next_field. reflexivity. Qed.

Definition carriedHealth (h : HealthCheck) : Prop :=
  int64 (HealthCheck_Interval h) /\ int64 (HealthCheck_Timeout h) /\ int64 (HealthCheck_UnhealthyThreshold h) /\
  int64 (HealthCheck_RecoveryInterval h).

Definition maskHealth (h : HealthCheck) : HealthCheck := {|
  HealthCheck_Interval := HealthCheck_Interval h; HealthCheck_Timeout := HealthCheck_Timeout h;
  HealthCheck_UnhealthyThreshold := HealthCheck_UnhealthyThreshold h;
  HealthCheck_RecoveryInterval := HealthCheck_RecoveryInterval h;
  HealthCheck_Username := HealthCheck_Username h; HealthCheck_Password := mask (HealthCheck_Password h) |}.

Lemma health_lawful : lawful healthCheckC carriedHealth maskHealth.
Proof.
  intros [a b c d e g] (H1 & H2 & H3 & H4). cbn [healthCheckC structC enc dec zero map concat].
  do 6 next_field. reflexivity.
Qed.

Section Laws.
Context `{Floats} (OtherJson : field -> json).

(** The values that JSON can carry: a float must have a text that stands for it. *)
Fixpoint carriedValue (v : field) : Prop :=
  match v with
  | VNil | VBool _ | VString _ => True
  | VFloat64 bits => is_number (FormatFloat bits) /\ ParseFloat (FormatFloat bits) = Some bits
  | VArray l => foldr and True (map carriedValue l)
  | _ => False
  end.

Lemma any_lawful : lawful (anyC OtherJson) carriedValue (fun v => v).
Proof.
  intros v. cbn. revert v. apply (field_ind' (fun v => carriedValue v -> anyValue (anyJson OtherJson v) = Some v)).
  - intros l IH Hl. cbn in *. apply foldr_and in Hl.
    enough (E : forall m, Forall carriedValue m -> Forall (fun v => carriedValue v -> anyValue (anyJson OtherJson v) = Some v) m ->
      (fix go l := match l with [] => Some [] | x :: l' => v ← anyValue x; vs ← go l'; Some (v :: vs) end)
        (map (anyJson OtherJson) m) = Some m) by by rewrite E.
    intros m Hm Him. induction Hm as [|v m Hv _ IHm]; [done|]. apply Forall_cons in Him as [Hi Him]. cbn.
    rewrite (Hi Hv). cbn. by rewrite (IHm Him).
  - done.
  - intros v. destruct v; try done. cbn. intros [_ ->]. done.
Qed.

Definition carriedAttributes (q : QueueAttributes) : Prop := carriedMap carriedValue (QueueAttributes_Arguments q).
Definition canonAttributes (q : QueueAttributes) : QueueAttributes := {|
  QueueAttributes_Durable := QueueAttributes_Durable q; QueueAttributes_AutoDelete := QueueAttributes_AutoDelete q;
  QueueAttributes_Exclusive := QueueAttributes_Exclusive q;
  QueueAttributes_Arguments := canonMap (QueueAttributes_Arguments q) |}.

Lemma attributes_lawful : lawful (queueAttributesC OtherJson) carriedAttributes canonAttributes.
Proof.
  intros [a b c d] H0. cbn [queueAttributesC structC enc dec zero map concat]. do 3 next_field.
  erewrite decMembers_field; [|reflexivity..|eapply field_map; [reflexivity|reflexivity|exact any_lawful|exact H0]].
  reflexivity.
Qed.

Definition carriedUpstream (u : UpstreamConfig) : Prop :=
  int64 (UpstreamConfig_Timeout u) /\ from_option carriedHealth True (UpstreamConfig_HealthCheck u) /\
  from_option carriedAttributes True (UpstreamConfig_QueueAttributes u).

(** What is left of an upstream: without its password. *)
Definition maskUpstream (u : UpstreamConfig) : UpstreamConfig := {|
  UpstreamConfig_Name := UpstreamConfig_Name u; UpstreamConfig_Address := UpstreamConfig_Address u;
  UpstreamConfig_Cluster := UpstreamConfig_Cluster u; UpstreamConfig_Timeout := UpstreamConfig_Timeout u;
  UpstreamConfig_HealthCheck := maskHealth <$> UpstreamConfig_HealthCheck u;
  UpstreamConfig_Routing := UpstreamConfig_Routing u;
  UpstreamConfig_QueueAttributes := canonAttributes <$> UpstreamConfig_QueueAttributes u;
  UpstreamConfig_QueueOptions := UpstreamConfig_QueueOptions u |}.

Lemma field_ptr_id {R A} (f : fieldOf R (option A)) (c : codec A) v : f_codec f = ptrC c -> f_omit f = isNil ->
  lawful c any_value (fun x => x) -> (forall a, enc c a <> JNull) -> field_law f v v.
Proof.
  intros Hc Ho Hl Hn. rewrite <- (option_fmap_id v) at 2. eapply field_ptr; [done|done|exact Hl|done|by destruct v].
Qed.

Lemma upstream_lawful : lawful (upstreamC OtherJson) carriedUpstream maskUpstream.
Proof.
  intros [a b c d e g h i] (H1 & H2 & H3). cbn [upstreamC structC enc dec zero map concat]. do 2 next_field.
  erewrite decMembers_field; [|reflexivity..|eapply field_ptr_id; [reflexivity|reflexivity|exact cluster_lawful|done]]. next_field.
  erewrite decMembers_field; [|reflexivity..|eapply field_ptr; [reflexivity|reflexivity|exact health_lawful|done|done]].
  erewrite decMembers_field; [|reflexivity..|eapply field_struct; [reflexivity|exact routing_lawful|done]].
  erewrite decMembers_field; [|reflexivity..|eapply field_ptr; [reflexivity|reflexivity|exact attributes_lawful|done|done]].
  erewrite decMembers_field; [|reflexivity..|eapply field_ptr_id; [reflexivity|reflexivity|exact queueOptions_lawful|done]]. reflexivity.
Qed.

Definition carriedConfig (c : Config) : Prop :=
  Forall carriedUpstream (Config_Upstreams c) /\ int64 (Config_HandshakeTimeout c) /\
  int64 (Config_ConnectionCloseTimeout c) /\ carriedGraceful (Config_GracefulShutdown c) /\
  from_option carriedMetrics True (Config_Metrics c).

Definition masked (c : Config) : Config := {|
  Config_Upstreams := map maskUpstream (Config_Upstreams c);
  Config_HandshakeTimeout := Config_HandshakeTimeout c;
  Config_ConnectionCloseTimeout := Config_ConnectionCloseTimeout c;
  Config_GracefulShutdown := Config_GracefulShutdown c;
  Config_Metrics := canonMetrics <$> Config_Metrics c |}.

Lemma config_lawful : lawful (configC OtherJson) carriedConfig masked.
Proof.
  intros [a b c d e] (H1 & H2 & H3 & H4 & H5). cbn [configC structC enc dec zero map concat].
  erewrite decMembers_field; [|reflexivity..|eapply field_list; [reflexivity|done|exact upstream_lawful|done]].
  do 2 next_field.
  erewrite decMembers_field; [|reflexivity..|eapply field_struct; [reflexivity|exact graceful_lawful|done]].
  erewrite decMembers_field; [|reflexivity..|eapply field_ptr; [reflexivity|reflexivity|exact metrics_lawful|done|done]]. reflexivity.
Qed.
End Laws.

(** *** The text is JSON *)

Definition encodes {A} (c : codec A) (P : A -> Prop) : Prop := forall a, P a -> well_formed (enc c a).

Lemma string_encodes : encodes stringC any_value.
Proof. done. Qed.
Lemma bool_encodes : encodes boolC any_value.
Proof. done. Qed.
Lemma duration_encodes : encodes durationC any_value.
Proof. done. Qed.
Lemma password_encodes : encodes passwordC any_value.
Proof. done. Qed.
Lemma int_encodes : encodes intC any_value.
Proof. intros z _. apply is_number_pretty. Qed.

Lemma slice_encodes {A} (c : codec A) P : encodes c P -> encodes (sliceC c) (Forall P).
Proof.
  intros Hc l Hl. cbn. rewrite foldr_and, Forall_map. eapply Forall_impl; [exact Hl|]. apply Hc.
Qed.

Lemma strings_encodes : encodes (sliceC stringC) any_value.
Proof. intros l _. apply (slice_encodes stringC any_value string_encodes). by apply Forall_forall. Qed.

Lemma ptr_encodes {A} (c : codec A) P : encodes c P -> encodes (ptrC c) (from_option P True).
Proof. intros Hc [a|]; [apply Hc|done]. Qed.

Lemma map_encodes {A} (c : codec A) P : encodes c P -> encodes (mapC c) (carriedMap P).
Proof.
  intros Hc [t|]; [|done]. intros [_ Ht]. cbn. rewrite foldr_and, Forall_map, byKey_perm.
  eapply Forall_impl; [exact Ht|]. intros kv. apply Hc.
Qed.

Lemma member_encodes {R A} (f : fieldOf R A) P r : encodes (f_codec f) P -> P (f_get f r) ->
  Forall (fun kv => well_formed kv.2) (memberOf f r).
Proof. intros Hc Hr. unfold memberOf. destruct (f_omit _ _); constructor; [by apply Hc|constructor]. Qed.

Lemma struct_encodes {R} (ms : list (R -> list (string * json))) fs z (P : R -> Prop) :
  (forall r, P r -> Forall (fun m => Forall (fun kv => well_formed kv.2) (m r)) ms) -> encodes (structC ms fs z) P.
Proof.
  intros Hm r Hr. cbn. apply foldr_and. specialize (Hm r Hr). induction Hm as [|m ms H _ IH]; [constructor|].
  cbn. by apply Forall_app.
Qed.

#[export] Hint Resolve string_encodes bool_encodes duration_encodes password_encodes int_encodes strings_encodes
  slice_encodes ptr_encodes map_encodes : fields.
#[export] Hint Unfold any_value : fields.

(** Each member by the codec of its field. *)
Ltac encodes_struct := intros; apply struct_encodes; intros ? Hr; hnf in Hr;
  repeat match goal with |- Forall _ (memberOf _ :: _) => apply List.Forall_cons | |- Forall _ [] => apply List.Forall_nil end;
  (eapply member_encodes; [cbn; eauto with fields|]; cbn; first
    [exact I|done|tauto|by match goal with |- from_option _ _ ?o => destruct o end]).

Lemma graceful_encodes : encodes gracefulShutdownC any_value.
Proof. encodes_struct. Qed.
Lemma cluster_encodes : encodes clusterC any_value.
Proof. encodes_struct. Qed.
Lemma routing_encodes : encodes routingC any_value.
Proof. encodes_struct. Qed.
Lemma queueOptions_encodes : encodes queueOptionsC any_value.
Proof. encodes_struct. Qed.
Lemma health_encodes : encodes healthCheckC any_value.
Proof. encodes_struct. Qed.
Lemma metrics_encodes : encodes metricsC carriedMetrics.
Proof. encodes_struct. Qed.

Section Text.
Context `{Floats} (OtherJson : field -> json).

Lemma any_encodes : encodes (anyC OtherJson) carriedValue.
Proof.
  intros v. cbn. revert v. apply (field_ind' (fun v => carriedValue v -> well_formed (anyJson OtherJson v))).
  - intros l IH Hl. cbn in *. apply foldr_and in Hl. rewrite foldr_and, Forall_map.
    rewrite Forall_forall in IH. rewrite Forall_forall in Hl. apply Forall_forall. auto.
  - done.
  - intros v. destruct v; try done. by intros [? _].
Qed.
#[local] Hint Resolve any_encodes graceful_encodes cluster_encodes routing_encodes queueOptions_encodes health_encodes
  metrics_encodes : fields.

Lemma attributes_encodes : encodes (queueAttributesC OtherJson) carriedAttributes.
Proof. encodes_struct. Qed.
#[local] Hint Resolve attributes_encodes : fields.

Lemma upstream_encodes : encodes (upstreamC OtherJson) carriedUpstream.
Proof. encodes_struct. Qed.
#[local] Hint Resolve upstream_encodes : fields.

Lemma config_encodes : encodes (configC OtherJson) carriedConfig.
Proof. encodes_struct. Qed.
End Text.

(** ** What is read is of its type *)

Definition preserves {A} (c : codec A) (P : A -> Prop) : Prop :=
  forall j a a', P a -> dec c j a = Some a' -> P a'.

Lemma ParseInt_int64 s z : ParseInt s = Some z -> in_int 64 z = true.
Proof.
  assert (G : forall neg t, parseMagnitude neg t = Some z -> in_int 64 z = true).
  { intros neg t. unfold parseMagnitude. destruct t; [done|]. destruct (readDigits _ _) as [v [|]]; [|done].
    destruct (in_int 64 (if neg then _ else _)) eqn:E; [|done]. by intros [= <-]. }
  unfold ParseInt. destruct s as [|c s]; [done|]. repeat destruct (Ascii.eqb _ _); apply G.
Qed.

Lemma int_preserves : preserves intC int64.
Proof. intros [| |lit| | |] a a' Ha; try done; cbn; [by intros [= <-]|apply ParseInt_int64]. Qed.

Lemma duration_preserves : preserves durationC int64.
Proof.
  intros j a a' _ E. unfold int64.
  assert (G : forall s, okOf (ParseDuration s) = Some a' -> in_int 64 a' = true).
  { intros s. destruct (ParseDuration s) as [d|] eqn:Es; [|done]. intros [= <-]. by apply ParseDuration_int64 in Es. }
  destruct j; try done; cbn [durationC dec] in E; by apply G in E.
Qed.

Lemma any_preserves {A} (c : codec A) : preserves c any_value.
Proof. done. Qed.

Lemma slice_preserves {A} (c : codec A) P : preserves c P -> P (zero c) -> preserves (sliceC c) (Forall P).
Proof.
  intros Hc Hz j l l' Hl. destruct j as [| | | |js|]; try done; cbn; [by intros [= <-]|].
  revert l l' Hl. induction js as [|x js IH]; intros l l' Hl; cbn; [by intros [= <-]|].
  destruct (dec c x _) as [a|] eqn:Ea; [|done]. cbn. destruct (decList c js (tl l)) as [as'|] eqn:Es; [|done].
  intros [= <-]. constructor.
  - eapply Hc; [|exact Ea]. destruct Hl; done.
  - eapply IH; [|exact Es]. by destruct Hl.
Qed.

Lemma ptr_preserves {A} (c : codec A) P : preserves c P -> P (zero c) -> preserves (ptrC c) (from_option P True).
Proof.
  intros Hc Hz j o o' Ho E. assert (Hd : P (default (zero c) o)) by by destruct o.
  assert (G : Some <$> dec c j (default (zero c) o) = Some o' -> from_option P True o').
  { destruct (dec c j _) as [a|] eqn:Ea; [|done]. intros [= <-]. by eapply Hc. }
  destruct j; cbn in E; [by injection E as <-|by apply G..].
Qed.

Lemma decMembers_preserves {R} (fs : list (decoder R)) (P : R -> Prop) ms r r' :
  Forall (fun f => forall j r r', P r -> f.2 j r = Some r' -> P r') fs -> P r -> decMembers fs ms r = Some r' -> P r'.
Proof.
  intros Hfs. revert r. induction ms as [|[k j] ms IH]; intros r Hr; cbn; [by intros [= <-]|].
  assert (G : forall f, fieldFor fs k = Some f -> forall r', f.2 j r = Some r' -> P r').
  { intros f Hf r1. rewrite Forall_forall in Hfs. apply Hfs; [|done]. unfold fieldFor in Hf. apply list_elem_of_In.
    match type of Hf with match ?x with _ => _ end = _ => destruct x as [g|] eqn:E end;
      [injection Hf as <-|]; by eapply List.find_some. }
  destruct (fieldFor fs k) as [f|]; [|by apply IH]. destruct (f.2 j r) as [r1|] eqn:E; [|done]. cbn.
  apply IH. by eapply G.
Qed.

Lemma struct_preserves {R} ms (fs : list (decoder R)) z (P : R -> Prop) :
  Forall (fun f => forall j r r', P r -> f.2 j r = Some r' -> P r') fs -> preserves (structC ms fs z) P.
Proof.
  intros Hfs j r r' Hr. destruct j; try done; cbn; [by intros [= <-]|]. by apply decMembers_preserves.
Qed.

Lemma decoder_preserves {R A} (f : fieldOf R A) (P : R -> Prop) (Q : A -> Prop) :
  preserves (f_codec f) Q -> (forall r, P r -> Q (f_get f r)) -> (forall a r, P r -> Q a -> P (f_set f a r)) ->
  forall j r r', P r -> (decoderOf f).2 j r = Some r' -> P r'.
Proof.
  intros Hc Hg Hs j r r' Hr. cbn. destruct (dec _ j _) as [a|] eqn:E; [|done]. intros [= <-].
  apply Hs; [done|]. eapply Hc; [|exact E]. auto.
Qed.

#[export] Hint Resolve int_preserves duration_preserves slice_preserves ptr_preserves : fields.
#[export] Hint Resolve any_preserves | 10 : fields.

(** All integers and durations fit their types. *)
Definition typedUpstream (u : UpstreamConfig) : Prop :=
  int64 (UpstreamConfig_Timeout u) /\ from_option carriedHealth True (UpstreamConfig_HealthCheck u).
Definition typedConfig (c : Config) : Prop :=
  Forall typedUpstream (Config_Upstreams c) /\ int64 (Config_HandshakeTimeout c) /\
  int64 (Config_ConnectionCloseTimeout c) /\ carriedGraceful (Config_GracefulShutdown c).

(** Each decoder by the codec of its field. *)
Ltac preserves_struct := apply struct_preserves;
  repeat match goal with |- Forall _ (decoderOf _ :: _) => apply List.Forall_cons | |- Forall _ [] => apply List.Forall_nil end;
  (eapply decoder_preserves; [cbn; solve [eauto with fields]|intros [] ?|intros ? [] ? ?]);
  unfold typedConfig, typedUpstream, carriedGraceful, carriedHealth in *; cbn in *; first [exact I|tauto].

Lemma graceful_preserves : preserves gracefulShutdownC carriedGraceful.
Proof. preserves_struct. Qed.
Lemma health_preserves : preserves healthCheckC carriedHealth.
Proof. preserves_struct. Qed.

Section Typed.
Context `{Floats} (OtherJson : field -> json).
#[local] Hint Resolve graceful_preserves : fields.

Lemma health_ptr_preserves : preserves (ptrC healthCheckC) (from_option carriedHealth True).
Proof. by apply ptr_preserves; [apply health_preserves|]. Qed.
#[local] Hint Resolve health_ptr_preserves : fields.

Lemma upstream_preserves : preserves (upstreamC OtherJson) typedUpstream.
Proof. preserves_struct. Qed.

Lemma upstreams_preserves : preserves (sliceC (upstreamC OtherJson)) (Forall typedUpstream).
Proof. by apply slice_preserves; [apply upstream_preserves|]. Qed.
#[local] Hint Resolve upstreams_preserves : fields.

Lemma config_preserves : preserves (configC OtherJson) typedConfig.
Proof. preserves_struct. Qed.
End Typed.

(** ** Loading *)

Fixpoint noDollar (s : string) : bool :=
  match s with EmptyString => true | String c s' => negb (Ascii.eqb c "$") && noDollar s' end.

Lemma Expand_plain m s : noDollar s = true -> Expand m s = s.
Proof.
  unfold Expand. induction s as [|c s IH]; [done|]. cbn. intros [Hc%negb_true_iff Hs]%andb_true_iff.
  by rewrite Hc, IH.
Qed.

Lemma mask_empty p : isEmpty (mask p) = isEmpty p.
Proof. by destruct p. Qed.

(** Masking is nothing to validation. *)
Lemma masked_upstream u : valid_upstream (maskUpstream u) <-> valid_upstream u.
Proof.
  unfold valid_upstream, Addresses, maskUpstream. cbn.
  destruct (UpstreamConfig_Cluster u); [|done]. destruct (UpstreamConfig_HealthCheck u) as [h|]; [|done]. cbn.
  assert (E : mask (HealthCheck_Password h) <> EmptyString <-> HealthCheck_Password h <> EmptyString)
    by by destruct (HealthCheck_Password h).
  by rewrite E.
Qed.

Lemma masked_Validate c : Validate (masked c) = Ok () <-> Validate c = Ok ().
Proof.
  rewrite !Validate_iff. unfold masked. cbn. rewrite length_map, Forall_map.
  by rewrite (Forall_iff _ _ _ masked_upstream).
Qed.

Lemma mask_idem p : mask (mask p) = mask p.
Proof. by destruct p. Qed.

Lemma maskUpstream_idem `{Floats} u : carriedUpstream u -> maskUpstream (maskUpstream u) = maskUpstream u.
Proof.
  destruct u as [a b c d h e q i]. intros (_ & _ & Hq). unfold maskUpstream. cbn in *. f_equal.
  - destruct h as [h|]; [|done]. cbn. f_equal. unfold maskHealth. cbn. by rewrite mask_idem.
  - destruct q as [q|]; [|done]. cbn. f_equal. unfold canonAttributes. cbn. f_equal. by eapply canonMap_idem.
Qed.

Lemma masked_idem `{Floats} c : carriedConfig c -> masked (masked c) = masked c.
Proof.
  destruct c as [us a b g m]. intros (Hu & _ & _ & _ & Hm). unfold masked. cbn in *. f_equal.
  - rewrite map_map. apply map_ext_in. intros u Hin%list_elem_of_In. apply maskUpstream_idem.
    by eapply Forall_forall in Hu.
  - destruct m as [m|]; [|done]. cbn. f_equal. unfold canonMetrics. cbn. f_equal. by eapply canonMap_idem.
Qed.

Lemma masked_carried `{Floats} c : carriedConfig c -> carriedConfig (masked c).
Proof.
  destruct c as [us a b g m]. intros (Hu & H1 & H2 & H3 & Hm). unfold masked, carriedConfig. cbn in *.
  split_and!; [|done..|].
  - rewrite Forall_map. eapply Forall_impl; [exact Hu|]. intros [? ? ? ? h ? q ?] (G1 & G2 & G3).
    split_and!; [done|by destruct h|]. destruct q as [q|]; [|done]. by apply carriedMap_canon.
  - destruct m as [m|]; [|done]. by apply carriedMap_canon.
Qed.

(** The text of a configuration does not change when its passwords are masked. *)
Lemma member_map {R A} (f : fieldOf R (option (list (string * A)))) (c : codec A) P r r' : f_codec f = mapC c ->
  f_omit f = noEntries -> carriedMap P (f_get f r) -> f_get f r' = canonMap (f_get f r) -> memberOf f r' = memberOf f r.
Proof.
  intros Hc Ho Hm Hg. unfold memberOf. rewrite Hg, Ho, Hc. destruct (f_get f r) as [[|kv t]|]; [done| |done].
  destruct Hm as [Hn _]. cbn [canonMap noEntries].
  assert (E : byKey (kv :: t) <> []) by (intros E; pose proof (byKey_perm (kv :: t)) as Hp; rewrite E in Hp; by apply Permutation_nil_cons in Hp).
  destruct (byKey (kv :: t)) eqn:Eb; [done|]. rewrite <- Eb. cbn [mapC enc]. by rewrite byKey_idem.
Qed.

Lemma member_masked h : enc healthCheckC (maskHealth h) = enc healthCheckC h.
Proof.
  destruct h as [a b d e g p]. unfold healthCheckC, structC, memberOf. cbn [enc map concat f_get f_omit f_codec f_name
    hc_password HealthCheck_Password maskHealth passwordC]. by rewrite mask_idem, mask_empty.
Qed.

Lemma member_ptr {R A} (f : fieldOf R (option A)) (c : codec A) (g : A -> A) r r' : f_codec f = ptrC c -> f_omit f = isNil ->
  f_get f r' = g <$> f_get f r -> (forall a, f_get f r = Some a -> enc c (g a) = enc c a) -> memberOf f r' = memberOf f r.
Proof.
  intros Hc Ho Hg He. unfold memberOf. rewrite Hg, Ho, Hc. destruct (f_get f r) as [a|]; [|done]. cbn. by rewrite He.
Qed.

Section Masked.
Context `{Floats} (OtherJson : field -> json).

Lemma attributes_masked q : carriedAttributes q -> enc (queueAttributesC OtherJson) (canonAttributes q) = enc (queueAttributesC OtherJson) q.
Proof.
  intros Hq. unfold queueAttributesC. cbn [structC enc map concat]. do 4 f_equal.
  by rewrite (member_map (qa_arguments OtherJson) (anyC OtherJson) carriedValue q (canonAttributes q)).
Qed.

Lemma upstream_masked u : carriedUpstream u -> enc (upstreamC OtherJson) (maskUpstream u) = enc (upstreamC OtherJson) u.
Proof.
  intros (_ & _ & Hq). unfold upstreamC. cbn [structC enc map concat].
  rewrite (member_ptr up_health_check healthCheckC maskHealth u (maskUpstream u)) by (done || (intros; apply member_masked)).
  rewrite (member_ptr (up_queue_attributes OtherJson) (queueAttributesC OtherJson) canonAttributes u (maskUpstream u)); [done..|].
  intros q E. apply attributes_masked. cbn in E. by rewrite E in Hq.
Qed.

Lemma enc_masked c : carriedConfig c -> enc (configC OtherJson) (masked c) = enc (configC OtherJson) c.
Proof.
  intros (Hu & _ & _ & _ & Hm). unfold configC. cbn [structC enc map concat].
  assert (E : memberOf (cfg_upstreams OtherJson) (masked c) = memberOf (cfg_upstreams OtherJson) c).
  { unfold memberOf. cbn. do 3 f_equal. rewrite map_map. apply map_ext_in. intros u Hin%list_elem_of_In.
    apply upstream_masked. by eapply Forall_forall in Hu. }
  rewrite E, (member_ptr cfg_metrics metricsC canonMetrics c (masked c)); [done..|].
  intros m Em. cbn in Em. rewrite Em in Hm. unfold metricsC. cbn [structC enc map concat].
  by rewrite (member_map mc_attributes stringC any_value m (canonMetrics m)).
Qed.
End Masked.

Lemma orDefault_idem v d : d <> 0 -> orDefault (orDefault v d) d = orDefault v d.
Proof.
  intros Hd. unfold orDefault. destruct (Z.eqb_spec v 0); [|by destruct (Z.eqb_spec v 0)].
  by destruct (Z.eqb_spec d 0).
Qed.

Lemma SetDefaults_idem c : SetDefaults (SetDefaults c) = SetDefaults c.
Proof. unfold SetDefaults. cbn. by rewrite !orDefault_idem. Qed.

Lemma SetDefaults_masked c : SetDefaults (masked c) = masked (SetDefaults c).
Proof. done. Qed.

Lemma SetDefaults_Validate c : Validate (SetDefaults c) = Validate c.
Proof. done. Qed.

(** Nothing is left unset. *)
Definition complete (c : Config) : Prop :=
  let g := Config_GracefulShutdown c in
  Config_HandshakeTimeout c <> 0 /\ Config_ConnectionCloseTimeout c <> 0 /\ ShutdownTimeout g <> 0 /\
  ReloadTimeout g <> 0 /\ RateLimit g <> 0 /\ BurstSize g <> 0.

Lemma orDefault_nonzero v d : d <> 0 -> orDefault v d <> 0.
Proof. intros Hd. unfold orDefault. by destruct (Z.eqb_spec v 0). Qed.

Lemma orDefault_int64 v d : int64 v -> int64 d -> int64 (orDefault v d).
Proof. unfold orDefault. by destruct (v =? 0). Qed.

Section Loaded.
Context `{Floats} (OtherJson : field -> json).
Context (ReadFile : string -> result string string) (Getenv : string -> string)
  (Jsonnet : string -> result string string) (unmarshalError : string -> string).
#[local] Abbreviation Load := (Load OtherJson ReadFile Getenv Jsonnet unmarshalError).
#[local] Abbreviation Config_String := (Config_String OtherJson).
#[local] Abbreviation configC := (configC OtherJson).

Lemma Load_inv f c : Load f = Ok c -> exists text c0, Unmarshal configC text (zero configC) = Some c0 /\
  Validate c0 = Ok () /\ c = SetDefaults c0.
Proof.
  unfold Loading.Load. destruct (hasSuffix f ".jsonnet").
  - destruct (Jsonnet f) as [text|]; [|done]. destruct (Unmarshal _ text _) as [c0|] eqn:E; [|done].
    destruct (Validate c0) as [[]|] eqn:Ev; [|done]. intros [= <-]. eauto.
  - destruct (ReadFile f) as [text|]; [|done]. destruct (Unmarshal _ (Expand Getenv text) _) as [c0|] eqn:E; [|done].
    destruct (Validate c0) as [[]|] eqn:Ev; [|done]. intros [= <-]. eauto.
Qed.

(** C24: a configuration that is loaded, whatever the file: has one or two valid upstreams;
    every number and duration fits its type; no timeout, rate or burst is 0. *)
Theorem load_sound f c : Load f = Ok c ->
  (1 <= length (Config_Upstreams c) <= 2)%nat /\ Forall valid_upstream (Config_Upstreams c) /\
  typedConfig c /\ complete c.
Proof.
  intros (text & c0 & E & Hv & ->)%Load_inv. rewrite <- SetDefaults_Validate in Hv.
  apply Validate_iff in Hv as [H1 H2]. split; [done|]. split; [done|].
  unfold Unmarshal in E. destruct (Parse text) as [j|]; [|done]. cbn in E.
  assert (H0 : typedConfig (zero configC)) by (repeat constructor).
  destruct (config_preserves OtherJson j _ c0 H0 E) as (T1 & T2 & T3 & T4 & T5 & T6 & T7).
  split; [|by repeat split; apply orDefault_nonzero].
  repeat split; [done|by apply orDefault_int64..].
Qed.

(** The text of a configuration, decoded. *)
Lemma Unmarshal_String c : carriedConfig c -> depth (enc configC c) <= maxNestingDepth ->
  validated (enc configC c) = enc configC c ->
  Unmarshal configC (Config_String c) (zero configC) = Some (masked c).
Proof.
  intros Hc Hd Hv. unfold Unmarshal, Loading.Config_String, MarshalIndent.
  rewrite Parse_write; [|by apply (config_encodes OtherJson)|done].
  change (dec configC (validated (enc configC c)) (zero configC) = Some (masked c)). rewrite Hv.
  by apply (config_lawful OtherJson).
Qed.

(** C26: what [String] prints of a loaded configuration is loaded as that configuration, with
    passwords masked and maps in the order of their keys: if the file is not named .jsonnet,
    its strings are UTF-8 and hold no dollar sign, its floats have a text, and queue
    arguments are not nested too deep. *)
Theorem load_printed f g c : Load f = Ok c -> carriedConfig c -> depth (enc configC c) <= maxNestingDepth ->
  validated (enc configC c) = enc configC c -> noDollar (Config_String c) = true ->
  hasSuffix g ".jsonnet" = false -> ReadFile g = Ok (Config_String c) -> Load g = Ok (masked c).
Proof.
  intros (text & c0 & _ & Hv & ->)%Load_inv Hc Hd Hu Hn Hg Hr. unfold Loading.Load.
  rewrite Hg, Hr, Expand_plain by done. rewrite Unmarshal_String by done.
  replace (Validate _) with (@Ok string () ()).
  2: { symmetry. by apply masked_Validate. }
  by rewrite SetDefaults_masked, SetDefaults_idem.
Qed.

(** *** Passwords *)

Definition repassHealth (f : string -> string) (h : HealthCheck) : HealthCheck := {|
  HealthCheck_Interval := HealthCheck_Interval h; HealthCheck_Timeout := HealthCheck_Timeout h;
  HealthCheck_UnhealthyThreshold := HealthCheck_UnhealthyThreshold h;
  HealthCheck_RecoveryInterval := HealthCheck_RecoveryInterval h;
  HealthCheck_Username := HealthCheck_Username h; HealthCheck_Password := f (HealthCheck_Password h) |}.

Definition repassUpstream (f : string -> string) (u : UpstreamConfig) : UpstreamConfig := {|
  UpstreamConfig_Name := UpstreamConfig_Name u; UpstreamConfig_Address := UpstreamConfig_Address u;
  UpstreamConfig_Cluster := UpstreamConfig_Cluster u; UpstreamConfig_Timeout := UpstreamConfig_Timeout u;
  UpstreamConfig_HealthCheck := repassHealth f <$> UpstreamConfig_HealthCheck u;
  UpstreamConfig_Routing := UpstreamConfig_Routing u;
  UpstreamConfig_QueueAttributes := UpstreamConfig_QueueAttributes u;
  UpstreamConfig_QueueOptions := UpstreamConfig_QueueOptions u |}.

(** [c] with other passwords. *)
Definition repass (f : string -> string) (c : Config) : Config := {|
  Config_Upstreams := map (repassUpstream f) (Config_Upstreams c);
  Config_HandshakeTimeout := Config_HandshakeTimeout c;
  Config_ConnectionCloseTimeout := Config_ConnectionCloseTimeout c;
  Config_GracefulShutdown := Config_GracefulShutdown c; Config_Metrics := Config_Metrics c |}.

(** The JSON of a configuration says of a password only whether there is one. *)
Lemma enc_repass pw c : (forall p, pw p = EmptyString <-> p = EmptyString) ->
  enc (Loading.configC OtherJson) (repass pw c) = enc (Loading.configC OtherJson) c.
Proof using H OtherJson.
  clear ReadFile Getenv Jsonnet unmarshalError. intros Hf.
  assert (Hm : forall p, mask (pw p) = mask p /\ isEmpty (pw p) = isEmpty p).
  { intros p. unfold mask, isEmpty. specialize (Hf p).
    destruct (String.eqb_spec (pw p) EmptyString), (String.eqb_spec p EmptyString); tauto. }
  assert (Hh : forall h, enc healthCheckC (repassHealth pw h) = enc healthCheckC h).
  { intros [a b d e g p]. unfold healthCheckC, structC, memberOf. cbn [enc map concat f_get f_omit f_codec f_name
      hc_password HealthCheck_Password repassHealth passwordC]. by destruct (Hm p) as [-> ->]. }
  assert (Hu : forall u, enc (upstreamC OtherJson) (repassUpstream pw u) = enc (upstreamC OtherJson) u).
  { intros u. assert (E : memberOf up_health_check (repassUpstream pw u) = memberOf up_health_check u).
    { unfold memberOf. cbn [f_get f_omit f_codec f_name up_health_check UpstreamConfig_HealthCheck repassUpstream].
      destruct (UpstreamConfig_HealthCheck u) as [h|]; [|done]. cbn [fmap option_fmap option_map isNil ptrC enc].
      by rewrite Hh. }
    unfold upstreamC. cbn [structC enc map concat]. by rewrite E. }
  destruct c as [us a b g m]. unfold Loading.configC, structC, memberOf. cbn.
  do 4 f_equal. rewrite map_map. by apply map_ext.
Qed.
End Loaded.

(** ** A configuration, loaded *)

(** The floats of the examples: whole numbers stand for bits. *)
Definition wholeFloats : Floats := {| FormatFloat := pretty; ParseFloat := ParseInt |}.
#[local] Existing Instance wholeFloats.

(** JSON with single quotes. *)
Fixpoint withQuotes (s : string) : string :=
  match s with
  | String c s' => String (if Ascii.eqb c "'" then quote else c) (withQuotes s')
  | EmptyString => EmptyString
  end.

Definition sampleText : string := withQuotes
  "{ 'upstreams': [
       {'name': 'primary', 'address': '[::1]:5672'},
       {'name': 'cluster', 'cluster': {'nodes': ['n1:5672', 'n2:5672']}, 'Timeout': '90s',
        'health_check': {'interval': '1m0.5s', 'username': 'u', 'password': '${PW}'},
        'queue_attributes': {'durable': true, 'exclusive': null,
                             'arguments': {'z': 7, 'a\u0041': '<>'}},
        'unknown': [1.5e3]}],
     'handshake_timeout': '1.5s', 'graceful_shutdown': {'rate_limit': 50}, 'metrics': {'attributes': {}} }".

Definition sampleFiles (f : string) : result string string :=
  if String.eqb f "config.json" then Ok sampleText else Err "no such file"%string.
Definition sampleEnv (v : string) : string := if String.eqb v "PW" then "secret" else EmptyString.

Definition loadSample (files : string -> result string string) (f : string) : result string Config :=
  Load (fun _ => JNull) files sampleEnv (fun _ => Err "no jsonnet"%string) (fun _ => "bad"%string) f.

Definition loaded : Config := {|
  Config_Upstreams := [
    {| UpstreamConfig_Name := "primary"; UpstreamConfig_Address := "[::1]:5672"; UpstreamConfig_Cluster := None;
       UpstreamConfig_Timeout := 0; UpstreamConfig_HealthCheck := None;
       UpstreamConfig_Routing := {| Routing_KeyPatterns := [] |};
       UpstreamConfig_QueueAttributes := None; UpstreamConfig_QueueOptions := None |};
    {| UpstreamConfig_Name := "cluster"; UpstreamConfig_Address := "";
       UpstreamConfig_Cluster := Some {| Cluster_Nodes := ["n1:5672"; "n2:5672"] |};
       UpstreamConfig_Timeout := 90000000000;
       UpstreamConfig_HealthCheck := Some
         {| HealthCheck_Interval := 60500000000; HealthCheck_Timeout := 0; HealthCheck_UnhealthyThreshold := 0;
            HealthCheck_RecoveryInterval := 0; HealthCheck_Username := "u"; HealthCheck_Password := "secret" |};
       UpstreamConfig_Routing := {| Routing_KeyPatterns := [] |};
       UpstreamConfig_QueueAttributes := Some
         {| QueueAttributes_Durable := Some true; QueueAttributes_AutoDelete := None; QueueAttributes_Exclusive := None;
            QueueAttributes_Arguments := Some [("z", VFloat64 7); ("aA", VString "<>")] |};
       UpstreamConfig_QueueOptions := None |}];
  Config_HandshakeTimeout := 1500000000; Config_ConnectionCloseTimeout := 1000000000;
  Config_GracefulShutdown := {| ShutdownTimeout := 10000000000; ReloadTimeout := 30000000000; RateLimit := 50;
    BurstSize := 10 |};
  Config_Metrics := Some {| MetricsConfig_Attributes := Some [] |} |}%string.

Example loaded_sample : loadSample sampleFiles "config.json" = Ok loaded.
Proof. vm_compute. reflexivity. Qed.

Lemma loaded_carried : carriedConfig loaded.
Proof.
  repeat constructor; try (vm_compute; reflexivity). all: try (apply (bool_decide_unpack _); vm_compute; exact I).
Qed.

Example load_errors :
  map (fun t => loadSample (fun _ => Ok (withQuotes t)) "config.json")
    ["{'upstreams': []}"; "{'upstreams': [{'name': 'a'}]}"; "{"; "{'upstreams': [{'timeout': 5}]}"]%string
  = [Err "invalid configuration: no upstreams are defined";
     Err "invalid configuration: invalid upstream a: address is required";
     Err "failed to unmarshal JSON: bad"; Err "failed to unmarshal JSON: bad"]%string.
Proof. vm_compute. reflexivity. Qed.

(** Numbers below 0 pass. *)
Example load_negative :
  match loadSample (fun _ => Ok (withQuotes
    "{'upstreams': [{'name': 'a', 'address': ':1'}], 'handshake_timeout': '-1s', 'graceful_shutdown': {'rate_limit': -1}}"))
    "config.json" with
  | Ok c => Config_HandshakeTimeout c = -1000000000 /\ RateLimit (Config_GracefulShutdown c) = -1
  | Err _ => False
  end.
Proof. vm_compute. done. Qed.

Lemma load_sound_witness : Forall valid_upstream (Config_Upstreams loaded) /\ complete loaded.
Proof.
  assert (E : loadSample sampleFiles "config.json" = Ok loaded) by (vm_compute; reflexivity).
  destruct (load_sound _ _ _ _ _ _ _ E) as (_ & H1 & _ & H2). by split.
Defined.

(** The same, with a file of what was printed. *)
Definition sampleDisk (f : string) : result string string :=
  if String.eqb f "printed.json" then Ok (Config_String (fun _ => JNull) loaded) else sampleFiles f.

Lemma load_printed_witness : loadSample sampleDisk "printed.json" = Ok (masked loaded) /\
  map (fun u => HealthCheck_Password <$> UpstreamConfig_HealthCheck u) (Config_Upstreams (masked loaded))
  = [None; Some "********"%string].
Proof.
  assert (E : loadSample sampleDisk "config.json" = Ok loaded) by (vm_compute; reflexivity).
  split; [|vm_compute; reflexivity].
  apply (load_printed _ _ _ _ _ "config.json" "printed.json" loaded E).
  - apply loaded_carried.
  - vm_compute. discriminate.
  - vm_compute. reflexivity.
  - vm_compute. reflexivity.
  - vm_compute. reflexivity.
  - cbn [sampleDisk]. reflexivity.
Defined.

