(* ===== verification/Urls.v ===== *)
(** * Paths and URLs

    What [apiclient/] uses of the packages [path] and [net/url] to make the URL of a request
    out of an identifier and a reason, and what the API's server does to take it apart:
    cleaning paths, percent escapes, queries, references and their resolution. Errors
    are [None]; their texts are arguments of the client. *)

From Stdlib Require Import Strings.Ascii.
From stdpp Require Import sorting.
From S2P Require Import Prelude Bytes Decimals Sse Runes Json Loading.

Open Scope Z_scope.

(** ** Strings *)

(** [strings.Cut] at a character: [None] when it is not there. *)
Fixpoint Cut (d : ascii) (s : string) : option (string * string) :=
  match s with
  | EmptyString => None
  | String c s' =>
      if Ascii.eqb c d then Some (EmptyString, s')
      else match Cut d s' with Some (a, b) => Some (String c a, b) | None => None end
  end.

Definition Contains (d : ascii) (s : string) : bool := bool_decide (is_Some (Cut d s)).

(** [strings.Split] and [strings.Join] at one character; the parts are one at least. *)
Fixpoint Split (d : ascii) (s : string) : list string :=
  match s with
  | EmptyString => [EmptyString]
  | String c s' =>
      if Ascii.eqb c d then EmptyString :: Split d s'
      else match Split d s' with
           | [] => [String c EmptyString]
           | a :: l => String c a :: l
           end
  end.

Fixpoint JoinWith (d : ascii) (l : list string) : string :=
  match l with
  | [] => EmptyString
  | [a] => a
  | a :: l' => a +:+ String d (JoinWith d l')
  end.

(** What is before the last occurrence. *)
Fixpoint beforeLast (d : ascii) (s : string) : option string :=
  match s with
  | EmptyString => None
  | String c s' =>
      match beforeLast d s' with
      | Some a => Some (String c a)
      | None => if Ascii.eqb c d then Some EmptyString else None
      end
  end.

Definition startsWith (d : ascii) (s : string) : bool :=
  match s with String c _ => Ascii.eqb c d | EmptyString => false end.

Definition slash : ascii := "/".

(** ** [path.Clean] and [path.Join] *)

(** The elements kept so far, the last one first: [..] is only kept below all others and
    in a relative path. *)
Definition cleanStep (rooted : bool) (acc : list string) (e : string) : list string :=
  if String.eqb e "" || String.eqb e "." then acc
  else if String.eqb e ".." then
    match acc with
    | [] => if rooted then [] else [".."%string]
    | x :: acc' => if String.eqb x ".." then ".."%string :: acc else acc'
    end
  else e :: acc.

Definition cleaned (rooted : bool) (p : string) : list string :=
  rev (foldl (cleanStep rooted) [] (Split slash p)).

Definition Clean (p : string) : string :=
  if startsWith slash p then String slash (JoinWith slash (cleaned true p))
  else match cleaned false p with [] => "." | es => JoinWith slash es end.

Definition Join (elem : list string) : string :=
  match filter (fun e => e <> EmptyString) elem with
  | [] => EmptyString
  | es => Clean (JoinWith slash es)
  end.

Example Join_samples :
  map (fun id => Join ["clients"%string; id]) ["abc"; ""; "."; ".."; "../config"; "a//b/"; "/x"; "../../y"]%string
  = ["clients/abc"; "clients"; "clients"; "."; "config"; "clients/a/b"; "clients/x"; "../y"]%string.
Proof. vm_compute. reflexivity. Qed.

(** ** Escapes *)

Inductive encoding : Type := encodePath | encodeQueryComponent.

Definition unreserved (c : ascii) : bool :=
  let b := byteZ c in
  isDigit c || ((97 <=? b) && (b <=? 122)) || ((65 <=? b) && (b <=? 90))
  || bool_decide (c ∈ ["-"; "_"; "."; "~"]%char).

Definition shouldEscape (m : encoding) (c : ascii) : bool :=
  negb (unreserved c) &&
  match m with
  | encodePath => negb (bool_decide (c ∈ ["$"; "&"; "+"; ","; "/"; ":"; ";"; "="; "@"]%char))
  | encodeQueryComponent => true
  end.

Definition upperHex (n : Z) : ascii := chr (if n <? 10 then 48 + n else 55 + n).

Definition escapeChar (m : encoding) (c : ascii) : string :=
  if shouldEscape m c then
    match m with
    | encodeQueryComponent =>
        if Ascii.eqb c " " then "+"
        else String "%" (String (upperHex (byteZ c / 16)) (String (upperHex (byteZ c mod 16)) EmptyString))
    | encodePath => String "%" (String (upperHex (byteZ c / 16)) (String (upperHex (byteZ c mod 16)) EmptyString))
    end
  else String c EmptyString.

Fixpoint Escape (m : encoding) (s : string) : string :=
  match s with
  | EmptyString => EmptyString
  | String c s' => escapeChar m c +:+ Escape m s'
  end.

(** [unescape]: a percent sign needs two hexadecimal digits. *)
Fixpoint Unescape (m : encoding) (s : string) : option string :=
  match s with
  | EmptyString => Some EmptyString
  | String c s' =>
      if Ascii.eqb c "%" then
        match s' with
        | String a (String b r) =>
            x ← hexValue a; y ← hexValue b; t ← Unescape m r; Some (String (chr (16 * x + y)) t)
        | _ => None
        end
      else
        t ← Unescape m s';
        Some (String (match m with encodeQueryComponent => if Ascii.eqb c "+" then " "%char else c
                                 | encodePath => c end) t)
  end.

Definition QueryEscape : string -> string := Escape encodeQueryComponent.
Definition QueryUnescape : string -> option string := Unescape encodeQueryComponent.

(** ** [url.Values] *)

(** The keys with their values; a list whose order does not show. *)
Definition Values : Type := list (string * list string).

Definition valuesOf (key : string) (v : Values) : list string :=
  match List.find (fun kv => String.eqb kv.1 key) v with Some kv => kv.2 | None => [] end.

Definition Values_Get (key : string) (v : Values) : string := hd EmptyString (valuesOf key v).
Definition Values_Set (key value : string) (v : Values) : Values := mapSet key [value] v.
Definition Values_Add (key value : string) (v : Values) : Values := mapSet key (valuesOf key v ++ [value]) v.

(** A pair of a query: one with a semicolon or a bad escape is dropped. *)
Definition queryPair (v : Values) (kv : string) : Values :=
  if Contains ";" kv || String.eqb kv "" then v
  else
    let (k, x) := default (kv, EmptyString) (Cut "=" kv) in
    match QueryUnescape k, QueryUnescape x with
    | Some k, Some x => Values_Add k x v
    | _, _ => v
    end.
Definition ParseQuery (query : string) : Values := foldl queryPair [] (Split "&" query).

Definition pairsOf (kv : string * list string) : list string :=
  map (fun x => QueryEscape kv.1 +:+ "=" +:+ QueryEscape x) kv.2.
Definition Values_Encode (v : Values) : string := JoinWith "&" (flat_map pairsOf (byKey v)).

Example query_samples :
  Values_Encode (Values_Set "reason" "a b&c=;%+" (ParseQuery "x=1&reason=r&a;b&%zz=1&=e&x=2"))
    = "=e&reason=a+b%26c%3D%3B%25%2B&x=1&x=2"%string /\
  Values_Get "reason" (ParseQuery "reason=a+b%26&reason=2") = "a b&"%string.
Proof. split; vm_compute; reflexivity. Qed.

(** ** URLs

    Of a [URL] only the parts that the client and the server look at: the fragment is
    never sent, and no reference of the client names a host. *)
Record URL : Type := {
  Scheme : string;
  Path : string;
  RawPath : string;
  ForceQuery : bool;
  RawQuery : string
}.

Definition isLetter (c : ascii) : bool :=
  let b := byteZ c in ((97 <=? b) && (b <=? 122)) || ((65 <=? b) && (b <=? 90)).

(** [getScheme]: the scheme, which may be empty, and what follows it; [None] for a colon
    that begins the text. *)
Fixpoint schemeOf (first : bool) (acc s : string) : option (option (string * string)) :=
  match s with
  | EmptyString => Some None
  | String c s' =>
      if isLetter c then schemeOf false (acc +:+ String c EmptyString) s'
      else if isDigit c || bool_decide (c ∈ ["+"; "-"; "."]%char) then
        if first then Some None else schemeOf false (acc +:+ String c EmptyString) s'
      else if Ascii.eqb c ":" then if first then None else Some (Some (acc, s'))
      else Some None
  end.
Definition getScheme (s : string) : option (string * string) :=
  match schemeOf true EmptyString s with
  | None => None
  | Some None => Some (EmptyString, s)
  | Some (Some x) => Some x
  end.

(** [stringContainsCTLByte]. *)
Fixpoint hasCTL (s : string) : bool :=
  match s with
  | EmptyString => false
  | String c s' => (byteZ c <? 32) || (byteZ c =? 127) || hasCTL s'
  end.

(** [validEncoded] of a path. *)
Fixpoint validEncoded (s : string) : bool :=
  match s with
  | EmptyString => true
  | String c s' =>
      (bool_decide (c ∈ ["!"; "$"; "&"; "'"; "("; ")"; "*"; "+"; ","; ";"; "="; ":"; "@"; "["; "]"; "%"]%char)
       || negb (shouldEscape encodePath c)) && validEncoded s'
  end.

Definition setPath (p : string) (u : URL) : option URL :=
  path ← Unescape encodePath p;
  Some {| Scheme := Scheme u; Path := path;
          RawPath := if String.eqb p (Escape encodePath path) then EmptyString else p;
          ForceQuery := ForceQuery u; RawQuery := RawQuery u |}.

Definition EscapedPath (u : URL) : string :=
  if negb (String.eqb (RawPath u) EmptyString) && validEncoded (RawPath u)
     && bool_decide (Unescape encodePath (RawPath u) = Some (Path u))
  then RawPath u
  else if String.eqb (Path u) "*" then "*"
  else Escape encodePath (Path u).

(** The query after the first question mark; a single one at the end has none. *)
Definition cutQuery (s : string) : string * bool * string :=
  match Cut "?" s with
  | None => (s, false, EmptyString)
  | Some (a, EmptyString) => (a, true, EmptyString)
  | Some (a, q) => (a, false, q)
  end.

(** [url.Parse] of a reference that does not begin with a slash, nor with one after its
    scheme twice: an opaque one has no path. *)
Definition Parse (ref : string) : option URL :=
  let (s, frag) := default (ref, EmptyString) (Cut "#" ref) in
  if hasCTL s then None
  else
    u ← (if String.eqb s "*" then Some {| Scheme := EmptyString; Path := "*"; RawPath := EmptyString;
                                          ForceQuery := false; RawQuery := EmptyString |}
         else
           '(scheme, rest) ← getScheme s;
           let '(rest, force, query) := cutQuery rest in
           let u := {| Scheme := scheme; Path := EmptyString; RawPath := EmptyString;
                       ForceQuery := force; RawQuery := query |} in
           if negb (startsWith slash rest) && negb (String.eqb scheme EmptyString) then Some u
           else if negb (startsWith slash rest) && Contains ":" (hd EmptyString (Split slash rest)) then None
           else setPath rest u);
    _ ← Unescape encodePath frag;
    Some u.

(** [ParseRequestURI] of what a request line names. *)
Definition ParseRequestURI (target : string) : option URL :=
  if hasCTL target then None
  else if String.eqb target "*" then Some {| Scheme := EmptyString; Path := "*"; RawPath := EmptyString;
                                             ForceQuery := false; RawQuery := EmptyString |}
  else if negb (startsWith slash target) then None
  else
    let '(rest, force, query) := cutQuery target in
    setPath rest {| Scheme := EmptyString; Path := EmptyString; RawPath := EmptyString;
                    ForceQuery := force; RawQuery := query |}.

(** [resolvePath]: the text so far without the slash it begins with, and whether the next
    element is the first. *)
Definition resolveStep (st : string * bool) (elem : string) : string * bool :=
  let (str, first) := st in
  if String.eqb elem "." then (str, false)
  else if String.eqb elem ".." then
    match beforeLast slash str with
    | None => (EmptyString, true)
    | Some a => (a, first)
    end
  else ((if first then str +:+ elem else str +:+ String slash elem), false).

Definition resolvePath (base ref : string) : string :=
  let full :=
    if String.eqb ref EmptyString then base
    else if startsWith slash ref then ref
    else match beforeLast slash base with Some a => a +:+ String slash ref | None => ref end in
  if String.eqb full EmptyString then EmptyString
  else
    let elems := Split slash full in
    let str := (foldl resolveStep (EmptyString, true) elems).1 in
    let str := if bool_decide (List.last elems EmptyString ∈ ["."; ".."]%string)
               then str +:+ "/" else str in
    if startsWith slash str then str else String slash str.

(** [ResolveReference] against a URL with a host, the path [base] and no query. *)
Definition ResolveReference (base : string) (ref : URL) : option URL :=
  if negb (String.eqb (Scheme ref) EmptyString) then Some ref
  else setPath (resolvePath base (EscapedPath ref)) ref.

(** [RequestURI]: what the request line names. A URL with a scheme of its own has no host
    and is not sent. *)
Definition RequestURI (u : URL) : option string :=
  if negb (String.eqb (Scheme u) EmptyString) then None
  else
    let p := EscapedPath u in
    Some ((if String.eqb p EmptyString then "/" else p)
          +:+ (if ForceQuery u || negb (String.eqb (RawQuery u) EmptyString) then "?" +:+ RawQuery u else EmptyString)).

(** ** Strings, cut and joined *)

Fixpoint lacks (d : ascii) (s : string) : bool :=
  match s with
  | EmptyString => true
  | String c s' => negb (Ascii.eqb c d) && lacks d s'
  end.

Lemma lacks_append d a b : lacks d (a +:+ b) = lacks d a && lacks d b.
Proof.
  induction a as [|c a IH]; [done|]. change (lacks d (String c a +:+ b)) with (negb (Ascii.eqb c d) && lacks d (a +:+ b)).
  rewrite IH. cbn [lacks]. by rewrite andb_assoc.
Qed.

Lemma Cut_lacks d s : lacks d s = true -> Cut d s = None.
Proof.
  induction s as [|c s IH]; [done|]. cbn [lacks Cut]. destruct (Ascii.eqb c d); [done|]. intros H. by rewrite IH.
Qed.

Lemma Contains_lacks d s : lacks d s = true -> Contains d s = false.
Proof. intros H. unfold Contains. by rewrite Cut_lacks. Qed.

Lemma Cut_at d a b : lacks d a = true -> Cut d (a +:+ String d b) = Some (a, b).
Proof.
  induction a as [|c a IH]; intros H.
  - change (EmptyString +:+ String d b) with (String d b). cbn [Cut]. by rewrite Ascii.eqb_refl.
  - cbn [lacks] in H. apply andb_prop in H as [H1 H2]. rewrite append_cons. cbn [Cut].
    destruct (Ascii.eqb c d); [done|]. by rewrite IH.
Qed.

Lemma Split_lacks d s : lacks d s = true -> Split d s = [s].
Proof.
  induction s as [|c s IH]; [done|]. cbn [lacks Split]. destruct (Ascii.eqb c d); [done|]. intros H. by rewrite IH.
Qed.

Lemma Split_at d a b : lacks d a = true -> Split d (a +:+ String d b) = a :: Split d b.
Proof.
  induction a as [|c a IH]; intros H.
  - change (EmptyString +:+ String d b) with (String d b). cbn [Split]. by rewrite Ascii.eqb_refl.
  - cbn [lacks] in H. apply andb_prop in H as [H1 H2]. rewrite append_cons. cbn [Split].
    destruct (Ascii.eqb c d); [done|]. by rewrite IH.
Qed.

Lemma Split_JoinWith d l : l <> [] -> Forall (fun s => lacks d s = true) l -> Split d (JoinWith d l) = l.
Proof.
  intros Hne H. induction H as [|a l Ha Hl IH]; [done|]. destruct l as [|b l]; [by apply Split_lacks|].
  change (JoinWith d (a :: b :: l)) with (a +:+ String d (JoinWith d (b :: l))).
  rewrite Split_at by done. by rewrite IH.
Qed.

Lemma Ascii_eqb_neq (c d : ascii) : byteZ c <> byteZ d -> Ascii.eqb c d = false.
Proof. intros H. destruct (Ascii.eqb_spec c d) as [->|]; done. Qed.

(** ** Escapes are taken back *)

Lemma upperHex_value n : 0 <= n < 16 -> hexValue (upperHex n) = Some n.
Proof.
  intros H. unfold upperHex, hexValue. destruct (Z.ltb_spec n 10); rewrite byteZ_chr by lia.
  - destruct (Z.leb_spec 48 (48 + n)), (Z.leb_spec (48 + n) 57); try lia. cbn [andb]. f_equal. lia.
  - destruct (Z.leb_spec 48 (55 + n)), (Z.leb_spec (55 + n) 57); try lia. cbn [andb].
    destruct (Z.leb_spec 97 (55 + n)); [lia|]. cbn [andb].
    destruct (Z.leb_spec 65 (55 + n)), (Z.leb_spec (55 + n) 70); try lia. cbn [andb]. f_equal. lia.
Qed.

Lemma upperHex_unreserved n : 0 <= n < 16 -> unreserved (upperHex n) = true.
Proof.
  apply (each_below (fun n => unreserved (upperHex n) = true)). repeat constructor; vm_compute; reflexivity.
Qed.

Lemma byte_digits c : 0 <= byteZ c / 16 < 16 /\ 0 <= byteZ c mod 16 < 16 /\ 16 * (byteZ c / 16) + byteZ c mod 16 = byteZ c.
Proof.
  pose proof (byteZ_range c). pose proof (Z_div_mod_eq_full (byteZ c) 16). pose proof (Z.mod_pos_bound (byteZ c) 16).
  split_and!; lia.
Qed.

(** What a character becomes: itself, a plus sign for a space in a query, or an escape. *)
Lemma escapeChar_cases m c :
  (escapeChar m c = String c EmptyString /\ shouldEscape m c = false) \/
  (m = encodeQueryComponent /\ c = " "%char /\ escapeChar m c = "+"%string) \/
  escapeChar m c = String "%" (String (upperHex (byteZ c / 16)) (String (upperHex (byteZ c mod 16)) EmptyString)).
Proof.
  unfold escapeChar. destruct (shouldEscape m c); [|by left]. right.
  destruct m; [by right|]. destruct (Ascii.eqb_spec c " "); [by left|by right].
Qed.

Lemma kept_char m c : shouldEscape m c = false -> Ascii.eqb c "%" = false /\
  (m = encodeQueryComponent -> Ascii.eqb c "+" = false).
Proof.
  intros H. split.
  - destruct (Ascii.eqb_spec c "%"); [subst c; destruct m; vm_compute in H; discriminate|done].
  - intros ->. destruct (Ascii.eqb_spec c "+"); [subst c; vm_compute in H; discriminate|done].
Qed.

Lemma Unescape_char m c s : Unescape m (escapeChar m c +:+ s) = String c <$> Unescape m s.
Proof.
  destruct (escapeChar_cases m c) as [[-> Hk]|[(-> & -> & ->)| ->]].
  - apply kept_char in Hk as [H1 H2]. change (String c EmptyString +:+ s) with (String c s). cbn [Unescape]. rewrite H1.
    destruct m; [by destruct (Unescape _ s)|]. rewrite H2 by done. by destruct (Unescape _ s).
  - change ("+" +:+ s) with (String "+" s). cbn [Unescape Ascii.eqb]. by destruct (Unescape _ s).
  - destruct (byte_digits c) as (H1 & H2 & H3). rewrite !append_cons. cbn [Unescape].
    rewrite Ascii.eqb_refl, !upperHex_value by done. change (EmptyString +:+ s) with s. cbn [mbind option_bind].
    rewrite H3, chr_byteZ. by destruct (Unescape m s).
Qed.

Lemma Unescape_Escape m s : Unescape m (Escape m s) = Some s.
Proof. induction s as [|c s IH]; [done|]. cbn [Escape]. by rewrite Unescape_char, IH. Qed.

(** Text that is its own escape. *)
Fixpoint unreservedText (s : string) : bool :=
  match s with
  | EmptyString => true
  | String c s' => unreserved c && unreservedText s'
  end.

Lemma Escape_unreserved m s : unreservedText s = true -> Escape m s = s.
Proof.
  induction s as [|c s IH]; [done|]. cbn [unreservedText]. intros [Hc Hs]%andb_prop. cbn [Escape].
  unfold escapeChar, shouldEscape. rewrite Hc. cbn [negb andb]. by rewrite IH.
Qed.

Lemma unreserved_lacks d s : unreserved d = false -> unreservedText s = true -> lacks d s = true.
Proof.
  intros Hd. induction s as [|c s IH]; [done|]. cbn [unreservedText lacks]. intros [Hc Hs]%andb_prop.
  rewrite IH by done. destruct (Ascii.eqb_spec c d); [congruence|done].
Qed.

(** An escaped component of a query has no character with a meaning there. *)
Lemma QueryEscape_lacks d s : unreserved d = false -> d <> "%"%char -> d <> "+"%char -> lacks d (QueryEscape s) = true.
Proof.
  intros Hd H1 H2. unfold QueryEscape. induction s as [|c s IH]; [done|]. cbn [Escape]. rewrite lacks_append, IH, andb_true_r.
  assert (N : forall x, x <> d -> Ascii.eqb x d = false) by (intros x; by destruct (Ascii.eqb_spec x d)).
  assert (U : forall x, unreserved x = true -> Ascii.eqb x d = false) by (intros x Hx; apply N; congruence).
  destruct (byte_digits c) as (B1 & B2 & _).
  destruct (escapeChar_cases encodeQueryComponent c) as [[-> Hk]|[(_ & _ & ->)| ->]]; cbn [lacks].
  - unfold shouldEscape in Hk. rewrite andb_true_r in Hk. apply negb_false_iff in Hk. by rewrite U.
  - by rewrite N.
  - by rewrite N, !U by (done || by apply upperHex_unreserved).
Qed.

(** ** Queries are taken apart as they were put together *)

Lemma valuesOf_new k v : k ∉ map fst v -> valuesOf k v = [].
Proof.
  unfold valuesOf. induction v as [|[a x] v IH]; [done|]. cbn [List.find map fst]. intros [Hne Hv]%not_elem_of_cons.
  destruct (String.eqb_spec a k) as [->|_]; [done|]. by apply IH.
Qed.

Lemma valuesOf_last k xs v : k ∉ map fst v -> valuesOf k (v ++ [(k, xs)]) = xs.
Proof.
  unfold valuesOf. induction v as [|[a x] v IH]; cbn [List.find map fst app]; [by rewrite String.eqb_refl|].
  intros [Hne Hv]%not_elem_of_cons. destruct (String.eqb_spec a k) as [->|_]; [done|]. by apply IH.
Qed.

Lemma mapSet_last {A} k (x y : A) v : k ∉ map fst v -> mapSet k y (v ++ [(k, x)]) = v ++ [(k, y)].
Proof.
  induction v as [|[a z] v IH]; cbn [mapSet map fst app]; [by rewrite String.eqb_refl|].
  intros [Hne Hv]%not_elem_of_cons. destruct (String.eqb_spec a k) as [->|_]; [done|]. by rewrite IH.
Qed.

Lemma pair_lacks d k x : unreserved d = false -> d <> "%"%char -> d <> "+"%char -> d <> "="%char ->
  lacks d (QueryEscape k +:+ "=" +:+ QueryEscape x) = true.
Proof.
  intros Hd H1 H2 H3. rewrite !lacks_append, !QueryEscape_lacks by done. cbn [lacks].
  destruct (Ascii.eqb_spec "=" d) as [<-|]; done.
Qed.

Lemma queryPair_add k x v : queryPair v (QueryEscape k +:+ "=" +:+ QueryEscape x) = Values_Add k x v.
Proof.
  unfold queryPair. rewrite Contains_lacks by by apply pair_lacks.
  assert (Hne : String.eqb (QueryEscape k +:+ "=" +:+ QueryEscape x) "" = false) by (by destruct (QueryEscape k)).
  rewrite Hne. cbn [orb]. change ("=" +:+ QueryEscape x) with (String "=" (QueryEscape x)).
  rewrite Cut_at by by apply QueryEscape_lacks. cbn [default from_option id].
  unfold QueryUnescape, QueryEscape. by rewrite !Unescape_Escape.
Qed.

Lemma query_more k xs ys v : k ∉ map fst v ->
  foldl queryPair (v ++ [(k, ys)]) (pairsOf (k, xs)) = v ++ [(k, ys ++ xs)].
Proof.
  intros Hk. revert ys; induction xs as [|x xs IH]; intros ys; [by rewrite app_nil_r|].
  change (pairsOf (k, x :: xs)) with ((QueryEscape k +:+ "=" +:+ QueryEscape x) :: pairsOf (k, xs)). cbn [foldl].
  rewrite queryPair_add. unfold Values_Add. rewrite valuesOf_last, mapSet_last, IH by done. by rewrite <- app_assoc.
Qed.

Lemma query_pairs v w : NoDup (map fst (v ++ w)) -> Forall (fun kv => kv.2 <> []) w ->
  foldl queryPair v (flat_map pairsOf w) = v ++ w.
Proof.
  intros N H. revert v N; induction H as [|[k xs] w Hk Hw IH]; intros v N; [by rewrite app_nil_r|].
  cbn [flat_map]. rewrite foldl_app. rewrite map_app, map_cons in N. cbn [fst] in N.
  assert (Hv : k ∉ map fst v) by (apply NoDup_app in N as (_ & N & _); intros Hin; by apply (N _ Hin), list_elem_of_here).
  destruct xs as [|x xs]; [done|].
  change (pairsOf (k, x :: xs)) with ((QueryEscape k +:+ "=" +:+ QueryEscape x) :: pairsOf (k, xs)). cbn [foldl].
  rewrite queryPair_add. unfold Values_Add. rewrite valuesOf_new, mapSet_new by done. cbn [app].
  rewrite query_more, IH by (done || rewrite !map_app, <- app_assoc; done). by rewrite <- app_assoc.
Qed.

Lemma query_read v : NoDup (map fst v) -> Forall (fun kv => kv.2 <> []) v -> ParseQuery (Values_Encode v) = byKey v.
Proof.
  intros N H. unfold ParseQuery, Values_Encode.
  assert (N' : NoDup (map fst (byKey v))) by by rewrite byKey_perm.
  assert (H' : Forall (fun kv => kv.2 <> []) (byKey v)) by by rewrite byKey_perm.
  destruct (byKey v) as [|kv w] eqn:E; [done|]. rewrite Split_JoinWith.
  - by apply (query_pairs []).
  - destruct kv as [k [|x xs]]; [|done]. by apply Forall_cons in H' as [H' _].
  - rewrite Forall_flat_map. eapply Forall_impl; [exact H'|]. intros [k xs] _. unfold pairsOf. rewrite Forall_map.
    apply Forall_forall. intros x _. by apply pair_lacks.
Qed.

(** Whatever keys and values a query is made of, the server reads exactly them. *)
Theorem query_round_trip v : NoDup (map fst v) -> Forall (fun kv => kv.2 <> []) v ->
  ParseQuery (Values_Encode v) = byKey v /\ forall k, Values_Get k (ParseQuery (Values_Encode v)) = Values_Get k v.
Proof.
  intros N H. rewrite query_read by done. split; [done|]. intros k. unfold Values_Get. f_equal.
  assert (V : forall w : Values, NoDup (map fst w) -> forall xs, In (k, xs) w -> valuesOf k w = xs).
  { intros w Nw xs Hin. apply (in_split (k, xs)) in Hin as (w1 & w2 & ->). unfold valuesOf.
    induction w1 as [|[a z] w1 IH]; cbn [List.find map fst app]; [by rewrite String.eqb_refl|].
    cbn in Nw. apply NoDup_cons in Nw as [Hn Nw]. destruct (String.eqb_spec a k) as [->|_]; [|by apply IH].
    destruct Hn. rewrite map_app. apply elem_of_app. right. by left. }
  destruct (decide (k ∈ map fst v)) as [([k' xs] & -> & Hin)%list_elem_of_fmap|Hn].
  - cbn [fst] in V |- *. apply list_elem_of_In in Hin. rewrite (V v N xs Hin). apply (V (byKey v)); [by rewrite byKey_perm|].
    apply list_elem_of_In. rewrite byKey_perm. by apply list_elem_of_In.
  - rewrite !valuesOf_new; [done|done|by rewrite byKey_perm].
Qed.

Lemma query_round_trip_witness :
  let v := [("reason", ["a b&c=d;%é+"]); ("", ["x"; ""])]%string in
  ParseQuery (Values_Encode v) = byKey v /\ forall k, Values_Get k (ParseQuery (Values_Encode v)) = Values_Get k v.
Proof.
  apply query_round_trip.
  - apply (bool_decide_unpack _). vm_compute. exact I.
  - repeat constructor; discriminate.
Defined.

(** ** Plain names in a path *)

(** An identifier that means itself everywhere in a URL, as those that [generateID] makes. *)
Definition plain (id : string) : Prop :=
  unreservedText id = true /\ id ∉ [""; "."; ".."]%string.

Lemma plain_lacks d id : unreserved d = false -> plain id -> lacks d id = true.
Proof. intros Hd [H _]. by apply unreserved_lacks. Qed.

Lemma plain_neq id : plain id -> String.eqb id "" = false /\ String.eqb id "." = false /\ String.eqb id ".." = false.
Proof.
  intros [_ H]. rewrite !not_elem_of_cons in H. destruct H as (H1 & H2 & H3 & _).
  by rewrite !String.eqb_neq.
Qed.

Lemma cleanStep_plain rooted acc id : plain id -> cleanStep rooted acc id = id :: acc.
Proof. intros (H1 & H2 & H3)%plain_neq. unfold cleanStep. by rewrite H1, H2, H3. Qed.

Lemma Split_plain ids : ids <> [] -> Forall plain ids -> Split slash (JoinWith slash ids) = ids.
Proof.
  intros Hne H. apply Split_JoinWith; [done|]. eapply Forall_impl; [exact H|]. intros id Hid. by apply plain_lacks.
Qed.

Lemma cleanSteps_plain rooted ids acc : Forall plain ids -> foldl (cleanStep rooted) acc ids = rev ids ++ acc.
Proof.
  intros H. revert acc; induction H as [|id ids Hid H IH]; intros acc; [done|]. cbn [foldl rev].
  by rewrite cleanStep_plain, IH, <- app_assoc.
Qed.

Lemma startsWith_lacks d s : lacks d s = true -> startsWith d s = false.
Proof. destruct s as [|c s]; [done|]. cbn [lacks startsWith]. by destruct (Ascii.eqb c d). Qed.

Lemma startsWith_app d a b : lacks d a = true -> a <> EmptyString -> startsWith d (a +:+ b) = false.
Proof. destruct a as [|c a]; [done|]. intros H _. rewrite append_cons. apply (startsWith_lacks d (String c a)) in H. exact H. Qed.

Lemma Join_plain a b : plain a -> plain b -> Join [a; b] = a +:+ String slash b.
Proof.
  intros Ha Hb. assert (Na : a <> EmptyString) by by apply String.eqb_neq, plain_neq.
  assert (Nb : b <> EmptyString) by by apply String.eqb_neq, plain_neq.
  unfold Join. rewrite !filter_cons_True by done. rewrite filter_nil. unfold Clean.
  change (JoinWith slash [a; b]) with (a +:+ String slash b).
  rewrite startsWith_app by (done || by apply plain_lacks).
  unfold cleaned. change (a +:+ String slash b) with (JoinWith slash [a; b]).
  rewrite Split_plain, cleanSteps_plain by (done || auto using Forall_nil_2, Forall_cons_2). done.
Qed.

Lemma resolveStep_plain str first id : plain id ->
  resolveStep (str, first) id = ((if first then str +:+ id else str +:+ String slash id), false).
Proof. intros (_ & H2 & H3)%plain_neq. unfold resolveStep. by rewrite H2, H3. Qed.

Lemma resolve_plain ids str : Forall plain ids ->
  (foldl resolveStep (str, false) ids).1 = foldl (fun s id => s +:+ String slash id) str ids.
Proof.
  intros H. revert str; induction H as [|id ids Hid H IH]; intros str; [done|]. cbn [foldl].
  by rewrite resolveStep_plain, IH.
Qed.

Lemma foldl_slash ids str : foldl (fun s id => s +:+ String slash id) str ids =
  match ids with [] => str | _ => str +:+ String slash (JoinWith slash ids) end.
Proof.
  revert str; induction ids as [|id ids IH]; intros str; [done|]. cbn [foldl]. rewrite IH.
  destruct ids as [|id' ids]; [done|]. rewrite append_assoc, append_cons. done.
Qed.

(** A relative path of plain names is resolved against the root. *)
Lemma resolvePath_plain ids : ids <> [] -> Forall plain ids ->
  resolvePath "/" (JoinWith slash ids) = String slash (JoinWith slash ids).
Proof.
  intros Hne H. destruct ids as [|id ids]; [done|]. apply Forall_cons in H as [Hid H].
  assert (N : id <> EmptyString) by by apply String.eqb_neq, plain_neq.
  set (p := JoinWith slash (id :: ids)). assert (Np : p <> EmptyString).
  { subst p. destruct ids; [done|]. cbn [JoinWith]. by destruct id. }
  assert (Sp : startsWith slash p = false).
  { subst p. destruct ids; [by apply startsWith_lacks, plain_lacks|]. apply startsWith_app; [by apply plain_lacks|done]. }
  unfold resolvePath. apply String.eqb_neq in Np as ->. rewrite Sp.
  change (beforeLast slash "/") with (Some EmptyString). cbv iota.
  change (EmptyString +:+ String slash p) with (String slash p).
  change (String.eqb (String slash p) EmptyString) with false. cbv iota.
  assert (S : Split slash (String slash p) = EmptyString :: id :: ids).
  { change (String slash p) with (EmptyString +:+ String slash p). rewrite Split_at by done. f_equal.
    apply Split_plain; [done|by constructor]. }
  rewrite S. cbn [foldl]. change (resolveStep (EmptyString, true) EmptyString) with (EmptyString, false).
  rewrite resolveStep_plain, resolve_plain by done.
  rewrite bool_decide_eq_false_2.
  2: { intros L. assert (P : plain (List.last (EmptyString :: id :: ids) EmptyString)).
       { clear -Hid H. cbn [List.last]. revert id Hid; induction H as [|x ids Hx H IH]; intros id Hid; [done|]. by apply (IH x). }
       apply plain_neq in P as (_ & P2 & P3). apply String.eqb_neq in P2, P3. set_solver. }
  change (EmptyString +:+ String slash id) with (String slash id). rewrite foldl_slash.
  subst p. destruct ids as [|x ids]; [done|]. done.
Qed.

(** A path of unreserved characters is the same in every form. *)
Fixpoint pathText (s : string) : bool :=
  match s with
  | EmptyString => true
  | String c s' => (unreserved c || Ascii.eqb c slash) && pathText s'
  end.

Lemma pathText_append a b : pathText (a +:+ b) = pathText a && pathText b.
Proof.
  induction a as [|c a IH]; [done|]. rewrite append_cons. cbn [pathText]. by rewrite IH, andb_assoc.
Qed.

Lemma unreserved_pathText s : unreservedText s = true -> pathText s = true.
Proof.
  induction s as [|c s IH]; [done|]. cbn [unreservedText pathText]. intros [-> Hs]%andb_prop. by rewrite IH.
Qed.

Lemma plain_pathText ids : Forall plain ids -> pathText (JoinWith slash ids) = true.
Proof.
  induction 1 as [|id ids Hid H IH]; [done|]. pose proof (unreserved_pathText id (proj1 Hid)) as U.
  destruct ids as [|id' ids]; [done|]. change (JoinWith slash (id :: id' :: ids)) with (id +:+ String slash (JoinWith slash (id' :: ids))).
  rewrite pathText_append, U. exact IH.
Qed.

Lemma pathText_char c s : pathText (String c s) = true -> (unreserved c = true \/ c = slash) /\ pathText s = true.
Proof.
  cbn [pathText]. intros [[H|H]%orb_prop Hs]%andb_prop; split; auto. right. by apply Ascii.eqb_eq.
Qed.

Lemma pathText_lacks d s : unreserved d = false -> d <> slash -> pathText s = true -> lacks d s = true.
Proof.
  intros Hd Hs. induction s as [|c s IH]; [done|]. intros [Hc H]%pathText_char. cbn [lacks]. rewrite IH by done.
  destruct (Ascii.eqb_spec c d) as [->|]; [|done]. by destruct Hc; congruence.
Qed.

Lemma pathText_Escape s : pathText s = true -> Escape encodePath s = s.
Proof.
  induction s as [|c s IH]; [done|]. intros [Hc H]%pathText_char. cbn [Escape]. rewrite IH by done.
  unfold escapeChar, shouldEscape. destruct Hc as [-> | ->]; done.
Qed.

Lemma pathText_Unescape s : pathText s = true -> Unescape encodePath s = Some s.
Proof. intros H. rewrite <- (pathText_Escape s H) at 1. apply Unescape_Escape. Qed.

Lemma unreserved_range c : unreserved c = true -> 32 < byteZ c < 127.
Proof.
  unfold unreserved, isDigit, digitOf. intros [[[H|H]%orb_prop|H]%orb_prop|H]%orb_prop.
  - apply bool_decide_eq_true in H as [d H]. change (Z.of_N (Ascii.N_of_ascii c)) with (byteZ c) in H.
    destruct (Z.leb_spec 48 (byteZ c)), (Z.leb_spec (byteZ c) 57); try done. lia.
  - lia.
  - lia.
  - apply bool_decide_eq_true in H. rewrite !elem_of_cons in H.
    destruct H as [->|[->|[->|[->|H]]]]; [by vm_compute..|]. by apply elem_of_nil in H.
Qed.

Lemma hasCTL_append a b : hasCTL (a +:+ b) = hasCTL a || hasCTL b.
Proof.
  induction a as [|c a IH]; [done|]. rewrite append_cons. cbn [hasCTL]. by rewrite IH, !orb_assoc.
Qed.

Lemma pathText_noCTL s : pathText s = true -> hasCTL s = false.
Proof.
  induction s as [|c s IH]; [done|]. intros [Hc H]%pathText_char. cbn [hasCTL]. rewrite IH by done.
  assert (R : 32 < byteZ c < 127) by (destruct Hc as [Hc| ->]; [by apply unreserved_range|by vm_compute]).
  destruct (Z.ltb_spec (byteZ c) 32), (Z.eqb_spec (byteZ c) 127); lia || done.
Qed.

Lemma schemeOf_lacks first acc s : lacks ":" s = true -> schemeOf first acc s = Some None.
Proof.
  revert first acc; induction s as [|c s IH]; intros first acc; [done|]. cbn [lacks schemeOf].
  intros [Hc H]%andb_prop. destruct (isLetter c); [by apply IH|]. destruct (_ || _); [destruct first; [done|by apply IH]|].
  by destruct (Ascii.eqb c ":").
Qed.

Definition urlOf (path query : string) : URL :=
  {| Scheme := EmptyString; Path := path; RawPath := EmptyString; ForceQuery := false; RawQuery := query |}.

Lemma setPath_pathText p u : pathText p = true -> Scheme u = EmptyString -> ForceQuery u = false ->
  setPath p u = Some (urlOf p (RawQuery u)).
Proof.
  intros H Hs Hf. unfold setPath. rewrite pathText_Unescape by done. cbn [mbind option_bind].
  rewrite pathText_Escape, String.eqb_refl, Hs, Hf by done. done.
Qed.

Lemma not_star s : pathText s = true -> String.eqb s "*" = false.
Proof. intros H. apply String.eqb_neq. by intros ->. Qed.

Lemma Parse_pathText p : pathText p = true -> Parse p = Some (urlOf p "").
Proof.
  intros H. unfold Parse. rewrite (Cut_lacks "#") by by apply pathText_lacks. cbn [default from_option id].
  rewrite pathText_noCTL, not_star by done. unfold getScheme.
  rewrite schemeOf_lacks by by apply pathText_lacks. cbn [mbind option_bind]. unfold cutQuery.
  rewrite (Cut_lacks "?") by by apply pathText_lacks. change (String.eqb EmptyString EmptyString) with true.
  rewrite andb_false_r. cbv iota.
  assert (C : Contains ":" (hd EmptyString (Split slash p)) = false).
  { apply Contains_lacks. assert (L : lacks ":" p = true) by by apply pathText_lacks. clear -L.
    induction p as [|c p IH]; [done|]. cbn [lacks Split] in *. apply andb_prop in L as [Lc L].
    destruct (Ascii.eqb c slash); [done|]. specialize (IH L). destruct (Split slash p); [|by cbn in *; rewrite Lc].
    cbn. by rewrite Lc. }
  rewrite C, andb_false_r. rewrite setPath_pathText by done. done.
Qed.

Lemma EscapedPath_urlOf p q : pathText p = true -> EscapedPath (urlOf p q) = p.
Proof. intros H. unfold EscapedPath, urlOf. cbn. by rewrite not_star, pathText_Escape. Qed.

(** The URL of a path of plain names. *)
Lemma ResolveReference_plain ids : ids <> [] -> Forall plain ids ->
  (u ← Parse (JoinWith slash ids); ResolveReference "/" u) = Some (urlOf (String slash (JoinWith slash ids)) "").
Proof.
  intros Hne H. pose proof (plain_pathText ids H) as P. rewrite Parse_pathText by done. cbn [mbind option_bind].
  unfold ResolveReference. change (negb (String.eqb (Scheme (urlOf (JoinWith slash ids) "")) "")) with false. cbv iota.
  rewrite EscapedPath_urlOf, resolvePath_plain by done. by apply setPath_pathText.
Qed.

Definition withQuery (p q : string) : string := p +:+ (if String.eqb q "" then "" else "?" +:+ q).

Lemma RequestURI_urlOf p q : pathText p = true -> p <> EmptyString -> RequestURI (urlOf p q) = Some (withQuery p q).
Proof.
  intros H Hp. unfold RequestURI. change (negb (String.eqb (Scheme (urlOf p q)) "")) with false. cbv iota.
  rewrite EscapedPath_urlOf by done. apply String.eqb_neq in Hp as ->. cbn [ForceQuery RawQuery urlOf orb].
  unfold withQuery. by destruct (String.eqb q "").
Qed.

(** What the server reads off the request line. *)
Lemma ParseRequestURI_urlOf p q : pathText (String slash p) = true -> hasCTL q = false ->
  ParseRequestURI (withQuery (String slash p) q) = Some (urlOf (String slash p) q).
Proof.
  intros H Hq. unfold ParseRequestURI, withQuery. pose proof (pathText_noCTL _ H) as N.
  assert (L : lacks "?" (String slash p) = true) by by apply pathText_lacks.
  destruct (String.eqb_spec q "") as [->|Hne].
  - rewrite append_nil, N, not_star by done. change (negb (startsWith slash (String slash p))) with false. cbv iota.
    unfold cutQuery. rewrite Cut_lacks by done. by rewrite setPath_pathText.
  - change ("?" +:+ q) with (String "?" q). rewrite hasCTL_append, N.
    change (hasCTL (String "?" q)) with (hasCTL q). rewrite Hq. cbn [orb].
    assert (S : String.eqb (String slash p +:+ String "?" q) "*" = false) by done. rewrite S.
    change (negb (startsWith slash (String slash p +:+ String "?" q))) with false. cbv iota.
    unfold cutQuery. rewrite Cut_at by done. destruct q as [|c q]; [done|]. by rewrite setPath_pathText.
Qed.

Lemma upperHex_noCTL n s : 0 <= n < 16 -> hasCTL (String (upperHex n) s) = hasCTL s.
Proof.
  intros H. apply upperHex_unreserved, unreserved_range in H. cbn [hasCTL].
  destruct (Z.ltb_spec (byteZ (upperHex n)) 32), (Z.eqb_spec (byteZ (upperHex n)) 127); lia || done.
Qed.

Lemma QueryEscape_noCTL s : hasCTL (QueryEscape s) = false.
Proof.
  unfold QueryEscape. induction s as [|c s IH]; [done|]. cbn [Escape]. rewrite hasCTL_append, IH, orb_false_r.
  destruct (escapeChar_cases encodeQueryComponent c) as [[-> Hk]|[(_ & _ & ->)| ->]]; [|done|].
  - unfold shouldEscape in Hk. rewrite andb_true_r in Hk. apply negb_false_iff, unreserved_range in Hk. cbn [hasCTL].
    destruct (Z.ltb_spec (byteZ c) 32), (Z.eqb_spec (byteZ c) 127); lia || done.
  - destruct (byte_digits c) as (B1 & B2 & _). change (hasCTL (String "%" ?s)) with (hasCTL s).
    by rewrite !upperHex_noCTL.
Qed.
