(* ===== verification/Answers.v ===== *)
(** * What the API answers

    [types/client.go]: how the information on clients is written as JSON and read, as the
    client of the API does, and the other bodies of the answers ([api.go]). The text of a
    time of day is an argument. *)

From stdpp Require Import pretty sorting.
From S2P Require Import Prelude Bytes Fields Decimals Times Numbers Durations Config Stats Server Sse Runes Json Loading.

Open Scope Z_scope.

(** [Time.MarshalJSON] without the quotes, and [UnmarshalJSON]. *)
Class TimeText : Type := {
  FormatTime : Time -> string;
  ParseTime : string -> option Time
}.

Section Answers.
Context `{Floats} `{TimeText} (OtherJson : field -> json).

Definition timeC : codec Time := {|
  enc := fun t => JStr (FormatTime t); zero := zeroTime;
  dec := fun j t => match j with JNull => Some t | JStr s => ParseTime s | _ => None end |}.

(** [map[string]int64], which is never nil. *)
Definition countsC : codec (gmap string Z) := {|
  enc := fun m => enc (mapC intC) (Some (map_to_list m)); zero := ∅;
  dec := fun j m => (fun t => list_to_map (default [] t)) <$> dec (mapC intC) j (Some (map_to_list m)) |}.

(** [StatsSummary]. *)
Definition ss_total_methods : fieldOf StatsSummary Z := {|
  f_name := "total_methods"; f_omit := never; f_codec := intC; f_get := StatsSummary_TotalMethods;
  f_set := fun v '(Build_StatsSummary _ b c d e) => Build_StatsSummary v b c d e |}.
Definition ss_received_frames : fieldOf StatsSummary Z := {|
  f_name := "received_frames"; f_omit := never; f_codec := intC; f_get := StatsSummary_ReceivedFrames;
  f_set := fun v '(Build_StatsSummary a _ c d e) => Build_StatsSummary a v c d e |}.
Definition ss_sent_frames : fieldOf StatsSummary Z := {|
  f_name := "sent_frames"; f_omit := never; f_codec := intC; f_get := StatsSummary_SentFrames;
  f_set := fun v '(Build_StatsSummary a b _ d e) => Build_StatsSummary a b v d e |}.
Definition ss_total_frames : fieldOf StatsSummary Z := {|
  f_name := "total_frames"; f_omit := never; f_codec := intC; f_get := StatsSummary_TotalFrames;
  f_set := fun v '(Build_StatsSummary a b c _ e) => Build_StatsSummary a b c v e |}.
Definition ss_duration : fieldOf StatsSummary string := {|
  f_name := "duration"; f_omit := never; f_codec := stringC; f_get := StatsSummary_Duration;
  f_set := fun v '(Build_StatsSummary a b c d _) => Build_StatsSummary a b c d v |}.
Definition statsSummaryC : codec StatsSummary := structC
  [memberOf ss_total_methods; memberOf ss_received_frames; memberOf ss_sent_frames; memberOf ss_total_frames; memberOf ss_duration]
  [decoderOf ss_total_methods; decoderOf ss_received_frames; decoderOf ss_sent_frames; decoderOf ss_total_frames; decoderOf ss_duration]
  (Build_StatsSummary 0 0 0 0 EmptyString).

(** [FullStatsSummary], which has the fields of [StatsSnapshot]. *)
Definition sn_started_at : fieldOf StatsSnapshot Time := {|
  f_name := "started_at"; f_omit := never; f_codec := timeC; f_get := StatsSnapshot_StartedAt;
  f_set := fun v '(Build_StatsSnapshot _ b c d e f g) => Build_StatsSnapshot v b c d e f g |}.
Definition sn_methods : fieldOf StatsSnapshot (gmap string Z) := {|
  f_name := "methods"; f_omit := never; f_codec := countsC; f_get := StatsSnapshot_Methods;
  f_set := fun v '(Build_StatsSnapshot a _ c d e f g) => Build_StatsSnapshot a v c d e f g |}.
Definition sn_total_methods : fieldOf StatsSnapshot Z := {|
  f_name := "total_methods"; f_omit := never; f_codec := intC; f_get := StatsSnapshot_TotalMethods;
  f_set := fun v '(Build_StatsSnapshot a b _ d e f g) => Build_StatsSnapshot a b v d e f g |}.
Definition sn_received_frames : fieldOf StatsSnapshot Z := {|
  f_name := "received_frames"; f_omit := never; f_codec := intC; f_get := StatsSnapshot_ReceivedFrames;
  f_set := fun v '(Build_StatsSnapshot a b c _ e f g) => Build_StatsSnapshot a b c v e f g |}.
Definition sn_sent_frames : fieldOf StatsSnapshot Z := {|
  f_name := "sent_frames"; f_omit := never; f_codec := intC; f_get := StatsSnapshot_SentFrames;
  f_set := fun v '(Build_StatsSnapshot a b c d _ f g) => Build_StatsSnapshot a b c d v f g |}.
Definition sn_total_frames : fieldOf StatsSnapshot Z := {|
  f_name := "total_frames"; f_omit := never; f_codec := intC; f_get := StatsSnapshot_TotalFrames;
  f_set := fun v '(Build_StatsSnapshot a b c d e _ g) => Build_StatsSnapshot a b c d e v g |}.
Definition sn_duration : fieldOf StatsSnapshot string := {|
  f_name := "duration"; f_omit := never; f_codec := stringC; f_get := StatsSnapshot_Duration;
  f_set := fun v '(Build_StatsSnapshot a b c d e f _) => Build_StatsSnapshot a b c d e f v |}.
Definition fullStatsSummaryC : codec StatsSnapshot := structC
  [memberOf sn_started_at; memberOf sn_methods; memberOf sn_total_methods; memberOf sn_received_frames; memberOf sn_sent_frames; memberOf sn_total_frames; memberOf sn_duration]
  [decoderOf sn_started_at; decoderOf sn_methods; decoderOf sn_total_methods; decoderOf sn_received_frames; decoderOf sn_sent_frames; decoderOf sn_total_frames; decoderOf sn_duration]
  (Build_StatsSnapshot zeroTime ∅ 0 0 0 0 EmptyString).

Section Info.
Context {St : Type} (statsC : codec St).

(** [ClientInfo] and [FullClientInfo]. *)
Definition in_id : fieldOf (Info St) string := {|
  f_name := "id"; f_omit := never; f_codec := stringC; f_get := Info_ID St;
  f_set := fun v '(Build_Info _ _ b c d e f g h i j k) => Build_Info _ v b c d e f g h i j k |}.
Definition in_client_address : fieldOf (Info St) string := {|
  f_name := "client_address"; f_omit := isEmpty; f_codec := stringC; f_get := Info_ClientAddress St;
  f_set := fun v '(Build_Info _ a _ c d e f g h i j k) => Build_Info _ a v c d e f g h i j k |}.
Definition in_user : fieldOf (Info St) string := {|
  f_name := "user"; f_omit := isEmpty; f_codec := stringC; f_get := Info_User St;
  f_set := fun v '(Build_Info _ a b _ d e f g h i j k) => Build_Info _ a b v d e f g h i j k |}.
Definition in_virtual_host : fieldOf (Info St) string := {|
  f_name := "virtual_host"; f_omit := isEmpty; f_codec := stringC; f_get := Info_VirtualHost St;
  f_set := fun v '(Build_Info _ a b c _ e f g h i j k) => Build_Info _ a b c v e f g h i j k |}.
Definition in_client_banner : fieldOf (Info St) string := {|
  f_name := "client_banner"; f_omit := isEmpty; f_codec := stringC; f_get := Info_ClientBanner St;
  f_set := fun v '(Build_Info _ a b c d _ f g h i j k) => Build_Info _ a b c d v f g h i j k |}.
Definition in_client_properties : fieldOf (Info St) Table := {|
  f_name := "client_properties"; f_omit := noEntries; f_codec := mapC (anyC OtherJson); f_get := Info_ClientProperties St;
  f_set := fun v '(Build_Info _ a b c d e _ g h i j k) => Build_Info _ a b c d e v g h i j k |}.
Definition in_connected_at : fieldOf (Info St) Time := {|
  f_name := "connected_at"; f_omit := never; f_codec := timeC; f_get := Info_ConnectedAt St;
  f_set := fun v '(Build_Info _ a b c d e f _ h i j k) => Build_Info _ a b c d e f v h i j k |}.
Definition in_disconnected_at : fieldOf (Info St) Time := {|
  f_name := "disconnected_at"; f_omit := never; f_codec := timeC; f_get := Info_DisconnectedAt St;
  f_set := fun v '(Build_Info _ a b c d e f g _ i j k) => Build_Info _ a b c d e f g v i j k |}.
Definition in_status : fieldOf (Info St) string := {|
  f_name := "status"; f_omit := never; f_codec := stringC; f_get := Info_Status St;
  f_set := fun v '(Build_Info _ a b c d e f g h _ j k) => Build_Info _ a b c d e f g h v j k |}.
Definition in_shutdown_reason : fieldOf (Info St) string := {|
  f_name := "shutdown_reason"; f_omit := isEmpty; f_codec := stringC; f_get := Info_ShutdownReason St;
  f_set := fun v '(Build_Info _ a b c d e f g h i _ k) => Build_Info _ a b c d e f g h i v k |}.
Definition in_stats : fieldOf (Info St) (option St) := {|
  f_name := "stats"; f_omit := isNil; f_codec := ptrC statsC; f_get := Info_Stats St;
  f_set := fun v '(Build_Info _ a b c d e f g h i j _) => Build_Info _ a b c d e f g h i j v |}.
Definition infoC : codec (Info St) := structC
  [memberOf in_id; memberOf in_client_address; memberOf in_user; memberOf in_virtual_host; memberOf in_client_banner; memberOf in_client_properties; memberOf in_connected_at; memberOf in_disconnected_at; memberOf in_status; memberOf in_shutdown_reason; memberOf in_stats]
  [decoderOf in_id; decoderOf in_client_address; decoderOf in_user; decoderOf in_virtual_host; decoderOf in_client_banner; decoderOf in_client_properties; decoderOf in_connected_at; decoderOf in_disconnected_at; decoderOf in_status; decoderOf in_shutdown_reason; decoderOf in_stats]
  (Build_Info St EmptyString EmptyString EmptyString EmptyString EmptyString None zeroTime zeroTime EmptyString EmptyString None).

End Info.

Definition clientInfoC : codec ClientInfo := infoC statsSummaryC.
Definition fullClientInfoC : codec FullClientInfo := infoC fullStatsSummaryC.
End Answers.

(** ** Reading back *)

Section Laws.
Context `{Floats} `{TimeText} (OtherJson : field -> json).

Definition carriedTime (t : Time) : Prop := ParseTime (FormatTime t) = Some t.

Lemma time_lawful : lawful timeC carriedTime (fun t => t).
Proof. intros t Ht. exact Ht. Qed.

Lemma field_number {R} (f : fieldOf R Z) v : f_codec f = intC -> f_omit f = never -> int64 v -> field_law f v v.
Proof. intros Hc Ho Hv. unfold field_law. rewrite Hc, Ho. by apply int_lawful. Qed.

Lemma field_time {R} (f : fieldOf R Time) v : f_codec f = timeC -> f_omit f = never -> carriedTime v -> field_law f v v.
Proof. intros Hc Ho Hv. unfold field_law. rewrite Hc, Ho. by apply time_lawful. Qed.
#[local] Hint Resolve field_number field_time : fields.

Definition carriedSummary (s : StatsSummary) : Prop :=
  int64 (StatsSummary_TotalMethods s) /\ int64 (StatsSummary_ReceivedFrames s) /\
  int64 (StatsSummary_SentFrames s) /\ int64 (StatsSummary_TotalFrames s).

Lemma summary_lawful : lawful statsSummaryC carriedSummary (fun s => s).
Proof.
  intros [a b c d e] (H1 & H2 & H3 & H4). cbn [statsSummaryC structC enc dec zero map concat].
  do 5 next_field. reflexivity.
Qed.

Definition carriedCounts (m : gmap string Z) : Prop := map_Forall (fun _ => int64) m.

Lemma counts_lawful : lawful countsC carriedCounts (fun m => m).
Proof.
  intros m Hm. cbn [countsC enc dec zero].
  assert (Hn : NoDup (map fst (map_to_list m))) by apply NoDup_fst_map_to_list.
  assert (Hf : Forall (fun kv => int64 kv.2) (map_to_list m)).
  { apply Forall_forall. intros [k v] Hin. apply elem_of_map_to_list in Hin. by apply (Hm k). }
  cbn [mapC enc dec]. rewrite map_to_list_empty. cbn [default from_option id].
  rewrite (decMap_enc intC int64 (fun z => z)); [|exact int_lawful|by rewrite byKey_perm|cbn; by rewrite byKey_perm].
  cbn. f_equal. etransitivity; [|apply (list_to_map_to_list m)]. apply list_to_map_proper.
  - rewrite map_map. cbn. change (NoDup (map fst (byKey (map_to_list m)))). by rewrite byKey_perm.
  - etransitivity; [|apply byKey_perm]. apply Permutation_refl'. etransitivity; [|apply map_id]. by apply map_ext; intros [].
Qed.

Definition carriedFull (s : StatsSnapshot) : Prop :=
  carriedTime (StatsSnapshot_StartedAt s) /\ carriedCounts (StatsSnapshot_Methods s) /\
  int64 (StatsSnapshot_TotalMethods s) /\ int64 (StatsSnapshot_ReceivedFrames s) /\
  int64 (StatsSnapshot_SentFrames s) /\ int64 (StatsSnapshot_TotalFrames s).

Lemma full_lawful : lawful fullStatsSummaryC carriedFull (fun s => s).
Proof.
  intros [a b c d e f g] (H1 & H2 & H3 & H4 & H5 & H6). cbn [fullStatsSummaryC structC enc dec zero map concat]. next_field.
  erewrite decMembers_field; [|reflexivity..|eapply (field_struct _ carriedCounts (fun m => m)); [reflexivity|exact counts_lawful|done]].
  do 5 next_field. reflexivity.
Qed.

Section Info.
Context {St : Type} (statsC : codec St) (P : St -> Prop).
Context (stats_lawful : lawful statsC P (fun s => s)) (stats_object : forall s, enc statsC s <> JNull).

Definition carriedInfo (i : Info St) : Prop :=
  carriedMap carriedValue (Info_ClientProperties St i) /\ carriedTime (Info_ConnectedAt St i) /\
  carriedTime (Info_DisconnectedAt St i) /\ from_option P True (Info_Stats St i).

(** The properties in the order of their names. *)
Definition canonInfo (i : Info St) : Info St := {|
  Info_ID := Info_ID St i; Info_ClientAddress := Info_ClientAddress St i; Info_User := Info_User St i;
  Info_VirtualHost := Info_VirtualHost St i; Info_ClientBanner := Info_ClientBanner St i;
  Info_ClientProperties := canonMap (Info_ClientProperties St i); Info_ConnectedAt := Info_ConnectedAt St i;
  Info_DisconnectedAt := Info_DisconnectedAt St i; Info_Status := Info_Status St i;
  Info_ShutdownReason := Info_ShutdownReason St i; Info_Stats := Info_Stats St i |}.

Lemma info_lawful : lawful (infoC OtherJson statsC) carriedInfo canonInfo.
Proof.
  intros [a b c d e f g h i j k] (H1 & H2 & H3 & H4). cbn [infoC structC enc dec zero map concat].
  do 5 next_field.
  erewrite decMembers_field; [|reflexivity..|eapply field_map; [reflexivity|reflexivity|exact (any_lawful OtherJson)|exact H1]].
  do 4 next_field.
  erewrite decMembers_field; [|reflexivity..|eapply field_ptr; [reflexivity|reflexivity|exact stats_lawful|exact stats_object|exact H4]].
  cbn. by rewrite option_fmap_id.
Qed.

Lemma info_encodes : encodes statsC P -> encodes (infoC OtherJson statsC) carriedInfo.
Proof.
  intros Hs. assert (T : encodes timeC any_value) by done.
  assert (M : encodes (mapC (anyC OtherJson)) (carriedMap carriedValue)) by apply map_encodes, any_encodes.
  assert (O : encodes (ptrC statsC) (from_option P True)) by by apply ptr_encodes.
  encodes_struct.
Qed.
End Info.

Lemma summary_encodes : encodes statsSummaryC any_value.
Proof. encodes_struct. Qed.

Lemma counts_encodes : encodes countsC any_value.
Proof.
  intros m _. apply (map_encodes intC any_value int_encodes). split; [apply NoDup_fst_map_to_list|].
  by apply Forall_forall.
Qed.

Lemma full_encodes : encodes fullStatsSummaryC any_value.
Proof. pose proof counts_encodes. assert (T : encodes timeC any_value) by done. encodes_struct. Qed.
End Laws.
