(* ===== verification/LogText.v ===== *)
(** * The text of log entries

    [types/client.go] and [api.go]: the JSON of a log in an event stream and of an entry of
    the server's log, and what the client decodes it to. A text that [Marshal] writes has no
    control character, so that it is the data of one event. *)

From Stdlib Require Import Strings.Ascii.
From stdpp Require Import pretty sorting.
From S2P Require Import Prelude Bytes Fields Decimals Times Stats LogBuffers Sse Runes Json Loading Urls Answers.

Open Scope Z_scope.

Section Entries.
Context `{Floats} `{TimeText} (OtherJson : field -> json).
#[local] Abbreviation ProbeLogEntry := (ProbeLogEntry (any := field)).

(** [map[string]any]. *)
Definition entriesOf (o : option (gmap string field)) : option (list (string * field)) :=
  match o with Some m => Some (map_to_list m) | None => None end.
Definition attrsOf (o : option (list (string * field))) : option (gmap string field) :=
  match o with Some l => Some (list_to_map l) | None => None end.
Definition attrsC : codec (option (gmap string field)) := {|
  enc := fun o => enc (mapC (anyC OtherJson)) (entriesOf o); zero := None;
  dec := fun j o => attrsOf <$> dec (mapC (anyC OtherJson)) j (entriesOf o) |}.

Definition noAttrs (o : option (gmap string field)) : bool :=
  match o with Some m => bool_decide (m = ∅) | None => true end.

(** [ProbeLogEntry]. *)
Definition pl_timestamp : fieldOf ProbeLogEntry Time := {|
  f_name := "timestamp"; f_omit := never; f_codec := timeC; f_get := ProbeLogEntry_Timestamp;
  f_set := fun v '(Build_ProbeLogEntry _ b c d) => Build_ProbeLogEntry v b c d |}.
Definition pl_message : fieldOf ProbeLogEntry string := {|
  f_name := "message"; f_omit := never; f_codec := stringC; f_get := ProbeLogEntry_Message;
  f_set := fun v '(Build_ProbeLogEntry a _ c d) => Build_ProbeLogEntry a v c d |}.
Definition pl_proxy_id : fieldOf ProbeLogEntry string := {|
  f_name := "proxy_id"; f_omit := isEmpty; f_codec := stringC; f_get := ProbeLogEntry_ProxyID;
  f_set := fun v '(Build_ProbeLogEntry a b _ d) => Build_ProbeLogEntry a b v d |}.
Definition pl_attrs : fieldOf ProbeLogEntry (option (gmap string field)) := {|
  f_name := "attrs"; f_omit := noAttrs; f_codec := attrsC; f_get := ProbeLogEntry_Attrs;
  f_set := fun v '(Build_ProbeLogEntry a b c _) => Build_ProbeLogEntry a b c v |}.
Definition probeLogEntryC : codec ProbeLogEntry := structC
  [memberOf pl_timestamp; memberOf pl_message; memberOf pl_proxy_id; memberOf pl_attrs]
  [decoderOf pl_timestamp; decoderOf pl_message; decoderOf pl_proxy_id; decoderOf pl_attrs]
  (Build_ProbeLogEntry zeroTime EmptyString EmptyString None).

Definition UnmarshalEntry (data : string) : option ProbeLogEntry := Unmarshal probeLogEntryC data (zero probeLogEntryC).
Definition MarshalEntry (e : ProbeLogEntry) : option string := Some (Marshal (enc probeLogEntryC e)).

(** The anonymous struct of [apiProbeLogHandler], which has no identifier. *)
Definition MarshalLog (t : Time) (msg : string) (attrs : option (gmap string field)) : option string :=
  Some (Marshal (JObj ([("timestamp"%string, enc timeC t); ("message"%string, JStr msg)]
    ++ if noAttrs attrs then [] else [("attrs"%string, enc attrsC attrs)]))).
End Entries.

(** ** No control characters *)

Fixpoint noControl (s : string) : bool :=
  match s with
  | EmptyString => true
  | String c s' => (32 <=? byteZ c) && noControl s'
  end.

Lemma noControl_append a b : noControl (a +:+ b) = noControl a && noControl b.
Proof.
  induction a as [|c a IH]; [done|]. rewrite append_cons. cbn [noControl]. by rewrite IH, andb_assoc.
Qed.

Lemma noControl_lf s : noControl s = true -> has_lf s = false.
Proof.
  induction s as [|c s IH]; [done|]. cbn [noControl has_lf]. intros [Hc Hs]%andb_prop. rewrite IH by done.
  rewrite orb_false_r. apply bool_decide_eq_false. intros ->. by vm_compute in Hc.
Qed.

Lemma noControl_cons c s : 32 <= byteZ c -> noControl (String c s) = noControl s.
Proof. intros H. cbn [noControl]. by apply Z.leb_le in H as ->. Qed.

Lemma hexDigit_control n : 0 <= n < 16 -> 32 <= byteZ (hexDigit n).
Proof. intros H. unfold hexDigit. destruct (Z.ltb_spec n 10); rewrite byteZ_chr; lia. Qed.

Lemma unicode_control r : noControl (unicode r) = true.
Proof.
  unfold unicode. assert (M : forall x, 0 <= x mod 16 < 16) by (intros x; apply Z.mod_pos_bound; lia).
  rewrite !noControl_cons by first [by apply hexDigit_control, M|by vm_compute]. done.
Qed.

Lemma escapeByte_control b : 0 <= b < 256 -> noControl (escapeByte b) = true.
Proof.
  intros Hb. unfold escapeByte. destruct (htmlSafe b) eqn:E.
  - apply htmlSafe_spec in E as [E _]. rewrite noControl_cons by (rewrite byteZ_chr; lia). done.
  - destruct (assoc b escapes) as [l|] eqn:El; [|apply unicode_control]. rewrite noControl_cons by by vm_compute.
    unfold assoc in El. destruct (list_find _ escapes) as [[i [k x]]|] eqn:Ef; [|done]. injection El as <-.
    apply list_find_Some in Ef as (Hi & _ & _). apply list_elem_of_lookup_2 in Hi.
    unfold escapes in Hi. rewrite !elem_of_cons in Hi. repeat destruct Hi as [[= _ ->]|Hi]; try (vm_compute; reflexivity).
    by apply elem_of_nil in Hi.
Qed.

Lemma encodeValid_control r : 128 <= r < 1114112 -> noControl (encodeValid r) = true.
Proof.
  intros Hr. unfold encodeValid. pose proof (Z.mod_pos_bound r 64). pose proof (Z.mod_pos_bound (r / 64) 64).
  pose proof (Z.mod_pos_bound (r / 4096) 64).
  assert (D : 0 <= r / 64 /\ 0 <= r / 4096 /\ 0 <= r / 262144) by (split_and!; apply Z.div_pos; lia).
  destruct (Z.ltb_spec r 128); [lia|]. destruct (Z.ltb_spec r 2048).
  { assert (r / 64 < 32) by (apply Z.div_lt_upper_bound; lia). by rewrite !noControl_cons by (rewrite byteZ_chr; lia). }
  destruct (Z.ltb_spec r 65536).
  { assert (r / 4096 < 16) by (apply Z.div_lt_upper_bound; lia). by rewrite !noControl_cons by (rewrite byteZ_chr; lia). }
  assert (r / 262144 < 8) by (apply Z.div_lt_upper_bound; lia). by rewrite !noControl_cons by (rewrite byteZ_chr; lia).
Qed.

Lemma escape_control n s : noControl (escape_fuel n s) = true.
Proof.
  revert s; induction n as [|n IH]; intros s; [by destruct s|]. destruct s as [|c s]; [done|]. cbn [escape_fuel].
  pose proof (byteZ_range c). destruct (Z.ltb_spec (byteZ c) 128).
  { rewrite noControl_append, escapeByte_control, IH by lia. done. }
  pose proof (decodeRune_high c s) as Hh. pose proof (decodeRune_valid c s) as Hv. destruct (decodeRune c s) as [r rest].
  cbn [fst] in *. rewrite noControl_append, IH, andb_true_r. unfold escapeRune. destruct (_ && _); [apply unicode_control|].
  destruct (_ || _); [apply unicode_control|]. apply encodeValid_control. apply valid_runes in Hv. specialize (Hh ltac:(lia)). lia.
Qed.

Lemma quoted_control s : noControl (quoted s) = true.
Proof.
  unfold quoted, escape. rewrite noControl_cons by by vm_compute. by rewrite noControl_append, escape_control.
Qed.

(** Of numbers. *)
Lemma spanDigits_control s : noControl (spanDigits s).1 = true.
Proof.
  induction s as [|c s IH]; [done|]. cbn [spanDigits]. destruct (isDigit c) eqn:E; [|done].
  destruct (spanDigits s) as [d r]. cbn [fst] in *. rewrite noControl_cons; [done|].
  assert (U : unreserved c = true) by (unfold unreserved; by rewrite E). apply unreserved_range in U. lia.
Qed.

Lemma digits1_control s d r : digits1 s = Some (d, r) -> noControl d = true.
Proof.
  unfold digits1. pose proof (spanDigits_control s) as H. destruct (spanDigits s) as [[|c x] y]; [done|]. by intros [= <- _].
Qed.

Lemma intPart_control s d r : intPart s = Some (d, r) -> noControl d = true.
Proof.
  destruct s as [|c s]; [done|]. cbn [intPart]. destruct (Ascii.eqb c "0"); [by intros [= <- _]|apply digits1_control].
Qed.

Lemma fracPart_control s d r : fracPart s = Some (d, r) -> noControl d = true.
Proof.
  destruct s as [|c s]; [by intros [= <- _]|]. cbn [fracPart]. destruct (Ascii.eqb_spec c "."); [|by intros [= <- _]].
  destruct (digits1 s) as [[x y]|] eqn:E; [|done]. intros [= <- _]. subst c.
  rewrite noControl_cons by by vm_compute. by eapply digits1_control.
Qed.

Lemma expPart_control s d r : expPart s = Some (d, r) -> noControl d = true.
Proof.
  destruct s as [|c s]; [by intros [= <- _]|]. cbn [expPart].
  destruct (Ascii.eqb c "e" || Ascii.eqb c "E") eqn:Ec; [|by intros [= <- _]].
  assert (C : 32 <= byteZ c) by (apply orb_prop in Ec as [->%Ascii.eqb_eq| ->%Ascii.eqb_eq]; by vm_compute).
  destruct s as [|g s]; [done|]. destruct (Ascii.eqb g "+" || Ascii.eqb g "-") eqn:Eg.
  - assert (G : 32 <= byteZ g) by (apply orb_prop in Eg as [->%Ascii.eqb_eq| ->%Ascii.eqb_eq]; by vm_compute).
    destruct (digits1 s) as [[x y]|] eqn:E; [|done]. intros [= <- _]. rewrite !noControl_cons by done. by eapply digits1_control.
  - destruct (digits1 (String g s)) as [[x y]|] eqn:E; [|done]. intros [= <- _]. rewrite noControl_cons by done. by eapply digits1_control.
Qed.

Lemma number_control s d r : number s = Some (d, r) -> noControl d = true.
Proof.
  unfold number. set (p := match s with String c s' => if Ascii.eqb c "-" then (String c EmptyString, s') else (EmptyString, s)
    | EmptyString => (EmptyString, s) end).
  assert (P : noControl p.1 = true).
  { subst p. destruct s as [|c s']; [done|]. by destruct (Ascii.eqb_spec c "-") as [->|]. }
  destruct p as [sign s1]. cbn [fst] in P. destruct (intPart s1) as [[i s2]|] eqn:E1; [|done]. cbn [mbind option_bind].
  destruct (fracPart s2) as [[f s3]|] eqn:E2; [|done]. cbn [mbind option_bind].
  destruct (expPart s3) as [[e s4]|] eqn:E3; [|done]. intros [= <- _]. rewrite !noControl_append, P.
  apply intPart_control in E1 as ->. apply fracPart_control in E2 as ->. by apply expPart_control in E3 as ->.
Qed.

Lemma items_control {A} sp (f : A -> string) l : noControl sp = true -> Forall (fun x => noControl (f x) = true) l ->
  noControl (items sp f l) = true.
Proof.
  intros Hs. induction 1 as [|x l Hx Hl IH]; [done|]. destruct l as [|y l]; [exact Hx|].
  change (items sp f (x :: y :: l)) with (f x +:+ "," +:+ sp +:+ items sp f (y :: l)).
  by rewrite !noControl_append, Hx, Hs, IH.
Qed.

(** What [Marshal] writes. *)
Lemma Marshal_control j : well_formed j -> noControl (Marshal j) = true.
Proof.
  unfold Marshal. revert j. apply (json_ind' (fun j => well_formed j -> noControl (write None j) = true)).
  - intros l IH Hl. cbn [well_formed] in Hl. apply foldr_and in Hl. destruct l as [|x l]; [done|].
    cbn [write fmap option_fmap option_map break]. rewrite !noControl_append, items_control; [done|done|].
    rewrite Forall_forall in IH. rewrite Forall_forall in Hl. apply Forall_forall. auto.
  - intros l IH Hl. cbn [well_formed] in Hl. apply foldr_and in Hl. destruct l as [|x l]; [done|].
    cbn [write fmap option_fmap option_map break colon]. rewrite !noControl_append, items_control; [done|done|].
    rewrite Forall_forall in IH. rewrite Forall_forall in Hl. apply Forall_forall. intros kv Hkv.
    rewrite !noControl_append, quoted_control, (IH kv Hkv (Hl kv Hkv)). done.
  - intros j. destruct j as [|b|lit|s|l|l]; try done; cbn [write well_formed].
    + by destruct b.
    + intros H. by eapply number_control.
    + intros _. apply quoted_control.
Qed.

Lemma dropCR_end a : dropCR (a +:+ "}") = a +:+ "}".
Proof.
  induction a as [|c a IH]; [done|]. rewrite append_cons. cbn [dropCR]. rewrite IH. by destruct a.
Qed.

(** An object is the data of an event. *)
Lemma Marshal_event ms : well_formed (JObj ms) -> event_data (Marshal (JObj ms)).
Proof.
  intros Hw. split_and!; [by apply noControl_lf, Marshal_control| |by destruct ms].
  unfold Marshal. destruct ms as [|m ms]; [done|]. cbn [write]. rewrite <- !append_assoc. apply dropCR_end.
Qed.

(** ** Entries, read back

    What the other side of the stream sees of an entry. Its attributes have become values of
    JSON: numbers are floats, tables and structs are maps. *)

Section Laws.
Context `{Floats} `{TimeText} (OtherJson : field -> json).

(** A value as it is decoded, if it can be. *)
Definition arrivedValue (v : field) : option field := anyValue (validated (anyJson OtherJson v)).

(** An empty map is left out. *)
Definition arrivedAttrs (o : option (gmap string field)) : option (gmap string field) :=
  if noAttrs o then None else (fun m : gmap string field => omap arrivedValue m) <$> o.

Definition arrivedEntry (e : ProbeLogEntry (any := field)) : ProbeLogEntry (any := field) := {|
  ProbeLogEntry_Timestamp := ProbeLogEntry_Timestamp e; ProbeLogEntry_Message := valid (ProbeLogEntry_Message e);
  ProbeLogEntry_ProxyID := valid (ProbeLogEntry_ProxyID e); ProbeLogEntry_Attrs := arrivedAttrs (ProbeLogEntry_Attrs e) |}.

(** What the transport of an entry takes: its time has a text, the keys of its attributes are
    UTF-8, their values are encoded as JSON, whose numbers are of [float64]. *)
Definition transportable (e : ProbeLogEntry (any := field)) : Prop :=
  ParseTime (valid (FormatTime (ProbeLogEntry_Timestamp e))) = Some (ProbeLogEntry_Timestamp e) /\
  from_option (map_Forall (fun k v => valid k = k /\ well_formed (anyJson OtherJson v) /\ is_Some (arrivedValue v)))
    True (ProbeLogEntry_Attrs e).

(** A value through the wire. *)
Definition wired : codec field := {|
  enc := fun v => validated (anyJson OtherJson v); zero := VNil; dec := fun j _ => anyValue j |}.

Lemma wired_lawful : lawful wired (fun v => is_Some (arrivedValue v)) (fun v => default VNil (arrivedValue v)).
Proof. intros v [v' Hv]. cbn. unfold arrivedValue in *. by rewrite Hv. Qed.

Lemma attrs_wired (m : gmap string field) : map_Forall (fun k _ => valid k = k) m ->
  validated (enc (mapC (anyC OtherJson)) (Some (map_to_list m))) = enc (mapC wired) (Some (map_to_list m)).
Proof.
  intros Hm. cbn [mapC enc validated]. f_equal. rewrite map_map. apply map_ext_in. intros [k v] Hin. simpl. f_equal.
  apply list_elem_of_In in Hin. rewrite byKey_perm in Hin. apply elem_of_map_to_list in Hin. by apply (Hm k v).
Qed.

Lemma dec_wired j : dec (mapC (anyC OtherJson)) j None = dec (mapC wired) j None.
Proof.
  destruct j as [| | | | |ms]; try done. cbn [mapC dec]. f_equal. generalize (default [] (None (A := list (string * field)))).
  induction ms as [|[k j] ms IH]; intros t; [done|]. cbn [decMap dec anyC wired].
  destruct (anyValue j); [|done]. apply IH.
Qed.

Lemma omap_list (f : field -> option field) (m : gmap string field) l : l ≡ₚ map_to_list m ->
  map_Forall (fun _ v => is_Some (f v)) m ->
  list_to_map (map (fun kv => (kv.1, default VNil (f kv.2))) l) = omap f m.
Proof.
  intros Hl Hf. apply map_eq. intros k. rewrite lookup_omap.
  assert (Hn : NoDup (map fst l)) by (rewrite Hl; apply NoDup_fst_map_to_list).
  set (g := fun kv : string * field => (kv.1, default VNil (f kv.2))).
  assert (Hn' : NoDup (map fst (map g l))) by (rewrite map_map; by change (NoDup (map fst l))).
  destruct (m !! k) as [v|] eqn:E; simpl.
  - destruct (Hf k v E) as [v' Hv]. rewrite Hv. apply elem_of_list_to_map; [done|].
    apply list_elem_of_fmap. exists (k, v). unfold g. simpl. rewrite Hv. split; [done|].
    rewrite Hl. by apply elem_of_map_to_list.
  - apply not_elem_of_list_to_map. intros (x & -> & Hx)%list_elem_of_fmap. apply list_elem_of_fmap in Hx as (kv & -> & Hx).
    rewrite Hl in Hx. destruct kv as [k' v]. apply elem_of_map_to_list in Hx. simpl in E. congruence.
Qed.

Lemma attrs_arrive (m : gmap string field) :
  map_Forall (fun k v => valid k = k /\ well_formed (anyJson OtherJson v) /\ is_Some (arrivedValue v)) m ->
  dec (attrsC OtherJson) (validated (enc (attrsC OtherJson) (Some m))) None = Some (Some (omap arrivedValue m)).
Proof.
  intros Hm. cbn [attrsC enc dec entriesOf]. rewrite attrs_wired by (intros k v Hk; apply (Hm k v Hk)).
  rewrite dec_wired.
  assert (Hf : Forall (fun kv => is_Some (arrivedValue kv.2)) (map_to_list m)).
  { apply Forall_forall. intros [k v] Hin. apply elem_of_map_to_list in Hin. by apply (Hm k v Hin). }
  rewrite (map_lawful wired _ _ (map_to_list m) wired_lawful Hf (NoDup_fst_map_to_list m)).
  cbn [fmap option_fmap option_map attrsOf]. do 2 f_equal. apply omap_list; [apply byKey_perm|].
  intros k v Hk. apply (Hm k v Hk).
Qed.

(** The members of an entry, those that may be absent as [p] and [a]. *)
Lemma entry_members (t : Time) (msg id : string) (attrs : option (gmap string field)) :
  enc (probeLogEntryC OtherJson) (Build_ProbeLogEntry t msg id attrs) =
  JObj ([("timestamp"%string, JStr (FormatTime t)); ("message"%string, JStr msg)]
    ++ (if isEmpty id then [] else [("proxy_id"%string, JStr id)])
    ++ (if noAttrs attrs then [] else [("attrs"%string, enc (attrsC OtherJson) attrs)])).
Proof.
  cbn [probeLogEntryC structC enc map concat]. unfold memberOf.
  cbn [f_omit f_get f_name f_codec pl_timestamp pl_message pl_proxy_id pl_attrs ProbeLogEntry_ProxyID ProbeLogEntry_Attrs
    ProbeLogEntry_Timestamp ProbeLogEntry_Message never]. by rewrite app_nil_r.
Qed.

Lemma entry_arrives e : transportable e ->
  dec (probeLogEntryC OtherJson) (validated (enc (probeLogEntryC OtherJson) e)) (zero (probeLogEntryC OtherJson))
  = Some (arrivedEntry e).
Proof.
  destruct e as [t msg id attrs]. intros (Ht & Ha). cbn [ProbeLogEntry_Timestamp ProbeLogEntry_Attrs] in *.
  rewrite entry_members. cbn [validated]. rewrite !map_app. unfold arrivedEntry, arrivedAttrs.
  cbn [ProbeLogEntry_Timestamp ProbeLogEntry_Message ProbeLogEntry_ProxyID ProbeLogEntry_Attrs].
  assert (Hid : isEmpty id = true -> id = EmptyString) by (intros Hx; by apply String.eqb_eq).
  assert (Hd : noAttrs attrs = false -> dec (attrsC OtherJson) (validated (enc (attrsC OtherJson) attrs)) None
    = Some ((fun m : gmap string field => omap arrivedValue m) <$> attrs)).
  { intros _. destruct attrs as [m|]; [|done]. by apply attrs_arrive. }
  cbn [probeLogEntryC structC dec zero].
  destruct (isEmpty id); destruct (noAttrs attrs); cbn [map app fst snd validated];
    repeat (change (valid "timestamp") with "timestamp"%string || change (valid "message") with "message"%string ||
            change (valid "proxy_id") with "proxy_id"%string || change (valid "attrs") with "attrs"%string);
    cbn -[attrsC valid]; rewrite Ht; cbn -[attrsC valid]; rewrite ?Hd by done;
    first [reflexivity|rewrite (Hid eq_refl); reflexivity].
Qed.

Lemma entry_well_formed e : transportable e -> well_formed (enc (probeLogEntryC OtherJson) e).
Proof.
  destruct e as [t msg id attrs]. intros (_ & Ha). cbn [ProbeLogEntry_Attrs] in Ha. rewrite entry_members.
  assert (Hw : well_formed (enc (attrsC OtherJson) attrs)).
  { destruct attrs as [m|]; [|done]. cbn [attrsC enc entriesOf mapC well_formed]. rewrite map_map. apply foldr_and.
    apply Forall_forall. intros [k v] Hin. rewrite byKey_perm in Hin. apply elem_of_map_to_list in Hin.
    by apply (Ha k v Hin). }
  cbn [well_formed]. by destruct (isEmpty id), (noAttrs attrs); cbn.
Qed.

(** The text of an entry is the data of one event, and is decoded to what arrives of it. *)
Lemma entry_text e : transportable e -> depth (enc (probeLogEntryC OtherJson) e) <= maxNestingDepth ->
  let d := Marshal (enc (probeLogEntryC OtherJson) e) in event_data d /\ UnmarshalEntry OtherJson d = Some (arrivedEntry e).
Proof.
  intros He Hd. pose proof (entry_well_formed e He) as Hw. split.
  - destruct e. rewrite entry_members in *. by apply Marshal_event.
  - unfold UnmarshalEntry, Unmarshal, Marshal. rewrite Parse_write by done.
    cbn [mbind option_bind]. by apply entry_arrives.
Qed.

Lemma MarshalLog_entry t msg attrs : MarshalLog OtherJson t msg attrs =
  Some (Marshal (enc (probeLogEntryC OtherJson) {| ProbeLogEntry_Timestamp := t; ProbeLogEntry_Message := msg;
    ProbeLogEntry_ProxyID := EmptyString; ProbeLogEntry_Attrs := attrs |})).
Proof.
  unfold MarshalLog. do 2 f_equal. cbn [probeLogEntryC structC enc map concat]. unfold memberOf.
  cbn [f_omit f_get f_name f_codec pl_timestamp pl_message pl_proxy_id pl_attrs ProbeLogEntry_ProxyID ProbeLogEntry_Attrs].
  by destruct (noAttrs attrs).
Qed.
End Laws.

(** ** Identifiers that are their own JSON *)

Lemma unreserved_htmlSafe c : unreserved c = true -> htmlSafe (byteZ c) = true.
Proof.
  intros H. pose proof (unreserved_range c H) as R. unfold htmlSafe.
  assert (N : forall b, unreserved (chr b) = false -> (byteZ c =? b) = false).
  { intros b Hb. apply Z.eqb_neq. intros <-. by rewrite chr_byteZ, H in Hb. }
  rewrite !N by by vm_compute. assert (L : (32 <=? byteZ c) = true) by lia. by rewrite L.
Qed.

Lemma escape_unreserved s : unreservedText s = true -> escape s = s.
Proof.
  unfold escape. induction s as [|c s IH]; [done|]. cbn [unreservedText String.length escape_fuel]. intros [Hc Hs]%andb_prop.
  pose proof (unreserved_range c Hc). destruct (Z.ltb_spec (byteZ c) 128); [|lia].
  unfold escapeByte. rewrite unreserved_htmlSafe, IH, chr_byteZ by done. done.
Qed.
