(* ===== verification/ApiClient.v ===== *)
(** * The client of the API

    [apiclient/client.go], [config.go], [proxy.go] and the beginning of [probe.go]: the
    request each call makes and what it makes of the answer. [Do] is the HTTP client with
    whatever server it reaches, whose state is the state of the calls. The functions are
    those of the interface [APIClient]. *)

From Stdlib Require Import Strings.Ascii.
From stdpp Require Import sorting.
From S2P Require Import Prelude Bytes Fields Times Config LogBuffers Server Sse Runes Json Loading Urls Answers.

Open Scope Z_scope.

(** What a request has of the client, and what the client reads of a response: the body up
    to its end, or up to an error. *)
Record Request : Type := {
  Request_Method : string;
  Request_URI : string;
  Request_ContentType : string;
  Request_Accept : string;
  Request_Body : string
}.

Record HTTPResponse : Type := {
  StatusCode : Z;
  Status : string;
  Body : string;
  BodyError : option string
}.

Definition StatusOK : Z := 200.
Definition StatusNotFound : Z := 404.

(** ** interface.go: what the commands and the terminal interface ask of a client *)
Class APIClient (S : Type) (any : Type) : Type := {
  api_GetConfig : stm S string Config;
  api_PutConfigFromFile : string -> stm S string ();
  api_PutConfig : Config -> stm S string ();
  api_DiffConfigFromFile : string -> stm S string string;
  api_ReloadConfig : stm S string Config;
  api_GetClients : stm S string (list ClientInfo);
  api_GetClientDetail : string -> stm S string FullClientInfo;
  api_ShutdownClient : string -> string -> stm S string ();
  api_StreamProbeLogEntries : string -> S -> list (ProbeLogEntry (any := any)) * S;
  api_StreamServerLogs : S -> list (ProbeLogEntry (any := any)) * S
}.

Section Client.
Context `{Floats} `{TimeText} (OtherJson : field -> json) {S : Type}.
Context (Do : Request -> stm S string HTTPResponse) (ReadFile : string -> result string string).

(** The texts of the errors of [net/url], of a URL that cannot be sent, and of the decoder. *)
Context (urlError : string -> string) (sendError : URL -> string) (decodeError : HTTPResponse -> string).

(** The path of the endpoint: that of [http://localhost/] for a socket. *)
Context (endpoint : string).

Definition raise {A} (r : result string A) : stm S string A := fun s => (r, s).

Definition buildURL (pathStr : string) : result string URL :=
  match Parse pathStr with
  | None => Err (urlError pathStr)
  | Some u =>
      match ResolveReference endpoint u with
      | None => Err (urlError pathStr)
      | Some r => Ok r
      end
  end.

(** [http.NewRequestWithContext] and [Client.Do]. *)
Definition request (method contentType accept body : string) (u : URL) : stm S string HTTPResponse :=
  match RequestURI u with
  | None => throw (sendError u)
  | Some uri => Do {| Request_Method := method; Request_URI := uri; Request_ContentType := contentType;
                      Request_Accept := accept; Request_Body := body |}
  end.

Definition get (ref : string) : stm S string HTTPResponse :=
  u ← raise (buildURL ref); request "GET" "" "" "" u.

(** [json.NewDecoder(resp.Body).Decode]. *)
Definition decode {A} (c : codec A) (r : HTTPResponse) : stm S string A :=
  raise (match (j ← Decode (Body r); dec c j (zero c)) with
         | Some a => Ok a
         | None => Err (decodeError r)
         end).

(** The status and the body of an answer, as far as it could be read. *)
Definition refusal (what : string) (r : HTTPResponse) : string :=
  what +:+ ": " +:+ Status r +:+ " - " +:+ Body r.

(** ** config.go *)

Definition GetConfig : stm S string Config := r ← get "config"; decode (configC OtherJson) r.

Definition contentTypeOf (configPath : string) : string :=
  if hasSuffix configPath ".jsonnet" then "application/jsonnet" else "application/json".

Definition PutConfigFromFile (configPath : string) : stm S string () :=
  match ReadFile configPath with
  | Err e => throw ("failed to read config file: " +:+ e)
  | Ok configBytes =>
      u ← raise (buildURL "config");
      r ← request "PUT" (contentTypeOf configPath) "" configBytes u;
      if negb (StatusCode r =? StatusOK) then throw (refusal "failed to put config" r) else mret ()
  end.

Definition PutConfig (cfg : Config) : stm S string () :=
  u ← raise (buildURL "config");
  _ ← request "PUT" "application/json" "" (Config_String OtherJson cfg) u;
  mret ().

Definition DiffConfigFromFile (configPath : string) : stm S string string :=
  match ReadFile configPath with
  | Err e => throw ("failed to read config file: " +:+ e)
  | Ok configBytes =>
      u ← raise (buildURL "config/diff");
      r ← request "POST" (contentTypeOf configPath) "" configBytes u;
      if negb (StatusCode r =? StatusOK) then throw (refusal "failed to get diff" r)
      else match BodyError r with Some e => throw e | None => mret (Body r) end
  end.

Definition ReloadConfig : stm S string Config :=
  u ← raise (buildURL "config/reload");
  r ← request "POST" "" "" "" u;
  decode (configC OtherJson) r.

(** ** proxy.go *)

Definition GetClients : stm S string (list ClientInfo) :=
  r ← get "clients"; decode (sliceC (clientInfoC OtherJson)) r.

Definition GetClientDetail (clientID : string) : stm S string FullClientInfo :=
  r ← get (Join ["clients"%string; clientID]);
  if StatusCode r =? StatusNotFound then throw "client not found"%string
  else if negb (StatusCode r =? StatusOK) then throw (refusal "failed to get client detail" r)
  else decode (fullClientInfoC OtherJson) r.

(** [fullURL.Query], [Set] and [Encode]. *)
Definition withReason (reason : string) (u : URL) : URL :=
  if String.eqb reason "" then u
  else {| Scheme := Scheme u; Path := Path u; RawPath := RawPath u; ForceQuery := ForceQuery u;
          RawQuery := Values_Encode (Values_Set "reason" reason (ParseQuery (RawQuery u))) |}.

Definition ShutdownClient (clientID reason : string) : stm S string () :=
  if String.eqb clientID "" then throw "client ID cannot be empty"%string
  else
    u ← raise (buildURL (Join ["clients"%string; clientID]));
    r ← request "DELETE" "" "" "" (withReason reason u);
    if StatusCode r =? StatusNotFound then throw "client not found"%string
    else if negb (StatusCode r =? StatusOK) then throw (refusal "failed to shutdown client" r)
    else mret ().

(** ** probe.go

    The entries that are handled while the context lives, and whether the scanner failed on
    a long line; an error of the connection is the text's end. *)
Section Streams.
Context {any : Type} (Unmarshal : string -> option (ProbeLogEntry (any := any))).

Definition eventStream (ref : string) : stm S string HTTPResponse :=
  u ← raise (buildURL ref); request "GET" "" "text/event-stream" "" u.

Definition readProbeLogSSE (proxyID : string) : stm S string (list (ProbeLogEntry (any := any)) * bool) :=
  r ← eventStream ("clients/" +:+ proxyID +:+ "/probe");
  if StatusCode r =? StatusNotFound then throw ("proxy not found: " +:+ proxyID)
  else if negb (StatusCode r =? StatusOK) then throw (refusal "failed to stream probe log" r)
  else mret (readSSE Unmarshal (Body r)).

Definition readServerLogSSE : stm S string (list (ProbeLogEntry (any := any)) * bool) :=
  r ← eventStream "logs";
  if negb (StatusCode r =? StatusOK) then throw (refusal "failed to stream server logs" r)
  else mret (readSSE Unmarshal (Body r)).

(** [StreamProbeLogEntries] and [StreamServerLogs] send these to a channel that is closed at
    the end; an error is only logged. *)
Definition streamed {A} (m : stm S string (list A * bool)) : S -> list A * S := fun s =>
  match m s with (Ok (es, _), s') => (es, s') | (Err _, s') => ([], s') end.
Definition StreamProbeLogEntries (proxyID : string) : S -> list (ProbeLogEntry (any := any)) * S :=
  streamed (readProbeLogSSE proxyID).
Definition StreamServerLogs : S -> list (ProbeLogEntry (any := any)) * S := streamed readServerLogSSE.

(** [var _ APIClient = ( *Client)(nil)]. *)
Definition HTTPClient : APIClient S any := {|
  api_GetConfig := GetConfig; api_PutConfigFromFile := PutConfigFromFile; api_PutConfig := PutConfig;
  api_DiffConfigFromFile := DiffConfigFromFile; api_ReloadConfig := ReloadConfig; api_GetClients := GetClients;
  api_GetClientDetail := GetClientDetail; api_ShutdownClient := ShutdownClient;
  api_StreamProbeLogEntries := StreamProbeLogEntries; api_StreamServerLogs := StreamServerLogs |}.
End Streams.

(** ** Which requests are made *)

(** The request for a path of plain names at a socket. *)
Lemma buildURL_plain ids : endpoint = "/" -> ids <> [] -> Forall plain ids ->
  buildURL (JoinWith slash ids) = Ok (urlOf (String slash (JoinWith slash ids)) "").
Proof.
  intros He Hne Hp. pose proof (ResolveReference_plain ids Hne Hp) as E. unfold buildURL. rewrite He.
  destruct (Parse (JoinWith slash ids)) as [u|]; [|done]. cbn [mbind option_bind] in E. by rewrite E.
Qed.

Lemma plain_path ids : Forall plain ids -> pathText (String slash (JoinWith slash ids)) = true.
Proof. intros Hp. exact (plain_pathText ids Hp). Qed.

Lemma request_plain ids method ct ac body : Forall plain ids ->
  request method ct ac body (urlOf (String slash (JoinWith slash ids)) "") =
  Do {| Request_Method := method; Request_URI := String slash (JoinWith slash ids); Request_ContentType := ct;
        Request_Accept := ac; Request_Body := body |}.
Proof.
  intros Hp. unfold request. rewrite RequestURI_urlOf by (done || by apply plain_path).
  unfold withQuery. change (String.eqb "" "") with true. cbv iota. by rewrite append_nil.
Qed.

(** The query that carries a reason. *)
Definition reasonQuery (reason : string) : string :=
  if String.eqb reason "" then "" else "reason=" +:+ QueryEscape reason.

Lemma withReason_urlOf p reason : withReason reason (urlOf p "") = urlOf p (reasonQuery reason).
Proof. unfold withReason, reasonQuery. by destruct (String.eqb reason ""). Qed.

Lemma request_reason ids method reason : Forall plain ids ->
  request method "" "" "" (withReason reason (urlOf (String slash (JoinWith slash ids)) "")) =
  Do {| Request_Method := method; Request_URI := withQuery (String slash (JoinWith slash ids)) (reasonQuery reason);
        Request_ContentType := ""; Request_Accept := ""; Request_Body := "" |}.
Proof.
  intros Hp. unfold request. rewrite withReason_urlOf, RequestURI_urlOf by (done || by apply plain_path). done.
Qed.
End Client.

Lemma reasonQuery_noCTL reason : hasCTL (reasonQuery reason) = false.
Proof.
  unfold reasonQuery. destruct (String.eqb reason ""); [done|].
  change (hasCTL ("reason=" +:+ QueryEscape reason)) with (hasCTL (QueryEscape reason)). apply QueryEscape_noCTL.
Qed.

(** The reason, on the other side. *)
Lemma reasonQuery_read reason : Values_Get "reason" (ParseQuery (reasonQuery reason)) = reason.
Proof.
  unfold reasonQuery. destruct (String.eqb_spec reason "") as [->|_]; [done|].
  unfold ParseQuery.
  change ("reason=" +:+ QueryEscape reason) with (QueryEscape "reason" +:+ "=" +:+ QueryEscape reason).
  rewrite Split_lacks by by apply pair_lacks. cbn [foldl]. by rewrite queryPair_add.
Qed.
