(* ===== verification/Api.v ===== *)
(** * The HTTP API

    [api.go]: the handlers of the control socket. A request is what the handler reads of
    it, a [Response] what it writes; JSON bodies are the values that are encoded, except
    in the event streams, whose text the client parses ([Sse]). Routing, sockets and the
    encoders are the standard library's; [jsondiff.Diff] is an argument. *)

From S2P Require Import Prelude Fields Config Times Health Stats LogBuffers Proxy Sorting Server.
From S2P Require Import Registry Sse.

Open Scope Z_scope.

Definition APIContentType : string := "application/json".
Definition APIContentTypeJsonnet : string := "application/jsonnet".

(** [strings.HasPrefix]. *)
Definition HasPrefix (s p : string) : bool := bool_decide (is_Some (CutPrefix p s)).

Definition detectContentType (ct : string) : result string bool :=
  if HasPrefix ct APIContentTypeJsonnet then Ok true
  else if HasPrefix ct APIContentType then Ok false
  else Err ("invalid Content-Type: " +:+ ct).

Inductive body : Type :=
| BText (s : string)
| BConfig (c : Config)
| BClients (l : list ClientInfo)
| BClient (i : FullClientInfo)
| BFields (l : list (string * string)).

(** A reply, or an event stream with the text written so far, which is still being
    written when [streaming]; [Aborted] when the handler panics. *)
Inductive Response : Type :=
| Reply (status : Z) (contentType : string) (b : body)
| Events (text : string) (streaming : bool)
| Aborted.

(** [http.Error]. *)
Definition Error (msg : string) (code : Z) : Response :=
  Reply code "text/plain; charset=utf-8" (BText (msg +:+ newline)).

(** A configuration in the body of a request: its content type, what [os.CreateTemp] and
    [io.Copy] give, and what [config.Load] makes of the file. *)
Record Upload : Type := {
  up_contentType : string;
  up_temp : result string string;
  up_copied : result string ();
  up_loaded : result string Config
}.

(** The name of the file; an error has been answered. *)
Definition processConfigRequest (u : Upload) : result Response string :=
  match detectContentType (up_contentType u) with
  | Err e => Err (Error e 400)
  | Ok _ =>
      match up_temp u with
      | Err e => Err (Error e 500)
      | Ok file => match up_copied u with Err e => Err (Error e 500) | Ok _ => Ok file end
      end
  end.

Section Api.
Context {any : Type} (as_string : any -> option string)
  (Marshal : Time -> string -> option (gmap string any) -> option string)
  `{Lru nat} (Hash : Config -> string) (ClientBanner : Proxy -> string)
  (Diff : Config -> Config -> result string string).
Implicit Types (s : Server any).

(** ** Configuration *)

Definition apiGetConfigHandler s : Response := Reply 200 APIContentType (BConfig (config s)).

Definition apiPutConfigHandler `{Limiter} (ctx : nat) (e : string -> string -> Surroundings)
  (u : Upload) s : Response * Server any :=
  match processConfigRequest u with
  | Err r => (r, s)
  | Ok _ =>
      match up_loaded u with
      | Err err => (Error err 400, s)
      | Ok cfg =>
          let s := UpdateConfig Hash cfg (initHealthManagers ctx e s) in
          match disconnectOutdatedProxies (Hash cfg) s with
          | (CallerPanics, s) => (Aborted, s)
          | (_, s) => (Reply 200 "application/json" (BConfig cfg), s)
          end
      end
  end.

Definition apiDiffConfigHandler (u : Upload) s : Response :=
  match processConfigRequest u with
  | Err r => r
  | Ok _ =>
      match up_loaded u with
      | Err err => Error err 400
      | Ok newCfg =>
          match Diff (config s) newCfg with
          | Err err => Error err 500
          | Ok diff => Reply 200 "text/plain" (BText diff)
          end
      end
  end.

Definition apiReloadConfigHandler `{Limiter} (ctx : nat) (e : string -> string -> Surroundings)
  (loaded : result string Config) s : Response * Server any :=
  match reloadConfigFromFile Hash ctx e loaded s with
  | (NotLoaded err, s) => (Error err 500, s)
  | (ReloadPanics, s) => (Aborted, s)
  | (Reloaded cfg _, s) => (Reply 200 "application/json" (BConfig cfg), s)
  end.

(** ** Clients *)

Definition apiGetClientsHandler `{Pdq} (now : Time) s : Response * Server any :=
  let (clients, s) := GetClientsInfo ClientBanner now s in
  (Reply 200 APIContentType (BClients clients), s).

(** [path] and [method] only show in the message. *)
Definition apiShutdownClientHandler (path method proxyID reason : string) s
  : Response * Server any :=
  if String.eqb proxyID "" then
    (Error ("Proxy ID is required. URL path: " +:+ path +:+ ", Method: " +:+ method) 400, s)
  else
    match ShutdownProxy proxyID reason s with
    | (false, s) => (Error "Proxy not found" 404, s)
    | (true, s) =>
        (Reply 200 APIContentType (BFields
           ([("status", "shutdown_initiated"); ("proxy_id", proxyID)]
            ++ if String.eqb reason "" then [] else [("reason", reason)]))%string, s)
    end.

Definition apiGetClientHandler (now : Time) (proxyID : string) s : Response * Server any :=
  if String.eqb proxyID "" then (Error "Proxy ID is required" 400, s)
  else
    match GetClientInfo ClientBanner proxyID now s with
    | (None, s) => (Error "Proxy not found" 404, s)
    | (Some info, s) => (Reply 200 APIContentType (BClient info), s)
    end.

(** ** The stream of a proxy's log *)

Definition connectedData (proxyID status : string) : string :=
  "{" +:+ dq "type" +:+ ":" +:+ dq "connected" +:+ "," +:+ dq "proxy_id" +:+ ":" +:+ dq proxyID
  +:+ "," +:+ dq "status" +:+ ":" +:+ dq status +:+ "}".
Definition endedData : string :=
  "{" +:+ dq "type" +:+ ":" +:+ dq "proxy_ended" +:+ "," +:+ dq "status" +:+ ":"
  +:+ dq "disconnected" +:+ "}".

(** The data of a log; one that cannot be encoded is left out. *)
Definition logData (l : probeLog any) : option string :=
  Marshal (probeLog_Timestamp l) (probeLog_Message l) (AttrsMap as_string l).

(** [live] are the logs that the loop reads from the channel before the request ends;
    nothing closes that channel, and a registered proxy has one. *)
Definition apiProbeLogHandler (proxyID : string) (live : list (probeLog any)) s
  : Response * Server any :=
  if String.eqb proxyID "" then (Error "Proxy ID is required" 400, s)
  else
    let isActive := bool_decide (is_Some (activeProxies s !! proxyID)) in
    let '((buffer, found), s) := GetProbeLogBuffer proxyID s in
    if negb found then (Error "Proxy not found" 404, s)
    else
      let status := if isActive then "active"%string else "disconnected"%string in
      match buffer with
      | None => (Aborted, s)
      | Some b =>
          let logs := omap logData (GetLogs b) in
          if isActive then
            (Events (stream_of (connectedData proxyID status :: logs ++ omap logData live)) true, s)
          else
            (Events (stream_of (connectedData proxyID status :: logs ++ [endedData])) false, s)
      end.

(** [apiServerLogsHandler]: [received] is what the subscription of [listenerID] gives until
    the request ends; [MarshalEntry] encodes an entry. *)
Definition apiServerLogsHandler (MarshalEntry : ProbeLogEntry (any := any) -> option string)
  (ctx : nat) (listenerID : string) (received : list (ProbeLogEntry (any := any)))
  (b : LogBuffer (ProbeLogEntry (any := any))) : string * LogBuffer (ProbeLogEntry (any := any)) :=
  let data := ("{" +:+ dq "type" +:+ ":" +:+ dq "connected" +:+ "}") :: omap MarshalEntry received in
  (stream_of data, Subscribe ctx listenerID b).
End Api.

(** ** What the handlers answer *)

Section Proofs.
Context {any : Type} (as_string : any -> option string)
  (Marshal : Time -> string -> option (gmap string any) -> option string)
  `{Lru nat} (Hash : Config -> string) (ClientBanner : Proxy -> string).
Implicit Types (s : Server any).

Definition uploaded (u : Upload) : bool :=
  is_ok (detectContentType (up_contentType u)) && is_ok (up_temp u) && is_ok (up_copied u).

Lemma processConfigRequest_ok u : is_ok (processConfigRequest u) = uploaded u.
Proof.
  unfold processConfigRequest, uploaded. destruct (detectContentType _); [|done].
  destruct (up_temp u); [|done]. by destruct (up_copied u).
Qed.

Definition status (r : Response) : option Z :=
  match r with Reply n _ _ => Some n | Events _ _ => Some 200 | Aborted => None end.

(** A configuration that is put has the effect of a reload with it, one that does not
    arrive or does not load has none; the answer is 200 with the new configuration when it is
    installed and has a hash, none, since the handler panics, when it is installed without,
    and 400 or 500 otherwise. *)
Theorem put_is_reload `{Limiter} ctx e u s :
  let (r, s') := apiPutConfigHandler Hash ctx e u s in
  s' = (if uploaded u then (reloadConfigFromFile Hash ctx e (up_loaded u) s).2 else s) /\
  match up_loaded u with
  | Ok cfg => if uploaded u then r = (if sliceable (Hash cfg) then Reply 200 "application/json" (BConfig cfg) else Aborted)
              else status r = Some 400 \/ status r = Some 500
  | Err _ => status r = Some 400 \/ status r = Some 500
  end.
Proof.
  unfold apiPutConfigHandler, uploaded, processConfigRequest.
  destruct (detectContentType (up_contentType u)) as [j|e1]; cbn [is_ok andb].
  2: { destruct (up_loaded u); auto. }
  destruct (up_temp u) as [f|e1]; cbn [is_ok andb]; [|destruct (up_loaded u); auto].
  destruct (up_copied u) as [[]|e1]; cbn [is_ok andb]; [|destruct (up_loaded u); auto].
  destruct (up_loaded u) as [cfg|e1]; [|by auto].
  unfold reloadConfigFromFile. cbv zeta.
  pose proof (outdating_panics (Hash cfg) (UpdateConfig Hash cfg (initHealthManagers ctx e s))) as P.
  destruct (disconnectOutdatedProxies (Hash cfg) (UpdateConfig Hash cfg (initHealthManagers ctx e s))) as [[| |n] s'];
    cbn [fst] in P; by destruct (sliceable (Hash cfg)).
Qed.

(** DELETE of a client answers 400 without an identifier, 404 when no such proxy is
    registered, and both change nothing; otherwise 200, and that proxy alone is cancelled
    with the reason given, or a standard one. *)
Theorem shutdown_answers path method id reason s :
  let (r, s') := apiShutdownClientHandler path method id reason s in
  if String.eqb id "" then status r = Some 400 /\ s' = s
  else
    match activeProxies s !! id with
    | None => status r = Some 404 /\ s' = s
    | Some i => status r = Some 200 /\ activeProxies s' = activeProxies s /\
        forall j, clients s' !! j =
          if decide (j = i) then
            (fun c => cancel (set_cl_proxy (setShutdownMessage
               (if String.eqb reason "" then "API shutdown request"%string else reason)) c))
              <$> clients s !! i
          else clients s !! j
    end.
Proof.
  unfold apiShutdownClientHandler. destruct (String.eqb id "").
  { done. }
  unfold ShutdownProxy. destruct (activeProxies s !! id) as [i|]; [|done].
  split; [done|]. split; [done|]. intros j. unfold onClient. cbn [clients set_clients].
  destruct (decide (j = i)) as [->|Hne]; [apply list_lookup_alter_eq|].
  by apply list_lookup_alter_ne.
Qed.
End Proofs.

(** ** What the client reads of a stream *)

Section ProbeStream.
Context {any : Type} (as_string : any -> option string)
  (Marshal : Time -> string -> option (gmap string any) -> option string)
  (Unmarshal : string -> option (ProbeLogEntry (any := any))) `{Lru nat}.
Implicit Types (s : Server any) (l : probeLog any).

Definition entryOfLog l : ProbeLogEntry := {|
  ProbeLogEntry_Timestamp := probeLog_Timestamp l; ProbeLogEntry_Message := probeLog_Message l;
  ProbeLogEntry_ProxyID := ""; ProbeLogEntry_Attrs := AttrsMap as_string l |}.

(** The JSON of a log is one line that decodes to [f l], which is no control message. *)
Definition encodedAs (f : probeLog any -> ProbeLogEntry) l (d : string) : Prop :=
  logData as_string Marshal l = Some d /\ event_data d /\ Unmarshal d = Some (f l) /\
  IsZero (ProbeLogEntry_Timestamp (f l)) && String.eqb (ProbeLogEntry_Message (f l)) "" = false.

Definition carriedAs (f : probeLog any -> ProbeLogEntry) l : Prop := exists d, encodedAs f l d /\ fits d.

(** The same of one that decodes to the log itself. *)
Definition encoded l (d : string) : Prop := encodedAs entryOfLog l d.
Definition carried l : Prop := exists d, encoded l d /\ fits d.

Lemma encoded_event f l d : encodedAs f l d -> entryOfEvent Unmarshal d = [f l].
Proof. intros (_ & _ & E & Hz). unfold entryOfEvent. rewrite E. by rewrite Hz. Qed.

Lemma carried_data f ls : Forall (carriedAs f) ls -> exists ds, omap (logData as_string Marshal) ls = ds /\
  Forall event_data ds /\ Forall fits ds /\ flat_map (entryOfEvent Unmarshal) ds = map f ls.
Proof.
  induction 1 as [|l ls (d & Hd & Hf) _ (ds & E & H1 & H2 & H3)]; [by exists []|].
  pose proof (encoded_event f _ _ Hd) as He. destruct Hd as (Ed & Hd & _).
  exists (d :: ds). split_and!; [by simpl; rewrite Ed; f_equal|by constructor..|].
  simpl. by rewrite He, H3.
Qed.

Lemma dropCR_brace a : dropCR (a +:+ "}") = a +:+ "}".
Proof.
  induction a as [|c a IH]; [done|].
  change (String c a +:+ "}") with (String c (a +:+ "}")). cbn [dropCR]. rewrite IH. by destruct a.
Qed.

Lemma has_lf_dq x : has_lf (dq x) = has_lf x.
Proof.
  change (has_lf (dq x)) with (has_lf (x +:+ String (Ascii.ascii_of_nat 34) "")).
  rewrite has_lf_append. apply orb_false_r.
Qed.

Lemma length_dq x : String.length (dq x) = (String.length x + 2)%nat.
Proof.
  change (String.length (dq x)) with (S (String.length (x +:+ String (Ascii.ascii_of_nat 34) ""))).
  rewrite length_append. simpl. lia.
Qed.

(** Control messages of a proxy whose identifier is one short line. *)
Definition plain_id (id : string) : Prop :=
  has_lf id = false /\ (String.length id < N.to_nat 65000)%nat /\
  (forall st, st = "active" \/ st = "disconnected" -> entryOfEvent Unmarshal (connectedData id st) = [])%string /\
  entryOfEvent Unmarshal endedData = [].

Lemma connectedData_ok id st : plain_id id -> st = "active" \/ st = "disconnected" ->
  event_data (connectedData id st) /\ fits (connectedData id st).
Proof.
  intros (Hl & Hn & _) Hst. unfold connectedData.
  assert (Hs : has_lf st = false /\ (String.length st <= 20)%nat)
    by (destruct Hst as [-> | ->]; split; simpl; by try lia).
  destruct Hs as [Hs Hs']. split; [split_and!|].
  - rewrite !has_lf_append, !has_lf_dq, Hl, Hs. by vm_compute.
  - rewrite <- !append_assoc. apply dropCR_brace.
  - done.
  - unfold fits, MaxScanTokenSize. rewrite !length_append, !length_dq. cbn [String.length]. lia.
Qed.
Lemma probe_text id live s text st :
  (apiProbeLogHandler as_string Marshal id live s).1 = Events text st ->
  exists b status, (GetProbeLogBuffer id s).1 = (Some b, true) /\
    (status = "active" \/ status = "disconnected")%string /\
    text = stream_of (connectedData id status :: omap (logData as_string Marshal) (GetLogs b)
             ++ (if st then omap (logData as_string Marshal) live else [endedData])).
Proof.
  unfold apiProbeLogHandler. destruct (String.eqb id ""); [done|].
  destruct (GetProbeLogBuffer id s) as [[b found] s']. destruct found; [|done].
  destruct b as [b|]; [|done]. cbn [negb fst].
  destruct (bool_decide _); intros [= <- <-]; exists b; eauto.
Qed.

(** The client reads from the stream of a proxy exactly the logs that are kept of it and,
    when it is connected, then those read from its channel, in order, as [f] tells what
    becomes of each: control messages are not taken for logs. *)
Theorem probe_stream_read f id live s text st :
  (apiProbeLogHandler as_string Marshal id live s).1 = Events text st ->
  plain_id id -> Forall (carriedAs f) (default [] (GetLogs <$> (GetProbeLogBuffer id s).1.1)) ->
  Forall (carriedAs f) live ->
  exists b, (GetProbeLogBuffer id s).1 = (Some b, true) /\
    readSSE Unmarshal text = (map f (GetLogs b ++ if st then live else []), false).
Proof.
  intros (b & status & Hb & Hst & ->)%probe_text Hid Hlogs Hlive. exists b. split; [done|].
  rewrite Hb in Hlogs. simpl in Hlogs.
  destruct (carried_data f _ Hlogs) as (ds & -> & D1 & D2 & D3).
  destruct (connectedData_ok id status Hid Hst) as [C1 C2].
  destruct Hid as (_ & _ & Hc & He).
  rewrite <- (append_nil (stream_of _)). change (connectedData id status :: ?x) with
    ([connectedData id status] ++ x).
  assert (T : exists es, (if st then omap (logData as_string Marshal) live else [endedData]) = es /\
    Forall event_data es /\ Forall fits es /\
    flat_map (entryOfEvent Unmarshal) es = map f (if st then live else [])).
  { destruct st.
    - destruct (carried_data f _ Hlive) as (es & -> & E1 & E2 & E3). by exists es.
    - exists [endedData]. split_and!; [done| | |simpl; by rewrite He].
      + constructor; [|done]. split_and!; by vm_compute.
      + constructor; [|done]. apply Nat.ltb_lt. by vm_compute. }
  destruct T as (es & -> & E1 & E2 & E3).
  rewrite readSSE_events by (rewrite !Forall_app, Forall_singleton; done).
  rewrite !flat_map_app, D3, E3, map_app. simpl. by rewrite (Hc _ Hst), !app_nil_r.
Qed.

(** C40: a kept log whose JSON does not fit the reader's buffer of 64 kilobytes ends the
    stream with an error: the client gets the logs before it and none after it. *)
Theorem probe_stream_cut id live s text st before l d after b :
  (apiProbeLogHandler as_string Marshal id live s).1 = Events text st ->
  (GetProbeLogBuffer id s).1.1 = Some b -> GetLogs b = before ++ l :: after ->
  plain_id id -> Forall carried before -> encoded l d -> ~ fits d ->
  readSSE Unmarshal text = (map entryOfLog before, true).
Proof.
  intros (b' & status & Hb & Hst & ->)%probe_text Hb' Hlogs Hid Hbefore Hl Hf.
  rewrite Hb in Hb'. injection Hb' as ->.
  destruct (carried_data entryOfLog _ Hbefore) as (ds & E & D1 & D2 & D3).
  destruct (connectedData_ok id status Hid Hst) as [C1 C2]. destruct Hid as (_ & _ & Hc & _).
  rewrite Hlogs, omap_app, E. destruct Hl as (Ed & Hd & _).
  change (omap (logData as_string Marshal) (l :: after)) with
    (match logData as_string Marshal l with
     | Some d => d :: omap (logData as_string Marshal) after
     | None => omap (logData as_string Marshal) after end).
  rewrite Ed, <- !app_assoc. change (connectedData id status :: ds ++ ?x) with
    ((connectedData id status :: ds) ++ x).
  change ((d :: ?x) ++ ?y) with (d :: (x ++ y)). set (rest := _ ++ (if st then _ else _)).
  rewrite stream_of_app. change (stream_of (d :: rest)) with (event d +:+ stream_of rest).
  rewrite readSSE_events by by constructor. rewrite readSSE_long by done.
  simpl. by rewrite (Hc _ Hst), D3, app_nil_r.
Qed.
End ProbeStream.

(** ** Streams on the sample server

    Messages are encoded as themselves after a letter. *)

#[local] Existing Instance listLru.

Definition sampleMarshal (t : Time) (msg : string) (attrs : option (gmap string nat))
  : option string := Some ("m" +:+ msg).

Definition sampleUnmarshal (d : string) : option (ProbeLogEntry (any := nat)) :=
  match CutPrefix "m" d with
  | Some msg => Some {| ProbeLogEntry_Timestamp := at_sec 7; ProbeLogEntry_Message := msg;
                        ProbeLogEntry_ProxyID := ""; ProbeLogEntry_Attrs := None |}
  | None => Some {| ProbeLogEntry_Timestamp := zeroTime; ProbeLogEntry_Message := "";
                    ProbeLogEntry_ProxyID := "p1"; ProbeLogEntry_Attrs := None |}
  end.

Definition sampleProbeLog (msg : string) : probeLog nat :=
  {| probeLog_Timestamp := at_sec 7; probeLog_Message := msg; probeLog_attrs := [] |}.

(** The server after the proxy "p1" logged the messages. *)
Definition loggingServer (msgs : list string) : Server nat :=
  onClient 0 (fun c => set_cl_buffer
    ((fun b => foldl (fun b m => ProbeLogBuffer_Add (sampleProbeLog m) b) b msgs) <$> cl_buffer c) c)
    sampleServer.

Lemma sample_carried msg : has_lf msg = false -> dropCR msg = msg -> msg <> ""%string ->
  (String.length msg < 100)%nat ->
  carried (fun _ => None) sampleMarshal sampleUnmarshal (sampleProbeLog msg).
Proof.
  intros Hl Hc Hne Hn. exists ("m" +:+ msg). split.
  - split_and!; [done| |done|by apply String.eqb_neq in Hne].
    split_and!; [done| |done]. destruct msg; [done|]. exact (f_equal (String.append "m") Hc).
  - unfold fits, MaxScanTokenSize. change (String.length ("m" +:+ msg)) with (S (String.length msg)). lia.
Qed.

Lemma sample_plain : plain_id sampleUnmarshal "p1".
Proof.
  split_and!; [done| | |done].
  - apply Nat.ltb_lt. by vm_compute.
  - by intros st [-> | ->].
Qed.

Definition streamText (r : Response) : string := match r with Events t _ => t | _ => EmptyString end.

(** A connected proxy: its three logs are kept, and still in its channel. *)
Lemma probe_stream_read_witness :
  let r := (apiProbeLogHandler (fun _ => None) sampleMarshal "p1"
              [sampleProbeLog "b"; sampleProbeLog "c"] (loggingServer ["a"; "b"; "c"])).1 in
  map ProbeLogEntry_Message (readSSE sampleUnmarshal (streamText r)).1
  = ["a"; "b"; "c"; "b"; "c"]%string.
Proof.
  intros r. destruct (probe_stream_read (fun _ => None) sampleMarshal sampleUnmarshal
    (entryOfLog (fun _ => None)) "p1"
    [sampleProbeLog "b"; sampleProbeLog "c"] (loggingServer ["a"; "b"; "c"]) (streamText r) true)
    as (b & E & ->).
  - by vm_compute.
  - apply sample_plain.
  - repeat (constructor; [apply sample_carried; [done|done|done|simpl; lia]|]). constructor.
  - repeat (constructor; [apply sample_carried; [done|done|done|simpl; lia]|]). constructor.
  - vm_compute in E. by injection E as <-.
Defined.

(** A message of [n] letters. *)
Fixpoint stretch (n : nat) : string := match n with O => "" | S n' => "x" +:+ stretch n' end.

Lemma stretch_ok n : has_lf (stretch n) = false /\ dropCR (stretch n) = stretch n /\
  String.length (stretch n) = n.
Proof.
  induction n as [|n (IH1 & IH2 & IH3)]; [done|]. split_and!; [exact IH1| |exact (f_equal S IH3)].
  destruct n; [done|]. exact (f_equal (String.append "x") IH2).
Qed.

(** Of three kept logs the second is too long: the client gets the first only. *)
Lemma probe_stream_cut_witness : exists big,
  let r := (apiProbeLogHandler (fun _ => None) sampleMarshal "p1" []
              (loggingServer ["a"; big; "c"])).1 in
  map ProbeLogEntry_Message (readSSE sampleUnmarshal (streamText r)).1 = ["a"]%string /\
  (readSSE sampleUnmarshal (streamText r)).2 = true.
Proof.
  assert (Eb : exists big, has_lf big = false /\ dropCR big = big /\ big <> ""%string /\
    (MaxScanTokenSize <= String.length big)%nat).
  { destruct (stretch_ok (N.to_nat 66000)) as (S1 & S2 & S3). exists (stretch (N.to_nat 66000)).
    split_and!; [exact S1|exact S2| |rewrite S3; unfold MaxScanTokenSize; lia].
    intros E. rewrite E in S3. simpl in S3. lia. }
  destruct Eb as (big & B1 & B2 & B3 & B4). exists big. intros r.
  set (s := loggingServer ["a"%string; big; "c"%string]) in *.
  assert (Hs : exists b, (GetProbeLogBuffer "p1" s).1 = (Some b, true) /\
    GetLogs b = [sampleProbeLog "a"] ++ sampleProbeLog big :: [sampleProbeLog "c"])
    by (eexists; split; reflexivity).
  destruct Hs as (b & Hb & Hlogs).
  assert (Hr : exists text, r = Events text true) by (eexists; reflexivity).
  destruct Hr as (text & Er). rewrite Er. cbn [streamText].
  rewrite (probe_stream_cut (fun _ => None) sampleMarshal sampleUnmarshal "p1" [] s text true
    [sampleProbeLog "a"] (sampleProbeLog big) ("m" +:+ big) [sampleProbeLog "c"] b); [done| | | | | | |].
  - exact Er.
  - by rewrite Hb.
  - exact Hlogs.
  - apply sample_plain.
  - repeat (constructor; [apply sample_carried; [done|done|done|simpl; lia]|]). constructor.
  - split_and!; [done| |done|by apply String.eqb_neq in B3].
    split_and!; [done| |done]. destruct big; [done|]. exact (f_equal (String.append "m") B2).
  - unfold fits. change (String.length ("m" +:+ big)) with (S (String.length big)). lia.
Defined.
