(* ===== verification/Serving.v ===== *)
(** * The API, from its client to the server

    [api.go]: the routes of [startAPIServer], how a request reaches a handler of [Api] and what
    becomes of the handler's answer, with the text of every body; and what the calls of
    [ApiClient] do to the server they are made to. The patterns and their matching are those
    of [http.ServeMux]; a request that no pattern of a clean path matches is answered by
    [Other], an argument: it is malformed, redirected, not found or not allowed. *)

From Stdlib Require Import Strings.Ascii.
From stdpp Require Import pretty sorting.
From S2P Require Import Prelude Bytes Fields Decimals Times Config Health Stats LogBuffers Proxy Sorting Server Registry.
From S2P Require Import Sse Runes Json Loading Urls Answers Api ApiClient.

Open Scope Z_scope.

(** ** Routes *)

Inductive segment : Type := Literal (s : string) | Wildcard (name : string) | Multi (name : string).

Inductive route : Type :=
| GetConfigRoute | PutConfigRoute | DiffConfigRoute | ReloadConfigRoute
| GetClientsRoute | GetClientRoute | ShutdownClientRoute | ProbeLogRoute | ServerLogsRoute.

Definition routes : list (string * (list segment * route)) := [
  ("GET", ([Literal "config"], GetConfigRoute));
  ("PUT", ([Literal "config"], PutConfigRoute));
  ("POST", ([Literal "config"; Literal "diff"], DiffConfigRoute));
  ("POST", ([Literal "config"; Literal "reload"], ReloadConfigRoute));
  ("GET", ([Literal "clients"], GetClientsRoute));
  ("GET", ([Literal "clients"; Multi "proxy_id"], GetClientRoute));
  ("DELETE", ([Literal "clients"; Multi "proxy_id"], ShutdownClientRoute));
  ("GET", ([Literal "clients"; Wildcard "proxy_id"; Literal "probe"], ProbeLogRoute));
  ("GET", ([Literal "logs"], ServerLogsRoute))]%string.

(** [pathUnescape] and [firstSegment] of [net/http]. *)
Definition pathUnescape (s : string) : string := default s (Unescape encodePath s).

Definition firstSegment (path : string) : string * string :=
  if String.eqb path "/" then ("/"%string, EmptyString)
  else
    let rest := dropBytes 1 path in
    match Cut slash rest with
    | None => (pathUnescape rest, EmptyString)
    | Some (seg, r) => (pathUnescape seg, String slash r)
    end.

(** [matchPath] on the patterns that are left: a literal goes before a wildcard, and that
    before one that takes the rest of the path. *)
Definition advance (f : segment -> bool) (ps : list (list segment * route)) : list (list segment * route) :=
  omap (fun p => match p.1 with s :: p' => if f s then Some (p', p.2) else None | [] => None end) ps.

Definition isLiteral (seg : string) (s : segment) : bool :=
  match s with Literal l => String.eqb l seg | _ => false end.
Definition isWildcard (s : segment) : bool := match s with Wildcard _ => true | _ => false end.
Definition isMulti (s : segment) : bool := match s with Multi _ => true | _ => false end.
Definition ending (ps : list (list segment * route)) : option route :=
  snd <$> List.find (fun p => match p.1 with [] => true | _ => false end) ps.

Fixpoint matchPath (fuel : nat) (ps : list (list segment * route)) (path : string) (matches : list string)
  : option (route * list string) :=
  match fuel with
  | O => None
  | S fuel' =>
      if String.eqb path EmptyString then (fun r => (r, matches)) <$> ending ps
      else
        let (seg, rest) := firstSegment path in
        match matchPath fuel' (advance (isLiteral seg) ps) rest matches with
        | Some r => Some r
        | None =>
            match (if String.eqb seg "/" then None
                   else matchPath fuel' (advance isWildcard ps) rest (matches ++ [seg])) with
            | Some r => Some r
            | None => (fun r => (r, matches ++ [pathUnescape (dropBytes 1 path)])) <$> ending (advance isMulti ps)
            end
        end
  end.

(** [cleanPath] of [net/http]. *)
Definition cleanPath (p : string) : string :=
  let p := if startsWith slash p then p else String slash p in
  let np := Clean p in
  if hasSuffix p "/" && negb (String.eqb np "/") then np +:+ "/" else np.

Definition findHandler (method path : string) : option (route * list string) :=
  if String.eqb (cleanPath path) path then
    matchPath (S (String.length path)) (omap (fun p => if String.eqb p.1 method then Some p.2 else None) routes) path []
  else None.

Example findHandler_samples :
  map (fun '(m, p) => findHandler m p)
    [("GET", "/config"); ("PUT", "/config"); ("POST", "/config/diff"); ("GET", "/clients"); ("GET", "/clients/abc");
     ("GET", "/clients/abc/probe"); ("DELETE", "/clients/abc/probe"); ("GET", "/clients/"); ("GET", "/clients/a%20b/c");
     ("DELETE", "/clients"); ("GET", "/clients//x"); ("POST", "/logs"); ("GET", "/clients/a/probe/b")]%string
  = [Some (GetConfigRoute, []); Some (PutConfigRoute, []); Some (DiffConfigRoute, []); Some (GetClientsRoute, []);
     Some (GetClientRoute, ["abc"]); Some (ProbeLogRoute, ["abc"]); Some (ShutdownClientRoute, ["abc/probe"]);
     Some (GetClientRoute, [""]); Some (GetClientRoute, ["a b/c"]); None; None; None;
     Some (GetClientRoute, ["a/probe/b"])]%string.
Proof. vm_compute. reflexivity. Qed.

(** ** Answers as text *)

Definition StatusText (code : Z) : string :=
  if code =? 200 then "OK" else if code =? 400 then "Bad Request" else if code =? 404 then "Not Found"
  else if code =? 500 then "Internal Server Error" else "".

Definition answer (code : Z) (text : string) : HTTPResponse := {|
  StatusCode := code; Status := pretty code +:+ " " +:+ StatusText code; Body := text; BodyError := None |}.

Section Serving.
Context {any : Type} (as_string : any -> option string)
  `{Floats} `{TimeText} (OtherJson : field -> json)
  (MarshalLog : Time -> string -> option (gmap string any) -> option string)
  (MarshalEntry : ProbeLogEntry (any := any) -> option string)
  `{Lru nat} `{Limiter} `{Pdq} (Hash : Config -> string) (ClientBanner : Proxy -> string)
  (Diff : Config -> Config -> result string string).

(** The files of the server, its environment, the Jsonnet interpreter over some files, and
    the text of the decoder's errors. *)
Context (ReadFile : string -> result string string) (Getenv : string -> string)
  (Jsonnet : (string -> result string string) -> string -> result string string)
  (unmarshalError : string -> string).

(** The server with its log. *)
Definition State : Type := Server any * LogBuffer (ProbeLogEntry (any := any)).

(** What a request meets: its context and the surroundings of health checks that are
    started, the time, what [os.CreateTemp] makes of a prefix and [io.Copy] of the body, the
    logs that a stream is given before its client leaves, and the name of its listener. *)
Record Site : Type := {
  st_ctx : nat;
  st_checks : string -> string -> Surroundings;
  st_now : Time;
  st_temp : string -> result string string;
  st_copied : result string ();
  st_live : list (probeLog any);
  st_received : list (ProbeLogEntry (any := any));
  st_listener : string
}.

Context (configPath : string) (Other : Request -> stm State string HTTPResponse) (site : Site).

Definition bodyText (b : body) : string :=
  match b with
  | BText s => s
  | BConfig c => Marshal (enc (configC OtherJson) c) +:+ newline
  | BClients l => Marshal (enc (sliceC (clientInfoC OtherJson)) l) +:+ newline
  | BClient i => Marshal (enc (fullClientInfoC OtherJson) i) +:+ newline
  | BFields l => Marshal (enc (mapC stringC) (Some l)) +:+ newline
  end.

(** A handler that panics closes the connection. *)
Definition respond (r : Response) : result string HTTPResponse :=
  match r with
  | Reply code _ b => Ok (answer code (bodyText b))
  | Events text _ => Ok (answer 200 text)
  | Aborted => Err "EOF"
  end%string.

(** [processConfigRequest] with the file it makes, which [config.Load] then reads. *)
Definition withFile (f text : string) : string -> result string string :=
  fun g => if String.eqb g f then Ok text else ReadFile g.

Definition tempFile (prefix contentType : string) : result string string :=
  (fun base => base +:+ match detectContentType contentType with Ok true => ".jsonnet" | _ => ".json" end)
  <$> st_temp site prefix.

Definition LoadFile (files : string -> result string string) (f : string) : result string Config :=
  Load OtherJson files Getenv (Jsonnet files) unmarshalError f.

Definition upload (prefix : string) (r : Request) : Upload :=
  let temp := tempFile prefix (Request_ContentType r) in {|
    up_contentType := Request_ContentType r; up_temp := temp; up_copied := st_copied site;
    up_loaded := match temp with Ok f => LoadFile (withFile f (Request_Body r)) f | Err e => Err e end |}.

(** A handler of the server's registry. *)
Definition onServer (h : Server any -> Response * Server any) : stm State string HTTPResponse := fun '(s, b) =>
  let (r, s') := h s in (respond r, (s', b)).

Definition handle (rt : route) (matches : list string) (u : URL) (r : Request) : stm State string HTTPResponse :=
  let proxyID := hd EmptyString matches in
  match rt with
  | GetConfigRoute => onServer (fun s => (apiGetConfigHandler s, s))
  | PutConfigRoute => onServer (apiPutConfigHandler Hash (st_ctx site) (st_checks site) (upload "trabbits-config-" r))
  | DiffConfigRoute => onServer (fun s => (apiDiffConfigHandler Diff (upload "trabbits-config-diff-" r) s, s))
  | ReloadConfigRoute => onServer (apiReloadConfigHandler Hash (st_ctx site) (st_checks site) (LoadFile ReadFile configPath))
  | GetClientsRoute => onServer (apiGetClientsHandler ClientBanner (st_now site))
  | GetClientRoute => onServer (apiGetClientHandler ClientBanner (st_now site) proxyID)
  | ShutdownClientRoute => onServer
      (apiShutdownClientHandler (Path u) (Request_Method r) proxyID (Values_Get "reason" (ParseQuery (RawQuery u))))
  | ProbeLogRoute => onServer (apiProbeLogHandler as_string MarshalLog proxyID (st_live site))
  | ServerLogsRoute => fun '(s, b) =>
      let (text, b') := apiServerLogsHandler MarshalEntry (st_ctx site) (st_listener site) (st_received site) b in
      (Ok (answer 200 text), (s, b'))
  end.

(** A request line is cut at its spaces. *)
Definition ServeHTTP (r : Request) : stm State string HTTPResponse :=
  match (if Contains " " (Request_URI r) then None else ParseRequestURI (Request_URI r)) with
  | None => Other r
  | Some u =>
      match findHandler (Request_Method r) (EscapedPath u) with
      | None => Other r
      | Some (rt, matches) => handle rt matches u r
      end
  end.
End Serving.

(** ** Requests of the client find their handlers *)

Lemma hasSuffix_end d a b : b <> EmptyString -> lacks d b = true -> hasSuffix (a +:+ b) (String d EmptyString) = false.
Proof.
  intros Hne Hb. assert (B : forall s, lacks d s = true -> hasSuffix s (String d EmptyString) = false).
  { induction s as [|c s IH]; [done|]. cbn [lacks]. intros [Hc Hs]%andb_prop. cbn [hasSuffix]. rewrite IH by done.
    rewrite orb_false_r. apply String.eqb_neq. intros [= ->]. by rewrite Ascii.eqb_refl in Hc. }
  induction a as [|c a IH]; [by apply B|]. rewrite append_cons. cbn [hasSuffix]. rewrite IH, orb_false_r.
  apply String.eqb_neq. intros [= _ E]. destruct a, b; done.
Qed.

Lemma join_snoc ids id : JoinWith slash (ids ++ [id]) =
  match ids with [] => id | _ => JoinWith slash ids +:+ String slash id end.
Proof.
  induction ids as [|a ids IH]; [done|]. cbn [app]. destruct ids as [|b ids]; [done|].
  change (JoinWith slash (a :: (b :: ids) ++ [id])) with (a +:+ String slash (JoinWith slash ((b :: ids) ++ [id]))).
  rewrite IH. change (JoinWith slash (a :: b :: ids)) with (a +:+ String slash (JoinWith slash (b :: ids))).
  by rewrite append_assoc, append_cons.
Qed.

Lemma slash_suffix ids : ids <> [] -> Forall plain ids -> hasSuffix (String slash (JoinWith slash ids)) "/" = false.
Proof.
  intros Hne H. destruct (exists_last Hne) as (l & id & ->). clear Hne. rename l into ids. apply Forall_app in H as [H Hid].
  rewrite Forall_singleton in Hid. rewrite join_snoc.
  assert (N : id <> EmptyString) by by apply String.eqb_neq, plain_neq.
  assert (L : lacks slash id = true) by by apply plain_lacks.
  destruct ids as [|a ids].
  - by apply (hasSuffix_end slash (String slash EmptyString)).
  - change (String slash (JoinWith slash (a :: ids) +:+ String slash id)) with
      (String slash (JoinWith slash (a :: ids)) +:+ (String slash EmptyString +:+ id)).
    rewrite <- append_assoc. by apply hasSuffix_end.
Qed.

(** A path of plain names is clean. *)
Lemma cleanPath_plain ids : ids <> [] -> Forall plain ids ->
  cleanPath (String slash (JoinWith slash ids)) = String slash (JoinWith slash ids).
Proof.
  intros Hne H. unfold cleanPath. change (startsWith slash (String slash (JoinWith slash ids))) with true. cbv iota.
  rewrite slash_suffix by done. cbn [andb]. unfold Clean.
  change (startsWith slash (String slash (JoinWith slash ids))) with true. cbv iota.
  unfold cleaned. change (String slash (JoinWith slash ids)) with (EmptyString +:+ String slash (JoinWith slash ids)).
  rewrite Split_at, Split_plain by done. cbn [foldl].
  change (cleanStep true [] EmptyString) with (@nil string). rewrite cleanSteps_plain, app_nil_r, rev_involutive by done.
  done.
Qed.

Lemma firstSegment_last id : plain id -> firstSegment (String slash id) = (id, EmptyString).
Proof.
  intros H. unfold firstSegment. assert (N : String.eqb (String slash id) "/" = false).
  { apply String.eqb_neq. intros [= ->]. by apply plain_neq in H as [? _]. }
  rewrite N. change (dropBytes 1 (String slash id)) with id. rewrite Cut_lacks by by apply plain_lacks.
  unfold pathUnescape. by rewrite pathText_Unescape by apply unreserved_pathText, H.
Qed.

Lemma firstSegment_more id rest : plain id -> firstSegment (String slash (id +:+ String slash rest)) = (id, String slash rest).
Proof.
  intros H. unfold firstSegment.
  assert (N : String.eqb (String slash (id +:+ String slash rest)) "/" = false) by (by apply String.eqb_neq; destruct id).
  rewrite N. change (dropBytes 1 (String slash ?s)) with s. rewrite Cut_at by by apply plain_lacks.
  unfold pathUnescape. by rewrite pathText_Unescape by apply unreserved_pathText, H.
Qed.

Lemma plain_word w : unreservedText w && negb (bool_decide (w ∈ [""; "."; ".."]%string)) = true -> plain w.
Proof. intros [H1 H2]%andb_prop. split; [done|]. by apply negb_true_iff, bool_decide_eq_false in H2. Qed.

Lemma plain_unescape id : plain id -> pathUnescape id = id.
Proof. intros H. unfold pathUnescape. by rewrite pathText_Unescape by apply unreserved_pathText, H. Qed.

(** The names in the paths of the API. *)
Lemma plain_names : Forall plain ["config"; "diff"; "reload"; "clients"; "probe"; "logs"]%string.
Proof. repeat (apply Forall_cons; split; [by apply plain_word|]). constructor. Qed.

Lemma plain_clients : plain "clients".
Proof. by apply plain_word. Qed.
