(* ===== verification/Calls.v ===== *)
(** * Calls of the API

    What a call of the client does when the server of [Serving] is at the other end: the
    proxy that is named is shut down for the reason given, a configuration file is put as if
    it had been loaded there, what is fetched is what the server has, without the
    passwords. *)

From Stdlib Require Import Strings.Ascii.
From stdpp Require Import pretty sorting.
From S2P Require Import Prelude Bytes Fields Decimals Times Config Health Stats LogBuffers Proxy Sorting Server Registry.
From S2P Require Import Sse Runes Json Loading Urls Answers LogText Api ApiClient Serving.

Open Scope Z_scope.

(** ** Routes of the client's requests *)

(** The patterns of a method. *)
Ltac patterns := match goal with |- context [omap ?f routes] =>
  let x := eval vm_compute in (omap f routes) in change (omap f routes) with x end.

Lemma not_slash id : plain id -> String.eqb id "/" = false.
Proof. intros H. apply String.eqb_neq. intros ->. by destruct H. Qed.

(** One segment of a path, and the last one. *)
Lemma matchPath_more n ps id rest ms : plain id ->
  matchPath (S n) ps (String slash (id +:+ String slash rest)) ms =
  match matchPath n (advance (isLiteral id) ps) (String slash rest) ms with
  | Some r => Some r
  | None =>
      match matchPath n (advance isWildcard ps) (String slash rest) (ms ++ [id]) with
      | Some r => Some r
      | None => (fun r => (r, ms ++ [pathUnescape (id +:+ String slash rest)])) <$> ending (advance isMulti ps)
      end
  end.
Proof. intros H. cbn [matchPath]. rewrite firstSegment_more, not_slash by done. done. Qed.

Lemma matchPath_last n ps id ms : plain id ->
  matchPath (S (S n)) ps (String slash id) ms =
  match ending (advance (isLiteral id) ps) with
  | Some r => Some (r, ms)
  | None =>
      match ending (advance isWildcard ps) with
      | Some r => Some (r, ms ++ [id])
      | None => (fun r => (r, ms ++ [id])) <$> ending (advance isMulti ps)
      end
  end.
Proof.
  intros H. remember (S n) as m eqn:Em. cbn [matchPath]. rewrite firstSegment_last, not_slash by done. subst m. cbn [matchPath].
  change (String.eqb EmptyString EmptyString) with true. cbv iota.
  destruct (ending (advance (isLiteral id) ps)) as [r|]; [done|]. cbn [fmap option_fmap option_map].
  destruct (ending (advance isWildcard ps)) as [r|]; [done|]. cbn [fmap option_fmap option_map].
  change (dropBytes 1 (String slash id)) with id. by rewrite plain_unescape.
Qed.

Lemma find_client m rt id : (m, rt) ∈ [("GET"%string, GetClientRoute); ("DELETE"%string, ShutdownClientRoute)] -> plain id ->
  findHandler m (String slash (JoinWith slash ["clients"%string; id])) = Some (rt, [id]).
Proof.
  intros Hm H. pose proof plain_clients as C.
  assert (E : cleanPath (String slash (JoinWith slash ["clients"%string; id])) = String slash (JoinWith slash ["clients"%string; id]))
    by (apply cleanPath_plain; auto using Forall_cons_2, Forall_nil_2).
  unfold findHandler. rewrite E, String.eqb_refl.
  change (JoinWith slash ["clients"%string; id]) with ("clients" +:+ String slash id).
  change (String.length (String slash ("clients" +:+ String slash id))) with (9 + String.length id)%nat. cbn [Nat.add].
  rewrite matchPath_more by done. rewrite !matchPath_last by done.
  rewrite !elem_of_cons in Hm. destruct Hm as [[= -> ->]|[[= -> ->]|Hm%elem_of_nil]]; [..|done]; patterns; reflexivity.
Qed.

Lemma find_probe id : plain id ->
  findHandler "GET" (String slash (JoinWith slash ["clients"%string; id; "probe"%string])) = Some (ProbeLogRoute, [id]).
Proof.
  intros H. pose proof plain_clients as C. assert (P : plain "probe") by by apply plain_word.
  assert (E : cleanPath (String slash (JoinWith slash ["clients"%string; id; "probe"%string])) =
    String slash (JoinWith slash ["clients"%string; id; "probe"%string]))
    by (apply cleanPath_plain; auto using Forall_cons_2, Forall_nil_2).
  unfold findHandler. rewrite E, String.eqb_refl.
  change (JoinWith slash ["clients"%string; id; "probe"%string]) with ("clients" +:+ String slash (id +:+ String slash "probe")).
  change (String.length (String slash ("clients" +:+ String slash (id +:+ String slash "probe")))) with
    (9 + String.length (id +:+ String slash "probe"))%nat. cbn [Nat.add].
  rewrite matchPath_more by done. rewrite !matchPath_more by done. rewrite !matchPath_last by done. patterns.
  reflexivity.
Qed.

(** ** Files that are put *)

Fixpoint lastChar (d : ascii) (s : string) : ascii :=
  match s with EmptyString => d | String c s' => lastChar c s' end.

Lemma lastChar_app d a c b : lastChar d (a +:+ String c b) = lastChar c b.
Proof. revert d; induction a as [|x a IH]; intros d; [done|]. rewrite append_cons. apply IH. Qed.

Lemma hasSuffix_app s p : hasSuffix s p = true -> exists a, s = a +:+ p.
Proof.
  induction s as [|c s IH]; cbn [hasSuffix]; intros [H|H]%orb_prop; try done.
  - exists EmptyString. by apply String.eqb_eq.
  - exists EmptyString. by apply String.eqb_eq.
  - destruct (IH H) as [a ->]. by exists (String c a).
Qed.

Lemma json_suffix base : hasSuffix (base +:+ ".json") ".jsonnet" = false.
Proof.
  destruct (hasSuffix _ _) eqn:E; [|done]. apply hasSuffix_app in E as [a E].
  assert (L : lastChar "x" (base +:+ ".json") = lastChar "x" (a +:+ ".jsonnet")) by by rewrite E.
  by rewrite !lastChar_app in L.
Qed.

(** A file of JSON is loaded as its text is. *)
Lemma Load_text `{Floats} OtherJson files Getenv J unmarshalError f text files' J' f' :
  hasSuffix f ".jsonnet" = false -> hasSuffix f' ".jsonnet" = false -> files f = Ok text -> files' f' = Ok text ->
  Load OtherJson files Getenv J unmarshalError f = Load OtherJson files' Getenv J' unmarshalError f'.
Proof. intros H1 H2 H3 H4. unfold Load. by rewrite H1, H2, H3, H4. Qed.

Lemma reload_config {any} `{Lru nat} `{Limiter} Hash ctx e c (s : Server any) :
  config (reloadConfigFromFile Hash ctx e (Ok c) s).2 = c.
Proof.
  unfold reloadConfigFromFile, disconnectOutdatedProxies, disconnectProxies. cbn.
  destruct (negb _); [done|]. destruct (existsb _ _); [done|]. cbn.
  assert (F : forall (g : Client any -> Client any) l (t : Server any), config (foldl (fun s i => onClient i g s) t l) = config t).
  { intros g l. induction l as [|i l IH]; intros t; [done|]. cbn [foldl]. by rewrite IH. }
  rewrite !F. done.
Qed.

Section Calls.
Context {any : Type} (as_string : any -> option string)
  `{Floats} `{TimeText} (OtherJson : field -> json)
  (MarshalLog : Time -> string -> option (gmap string any) -> option string)
  (MarshalEntry : ProbeLogEntry (any := any) -> option string)
  `{Lru nat} `{Limiter} `{Pdq} (Hash : Config -> string) (ClientBanner : Proxy -> string)
  (Diff : Config -> Config -> result string string).
Context (ReadFile : string -> result string string) (Getenv : string -> string)
  (Jsonnet : (string -> result string string) -> string -> result string string)
  (unmarshalError : string -> string).
Context (configPath : string) (Other : Request -> stm (State (any := any)) string HTTPResponse) (site : Site (any := any)).
Context (urlError : string -> string) (sendError : URL -> string) (decodeError : HTTPResponse -> string).

#[local] Abbreviation Serve := (ServeHTTP as_string OtherJson MarshalLog MarshalEntry Hash ClientBanner Diff ReadFile Getenv
  Jsonnet unmarshalError configPath Other site).
#[local] Abbreviation handle := (handle as_string OtherJson MarshalLog MarshalEntry Hash ClientBanner Diff ReadFile Getenv
  Jsonnet unmarshalError configPath site).
#[local] Abbreviation configC := (configC OtherJson).
Implicit Types (s : Server any) (b : LogBuffer (ProbeLogEntry (any := any))).

(** A request for a path of plain names is that of its handler. *)
Lemma serve_path method ids q ct ac body rt ms : ids <> [] -> Forall plain ids -> hasCTL q = false -> lacks " " q = true ->
  findHandler method (String slash (JoinWith slash ids)) = Some (rt, ms) ->
  let r := {| Request_Method := method; Request_URI := withQuery (String slash (JoinWith slash ids)) q;
              Request_ContentType := ct; Request_Accept := ac; Request_Body := body |} in
  Serve r = handle rt ms (urlOf (String slash (JoinWith slash ids)) q) r.
Proof.
  intros Hne Hp Hq Hs Hf r. unfold ServeHTTP. pose proof (plain_path ids Hp) as P.
  assert (L : lacks " " (Request_URI r) = true).
  { subst r. cbn [Request_URI]. unfold withQuery. rewrite lacks_append, pathText_lacks by done.
    destruct (String.eqb q ""); [done|]. exact Hs. }
  rewrite Contains_lacks by done. subst r. cbn [Request_URI Request_Method].
  rewrite ParseRequestURI_urlOf, EscapedPath_urlOf by done. by rewrite Hf.
Qed.

(** The same without a query. *)
Lemma serve_plain method ids ct ac body rt ms : ids <> [] -> Forall plain ids ->
  findHandler method (String slash (JoinWith slash ids)) = Some (rt, ms) ->
  let r := {| Request_Method := method; Request_URI := String slash (JoinWith slash ids);
              Request_ContentType := ct; Request_Accept := ac; Request_Body := body |} in
  Serve r = handle rt ms (urlOf (String slash (JoinWith slash ids)) "") r.
Proof.
  intros Hne Hp Hf. pose proof (serve_path method ids "" ct ac body rt ms Hne Hp eq_refl eq_refl Hf) as E.
  unfold withQuery in E. change (String.eqb "" "") with true in E. cbv iota in E. by rewrite append_nil in E.
Qed.

Lemma reason_plain reason : lacks " " (reasonQuery reason) = true.
Proof.
  unfold reasonQuery. destruct (String.eqb reason ""); [done|]. rewrite lacks_append.
  by rewrite QueryEscape_lacks.
Qed.

(** ** Shutting down a client *)

(** What the client is told of a proxy that the server knows or not. *)
Definition shutdownAnswer (found : bool) : result string () :=
  if found then Ok () else Err "client not found"%string.

(** C28: [ShutdownClient] of the client of the API shuts down exactly the proxy it names,
    with the reason it is given whatever its characters, and says so; when no such proxy is
    registered nothing changes and the error says that. *)
Theorem shutdown_reaches id reason s b : plain id ->
  ShutdownClient Serve urlError sendError "/" id reason (s, b) =
  let (found, s') := ShutdownProxy id reason s in (shutdownAnswer found, (s', b)).
Proof.
  intros Hid. pose proof plain_clients as C. pose proof (plain_neq id Hid) as (N & _ & _).
  assert (P : Forall plain ["clients"%string; id]) by auto using Forall_cons_2, Forall_nil_2.
  unfold ShutdownClient. rewrite N, Join_plain by done.
  change ("clients" +:+ String slash id) with (JoinWith slash ["clients"%string; id]).
  rewrite buildURL_plain by done. unfold mbind, stm_bind, raise at 1.
  rewrite request_reason by done.
  rewrite (serve_path _ _ _ _ _ _ ShutdownClientRoute [id]);
    [|done|done|apply reasonQuery_noCTL|apply reason_plain|apply find_client; [set_solver|done]].
  cbn [Serving.handle hd]. unfold onServer, apiShutdownClientHandler. rewrite N. cbn [Path RawQuery urlOf].
  rewrite reasonQuery_read. unfold ShutdownProxy. by destruct (activeProxies s !! id).
Qed.

(** ** Fetching *)

(** A value that the other side of a connection can read: of UTF-8 text and not nested too
    deep. *)
Definition readable (j : json) : Prop := depth j <= maxNestingDepth /\ validated j = j.

Lemma decode_body {A} (c : codec A) P canon a code st : lawful c P canon -> encodes c P -> P a -> readable (enc c a) ->
  decode (S := State (any := any)) decodeError c (answer code (Marshal (enc c a) +:+ newline)) st = (Ok (canon a), st).
Proof.
  intros Hl He Ha [Hd Hv]. unfold decode, raise. change (Body (answer code ?t)) with t. unfold Marshal.
  rewrite Decode_write; [|by apply He|done|by vm_compute]. rewrite Hv. cbn [mbind option_bind]. by rewrite (Hl a Ha).
Qed.

Lemma plain1 w : plain w -> Forall plain [w].
Proof. auto using Forall_cons_2, Forall_nil_2. Qed.

Lemma plain_config : plain "config".
Proof. by apply plain_word. Qed.

(** [GetConfig]: the configuration of the server, with masks for passwords. *)
Lemma GetConfig_masked s b : carriedConfig (config s) -> readable (enc configC (config s)) ->
  GetConfig OtherJson Serve urlError sendError decodeError "/" (s, b) = (Ok (masked (config s)), (s, b)).
Proof.
  intros Hc Hr. pose proof (plain1 _ plain_config) as P. unfold GetConfig, get.
  change "config"%string with (JoinWith slash ["config"%string]).
  rewrite buildURL_plain by done. unfold mbind, stm_bind, raise at 1. rewrite request_plain by done.
  rewrite (serve_plain _ _ _ _ _ GetConfigRoute []); [|done|done|vm_compute; reflexivity].
  cbn [Serving.handle]. unfold onServer, apiGetConfigHandler. cbn [respond bodyText].
  apply (decode_body configC carriedConfig masked); [apply config_lawful|apply config_encodes|done|done].
Qed.

(** ** Putting a configuration *)

(** The answer of a server that has got a file of JSON: the handler panics when the
    configuration has no hash, and the connection is closed. *)
Definition putAnswer (cfg : result string Config) : result string () :=
  match cfg with
  | Ok c => if sliceable (Hash c) then Ok () else Err "EOF"%string
  | Err e => Err ("failed to put config: 400 Bad Request - " +:+ e +:+ newline)
  end.

Lemma put_served text base s b : st_temp site "trabbits-config-" = Ok base -> st_copied site = Ok () ->
  let cfg := LoadFile OtherJson Getenv Jsonnet unmarshalError (withFile ReadFile (base +:+ ".json") text) (base +:+ ".json") in
  (u ← raise (buildURL urlError "/" "config");
   r ← request Serve sendError "PUT" "application/json" "" text u;
   if negb (StatusCode r =? StatusOK) then throw (refusal "failed to put config" r) else mret ()) (s, b)
  = (putAnswer cfg, ((reloadConfigFromFile Hash (st_ctx site) (st_checks site) cfg s).2, b)).
Proof.
  intros Ht Hcp cfg. pose proof (plain1 _ plain_config) as P.
  change "config"%string with (JoinWith slash ["config"%string]).
  rewrite buildURL_plain by done. unfold mbind, stm_bind, raise at 1. rewrite request_plain by done.
  rewrite (serve_plain _ _ _ _ _ PutConfigRoute []); [|done|done|vm_compute; reflexivity].
  cbn [Serving.handle]. unfold onServer, apiPutConfigHandler, processConfigRequest, upload, tempFile.
  cbn [up_contentType up_temp up_copied up_loaded Request_ContentType Request_Body].
  change (detectContentType "application/json") with (@Ok string bool false). rewrite Ht, Hcp. cbn [fmap result_fmap].
  fold cfg. unfold reloadConfigFromFile. destruct cfg as [c|e]; [|done].
  pose proof (outdating_panics (Hash c) (UpdateConfig Hash c (initHealthManagers (st_ctx site) (st_checks site) s))) as O.
  unfold putAnswer. by destruct (disconnectOutdatedProxies (Hash c) _) as [[| |n] s']; cbn [fst] in O; rewrite O.
Qed.

(** The process goes on after a reload: no goroutine panics at the hash of a proxy. *)
Definition goesOn (cfg : result string Config) s : Prop :=
  forall c, (reloadConfigFromFile Hash (st_ctx site) (st_checks site) cfg s).1 <> Reloaded c GoroutinePanics.

(** C29: putting a file of JSON, which is not named as one of Jsonnet, with the client is
    loading it at the server, with the server's environment: when it loads, it is installed as
    by a reload, and a client that asks for the configuration then gets it, with masks for
    passwords; the answer is that it is installed, or an end of the connection when the
    configuration has no hash and the handler panics; otherwise the client is given the
    reason and nothing changes. The registered proxies are to have hashes ([goesOn]), or the
    process ends. *)
Theorem put_loads Disk path text base s b : Disk path = Ok text -> hasSuffix path ".jsonnet" = false ->
  st_temp site "trabbits-config-" = Ok base -> st_copied site = Ok () ->
  let cfg := Load OtherJson Disk Getenv (Jsonnet Disk) unmarshalError path in
  goesOn cfg s ->
  let s' := (reloadConfigFromFile Hash (st_ctx site) (st_checks site) cfg s).2 in
  PutConfigFromFile Serve Disk urlError sendError "/" path (s, b) = (putAnswer cfg, (s', b)) /\
  forall c, cfg = Ok c -> carriedConfig c -> readable (enc configC c) ->
    GetConfig OtherJson Serve urlError sendError decodeError "/" (s', b) = (Ok (masked c), (s', b)).
Proof.
  intros Hd Hp Ht Hcp cfg _ s'. split.
  - unfold PutConfigFromFile, contentTypeOf. rewrite Hd, Hp, (put_served text base s b Ht Hcp).
    assert (E : LoadFile OtherJson Getenv Jsonnet unmarshalError (withFile ReadFile (base +:+ ".json") text) (base +:+ ".json") = cfg).
    { apply (Load_text _ _ _ _ _ _ text); [apply json_suffix|done| |done]. unfold withFile. by rewrite String.eqb_refl. }
    by rewrite E.
  - intros c Ec Hc Hr. assert (Es : config s' = c) by (subst s'; rewrite Ec; apply reload_config).
    pose proof (GetConfig_masked s' b) as G. rewrite Es in G. by apply G.
Qed.

(** C30: a configuration that is fetched with the client and put back replaces every password
    that the server had by its mask; the client is told so, or sees the end of the connection
    when the new configuration has no hash. No dollar is in the text of the configuration, nor
    are there bytes that are not UTF-8. *)
Theorem put_back_masks files J f base s b : Load OtherJson files Getenv J unmarshalError f = Ok (config s) ->
  carriedConfig (config s) -> readable (enc configC (config s)) -> noDollar (Config_String OtherJson (config s)) = true ->
  st_temp site "trabbits-config-" = Ok base -> st_copied site = Ok () -> goesOn (Ok (masked (config s))) s ->
  let s' := (reloadConfigFromFile Hash (st_ctx site) (st_checks site) (Ok (masked (config s))) s).2 in
  (c ← GetConfig OtherJson Serve urlError sendError decodeError "/";
   PutConfig OtherJson Serve urlError sendError "/" c) (s, b) = (putAnswer (Ok (masked (config s))), (s', b)) /\
  config s' = masked (config s).
Proof.
  intros Hl Hc [Hd Hv] Hn Ht Hcp _ s'. split; [|apply reload_config].
  rewrite (stm_bind_ok _ _ _ (masked (config s)) (s, b)) by by apply GetConfig_masked.
  unfold PutConfig. set (text := Config_String OtherJson (masked (config s))).
  assert (Et : text = Config_String OtherJson (config s)) by (unfold text, Config_String; by rewrite enc_masked).
  assert (El : LoadFile OtherJson Getenv Jsonnet unmarshalError (withFile ReadFile (base +:+ ".json") text) (base +:+ ".json")
    = Ok (masked (config s))).
  { unfold LoadFile, Load. rewrite json_suffix. unfold withFile. rewrite String.eqb_refl, Et, Expand_plain by done.
    rewrite Unmarshal_String by done. apply Load_inv in Hl as (t0 & c0 & _ & Hval & Ec).
    replace (Validate (masked (config s))) with (@Ok string () ()).
    2: { symmetry. apply masked_Validate. by rewrite Ec, SetDefaults_Validate. }
    by rewrite Ec, SetDefaults_masked, SetDefaults_idem. }
  pose proof (put_served text base s b Ht Hcp) as P. cbv zeta in P. rewrite El in P. fold s' in P. cbn [putAnswer] in P.
  unfold mbind, stm_bind in P |- *. unfold raise in P |- *.
  destruct (buildURL urlError "/" "config") as [u|e]; [|done]. fold text. cbv iota in P |- *.
  revert P. generalize (request Serve sendError "PUT" "application/json" "" text u (s, b)). intros [[r|e] st]; [|done].
  unfold throw, mret, stm_ret, refusal, putAnswer.
  destruct (negb (StatusCode r =? StatusOK)), (sliceable (Hash (masked (config s)))); intros P; cbn in P;
    first [exact P|discriminate P].
Qed.

(** ** Clients *)

(** The list has no properties, which only the detail shows. *)
Lemma retained_noProperties keys s : Forall (fun i => Info_ClientProperties _ i = None) (retainedLoop keys s).1.
Proof.
  revert s; induction keys as [|id keys IH]; intros s; cbn [retainedLoop]; [constructor|].
  case_match; [apply IH|]. destruct (lru_Get id (retainedProbeLogs s)) as [r c]. specialize (IH (set_retained c s)).
  destruct (retainedLoop keys (set_retained c s)) as [l s']. cbn [fst] in *.
  destruct (r ≫= bufferOf (set_retained c s)) as [buf|]; [|done]. destruct (IsActive buf); [done|].
  constructor; [|done]. unfold retainedInfo. by destruct (GetProxyInfo buf) as [[[[]]]].
Qed.

Lemma list_noProperties now s : Forall (fun i => Info_ClientProperties _ i = None) (GetClientsInfo ClientBanner now s).1.
Proof.
  unfold GetClientsInfo. pose proof (retained_noProperties (lru_Keys (retainedProbeLogs s)) s) as R.
  destruct (retainedLoop _ s) as [l s']. cbn [fst] in *. rewrite sortSlice_perm. apply Forall_app. split; [|done].
  unfold activeInfos. induction (map_to_list (activeProxies s)) as [|[k i] ps IH]; [constructor|]. cbn [omap list_omap].
  destruct (clients s !! (k, i).2); [|done]. by constructor.
Qed.

Lemma canonInfo_id {St} (i : Info St) : Info_ClientProperties _ i = None -> canonInfo i = i.
Proof. destruct i. cbn. by intros ->. Qed.

Lemma clientInfo_lawful : lawful (clientInfoC OtherJson) (carriedInfo carriedSummary) canonInfo.
Proof. apply info_lawful; [apply summary_lawful|done]. Qed.

Lemma clientInfo_encodes : encodes (clientInfoC OtherJson) (carriedInfo carriedSummary).
Proof. apply info_encodes. intros i _. by apply summary_encodes. Qed.

(** C31: [GetClients] gives exactly the server's list of clients, in its order: when its times
    have a text and its numbers and strings are of their types. *)
Theorem clients_fetched s b : let (l, s') := GetClientsInfo ClientBanner (st_now site) s in
  Forall (carriedInfo carriedSummary) l -> readable (enc (sliceC (clientInfoC OtherJson)) l) ->
  GetClients OtherJson Serve urlError sendError decodeError "/" (s, b) = (Ok l, (s', b)).
Proof.
  pose proof (list_noProperties (st_now site) s) as N. destruct (GetClientsInfo _ _ s) as [l s'] eqn:E.
  intros Hc Hr. pose proof (plain1 _ plain_clients) as P. unfold GetClients, get.
  change "clients"%string with (JoinWith slash ["clients"%string]).
  rewrite buildURL_plain by done. unfold mbind, stm_bind, raise at 1. rewrite request_plain by done.
  rewrite (serve_plain _ _ _ _ _ GetClientsRoute []); [|done|done|vm_compute; reflexivity].
  cbn [Serving.handle]. unfold onServer, apiGetClientsHandler. rewrite E. cbn [respond bodyText].
  rewrite (decode_body (sliceC (clientInfoC OtherJson)) (Forall (carriedInfo carriedSummary)) (map canonInfo));
    [|by apply slice_lawful, clientInfo_lawful|by apply slice_encodes, clientInfo_encodes|done|done].
  do 2 f_equal. cbn [fst] in N. clear -N. induction N as [|i l Hi _ IH]; [done|]. cbn [map]. by rewrite canonInfo_id, IH.
Qed.

(** [GetClientDetail]: all that is known of a client, with its properties by name; one that is
    not found is an error. *)
Theorem detail_fetched id s b : plain id -> let (o, s') := GetClientInfo ClientBanner id (st_now site) s in
  from_option (fun i => carriedInfo carriedFull i /\ readable (enc (fullClientInfoC OtherJson) i)) True o ->
  GetClientDetail OtherJson Serve urlError sendError decodeError "/" id (s, b) =
  (match o with Some i => Ok (canonInfo i) | None => Err "client not found"%string end, (s', b)).
Proof.
  intros Hid. destruct (GetClientInfo _ _ _ s) as [o s'] eqn:E. intros Ho. pose proof plain_clients as C.
  assert (P : Forall plain ["clients"%string; id]) by auto using Forall_cons_2, Forall_nil_2.
  unfold GetClientDetail, get. rewrite Join_plain by done.
  change ("clients" +:+ String slash id) with (JoinWith slash ["clients"%string; id]).
  rewrite buildURL_plain by done. unfold mbind, stm_bind, raise at 1. rewrite request_plain by done.
  rewrite (serve_plain _ _ _ _ _ GetClientRoute [id]); [|done|done|apply find_client; [set_solver|done]].
  cbn [Serving.handle hd]. unfold onServer, apiGetClientHandler. rewrite (proj1 (plain_neq id Hid)), E.
  destruct o as [i|]; [|done]. cbn [respond bodyText]. destruct Ho as [Hi Hr].
  change (StatusCode (answer 200 ?t) =? StatusNotFound) with false.
  change (negb (StatusCode (answer 200 ?t) =? StatusOK)) with false. cbv iota.
  rewrite (decode_body (fullClientInfoC OtherJson) (carriedInfo carriedFull) canonInfo); [done|..|done|done].
  - apply info_lawful; [apply full_lawful|done].
  - apply info_encodes. intros x _. by apply full_encodes.
Qed.

(** ** Errors that are not passed on *)

(** [ReloadConfig] does not look at the status: of the reason for which the server did not
    reload, the caller only sees that it is not JSON. *)
Theorem reload_refused e s b : LoadFile OtherJson Getenv Jsonnet unmarshalError ReadFile configPath = Err e ->
  exists r, Body r = ("failed to reload configuration: " +:+ e +:+ newline)%string /\ StatusCode r = 500 /\
  ReloadConfig OtherJson Serve urlError sendError decodeError "/" (s, b) = (Err (decodeError r), (s, b)).
Proof.
  intros El. exists (answer 500 ("failed to reload configuration: " +:+ e +:+ newline)). split; [done|]. split; [done|].
  assert (P : Forall plain ["config"%string; "reload"%string]) by (repeat (apply Forall_cons; split; [by apply plain_word|]); constructor).
  unfold ReloadConfig. change "config/reload"%string with (JoinWith slash ["config"%string; "reload"%string]).
  rewrite buildURL_plain by done. unfold mbind, stm_bind, raise at 1. rewrite request_plain by done.
  rewrite (serve_plain _ _ _ _ _ ReloadConfigRoute []); [|done|done|vm_compute; reflexivity].
  cbn [Serving.handle]. unfold onServer, apiReloadConfigHandler, reloadConfigFromFile. rewrite El.
  cbn [respond bodyText Error]. unfold decode, raise. by rewrite append_assoc.
Qed.
End Calls.

(** ** Streams of logs

    The attributes of a log arrive as JSON carries them ([arrivedEntry]); a line of 64
    kilobytes or more is not read ([probe_stream_cut]). *)

Section Streams.
Context (as_string : field -> option string)
  `{Floats} `{TimeText} (OtherJson : field -> json)
  `{Lru nat} `{Limiter} `{Pdq} (Hash : Config -> string) (ClientBanner : Proxy -> string)
  (Diff : Config -> Config -> result string string).
Context (ReadFile : string -> result string string) (Getenv : string -> string)
  (Jsonnet : (string -> result string string) -> string -> result string string)
  (unmarshalError : string -> string).
Context (configPath : string) (Other : Request -> stm (State (any := field)) string HTTPResponse) (site : Site (any := field)).
Context (urlError : string -> string) (sendError : URL -> string).

#[local] Abbreviation Serve := (ServeHTTP as_string OtherJson (MarshalLog OtherJson) (MarshalEntry OtherJson) Hash ClientBanner
  Diff ReadFile Getenv Jsonnet unmarshalError configPath Other site).
#[local] Abbreviation entryJson := (enc (probeLogEntryC OtherJson)).
Implicit Types (s : Server field) (b : LogBuffer (ProbeLogEntry (any := field))).

(** An entry that gets through: it is encoded, nested less than ten thousand deep, on a line
    that fits, and it is no control message. *)
Definition sendable (e : ProbeLogEntry (any := field)) : Prop :=
  transportable OtherJson e /\ depth (entryJson e) <= maxNestingDepth /\ fits (Marshal (entryJson e)) /\
  IsZero (ProbeLogEntry_Timestamp e) && String.eqb (valid (ProbeLogEntry_Message e)) "" = false.

#[local] Abbreviation arrived := (arrivedEntry OtherJson).

Lemma sendable_event e : sendable e -> event_data (Marshal (entryJson e)) /\
  entryOfEvent (UnmarshalEntry OtherJson) (Marshal (entryJson e)) = [arrived e].
Proof.
  intros (He & Hd & _ & Hz). destruct (entry_text OtherJson e He Hd) as [D1 D2]. split; [done|].
  unfold entryOfEvent. rewrite D2. cbn [arrivedEntry ProbeLogEntry_Timestamp ProbeLogEntry_Message]. by rewrite Hz.
Qed.

Lemma sendable_carried (l : probeLog field) : sendable (entryOfLog as_string l) ->
  carriedAs as_string (MarshalLog OtherJson) (UnmarshalEntry OtherJson) (fun l => arrived (entryOfLog as_string l)) l.
Proof.
  intros He. exists (Marshal (entryJson (entryOfLog as_string l))). destruct (sendable_event _ He) as [D1 _].
  destruct He as (Hc & Hd & Hf & Hz). split; [|done]. split_and!; [|done| |done].
  - unfold logData. by rewrite MarshalLog_entry.
  - by destruct (entry_text OtherJson _ Hc Hd).
Qed.

(** What the control messages say is no entry. *)
Lemma connected_decoded id st : plain id -> (st = "active" \/ st = "disconnected")%string ->
  entryOfEvent (UnmarshalEntry OtherJson) (connectedData id st) = [].
Proof.
  intros [Hu _] Hst. assert (Us : unreservedText st = true) by (by destruct Hst as [-> | ->]).
  assert (E : connectedData id st =
    Marshal (JObj [("type", JStr "connected"); ("proxy_id", JStr id); ("status", JStr st)]%string)).
  { unfold Marshal, connectedData, dq. cbn [write fmap option_fmap option_map break colon items fst snd]. unfold quoted.
    rewrite !escape_unreserved by done. change (EmptyString +:+ ?x) with x. by rewrite !append_assoc. }
  unfold entryOfEvent, UnmarshalEntry, Unmarshal, Marshal in *. rewrite E, Parse_write; [done| |done].
  by cbn.
Qed.

Lemma plain_no_lf id : plain id -> has_lf id = false.
Proof.
  intros [U _]. induction id as [|c id IH]; [done|]. cbn [unreservedText has_lf] in *. apply andb_prop in U as [Hc U].
  rewrite IH by done. rewrite orb_false_r. apply bool_decide_eq_false. intros ->. by vm_compute in Hc.
Qed.

Lemma plain_control id : plain id -> (String.length id < N.to_nat 65000)%nat -> plain_id (UnmarshalEntry OtherJson) id.
Proof.
  intros Hid Hn. split_and!; [by apply plain_no_lf|done| |vm_compute; reflexivity].
  intros st. by apply connected_decoded.
Qed.

Lemma eventStream_served ids rt ms st : ids <> [] -> Forall plain ids ->
  findHandler "GET" (String slash (JoinWith slash ids)) = Some (rt, ms) -> exists r,
  eventStream Serve urlError sendError "/" (JoinWith slash ids) st =
  handle as_string OtherJson (MarshalLog OtherJson) (MarshalEntry OtherJson) Hash ClientBanner Diff ReadFile Getenv
    Jsonnet unmarshalError configPath site rt ms (urlOf (String slash (JoinWith slash ids)) "") r st.
Proof.
  intros Hne P Hf. eexists. unfold eventStream. rewrite buildURL_plain by done. unfold mbind, stm_bind, raise.
  rewrite request_plain by done.
  erewrite serve_plain; [reflexivity|exact Hne|exact P|exact Hf].
Qed.

(** C14: what the client reads of a proxy's stream is exactly the logs that the server kept
    of it and then, while it is connected, those read from its channel: with their times and
    messages, and with the attributes as JSON carries them, in order, once each, and none of
    the control messages; a proxy that is not known is an error. The logs are to be encoded,
    on lines of less than 64 kilobytes, and nested less than ten thousand deep. *)
Theorem probe_logs_arrive id s b : plain id -> (String.length id < N.to_nat 65000)%nat ->
  let '((kept, found), s') := GetProbeLogBuffer id s in
  let logs := default [] (GetLogs <$> kept) ++ (if decide (is_Some (activeProxies s !! id)) then st_live site else []) in
  Forall (fun l => sendable (entryOfLog as_string l)) logs ->
  readProbeLogSSE Serve urlError sendError "/" (UnmarshalEntry OtherJson) id (s, b) =
  (match kept, found with
   | Some _, true => Ok (map (fun l => arrived (entryOfLog as_string l)) logs, false)
   | None, true => Err "EOF"%string
   | _, false => Err ("proxy not found: " +:+ id)
   end, (s', b)).
Proof.
  intros Hid Hn. destruct (GetProbeLogBuffer id s) as [[kept found] s'] eqn:E. intros logs Hl.
  assert (P : Forall plain ["clients"%string; id; "probe"%string]).
  { repeat (apply Forall_cons; split; [done || by apply plain_word|]). constructor. }
  destruct (eventStream_served ["clients"; id; "probe"]%string ProbeLogRoute [id] (s, b) ltac:(done) P (find_probe id Hid)) as [r R].
  unfold readProbeLogSSE. change ("clients/" +:+ id +:+ "/probe") with (JoinWith slash ["clients"%string; id; "probe"%string]).
  unfold mbind, stm_bind. rewrite R. cbn [Serving.handle hd]. unfold onServer.
  pose proof (probe_stream_read as_string (MarshalLog OtherJson) (UnmarshalEntry OtherJson)
    (fun l => arrived (entryOfLog as_string l)) id
    (if decide (is_Some (activeProxies s !! id)) then st_live site else []) s) as T.
  unfold apiProbeLogHandler in T |- *. rewrite (proj1 (plain_neq id Hid)), E in T |- *. cbn [fst] in T.
  destruct found; cbn [negb] in T |- *; [|by destruct kept].
  destruct kept as [buf|]; [|done].
  assert (A : Forall (carriedAs as_string (MarshalLog OtherJson) (UnmarshalEntry OtherJson)
    (fun l => arrived (entryOfLog as_string l))) logs).
  { eapply Forall_impl; [exact Hl|]. intros l. apply sendable_carried. }
  subst logs. apply Forall_app in A as [A1 A2]. cbn [default fmap option_fmap option_map from_option Datatypes.id] in A1.
  revert T A2. destruct (decide (is_Some (activeProxies s !! id))) as [Hact|Hact];
    [rewrite bool_decide_eq_true_2 by done|rewrite bool_decide_eq_false_2 by done]; cbn [respond]; intros T A2;
    destruct (T _ _ eq_refl (plain_control id Hid Hn) A1 A2) as (b1 & Eb & Er); injection Eb as <-;
    change (Body (answer 200 ?t)) with t; cbn [StatusCode answer]; by rewrite Er, ?app_nil_r.
Qed.

(** What the client reads of the server's log is exactly what its subscription is given,
    in order, with the attributes as JSON carries them. *)
Theorem server_logs_arrive s b : Forall sendable (st_received site) ->
  readServerLogSSE Serve urlError sendError "/" (UnmarshalEntry OtherJson) (s, b) =
  (Ok (map arrived (st_received site), false), (s, Subscribe (st_ctx site) (st_listener site) b)).
Proof.
  intros Hl. assert (P : Forall plain ["logs"%string]) by (apply plain1; by apply plain_word).
  destruct (eventStream_served ["logs"%string] ServerLogsRoute [] (s, b) ltac:(done) P ltac:(vm_compute; reflexivity)) as [r R].
  unfold readServerLogSSE. change "logs"%string with (JoinWith slash ["logs"%string]).
  unfold mbind, stm_bind. rewrite R. cbn [Serving.handle]. unfold apiServerLogsHandler.
  change (negb (StatusCode (answer 200 ?t) =? StatusOK)) with false. cbv iota.
  change (Body (answer 200 ?t)) with t. unfold mret, stm_ret. do 3 f_equal.
  assert (D : forall es, Forall sendable es -> exists ds, omap (MarshalEntry OtherJson) es = ds /\
    Forall event_data ds /\ Forall fits ds /\ flat_map (entryOfEvent (UnmarshalEntry OtherJson)) ds = map arrived es).
  { induction 1 as [|e es He _ (ds & E & D1 & D2 & D3)].
    { exists []. split; [reflexivity|]. split; [constructor|]. split; [constructor|reflexivity]. }
    destruct (sendable_event e He) as [F1 F2]. exists (Marshal (entryJson e) :: ds).
    split_and!; [by cbn; rewrite E|by constructor|constructor; [apply He|done]|]. cbn [flat_map map]. by rewrite F2, D3. }
  destruct (D _ Hl) as (ds & -> & D1 & D2 & D3).
  set (hello := "{" +:+ dq "type" +:+ ":" +:+ dq "connected" +:+ "}").
  assert (H1' : event_data hello) by (split_and!; by vm_compute).
  assert (H2' : fits hello) by (apply Nat.ltb_lt; by vm_compute).
  rewrite <- (append_nil (stream_of _)), readSSE_events by by constructor.
  cbn [flat_map]. rewrite D3. change (entryOfEvent (UnmarshalEntry OtherJson) hello) with (@nil (ProbeLogEntry (any := field))).
  change (readSSE (UnmarshalEntry OtherJson) EmptyString) with (@nil (ProbeLogEntry (any := field)), false). cbn [fst snd app].
  by rewrite app_nil_r.
Qed.
End Streams.

(** ** Calls at a server

    Two clients are connected; times are written as whole seconds, and floats as in
    [Loading]. *)

#[local] Existing Instance wholeFloats.
#[local] Existing Instance listLru.
#[local] Existing Instance simpleLimiter.
#[local] Existing Instance insertionPdq.

Definition wholeTimes : TimeText := {|
  FormatTime := fun t => pretty (unix t);
  ParseTime := fun s => (fun z => {| unix := z; nsec := 0 |}) <$> ParseInt s |}.
#[local] Existing Instance wholeTimes.

Definition asText (v : field) : option string := match v with VString s => Some s | _ => None end.

Definition callServer (c : Config) : Server field :=
  let s := NewServer sampleHash c in
  let s := RegisterProxy sampleBanner 0 (NewProxy "p1" "c:1" (at_sec 20) s).2 in
  let s := RegisterProxy sampleBanner 1 (NewProxy "p2" "c:2" (at_sec 10) s).2 in
  onClient 0 (fun c => set_cl_buffer (ProbeLogBuffer_Add
    {| probeLog_Timestamp := at_sec 21; probeLog_Message := "opened";
       probeLog_attrs := [VString "vhost"; VString "/"; VString "channel"; VInt32 5] |} <$> cl_buffer c) c) s.

Definition sampleSite : Site (any := field) := {|
  st_ctx := 7; st_checks := fun _ _ => sampleSurroundings true ""; st_now := at_sec 40;
  st_temp := fun prefix => Ok ("/tmp/" +:+ prefix +:+ "123"); st_copied := Ok ();
  st_live := [{| probeLog_Timestamp := at_sec 22; probeLog_Message := "published"; probeLog_attrs := [] |}];
  st_received := [{| ProbeLogEntry_Timestamp := at_sec 23; ProbeLogEntry_Message := "reloaded";
                     ProbeLogEntry_ProxyID := ""; ProbeLogEntry_Attrs := Some {["level"%string := VString "INFO"]} |}];
  st_listener := "api-1" |}.

Definition sampleServe : Request -> stm (State (any := field)) string HTTPResponse :=
  ServeHTTP asText (fun _ => JNull) (MarshalLog (fun _ => JNull)) (MarshalEntry (fun _ => JNull)) sampleHash sampleBanner
    (fun _ _ => Ok ""%string) sampleFiles sampleEnv (fun _ _ => Err "no jsonnet"%string) (fun _ => "bad"%string)
    "config.json" (fun _ => throw "redirected"%string) sampleSite.

Definition serverLog : LogBuffer (ProbeLogEntry (any := field)) := NewLogBuffer 200.
Definition badURL (ref : string) : string := "bad URL".
Definition noHost (u : URL) : string := "no Host in request URL".
Definition notJSON (r : HTTPResponse) : string := "invalid character".

(** Errors that the client meets before and behind the server. *)
Example calls_fail :
  map (fun id => (ShutdownClient sampleServe badURL noHost "/" id "" (callServer loaded, serverLog)).1)
    ["p1"; "p9"; ""; "%zz"; "../http:x"; "."]%string
  = [Ok (); Err "client not found"; Err "client ID cannot be empty"; Err "bad URL"; Err "no Host in request URL";
     Err "redirected"]%string.
Proof. vm_compute. reflexivity. Qed.

Lemma plain_p1 : plain "p1".
Proof. by apply plain_word. Qed.

Lemma shutdown_reaches_witness :
  let (r, st) := ShutdownClient sampleServe badURL noHost "/" "p1" "bye & é" (callServer loaded, serverLog) in
  r = Ok () /\ map (fun c => (shutdownMessage (cl_proxy c), cl_cancelled c)) (clients st.1)
  = [("bye & é"%string, true); (ShutdownMsgDefault, false)].
Proof. unfold sampleServe. rewrite (shutdown_reaches asText (fun _ => JNull) _ _ _ _ _ _ _ _ _ _ _ _ _ _ "p1" _ _ _ plain_p1). vm_compute. done. Defined.

Lemma put_loads_witness :
  let (r, st) := PutConfigFromFile sampleServe sampleFiles badURL noHost "/" "config.json" (callServer (sampleCfg 5), serverLog) in
  r = Ok () /\ GetConfig (fun _ => JNull) sampleServe badURL noHost notJSON "/" st = (Ok (masked loaded), st).
Proof.
  unfold sampleServe.
  destruct (put_loads asText (fun _ => JNull) (MarshalLog (fun _ => JNull)) (MarshalEntry (fun _ => JNull)) sampleHash sampleBanner
    (fun _ _ => Ok ""%string) sampleFiles sampleEnv (fun _ _ => Err "no jsonnet"%string) (fun _ => "bad"%string)
    "config.json" (fun _ => throw "redirected"%string) sampleSite badURL noHost notJSON sampleFiles "config.json" sampleText
    "/tmp/trabbits-config-123" (callServer (sampleCfg 5)) serverLog eq_refl eq_refl eq_refl eq_refl) as [-> G].
  { vm_compute. discriminate. }
  pose proof loaded_sample as L. unfold loadSample in L. rewrite L in G |- *. split; [vm_compute; reflexivity|].
  apply G; [done|apply loaded_carried|]. split; [vm_compute; discriminate|vm_compute; reflexivity].
Defined.

Lemma put_back_masks_witness :
  let (r, st) := (c ← GetConfig (fun _ => JNull) sampleServe badURL noHost notJSON "/";
                  PutConfig (fun _ => JNull) sampleServe badURL noHost "/" c) (callServer loaded, serverLog) in
  r = Ok () /\
  map (fun u => HealthCheck_Password <$> UpstreamConfig_HealthCheck u) (Config_Upstreams (config (callServer loaded)))
    = [None; Some "secret"%string] /\
  map (fun u => HealthCheck_Password <$> UpstreamConfig_HealthCheck u) (Config_Upstreams (config st.1))
    = [None; Some "********"%string].
Proof.
  unfold sampleServe.
  destruct (put_back_masks asText (fun _ => JNull) (MarshalLog (fun _ => JNull)) (MarshalEntry (fun _ => JNull)) sampleHash
    sampleBanner (fun _ _ => Ok ""%string) sampleFiles sampleEnv (fun _ _ => Err "no jsonnet"%string) (fun _ => "bad"%string)
    "config.json" (fun _ => throw "redirected"%string) sampleSite badURL noHost notJSON sampleFiles
    (fun _ => Err "no jsonnet"%string) "config.json" "/tmp/trabbits-config-123" (callServer loaded) serverLog) as [-> E].
  - exact loaded_sample.
  - apply loaded_carried.
  - split; [vm_compute; discriminate|vm_compute; reflexivity].
  - vm_compute. reflexivity.
  - reflexivity.
  - reflexivity.
  - intros c. vm_compute. discriminate.
  - split; [vm_compute; reflexivity|]. split; [vm_compute; reflexivity|]. cbn [fst]. rewrite E. vm_compute. reflexivity.
Defined.

Lemma clients_fetched_witness :
  (fun l => map (Info_ID _) l) <$> (GetClients (fun _ => JNull) sampleServe badURL noHost notJSON "/" (callServer loaded, serverLog)).1
  = Ok ["p2"; "p1"]%string.
Proof.
  unfold sampleServe.
  pose proof (clients_fetched asText (fun _ => JNull) (MarshalLog (fun _ => JNull)) (MarshalEntry (fun _ => JNull)) sampleHash
    sampleBanner (fun _ _ => Ok ""%string) sampleFiles sampleEnv (fun _ _ => Err "no jsonnet"%string) (fun _ => "bad"%string)
    "config.json" (fun _ => throw "redirected"%string) sampleSite badURL noHost notJSON (callServer loaded) serverLog) as G.
  assert (L : exists l s', GetClientsInfo sampleBanner (st_now sampleSite) (callServer loaded) = (l, s') /\
    map (Info_ID _) l = ["p2"; "p1"]%string /\ Forall (carriedInfo carriedSummary) l /\
    readable (enc (sliceC (clientInfoC (fun _ => JNull))) l)).
  { eexists _, _. split; [vm_compute; reflexivity|]. split; [reflexivity|]. split.
    - repeat constructor; vm_compute; reflexivity.
    - split; [vm_compute; discriminate|vm_compute; reflexivity]. }
  destruct L as (l & s' & E & Hn & Hc & Hr). rewrite E in G. rewrite (G Hc Hr). cbn. by rewrite Hn.
Defined.

(** Of the other values only numbers are encoded here. *)
Definition otherJson (v : field) : json := match v with VInt32 z => JNum (pretty z) | _ => JNull end.

(** A concrete entry gets through. *)
Ltac sample_attrs := lazymatch goal with |- from_option ?P _ ?o =>
    let m := eval hnf in o in lazymatch m with Some ?m => change (P m) | None => exact I end end;
  apply map_Forall_to_list; match goal with |- Forall _ (map_to_list ?m) =>
  let l := eval vm_compute in (map_to_list m) in
  let E := fresh "E" in assert (E : map_to_list m = l) by (vm_compute; reflexivity); rewrite E;
    repeat (constructor; [refine (conj _ (conj _ _)); [vm_compute; reflexivity|vm_compute; first [exact I|reflexivity]|vm_compute; by eexists]|]);
    constructor end.

Ltac sends := refine (conj (conj _ _) (conj _ (conj _ _))); [vm_compute; reflexivity
  |sample_attrs
  |vm_compute; discriminate|apply Nat.ltb_lt; vm_compute; reflexivity|vm_compute; reflexivity].

Definition sampleLogs : list (probeLog field) := [
  {| probeLog_Timestamp := at_sec 21; probeLog_Message := "opened";
     probeLog_attrs := [VString "vhost"; VString "/"; VString "channel"; VInt32 5] |};
  {| probeLog_Timestamp := at_sec 22; probeLog_Message := "published"; probeLog_attrs := [] |}].

Lemma sample_sendable : Forall (fun l => sendable otherJson (entryOfLog asText l)) sampleLogs.
Proof. repeat (apply Forall_cons; split); [sends|sends|constructor]. Qed.

Definition logServe : Request -> stm (State (any := field)) string HTTPResponse :=
  ServeHTTP asText otherJson (MarshalLog otherJson) (MarshalEntry otherJson) sampleHash sampleBanner
    (fun _ _ => Ok ""%string) sampleFiles sampleEnv (fun _ _ => Err "no jsonnet"%string) (fun _ => "bad"%string)
    "config.json" (fun _ => throw "redirected"%string) sampleSite.

(** A number has become a float. *)
Lemma probe_logs_arrive_witness :
  (fun r => (map ProbeLogEntry_Message r.1, map (fun e => (fun m => m !! "channel"%string) <$> ProbeLogEntry_Attrs e) r.1, r.2)) <$>
    (readProbeLogSSE logServe badURL noHost "/" (UnmarshalEntry otherJson) "p1" (callServer loaded, serverLog)).1
  = Ok (["opened"; "published"]%string, [Some (Some (VFloat64 5)); None], false).
Proof.
  unfold logServe.
  pose proof (probe_logs_arrive asText otherJson sampleHash
    sampleBanner (fun _ _ => Ok ""%string) sampleFiles sampleEnv (fun _ _ => Err "no jsonnet"%string) (fun _ => "bad"%string)
    "config.json" (fun _ => throw "redirected"%string) sampleSite badURL noHost "p1" (callServer loaded) serverLog plain_p1) as G.
  assert (L : exists buf s', GetProbeLogBuffer "p1" (callServer loaded) = ((Some buf, true), s') /\
    GetLogs buf = take 1 sampleLogs) by (eexists _, _; split; reflexivity).
  destruct L as (buf & s' & E & El). rewrite E in G. cbn [fmap option_fmap option_map default from_option] in G.
  unfold Datatypes.id in G. rewrite El, decide_True in G by (vm_compute; by eexists).
  rewrite (G ltac:(apply Nat.ltb_lt; vm_compute; reflexivity) sample_sendable). vm_compute. reflexivity.
Defined.

Lemma server_logs_arrive_witness :
  (fun r => (map ProbeLogEntry_Message r.1, r.2)) <$> (readServerLogSSE sampleServe badURL noHost "/"
    (UnmarshalEntry (fun _ => JNull)) (callServer loaded, serverLog)).1 = Ok (["reloaded"]%string, false).
Proof.
  unfold sampleServe. rewrite (server_logs_arrive asText); [vm_compute; reflexivity|].
  apply Forall_cons; split; [sends|constructor].
Defined.
