(* ===== verification/Manage.v ===== *)
(** * The commands

    [cli.go], [manage.go], [test.go] and [util.go]: what a command of the command line does with a
    client of the API and what it prints. Parsing the command line is the library's; [run], which
    starts the server, is an argument. The state is that of the client with the text printed so
    far. *)

From Stdlib Require Import Strings.Ascii.
From stdpp Require Import pretty sorting.
From S2P Require Import Prelude Bytes Fields Decimals Times Pattern Config Stats LogBuffers Sorting Server Sse Runes Json Loading Urls.
From S2P Require Import Answers LogText Registry Api ApiClient Serving Calls.

Open Scope Z_scope.

(** The options, as [kong] has parsed them. *)
Record CLI : Type := {
  CLI_Config : string;
  CLI_Port : Z;
  CLI_APISocket : string;
  CLI_PidFile : string;
  Manage_Config_Command : string;
  Manage_Config_File : string;
  Manage_Shutdown_ProxyID : string;
  Manage_Shutdown_Reason : string;
  Manage_Info_ProxyID : string;
  Manage_Probe_ProxyID : string;
  Manage_Probe_Format : string;
  Test_Pattern : string;
  Test_Key : string
}.

(** ** [ColoredDiff] *)

(** [color.RedString] and [color.GreenString] when they are given no arguments. *)
Class Colors : Type := { RedString : string -> string; GreenString : string -> string }.

Definition colored `{Colors} (line : string) : string :=
  if startsWith "-" line then RedString line
  else if startsWith "+" line then GreenString line
  else line.

Definition ColoredDiff `{Colors} (src : string) : string :=
  foldr (fun line s => colored line +:+ newline +:+ s) EmptyString (Split lf src).

Section Manage.
Context {S : Type} `{APIClient S field} `{Colors} `{Floats} `{TimeText} (OtherJson : field -> json).

(** [Time.Format] with the layouts of the list and of the logs. *)
Context (formatDate formatMillis : Time -> string).

Definition cmd (A : Type) : Type := stm (S * string) string A.

(** A call of the client; what it returns in error is wrapped. *)
Definition call {A} (wrapped : string) (m : stm S string A) : cmd A := fun '(s, out) =>
  match m s with
  | (Ok a, s') => (Ok a, (s', out))
  | (Err e, s') => (Err (wrapped +:+ e), (s', out))
  end.

Definition Print (text : string) : cmd () := fun '(s, out) => (Ok (), (s, out +:+ text)).

(** ** manage.go *)

Definition manageConfigGet : cmd () :=
  cfg ← call "failed to get config: " api_GetConfig; Print (Config_String OtherJson cfg).

Definition manageConfigDiff (opt : CLI) : cmd () :=
  if String.eqb (Manage_Config_File opt) "" then throw "configuration file is required for diff command"%string
  else
    diff ← call "failed to get diff: " (api_DiffConfigFromFile (Manage_Config_File opt));
    if String.eqb diff "" then mret () else Print (ColoredDiff diff).

Definition manageConfigPut (opt : CLI) : cmd () :=
  if String.eqb (Manage_Config_File opt) "" then throw "configuration file is required for put command"%string
  else call "" (api_PutConfigFromFile (Manage_Config_File opt)).

Definition manageConfigReload : cmd () :=
  cfg ← call "failed to reload config: " api_ReloadConfig; Print (Config_String OtherJson cfg).

Definition manageConfig (opt : CLI) : cmd () :=
  let c := Manage_Config_Command opt in
  if String.eqb c "get" then manageConfigGet
  else if String.eqb c "diff" then manageConfigDiff opt
  else if String.eqb c "put" then manageConfigPut opt
  else if String.eqb c "reload" then manageConfigReload
  else throw ("unknown config command: " +:+ c).

Definition byID (x y : ClientInfo) : bool := String.ltb (Info_ID _ x) (Info_ID _ y).

Definition clientLine (c : ClientInfo) : string :=
  "ID: " +:+ Info_ID _ c +:+ ", User: " +:+ Info_User _ c +:+ ", Address: " +:+ Info_ClientAddress _ c
  +:+ ", Status: " +:+ Info_Status _ c +:+ newline.

Definition manageClients `{Pdq} : cmd () :=
  clients ← call "failed to get clients: " api_GetClients;
  forM (sortSlice (pure_less byID) clients 0).1 (fun c => Print (clientLine c)).

Definition manageClientShutdown (opt : CLI) : cmd () :=
  call "" (api_ShutdownClient (Manage_Shutdown_ProxyID opt) (Manage_Shutdown_Reason opt)).

Definition manageClientInfo (opt : CLI) : cmd () :=
  i ← call "failed to get client detail: " (api_GetClientDetail (Manage_Info_ProxyID opt));
  _ ← Print ("Proxy ID: " +:+ Info_ID _ i +:+ newline);
  _ ← Print ("Client Address: " +:+ Info_ClientAddress _ i +:+ newline);
  _ ← Print ("Virtual Host: " +:+ Info_VirtualHost _ i +:+ newline);
  _ ← Print ("User: " +:+ Info_User _ i +:+ newline);
  Print ("Connected At: " +:+ formatDate (Info_ConnectedAt _ i) +:+ newline).

Definition formatProbeLogEntry (e : ProbeLogEntry (any := field)) (format : string) : cmd () :=
  if String.eqb format "json" then Print (Marshal (enc (probeLogEntryC OtherJson) e) +:+ newline)
  else Print (formatMillis (ProbeLogEntry_Timestamp e) +:+ " " +:+ ProbeLogEntry_Message e +:+ " "
              +:+ Marshal (enc (attrsC OtherJson) (ProbeLogEntry_Attrs e)) +:+ newline).

Definition manageClientProbe (opt : CLI) : cmd () :=
  let format := if String.eqb (Manage_Probe_Format opt) "" then "text"%string else Manage_Probe_Format opt in
  entries ← (fun '(s, out) => let (es, s') := api_StreamProbeLogEntries (Manage_Probe_ProxyID opt) s in (Ok es, (s', out)));
  forM entries (fun e => formatProbeLogEntry e format).

(** ** test.go *)

(** The UTF-8 of the two marks. *)
Definition checkMark : string := Runes.string_of [10003].
Definition crossMark : string := Runes.string_of [10007].

Definition testMatchRouting (opt : CLI) : cmd () :=
  let bindingPattern := Test_Pattern opt in
  let key := Test_Key opt in
  let result := Match key bindingPattern in
  _ ← Print (if result
             then checkMark +:+ " MATCHED: pattern '" +:+ bindingPattern +:+ "' matches key '" +:+ key +:+ "'" +:+ newline
             else crossMark +:+ " NOT MATCHED: pattern '" +:+ bindingPattern +:+ "' does not match key '" +:+ key +:+ "'" +:+ newline);
  if result then mret () else throw "pattern did not match"%string.

(** ** cli.go *)

(** [run] and [tui.Run] are arguments. *)
Definition Run `{Pdq} (run runTUI : CLI -> cmd ()) (command : string) (cli : CLI) : cmd () :=
  let when := String.eqb command in
  if when "run" then run cli
  else if when "manage config <command>" || when "manage config <command> <file>" then manageConfig cli
  else if when "manage clients list" then manageClients
  else if when "manage clients tui" then runTUI cli
  else if when "manage clients shutdown <proxy-id>" then manageClientShutdown cli
  else if when "manage clients info <proxy-id>" then manageClientInfo cli
  else if when "manage clients probe <proxy-id>" then manageClientProbe cli
  else if when "test match-routing <pattern> <key>" then testMatchRouting cli
  else throw ("unknown command: " +:+ command).
End Manage.

(** ** util.go *)

(** [generateID]: what [rand.Text] gives, in lower case. *)
Definition lower (c : ascii) : ascii :=
  let b := byteZ c in if (65 <=? b) && (b <=? 90) then chr (b + 32) else c.

Fixpoint ToLower (s : string) : string :=
  match s with EmptyString => EmptyString | String c s' => String (lower c) (ToLower s') end.

Definition generateID (text : string) : string := ToLower text.

(** An error of the operating system, by its number, or any other. *)
Inductive sysError : Type := Errno (n : Z) | OtherError (text : string).
Definition EPIPE : Z := 32.

Fixpoint containsText (sub s : string) : bool :=
  bool_decide (is_Some (CutPrefix sub s)) || match s with EmptyString => false | String _ s' => containsText sub s' end.

Definition isBrokenPipe (e : sysError) : bool :=
  match e with Errno n => n =? EPIPE | OtherError t => containsText "broken pipe" t end.

(** ** Coloured lines *)

Section Diff.
Context `{Colors}.
Context (red : forall l, lacks lf l = true -> lacks lf (RedString l) = true)
  (green : forall l, lacks lf l = true -> lacks lf (GreenString l) = true).

Lemma Split_lines_lack d s : Forall (fun l => lacks d l = true) (Split d s).
Proof.
  induction s as [|c s IH]; [by repeat constructor|]. cbn [Split]. destruct (Ascii.eqb c d) eqn:E; [by constructor|].
  destruct (Split d s) as [|a l]; [repeat constructor; cbn; by rewrite E|]. apply Forall_cons in IH as [Ha Hl].
  constructor; [cbn; by rewrite E|done].
Qed.

Lemma colored_line l : lacks lf l = true -> lacks lf (colored l) = true.
Proof. unfold colored. destruct (startsWith "-" l); [apply red|]. destruct (startsWith "+" l); [apply green|done]. Qed.

(** What is printed of a diff has its lines in their order, the removed ones red and the
    added ones green, and nothing else. *)
Theorem ColoredDiff_lines src : Split lf (ColoredDiff src) = map colored (Split lf src) ++ [EmptyString].
Proof.
  unfold ColoredDiff. induction (Split_lines_lack lf src) as [|l ls Hl _ IH]; [done|]. cbn [foldr map app].
  change (colored l +:+ newline +:+ ?s) with (colored l +:+ String lf s).
  rewrite Split_at by by apply colored_line. by rewrite IH.
Qed.
End Diff.

Definition marks : Colors := {| RedString := fun l => "<" +:+ l +:+ ">"; GreenString := fun l => "[" +:+ l +:+ "]" |}.

Lemma ColoredDiff_lines_witness :
  let src := ("-a" +:+ newline +:+ " b" +:+ newline +:+ "+c")%string in
  Split lf (ColoredDiff (H := marks) src) = ["<-a>"; " b"; "[+c]"; ""]%string.
Proof.
  intros src. rewrite (ColoredDiff_lines (H := marks)); [reflexivity|..];
    intros l Hl; unfold RedString, GreenString, marks; by rewrite !lacks_append, Hl.
Defined.

(** ** What the commands print *)

Lemma prints {S A} (f : A -> string) (l : list A) s out :
  forM (S := S * string) l (fun x => Print (f x)) (s, out) = (Ok (), (s, out +:+ foldr (fun x t => f x +:+ t) EmptyString l)).
Proof.
  revert out; induction l as [|x l IH]; intros out; cbn [forM foldr]; [by rewrite append_nil|].
  unfold mbind, stm_bind, Print at 1. by rewrite IH, append_assoc.
Qed.

(** The list of clients is printed one line each, in the order of their identifiers. *)
Theorem manageClients_prints {S} `{APIClient S field} `{Pdq} s s' out l : api_GetClients s = (Ok l, s') -> exists l',
  manageClients (s, out) = (Ok (), (s', out +:+ foldr (fun c t => clientLine c +:+ t) EmptyString l')) /\
  l' ≡ₚ l /\ StronglySorted (fun x y => String.ltb (Info_ID _ y) (Info_ID _ x) = false) l'.
Proof.
  intros E. exists (sortSlice (pure_less byID) l 0).1. split; [|split; [apply sortSlice_perm|]].
  - unfold manageClients, call, mbind, stm_bind. rewrite E. apply prints.
  - apply (sortSlice_sorted byID); unfold byID, not_after.
    + intros x y z. apply (ltb_trans (Info_ID _ x)).
    + intros x y. apply ltb_asym.
Qed.

(** ** Identifiers *)

(** The letters of [rand.Text]. *)
Definition base32 (c : ascii) : bool :=
  let b := byteZ c in ((65 <=? b) && (b <=? 90)) || ((50 <=? b) && (b <=? 55)).

Fixpoint randomText (s : string) : bool :=
  match s with EmptyString => true | String c s' => base32 c && randomText s' end.

Lemma lower_plain c : base32 c = true -> unreserved (lower c) = true /\ byteZ (lower c) <> 46.
Proof.
  unfold base32, lower. intros B. destruct ((65 <=? byteZ c) && (byteZ c <=? 90)) eqn:E.
  - assert (R : 65 <= byteZ c <= 90) by lia. rewrite byteZ_chr by lia. split; [|lia].
    unfold unreserved. rewrite byteZ_chr by lia.
    assert (L : (97 <=? byteZ c + 32) && (byteZ c + 32 <=? 122) = true) by lia. by rewrite L, orb_true_r.
  - split; [|lia]. assert (R : 50 <= byteZ c <= 55) by lia. unfold unreserved, isDigit, digitOf.
    change (Z.of_N (N_of_ascii c)) with (byteZ c).
    assert (L : (48 <=? byteZ c) && (byteZ c <=? 57) = true) by lia. by rewrite L.
Qed.

(** An identifier of a proxy means itself in every path of the API. *)
Theorem generateID_plain text : randomText text = true -> text <> EmptyString -> plain (generateID text).
Proof.
  intros H Hne. unfold generateID. split.
  - clear Hne. induction text as [|c t IH]; [done|]. cbn [randomText ToLower unreservedText] in *.
    apply andb_prop in H as [Hc H]. by rewrite (proj1 (lower_plain c Hc)), IH.
  - destruct text as [|c t]; [done|]. cbn [randomText ToLower] in *. apply andb_prop in H as [Hc _].
    pose proof (proj2 (lower_plain c Hc)) as N. rewrite !not_elem_of_cons.
    split_and!; [done|intros [= E _]|intros [= E _]|apply not_elem_of_nil]; by rewrite E in N.
Qed.

Lemma generateID_plain_witness : plain (generateID "ABCDEFGHIJKLMNOPQRSTUVWXYZ"%string).
Proof. apply generateID_plain; [vm_compute; reflexivity|discriminate]. Defined.

(** ** Commands at a server *)

Section AtServer.
Context (as_string : field -> option string) `{Floats} `{TimeText} (OtherJson : field -> json)
  `{Lru nat} `{Limiter} `{Pdq} `{Colors} (Hash : Config -> string) (ClientBanner : Proxy.Proxy -> string)
  (Diff : Config -> Config -> result string string).
Context (ReadFile Disk : string -> result string string) (Getenv : string -> string)
  (Jsonnet : (string -> result string string) -> string -> result string string)
  (unmarshalError : string -> string) (configPath : string)
  (Other : Request -> stm (Serving.State (any := field)) string HTTPResponse) (site : Site (any := field)).
Context (urlError : string -> string) (sendError : URL -> string) (decodeError : HTTPResponse -> string).
Context (formatDate formatMillis : Time -> string).

(** The client that a command makes for the socket of a server that runs. *)
Definition clientAt : APIClient (Serving.State (any := field)) field :=
  HTTPClient OtherJson
    (ServeHTTP as_string OtherJson (MarshalLog OtherJson) (MarshalEntry OtherJson) Hash ClientBanner Diff ReadFile Getenv
      Jsonnet unmarshalError configPath Other site)
    Disk urlError sendError decodeError "/" (UnmarshalEntry OtherJson).

(** [manage config get] prints the configuration of the server, indented and with its
    passwords masked, and leaves the server as it is. *)
Theorem get_prints s b out opt : carriedConfig (config s) -> readable (enc (configC OtherJson) (config s)) ->
  Manage_Config_Command opt = "get"%string ->
  manageConfig (H := clientAt) OtherJson opt ((s, b), out)
  = (Ok (), ((s, b), out +:+ Config_String OtherJson (config s))).
Proof.
  intros Hc Hr Ho. unfold manageConfig. rewrite Ho. unfold manageConfigGet, call, mbind, stm_bind, clientAt, HTTPClient. cbn [api_GetConfig String.eqb Ascii.eqb Bool.eqb].
  rewrite GetConfig_masked by done. unfold Print, Config_String. by rewrite enc_masked.
Qed.
End AtServer.

#[local] Existing Instance wholeFloats.
#[local] Existing Instance wholeTimes.
#[local] Existing Instance listLru.
#[local] Existing Instance simpleLimiter.
#[local] Existing Instance insertionPdq.
#[local] Existing Instance marks.

(** The client of the samples of [Calls]. *)
Definition sampleClient : APIClient (Serving.State (any := field)) field :=
  HTTPClient (fun _ => JNull) sampleServe sampleFiles badURL noHost notJSON "/" (UnmarshalEntry (fun _ => JNull)).

Definition noOptions : CLI := {|
  CLI_Config := "config.json"; CLI_Port := 6672; CLI_APISocket := "/tmp/trabbits.sock"; CLI_PidFile := "";
  Manage_Config_Command := "get"; Manage_Config_File := ""; Manage_Shutdown_ProxyID := "p1";
  Manage_Shutdown_Reason := "bye"; Manage_Info_ProxyID := "p2"; Manage_Probe_ProxyID := "p1"; Manage_Probe_Format := "";
  Test_Pattern := "logs.*"; Test_Key := "logs.a" |}.

Definition sampleRun (command : string) : cmd (S := Serving.State (any := field)) () :=
  Run (H := sampleClient) (fun _ => JNull) (fun t => pretty (unix t)) (fun t => pretty (unix t)) (fun _ => mret ()) (fun _ => mret ()) command noOptions.

Definition printed (command : string) : result string () * string :=
  let r := sampleRun command ((callServer loaded, serverLog), EmptyString) in (r.1, r.2.2).

Example commands_print :
  printed "manage clients shutdown <proxy-id>" = (Ok (), ""%string)
  /\ printed "test match-routing <pattern> <key>"
     = (Ok (), checkMark +:+ " MATCHED: pattern 'logs.*' matches key 'logs.a'" +:+ newline)%string
  /\ printed "manage" = (Err "unknown command: manage", ""%string).
Proof. vm_compute. done. Qed.

Lemma get_prints_witness :
  (fun r => (r.1, r.2.2)) (manageConfig (H := sampleClient) (fun _ => JNull) noOptions ((callServer loaded, serverLog), EmptyString))
  = (Ok (), Config_String (fun _ => JNull) loaded).
Proof.
  assert (Hr : readable (enc (configC (fun _ => JNull)) (config (callServer loaded))))
    by (split; [vm_compute; discriminate|vm_compute; reflexivity]).
  assert (Ec : config (callServer loaded) = loaded) by reflexivity.
  pose proof (get_prints asText (fun _ => JNull) sampleHash sampleBanner (fun _ _ => Ok ""%string) sampleFiles sampleFiles sampleEnv
    (fun _ _ => Err "no jsonnet"%string) (fun _ => "bad"%string) "config.json" (fun _ => throw "redirected"%string) sampleSite
    badURL noHost notJSON (callServer loaded) serverLog EmptyString noOptions) as G.
  unfold clientAt in G. unfold sampleClient, sampleServe. rewrite G; [by rewrite Ec|by rewrite Ec; apply loaded_carried|done|done].
Defined.

Lemma manageClients_prints_witness : exists l',
  (fun r => (r.1, r.2.2)) (manageClients (H := sampleClient) ((callServer loaded, serverLog), EmptyString))
  = (Ok (), foldr (fun c t => clientLine c +:+ t) EmptyString l') /\ length l' = 2%nat.
Proof.
  assert (L : exists l s', api_GetClients (APIClient := sampleClient) (callServer loaded, serverLog) = (Ok l, s') /\ length l = 2%nat)
    by (eexists _, _; split; [vm_compute; reflexivity|reflexivity]).
  destruct L as (l & s' & E & En). destruct (manageClients_prints (H := sampleClient) (callServer loaded, serverLog) s' EmptyString l E) as (l' & G & P & _).
  exists l'. split; [exact (f_equal (fun r => (r.1, r.2.2)) G)|]. by rewrite P.
Defined.
