(* ===== verification/Secrets.v ===== *)
(** * Passwords

    What the passwords of the configured health checks show in: two servers whose
    configurations differ in nothing else answer every request of the API alike, through any
    sequence of requests, and what is logged and printed of a configuration is the same. What
    is not covered are errors that come from outside: that of a failed dial, which
    [health/health.go] and [proxy.go] log, may name the URL with its password. *)

From S2P Require Import Prelude Bytes Fields Times Config Health Stats LogBuffers Proxy Sorting Server Registry.
From S2P Require Import Sse Json Loading Urls Answers LogText Registry Api ApiClient Serving Calls Manage.

Open Scope Z_scope.

(** The same configuration but for passwords, which are there or not in both. *)
Definition guise (c c' : Config) : Prop :=
  exists pw, (forall p, pw p = EmptyString <-> p = EmptyString) /\ c' = repass pw c.

Lemma guise_refl c : guise c c.
Proof.
  exists (fun p => p). split; [done|]. destruct c as [us a b g m]. unfold repass. cbn. f_equal.
  induction us as [|u us IH]; [done|]. cbn [map]. rewrite <- IH. f_equal. destruct u as [n ad cl t h r qa qo].
  unfold repassUpstream. cbn. f_equal. destruct h as [[]|]; done.
Qed.

Lemma guise_graceful c c' : guise c c' -> Config_GracefulShutdown c' = Config_GracefulShutdown c.
Proof. by intros (pw & _ & ->). Qed.

Section Alike.
Context {any : Type} `{Lru nat}.
Implicit Types (s : Server any).

(** Servers that are the same but for the passwords, and what is computed from them: the
    hash, and the health managers with their metrics. *)
Record alike s s' : Prop := {
  al_config : guise (config s) (config s');
  al_clients : clients s' = clients s;
  al_active : activeProxies s' = activeProxies s;
  al_retained : retainedProbeLogs s' = retainedProbeLogs s
}.

Lemma alike_retained c s s' : alike s s' -> alike (set_retained c s) (set_retained c s').
Proof. intros []. by split. Qed.

Lemma alike_onClient i f s s' : alike s s' -> alike (onClient i f s) (onClient i f s').
Proof. intros [? E ? ?]. split; try done. unfold onClient. simpl. by rewrite E. Qed.

Lemma alike_onClients f l s s' : alike s s' ->
  alike (foldl (fun s i => onClient i f s) s l) (foldl (fun s i => onClient i f s) s' l).
Proof. revert s s'; induction l as [|i l IH]; intros s s' Ha; [done|]. simpl. by apply IH, alike_onClient. Qed.

Lemma alike_bufferOf s s' i : alike s s' -> bufferOf s' i = bufferOf s i.
Proof. intros [_ E _ _]. unfold bufferOf. by rewrite E. Qed.

Lemma alike_retainedLoop keys s s' : alike s s' ->
  (retainedLoop keys s').1 = (retainedLoop keys s).1 /\ alike (retainedLoop keys s).2 (retainedLoop keys s').2.
Proof.
  revert s s'; induction keys as [|id keys IH]; intros s s' Ha; [done|]. cbn [retainedLoop].
  rewrite (al_active _ _ Ha), (al_retained _ _ Ha). case_match; [by apply IH|].
  destruct (lru_Get id (retainedProbeLogs s)) as [r c]. pose proof (alike_retained c s s' Ha) as Hc.
  destruct (IH _ _ Hc) as [I1 I2]. destruct (retainedLoop keys (set_retained c s)) as [l t].
  destruct (retainedLoop keys (set_retained c s')) as [l' t']. simpl in *. split; [|done].
  rewrite I1. destruct r as [i|]; [|done]. simpl. by rewrite (alike_bufferOf _ _ i Hc).
Qed.

Lemma alike_targets f s s' : alike s s' -> targets f s' = targets f s.
Proof. intros [_ E1 E2 _]. unfold targets. by rewrite E1, E2. Qed.

Lemma alike_disconnect `{Limiter} h s s' : alike s s' ->
  (disconnectOutdatedProxies h s').1 = (disconnectOutdatedProxies h s).1 /\
  alike (disconnectOutdatedProxies h s).2 (disconnectOutdatedProxies h s').2.
Proof.
  intros Ha. unfold disconnectOutdatedProxies, disconnectProxies.
  rewrite (alike_targets _ s s' Ha), (al_clients _ _ Ha), (guise_graceful _ _ (al_config _ _ Ha)).
  destruct (negb _); [done|]. destruct (existsb _ _); [done|]. split; [done|]. by do 2 apply alike_onClients.
Qed.

Lemma alike_update Hash c ctx e s s' : alike s s' ->
  alike (UpdateConfig Hash c (initHealthManagers ctx e s)) (UpdateConfig Hash c (initHealthManagers ctx e s')).
Proof.
  intros [_ E1 E2 E3]. destruct (initHealthManagers_rest ctx e s) as (A1 & A2 & A3 & A4 & A5 & _).
  destruct (initHealthManagers_rest ctx e s') as (B1 & B2 & B3 & B4 & B5 & _).
  split; [apply guise_refl|..]; cbn; congruence.
Qed.
End Alike.

(** ** The API *)

Section Secrets.
Context {any : Type} (as_string : any -> option string)
  `{Floats} `{TimeText} (OtherJson : field -> json)
  (MarshalLog : Time -> string -> option (gmap string any) -> option string)
  (MarshalEntry : ProbeLogEntry (any := any) -> option string)
  `{Lru nat} `{Limiter} `{Pdq} `{Colors} (Hash : Config -> string) (ClientBanner : Proxy -> string)
  (Diff : Config -> Config -> result string string).
Context (ReadFile : string -> result string string) (Getenv : string -> string)
  (Jsonnet : (string -> result string string) -> string -> result string string)
  (unmarshalError : string -> string) (configPath : string).
Implicit Types (s : Server any) (b : LogBuffer (ProbeLogEntry (any := any))).

#[local] Abbreviation bodyText := (bodyText OtherJson).
#[local] Abbreviation respond := (respond OtherJson).
#[local] Abbreviation handle := (handle as_string OtherJson MarshalLog MarshalEntry Hash ClientBanner Diff ReadFile Getenv
  Jsonnet unmarshalError configPath).

(** [jsondiff.Diff] compares the JSON of its inputs. Whether [gob] can encode a
    configuration, and it has a hash, does not depend on its passwords. *)
Hypothesis Diff_json : forall a a' c c', enc (configC OtherJson) a = enc (configC OtherJson) a' ->
  enc (configC OtherJson) c = enc (configC OtherJson) c' -> Diff a c = Diff a' c'.
Hypothesis Hash_there : forall c c', guise c c' -> sliceable (Hash c') = sliceable (Hash c).

Lemma guise_enc c c' : guise c c' -> enc (configC OtherJson) c' = enc (configC OtherJson) c.
Proof. intros (pw & Hpw & ->). by apply enc_repass. Qed.

Lemma guise_text c c' : guise c c' -> bodyText (BConfig c') = bodyText (BConfig c).
Proof. intros Hg. cbn [Serving.bodyText]. by rewrite (guise_enc c c' Hg). Qed.

Lemma guise_Diff a a' c c' : guise a a' -> guise c c' -> Diff a' c' = Diff a c.
Proof. intros Ha Hc. apply Diff_json; by apply guise_enc. Qed.

(** A handler that answers alike. *)
Definition blind (h : Server any -> Response * Server any) : Prop := forall s s', alike s s' ->
  respond (h s').1 = respond (h s).1 /\ alike (h s).2 (h s').2.

Lemma blind_get : blind (fun s => (apiGetConfigHandler s, s)).
Proof.
  intros s s' Ha. split; [|done]. unfold apiGetConfigHandler. cbn [fst Serving.respond].
  by rewrite (guise_text _ _ (al_config _ _ Ha)).
Qed.

Lemma blind_put ctx e u : blind (apiPutConfigHandler Hash ctx e u).
Proof.
  intros s s' Ha. unfold apiPutConfigHandler. destruct (processConfigRequest u) as [|r]; [|done].
  destruct (up_loaded u) as [cfg|err]; [|done].
  pose proof (alike_disconnect (Hash cfg) _ _ (alike_update Hash cfg ctx e s s' Ha)) as [E A].
  destruct (disconnectOutdatedProxies (Hash cfg) (UpdateConfig Hash cfg (initHealthManagers ctx e s))) as [o t].
  destruct (disconnectOutdatedProxies (Hash cfg) (UpdateConfig Hash cfg (initHealthManagers ctx e s'))) as [o' t'].
  simpl in E, A. subst o'. by destruct o.
Qed.

Lemma blind_diff u : blind (fun s => (apiDiffConfigHandler Diff u s, s)).
Proof.
  intros s s' Ha. split; [|done]. unfold apiDiffConfigHandler. cbn [fst].
  destruct (processConfigRequest u); [|done]. destruct (up_loaded u); [|done].
  by rewrite (guise_Diff _ _ _ _ (al_config _ _ Ha) (guise_refl _)).
Qed.

Lemma blind_reload ctx e l : blind (apiReloadConfigHandler Hash ctx e l).
Proof.
  intros s s' Ha. unfold apiReloadConfigHandler, reloadConfigFromFile. destruct l as [cfg|err]; [|done].
  pose proof (alike_disconnect (Hash cfg) _ _ (alike_update Hash cfg ctx e s s' Ha)) as [E A].
  destruct (disconnectOutdatedProxies (Hash cfg) (UpdateConfig Hash cfg (initHealthManagers ctx e s))) as [o t].
  destruct (disconnectOutdatedProxies (Hash cfg) (UpdateConfig Hash cfg (initHealthManagers ctx e s'))) as [o' t'].
  simpl in E, A. subst o'. by destruct o.
Qed.

Lemma blind_clients now : blind (apiGetClientsHandler ClientBanner now).
Proof.
  intros s s' Ha. unfold apiGetClientsHandler, GetClientsInfo. rewrite (al_retained _ _ Ha).
  destruct (alike_retainedLoop (lru_Keys (retainedProbeLogs s)) s s' Ha) as [E A].
  destruct (retainedLoop _ s) as [l t]. destruct (retainedLoop _ s') as [l' t']. simpl in *. subst l'.
  unfold activeInfos. by rewrite (al_active _ _ Ha), (al_clients _ _ Ha).
Qed.

Lemma blind_client now id : blind (apiGetClientHandler ClientBanner now id).
Proof.
  intros s s' Ha. unfold apiGetClientHandler, GetClientInfo. destruct (String.eqb id ""); [done|].
  rewrite (al_active _ _ Ha), (al_clients _ _ Ha), (al_retained _ _ Ha).
  destruct (activeProxies s !! id ≫= _); [done|]. destruct (lru_Get id (retainedProbeLogs s)) as [r c].
  pose proof (alike_retained c s s' Ha) as Hc. destruct r as [i|]; [|done]. cbn [mbind option_bind].
  rewrite (alike_bufferOf _ _ i Hc). repeat case_match; simplify_eq; done.
Qed.

Lemma blind_shutdown path method id reason : blind (apiShutdownClientHandler path method id reason).
Proof.
  intros s s' Ha. unfold apiShutdownClientHandler, ShutdownProxy. destruct (String.eqb id ""); [done|].
  rewrite (al_active _ _ Ha). destruct (activeProxies s !! id); [|done]. split; [done|]. by apply alike_onClient.
Qed.

Lemma blind_probe id live : blind (apiProbeLogHandler as_string MarshalLog id live).
Proof.
  intros s s' Ha. unfold apiProbeLogHandler, GetProbeLogBuffer. destruct (String.eqb id ""); [done|].
  rewrite (al_active _ _ Ha), (al_retained _ _ Ha). destruct (activeProxies s !! id) as [i|].
  - rewrite (alike_bufferOf _ _ i Ha). cbn [negb]. destruct (bufferOf s i); [|done].
    destruct (bool_decide _); done.
  - destruct (lru_Get id (retainedProbeLogs s)) as [r c]. pose proof (alike_retained c s s' Ha) as Hc.
    destruct r as [i|]; [|done]. rewrite (alike_bufferOf _ _ i Ha). cbn [negb].
    destruct (bufferOf s i); [|done]. destruct (bool_decide _); done.
Qed.

(** A request, with the route that it takes and what it meets. *)
Record asked : Type := {
  as_site : Site (any := any);
  as_route : route;
  as_matches : list string;
  as_url : URL;
  as_request : Request
}.

Definition onAsked (a : asked) : stm State string HTTPResponse :=
  handle (as_site a) (as_route a) (as_matches a) (as_url a) (as_request a).

Lemma handle_blind a s s' b : alike s s' ->
  (onAsked a (s', b)).1 = (onAsked a (s, b)).1 /\ (onAsked a (s', b)).2.2 = (onAsked a (s, b)).2.2 /\
  alike (onAsked a (s, b)).2.1 (onAsked a (s', b)).2.1.
Proof.
  intros Ha. destruct a as [site rt matches u r]. unfold onAsked. cbn [as_site as_route as_matches as_url as_request].
  assert (G : forall h, blind h ->
    (onServer OtherJson h (s', b)).1 = (onServer OtherJson h (s, b)).1 /\
    (onServer OtherJson h (s', b)).2.2 = (onServer OtherJson h (s, b)).2.2 /\
    alike (onServer OtherJson h (s, b)).2.1 (onServer OtherJson h (s', b)).2.1).
  { intros h Hh. destruct (Hh s s' Ha) as [E A]. unfold onServer. destruct (h s), (h s'). done. }
  destruct rt; cbn [Serving.handle].
  - apply G, blind_get.
  - apply G, blind_put.
  - apply G, blind_diff.
  - apply G, blind_reload.
  - apply G, blind_clients.
  - apply G, blind_client.
  - apply G, blind_shutdown.
  - apply G, blind_probe.
  - by destruct (apiServerLogsHandler _ _ _ _ _).
Qed.

(** The answers to requests, one after the other. *)
Fixpoint answers (l : list asked) (st : State (any := any)) : list (result string HTTPResponse) :=
  match l with
  | [] => []
  | a :: l' => let (r, st') := onAsked a st in r :: answers l' st'
  end.

(** What the handlers that load a configuration answer, and what the log, [manage config get]
    and [manage config reload] print of it. *)
Definition shownOf (ctx : nat) (e : string -> string -> Surroundings) (u : Upload) s (c : Config)
  : list (result string HTTPResponse) * string :=
  let u := {| up_contentType := up_contentType u; up_temp := up_temp u; up_copied := up_copied u; up_loaded := Ok c |} in
  ([respond (apiPutConfigHandler Hash ctx e u s).1; respond (apiDiffConfigHandler Diff u s);
    respond (apiReloadConfigHandler Hash ctx e (Ok c) s).1], Config_String OtherJson c).

End Secrets.

(** ** Two servers, asked *)

#[local] Existing Instance wholeFloats.
#[local] Existing Instance wholeTimes.
#[local] Existing Instance listLru.
#[local] Existing Instance simpleLimiter.
#[local] Existing Instance insertionPdq.
#[local] Existing Instance marks.

Definition otherPassword (p : string) : string := if String.eqb p EmptyString then EmptyString else "other".

Lemma otherPassword_there p : otherPassword p = EmptyString <-> p = EmptyString.
Proof. unfold otherPassword. by destruct (String.eqb_spec p EmptyString). Qed.

Definition textDiff (a c : Config) : result string string :=
  Ok (if String.eqb (Config_String (fun _ => JNull) a) (Config_String (fun _ => JNull) c) then "" else "- old, + new")%string.

Lemma textDiff_json a a' c c' : enc (configC (fun _ => JNull)) a = enc (configC (fun _ => JNull)) a' ->
  enc (configC (fun _ => JNull)) c = enc (configC (fun _ => JNull)) c' -> textDiff a c = textDiff a' c'.
Proof. intros E1 E2. unfold textDiff, Config_String. by rewrite E1, E2. Qed.

Lemma sampleHash_there c c' : guise c c' -> sliceable (sampleHash c') = sliceable (sampleHash c).
Proof.
  intros (pw & _ & ->). unfold sampleHash. cbn [repass Config_Upstreams Config_HandshakeTimeout].
  assert (E : forallb hashable (map (repassUpstream pw) (Config_Upstreams c)) = forallb hashable (Config_Upstreams c)).
  { induction (Config_Upstreams c) as [|u us IH]; [done|]. cbn [map forallb]. rewrite IH. by destruct u. }
  by rewrite E.
Qed.

Definition sampleAsked (rt : route) (method body : string) : asked (any := field) := {|
  as_site := sampleSite; as_route := rt; as_matches := ["p1"%string];
  as_url := {| Scheme := ""; Path := "/config"; RawPath := ""; ForceQuery := false; RawQuery := "" |};
  as_request := {| Request_Method := method; Request_URI := "/config"; Request_ContentType := "application/json";
                   Request_Accept := ""; Request_Body := body |} |}.

(** The configuration is fetched, compared with itself, and put; the clients are listed. *)
Definition sampleTalk : list (asked (any := field)) :=
  [sampleAsked GetConfigRoute "GET" ""; sampleAsked DiffConfigRoute "POST" (Config_String (fun _ => JNull) loaded);
   sampleAsked GetClientsRoute "GET" ""; sampleAsked PutConfigRoute "PUT" (Config_String (fun _ => JNull) loaded);
   sampleAsked GetConfigRoute "GET" ""].

Definition answered (c : Config) : list (result string HTTPResponse) :=
  answers asText (fun _ => JNull) (MarshalLog (fun _ => JNull)) (MarshalEntry (fun _ => JNull)) sampleHash sampleBanner
    textDiff sampleFiles sampleEnv (fun _ _ => Err "no jsonnet"%string) (fun _ => "bad"%string) "config.json"
    sampleTalk (callServer c, serverLog).

Lemma sample_alike : alike (callServer loaded) (callServer (repass otherPassword loaded)).
Proof. split; [exists otherPassword; split; [apply otherPassword_there|reflexivity]|vm_compute; reflexivity..]. Qed.

