(* ===== verification/Layout.v ===== *)
(** * The layout of the terminal views

    [tui/scroll.go], and of [tui/format.go] and [tui/view.go] what decides which bytes are
    shown: the scroll positions, the wrapping of lines and the choice of the log entries
    that fit. Styles and the width of a character come from third-party packages
    ([Terminal]). Positions and numbers of lines are far from the ends of [int]. A slice of a
    text whose bounds are out of range is a panic, [None]. *)

From stdpp Require Import sorting.
From S2P Require Import Prelude Fields Server Sse.

Open Scope Z_scope.

(** ** [scroll.go] *)

Definition maxScroll (total visible : Z) : Z :=
  let m := total - visible in if m <? 0 then 0 else m.

Definition clamp (v mn mx : Z) : Z := if v <? mn then mn else if mx <? v then mx else v.

Definition clampScrollToContain (scroll selected visible total : Z) : Z :=
  if visible <=? 0 then 0
  else
    let ms := maxScroll total visible in
    let scroll := Z.min selected (clamp scroll 0 ms) in
    let scroll := if scroll + visible <=? selected then selected - visible + 1 else scroll in
    clamp scroll 0 ms.

Lemma clamp_range v mn mx : mn <= mx -> mn <= clamp v mn mx <= mx.
Proof. intros H. unfold clamp. repeat case_match; lia. Qed.

Lemma clamp_id v mn mx : mn <= v <= mx -> clamp v mn mx = v.
Proof. intros H. unfold clamp. repeat case_match; lia. Qed.

Lemma maxScroll_nonneg total visible : 0 <= maxScroll total visible.
Proof. unfold maxScroll. case_match; lia. Qed.

(** The scroll position is always one of a page of the list. *)
Lemma scroll_range scroll selected visible total :
  0 <= clampScrollToContain scroll selected visible total <= maxScroll total visible.
Proof.
  pose proof (maxScroll_nonneg total visible). unfold clampScrollToContain.
  case_match; [lia|]. apply clamp_range. lia.
Qed.

(** ... which holds the selected row. *)
Lemma scroll_contains scroll selected visible total :
  0 < visible -> 0 <= selected < total ->
  let s := clampScrollToContain scroll selected visible total in s <= selected < s + visible.
Proof.
  intros Hv Hs. unfold clampScrollToContain, clamp, maxScroll. repeat case_match; lia.
Qed.

(** A position that already shows the row stays. *)
Lemma scroll_stays scroll selected visible total :
  0 < visible -> 0 <= selected < total -> 0 <= scroll <= maxScroll total visible ->
  scroll <= selected < scroll + visible ->
  clampScrollToContain scroll selected visible total = scroll.
Proof.
  intros Hv Hs Hm Hc. unfold clampScrollToContain.
  destruct (Z.leb_spec visible 0); [lia|]. rewrite (clamp_id scroll) by done.
  rewrite Z.min_r by lia. destruct (Z.leb_spec (scroll + visible) selected); [lia|].
  by apply clamp_id.
Qed.

(** ** [format.go] *)

(** [s[a:b]], which panics out of range: [None]. *)
Definition slice (a b : Z) (s : string) : option string :=
  if (0 <=? a) && (a <=? b) && (b <=? Z.of_nat (String.length s))
  then Some (String.substring (Z.to_nat a) (Z.to_nat (b - a)) s) else None.

(** [s[a:]]. *)
Definition sliceFrom (a : Z) (s : string) : option string := slice a (Z.of_nat (String.length s)) s.

Definition formatID (id : string) : option string :=
  if (String.length id <=? 10)%nat then Some id
  else head ← slice 0 8 id; Some (head +:+ "..").

Definition formatAddress (a : string) : option string :=
  if (String.length a <=? 21)%nat then Some a else slice 0 21 a.

Definition formatStatus (status : string) : string :=
  if String.eqb status "active" then "Active"
  else if String.eqb status "shutting_down" then "Shtdwn"
  else if String.eqb status "disconnected" then "Closed"
  else status.

Definition truncate (s : string) (maxLen : Z) : option string :=
  if Z.of_nat (String.length s) <=? maxLen then Some s
  else head ← slice 0 (maxLen - 2) s; Some (head +:+ "..").

Definition getStatValue (stats : option StatsSummary) (field : string) : Z :=
  match stats with
  | None => 0
  | Some st =>
      if String.eqb field "total_methods" then StatsSummary_TotalMethods st
      else if String.eqb field "received_frames" then StatsSummary_ReceivedFrames st
      else if String.eqb field "sent_frames" then StatsSummary_SentFrames st
      else if String.eqb field "total_frames" then StatsSummary_TotalFrames st
      else 0
  end.

Lemma substring_length s a n : (a + n <= String.length s)%nat ->
  String.length (String.substring a n s) = n.
Proof.
  revert a n. induction s as [|c s IH]; intros a n Hl; simpl in *.
  - by destruct a, n; simpl in *; try lia.
  - destruct a as [|a]; [destruct n as [|n]; [done|]|].
    + simpl. rewrite (IH 0%nat n) by lia. done.
    + apply IH. lia.
Qed.

(** A slice within the string is there, and as long as asked for. *)
Lemma slice_some a b s : 0 <= a -> a <= b -> b <= Z.of_nat (String.length s) ->
  exists t, slice a b s = Some t /\ Z.of_nat (String.length t) = b - a.
Proof.
  intros H1 H2 H3. unfold slice. rewrite (proj2 (Z.leb_le 0 a)), (proj2 (Z.leb_le a b)),
    (proj2 (Z.leb_le b (Z.of_nat (String.length s)))) by done.
  eexists. split; [done|]. rewrite substring_length; lia.
Qed.

Lemma formatID_some id : exists t, formatID id = Some t /\ (String.length t <= 10)%nat.
Proof.
  unfold formatID. destruct (Nat.leb_spec (String.length id) 10); [by eexists|].
  destruct (slice_some 0 8 id) as (t & -> & Ht); [lia..|]. eexists. split; [done|].
  rewrite length_append. simpl. lia.
Qed.

Lemma formatAddress_some a : exists t, formatAddress a = Some t /\ (String.length t <= 21)%nat.
Proof.
  unfold formatAddress. destruct (Nat.leb_spec (String.length a) 21); [by eexists|].
  destruct (slice_some 0 21 a) as (t & -> & Ht); [lia..|]. eexists. split; [done|]. lia.
Qed.

Lemma truncate_some s maxLen : 2 <= maxLen ->
  exists t, truncate s maxLen = Some t /\ Z.of_nat (String.length t) <= maxLen.
Proof.
  intros Hm. unfold truncate. destruct (Z.leb_spec (Z.of_nat (String.length s)) maxLen); [by eexists|].
  destruct (slice_some 0 (maxLen - 2) s) as (t & -> & Ht); [lia..|]. eexists. split; [done|].
  rewrite length_append. simpl. lia.
Qed.

(** ** [renderLogsWithWrapping] *)

(** [strings.Count(s, "\n")]. *)
Fixpoint count_lf (s : string) : Z :=
  match s with
  | EmptyString => 0
  | String c s' => (if decide (c = lf) then 1 else 0) + count_lf s'
  end.

Record renderResult : Type := { renderedLines : list string; startIdx : Z; endIdx : Z }.

(** The variables of the loops. *)
Record rendering : Type := {
  r_lines : list string;
  r_indices : list Z;
  displayLines : Z;
  r_endIdx : Z
}.

Section Render.
Context (logCount maxDisplayLines : Z) (formatFunc : Z -> bool -> option string).

(** The loop that starts at the scroll position: [n] entries are left. *)
Fixpoint firstPass (selectedIdx : Z) (n : nat) (i : Z) (r : rendering) : option rendering :=
  match n with
  | O => Some r
  | S n' =>
      if negb (displayLines r <? maxDisplayLines) then Some r
      else
        logLine ← formatFunc i false;
        let lineCount := count_lf logLine + 1 in
        if (maxDisplayLines <? displayLines r + lineCount) && negb (i =? selectedIdx) then
          if i <? selectedIdx then firstPass selectedIdx n' (i + 1) r else Some r
        else
          logLine ← (if i =? selectedIdx then formatFunc i true else Some logLine);
          firstPass selectedIdx n' (i + 1) {|
            r_lines := r_lines r ++ [logLine];
            r_indices := r_indices r ++ [i];
            displayLines := displayLines r + lineCount;
            r_endIdx := i + 1 |}
  end.

(** The loops of the second attempt: after and before the selected entry. *)
Fixpoint addAfter (n : nat) (i : Z) (r : rendering) : option rendering :=
  match n with
  | O => Some r
  | S n' =>
      if negb (displayLines r <? maxDisplayLines) then Some r
      else
        logLine ← formatFunc i false;
        let lineCount := count_lf logLine + 1 in
        if maxDisplayLines <? displayLines r + lineCount then Some r
        else addAfter n' (i + 1) {|
          r_lines := r_lines r ++ [logLine]; r_indices := r_indices r ++ [i];
          displayLines := displayLines r + lineCount; r_endIdx := r_endIdx r |}
  end.

Fixpoint addBefore (n : nat) (i : Z) (r : rendering) : option rendering :=
  match n with
  | O => Some r
  | S n' =>
      if negb (displayLines r <? maxDisplayLines) then Some r
      else
        logLine ← formatFunc i false;
        let lineCount := count_lf logLine + 1 in
        if maxDisplayLines <? displayLines r + lineCount then Some r
        else addBefore n' (i - 1) {|
          r_lines := logLine :: r_lines r; r_indices := i :: r_indices r;
          displayLines := displayLines r + lineCount; r_endIdx := r_endIdx r |}
  end.

(** The position of the selected entry and of the first, when there are entries. *)
Definition startOf (scrollPos selectedIdx : Z) : Z * Z :=
  let startIdx := Z.max scrollPos 0 in
  let startIdx := if logCount <=? startIdx then logCount - 1 else startIdx in
  let startIdx := if startIdx <? 0 then 0 else startIdx in
  let selectedIdx := if selectedIdx <? 0 then 0 else selectedIdx in
  let selectedIdx := if logCount <=? selectedIdx then logCount - 1 else selectedIdx in
  (if selectedIdx <? startIdx then selectedIdx else startIdx, selectedIdx).

(** The result, and the indices of its lines. *)
Definition renderLogs (scrollPos selectedIdx : Z) : option (renderResult * list Z) :=
  if logCount =? 0 then Some ({| renderedLines := []; startIdx := 0; endIdx := 0 |}, [])
  else
    let (start, sel) := startOf scrollPos selectedIdx in
    r ← firstPass sel (Z.to_nat (logCount - start)) start
          {| r_lines := []; r_indices := []; displayLines := 0; r_endIdx := start |};
    if negb (bool_decide (sel ∈ r_indices r)) && (sel <? logCount) then
      logLine ← formatFunc sel true;
      let r := {| r_lines := [logLine]; r_indices := [sel];
                  displayLines := count_lf logLine + 1; r_endIdx := r_endIdx r |} in
      r ← addAfter (Z.to_nat (logCount - (sel + 1))) (sel + 1) r;
      r ← addBefore (Z.to_nat sel) (sel - 1) r;
      Some ({| renderedLines := r_lines r; startIdx := hd 0 (r_indices r);
               endIdx := List.last (r_indices r) 0 + 1 |}, r_indices r)
    else Some ({| renderedLines := r_lines r; startIdx := start; endIdx := r_endIdx r |}, r_indices r).

Definition renderLogsWithWrapping (scrollPos selectedIdx : Z) : option renderResult :=
  fst <$> renderLogs scrollPos selectedIdx.

(** *** What is shown

    [format] is what [formatFunc] gives for the entries that are there; it may panic for
    others. *)
Context (format : Z -> bool -> string).
Hypothesis formats : forall i b, 0 <= i < logCount -> formatFunc i b = Some (format i b).

Definition lineCount (i : Z) : Z := count_lf (format i false) + 1.

Definition heights (ix : list Z) : Z := foldr (fun i h => lineCount i + h) 0 ix.

Lemma heights_app ix1 ix2 : heights (ix1 ++ ix2) = heights ix1 + heights ix2.
Proof. induction ix1 as [|i ix1 IH]; simpl; [done|]. rewrite IH. lia. Qed.

Lemma count_lf_nonneg s : 0 <= count_lf s.
Proof. induction s as [|c s IH]; cbn [count_lf]; [done|]. case_match; lia. Qed.

Lemma lineCount_pos i : 1 <= lineCount i.
Proof. unfold lineCount. pose proof (count_lf_nonneg (format i false)). lia. Qed.

(** Entries [r] that are shown between [lo] and [hi]: in order, each once, the selected one
    marked. The lines counted differ from those of the plain texts by [extra]. *)
Record shown (extra sel lo hi : Z) (r : rendering) : Prop := {
  shown_lines : r_lines r = map (fun i => format i (i =? sel)) (r_indices r);
  shown_height : displayLines r = heights (r_indices r) + extra;
  shown_order : StronglySorted Z.lt (r_indices r);
  shown_range : Forall (fun i => lo <= i < hi) (r_indices r)
}.

Lemma sorted_snoc lo i (ix : list Z) : StronglySorted Z.lt ix -> Forall (fun j => lo <= j < i) ix ->
  StronglySorted Z.lt (ix ++ [i]).
Proof.
  intros Hs Hr. apply StronglySorted_app_2; [|done|by repeat constructor].
  intros j k Hj Hk. apply list_elem_of_singleton in Hk as ->.
  rewrite Forall_forall in Hr. apply Hr in Hj. lia.
Qed.

Lemma shown_snoc x sel lo i r e : lo <= i -> shown x sel lo i r ->
  shown x sel lo (i + 1) {| r_lines := r_lines r ++ [format i (i =? sel)];
    r_indices := r_indices r ++ [i]; displayLines := displayLines r + lineCount i; r_endIdx := e |}.
Proof.
  intros Hi [H1 H2 H3 H4]. split; simpl.
  - by rewrite map_app, H1.
  - rewrite heights_app, H2. simpl. lia.
  - by eapply sorted_snoc.
  - apply Forall_app. split; [|by repeat constructor; lia].
    eapply Forall_impl; [exact H4|]. simpl. lia.
Qed.

Lemma shown_wider x sel lo lo' hi hi' r : lo' <= lo -> hi <= hi' -> shown x sel lo hi r -> shown x sel lo' hi' r.
Proof.
  intros Hl Hh [H1 H2 H3 H4]. split; try done. eapply Forall_impl; [exact H4|]. simpl. lia.
Qed.

(** The screen holds what is shown, but for [own] lines of the selected entry when it
    comes last. *)
Definition fits_screen (own : Z) (r : rendering) : Prop :=
  0 <= displayLines r <= Z.max 0 (maxDisplayLines - 1) + own.

Lemma firstPass_shown sel start n i r : 0 <= start <= i -> start <= r_endIdx r <= i ->
  i + Z.of_nat n <= logCount -> shown 0 sel start (r_endIdx r) r -> fits_screen (lineCount sel) r ->
  exists r', firstPass sel n i r = Some r' /\ shown 0 sel start (r_endIdx r') r' /\
    start <= r_endIdx r' <= i + Z.of_nat n /\ fits_screen (lineCount sel) r'.
Proof.
  revert i r; induction n as [|n IH]; intros i r Hi He Hn Hr Hf; cbn [firstPass].
  { exists r. split_and!; [done|done|lia|lia|done..]. }
  destruct (Z.ltb_spec (displayLines r) maxDisplayLines) as [Hd|Hd]; cbn [negb];
    [|exists r; split_and!; [done|done|lia|lia|done..]].
  rewrite !formats by lia. cbn [mbind option_bind]. fold (lineCount i).
  pose proof (lineCount_pos i) as Hl. pose proof (lineCount_pos sel) as Hs.
  assert (Hx : shown 0 sel start i r) by (by apply (shown_wider 0 sel start _ (r_endIdx r)); [lia|lia|]).
  destruct (_ && _) eqn:Em.
  - destruct (i <? sel); [|exists r; split_and!; [done|done|lia|lia|done..]].
    destruct (IH (i + 1) r) as (r' & E & I1 & I2 & I3); [lia|lia|lia|done|done|].
    exists r'. split_and!; [done|done|lia|lia|done..].
  - assert (Hb : (if i =? sel then Some (format i true) else Some (format i false))
                 = Some (format i (i =? sel))) by (by destruct (i =? sel)).
    rewrite Hb. cbn [mbind option_bind].
    pose proof (shown_snoc 0 sel start i r (i + 1) ltac:(lia) Hx) as Hx'.
    match type of Hx' with shown _ _ _ _ ?r1 => destruct (IH (i + 1) r1) as (r' & E & I1 & I2 & I3) end;
      [simpl; lia|simpl; lia|simpl; lia|exact Hx'| |exists r'; split_and!; [exact E|exact I1|lia|lia|exact I3..]].
    unfold fits_screen in *. simpl. apply andb_false_iff in Em as [Em%Z.ltb_ge|Em%negb_false_iff%Z.eqb_eq];
      [lia|]. subst i. lia.
Qed.

Lemma addAfter_shown x own sel n i r : 1 <= own -> 0 <= i -> sel < i -> i + Z.of_nat n <= logCount ->
  shown x sel sel i r -> fits_screen own r -> (exists rest, r_indices r = sel :: rest) ->
  exists r', addAfter n i r = Some r' /\
    shown x sel sel (i + Z.of_nat n) r' /\ fits_screen own r' /\ exists rest, r_indices r' = sel :: rest.
Proof.
  intros Ho. revert i r; induction n as [|n IH]; intros i r H0 Hs Hn Hr Hf Hx; cbn [addAfter].
  { rewrite Z.add_0_r. by exists r. }
  assert (Stop : exists r', Some r = Some r' /\ shown x sel sel (i + Z.of_nat (S n)) r' /\
    fits_screen own r' /\ exists rest, r_indices r' = sel :: rest).
  { exists r. split_and!; [done| |done|done]. by apply (shown_wider x sel sel _ i); [lia|lia|]. }
  destruct (Z.ltb_spec (displayLines r) maxDisplayLines) as [Hd|Hd]; cbn [negb]; [|done].
  rewrite formats by lia. cbn [mbind option_bind]. fold (lineCount i).
  destruct (Z.ltb_spec maxDisplayLines (displayLines r + lineCount i)); [done|].
  replace (i + Z.of_nat (S n)) with (i + 1 + Z.of_nat n) by lia.
  pose proof (lineCount_pos i). apply IH; [lia|lia|lia| |unfold fits_screen in *; simpl; lia|].
  - assert (Ei : (i =? sel) = false) by (apply Z.eqb_neq; lia). rewrite <- Ei at 1.
    apply shown_snoc; [lia|done].
  - destruct Hx as [rest ->]. by exists (rest ++ [i]).
Qed.

Lemma shown_cons x sel hi i r e : shown x sel (i + 1) hi r -> i < hi -> shown x sel i hi
  {| r_lines := format i (i =? sel) :: r_lines r; r_indices := i :: r_indices r;
     displayLines := displayLines r + lineCount i; r_endIdx := e |}.
Proof.
  intros [H1 H2 H3 H4] Hi. split; simpl.
  - by rewrite H1.
  - rewrite H2. lia.
  - constructor; [done|]. eapply Forall_impl; [exact H4|]. simpl. lia.
  - constructor; [lia|]. eapply Forall_impl; [exact H4|]. simpl. lia.
Qed.

Lemma addBefore_shown x own sel n i r : 1 <= own -> i < sel < logCount -> Z.of_nat n <= i + 1 ->
  shown x sel (i + 1) logCount r -> fits_screen own r -> sel ∈ r_indices r ->
  exists r', addBefore n i r = Some r' /\
    shown x sel 0 logCount r' /\ fits_screen own r' /\ sel ∈ r_indices r'.
Proof.
  intros Ho. revert i r; induction n as [|n IH]; intros i r Hs Hi Hr Hf Hx; cbn [addBefore].
  all: assert (Stop : exists r', Some r = Some r' /\ shown x sel 0 logCount r' /\ fits_screen own r' /\
    sel ∈ r_indices r')
    by (exists r; split_and!; [done| |done|done]; by apply (shown_wider x sel (i + 1) 0 logCount); [lia|lia|]).
  { done. }
  destruct (Z.ltb_spec (displayLines r) maxDisplayLines) as [Hd|Hd]; cbn [negb]; [|done].
  rewrite formats by lia. cbn [mbind option_bind]. fold (lineCount i).
  destruct (Z.ltb_spec maxDisplayLines (displayLines r + lineCount i)); [done|].
  pose proof (lineCount_pos i). apply IH; [lia|lia| |unfold fits_screen in *; simpl; lia|simpl; by right].
  replace (i - 1 + 1) with i by lia.
  assert (Ei : (i =? sel) = false) by (apply Z.eqb_neq; lia). rewrite <- Ei at 1.
  apply shown_cons; [done|lia].
Qed.

Lemma sorted_ends (ix : list Z) : StronglySorted Z.lt ix ->
  Forall (fun i => hd 0 ix <= i < List.last ix 0 + 1) ix.
Proof.
  intros Hs. assert (Hh : Forall (fun i => hd 0 ix <= i) ix).
  { destruct Hs as [|i ix Hs Hi]; [done|]. constructor; [done|].
    eapply Forall_impl; [exact Hi|]. simpl. lia. }
  assert (Hl : Forall (fun i => i <= List.last ix 0) ix).
  { clear Hh. induction Hs as [|i ix Hs IH Hi]; [done|]. destruct ix as [|j ix]; [by repeat constructor|].
    constructor; [|exact IH]. apply Forall_cons in Hi as [Hij _]. apply Forall_cons in IH as [IH _].
    change (i <= List.last (j :: ix) 0). lia. }
  rewrite Forall_forall in *. intros i Hi. specialize (Hh i Hi). specialize (Hl i Hi).
  simpl in Hl. lia.
Qed.

Lemma startOf_range scrollPos selectedIdx : 0 < logCount -> exists start,
  startOf scrollPos selectedIdx = (start, clamp selectedIdx 0 (logCount - 1)) /\
  0 <= start <= clamp selectedIdx 0 (logCount - 1) /\ clamp selectedIdx 0 (logCount - 1) < logCount.
Proof.
  intros Hc. unfold startOf. eexists. unfold clamp. split; [f_equal|]; repeat case_match; lia.
Qed.

Lemma sorted_range (ix : list Z) sel : sel ∈ ix -> Forall (fun i => 0 <= i < logCount) ix ->
  0 <= hd 0 ix /\ List.last ix 0 + 1 <= logCount.
Proof.
  intros Hin Hr. destruct ix as [|j ix]; [by apply not_elem_of_nil in Hin|].
  rewrite Forall_forall in Hr. split; [simpl; apply Hr; by left|].
  assert (List.last (j :: ix) 0 ∈ j :: ix) as Hl.
  { clear. revert j. induction ix as [|k ix IH]; intros j; [by left|]. right. apply IH. }
  apply Hr in Hl. lia.
Qed.

Lemma renderLogs_ok scrollPos selectedIdx : 0 < logCount ->
  let sel := clamp selectedIdx 0 (logCount - 1) in
  exists res ix, renderLogs scrollPos selectedIdx = Some (res, ix) /\
  sel ∈ ix /\ StronglySorted Z.lt ix /\ Forall (fun i => startIdx res <= i < endIdx res) ix /\
  0 <= startIdx res /\ endIdx res <= logCount /\
  renderedLines res = map (fun i => format i (i =? sel)) ix /\
  heights ix <= Z.max 0 (maxDisplayLines - 1) + lineCount sel.
Proof.
  intros Hc sel. unfold renderLogs. destruct (Z.eqb_spec logCount 0); [lia|].
  destruct (startOf_range scrollPos selectedIdx Hc) as (start & -> & Hst & Hsel). fold sel in Hst, Hsel |- *.
  clearbody sel. pose proof (lineCount_pos sel) as Hl.
  destruct (firstPass_shown sel start (Z.to_nat (logCount - start)) start
    {| r_lines := []; r_indices := []; displayLines := 0; r_endIdx := start |})
    as (r & -> & F1 & F2 & F3); [lia|simpl; lia|lia|by split; try constructor|by unfold fits_screen; simpl; lia|].
  cbn [mbind option_bind]. destruct (bool_decide (sel ∈ r_indices r)) eqn:Eb; cbn [negb andb].
  - apply bool_decide_eq_true in Eb. destruct F1 as [H1 H2 H3 H4].
    unfold fits_screen in F3. rewrite H2 in F3. eexists _, _. split; [done|].
    cbn [startIdx endIdx renderedLines]. split_and!; try done; lia.
  - destruct (Z.ltb_spec sel logCount); [|lia]. rewrite formats by lia. cbn [mbind option_bind].
    set (own := count_lf (format sel true) + 1).
    assert (Ho : 1 <= own) by (pose proof (count_lf_nonneg (format sel true)); lia).
    set (r0 := {| r_lines := [format sel true] |}).
    assert (S0 : shown (own - lineCount sel) sel sel (sel + 1) r0).
    { split; simpl; [by rewrite Z.eqb_refl|lia|by repeat constructor|by repeat constructor; lia]. }
    destruct (addAfter_shown (own - lineCount sel) own sel (Z.to_nat (logCount - (sel + 1))) (sel + 1) r0)
      as (r1 & -> & A1 & A2 & A3); [done|lia|lia|lia|done|unfold fits_screen; simpl; lia|by exists []|].
    replace (sel + 1 + Z.of_nat _) with logCount in A1 by lia. cbn [mbind option_bind].
    destruct (addBefore_shown (own - lineCount sel) own sel (Z.to_nat sel) (sel - 1) r1)
      as (r2 & -> & B1 & B2 & B3);
      [done|lia|lia|by replace (sel - 1 + 1) with sel by lia|done|destruct A3 as [rest ->]; by left|].
    destruct B1 as [H1 H2 H3 H4]. unfold fits_screen in B2. rewrite H2 in B2.
    pose proof (sorted_ends _ H3) as He. destruct (sorted_range _ _ B3 H4) as [Hh Hla].
    eexists _, _. split; [done|]. cbn [startIdx endIdx renderedLines]. split_and!; try done; lia.
Qed.

(** Formatting that does not panic for the entries does not panic. *)
Lemma renderLogs_some scrollPos selectedIdx : 0 <= logCount ->
  is_Some (renderLogsWithWrapping scrollPos selectedIdx).
Proof.
  intros Hc. unfold renderLogsWithWrapping. destruct (Z.eqb_spec logCount 0) as [E|Hne].
  - unfold renderLogs. apply Z.eqb_eq in E. rewrite E. simpl. by eexists.
  - destruct (renderLogs_ok scrollPos selectedIdx ltac:(lia)) as (res & ix & -> & _). by eexists.
Qed.

(** C23: whatever the log entries are formatted to, the entries shown are in order, each
    once, and lie between the numbers that are displayed below them; the selected entry, the
    nearest one to the index given, is always among them and the only one marked; the lines
    of all of them exceed the screen by less than the lines of the selected one; and only
    entries that are there are asked for, so that nothing panics. *)
Theorem render_shows scrollPos selectedIdx : 0 < logCount ->
  let sel := clamp selectedIdx 0 (logCount - 1) in
  exists res ix, renderLogs scrollPos selectedIdx = Some (res, ix) /\
  sel ∈ ix /\ StronglySorted Z.lt ix /\ Forall (fun i => startIdx res <= i < endIdx res) ix /\
  0 <= startIdx res /\ endIdx res <= logCount /\
  renderedLines res = map (fun i => format i (i =? sel)) ix /\
  heights ix <= Z.max 0 (maxDisplayLines - 1) + lineCount sel.
Proof.
  apply renderLogs_ok.
Qed.
End Render.

(** Five entries on four lines. An entry of three lines does not fit between the scroll
    position and the selected entry, and is left out: what is shown is "1-5 of 5". *)
Definition sampleLogText (i : Z) (selected : bool) : string :=
  (if selected then ">" else "") +:+
  (if i =? 2 then "a" +:+ newline +:+ "b" +:+ newline +:+ "c" else "x").

(** A slice of five: another index panics. *)
Definition sampleFormat (i : Z) (selected : bool) : option string :=
  if (0 <=? i) && (i <? 5) then Some (sampleLogText i selected) else None.

Lemma sampleFormats i b : 0 <= i < 5 -> sampleFormat i b = Some (sampleLogText i b).
Proof. intros [H1 H2]. unfold sampleFormat. by rewrite (proj2 (Z.leb_le 0 i)), (proj2 (Z.ltb_lt i 5)). Qed.

Example render_gap : renderLogs 5 4 sampleFormat 0 4 =
  Some ({| renderedLines := ["x"; "x"; "x"; ">x"]; startIdx := 0; endIdx := 5 |}, [0; 1; 3; 4]).
Proof. by vm_compute. Qed.

Lemma render_shows_witness : exists res,
  renderLogs 5 3 sampleFormat 0 2 = Some (res, [0; 1; 2]) /\ 2 ∈ [0; 1; 2] /\
  heights sampleLogText [0; 1; 2] <= 5.
Proof.
  destruct (render_shows 5 3 sampleFormat sampleLogText sampleFormats 0 2 ltac:(lia))
    as (res & ix & E & R1 & _ & _ & _ & _ & _ & R2).
  exists res. assert (Ei : ix = [0; 1; 2]).
  { assert (E' : snd <$> renderLogs 5 3 sampleFormat 0 2 = Some [0; 1; 2]) by (vm_compute; reflexivity).
    rewrite E in E'. injection E' as ->. reflexivity. }
  subst ix. split; [exact E|]. split; [exact R1|exact R2].
Defined.
