(* ===== verification/Tui.v ===== *)
(** * The terminal interface

    [tui/model.go], [tui/tui.go]: the state of the interface, what every message and key
    does to it and the commands it starts, and [adjustScrollForSelection] with what it
    needs of [tui/view.go]. A function that may panic gives [None] when it does. The clock
    is an argument; contexts are numbers, and [m_cancelled] records those that were
    cancelled. The texts of the views are in [View], the choice of log entries to show and
    the wrapping of lines in [Layout] and [Runes]. *)

From stdpp Require Import pretty sorting.
From S2P Require Import Prelude Fields Config Times Stats LogBuffers Sorting Server Sse Layout Runes.

Open Scope Z_scope.

(** ** Surroundings

    Formatting of times in the zone of the host, JSON of attributes, styles and widths of
    characters of the terminal packages. A time of day, [15:04:05], has eight bytes. *)

Inductive style : Type :=
| LevelError | LevelWarn | LevelInfo | LevelDefault | AttrGrey | Selected
| Header | TableBox | SelectedRow | Help | ErrorText | SuccessText | ScrollInfo | StatusDim
| DebugDim | LogPaneBox | Cursor | ActiveStatus | ShutdownStatus
| Inherit (s t : style).

Class Terminal (any : Type) : Type := {
  TimeOfDay : Time -> string;
  TimeOfDayMilli : Time -> string;
  FileStamp : Time -> string;
  DateTime : Time -> string;
  Sprint : field -> string;
  MarshalMap : gmap string any -> option string;
  Render : style -> string -> string;
  RuneWidth : Z -> Z;
  TimeOfDay_length t : String.length (TimeOfDay t) = 8%nat
}.

Definition serverLogKeep : nat := 100.
Definition probeLogKeep : nat := N.to_nat 1000.
Definition errorToastDuration : Z := 5 * Second.
Definition successToastDuration : Z := 3 * Second.

Inductive ViewMode : Type :=
| ViewList | ViewDetail | ViewConfirm | ViewProbe | ViewServerLogs | ViewSaveConfirm.

#[export] Instance ViewMode_eq_dec : EqDecision ViewMode.
Proof. solve_decision. Defined.

Record confirmState : Type := { cs_clientID : string; cs_message : string }.

(** A key: its name, its type, and the characters that were typed. *)
Inductive keyType : Type :=
| KeyEsc | KeyEnter | KeyBackspace | KeyDelete | KeyLeft | KeyRight | KeyHome | KeyEnd
| KeyRunes | KeyOther.
Record key : Type := { key_String : string; key_Type : keyType; key_Runes : list Z }.

Record saveState : Type := {
  ss_clientID : string;
  ss_filePath : string;
  ss_editing : bool;
  ss_cursorPos : Z;
  ss_previousView : ViewMode;
  ss_overwriteConfirm : bool
}.

Definition set_ss_filePath (v : string) (m : saveState) : saveState := {| ss_clientID :=
  ss_clientID m; ss_filePath := v; ss_editing := ss_editing m; ss_cursorPos := ss_cursorPos m;
  ss_previousView := ss_previousView m; ss_overwriteConfirm := ss_overwriteConfirm m |}.
Definition set_ss_editing (v : bool) (m : saveState) : saveState := {| ss_clientID := ss_clientID
  m; ss_filePath := ss_filePath m; ss_editing := v; ss_cursorPos := ss_cursorPos m;
  ss_previousView := ss_previousView m; ss_overwriteConfirm := ss_overwriteConfirm m |}.
Definition set_ss_cursorPos (v : Z) (m : saveState) : saveState := {| ss_clientID := ss_clientID
  m; ss_filePath := ss_filePath m; ss_editing := ss_editing m; ss_cursorPos := v; ss_previousView
  := ss_previousView m; ss_overwriteConfirm := ss_overwriteConfirm m |}.
Definition set_ss_overwriteConfirm (v : bool) (m : saveState) : saveState := {| ss_clientID :=
  ss_clientID m; ss_filePath := ss_filePath m; ss_editing := ss_editing m; ss_cursorPos :=
  ss_cursorPos m; ss_previousView := ss_previousView m; ss_overwriteConfirm := v |}.


Section Tui.
Context {any : Type}.

Record LogEntry : Type := {
  le_Time : Time;
  le_Level : string;
  le_Message : string;
  le_Attrs : gmap string any;
  le_AttrJSON : string
}.

Definition probeLogEntry : Type := ProbeLogEntry (any := any).

Record probeState : Type := {
  ps_clientID : string;
  ps_logs : list probeLogEntry;
  ps_scroll : Z;
  ps_selectedIdx : Z;
  ps_cancelFunc : option nat;
  ps_ctx : nat;
  ps_autoScroll : bool;
  ps_reconnectCount : Z;
  ps_disconnected : bool
}.

Definition set_ps_logs (v : list probeLogEntry) (m : probeState) : probeState := {| ps_clientID :=
  ps_clientID m; ps_logs := v; ps_scroll := ps_scroll m; ps_selectedIdx := ps_selectedIdx m;
  ps_cancelFunc := ps_cancelFunc m; ps_ctx := ps_ctx m; ps_autoScroll := ps_autoScroll m;
  ps_reconnectCount := ps_reconnectCount m; ps_disconnected := ps_disconnected m |}.
Definition set_ps_scroll (v : Z) (m : probeState) : probeState := {| ps_clientID := ps_clientID m;
  ps_logs := ps_logs m; ps_scroll := v; ps_selectedIdx := ps_selectedIdx m; ps_cancelFunc :=
  ps_cancelFunc m; ps_ctx := ps_ctx m; ps_autoScroll := ps_autoScroll m; ps_reconnectCount :=
  ps_reconnectCount m; ps_disconnected := ps_disconnected m |}.
Definition set_ps_selectedIdx (v : Z) (m : probeState) : probeState := {| ps_clientID :=
  ps_clientID m; ps_logs := ps_logs m; ps_scroll := ps_scroll m; ps_selectedIdx := v;
  ps_cancelFunc := ps_cancelFunc m; ps_ctx := ps_ctx m; ps_autoScroll := ps_autoScroll m;
  ps_reconnectCount := ps_reconnectCount m; ps_disconnected := ps_disconnected m |}.
Definition set_ps_cancelFunc (v : option nat) (m : probeState) : probeState := {| ps_clientID :=
  ps_clientID m; ps_logs := ps_logs m; ps_scroll := ps_scroll m; ps_selectedIdx := ps_selectedIdx
  m; ps_cancelFunc := v; ps_ctx := ps_ctx m; ps_autoScroll := ps_autoScroll m; ps_reconnectCount
  := ps_reconnectCount m; ps_disconnected := ps_disconnected m |}.
Definition set_ps_autoScroll (v : bool) (m : probeState) : probeState := {| ps_clientID :=
  ps_clientID m; ps_logs := ps_logs m; ps_scroll := ps_scroll m; ps_selectedIdx := ps_selectedIdx
  m; ps_cancelFunc := ps_cancelFunc m; ps_ctx := ps_ctx m; ps_autoScroll := v; ps_reconnectCount
  := ps_reconnectCount m; ps_disconnected := ps_disconnected m |}.

Record TUIModel : Type := {
  m_clients : list ClientInfo;
  m_selectedIdx : Z;
  m_viewMode : ViewMode;
  m_selectedID : string;
  m_clientDetail : option FullClientInfo;
  m_confirmState : option confirmState;
  m_probeState : option probeState;
  m_saveState : option saveState;
  m_width : Z;
  m_height : Z;
  m_lastUpdate : Time;
  m_err : option string;
  m_errorTime : Time;
  m_successMsg : string;
  m_successTime : Time;
  m_detailScroll : Z;
  m_listScroll : Z;
  m_logEntries : list LogEntry;
  m_serverLogsScroll : Z;
  m_serverLogsSelectedIdx : Z;
  m_droppedLogs : Z;
  m_cancelled : list nat
}.

Definition set_m_clients (v : list ClientInfo) (m : TUIModel) : TUIModel := {| m_clients := v;
  m_selectedIdx := m_selectedIdx m; m_viewMode := m_viewMode m; m_selectedID := m_selectedID m;
  m_clientDetail := m_clientDetail m; m_confirmState := m_confirmState m; m_probeState :=
  m_probeState m; m_saveState := m_saveState m; m_width := m_width m; m_height := m_height m;
  m_lastUpdate := m_lastUpdate m; m_err := m_err m; m_errorTime := m_errorTime m; m_successMsg :=
  m_successMsg m; m_successTime := m_successTime m; m_detailScroll := m_detailScroll m;
  m_listScroll := m_listScroll m; m_logEntries := m_logEntries m; m_serverLogsScroll :=
  m_serverLogsScroll m; m_serverLogsSelectedIdx := m_serverLogsSelectedIdx m; m_droppedLogs :=
  m_droppedLogs m; m_cancelled := m_cancelled m |}.
Definition set_m_selectedIdx (v : Z) (m : TUIModel) : TUIModel := {| m_clients := m_clients m;
  m_selectedIdx := v; m_viewMode := m_viewMode m; m_selectedID := m_selectedID m; m_clientDetail
  := m_clientDetail m; m_confirmState := m_confirmState m; m_probeState := m_probeState m;
  m_saveState := m_saveState m; m_width := m_width m; m_height := m_height m; m_lastUpdate :=
  m_lastUpdate m; m_err := m_err m; m_errorTime := m_errorTime m; m_successMsg := m_successMsg m;
  m_successTime := m_successTime m; m_detailScroll := m_detailScroll m; m_listScroll :=
  m_listScroll m; m_logEntries := m_logEntries m; m_serverLogsScroll := m_serverLogsScroll m;
  m_serverLogsSelectedIdx := m_serverLogsSelectedIdx m; m_droppedLogs := m_droppedLogs m;
  m_cancelled := m_cancelled m |}.
Definition set_m_viewMode (v : ViewMode) (m : TUIModel) : TUIModel := {| m_clients := m_clients m;
  m_selectedIdx := m_selectedIdx m; m_viewMode := v; m_selectedID := m_selectedID m;
  m_clientDetail := m_clientDetail m; m_confirmState := m_confirmState m; m_probeState :=
  m_probeState m; m_saveState := m_saveState m; m_width := m_width m; m_height := m_height m;
  m_lastUpdate := m_lastUpdate m; m_err := m_err m; m_errorTime := m_errorTime m; m_successMsg :=
  m_successMsg m; m_successTime := m_successTime m; m_detailScroll := m_detailScroll m;
  m_listScroll := m_listScroll m; m_logEntries := m_logEntries m; m_serverLogsScroll :=
  m_serverLogsScroll m; m_serverLogsSelectedIdx := m_serverLogsSelectedIdx m; m_droppedLogs :=
  m_droppedLogs m; m_cancelled := m_cancelled m |}.
Definition set_m_selectedID (v : string) (m : TUIModel) : TUIModel := {| m_clients := m_clients m;
  m_selectedIdx := m_selectedIdx m; m_viewMode := m_viewMode m; m_selectedID := v; m_clientDetail
  := m_clientDetail m; m_confirmState := m_confirmState m; m_probeState := m_probeState m;
  m_saveState := m_saveState m; m_width := m_width m; m_height := m_height m; m_lastUpdate :=
  m_lastUpdate m; m_err := m_err m; m_errorTime := m_errorTime m; m_successMsg := m_successMsg m;
  m_successTime := m_successTime m; m_detailScroll := m_detailScroll m; m_listScroll :=
  m_listScroll m; m_logEntries := m_logEntries m; m_serverLogsScroll := m_serverLogsScroll m;
  m_serverLogsSelectedIdx := m_serverLogsSelectedIdx m; m_droppedLogs := m_droppedLogs m;
  m_cancelled := m_cancelled m |}.
Definition set_m_clientDetail (v : option FullClientInfo) (m : TUIModel) : TUIModel := {|
  m_clients := m_clients m; m_selectedIdx := m_selectedIdx m; m_viewMode := m_viewMode m;
  m_selectedID := m_selectedID m; m_clientDetail := v; m_confirmState := m_confirmState m;
  m_probeState := m_probeState m; m_saveState := m_saveState m; m_width := m_width m; m_height :=
  m_height m; m_lastUpdate := m_lastUpdate m; m_err := m_err m; m_errorTime := m_errorTime m;
  m_successMsg := m_successMsg m; m_successTime := m_successTime m; m_detailScroll :=
  m_detailScroll m; m_listScroll := m_listScroll m; m_logEntries := m_logEntries m;
  m_serverLogsScroll := m_serverLogsScroll m; m_serverLogsSelectedIdx := m_serverLogsSelectedIdx
  m; m_droppedLogs := m_droppedLogs m; m_cancelled := m_cancelled m |}.
Definition set_m_confirmState (v : option confirmState) (m : TUIModel) : TUIModel := {| m_clients
  := m_clients m; m_selectedIdx := m_selectedIdx m; m_viewMode := m_viewMode m; m_selectedID :=
  m_selectedID m; m_clientDetail := m_clientDetail m; m_confirmState := v; m_probeState :=
  m_probeState m; m_saveState := m_saveState m; m_width := m_width m; m_height := m_height m;
  m_lastUpdate := m_lastUpdate m; m_err := m_err m; m_errorTime := m_errorTime m; m_successMsg :=
  m_successMsg m; m_successTime := m_successTime m; m_detailScroll := m_detailScroll m;
  m_listScroll := m_listScroll m; m_logEntries := m_logEntries m; m_serverLogsScroll :=
  m_serverLogsScroll m; m_serverLogsSelectedIdx := m_serverLogsSelectedIdx m; m_droppedLogs :=
  m_droppedLogs m; m_cancelled := m_cancelled m |}.
Definition set_m_probeState (v : option probeState) (m : TUIModel) : TUIModel := {| m_clients :=
  m_clients m; m_selectedIdx := m_selectedIdx m; m_viewMode := m_viewMode m; m_selectedID :=
  m_selectedID m; m_clientDetail := m_clientDetail m; m_confirmState := m_confirmState m;
  m_probeState := v; m_saveState := m_saveState m; m_width := m_width m; m_height := m_height m;
  m_lastUpdate := m_lastUpdate m; m_err := m_err m; m_errorTime := m_errorTime m; m_successMsg :=
  m_successMsg m; m_successTime := m_successTime m; m_detailScroll := m_detailScroll m;
  m_listScroll := m_listScroll m; m_logEntries := m_logEntries m; m_serverLogsScroll :=
  m_serverLogsScroll m; m_serverLogsSelectedIdx := m_serverLogsSelectedIdx m; m_droppedLogs :=
  m_droppedLogs m; m_cancelled := m_cancelled m |}.
Definition set_m_saveState (v : option saveState) (m : TUIModel) : TUIModel := {| m_clients :=
  m_clients m; m_selectedIdx := m_selectedIdx m; m_viewMode := m_viewMode m; m_selectedID :=
  m_selectedID m; m_clientDetail := m_clientDetail m; m_confirmState := m_confirmState m;
  m_probeState := m_probeState m; m_saveState := v; m_width := m_width m; m_height := m_height m;
  m_lastUpdate := m_lastUpdate m; m_err := m_err m; m_errorTime := m_errorTime m; m_successMsg :=
  m_successMsg m; m_successTime := m_successTime m; m_detailScroll := m_detailScroll m;
  m_listScroll := m_listScroll m; m_logEntries := m_logEntries m; m_serverLogsScroll :=
  m_serverLogsScroll m; m_serverLogsSelectedIdx := m_serverLogsSelectedIdx m; m_droppedLogs :=
  m_droppedLogs m; m_cancelled := m_cancelled m |}.
Definition set_m_width (v : Z) (m : TUIModel) : TUIModel := {| m_clients := m_clients m;
  m_selectedIdx := m_selectedIdx m; m_viewMode := m_viewMode m; m_selectedID := m_selectedID m;
  m_clientDetail := m_clientDetail m; m_confirmState := m_confirmState m; m_probeState :=
  m_probeState m; m_saveState := m_saveState m; m_width := v; m_height := m_height m; m_lastUpdate
  := m_lastUpdate m; m_err := m_err m; m_errorTime := m_errorTime m; m_successMsg := m_successMsg
  m; m_successTime := m_successTime m; m_detailScroll := m_detailScroll m; m_listScroll :=
  m_listScroll m; m_logEntries := m_logEntries m; m_serverLogsScroll := m_serverLogsScroll m;
  m_serverLogsSelectedIdx := m_serverLogsSelectedIdx m; m_droppedLogs := m_droppedLogs m;
  m_cancelled := m_cancelled m |}.
Definition set_m_height (v : Z) (m : TUIModel) : TUIModel := {| m_clients := m_clients m;
  m_selectedIdx := m_selectedIdx m; m_viewMode := m_viewMode m; m_selectedID := m_selectedID m;
  m_clientDetail := m_clientDetail m; m_confirmState := m_confirmState m; m_probeState :=
  m_probeState m; m_saveState := m_saveState m; m_width := m_width m; m_height := v; m_lastUpdate
  := m_lastUpdate m; m_err := m_err m; m_errorTime := m_errorTime m; m_successMsg := m_successMsg
  m; m_successTime := m_successTime m; m_detailScroll := m_detailScroll m; m_listScroll :=
  m_listScroll m; m_logEntries := m_logEntries m; m_serverLogsScroll := m_serverLogsScroll m;
  m_serverLogsSelectedIdx := m_serverLogsSelectedIdx m; m_droppedLogs := m_droppedLogs m;
  m_cancelled := m_cancelled m |}.
Definition set_m_lastUpdate (v : Time) (m : TUIModel) : TUIModel := {| m_clients := m_clients m;
  m_selectedIdx := m_selectedIdx m; m_viewMode := m_viewMode m; m_selectedID := m_selectedID m;
  m_clientDetail := m_clientDetail m; m_confirmState := m_confirmState m; m_probeState :=
  m_probeState m; m_saveState := m_saveState m; m_width := m_width m; m_height := m_height m;
  m_lastUpdate := v; m_err := m_err m; m_errorTime := m_errorTime m; m_successMsg := m_successMsg
  m; m_successTime := m_successTime m; m_detailScroll := m_detailScroll m; m_listScroll :=
  m_listScroll m; m_logEntries := m_logEntries m; m_serverLogsScroll := m_serverLogsScroll m;
  m_serverLogsSelectedIdx := m_serverLogsSelectedIdx m; m_droppedLogs := m_droppedLogs m;
  m_cancelled := m_cancelled m |}.
Definition set_m_err (v : option string) (m : TUIModel) : TUIModel := {| m_clients := m_clients m;
  m_selectedIdx := m_selectedIdx m; m_viewMode := m_viewMode m; m_selectedID := m_selectedID m;
  m_clientDetail := m_clientDetail m; m_confirmState := m_confirmState m; m_probeState :=
  m_probeState m; m_saveState := m_saveState m; m_width := m_width m; m_height := m_height m;
  m_lastUpdate := m_lastUpdate m; m_err := v; m_errorTime := m_errorTime m; m_successMsg :=
  m_successMsg m; m_successTime := m_successTime m; m_detailScroll := m_detailScroll m;
  m_listScroll := m_listScroll m; m_logEntries := m_logEntries m; m_serverLogsScroll :=
  m_serverLogsScroll m; m_serverLogsSelectedIdx := m_serverLogsSelectedIdx m; m_droppedLogs :=
  m_droppedLogs m; m_cancelled := m_cancelled m |}.
Definition set_m_errorTime (v : Time) (m : TUIModel) : TUIModel := {| m_clients := m_clients m;
  m_selectedIdx := m_selectedIdx m; m_viewMode := m_viewMode m; m_selectedID := m_selectedID m;
  m_clientDetail := m_clientDetail m; m_confirmState := m_confirmState m; m_probeState :=
  m_probeState m; m_saveState := m_saveState m; m_width := m_width m; m_height := m_height m;
  m_lastUpdate := m_lastUpdate m; m_err := m_err m; m_errorTime := v; m_successMsg := m_successMsg
  m; m_successTime := m_successTime m; m_detailScroll := m_detailScroll m; m_listScroll :=
  m_listScroll m; m_logEntries := m_logEntries m; m_serverLogsScroll := m_serverLogsScroll m;
  m_serverLogsSelectedIdx := m_serverLogsSelectedIdx m; m_droppedLogs := m_droppedLogs m;
  m_cancelled := m_cancelled m |}.
Definition set_m_successMsg (v : string) (m : TUIModel) : TUIModel := {| m_clients := m_clients m;
  m_selectedIdx := m_selectedIdx m; m_viewMode := m_viewMode m; m_selectedID := m_selectedID m;
  m_clientDetail := m_clientDetail m; m_confirmState := m_confirmState m; m_probeState :=
  m_probeState m; m_saveState := m_saveState m; m_width := m_width m; m_height := m_height m;
  m_lastUpdate := m_lastUpdate m; m_err := m_err m; m_errorTime := m_errorTime m; m_successMsg :=
  v; m_successTime := m_successTime m; m_detailScroll := m_detailScroll m; m_listScroll :=
  m_listScroll m; m_logEntries := m_logEntries m; m_serverLogsScroll := m_serverLogsScroll m;
  m_serverLogsSelectedIdx := m_serverLogsSelectedIdx m; m_droppedLogs := m_droppedLogs m;
  m_cancelled := m_cancelled m |}.
Definition set_m_successTime (v : Time) (m : TUIModel) : TUIModel := {| m_clients := m_clients m;
  m_selectedIdx := m_selectedIdx m; m_viewMode := m_viewMode m; m_selectedID := m_selectedID m;
  m_clientDetail := m_clientDetail m; m_confirmState := m_confirmState m; m_probeState :=
  m_probeState m; m_saveState := m_saveState m; m_width := m_width m; m_height := m_height m;
  m_lastUpdate := m_lastUpdate m; m_err := m_err m; m_errorTime := m_errorTime m; m_successMsg :=
  m_successMsg m; m_successTime := v; m_detailScroll := m_detailScroll m; m_listScroll :=
  m_listScroll m; m_logEntries := m_logEntries m; m_serverLogsScroll := m_serverLogsScroll m;
  m_serverLogsSelectedIdx := m_serverLogsSelectedIdx m; m_droppedLogs := m_droppedLogs m;
  m_cancelled := m_cancelled m |}.
Definition set_m_detailScroll (v : Z) (m : TUIModel) : TUIModel := {| m_clients := m_clients m;
  m_selectedIdx := m_selectedIdx m; m_viewMode := m_viewMode m; m_selectedID := m_selectedID m;
  m_clientDetail := m_clientDetail m; m_confirmState := m_confirmState m; m_probeState :=
  m_probeState m; m_saveState := m_saveState m; m_width := m_width m; m_height := m_height m;
  m_lastUpdate := m_lastUpdate m; m_err := m_err m; m_errorTime := m_errorTime m; m_successMsg :=
  m_successMsg m; m_successTime := m_successTime m; m_detailScroll := v; m_listScroll :=
  m_listScroll m; m_logEntries := m_logEntries m; m_serverLogsScroll := m_serverLogsScroll m;
  m_serverLogsSelectedIdx := m_serverLogsSelectedIdx m; m_droppedLogs := m_droppedLogs m;
  m_cancelled := m_cancelled m |}.
Definition set_m_listScroll (v : Z) (m : TUIModel) : TUIModel := {| m_clients := m_clients m;
  m_selectedIdx := m_selectedIdx m; m_viewMode := m_viewMode m; m_selectedID := m_selectedID m;
  m_clientDetail := m_clientDetail m; m_confirmState := m_confirmState m; m_probeState :=
  m_probeState m; m_saveState := m_saveState m; m_width := m_width m; m_height := m_height m;
  m_lastUpdate := m_lastUpdate m; m_err := m_err m; m_errorTime := m_errorTime m; m_successMsg :=
  m_successMsg m; m_successTime := m_successTime m; m_detailScroll := m_detailScroll m;
  m_listScroll := v; m_logEntries := m_logEntries m; m_serverLogsScroll := m_serverLogsScroll m;
  m_serverLogsSelectedIdx := m_serverLogsSelectedIdx m; m_droppedLogs := m_droppedLogs m;
  m_cancelled := m_cancelled m |}.
Definition set_m_logEntries (v : list LogEntry) (m : TUIModel) : TUIModel := {| m_clients :=
  m_clients m; m_selectedIdx := m_selectedIdx m; m_viewMode := m_viewMode m; m_selectedID :=
  m_selectedID m; m_clientDetail := m_clientDetail m; m_confirmState := m_confirmState m;
  m_probeState := m_probeState m; m_saveState := m_saveState m; m_width := m_width m; m_height :=
  m_height m; m_lastUpdate := m_lastUpdate m; m_err := m_err m; m_errorTime := m_errorTime m;
  m_successMsg := m_successMsg m; m_successTime := m_successTime m; m_detailScroll :=
  m_detailScroll m; m_listScroll := m_listScroll m; m_logEntries := v; m_serverLogsScroll :=
  m_serverLogsScroll m; m_serverLogsSelectedIdx := m_serverLogsSelectedIdx m; m_droppedLogs :=
  m_droppedLogs m; m_cancelled := m_cancelled m |}.
Definition set_m_serverLogsScroll (v : Z) (m : TUIModel) : TUIModel := {| m_clients := m_clients
  m; m_selectedIdx := m_selectedIdx m; m_viewMode := m_viewMode m; m_selectedID := m_selectedID m;
  m_clientDetail := m_clientDetail m; m_confirmState := m_confirmState m; m_probeState :=
  m_probeState m; m_saveState := m_saveState m; m_width := m_width m; m_height := m_height m;
  m_lastUpdate := m_lastUpdate m; m_err := m_err m; m_errorTime := m_errorTime m; m_successMsg :=
  m_successMsg m; m_successTime := m_successTime m; m_detailScroll := m_detailScroll m;
  m_listScroll := m_listScroll m; m_logEntries := m_logEntries m; m_serverLogsScroll := v;
  m_serverLogsSelectedIdx := m_serverLogsSelectedIdx m; m_droppedLogs := m_droppedLogs m;
  m_cancelled := m_cancelled m |}.
Definition set_m_serverLogsSelectedIdx (v : Z) (m : TUIModel) : TUIModel := {| m_clients :=
  m_clients m; m_selectedIdx := m_selectedIdx m; m_viewMode := m_viewMode m; m_selectedID :=
  m_selectedID m; m_clientDetail := m_clientDetail m; m_confirmState := m_confirmState m;
  m_probeState := m_probeState m; m_saveState := m_saveState m; m_width := m_width m; m_height :=
  m_height m; m_lastUpdate := m_lastUpdate m; m_err := m_err m; m_errorTime := m_errorTime m;
  m_successMsg := m_successMsg m; m_successTime := m_successTime m; m_detailScroll :=
  m_detailScroll m; m_listScroll := m_listScroll m; m_logEntries := m_logEntries m;
  m_serverLogsScroll := m_serverLogsScroll m; m_serverLogsSelectedIdx := v; m_droppedLogs :=
  m_droppedLogs m; m_cancelled := m_cancelled m |}.
Definition set_m_droppedLogs (v : Z) (m : TUIModel) : TUIModel := {| m_clients := m_clients m;
  m_selectedIdx := m_selectedIdx m; m_viewMode := m_viewMode m; m_selectedID := m_selectedID m;
  m_clientDetail := m_clientDetail m; m_confirmState := m_confirmState m; m_probeState :=
  m_probeState m; m_saveState := m_saveState m; m_width := m_width m; m_height := m_height m;
  m_lastUpdate := m_lastUpdate m; m_err := m_err m; m_errorTime := m_errorTime m; m_successMsg :=
  m_successMsg m; m_successTime := m_successTime m; m_detailScroll := m_detailScroll m;
  m_listScroll := m_listScroll m; m_logEntries := m_logEntries m; m_serverLogsScroll :=
  m_serverLogsScroll m; m_serverLogsSelectedIdx := m_serverLogsSelectedIdx m; m_droppedLogs := v;
  m_cancelled := m_cancelled m |}.
Definition set_m_cancelled (v : list nat) (m : TUIModel) : TUIModel := {| m_clients := m_clients
  m; m_selectedIdx := m_selectedIdx m; m_viewMode := m_viewMode m; m_selectedID := m_selectedID m;
  m_clientDetail := m_clientDetail m; m_confirmState := m_confirmState m; m_probeState :=
  m_probeState m; m_saveState := m_saveState m; m_width := m_width m; m_height := m_height m;
  m_lastUpdate := m_lastUpdate m; m_err := m_err m; m_errorTime := m_errorTime m; m_successMsg :=
  m_successMsg m; m_successTime := m_successTime m; m_detailScroll := m_detailScroll m;
  m_listScroll := m_listScroll m; m_logEntries := m_logEntries m; m_serverLogsScroll :=
  m_serverLogsScroll m; m_serverLogsSelectedIdx := m_serverLogsSelectedIdx m; m_droppedLogs :=
  m_droppedLogs m; m_cancelled := v |}.

Definition NewModel : TUIModel := {|
  m_clients := []; m_selectedIdx := 0; m_viewMode := ViewList; m_selectedID := EmptyString;
  m_clientDetail := None; m_confirmState := None; m_probeState := None; m_saveState := None;
  m_width := 0; m_height := 0; m_lastUpdate := zeroTime; m_err := None; m_errorTime := zeroTime;
  m_successMsg := EmptyString; m_successTime := zeroTime; m_detailScroll := 0; m_listScroll := 0;
  m_logEntries := []; m_serverLogsScroll := 0; m_serverLogsSelectedIdx := 0; m_droppedLogs := 0;
  m_cancelled := [] |}.

Inductive Msg : Type :=
| WindowSizeMsg (Width Height : Z)
| KeyMsg (k : key)
| tickMsg
| clientsMsg (l : list ClientInfo)
| clientDetailMsg (i : FullClientInfo)
| errorMsg (e : string)
| successMsg (s : string)
| probeLogMsg (e : probeLogEntry)
| probeEndMsg
| logMsg (e : LogEntry)
| probeStreamStartedMsg (clientID : string) (ctx : nat) (cancelFunc : option nat)
| reconnectProbeMsg (clientID : string) (logs : list probeLogEntry) (reconnectCount : Z)
| probeStreamStartedMsgWithState (clientID : string) (ctx : nat) (cancelFunc : option nat)
    (preservedLogs : list probeLogEntry) (reconnectCount : Z) (disconnected : bool).

(** Commands run outside of [Update] and come back as a message. *)
Inductive Cmd : Type :=
| fetchClients
| tick
| fetchClientDetail (clientID : string)
| shutdownClient (clientID : string)
| startProbeStreamWithState (clientID : string) (preservedLogs : list probeLogEntry)
    (reconnectCount : Z) (disconnected : bool)
| listenForProbeLog
| listenForLogs
| reconnectLater (clientID : string) (logs : list probeLogEntry) (reconnectCount : Z)
| saveProbeLogsToFile
| Quit.

Definition Init : list Cmd := [fetchClients; tick; listenForLogs].

Definition len {A} (l : list A) : Z := Z.of_nat (length l).

Context `{Terminal any}.

(** ** Lines of the log pane *)

Definition spaces (n : nat) : string := foldr String EmptyString (repeat (Ascii.ascii_of_nat 32) n).

(** [%-5s]: the width counts characters. *)
Definition padRight (n : nat) (s : string) : string := s +:+ spaces (n - length (runes s)).

Fixpoint Join (ls : list string) : string :=
  match ls with
  | [] => EmptyString
  | [l] => l
  | l :: ls' => l +:+ newline +:+ Join ls'
  end.

Definition levelStyleOf (level : string) : style :=
  if String.eqb level "ERROR" then LevelError
  else if String.eqb level "WARN" then LevelWarn
  else if String.eqb level "INFO" then LevelInfo
  else LevelDefault.

Definition whenSelected (isSelected : bool) (s : string) : string :=
  if isSelected then Render Selected s else s.

(** The first line: time, level in its color, message, attributes. [mainLen] is the length
    of all but the attributes. *)
Definition styleFirst (levelStyle attrStyle : style) (attrStr : string) (mainLen : Z)
  (isSelected : bool) (line : string) : option string :=
  if 14 <? Z.of_nat (String.length line) then
    timestampPart ← slice 0 9 line;
    levelPart ← slice 9 14 line;
    rest ← sliceFrom 14 line;
    let attrStart := mainLen - 14 in
    restStyled ←
      (if negb (String.eqb attrStr "") && (attrStart <? Z.of_nat (String.length rest)) then
         messagePart ← slice 0 attrStart rest;
         attrPart ← sliceFrom attrStart rest;
         Some (whenSelected isSelected messagePart +:+ Render attrStyle attrPart)
       else Some (whenSelected isSelected rest));
    Some (whenSelected isSelected timestampPart +:+ Render levelStyle levelPart +:+ restStyled)
  else Some (whenSelected isSelected line).

Definition wrapWidth (m : TUIModel) : Z := if m_width m - 2 <=? 0 then 80 else m_width m - 2.

Definition formatLogEntry (m : TUIModel) (entry : LogEntry) (isSelected : bool) : option string :=
  let mainText := TimeOfDay (le_Time entry) +:+ " " +:+ padRight 5 (le_Level entry) +:+ " "
                  +:+ le_Message entry in
  let attrStr := le_AttrJSON entry in
  let fullText := if String.eqb attrStr "" then mainText else mainText +:+ " " +:+ attrStr in
  let inherit (s : style) := if isSelected then Inherit s Selected else s in
  let levelStyle := inherit (levelStyleOf (le_Level entry)) in
  let attrStyle := inherit AttrGrey in
  match wrapText RuneWidth (wrapWidth m) fullText with
  | [] => Some EmptyString
  | l :: ls =>
      styled ← styleFirst levelStyle attrStyle attrStr (Z.of_nat (String.length mainText)) isSelected l;
      Some (Join (styled :: map (Render attrStyle) ls))
  end.

Definition formatProbeLogLine (m : TUIModel) (log : probeLogEntry) : option string :=
  let mainText := TimeOfDayMilli (ProbeLogEntry_Timestamp log) +:+ " " +:+ ProbeLogEntry_Message log in
  let attrs := default ∅ (ProbeLogEntry_Attrs log) in
  let attrStr := if decide (attrs = ∅) then EmptyString else default EmptyString (MarshalMap attrs) in
  if String.eqb attrStr "" then Some (Join (wrapText RuneWidth (wrapWidth m) mainText))
  else
    let start := Z.of_nat (String.length mainText) + 1 in
    match wrapText RuneWidth (wrapWidth m) (mainText +:+ " " +:+ attrStr) with
    | [] => Some EmptyString
    | l :: ls =>
        styled ← (if start <? Z.of_nat (String.length l) then
                    main ← slice 0 start l;
                    attr ← sliceFrom start l;
                    Some (main +:+ Render AttrGrey attr)
                  else Some l);
        Some (Join (styled :: map (Render AttrGrey) ls))
    end.

Definition estimateLogPaneLines (m : TUIModel) : option Z :=
  match m_logEntries m with
  | [] => Some 3
  | entries =>
      texts ← mapM (fun e => formatLogEntry m e false) (lastn 3 entries);
      Some (foldl (fun n t => n + (count_lf t + 1)) 1 texts + 4)
  end.

Definition getVisibleRows (m : TUIModel) : option Z :=
  logPaneLines ← estimateLogPaneLines m;
  Some (Z.max (m_height m - 3 - 2 - logPaneLines - 4) 5).

Definition getProbeVisibleRows (m : TUIModel) : Z := Z.max (m_height m - 8) 5.

Definition getServerLogsVisibleRows (m : TUIModel) : Z := m_height m - 6.

(** ** Scrolling *)

Definition adjustScrollForSelection (m : TUIModel) : option TUIModel :=
  visibleRows ← getVisibleRows m;
  let total := len (m_clients m) in
  if total =? 0 then Some (set_m_listScroll 0 (set_m_selectedIdx 0 m))
  else
    let m := set_m_selectedIdx (clamp (m_selectedIdx m) 0 (total - 1)) m in
    Some (set_m_listScroll
      (clampScrollToContain (m_listScroll m) (m_selectedIdx m) visibleRows total) m).

Definition adjustServerLogsScroll (m : TUIModel) : TUIModel :=
  let total := len (m_logEntries m) in
  if total =? 0 then set_m_serverLogsScroll 0 (set_m_serverLogsSelectedIdx 0 m)
  else
    let m := set_m_serverLogsSelectedIdx (clamp (m_serverLogsSelectedIdx m) 0 (total - 1)) m in
    set_m_serverLogsScroll (clampScrollToContain (m_serverLogsScroll m) (m_serverLogsSelectedIdx m)
      (getServerLogsVisibleRows m) total) m.

(** The index of an entry of a list of [total], as [clamp(i, 0, clamp(total-1, -1, total-1))]. *)
Definition clampIdx (i total : Z) : Z := clamp i 0 (clamp (total - 1) (-1) (total - 1)).

(** [m.probeState.x = ...] while it is not nil. *)
Definition on_probe (f : probeState -> probeState) (m : TUIModel) : TUIModel :=
  set_m_probeState (f <$> m_probeState m) m.

Definition updateAutoScroll (m : TUIModel) : TUIModel :=
  on_probe (fun ps =>
    set_ps_autoScroll (Z.max (len (ps_logs ps) - getProbeVisibleRows m) 0 <=? ps_scroll ps) ps) m.

(** [stopProbeStream]: a stream without a cancel function stays. *)
Definition stopProbeStream (m : TUIModel) : TUIModel :=
  match m_probeState m with
  | Some ps =>
      match ps_cancelFunc ps with
      | Some c => set_m_probeState None (set_m_cancelled (c :: m_cancelled m) m)
      | None => m
      end
  | None => m
  end.

(** The comparison by which clients are sorted. *)
Definition clientLess (ci cj : ClientInfo) : bool :=
  let active c := String.eqb (Info_Status _ c) "active" in
  let closed c := String.eqb (Info_Status _ c) "disconnected" in
  if active ci && negb (active cj) then true
  else if negb (active ci) && active cj then false
  else if active ci && active cj then Before (Info_ConnectedAt _ ci) (Info_ConnectedAt _ cj)
  else if closed ci && closed cj then After (Info_DisconnectedAt _ ci) (Info_DisconnectedAt _ cj)
  else false.

Fixpoint indexOf (id : string) (l : list ClientInfo) : option Z :=
  match l with
  | [] => None
  | c :: l' => if String.eqb (Info_ID _ c) id then Some 0 else Z.succ <$> indexOf id l'
  end.

(** [l[i]]. *)
Definition at_ {A} (l : list A) (i : Z) : option A :=
  if i <? 0 then None else l !! Z.to_nat i.

(** ** Keys

    A handler gives the new model and the commands, or [None] when an index is out of
    range. *)
Definition step : Type := option (TUIModel * list Cmd).
Definition stay (m : TUIModel) : step := Some (m, []).
Definition staying (m : option TUIModel) : step := m ← m; stay m.

Definition hit (k : key) (names : list string) : bool := bool_decide (key_String k ∈ names).

Definition shutdownQuestion (id user addr : string) : option string :=
  short ← formatID id;
  Some ("Shutdown client " +:+ short +:+ " (" +:+ user +:+ "@" +:+ addr +:+ ")?").

Definition ask (id user addr : string) (m : TUIModel) : option TUIModel :=
  message ← shutdownQuestion id user addr;
  Some (set_m_viewMode ViewConfirm
    (set_m_confirmState (Some {| cs_clientID := id; cs_message := message |}) m)).

Definition handleListKeys (now : Time) (k : key) (m : TUIModel) : step :=
  let n := len (m_clients m) in
  if hit k ["g"] then stay (set_m_listScroll 0 (set_m_selectedIdx 0 m))
  else if hit k ["K"] then
    if (0 <? n) && (m_selectedIdx m <? n) then
      client ← at_ (m_clients m) (m_selectedIdx m);
      if String.eqb (Info_ID _ client) "" then
        stay (set_m_errorTime now (set_m_err (Some ("selected client has empty ID (index: "
          +:+ pretty (m_selectedIdx m) +:+ ", total: " +:+ pretty n +:+ ")")) m))
      else staying (ask (Info_ID _ client) (Info_User _ client) (Info_ClientAddress _ client) m)
    else stay m
  else if hit k ["up"; "k"] then
    if 0 <? m_selectedIdx m
    then staying (adjustScrollForSelection (set_m_selectedIdx (m_selectedIdx m - 1) m)) else stay m
  else if hit k ["down"; "j"] then
    if m_selectedIdx m <? n - 1
    then staying (adjustScrollForSelection (set_m_selectedIdx (m_selectedIdx m + 1) m)) else stay m
  else if hit k ["pgup"] then
    pageSize ← getVisibleRows m;
    staying (adjustScrollForSelection (set_m_selectedIdx
      (if pageSize <? m_selectedIdx m then m_selectedIdx m - pageSize else 0) m))
  else if hit k ["pgdn"] then
    pageSize ← getVisibleRows m;
    staying (adjustScrollForSelection (set_m_selectedIdx
      (if m_selectedIdx m + pageSize <? n then m_selectedIdx m + pageSize else n - 1) m))
  else if hit k ["home"] then stay (set_m_listScroll 0 (set_m_selectedIdx 0 m))
  else if hit k ["end"] then staying (adjustScrollForSelection (set_m_selectedIdx (n - 1) m))
  else if hit k ["G"] then
    if 0 <? n then staying (adjustScrollForSelection (set_m_selectedIdx (n - 1) m)) else stay m
  else if hit k ["enter"] then
    if 0 <? n then
      client ← at_ (m_clients m) (m_selectedIdx m);
      Some (set_m_selectedID (Info_ID _ client) m, [fetchClientDetail (Info_ID _ client)])
    else stay m
  else if hit k ["r"] then Some (m, [fetchClients])
  else if hit k ["p"] then
    if 0 <? n then
      client ← at_ (m_clients m) (m_selectedIdx m);
      Some (set_m_viewMode ViewProbe m,
        [startProbeStreamWithState (Info_ID _ client) [] 0
           (String.eqb (Info_Status _ client) "disconnected")])
    else stay m
  else if hit k ["l"] then
    let m := set_m_viewMode ViewServerLogs m in
    let total := len (m_logEntries m) in
    if 0 <? total then
      let visible := Z.max (getServerLogsVisibleRows m) 1 in
      stay (set_m_serverLogsScroll (Z.max (total - visible) 0) (set_m_serverLogsSelectedIdx (total - 1) m))
    else stay (set_m_serverLogsScroll 0 (set_m_serverLogsSelectedIdx 0 m))
  else stay m.

Definition handleDetailKeys (k : key) (m : TUIModel) : step :=
  if hit k ["ctrl+c"; "q"; "esc"] then
    stay (set_m_detailScroll 0 (set_m_clientDetail None (set_m_viewMode ViewList m)))
  else if hit k ["K"] then
    match m_clientDetail m with
    | Some c => staying (ask (Info_ID _ c) (Info_User _ c) (Info_ClientAddress _ c) m)
    | None => stay m
    end
  else if hit k ["up"; "k"] then
    if 0 <? m_detailScroll m then stay (set_m_detailScroll (m_detailScroll m - 1) m) else stay m
  else if hit k ["down"; "j"] then stay (set_m_detailScroll (m_detailScroll m + 1) m)
  else if hit k ["home"] then stay (set_m_detailScroll 0 m)
  else if hit k ["end"] then stay (set_m_detailScroll 1000 m)
  else if hit k ["p"] then
    match m_clientDetail m with
    | Some c => Some (set_m_viewMode ViewProbe m,
        [startProbeStreamWithState (Info_ID _ c) [] 0 (String.eqb (Info_Status _ c) "disconnected")])
    | None => stay m
    end
  else stay m.

Definition handleConfirmKeys (k : key) (m : TUIModel) : step :=
  if hit k ["ctrl+c"; "q"; "esc"; "n"] then
    stay (set_m_confirmState None (set_m_viewMode ViewList m))
  else if hit k ["y"; "enter"] then
    match m_confirmState m with
    | Some cs => Some (set_m_confirmState None (set_m_viewMode ViewList m), [shutdownClient (cs_clientID cs)])
    | None => stay m
    end
  else stay m.

(** The selected entry and the scroll position of the probe view. *)
Definition place (sel scroll : Z) (ps : probeState) : probeState :=
  set_ps_scroll scroll (set_ps_selectedIdx sel ps).

(** The last entry, on the last page. *)
Definition toBottom (m : TUIModel) (ps : probeState) : probeState :=
  place (len (ps_logs ps) - 1) (Z.max (len (ps_logs ps) - getProbeVisibleRows m) 0) ps.

Definition move (m : TUIModel) (sel : Z) (ps : probeState) : probeState :=
  place sel (clampScrollToContain (ps_scroll ps) sel (getProbeVisibleRows m) (len (ps_logs ps))) ps.

(** A change of a probe state that has logs. *)
Definition with_logs (m : TUIModel) (f : probeState -> TUIModel) : step :=
  match m_probeState m with
  | Some ps => if 0 <? len (ps_logs ps) then stay (f ps) else stay m
  | None => stay m
  end.

Definition setProbe (ps : probeState) (m : TUIModel) : TUIModel := set_m_probeState (Some ps) m.

Definition handleProbeKeys (now : Time) (k : key) (m : TUIModel) : step :=
  let visible := getProbeVisibleRows m in
  if hit k ["ctrl+c"; "q"; "esc"] then stay (set_m_viewMode ViewList (stopProbeStream m))
  else if hit k ["g"; "home"] then stay (on_probe (fun ps => set_ps_autoScroll false (place 0 0 ps)) m)
  else if hit k [" "] then
    match m_probeState m with
    | Some ps =>
        let on := negb (ps_autoScroll ps) in
        let ps := set_ps_autoScroll on ps in
        let ps := if on && (0 <? len (ps_logs ps)) then toBottom m ps else ps in
        stay (set_m_successTime now
          (set_m_successMsg (if on then "Auto-scroll: ON" else "Auto-scroll: OFF")%string (setProbe ps m)))
    | None => stay m
    end
  else if hit k ["s"] then
    match m_probeState m with
    | Some ps =>
        let path := ps_clientID ps +:+ "-" +:+ FileStamp now +:+ ".log" in
        stay (set_m_viewMode ViewSaveConfirm (set_m_saveState (Some {|
          ss_clientID := ps_clientID ps; ss_filePath := path; ss_editing := false;
          ss_cursorPos := Z.of_nat (String.length path); ss_previousView := ViewProbe;
          ss_overwriteConfirm := false |}) m))
    | None => stay m
    end
  else if hit k ["up"; "k"] then
    with_logs m (fun ps =>
      let sel := if 0 <? ps_selectedIdx ps then ps_selectedIdx ps - 1 else ps_selectedIdx ps in
      setProbe (set_ps_autoScroll false (move m sel ps)) m)
  else if hit k ["down"; "j"] then
    with_logs m (fun ps =>
      let sel := if ps_selectedIdx ps <? len (ps_logs ps) - 1 then ps_selectedIdx ps + 1
                 else ps_selectedIdx ps in
      updateAutoScroll (setProbe (move m sel ps) m))
  else if hit k ["end"; "G"] then
    with_logs m (fun ps => setProbe (set_ps_autoScroll true (toBottom m ps)) m)
  else if hit k ["pgup"] then
    with_logs m (fun ps =>
      let sel := if visible <? ps_selectedIdx ps then ps_selectedIdx ps - visible else 0 in
      setProbe (set_ps_autoScroll false (move m sel ps)) m)
  else if hit k ["pgdn"] then
    with_logs m (fun ps =>
      let n := len (ps_logs ps) in
      let sel := if ps_selectedIdx ps + visible <? n - 1 then ps_selectedIdx ps + visible else n - 1 in
      updateAutoScroll (setProbe (move m sel ps) m))
  else stay m.

Definition handleServerLogsKeys (now : Time) (k : key) (m : TUIModel) : step :=
  let n := len (m_logEntries m) in
  let visible := getServerLogsVisibleRows m in
  let goto sel := stay (adjustServerLogsScroll (set_m_serverLogsSelectedIdx sel m)) in
  let sel := m_serverLogsSelectedIdx m in
  if hit k ["ctrl+c"; "q"; "esc"] then stay (set_m_serverLogsScroll 0 (set_m_viewMode ViewList m))
  else if hit k ["g"; "home"] then stay (set_m_serverLogsScroll 0 (set_m_serverLogsSelectedIdx 0 m))
  else if hit k ["up"; "k"] then if (0 <? n) && (0 <? sel) then goto (sel - 1) else stay m
  else if hit k ["down"; "j"] then if (0 <? n) && (sel <? n - 1) then goto (sel + 1) else stay m
  else if hit k ["pgup"] then goto (if visible <? sel then sel - visible else 0)
  else if hit k ["pgdn"] then goto (if sel + visible <? n - 1 then sel + visible else n - 1)
  else if hit k ["end"; "G"] then if 0 <? n then goto (n - 1) else stay m
  else if hit k ["R"] then
    stay (set_m_successTime now (set_m_successMsg "Dropped logs reset"%string (set_m_droppedLogs 0 m)))
  else stay m.

(** [s[:i]] and [s[i:]]. *)
Definition cut (s : string) (i : Z) : option (string * string) :=
  before ← slice 0 i s; after ← sliceFrom i s; Some (before, after).

(** The loop over the characters that were typed. *)
Fixpoint typeRunes (rs : list Z) (path : string) (cursor : Z) : option (string * Z) :=
  match rs with
  | [] => Some (path, cursor)
  | r :: rs' =>
      ba ← cut path cursor;
      typeRunes rs' (ba.1 +:+ encodeRune r +:+ ba.2) (cursor + Z.of_nat (String.length (encodeRune r)))
  end.

Definition editPath (k : key) (ss : saveState) : option saveState :=
  let path := ss_filePath ss in
  let c := ss_cursorPos ss in
  match key_Type k with
  | KeyEsc | KeyEnter => Some (set_ss_editing false ss)
  | KeyBackspace =>
      if 0 <? c then
        before ← cut path (c - 1); after ← cut path c;
        Some (set_ss_cursorPos (c - 1) (set_ss_filePath (before.1 +:+ after.2) ss))
      else Some ss
  | KeyDelete =>
      if c <? Z.of_nat (String.length path) then
        before ← cut path c; after ← cut path (c + 1);
        Some (set_ss_filePath (before.1 +:+ after.2) ss)
      else Some ss
  | KeyLeft => Some (if 0 <? c then set_ss_cursorPos (c - 1) ss else ss)
  | KeyRight => Some (if c <? Z.of_nat (String.length path) then set_ss_cursorPos (c + 1) ss else ss)
  | KeyHome => Some (set_ss_cursorPos 0 ss)
  | KeyEnd => Some (set_ss_cursorPos (Z.of_nat (String.length path)) ss)
  | KeyRunes =>
      pc ← typeRunes (key_Runes k) path c;
      Some (set_ss_filePath pc.1 (set_ss_cursorPos pc.2 ss))
  | KeyOther => Some ss
  end.

(** [exists_ path]: what [os.Stat] finds. *)
Definition handleSaveConfirmKeys (exists_ : string -> bool) (k : key) (m : TUIModel) : step :=
  match m_saveState m with
  | None => stay (set_m_viewMode ViewProbe m)
  | Some ss =>
      if ss_editing ss then
        ss' ← editPath k ss; stay (set_m_saveState (Some ss') m)
      else if hit k ["ctrl+c"; "esc"; "n"; "q"] then
        stay (set_m_saveState None (set_m_viewMode (ss_previousView ss) m))
      else if hit k ["e"] then
        stay (set_m_saveState (Some (set_ss_overwriteConfirm false (set_ss_editing true ss))) m)
      else if hit k ["enter"] then
        if negb (ss_overwriteConfirm ss) && exists_ (ss_filePath ss) then
          stay (set_m_saveState (Some (set_ss_overwriteConfirm true ss)) m)
        else Some (m, [saveProbeLogsToFile])
      else stay m
  end.

Definition handleKeyPress (now : Time) (exists_ : string -> bool) (k : key) (m : TUIModel) : step :=
  if hit k ["ctrl+c"] || (hit k ["q"] && bool_decide (m_viewMode m = ViewList)) then Some (m, [Quit])
  else
    match m_viewMode m with
    | ViewList => handleListKeys now k m
    | ViewDetail => handleDetailKeys k m
    | ViewConfirm => handleConfirmKeys k m
    | ViewProbe => handleProbeKeys now k m
    | ViewServerLogs => handleServerLogsKeys now k m
    | ViewSaveConfirm => handleSaveConfirmKeys exists_ k m
    end.

(** ** Messages *)

Context `{StableSort}.

(** The index that is selected once the clients are [l]: the client selected before keeps
    the selection when it is still there. *)
Definition reselect (prevID : string) (sel : Z) (l : list ClientInfo) : Z :=
  let last := if (0 <? len l) && (len l <=? sel) then len l - 1 else sel in
  if String.eqb prevID "" then last else default last (indexOf prevID l).

Definition onClients (now : Time) (l : list ClientInfo) (m : TUIModel) : option TUIModel :=
  let prevID := match at_ (m_clients m) (m_selectedIdx m) with
                | Some c => Info_ID _ c | None => EmptyString end in
  let l := sliceStable clientLess l in
  adjustScrollForSelection
    (set_m_selectedIdx (reselect prevID (m_selectedIdx m) l) (set_m_lastUpdate now (set_m_clients l m))).

Definition onWindowSize (w h : Z) (m : TUIModel) : option TUIModel :=
  let m := set_m_height h (set_m_width w m) in
  match m_viewMode m with
  | ViewList => adjustScrollForSelection m
  | ViewServerLogs =>
      let total := len (m_logEntries m) in
      let sel := clampIdx (m_serverLogsSelectedIdx m) total in
      let m := set_m_serverLogsScroll (clampScrollToContain (m_serverLogsScroll m) sel
                 (getServerLogsVisibleRows m) total) (set_m_serverLogsSelectedIdx sel m) in
      Some (if total =? 0 then set_m_serverLogsScroll 0 (set_m_serverLogsSelectedIdx 0 m) else m)
  | ViewProbe =>
      Some (on_probe (fun ps => move m (clampIdx (ps_selectedIdx ps) (len (ps_logs ps))) ps) m)
  | _ => Some m
  end.

Definition onProbeLog (e : probeLogEntry) (m : TUIModel) : TUIModel * list Cmd :=
  match m_probeState m with
  | None => (m, [])
  | Some ps =>
      let ps := set_ps_logs (push probeLogKeep (ps_logs ps) e) ps in
      let total := len (ps_logs ps) in
      let visible := getProbeVisibleRows m in
      let ps :=
        if ps_autoScroll ps then place (total - 1) (maxScroll total visible) ps
        else place (clampIdx (ps_selectedIdx ps) total)
               (clamp (ps_scroll ps) 0 (maxScroll total visible)) ps in
      (setProbe ps m, [listenForProbeLog])
  end.

Definition attempts (n : Z) : string := pretty n.

Definition onProbeEnd (now : Time) (m : TUIModel) : TUIModel * list Cmd :=
  match m_probeState m with
  | None => (m, [])
  | Some ps =>
      if negb (bool_decide (m_viewMode m = ViewProbe)) then (stopProbeStream m, [])
      else if ps_disconnected ps then
        match ps_cancelFunc ps with
        | Some c => (setProbe (set_ps_cancelFunc None ps) (set_m_cancelled (c :: m_cancelled m) m), [])
        | None => (m, [])
        end
      else if 5 <=? ps_reconnectCount ps then
        (stopProbeStream (set_m_errorTime now (set_m_err (Some ("probe stream ended after "
           +:+ attempts (ps_reconnectCount ps) +:+ " reconnection attempts")) m)), [])
      else
        (set_m_errorTime now (set_m_err (Some ("probe stream disconnected, reconnecting... (attempt "
           +:+ attempts (ps_reconnectCount ps + 1) +:+ "/5)")) (stopProbeStream m)),
         [reconnectLater (ps_clientID ps) (ps_logs ps) (ps_reconnectCount ps + 1)])
  end.

Definition newProbeState (clientID : string) (ctx : nat) (cancelFunc : option nat)
  (logs : list probeLogEntry) (reconnectCount : Z) (disconnected : bool) : probeState := {|
  ps_clientID := clientID; ps_logs := logs; ps_scroll := 0; ps_selectedIdx := 0;
  ps_cancelFunc := cancelFunc; ps_ctx := ctx; ps_autoScroll := true;
  ps_reconnectCount := reconnectCount; ps_disconnected := disconnected |}.

Definition onStreamStarted (clientID : string) (ctx : nat) (cancelFunc : option nat)
  (logs : list probeLogEntry) (reconnectCount : Z) (disconnected : bool) (m : TUIModel)
  : TUIModel * list Cmd :=
  if negb (bool_decide (m_viewMode m = ViewProbe)) then
    (match cancelFunc with Some c => set_m_cancelled (c :: m_cancelled m) m | None => m end, [])
  else
    let total := len logs in
    let ps := newProbeState clientID ctx cancelFunc logs reconnectCount disconnected in
    let ps := set_ps_selectedIdx (if total - 1 <? 0 then 0 else total - 1) ps in
    let ps := if 0 <? total
              then set_ps_scroll (Z.max (total - Z.max (getProbeVisibleRows m) 1) 0) ps else ps in
    (setProbe ps m, [listenForProbeLog]).

(** The attributes but the level, as JSON. *)
Definition cacheAttrs (e : LogEntry) : LogEntry :=
  let filtered := delete "level"%string (le_Attrs e) in
  if decide (filtered = ∅) then e
  else match MarshalMap filtered with
       | Some b => {| le_Time := le_Time e; le_Level := le_Level e; le_Message := le_Message e;
                      le_Attrs := le_Attrs e; le_AttrJSON := b |}
       | None => e
       end.

Definition onLog (e : LogEntry) (m : TUIModel) : TUIModel :=
  let m := set_m_logEntries (push serverLogKeep (m_logEntries m) (cacheAttrs e)) m in
  if bool_decide (m_viewMode m = ViewServerLogs) then
    let total := len (m_logEntries m) in
    let sel := clampIdx (m_serverLogsSelectedIdx m) total in
    set_m_serverLogsScroll (clampScrollToContain (m_serverLogsScroll m) sel
      (getServerLogsVisibleRows m) total) (set_m_serverLogsSelectedIdx sel m)
  else m.

Definition onTick (m : TUIModel) : list Cmd :=
  [fetchClients; tick]
  ++ match m_clientDetail m with
     | Some c => if bool_decide (m_viewMode m = ViewDetail) then [fetchClientDetail (Info_ID _ c)] else []
     | None => []
     end.

Definition onError (now : Time) (e : string) (m : TUIModel) : TUIModel :=
  let m := set_m_errorTime now (set_m_err (Some e) m) in
  if bool_decide (m_viewMode m = ViewProbe) && negb (bool_decide (is_Some (m_probeState m)))
  then set_m_viewMode ViewList m else m.

Definition onSuccess (now : Time) (s : string) (m : TUIModel) : TUIModel :=
  let m := set_m_successTime now (set_m_successMsg s m) in
  match m_saveState m with
  | Some ss =>
      if bool_decide (m_viewMode m = ViewSaveConfirm)
      then set_m_saveState None (set_m_viewMode (ss_previousView ss) m) else m
  | None => m
  end.

Definition Update (now : Time) (exists_ : string -> bool) (msg : Msg) (m : TUIModel) : step :=
  match msg with
  | WindowSizeMsg w h => staying (onWindowSize w h m)
  | KeyMsg k => handleKeyPress now exists_ k m
  | tickMsg => Some (m, onTick m)
  | clientsMsg l => staying (onClients now l m)
  | clientDetailMsg i => stay (set_m_viewMode ViewDetail (set_m_clientDetail (Some i) m))
  | errorMsg e => stay (onError now e m)
  | successMsg s => stay (onSuccess now s m)
  | probeLogMsg e => Some (onProbeLog e m)
  | probeEndMsg => Some (onProbeEnd now m)
  | probeStreamStartedMsg id ctx c =>
      Some (setProbe (newProbeState id ctx c [] 0 false) m, [listenForProbeLog])
  | reconnectProbeMsg id logs n =>
      Some (m, if bool_decide (m_viewMode m = ViewProbe)
               then [startProbeStreamWithState id logs n false] else [])
  | probeStreamStartedMsgWithState id ctx c logs n d => Some (onStreamStarted id ctx c logs n d m)
  | logMsg e => Some (onLog e m, [listenForLogs])
  end.

(** ** Commands

    What a command comes back with, given the answer of the API or of the file system;
    [m] is the model when the command runs. *)

Definition fetchClients_result (r : result string (list ClientInfo)) : Msg :=
  match r with Ok l => clientsMsg l | Err e => errorMsg e end.

(** A detail without an error is there. *)
Definition fetchClientDetail_result (r : result string FullClientInfo) : Msg :=
  match r with Ok i => clientDetailMsg i | Err e => errorMsg e end.

Definition shutdownClient_result (r : result string ()) : Msg :=
  match r with Ok _ => successMsg "Client shutdown initiated successfully" | Err e => errorMsg e end.

(** [ctx] is the context that is made, which its cancel function ends. *)
Definition startProbeStream_result (ctx : nat) (r : result string ()) (clientID : string)
  (preservedLogs : list probeLogEntry) (reconnectCount : Z) (disconnected : bool) : Msg :=
  match r with
  | Ok _ => probeStreamStartedMsgWithState clientID ctx (Some ctx) preservedLogs reconnectCount disconnected
  | Err e => errorMsg e
  end.

(** [next]: what the channel gives, nothing once it is closed. *)
Definition listenForProbeLog_result (next : option probeLogEntry) (m : TUIModel) : Msg :=
  match m_probeState m with
  | None => probeEndMsg
  | Some ps =>
      if bool_decide (ps_ctx ps ∈ m_cancelled m) then probeEndMsg
      else match next with Some e => probeLogMsg e | None => probeEndMsg end
  end.

(** [write path logs]: the file system's answer to making the directory and the file and
    writing a line for each log. *)
Definition saveProbeLogsToFile_result (write : string -> list probeLogEntry -> result string ())
  (m : TUIModel) : Msg :=
  match m_saveState m, m_probeState m with
  | Some ss, Some ps =>
      match write (ss_filePath ss) (ps_logs ps) with
      | Ok _ => successMsg ("Saved " +:+ pretty (len (ps_logs ps)) +:+ " logs to " +:+ ss_filePath ss)
      | Err e => errorMsg e
      end
  | _, _ => errorMsg "save state or probe state not initialized"
  end.

(** ** What rendering changes *)

(** [renderListView] drops the messages that were shown long enough. *)
Definition expire (now : Time) (m : TUIModel) : TUIModel :=
  let m := if bool_decide (is_Some (m_err m)) && negb (Since now (m_errorTime m) <? errorToastDuration)
           then set_m_err None m else m in
  if negb (String.eqb (m_successMsg m) "") && negb (Since now (m_successTime m) <? successToastDuration)
  then set_m_successMsg "" m else m.

(** [renderDetailView] of a text of [lines] lines: the scroll position is limited, and the
    lines from the first to the second number are shown. *)
Definition detailWindow (lines : Z) (m : TUIModel) : (Z * Z) * TUIModel :=
  let availableHeight := Z.max (m_height m - 4) 10 in
  let ms := Z.max (lines - availableHeight) 0 in
  let m := if ms <? m_detailScroll m then set_m_detailScroll ms m else m in
  ((m_detailScroll m, Z.min (m_detailScroll m + availableHeight) lines), m).

(** The rows of [renderTable]. *)
Definition tableWindow (m : TUIModel) : option (Z * Z) :=
  visibleRows ← getVisibleRows m;
  Some (m_listScroll m, Z.min (m_listScroll m + visibleRows) (len (m_clients m))).

(** ** The server's log *)

(** A turn of the goroutine of [Run]: the entry is put in the channel, [q] of which is
    buffered, or counted as dropped. *)
Definition logChanSize : nat := 100.

Definition entryOfServerLog (as_string : any -> option string) (log : probeLogEntry) : LogEntry := {|
  le_Time := ProbeLogEntry_Timestamp log;
  le_Level := default "INFO"%string
    match ProbeLogEntry_Attrs log with
    | Some attrs => match attrs !! "level"%string with Some v => as_string v | None => None end
    | None => None
    end;
  le_Message := ProbeLogEntry_Message log;
  le_Attrs := default ∅ (ProbeLogEntry_Attrs log);
  le_AttrJSON := EmptyString |}.

Definition forwardLog (as_string : any -> option string) (log : probeLogEntry) (q : list LogEntry)
  (m : TUIModel) : list LogEntry * TUIModel :=
  match trySend logChanSize (entryOfServerLog as_string log) q with
  | Some q' => (q', m)
  | None => (q, set_m_droppedLogs (m_droppedLogs m + 1) m)
  end.

(** [TUIHandler.Handle], before it passes the record on. *)
Definition TUIHandler_Handle (Level_String : Z -> string) (r : Record_ (any := any))
  (q : list LogEntry) : list LogEntry :=
  default q (trySend logChanSize {|
    le_Time := Record_Time r; le_Level := Level_String (Record_Level r);
    le_Message := Record_Message r; le_Attrs := setAll (Record_Attrs r) ∅;
    le_AttrJSON := EmptyString |} q).
End Tui.


(** ** Formatting does not panic *)

Section Formatting.
Context {any : Type} `{Terminal any}.
Implicit Types (m : TUIModel (any := any)).

Lemma padRight_length n s : (n <= String.length (padRight n s))%nat.
Proof.
  unfold padRight. rewrite length_append. pose proof (runes_length s).
  assert (E : forall k, String.length (spaces k) = k) by (intros k; induction k as [|k IH]; simpl; auto).
  rewrite E. lia.
Qed.

Lemma sliceFrom_some a s : 0 <= a <= Z.of_nat (String.length s) ->
  exists t, sliceFrom a s = Some t /\ Z.of_nat (String.length t) = Z.of_nat (String.length s) - a.
Proof. intros [H1 H2]. by apply slice_some. Qed.

Lemma styleFirst_some levelStyle attrStyle attrStr mainLen sel line : 14 <= mainLen ->
  is_Some (styleFirst levelStyle attrStyle attrStr mainLen sel line).
Proof.
  intros Hm. unfold styleFirst. destruct (Z.ltb_spec 14 (Z.of_nat (String.length line))); [|by eexists].
  destruct (slice_some 0 9 line) as (t & -> & _); [lia..|].
  destruct (slice_some 9 14 line) as (l & -> & _); [lia..|].
  destruct (sliceFrom_some 14 line) as (rest & -> & _); [lia|]. cbn [mbind option_bind].
  destruct (_ && _) eqn:E; [|by eexists]. apply andb_true_iff in E as [_ E%Z.ltb_lt].
  destruct (slice_some 0 (mainLen - 14) rest) as (u & -> & _); [lia..|].
  destruct (sliceFrom_some (mainLen - 14) rest) as (v & -> & _); [lia|]. by eexists.
Qed.

(** The time of day and the padded level are longer than what is cut off. *)
Lemma formatLogEntry_some m e sel : is_Some (formatLogEntry m e sel).
Proof.
  unfold formatLogEntry. case_match eqn:E; [by eexists|]. rename E into E0.
  match goal with |- context [styleFirst ?a ?b ?c ?n ?d ?l] =>
    destruct (styleFirst_some a b c n d l) as [t ->] end; [|by eexists].
  rewrite !length_append, TimeOfDay_length. pose proof (padRight_length 5 (le_Level e)). simpl. lia.
Qed.

Lemma formatProbeLogLine_some m log : is_Some (formatProbeLogLine m log).
Proof.
  unfold formatProbeLogLine. destruct (String.eqb _ _); [by eexists|].
  destruct (wrapText _ _ _) as [|l ls]; [by eexists|]. set (n := Z.of_nat _ + 1).
  destruct (Z.ltb_spec n (Z.of_nat (String.length l))); [|by eexists].
  destruct (slice_some 0 n l) as (t & -> & _); [lia..|].
  destruct (sliceFrom_some n l) as (u & -> & _); [lia|]. by eexists.
Qed.

Lemma getVisibleRows_some m : exists v, getVisibleRows m = Some v /\ 5 <= v.
Proof.
  assert (G : exists n, estimateLogPaneLines m = Some n).
  { unfold estimateLogPaneLines. destruct (m_logEntries m) as [|e l]; [by eexists|].
    destruct (mapM (fun e => formatLogEntry m e false) (lastn 3 (e :: l))) as [ts|] eqn:E; [by eexists|].
    exfalso. apply mapM_None, Exists_exists in E as (x & _ & Hx).
    destruct (formatLogEntry_some m x false) as [t Ht]. congruence. }
  destruct G as [n Hn]. unfold getVisibleRows. rewrite Hn. eexists. split; [done|]. lia.
Qed.

Lemma ask_some id user addr m : exists message, ask id user addr m =
  Some (set_m_viewMode ViewConfirm
    (set_m_confirmState (Some {| cs_clientID := id; cs_message := message |}) m)).
Proof. unfold ask, shutdownQuestion. destruct (formatID_some id) as (t & -> & _). by eexists. Qed.
End Formatting.

(** ** Invariants

    What the indices of the views satisfy, whatever the messages and their order. *)

Section Invariant.
Context {any : Type} `{Terminal any} `{StableSort}.
Implicit Types (m : TUIModel (any := any)) (ps : probeState (any := any)).

(** A selected row is one of the list; an empty list has row 0 selected. *)
Definition row_ok (sel n : Z) : Prop := 0 <= sel /\ (n = 0 -> sel = 0) /\ (0 < n -> sel < n).

Definition list_ok (l : list ClientInfo) (sel scroll : Z) : Prop :=
  row_ok sel (len l) /\ 0 <= scroll <= Z.max 0 (len l - 1).

Definition probe_ok ps : Prop :=
  -1 <= ps_selectedIdx ps <= Z.max 0 (len (ps_logs ps) - 1) /\
  (0 < len (ps_logs ps) -> 0 <= ps_selectedIdx ps) /\
  0 <= ps_scroll ps <= Z.max 0 (len (ps_logs ps) - 1) /\ len (ps_logs ps) <= Z.of_nat probeLogKeep.

Definition logs_ok (l : list (LogEntry (any := any))) (sel scroll : Z) : Prop :=
  row_ok sel (len l) /\ 0 <= scroll <= Z.max 0 (len l - 1) /\ len l <= Z.of_nat serverLogKeep.

(** The cursor is within the path. *)
Definition cursor_ok (path : string) (cursor : Z) : Prop :=
  0 <= cursor <= Z.of_nat (String.length path).
Definition save_ok (ss : saveState) : Prop := cursor_ok (ss_filePath ss) (ss_cursorPos ss).

Definition all {A} (P : A -> Prop) (o : option A) : Prop :=
  match o with Some a => P a | None => True end.

Record Inv m : Prop := {
  inv_list : list_ok (m_clients m) (m_selectedIdx m) (m_listScroll m);
  inv_probe : all probe_ok (m_probeState m);
  inv_logs : logs_ok (m_logEntries m) (m_serverLogsSelectedIdx m) (m_serverLogsScroll m);
  inv_save : all save_ok (m_saveState m);
  inv_detail : 0 <= m_detailScroll m
}.

Lemma len_nonneg {A} (l : list A) : 0 <= len l.
Proof. unfold len. lia. Qed.

Lemma len_push {A} n (l : list A) e : (0 < n)%nat -> len l <= Z.of_nat n ->
  len l <= len (push n l e) /\ 0 < len (push n l e) <= Z.of_nat n.
Proof.
  intros Hn Hl. rewrite push_lastn. unfold len in *. rewrite lastn_length, length_app. simpl. lia.
Qed.

Lemma at_row {A} (l : list A) sel : row_ok sel (len l) -> 0 < len l -> is_Some (at_ l sel).
Proof.
  unfold row_ok, at_, len. intros (H1 & _ & H2) Hn. destruct (Z.ltb_spec sel 0); [lia|].
  apply lookup_lt_is_Some. lia.
Qed.

Lemma clampIdx_row i n : 0 < n -> 0 <= clampIdx i n < n.
Proof.
  intros Hn. unfold clampIdx. rewrite (clamp_id (n - 1)) by lia.
  pose proof (clamp_range i 0 (n - 1)). lia.
Qed.

Lemma clampIdx_zero i : -1 <= clampIdx i 0 <= 0.
Proof. unfold clampIdx, clamp. simpl. repeat case_match; lia. Qed.

(** Fields the invariant does not read. *)
Lemma Inv_same m m' : Inv m ->
  m_clients m' = m_clients m -> m_selectedIdx m' = m_selectedIdx m -> m_listScroll m' = m_listScroll m ->
  m_probeState m' = m_probeState m -> m_logEntries m' = m_logEntries m ->
  m_serverLogsSelectedIdx m' = m_serverLogsSelectedIdx m ->
  m_serverLogsScroll m' = m_serverLogsScroll m -> m_saveState m' = m_saveState m ->
  m_detailScroll m' = m_detailScroll m -> Inv m'.
Proof. intros [] E1 E2 E3 E4 E5 E6 E7 E8 E9. split; congruence. Qed.

Lemma Inv_list m sel scroll : Inv m -> list_ok (m_clients m) sel scroll ->
  Inv (set_m_listScroll scroll (set_m_selectedIdx sel m)).
Proof. intros [] Hl. by split. Qed.

Lemma Inv_logs m sel scroll : Inv m -> logs_ok (m_logEntries m) sel scroll ->
  Inv (set_m_serverLogsScroll scroll (set_m_serverLogsSelectedIdx sel m)).
Proof. intros [] Hl. by split. Qed.

Lemma Inv_probe m o : Inv m -> all probe_ok o -> Inv (set_m_probeState o m).
Proof. intros [] Hp. by split. Qed.

Lemma Inv_save m o : Inv m -> all save_ok o -> Inv (set_m_saveState o m).
Proof. intros [] Hp. by split. Qed.

Lemma Inv_detail m d : Inv m -> 0 <= d -> Inv (set_m_detailScroll d m).
Proof. intros [] Hd. by split. Qed.

(** A model that is there and right. *)
Definition fine (o : option (TUIModel (any := any))) : Prop := exists m, o = Some m /\ Inv m.

(** Whatever row is asked for, [adjustScrollForSelection] makes the list right. *)
Lemma adjust_ok m : all probe_ok (m_probeState m) ->
  logs_ok (m_logEntries m) (m_serverLogsSelectedIdx m) (m_serverLogsScroll m) ->
  all save_ok (m_saveState m) -> 0 <= m_detailScroll m -> fine (adjustScrollForSelection m).
Proof.
  intros H2 H3 H4 H5. unfold adjustScrollForSelection.
  destruct (getVisibleRows_some m) as (v & -> & Hv). cbn [mbind option_bind].
  pose proof (len_nonneg (m_clients m)) as Hn. destruct (Z.eqb_spec (len (m_clients m)) 0) as [E|E].
  - eexists. split; [done|]. split; try done. split; [unfold row_ok; simpl; lia|simpl; lia].
  - pose proof (clamp_range (m_selectedIdx m) 0 (len (m_clients m) - 1) ltac:(lia)).
    set (m1 := set_m_selectedIdx (clamp _ _ _) _).
    pose proof (scroll_range (m_listScroll m1) (m_selectedIdx m1) v (len (m_clients m))) as Hs.
    eexists. split; [done|]. split; try done. split; [unfold row_ok; simpl; lia|].
    cbn [m_clients m_listScroll set_m_listScroll]. change (m_clients m1) with (m_clients m).
    unfold maxScroll in Hs. case_match; lia.
Qed.

Lemma adjust_select m sel : Inv m -> fine (adjustScrollForSelection (set_m_selectedIdx sel m)).
Proof. intros []. by apply adjust_ok. Qed.

(** Where a list is scrolled to is within it. *)
Lemma scroll_within scroll selected visible total : 0 <= total ->
  0 <= clampScrollToContain scroll selected visible total <= Z.max 0 (total - 1).
Proof.
  intros Ht. destruct (Z.leb_spec visible 0) as [E|E].
  - apply Z.leb_le in E. unfold clampScrollToContain. rewrite E. lia.
  - pose proof (scroll_range scroll selected visible total) as Hs.
    assert (maxScroll total visible <= Z.max 0 (total - 1)) by (unfold maxScroll; case_match; lia). lia.
Qed.

Lemma adjust_logs m sel : Inv m -> Inv (adjustServerLogsScroll (set_m_serverLogsSelectedIdx sel m)).
Proof.
  intros HI. unfold adjustServerLogsScroll.
  cbn [m_logEntries set_m_serverLogsSelectedIdx m_serverLogsSelectedIdx].
  pose proof (len_nonneg (m_logEntries m)) as Hn. pose proof (inv_logs _ HI) as (_ & _ & Hl).
  destruct (Z.eqb_spec (len (m_logEntries m)) 0) as [E|E].
  - destruct HI. split; try done. split; [done|]. split; [simpl; lia|done].
  - pose proof (clamp_range sel 0 (len (m_logEntries m) - 1) ltac:(lia)).
    destruct HI. split; try done. split; [unfold row_ok; simpl; lia|]. split; [|done].
    by apply scroll_within.
Qed.

(** The probe view. *)
Lemma place_ok ps sel scroll : probe_ok ps ->
  -1 <= sel <= Z.max 0 (len (ps_logs ps) - 1) -> (0 < len (ps_logs ps) -> 0 <= sel) ->
  0 <= scroll <= Z.max 0 (len (ps_logs ps) - 1) -> probe_ok (place sel scroll ps).
Proof. intros (_ & _ & _ & Hl) H1 H2 H3. split; [exact H1|]. split; [exact H2|by split]. Qed.

Lemma move_ok m ps sel : probe_ok ps -> -1 <= sel <= Z.max 0 (len (ps_logs ps) - 1) ->
  (0 < len (ps_logs ps) -> 0 <= sel) -> probe_ok (move m sel ps).
Proof. intros Hp H1 H2. apply place_ok; [done..|]. apply scroll_within, len_nonneg. Qed.

Lemma probeRows m : 5 <= getProbeVisibleRows m.
Proof. unfold getProbeVisibleRows. lia. Qed.

Lemma toBottom_ok m ps : probe_ok ps -> 0 < len (ps_logs ps) -> probe_ok (toBottom m ps).
Proof. intros Hp Hn. pose proof (probeRows m). apply place_ok; [done|lia..]. Qed.

Lemma auto_ok b ps : probe_ok ps -> probe_ok (set_ps_autoScroll b ps).
Proof. done. Qed.

Lemma Inv_set m ps : Inv m -> probe_ok ps -> Inv (setProbe ps m).
Proof. intros HI Hp. by apply Inv_probe. Qed.

Lemma Inv_auto m : Inv m -> Inv (updateAutoScroll m).
Proof.
  intros HI. apply Inv_probe; [done|]. pose proof (inv_probe _ HI) as Hp.
  by destruct (m_probeState m).
Qed.

Lemma Inv_stop m : Inv m -> Inv (stopProbeStream m).
Proof.
  intros HI. unfold stopProbeStream. destruct (m_probeState m) as [ps|]; [|done].
  destruct (ps_cancelFunc ps); [|done]. apply Inv_probe; [|done]. by eapply Inv_same.
Qed.

(** The path that is edited. *)
Lemma cut_ok s i : cursor_ok s i -> exists a b, cut s i = Some (a, b) /\
  Z.of_nat (String.length a) = i /\ (String.length a + String.length b = String.length s)%nat.
Proof.
  intros [H1 H2]. unfold cut. destruct (slice_some 0 i s) as (a & -> & Ha); [lia..|].
  destruct (sliceFrom_some i s) as (b & -> & Hb); [lia|]. exists a, b. split; [done|]. lia.
Qed.

Lemma typeRunes_ok rs path cursor : cursor_ok path cursor ->
  exists p c, typeRunes rs path cursor = Some (p, c) /\ cursor_ok p c.
Proof.
  revert path cursor; induction rs as [|r rs IH]; intros path cursor Hc; cbn [typeRunes]; [eauto|].
  destruct (cut_ok path cursor Hc) as (a & b & -> & Ha & Hab). simpl. apply IH.
  unfold cursor_ok in *. rewrite !length_append. lia.
Qed.

Lemma editPath_ok k ss : save_ok ss -> exists ss', editPath k ss = Some ss' /\ save_ok ss'.
Proof.
  intros Hs. pose proof Hs as [H1 H2]. unfold editPath. destruct (key_Type k); try (by eexists).
  - destruct (Z.ltb_spec 0 (ss_cursorPos ss)); [|by eexists].
    destruct (cut_ok (ss_filePath ss) (ss_cursorPos ss - 1)) as (a & b & -> & Ha & Hab); [by split; lia|].
    destruct (cut_ok (ss_filePath ss) (ss_cursorPos ss)) as (c & d & -> & Hc & Hcd); [done|].
    eexists. split; [done|]. unfold save_ok, cursor_ok. simpl. rewrite length_append. lia.
  - destruct (Z.ltb_spec (ss_cursorPos ss) (Z.of_nat (String.length (ss_filePath ss)))); [|by eexists].
    destruct (cut_ok (ss_filePath ss) (ss_cursorPos ss)) as (a & b & -> & Ha & Hab); [done|].
    destruct (cut_ok (ss_filePath ss) (ss_cursorPos ss + 1)) as (c & d & -> & Hc & Hcd); [by split; lia|].
    eexists. split; [done|]. unfold save_ok, cursor_ok. simpl. rewrite length_append. lia.
  - eexists. split; [done|]. case_match eqn:E; [|done]. apply Z.ltb_lt in E.
    unfold save_ok, cursor_ok. simpl. lia.
  - eexists. split; [done|]. case_match eqn:E; [|done]. apply Z.ltb_lt in E.
    unfold save_ok, cursor_ok. simpl. lia.
  - eexists. split; [done|]. unfold save_ok, cursor_ok. simpl. lia.
  - eexists. split; [done|]. unfold save_ok, cursor_ok. simpl. lia.
  - destruct (typeRunes_ok (key_Runes k) (ss_filePath ss) (ss_cursorPos ss) Hs) as (p & c & -> & Hc).
    by eexists.
Qed.

(** *** One step keeps the invariant and does not panic *)

(** Messages that carry logs carry no more than are kept; so do commands. *)
Definition msg_ok (msg : Msg (any := any)) : Prop :=
  match msg with
  | probeStreamStartedMsgWithState _ _ _ logs _ _ | reconnectProbeMsg _ logs _ =>
      len logs <= Z.of_nat probeLogKeep
  | _ => True
  end.

Definition cmd_ok (c : Cmd (any := any)) : Prop :=
  match c with
  | startProbeStreamWithState _ logs _ _ | reconnectLater _ logs _ => len logs <= Z.of_nat probeLogKeep
  | _ => True
  end.

Definition fine_step (s : step (any := any)) : Prop :=
  exists m' cs, s = Some (m', cs) /\ Inv m' /\ Forall cmd_ok cs.

Lemma fine_stay m : Inv m -> fine_step (stay m).
Proof. intros HI. by eexists _, _. Qed.

Lemma fine_staying o : fine o -> fine_step (staying o).
Proof. intros (m & -> & HI). by apply fine_stay. Qed.

Lemma fine_some m cs : Inv m -> Forall cmd_ok cs -> fine_step (Some (m, cs)).
Proof. intros HI. by eexists _, _. Qed.

Lemma fine_pair (r : TUIModel (any := any) * list Cmd) : Inv r.1 -> Forall cmd_ok r.2 -> fine_step (Some r).
Proof. destruct r. apply fine_some. Qed.

(** A list of commands that is written out. *)
Ltac cmds_ok := repeat (constructor; [first [exact I | unfold cmd_ok, len, probeLogKeep; simpl; lia]|]); constructor.

Create HintDb tui.
Hint Resolve fine_stay fine_staying fine_some adjust_select adjust_logs Inv_auto Inv_stop Inv_set auto_ok
  Inv_probe Inv_save : tui.
Hint Extern 1 (Forall cmd_ok _) => cmds_ok : tui.

(** Changes of what the invariant does not read. *)
Ltac same := eapply Inv_same; [eassumption|reflexivity..].

Lemma ask_ok id user addr m : Inv m -> fine (ask id user addr m).
Proof. intros HI. destruct (ask_some id user addr m) as [message ->]. eexists. split; [done|]. same. Qed.
Hint Resolve ask_ok : tui.

Lemma handleListKeys_fine now k m : Inv m -> fine_step (handleListKeys now k m).
Proof.
  intros HI. unfold handleListKeys. pose proof (len_nonneg (m_clients m)) as Hn.
  pose proof (inv_list _ HI) as [Hr Hs]. pose proof (at_row (m_clients m) (m_selectedIdx m) Hr) as Hat.
  destruct (getVisibleRows_some m) as (v & -> & Hv). cbn [mbind option_bind].
  assert (H00 : list_ok (m_clients m) 0 0) by (split; [unfold row_ok; lia|lia]).
  repeat match goal with |- context [if hit ?k ?l then _ else _] => destruct (hit k l) end;
    auto using Inv_list with tui.
  - destruct (_ && _) eqn:E; [|auto with tui]. apply andb_true_iff in E as [E%Z.ltb_lt _].
    destruct (Hat E) as [c ->]. cbn [mbind option_bind]. case_match; [apply fine_stay; same|auto with tui].
  - case_match; auto with tui.
  - case_match; auto with tui.
  - case_match; auto with tui.
  - destruct (Z.ltb_spec 0 (len (m_clients m))) as [E|]; [|auto with tui].
    destruct (Hat E) as [c ->]. simpl. apply fine_some; [same|cmds_ok].
  - destruct (Z.ltb_spec 0 (len (m_clients m))) as [E|]; [|auto with tui].
    destruct (Hat E) as [c ->]. simpl. apply fine_some; [same|cmds_ok].
  - cbn [m_logEntries set_m_viewMode]. pose proof (len_nonneg (m_logEntries m)).
    pose proof (inv_logs _ HI) as (_ & _ & Hl).
    destruct (Z.ltb_spec 0 (len (m_logEntries m))); apply fine_stay, Inv_logs; try same;
      (split; [unfold row_ok; simpl; lia|split; [simpl; lia|done]]).
Qed.

Lemma handleDetailKeys_fine k m : Inv m -> fine_step (handleDetailKeys k m).
Proof.
  intros HI. unfold handleDetailKeys. pose proof (inv_detail _ HI).
  repeat match goal with |- context [if hit ?k ?l then _ else _] => destruct (hit k l) end;
    auto with tui.
  - apply fine_stay, Inv_detail; [same|done].
  - destruct (m_clientDetail m); auto with tui.
  - destruct (Z.ltb_spec 0 (m_detailScroll m)); [|auto with tui]. apply fine_stay, Inv_detail; [done|lia].
  - apply fine_stay, Inv_detail; [done|lia].
  - by apply fine_stay, Inv_detail.
  - by apply fine_stay, Inv_detail.
  - destruct (m_clientDetail m); [|auto with tui]. apply fine_some; [same|cmds_ok].
Qed.

Lemma handleConfirmKeys_fine k m : Inv m -> fine_step (handleConfirmKeys k m).
Proof.
  intros HI. unfold handleConfirmKeys.
  repeat match goal with |- context [if hit ?k ?l then _ else _] => destruct (hit k l) end;
    [apply fine_stay; same| |auto with tui].
  destruct (m_confirmState m); [|auto with tui]. apply fine_some; [same|cmds_ok].
Qed.

Lemma with_logs_fine m f : Inv m ->
  (forall ps, probe_ok ps -> 0 < len (ps_logs ps) -> Inv (f ps)) -> fine_step (with_logs m f).
Proof.
  intros HI Hf. unfold with_logs. pose proof (inv_probe _ HI) as Hp.
  destruct (m_probeState m) as [ps|]; [|auto with tui].
  destruct (Z.ltb_spec 0 (len (ps_logs ps))); [|auto with tui]. apply fine_stay. by apply Hf.
Qed.

Lemma handleProbeKeys_fine now k m : Inv m -> fine_step (handleProbeKeys now k m).
Proof.
  intros HI. unfold handleProbeKeys. pose proof (inv_probe _ HI) as Hp.
  assert (Hv : 5 <= getProbeVisibleRows m) by (unfold getProbeVisibleRows; lia).
  repeat match goal with |- context [if hit ?k ?l then _ else _] => destruct (hit k l) end;
    auto with tui.
  - apply fine_stay. eapply Inv_same; [by apply Inv_stop|reflexivity..].
  - apply fine_stay, Inv_probe; [done|]. destruct (m_probeState m) as [ps|]; [|done].
    apply auto_ok, place_ok; [done|lia|lia|lia].
  - destruct (m_probeState m) as [ps|]; [|auto with tui]. apply fine_stay.
    set (ps1 := set_ps_autoScroll _ ps). eapply (Inv_same (setProbe _ m)); [|reflexivity..].
    apply Inv_set; [done|]. destruct (negb _ && _) eqn:E; [|done].
    apply andb_true_iff in E as [_ E%Z.ltb_lt]. by apply toBottom_ok.
  - destruct (m_probeState m) as [ps|]; [|auto with tui].
    apply fine_stay. set (ss := {| ss_clientID := _ |}).
    eapply (Inv_same (set_m_saveState (Some ss) m)); [|reflexivity..]. apply Inv_save; [done|].
    split; simpl; lia.
  - apply with_logs_fine; [done|]. intros ps Hps Hn. pose proof Hps as (B1 & B2 & _).
    apply Inv_set; [done|]. apply auto_ok, move_ok; [done| |];
      destruct (Z.ltb_spec 0 (ps_selectedIdx ps)); lia.
  - apply with_logs_fine; [done|]. intros ps Hps Hn. pose proof Hps as (B1 & B2 & _).
    apply Inv_auto, Inv_set; [done|]. apply move_ok; [done| |];
      destruct (Z.ltb_spec (ps_selectedIdx ps) (len (ps_logs ps) - 1)); lia.
  - apply with_logs_fine; [done|]. intros ps Hps Hn. apply Inv_set; [done|].
    by apply auto_ok, toBottom_ok.
  - apply with_logs_fine; [done|]. intros ps Hps Hn. pose proof Hps as (B1 & B2 & _).
    apply Inv_set; [done|]. apply auto_ok, move_ok; [done| |];
      destruct (Z.ltb_spec (getProbeVisibleRows m) (ps_selectedIdx ps)); lia.
  - apply with_logs_fine; [done|]. intros ps Hps Hn. pose proof Hps as (B1 & B2 & _).
    apply Inv_auto, Inv_set; [done|]. apply move_ok; [done| |];
      destruct (Z.ltb_spec (ps_selectedIdx ps + getProbeVisibleRows m) (len (ps_logs ps) - 1)); lia.
Qed.

Lemma handleServerLogsKeys_fine now k m : Inv m -> fine_step (handleServerLogsKeys now k m).
Proof.
  intros HI. unfold handleServerLogsKeys. pose proof (inv_logs _ HI) as ((R1 & R2 & R3) & Hs & Hl).
  repeat match goal with |- context [if hit ?k ?l then _ else _] => destruct (hit k l) end;
    try (repeat case_match; auto with tui; fail).
  - apply fine_stay. destruct HI as [H1 H2 H3 H4 H5]. split; try done.
    split; [done|]. split; [simpl; lia|done].
  - apply fine_stay, Inv_logs; [done|]. pose proof (len_nonneg (m_logEntries m)).
    split; [unfold row_ok; lia|]. split; [lia|done].
  - apply fine_stay. same.
Qed.

Lemma handleSaveConfirmKeys_fine ex k m : Inv m -> fine_step (handleSaveConfirmKeys ex k m).
Proof.
  intros HI. unfold handleSaveConfirmKeys. pose proof (inv_save _ HI) as Hs.
  destruct (m_saveState m) as [ss|]; [|apply fine_stay; same]. destruct (ss_editing ss).
  { destruct (editPath_ok k ss Hs) as (ss' & -> & Hs'). simpl. auto with tui. }
  repeat match goal with |- context [if hit ?k ?l then _ else _] => destruct (hit k l) end;
    [| | |auto with tui].
  - apply fine_stay, Inv_save; [same|done].
  - by apply fine_stay, Inv_save.
  - case_match; [by apply fine_stay, Inv_save|auto with tui].
Qed.

Lemma handleKeyPress_fine now ex k m : Inv m -> fine_step (handleKeyPress now ex k m).
Proof.
  intros HI. unfold handleKeyPress. case_match; [auto with tui|]. destruct (m_viewMode m);
    auto using handleListKeys_fine, handleDetailKeys_fine, handleConfirmKeys_fine,
      handleProbeKeys_fine, handleServerLogsKeys_fine, handleSaveConfirmKeys_fine.
Qed.

Lemma onWindowSize_ok w h m : Inv m -> fine (onWindowSize w h m).
Proof.
  intros HI. unfold onWindowSize. set (m1 := set_m_height h (set_m_width w m)).
  assert (H1 : Inv m1) by same. destruct (m_viewMode m1); try (by eexists).
  - destruct H1. by apply adjust_ok.
  - pose proof (inv_probe _ H1) as Hp. eexists. split; [done|]. apply Inv_probe; [done|].
    destruct (m_probeState m1) as [ps|]; [|done]. pose proof (len_nonneg (ps_logs ps)) as Hn.
    change (probe_ok (move m1 (clampIdx (ps_selectedIdx ps) (len (ps_logs ps))) ps)).
    destruct (Z.eqb_spec (len (ps_logs ps)) 0) as [E|E].
    + pose proof (clampIdx_zero (ps_selectedIdx ps)). rewrite E. apply move_ok; [done|lia|lia].
    + pose proof (clampIdx_row (ps_selectedIdx ps) (len (ps_logs ps)) ltac:(lia)).
      apply move_ok; [done|lia|lia].
  - pose proof (inv_logs _ H1) as (_ & _ & Hl). pose proof (len_nonneg (m_logEntries m1)) as Hn.
    eexists. split; [done|]. destruct (Z.eqb_spec (len (m_logEntries m1)) 0) as [E|E].
    + destruct H1. split; try done. split; [done|]. split; [simpl; lia|done].
    + pose proof (clampIdx_row (m_serverLogsSelectedIdx m1) (len (m_logEntries m1)) ltac:(lia)).
      apply Inv_logs; [done|]. split; [unfold row_ok; lia|]. split; [by apply scroll_within|done].
Qed.

Lemma onProbeLog_ok e m : Inv m -> Inv (onProbeLog e m).1.
Proof.
  intros HI. unfold onProbeLog. pose proof (inv_probe _ HI) as Hp.
  destruct (m_probeState m) as [ps|]; [|done]. pose proof Hp as (_ & _ & Hs & Hl).
  pose proof (len_push probeLogKeep (ps_logs ps) e ltac:(unfold probeLogKeep; lia) Hl) as [_ Hn].
  apply Inv_set; [done|]. set (l := push _ _ _) in *. cbn [ps_autoScroll set_ps_logs ps_logs].
  assert (Hm : 0 <= maxScroll (len l) (getProbeVisibleRows m) <= len l - 1).
  { pose proof (probeRows m). unfold maxScroll. case_match; lia. }
  assert (G : forall sel scroll, 0 <= sel < len l -> 0 <= scroll <= len l - 1 ->
    probe_ok (place sel scroll (set_ps_logs l ps))).
  { intros sel scroll H1 H2. repeat split; simpl; lia. }
  destruct (ps_autoScroll ps); apply G; [lia|done|apply clampIdx_row; lia|].
  pose proof (clamp_range (ps_scroll ps) 0 (maxScroll (len l) (getProbeVisibleRows m)) ltac:(lia)). simpl. lia.
Qed.

Lemma onProbeEnd_ok now m : Inv m -> Inv (onProbeEnd now m).1.
Proof.
  intros HI. unfold onProbeEnd. pose proof (inv_probe _ HI) as Hp.
  destruct (m_probeState m) as [ps|] eqn:E; [|done]. destruct (negb _); [by apply Inv_stop|].
  destruct (ps_disconnected ps).
  { destruct (ps_cancelFunc ps); [|done]. apply Inv_set; [same|done]. }
  case_match; [apply Inv_stop; same|]. eapply Inv_same; [by apply Inv_stop|reflexivity..].
Qed.

Lemma onStreamStarted_ok id ctx c logs n d m : Inv m -> len logs <= Z.of_nat probeLogKeep ->
  Inv (onStreamStarted id ctx c logs n d m).1.
Proof.
  intros HI Hl. unfold onStreamStarted. destruct (negb _); [destruct c; [same|done]|].
  pose proof (len_nonneg logs). apply Inv_set; [done|].
  destruct (Z.ltb_spec 0 (len logs)), (Z.ltb_spec (len logs - 1) 0); repeat split; simpl; lia.
Qed.

Lemma onLog_ok e m : Inv m -> Inv (onLog e m).
Proof.
  intros HI. unfold onLog. pose proof (inv_logs _ HI) as ((R1 & R2 & R3) & Hs & Hl).
  pose proof (len_push serverLogKeep (m_logEntries m) (cacheAttrs e) ltac:(unfold serverLogKeep; lia) Hl)
    as [Hg Hn].
  set (l := push _ _ _) in *. pose proof (len_nonneg (m_logEntries m)) as H0n.
  set (m1 := set_m_logEntries l m).
  assert (H1 : Inv m1).
  { destruct HI. split; try done. split; [|split; [simpl; lia|simpl; lia]].
    unfold row_ok. change (m_logEntries m1) with l.
    change (m_serverLogsSelectedIdx m1) with (m_serverLogsSelectedIdx m).
    destruct (Z.eq_dec (len (m_logEntries m)) 0); lia. }
  case_match; [|done]. change (m_logEntries m1) with l. apply Inv_logs; [done|].
  pose proof (clampIdx_row (m_serverLogsSelectedIdx m1) (len l) ltac:(lia)).
  change (m_logEntries m1) with l.
  split; [unfold row_ok; lia|]. split; [apply scroll_within; lia|lia].
Qed.

Lemma onError_ok now e m : Inv m -> Inv (onError now e m).
Proof. intros HI. unfold onError. case_match; same. Qed.

Lemma onSuccess_ok now s m : Inv m -> Inv (onSuccess now s m).
Proof.
  intros HI. unfold onSuccess. cbn [m_saveState set_m_successTime set_m_successMsg].
  destruct (m_saveState m); [|same]. case_match; [|same]. apply Inv_save; [same|done].
Qed.

Lemma onProbeEnd_cmds now m : Inv m -> Forall cmd_ok (onProbeEnd now m).2.
Proof.
  intros HI. unfold onProbeEnd. pose proof (inv_probe _ HI) as Hp.
  destruct (m_probeState m) as [ps|]; [|constructor]. destruct Hp as (_ & _ & _ & Hl).
  repeat case_match; simpl; repeat constructor; exact Hl.
Qed.

Lemma onTick_cmds m : Forall cmd_ok (onTick m).
Proof. unfold onTick. repeat case_match; cmds_ok. Qed.

Lemma Update_fine now ex msg m : Inv m -> msg_ok msg -> fine_step (Update now ex msg m).
Proof.
  intros HI Hm. destruct msg; cbn [Update]; auto using fine_some, handleKeyPress_fine, onTick_cmds with tui.
  - by apply fine_staying, onWindowSize_ok.
  - apply fine_staying. destruct HI. by apply adjust_ok.
  - apply fine_stay. same.
  - by apply fine_stay, onError_ok.
  - by apply fine_stay, onSuccess_ok.
  - apply fine_pair; [by apply onProbeLog_ok|]. unfold onProbeLog. case_match; cmds_ok.
  - apply fine_pair; [by apply onProbeEnd_ok|by apply onProbeEnd_cmds].
  - apply fine_some; [by apply onLog_ok|cmds_ok].
  - apply fine_some; [|cmds_ok]. apply Inv_set; [done|]. unfold probe_ok, len, newProbeState. simpl. lia.
  - apply fine_some; [done|]. case_match; [|constructor]. constructor; [exact Hm|constructor].
  - apply fine_pair; [by apply onStreamStarted_ok|]. unfold onStreamStarted. repeat case_match; cmds_ok.
Qed.

(** *** Every run *)

(** The messages a command can come back with, when it runs in the state [m]. *)
Inductive answers m : Cmd (any := any) -> Msg (any := any) -> Prop :=
| A_clients r : answers m fetchClients (fetchClients_result r)
| A_tick : answers m tick tickMsg
| A_detail id r : answers m (fetchClientDetail id) (fetchClientDetail_result r)
| A_shutdown id r : answers m (shutdownClient id) (shutdownClient_result r)
| A_stream id logs n d ctx r : answers m (startProbeStreamWithState id logs n d)
    (startProbeStream_result ctx r id logs n d)
| A_probe next : answers m listenForProbeLog (listenForProbeLog_result next m)
| A_log e : answers m listenForLogs (logMsg e)
| A_reconnect id logs n : answers m (reconnectLater id logs n) (reconnectProbeMsg id logs n)
| A_save write : answers m saveProbeLogsToFile (saveProbeLogsToFile_result write m).

(** The model and the commands that have not come back. Besides messages, rendering and
    the stream of the server's log change the model. *)
Inductive ustep : TUIModel (any := any) * list Cmd -> TUIModel (any := any) * list Cmd -> Prop :=
| U_size w h m p m' : onWindowSize w h m = Some m' -> ustep (m, p) (m', p)
| U_key now ex k m p m' cs : handleKeyPress now ex k m = Some (m', cs) -> ustep (m, p) (m', p ++ cs)
| U_answer now ex m p1 c p2 msg m' cs : answers m c msg -> Update now ex msg m = Some (m', cs) ->
    ustep (m, p1 ++ c :: p2) (m', p1 ++ p2 ++ cs)
| U_render now m p : ustep (m, p) (expire now m, p)
| U_detail lines m p : ustep (m, p) ((detailWindow lines m).2, p)
| U_forward as_string log q m p : ustep (m, p) ((forwardLog as_string log q m).2, p).

Inductive ureach : TUIModel (any := any) * list Cmd -> Prop :=
| ureach_start : ureach (NewModel, Init)
| ureach_step s s' : ureach s -> ustep s s' -> ureach s'.

Lemma TuiInv_New : Inv NewModel.
Proof. split; try done; unfold list_ok, logs_ok, row_ok, len; simpl; lia. Qed.

Lemma answers_ok m c msg : answers m c msg -> cmd_ok c -> msg_ok msg.
Proof.
  intros Ha Hc. destruct Ha; try done.
  - by destruct r.
  - by destruct r.
  - by destruct r.
  - by destruct r.
  - unfold listenForProbeLog_result. repeat case_match; done.
  - unfold saveProbeLogsToFile_result. repeat case_match; done.
Qed.

Lemma expire_ok now m : Inv m -> Inv (expire now m).
Proof. intros HI. unfold expire. repeat case_match; (done || same). Qed.

Lemma detailWindow_ok lines m : Inv m -> Inv (detailWindow lines m).2.
Proof.
  intros HI. unfold detailWindow. cbn [snd]. case_match; [|done]. apply Inv_detail; [done|lia].
Qed.

Lemma ureach_ok s : ureach s -> Inv s.1 /\ Forall cmd_ok s.2.
Proof.
  induction 1 as [|s s' _ [HI Hc] Hs]; [split; [apply TuiInv_New|cmds_ok]|].
  destruct Hs; simpl in *.
  - destruct (onWindowSize_ok w h m HI) as (? & E & HI'). simplify_eq. done.
  - destruct (handleKeyPress_fine now ex k m HI) as (? & ? & E & HI' & Hcs). simplify_eq.
    split; [done|]. by apply Forall_app.
  - apply Forall_app in Hc as [Hc1 [Hc Hc2]%Forall_cons].
    destruct (Update_fine now ex msg m HI (answers_ok _ _ _ H1 Hc)) as (? & ? & E & HI' & Hcs).
    simplify_eq. split; [done|]. by rewrite !Forall_app.
  - split; [by apply expire_ok|done].
  - split; [by apply detailWindow_ok|done].
  - split; [|done]. unfold forwardLog. case_match; [done|]. simpl. same.
Qed.

(** C7: no run of the interface panics: in every state that keys, resizes and the answers
    to its commands lead to, in any order, the selected row is one of the list, the
    selected log entry one of the logs, at most 1000 and 100 of which are kept, the lists
    are scrolled to a position within them, the cursor is within the path that is edited;
    and every key, every size of the window and every answer is handled, no index, no slice
    of a list or of a text being out of range. *)
Theorem tui_never_panics m p : ureach (m, p) ->
  Inv m /\
  (forall now ex k, is_Some (handleKeyPress now ex k m)) /\
  (forall w h, is_Some (onWindowSize w h m)) /\
  forall now ex c msg, c ∈ p -> answers m c msg -> is_Some (Update now ex msg m).
Proof.
  intros [HI Hc]%ureach_ok. simpl in *. split_and!; [done| | |].
  - intros now ex k. destruct (handleKeyPress_fine now ex k m HI) as (? & ? & -> & _). by eexists.
  - intros w h. destruct (onWindowSize_ok w h m HI) as (? & -> & _). by eexists.
  - intros now ex c msg Hin Ha. rewrite Forall_forall in Hc.
    destruct (Update_fine now ex msg m HI (answers_ok _ _ _ Ha (Hc c Hin))) as (? & ? & -> & _).
    by eexists.
Qed.

(** *** A client is only shut down after a question about it *)

Lemma handleConfirm_shutdown k m m' cs id : handleConfirmKeys k m = Some (m', cs) ->
  shutdownClient id ∈ cs -> hit k ["y"; "enter"] = true /\
  exists q, m_confirmState m = Some q /\ cs_clientID q = id.
Proof.
  unfold handleConfirmKeys. destruct (hit k ["ctrl+c"; _; _; _]).
  { by intros [= _ <-] ?%not_elem_of_nil. }
  destruct (hit k ["y"; "enter"]); [|by intros [= _ <-] ?%not_elem_of_nil].
  destruct (m_confirmState m) as [q|]; [|by intros [= _ <-] ?%not_elem_of_nil].
  intros [= _ <-] [= ->]%list_elem_of_singleton. eauto.
Qed.

(** No other handler gives the command. *)
Definition quiet (s : step (any := any)) : bool :=
  match s with
  | Some (_, cs) => forallb (fun c => match c with shutdownClient _ => false | _ => true end) cs
  | None => true
  end.

Lemma quiet_in s m' cs id : quiet s = true -> s = Some (m', cs) -> shutdownClient id ∉ cs.
Proof.
  intros Hq -> Hin. simpl in Hq. rewrite forallb_forall in Hq.
  by specialize (Hq _ (proj1 (list_elem_of_In _ _) Hin)).
Qed.

Ltac quietly := repeat (reflexivity || case_match).

Lemma handleListKeys_quiet now k m : quiet (handleListKeys now k m) = true.
Proof. unfold handleListKeys, with_logs, staying, stay, mbind, option_bind. quietly. Qed.

Lemma handleDetailKeys_quiet k m : quiet (handleDetailKeys k m) = true.
Proof. unfold handleDetailKeys, with_logs, staying, stay, mbind, option_bind. quietly. Qed.

Lemma handleProbeKeys_quiet now k m : quiet (handleProbeKeys now k m) = true.
Proof. unfold handleProbeKeys, with_logs, staying, stay, mbind, option_bind. quietly. Qed.

Lemma handleServerLogsKeys_quiet now k m : quiet (handleServerLogsKeys now k m) = true.
Proof. unfold handleServerLogsKeys, with_logs, staying, stay, mbind, option_bind. quietly. Qed.

Lemma handleSaveConfirmKeys_quiet ex k m : quiet (handleSaveConfirmKeys ex k m) = true.
Proof. unfold handleSaveConfirmKeys, with_logs, staying, stay, mbind, option_bind. quietly. Qed.

Lemma handleKeyPress_quiet now ex k m : m_viewMode m <> ViewConfirm ->
  quiet (handleKeyPress now ex k m) = true.
Proof.
  intros Hv. unfold handleKeyPress. case_match; [done|]. destruct (m_viewMode m); try done;
    auto using handleListKeys_quiet, handleDetailKeys_quiet, handleProbeKeys_quiet,
      handleServerLogsKeys_quiet, handleSaveConfirmKeys_quiet.
Qed.

Lemma shutdown_asked now ex msg m m' cs id :
  Update now ex msg m = Some (m', cs) -> shutdownClient id ∈ cs ->
  exists k q, msg = KeyMsg k /\ hit k ["y"; "enter"] = true /\ m_viewMode m = ViewConfirm /\
    m_confirmState m = Some q /\ cs_clientID q = id.
Proof.
  intros HU Hin. assert (Hq : quiet (Update now ex msg m) = true -> False).
  { intros Hq. by eapply quiet_in. }
  assert (Hs : forall o, quiet (staying o) = true) by (by intros []).
  destruct msg; cbn [Update] in *; try (by destruct Hq).
  - destruct (decide (m_viewMode m = ViewConfirm)) as [Hv|Hv].
    2: { destruct Hq. by apply handleKeyPress_quiet. }
    unfold handleKeyPress in HU. rewrite Hv in HU.
    destruct (hit k ["ctrl+c"] || _); [injection HU as _ <-; by apply list_elem_of_singleton in Hin|].
    destruct (handleConfirm_shutdown _ _ _ _ _ HU Hin) as (Hk & q & E1 & E2). eauto 10.
  - destruct Hq. unfold onTick. quietly.
  - destruct Hq. unfold onProbeLog. quietly.
  - destruct Hq. unfold onProbeEnd. quietly.
  - destruct Hq. quietly.
  - destruct Hq. unfold onStreamStarted. quietly.
Qed.

(** C25: the command that shuts a client down is only given in answer to "y" or "enter" in
    the confirmation view, for the client that the question there names. *)
Theorem shutdown_confirmed now ex msg m m' cs id :
  Update now ex msg m = Some (m', cs) -> shutdownClient id ∈ cs ->
  exists k q, msg = KeyMsg k /\ hit k ["y"; "enter"] = true /\ m_viewMode m = ViewConfirm /\
    m_confirmState m = Some q /\ cs_clientID q = id.
Proof. apply shutdown_asked. Qed.

(** *** The selection follows the client *)

Lemma indexOf_spec id l i : indexOf id l = Some i ->
  0 <= i < len l /\ exists c, at_ l i = Some c /\ Info_ID _ c = id.
Proof.
  revert i; induction l as [|c l IH]; intros i; cbn [indexOf]; [done|].
  destruct (String.eqb_spec (Info_ID _ c) id) as [E|E].
  - intros [= <-]. unfold len. simpl. split; [lia|]. by exists c.
  - destruct (indexOf id l) as [j|]; [|done]. intros [= <-].
    destruct (IH j eq_refl) as (Hj & c' & Hc & Hid). split; [unfold len in *; simpl; lia|].
    exists c'. split; [|done]. unfold at_ in *. destruct (Z.ltb_spec j 0); [lia|].
    destruct (Z.ltb_spec (Z.succ j) 0); [lia|]. by rewrite Z2Nat.inj_succ.
Qed.

Lemma indexOf_some id l : id ∈ map (Info_ID _) l -> is_Some (indexOf id l).
Proof.
  induction l as [|c l IH]; [by intros ?%not_elem_of_nil|]. cbn [indexOf].
  destruct (String.eqb_spec (Info_ID _ c) id) as [E|E]; [by eexists|].
  intros [Hid|Hin]%elem_of_cons; [by destruct E|]. destruct (IH Hin) as [j ->]. by eexists.
Qed.

(** A new list of clients, in whatever order, keeps the selection on the client that
    had it while that client is in the list, and in view. *)
Theorem selection_follows now l m c : Inv m ->
  at_ (m_clients m) (m_selectedIdx m) = Some c -> Info_ID _ c <> ""%string ->
  Info_ID _ c ∈ map (Info_ID _) l ->
  exists m' c' rows, onClients now l m = Some m' /\ getVisibleRows m' = Some rows /\
    at_ (m_clients m') (m_selectedIdx m') = Some c' /\ Info_ID _ c' = Info_ID _ c /\
    m_clients m' ≡ₚ l /\ m_listScroll m' <= m_selectedIdx m' < m_listScroll m' + rows.
Proof.
  intros HI Hc Hne Hin. unfold onClients. rewrite Hc.
  pose proof (sliceStable_perm clientLess l) as Hp. set (l' := sliceStable clientLess l) in *.
  rewrite <- Hp in Hin. destruct (indexOf_some _ _ Hin) as [i Hi].
  unfold reselect. apply String.eqb_neq in Hne as ->. rewrite Hi. cbn [from_option id].
  destruct (indexOf_spec _ _ _ Hi) as (Hr & c' & Hc' & Hid).
  unfold adjustScrollForSelection. set (m1 := set_m_selectedIdx i (set_m_lastUpdate now (set_m_clients l' m))).
  destruct (getVisibleRows_some m1) as (v & Ev & Hv). rewrite Ev. cbn [mbind option_bind].
  change (m_clients m1) with l'. change (m_selectedIdx m1) with i.
  destruct (Z.eqb_spec (len l') 0); [lia|]. rewrite (clamp_id i) by lia.
  eexists _, c', v. split; [done|]. split; [exact Ev|]. split_and!; [done|done|done| |];
    (apply scroll_contains; [lia|done]).
Qed.
End Invariant.


(** ** A sample run *)

Definition sampleTerminal : Terminal nat := {|
  TimeOfDay := fun _ => "12:00:00"; TimeOfDayMilli := fun _ => "12:00:00.000";
  FileStamp := fun _ => "20250101-120000"; DateTime := fun _ => "2025-01-01 12:00:00";
  Sprint := fun _ => "value";
  MarshalMap := fun _ => Some "{}"; Render := fun _ s => s; RuneWidth := fun _ => 1;
  TimeOfDay_length := fun _ => eq_refl |}.

Definition sampleClient (id state : string) (conn disc : Time) : ClientInfo := {|
  Info_ID := id; Info_ClientAddress := "10.0.0.1:5000"; Info_User := "guest";
  Info_VirtualHost := "/"; Info_ClientBanner := EmptyString; Info_ClientProperties := None;
  Info_ConnectedAt := conn; Info_DisconnectedAt := disc; Info_Status := state;
  Info_ShutdownReason := EmptyString; Info_Stats := None |}.

Definition at_second (n : Z) : Time := {| unix := n; nsec := 0 |}.

Definition sampleClients : list ClientInfo :=
  [sampleClient "cccc0000" "active" (at_second 30) zeroTime;
   sampleClient "bbbb0000" "disconnected" (at_second 5) (at_second 20);
   sampleClient "aaaa0000" "active" (at_second 10) zeroTime].

Definition keyOf (name : string) : key :=
  {| key_String := name; key_Type := KeyOther; key_Runes := [] |}.

Section Sample.
Local Existing Instance sampleTerminal.
Local Existing Instance insertionStable.

Definition listed : TUIModel (any := nat) := default NewModel (onClients (at_second 40) sampleClients NewModel).

(** The active clients first, the oldest connection on top. *)
Example listed_order : map (Info_ID _) (m_clients listed) = ["aaaa0000"; "cccc0000"; "bbbb0000"]%string.
Proof. vm_compute. reflexivity. Qed.

Lemma listed_reach : ureach (listed, tick :: listenForLogs :: []).
Proof.
  eapply ureach_step; [exact ureach_start|].
  exact (U_answer (at_second 40) (fun _ => false) NewModel [] fetchClients [tick; listenForLogs]
    (clientsMsg sampleClients) listed [] (A_clients _ (Ok sampleClients)) eq_refl).
Qed.

Definition asked : TUIModel (any := nat) :=
  default NewModel (ask "aaaa0000" "guest" "10.0.0.1:5000" (set_m_selectedIdx 0 listed)).

Lemma tui_never_panics_witness :
  ureach (listed, tick :: listenForLogs :: []) /\
  is_Some (handleKeyPress (at_second 41) (fun _ => false) (keyOf "K") listed) /\
  Inv listed.
Proof.
  split; [exact listed_reach|].
  destruct (tui_never_panics listed _ listed_reach) as (HI & Hk & _).
  split; [apply Hk|exact HI].
Defined.

Example question :
  handleKeyPress (at_second 41) (fun _ => false) (keyOf "K") listed = Some (asked, []).
Proof. vm_compute. reflexivity. Qed.

Lemma shutdown_confirmed_witness : exists m',
  Update (at_second 42) (fun _ => false) (KeyMsg (keyOf "y")) asked =
    Some (m', [shutdownClient "aaaa0000"]) /\
  m_viewMode asked = ViewConfirm.
Proof.
  eexists. split; [reflexivity|].
  destruct (shutdown_confirmed (at_second 42) (fun _ => false) (KeyMsg (keyOf "y")) asked _
    [shutdownClient "aaaa0000"] "aaaa0000" eq_refl (list_elem_of_here _ _))
    as (k & q & _ & _ & Hv & _). exact Hv.
Defined.

(** The client selected, the first, has become the last. *)
Definition sampleAgain : list ClientInfo :=
  [sampleClient "aaaa0000" "disconnected" (at_second 10) (at_second 15);
   sampleClient "cccc0000" "active" (at_second 30) zeroTime;
   sampleClient "bbbb0000" "disconnected" (at_second 5) (at_second 20)].

Lemma selection_follows_witness : exists m' c',
  onClients (at_second 43) sampleAgain listed = Some m' /\ m_selectedIdx listed = 0 /\
  at_ (m_clients m') (m_selectedIdx m') = Some c' /\ Info_ID _ c' = "aaaa0000"%string.
Proof.
  destruct (selection_follows (at_second 43) sampleAgain listed
    (sampleClient "aaaa0000" "active" (at_second 10) zeroTime)
    (proj1 (ureach_ok _ listed_reach)) ltac:(vm_compute; reflexivity)
    ltac:(discriminate) ltac:(vm_compute; constructor)) as (m' & c' & rows & E & _ & Hc & Hid & _).
  exists m', c'. split; [exact E|]. split; [reflexivity|]. split; [exact Hc|exact Hid].
Defined.

(** The client has become the last. *)
Example selection_moves : m_selectedIdx <$> onClients (at_second 43) sampleAgain listed = Some 2.
Proof. vm_compute. reflexivity. Qed.

(** *** What runs can come to *)

(** Clients that are shutting down are equal to the disconnected ones, among which the
    newest should come first: they separate those. *)
Example shutting_down_separates :
  map (Info_ID _) (sliceStable clientLess
    [sampleClient "old" "disconnected" zeroTime (at_second 1);
     sampleClient "closing" "shutting_down" zeroTime zeroTime;
     sampleClient "new" "disconnected" zeroTime (at_second 2)]) = ["old"; "closing"; "new"]%string.
Proof. vm_compute. reflexivity. Qed.

(** The stream of a disconnected client has ended and the view was left: the state of the
    probe stays, and is the one the next error on the way to another stream leaves shown. *)
Definition watched (c : option nat) : TUIModel (any := nat) :=
  set_m_viewMode ViewProbe (set_m_probeState (Some (newProbeState "bbbb0000" 7 c [] 0 true)) listed).

Example ended_stream_stays :
  (m' ← (onProbeEnd (at_second 44) (watched (Some 7%nat))).1 :: [];
   match handleProbeKeys (at_second 45) (keyOf "q") m' with
   | Some (m2, _) => [(m_viewMode m2, ps_clientID <$> m_probeState m2)]
   | None => []
   end) = [(ViewList, Some "bbbb0000"%string)].
Proof. vm_compute. reflexivity. Qed.

Example error_shows_old_stream :
  let m := onError (at_second 46) "no such client" (set_m_viewMode ViewProbe (watched None)) in
  m_viewMode m = ViewProbe /\ ps_clientID <$> m_probeState m = Some "bbbb0000"%string.
Proof. vm_compute. by split. Qed.

(** The stream ends while the user decides on the file name: there is nothing left to save. *)
Example end_loses_logs :
  match handleProbeKeys (at_second 47) (keyOf "s") (watched (Some 7%nat)) with
  | Some (m, _) =>
      saveProbeLogsToFile_result (fun _ _ => Ok ()) (onProbeEnd (at_second 48) m).1
      = errorMsg "save state or probe state not initialized"
  | None => False
  end.
Proof. vm_compute. reflexivity. Qed.
End Sample.
