(* ===== verification/Session.v ===== *)
(** * A session of the terminal interface

    [tui/model.go] at a client of the API: the commands that the interface starts are calls of
    the client that [tui.Run] is given, whatever it is, and come back as messages in any
    order, while keys are pressed and the server goes on. *)

From S2P Require Import Prelude Bytes Fields Times Config Stats LogBuffers Sorting Server Sse Loading Urls Answers ApiClient.
From S2P Require Import Layout Runes Tui.

Open Scope Z_scope.

Section Session.
Context {any : Type} `{Terminal any} `{StableSort} {S : Type} `{!APIClient S any}.

(** What a command does: the model when it runs, the server before and after, the message. A
    stream that is started is a channel at once; the rest of the commands do not call the
    server. *)
Inductive performs (m : TUIModel (any := any)) : Cmd (any := any) -> S -> Msg (any := any) -> S -> Prop :=
| P_clients s r s' : api_GetClients s = (r, s') -> performs m fetchClients s (fetchClients_result r) s'
| P_detail id s r s' : api_GetClientDetail id s = (r, s') ->
    performs m (fetchClientDetail id) s (fetchClientDetail_result r) s'
| P_shutdown id s r s' : api_ShutdownClient id "TUI shutdown" s = (r, s') ->
    performs m (shutdownClient id) s (shutdownClient_result r) s'
| P_stream id logs n d ctx s : performs m (startProbeStreamWithState id logs n d) s
    (startProbeStream_result ctx (Ok ()) id logs n d) (api_StreamProbeLogEntries id s).2
| P_probe next s : performs m listenForProbeLog s (listenForProbeLog_result next m) s
| P_log e s : performs m listenForLogs s (logMsg e) s
| P_tick s : performs m tick s tickMsg s
| P_reconnect id logs n s : performs m (reconnectLater id logs n) s (reconnectProbeMsg id logs n) s
| P_save write s : performs m saveProbeLogsToFile s (saveProbeLogsToFile_result write m) s.

(** [ss_confirmed]: the clients whose question was answered with yes; [ss_called]: those that
    the server was asked to shut down, both from the first. *)
Record Session : Type := {
  ss_model : TUIModel (any := any);
  ss_pending : list (Cmd (any := any));
  ss_server : S;
  ss_confirmed : list string;
  ss_called : list string
}.

Definition confirmation (k : key) (m : TUIModel (any := any)) : list string :=
  if hit k ["y"; "enter"] && bool_decide (m_viewMode m = ViewConfirm)
  then match m_confirmState m with Some q => [cs_clientID q] | None => [] end
  else [].

Definition asks (c : Cmd (any := any)) : list string := match c with shutdownClient id => [id] | _ => [] end.

Inductive sessionStep (x : Session) : Session -> Prop :=
| SS_key now ex k m' cs : Update now ex (KeyMsg k) (ss_model x) = Some (m', cs) ->
    sessionStep x {| ss_model := m'; ss_pending := ss_pending x ++ cs; ss_server := ss_server x;
                     ss_confirmed := ss_confirmed x ++ confirmation k (ss_model x); ss_called := ss_called x |}
| SS_size w h m' : onWindowSize w h (ss_model x) = Some m' ->
    sessionStep x {| ss_model := m'; ss_pending := ss_pending x;
                                 ss_server := ss_server x; ss_confirmed := ss_confirmed x; ss_called := ss_called x |}
| SS_command now ex p1 c p2 msg s' m' cs : ss_pending x = p1 ++ c :: p2 -> performs (ss_model x) c (ss_server x) msg s' ->
    Update now ex msg (ss_model x) = Some (m', cs) ->
    sessionStep x {| ss_model := m'; ss_pending := p1 ++ p2 ++ cs; ss_server := s';
                     ss_confirmed := ss_confirmed x; ss_called := ss_called x ++ asks c |}
| SS_render now : sessionStep x {| ss_model := expire now (ss_model x); ss_pending := ss_pending x;
                                   ss_server := ss_server x; ss_confirmed := ss_confirmed x; ss_called := ss_called x |}
| SS_detail lines : sessionStep x {| ss_model := (detailWindow lines (ss_model x)).2; ss_pending := ss_pending x;
                                     ss_server := ss_server x; ss_confirmed := ss_confirmed x; ss_called := ss_called x |}
| SS_forward as_string log q : sessionStep x {| ss_model := (forwardLog as_string log q (ss_model x)).2;
    ss_pending := ss_pending x; ss_server := ss_server x; ss_confirmed := ss_confirmed x; ss_called := ss_called x |}
| SS_server s' : sessionStep x {| ss_model := ss_model x; ss_pending := ss_pending x; ss_server := s';
                                  ss_confirmed := ss_confirmed x; ss_called := ss_called x |}.

Inductive session (s : S) : Session -> Prop :=
| session_start : session s {| ss_model := NewModel; ss_pending := Init; ss_server := s; ss_confirmed := []; ss_called := [] |}
| session_step x x' : session s x -> sessionStep x x' -> session s x'.

(** ** What is asked of the server *)

(** How often a client is named. *)
Definition times (id : string) (l : list string) : nat := length (List.filter (String.eqb id) l).

Definition calls (cs : list (Cmd (any := any))) : list string := flat_map asks cs.

Lemma times_app id l l' : times id (l ++ l') = (times id l + times id l')%nat.
Proof. unfold times. by rewrite List.filter_app, length_app. Qed.

Lemma times_0 id l : id ∉ l -> times id l = 0%nat.
Proof.
  unfold times. induction l as [|x l IH]; [done|]. rewrite not_elem_of_cons. intros [Hx Hl]. cbn [List.filter].
  apply String.eqb_neq in Hx. rewrite Hx. auto.
Qed.

Lemma in_calls id cs : id ∈ calls cs <-> shutdownClient id ∈ cs.
Proof.
  unfold calls. rewrite !list_elem_of_In, in_flat_map. split.
  - intros (c & Hc & Hin). destruct c; try done. by destruct Hin as [->|[]].
  - intros Hin. exists (shutdownClient id). split; [done|]. by left.
Qed.

Lemma hit_other k l l' : hit k l = true -> (forall n, n ∈ l -> n ∉ l') -> hit k l' = false.
Proof. unfold hit. intros Hk%bool_decide_eq_true Hd. apply bool_decide_eq_false. auto. Qed.

(** A key asks for what it confirms. *)
Lemma key_calls now ex k m m' cs : Update now ex (KeyMsg k) m = Some (m', cs) -> calls cs = confirmation k m.
Proof.
  intros HU. unfold confirmation. destruct (decide (m_viewMode m = ViewConfirm)) as [Hv|Hv].
  2: { rewrite (bool_decide_eq_false_2 (m_viewMode m = ViewConfirm)), andb_false_r by done.
    pose proof (handleKeyPress_quiet now ex k m Hv) as Hq. cbn [Update] in HU.
    destruct (calls cs) as [|id l] eqn:E; [done|]. exfalso.
    apply (quiet_in _ _ _ id Hq HU), in_calls. rewrite E. by left. }
  rewrite bool_decide_true, andb_true_r by done. cbn [Update] in HU. unfold handleKeyPress in HU. rewrite Hv in HU.
  rewrite (bool_decide_eq_false_2 (ViewConfirm = ViewList)), andb_false_r, orb_false_r in HU by done.
  destruct (hit k ["ctrl+c"]) eqn:E1.
  { rewrite (hit_other k ["ctrl+c"] ["y"; "enter"]) by (done || set_solver). by simplify_eq. }
  unfold handleConfirmKeys in HU. destruct (hit k ["ctrl+c"; "q"; "esc"; "n"]) eqn:E2.
  { rewrite (hit_other k _ ["y"; "enter"] E2) by set_solver. by injection HU as <- <-. }
  destruct (hit k ["y"; "enter"]); [|by injection HU as <- <-].
  destruct (m_confirmState m); by injection HU as <- <-.
Qed.

Lemma answer_no_key (m : TUIModel (any := any)) c msg k : answers m c msg -> msg <> KeyMsg k.
Proof.
  destruct 1; try done; try (by destruct r);
    unfold listenForProbeLog_result, saveProbeLogsToFile_result; repeat case_match; done.
Qed.

(** An answer asks for nothing of the kind. *)
Lemma answer_calls now ex (m : TUIModel (any := any)) c msg m' cs : answers m c msg -> Update now ex msg m = Some (m', cs) -> calls cs = [].
Proof.
  intros Ha HU. destruct (calls cs) as [|id l] eqn:E; [done|]. exfalso.
  assert (Hin : shutdownClient id ∈ cs) by (apply in_calls; rewrite E; by left).
  destruct (shutdown_asked now ex msg m m' cs id HU Hin) as (k & q & E1 & _).
  by destruct (answer_no_key m c msg k Ha).
Qed.

Lemma performs_answers (m : TUIModel (any := any)) c s msg s' : performs m c s msg s' -> answers m c msg.
Proof. destruct 1; constructor. Qed.

End Session.

(** ** A session, run *)

Section Sample.
Local Existing Instance sampleTerminal.
Local Existing Instance insertionStable.

(** A server that lists the clients of [Tui]'s examples and writes down who is to be shut down. *)
Local Instance recording : APIClient (list string) nat := {|
  api_GetConfig := throw "no configuration"%string; api_PutConfigFromFile := fun _ => throw "no configuration"%string;
  api_PutConfig := fun _ => throw "no configuration"%string; api_DiffConfigFromFile := fun _ => throw "no configuration"%string;
  api_ReloadConfig := throw "no configuration"%string; api_GetClients := fun s => (Ok sampleClients, s);
  api_GetClientDetail := fun _ => throw "client not found"%string;
  api_ShutdownClient := fun id reason s => (Ok (), s ++ [(id +:+ ": " +:+ reason)%string]);
  api_StreamProbeLogEntries := fun _ s => ([], s); api_StreamServerLogs := fun s => ([], s) |}.

(** The list comes in, the first client is chosen, the question answered, the call made. *)
Lemma sampleSession : exists x, session [] x /\ ss_server x = ["aaaa0000: TUI shutdown"%string] /\
  ss_confirmed x = ["aaaa0000"%string] /\ ss_called x = ["aaaa0000"%string].
Proof.
  eexists. split.
  - eapply session_step; [eapply session_step; [eapply session_step; [eapply session_step; [apply session_start|]|]|]|].
    + eapply (SS_command _ (at_second 40) (fun _ => false) []); [reflexivity|apply P_clients; reflexivity|reflexivity].
    + eapply (SS_key _ (at_second 41) (fun _ => false) (keyOf "K")). exact question.
    + eapply (SS_key _ (at_second 42) (fun _ => false) (keyOf "y")). vm_compute. reflexivity.
    + eapply (SS_command _ (at_second 43) (fun _ => false) [tick; listenForLogs]);
        [reflexivity|apply P_shutdown; reflexivity|vm_compute; reflexivity].
  - vm_compute. done.
Qed.

End Sample.
