(* ===== verification/View.v ===== *)
(** * The views of the terminal interface

    [tui/view.go], [formatClientRow] of [tui/format.go]: the text of every view. An index
    or a slice out of range is a panic, [None]; [View] also gives the model that rendering
    leaves. Iterating over a map takes its entries in some order, which the text is shown
    not to depend on. *)

From stdpp Require Import pretty sorting.
From S2P Require Import Prelude Fields Times Stats LogBuffers Sorting Server Sse Layout Runes Numbers Tui.

Open Scope Z_scope.

(** The comparison of [sort.StringSlice]. *)
Definition stringLess (s t : string) : bool := String.ltb s t.

(** Methods by their counts, then by their names. *)
Definition methodLess (x y : string * Z) : bool :=
  if negb (x.2 =? y.2) then y.2 <? x.2 else stringLess x.1 y.1.

(** The loop over [i] in steps of 80, of at most [n] turns. *)
Fixpoint chunks (n : nat) (i : Z) (errMsg : string) : option (list string) :=
  match n with
  | O => Some []
  | S n' =>
      let length := Z.of_nat (String.length errMsg) in
      if i <? length then
        line ← slice i (Z.min (i + 80) length) errMsg;
        lines ← chunks n' (i + 80) errMsg;
        Some (line :: lines)
      else Some []
  end.

(** A turn takes a character at least. *)
Definition wrapError (errMsg : string) : option string :=
  if (80 <? String.length errMsg)%nat then Join <$> chunks (String.length errMsg) 0 errMsg else Some errMsg.

(** [l[a:b]]. *)
Definition sub {A} (a b : Z) (l : list A) : option (list A) :=
  if (0 <=? a) && (a <=? b) && (b <=? len l)
  then Some (take (Z.to_nat (b - a)) (drop (Z.to_nat a) l)) else None.

Section View.
Context {any : Type} `{Terminal any} `{StableSort}.
Implicit Types (m : TUIModel (any := any)).

Definition formatStatusWithColor (status : string) : string :=
  let padded := padRight 8 (formatStatus status) in
  if String.eqb status "active" then Render ActiveStatus padded
  else if String.eqb status "shutting_down" then Render ShutdownStatus padded
  else padded.

Definition formatClientRow (now : Time) (c : ClientInfo) (selected : bool) : option string :=
  shortID ← formatID (Info_ID _ c);
  user ← truncate (Info_User _ c) 8;
  vhost ← truncate (Info_VirtualHost _ c) 8;
  address ← formatAddress (Info_ClientAddress _ c);
  Some ((if selected then ">" else " ") +:+ " " +:+ padRight 10 shortID +:+ " "
    +:+ padRight 8 user +:+ " " +:+ padRight 8 vhost +:+ " " +:+ padRight 21 address +:+ " "
    +:+ formatStatusWithColor (Info_Status _ c) +:+ " "
    +:+ padRight 10 (formatDuration (Since now (Info_ConnectedAt _ c))) +:+ " "
    +:+ padRight 8 (formatNumber (getStatValue (Info_Stats _ c) "total_methods")) +:+ " "
    +:+ padRight 8 (formatNumber (getStatValue (Info_Stats _ c) "total_frames"))).

(** [a / b], which panics when [b] is 0. *)
Definition quotient (a b : Z) : option Z := if b =? 0 then None else Some (Z.quot a b).

(** ** The list *)

Definition renderHeader m : string :=
  let active := length (List.filter (fun c => String.eqb (Info_Status _ c) "active") (m_clients m)) in
  let text := "Active Clients: " +:+ pretty (Z.of_nat active) +:+ "  Total: "
    +:+ pretty (len (m_clients m)) +:+ "  Last Update: " +:+ TimeOfDay (m_lastUpdate m) in
  Render Header (if 0 <? m_droppedLogs m
                 then text +:+ "  Dropped logs: " +:+ pretty (m_droppedLogs m) else text).

Definition tableHeader : string :=
  "ID         User     VHost    Address              Status    Connected  Methods  Frames".

Definition tableRow (now : Time) m (i : Z) : option string :=
  client ← at_ (m_clients m) i;
  row ← formatClientRow now client (i =? m_selectedIdx m);
  Some (if i =? m_selectedIdx m then Render SelectedRow row else row).

Definition renderTable (now : Time) m : option string :=
  if len (m_clients m) =? 0 then Some (Render TableBox "No clients connected")
  else
    visibleRows ← getVisibleRows m;
    window ← tableWindow m;
    let '(startIdx, endIdx) := window in
    rows ← mapM (tableRow now m) (seqZ startIdx (endIdx - startIdx));
    let rule := String.concat "" (repeat "─"%string (String.length tableHeader)) in
    let result := Render TableBox (Join (tableHeader :: rule :: rows)) in
    if visibleRows <? len (m_clients m) then
      totalPages ← quotient (len (m_clients m) + visibleRows - 1) visibleRows;
      currentPage ← quotient (m_listScroll m) visibleRows;
      Some (result +:+ newline +:+ Render ScrollInfo (" [" +:+ pretty (startIdx + 1) +:+ "-"
        +:+ pretty endIdx +:+ " of " +:+ pretty (len (m_clients m)) +:+ " clients, page "
        +:+ pretty (currentPage + 1) +:+ "/" +:+ pretty totalPages +:+ "]"))
    else Some result.

Definition renderLogPane m : option string :=
  match m_logEntries m with
  | [] => Some (Render LogPaneBox (Render DebugDim "Logs (waiting...)"))
  | entries =>
      logLines ← mapM (fun e => formatLogEntry m e false) (lastn 3 entries);
      Some (Render LogPaneBox
        (Join (Render DebugDim ("Logs (" +:+ pretty (len entries) +:+ " total):") :: logLines)))
  end.

Definition renderHelp : string :=
  Render Help "↑↓/kj navigate • PgUp/PgDn page • Enter info • p probe • l logs • Shift+K shutdown • r refresh • q quit".

(** The messages that are shown for a while. *)
Definition errorShown (now : Time) m : option string :=
  match m_err m with
  | Some e => if Since now (m_errorTime m) <? errorToastDuration then Some ("Error: " +:+ e) else None
  | None => None
  end.

Definition successShown (now : Time) m : option string :=
  if negb (String.eqb (m_successMsg m) "") && (Since now (m_successTime m) <? successToastDuration)
  then Some (m_successMsg m) else None.

(** [b.WriteString] of what is there. *)
Definition lineOf (s : style) (o : option string) : string :=
  match o with Some t => newline +:+ Render s t | None => EmptyString end.

Definition renderListView (now : Time) m : option (string * TUIModel) :=
  table ← renderTable now m;
  logs ← renderLogPane m;
  error ← match errorShown now m with Some e => Some <$> wrapError e | None => Some None end;
  Some (renderHeader m +:+ newline +:+ newline +:+ table +:+ newline +:+ logs
        +:+ newline +:+ renderHelp
        +:+ lineOf ErrorText error
        +:+ lineOf SuccessText (successShown now m), expire now m).

(** ** The details of a client *)

(** The keys of the properties that are not empty, sorted; [order] is what iterating over
    the map gives. *)
Definition propertyKeys (order : list string) : list string :=
  sliceStable stringLess (List.filter (fun k => negb (String.eqb k "")) order).

Definition topMethods (order : list (string * Z)) : list (string * Z) :=
  take 5 (sliceStable methodLess order).

Definition field_line (name value : string) : string := name +:+ value +:+ newline.

Definition propertyLines (props : Table) : string :=
  match props with
  | None | Some [] => EmptyString
  | Some t =>
      newline +:+ field_line "Client Properties:" ""
      +:+ String.concat "" (map (fun k => field_line ("  " +:+ k +:+ ": ")
            (match tget k t with Some v => Sprint v | None => "<nil>" end))
          (propertyKeys (map fst t)))
  end.

Definition statLines (st : StatsSnapshot) : string :=
  newline +:+ field_line "Statistics:" ""
  +:+ field_line "  Started: " (DateTime (StatsSnapshot_StartedAt st) +:+ " ("
        +:+ StatsSnapshot_Duration st +:+ " ago)")
  +:+ field_line "  Total Methods: " (formatNumber (StatsSnapshot_TotalMethods st))
  +:+ field_line "  Received Frames: " (formatNumber (StatsSnapshot_ReceivedFrames st))
  +:+ field_line "  Sent Frames: " (formatNumber (StatsSnapshot_SentFrames st))
  +:+ field_line "  Total Frames: " (formatNumber (StatsSnapshot_TotalFrames st))
  +:+ (if decide (StatsSnapshot_Methods st = ∅) then EmptyString
       else newline +:+ field_line "Method Statistics:" ""
            +:+ String.concat "" (map (fun mc => field_line ("  " +:+ mc.1 +:+ ": ") (pretty mc.2))
                (topMethods (map_to_list (StatsSnapshot_Methods st))))).

Definition detailText (now : Time) (c : FullClientInfo) : option string :=
  shortID ← formatID (Info_ID _ c);
  Some (Render Header ("Client Details: " +:+ shortID) +:+ newline +:+ newline
  +:+ field_line "ID: " (Info_ID _ c)
  +:+ field_line "User: " (Info_User _ c)
  +:+ field_line "Virtual Host: " (Info_VirtualHost _ c)
  +:+ field_line "Address: " (Info_ClientAddress _ c)
  +:+ field_line "Status: " (formatStatus (Info_Status _ c))
  +:+ (if String.eqb (Info_ShutdownReason _ c) "" then EmptyString
       else field_line "Shutdown Reason: " (Info_ShutdownReason _ c))
  +:+ field_line "Connected: " (DateTime (Info_ConnectedAt _ c) +:+ " ("
        +:+ formatDuration (Since now (Info_ConnectedAt _ c)) +:+ ")")
  +:+ field_line "Client Banner: " (Info_ClientBanner _ c)
  +:+ propertyLines (Info_ClientProperties _ c)
  +:+ match Info_Stats _ c with Some st => statLines st | None => EmptyString end
  +:+ newline
  +:+ Render Help "Press ESC/q to go back • ↑↓/kj to scroll • Home/End • p probe • Shift+K shutdown").

Definition renderDetailView (now : Time) m : option (string * TUIModel) :=
  match m_clientDetail m with
  | None => Some ("No client selected"%string, m)
  | Some client =>
      text ← detailText now client;
      let lines := SplitLines text in
      let maxScroll := Z.max (len lines - Z.max (m_height m - 4) 10) 0 in
      let '((startLine, endLine), m) := detailWindow (len lines) m in
      scrolled ← sub startLine endLine lines;
      let scrollInfo :=
        if 0 <? maxScroll then newline +:+ Render ScrollInfo (" [" +:+ pretty (m_detailScroll m + 1)
          +:+ "/" +:+ pretty (maxScroll + 1) +:+ "]") else EmptyString in
      Some (Join scrolled +:+ scrollInfo, m)
  end.

Definition renderConfirmView m : string :=
  match m_confirmState m with
  | None => EmptyString
  | Some cs => "Confirm Shutdown" +:+ newline +:+ newline +:+ cs_message cs +:+ newline +:+ newline
               +:+ "Press 'y' to confirm, 'n' to cancel"
  end.

(** ** Logs *)

(** The lines of the entries shown, and their numbers when there are others. *)
Definition logLines (logCount : Z) (r : renderResult) : string :=
  String.concat "" (map (fun l => l +:+ newline) (renderedLines r))
  +:+ (if len (renderedLines r) <? logCount
       then newline +:+ Render ScrollInfo (" [" +:+ pretty (startIdx r + 1) +:+ "-" +:+ pretty (endIdx r)
              +:+ " of " +:+ pretty logCount +:+ " logs]")
       else EmptyString).

(** The closures that format the entry of an index: another index panics. *)
Definition formatAt {A} (l : list A) (f : A -> bool -> option string) (i : Z) (sel : bool) : option string :=
  entry ← at_ l i; f entry sel.

Definition probeFormat m (log : ProbeLogEntry (any := any)) (sel : bool) : option string :=
  logLine ← formatProbeLogLine m log;
  Some (if sel then Render Selected logLine else logLine).

(** The channel of a stream that was started is there. *)
Definition renderProbeView (now : Time) m : option string :=
  match m_probeState m with
  | None => Some "Loading probe stream..."%string
  | Some ps =>
      let logCount := len (ps_logs ps) in
      shortID ← formatID (ps_clientID ps);
      latest ← (if 0 <? logCount then
                  log ← at_ (ps_logs ps) (logCount - 1);
                  Some (" • Latest: " +:+ TimeOfDay (ProbeLogEntry_Timestamp log))
                else Some EmptyString);
      body ← (if logCount =? 0 then
                Some ("Waiting for probe logs..." +:+ newline
                  +:+ Render DebugDim ("Debug: State initialized for " +:+ ps_clientID ps +:+ " • Channel ready")
                  +:+ newline)
              else
                logLines logCount <$> renderLogsWithWrapping logCount (getProbeVisibleRows m)
                  (formatAt (ps_logs ps) (probeFormat m)) (ps_scroll ps) (ps_selectedIdx ps));
      Some (Render Header ("Probe Logs: " +:+ shortID) +:+ newline +:+ newline
      +:+ Render StatusDim ("Logs: " +:+ pretty logCount +:+ latest) +:+ newline +:+ newline
      +:+ body +:+ newline
      +:+ Render Help ("Press ESC/q to go back • ↑↓/kj to scroll • Home/End • PgUp/PgDn page • SPACE pause • s save"
            +:+ (if ps_autoScroll ps then " • Auto-scroll: ON" else " • Auto-scroll: OFF"))
      +:+ lineOf ErrorText (errorShown now m) +:+ lineOf SuccessText (successShown now m))
  end.

Definition renderServerLogsView m : option string :=
  let logCount := len (m_logEntries m) in
  let text := "Server Logs (" +:+ pretty logCount +:+ " total)" in
  let text := if 0 <? m_droppedLogs m then text +:+ " • dropped " +:+ pretty (m_droppedLogs m) else text in
  body ← (if logCount =? 0 then Some ("No server logs yet..." +:+ newline)
          else logLines logCount <$> renderLogsWithWrapping logCount (getServerLogsVisibleRows m)
                 (formatAt (m_logEntries m) (formatLogEntry m))
                 (m_serverLogsScroll m) (m_serverLogsSelectedIdx m));
  Some (Render Header text +:+ newline +:+ newline +:+ body +:+ newline
  +:+ Render ScrollInfo "Press ESC/q to go back • ↑↓/kj to scroll • Home/End • PgUp/PgDn page").

Definition renderSaveConfirmView m : option string :=
  match m_saveState m with
  | None => Some "Error: save state not initialized"%string
  | Some ss =>
      path ← (if ss_editing ss then
                ba ← cut (ss_filePath ss) (ss_cursorPos ss);
                Some (ba.1 +:+ Render Cursor " " +:+ ba.2)
              else Some (ss_filePath ss));
      Some (Render Header "Save Probe Logs to File" +:+ newline +:+ newline
        +:+ "File path: " +:+ path +:+ newline +:+ newline
        +:+ match m_probeState m with
            | Some ps => "Logs to save: " +:+ pretty (len (ps_logs ps)) +:+ " entries" +:+ newline +:+ newline
            | None => EmptyString
            end
        +:+ Render ScrollInfo
              (if ss_editing ss then "Type to edit path • ESC to stop editing • ENTER to confirm"
               else if ss_overwriteConfirm ss
               then "File exists: ENTER to overwrite • e edit path • ESC/n cancel"
               else "ENTER to save • e to edit path • ESC/n to cancel"))
  end.

Definition View (now : Time) m : option (string * TUIModel) :=
  match m_viewMode m with
  | ViewList => renderListView now m
  | ViewDetail => renderDetailView now m
  | ViewConfirm => Some (renderConfirmView m, m)
  | ViewProbe => (fun t => (t, m)) <$> renderProbeView now m
  | ViewServerLogs => (fun t => (t, m)) <$> renderServerLogsView m
  | ViewSaveConfirm => (fun t => (t, m)) <$> renderSaveConfirmView m
  end.
End View.

(** ** Rendering does not panic *)

Section Proofs.
Context {any : Type} `{Terminal any} `{StableSort}.
Implicit Types (m : TUIModel (any := any)).

Lemma at_some {A} (l : list A) i : 0 <= i < len l -> is_Some (at_ l i).
Proof.
  unfold at_, len. intros Hi. destruct (Z.ltb_spec i 0); [lia|]. apply lookup_lt_is_Some. lia.
Qed.

Lemma mapM_some {A B} (f : A -> option B) l : (forall x, x ∈ l -> is_Some (f x)) -> is_Some (mapM f l).
Proof. intros Hf. by apply mapM_is_Some, Forall_forall. Qed.

Lemma chunks_some n i errMsg : 0 <= i -> is_Some (chunks n i errMsg).
Proof.
  revert i; induction n as [|n IH]; intros i Hi; cbn [chunks]; [by eexists|].
  destruct (Z.ltb_spec i (Z.of_nat (String.length errMsg))); [|by eexists].
  destruct (slice_some i (Z.min (i + 80) (Z.of_nat (String.length errMsg))) errMsg) as (t & -> & _); [lia..|].
  destruct (IH (i + 80)) as [ls ->]; [lia|]. by eexists.
Qed.

Lemma wrapError_some e : is_Some (wrapError e).
Proof.
  unfold wrapError. case_match; [|by eexists].
  destruct (chunks_some (String.length e) 0 e) as [ls ->]; [done|]. by eexists.
Qed.

Lemma formatClientRow_some now c sel : is_Some (formatClientRow now c sel).
Proof.
  unfold formatClientRow. destruct (formatID_some (Info_ID _ c)) as (? & -> & _).
  destruct (truncate_some (Info_User _ c) 8) as (? & -> & _); [done|].
  destruct (truncate_some (Info_VirtualHost _ c) 8) as (? & -> & _); [done|].
  destruct (formatAddress_some (Info_ClientAddress _ c)) as (? & -> & _). by eexists.
Qed.

Lemma renderTable_some now m : Inv m -> is_Some (renderTable now m).
Proof.
  intros HI. unfold renderTable. destruct (Z.eqb_spec (len (m_clients m)) 0); [by eexists|].
  pose proof (inv_list _ HI) as [_ Hs]. unfold tableWindow.
  destruct (getVisibleRows_some m) as (v & -> & Hv). cbn [mbind option_bind].
  set (endIdx := Z.min _ _).
  destruct (mapM_some (tableRow now m) (seqZ (m_listScroll m) (endIdx - m_listScroll m))) as [rows ->].
  { intros i [Hi1 Hi2]%elem_of_seqZ. unfold tableRow. destruct (at_some (m_clients m) i) as [c ->]; [lia|].
    destruct (formatClientRow_some now c (i =? m_selectedIdx m)) as [row E]. cbn [mbind option_bind].
    rewrite E. by eexists. }
  cbn [mbind option_bind]. case_match; [|by eexists]. unfold quotient.
  destruct (Z.eqb_spec v 0); [lia|]. by eexists.
Qed.

Lemma renderLogPane_some m : is_Some (renderLogPane m).
Proof.
  unfold renderLogPane. destruct (m_logEntries m) as [|e l]; [by eexists|].
  destruct (mapM_some (fun e => formatLogEntry m e false) (lastn 3 (e :: l))) as [ts ->]; [|by eexists].
  intros x _. apply formatLogEntry_some.
Qed.

Lemma renderListView_some now m : Inv m -> exists text, renderListView now m = Some (text, expire now m).
Proof.
  intros HI. unfold renderListView. destruct (renderTable_some now m HI) as [t ->].
  destruct (renderLogPane_some m) as [ls ->]. cbn [mbind option_bind].
  destruct (errorShown now m) as [e|]; [destruct (wrapError_some e) as [w ->]|]; by eexists.
Qed.

(** The views of logs: what is formatted is an entry. *)
Lemma renderLogs_at {A} (l : list A) f rows scroll sel : (forall a b, is_Some (f a b)) ->
  is_Some (renderLogsWithWrapping (len l) rows (formatAt l f) scroll sel).
Proof.
  intros Hf. apply (renderLogs_some _ _ _ (fun i b => default EmptyString (formatAt l f i b))); [|apply len_nonneg].
  intros i b Hi. unfold formatAt. destruct (at_some l i Hi) as [a ->]. cbn [mbind option_bind].
  by destruct (Hf a b) as [t ->].
Qed.

Lemma renderProbeView_some now m : is_Some (renderProbeView now m).
Proof.
  unfold renderProbeView. destruct (m_probeState m) as [ps|]; [|by eexists].
  destruct (formatID_some (ps_clientID ps)) as (t & -> & _). cbn [mbind option_bind].
  destruct (renderLogs_at (ps_logs ps) (probeFormat m) (getProbeVisibleRows m) (ps_scroll ps)
    (ps_selectedIdx ps)) as [r ->].
  { intros a b. unfold probeFormat. destruct (formatProbeLogLine_some m a) as [x ->]. by eexists. }
  pose proof (len_nonneg (ps_logs ps)). destruct (Z.ltb_spec 0 (len (ps_logs ps))).
  - destruct (at_some (ps_logs ps) (len (ps_logs ps) - 1)) as [log ->]; [lia|].
    destruct (Z.eqb_spec (len (ps_logs ps)) 0); [lia|]. by eexists.
  - destruct (Z.eqb_spec (len (ps_logs ps)) 0); [|lia]. by eexists.
Qed.

Lemma renderServerLogsView_some m : is_Some (renderServerLogsView m).
Proof.
  unfold renderServerLogsView. destruct (len (m_logEntries m) =? 0); [simpl; by eexists|].
  destruct (renderLogs_at (m_logEntries m) (formatLogEntry m) (getServerLogsVisibleRows m)
    (m_serverLogsScroll m) (m_serverLogsSelectedIdx m)) as [r ->]; [|by eexists].
  intros a b. apply formatLogEntry_some.
Qed.

Lemma sub_some {A} a b (l : list A) : 0 <= a -> a <= b -> b <= len l -> is_Some (sub a b l).
Proof.
  intros H1 H2 H3. unfold sub. rewrite (proj2 (Z.leb_le 0 a)), (proj2 (Z.leb_le a b)),
    (proj2 (Z.leb_le b (len l))) by done. by eexists.
Qed.

Lemma renderDetailView_some now m : 0 <= m_detailScroll m -> exists text n,
  renderDetailView now m = Some (text, (detailWindow n m).2) \/ renderDetailView now m = Some (text, m).
Proof.
  intros Hd. unfold renderDetailView. destruct (m_clientDetail m) as [c|]; [|eexists _, 0; by right].
  assert (Ht : is_Some (detailText now c)).
  { unfold detailText. destruct (formatID_some (Info_ID _ c)) as (? & -> & _). by eexists. }
  destruct Ht as [text ->]. cbn [mbind option_bind].
  set (lines := SplitLines _). pose proof (len_nonneg lines) as Hn.
  exists (Join (default [] (sub (detailWindow (len lines) m).1.1 (detailWindow (len lines) m).1.2 lines))
    +:+ (if 0 <? Z.max (len lines - Z.max (m_height m - 4) 10) 0 then
      newline +:+ Render ScrollInfo (" [" +:+ pretty (m_detailScroll (detailWindow (len lines) m).2 + 1)
          +:+ "/" +:+ pretty (Z.max (len lines - Z.max (m_height m - 4) 10) 0 + 1) +:+ "]")
      else EmptyString)), (len lines). left.
  assert (Hs : is_Some (sub (detailWindow (len lines) m).1.1 (detailWindow (len lines) m).1.2 lines)).
  { unfold detailWindow. cbn [fst snd]. case_match eqn:E; cbn [m_detailScroll set_m_detailScroll];
      [|apply Z.ltb_ge in E]; apply sub_some; lia. }
  destruct (detailWindow (len lines) m) as [[a b] m']. cbn [fst snd] in *. destruct Hs as [l ->]. done.
Qed.

Lemma renderSaveConfirmView_some m : all save_ok (m_saveState m) -> is_Some (renderSaveConfirmView m).
Proof.
  unfold renderSaveConfirmView. destruct (m_saveState m) as [ss|]; [|by eexists]. intros Hs.
  destruct (ss_editing ss); [|by eexists].
  destruct (cut_ok (ss_filePath ss) (ss_cursorPos ss) Hs) as (a & b & -> & _). by eexists.
Qed.

(** C37: in every state that a run of the interface leads to the current view can be drawn:
    no index of a list, no slice of a list or of a text and no division is out of range,
    whatever the texts and the width of the window; and drawing leaves a state that a run
    leads to. *)
Theorem view_never_panics now m p : ureach (m, p) ->
  exists text m', View now m = Some (text, m') /\ ureach (m', p).
Proof.
  intros Hr. pose proof (proj1 (ureach_ok _ Hr)) as HI. simpl in HI. unfold View.
  destruct (m_viewMode m).
  - destruct (renderListView_some now m HI) as [t ->].
    eexists _, _. split; [done|]. by eapply ureach_step; [|constructor].
  - destruct (renderDetailView_some now m (inv_detail _ HI)) as (text & n & [->| ->]).
    + eexists _, _. split; [done|]. by eapply ureach_step; [|constructor].
    + by eexists _, _.
  - by eexists _, _.
  - destruct (renderProbeView_some now m) as [t ->]. by eexists _, _.
  - destruct (renderServerLogsView_some m) as [t ->]. by eexists _, _.
  - destruct (renderSaveConfirmView_some m (inv_save _ HI)) as [t ->]. by eexists _, _.
Qed.
End Proofs.

(** ** The order of a map does not show *)

Lemma stringLess_asym s t : stringLess s t = true -> stringLess t s = false.
Proof. apply ltb_asym. Qed.

Lemma stringLess_total s t : stringLess s t = false -> stringLess t s = false -> s = t.
Proof. apply ltb_total. Qed.

#[export] Instance stringLess_trans : Transitive (not_after stringLess).
Proof. apply ltb_trans. Qed.

Lemma methodLess_false x y : methodLess y x = false <->
  y.2 < x.2 \/ (y.2 = x.2 /\ stringLess y.1 x.1 = false).
Proof.
  unfold methodLess. destruct (Z.eqb_spec (snd y) (snd x)) as [E|E]; simpl.
  - rewrite E. split; [by right|]. intros [?|[_ ?]]; [lia|done].
  - rewrite Z.ltb_ge. lia.
Qed.

#[export] Instance methodLess_trans : Transitive (not_after methodLess).
Proof.
  intros x y z. unfold not_after. rewrite !methodLess_false.
  intros [?|[? H1]] [?|[? H2]]; try (left; lia). right. split; [lia|].
  by apply (stringLess_trans x.1 y.1 z.1).
Qed.

Lemma methodLess_asym x y : methodLess x y = true -> methodLess y x = false.
Proof.
  intros Hl. apply methodLess_false. unfold methodLess in Hl.
  destruct (Z.eqb_spec (snd x) (snd y)) as [E|E]; simpl in Hl.
  - right. split; [done|]. by apply stringLess_asym.
  - apply Z.ltb_lt in Hl. by left.
Qed.

#[export] Instance methodLess_total : AntiSymm (=) (not_after methodLess).
Proof.
  intros [x1 x2] [y1 y2]. unfold not_after. rewrite !methodLess_false. simpl.
  intros [?|[E H1]] [?|[E2 H2]]; try lia. subst. f_equal. by apply stringLess_total.
Qed.

#[export] Instance stringLess_antisym : AntiSymm (=) (not_after stringLess).
Proof. intros s t H1 H2. by apply stringLess_total. Qed.

Section Order.
Context `{StableSort}.

(** Sorting by a comparison without ties forgets the order. *)
Lemma sliceStable_order {A} (lt : A -> A -> bool) `{!Transitive (not_after lt)}
  `{!AntiSymm (=) (not_after lt)} l l' : (forall x y, lt x y = true -> lt y x = false) ->
  l ≡ₚ l' -> sliceStable lt l = sliceStable lt l'.
Proof.
  intros Ha Hp. apply (StronglySorted_unique (not_after lt)); try by apply sliceStable_sorted.
  by rewrite !sliceStable_perm.
Qed.

Lemma propertyKeys_order ks ks' : ks ≡ₚ ks' -> propertyKeys ks = propertyKeys ks'.
Proof.
  intros Hp. apply (sliceStable_order stringLess); [apply stringLess_asym|].
  induction Hp; simpl; repeat case_match; try done; try by constructor. by etrans.
Qed.

(** The methods shown of a client are the five with the greatest counts, or all when
    there are fewer, greatest first and by name among equals: whatever order the map of
    counts is gone through, and though it differs from one drawing to the next. *)
Theorem topMethods_best (ms : gmap string Z) order : order ≡ₚ map_to_list ms ->
  topMethods order = topMethods (map_to_list ms) /\
  length (topMethods order) = Nat.min 5 (size ms) /\
  StronglySorted (not_after methodLess) (topMethods order) /\
  Forall (fun mc => ms !! mc.1 = Some mc.2) (topMethods order) /\
  forall method count, ms !! method = Some count -> (method, count) ∉ topMethods order ->
    Forall (fun mc => count <= mc.2) (topMethods order).
Proof.
  intros Hp. unfold topMethods. set (l := sliceStable methodLess order).
  assert (Hl : l ≡ₚ map_to_list ms) by (unfold l; by rewrite sliceStable_perm).
  assert (Hs : StronglySorted (not_after methodLess) l)
    by (apply sliceStable_sorted; [apply _|apply methodLess_asym]).
  rewrite <- (take_drop 5 l) in Hs. split_and!.
  - unfold l. by rewrite (sliceStable_order methodLess _ _ methodLess_asym Hp).
  - rewrite length_take, Hl. by rewrite length_map_to_list.
  - by eapply StronglySorted_app_1_l.
  - apply Forall_forall. intros [k v] Hin%elem_of_take. destruct Hin as (i & Hi & _).
    apply elem_of_map_to_list. rewrite <- Hl. by eapply list_elem_of_lookup_2.
  - intros method count Hc Hn. apply elem_of_map_to_list in Hc. rewrite <- Hl in Hc.
    rewrite <- (take_drop 5 l), elem_of_app in Hc. destruct Hc as [|Hd]; [done|].
    apply Forall_forall. intros mc Hm.
    pose proof (StronglySorted_app_1_elem_of _ _ _ _ _ Hs Hm Hd) as Hx.
    apply methodLess_false in Hx. simpl in Hx. lia.
Qed.
End Order.

(** ** Samples *)

Section Sample.
Local Existing Instance sampleTerminal.
Local Existing Instance insertionStable.

Definition sampleMethods : gmap string Z :=
  list_to_map [("Basic.Publish"%string, 7); ("Basic.Ack"%string, 7); ("Queue.Declare"%string, 1);
               ("Channel.Open"%string, 2); ("Tx.Select"%string, 0); ("Basic.Get"%string, 9)].

Lemma topMethods_best_witness :
  topMethods (reverse (map_to_list sampleMethods)) =
    [("Basic.Get", 9); ("Basic.Ack", 7); ("Basic.Publish", 7); ("Channel.Open", 2);
     ("Queue.Declare", 1)]%string.
Proof.
  destruct (topMethods_best sampleMethods (reverse (map_to_list sampleMethods))
    (reverse_Permutation _)) as [E _]. rewrite E. vm_compute. reflexivity.
Defined.

Lemma view_never_panics_witness :
  ureach (listed, tick :: listenForLogs :: []) /\ is_Some (fst <$> View (at_second 41) listed).
Proof.
  split; [exact listed_reach|].
  destruct (view_never_panics (at_second 41) listed _ listed_reach) as (t & m' & E & _).
  rewrite E. exists t. reflexivity.
Defined.

Example sample_row : tableRow (at_second 45) listed 0 =
  Some "> aaaa0000   guest    /        10.0.0.1:5000         Active   35s ago    0        0       "%string.
Proof. vm_compute. reflexivity. Qed.

(** A window that grows smaller while another view is shown, or a log entry that takes lines
    away from the list, may leave the selected row out of view until the next list of
    clients comes. *)
Definition many : TUIModel (any := nat) :=
  default NewModel (onClients (at_second 40)
    (map (fun n => sampleClient ("client" +:+ pretty n) "active" (at_second n) zeroTime) (seqZ 0 12))
    (set_m_height 24 NewModel)).

Example selected_out_of_view :
  (mc ← handleKeyPress (at_second 41) (fun _ => false) (keyOf "G") many;
   let m := mc.1 in
   let m' := onLog {| le_Time := at_second 42; le_Level := "INFO"; le_Message := "message";
                      le_Attrs := ∅; le_AttrJSON := EmptyString |} m in
   w ← tableWindow m; w' ← tableWindow m';
   Some (m_selectedIdx m, w, m_selectedIdx m', w')) = Some (11, (0, 12), 11, (0, 9)).
Proof. vm_compute. reflexivity. Qed.
End Sample.
