(* ===== verification/Connection.v ===== *)
(** * One connection from accept to close

    [handleConnection] of [server.go]: the protocol header, the handshake, the
    registration, the connections to the upstreams, the loop that serves the client, and
    what is undone however it ends. While the loop runs, its turns, those of the
    goroutines of the connection and the signals it polls interleave ([event]). The input of
    a client is finite; that a client may hold a connection for as long as it has heartbeats
    to send is shown apart ([heartbeats_hold]). *)

From S2P Require Import Prelude Bytes Fields MsgBase MsgConnection MsgChannel Methods Frames Wire Errors.
From S2P Require Import Broker Config Delivery Confirm Upstream Stats Times Instruments Health.
From S2P Require Import LogBuffers Proxy Transfer Handlers Replies Dispatch Sorting Nodes Server.
From S2P Require Import Registry Safety.

Open Scope Z_scope.

Definition amqpHeader : list byte := bytes_of "AMQP" ++ map byte_of_Z [0; 0; 9; 1].

(** How [handleConnection] ended, if it did. *)
Inductive ended : Type := Returned | Panicked | Running.

Definition ended_of (r : result goerror ()) : ended :=
  match r with Err GoPanic => Panicked | Err Hang => Running | _ => Returned end.

(** ** The loop *)

(** A turn of [process] when no signal is pending; turns of the goroutines; a new
    shutdown message, set by the server; the end of a context; the loss of an upstream. *)
Inductive event : Type :=
| EProcess
| EConfirm (channelID ui : Z) (cs : nat) (deliveryTag : Z) (ack : bool)
| EConsume (channelID : Z) (tag : string) (d : delivery) (msg : Delivery)
| EHeartbeat
| EMessage (msg : string)
| EShutdown
| EUpstreamLost (name : string).

Section Connection.
Context `{Env} `{Dialer} `{Pdq} {any : Type} `{Lru nat}.
Context (Hash : Config -> string) (ClientBanner : Proxy -> string).

(** A goroutine that fails ends alone, one that hangs keeps the lock of the writer. *)
Definition goroutineTurn (m : M ()) (w : World) : option ended * World :=
  match m w with (Err Hang, w') => (Some Running, w') | (_, w') => (None, w') end.

Definition turn (e : event) (w : World) : option ended * World :=
  match e with
  | EProcess =>
      match process w with
      | (Ok _, w') => (None, w')
      | (r, w') => (Some (ended_of r), w')
      end
  | EConfirm ch ui cs tag ack => goroutineTurn (listenConfirm ch ui cs tag ack) w
  | EConsume ch tag d msg => goroutineTurn (consume ch tag d msg) w
  | EHeartbeat => goroutineTurn heartbeatTick w
  | EMessage msg => (None, set_proxy (setShutdownMessage msg) w)
  | EShutdown => let (r, w') := shutdown w in (Some (ended_of r), w')
  | EUpstreamLost name =>
      let (r, w') := sendConnectionError ConnectionForced
                       ("Upstream connection lost: " +:+ name) w in
      (Some (ended_of r), w')
  end.

(** When the events are used up the loop still runs. *)
Fixpoint serve (es : list event) (w : World) : ended * World :=
  match es with
  | [] => (Running, w)
  | e :: es' =>
      match turn e w with
      | (Some r, w') => (r, w')
      | (None, w') => serve es' w'
      end
  end.

(** ** Before and after the loop *)

(** The server sees the proxy and its counters as they are. *)
Definition sync (i : nat) (w : World) (s : Server any) : Server any :=
  onClient i (fun c => {|
    cl_id := cl_id c; cl_addr := cl_addr c; cl_proxy := proxy w;
    cl_configHash := cl_configHash c; cl_connectedAt := cl_connectedAt c;
    cl_stats := Some (stats w); cl_buffer := cl_buffer c; cl_cancelled := cl_cancelled c |}) s.

Definition set_sv_metrics (f : Metrics -> Metrics) (s : Server any) : Server any :=
  set_managers (healthManagers s) (f (sv_metrics s)) s.

(** The deferred functions of the connection itself, the recovery last. *)
Definition leave (e : ended) (s : Server any) : Server any :=
  let s := set_sv_metrics (on_ClientConnections Gauge_Dec) s in
  match e with
  | Panicked => set_sv_metrics (on_PanicRecoveries (WithLabelValues "handleConnection" Counter_Inc)) s
  | _ => s
  end.

(** The deferred functions once there is a proxy: it is unregistered and closed. *)
Definition finish (e : ended) (i : nat) (t : Time) (w : World) (s : Server any)
  : ended * (World * Server any) :=
  let s := UnregisterProxy i t (sync i w s) in
  let '(r, (w, ms)) := CloseCounted (w, sv_metrics s) in
  let s := set_sv_metrics (fun _ => ms) s in
  let e := match r with Ok _ => e | Err _ => Panicked end in
  (e, (w, leave e s)).

Definition world_of (c : Client any) (inp : stream) (lat : list stream) : World := {|
  proxy := cl_proxy c; wire := NewWriter; input := inp; later := lat; w_calls := []; heap := [];
  stats := default (NewProxyStats zeroTime) (cl_stats c); routines := []; draws := 0 |}.

(** The identifier and the times of a connection: when the proxy is made, and when it is
    unregistered. *)
Record Occasion : Type := { oc_id : string; oc_addr : string; oc_start : Time; oc_end : Time }.

Definition connectionError (s : Server any) : Server any :=
  set_sv_metrics (on_ClientConnectionErrors Counter_Inc) s.

(** What a connection counts when it starts. *)
Definition opened (ms : Metrics) : Metrics :=
  on_ClientTotalConnections Counter_Inc (on_ClientConnections Gauge_Inc ms).

(** [None] is a world that was never made: there is no proxy yet. Once registered, the first
    characters of the hash of the proxy's configuration are logged, which panics when it has
    none. *)
Definition handleConnection (oc : Occasion) (inp : stream) (lat : list stream)
  (es : list event) (s : Server any) : ended * (option World * Server any) :=
  let s := set_sv_metrics opened s in
  let (header, rest) := ReadFull 8 inp in
  if bool_decide (header <> Ok amqpHeader) then
    (Returned, (None, leave Returned (connectionError s)))
  else
    let done (r : ended * (World * Server any)) := (r.1, (Some r.2.1, r.2.2)) in
    let (i, s) := NewProxy (oc_id oc) (oc_addr oc) (oc_start oc) s in
    match clients s !! i with
    | None => (Running, (None, s))
    | Some c =>
        match handshake (world_of c rest lat) with
        | (Err Hang, w) => (Running, (Some w, sync i w s))
        | (Err e, w) =>
            let s := if is_panic e then s else connectionError s in
            done (finish (ended_of (Err e)) i (oc_end oc) w s)
        | (Ok _, w) =>
            let s := RegisterProxy ClientBanner i (sync i w s) in
            if negb (sliceable (cl_configHash c)) then done (finish Panicked i (oc_end oc) w s)
            else
            let '(r, c) := ConnectToUpstreams (oc_addr oc) (Config_Upstreams (config s))
                             (clientProps (proxy w))
                             {| n_proxy := proxy w; n_metrics := sv_metrics s; n_coins := 0;
                                n_dials := [] |} in
            let w := set_proxy (fun _ => n_proxy c) w in
            let s := set_sv_metrics (fun _ => n_metrics c) s in
            match r with
            | Err _ => done (finish Returned i (oc_end oc) w s)
            | Ok _ =>
                match serve es w with
                | (Running, w) => (Running, (Some w, sync i w s))
                | (e, w) => done (finish e i (oc_end oc) w s)
                end
            end
        end
    end.
End Connection.

(** ** The loop ends *)

Section Liveness.
Context `{Env}.
Context (sane_conn : forall before p n e, conn_Write before p = Some (n, e) -> e <> OutOfFuel).

Definition is_signal (e : event) : bool :=
  match e with EShutdown | EUpstreamLost _ => true | _ => false end.

Lemma goroutineTurn_kept L b (m : M ()) w : triple (kept L b) (fun e => b = true /\ e = Hang) m ->
  kept L b w -> (b = true -> (goroutineTurn m w).1 = None) /\ kept L b (goroutineTurn m w).2.
Proof.
  intros Hm Hw. destruct (Hm w Hw) as [He HP]. unfold goroutineTurn.
  destruct (m w) as [[a|e] w']; [done|]. simpl in *.
  destruct e; try done. split; [|done]. intros Hb. by destruct (He Hang).
Qed.

(** A turn keeps the links; in a fine world it comes to an end. *)
Lemma turn_kept L b e w : kept L b w ->
  (b = true -> (turn e w).1 <> Some Running) /\ kept L b (turn e w).2.
Proof.
  intros Hw.
  assert (T : forall m : M (), triple (kept L b) (fun e => b = true /\ e = Hang) m ->
    (b = true -> ended_of (m w).1 <> Running) /\ kept L b (m w).2).
  { intros m Hm. destruct (Hm w Hw) as [He HP]. split; [|done]. intros Hb E.
    destruct (m w).1 as [a|[]] eqn:Em; try done. by apply (He Hang). }
  destruct e; simpl.
  - destruct (T _ (calmly_process sane_conn L b)) as [T1 T2].
    destruct (process w) as [[a|e] w']; [done|]. split; [|done].
    intros Hb. specialize (T1 Hb). simpl in *. congruence.
  - destruct (goroutineTurn_kept L b _ w (calmly_listenConfirm sane_conn L b channelID ui cs
      deliveryTag ack) Hw) as [T1 T2]. split; [|done]. intros Hb. by rewrite T1.
  - destruct (goroutineTurn_kept L b _ w (calmly_consume sane_conn L b channelID tag d msg) Hw)
      as [T1 T2]. split; [|done]. intros Hb. by rewrite T1.
  - destruct (goroutineTurn_kept L b _ w (calmly_heartbeatTick sane_conn L b) Hw)
      as [T1 T2]. split; [|done]. intros Hb. by rewrite T1.
  - split; [done|]. by eapply kept_fields.
  - destruct (T _ (calmly_shutdown sane_conn L b)) as [T1 T2].
    destruct (shutdown w) as [r w']. split; [|done]. intros Hb. specialize (T1 Hb).
    simpl in *. congruence.
  - destruct (T _ (calmly_sendConnectionError sane_conn L b ConnectionForced
      ("Upstream connection lost: " +:+ name))) as [T1 T2].
    destruct (sendConnectionError _ _ w) as [r w']. split; [|done]. intros Hb.
    specialize (T1 Hb). simpl in *. congruence.
Qed.

Lemma serve_kept L b es w : kept L b w -> kept L b (serve es w).2.
Proof.
  revert w; induction es as [|e es IH]; intros w Hw; simpl; [done|].
  destruct (turn_kept L b e w Hw) as [_ Hk]. destruct (turn e w) as [[r|] w']; [done|].
  by apply IH.
Qed.

(** C11: a connection that is cancelled, or loses an upstream, ends: in whatever way the
    turns of its loop and of its goroutines interleave and whatever bytes the client sends,
    none of them hangs, and the turn that sees the signal is the last. It takes that frames
    may carry a byte of a body at least, that what the client sends comes to an end, or a
    pause of the length of the read deadline, and that every write to the connection comes
    back ([fine], [sane_conn]); see [heartbeats_hold] for a client that does not pause. *)
Theorem serve_ends es w : fine w -> existsb is_signal es = true -> (serve es w).1 <> Running.
Proof.
  intros Hf. assert (Hw : kept (links w) true w) by done. revert Hw. clear Hf.
  generalize (links w) as L. intros L. revert w.
  induction es as [|e es IH]; intros w Hw Hs; simpl; [done|].
  destruct (turn_kept L true e w Hw) as [Hr Hk].
  destruct (turn e w) as [[r|] w'] eqn:E; simpl in *.
  - specialize (Hr eq_refl). congruence.
  - apply (IH w' Hk). apply orb_true_iff in Hs as [Hs|Hs]; [|done]. exfalso.
    destruct e; try done; simpl in E.
    + by destruct (shutdown w).
    + by destruct (sendConnectionError _ _ w).
Qed.

(** A heartbeat of the client. *)
Definition heartbeat : Frame := F_Heartbeat {| HeartbeatFrame_ChannelId := 0 |}.

Lemma recvLoop_heartbeats n fuel m hb w : Frame_Write heartbeat = Ok hb -> data (input w) = concat (replicate n hb) ->
  (n < fuel)%nat ->
  (recvLoop fuel 0 m 0 None [] w).1 = Err (onError (Wrap "frame err, read") (of_ioerr (fin (input w)))).
Proof.
  intros Hh. revert fuel w. induction n as [|n IH]; intros fuel w Hd Hf; (destruct fuel as [|fuel]; [lia|]).
  - cbn [recvLoop]. unfold wrapf, wrap, mbind, stm_bind, readClientFrame.
    destruct (input w) as [d e]. simpl in Hd |- *. subst d. done.
  - simpl in Hd. rewrite (recvLoop_step _ _ _ _ _ _ heartbeat hb _ w eq_refl Hh Hd). change (negb _) with false. cbv iota.
    cbn [Frame_canon heartbeat]. by rewrite (IH fuel (with_input _ w)) by (done || lia).
Qed.

End Liveness.

(** ** Everything is undone *)

Section Cleanup.
Context `{Env} `{Dialer} `{Pdq} {any : Type} `{Lru nat}.
Context (Hash : Config -> string) (ClientBanner : Proxy -> string).
Context (sane_conn : forall before p n e, conn_Write before p = Some (n, e) -> e <> OutOfFuel).
Implicit Types (s : Server any).

Lemma kept_links L f : (forall w, links (f w) = links w) ->
  triple (kept L false) (fun e => false = true /\ e = Hang) (modify (S := World) (E := goerror) f).
Proof. intros Hf. apply triple_modify. intros w [HL _]. split; [by rewrite Hf|done]. Qed.

Lemma calmly_handshake L : triple (kept L false) (fun e => false = true /\ e = Hang) handshake.
Proof.
  pose proof (calmly_send sane_conn L false) as Hs. pose proof (calmly_recv L false) as Hr.
  assert (Hw : forall A text (m : M A), triple (kept L false) (fun e => false = true /\ e = Hang) m ->
    triple (kept L false) (fun e => false = true /\ e = Hang) (wrapf text m)).
  { intros A text m. apply calmly_wrapf. }
  unfold handshake, recvStartOk, recvTuneOk, recvOpen, auth, authenticate.
  repeat first
    [ match goal with |- triple _ _ (_ ≫= _) => apply triple_bind; [|intros ?] end
    | match goal with |- triple _ _ (wrapf _ _) => apply Hw end
    | match goal with |- triple _ _ (modify _) => apply kept_links; intros ?; reflexivity end
    | match goal with |- triple _ _ (throw _) => apply triple_throw; by intros [? _] end
    | apply triple_ret | apply Hs | apply Hr
    | match goal with |- triple _ _ (match ?x with _ => _ end) => destruct x end ].
Qed.

(** Closing the upstreams of a proxy, all of which are connected. *)
Lemma links_connected w : Forall (fun l => is_Some l.2) (links w) ->
  Forall (fun u => is_Some (Upstream_conn u)) (upstreams (proxy w)).
Proof. intros HF. exact (proj1 (Forall_fmap link (fun l => is_Some l.2) _) HF). Qed.

Lemma CloseCounted_spec w ms : Forall (fun l => is_Some l.2) (links w) ->
  exists w', CloseCounted (w, ms) = (Ok (), (w', decs (closedDown w) ms)) /\ Proxy.Close w = (Ok (), w') /\
    upstreams (proxy w') = upstreams (proxy w).
Proof.
  intros HL%links_connected. destruct (CloseCounted_run w ms HL) as (w' & E & Eu). exists w'.
  pose proof (CloseCounted_Close w ms) as P. rewrite E in P. done.
Qed.

Lemma links_leftOpen a w : Forall (fun l => is_Some l.2) (links w) ->
  at_addr a (map fst (links w)) = (at_addr a (closedDown w) + at_addr a (leftOpen w))%nat.
Proof.
  intros HL%links_connected. rewrite <- leftOpen_closed by done. unfold links. by rewrite map_map.
Qed.

Lemma decs_counts addrs ms : ClientConnections (decs addrs ms) = ClientConnections ms /\
  ClientTotalConnections (decs addrs ms) = ClientTotalConnections ms.
Proof.
  unfold decs. induction addrs as [|a addrs IH] using rev_ind; [done|]. by rewrite foldl_snoc.
Qed.

(** What the deferred functions leave. *)
Lemma finish_spec e i t w s c b : clients s !! i = Some c -> cl_buffer c = Some b ->
  (0 < lru_size (retainedProbeLogs s))%nat ->
  Forall (fun l => is_Some l.2) (links w) ->
  let '(e', (w', s')) := finish e i t w s in
  e' = e /\ Proxy.Close w = (Ok (), w') /\
  activeProxies s' = delete (cl_id c) (activeProxies s) /\
  find (cl_id c) (lru_list (retainedProbeLogs s')) = Some i /\ is_active s' i false /\
  ClientConnections (sv_metrics s') = Gauge_Dec (ClientConnections (sv_metrics s)) /\
  ClientTotalConnections (sv_metrics s') = ClientTotalConnections (sv_metrics s) /\
  forall a, uconns a (sv_metrics s') =
    Nat.iter (at_addr a (closedDown w)) Gauge_Dec (uconns a (sv_metrics s)).
Proof.
  intros Hc Hb Hsz HL. unfold finish.
  set (s1 := UnregisterProxy i t (sync i w s)).
  assert (E1 : sv_metrics s1 = sv_metrics s /\ activeProxies s1 = delete (cl_id c) (activeProxies s)
    /\ find (cl_id c) (lru_list (retainedProbeLogs s1)) = Some i /\ is_active s1 i false).
  { unfold s1, UnregisterProxy, sync. simpl. rewrite list_lookup_alter_eq, Hc. simpl. rewrite Hb.
    simpl. split_and!; [done|done| |].
    - destruct (lru_Add_list (cl_id c) i (retainedProbeLogs s)) as [-> _]. by apply find_added.
    - exists (MarkInactive t b). split; [|done]. unfold bufferOf. simpl.
      by rewrite !list_lookup_alter_eq, Hc. }
  destruct E1 as (Em & Ea & Ef & Ei). clearbody s1. rewrite Em.
  destruct (CloseCounted_spec w (sv_metrics s) HL) as (w' & Hw' & Hcl & _).
  rewrite Hw'. simpl. split; [done|]. split; [done|].
  destruct (decs_counts (closedDown w) (sv_metrics s)) as [Ed1 Ed2].
  assert (Eu : forall a, uconns a (decs (closedDown w) (sv_metrics s)) =
    Nat.iter (at_addr a (closedDown w)) Gauge_Dec (uconns a (sv_metrics s)))
    by (intros; apply decs_value).
  destruct e; simpl; rewrite ?Ed1, ?Ed2; split_and!; done.
Qed.

(** A server that is ready for [finish]: the proxy [i], of identifier [id], has a log. *)
Definition ready (id : string) (i : nat) s : Prop :=
  (exists c b, clients s !! i = Some c /\ cl_id c = id /\ cl_buffer c = Some b) /\
  (0 < lru_size (retainedProbeLogs s))%nat.

Lemma ready_onClient id i f s : ready id i s ->
  (forall c, cl_id (f c) = cl_id c /\ (is_Some (cl_buffer c) -> is_Some (cl_buffer (f c)))) ->
  ready id i (onClient i f s).
Proof.
  intros [(c & b & Hc & Hid & Hb) Hs] Hf. split; [|done].
  destruct (Hf c) as [E1 E2]. destruct E2 as [b' Hb']; [by eexists|].
  exists (f c), b'. simpl. rewrite list_lookup_alter_eq, Hc, E1. done.
Qed.

Lemma ready_New id a t s : (0 < lru_size (retainedProbeLogs s))%nat ->
  ready id (length (clients s)) (NewProxy id a t s).2.
Proof.
  intros Hs. split; [|done]. simpl.
  rewrite lookup_app_r, Nat.sub_diag by done. simpl. by eexists _, _.
Qed.

Lemma New_fresh id a t s :
  let (i, s') := NewProxy id a t s in
  exists c, clients s' !! i = Some c /\ upstreams (cl_proxy c) = [] /\ i = length (clients s) /\
    sv_metrics s' = sv_metrics s /\ activeProxies s' = activeProxies s.
Proof. simpl. rewrite lookup_app_r, Nat.sub_diag by done. by eexists. Qed.

Lemma ready_sync id i w s : ready id i s -> ready id i (sync i w s).
Proof. intros Hr. by apply ready_onClient. Qed.

Lemma Register_spec id i s : ready id i s ->
  ready id i (RegisterProxy ClientBanner i s) /\
  activeProxies (RegisterProxy ClientBanner i s) = <[id := i]> (activeProxies s) /\
  sv_metrics (RegisterProxy ClientBanner i s) = sv_metrics s /\
  config (RegisterProxy ClientBanner i s) = config s.
Proof.
  intros Hr. pose proof Hr as [(c & b & Hc & Hid & Hb) Hs]. unfold RegisterProxy. rewrite Hc, Hid.
  split; [|done].
  apply (ready_onClient id i _ (set_active (<[id := i]> (activeProxies s)) s)); [done|].
  intros c'. split; [done|]. simpl. intros [b' ->]. by eexists.
Qed.

(** What is true once the connection has ended: [s] before, [s'] after, [w'] its world then,
    [w] when its upstreams began to be closed. *)
Definition undone (id : string) (i : nat) s (w w' : World) s' : Prop :=
  activeProxies s' = activeProxies s /\
  find id (lru_list (retainedProbeLogs s')) = Some i /\ is_active s' i false /\
  ClientConnections (sv_metrics s') = ClientConnections (sv_metrics s) /\
  ClientTotalConnections (sv_metrics s') = Counter_Inc (ClientTotalConnections (sv_metrics s)) /\
  Proxy.Close w = (Ok (), w') /\
  forall a, in_int 64 (uconns a (sv_metrics s)) = true ->
    uconns a (sv_metrics s') = swrap 64 (uconns a (sv_metrics s) + Z.of_nat (at_addr a (leftOpen w))).

(** Every upstream has a channel, or is given one. *)
Definition channelled (w : World) : Prop := forall u c, u ∈ upstreams (proxy w) -> Upstream_conn u = Some c ->
  is_Some (anyChannel (Upstream_channel u)) \/ forall cs, is_ok (respond cs (Conn_Channel c)) = true.

Lemma leftOpen_none w : Forall (fun l => is_Some l.2) (links w) -> channelled w -> leftOpen w = [].
Proof. intros HL Hg. apply closings_closed; [|done]. by apply indices_linked, links_connected. Qed.

(** [finish], when the metrics are those of [s] with the connection itself and those to
    the addresses of the upstreams counted in. *)
Lemma finish_undoes e id i t w s s2 :
  ready id i s2 -> Forall (fun l => is_Some l.2) (links w) ->
  in_int 64 (ClientConnections (sv_metrics s)) = true ->
  delete id (activeProxies s2) = activeProxies s ->
  ClientConnections (sv_metrics s2) = Gauge_Inc (ClientConnections (sv_metrics s)) ->
  ClientTotalConnections (sv_metrics s2) = Counter_Inc (ClientTotalConnections (sv_metrics s)) ->
  (forall a, uconns a (sv_metrics s2) =
     Nat.iter (at_addr a (map fst (links w))) Gauge_Inc (uconns a (sv_metrics s))) ->
  let '(e', (w', s')) := finish e i t w s2 in e' = e /\ undone id i s w w' s'.
Proof.
  intros [(c & b & Hc & Hid & Hb) Hs] HL Hg Ha Hcc Htc Hu.
  pose proof (finish_spec e i t w s2 c b Hc Hb Hs HL) as F.
  destruct (finish e i t w s2) as [e' [w' s']]. rewrite Hid in F.
  destruct F as (He & Hcl & F1 & F2 & F3 & F4 & F5 & F6). split; [done|].
  split_and!; [congruence|done|done| |congruence|done|].
  - rewrite F4, Hcc. by apply Gauge_Dec_Inc.
  - intros a Hia. rewrite F6, Hu, links_leftOpen by done. by apply iter_Dec_most.
Qed.

(** What the theorem says of a connection that has got a proxy. *)
Definition cleaned (id : string) (i : nat) s (r : ended * (World * Server any)) : Prop :=
  exists w, undone id i s w r.2.1 r.2.2 /\ (channelled w -> forall a, in_int 64 (uconns a (sv_metrics s)) = true ->
    uconns a (sv_metrics r.2.2) = uconns a (sv_metrics s)).

Lemma cleaned_finish e id i t w s s2 :
  (let '(e', (w', s')) := finish e i t w s2 in e' = e /\ undone id i s w w' s') ->
  Forall (fun l => is_Some l.2) (links w) -> cleaned id i s (finish e i t w s2).
Proof.
  intros F HL. exists w. destruct (finish e i t w s2) as [e' [w' s']]. destruct F as [_ F].
  split; [exact F|]. intros Hc a Ha. destruct F as (_ & _ & _ & _ & _ & _ & F). simpl. rewrite F by done.
  rewrite leftOpen_none by done. by rewrite Z.add_0_r, swrap_small.
Qed.

(** A failed handshake. *)
Lemma failed_undoes e id i t w s s2 :
  ready id i s2 -> sv_metrics s2 = opened (sv_metrics s) -> activeProxies s2 = activeProxies s ->
  activeProxies s !! id = None -> in_int 64 (ClientConnections (sv_metrics s)) = true ->
  links w = [] ->
  cleaned id i s (finish (ended_of (Err e)) i t w (if is_panic e then s2 else connectionError s2)).
Proof.
  intros Hr Em2 Ea2 Ha Hg HL. set (s3 := if is_panic e then s2 else connectionError s2).
  assert (ready id i s3) as Hr3 by (unfold s3; by destruct (is_panic e)).
  assert (sv_metrics s3 = opened (sv_metrics s) \/
    sv_metrics s3 = on_ClientConnectionErrors Counter_Inc (opened (sv_metrics s))) as Em3
    by (unfold s3; rewrite <- Em2; destruct (is_panic e); [by left|by right]).
  assert (activeProxies s3 = activeProxies s) as Ea3
    by (unfold s3; rewrite <- Ea2; by destruct (is_panic e)).
  clearbody s3. apply cleaned_finish; [|by rewrite HL]. apply finish_undoes; [done|by rewrite HL|done| | | |].
  - rewrite Ea3. by apply delete_id.
  - by destruct Em3 as [-> | ->].
  - by destruct Em3 as [-> | ->].
  - intros a. rewrite HL. by destruct Em3 as [-> | ->].
Qed.

(** After [ConnectToUpstreams], [c1] what it leaves; [w2] has its upstreams. *)
Lemma connected_undoes e id i t addr confs props p ms w2 s s3 :
  let c1 := (ConnectToUpstreams addr confs props
               {| n_proxy := p; n_metrics := ms; n_coins := 0; n_dials := [] |}).2 in
  upstreams p = [] -> ms = opened (sv_metrics s) -> ready id i s3 ->
  activeProxies s3 = <[id := i]> (activeProxies s) -> activeProxies s !! id = None ->
  in_int 64 (ClientConnections (sv_metrics s)) = true ->
  links w2 = map link (upstreams (n_proxy c1)) ->
  cleaned id i s (finish e i t w2 (set_sv_metrics (fun _ => n_metrics c1) s3)).
Proof.
  intros c1. subst c1. intros Hp -> Hr Ea3 Ha Hg HL2.
  set (c0 := {| n_proxy := p; n_metrics := opened (sv_metrics s); n_coins := 0; n_dials := [] |}) in *.
  pose proof (connect_counts addr confs props c0) as Hcon.
  pose proof (connect_clientCounts addr confs props c0) as Hcc.
  destruct (ConnectToUpstreams addr confs props c0) as [r c1]. simpl in Hcon, Hcc, HL2 |- *.
  destruct Hcon as (us & Eus & Hv & Hconn & _). rewrite Hp in Eus. simpl in Eus.
  rewrite Eus in HL2. injection Hcc as Hcc1 Hcc2 _.
  assert (HF : Forall (fun l => is_Some l.2) (links w2)) by (rewrite HL2; by apply Forall_fmap).
  apply cleaned_finish; [|done]. apply finish_undoes; [done|done|done| | | |].
  - simpl. by rewrite Ea3, delete_insert_id.
  - exact Hcc1.
  - exact Hcc2.
  - intros a. simpl. rewrite Hv, HL2, map_map. done.
Qed.

(** A proxy that is registered, but not connected yet. *)
Lemma registered_undoes e id i t w s s3 :
  ready id i s3 -> sv_metrics s3 = opened (sv_metrics s) -> activeProxies s3 = <[id := i]> (activeProxies s) ->
  activeProxies s !! id = None -> in_int 64 (ClientConnections (sv_metrics s)) = true -> links w = [] ->
  cleaned id i s (finish e i t w s3).
Proof.
  intros Hr Em Ea Ha Hg HL. apply cleaned_finish; [|by rewrite HL].
  apply finish_undoes; [done|by rewrite HL|done| | | |].
  - by rewrite Ea, delete_insert_id.
  - by rewrite Em.
  - by rewrite Em.
  - intros a. by rewrite HL, Em.
Qed.

(** C5: however a connection ends, by a header that is none, a failed handshake, a
    configuration without a hash, no upstream, an error or a panic of any turn, a lost
    upstream, a shutdown: afterwards the proxy is not registered, its log is kept, marked
    inactive, the gauge of client connections is what it was, and one more connection was
    counted. The gauges of the connections to the upstreams are what they were, and those of
    the upstreams that had no channel for the clean-ups when their turn came and were refused
    one ([leftOpen]) one more each; there are none of these when every upstream has a
    channel or is given one. The identifier given to the proxy is one that is not in use. *)
Theorem connection_cleans_up oc inp lat es s :
  activeProxies s !! oc_id oc = None -> (0 < lru_size (retainedProbeLogs s))%nat ->
  in_int 64 (ClientConnections (sv_metrics s)) = true ->
  let '(e, (w, s')) := handleConnection ClientBanner oc inp lat es s in
  e <> Running ->
  match w with
  | Some w' => exists w0, undone (oc_id oc) (length (clients s)) s w0 w' s' /\
      (channelled w0 -> forall a, in_int 64 (uconns a (sv_metrics s)) = true ->
         uconns a (sv_metrics s') = uconns a (sv_metrics s))
  | None => clients s' = clients s /\ activeProxies s' = activeProxies s /\
      ClientConnections (sv_metrics s') = ClientConnections (sv_metrics s) /\
      ClientConnectionErrors (sv_metrics s') = Counter_Inc (ClientConnectionErrors (sv_metrics s))
  end.
Proof.
  intros Ha Hs Hg. unfold handleConnection.
  set (s1 := set_sv_metrics opened s). destruct (ReadFull 8 inp) as [header rest].
  destruct (bool_decide (header <> Ok amqpHeader)).
  { intros _. do 2 (split; [reflexivity|]). split; [|reflexivity].
    etransitivity; [|apply Gauge_Dec_Inc; exact Hg]. reflexivity. }
  pose proof (ready_New (oc_id oc) (oc_addr oc) (oc_start oc) s1 Hs) as Hr.
  pose proof (New_fresh (oc_id oc) (oc_addr oc) (oc_start oc) s1) as Hn.
  destruct (NewProxy (oc_id oc) (oc_addr oc) (oc_start oc) s1) as [i s2].
  destruct Hn as (c & Hc & Hus & Hi & Em2 & Ea2). cbn [snd] in Hr. rewrite Hc. change (length (clients s1)) with (length (clients s)) in *.
  rewrite <- Hi in *.
  assert (Hk : kept [] false (world_of c rest lat)) by (split; [|done]; unfold links; simpl; by rewrite Hus).
  destruct (calmly_handshake [] _ Hk) as [_ [HL _]].
  destruct (handshake (world_of c rest lat)) as [[[]|e] w]; simpl in HL.
  2: { pose proof (failed_undoes e (oc_id oc) i (oc_end oc) w s s2 Hr Em2 Ea2 Ha Hg HL) as G.
       destruct e; first [intros E; exfalso; exact (E eq_refl) | intros _; exact G]. }
  pose proof (Register_spec (oc_id oc) i (sync i w s2) (ready_sync _ _ w _ Hr))
    as (Hr3 & Ea3 & Em3 & _).
  set (s3 := RegisterProxy ClientBanner i (sync i w s2)) in *. clearbody s3.
  destruct (negb (sliceable (cl_configHash c))).
  { intros _. exact (registered_undoes Panicked (oc_id oc) i (oc_end oc) w s s3 Hr3 (eq_trans Em3 Em2)
      (eq_trans Ea3 (f_equal _ Ea2)) Ha Hg HL). }
  assert (Enil : upstreams (proxy w) = []) by by apply map_eq_nil in HL.
  pose proof (fun e w2 => connected_undoes e (oc_id oc) i (oc_end oc) (oc_addr oc)
    (Config_Upstreams (config s3)) (clientProps (proxy w)) (proxy w) (sv_metrics s3) w2 s s3 Enil
    (eq_trans Em3 Em2) Hr3 (eq_trans Ea3 (f_equal _ Ea2)) Ha Hg) as Hfin.
  cbv zeta in Hfin. destruct (ConnectToUpstreams _ _ _ _) as [r c1]. simpl in Hfin.
  set (w1 := set_proxy _ w). destruct r as [[]|err]; [|intros _; exact (Hfin Returned w1 eq_refl)].
  assert (Hk1 : kept (links w1) false w1) by done.
  pose proof (serve_kept sane_conn _ _ es w1 Hk1) as [HL2 _].
  destruct (serve es w1) as [e w2]. pose proof (Hfin e w2 HL2) as G. clear Hfin.
  destruct e; first [intros E; exfalso; exact (E eq_refl) | intros _; exact G].
Qed.
End Cleanup.

(** ** One connection, run *)

#[local] Existing Instance listLru.
#[local] Existing Instance insertionPdq.
#[local] Existing Instance acceptingEnv.
#[local] Existing Instance refusingDialer.

Definition okBytes {E} (r : result E (list byte)) : list byte :=
  match r with Ok bs => bs | Err _ => [] end.

(** What a client sends: header, handshake and a [channel.open]. *)
Definition sampleInput : stream := Stream
  (amqpHeader ++
   flat_map (fun f => okBytes (Frame_Write f))
     [methodFrame 0 (M_ConnectionStartOk sampleStartOk);
      methodFrame 0 (M_ConnectionTuneOk sampleTuneOk);
      methodFrame 0 (M_ConnectionOpen sampleOpen);
      methodFrame 1 (M_ChannelOpen (mkChannelOpen ""))]) EOF.

Definition sampleOccasion : Occasion :=
  {| oc_id := "p4"; oc_addr := "client:4"; oc_start := at_sec 45; oc_end := at_sec 50 |}.

Definition sampleTurns : list event :=
  [EProcess; EHeartbeat; EMessage ShutdownMsgConfigUpdate; EShutdown; EProcess].

Definition sampleConnection (es : list event) : ended * (option World * Server nat) :=
  handleConnection sampleBanner sampleOccasion sampleInput [Stream [] EOF] es sampleServer.

(** The gauges while the connection is served, and after it was shut down. *)
Example sampleConnection_gauges :
  let counts (r : ended * (option World * Server nat)) := let ms := sv_metrics r.2.2 in
    (r.1, uconns "n2:5672" ms, ClientConnections ms, ClientTotalConnections ms,
     map fst (map_to_list (activeProxies r.2.2))) in
  counts (sampleConnection [EProcess]) = (Running, 1, 1, 1, ["p1"; "p2"; "p4"])%string /\
  counts (sampleConnection sampleTurns) = (Returned, 0, 0, 1, ["p1"; "p2"])%string.
Proof. by vm_compute. Qed.

Lemma accepting_sane before p n e : conn_Write before p = Some (n, e) -> e <> OutOfFuel.
Proof. done. Qed.

Lemma serve_ends_witness : exists w, (sampleConnection [EProcess]).2.1 = Some w /\
  (serve [EProcess; EHeartbeat; EUpstreamLost "primary"; EHeartbeat] w).1 <> Running.
Proof.
  destruct (sampleConnection [EProcess]).2.1 as [w|] eqn:E; [|by vm_compute in E].
  exists w. split; [done|]. apply (serve_ends accepting_sane); [|done].
  assert (F : match (sampleConnection [EProcess]).2.1 with
    | Some w => (8 < frameMax (p_tuned (proxy w))) /\
        Forall (fun s => fin s <> OutOfFuel) (input w :: later w) /\ werr (wire w) <> Some OutOfFuel
    | None => True
    end) by (vm_compute; by repeat constructor).
  rewrite E in F. destruct F as (F1 & F2 & F3). by constructor.
Defined.


Lemma connection_cleans_up_witness :
  exists w w0, (sampleConnection sampleTurns).2.1 = Some w /\
    undone "p4" 3 sampleServer w0 w (sampleConnection sampleTurns).2.2 /\
    uconns "n2:5672" (sv_metrics (sampleConnection sampleTurns).2.2) = uconns "n2:5672" (sv_metrics sampleServer).
Proof.
  assert (E : (sampleConnection sampleTurns).1 = Returned) by (vm_compute; reflexivity).
  assert (Ew : is_Some (sampleConnection sampleTurns).2.1) by (vm_compute; eexists; reflexivity).
  assert (P1 : activeProxies sampleServer !! oc_id sampleOccasion = None) by (vm_compute; reflexivity).
  assert (P2 : (0 < lru_size (retainedProbeLogs sampleServer))%nat) by (apply (bool_decide_unpack _); vm_compute; exact I).
  assert (P3 : in_int 64 (ClientConnections (sv_metrics sampleServer)) = true) by (vm_compute; reflexivity).
  revert E Ew. unfold sampleConnection.
  pose proof (connection_cleans_up sampleBanner accepting_sane sampleOccasion
    sampleInput [Stream [] EOF] sampleTurns sampleServer P1 P2 P3) as R. revert R.
  destruct (handleConnection _ _ _ _ _ _) as [e [w s']]. cbn [fst snd].
  intros R -> [w' ->]. destruct (R ltac:(discriminate)) as (w0 & U & L). exists w', w0. split; [reflexivity|].
  split; [exact U|]. apply L; [|reflexivity]. intros u k _ _. right. intros cs. reflexivity.
Defined.
