(* ===== verification/Fleet.v ===== *)
(** * All connections at once

    The connections that a server has accepted, each in a phase of [handleConnection], and
    the requests that are made to the server, in any interleaving. The proxies are shared
    between connections and server: every step of a connection finds the proxy as the
    server knows it ([adopt]) and leaves it there ([sync]). *)

From S2P Require Import Prelude Bytes Fields Errors Broker Config Upstream Stats Times Instruments Health.
From S2P Require Import LogBuffers Wire Proxy Dispatch Sorting Nodes Server Registry Safety Connection.

Open Scope Z_scope.

(** Where a connection is: its header not read; a proxy made, before the handshake; after
    it, registered; connected to the upstreams; on the way out, registered or not; no
    longer registered; its upstreams closed; over. [i] is the number of its proxy; [open] are
    the addresses of upstreams that closing has left connected. *)
Inductive phase : Type :=
| Accepted
| Greeted (i : nat) (w : World)
| Registered (i : nat) (w : World)
| Serving (i : nat) (w : World)
| Leaving (registered : bool) (e : ended) (i : nat) (w : World)
| Closing (e : ended) (i : nat) (w : World)
| Closed (e : ended) (open : list string)
| Gone (e : ended) (open : list string).

Section Fleet.
Context {any : Type} `{Lru nat} (Hash : Config -> string) (ClientBanner : Proxy -> string).

(** [fl_stopped]: the context of the server has ended. *)
Record Fleet : Type := { fl_server : Server any; fl_conns : list phase; fl_stopped : bool }.

Definition put (j : nat) (p : phase) (s : Server any) (f : Fleet) : Fleet :=
  {| fl_server := s; fl_conns := <[j := p]> (fl_conns f); fl_stopped := fl_stopped f |}.

(** The proxy as the server has it: a shutdown message may be new. *)
Definition adopt (i : nat) (s : Server any) (w : World) : World :=
  match clients s !! i with Some c => set_proxy (fun _ => cl_proxy c) w | None => w end.

(** What an event of the loop needs: the context ends when the server has cancelled it, or
    with the server's own; messages come from the server. *)
Definition allowed (e : event) (i : nat) (f : Fleet) : Prop :=
  match e with
  | EMessage _ => False
  | EShutdown => fl_stopped f = true \/ cl_cancelled <$> (clients (fl_server f) !! i) = Some true
  | _ => True
  end.

(** Requests to the server, the entries of the logs, and what the health checks count. A
    reload may panic, but not in the goroutine that ends the process ([Boot]). *)
Inductive request : Server any -> Server any -> Prop :=
| R_Log s i l : request s (onClient i (fun c =>
    set_cl_buffer (ProbeLogBuffer_Add l <$> cl_buffer c) c) s)
| R_GetBuffer s id : request s (GetProbeLogBuffer id s).2
| R_GetInfo s id t : request s (GetClientInfo ClientBanner id t s).2
| R_GetInfos `{Pdq} s t : request s (GetClientsInfo ClientBanner t s).2
| R_Shutdown s id r : request s (ShutdownProxy id r s).2
| R_Reload `{Limiter} s ctx e l r s' : reloadConfigFromFile Hash ctx e l s = (r, s') ->
    (forall c, r <> Reloaded c GoroutinePanics) -> request s s'
| R_DisconnectAll `{Limiter} s : request s (disconnectAllProxies s).2
| R_Init s ctx e : request s (initHealthManagers ctx e s)
| R_Health s m : request s (set_sv_metrics (report m) s).

(** The start of [ConnectToUpstreams]. *)
Definition connecting (w : World) (s : Server any) : Connecting :=
  {| n_proxy := proxy w; n_metrics := sv_metrics s; n_coins := 0; n_dials := [] |}.

(** The environment of a step is any where a write to the client comes back, with an error
    of the program's own. *)
Definition sound (E : Env) : Prop :=
  forall before p n e, conn_Write before p = Some (n, e) -> e <> OutOfFuel.

(** The configuration of proxy [i] has a hash that can be shown. *)
Definition shown (i : nat) (s : Server any) : bool :=
  from_option (fun c => sliceable (cl_configHash c)) false (clients s !! i).

Inductive fstep (f : Fleet) : Fleet -> Prop :=
| F_accept : fstep f {| fl_server := set_sv_metrics opened (fl_server f);
                        fl_conns := fl_conns f ++ [Accepted]; fl_stopped := fl_stopped f |}
| F_refuse j inp : fl_conns f !! j = Some Accepted -> (ReadFull 8 inp).1 <> Ok amqpHeader ->
    fstep f (put j (Closed Returned []) (connectionError (fl_server f)) f)
| F_greet j id a t inp rest lat i s' c : fl_conns f !! j = Some Accepted ->
    ReadFull 8 inp = (Ok amqpHeader, rest) -> id ∉ map cl_id (clients (fl_server f)) -> NewProxy id a t (fl_server f) = (i, s') ->
    clients s' !! i = Some c -> fstep f (put j (Greeted i (world_of c rest lat)) s' f)
| F_handshake (E : Env) j i w w' : sound E -> fl_conns f !! j = Some (Greeted i w) ->
    handshake (adopt i (fl_server f) w) = (Ok (), w') ->
    fstep f (put j (Registered i w') (RegisterProxy ClientBanner i (sync i w' (fl_server f))) f)
| F_handshake_fails (E : Env) j i w w' e : sound E -> fl_conns f !! j = Some (Greeted i w) ->
    handshake (adopt i (fl_server f) w) = (Err e, w') -> e <> Hang ->
    let s := sync i w' (fl_server f) in
    fstep f (put j (Leaving false (ended_of (Err e)) i w') (if is_panic e then s else connectionError s) f)
| F_unhashed j i w : fl_conns f !! j = Some (Registered i w) -> shown i (fl_server f) = false ->
    fstep f (put j (Leaving true Panicked i (adopt i (fl_server f) w)) (fl_server f) f)
| F_connect (D : Dialer) (P : Pdq) j i w addr r c : fl_conns f !! j = Some (Registered i w) ->
    shown i (fl_server f) = true ->
    let w1 := adopt i (fl_server f) w in
    ConnectToUpstreams addr (Config_Upstreams (config (fl_server f))) (clientProps (proxy w1))
      (connecting w1 (fl_server f)) = (r, c) ->
    let w2 := set_proxy (fun _ => n_proxy c) w1 in
    fstep f (put j (if is_ok r then Serving i w2 else Leaving true Returned i w2)
               (set_sv_metrics (fun _ => n_metrics c) (sync i w2 (fl_server f))) f)
| F_turn (E : Env) j i w e w' : sound E -> fl_conns f !! j = Some (Serving i w) ->
    allowed e i f -> turn e (adopt i (fl_server f) w) = (None, w') ->
    fstep f (put j (Serving i w') (sync i w' (fl_server f)) f)
| F_turn_ends (E : Env) j i w e r w' : sound E -> fl_conns f !! j = Some (Serving i w) ->
    allowed e i f -> turn e (adopt i (fl_server f) w) = (Some r, w') -> r <> Running ->
    fstep f (put j (Leaving true r i w') (sync i w' (fl_server f)) f)
| F_unregister j b e i w t : fl_conns f !! j = Some (Leaving b e i w) ->
    fstep f (put j (Closing e i (adopt i (fl_server f) w)) (UnregisterProxy i t (fl_server f)) f)
| F_close (E : Env) j e i w r w' ms : sound E -> fl_conns f !! j = Some (Closing e i w) ->
    CloseCounted (w, sv_metrics (fl_server f)) = (r, (w', ms)) ->
    fstep f (put j (Closed (if is_ok r then e else Panicked) (leftOpen w)) (set_sv_metrics (fun _ => ms) (fl_server f)) f)
| F_leave j e open : fl_conns f !! j = Some (Closed e open) ->
    fstep f (put j (Gone e open) (leave e (fl_server f)) f)
| F_request s' : request (fl_server f) s' ->
    fstep f {| fl_server := s'; fl_conns := fl_conns f; fl_stopped := fl_stopped f |}
| F_stop : fstep f {| fl_server := fl_server f; fl_conns := fl_conns f; fl_stopped := true |}.

Inductive freach (cfg : Config) : Fleet -> Prop :=
| freach_new : freach cfg {| fl_server := NewServer Hash cfg; fl_conns := []; fl_stopped := false |}
| freach_step f f' : freach cfg f -> fstep f f' -> freach cfg f'.

(** Sequences of steps. *)
Inductive fsteps : Fleet -> Fleet -> Prop :=
| fsteps_refl f : fsteps f f
| fsteps_cons f f1 f2 : fstep f f1 -> fsteps f1 f2 -> fsteps f f2.

(** ** What a connection holds *)

Definition holds (p : phase) : option (nat * World) :=
  match p with
  | Greeted i w | Registered i w | Serving i w | Leaving _ _ i w | Closing _ i w => Some (i, w)
  | _ => None
  end.

(** The number of the proxy while it is registered. *)
Definition registered (p : phase) : option nat :=
  match p with Registered i _ | Serving i _ | Leaving true _ i _ => Some i | _ => None end.

Definition counted (p : phase) : nat := match p with Gone _ _ => 0 | _ => 1 end.

(** The connections to [a] that are open for a client: its own while it holds them, then
    those that nobody closes any more. *)
Definition abandoned (p : phase) : list string :=
  match p with Closed _ open | Gone _ open => open | _ => [] end.

Definition upstreamsTo (a : string) (p : phase) : nat :=
  match holds p with Some (_, w) => at_addr a (map fst (links w)) | None => at_addr a (abandoned p) end.
End Fleet.
Arguments Fleet any {_}.

(** ** The registry of the fleet *)

Section Refinement.
Context {any : Type} `{Lru nat} (Hash : Config -> string) (ClientBanner : Proxy -> string).
Implicit Types (f : Fleet any) (s : Server any).

(** What an update of a server leaves to a connection: identifiers, upstreams, whether the
    logs are active; the registered proxies; the counters of connections. *)
Definition core (c : Client any) : string * list (string * option Conn) * option bool :=
  (cl_id c, map link (upstreams (cl_proxy c)), IsActive <$> cl_buffer c).

Definition counts (ms : Metrics) : Z * Z * Vec :=
  (ClientConnections ms, ClientTotalConnections ms, UpstreamConnections ms).

Definition same_core s s' : Prop :=
  map core (clients s') = map core (clients s) /\ activeProxies s' = activeProxies s /\
  counts (sv_metrics s') = counts (sv_metrics s).

Lemma map_alter {A B} (g : A -> B) (h : A -> A) (k : B -> B) i (l : list A) :
  (forall a, l !! i = Some a -> g (h a) = k (g a)) -> map g (alter h i l) = alter k i (map g l).
Proof.
  intros Hg. apply list_eq. intros j. rewrite list_lookup_fmap.
  destruct (decide (i = j)) as [<-|Hne].
  - rewrite !list_lookup_alter_eq, list_lookup_fmap. specialize (Hg).
    destruct (l !! i) as [a|] eqn:E; simpl; [|done]. by rewrite Hg.
  - by rewrite !list_lookup_alter_ne, list_lookup_fmap.
Qed.

Lemma alter_ident {A} i (l : list A) : alter (fun a => a) i l = l.
Proof. by apply list_alter_id. Qed.

Lemma onClient_core i g s : (forall c, core (g c) = core c) -> same_core s (onClient i g s).
Proof.
  intros Hg. split_and!; [|done|done]. simpl.
  rewrite (map_alter core g (fun x => x)) by auto. apply alter_ident.
Qed.

Lemma onClients_core g ts s : (forall c, core (g c) = core c) ->
  same_core s (foldl (fun s i => onClient i g s) s ts).
Proof.
  intros Hg. revert s. induction ts as [|i ts IH]; intros s; simpl; [done|].
  destruct (IH (onClient i g s)) as (E1 & E2 & E3).
  destruct (onClient_core i g s Hg) as (F1 & F2 & F3). split_and!; congruence.
Qed.

Lemma disconnect_core `{Limiter} msg r b g s : same_core s (disconnectProxies msg r b g s).2.
Proof.
  unfold disconnectProxies. simpl. set (s1 := foldl _ s (targets g s)).
  destruct (onClients_core (set_cl_proxy (setShutdownMessage msg)) (targets g s) s) as (E1 & E2 & E3);
    [done|]. fold s1 in E1, E2, E3.
  match goal with |- same_core _ (foldl _ _ ?l) => destruct (onClients_core cancel l s1) as (F1 & F2 & F3) end;
    [done|]. split_and!; congruence.
Qed.

Lemma report_counts m ms : counts (report m ms) = counts ms.
Proof. unfold report. by destruct (getHealthSummary m). Qed.

Lemma managers_core ctx e s : same_core s (initHealthManagers ctx e s).
Proof.
  unfold initHealthManagers. generalize (Config_Upstreams (config s)). intros us.
  induction us as [|u us IH] using rev_ind; simpl; [done|]. rewrite foldl_snoc.
  destruct IH as (E1 & E2 & E3). set (s1 := foldl _ _ us) in *.
  unfold startManager. destruct (NewManager u); [|done]. split_and!; [done|done|].
  rewrite <- E3. apply report_counts.
Qed.

Lemma retainedLoop_core keys s : same_core s (retainedLoop keys s).2.
Proof.
  revert s. induction keys as [|id keys IH]; intros s; [done|]. cbn [retainedLoop].
  case_bool_decide; [apply IH|]. destruct (lru_Get id (retainedProbeLogs s)) as [r c].
  pose proof (IH (set_retained c s)) as E. by destruct (retainedLoop keys (set_retained c s)).
Qed.

Lemma reload_core `{Limiter} ctx e l s : same_core s (reloadConfigFromFile Hash ctx e l s).2.
Proof.
  destruct l as [cfg|]; [|done]. unfold reloadConfigFromFile, disconnectOutdatedProxies.
  destruct (managers_core ctx e s) as (E1 & E2 & E3).
  set (s1 := UpdateConfig Hash cfg (initHealthManagers ctx e s)).
  destruct (negb _); [done|]. destruct (existsb _ _); [done|].
  pose proof (disconnect_core ShutdownMsgConfigUpdate
    (RateLimit (Config_GracefulShutdown (config s1))) (BurstSize (Config_GracefulShutdown (config s1)))
    (outdated (Hash cfg)) s1) as (F1 & F2 & F3).
  destruct (disconnectProxies _ _ _ _ s1) as [n s2]. simpl in *. split_and!; congruence.
Qed.

(** No request touches what connections rely on. *)
Lemma request_core s s' : request Hash ClientBanner s s' -> same_core s s'.
Proof.
  intros Hr. destruct Hr.
  - apply onClient_core. intros c. unfold core. simpl. by destruct (cl_buffer c).
  - unfold GetProbeLogBuffer. case_match; [done|]. by destruct (lru_Get id _).
  - unfold GetClientInfo. case_match; [done|]. by destruct (lru_Get id _).
  - unfold GetClientsInfo. pose proof (retainedLoop_core (lru_Keys (retainedProbeLogs s)) s) as E.
    by destruct (retainedLoop _ s).
  - unfold ShutdownProxy. case_match; [|done]. by apply onClient_core.
  - match goal with Hl : _ = (r, s') |- _ => pose proof (f_equal snd Hl) as E; simpl in E; rewrite <- E end.
    apply reload_core.
  - unfold disconnectAllProxies. apply disconnect_core.
  - apply managers_core.
  - split_and!; [done|done|apply report_counts].
Qed.

Lemma request_sstep s s' : request Hash ClientBanner s s' -> sstep Hash ClientBanner s s'.
Proof.
  intros Hr. destruct Hr as [| | | | |L s ctx e l r s' Hl _| | |]; [apply S_Log|apply S_GetBuffer|apply S_GetInfo|apply S_GetInfos|
    apply S_Shutdown| |apply S_DisconnectAll|apply S_Init|].
  { pose proof (f_equal snd Hl) as E. simpl in E. rewrite <- E. apply S_Reload. }
  apply (S_Metrics Hash ClientBanner _ (report _)).
Qed.

(** ** What the server counts and knows of the connections *)

Definition alive (p : phase) : bool := match p with Closing _ _ _ => false | _ => true end.
Definition early (p : phase) : bool :=
  match p with Greeted _ _ | Registered _ _ | Leaving false _ _ _ => true | _ => false end.

Definition id_at s (i : nat) : option string := cl_id <$> (clients s !! i).

Definition total (g : phase -> nat) (l : list phase) : Z := Z.of_nat (sum_list_with g l).

Record FInv s (conns : list phase) : Prop := {
  fi_conns : ClientConnections (sv_metrics s) = swrap 64 (total counted conns);
  fi_total : ClientTotalConnections (sv_metrics s) = swrap 64 (Z.of_nat (length conns));
  fi_ups : forall a, uconns a (sv_metrics s) = swrap 64 (total (upstreamsTo a) conns);
  fi_core : forall j p i w, conns !! j = Some p -> holds p = Some (i, w) ->
    (exists id, map core (clients s) !! i = Some (id, links w, Some (alive p))) /\
    Forall (fun l => is_Some l.2) (links w) /\ (early p = true -> links w = []);
  fi_own : forall j j' p p' i w w', conns !! j = Some p -> conns !! j' = Some p' ->
    holds p = Some (i, w) -> holds p' = Some (i, w') -> j = j';
  fi_active : forall id i, activeProxies s !! id = Some i <->
    id_at s i = Some id /\ exists j p, conns !! j = Some p /\ registered p = Some i
}.

Lemma id_at_core s i : id_at s i = (fun x => x.1.1) <$> (map core (clients s) !! i).
Proof. unfold id_at. rewrite list_lookup_fmap. by destruct (clients s !! i). Qed.

(** The invariant is about what requests leave alone. *)
Lemma FInv_core s s' conns : same_core s s' -> FInv s conns -> FInv s' conns.
Proof.
  intros (E1 & E2 & [= F1 F2 F3]) [I1 I2 I3 I4 I5 I6]. split; try done; try congruence.
  - intros a. unfold uconns in *. by rewrite F3.
  - intros j p i w. rewrite E1. by apply I4.
  - intros id i. rewrite id_at_core, E1, E2, <- id_at_core. apply I6.
Qed.

Lemma total_insert g l j p p' : l !! j = Some p ->
  total g (<[j := p']> l) = total g l + Z.of_nat (g p') - Z.of_nat (g p).
Proof.
  unfold total. revert j. induction l as [|x l IH]; intros [|j] Hj; simpl in *; try done.
  - injection Hj as ->. lia.
  - specialize (IH j Hj). lia.
Qed.

Lemma registered_holds p i : registered p = Some i -> exists w, holds p = Some (i, w).
Proof. destruct p as [| | | |[] | | |]; intros [= <-]; by eexists. Qed.

(** A connection goes from one phase to the next. *)
Lemma FInv_put s conns j p p' s' : FInv s conns -> conns !! j = Some p ->
  ClientConnections (sv_metrics s') =
    swrap 64 (ClientConnections (sv_metrics s) + Z.of_nat (counted p') - Z.of_nat (counted p)) ->
  ClientTotalConnections (sv_metrics s') = ClientTotalConnections (sv_metrics s) ->
  (forall a, uconns a (sv_metrics s') =
    swrap 64 (uconns a (sv_metrics s) + Z.of_nat (upstreamsTo a p') - Z.of_nat (upstreamsTo a p))) ->
  (forall i x, map core (clients s) !! i = Some x -> (forall w, holds p <> Some (i, w)) ->
     map core (clients s') !! i = Some x) ->
  (forall i, is_Some (id_at s i) -> id_at s' i = id_at s i) ->
  (forall i w, holds p' = Some (i, w) ->
     ((exists w0, holds p = Some (i, w0)) \/ (length (clients s) <= i)%nat) /\
     (exists id, map core (clients s') !! i = Some (id, links w, Some (alive p'))) /\
     Forall (fun l => is_Some l.2) (links w) /\ (early p' = true -> links w = [])) ->
  (forall id i, activeProxies s' !! id = Some i <->
     (activeProxies s !! id = Some i /\ registered p <> Some i) \/
     (registered p' = Some i /\ id_at s' i = Some id)) ->
  FInv s' (<[j := p']> conns).
Proof.
  intros [I1 I2 I3 I4 I5 I6] Hj C1 C2 C3 Hc Hid Hp Ha.
  assert (L : forall k q, (<[j := p']> conns) !! k = Some q ->
    (k = j /\ q = p') \/ (k <> j /\ conns !! k = Some q)).
  { intros k q. destruct (decide (j = k)) as [<-|Hne].
    - rewrite list_lookup_insert_eq by by eapply lookup_lt_Some. intros [= <-]. by left.
    - rewrite list_lookup_insert_ne by done. auto. }
  assert (N : forall k q i w w', conns !! k = Some q -> k <> j -> holds q = Some (i, w) ->
    holds p' = Some (i, w') -> False).
  { intros k q i w w' Hk Hne Hq Hq'. destruct (Hp i w' Hq') as [[[w0 Hw0]|Hl] _].
    - apply Hne. by eapply I5.
    - destruct (I4 k q i w Hk Hq) as [[id Hid'] _]. apply lookup_lt_Some in Hid'.
      rewrite length_map in Hid'. lia. }
  split.
  - rewrite C1, I1, (total_insert _ _ _ p) by done. unfold Z.sub. rewrite <- !Z.add_assoc.
    by rewrite swrap_idemp_l.
  - by rewrite C2, I2, length_insert.
  - intros a. rewrite C3, I3, (total_insert _ _ _ p) by done. unfold Z.sub. rewrite <- !Z.add_assoc.
    by rewrite swrap_idemp_l.
  - intros k q i w [[-> ->]|[Hne Hk]]%L Hq; [by apply Hp|].
    destruct (I4 k q i w Hk Hq) as [[id Hx] Hrest]. split; [|done]. exists id. apply Hc; [done|].
    intros w' Hw'. apply Hne. by eapply I5.
  - intros k k' q q' i w w' [[-> ->]|[Hne Hk]]%L [[-> ->]|[Hne' Hk']]%L Hq Hq'; [done| | |by eapply I5].
    + exfalso. by eapply (N k' q').
    + exfalso. by eapply (N k q).
  - intros id i. rewrite Ha. split.
    + intros [[[Hi (k & q & Hk & Hq)]%I6 Hne]|[Hr Hi]].
      * split; [by rewrite Hid|]. exists k, q. split; [|done].
        rewrite list_lookup_insert_ne; [done|]. intros ->. congruence.
      * split; [done|]. exists j, p'. split; [|done].
        by rewrite list_lookup_insert_eq by by eapply lookup_lt_Some.
    + intros [Hi (k & q & [[-> ->]|[Hne Hk]]%L & Hq)]; [by right|]. left.
      destruct (registered_holds q i Hq) as [w Hw].
      destruct (I4 k q i w Hk Hw) as [[id' Hx] _].
      assert (Hs : id_at s i = Some id') by by rewrite id_at_core, Hx.
      rewrite (Hid i), Hs in Hi by by rewrite Hs. injection Hi as ->. split.
      * apply I6. split; [done|]. eauto.
      * intros Hr. destruct (registered_holds p i Hr) as [w' Hw']. apply Hne. by eapply I5.
Qed.

(** *** Steps *)

(** The proxy of a connection, found in the server. *)
Lemma held s conns j p i w : FInv s conns -> conns !! j = Some p -> holds p = Some (i, w) ->
  exists c, clients s !! i = Some c /\ core c = (cl_id c, links w, Some (alive p)) /\
    links (adopt i s w) = links w /\
    Forall (fun l => is_Some l.2) (links w) /\ (early p = true -> links w = []).
Proof.
  intros HI Hj Hp. destruct (fi_core _ _ HI j p i w Hj Hp) as ([id Hx] & HL & He).
  rewrite list_lookup_fmap in Hx. apply fmap_Some in Hx as (c & Hc & Ec). exists c.
  unfold adopt. rewrite Hc. simpl. unfold core in *. injection Ec as E1 E2 E3.
  split_and!; try done. by rewrite E2, E3.
Qed.

Lemma sync_core i w s : map core (clients (sync i w s))
  = alter (fun x => (x.1.1, links w, x.2)) i (map core (clients s)).
Proof. apply map_alter. done. Qed.

Lemma sync_id i w s k : id_at (sync i w s) k = id_at s k.
Proof.
  rewrite !id_at_core, sync_core. destruct (decide (i = k)) as [<-|Hne].
  - rewrite list_lookup_alter_eq. by destruct (_ !! i).
  - by rewrite list_lookup_alter_ne.
Qed.

Lemma swrap_cancel a b : in_int 64 a = true -> swrap 64 (a + b - b) = a.
Proof. intros Ha. replace (a + b - b) with a by lia. by apply swrap_small. Qed.

Lemma FInv_int s conns : FInv s conns -> in_int 64 (ClientConnections (sv_metrics s)) = true /\
  forall a, in_int 64 (uconns a (sv_metrics s)) = true.
Proof.
  assert (G : forall z, in_int 64 (swrap 64 z) = true).
  { intros z. apply in_int_spec. unfold swrap.
    pose proof (Z.mod_pos_bound (z + 2 ^ (64 - 1)) (2 ^ 64)). lia. }
  intros [I1 _ I3 _ _ _]. split; [by rewrite I1|]. intros a. by rewrite I3.
Qed.

(** A step of a connection that keeps its proxy, its upstreams and the counters. *)
Lemma FInv_move s conns j p p' i w w' s' : FInv s conns -> conns !! j = Some p ->
  holds p = Some (i, w) -> holds p' = Some (i, w') -> counted p' = counted p ->
  links w' = links w -> alive p' = alive p ->
  (early p' = true -> early p = true) -> registered p' = registered p ->
  same_core (sync i w' s) s' -> FInv s' (<[j := p']> conns).
Proof.
  intros HI Hj Hp Hp' Hcnt Hu Hal He Hreg Hs.
  apply (FInv_core (sync i w' s)); [done|].
  destruct (held s conns j p i w HI Hj Hp) as (c & Hc & Ec & _ & HL & Hn).
  destruct (FInv_int _ _ HI) as [B1 B2].
  assert (Hx : map core (clients s) !! i = Some (core c)) by by rewrite list_lookup_fmap, Hc.
  eapply FInv_put; try done.
  - rewrite Hcnt. rewrite swrap_cancel by done. done.
  - intros a. unfold upstreamsTo. rewrite Hp, Hp', Hu, swrap_cancel by done. done.
  - intros k x Hk Hne. rewrite sync_core, list_lookup_alter_ne; [done|]. intros ->. by apply (Hne w).
  - intros k _. apply sync_id.
  - intros k w0 Hw0. rewrite Hp' in Hw0. injection Hw0 as <- <-. split; [left; eauto|]. split_and!.
    + exists (cl_id c). rewrite sync_core, list_lookup_alter_eq, Hx, Ec. simpl.
      by rewrite Hal.
    + by rewrite Hu.
    + intros Hy. rewrite Hu. auto.
  - intros id k. rewrite Hreg, sync_id. simpl. rewrite (fi_active _ _ HI). split.
    + intros Hx'. destruct (decide (registered p = Some k)) as [E|E]; [right; split; [done|apply Hx']|by left].
    + intros [[Hx' _]|[Hr Hi]]; [done|]. split; [done|]. eauto.
Qed.

Lemma FInv_accept s conns : FInv s conns -> FInv (set_sv_metrics opened s) (conns ++ [Accepted]).
Proof.
  intros [I1 I2 I3 I4 I5 I6].
  assert (L : forall k q, (conns ++ [Accepted]) !! k = Some q -> q = Accepted \/ conns !! k = Some q).
  { intros k q [Hk|[_ Hk]]%lookup_app_Some; [by right|]. left.
    by apply list_lookup_singleton_Some in Hk as [_ <-]. }
  assert (T : forall g, total g (conns ++ [Accepted]) = total g conns + Z.of_nat (g Accepted)).
  { intros g. unfold total. rewrite sum_list_with_app. simpl. lia. }
  split; simpl.
  - rewrite T, I1. unfold Gauge_Inc. by rewrite swrap_idemp_l.
  - rewrite I2, length_app. unfold Counter_Inc, Counter_Add. rewrite swrap_idemp_l. f_equal. simpl. lia.
  - intros a. rewrite T. change (uconns a (sv_metrics s) = swrap 64 (total (upstreamsTo a) conns + 0)).
    by rewrite I3, Z.add_0_r.
  - intros k q i w [->|Hk]%L Hq; [done|]. by eapply I4.
  - intros k k' q q' i w w' [->|Hk]%L [->|Hk']%L Hq Hq'; try done. by eapply I5.
  - intros id i. rewrite I6. split; intros [Hi (k & q & Hk & Hq)]; (split; [done|]).
    + exists k, q. split; [by apply lookup_app_l_Some|done].
    + apply L in Hk as [->|Hk]; [done|]. eauto.
Qed.

Lemma FInv_refuse s conns j : FInv s conns -> conns !! j = Some Accepted ->
  FInv (connectionError s) (<[j := Closed Returned []]> conns).
Proof.
  intros HI Hj. destruct (FInv_int _ _ HI) as [B1 B2].
  eapply (FInv_put s); try done.
  - by rewrite swrap_cancel.
  - intros a. by rewrite swrap_cancel.
  - intros id i. simpl. split; [intros ?; left; by split|]. by intros [[? _]|[? _]].
Qed.

Lemma FInv_greet s conns j id a t inp lat i s' c : FInv s conns -> conns !! j = Some Accepted ->
  NewProxy id a t s = (i, s') -> clients s' !! i = Some c ->
  FInv s' (<[j := Greeted i (world_of c inp lat)]> conns).
Proof.
  intros HI Hj [= <- <-] Hc. destruct (FInv_int _ _ HI) as [B1 B2]. simpl in Hc.
  rewrite lookup_app_r, Nat.sub_diag in Hc by done. injection Hc as <-.
  eapply (FInv_put s); try done.
  - by rewrite swrap_cancel.
  - intros b. by rewrite swrap_cancel.
  - intros k x Hk _. simpl. rewrite map_app. by apply lookup_app_l_Some.
  - intros k [id' Hk]. unfold id_at in *. simpl. apply fmap_Some in Hk as (c' & Hk & _).
    by rewrite lookup_app_l by by eapply lookup_lt_Some.
  - intros k w [= <- <-]. split; [by right|]. split_and!; [|constructor|done].
    exists id. simpl. rewrite map_app, lookup_app_r by by rewrite length_map.
    by rewrite length_map, Nat.sub_diag.
  - intros id' k. simpl. split; [intros Hk; left; by split|]. by intros [[Hk _]|[? _]].
Qed.

Lemma early_links s conns j p i w : FInv s conns -> conns !! j = Some p -> holds p = Some (i, w) ->
  early p = true -> links w = [] /\ links (adopt i s w) = [].
Proof.
  intros HI Hj Hp He. destruct (held s conns j p i w HI Hj Hp) as (c & _ & _ & -> & _ & Hn). auto.
Qed.

Lemma handshake_links (E : Env) w r w' : sound E -> links w = [] -> handshake w = (r, w') -> links w' = [].
Proof.
  intros Hs Hw Eh. assert (Hk : kept [] false w) by done.
  destruct (calmly_handshake Hs [] w Hk) as [_ [HL _]]. by rewrite Eh in HL.
Qed.

(** Identifiers are different. *)
Lemma ids_unique s i k id : NoDup (map cl_id (clients s)) -> id_at s i = Some id ->
  id_at s k = Some id -> i = k.
Proof.
  unfold id_at. intros Hn Hi Hk. eapply (NoDup_lookup (map cl_id (clients s))); [done| |];
    rewrite list_lookup_fmap; eassumption.
Qed.

(** A registered proxy is not that of a connection that is not. *)
Lemma not_registered s conns j p i w id k : NoDup (map cl_id (clients s)) -> FInv s conns ->
  conns !! j = Some p -> holds p = Some (i, w) -> registered p = None -> id_at s i = Some id ->
  activeProxies s !! id <> Some k.
Proof.
  intros Hn HI Hj Hp Hr Hid Hk. apply (fi_active _ _ HI) in Hk as [Hk (k' & q & Hk' & Hq)].
  destruct (registered_holds q k Hq) as [w2 Hw2].
  assert (i = k) as <- by by eapply ids_unique.
  assert (j = k') as <- by by eapply (fi_own _ _ HI). congruence.
Qed.

Lemma FInv_handshake (E : Env) s conns j i w w' : NoDup (map cl_id (clients s)) -> sound E ->
  FInv s conns ->
  conns !! j = Some (Greeted i w) -> handshake (adopt i s w) = (Ok (), w') ->
  FInv (RegisterProxy ClientBanner i (sync i w' s)) (<[j := Registered i w']> conns).
Proof.
  intros Hn HE HI Hj Hh. destruct (early_links s conns j _ i w HI Hj eq_refl eq_refl) as [Hl Hl'].
  pose proof (handshake_links E _ _ _ HE Hl' Hh) as Hw'. destruct (FInv_int _ _ HI) as [B1 B2].
  destruct (held s conns j _ i w HI Hj eq_refl) as (c & Hc & Ec & _).
  assert (Hx : map core (clients s) !! i = Some (core c)) by by rewrite list_lookup_fmap, Hc.
  set (s1 := sync i w' s). assert (Hc1 : exists c1, clients s1 !! i = Some c1 /\ cl_id c1 = cl_id c).
  { simpl. rewrite list_lookup_alter_eq, Hc. by eexists. }
  destruct Hc1 as (c1 & Hc1 & Hid1). unfold RegisterProxy. rewrite Hc1, Hid1.
  apply (FInv_core (set_active (<[cl_id c := i]> (activeProxies s1)) s1)).
  { apply onClient_core. intros c2. unfold core. simpl. by destruct (cl_buffer c2). }
  eapply (FInv_put s); try done; simpl.
  - by rewrite swrap_cancel.
  - intros a. unfold upstreamsTo. simpl. rewrite Hl, Hw', swrap_cancel by done. done.
  - intros k x Hk Hne. change (map core (clients s1) !! k = Some x). unfold s1.
    rewrite sync_core, list_lookup_alter_ne; [done|]. intros ->. by apply (Hne w).
  - intros k _. apply (sync_id i w' s k).
  - intros k w0 [= <- <-]. split; [left; by eexists|]. rewrite Hw'. split_and!; [|constructor|done].
    exists (cl_id c). change (map core (clients s1) !! i = Some (cl_id c, [], Some true)). unfold s1.
    by rewrite sync_core, list_lookup_alter_eq, Hx, Ec, Hw'.
  - intros id k. change (id_at _ k) with (id_at s1 k). unfold s1. rewrite sync_id.
    assert (Hid : id_at s i = Some (cl_id c)) by (unfold id_at; by rewrite Hc).
    destruct (decide (cl_id c = id)) as [<-|Hne].
    + rewrite lookup_insert_eq. split; [intros [= <-]; by right|]. intros [[Hk _]|[Hk _]]; [|done].
      exfalso. by eapply (not_registered s conns j _ i w (cl_id c) k).
    + rewrite lookup_insert_ne by done. split; [intros Hk; by left|]. intros [[Hk _]|[[= <-] Hk]]; [done|congruence].
Qed.

Lemma FInv_handshake_fails (E : Env) s conns j i w w' e : sound E -> FInv s conns ->
  conns !! j = Some (Greeted i w) -> handshake (adopt i s w) = (Err e, w') ->
  FInv (if is_panic e then sync i w' s else connectionError (sync i w' s))
    (<[j := Leaving false (ended_of (Err e)) i w']> conns).
Proof.
  intros HE HI Hj Hh. destruct (early_links s conns j _ i w HI Hj eq_refl eq_refl) as [Hl Hl'].
  pose proof (handshake_links E _ _ _ HE Hl' Hh) as Hw'.
  eapply (FInv_move s conns j _ _ i w w'); try done; [by rewrite Hl, Hw'|]. by destruct (is_panic e).
Qed.

Lemma FInv_turn (E : Env) s conns j i w e r w' p' : sound E -> FInv s conns ->
  conns !! j = Some (Serving i w) -> turn e (adopt i s w) = (r, w') ->
  p' = Serving i w' \/ (exists o, p' = Leaving true o i w') -> FInv (sync i w' s) (<[j := p']> conns).
Proof.
  intros HE HI Hj Ht Hp'. destruct (held s conns j _ i w HI Hj eq_refl) as (c & _ & _ & Hl & _).
  destruct (turn_kept HE (links (adopt i s w)) false e (adopt i s w)) as [_ [HL _]]; [done|].
  rewrite Ht in HL. simpl in HL. rewrite Hl in HL.
  destruct Hp' as [->|[o ->]]; by eapply (FInv_move s conns j _ _ i w w').
Qed.

Lemma FInv_unhashed s conns j i w : FInv s conns -> conns !! j = Some (Registered i w) ->
  FInv s (<[j := Leaving true Panicked i (adopt i s w)]> conns).
Proof.
  intros HI Hj. destruct (early_links s conns j _ i w HI Hj eq_refl eq_refl) as [Hl Hl'].
  eapply (FInv_move s conns j _ _ i w (adopt i s w)); try done; [by rewrite Hl, Hl'|].
  unfold adopt. destruct (held s conns j _ i w HI Hj eq_refl) as (c & Hc & Ec & _). rewrite Hc.
  split_and!; [|done|done]. rewrite sync_core. symmetry.
  assert (Hx : map core (clients s) !! i = Some (core c)) by by rewrite list_lookup_fmap, Hc.
  apply list_eq. intros k. destruct (decide (i = k)) as [<-|Hne].
  - rewrite list_lookup_alter_eq, Hx, Ec. simpl. rewrite Hl. do 2 f_equal.
    unfold core in Ec. injection Ec as Ek _. unfold links. simpl. by rewrite Ek, Hl.
  - by rewrite list_lookup_alter_ne.
Qed.

Lemma FInv_connect (D : Dialer) (P : Pdq) s conns j i w addr r c : FInv s conns ->
  conns !! j = Some (Registered i w) ->
  let w1 := adopt i s w in
  ConnectToUpstreams addr (Config_Upstreams (config s)) (clientProps (proxy w1)) (connecting w1 s) = (r, c) ->
  let w2 := set_proxy (fun _ => n_proxy c) w1 in
  FInv (set_sv_metrics (fun _ => n_metrics c) (sync i w2 s))
    (<[j := if is_ok r then Serving i w2 else Leaving true Returned i w2]> conns).
Proof.
  intros HI Hj w1 Hr w2. destruct (early_links s conns j _ i w HI Hj eq_refl eq_refl) as [Hl Hl'].
  destruct (held s conns j _ i w HI Hj eq_refl) as (cl & Hc & Ec & _).
  assert (Hx : map core (clients s) !! i = Some (core cl)) by by rewrite list_lookup_fmap, Hc.
  destruct (FInv_int _ _ HI) as [B1 B2].
  pose proof (connect_counts addr (Config_Upstreams (config s)) (clientProps (proxy w1)) (connecting w1 s)) as Hcon.
  pose proof (connect_clientCounts addr (Config_Upstreams (config s)) (clientProps (proxy w1)) (connecting w1 s)) as Hcc.
  rewrite Hr in Hcon, Hcc. destruct Hcon as (us & Eus & Hv & Hconn & _).
  assert (Hl2 : links w2 = map link us).
  { unfold links. simpl. rewrite Eus. simpl. apply map_eq_nil in Hl'. unfold w1. by rewrite Hl'. }
  injection Hcc as C1 C2 _. set (p' := if is_ok r then _ else _).
  assert (Hp : holds p' = Some (i, w2) /\ counted p' = 1%nat /\ alive p' = true /\ early p' = false /\
    registered p' = Some i) by (unfold p'; by destruct (is_ok r)).
  destruct Hp as (P1 & P2 & P3 & P4 & P5). clearbody p'.
  eapply (FInv_put s); try done.
  - simpl. rewrite P2, C1. by rewrite swrap_cancel.
  - intros a. unfold upstreamsTo. rewrite P1. simpl. rewrite Hl, Hl2. simpl. rewrite Z.sub_0_r.
    rewrite map_map. change (uconns a (n_metrics c) = swrap 64 (uconns a (sv_metrics s) +
      Z.of_nat (at_addr a (map Upstream_address us)))). rewrite Hv. by apply iter_Inc.
  - intros k x Hk Hne. change (map core (clients (sync i w2 s)) !! k = Some x).
    rewrite sync_core, list_lookup_alter_ne; [done|]. intros ->. by apply (Hne w).
  - intros k _. apply (sync_id i w2 s k).
  - intros k w0 Hw0. rewrite P1 in Hw0. injection Hw0 as <- <-. split; [left; by eexists|].
    rewrite P3, P4. split_and!; [|rewrite Hl2; by apply Forall_fmap|done].
    exists (cl_id cl). change (map core (clients (sync i w2 s)) !! i = Some (cl_id cl, links w2, Some true)).
    by rewrite sync_core, list_lookup_alter_eq, Hx, Ec.
  - intros id k. rewrite P5. change (id_at (set_sv_metrics _ _) k) with (id_at (sync i w2 s) k).
    rewrite sync_id. simpl. rewrite (fi_active _ _ HI). split.
    + intros Hk. destruct (decide (i = k)) as [->|Hne]; [right; split; [done|apply Hk]|left; split; [done|congruence]].
    + intros [[Hk _]|[[= <-] Hk]]; [done|]. split; [done|]. by eexists _, _.
Qed.

Lemma FInv_unregister s conns j b e i w t : NoDup (map cl_id (clients s)) -> FInv s conns ->
  conns !! j = Some (Leaving b e i w) ->
  FInv (UnregisterProxy i t s) (<[j := Closing e i (adopt i s w)]> conns).
Proof.
  intros Hn HI Hj. destruct (held s conns j _ i w HI Hj eq_refl) as (c & Hc & Ec & Hl & HL & _).
  assert (Hx : map core (clients s) !! i = Some (core c)) by by rewrite list_lookup_fmap, Hc.
  destruct (FInv_int _ _ HI) as [B1 B2]. assert (Hid : id_at s i = Some (cl_id c)) by (unfold id_at; by rewrite Hc).
  unfold UnregisterProxy. rewrite Hc. unfold core in Ec. injection Ec as Elk Eb.
  destruct (cl_buffer c) as [bf|] eqn:Hb; [|done]. simpl.
  set (s' := set_retained _ _).
  assert (Es : map core (clients s') = alter (fun x => (x.1, Some false)) i (map core (clients s))).
  { unfold s'. simpl. apply map_alter. done. }
  assert (Ei : forall k, id_at s' k = id_at s k).
  { intros k. rewrite !id_at_core, Es. destruct (decide (i = k)) as [<-|Hne];
      [rewrite list_lookup_alter_eq; by rewrite Hx|by rewrite list_lookup_alter_ne]. }
  eapply (FInv_put s); try done.
  - simpl. by rewrite swrap_cancel.
  - intros a. unfold upstreamsTo. simpl. rewrite Hl. by rewrite swrap_cancel.
  - intros k x Hk Hne. rewrite Es, list_lookup_alter_ne; [done|]. intros ->. by apply (Hne w).
  - intros k w0 [= <- <-]. split; [left; by eexists|]. rewrite Hl. split_and!; [|done|done].
    exists (cl_id c). rewrite Es, list_lookup_alter_eq, Hx. simpl. unfold core. simpl. by rewrite Elk.
  - intros id k. unfold s'. simpl. rewrite lookup_delete_Some. split.
    + intros [Hne Hk]. left. split; [done|]. intros Hr. apply Hne.
      apply (fi_active _ _ HI) in Hk as [Hk _]. destruct b; [|done]. injection Hr as ->. congruence.
    + intros [[Hk Hr]|[? _]]; [|done]. split; [|done]. intros Heq. subst id.
      destruct b.
      * apply Hr. pose proof (proj1 (proj1 (fi_active _ _ HI _ _) Hk)) as Hk'.
        by rewrite (ids_unique s i k (cl_id c)).
      * by eapply (not_registered s conns j _ i w (cl_id c) k).
Qed.

Lemma FInv_close (E : Env) s conns j e i w r w' ms : sound E -> FInv s conns ->
  conns !! j = Some (Closing e i w) -> CloseCounted (w, sv_metrics s) = (r, (w', ms)) ->
  FInv (set_sv_metrics (fun _ => ms) s) (<[j := Closed (if is_ok r then e else Panicked) (leftOpen w)]> conns).
Proof.
  intros HE HI Hj Hcl. destruct (held s conns j _ i w HI Hj eq_refl) as (c & _ & _ & _ & HL & _).
  destruct (CloseCounted_spec w (sv_metrics s) HL) as (w2 & Hw2 & _).
  rewrite Hw2 in Hcl. injection Hcl as <- <- <-. destruct (FInv_int _ _ HI) as [B1 B2].
  destruct (decs_counts (closedDown w) (sv_metrics s)) as [D1 D2].
  eapply (FInv_put s); try done.
  - simpl. rewrite D1. by rewrite swrap_cancel.
  - intros a. simpl. rewrite decs_value, iter_Dec by done. unfold upstreamsTo. simpl.
    rewrite links_leftOpen by done. f_equal. lia.
  - intros id k. simpl. split; [intros ?; left; by split|]. by intros [[? _]|[? _]].
Qed.

Lemma FInv_leave s conns j e open : FInv s conns -> conns !! j = Some (Closed e open) ->
  FInv (leave e s) (<[j := Gone e open]> conns).
Proof.
  intros HI Hj. destruct (FInv_int _ _ HI) as [B1 B2].
  eapply (FInv_put s); try done.
  - destruct e; simpl; unfold Gauge_Dec; f_equal; lia.
  - by destruct e.
  - intros a. replace (uconns a (sv_metrics (leave e s))) with (uconns a (sv_metrics s)) by by destruct e.
    change (upstreamsTo a (Gone e open)) with (upstreamsTo a (Closed e open)). by rewrite swrap_cancel.
  - intros k x Hk _. by destruct e.
  - intros k _. by destruct e.
  - intros id k. replace (activeProxies (leave e s)) with (activeProxies s) by by destruct e.
    split; [intros ?; left; by split|]. by intros [[? _]|[? _]].
Qed.

(** *** All states *)

Lemma sync_sstep i w s : sstep Hash ClientBanner s (sync i w s).
Proof. by apply S_Proxy. Qed.

Lemma metrics_sstep g s : sstep Hash ClientBanner s (set_sv_metrics g s).
Proof. apply S_Metrics. Qed.

Lemma held_active s conns j p i w : FInv s conns -> conns !! j = Some p -> holds p = Some (i, w) ->
  alive p = true -> is_active s i true.
Proof.
  intros HI Hj Hp Ha. destruct (held s conns j p i w HI Hj Hp) as (c & Hc & Ec & _).
  injection Ec as _ Eb. rewrite Ha in Eb. apply fmap_Some in Eb as (b & Hb & Eb). exists b.
  split; [|done]. unfold bufferOf. by rewrite Hc.
Qed.

Lemma is_active_sync i w s : is_active s i true -> is_active (sync i w s) i true.
Proof.
  intros (b & Hb & Ha). exists b. split; [|done]. apply bufferOf_client in Hb as (c & Hc & Hb).
  unfold bufferOf. simpl. by rewrite list_lookup_alter_eq, Hc.
Qed.

Lemma FInv_new cfg : FInv (NewServer Hash cfg) [].
Proof.
  split; try done. intros id i. split; [intros Hi; cbn in Hi; by apply lookup_empty_Some in Hi|].
  by intros [_ (j & p & Hj & _)].
Qed.

Lemma freach_inv cfg f : freach Hash ClientBanner cfg f ->
  sreach Hash ClientBanner cfg (fl_server f) /\ FInv (fl_server f) (fl_conns f).
Proof.
  induction 1 as [|f f' _ [HS HI] Hs]; [split; [constructor|apply FInv_new]|].
  pose proof (inv_ids _ (sreach_Inv _ _ _ _ HS)) as Hn.
  assert (M : forall s g, sreach Hash ClientBanner cfg s -> sreach Hash ClientBanner cfg (set_sv_metrics g s))
    by (intros s g Hx; eapply sreach_step; [exact Hx|apply metrics_sstep]).
  assert (Y : forall i w, sreach Hash ClientBanner cfg (sync i w (fl_server f)))
    by (intros i w; eapply sreach_step; [exact HS|apply sync_sstep]).
  destruct Hs; cbn [fl_server fl_conns put].
  - split; [by apply M|by apply FInv_accept].
  - split; [by apply M|by apply FInv_refuse].
  - split; [|by eapply FInv_greet]. eapply sreach_step; [exact HS|].
    match goal with Hx : NewProxy _ _ _ _ = _ |- _ => pose proof (f_equal snd Hx) as Ex end.
    simpl in Ex. rewrite <- Ex. by apply (S_New Hash ClientBanner (fl_server f) id a t).
  - split; [|by eapply FInv_handshake]. eapply sreach_step; [apply Y|]. apply S_Register.
    apply is_active_sync. by eapply held_active.
  - split; [subst s; destruct (is_panic e); [apply Y|apply M, Y]|by eapply FInv_handshake_fails].
  - split; [done|]. by eapply FInv_unhashed.
  - split; [by apply M|]. by eapply FInv_connect.
  - split; [done|]. eapply FInv_turn; [done..|by left].
  - split; [done|]. eapply FInv_turn; [done..|right; by eexists].
  - split; [eapply sreach_step; [exact HS|apply S_Unregister]|by eapply FInv_unregister].
  - split; [by apply M|by eapply FInv_close].
  - split; [destruct e; simpl; by repeat apply M|by eapply FInv_leave].
  - split; [eapply sreach_step; [exact HS|by apply request_sstep]|].
    eapply FInv_core; [by eapply request_core|done].
  - done.
Qed.

Definition is_gone (p : phase) : Prop := match p with Gone _ _ => True | _ => False end.

Lemma total_zero g l : Forall (fun p => g p = 0%nat) l -> total g l = 0.
Proof.
  intros HF. unfold total. replace (sum_list_with g l) with 0%nat; [done|].
  induction HF as [|p l Hp _ IH]; [done|]. simpl. by rewrite Hp, <- IH.
Qed.

(** C15: however the connections of a server and the requests to it interleave: the registry
    only does what the registry's own steps do, so that all that is shown of those holds;
    the gauge of clients is the number of connections that are not over, the gauge of
    each node the number of connections to it that clients hold, or have left open since
    they had no channel for the clean-ups and were refused one, as [int64]s; and exactly
    the proxies between the end of the handshake and the way out are registered. Once all
    connections are over nothing is registered, the gauge of clients is 0, and so are those
    of the nodes if nothing was left open. Identifiers are never given twice, and every write
    to a client comes back. *)
Theorem fleet_accounts cfg f : freach Hash ClientBanner cfg f ->
  let s := fl_server f in
  sreach Hash ClientBanner cfg s /\
  ClientConnections (sv_metrics s) = swrap 64 (total counted (fl_conns f)) /\
  ClientTotalConnections (sv_metrics s) = swrap 64 (Z.of_nat (length (fl_conns f))) /\
  (forall a, uconns a (sv_metrics s) = swrap 64 (total (upstreamsTo a) (fl_conns f))) /\
  (forall id i, activeProxies s !! id = Some i <->
     id_at s i = Some id /\ exists j p, fl_conns f !! j = Some p /\ registered p = Some i) /\
  (Forall is_gone (fl_conns f) -> activeProxies s = ∅ /\ ClientConnections (sv_metrics s) = 0 /\
     (Forall (fun p => abandoned p = []) (fl_conns f) -> forall a, uconns a (sv_metrics s) = 0)).
Proof.
  intros [HS HI]%freach_inv s. split; [done|]. pose proof HI as [I1 I2 I3 I4 I5 I6].
  split_and!; try done. intros HG. split_and!.
  - apply map_empty. intros id. destruct (activeProxies s !! id) as [i|] eqn:E; [|done].
    apply I6 in E as [_ (j & p & Hj & Hp)]. rewrite Forall_lookup in HG.
    specialize (HG j p Hj). by destruct p.
  - unfold s. rewrite I1, total_zero; [done|]. eapply Forall_impl; [exact HG|]. by intros [].
  - intros HN a. unfold s. rewrite I3, total_zero; [done|]. apply Forall_forall. intros p Hp.
    rewrite Forall_forall in HG, HN. specialize (HG p Hp). specialize (HN p Hp). destruct p; try done.
    simpl in HN. by subst.
Qed.

Lemma put_lookup j p s f p0 : fl_conns f !! j = Some p0 -> fl_conns (put j p s f) !! j = Some p.
Proof. intros Hj. simpl. rewrite list_lookup_insert_eq; [done|]. by eapply lookup_lt_Some. Qed.

Lemma put_put j p s p' s' f : put j p' s' (put j p s f) = put j p' s' f.
Proof. unfold put. simpl. by rewrite list_insert_insert_eq. Qed.

Lemma fsteps_reach cfg f f' : fsteps Hash ClientBanner f f' -> freach Hash ClientBanner cfg f ->
  freach Hash ClientBanner cfg f'.
Proof. induction 1 as [|f f1 f2 Hf _ IH]; [done|]. intros HR. apply IH. by eapply freach_step. Qed.

(** A connection on the way out gets out, and nobody else has to move. *)
Lemma gets_out (E : Env) cfg f j b e i w : sound E -> freach Hash ClientBanner cfg f ->
  fl_conns f !! j = Some (Leaving b e i w) ->
  exists open s, fsteps Hash ClientBanner f (put j (Gone e open) s f).
Proof.
  intros HE HR Hj. pose proof (F_unregister Hash ClientBanner f j b e i w zeroTime Hj) as S1.
  set (f1 := put j _ _ f) in S1. pose proof (freach_step Hash ClientBanner cfg f f1 HR S1) as HR1.
  assert (Hj1 : fl_conns f1 !! j = Some (Closing e i (adopt i (fl_server f) w))) by by eapply put_lookup.
  destruct (freach_inv cfg f1 HR1) as [_ HI1].
  destruct (held _ _ j _ i _ HI1 Hj1 eq_refl) as (c & _ & _ & _ & HL & _).
  destruct (CloseCounted_spec (adopt i (fl_server f) w) (sv_metrics (fl_server f1)) HL) as (w2 & Hw2 & _).
  pose proof (F_close Hash ClientBanner f1 E j e i _ _ _ _ HE Hj1 Hw2) as S2. simpl is_ok in S2. cbv iota in S2.
  set (open := leftOpen _) in S2. set (f2 := put j (Closed e open) _ f1) in S2.
  assert (Hj2 : fl_conns f2 !! j = Some (Closed e open)) by by eapply put_lookup.
  pose proof (F_leave Hash ClientBanner f2 j e open Hj2) as S3.
  eexists open, _. eapply fsteps_cons; [exact S1|]. eapply fsteps_cons; [exact S2|]. eapply fsteps_cons; [exact S3|].
  unfold f2, f1. rewrite !put_put. apply fsteps_refl.
Qed.

(** A connection that is being served can always be brought to its end once the server
    has cancelled it or stopped, whatever the other connections do: the shutdown turn
    comes to an end, and nothing that is deferred needs anybody else. Frames must carry a
    byte of a body at least. *)
Theorem fleet_can_end (E : Env) cfg f j i w : sound E -> freach Hash ClientBanner cfg f ->
  fl_conns f !! j = Some (Serving i w) -> fine (adopt i (fl_server f) w) ->
  (fl_stopped f = true \/ cl_cancelled <$> (clients (fl_server f) !! i) = Some true) ->
  exists e open s, fsteps Hash ClientBanner f (put j (Gone e open) s f) /\
    freach Hash ClientBanner cfg (put j (Gone e open) s f).
Proof.
  intros HE HR Hj Hf Hc. set (w1 := adopt i (fl_server f) w) in *.
  destruct (turn_kept HE (links w1) true EShutdown w1) as [Ht _]; [by split|].
  destruct (turn EShutdown w1) as [r w'] eqn:Et.
  assert (exists o, r = Some o /\ o <> Running) as (o & -> & Ho).
  { simpl in Et. destruct (shutdown w1). injection Et as <- _. eexists. split; [done|].
    specialize (Ht eq_refl). simpl in Ht. congruence. }
  pose proof (F_turn_ends Hash ClientBanner f E j i w EShutdown o w' HE Hj Hc Et Ho) as S1.
  set (f1 := put j _ _ f) in S1. pose proof (freach_step Hash ClientBanner cfg f f1 HR S1) as HR1.
  assert (Hj1 : fl_conns f1 !! j = Some (Leaving true o i w')) by by eapply put_lookup.
  destruct (gets_out E cfg f1 j true o i w' HE HR1 Hj1) as (open & s & Hs).
  unfold f1 in Hs. rewrite put_put in Hs. exists o, open, s.
  split; [by eapply fsteps_cons|]. by eapply fsteps_reach.
Qed.
End Refinement.

(** ** One connection alone

    [handleConnection] as a function is one way through the steps. *)

Section Runs.
Context `{Env} `{Dialer} `{Pdq} {any : Type} `{Lru nat}.
Context (Hash : Config -> string) (ClientBanner : Proxy -> string) (HE : sound _).
Implicit Types (f : Fleet any) (s : Server any).
#[local] Abbreviation steps := (fsteps Hash ClientBanner).

(** Events that do not need the server: its context may have ended. *)
Definition outside f (e : event) : Prop :=
  match e with EMessage _ => False | EShutdown => fl_stopped f = true | _ => True end.

Lemma fsteps_trans f f1 f2 : steps f f1 -> steps f1 f2 -> steps f f2.
Proof. induction 1 as [|f f1 f3 Hf _ IH]; [done|]. intros ?%IH. by eapply fsteps_cons. Qed.

Lemma sync_sync i w w' s : sync i w' (sync i w s) = sync i w' s.
Proof. unfold sync, onClient. simpl. by rewrite list_alter_alter_eq. Qed.

Lemma set_proxy_id (p : Proxy) w : p = proxy w -> set_proxy (fun _ => p) w = w.
Proof. intros ->. by destruct w. Qed.

Lemma adopt_sync i w s : adopt i (sync i w s) w = w.
Proof.
  unfold adopt. simpl. rewrite list_lookup_alter_eq. destruct (clients s !! i); [|done].
  by apply set_proxy_id.
Qed.

Lemma adopt_Register i s w : adopt i (RegisterProxy ClientBanner i s) w = adopt i s w.
Proof.
  unfold adopt, RegisterProxy. destruct (clients s !! i) as [c|] eqn:E; [|by rewrite E].
  simpl. by rewrite list_lookup_alter_eq, E.
Qed.

Lemma finish_steps f j b e i w t s e' w' s' : fl_conns f !! j = Some (Leaving b e i w) ->
  fl_server f = sync i w s -> finish e i t w s = (e', (w', s')) ->
  steps f (put j (Gone e' (leftOpen w)) s' f).
Proof.
  intros Hj Hs. unfold finish. rewrite <- Hs.
  pose proof (F_unregister Hash ClientBanner f j b e i w t Hj) as S1.
  rewrite Hs, adopt_sync, <- Hs in S1. set (f1 := put j _ _ f) in S1.
  destruct (CloseCounted _) as [r [w1 ms]] eqn:Ec. intros [= <- <- <-].
  assert (Hj1 : fl_conns f1 !! j = Some (Closing e i w)) by by eapply put_lookup.
  pose proof (F_close Hash ClientBanner f1 _ j e i w r w1 ms HE Hj1 Ec) as S2. set (f2 := put j _ _ f1) in S2.
  eapply fsteps_cons; [exact S1|]. eapply fsteps_cons; [exact S2|]. eapply fsteps_cons.
  { eapply F_leave. by eapply put_lookup. }
  unfold f2, f1. rewrite !put_put. destruct r; apply fsteps_refl.
Qed.

Lemma serve_steps es f j i w s e w' : fl_conns f !! j = Some (Serving i w) ->
  fl_server f = sync i w s -> Forall (outside f) es -> serve es w = (e, w') -> e <> Running ->
  steps f (put j (Leaving true e i w') (sync i w' s) f).
Proof.
  revert f w. induction es as [|ev es IH]; intros f w Hj Hs Hes Hr He; [by injection Hr as <- _|].
  apply Forall_cons in Hes as [Hev Hes].
  assert (Ha : allowed ev i f) by (destruct ev; try done; by left).
  simpl in Hr. destruct (turn ev w) as [[r|] w1] eqn:Et.
  - injection Hr as <- <-. eapply fsteps_cons; [|apply fsteps_refl].
    rewrite <- (sync_sync i w), <- Hs. eapply F_turn_ends; try done. by rewrite Hs, adopt_sync.
  - eapply fsteps_cons.
    { eapply (F_turn Hash ClientBanner f _ j i w ev w1); try done. by rewrite Hs, adopt_sync. }
    rewrite Hs, sync_sync. set (f1 := put j _ _ f).
    eapply (IH f1) in Hr; [|by eapply put_lookup|done|exact Hes|done].
    unfold f1 in Hr. by rewrite put_put in Hr.
Qed.

(** After the handshake. *)
Lemma connected_steps oc es f j i w s e w' s' : fl_conns f !! j = Some (Registered i w) ->
  fl_server f = s -> adopt i s w = w -> shown i s = true -> Forall (outside f) es ->
  let '(r, c) := ConnectToUpstreams (oc_addr oc) (Config_Upstreams (config s)) (clientProps (proxy w))
    (connecting w s) in
  let w1 := set_proxy (fun _ => n_proxy c) w in
  let s1 := set_sv_metrics (fun _ => n_metrics c) s in
  match r with
  | Err _ => finish Returned i (oc_end oc) w1 s1 = (e, (w', s'))
  | Ok _ => (serve es w1).1 <> Running /\
      let (e1, w2) := serve es w1 in finish e1 i (oc_end oc) w2 s1 = (e, (w', s'))
  end -> exists open, steps f (put j (Gone e open) s' f).
Proof.
  intros Hj Hs Hw Hh Hes. destruct (ConnectToUpstreams _ _ _ _) as [r c] eqn:Ec. subst s.
  pose proof (F_connect Hash ClientBanner f _ _ j i w (oc_addr oc) r c Hj Hh) as S1.
  cbv zeta in S1. rewrite Hw in S1. specialize (S1 Ec). simpl. set (w1 := set_proxy _ w) in *.
  set (s1 := set_sv_metrics _ (fl_server f)). set (f1 := put j _ _ f) in S1.
  assert (Hj1 : fl_conns f1 !! j = Some (if is_ok r then Serving i w1 else Leaving true Returned i w1))
    by by eapply put_lookup.
  intros Hr. destruct r as [u|err]; simpl in Hj1.
  - destruct Hr as [Hne Hf]. destruct (serve es w1) as [e1 w2] eqn:Es. exists (leftOpen w2). eapply fsteps_cons; [exact S1|].
    eapply fsteps_trans; [by eapply (serve_steps es f1 j i w1 s1)|].
    eapply (finish_steps _ j) in Hf; [|by eapply put_lookup|done]. unfold f1 in *. by rewrite !put_put in *.
  - exists (leftOpen w1). eapply fsteps_cons; [exact S1|].
    eapply (finish_steps f1 j) in Hr; [|done|done]. unfold f1 in Hr. by rewrite put_put in Hr.
Qed.

(** Registered, without a hash. *)
Lemma unhashed_steps f j i w t e w' s' : fl_conns f !! j = Some (Registered i w) -> shown i (fl_server f) = false ->
  adopt i (fl_server f) w = w -> (exists s, fl_server f = sync i w s) ->
  finish Panicked i t w (fl_server f) = (e, (w', s')) -> steps f (put j (Gone e (leftOpen w)) s' f).
Proof.
  intros Hj Hh Hw [s Hs] Hf. pose proof (F_unhashed Hash ClientBanner f j i w Hj Hh) as S1. rewrite Hw in S1.
  eapply fsteps_cons; [exact S1|]. set (f1 := put j _ _ f) in *.
  assert (Hj1 : fl_conns f1 !! j = Some (Leaving true Panicked i w)) by by eapply put_lookup.
  eapply (finish_steps f1 j) in Hf; [|exact Hj1|].
  - unfold f1 in Hf. by rewrite put_put in Hf.
  - simpl. rewrite Hs. by rewrite sync_sync.
Qed.

Lemma refused_steps f j inp : fl_conns f !! j = Some Accepted -> (ReadFull 8 inp).1 <> Ok amqpHeader ->
  steps f (put j (Gone Returned []) (leave Returned (connectionError (fl_server f))) f).
Proof.
  intros Hj Hh. eapply fsteps_cons; [by eapply F_refuse|].
  eapply fsteps_cons; [eapply F_leave; by eapply put_lookup|]. rewrite put_put. apply fsteps_refl.
Qed.

Lemma failed_steps f j i w0 w1 err t e w' s' : fl_conns f !! j = Some (Greeted i w0) ->
  adopt i (fl_server f) w0 = w0 -> handshake w0 = (Err err, w1) -> err <> Hang ->
  finish (ended_of (Err err)) i t w1
    (if is_panic err then fl_server f else connectionError (fl_server f)) = (e, (w', s')) ->
  steps f (put j (Gone e (leftOpen w1)) s' f).
Proof.
  intros Hj Hw0 Eh Hne Hf.
  pose proof (F_handshake_fails Hash ClientBanner f _ j i w0 w1 err HE Hj) as S1. rewrite Hw0 in S1.
  specialize (S1 Eh Hne). cbv zeta in S1. set (f1 := put j _ _ f) in S1.
  eapply fsteps_cons; [exact S1|].
  eapply (finish_steps f1 j) in Hf; [|by eapply put_lookup|by destruct (is_panic err)].
  unfold f1 in *. by rewrite put_put in Hf.
Qed.

(** Registering keeps the proxy as the connection left it, and its hash. *)
Lemma Register_sync i w s : exists s0, RegisterProxy ClientBanner i (sync i w s) = sync i w s0.
Proof.
  exists (RegisterProxy ClientBanner i (sync i w s)). unfold RegisterProxy.
  destruct (clients (sync i w s) !! i) as [c|] eqn:Ec; [|by rewrite sync_sync].
  unfold sync, onClient, set_clients, set_active. simpl. f_equal. rewrite !list_alter_alter_eq.
  by apply list_alter_ext.
Qed.

Lemma Register_shown i w s c : clients s !! i = Some c ->
  shown i (RegisterProxy ClientBanner i (sync i w s)) = sliceable (cl_configHash c).
Proof.
  intros Hc. unfold RegisterProxy, shown, sync. simpl. rewrite list_lookup_alter_eq, Hc. simpl.
  by rewrite list_lookup_alter_eq, list_lookup_alter_eq, Hc.
Qed.

(** A connection that runs from beginning to end while nothing else happens, as the function
    [handleConnection] has it, is a sequence of these steps. *)
Theorem handleConnection_steps oc inp lat es f e w s :
  oc_id oc ∉ map cl_id (clients (fl_server f)) -> Forall (outside f) es ->
  handleConnection ClientBanner oc inp lat es (fl_server f) = (e, (w, s)) -> e <> Running ->
  exists open, steps f {| fl_server := s; fl_conns := fl_conns f ++ [Gone e open]; fl_stopped := fl_stopped f |}.
Proof.
  intros Hid Hes. unfold handleConnection. set (s1 := set_sv_metrics opened (fl_server f)).
  pose proof (F_accept Hash ClientBanner f) as S1. fold s1 in S1.
  match type of S1 with fstep _ _ _ ?x => set (f1 := x) in S1 end. set (j := length (fl_conns f)).
  assert (Hj : fl_conns f1 !! j = Some Accepted) by (simpl; by rewrite lookup_app_r, Nat.sub_diag).
  assert (Hend : forall e o s, put j (Gone e o) s f1 = {| fl_server := s;
    fl_conns := fl_conns f ++ [Gone e o]; fl_stopped := fl_stopped f |}).
  { intros e0 o s0. unfold put. simpl. f_equal. unfold j.
    rewrite <- (Nat.add_0_r (length (fl_conns f))). by rewrite insert_app_r. }
  setoid_rewrite <- Hend. clearbody j. destruct (ReadFull 8 inp) as [header rest] eqn:Eh. case_bool_decide as Hh.
  { intros [= <- <- <-] _. exists []. eapply fsteps_cons; [exact S1|].
    eapply (refused_steps f1 j inp); [done|]. by rewrite Eh. }
  assert (header = Ok amqpHeader) as -> by (by destruct (decide (header = Ok amqpHeader))).
  destruct (NewProxy (oc_id oc) (oc_addr oc) (oc_start oc) s1) as [i s2] eqn:En.
  destruct (clients s2 !! i) as [c|] eqn:Ec; [|by intros [= <- _ _] ?].
  pose proof (F_greet Hash ClientBanner f1 j _ _ _ inp rest lat i s2 c Hj Eh Hid En Ec) as S2.
  set (f2 := put j _ _ f1) in S2. set (w0 := world_of c rest lat) in *.
  assert (Hj2 : fl_conns f2 !! j = Some (Greeted i w0)) by by eapply put_lookup.
  assert (Hw0 : adopt i (fl_server f2) w0 = w0) by (unfold adopt; simpl; rewrite Ec; by apply set_proxy_id).
  intros Hrun He.
  enough (G : exists open, steps f2 (put j (Gone e open) s f2)).
  { destruct G as [o G]. exists o. eapply fsteps_cons; [exact S1|]. eapply fsteps_cons; [exact S2|].
    unfold f2 in G |- *. by rewrite put_put in G. }
  destruct (handshake w0) as [[[]|err] w1] eqn:Ehs.
  - pose proof (F_handshake Hash ClientBanner f2 _ j i w0 w1 HE Hj2) as S3. rewrite Hw0 in S3.
    specialize (S3 Ehs). set (f3 := put j _ _ f2) in S3.
    assert (Hj3 : fl_conns f3 !! j = Some (Registered i w1)) by by eapply put_lookup.
    enough (G : exists open, steps f3 (put j (Gone e open) s f3)).
    { destruct G as [o G]. exists o. eapply fsteps_cons; [exact S3|]. unfold f3 in G |- *. by rewrite put_put in G. }
    pose proof (Register_shown i w1 s2 c Ec) as Hsh. pose proof (Register_sync i w1 s2) as Hsy.
    set (s3 := RegisterProxy ClientBanner i (sync i w1 s2)) in *.
    assert (Hw1 : adopt i s3 w1 = w1) by (unfold s3; by rewrite adopt_Register, adopt_sync).
    rewrite <- Hsh in Hrun. destruct (shown i s3) eqn:Eq; cbn [negb] in Hrun.
    2: { destruct (finish Panicked _ _ _ _) as [e3 [w4 s4]] eqn:Ef. injection Hrun as <- _ <-. exists (leftOpen w1).
         exact (unhashed_steps f3 j i w1 (oc_end oc) e3 w4 s4 Hj3 Eq Hw1 Hsy Ef). }
    pose proof (fun w' => connected_steps oc es f3 j i w1 s3 e w' s Hj3 eq_refl Hw1 Eq Hes) as G.
    unfold connecting in G. destruct (ConnectToUpstreams _ _ _ _) as [r c1]. cbv zeta in G.
    destruct r as [[]|err].
    + destruct (serve es _) as [e1 w2]. destruct e1; [| |by injection Hrun as <- _ _];
        (destruct (finish _ _ _ _ _) as [e3 [w4 s4]]; injection Hrun as <- _ <-; apply (G w4); split; [discriminate|reflexivity]).
    + destruct (finish _ _ _ _ _) as [e3 [w4 s4]]. injection Hrun as <- _ <-. by eapply (G w4).
  - assert (Hhang : err <> Hang) by (intros ->; by injection Hrun as <- _ _).
    exists (leftOpen w1).
    pose proof (fun w' => failed_steps f2 j i w0 w1 err (oc_end oc) e w' s Hj2 Hw0 Ehs Hhang) as G.
    change (fl_server f2) with s2 in G.
    destruct (finish (ended_of (Err err)) _ _ _ _) as [e3 [w4 s4]].
    destruct err; first [exfalso; apply Hhang; reflexivity | injection Hrun as <- _ <-; exact (G w4 eq_refl)].
Qed.
End Runs.

(** ** A fleet, run *)

#[local] Existing Instance listLru.
#[local] Existing Instance insertionPdq.
#[local] Existing Instance acceptingEnv.
#[local] Existing Instance refusingDialer.

Lemma accepting_sound : sound acceptingEnv.
Proof. exact accepting_sane. Qed.

(** The only connection of a new server, up to where it is served; then the server stops. *)
Definition sampleFleet : option (Fleet nat) :=
  let s := set_sv_metrics opened (NewServer sampleHash (sampleCfg 5)) in
  let (header, rest) := ReadFull 8 sampleInput in
  let (i, s) := NewProxy (oc_id sampleOccasion) (oc_addr sampleOccasion) (oc_start sampleOccasion) s in
  match clients s !! i with
  | Some c =>
      match handshake (adopt i s (world_of c rest [Stream [] EOF])) with
      | (Ok _, w) =>
          let s := RegisterProxy sampleBanner i (sync i w s) in
          let w1 := adopt i s w in
          let (r, c) := ConnectToUpstreams (oc_addr sampleOccasion) (Config_Upstreams (config s))
                          (clientProps (proxy w1)) (connecting w1 s) in
          let w2 := set_proxy (fun _ => n_proxy c) w1 in
          Some {| fl_server := set_sv_metrics (fun _ => n_metrics c) (sync i w2 s);
                  fl_conns := [if is_ok r then Serving i w2 else Leaving true Returned i w2];
                  fl_stopped := true |}
      | _ => None
      end
  | None => None
  end.

Lemma sampleFleet_reach f : sampleFleet = Some f -> freach sampleHash sampleBanner (sampleCfg 5) f.
Proof.
  assert (Eh : (ReadFull 8 sampleInput).1 = Ok amqpHeader) by (vm_compute; reflexivity).
  unfold sampleFleet. destruct (ReadFull 8 sampleInput) as [header rest] eqn:Er. simpl in Eh. subst header.
  pose proof (F_accept sampleHash sampleBanner ({| fl_server := NewServer sampleHash (sampleCfg 5);
    fl_conns := []; fl_stopped := false |} : Fleet nat)) as S1. cbn [fl_server fl_conns fl_stopped app] in S1.
  set (s0 := set_sv_metrics opened _) in *.
  match type of S1 with fstep _ _ _ ?x => set (f1 := x) in S1 end.
  destruct (NewProxy _ _ _ s0) as [i s1] eqn:En. destruct (clients s1 !! i) as [c|] eqn:Ec; [|done].
  pose proof (F_greet sampleHash sampleBanner f1 0 _ _ _ sampleInput rest [Stream [] EOF] i s1 c
    eq_refl Er (not_elem_of_nil _) En Ec) as S2.
  set (f2 := put _ _ _ f1) in S2.
  destruct (handshake (adopt i s1 _)) as [[[]|e] w] eqn:Ew; [|done].
  pose proof (F_handshake sampleHash sampleBanner f2 _ 0 i _ w accepting_sound eq_refl Ew) as S3.
  set (f3 := put _ _ _ f2) in S3.
  assert (Hsh : shown i (RegisterProxy sampleBanner i (sync i w s1)) = true).
  { rewrite (Register_shown sampleBanner i w s1 c Ec). injection En as <- <-. simpl in Ec. injection Ec as <-. by vm_compute. }
  set (s2 := RegisterProxy _ _ _) in *.
  destruct (ConnectToUpstreams _ _ _ _) as [r c1] eqn:Eu. intros [= <-].
  pose proof (F_connect sampleHash sampleBanner f3 _ _ 0 i w _ r c1 eq_refl Hsh Eu) as S4.
  cbv zeta in S4. set (f4 := put _ _ _ f3) in S4. pose proof (F_stop sampleHash sampleBanner f4) as S5.
  eapply freach_step; [|exact S5]. eapply freach_step; [|exact S4]. eapply freach_step; [|exact S3].
  eapply freach_step; [|exact S2]. eapply freach_step; [constructor|exact S1].
Qed.

Example sampleFleet_counts : (fun f => let ms := sv_metrics (fl_server f) in
    (uconns "n2:5672" ms, ClientConnections ms, map fst (map_to_list (activeProxies (fl_server f)))))
    <$> sampleFleet = Some (1, 1, ["p4"])%string.
Proof. by vm_compute. Qed.

Lemma fleet_accounts_witness : exists f, sampleFleet = Some f /\
  ClientConnections (sv_metrics (fl_server f)) = swrap 64 (total counted (fl_conns f)) /\
  sreach sampleHash sampleBanner (sampleCfg 5) (fl_server f).
Proof.
  destruct sampleFleet as [f|] eqn:E; [|by vm_compute in E]. exists f.
  destruct (fleet_accounts sampleHash sampleBanner (sampleCfg 5) f (sampleFleet_reach f E))
    as (H1 & H2 & _). by split_and!.
Defined.

Lemma fleet_can_end_witness : exists f i w, sampleFleet = Some f /\ fl_conns f = [Serving i w] /\
  exists e open s, freach sampleHash sampleBanner (sampleCfg 5) (put 0 (Gone e open) s f).
Proof.
  destruct sampleFleet as [f|] eqn:E; [|by vm_compute in E].
  assert (F : match sampleFleet with
    | Some f => fl_stopped f = true /\ match fl_conns f with
      | [Serving i w] => let w := adopt i (fl_server f) w in (8 < frameMax (p_tuned (proxy w))) /\
          Forall (fun s => fin s <> OutOfFuel) (input w :: later w) /\ werr (wire w) <> Some OutOfFuel
      | _ => False
      end
    | None => False
    end) by (vm_compute; by repeat constructor).
  rewrite E in F. destruct F as [Hs F].
  destruct (fl_conns f) as [|[| | |i w| | | |] [|]] eqn:Ec; try contradiction. destruct F as (F1 & F2 & F3).
  exists f, i, w. split; [reflexivity|]. split; [exact Ec|].
  destruct (fleet_can_end sampleHash sampleBanner acceptingEnv (sampleCfg 5) f 0 i w accepting_sound
    (sampleFleet_reach f E)) as (e & open & s & _ & HR); [rewrite Ec; reflexivity|by constructor|by left|].
  exists e, open, s. exact HR.
Defined.

Lemma handleConnection_steps_witness : exists open w s,
  fsteps sampleHash sampleBanner {| fl_server := sampleServer; fl_conns := [Accepted]; fl_stopped := true |}
    {| fl_server := s; fl_conns := [Accepted; Gone Returned open]; fl_stopped := true |} /\
  (sampleConnection [EProcess; EShutdown]).2 = (w, s).
Proof.
  assert (E : (sampleConnection [EProcess; EShutdown]).1 = Returned) by (vm_compute; reflexivity).
  assert (N : oc_id sampleOccasion ∉ map cl_id (clients sampleServer))
    by (apply (bool_decide_unpack _); vm_compute; exact I).
  revert E. unfold sampleConnection.
  pose proof (handleConnection_steps sampleHash sampleBanner accepting_sound sampleOccasion sampleInput
    [Stream [] EOF] [EProcess; EShutdown]
    {| fl_server := sampleServer; fl_conns := [Accepted]; fl_stopped := true |} Returned) as R. revert R.
  cbn [fl_server fl_conns fl_stopped app].
  destruct (handleConnection _ _ _ _ _ _) as [e [w s]]. cbn [fst snd]. intros R ->.
  destruct (R w s) as [open R']; [exact N|by repeat constructor|done|done|]. by exists open, w, s.
Defined.
