(* ===== verification/Boot.v ===== *)
(** * A process of the server

    [run], [boot] and the files of [server.go], [startAPIServer] and [listenUnixSocket] of
    [api.go]: what a process acquires before it accepts connections, what it gives back on every
    way out, and how it stops. The first part is the sequence of [run] with its deferred calls;
    the second the loop of [boot] beside its goroutine and the connections of [Fleet]. *)

From stdpp Require Import gmap strings pretty.
From S2P Require Import Prelude Bytes Fields Decimals Config Instruments Exporter Health Times LogBuffers Proxy Sorting Nodes.
From S2P Require Import Dispatch Server Registry Safety Connection Json Loading Urls Answers ApiClient Calls Manage Fleet.

Open Scope Z_scope.

(** The machine: what the calls of the operating system answer, and who is faster. A file that
    cannot be written may be left with something else in it. [m_timely]: an error of the API
    server comes before the timer of 100 ms; [m_cancels]: its goroutine still gets to its
    deferred call before the process ends. *)
Record Machine : Type := {
  m_getpid : Z;
  m_write : string -> option (string * option string);
  m_remove : string -> option string;
  m_listenUnix : string -> option string;
  m_chmod : string -> option string;
  m_serve : option string;
  m_timely : bool;
  m_cancels : bool;
  m_listenTCP : Z -> option string;
  m_ctx : nat;
  m_checks : string -> string -> Surroundings
}.

Section Boot.
Context {any : Type} `{Lru nat} (Hash : Config -> string).
Context {Exporter Reader Resource Provider : Type} `{Exporters Exporter Reader} `{Sdk Reader Resource Provider}.
Context (Getenv : string -> string) (load : string -> result string Config) (M : Machine).

(** [pr_api]: the socket that requests of the API are taken from. *)
Record Process : Type := {
  pr_files : gmap string string;
  pr_stores : Providers (Provider := Provider);
  pr_server : option (Server any);
  pr_api : option string;
  pr_listening : bool
}.

Definition set_files (f : gmap string string -> gmap string string) (p : Process) : Process := {|
  pr_files := f (pr_files p); pr_stores := pr_stores p; pr_server := pr_server p; pr_api := pr_api p;
  pr_listening := pr_listening p |}.
Definition set_server (f : option (Server any) -> option (Server any)) (p : Process) : Process := {|
  pr_files := pr_files p; pr_stores := pr_stores p; pr_server := f (pr_server p); pr_api := pr_api p;
  pr_listening := pr_listening p |}.
Definition set_api (a : option string) (p : Process) : Process := {|
  pr_files := pr_files p; pr_stores := pr_stores p; pr_server := pr_server p; pr_api := a;
  pr_listening := pr_listening p |}.
Definition set_listening (b : bool) (p : Process) : Process := {|
  pr_files := pr_files p; pr_stores := pr_stores p; pr_server := pr_server p; pr_api := pr_api p;
  pr_listening := b |}.

Definition onStores {A} (m : stm (Providers (Provider := Provider)) string A) : stm Process string A := fun p =>
  let (r, ps) := m (pr_stores p) in
  (r, {| pr_files := pr_files p; pr_stores := ps; pr_server := pr_server p; pr_api := pr_api p;
         pr_listening := pr_listening p |}).

(** [defer f()], and what comes after it. *)
Definition deferring {A} (f : Process -> Process) (m : stm Process string A) : stm Process string A := fun p =>
  let (r, p') := m p in (r, f p').

(** ** Files *)

Definition Remove (f : string) (p : Process) : Process :=
  match m_remove M f with Some _ => p | None => set_files (delete f) p end.

Definition WriteFile (f content : string) : stm Process string () := fun p =>
  match m_write M f with
  | None => (Ok (), set_files <[f := content]> p)
  | Some (e, content') => (Err e, set_files (fun fs => match content' with Some t => <[f := t]> fs | None => fs end) p)
  end.

Definition writePidFile (pidFile : string) : stm Process string () :=
  wrap (fun e => "failed to write PID file " +:+ pidFile +:+ ": " +:+ e) (WriteFile pidFile (pretty (m_getpid M))).

Definition removePidFile (pidFile : string) : Process -> Process := Remove pidFile.

(** ** The socket of the API *)

(** The listener, what gives it up, and the state. *)
Definition listenUnixSocket (socketPath : string) (p : Process) : result string () * (Process -> Process) * Process :=
  if String.eqb socketPath "" then (Err "path to socket is empty"%string, fun p => p, p)
  else if bool_decide (is_Some (pr_files p !! socketPath)) then
    (Err ("socket already exists: " +:+ socketPath), fun p => p, p)
  else
    let cancelFunc := Remove socketPath in
    match m_listenUnix M socketPath with
    | Some e => (Err ("failed to listen on socket: " +:+ e), cancelFunc, p)
    | None =>
        let p := set_api (Some socketPath) (set_files <[socketPath := EmptyString]> p) in
        match m_chmod M socketPath with
        | Some e => (Err ("failed to set socket permissions: " +:+ e), cancelFunc, p)
        | None => (Ok (), cancelFunc, p)
        end
    end.

(** The function returned removes the file; the server that it shuts down is not the one that
    serves. An error after the timer is sent to nobody. *)
Definition startAPIServer (apiSocket : string) : stm Process string (Process -> Process) := fun p =>
  if String.eqb apiSocket "" then (Ok (fun p => p), p)
  else
    let '(r, cancel, p) := listenUnixSocket apiSocket p in
    let served := match r with Ok _ => match m_serve M with Some e => Err e | None => Ok () end | Err e => Err e end in
    match served with
    | Err e => if m_timely M then (Err e, if m_cancels M then cancel p else p) else (Ok (Remove apiSocket), p)
    | Ok _ => (Ok (Remove apiSocket), p)
    end.

(** ** [run] *)

Definition newListener (port : Z) : stm Process string () := fun p =>
  match m_listenTCP M port with Some e => (Err e, p) | None => (Ok (), set_listening true p) end.

(** [server.boot], as it is seen from [run]: it and what the API is asked meanwhile work on the
    server and on files; the stores of metrics and the files of [run] itself are not known
    to it. Its listener is closed by then, or closed by [run]. *)
Section Run.
Context (boot : stm (gmap string string * option (Server any)) string ()).

Definition booting : stm Process string () := fun p =>
  let (r, fs) := boot (pr_files p, pr_server p) in (r, set_server (fun _ => fs.2) (set_files (fun _ => fs.1) p)).

Definition serving (opt : CLI) : stm Process string () :=
  _ ← modify (set_server (fmap (initHealthManagers (m_ctx M) (m_checks M))));
  cancelAPI ← wrap (fun e => "failed to start API server: " +:+ e) (startAPIServer (CLI_APISocket opt));
  deferring cancelAPI
    (_ ← wrap (fun e => "failed to start AMQP server: " +:+ e) (newListener (CLI_Port opt));
     deferring (set_listening false) booting).

(** With the PID file, if there is to be one. *)
Definition recorded (opt : CLI) : stm Process string () :=
  if String.eqb (CLI_PidFile opt) "" then serving opt
  else
    _ ← wrap (fun e => "failed to write PID file: " +:+ e) (writePidFile (CLI_PidFile opt));
    deferring (removePidFile (CLI_PidFile opt)) (serving opt).

Definition run (opt : CLI) : stm Process string () :=
  cfg ← (fun p => (wrapErr "failed to load config: " (load (CLI_Config opt)), p));
  store ← wrap (fun e => "failed to setup metrics: " +:+ e)
    (onStores (NewStore Getenv [WithServiceVersion Version; WithAttributes (default [] (GetAttributes (Config_Metrics cfg)))]));
  deferring (fun p => (onStores (Store_Shutdown store) p).2)
    (_ ← modify (set_server (fun _ => Some (NewServer Hash cfg))); recorded opt).
End Run.
End Boot.

(** ** What a process leaves behind *)

Section RunProofs.
Context {any : Type} `{Lru nat} (Hash : Config -> string).
Context {Exporter Reader Resource Provider : Type} `{Exporters Exporter Reader} `{Sdk Reader Resource Provider}.
Context (Getenv : string -> string) (load : string -> result string Config) (M : Machine).
Implicit Types (p : Process (any := any) (Provider := Provider)).

Context (boot : stm (gmap string string * option (Server any)) string ()).

(** Serving, and the requests that are served, leave the file [f] as it is. *)
Definition alone (f : string) : Prop := forall fs s, (boot (fs, s)).2.1 !! f = fs !! f.

Lemma Remove_files f p : m_remove M f = None -> pr_files (Remove M f p) = delete f (pr_files p).
Proof. intros Hf. unfold Remove. by rewrite Hf. Qed.

Lemma Remove_other f g p : g <> f -> pr_files (Remove M f p) !! g = pr_files p !! g.
Proof. intros Hne. unfold Remove. destruct (m_remove M f); [done|]. simpl. by rewrite lookup_delete_ne. Qed.

Lemma Remove_gone f g p : m_remove M f = None -> (f = g \/ pr_files p !! f = None) -> pr_files (Remove M g p) !! f = None.
Proof.
  intros Hf Hg. destruct (decide (f = g)) as [<-|Hne]; [rewrite Remove_files by done; apply lookup_delete_eq|].
  rewrite Remove_other by done. by destruct Hg.
Qed.

Lemma Remove_rest f p : pr_stores (Remove M f p) = pr_stores p /\ pr_listening (Remove M f p) = pr_listening p.
Proof. unfold Remove. by destruct (m_remove M f). Qed.

(** The API's part of a process: its socket only, and not a socket of somebody else unless it
    is late. *)
Definition apart (sock : string) p p' : Prop :=
  (forall f, f <> sock -> alone f -> pr_files p' !! f = pr_files p !! f) /\
  pr_stores p' = pr_stores p /\ pr_listening p' = pr_listening p.

Lemma apart_trans sock p p1 p2 : apart sock p p1 -> apart sock p1 p2 -> apart sock p p2.
Proof.
  intros (F1 & S1 & L1) (F2 & S2 & L2). split_and!; [|congruence..]. intros f Hf Ha. rewrite F2 by done. auto.
Qed.

Lemma apart_Remove sock p : apart sock p (Remove M sock p).
Proof.
  unfold apart. destruct (Remove_rest sock p) as [-> ->]. split_and!; [|done..].
  intros f Hf _. by apply Remove_other.
Qed.

Lemma listen_apart sock p : let '(r, cancel, p') := listenUnixSocket M sock p in
  apart sock p p' /\ (cancel = Remove M sock \/ (cancel = (fun p => p) /\ p' = p)).
Proof.
  unfold listenUnixSocket. destruct (String.eqb sock ""); [by split; [|auto]|].
  case_bool_decide; [by split; [|auto]|]. destruct (m_listenUnix M sock); [by split; [|auto]|].
  assert (A : apart sock p (set_api (Some sock) (set_files <[sock:=EmptyString]> p))).
  { split_and!; [|done..]. intros f Hf _. simpl. by rewrite lookup_insert_ne. }
  by destruct (m_chmod M sock); (split; [|auto]).
Qed.

Lemma api_apart sock p : let (r, p') := startAPIServer M sock p in
  apart sock p p' /\ (forall cancel, r = Ok cancel -> cancel = (if String.eqb sock "" then fun p => p else Remove M sock)).
Proof.
  unfold startAPIServer. destruct (String.eqb sock ""); [split; [done|by intros ? [= <-]]|].
  pose proof (listen_apart sock p) as A. destruct (listenUnixSocket M sock p) as [[r cancel] p1]. destruct A as [A C].
  destruct (match r with Ok _ => _ | Err e => Err e end) as [[]|e]; [split; [done|by intros ? [= <-]]|].
  destruct (m_timely M); [|split; [done|by intros ? [= <-]]]. split; [|done].
  destruct (m_cancels M); [|done]. destruct C as [->|[-> _]]; [|done].
  eapply apart_trans; [exact A|apply apart_Remove].
Qed.

(** Serving, from the socket to the listener. *)
Lemma serving_leaves opt p : pr_listening p = false -> let (r, p') := serving M boot opt p in
  apart (CLI_APISocket opt) p p' /\
  (r = Ok () -> CLI_APISocket opt <> EmptyString -> m_remove M (CLI_APISocket opt) = None ->
   pr_files p' !! CLI_APISocket opt = None).
Proof.
  intros Hl. unfold serving, mbind, stm_bind, modify, wrap, deferring. set (p0 := set_server _ p).
  assert (A0 : apart (CLI_APISocket opt) p p0) by done.
  pose proof (api_apart (CLI_APISocket opt) p0) as A1. destruct (startAPIServer M (CLI_APISocket opt) p0) as [[cancel|e] p1].
  2: { destruct A1 as [A1 _]. split; [by eapply apart_trans|done]. }
  destruct A1 as [A1 Hc]. specialize (Hc _ eq_refl). set (sock := CLI_APISocket opt) in *.
  assert (A : apart sock p p1) by by eapply apart_trans. clear A0 A1.
  assert (C : forall q, apart sock q (cancel q)).
  { intros q. subst cancel. destruct (String.eqb sock ""); [done|apply apart_Remove]. }
  unfold newListener. destruct (m_listenTCP M (CLI_Port opt)) as [e|].
  { split; [|done]. eapply apart_trans; [exact A|apply C]. }
  unfold booting. destruct (boot (pr_files (set_listening true p1), _)) as [r [fs sv]] eqn:Eb. split.
  - eapply apart_trans; [exact A|]. eapply apart_trans; [|apply C]. split_and!; [|done|simpl; by destruct A as (_ & _ & ->)].
    intros f _ Hf. specialize (Hf (pr_files (set_listening true p1)) (pr_server (set_listening true p1))).
    rewrite Eb in Hf. exact Hf.
  - intros _ Hne Hr. rewrite Hc. apply String.eqb_neq in Hne. rewrite Hne. apply Remove_gone; auto.
Qed.

(** What a run may leave of its files. *)
Definition left_by (opt : CLI) p p' : Prop :=
  pr_listening p' = false /\
  (forall f, f <> CLI_PidFile opt -> f <> CLI_APISocket opt -> alone f -> pr_files p' !! f = pr_files p !! f).

Lemma apart_left opt p p' : pr_listening p = false -> apart (CLI_APISocket opt) p p' -> left_by opt p p'.
Proof. intros Hl (F & _ & L). split; [by rewrite L|]. auto. Qed.

Lemma onStores_process {A} (m : stm Providers string A) p :
  onStores m p = ((m (pr_stores p)).1, {| pr_files := pr_files p; pr_stores := (m (pr_stores p)).2;
    pr_server := pr_server p; pr_api := pr_api p; pr_listening := pr_listening p |}).
Proof. unfold onStores. by destruct (m (pr_stores p)). Qed.

(** The two files are gone, if they can be removed. *)
Definition cleared (opt : CLI) p' : Prop := forall f, f ∈ [CLI_PidFile opt; CLI_APISocket opt] -> f <> EmptyString ->
  m_remove M f = None -> pr_files p' !! f = None.

(** The process while it has its PID file. *)
Lemma withPid_leaves opt p : pr_listening p = false -> CLI_PidFile opt <> EmptyString ->
  let (r, p') := recorded M boot opt p in
  left_by opt p p' /\ pr_stores p' = pr_stores p /\ (r = Ok () -> cleared opt p').
Proof.
  intros Hl Hne%String.eqb_neq. unfold recorded. rewrite Hne. clear Hne.
  unfold mbind, stm_bind, writePidFile, wrap, WriteFile. destruct (m_write M (CLI_PidFile opt)) as [[e c]|].
  { split; [|done]. split; [done|]. intros f Hf _ _. simpl. destruct c; [|done]. by rewrite lookup_insert_ne. }
  set (p1 := set_files _ p). pose proof (serving_leaves opt p1 Hl) as S. unfold deferring, removePidFile.
  destruct (serving M boot opt p1) as [r p2]. destruct S as [(F & S & L) O].
  destruct (Remove_rest (CLI_PidFile opt) p2) as [Es El]. split; [split|split].
  - by rewrite El, L.
  - intros f Hf Hs Ha. rewrite Remove_other by done. rewrite F by done. simpl. by rewrite lookup_insert_ne.
  - by rewrite Es, S.
  - intros Hr f. rewrite !elem_of_cons. intros [->|[->|Hf%elem_of_nil]] Hne Hm; [|by apply Remove_gone; auto|done].
    apply Remove_gone; auto.
Qed.

Lemma recorded_leaves opt p : pr_listening p = false -> let (r, p') := recorded M boot opt p in
  left_by opt p p' /\ pr_stores p' = pr_stores p /\ (r = Ok () -> cleared opt p').
Proof.
  intros Hl. destruct (decide (CLI_PidFile opt = EmptyString)) as [Ep|Ep].
  - unfold recorded. rewrite Ep. change (String.eqb EmptyString "") with true. cbv iota.
    pose proof (serving_leaves opt p Hl) as L. destruct (serving M boot opt p) as [r p3]. destruct L as [A O].
    split; [by apply apart_left|]. destruct A as (_ & -> & _). split; [done|]. intros Hr f.
    rewrite !elem_of_cons, Ep. intros [->|[->|Hf%elem_of_nil]] Hne Hm; [done|auto|done].
  - by apply withPid_leaves.
Qed.

(** C35: when [run] returns, whatever failed on the way: its listener is closed, every provider
    of metrics that it made was shut down, and every file but the two that it is told to make
    is as it was, if the requests that were served left it alone. When it returns no error,
    these two are gone as well, as far as the system lets them be removed. *)
Theorem run_leaves opt p : pr_listening p = false ->
  let (r, p') := run Hash Getenv load M boot opt p in
  pr_listening p' = false /\
  (forall f, f <> CLI_PidFile opt -> f <> CLI_APISocket opt -> alone f -> pr_files p' !! f = pr_files p !! f) /\
  (exists gone, made (pr_stores p') = gone ++ made (pr_stores p) /\ shut (pr_stores p') = gone ++ shut (pr_stores p)) /\
  (r = Ok () -> cleared opt p').
Proof.
  intros Hl. unfold run, mbind, stm_bind at 1. destruct (load (CLI_Config opt)) as [cfg|e]; cbn [wrapErr].
  2: { split_and!; [done..|by exists []|done]. }
  unfold stm_bind at 1, wrap at 1. rewrite onStores_process.
  pose proof (NewStore_spec Getenv Version (default [] (GetAttributes (Config_Metrics cfg))) (pr_stores p)) as S.
  destruct (NewStore _ _ (pr_stores p)) as [[store|e] ps]; cbn [fst snd]; [|by split_and!].
  destruct S as (S1 & S2 & _). set (p1 := {| pr_files := pr_files p |}).
  unfold deferring at 1, stm_bind at 1, modify. set (p2 := set_server _ p1).
  assert (Hl2 : pr_listening p2 = false) by done.
  pose proof (recorded_leaves opt p2 Hl2) as Inner. destruct (recorded M boot opt p2) as [r p3].
  destruct Inner as ([L F] & Es & O).
  rewrite onStores_process. cbn [snd pr_listening pr_files pr_stores]. split_and!; [done|exact F| |done].
  exists [store_provider store]. rewrite Es. unfold Store_Shutdown, Provider_Shutdown. cbn. by rewrite S1, S2.
Qed.

(** A socket that is taken. *)
Lemma socket_taken sock p : sock <> EmptyString -> is_Some (pr_files p !! sock) ->
  startAPIServer M sock p = (if m_timely M then Err ("socket already exists: " +:+ sock) else Ok (Remove M sock), p).
Proof.
  intros Hne%String.eqb_neq Hs. unfold startAPIServer, listenUnixSocket. rewrite Hne, bool_decide_true by done.
  destruct (m_timely M); [|done]. by destruct (m_cancels M).
Qed.

(** A second process with the files of one that runs ends because of the socket, but takes
    the PID file of the first with it; when it is slow to find the socket it serves without an
    API, and its end takes the socket of the first. *)
Theorem second_instance opt p cfg store : load (CLI_Config opt) = Ok cfg ->
  (NewStore Getenv [WithServiceVersion Version; WithAttributes (default [] (GetAttributes (Config_Metrics cfg)))]
    (pr_stores p)).1 = Ok store ->
  CLI_PidFile opt <> EmptyString -> CLI_APISocket opt <> EmptyString -> CLI_APISocket opt <> CLI_PidFile opt ->
  is_Some (pr_files p !! CLI_APISocket opt) -> m_write M (CLI_PidFile opt) = None ->
  m_remove M (CLI_PidFile opt) = None -> m_remove M (CLI_APISocket opt) = None ->
  let (r, p') := run Hash Getenv load M boot opt p in
  pr_files p' !! CLI_PidFile opt = None /\
  (if m_timely M
   then r = Err ("failed to start API server: socket already exists: " +:+ CLI_APISocket opt) /\
        pr_files p' !! CLI_APISocket opt = pr_files p !! CLI_APISocket opt
   else pr_files p' !! CLI_APISocket opt = None).
Proof.
  intros Hload Hst Hpid%String.eqb_neq Hsock Hne Hs Hw Hrp Hrs. unfold run, mbind, stm_bind at 1. rewrite Hload. cbn [wrapErr].
  unfold stm_bind at 1, wrap at 1. rewrite onStores_process, Hst. set (p1 := {| pr_files := pr_files p |}).
  unfold deferring at 1, stm_bind at 1, modify, recorded. rewrite Hpid.
  unfold mbind, stm_bind, writePidFile, wrap, WriteFile. rewrite Hw. unfold deferring at 1, serving, mbind, stm_bind, modify, wrap.
  set (p2 := set_server _ (set_files _ _)).
  assert (Ef : pr_files p2 !! CLI_APISocket opt = pr_files p !! CLI_APISocket opt).
  { simpl. by rewrite lookup_insert_ne. }
  rewrite (socket_taken _ p2) by (rewrite ?Ef; done). destruct (m_timely M).
  - rewrite onStores_process. cbn [pr_files snd]. unfold removePidFile. rewrite Remove_files by done.
    split; [apply lookup_delete_eq|]. split; [done|]. by rewrite lookup_delete_ne, Ef.
  - unfold newListener, deferring. destruct (m_listenTCP M (CLI_Port opt)) as [e|].
    + rewrite onStores_process. cbn [pr_files snd]. unfold removePidFile. rewrite !Remove_files by done.
      split; [apply lookup_delete_eq|]. rewrite lookup_delete_ne by done. apply lookup_delete_eq.
    + destruct (booting boot (set_listening true p2)) as [r p3]. rewrite onStores_process. cbn [pr_files snd].
      unfold removePidFile. rewrite !Remove_files by done. split; [apply lookup_delete_eq|].
      rewrite lookup_delete_ne by done. apply lookup_delete_eq.
Qed.
End RunProofs.

(** ** The loop of [boot] *)

(** The goroutine of [boot]: waiting for the end of the context; the listener closed; the
    disconnections under way, with their number; over, with the number that it was told, or
    by its time limit. *)
Inductive closer : Type :=
| Watching
| ListenerClosed
| Disconnecting (count : Z)
| Finished (told : option Z).

Section Loop.
Context {any : Type} `{Lru nat} `{Limiter} (Hash : Config -> string) (ClientBanner : Proxy -> string).

(** [rn_returned]: [boot] has returned, and [run] is at its deferred calls; [rn_exited]: the
    process is over; [rn_crashed]: by a panic that nothing recovers, with none of these calls
    made. *)
Record Running : Type := {
  rn_fleet : Fleet any;
  rn_listening : bool;
  rn_closer : closer;
  rn_returned : bool;
  rn_exited : bool;
  rn_crashed : bool
}.

Definition on_fleet (f : Fleet any) (r : Running) : Running := {|
  rn_fleet := f; rn_listening := rn_listening r; rn_closer := rn_closer r; rn_returned := rn_returned r;
  rn_exited := rn_exited r; rn_crashed := rn_crashed r |}.
Definition on_server (g : Server any -> Server any) (f : Fleet any) : Fleet any := {|
  fl_server := g (fl_server f); fl_conns := fl_conns f; fl_stopped := fl_stopped f |}.
Definition accepting (f : Fleet any) : Fleet any := {|
  fl_server := set_sv_metrics opened (fl_server f); fl_conns := fl_conns f ++ [Accepted]; fl_stopped := fl_stopped f |}.
Definition closing (c : closer) (listening : bool) (r : Running) : Running := {|
  rn_fleet := rn_fleet r; rn_listening := listening; rn_closer := c; rn_returned := rn_returned r;
  rn_exited := rn_exited r; rn_crashed := rn_crashed r |}.

(** A reload that the process does not survive: asked for by the signal, in the goroutine of
    [run], it panics itself; asked for by anybody, the goroutine that it starts does. *)
Definition crashing (s : Server any) : Prop := exists ctx e l,
  (reloadConfigFromFile Hash ctx e l s).1 = ReloadPanics \/
  exists c, (reloadConfigFromFile Hash ctx e l s).1 = Reloaded c GoroutinePanics.

(** [boot] goes on with an error of [Accept] while its context lives, and returns with one
    after. What connections and requests do, and the signal that ends the context, are steps
    of the fleet. *)
Inductive bstep (r : Running) : Running -> Prop :=
| B_accept : rn_exited r = false -> rn_returned r = false -> rn_listening r = true ->
    bstep r (on_fleet (accepting (rn_fleet r)) r)
| B_fleet f : rn_exited r = false -> fstep Hash ClientBanner (rn_fleet r) f ->
    length (fl_conns f) = length (fl_conns (rn_fleet r)) -> bstep r (on_fleet f r)
| B_close : rn_exited r = false -> rn_closer r = Watching -> fl_stopped (rn_fleet r) = true ->
    bstep r (closing ListenerClosed false r)
| B_disconnect : rn_exited r = false -> rn_closer r = ListenerClosed ->
    bstep r (closing (Disconnecting (disconnectAllProxies (fl_server (rn_fleet r))).1) (rn_listening r)
               (on_fleet (on_server (fun s => (disconnectAllProxies s).2) (rn_fleet r)) r))
| B_done n : rn_exited r = false -> rn_closer r = Disconnecting n -> bstep r (closing (Finished (Some n)) (rn_listening r) r)
| B_timeout n : rn_exited r = false -> rn_closer r = Disconnecting n -> bstep r (closing (Finished None) (rn_listening r) r)
| B_return : rn_exited r = false -> rn_returned r = false -> fl_stopped (rn_fleet r) = true ->
    bstep r {| rn_fleet := rn_fleet r; rn_listening := rn_listening r; rn_closer := rn_closer r; rn_returned := true;
               rn_exited := false; rn_crashed := rn_crashed r |}
| B_exit : rn_exited r = false -> rn_returned r = true ->
    bstep r {| rn_fleet := rn_fleet r; rn_listening := false; rn_closer := rn_closer r; rn_returned := true;
               rn_exited := true; rn_crashed := rn_crashed r |}
| B_crash : rn_exited r = false -> crashing (fl_server (rn_fleet r)) ->
    bstep r {| rn_fleet := rn_fleet r; rn_listening := false; rn_closer := rn_closer r; rn_returned := rn_returned r;
               rn_exited := true; rn_crashed := true |}.

Inductive bsteps : Running -> Running -> Prop :=
| bsteps_refl r : bsteps r r
| bsteps_cons r r1 r2 : bstep r r1 -> bsteps r1 r2 -> bsteps r r2.

(** The server as [run] hands it to [boot]. *)
Definition booted (ctx : nat) (e : string -> string -> Surroundings) (cfg : Config) : Running := {|
  rn_fleet := {| fl_server := initHealthManagers ctx e (NewServer Hash cfg); fl_conns := []; fl_stopped := false |};
  rn_listening := true; rn_closer := Watching; rn_returned := false; rn_exited := false; rn_crashed := false |}.

Definition breach (cfg : Config) (r : Running) : Prop := exists ctx e, bsteps (booted ctx e cfg) r.

(** What the flags of a process say of each other. *)
Record orderly (r : Running) : Prop := {
  or_closer : rn_closer r <> Watching -> rn_listening r = false;
  or_listening : rn_listening r = false -> fl_stopped (rn_fleet r) = true \/ rn_crashed r = true;
  or_returned : rn_returned r = true -> fl_stopped (rn_fleet r) = true;
  or_exited : rn_exited r = true -> rn_returned r = true \/ rn_crashed r = true;
  or_crashed : rn_crashed r = true -> rn_exited r = true /\ exists c, sliceable (Hash c) = false
}.

Lemma fstep_stopped (f f' : Fleet any) : fstep Hash ClientBanner f f' -> fl_stopped f = true -> fl_stopped f' = true.
Proof. by destruct 1. Qed.

(** A process only crashes over a configuration without a hash. *)
Lemma crashing_unhashed cfg s : sreach Hash ClientBanner cfg s -> crashing s -> exists c, sliceable (Hash c) = false.
Proof.
  intros HS (ctx & e & l & Hc). destruct l as [c|err]; [|by destruct Hc as [?|[? ?]]].
  unfold reloadConfigFromFile, disconnectOutdatedProxies in Hc.
  destruct (sliceable (Hash c)) eqn:E; [|by exists c]. cbn [negb] in Hc.
  set (s1 := UpdateConfig Hash c (initHealthManagers ctx e s)) in *.
  pose proof (unshowable_exists (Hash c) s1) as [Hu _].
  destruct (existsb _ _).
  - destruct (Hu eq_refl) as (id & j & cl & _ & Hj & _ & Hs).
    assert (Hc1 : clients s1 = clients s) by apply (initHealthManagers_rest ctx e s). rewrite Hc1 in Hj.
    destruct (sreach_hashed Hash ClientBanner cfg s HS) as [_ Hh]. destruct (Hh j cl Hj) as [c' Ec]. exists c'. congruence.
  - destruct (disconnectProxies _ _ _ _ s1) as [n s2]. by destruct Hc as [?|[? ?]].
Qed.

Lemma bstep_kept cfg r r' : bstep r r' -> freach Hash ClientBanner cfg (rn_fleet r) -> orderly r ->
  freach Hash ClientBanner cfg (rn_fleet r') /\ orderly r'.
Proof.
  intros Hs HF HO. destruct HO as [O1 O2 O3 O4 O5].
  destruct Hs as [Hx Hr Hl|f Hx Hf Hn|Hx Hc Hs|Hx Hc|n Hx Hc|n Hx Hc|Hx Hr Hs|Hx Hr|Hx Hc].
  - split; [|by split]. eapply freach_step; [exact HF|]. apply F_accept.
  - split; [by eapply freach_step|]. pose proof (fstep_stopped _ _ Hf) as K. split; simpl; auto.
    intros Hl. destruct (O2 Hl); auto.
  - split; [done|]. split; simpl; auto.
  - split; [eapply freach_step; [exact HF|]; apply F_request; apply R_DisconnectAll|].
    split; simpl; auto. intros _. apply O1. by rewrite Hc.
  - split; [done|]. split; simpl; auto. intros _. apply O1. by rewrite Hc.
  - split; [done|]. split; simpl; auto. intros _. apply O1. by rewrite Hc.
  - split; [done|]. split; simpl; auto. intros Hk. destruct (O5 Hk). congruence.
  - split; [done|]. split; simpl; auto. intros Hk. destruct (O5 Hk). congruence.
  - split; [done|]. split; simpl; auto. intros _. split; [done|].
    eapply crashing_unhashed; [|exact Hc]. by apply freach_inv in HF as [HS _].
Qed.

Lemma bsteps_kept cfg r r' : bsteps r r' -> freach Hash ClientBanner cfg (rn_fleet r) -> orderly r ->
  freach Hash ClientBanner cfg (rn_fleet r') /\ orderly r'.
Proof.
  induction 1 as [|r r1 r2 Hs _ IH]; [done|]. intros HF HO. destruct (bstep_kept cfg r r1 Hs HF HO). by apply IH.
Qed.

Lemma breach_kept cfg r : breach cfg r -> freach Hash ClientBanner cfg (rn_fleet r) /\ orderly r.
Proof.
  intros (ctx & e & Hs). eapply bsteps_kept; [exact Hs| |by split].
  eapply freach_step; [apply freach_new|]. apply (F_request _ _ {| fl_server := _ |}). apply R_Init.
Qed.

(** Once the listener is closed nobody is accepted. *)
Lemma closed_stays r r' : bsteps r r' -> rn_listening r = false ->
  rn_listening r' = false /\ length (fl_conns (rn_fleet r')) = length (fl_conns (rn_fleet r)).
Proof.
  induction 1 as [|r r1 r2 Hs _ IH]; [done|]. intros Hl.
  assert (K : rn_listening r1 = false /\ length (fl_conns (rn_fleet r1)) = length (fl_conns (rn_fleet r))).
  { destruct Hs; simpl in *; by split_and!; rewrite ?Hl in *. }
  destruct K as [K1 K2]. destruct (IH K1) as [-> ->]. by split.
Qed.


(** A server that has a configuration without a hash is put down by the signal to reload it,
    at any time, with none of the deferred calls of [run] made. *)
Theorem hangup_crashes r c : rn_exited r = false -> sliceable (Hash c) = false ->
  exists r', bsteps r r' /\ rn_exited r' = true /\ rn_crashed r' = true /\ rn_returned r' = rn_returned r.
Proof.
  intros Hx Hc. eexists. split; [eapply bsteps_cons; [apply B_crash; [done|]|apply bsteps_refl]|done].
  exists 0%nat, (fun _ _ => {| now := fun _ => zeroTime; dial := fun _ => false |}), (Ok c). left.
  unfold reloadConfigFromFile, disconnectOutdatedProxies. by rewrite Hc.
Qed.

(** When the context ends, the goroutine of [boot] can close the listener, tell every
    registered proxy that the server shuts down and cancel it. *)
Theorem stop_tells r : rn_exited r = false -> rn_closer r = Watching -> fl_stopped (rn_fleet r) = true ->
  let s := fl_server (rn_fleet r) in
  0 < RateLimit (Config_GracefulShutdown (config s)) -> 1 <= BurstSize (Config_GracefulShutdown (config s)) ->
  exists r' n, bsteps r r' /\ rn_listening r' = false /\ rn_closer r' = Disconnecting n /\
    fl_conns (rn_fleet r') = fl_conns (rn_fleet r) /\
    forall id j c, activeProxies s !! id = Some j -> clients s !! j = Some c ->
      clients (fl_server (rn_fleet r')) !! j = Some (cancel (told ShutdownMsgServerShutdown c)).
Proof.
  intros Hx Hc Hs s Hr Hb. set (r1 := closing ListenerClosed false r).
  eexists _, (disconnectAllProxies s).1. split.
  - eapply bsteps_cons; [by apply B_close|]. eapply bsteps_cons; [|apply bsteps_refl]. by apply (B_disconnect r1).
  - split_and!; [done..|]. intros id j c Ha Hj. exact (shutdown_all s Hr Hb id j c Ha Hj).
Qed.

End Loop.

(** ** Processes, run *)

#[local] Existing Instance wholeFloats.
#[local] Existing Instance listLru.
#[local] Existing Instance simpleLimiter.
#[local] Existing Instance textExporters.
#[local] Existing Instance mapSdk.

(** A machine where everything works, but for a slow timer or not. *)
Definition sampleMachine (timely : bool) : Machine := {|
  m_getpid := 4711; m_write := fun _ => None; m_remove := fun _ => None; m_listenUnix := fun _ => None;
  m_chmod := fun _ => None; m_serve := None; m_timely := timely; m_cancels := true; m_listenTCP := fun _ => None;
  m_ctx := 7; m_checks := fun _ _ => sampleSurroundings true "" |}.

Definition pidOptions : CLI := {|
  CLI_Config := "config.json"; CLI_Port := 6672; CLI_APISocket := "/tmp/trabbits.sock"; CLI_PidFile := "/run/trabbits.pid";
  Manage_Config_Command := ""; Manage_Config_File := ""; Manage_Shutdown_ProxyID := ""; Manage_Shutdown_Reason := "";
  Manage_Info_ProxyID := ""; Manage_Probe_ProxyID := ""; Manage_Probe_Format := ""; Test_Pattern := ""; Test_Key := "" |}.

Definition processWith (files : gmap string string)
  : Process (any := field) (Provider := nat * option (gmap string string) * option string) := {|
  pr_files := files; pr_stores := {| made := []; shut := [] |}; pr_server := None; pr_api := None; pr_listening := false |}.

Definition loadFile : string -> result string Config := loadSample sampleFiles.

(** The files there are, and serving that shows them and leaves them alone, but for one that it
    makes itself. *)
Definition seen (fs : gmap string string) : list (option string) :=
  map (fun f => fs !! f) ["/run/trabbits.pid"; "/tmp/trabbits.sock"; "/etc/hosts"]%string.

Definition sampleBoot : stm (gmap string string * option (Server field)) string () := fun '(fs, s) =>
  (if bool_decide (seen fs = [Some "4711"; Some ""; Some "localhost"]%string) then Ok () else Err "not booted"%string,
   (<["/tmp/trabbits-config-1.json"%string := "{}"%string]> fs, s)).

Lemma run_leaves_witness : exists p',
  run sampleHash sampleOtel loadFile (sampleMachine true) sampleBoot pidOptions (processWith {["/etc/hosts"%string := "localhost"%string]})
    = (Ok (), p') /\ pr_listening p' = false /\ seen (pr_files p') = [None; None; Some "localhost"%string].
Proof.
  pose proof (run_leaves sampleHash sampleOtel loadFile (sampleMachine true) sampleBoot pidOptions
    (processWith {["/etc/hosts"%string := "localhost"%string]}) eq_refl) as L.
  assert (Er : (run sampleHash sampleOtel loadFile (sampleMachine true) sampleBoot pidOptions
    (processWith {["/etc/hosts"%string := "localhost"%string]})).1 = Ok ()) by (vm_compute; reflexivity).
  destruct (run sampleHash sampleOtel loadFile _ _ _ _) as [r p']. cbn [fst] in Er. subst r.
  exists p'. destruct L as (L1 & L2 & _ & L4). split; [done|]. split; [exact L1|].
  unfold seen. cbn [map]. rewrite !(L4 eq_refl) by (done || set_solver). rewrite L2; [done|done|done|].
  intros fs s. cbn [sampleBoot snd fst]. by rewrite lookup_insert_ne.
Defined.

Lemma second_instance_witness :
  let running := processWith {["/run/trabbits.pid" := "42"; "/tmp/trabbits.sock" := ""]}%string in
  (exists p', run sampleHash sampleOtel loadFile (sampleMachine true) sampleBoot pidOptions running
     = (Err "failed to start API server: socket already exists: /tmp/trabbits.sock"%string, p') /\
     pr_files p' !! "/run/trabbits.pid"%string = None) /\
  (pr_files (run sampleHash sampleOtel loadFile (sampleMachine false) sampleBoot pidOptions running).2
     !! "/tmp/trabbits.sock"%string = None).
Proof.
  intros running.
  assert (Hl : loadFile (CLI_Config pidOptions) = Ok loaded) by exact loaded_sample.
  assert (Hs : exists store, (NewStore sampleOtel [WithServiceVersion Version;
      WithAttributes (default [] (GetAttributes (Config_Metrics loaded)))] (pr_stores running)).1 = Ok store)
    by (eexists; vm_compute; reflexivity).
  destruct Hs as [store Hs]. split.
  - pose proof (second_instance sampleHash sampleOtel loadFile (sampleMachine true) sampleBoot pidOptions running
      loaded store Hl Hs) as L.
    destruct (run _ _ _ _ _ _ running) as [r p']. destruct L as (L1 & -> & _); [done..|vm_compute; by eexists|done|done|done|].
    exists p'. split; [reflexivity|exact L1].
  - pose proof (second_instance sampleHash sampleOtel loadFile (sampleMachine false) sampleBoot pidOptions running
      loaded store Hl Hs) as L.
    destruct (run _ _ _ _ _ _ running) as [r p']. destruct L as (_ & L); [done..|vm_compute; by eexists|done|done|done|]. exact L.
Defined.

(** A process that accepts a connection, is told to stop and closes its listener. *)
Definition stopped (f : Fleet nat) : Fleet nat := {|
  fl_server := fl_server f; fl_conns := fl_conns f; fl_stopped := true |}.

Definition sampleRunning : Running (any := nat) :=
  let r := booted sampleHash 7 (fun _ _ => sampleSurroundings true "") (sampleCfg 5) in
  let r := on_fleet (accepting (rn_fleet r)) r in
  closing ListenerClosed false (on_fleet (stopped (rn_fleet r)) r).


(** Two proxies, at the moment of the signal. *)
Definition signalled : Running (any := field) := {|
  rn_fleet := {| fl_server := callServer loaded; fl_conns := []; fl_stopped := true |};
  rn_listening := true; rn_closer := Watching; rn_returned := false; rn_exited := false; rn_crashed := false |}.

Lemma stop_tells_witness : exists r' n, bsteps sampleHash sampleBanner signalled r' /\ rn_closer r' = Disconnecting n /\
  (fun c => (shutdownMessage (cl_proxy c), cl_cancelled c)) <$> (clients (fl_server (rn_fleet r')) !! 0%nat)
  = Some (ShutdownMsgServerShutdown, true).
Proof.
  destruct (stop_tells sampleHash sampleBanner signalled) as (r' & n & Hs & _ & Hn & _ & T); [done..|vm_compute; done|vm_compute; done|].
  exists r', n. split; [exact Hs|]. split; [exact Hn|].
  destruct (clients (callServer loaded) !! 0%nat) as [c|] eqn:E; [|vm_compute in E; discriminate E].
  rewrite (T "p1"%string 0%nat c); [done|vm_compute; reflexivity|exact E].
Defined.

